(* ===== verification/_CoqProject ===== *)
-Q . S2P
Prelude.v
StateM.v
RingBuffer.v
DemuxTypes.v
Demux.v
DemuxSection.v
DemuxStream.v
DemuxFeed.v
DemuxFeedProofs.v
DemuxChains.v
DmxdevTypes.v
Dmxdev.v
DmxdevFilter.v
DmxdevRead.v
DmxdevSection.v
DmxdevFindings.v
DmxdevSafe.v
DmxdevOps.v
DmxdevSystem.v
DvbNet.v
DvbNetUle.v
DvbNetEncap.v
DvbNetIf.v
DvbNetDemo.v
MediaTypes.v
MediaEntity.v
MediaWalk.v
MediaPipeline.v
MediaLinks.v
MediaCreate.v
MediaSetup.v
MediaDevice.v
MediaEnum.v
MediaInv.v
MediaSystem.v
MediaDemo.v
RcTypes.v
RcKeymap.v
RcKeymapProofs.v
RcKeydown.v
IrRaw.v
IrDecode.v
IrNec.v
IrRc5.v
IrSony.v
IrJvc.v
IrRc6.v
IrRc5Sz.v
IrMceKbd.v
IrPipeline.v
IrFilter.v
Vb2Types.v
Vb2Core.v
Vb2FileIo.v
Vb2Inv.v
Vb2Spec.v
Vb2Shape.v
Vb2Refine.v
Vb2Ops.v
Vb2Props.v
Vb2Mmap.v
Vb2Findings.v
V4l2Types.v
V4l2CtrlTables.v
V4l2Event.v
V4l2EventSpec.v
V4l2Steps.v
V4l2Handles.v
V4l2EventSystem.v
V4l2EventDemo.v
V4l2CtrlNew.v
V4l2Ctrl.v
V4l2CtrlIoctl.v
V4l2CtrlValid.v
V4l2CtrlOk.v
V4l2CtrlAdd.v
V4l2CtrlMake.v
V4l2CtrlSet.v
V4l2CtrlAtomic.v
V4l2CtrlDemo.v
