(* ===== verification/Prelude.v ===== *)
(** Verification of the core of the Linux media drivers (V4L-DVB) in this tree.

    The tree is a snapshot of the media subsystem, with the drivers of TBS
    cards, to be built against older kernels.  Nearly all of it drives
    particular chips.  What all of these drivers share, and what decides
    whether a stream, a picture or a key press arrives intact, is a small
    amount of code that needs no hardware to be understood; this development
    models that code, function by function, and proves it correct where it is.

    * The parts

    - The DVB ring buffer, src/linux/drivers/media/dvb/dvb-core/dvb_ringbuffer.c
      and .h: RingBuffer.v.  Every function and macro, including the packet
      layer; [ring_refines_queue] is the contract of the header (one reader,
      one writer, no more written than is free) as a refinement of a queue.
    - The DVB demultiplexer, dvb_demux.c, dvb_demux.h, demux.h in the same
      directory.  DemuxTypes.v: data.  Demux.v: the software filter, from
      packets and chunks of bytes down to sections.  DemuxSection.v: sections
      are reassembled as an abstract assembler says, whatever the packets, and
      what a sender packs arrives ([packed]).
      DemuxStream.v: the result does not depend on how the stream is cut into
      chunks, no access leaves a buffer, a packet is recorded once.
      DemuxFeed.v, DemuxFeedProofs.v: allocation, configuration, start, stop and
      release of feeds and filters, the invariant of the lists that link them,
      and what a section filter set up this way lets through.  DemuxChains.v:
      the filters of all feeds together, as dmxdev needs them, and that every
      operation on feeds returns and keeps them in order.
    - The demux and DVR devices, dmxdev.c, dmxdev.h in the same directory and
      src/linux/include/linux/dvb/dmx.h.  DmxdevTypes.v: data.  Dmxdev.v: buffers,
      reads, the callbacks, filters and feeds of a device.  DmxdevFilter.v:
      starting and stopping, section reads, the file operations.  They call
      DemuxFeed.v and RingBuffer.v, and carry out the callbacks that Demux.v logs.
      DmxdevRead.v, DmxdevSection.v: what a reader gets.  DmxdevSafe.v: the
      invariant that ties filters to feeds of the demultiplexer; DmxdevOps.v: each
      operation keeps it; DmxdevSystem.v: all sequences of operations.  DmxdevFindings.v: runs on which the code goes wrong.
    - Network over DVB, dvb_net.c, dvb_net.h in the same directory.  DvbNet.v: the
      receivers, from a callback of the demultiplexer to netif_rx: ULE (RFC 4326)
      out of transport stream cells, datagrams out of sections.  DvbNetUle.v: the
      decoder stays inside its cells and buffers, whatever it is fed.
      DvbNetEncap.v: a sender after the RFC, and what it sends is received.
      DvbNetIf.v: interfaces, their feeds and filters in DemuxFeed.v, multicast;
      sections are let through and received.  DvbNetDemo.v: an interface with the
      CRC of the kernel, and what the code does wrong.
    - The media controller, src/linux/drivers/media/media-entity.c and
      media-device.c, src/linux/include/media/media-entity.h and media-device.h,
      src/linux/include/linux/media.h.  MediaTypes.v: data, with the arrays of
      links on a heap that krealloc moves.  MediaEntity.v: links, the graph walk,
      pipelines.  MediaDevice.v: registration and the ioctls.  MediaWalk.v,
      MediaPipeline.v: the walk is a bounded depth-first search, and what that
      means for pipelines.  MediaLinks.v, MediaCreate.v, MediaSetup.v: every link
      has its twin, and graphs that drivers build.  MediaInv.v, MediaSystem.v: all
      sequences of operations.  MediaEnum.v: what the ioctls tell the user.  MediaDemo.v: a
      device on which the theorems are applied, and what the code does wrong.
    - V4L2 events, file handles and controls, v4l2-event.c, v4l2-fh.c and
      v4l2-ctrls.c in src/linux/drivers/media/video, and
      src/linux/include/media/v4l2-event.h, v4l2-fh.h, v4l2-ctrls.h.
      V4l2Types.v: data, finding controls.  V4l2Event.v: the operations.
      V4l2EventSpec.v: the abstract queues, what a well-formed state shows of them;
      V4l2Steps.v, V4l2Handles.v: the rings, the linked list and the heap refine
      them; V4l2EventSystem.v: any operation on any handles does.
      V4l2EventDemo.v: changes of controls are never lost, a device, findings.
      V4l2CtrlTables.v: the names, menus and types of standard controls.
      V4l2CtrlNew.v: handlers, new controls, clusters and flags.  V4l2Ctrl.v:
      values, validation, trying and setting a cluster.  V4l2CtrlIoctl.v: queries,
      reading and setting one control or many.  V4l2CtrlValid.v: rounding and
      menus.  V4l2CtrlOk.v: the sorted list and the hash of a handler, searches,
      enumeration.  V4l2CtrlAdd.v, V4l2CtrlMake.v: adding controls keeps them in
      step.  V4l2CtrlSet.v, V4l2CtrlAtomic.v: events of controls reach all, a
      cluster is set as a whole or not at all.  V4l2CtrlDemo.v: devices with
      controls, findings.
    - Remote control, src/linux/drivers/media/rc.  RcTypes.v: data of rc-core.h,
      rc-core-priv.h and rc-map.h.  RcKeymap.v, RcKeymapProofs.v: the sorted
      scancode table of rc-main.c (resize, insert, update, binary search, the
      ioctls on it) refines a finite map.  RcKeydown.v: key presses, repeats and
      the timer that releases keys.  IrRaw.v: ir-raw.c, samples and their queue,
      the decoding thread, clients and handlers.  IrDecode.v: what the decoders
      have in common, and the vocabulary of the proofs.  IrNec.v, IrRc5.v,
      IrSony.v, IrJvc.v, IrRc6.v, IrRc5Sz.v, IrMceKbd.v: one decoder each,
      ir-*-decoder.c.  IrPipeline.v: the decoders as instances of one class, and
      the path from the receiver to the input device.  IrFilter.v: the storing
      of edges that merges runs and goes idle.
    - videobuf2, src/linux/drivers/media/video/videobuf2-core.c and
      src/linux/include/media/videobuf2-core.h.  Vb2Types.v: data.
      Vb2Core.v: buffer memory, the streaming ioctls, mmap and poll.
      Vb2FileIo.v: read and write on top of them.  Vb2Inv.v: accesses to the
      heap, and the parts that leave ownership alone.
      Vb2Spec.v: the abstract machine of buffer ownership.  Vb2Shape.v: the
      buffer array, its allocation and release.  Vb2Refine.v: every operation
      refines the machine.  Vb2Ops.v, Vb2Props.v: all sequences of operations,
      and the properties.  Vb2Mmap.v: offsets of planes.  Vb2Findings.v: runs on
      which the code breaks its own rules.
    - This file: machine integers, error codes, checked memory, lemmas on
      lists, and tactics.  StateM.v: the monad of programs that change a state
      and may fault, in which dmxdev, the media controller, V4L2 and videobuf2
      are written, and its weakest preconditions.

    The parts meet where the code does: the demultiplexer's callbacks are a log
    of calls in order, which dmxdev carries out on its ring buffers and the network
    interfaces receive ([net_callback]); the decoders
    are called by the thread of IrRaw.v with the device, and press keys through
    RcKeydown.v, which looks the scancode up in the table of RcKeymap.v.

    * How the code is modelled

    An unsigned C integer is a [Z] kept in range by [wrap] at every store that
    can leave it ([u8], [u16], [u32], [u64]; [s32] for a signed int whose
    arithmetic wraps); a function returns its negative error codes as the code
    does.  Arrays are lists, and every access is checked: [None] stands for
    what C leaves undefined, an index outside the array, a null or freed
    pointer, memory that was never written.  So "the result is [Some]" is
    memory safety, and it is proved, not assumed.  Structures are records with a
    setter per field; unions are separate fields where the code never reads
    one member after writing another.  Pointers to list entries are indices or
    addresses on an explicit heap, so that aliasing and use after free can be
    expressed: the feeds and filters of a demultiplexer are referred to by
    index, the buffers of videobuf2 live on a heap of their own and the lists
    of a queue hold their addresses.

    Callbacks into drivers, and the kernel's allocator and copying to and from
    user space, are parameters: [DemuxEnv], [DmxdevEnv], [NetEnv] (the CRC-32 and
    memory of the kernel), [NetIfEnv], [MediaEnv], [V4l2Env],
    [CtrlEnv] (the operations of drivers on controls, which see a cluster and may
    change its new values), [RcEnv] and [Vb2Env], type classes whose instances a witness chooses.  They
    may answer depending on every call made before.  The receivers of DvbNet.v say
    where they would leave defined behaviour ([crash]): in their cells, in the buffer
    of an SNDU, in what an SNDU contains, or without coming to an end.  What is assumed of them is
    in named classes and hypotheses ([Vb2EnvLaws]: a driver sets up at most as
    many buffers and planes as there is room for, fills the arrays it is given,
    and gives back only buffers it holds; [RcEnvLaws]; [DmxdevEnvLaws]: vmalloc
    gives as much memory as was asked for; [UserMemoryMapped], for theorems on what
    a reader gets: its memory can be written).  Locks leave no trace: each
    operation is one step, which is what the locks of the code achieve.  Where
    the code gives locks up to sleep, sleeping is an outcome and going on is an
    operation of its own.

    Loops have the fuel the code's own counters give: a loop over a list or a
    counted loop is structural, the dump loop of a section takes at most a turn
    per byte, the binary search a turn per entry plus one, the search for a
    sync byte a turn per byte of the chunk, a decoder's goto back to its head at
    most once per event because each pass consumes part of the duration, one turn of
    the graph walk is a turn per link of an entity on each of the 16 frames
    ([enough_fuel]), unsubscribing from all events a turn per subscription.  The
    theorems show that the fuel suffices, since running out is [None].  A chain of
    controls of one cluster gets a turn per control of the call; a turn of the ULE
    decoder takes at least two bytes, goes on to the next cell or gives up an SNDU
    ([turns]); adding a control
    may add its class first, which needs no other: two levels ([new_ref_at]).

    * What the theorems show

    Each theorem says in its comment under which conditions it holds: what callers and
    drivers must keep to, and the inputs on which the code is wrong, which a theorem
    of the last group below or a comment names.  Among these are sections of fewer than 18
    bytes, VIDIOC_REQBUFS while buffers wait for streaming ([legal]), filters released
    while their feed is filtering ([op_ok]), the ULE pointer field 184 and SNDUs with
    extension headers ([pointers_ok], [sndu_ok]), links of an entity to itself
    ([media_pre]), events that wait when their subscription ends ([event_op_ok]), filter
    memory of dmxdev that is not zero ([zeroed]), an MCE decoder without its input device.

    - Refinement of an abstract machine: [ring_refines_queue],
      [section_packet_refines], [keycode_lookup_refines_map],
      [setkeycode_refines_map], [keydown_refines_press],
      [operations_refine_ownership], [device_buffer_refines_stream],
      [sections_read_one_at_a_time], [events_refine_queues].
    - Safety and invariants over all sequences of operations:
      [operations_never_fault], [lists_agree_with_buffers],
      [buffers_well_formed], [queued_count_bounded], [swfilter_total],
      [packet_to_dvr_once], [feed_ops_keep_wf], [one_key_at_a_time],
      [filter_alternates], [section_devices_never_fault],
      [media_device_is_safe], [create_link_makes_twins],
      [control_changes_never_lost], [making_controls_keeps_handlers],
      [ule_framing_safe].
    - Functional behaviour, up to the output: [section_stream_delivered], [section_unit_delivered],
      [section_filter_semantics], [dequeued_in_order_of_completion],
      [streamoff_returns_all_buffers], [frame_reaches_input],
      [setkeytable_loads], [enumeration_is_complete], [walk_reaches],
      [pipeline_start_marks_tree], [controls_are_enumerated], [mac_filter_selects],
      [validate_rounds_to_nearest], the packet layer of the ring buffer.
    - Equivalences and round trips: [swfilter_chunking], [filter_is_runs], the
      round trips of the infrared codes (the signal of a scancode, with any
      durations inside the decoder's margins, presses exactly that scancode),
      [ule_roundtrip], [mpe_roundtrip], [mmap_offset_roundtrip], [sections_roundtrip], [graph_walk_is_depth_first],
      [pipeline_start_stop_cancel], [menu_items_agree], [set_then_get].
    - Bounds and errors: [enum_links_fits], [setup_link_both_or_neither],
      [set_is_all_or_nothing].
    - Termination and progress: [thread_drains], [key_times_out],
      [dqbuf_delivers_completed].
    - Errors in the code, each shown by a run of the model:
      [reqbufs_frees_queued_buffers] and the other theorems of Vb2Findings.v,
      [pkt_next_misses_packet], [adaptation_only_redelivers],
      [resync_redelivers_bytes], [wildcard_ignores_filtering],
      [release_filter_filtering_hangs], [release_clears_foreign_decoder],
      [repeated_scancode_fails_to_load], [mce_key_sticks], [mce_without_input_faults], the theorems of
      DmxdevFindings.v, [self_link_faults] and others of MediaDemo.v,
      [unsubscribe_leaves_events] and others of V4l2EventDemo.v,
      [duplicate_control_dangles] and others of V4l2CtrlDemo.v,
      [bridged_frame_hangs] and others of DvbNetDemo.v.

    * Not modelled

    - Drivers of chips and bridges (frontends, tuners, capture cards, webcams,
      radios, the TBS saa716x cards): their behaviour is that of the hardware
      behind their registers.
    - Registration with the kernel, character devices, sysfs, module loading,
      tracing and debug output; scheduling of threads and interrupts, other
      than as the order of steps.
    - The queue of raw samples ([kfifo]) is modelled with whole samples: a
      byte queue too short for one takes none of it.
    - videobuf2: private pointers of drivers, wait queues and locks; the
      allocators of videobuf2-memops.c and its companions.
    - The media controller: reference counts of modules, the description of the
      device, the character device.  V4L2: priorities of file handles.
    - v4l2-ctrls.c: printing the state of controls to the log.
    - Other parts of the DVB core: dvb_ca_en50221.c, whose steps are accesses to
      the memory and registers of a slot and waits of its thread, and
      dvb_frontend.c, a thread that tunes by timing and by the status and algorithms
      of the driver.  dvb_net.c: names of interfaces, the character device,
      dvb_net_tx, which frees what it is given. *)

From stdpp Require Export base list option numbers gmap fin_maps.
From Stdlib Require Export ZArith Lia.

#[global] Open Scope Z_scope.

(** ** Machine integers

    A w-bit unsigned integer is a [Z] in [0, 2^w); [wrap w] is the reduction
    C performs when a value is stored in such a variable. *)

Definition wrap (w z : Z) : Z := z mod 2 ^ w.
Abbreviation u8 := (wrap 8).
Abbreviation u16 := (wrap 16).
Abbreviation u32 := (wrap 32).
Abbreviation u64 := (wrap 64).

(** Conversion to a 32-bit two's complement [int]. *)
Definition s32 (z : Z) : Z := wrap 32 (z + 2 ^ 31) - 2 ^ 31.

Lemma wrap_range w z : 0 <= w -> 0 <= wrap w z < 2 ^ w.
Proof. intros. unfold wrap. apply Z.mod_pos_bound. apply Z.pow_pos_nonneg; lia. Qed.

Lemma wrap_small w z : 0 <= z < 2 ^ w -> wrap w z = z.
Proof. apply Z.mod_small. Qed.

Lemma wrap_idemp w z : 0 <= w -> wrap w (wrap w z) = wrap w z.
Proof. intros. apply wrap_small, wrap_range. done. Qed.

Lemma s32_small z : - 2 ^ 31 <= z < 2 ^ 31 -> s32 z = z.
Proof. intros. unfold s32. rewrite wrap_small; lia. Qed.

Lemma testbit_wrap w z i :
  0 <= w -> Z.testbit (wrap w z) i = bool_decide (i < w) && Z.testbit z i.
Proof.
  intros Hw. unfold wrap. case_bool_decide.
  - destruct (decide (0 <= i)).
    + rewrite Z.mod_pow2_bits_low by lia. done.
    + rewrite !Z.testbit_neg_r by lia. done.
  - rewrite Z.mod_pow2_bits_high by lia. done.
Qed.

(** Bits of a value at or above its width are zero. *)
Lemma testbit_above w z i : 0 <= z < 2 ^ w -> 0 <= w <= i -> Z.testbit z i = false.
Proof.
  intros Hz Hi. rewrite <- (Z.mod_small z (2 ^ w)) by done.
  apply Z.mod_pow2_bits_high. lia.
Qed.

Lemma land_bound a b w : 0 <= w -> 0 <= b < 2 ^ w -> 0 <= Z.land a b < 2 ^ w.
Proof.
  intros Hw Hb.
  assert (Z.land a b = Z.land a b mod 2 ^ w) as ->.
  { apply Z.bits_inj'. intros i Hi. destruct (decide (i < w)).
    - by rewrite Z.mod_pow2_bits_low by lia.
    - rewrite Z.mod_pow2_bits_high, Z.land_spec, (testbit_above w b) by lia.
      apply andb_false_r. }
  apply Z.mod_pos_bound, Z.pow_pos_nonneg; lia.
Qed.

(** A mask of [n] low bits is a remainder. *)
Lemma land_mask z n m : 0 <= n -> m = 2 ^ n - 1 -> Z.land z m = z mod 2 ^ n.
Proof. intros Hn ->. rewrite <- Z.land_ones, Z.ones_equiv by done. done. Qed.

(** Remainders of a value at most one modulus away from its range. *)
Lemma mod_neg_once z m : - m <= z < 0 -> z mod m = z + m.
Proof.
  intros. rewrite <- (Z.mod_small (z + m) m) by lia.
  rewrite <- (Z_mod_plus_full z 1 m). f_equal. lia.
Qed.

Lemma mod_over_once z m : m <= z < 2 * m -> z mod m = z - m.
Proof.
  intros. rewrite <- (Z.mod_small (z - m) m) by lia.
  rewrite <- (Z_mod_plus_full (z - m) 1 m). f_equal. lia.
Qed.

(** Circular positions of two offsets in one turn differ when they do. *)
Lemma mod_shift_inj a i j m :
  0 <= i < m -> 0 <= j < m -> (a + i) mod m = (a + j) mod m -> i = j.
Proof.
  intros Hi Hj H. pose proof (Z.mod_pos_bound (a + i) m).
  rewrite <- (Zplus_mod_idemp_l a i), <- (Zplus_mod_idemp_l a j) in H.
  pose proof (Z.mod_pos_bound a m). set (r := a mod m) in *.
  destruct (decide (r + i < m)), (decide (r + j < m));
    rewrite ?(Z.mod_small (r + i)), ?(Z.mod_small (r + j)),
      ?(mod_over_once (r + i)), ?(mod_over_once (r + j)) in H by lia; lia.
Qed.

(** ** Error codes

    Functions return [- E...] on failure as the code does. *)

Definition EINTR : Z := 4.
Definition EIO : Z := 5.
Definition EAGAIN : Z := 11.
Definition ENOMEM : Z := 12.
Definition EFAULT : Z := 14.
Definition EBUSY : Z := 16.
Definition ENODEV : Z := 19.
Definition EINVAL : Z := 22.
Definition EMFILE : Z := 24.
Definition EOVERFLOW : Z := 75.
Definition EUSERS : Z := 87.
Definition EOPNOTSUPP : Z := 95.
Definition ETIMEDOUT : Z := 110.
Definition ERESTARTSYS : Z := 512.

(** ** Memory

    A C array is a list.  Every access is checked: [None] stands for
    undefined behaviour (an access outside the object, a read of memory that
    was never written, a null dereference), so that "the result is [Some]"
    is memory safety. *)

Definition zlen {A} (l : list A) : Z := Z.of_nat (length l).

Definition mget {A} (d : list A) (i : Z) : option A :=
  if bool_decide (0 <= i) then d !! Z.to_nat i else None.

Definition mset {A} (d : list A) (i : Z) (v : A) : option (list A) :=
  if bool_decide (0 <= i < zlen d) then Some (<[Z.to_nat i := v]> d) else None.

Definition slice {A} (d : list A) (off n : Z) : list A :=
  take (Z.to_nat n) (drop (Z.to_nat off) d).

Definition blit {A} (d : list A) (off : Z) (s : list A) : list A :=
  take (Z.to_nat off) d ++ s ++ drop (Z.to_nat off + length s) d.

(** [memcpy] out of, and into, an array. *)
Definition mread {A} (d : list A) (off n : Z) : option (list A) :=
  if bool_decide (0 <= off /\ 0 <= n /\ off + n <= zlen d)
  then Some (slice d off n) else None.

Definition mwrite {A} (d : list A) (off : Z) (s : list A) : option (list A) :=
  if bool_decide (0 <= off /\ off + zlen s <= zlen d)
  then Some (blit d off s) else None.

Declare Scope cmem_scope.
Delimit Scope cmem_scope with cmem.
Notation "d .[ i ]" := (mget d i) (at level 1, i at level 200, format "d .[ i ]") : cmem_scope.
#[global] Open Scope cmem_scope.

(** The C condition [if (x)]. *)
Abbreviation truthy z := (negb (Z.eqb z 0)).

(** ** Lemmas on memory *)

Create HintDb cmem.
Create Rewrite HintDb zlen.
Create Rewrite HintDb cmem_rw.

Lemma zlen_nonneg {A} (l : list A) : 0 <= zlen l.
Proof. unfold zlen. lia. Qed.
#[export] Hint Resolve zlen_nonneg : cmem.

Lemma zlen_app {A} (l k : list A) : zlen (l ++ k) = zlen l + zlen k.
Proof. unfold zlen. rewrite length_app. lia. Qed.

Lemma zlen_cons {A} (x : A) l : zlen (x :: l) = 1 + zlen l.
Proof. unfold zlen. rewrite length_cons. lia. Qed.

Lemma zlen_nil {A} : zlen (@nil A) = 0.
Proof. done. Qed.

Lemma zlen_singleton {A} (x : A) : zlen [x] = 1.
Proof. done. Qed.

Lemma zlen_replicate {A} n (x : A) : zlen (replicate n x) = Z.of_nat n.
Proof. unfold zlen. by rewrite length_replicate. Qed.

Lemma zlen_insert {A} (l : list A) i x : zlen (<[i:=x]> l) = zlen l.
Proof. unfold zlen. by rewrite length_insert. Qed.

Lemma zlen_fmap {A B} (f : A -> B) l : zlen (f <$> l) = zlen l.
Proof. unfold zlen. by rewrite length_fmap. Qed.

Lemma zlen_slice {A} (d : list A) off n :
  0 <= off -> 0 <= n -> off + n <= zlen d -> zlen (slice d off n) = n.
Proof. unfold zlen, slice. intros. rewrite length_take, length_drop. lia. Qed.

Lemma zlen_blit {A} (d : list A) off s :
  0 <= off -> off + zlen s <= zlen d -> zlen (blit d off s) = zlen d.
Proof.
  unfold zlen, blit. intros. rewrite !length_app, length_take, length_drop. lia.
Qed.
#[export] Hint Rewrite @zlen_app @zlen_cons @zlen_nil @zlen_replicate @zlen_insert
  @zlen_fmap : zlen.
#[export] Hint Rewrite @zlen_slice @zlen_blit using lia : zlen.

Lemma mget_Some {A} (d : list A) i x :
  mget d i = Some x <-> 0 <= i /\ d !! Z.to_nat i = Some x.
Proof. unfold mget. case_bool_decide; naive_solver. Qed.

Lemma mget_is_Some {A} (d : list A) i : is_Some (mget d i) <-> 0 <= i < zlen d.
Proof.
  unfold mget, zlen. case_bool_decide.
  - rewrite lookup_lt_is_Some. lia.
  - split; [by intros [] | lia].
Qed.

Lemma mget_lt {A} (d : list A) i x : mget d i = Some x -> 0 <= i < zlen d.
Proof. intros H. apply mget_is_Some. eauto. Qed.

Lemma mget_nth {A} `{Inhabited A} (d : list A) i :
  0 <= i < zlen d -> mget d i = Some (d !!! Z.to_nat i).
Proof.
  intros Hi. destruct (proj2 (mget_is_Some d i) Hi) as [x Hx].
  rewrite Hx. apply mget_Some in Hx as [_ Hx]. f_equal. symmetry.
  by apply list_lookup_total_correct.
Qed.

(** Two arrays with the same length and the same bytes are the same array. *)
Lemma mget_ext {A} (d e : list A) :
  zlen d = zlen e -> (forall i, 0 <= i < zlen d -> mget d i = mget e i) -> d = e.
Proof.
  unfold zlen. intros Hl H. apply list_eq_same_length with (length d); [lia|done|].
  intros i x y Hi Hx Hy. specialize (H (Z.of_nat i)).
  unfold mget in H. rewrite bool_decide_true in H by lia.
  rewrite Nat2Z.id, Hx, Hy in H. specialize (H ltac:(lia)). by simplify_eq.
Qed.

Lemma mget_slice {A} (d : list A) off n i :
  0 <= off -> 0 <= i < n -> mget (slice d off n) i = mget d (off + i).
Proof.
  intros Ho Hi. unfold mget, slice. rewrite !bool_decide_true by lia.
  rewrite lookup_take_lt, lookup_drop by lia. f_equal. lia.
Qed.

Lemma mget_app_l {A} (l k : list A) i : i < zlen l -> mget (l ++ k) i = mget l i.
Proof.
  unfold mget, zlen. intros. case_bool_decide; [|done]. apply lookup_app_l. lia.
Qed.

Lemma mget_app_r {A} (l k : list A) i :
  zlen l <= i -> mget (l ++ k) i = mget k (i - zlen l).
Proof.
  unfold mget, zlen. intros. rewrite !bool_decide_true by lia.
  rewrite lookup_app_r by lia. f_equal. lia.
Qed.

Lemma mget_blit {A} (d s : list A) off i :
  0 <= off -> off + zlen s <= zlen d ->
  mget (blit d off s) i =
    if bool_decide (off <= i < off + zlen s) then mget s (i - off) else mget d i.
Proof.
  unfold zlen, mget, blit. intros Ho Hs.
  destruct (decide (0 <= i)).
  2: { by rewrite !bool_decide_false by lia. }
  rewrite bool_decide_true by lia. case_bool_decide as Hi.
  - rewrite bool_decide_true by lia.
    rewrite lookup_app_r by (rewrite length_take; lia).
    rewrite lookup_app_l by (rewrite length_take; lia).
    f_equal. rewrite length_take. lia.
  - destruct (decide (i < off)).
    + rewrite lookup_app_l by (rewrite length_take; lia). apply lookup_take_lt. lia.
    + rewrite lookup_app_r by (rewrite length_take; lia).
      rewrite lookup_app_r by (rewrite length_take; lia).
      rewrite lookup_drop. f_equal. rewrite length_take. lia.
Qed.

Lemma mset_blit {A} (d : list A) i v :
  mset d i v = mwrite d i [v].
Proof.
  unfold mset, mwrite. change (zlen [v]) with 1.
  destruct (decide (0 <= i < zlen d)) as [Hi|Hi].
  - rewrite !bool_decide_true by lia. f_equal.
    unfold blit. cbn. rewrite Nat.add_1_r.
    unfold zlen in Hi. apply insert_take_drop. lia.
  - by rewrite !bool_decide_false by lia.
Qed.

Lemma mread_Some {A} (d : list A) off n :
  0 <= off -> 0 <= n -> off + n <= zlen d -> mread d off n = Some (slice d off n).
Proof. intros. unfold mread. by rewrite bool_decide_true by lia. Qed.

Lemma mwrite_Some {A} (d : list A) off s :
  0 <= off -> off + zlen s <= zlen d -> mwrite d off s = Some (blit d off s).
Proof. intros. unfold mwrite. by rewrite bool_decide_true by lia. Qed.

Lemma mread_inv {A} (d : list A) off n s :
  mread d off n = Some s -> 0 <= off /\ 0 <= n /\ off + n <= zlen d /\ s = slice d off n.
Proof. unfold mread. case_bool_decide; naive_solver. Qed.

Lemma mwrite_inv {A} (d : list A) off s e :
  mwrite d off s = Some e -> 0 <= off /\ off + zlen s <= zlen d /\ e = blit d off s.
Proof. unfold mwrite. case_bool_decide; naive_solver. Qed.
#[export] Hint Rewrite @mread_Some @mwrite_Some using lia : cmem_rw.

Lemma slice_full {A} (d : list A) : slice d 0 (zlen d) = d.
Proof. unfold slice, zlen. rewrite Nat2Z.id. cbn. by rewrite drop_0, firstn_all. Qed.

Lemma slice_0 {A} (d : list A) off : slice d off 0 = [].
Proof. done. Qed.

Lemma slice_app {A} (d : list A) off n m :
  0 <= off -> 0 <= n -> 0 <= m ->
  slice d off (n + m) = slice d off n ++ slice d (off + n) m.
Proof.
  intros. unfold slice.
  rewrite Z2Nat.inj_add by lia. rewrite <- take_take_drop. f_equal.
  rewrite drop_drop. f_equal. f_equal. lia.
Qed.

Lemma slice_app_l {A} (d e : list A) off n :
  0 <= off -> 0 <= n -> off + n <= zlen d -> slice (d ++ e) off n = slice d off n.
Proof.
  unfold slice, zlen. intros. rewrite drop_app_le by lia.
  rewrite take_app_le; [done|]. rewrite length_drop. lia.
Qed.

Lemma slice_drop {A} (d : list A) o off n :
  0 <= o -> 0 <= off -> slice (drop (Z.to_nat o) d) off n = slice d (o + off) n.
Proof. intros. unfold slice. rewrite drop_drop. f_equal. f_equal. lia. Qed.

Lemma mget_drop {A} (d : list A) o i :
  0 <= o -> 0 <= i -> (drop (Z.to_nat o) d).[i] = d.[o + i].
Proof.
  intros. unfold mget. rewrite !bool_decide_true by lia. rewrite lookup_drop. f_equal. lia.
Qed.

Lemma zlen_drop {A} (d : list A) o : 0 <= o <= zlen d -> zlen (drop (Z.to_nat o) d) = zlen d - o.
Proof. unfold zlen. rewrite length_drop. lia. Qed.

Lemma slice_app_mid {A} (a b c : list A) : slice (a ++ b ++ c) (zlen a) (zlen b) = b.
Proof.
  unfold slice, zlen. rewrite !Nat2Z.id, drop_app_length, take_app_length. done.
Qed.

Lemma slice_slice {A} (d : list A) o n off m :
  0 <= o -> 0 <= off -> 0 <= m -> off + m <= n ->
  slice (slice d o n) off m = slice d (o + off) m.
Proof.
  intros. unfold slice. rewrite skipn_firstn_comm, drop_drop, take_take.
  f_equal; [lia|]. f_equal. lia.
Qed.

Lemma drop_slice {A} (d : list A) o n m :
  0 <= o -> 0 <= m <= n -> drop (Z.to_nat m) (slice d o n) = slice d (o + m) (n - m).
Proof.
  intros. unfold slice. rewrite skipn_firstn_comm, drop_drop. f_equal; [lia|]. f_equal. lia.
Qed.

Lemma Forall_slice {A} (P : A -> Prop) (d : list A) off n :
  Forall P d -> Forall P (slice d off n).
Proof. intros. by apply Forall_take, Forall_drop. Qed.

Lemma Forall_blit {A} (P : A -> Prop) (d s : list A) off :
  Forall P d -> Forall P s -> Forall P (blit d off s).
Proof.
  intros. unfold blit. rewrite !Forall_app. split_and!; auto using Forall_take, Forall_drop.
Qed.

(** A store leaves what lies outside it alone. *)
Lemma slice_blit_before {A} (d s : list A) off a n :
  0 <= a -> 0 <= n -> a + n <= off -> off + zlen s <= zlen d ->
  slice (blit d off s) a n = slice d a n.
Proof.
  intros. pose proof (zlen_nonneg s).
  apply mget_ext; [by rewrite !zlen_slice by (rewrite ?zlen_blit by lia; lia)|].
  intros i. rewrite zlen_slice by (rewrite ?zlen_blit by lia; lia). intros Hi.
  rewrite !mget_slice, mget_blit by lia. by rewrite bool_decide_false by lia.
Qed.

Lemma slice_blit_same {A} (d s : list A) off :
  0 <= off -> off + zlen s <= zlen d -> slice (blit d off s) off (zlen s) = s.
Proof.
  intros. pose proof (zlen_nonneg s).
  apply mget_ext; [by rewrite zlen_slice by (rewrite ?zlen_blit by lia; lia)|].
  intros i. rewrite zlen_slice by (rewrite ?zlen_blit by lia; lia). intros Hi.
  rewrite mget_slice, mget_blit by lia. rewrite bool_decide_true by lia. f_equal. lia.
Qed.

Lemma blit_prefix {A} (base s : list A) n :
  0 <= n -> n + zlen s <= zlen base ->
  slice (blit base n s) 0 (n + zlen s) = slice base 0 n ++ s.
Proof.
  intros Hn Hs. pose proof (zlen_nonneg s). rewrite slice_app by lia.
  rewrite slice_blit_before, Z.add_0_l, slice_blit_same by lia. done.
Qed.

Lemma forallb_ext_in {A} (f g : A -> bool) l :
  (forall x, x ∈ l -> f x = g x) -> forallb f l = forallb g l.
Proof.
  induction l as [|x l IH]; intros H; [done|]. cbn. rewrite H by set_solver.
  f_equal. apply IH. set_solver.
Qed.

Lemma existsb_ext_in {A} (f g : A -> bool) l :
  (forall x, x ∈ l -> f x = g x) -> existsb f l = existsb g l.
Proof.
  induction l as [|x l IH]; intros H; [done|]. cbn. rewrite H by set_solver.
  f_equal. apply IH. set_solver.
Qed.

(** ** Tactics *)

(** Rewrite away checked memory operations whose side conditions are linear. *)
Ltac cmem_simpl :=
  repeat (autorewrite with cmem_rw zlen; cbn [mbind option_bind]).

(** Linear goals about lengths of slices, stores and appends. *)
Ltac zlia :=
  repeat first
    [ rewrite zlen_app | rewrite zlen_cons | rewrite zlen_nil
    | rewrite zlen_slice by zlia | rewrite zlen_blit by zlia ];
  lia.

(** Split a boolean test of the code into its two outcomes, with the
    arithmetic fact of each in the context. *)
Ltac ztest :=
  match goal with
  | |- context [Z.eqb ?a ?b] => destruct (Z.eqb_spec a b)
  | |- context [Z.ltb ?a ?b] => destruct (Z.ltb_spec a b)
  | |- context [Z.leb ?a ?b] => destruct (Z.leb_spec a b)
  | |- context [Z.gtb ?a ?b] => rewrite (Z.gtb_ltb a b); destruct (Z.ltb_spec b a)
  | |- context [Z.geb ?a ?b] => rewrite (Z.geb_leb a b); destruct (Z.leb_spec b a)
  end.

(** Take apart an equation [bind ... = Some ...] of the code. *)
Ltac binv :=
  repeat match goal with
  | H : mbind _ _ = Some _ |- _ => apply bind_Some in H as (? & ? & H)
  | H : match ?o with _ => _ end = Some _ |- _ => destruct o eqn:?
  | H : Some _ = Some _ |- _ => injection H as ?; subst
  | H : None = Some _ |- _ => discriminate H
  end.
