(* ===== verification/StateM.v ===== *)
(** Programs that change a state and may fault, for the components written
    in monadic style (dmxdev and videobuf2): the monad, and a small calculus of
    weakest preconditions.  [wp m s Q] says that [m], run on [s], does not fault
    and ends with [Q]. *)

From S2P Require Import Prelude.

Definition stateM (S A : Type) : Type := S -> option (A * S).

Definition mdo {S A} (a : A) : stateM S A := fun s => Some (a, s).
Definition mthen {S A B} (m : stateM S A) (f : A -> stateM S B) : stateM S B :=
  fun s => match m s with Some (a, s') => f a s' | None => None end.
Definition fault {S A} : stateM S A := fun _ => None.
Definition gets {S A} (f : S -> A) : stateM S A := fun s => Some (f s, s).
Definition modify {S} (f : S -> S) : stateM S unit := fun s => Some (tt, f s).
Definition the {S A} (o : option A) : stateM S A :=
  match o with Some a => mdo a | None => fault end.

Declare Scope state_scope.
Delimit Scope state_scope with state.
Notation "x <- m ;; k" := (mthen m (fun x => k))
  (at level 100, m at next level, right associativity) : state_scope.
Notation "m ;; k" := (mthen m (fun _ => k))
  (at level 100, right associativity) : state_scope.

(** [for (i = ...; ...; ++i) body] without early exit. *)
Fixpoint mfor {S A} (l : list A) (body : A -> stateM S unit) : stateM S unit :=
  match l with
  | [] => mdo tt
  | i :: l => mthen (body i) (fun _ => mfor l body)
  end.

(** ** Weakest preconditions *)

Section wp.
Context {S : Type}.

Definition wp {A} (m : stateM S A) (s : S) (Q : A -> S -> Prop) : Prop :=
  match m s with Some (a, s') => Q a s' | None => False end.

Lemma wp_run {A} (m : stateM S A) s Q :
  wp m s Q -> exists a s', m s = Some (a, s') /\ Q a s'.
Proof. unfold wp. destruct (m s) as [[a s']|]; [eauto|done]. Qed.

Lemma wp_mono {A} (m : stateM S A) s (P Q : A -> S -> Prop) :
  wp m s P -> (forall a s', P a s' -> Q a s') -> wp m s Q.
Proof. unfold wp. destruct (m s) as [[a s']|]; auto. Qed.

Lemma wp_mthen {A B} (m : stateM S A) (f : A -> stateM S B) s Q :
  wp m s (fun a s' => wp (f a) s' Q) -> wp (mthen m f) s Q.
Proof. unfold wp, mthen. by destruct (m s) as [[a s']|]. Qed.

Lemma wp_seq {A B} (m : stateM S A) (f : A -> stateM S B) s P Q :
  wp m s P -> (forall a s', P a s' -> wp (f a) s' Q) -> wp (mthen m f) s Q.
Proof. intros Hm Hf. apply wp_mthen. by eapply wp_mono. Qed.

Lemma wp_mdo {A} (a : A) s (Q : A -> S -> Prop) : Q a s -> wp (mdo a) s Q.
Proof. done. Qed.

(** A program is itself followed by nothing. *)
Lemma wp_ret {A} (m : stateM S A) s Q : wp (mthen m mdo) s Q -> wp m s Q.
Proof. unfold wp, mthen. by destruct (m s) as [[a s']|]. Qed.

Lemma wp_gets {A B} (f : S -> A) (k : A -> stateM S B) s Q :
  wp (k (f s)) s Q -> wp (mthen (gets f) k) s Q.
Proof. done. Qed.

Lemma wp_modify {B} f (k : unit -> stateM S B) s Q :
  wp (k tt) (f s) Q -> wp (mthen (modify f) k) s Q.
Proof. done. Qed.

Lemma wp_the {A B} (o : option A) a (k : A -> stateM S B) s Q :
  o = Some a -> wp (k a) s Q -> wp (mthen (the o) k) s Q.
Proof. by intros ->. Qed.

(** Loops keep what their bodies keep. *)
Lemma wp_mfor {A} (l : list A) (body : A -> stateM S unit) (I : S -> Prop) s :
  I s -> (forall x s, x ∈ l -> I s -> wp (body x) s (fun _ s' => I s')) ->
  wp (mfor l body) s (fun _ s' => I s').
Proof.
  revert s. induction l as [|x l IH]; intros s Hi Hb; [done|]. cbn [mfor].
  eapply wp_seq; [apply Hb; [set_solver|done]|]. intros [] s' Hi'. apply IH; [done|].
  intros y s1 Hy. apply Hb. set_solver.
Qed.
End wp.
