(* ===== verification/RingBuffer.v ===== *)
(** The DVB ring buffer, drivers/media/dvb/dvb-core/dvb_ringbuffer.{c,h}.

    [dvb_ringbuffer] is the struct; each operation of the C file is a
    definition with its name.  The wait queue and the spinlock of the struct
    have no state here: an operation is what runs under the lock.  The
    abstract view of a buffer is [contents], the bytes waiting in it in the
    order they were written, and, for the packet operations, a list of
    packets ([pkt]) whose encodings are those bytes. *)

From S2P Require Import Prelude.

(** A byte read through [u8 *data]. *)
Definition is_byte (b : Z) : Prop := 0 <= b < 256.

Record dvb_ringbuffer := mk_rb {
  rb_data : option (list Z);   (* NULL or the memory of [rb_size] bytes *)
  rb_size : Z;                 (* ssize_t *)
  rb_pread : Z;                (* ssize_t *)
  rb_pwrite : Z;               (* ssize_t *)
  rb_error : Z;                (* int *)
}.

Definition set_data (rb : dvb_ringbuffer) d : dvb_ringbuffer :=
  mk_rb d (rb_size rb) (rb_pread rb) (rb_pwrite rb) (rb_error rb).
Definition set_pread (rb : dvb_ringbuffer) p : dvb_ringbuffer :=
  mk_rb (rb_data rb) (rb_size rb) p (rb_pwrite rb) (rb_error rb).
Definition set_pwrite (rb : dvb_ringbuffer) p : dvb_ringbuffer :=
  mk_rb (rb_data rb) (rb_size rb) (rb_pread rb) p (rb_error rb).
Definition set_error (rb : dvb_ringbuffer) e : dvb_ringbuffer :=
  mk_rb (rb_data rb) (rb_size rb) (rb_pread rb) (rb_pwrite rb) e.

Definition PKT_READY : Z := 0.
Definition PKT_DISPOSED : Z := 1.
Definition DVB_RINGBUFFER_PKTHDRSIZE : Z := 3.

Definition dvb_ringbuffer_init (mem : option (list Z)) (len : Z) : dvb_ringbuffer :=
  mk_rb mem len 0 0 0.

Definition dvb_ringbuffer_empty (rb : dvb_ringbuffer) : bool :=
  rb_pread rb =? rb_pwrite rb.

Definition dvb_ringbuffer_free (rb : dvb_ringbuffer) : Z :=
  let free := rb_pread rb - rb_pwrite rb in
  let free := if free <=? 0 then free + rb_size rb else free in
  free - 1.

Definition dvb_ringbuffer_avail (rb : dvb_ringbuffer) : Z :=
  let avail := rb_pwrite rb - rb_pread rb in
  if avail <? 0 then avail + rb_size rb else avail.

Definition dvb_ringbuffer_flush (rb : dvb_ringbuffer) : dvb_ringbuffer :=
  set_error (set_pread rb (rb_pwrite rb)) 0.

Definition dvb_ringbuffer_reset (rb : dvb_ringbuffer) : dvb_ringbuffer :=
  set_error (set_pread (set_pwrite rb 0) 0) 0.

(** Also returns that the sleepers on the queue are woken. *)
Definition dvb_ringbuffer_flush_spinlock_wakeup (rb : dvb_ringbuffer)
  : dvb_ringbuffer * bool := (dvb_ringbuffer_flush rb, true).

(** [a % b] on [size_t] operands; division by zero is undefined. *)
Definition umod (a b : Z) : option Z :=
  if u64 b =? 0 then None else Some (u64 a mod u64 b).

(** [split] of the transfer routines: the bytes up to the end of the memory
    when the transfer wraps, 0 otherwise (size_t arithmetic). *)
Definition ring_split (pos len size : Z) : Z :=
  if u64 (pos + len) >? u64 size then u64 (size - pos) else 0.

Section user.
(** [copy_to_user off bytes]: whether copying [bytes] to offset [off] of
    the caller's user buffer faults (returns nonzero). *)
Variable copy_to_user : Z -> list Z -> bool.

(** Returns the C result, the bytes put into the user buffer, the buffer. *)
Definition dvb_ringbuffer_read_user (rb : dvb_ringbuffer) (len : Z)
  : option (Z * list Z * dvb_ringbuffer) :=
  d ← rb_data rb;
  let split := ring_split (rb_pread rb) len (rb_size rb) in
  let second (done : list Z) (rb : dvb_ringbuffer) (todo : Z) :=
    s ← mread d (rb_pread rb) todo;
    if copy_to_user (zlen done) s then Some (- EFAULT, done, rb)
    else
      p ← umod (rb_pread rb + todo) (rb_size rb);
      Some (len, done ++ s, set_pread rb p) in
  if 0 <? split then
    s ← mread d (rb_pread rb) split;
    if copy_to_user 0 s then Some (- EFAULT, [], rb)
    else second s (set_pread rb 0) (u64 (len - split))
  else second [] rb len.

(** Same for a packet's payload: [idx] is size_t, [offset] int. *)
Definition dvb_ringbuffer_pkt_read_user (rb : dvb_ringbuffer) (idx offset len : Z)
  : option (Z * list Z) :=
  d ← rb_data rb;
  hi ← mget d idx;
  i1 ← umod (idx + 1) (rb_size rb);
  lo ← mget d i1;
  let pktlen := Z.lor (Z.shiftl hi 8) lo in
  if u64 offset >? pktlen then Some (- EINVAL, [])
  else
    let len := if u64 (offset + len) >? pktlen then u64 (pktlen - offset) else len in
    idx ← umod (idx + DVB_RINGBUFFER_PKTHDRSIZE + offset) (rb_size rb);
    let split := ring_split idx len (rb_size rb) in
    if 0 <? split then
      s ← mread d idx split;
      if copy_to_user 0 s then Some (- EFAULT, [])
      else
        t ← mread d 0 (u64 (len - split));
        if copy_to_user split t then Some (- EFAULT, s) else Some (len, s ++ t)
    else
      t ← mread d idx len;
      if copy_to_user 0 t then Some (- EFAULT, []) else Some (len, t).
End user.

(** Returns the bytes copied to the caller's kernel buffer. *)
Definition dvb_ringbuffer_read (rb : dvb_ringbuffer) (len : Z)
  : option (list Z * dvb_ringbuffer) :=
  d ← rb_data rb;
  let split := ring_split (rb_pread rb) len (rb_size rb) in
  '(s, rb, todo) ←
    (if 0 <? split then
       s ← mread d (rb_pread rb) split;
       Some (s, set_pread rb 0, u64 (len - split))
     else Some ([], rb, len));
  t ← mread d (rb_pread rb) todo;
  p ← umod (rb_pread rb + todo) (rb_size rb);
  Some (s ++ t, set_pread rb p).

(** [buf] is the memory at the caller's pointer. *)
Definition dvb_ringbuffer_write (rb : dvb_ringbuffer) (buf : list Z) (len : Z)
  : option (Z * dvb_ringbuffer) :=
  d ← rb_data rb;
  let split := ring_split (rb_pwrite rb) len (rb_size rb) in
  '(rb, d, bufp, todo) ←
    (if 0 <? split then
       s ← mread buf 0 split;
       d ← mwrite d (rb_pwrite rb) s;
       Some (set_pwrite rb 0, d, split, u64 (len - split))
     else Some (rb, d, 0, len));
  s ← mread buf bufp todo;
  d ← mwrite d (rb_pwrite rb) s;
  p ← umod (rb_pwrite rb + todo) (rb_size rb);
  Some (len, set_pwrite (set_data rb (Some d)) p).

(** The macros of dvb_ringbuffer.h; their [%] is on [ssize_t]. *)
Definition DVB_RINGBUFFER_WRITE_BYTE (rb : dvb_ringbuffer) (byte : Z)
  : option dvb_ringbuffer :=
  d ← rb_data rb;
  d ← mset d (rb_pwrite rb) (u8 byte);
  if rb_size rb =? 0 then None
  else Some (set_pwrite (set_data rb (Some d)) (Z.rem (rb_pwrite rb + 1) (rb_size rb))).

Definition DVB_RINGBUFFER_PEEK (rb : dvb_ringbuffer) (offs : Z) : option Z :=
  d ← rb_data rb;
  if rb_size rb =? 0 then None else mget d (Z.rem (rb_pread rb + offs) (rb_size rb)).

(** [num] is size_t in the one use of the macro. *)
Definition DVB_RINGBUFFER_SKIP (rb : dvb_ringbuffer) (num : Z) : option dvb_ringbuffer :=
  p ← umod (rb_pread rb + num) (rb_size rb);
  Some (set_pread rb p).

Definition dvb_ringbuffer_pkt_write (rb : dvb_ringbuffer) (buf : list Z) (len : Z)
  : option (Z * dvb_ringbuffer) :=
  let oldpwrite := rb_pwrite rb in
  rb ← DVB_RINGBUFFER_WRITE_BYTE rb (Z.shiftr len 8);
  rb ← DVB_RINGBUFFER_WRITE_BYTE rb (Z.land len 0xff);
  rb ← DVB_RINGBUFFER_WRITE_BYTE rb PKT_READY;
  '(status, rb) ← dvb_ringbuffer_write rb buf len;
  let status := s32 status in
  let rb := if status <? 0 then set_pwrite rb oldpwrite else rb in
  Some (status, rb).

(** Returns the C result and the bytes copied to the kernel buffer. *)
Definition dvb_ringbuffer_pkt_read (rb : dvb_ringbuffer) (idx offset len : Z)
  : option (Z * list Z) :=
  d ← rb_data rb;
  hi ← mget d idx;
  i1 ← umod (idx + 1) (rb_size rb);
  lo ← mget d i1;
  let pktlen := Z.lor (Z.shiftl hi 8) lo in
  if u64 offset >? pktlen then Some (- EINVAL, [])
  else
    let len := if u64 (offset + len) >? pktlen then u64 (pktlen - offset) else len in
    idx ← umod (idx + DVB_RINGBUFFER_PKTHDRSIZE + offset) (rb_size rb);
    let split := ring_split idx len (rb_size rb) in
    if 0 <? split then
      s ← mread d idx split;
      t ← mread d 0 (u64 (len - split));
      Some (len, s ++ t)
    else
      t ← mread d idx len;
      Some (len, t).

(** The cleaning loop of [dvb_ringbuffer_pkt_dispose]; [None] also when the
    loop has not ended within [fuel] rounds. *)
Fixpoint pkt_clean (fuel : nat) (rb : dvb_ringbuffer) : option dvb_ringbuffer :=
  if dvb_ringbuffer_avail rb >? DVB_RINGBUFFER_PKTHDRSIZE then
    match fuel with
    | O => None
    | S fuel =>
        st ← DVB_RINGBUFFER_PEEK rb 2;
        if st =? PKT_DISPOSED then
          hi ← DVB_RINGBUFFER_PEEK rb 0;
          lo ← DVB_RINGBUFFER_PEEK rb 1;
          let pktlen := Z.lor (Z.shiftl hi 8) lo in
          rb ← DVB_RINGBUFFER_SKIP rb (pktlen + DVB_RINGBUFFER_PKTHDRSIZE);
          pkt_clean fuel rb
        else Some rb
    end
  else Some rb.

Definition dvb_ringbuffer_pkt_dispose (fuel : nat) (rb : dvb_ringbuffer) (idx : Z)
  : option dvb_ringbuffer :=
  d ← rb_data rb;
  i2 ← umod (idx + 2) (rb_size rb);
  d ← mset d i2 PKT_DISPOSED;
  pkt_clean fuel (set_data rb (Some d)).

(** The search loop of [dvb_ringbuffer_pkt_next]: the index of the packet
    found and its length, or -1 and the caller's [pktlen] unchanged. *)
Fixpoint pkt_search (fuel : nat) (rb : dvb_ringbuffer) (idx consumed pktlen : Z)
  : option (Z * Z) :=
  if dvb_ringbuffer_avail rb - consumed >? DVB_RINGBUFFER_PKTHDRSIZE then
    match fuel with
    | O => None
    | S fuel =>
        d ← rb_data rb;
        hi ← mget d idx;
        i1 ← umod (idx + 1) (rb_size rb);
        lo ← mget d i1;
        i2 ← umod (idx + 2) (rb_size rb);
        st ← mget d i2;
        let curpktlen := Z.lor (Z.shiftl hi 8) lo in
        if st =? PKT_READY then Some (idx, curpktlen)
        else
          idx' ← umod (idx + curpktlen + DVB_RINGBUFFER_PKTHDRSIZE) (rb_size rb);
          pkt_search fuel rb idx'
            (s32 (consumed + curpktlen + DVB_RINGBUFFER_PKTHDRSIZE)) pktlen
    end
  else Some (-1, pktlen).

(** [idx] is size_t: the caller's -1 is 2^64 - 1. *)
Definition dvb_ringbuffer_pkt_next (fuel : nat) (rb : dvb_ringbuffer) (idx pktlen : Z)
  : option (Z * Z) :=
  idx ←
    (if idx =? u64 (-1) then Some (u64 (rb_pread rb))
     else
       d ← rb_data rb;
       hi ← mget d idx;
       i1 ← umod (idx + 1) (rb_size rb);
       lo ← mget d i1;
       let curpktlen := Z.lor (Z.shiftl hi 8) lo in
       umod (idx + curpktlen + DVB_RINGBUFFER_PKTHDRSIZE) (rb_size rb));
  consumed ← umod (idx - rb_pread rb) (rb_size rb);
  pkt_search fuel rb idx (s32 consumed) pktlen.

(** ** The abstract view *)

(** [n] bytes of the circular memory [d] starting at [off]. *)
Definition ring (d : list Z) (off n : Z) : list Z :=
  (fun i => d !!! Z.to_nat ((off + i) mod zlen d)) <$> seqZ 0 n.

(** The representation invariant: memory of the stated size, both indices
    inside it, and sizes that fit ssize_t with room for index sums. *)
Record rb_wf (rb : dvb_ringbuffer) (d : list Z) : Prop := {
  wf_data : rb_data rb = Some d;
  wf_size : zlen d = rb_size rb;
  wf_pos : 0 < rb_size rb < 2 ^ 62;
  wf_pread : 0 <= rb_pread rb < rb_size rb;
  wf_pwrite : 0 <= rb_pwrite rb < rb_size rb;
}.

(** The bytes waiting in the buffer, oldest first. *)
Definition contents (rb : dvb_ringbuffer) (d : list Z) : list Z :=
  ring d (rb_pread rb) (dvb_ringbuffer_avail rb).

(** [rb] is a well-formed buffer of capacity [cap] holding the queue [q]. *)
Definition rb_queue (rb : dvb_ringbuffer) (cap : Z) (q : list Z) : Prop :=
  exists d, rb_wf rb d /\ rb_size rb = cap /\ contents rb d = q.

Section ring_lemmas.
Context (d : list Z).
Hypothesis Hd : 0 < zlen d.

Lemma zlen_ring off n : 0 <= n -> zlen (ring d off n) = n.
Proof. intros. unfold ring, zlen. rewrite length_fmap, length_seqZ. lia. Qed.

Lemma mget_ring off n i :
  0 <= i < n -> mget (ring d off n) i = mget d ((off + i) mod zlen d).
Proof.
  intros Hi. pose proof (Z.mod_pos_bound (off + i) (zlen d) Hd).
  rewrite (mget_nth d) by lia.
  unfold mget, ring. rewrite bool_decide_true by lia.
  rewrite list_lookup_fmap, lookup_seqZ_lt, Z2Nat.id by lia. done.
Qed.

Lemma ring_app off n m :
  0 <= n -> 0 <= m -> ring d off (n + m) = ring d off n ++ ring d (off + n) m.
Proof.
  intros. unfold ring. rewrite seqZ_app, fmap_app by lia. f_equal.
  rewrite Z.add_0_l, <- (Z.add_0_r n) at 1.
  rewrite <- (fmap_add_seqZ n 0), <- list_fmap_compose.
  apply list_fmap_ext. intros i x _. cbn. by rewrite Z.add_assoc.
Qed.

Lemma ring_mod off n : ring d (off mod zlen d) n = ring d off n.
Proof.
  unfold ring. apply list_fmap_ext. intros i x _. do 2 f_equal.
  by rewrite Zplus_mod_idemp_l.
Qed.

Lemma ring_slice off n :
  0 <= off -> 0 <= n -> off + n <= zlen d -> ring d off n = slice d off n.
Proof.
  intros. apply mget_ext.
  { rewrite zlen_ring, zlen_slice by lia. done. }
  rewrite zlen_ring by lia. intros i Hi.
  rewrite mget_ring, mget_slice by lia. f_equal. apply Z.mod_small. lia.
Qed.

Lemma ring_wrap off n :
  0 <= off <= zlen d -> zlen d <= off + n -> n <= zlen d ->
  ring d off n = slice d off (zlen d - off) ++ slice d 0 (n - (zlen d - off)).
Proof.
  intros. replace n with ((zlen d - off) + (n - (zlen d - off))) at 1 by lia.
  rewrite ring_app by lia. f_equal; [apply ring_slice; lia|].
  rewrite <- ring_mod. replace (off + (zlen d - off)) with (0 + 1 * zlen d) by lia.
  rewrite Z_mod_plus_full, Z.mod_0_l by lia. apply ring_slice; lia.
Qed.

Lemma ring_take off n k : 0 <= k <= n -> take (Z.to_nat k) (ring d off n) = ring d off k.
Proof.
  intros. replace n with (k + (n - k)) by lia. rewrite ring_app by lia.
  apply take_app_length'. pose proof (zlen_ring off k). unfold zlen in *. lia.
Qed.

Lemma ring_drop off n k :
  0 <= k <= n -> drop (Z.to_nat k) (ring d off n) = ring d (off + k) (n - k).
Proof.
  intros. replace n with (k + (n - k)) at 1 by lia. rewrite ring_app by lia.
  apply drop_app_length'. pose proof (zlen_ring off k). unfold zlen in *. lia.
Qed.
End ring_lemmas.
#[export] Hint Rewrite zlen_ring using lia : zlen.

(** [s] stored circularly from [off]: what a byte of the memory becomes. *)
Definition ring_stored (d : list Z) (off : Z) (s d' : list Z) : Prop :=
  zlen d' = zlen d /\
  forall j, 0 <= j < zlen d ->
    mget d' j = let k := (j - off) mod zlen d in
                if bool_decide (k < zlen s) then mget s k else mget d j.

Lemma ring_stored_blit d off s :
  0 <= off -> off + zlen s <= zlen d -> ring_stored d off s (blit d off s).
Proof.
  intros Ho Hs. pose proof (zlen_nonneg s).
  split; [by rewrite zlen_blit by lia|]. intros j Hj.
  rewrite mget_blit by lia. cbn.
  destruct (decide (off <= j)).
  - rewrite (Z.mod_small (j - off)) by lia.
    destruct (decide (j < off + zlen s)).
    + by rewrite !bool_decide_true by lia.
    + by rewrite !bool_decide_false by lia.
  - rewrite bool_decide_false by lia.
    rewrite (mod_neg_once (j - off)) by lia.
    by rewrite bool_decide_false by lia.
Qed.

(** Two consecutive stores are one store of the concatenation. *)
Lemma ring_stored_app d off s t d1 d2 :
  0 < zlen d -> zlen s + zlen t <= zlen d ->
  ring_stored d off s d1 -> ring_stored d1 (off + zlen s) t d2 ->
  ring_stored d off (s ++ t) d2.
Proof.
  intros Hd Hlen [Hl1 H1] [Hl2 H2]. split; [lia|]. intros j Hj.
  pose proof (zlen_nonneg s). pose proof (zlen_nonneg t).
  rewrite H2, H1 by lia. cbn. rewrite Hl1, zlen_app.
  pose proof (Z.mod_pos_bound (j - off) (zlen d) Hd) as Hk.
  set (k := (j - off) mod zlen d) in *.
  replace ((j - (off + zlen s)) mod zlen d) with ((k - zlen s) mod zlen d).
  2: { unfold k. rewrite Zminus_mod_idemp_l. f_equal. lia. }
  destruct (decide (k < zlen s)).
  - rewrite (mod_neg_once (k - zlen s)) by lia.
    by rewrite bool_decide_false, !bool_decide_true, mget_app_l by lia.
  - rewrite (Z.mod_small (k - zlen s)) by lia.
    destruct (decide (k < zlen s + zlen t)).
    + by rewrite !bool_decide_true, mget_app_r by lia.
    + by rewrite !bool_decide_false by lia.
Qed.

Lemma ring_stored_mod d off s d' :
  0 < zlen d -> ring_stored d (off mod zlen d) s d' -> ring_stored d off s d'.
Proof.
  intros Hd [Hl H]. split; [done|]. intros j Hj. rewrite (H j Hj). cbn.
  by rewrite Zminus_mod_idemp_r.
Qed.

(** Reading back: a store at the end of a region extends it. *)
Lemma ring_of_stored d off n s d' :
  0 < zlen d -> 0 <= n -> n + zlen s <= zlen d ->
  ring_stored d (off + n) s d' -> ring d' off (n + zlen s) = ring d off n ++ s.
Proof.
  intros Hd Hn Hs [Hl Hst]. pose proof (zlen_nonneg s).
  apply mget_ext. { rewrite zlen_app, !zlen_ring by lia. done. }
  rewrite zlen_ring by lia. intros i Hi. rewrite mget_ring by lia.
  pose proof (Z.mod_pos_bound (off + i) (zlen d) Hd). rewrite Hl, Hst by lia. cbn.
  rewrite Zminus_mod_idemp_l. replace (off + i - (off + n)) with (i - n) by lia.
  destruct (decide (i < n)).
  - rewrite (mod_neg_once (i - n)), bool_decide_false, mget_app_l, mget_ring
      by (rewrite ?zlen_ring; lia). done.
  - rewrite (Z.mod_small (i - n)), bool_decide_true, mget_app_r
      by (rewrite ?zlen_ring; lia). by rewrite zlen_ring by lia.
Qed.

(** ** Operations on well-formed buffers *)

Lemma umod_Some a b : 0 <= a < 2 ^ 64 -> 0 < b < 2 ^ 64 -> umod a b = Some (a mod b).
Proof.
  intros. unfold umod. rewrite !wrap_small by lia.
  destruct (Z.eqb_spec b 0); [lia|done].
Qed.

Lemma ring_split_eq pos len size :
  0 <= pos < size -> size < 2 ^ 62 -> 0 <= len < 2 ^ 63 ->
  ring_split pos len size = if size <? pos + len then size - pos else 0.
Proof.
  intros. unfold ring_split. rewrite !wrap_small by lia.
  rewrite Z.gtb_ltb. done.
Qed.

Section wf.
Context (rb : dvb_ringbuffer) (d : list Z).
Hypothesis Hwf : rb_wf rb d.

Lemma avail_range : 0 <= dvb_ringbuffer_avail rb < rb_size rb.
Proof. destruct Hwf. unfold dvb_ringbuffer_avail. ztest; lia. Qed.

Lemma avail_mod :
  dvb_ringbuffer_avail rb = (rb_pwrite rb - rb_pread rb) mod rb_size rb.
Proof.
  destruct Hwf. unfold dvb_ringbuffer_avail.
  ztest; [rewrite mod_neg_once | rewrite Z.mod_small]; lia.
Qed.

Lemma free_avail :
  dvb_ringbuffer_free rb = rb_size rb - 1 - dvb_ringbuffer_avail rb.
Proof.
  destruct Hwf. unfold dvb_ringbuffer_avail, dvb_ringbuffer_free.
  ztest; ztest; lia.
Qed.

Lemma zlen_contents : zlen (contents rb d) = dvb_ringbuffer_avail rb.
Proof. pose proof avail_range. destruct Hwf. unfold contents. rewrite zlen_ring; lia. Qed.

Lemma pwrite_avail :
  (rb_pread rb + dvb_ringbuffer_avail rb) mod rb_size rb = rb_pwrite rb.
Proof.
  destruct Hwf. rewrite avail_mod, Zplus_mod_idemp_r.
  replace (rb_pread rb + (rb_pwrite rb - rb_pread rb)) with (rb_pwrite rb) by lia.
  apply Z.mod_small. lia.
Qed.

Lemma read_eq len :
  0 <= len <= rb_size rb ->
  dvb_ringbuffer_read rb len =
    Some (ring d (rb_pread rb) len,
          set_pread rb ((rb_pread rb + len) mod rb_size rb)).
Proof.
  intros Hlen. destruct Hwf. unfold dvb_ringbuffer_read.
  rewrite wf_data0, ring_split_eq by lia. cbn.
  destruct (Z.ltb_spec (rb_size rb) (rb_pread rb + len)).
  - rewrite (proj2 (Z.ltb_lt _ _)) by lia. rewrite mread_Some by lia. cbn.
    rewrite wrap_small by lia. rewrite mread_Some by lia. cbn.
    rewrite umod_Some by lia. cbn. rewrite ring_wrap by lia.
    rewrite wf_size0, (mod_over_once (rb_pread rb + len)), Z.mod_small by lia.
    unfold set_pread. cbn. do 3 f_equal. lia.
  - cbn. rewrite mread_Some by lia. cbn. rewrite umod_Some by lia. cbn.
    by rewrite ring_slice by lia.
Qed.

Lemma read_user_eq ctu len :
  0 <= len <= rb_size rb -> (forall off s, ctu off s = false) ->
  dvb_ringbuffer_read_user ctu rb len =
    '(s, rb') ← dvb_ringbuffer_read rb len; Some (len, s, rb').
Proof.
  intros Hlen Hok. destruct Hwf. unfold dvb_ringbuffer_read_user, dvb_ringbuffer_read.
  rewrite wf_data0. cbn. set (sp := ring_split _ _ _). destruct (0 <? sp); cbn.
  - destruct (mread d (rb_pread rb) sp); cbn; [|done]. rewrite Hok.
    destruct (mread d 0 _); cbn; [|done]. rewrite Hok. by destruct (umod _ _).
  - destruct (mread d (rb_pread rb) len); cbn; [|done]. rewrite Hok.
    by destruct (umod _ _).
Qed.

Lemma write_eq buf len :
  0 <= len <= rb_size rb -> len <= zlen buf ->
  exists d', dvb_ringbuffer_write rb buf len =
      Some (len, set_pwrite (set_data rb (Some d'))
                   ((rb_pwrite rb + len) mod rb_size rb))
    /\ ring_stored d (rb_pwrite rb) (slice buf 0 len) d'.
Proof.
  intros Hlen Hbuf. destruct Hwf. unfold dvb_ringbuffer_write.
  rewrite wf_data0, ring_split_eq by lia. cbn.
  destruct (Z.ltb_spec (rb_size rb) (rb_pwrite rb + len)).
  - set (n := rb_size rb - rb_pwrite rb) in *.
    rewrite (proj2 (Z.ltb_lt _ _)) by lia.
    rewrite mread_Some by lia. cbn. rewrite mwrite_Some by zlia. cbn.
    rewrite wrap_small, mread_Some by lia. cbn. rewrite mwrite_Some by zlia. cbn.
    rewrite umod_Some by lia. cbn. eexists. split.
    { rewrite (mod_over_once (rb_pwrite rb + len)), Z.mod_small by lia.
      unfold set_pwrite, set_data. cbn. do 4 f_equal. lia. }
    replace len with (n + (len - n)) at 1 by lia. rewrite slice_app by lia.
    eapply ring_stored_app; [lia|zlia|apply ring_stored_blit; zlia|].
    apply ring_stored_mod; [zlia|].
    rewrite zlen_blit, zlen_slice by zlia.
    replace (rb_pwrite rb + n) with (zlen d) by lia. rewrite Z_mod_same_full.
    apply ring_stored_blit; zlia.
  - cbn. rewrite mread_Some by lia. cbn.
    rewrite mwrite_Some by zlia. cbn.
    rewrite umod_Some by lia. cbn. eexists. split; [done|].
    apply ring_stored_blit; zlia.
Qed.
End wf.

(** Moving the read index by [len] consumes a prefix of the contents. *)
Lemma contents_consume rb d len :
  rb_wf rb d -> 0 <= len <= dvb_ringbuffer_avail rb ->
  let rb' := set_pread rb ((rb_pread rb + len) mod rb_size rb) in
  rb_wf rb' d /\ contents rb' d = drop (Z.to_nat len) (contents rb d) /\
  dvb_ringbuffer_avail rb' = dvb_ringbuffer_avail rb - len.
Proof.
  intros Hwf Hlen rb'. pose proof (avail_range rb d Hwf).
  assert (rb_wf rb' d) as Hwf'.
  { destruct Hwf. split; cbn; try done. apply Z.mod_pos_bound. lia. }
  assert (dvb_ringbuffer_avail rb' = dvb_ringbuffer_avail rb - len) as Ha.
  { rewrite (avail_mod rb' d Hwf'). cbn. rewrite Zminus_mod_idemp_r.
    replace (rb_pwrite rb - (rb_pread rb + len))
      with (rb_pwrite rb - rb_pread rb - len) by lia.
    rewrite <- Zminus_mod_idemp_l, <- (avail_mod rb d Hwf). apply Z.mod_small. lia. }
  split; [done|]. split; [|done]. destruct Hwf. unfold contents. rewrite Ha. cbn.
  rewrite <- wf_size0 in *. rewrite ring_mod, <- ring_drop by lia. done.
Qed.

(** Storing [s] at the write index appends it to the contents. *)
Lemma contents_append rb d s d' :
  rb_wf rb d -> zlen s <= dvb_ringbuffer_free rb ->
  ring_stored d (rb_pwrite rb) s d' ->
  let rb' := set_pwrite (set_data rb (Some d'))
               ((rb_pwrite rb + zlen s) mod rb_size rb) in
  rb_wf rb' d' /\ contents rb' d' = contents rb d ++ s /\
  dvb_ringbuffer_avail rb' = dvb_ringbuffer_avail rb + zlen s.
Proof.
  intros Hwf Hs Hst rb'. pose proof (avail_range rb d Hwf).
  pose proof (zlen_nonneg s). rewrite (free_avail rb d Hwf) in Hs.
  pose proof (pwrite_avail rb d Hwf) as Hpa.
  assert (rb_wf rb' d') as Hwf'.
  { destruct Hwf, Hst. split; cbn; try done; [lia|]. apply Z.mod_pos_bound. lia. }
  assert (dvb_ringbuffer_avail rb' = dvb_ringbuffer_avail rb + zlen s) as Ha.
  { rewrite (avail_mod rb' d' Hwf'). cbn. rewrite Zminus_mod_idemp_l.
    replace (rb_pwrite rb + zlen s - rb_pread rb)
      with (rb_pwrite rb - rb_pread rb + zlen s) by lia.
    rewrite <- Zplus_mod_idemp_l, <- (avail_mod rb d Hwf). apply Z.mod_small. lia. }
  split; [done|]. split; [|done]. destruct Hwf. unfold contents. rewrite Ha. cbn.
  apply (ring_of_stored d); [lia..|]. apply ring_stored_mod; [lia|].
  by rewrite wf_size0, Hpa.
Qed.

(** ** Packets *)

(** A packet in the buffer: its status byte and its payload. *)
Definition pkt : Type := Z * list Z.

Definition enc (p : pkt) : list Z :=
  [Z.shiftr (zlen p.2) 8; Z.land (zlen p.2) 0xff; p.1] ++ p.2.

Definition encs (ps : list pkt) : list Z := concat (enc <$> ps).

(** Payloads the two length bytes can describe.  An empty payload is
    excluded: both loops stop when only a header is left, so an empty packet
    at the end of the buffer is invisible to them. *)
Definition pkt_ok (p : pkt) : Prop := 0 < zlen p.2 < 65536 /\ is_byte p.1.

(** [rb] holds the packets [ps], oldest first. *)
Definition rb_pkts (rb : dvb_ringbuffer) (d : list Z) (ps : list pkt) : Prop :=
  rb_wf rb d /\ rb_size rb < 2 ^ 31 /\ contents rb d = encs ps /\ Forall pkt_ok ps.

(** The index [dvb_ringbuffer_pkt_next] returns for the packet after [ps]. *)
Definition pkt_index (rb : dvb_ringbuffer) (ps : list pkt) : Z :=
  (rb_pread rb + zlen (encs ps)) mod rb_size rb.

Lemma zlen_enc p : zlen (enc p) = 3 + zlen p.2.
Proof. unfold enc. rewrite zlen_app. done. Qed.

Lemma encs_app ps qs : encs (ps ++ qs) = encs ps ++ encs qs.
Proof. unfold encs. by rewrite fmap_app, concat_app. Qed.

Lemma encs_cons p ps : encs (p :: ps) = enc p ++ encs ps.
Proof. done. Qed.

Lemma encs_one p : encs [p] = enc p.
Proof. apply app_nil_r. Qed.

Lemma encs_length ps : Forall pkt_ok ps -> 4 * Z.of_nat (length ps) <= zlen (encs ps).
Proof.
  induction 1 as [|p ps Hp]; [done|].
  rewrite encs_cons, zlen_app, zlen_enc. destruct Hp. cbn [length]. lia.
Qed.

Lemma pktlen_bytes n :
  0 <= n < 65536 -> Z.lor (Z.shiftl (Z.shiftr n 8) 8) (Z.land n 255) = n.
Proof.
  intros Hn. apply Z.bits_inj'. intros i Hi.
  rewrite Z.lor_spec, Z.land_spec, Z.shiftl_spec by done.
  change 255 with (Z.ones 8). rewrite Z.testbit_ones_nonneg by lia.
  destruct (Z.ltb_spec i 8).
  - rewrite Z.testbit_neg_r by lia. by rewrite andb_true_r.
  - rewrite Z.shiftr_spec by lia. rewrite andb_false_r, orb_false_r. f_equal. lia.
Qed.

(** The header bytes of a packet met at offset [zlen a] of the contents. *)
Lemma header_at a p b :
  pkt_ok p ->
  mget (a ++ enc p ++ b) (zlen a) = Some (Z.shiftr (zlen p.2) 8) /\
  mget (a ++ enc p ++ b) (zlen a + 1) = Some (Z.land (zlen p.2) 0xff) /\
  mget (a ++ enc p ++ b) (zlen a + 2) = Some p.1.
Proof.
  intros _. rewrite (mget_app_r a _ (zlen a)), (mget_app_r a _ (zlen a + 1)),
    (mget_app_r a _ (zlen a + 2)) by lia.
  replace (zlen a - zlen a) with 0 by lia.
  replace (zlen a + 1 - zlen a) with 1 by lia.
  replace (zlen a + 2 - zlen a) with 2 by lia. split_and!; reflexivity.
Qed.

Section pkts.
Context (rb : dvb_ringbuffer) (d : list Z).
Hypothesis Hwf : rb_wf rb d.

(** A position of the contents, as the code addresses it. *)
Lemma peek_contents i :
  0 <= i < dvb_ringbuffer_avail rb ->
  mget d ((rb_pread rb + i) mod rb_size rb) = mget (contents rb d) i.
Proof.
  intros Hi. pose proof (avail_range rb d Hwf). destruct Hwf.
  unfold contents. rewrite mget_ring by lia. by rewrite wf_size0.
Qed.

Lemma umod_ring i k :
  0 <= i < rb_size rb -> 0 <= k < 2 ^ 62 ->
  umod ((rb_pread rb + i) mod rb_size rb + k) (rb_size rb)
  = Some ((rb_pread rb + (i + k)) mod rb_size rb).
Proof.
  intros. destruct Hwf.
  pose proof (Z.mod_pos_bound (rb_pread rb + i) (rb_size rb)).
  rewrite umod_Some by lia. rewrite Zplus_mod_idemp_l. do 2 f_equal. lia.
Qed.

Lemma PEEK_eq offs :
  0 <= offs < dvb_ringbuffer_avail rb ->
  DVB_RINGBUFFER_PEEK rb offs = mget (contents rb d) offs.
Proof.
  intros Ho. pose proof (avail_range rb d Hwf). rewrite <- peek_contents by lia.
  destruct Hwf. unfold DVB_RINGBUFFER_PEEK. rewrite wf_data0. cbn.
  destruct (Z.eqb_spec (rb_size rb) 0); [lia|]. by rewrite Z.rem_mod_nonneg by lia.
Qed.

Lemma SKIP_eq num :
  0 <= num <= dvb_ringbuffer_avail rb ->
  DVB_RINGBUFFER_SKIP rb num =
    Some (set_pread rb ((rb_pread rb + num) mod rb_size rb)).
Proof.
  intros. pose proof (avail_range rb d Hwf). destruct Hwf.
  unfold DVB_RINGBUFFER_SKIP. by rewrite umod_Some by lia.
Qed.

Lemma WRITE_BYTE_eq b :
  1 <= dvb_ringbuffer_free rb ->
  exists rb' d', DVB_RINGBUFFER_WRITE_BYTE rb b = Some rb' /\ rb_wf rb' d' /\
    rb_size rb' = rb_size rb /\ rb_pread rb' = rb_pread rb /\
    contents rb' d' = contents rb d ++ [u8 b] /\
    dvb_ringbuffer_free rb' = dvb_ringbuffer_free rb - 1.
Proof.
  intros Hfree. pose proof Hwf as Hwf0. destruct Hwf0.
  destruct (contents_append rb d [u8 b] (blit d (rb_pwrite rb) [u8 b]))
    as (Hwf' & Hc & Ha); [done|done| |].
  { apply ring_stored_blit; [lia|]. change (zlen [u8 b]) with 1. lia. }
  do 2 eexists. split; [|split; [exact Hwf'|]].
  - unfold DVB_RINGBUFFER_WRITE_BYTE. rewrite wf_data0. cbn.
    rewrite mset_blit, mwrite_Some by (change (zlen [u8 b]) with 1; lia). cbn.
    destruct (Z.eqb_spec (rb_size rb) 0); [lia|].
    by rewrite Z.rem_mod_nonneg by lia.
  - repeat split; [done|]. rewrite (free_avail _ _ Hwf'), Ha, (free_avail rb d Hwf).
    change (zlen [u8 b]) with 1. cbn. lia.
Qed.

End pkts.

(** Overwriting one byte of the contents in place. *)
Lemma contents_mset rb d i v :
  rb_wf rb d -> 0 <= i < dvb_ringbuffer_avail rb ->
  exists d', mset d ((rb_pread rb + i) mod rb_size rb) v = Some d' /\
    rb_wf (set_data rb (Some d')) d' /\
    contents (set_data rb (Some d')) d' = <[Z.to_nat i := v]> (contents rb d).
Proof.
  intros Hwf Hi. pose proof (avail_range rb d Hwf). pose proof Hwf as [].
  pose proof (Z.mod_pos_bound (rb_pread rb + i) (rb_size rb)).
  set (k := (rb_pread rb + i) mod rb_size rb) in *.
  set (d' := <[Z.to_nat k := v]> d). set (rb' := set_data rb (Some d')).
  assert (rb_wf rb' d') as Hwf'.
  { split; cbn; try done. unfold d'. by rewrite zlen_insert. }
  assert (dvb_ringbuffer_avail rb' = dvb_ringbuffer_avail rb) as Ha by done.
  exists d'. split; [|split; [done|]].
  - unfold mset. by rewrite bool_decide_true by lia.
  - fold rb'. apply mget_ext; rewrite (zlen_contents rb' d' Hwf').
    { by rewrite zlen_insert, (zlen_contents rb d). }
    intros j Hj.
    rewrite <- (peek_contents rb' d' Hwf' j Hj). cbn. unfold d', mget.
    pose proof (Z.mod_pos_bound (rb_pread rb + j) (rb_size rb)).
    rewrite !bool_decide_true by lia. destruct (decide (j = i)) as [->|Hne].
    + fold k. pose proof (zlen_contents rb d Hwf). unfold zlen in *.
      rewrite !list_lookup_insert_eq by lia. done.
    + rewrite !list_lookup_insert_ne; [|lia|].
      * rewrite Ha in Hj. pose proof (peek_contents rb d Hwf j Hj) as Hp.
        unfold mget in Hp. by rewrite !bool_decide_true in Hp by lia.
      * intros Heq. apply Hne. apply Z2Nat.inj in Heq; [|lia..]. symmetry.
        apply (mod_shift_inj (rb_pread rb) i j (rb_size rb)); [lia..|done].
Qed.

(** ** The buffer is a bounded FIFO queue *)

(** The operations a client performs under the protocol of the header's
    notes: a write only when the free space suffices, a read of at most what
    is available. *)
Inductive rb_op :=
  | OpWrite (buf : list Z)
  | OpRead (n : Z)
  | OpFlush
  | OpReset.

Definition rb_step (rb : dvb_ringbuffer) (op : rb_op) : option (list Z * dvb_ringbuffer) :=
  match op with
  | OpWrite buf =>
      if zlen buf <=? dvb_ringbuffer_free rb then
        '(_, rb) ← dvb_ringbuffer_write rb buf (zlen buf); Some ([], rb)
      else Some ([], rb)
  | OpRead n => dvb_ringbuffer_read rb (Z.min (dvb_ringbuffer_avail rb) (Z.max 0 n))
  | OpFlush => Some ([], dvb_ringbuffer_flush rb)
  | OpReset => Some ([], dvb_ringbuffer_reset rb)
  end.

(** The same on a queue of at most [cap - 1] bytes. *)
Definition queue_step (cap : Z) (q : list Z) (op : rb_op) : list Z * list Z :=
  match op with
  | OpWrite buf => ([], if zlen q + zlen buf <=? cap - 1 then q ++ buf else q)
  | OpRead n => (take (Z.to_nat n) q, drop (Z.to_nat n) q)
  | OpFlush | OpReset => ([], [])
  end.

(** Runs: every output in order, and the final state. *)
Fixpoint rb_run (rb : dvb_ringbuffer) (ops : list rb_op)
  : option (list (list Z) * dvb_ringbuffer) :=
  match ops with
  | [] => Some ([], rb)
  | op :: ops =>
      '(o, rb) ← rb_step rb op;
      '(os, rb) ← rb_run rb ops;
      Some (o :: os, rb)
  end.

Fixpoint queue_run (cap : Z) (q : list Z) (ops : list rb_op) : list (list Z) * list Z :=
  match ops with
  | [] => ([], q)
  | op :: ops =>
      let '(o, q) := queue_step cap q op in
      let '(os, q) := queue_run cap q ops in
      (o :: os, q)
  end.

Lemma rb_queue_write rb cap q buf :
  rb_queue rb cap q -> zlen buf <= dvb_ringbuffer_free rb ->
  exists rb', dvb_ringbuffer_write rb buf (zlen buf) = Some (zlen buf, rb') /\
    rb_queue rb' cap (q ++ buf) /\ rb_error rb' = rb_error rb.
Proof.
  intros (d & Hwf & Hcap & Hq) Hfree. pose proof (free_avail rb d Hwf).
  pose proof (avail_range rb d Hwf). pose proof (zlen_nonneg buf).
  destruct (write_eq rb d Hwf buf (zlen buf)) as (d' & Hw & Hst); [lia..|].
  rewrite slice_full in Hst.
  destruct (contents_append rb d buf d' Hwf Hfree Hst) as (Hwf' & Hc & _).
  eexists. split; [exact Hw|]. split; [|done]. eexists. split; [exact Hwf'|].
  rewrite Hc, Hq. done.
Qed.

Lemma rb_queue_read rb cap q n :
  rb_queue rb cap q -> 0 <= n <= zlen q ->
  exists rb', dvb_ringbuffer_read rb n = Some (take (Z.to_nat n) q, rb') /\
    rb_queue rb' cap (drop (Z.to_nat n) q) /\ rb_error rb' = rb_error rb.
Proof.
  intros (d & Hwf & Hcap & <-) Hn. rewrite (zlen_contents rb d Hwf) in Hn.
  pose proof (avail_range rb d Hwf).
  rewrite (read_eq rb d Hwf) by lia. eexists. split.
  - do 2 f_equal. unfold contents. symmetry. apply ring_take. lia.
  - split; [|done].
    destruct (contents_consume rb d n Hwf) as (Hwf' & Hc & _); [lia|].
    exists d. split; [done|]. split; done.
Qed.

Lemma rb_queue_avail rb cap q : rb_queue rb cap q -> dvb_ringbuffer_avail rb = zlen q.
Proof. intros (d & Hwf & _ & <-). by rewrite (zlen_contents rb d). Qed.

Lemma rb_queue_free rb cap q :
  rb_queue rb cap q -> dvb_ringbuffer_free rb = cap - 1 - zlen q.
Proof.
  intros (d & Hwf & <- & <-). rewrite (zlen_contents rb d Hwf). by apply free_avail with d.
Qed.

Lemma rb_queue_empty rb cap q :
  rb_queue rb cap q -> dvb_ringbuffer_empty rb = true <-> q = [].
Proof.
  intros (d & Hwf & <- & <-). unfold dvb_ringbuffer_empty. rewrite Z.eqb_eq.
  pose proof (zlen_contents rb d Hwf) as Hz. pose proof Hwf as [].
  unfold dvb_ringbuffer_avail in Hz. split.
  - intros He. rewrite He, Z.sub_diag in Hz. cbn in Hz.
    destruct (contents rb d); [done|]. unfold zlen in Hz. cbn in Hz. lia.
  - intros Hc. rewrite Hc, zlen_nil in Hz. revert Hz. ztest; lia.
Qed.

Lemma rb_queue_nil rb rb' cap q :
  rb_queue rb cap q -> rb_data rb' = rb_data rb -> rb_size rb' = cap ->
  rb_pread rb' = rb_pwrite rb' -> 0 <= rb_pwrite rb' < cap -> rb_queue rb' cap [].
Proof.
  intros (d & [] & Hcap & _) Hd Hs Hp Hr. exists d.
  assert (rb_wf rb' d). { split; rewrite ?Hd, ?Hs; lia || done. }
  split; [done|]. split; [done|].
  unfold contents, dvb_ringbuffer_avail. rewrite Hp, Z.sub_diag. done.
Qed.

Lemma rb_queue_flush rb cap q :
  rb_queue rb cap q -> rb_queue (dvb_ringbuffer_flush rb) cap [].
Proof.
  intros H. eapply rb_queue_nil; [exact H| |..]; destruct H as (d & [] & <- & _); cbn; done || lia.
Qed.

Lemma rb_queue_reset rb cap q :
  rb_queue rb cap q -> rb_queue (dvb_ringbuffer_reset rb) cap [].
Proof.
  intros H. eapply rb_queue_nil; [exact H| |..]; destruct H as (d & [] & <- & _); cbn; done || lia.
Qed.

(** A fresh buffer over memory of its size is the empty queue. *)
Lemma rb_queue_init mem :
  0 < zlen mem < 2 ^ 62 ->
  rb_queue (dvb_ringbuffer_init (Some mem) (zlen mem)) (zlen mem) [].
Proof. intros. exists mem. split; [split; cbn; done || lia|done]. Qed.

Lemma rb_step_refines rb cap q op :
  rb_queue rb cap q ->
  exists o rb', rb_step rb op = Some (o, rb') /\ o = (queue_step cap q op).1 /\
    rb_queue rb' cap (queue_step cap q op).2.
Proof.
  intros Hq. pose proof (rb_queue_free _ _ _ Hq) as Hf.
  pose proof (rb_queue_avail _ _ _ Hq) as Ha. destruct op as [buf|n| |]; cbn.
  - rewrite Hf. destruct (Z.leb_spec (zlen buf) (cap - 1 - zlen q)).
    + destruct (rb_queue_write _ _ _ buf Hq) as (rb' & -> & Hq' & _); [lia|]. cbn.
      do 2 eexists. split; [done|]. split; [done|].
      by rewrite (proj2 (Z.leb_le (zlen q + zlen buf) (cap - 1))) by lia.
    + do 2 eexists. split; [done|]. split; [done|].
      by rewrite (proj2 (Z.leb_gt (zlen q + zlen buf) (cap - 1))) by lia.
  - rewrite Ha. pose proof (zlen_nonneg q).
    destruct (rb_queue_read _ _ _ (Z.min (zlen q) (Z.max 0 n)) Hq)
      as (rb' & -> & Hq' & _); [lia|].
    do 2 eexists. split; [done|]. unfold zlen in *.
    destruct (decide (n <= Z.of_nat (length q))).
    + replace (Z.to_nat (Z.min (Z.of_nat (length q)) (Z.max 0 n))) with (Z.to_nat n) in * by lia.
      done.
    + rewrite (take_ge _ (Z.to_nat n)), (drop_ge _ (Z.to_nat n)) by lia.
      rewrite take_ge, drop_ge in * by lia. done.
  - do 2 eexists. split; [done|]. split; [done|]. by apply rb_queue_flush with q.
  - do 2 eexists. split; [done|]. split; [done|]. by apply rb_queue_reset with q.
Qed.

(** Claim C1: under the protocol the header file prescribes (write only into
    free space, read only what is available), any sequence of writes, reads,
    flushes and resets on a well-formed ring buffer accesses no memory
    outside it and returns exactly what a FIFO queue of capacity
    [size - 1] bytes returns; the final buffer represents the final queue. *)
Theorem ring_refines_queue rb cap q ops :
  rb_queue rb cap q ->
  exists rb', rb_run rb ops = Some ((queue_run cap q ops).1, rb') /\
    rb_queue rb' cap (queue_run cap q ops).2.
Proof.
  revert rb q. induction ops as [|op ops IH]; intros rb q Hq; cbn.
  { by exists rb. }
  destruct (rb_step_refines rb cap q op Hq) as (o & rb1 & -> & Ho & Hq1).
  destruct (queue_step cap q op) as [o' q1]. cbn in *. subst o'.
  destruct (IH rb1 q1 Hq1) as (rb2 & -> & Hq2).
  destruct (queue_run cap q1 ops) as [os q2]. cbn in *. by exists rb2.
Qed.

Lemma ring_refines_queue_witness :
  exists rb', rb_run (dvb_ringbuffer_init (Some (replicate 4 0)) 4)
      [OpWrite [1; 2; 3]; OpRead 2; OpWrite [4; 5]; OpWrite [6]; OpRead 9]
    = Some ([[]; [1; 2]; []; []; [3; 4; 5]], rb') /\ rb_queue rb' 4 [].
Proof.
  apply (ring_refines_queue (dvb_ringbuffer_init (Some (replicate 4 0)) 4) 4 []
    [OpWrite [1; 2; 3]; OpRead 2; OpWrite [4; 5]; OpWrite [6]; OpRead 9]).
  apply (rb_queue_init (replicate 4 0)). vm_compute. done.
Defined.

(** The queue after its oldest [k] bytes were copied out. *)
Lemma consume_part rb d cap q k rb' :
  rb_wf rb d -> rb_size rb = cap -> contents rb d = q ->
  0 <= k <= dvb_ringbuffer_avail rb ->
  rb' = set_pread rb ((rb_pread rb + k) mod rb_size rb) ->
  rb_queue rb' cap (drop (length (ring d (rb_pread rb) k)) q) /\
  ring d (rb_pread rb) k = take (length (ring d (rb_pread rb) k)) q.
Proof.
  intros Hwf Hcap <- Hk ->. pose proof (zlen_ring d (rb_pread rb) k) as Hz.
  unfold zlen in Hz. replace (length (ring d (rb_pread rb) k)) with (Z.to_nat k) by lia.
  destruct (contents_consume rb d k Hwf) as (Hwf' & Hc' & _); [lia|].
  split; [exists d; done|]. symmetry. apply ring_take. lia.
Qed.

(** Fact: [dvb_ringbuffer_read_user] of available bytes either returns
    [len] with the oldest [len] bytes copied and removed from the queue, or
    returns -EFAULT.  On -EFAULT the buffer stays well-formed, but what it
    copied before the fault is gone from the queue: nothing when the transfer
    does not wrap or the first copy faults, the bytes up to the end of the
    memory when the second copy of a wrapping transfer faults. *)
Theorem read_user_spec ctu rb cap q len :
  rb_queue rb cap q -> 0 <= len <= zlen q ->
  exists r done rb', dvb_ringbuffer_read_user ctu rb len = Some (r, done, rb') /\
    rb_queue rb' cap (drop (length done) q) /\ done = take (length done) q /\
    (r = len /\ zlen done = len \/
     r = - EFAULT /\ (done = [] \/ zlen done = cap - rb_pread rb)).
Proof.
  intros Hq Hlen. pose proof (rb_queue_avail _ _ _ Hq) as Ha.
  destruct Hq as (d & Hwf & Hcap & Hc).
  pose proof (avail_range rb d Hwf). pose proof Hwf as [].
  pose proof (fun k rb' => consume_part rb d cap q k rb' Hwf Hcap Hc) as Hpart.
  destruct (Hpart 0 rb) as [H0 _]; [lia| |].
  { rewrite Z.add_0_r, Z.mod_small by lia. by destruct rb. }
  unfold dvb_ringbuffer_read_user. rewrite wf_data0, ring_split_eq by lia. cbn.
  destruct (Z.ltb_spec (rb_size rb) (rb_pread rb + len)).
  - set (n := rb_size rb - rb_pread rb). rewrite (proj2 (Z.ltb_lt 0 n)) by lia.
    rewrite (mread_Some d (rb_pread rb) n) by lia. cbn. rewrite <- ring_slice by lia.
    destruct (ctu 0 _). { do 3 eexists. split_and!; [done|exact H0|done|by auto]. }
    rewrite wrap_small by lia. rewrite mread_Some by lia. cbn. rewrite zlen_ring by lia.
    destruct (ctu n _).
    + destruct (Hpart n (set_pread rb 0)) as [Hn Hn']; [lia| |].
      { replace (rb_pread rb + n) with (rb_size rb) by lia. by rewrite Z_mod_same_full. }
      do 3 eexists. split; [done|]. split; [exact Hn|]. split; [done|].
      right. split; [done|]. right. rewrite zlen_ring by lia. lia.
    + rewrite umod_Some by lia. cbn.
      assert (ring d (rb_pread rb) n ++ slice d 0 (len - n) = ring d (rb_pread rb) len) as Hr.
      { rewrite (ring_wrap d ltac:(lia) _ len) by lia. rewrite ring_slice by lia.
        by rewrite wf_size0. }
      rewrite Hr. destruct (Hpart len (set_pread (set_pread rb 0) ((len - n) mod rb_size rb)))
        as [Hn Hn']; [lia| |].
      { rewrite (mod_over_once (rb_pread rb + len)), Z.mod_small by lia.
        unfold set_pread. cbn. f_equal. lia. }
      do 3 eexists. split; [done|]. split; [exact Hn|]. split; [done|].
      left. by rewrite zlen_ring by lia.
  - cbn. rewrite mread_Some by lia. cbn. rewrite <- ring_slice by lia.
    change (zlen []) with 0. destruct (ctu 0 _).
    { do 3 eexists. split_and!; [done|exact H0|done|by auto]. }
    rewrite umod_Some by lia. cbn. destruct (Hpart len _ ltac:(lia) eq_refl) as [Hn Hn']; clear Hpart.
    do 3 eexists. split; [done|]. split; [exact Hn|]. split; [done|].
    left. by rewrite zlen_ring by lia.
Qed.

Lemma read_user_spec_witness :
  exists r done rb',
    dvb_ringbuffer_read_user (fun off _ => 0 <? off) (mk_rb (Some [7; 8; 5; 6]) 4 2 1 0) 3
      = Some (r, done, rb') /\ rb_queue rb' 4 (drop (length done) [5; 6; 7]) /\
    done = take (length done) [5; 6; 7] /\
    (r = 3 /\ zlen done = 3 \/ r = - EFAULT /\ (done = [] \/ zlen done = 4 - 2)).
Proof.
  apply (read_user_spec (fun off _ => 0 <? off) (mk_rb (Some [7; 8; 5; 6]) 4 2 1 0) 4 [5; 6; 7] 3).
  - exists [7; 8; 5; 6]. split; [split; cbn; done || lia|]. split; reflexivity.
  - vm_compute. split; discriminate.
Defined.

(** ** Packets in the queue *)

Lemma rb_pkts_avail rb d ps : rb_pkts rb d ps -> dvb_ringbuffer_avail rb = zlen (encs ps).
Proof. intros (Hwf & _ & <- & _). by rewrite (zlen_contents rb d). Qed.

(** Fact: [dvb_ringbuffer_pkt_write] of a non-empty payload of at most
    65535 bytes into enough free space appends one packet with status
    PKT_READY: the buffer then holds the old packets followed by the new one,
    and the payload length is returned. *)
Theorem pkt_write_appends rb d ps buf :
  rb_pkts rb d ps -> 0 < zlen buf < 65536 ->
  zlen buf + DVB_RINGBUFFER_PKTHDRSIZE <= dvb_ringbuffer_free rb ->
  exists rb' d', dvb_ringbuffer_pkt_write rb buf (zlen buf) = Some (zlen buf, rb') /\
    rb_pkts rb' d' (ps ++ [(PKT_READY, buf)]).
Proof.
  intros (Hwf & Hsz & Hc & Hok) Hbuf Hfree. unfold DVB_RINGBUFFER_PKTHDRSIZE in Hfree.
  unfold dvb_ringbuffer_pkt_write.
  destruct (WRITE_BYTE_eq rb d Hwf (Z.shiftr (zlen buf) 8))
    as (rb1 & d1 & -> & Hwf1 & Hs1 & _ & Hc1 & Hf1); [lia|]. cbn.
  destruct (WRITE_BYTE_eq rb1 d1 Hwf1 (Z.land (zlen buf) 0xff))
    as (rb2 & d2 & -> & Hwf2 & Hs2 & _ & Hc2 & Hf2); [lia|]. cbn.
  destruct (WRITE_BYTE_eq rb2 d2 Hwf2 PKT_READY)
    as (rb3 & d3 & -> & Hwf3 & Hs3 & _ & Hc3 & Hf3); [lia|]. cbn.
  destruct (rb_queue_write rb3 (rb_size rb3) (contents rb3 d3) buf)
    as (rb4 & -> & (d4 & Hwf4 & Hs4 & Hc4) & _); [by exists d3|lia|]. cbn.
  rewrite s32_small by lia. destruct (Z.ltb_spec (zlen buf) 0); [lia|].
  exists rb4, d4. split; [done|]. split; [done|]. split; [lia|]. split.
  - rewrite Hc4, Hc3, Hc2, Hc1, Hc, encs_app. cbn. unfold enc. cbn.
    rewrite <- !app_assoc, app_nil_r. cbn.
    rewrite (wrap_small 8 (Z.shiftr _ _)), (wrap_small 8 (Z.land _ _)); [done| |].
    + apply land_bound; lia.
    + rewrite Z.shiftr_div_pow2 by lia. split; [apply Z.div_pos; lia|].
      apply Z.div_lt_upper_bound; lia.
  - apply Forall_app. split; [done|]. constructor; [|done].
    split; cbn; [lia|]. unfold is_byte, PKT_READY. lia.
Qed.

(** The length the code computes from the header of packet [p], met after
    the packets [ps], and its status byte. *)
Section at_packet.
Context (rb : dvb_ringbuffer) (d : list Z) (ps : list pkt) (p : pkt) (qs : list pkt).
Hypothesis Hp : rb_pkts rb d (ps ++ p :: qs).

Lemma at_packet_range :
  0 <= zlen (encs ps) /\ 3 + zlen p.2 + zlen (encs ps) <= dvb_ringbuffer_avail rb /\
  0 < zlen p.2 < 65536.
Proof.
  pose proof (rb_pkts_avail _ _ _ Hp) as Ha. destruct Hp as (_ & _ & _ & Hok).
  apply Forall_app in Hok as [_ Hok]. apply Forall_cons in Hok as [[Hp' _] _].
  rewrite encs_app, encs_cons, !zlen_app, zlen_enc in Ha.
  pose proof (zlen_nonneg (encs ps)). pose proof (zlen_nonneg (encs qs)). lia.
Qed.

Lemma at_packet_bytes :
  mget d (pkt_index rb ps) = Some (Z.shiftr (zlen p.2) 8) /\
  umod (pkt_index rb ps + 1) (rb_size rb)
    = Some ((rb_pread rb + (zlen (encs ps) + 1)) mod rb_size rb) /\
  mget d ((rb_pread rb + (zlen (encs ps) + 1)) mod rb_size rb)
    = Some (Z.land (zlen p.2) 0xff) /\
  umod (pkt_index rb ps + 2) (rb_size rb)
    = Some ((rb_pread rb + (zlen (encs ps) + 2)) mod rb_size rb) /\
  mget d ((rb_pread rb + (zlen (encs ps) + 2)) mod rb_size rb) = Some p.1.
Proof.
  pose proof at_packet_range as (H0 & H1 & H2). destruct Hp as (Hwf & Hsz & Hc & Hok).
  pose proof (avail_range rb d Hwf). unfold pkt_index.
  rewrite !(umod_ring rb d Hwf) by lia. rewrite !(peek_contents rb d) by (done || lia).
  rewrite Hc, encs_app, encs_cons.
  assert (pkt_ok p) as Hpo.
  { apply Forall_app in Hok as [_ Hok]. by apply Forall_cons in Hok as [? _]. }
  destruct (header_at (encs ps) p (encs qs) Hpo) as (-> & -> & ->). done.
Qed.

Lemma at_packet_next :
  umod (pkt_index rb ps + zlen p.2 + DVB_RINGBUFFER_PKTHDRSIZE) (rb_size rb)
  = Some (pkt_index rb (ps ++ [p])).
Proof.
  pose proof at_packet_range as (H0 & H1 & H2). destruct Hp as (Hwf & Hsz & Hc & Hok).
  pose proof (avail_range rb d Hwf). unfold pkt_index, DVB_RINGBUFFER_PKTHDRSIZE.
  rewrite <- Z.add_assoc, (umod_ring rb d Hwf) by lia.
  rewrite encs_app, zlen_app, encs_one, zlen_enc.
  do 2 f_equal. lia.
Qed.
End at_packet.

(** The first packet of [ps] still to be read, with the packets before it. *)
Fixpoint first_ready (seen ps : list pkt) : option (list pkt * pkt) :=
  match ps with
  | [] => None
  | p :: ps => if p.1 =? PKT_READY then Some (seen, p) else first_ready (seen ++ [p]) ps
  end.

(** What [dvb_ringbuffer_pkt_next] is to answer: index and length. *)
Definition next_answer (rb : dvb_ringbuffer) (seen ps : list pkt) (pktlen : Z) : Z * Z :=
  match first_ready seen ps with
  | Some (before, p) => (pkt_index rb before, zlen p.2)
  | None => (-1, pktlen)
  end.

Lemma pkt_search_eq rb d rest : forall seen fuel pktlen,
  rb_pkts rb d (seen ++ rest) -> (length rest <= fuel)%nat ->
  pkt_search fuel rb (pkt_index rb seen) (zlen (encs seen)) pktlen
  = Some (next_answer rb seen rest pktlen).
Proof.
  unfold next_answer. induction rest as [|p rest IH]; intros seen fuel pktlen Hp Hfuel.
  - rewrite app_nil_r in Hp. pose proof (rb_pkts_avail _ _ _ Hp) as Ha.
    destruct fuel; cbn; rewrite Ha, Z.sub_diag; done.
  - cbn in Hfuel. destruct fuel as [|fuel]; [lia|]. cbn.
    destruct (at_packet_range _ _ _ _ _ Hp) as (H0 & H1 & H2).
    destruct (at_packet_bytes _ _ _ _ _ Hp) as (Hb0 & Hu1 & Hb1 & Hu2 & Hb2).
    pose proof (at_packet_next _ _ _ _ _ Hp) as Hn.
    pose proof Hp as (Hwf & Hsz & _ & _). pose proof (avail_range rb d Hwf).
    rewrite (proj2 (Z.gtb_lt _ _)) by (unfold DVB_RINGBUFFER_PKTHDRSIZE; lia).
    rewrite (wf_data _ _ Hwf). cbn. rewrite Hb0. cbn. rewrite Hu1. cbn.
    rewrite Hb1. cbn. rewrite Hu2. cbn.
    rewrite Hb2. cbn. rewrite pktlen_bytes by lia.
    destruct (p.1 =? PKT_READY); [done|]. rewrite Hn. cbn.
    replace (s32 (zlen (encs seen) + zlen p.2 + DVB_RINGBUFFER_PKTHDRSIZE))
      with (zlen (encs (seen ++ [p]))).
    2: { unfold DVB_RINGBUFFER_PKTHDRSIZE. rewrite s32_small by lia.
         rewrite encs_app, encs_one, zlen_app, zlen_enc. lia. }
    apply IH; [by rewrite <- app_assoc|lia].
Qed.

(** Where [dvb_ringbuffer_pkt_next] starts: at the first packet when the
    caller passes -1, after the packet [p] when it passes that packet's
    index. *)
Inductive next_from (rb : dvb_ringbuffer) : Z -> list pkt -> Prop :=
  | next_first : next_from rb (u64 (-1)) []
  | next_after ps p : next_from rb (pkt_index rb ps) (ps ++ [p]).

Lemma consumed_eq rb d seen rest :
  rb_pkts rb d (seen ++ rest) -> (rb_size rb | 2 ^ 64) ->
  umod (pkt_index rb seen - rb_pread rb) (rb_size rb) = Some (zlen (encs seen)).
Proof.
  intros Hp Hdiv. pose proof (rb_pkts_avail _ _ _ Hp) as Ha.
  destruct Hp as (Hwf & Hsz & _ & _). pose proof (avail_range rb d Hwf).
  pose proof Hwf as []. rewrite encs_app, zlen_app in Ha.
  pose proof (zlen_nonneg (encs seen)). pose proof (zlen_nonneg (encs rest)).
  unfold umod. rewrite (wrap_small 64 (rb_size rb)) by lia.
  destruct (Z.eqb_spec (rb_size rb) 0); [lia|]. f_equal. unfold wrap.
  rewrite Z.mod_mod_divide by done. unfold pkt_index.
  rewrite Zminus_mod_idemp_l.
  replace (rb_pread rb + zlen (encs seen) - rb_pread rb) with (zlen (encs seen)) by lia.
  apply Z.mod_small. lia.
Qed.

(** Fact: [dvb_ringbuffer_pkt_next], started with -1 or with the index
    of a packet, terminates, reads only inside the buffer and returns index
    and length of the first READY packet after its starting point, or -1
    when there is none, provided the size of the buffer divides 2^64 (the
    code computes [idx - pread] in unsigned arithmetic before reducing it). *)
Theorem pkt_next_spec rb d seen rest idx fuel pktlen :
  rb_pkts rb d (seen ++ rest) -> (rb_size rb | 2 ^ 64) ->
  next_from rb idx seen -> (length rest <= fuel)%nat ->
  dvb_ringbuffer_pkt_next fuel rb idx pktlen = Some (next_answer rb seen rest pktlen).
Proof.
  intros Hp Hdiv Hfrom Hfuel. pose proof Hp as (Hwf & Hsz & _ & _).
  pose proof Hwf as []. unfold dvb_ringbuffer_pkt_next.
  assert (0 <= zlen (encs seen) < 2 ^ 31) as Hz.
  { pose proof (rb_pkts_avail _ _ _ Hp) as Ha. pose proof (avail_range rb d Hwf).
    rewrite encs_app, zlen_app in Ha.
    pose proof (zlen_nonneg (encs seen)). pose proof (zlen_nonneg (encs rest)). lia. }
  assert (forall idx', idx' = Some (pkt_index rb seen) ->
    (idx ← idx'; consumed ← umod (idx - rb_pread rb) (rb_size rb);
     pkt_search fuel rb idx (s32 consumed) pktlen)
    = Some (next_answer rb seen rest pktlen)) as Hgo.
  { intros _ ->. cbn. rewrite (consumed_eq rb d seen rest) by done. cbn.
    rewrite s32_small by lia. by apply pkt_search_eq with d. }
  apply Hgo. destruct Hfrom as [|ps p].
  - rewrite Z.eqb_refl. unfold pkt_index. cbn. rewrite Z.add_0_r, Z.mod_small by lia.
    by rewrite wrap_small by lia.
  - rewrite <- app_assoc in Hp. cbn in Hp.
    assert (0 <= pkt_index rb ps < 2 ^ 31).
    { unfold pkt_index. pose proof (Z.mod_pos_bound (rb_pread rb + zlen (encs ps)) (rb_size rb)). lia. }
    destruct (Z.eqb_spec (pkt_index rb ps) (u64 (-1))) as [He|_].
    { change (u64 (-1)) with (2 ^ 64 - 1) in He. lia. }
    destruct (at_packet_range _ _ _ _ _ Hp) as (_ & _ & H2).
    destruct (at_packet_bytes _ _ _ _ _ Hp) as (Hb0 & Hu1 & Hb1 & _ & _).
    rewrite wf_data0. cbn. rewrite Hb0. cbn. rewrite Hu1. cbn. rewrite Hb1. cbn.
    rewrite pktlen_bytes by lia. by apply at_packet_next with d rest.
Qed.

(** Two packets in 16 bytes, the second one wrapping around the end: a
    disposed one of payload [5; 5] and a ready one of payload [7]. *)
Definition demo_mem : list Z := [0; 7; 9; 9; 9; 9; 9; 9; 9; 0; 2; 1; 5; 5; 0; 1].
Definition demo_pkts : dvb_ringbuffer := mk_rb (Some demo_mem) 16 9 2 0.

Lemma demo_pkts_rep :
  rb_pkts demo_pkts demo_mem [(1, [5; 5]); (0, [7])].
Proof.
  split; [split; cbn; done || lia|]. split; [cbn; lia|]. split; [reflexivity|].
  repeat constructor; unfold is_byte; cbn; lia.
Qed.

Lemma pkt_next_spec_witness :
  dvb_ringbuffer_pkt_next 2 demo_pkts (u64 (-1)) 99 = Some (14, 1).
Proof.
  apply (pkt_next_spec demo_pkts demo_mem [] [(1, [5; 5]); (0, [7])] (u64 (-1)) 2 99).
  - exact demo_pkts_rep.
  - exists (2 ^ 60). reflexivity.
  - constructor.
  - cbn. lia.
Defined.

Lemma pkt_write_appends_witness :
  exists rb' d', dvb_ringbuffer_pkt_write demo_pkts [1; 2; 3] 3 = Some (3, rb') /\
    rb_pkts rb' d' [(1, [5; 5]); (0, [7]); (0, [1; 2; 3])].
Proof.
  apply (pkt_write_appends demo_pkts demo_mem [(1, [5; 5]); (0, [7])] [1; 2; 3]).
  - exact demo_pkts_rep.
  - vm_compute. done.
  - vm_compute. discriminate.
Defined.

(** Fact: in a buffer whose size does not divide 2^64 the search can
    step over live data: with 100 bytes, the read index at 96, one packet at
    96 whose payload ends the wrap and a READY packet after it,
    [dvb_ringbuffer_pkt_next] started at the first packet answers -1 although
    the second packet is waiting. *)
Theorem pkt_next_misses_packet :
  let mem := [9; 0; 1; 0; 7] ++ replicate 91 0 ++ [0; 2; 0; 8] in
  let rb := mk_rb (Some mem) 100 96 5 0 in
  rb_pkts rb mem [(0, [8; 9]); (0, [7])] /\
  next_answer rb [(0, [8; 9])] [(0, [7])] 0 = (1, 1) /\
  dvb_ringbuffer_pkt_next 100 rb 96 0 = Some (-1, 0).
Proof.
  split; [|split; vm_compute; reflexivity].
  split; [split; cbn; done || lia|]. split; [cbn; lia|]. split; [reflexivity|].
  repeat constructor; unfold is_byte; cbn; lia.
Qed.

(** The copying part of [dvb_ringbuffer_pkt_read] fetches circularly. *)
Lemma ring_fetch d idx len :
  0 < zlen d < 2 ^ 62 -> 0 <= idx < zlen d -> 0 <= len <= zlen d ->
  (let split := ring_split idx len (zlen d) in
   if 0 <? split then
     s ← mread d idx split; t ← mread d 0 (u64 (len - split)); Some (len, s ++ t)
   else t ← mread d idx len; Some (len, t)) = Some (len, ring d idx len).
Proof.
  intros Hd Hidx Hlen. cbn. rewrite ring_split_eq by lia.
  destruct (Z.ltb_spec (zlen d) (idx + len)).
  - rewrite (proj2 (Z.ltb_lt _ _)) by lia.
    rewrite (mread_Some d idx) by lia. cbn. rewrite wrap_small, mread_Some by lia. cbn.
    by rewrite ring_wrap by lia.
  - cbn. rewrite mread_Some by lia. cbn. by rewrite ring_slice by lia.
Qed.

(** Fact: [dvb_ringbuffer_pkt_read] on the index of a packet returns the
    requested part of its payload, cut at the payload's end, without leaving
    the buffer's memory, and -EINVAL for an offset past the payload's end. *)
Theorem pkt_read_spec rb d ps p qs offset len :
  rb_pkts rb d (ps ++ p :: qs) -> 0 <= offset < 2 ^ 31 -> 0 <= len < 2 ^ 63 ->
  dvb_ringbuffer_pkt_read rb (pkt_index rb ps) offset len =
    Some (if zlen p.2 <? offset then (- EINVAL, [])
          else let n := Z.min len (zlen p.2 - offset) in (n, slice p.2 offset n)).
Proof.
  intros Hp Hoff Hlen. destruct (at_packet_range _ _ _ _ _ Hp) as (H0 & H1 & H2).
  destruct (at_packet_bytes _ _ _ _ _ Hp) as (Hb0 & Hu1 & Hb1 & _ & _).
  pose proof Hp as (Hwf & Hsz & Hc & _). pose proof (avail_range rb d Hwf).
  pose proof Hwf as []. unfold dvb_ringbuffer_pkt_read, DVB_RINGBUFFER_PKTHDRSIZE.
  rewrite wf_data0. cbn. rewrite Hb0. cbn. rewrite Hu1. cbn. rewrite Hb1. cbn.
  rewrite pktlen_bytes, (wrap_small 64 offset), (Z.gtb_ltb offset) by lia.
  destruct (Z.ltb_spec (zlen p.2) offset); [done|].
  set (n := Z.min len (zlen p.2 - offset)).
  replace (if u64 (offset + len) >? zlen p.2 then u64 (zlen p.2 - offset) else len)
    with n by (rewrite !wrap_small, Z.gtb_ltb by lia; ztest; lia).
  assert (0 <= n <= zlen p.2 - offset) by lia.
  unfold pkt_index. rewrite <- Z.add_assoc, (umod_ring rb d Hwf) by lia. cbn.
  rewrite <- wf_size0 at 3 4. rewrite <- wf_size0.
  pose proof (Z.mod_pos_bound (rb_pread rb + (zlen (encs ps) + (3 + offset))) (zlen d)).
  rewrite ring_fetch by lia. do 2 f_equal. rewrite ring_mod.
  apply mget_ext. { rewrite zlen_ring, zlen_slice by lia. done. }
  rewrite zlen_ring by lia. intros i Hi. rewrite mget_ring, mget_slice by lia.
  rewrite <- Z.add_assoc, wf_size0, (peek_contents rb d) by (done || lia).
  rewrite Hc, encs_app, encs_cons, mget_app_r by lia. unfold enc.
  rewrite <- app_assoc, mget_app_r by (change (zlen [_; _; _]) with 3; lia).
  change (zlen [_; _; _]) with 3. rewrite mget_app_l by lia. f_equal. lia.
Qed.

Lemma pkt_read_spec_witness :
  dvb_ringbuffer_pkt_read demo_pkts 9 1 100 = Some (1, [5]).
Proof.
  apply (pkt_read_spec demo_pkts demo_mem [] (1, [5; 5]) [(0, [7])] 1 100).
  - exact demo_pkts_rep.
  - lia.
  - lia.
Defined.

(** The packets left once the disposed ones at the front are cleaned up. *)
Fixpoint drop_disposed (ps : list pkt) : list pkt :=
  match ps with
  | [] => []
  | p :: qs => if p.1 =? PKT_DISPOSED then drop_disposed qs else ps
  end.

Lemma pkt_clean_eq d ps : forall rb fuel,
  rb_pkts rb d ps -> (length ps <= fuel)%nat ->
  exists rb', pkt_clean fuel rb = Some rb' /\ rb_pkts rb' d (drop_disposed ps).
Proof.
  induction ps as [|p ps IH]; intros rb fuel Hp Hfuel.
  - pose proof (rb_pkts_avail _ _ _ Hp) as Ha. exists rb. cbn.
    destruct fuel; cbn; rewrite Ha; done.
  - destruct fuel as [|fuel]; cbn in Hfuel; [lia|]. cbn.
    destruct (at_packet_range _ _ [] _ _ Hp) as (H0 & H1 & H2).
    cbn in H0, H1. pose proof Hp as (Hwf & Hsz & Hc & Hok).
    pose proof (avail_range rb d Hwf). rewrite encs_cons in Hc.
    rewrite (proj2 (Z.gtb_lt _ _)) by (unfold DVB_RINGBUFFER_PKTHDRSIZE; lia).
    pose proof (proj1 (proj1 (Forall_cons _ _ _) Hok)) as Hpo.
    destruct (header_at [] p (encs ps) Hpo) as (Hh0 & Hh1 & Hh2).
    rewrite !app_nil_l, zlen_nil in *. change (0 + 1) with 1 in Hh1. change (0 + 2) with 2 in Hh2.
    rewrite !(PEEK_eq rb d Hwf 2), (PEEK_eq rb d Hwf 0), (PEEK_eq rb d Hwf 1) by lia.
    rewrite Hc, Hh2. cbn [mbind option_bind].
    destruct (p.1 =? PKT_DISPOSED); [|by exists rb].
    rewrite Hh0, Hh1. cbn [mbind option_bind]. rewrite pktlen_bytes by lia.
    rewrite (SKIP_eq rb d Hwf) by (unfold DVB_RINGBUFFER_PKTHDRSIZE; lia). cbn.
    apply IH; [|lia]. unfold DVB_RINGBUFFER_PKTHDRSIZE.
    destruct (contents_consume rb d (zlen p.2 + 3) Hwf) as (Hwf' & Hc' & _); [lia|].
    split; [done|]. split; [done|]. split; [|by apply Forall_cons in Hok as [_ ?]].
    rewrite Hc', Hc. apply drop_app_length'.
    pose proof (zlen_enc p) as Hz. unfold zlen in *. lia.
Qed.

(** Fact: [dvb_ringbuffer_pkt_dispose] on the index of a packet marks
    that packet and then removes every disposed packet from the front of the
    buffer: packets disposed of out of order stay until all older ones are
    disposed of, and no packet that is not disposed is lost.  The cleaning
    loop terminates and stays inside the buffer. *)
Theorem pkt_dispose_spec rb d ps p qs fuel :
  rb_pkts rb d (ps ++ p :: qs) -> (length (ps ++ p :: qs) <= fuel)%nat ->
  exists rb' d', dvb_ringbuffer_pkt_dispose fuel rb (pkt_index rb ps) = Some rb' /\
    rb_pkts rb' d' (drop_disposed (ps ++ (PKT_DISPOSED, p.2) :: qs)).
Proof.
  intros Hp Hfuel. destruct (at_packet_range _ _ _ _ _ Hp) as (H0 & H1 & H2).
  destruct (at_packet_bytes _ _ _ _ _ Hp) as (_ & _ & _ & Hu2 & _).
  pose proof Hp as (Hwf & Hsz & Hc & Hok). pose proof (avail_range rb d Hwf).
  unfold dvb_ringbuffer_pkt_dispose. rewrite (wf_data _ _ Hwf). cbn. rewrite Hu2. cbn.
  destruct (contents_mset rb d (zlen (encs ps) + 2) PKT_DISPOSED Hwf)
    as (d' & -> & Hwf' & Hc'); [lia|]. cbn.
  destruct (pkt_clean_eq d' (ps ++ (PKT_DISPOSED, p.2) :: qs)
    (set_data rb (Some d')) fuel) as (rb' & -> & Hp'); [|by rewrite length_app in *|by eauto].
  split; [done|]. split; [done|]. split.
  - rewrite Hc', Hc, !encs_app, !encs_cons.
    rewrite insert_app_r_alt by (unfold zlen in *; lia). f_equal.
    replace (Z.to_nat (zlen (encs ps) + 2) - length (encs ps))%nat with 2%nat
      by (unfold zlen; lia). done.
  - apply Forall_app in Hok as [? Hok]. apply Forall_cons in Hok as [[Hr _] ?].
    apply Forall_app. split; [done|]. constructor; [|done]. split; [done|].
    unfold is_byte, PKT_DISPOSED. cbn. lia.
Qed.

Lemma pkt_dispose_spec_witness :
  exists rb' d', dvb_ringbuffer_pkt_dispose 2 demo_pkts 14 = Some rb' /\ rb_pkts rb' d' [].
Proof.
  apply (pkt_dispose_spec demo_pkts demo_mem [(1, [5; 5])] (0, [7]) [] 2).
  - exact demo_pkts_rep.
  - cbn. lia.
Defined.
