(* ===== verification/DemuxTypes.v ===== *)
(** The data of the DVB demultiplexer, drivers/media/dvb/dvb-core/demux.h and
    dvb_demux.h: one record per structure, with a setter per field.

    [dvb_demux] owns two arrays, the feeds and the section filters; a pointer
    to an element is its index.  [feed_list] is the demux's list of set feeds
    and [next] links the filters of a section feed.  The clients' callbacks
    and the hardware hooks are outside these files: a call of one is an entry
    of [dx_log], oldest first. *)

From S2P Require Import Prelude.

Definition DMX_TYPE_TS : Z := 0.
Definition DMX_TYPE_SEC : Z := 1.

Definition DMX_STATE_FREE : Z := 0.
Definition DMX_STATE_ALLOCATED : Z := 1.
Definition DMX_STATE_SET : Z := 2.
Definition DMX_STATE_READY : Z := 3.
Definition DMX_STATE_GO : Z := 4.

Definition DVB_DEMUX_MASK_MAX : nat := 18.
Definition MAX_PID : Z := 0x1fff.
Definition DMX_MAX_PID : Z := 0x2000.
Definition SPEED_PKTS_INTERVAL : Z := 50000.
Definition MAX_DVB_DEMUX_USERS : Z := 10.
Definition DMX_MAX_SECTION_SIZE : Z := 4096.
Definition DMX_MAX_SECFEED_SIZE : Z := 4096 + 188.

Definition TS_PACKET : Z := 1.
Definition TS_PAYLOAD_ONLY : Z := 2.
Definition TS_DECODER : Z := 4.
Definition TS_DEMUX : Z := 8.

(** The last member of [enum dmx_ts_pes]: four groups of five come first. *)
Definition DMX_TS_PES_OTHER : Z := 20.

(** A section filter ([struct dvb_demux_filter] with its [dmx_section_filter]). *)
Record dvb_demux_filter := mk_filter {
  filter_value : list Z;   (* u8[18] *)
  filter_mask : list Z;   (* u8[18] *)
  filter_mode : list Z;   (* u8[18] *)
  filter_priv : option nat;   (* client data of the section filter *)
  maskandmode : list Z;   (* u8[18] *)
  maskandnotmode : list Z;   (* u8[18] *)
  doneq : Z;   (* int *)
  next : option nat;   (* next filter of the feed *)
  filter_feed : option nat;   (* owning feed *)
  filter_index : Z;   (* int *)
  filter_state : Z;   (* DMX_STATE_* *)
  filter_type : Z;   (* DMX_TYPE_* *)
}.

Definition set_filter_value (v : list Z) (r : dvb_demux_filter) : dvb_demux_filter :=
  mk_filter v (filter_mask r) (filter_mode r) (filter_priv r) (maskandmode r)
    (maskandnotmode r) (doneq r) (next r) (filter_feed r) (filter_index r)
    (filter_state r) (filter_type r).
Definition set_filter_mask (v : list Z) (r : dvb_demux_filter) : dvb_demux_filter :=
  mk_filter (filter_value r) v (filter_mode r) (filter_priv r) (maskandmode r)
    (maskandnotmode r) (doneq r) (next r) (filter_feed r) (filter_index r)
    (filter_state r) (filter_type r).
Definition set_filter_mode (v : list Z) (r : dvb_demux_filter) : dvb_demux_filter :=
  mk_filter (filter_value r) (filter_mask r) v (filter_priv r) (maskandmode r)
    (maskandnotmode r) (doneq r) (next r) (filter_feed r) (filter_index r)
    (filter_state r) (filter_type r).
Definition set_filter_priv (v : option nat) (r : dvb_demux_filter) : dvb_demux_filter :=
  mk_filter (filter_value r) (filter_mask r) (filter_mode r) v (maskandmode r)
    (maskandnotmode r) (doneq r) (next r) (filter_feed r) (filter_index r)
    (filter_state r) (filter_type r).
Definition set_maskandmode (v : list Z) (r : dvb_demux_filter) : dvb_demux_filter :=
  mk_filter (filter_value r) (filter_mask r) (filter_mode r) (filter_priv r) v
    (maskandnotmode r) (doneq r) (next r) (filter_feed r) (filter_index r)
    (filter_state r) (filter_type r).
Definition set_maskandnotmode (v : list Z) (r : dvb_demux_filter) : dvb_demux_filter :=
  mk_filter (filter_value r) (filter_mask r) (filter_mode r) (filter_priv r)
    (maskandmode r) v (doneq r) (next r) (filter_feed r) (filter_index r)
    (filter_state r) (filter_type r).
Definition set_doneq (v : Z) (r : dvb_demux_filter) : dvb_demux_filter :=
  mk_filter (filter_value r) (filter_mask r) (filter_mode r) (filter_priv r)
    (maskandmode r) (maskandnotmode r) v (next r) (filter_feed r) (filter_index r)
    (filter_state r) (filter_type r).
Definition set_next (v : option nat) (r : dvb_demux_filter) : dvb_demux_filter :=
  mk_filter (filter_value r) (filter_mask r) (filter_mode r) (filter_priv r)
    (maskandmode r) (maskandnotmode r) (doneq r) v (filter_feed r) (filter_index r)
    (filter_state r) (filter_type r).
Definition set_filter_feed (v : option nat) (r : dvb_demux_filter) : dvb_demux_filter :=
  mk_filter (filter_value r) (filter_mask r) (filter_mode r) (filter_priv r)
    (maskandmode r) (maskandnotmode r) (doneq r) (next r) v (filter_index r)
    (filter_state r) (filter_type r).
Definition set_filter_index (v : Z) (r : dvb_demux_filter) : dvb_demux_filter :=
  mk_filter (filter_value r) (filter_mask r) (filter_mode r) (filter_priv r)
    (maskandmode r) (maskandnotmode r) (doneq r) (next r) (filter_feed r) v
    (filter_state r) (filter_type r).
Definition set_filter_state (v : Z) (r : dvb_demux_filter) : dvb_demux_filter :=
  mk_filter (filter_value r) (filter_mask r) (filter_mode r) (filter_priv r)
    (maskandmode r) (maskandnotmode r) (doneq r) (next r) (filter_feed r)
    (filter_index r) v (filter_type r).
Definition set_filter_type (v : Z) (r : dvb_demux_filter) : dvb_demux_filter :=
  mk_filter (filter_value r) (filter_mask r) (filter_mode r) (filter_priv r)
    (maskandmode r) (maskandnotmode r) (doneq r) (next r) (filter_feed r)
    (filter_index r) (filter_state r) v.

(** A feed.  The [ts] and [sec] members of its union start with the same
    fields ([is_filtering], [parent], [priv]), kept once here. *)
Record dvb_demux_feed := mk_feed {
  is_filtering : bool;   (* of the ts and the sec member *)
  feed_priv : option nat;   (* client data *)
  check_crc : Z;   (* int *)
  crc_val : Z;   (* u32 *)
  secbuf : Z;   (* offset of the pointer in [secbuf_base] *)
  secbuf_base : list Z;   (* u8[DMX_MAX_SECFEED_SIZE] *)
  secbufp : Z;   (* u16 *)
  seclen : Z;   (* u16 *)
  tsfeedp : Z;   (* u16 *)
  feed_type : Z;   (* DMX_TYPE_* *)
  feed_state : Z;   (* DMX_STATE_* *)
  pid : Z;   (* u16 *)
  buffer_size : Z;   (* int *)
  timeout : Z * Z;   (* struct timespec *)
  feed_filter : option nat;   (* first filter *)
  ts_type : Z;   (* TS_* flags *)
  pes_type : Z;   (* enum dmx_ts_pes *)
  cc : Z;   (* int *)
  pusi_seen : Z;   (* int *)
  peslen : Z;   (* u16 *)
  feed_index : Z;   (* unsigned *)
}.

Definition set_is_filtering (v : bool) (r : dvb_demux_feed) : dvb_demux_feed :=
  mk_feed v (feed_priv r) (check_crc r) (crc_val r) (secbuf r) (secbuf_base r)
    (secbufp r) (seclen r) (tsfeedp r) (feed_type r) (feed_state r) (pid r)
    (buffer_size r) (timeout r) (feed_filter r) (ts_type r) (pes_type r) (cc r)
    (pusi_seen r) (peslen r) (feed_index r).
Definition set_feed_priv (v : option nat) (r : dvb_demux_feed) : dvb_demux_feed :=
  mk_feed (is_filtering r) v (check_crc r) (crc_val r) (secbuf r) (secbuf_base r)
    (secbufp r) (seclen r) (tsfeedp r) (feed_type r) (feed_state r) (pid r)
    (buffer_size r) (timeout r) (feed_filter r) (ts_type r) (pes_type r) (cc r)
    (pusi_seen r) (peslen r) (feed_index r).
Definition set_check_crc (v : Z) (r : dvb_demux_feed) : dvb_demux_feed :=
  mk_feed (is_filtering r) (feed_priv r) v (crc_val r) (secbuf r) (secbuf_base r)
    (secbufp r) (seclen r) (tsfeedp r) (feed_type r) (feed_state r) (pid r)
    (buffer_size r) (timeout r) (feed_filter r) (ts_type r) (pes_type r) (cc r)
    (pusi_seen r) (peslen r) (feed_index r).
Definition set_crc_val (v : Z) (r : dvb_demux_feed) : dvb_demux_feed :=
  mk_feed (is_filtering r) (feed_priv r) (check_crc r) v (secbuf r) (secbuf_base r)
    (secbufp r) (seclen r) (tsfeedp r) (feed_type r) (feed_state r) (pid r)
    (buffer_size r) (timeout r) (feed_filter r) (ts_type r) (pes_type r) (cc r)
    (pusi_seen r) (peslen r) (feed_index r).
Definition set_secbuf (v : Z) (r : dvb_demux_feed) : dvb_demux_feed :=
  mk_feed (is_filtering r) (feed_priv r) (check_crc r) (crc_val r) v (secbuf_base r)
    (secbufp r) (seclen r) (tsfeedp r) (feed_type r) (feed_state r) (pid r)
    (buffer_size r) (timeout r) (feed_filter r) (ts_type r) (pes_type r) (cc r)
    (pusi_seen r) (peslen r) (feed_index r).
Definition set_secbuf_base (v : list Z) (r : dvb_demux_feed) : dvb_demux_feed :=
  mk_feed (is_filtering r) (feed_priv r) (check_crc r) (crc_val r) (secbuf r) v
    (secbufp r) (seclen r) (tsfeedp r) (feed_type r) (feed_state r) (pid r)
    (buffer_size r) (timeout r) (feed_filter r) (ts_type r) (pes_type r) (cc r)
    (pusi_seen r) (peslen r) (feed_index r).
Definition set_secbufp (v : Z) (r : dvb_demux_feed) : dvb_demux_feed :=
  mk_feed (is_filtering r) (feed_priv r) (check_crc r) (crc_val r) (secbuf r)
    (secbuf_base r) v (seclen r) (tsfeedp r) (feed_type r) (feed_state r) (pid r)
    (buffer_size r) (timeout r) (feed_filter r) (ts_type r) (pes_type r) (cc r)
    (pusi_seen r) (peslen r) (feed_index r).
Definition set_seclen (v : Z) (r : dvb_demux_feed) : dvb_demux_feed :=
  mk_feed (is_filtering r) (feed_priv r) (check_crc r) (crc_val r) (secbuf r)
    (secbuf_base r) (secbufp r) v (tsfeedp r) (feed_type r) (feed_state r) (pid r)
    (buffer_size r) (timeout r) (feed_filter r) (ts_type r) (pes_type r) (cc r)
    (pusi_seen r) (peslen r) (feed_index r).
Definition set_tsfeedp (v : Z) (r : dvb_demux_feed) : dvb_demux_feed :=
  mk_feed (is_filtering r) (feed_priv r) (check_crc r) (crc_val r) (secbuf r)
    (secbuf_base r) (secbufp r) (seclen r) v (feed_type r) (feed_state r) (pid r)
    (buffer_size r) (timeout r) (feed_filter r) (ts_type r) (pes_type r) (cc r)
    (pusi_seen r) (peslen r) (feed_index r).
Definition set_feed_type (v : Z) (r : dvb_demux_feed) : dvb_demux_feed :=
  mk_feed (is_filtering r) (feed_priv r) (check_crc r) (crc_val r) (secbuf r)
    (secbuf_base r) (secbufp r) (seclen r) (tsfeedp r) v (feed_state r) (pid r)
    (buffer_size r) (timeout r) (feed_filter r) (ts_type r) (pes_type r) (cc r)
    (pusi_seen r) (peslen r) (feed_index r).
Definition set_feed_state (v : Z) (r : dvb_demux_feed) : dvb_demux_feed :=
  mk_feed (is_filtering r) (feed_priv r) (check_crc r) (crc_val r) (secbuf r)
    (secbuf_base r) (secbufp r) (seclen r) (tsfeedp r) (feed_type r) v (pid r)
    (buffer_size r) (timeout r) (feed_filter r) (ts_type r) (pes_type r) (cc r)
    (pusi_seen r) (peslen r) (feed_index r).
Definition set_pid (v : Z) (r : dvb_demux_feed) : dvb_demux_feed :=
  mk_feed (is_filtering r) (feed_priv r) (check_crc r) (crc_val r) (secbuf r)
    (secbuf_base r) (secbufp r) (seclen r) (tsfeedp r) (feed_type r)
    (feed_state r) v (buffer_size r) (timeout r) (feed_filter r) (ts_type r)
    (pes_type r) (cc r) (pusi_seen r) (peslen r) (feed_index r).
Definition set_buffer_size (v : Z) (r : dvb_demux_feed) : dvb_demux_feed :=
  mk_feed (is_filtering r) (feed_priv r) (check_crc r) (crc_val r) (secbuf r)
    (secbuf_base r) (secbufp r) (seclen r) (tsfeedp r) (feed_type r) (feed_state r)
    (pid r) v (timeout r) (feed_filter r) (ts_type r) (pes_type r) (cc r)
    (pusi_seen r) (peslen r) (feed_index r).
Definition set_timeout (v : Z * Z) (r : dvb_demux_feed) : dvb_demux_feed :=
  mk_feed (is_filtering r) (feed_priv r) (check_crc r) (crc_val r) (secbuf r)
    (secbuf_base r) (secbufp r) (seclen r) (tsfeedp r) (feed_type r) (feed_state r)
    (pid r) (buffer_size r) v (feed_filter r) (ts_type r) (pes_type r) (cc r)
    (pusi_seen r) (peslen r) (feed_index r).
Definition set_feed_filter (v : option nat) (r : dvb_demux_feed) : dvb_demux_feed :=
  mk_feed (is_filtering r) (feed_priv r) (check_crc r) (crc_val r) (secbuf r)
    (secbuf_base r) (secbufp r) (seclen r) (tsfeedp r) (feed_type r) (feed_state r)
    (pid r) (buffer_size r) (timeout r) v (ts_type r) (pes_type r) (cc r)
    (pusi_seen r) (peslen r) (feed_index r).
Definition set_ts_type (v : Z) (r : dvb_demux_feed) : dvb_demux_feed :=
  mk_feed (is_filtering r) (feed_priv r) (check_crc r) (crc_val r) (secbuf r)
    (secbuf_base r) (secbufp r) (seclen r) (tsfeedp r) (feed_type r) (feed_state r)
    (pid r) (buffer_size r) (timeout r) (feed_filter r) v (pes_type r) (cc r)
    (pusi_seen r) (peslen r) (feed_index r).
Definition set_pes_type (v : Z) (r : dvb_demux_feed) : dvb_demux_feed :=
  mk_feed (is_filtering r) (feed_priv r) (check_crc r) (crc_val r) (secbuf r)
    (secbuf_base r) (secbufp r) (seclen r) (tsfeedp r) (feed_type r) (feed_state r)
    (pid r) (buffer_size r) (timeout r) (feed_filter r) (ts_type r) v (cc r)
    (pusi_seen r) (peslen r) (feed_index r).
Definition set_cc (v : Z) (r : dvb_demux_feed) : dvb_demux_feed :=
  mk_feed (is_filtering r) (feed_priv r) (check_crc r) (crc_val r) (secbuf r)
    (secbuf_base r) (secbufp r) (seclen r) (tsfeedp r) (feed_type r) (feed_state r)
    (pid r) (buffer_size r) (timeout r) (feed_filter r) (ts_type r) (pes_type r) v
    (pusi_seen r) (peslen r) (feed_index r).
Definition set_pusi_seen (v : Z) (r : dvb_demux_feed) : dvb_demux_feed :=
  mk_feed (is_filtering r) (feed_priv r) (check_crc r) (crc_val r) (secbuf r)
    (secbuf_base r) (secbufp r) (seclen r) (tsfeedp r) (feed_type r) (feed_state r)
    (pid r) (buffer_size r) (timeout r) (feed_filter r) (ts_type r) (pes_type r)
    (cc r) v (peslen r) (feed_index r).
Definition set_peslen (v : Z) (r : dvb_demux_feed) : dvb_demux_feed :=
  mk_feed (is_filtering r) (feed_priv r) (check_crc r) (crc_val r) (secbuf r)
    (secbuf_base r) (secbufp r) (seclen r) (tsfeedp r) (feed_type r) (feed_state r)
    (pid r) (buffer_size r) (timeout r) (feed_filter r) (ts_type r) (pes_type r)
    (cc r) (pusi_seen r) v (feed_index r).
Definition set_feed_index (v : Z) (r : dvb_demux_feed) : dvb_demux_feed :=
  mk_feed (is_filtering r) (feed_priv r) (check_crc r) (crc_val r) (secbuf r)
    (secbuf_base r) (secbufp r) (seclen r) (tsfeedp r) (feed_type r) (feed_state r)
    (pid r) (buffer_size r) (timeout r) (feed_filter r) (ts_type r) (pes_type r)
    (cc r) (pusi_seen r) (peslen r) v.

(** Calls out of the demultiplexer. *)
Inductive dmx_call :=
  | CallTs (feed : nat) (data : list Z)               (* feed->cb.ts *)
  | CallSec (feed filter : nat) (data : list Z)       (* feed->cb.sec *)
  | CallDecoder (feed : nat) (data : list Z)          (* demux->write_to_decoder *)
  | CallStartFeed (feed : nat)                        (* demux->start_feed *)
  | CallStopFeed (feed : nat).                        (* demux->stop_feed *)

(** The demultiplexer. *)
Record dvb_demux := mk_demux {
  dx_filter : list dvb_demux_filter;   (* filternum elements *)
  dx_feed : list dvb_demux_feed;   (* feednum elements *)
  has_start_feed : bool;   (* start_feed != NULL *)
  has_stop_feed : bool;
  has_write_to_decoder : bool;
  users : Z;   (* int *)
  frontend_list : list nat;
  frontend : option nat;   (* connected front-end *)
  pesfilter : list (option nat);   (* DMX_TS_PES_OTHER feeds *)
  pids : list Z;   (* u16 each *)
  playing : Z;   (* int *)
  recording : Z;   (* int *)
  feed_list : list nat;   (* set feeds, most recent first *)
  dx_mutex : bool;   (* the mutex is held *)
  tsbuf : list Z;   (* u8[204] *)
  tsbufp : Z;   (* int *)
  cnt_storage : option (list Z);   (* expected continuity counters *)
  speed_last_time : Z * Z;   (* sec, nsec *)
  speed_pkts_cnt : Z;   (* u32 *)
  clock_reads : nat;   (* ghost: reads of the kernel clock so far *)
  dx_log : list dmx_call;   (* calls made so far *)
}.

Definition set_dx_filter (v : list dvb_demux_filter) (r : dvb_demux) : dvb_demux :=
  mk_demux v (dx_feed r) (has_start_feed r) (has_stop_feed r)
    (has_write_to_decoder r) (users r) (frontend_list r) (frontend r) (pesfilter r)
    (pids r) (playing r) (recording r) (feed_list r) (dx_mutex r) (tsbuf r)
    (tsbufp r) (cnt_storage r) (speed_last_time r) (speed_pkts_cnt r)
    (clock_reads r) (dx_log r).
Definition set_dx_feed (v : list dvb_demux_feed) (r : dvb_demux) : dvb_demux :=
  mk_demux (dx_filter r) v (has_start_feed r) (has_stop_feed r)
    (has_write_to_decoder r) (users r) (frontend_list r) (frontend r) (pesfilter r)
    (pids r) (playing r) (recording r) (feed_list r) (dx_mutex r) (tsbuf r)
    (tsbufp r) (cnt_storage r) (speed_last_time r) (speed_pkts_cnt r)
    (clock_reads r) (dx_log r).
Definition set_has_start_feed (v : bool) (r : dvb_demux) : dvb_demux :=
  mk_demux (dx_filter r) (dx_feed r) v (has_stop_feed r) (has_write_to_decoder r)
    (users r) (frontend_list r) (frontend r) (pesfilter r) (pids r) (playing r)
    (recording r) (feed_list r) (dx_mutex r) (tsbuf r) (tsbufp r) (cnt_storage r)
    (speed_last_time r) (speed_pkts_cnt r) (clock_reads r) (dx_log r).
Definition set_has_stop_feed (v : bool) (r : dvb_demux) : dvb_demux :=
  mk_demux (dx_filter r) (dx_feed r) (has_start_feed r) v (has_write_to_decoder r)
    (users r) (frontend_list r) (frontend r) (pesfilter r) (pids r) (playing r)
    (recording r) (feed_list r) (dx_mutex r) (tsbuf r) (tsbufp r) (cnt_storage r)
    (speed_last_time r) (speed_pkts_cnt r) (clock_reads r) (dx_log r).
Definition set_has_write_to_decoder (v : bool) (r : dvb_demux) : dvb_demux :=
  mk_demux (dx_filter r) (dx_feed r) (has_start_feed r) (has_stop_feed r) v
    (users r) (frontend_list r) (frontend r) (pesfilter r) (pids r) (playing r)
    (recording r) (feed_list r) (dx_mutex r) (tsbuf r) (tsbufp r) (cnt_storage r)
    (speed_last_time r) (speed_pkts_cnt r) (clock_reads r) (dx_log r).
Definition set_users (v : Z) (r : dvb_demux) : dvb_demux :=
  mk_demux (dx_filter r) (dx_feed r) (has_start_feed r) (has_stop_feed r)
    (has_write_to_decoder r) v (frontend_list r) (frontend r) (pesfilter r) (pids r)
    (playing r) (recording r) (feed_list r) (dx_mutex r) (tsbuf r) (tsbufp r)
    (cnt_storage r) (speed_last_time r) (speed_pkts_cnt r) (clock_reads r)
    (dx_log r).
Definition set_frontend_list (v : list nat) (r : dvb_demux) : dvb_demux :=
  mk_demux (dx_filter r) (dx_feed r) (has_start_feed r) (has_stop_feed r)
    (has_write_to_decoder r) (users r) v (frontend r) (pesfilter r) (pids r)
    (playing r) (recording r) (feed_list r) (dx_mutex r) (tsbuf r) (tsbufp r)
    (cnt_storage r) (speed_last_time r) (speed_pkts_cnt r) (clock_reads r)
    (dx_log r).
Definition set_frontend (v : option nat) (r : dvb_demux) : dvb_demux :=
  mk_demux (dx_filter r) (dx_feed r) (has_start_feed r) (has_stop_feed r)
    (has_write_to_decoder r) (users r) (frontend_list r) v (pesfilter r) (pids r)
    (playing r) (recording r) (feed_list r) (dx_mutex r) (tsbuf r) (tsbufp r)
    (cnt_storage r) (speed_last_time r) (speed_pkts_cnt r) (clock_reads r)
    (dx_log r).
Definition set_pesfilter (v : list (option nat)) (r : dvb_demux) : dvb_demux :=
  mk_demux (dx_filter r) (dx_feed r) (has_start_feed r) (has_stop_feed r)
    (has_write_to_decoder r) (users r) (frontend_list r) (frontend r) v (pids r)
    (playing r) (recording r) (feed_list r) (dx_mutex r) (tsbuf r) (tsbufp r)
    (cnt_storage r) (speed_last_time r) (speed_pkts_cnt r) (clock_reads r)
    (dx_log r).
Definition set_pids (v : list Z) (r : dvb_demux) : dvb_demux :=
  mk_demux (dx_filter r) (dx_feed r) (has_start_feed r) (has_stop_feed r)
    (has_write_to_decoder r) (users r) (frontend_list r) (frontend r)
    (pesfilter r) v (playing r) (recording r) (feed_list r) (dx_mutex r) (tsbuf r)
    (tsbufp r) (cnt_storage r) (speed_last_time r) (speed_pkts_cnt r)
    (clock_reads r) (dx_log r).
Definition set_playing (v : Z) (r : dvb_demux) : dvb_demux :=
  mk_demux (dx_filter r) (dx_feed r) (has_start_feed r) (has_stop_feed r)
    (has_write_to_decoder r) (users r) (frontend_list r) (frontend r) (pesfilter r)
    (pids r) v (recording r) (feed_list r) (dx_mutex r) (tsbuf r) (tsbufp r)
    (cnt_storage r) (speed_last_time r) (speed_pkts_cnt r) (clock_reads r)
    (dx_log r).
Definition set_recording (v : Z) (r : dvb_demux) : dvb_demux :=
  mk_demux (dx_filter r) (dx_feed r) (has_start_feed r) (has_stop_feed r)
    (has_write_to_decoder r) (users r) (frontend_list r) (frontend r) (pesfilter r)
    (pids r) (playing r) v (feed_list r) (dx_mutex r) (tsbuf r) (tsbufp r)
    (cnt_storage r) (speed_last_time r) (speed_pkts_cnt r) (clock_reads r)
    (dx_log r).
Definition set_feed_list (v : list nat) (r : dvb_demux) : dvb_demux :=
  mk_demux (dx_filter r) (dx_feed r) (has_start_feed r) (has_stop_feed r)
    (has_write_to_decoder r) (users r) (frontend_list r) (frontend r) (pesfilter r)
    (pids r) (playing r) (recording r) v (dx_mutex r) (tsbuf r) (tsbufp r)
    (cnt_storage r) (speed_last_time r) (speed_pkts_cnt r) (clock_reads r)
    (dx_log r).
Definition set_dx_mutex (v : bool) (r : dvb_demux) : dvb_demux :=
  mk_demux (dx_filter r) (dx_feed r) (has_start_feed r) (has_stop_feed r)
    (has_write_to_decoder r) (users r) (frontend_list r) (frontend r) (pesfilter r)
    (pids r) (playing r) (recording r) (feed_list r) v (tsbuf r) (tsbufp r)
    (cnt_storage r) (speed_last_time r) (speed_pkts_cnt r) (clock_reads r)
    (dx_log r).
Definition set_tsbuf (v : list Z) (r : dvb_demux) : dvb_demux :=
  mk_demux (dx_filter r) (dx_feed r) (has_start_feed r) (has_stop_feed r)
    (has_write_to_decoder r) (users r) (frontend_list r) (frontend r) (pesfilter r)
    (pids r) (playing r) (recording r) (feed_list r) (dx_mutex r) v (tsbufp r)
    (cnt_storage r) (speed_last_time r) (speed_pkts_cnt r) (clock_reads r)
    (dx_log r).
Definition set_tsbufp (v : Z) (r : dvb_demux) : dvb_demux :=
  mk_demux (dx_filter r) (dx_feed r) (has_start_feed r) (has_stop_feed r)
    (has_write_to_decoder r) (users r) (frontend_list r) (frontend r) (pesfilter r)
    (pids r) (playing r) (recording r) (feed_list r) (dx_mutex r) (tsbuf r) v
    (cnt_storage r) (speed_last_time r) (speed_pkts_cnt r) (clock_reads r)
    (dx_log r).
Definition set_cnt_storage (v : option (list Z)) (r : dvb_demux) : dvb_demux :=
  mk_demux (dx_filter r) (dx_feed r) (has_start_feed r) (has_stop_feed r)
    (has_write_to_decoder r) (users r) (frontend_list r) (frontend r) (pesfilter r)
    (pids r) (playing r) (recording r) (feed_list r) (dx_mutex r) (tsbuf r)
    (tsbufp r) v (speed_last_time r) (speed_pkts_cnt r) (clock_reads r) (dx_log r).
Definition set_speed_last_time (v : Z * Z) (r : dvb_demux) : dvb_demux :=
  mk_demux (dx_filter r) (dx_feed r) (has_start_feed r) (has_stop_feed r)
    (has_write_to_decoder r) (users r) (frontend_list r) (frontend r) (pesfilter r)
    (pids r) (playing r) (recording r) (feed_list r) (dx_mutex r) (tsbuf r)
    (tsbufp r) (cnt_storage r) v (speed_pkts_cnt r) (clock_reads r) (dx_log r).
Definition set_speed_pkts_cnt (v : Z) (r : dvb_demux) : dvb_demux :=
  mk_demux (dx_filter r) (dx_feed r) (has_start_feed r) (has_stop_feed r)
    (has_write_to_decoder r) (users r) (frontend_list r) (frontend r) (pesfilter r)
    (pids r) (playing r) (recording r) (feed_list r) (dx_mutex r) (tsbuf r)
    (tsbufp r) (cnt_storage r) (speed_last_time r) v (clock_reads r) (dx_log r).
Definition set_clock_reads (v : nat) (r : dvb_demux) : dvb_demux :=
  mk_demux (dx_filter r) (dx_feed r) (has_start_feed r) (has_stop_feed r)
    (has_write_to_decoder r) (users r) (frontend_list r) (frontend r) (pesfilter r)
    (pids r) (playing r) (recording r) (feed_list r) (dx_mutex r) (tsbuf r)
    (tsbufp r) (cnt_storage r) (speed_last_time r) (speed_pkts_cnt r) v (dx_log r).
Definition set_dx_log (v : list dmx_call) (r : dvb_demux) : dvb_demux :=
  mk_demux (dx_filter r) (dx_feed r) (has_start_feed r) (has_stop_feed r)
    (has_write_to_decoder r) (users r) (frontend_list r) (frontend r) (pesfilter r)
    (pids r) (playing r) (recording r) (feed_list r) (dx_mutex r) (tsbuf r)
    (tsbufp r) (cnt_storage r) (speed_last_time r) (speed_pkts_cnt r)
    (clock_reads r) v.

