(* ===== verification/Demux.v ===== *)
(** The software filter of the DVB demultiplexer,
    drivers/media/dvb/dvb-core/dvb_demux.c (lines 58-568): from a raw byte
    stream to transport packets, from packets to TS callbacks, reassembled
    sections and section callbacks.

    What the code calls and does not contain is the parameter [DemuxEnv]:
    [crc32_be], the kernel clock, the two module parameters and what the
    clients' callbacks return (any function of the calls made so far).  The
    hooks [check_crc32] and [memcopy] are the ones [dvb_dmx_init] installs.
    A packet handed to a function is its 188 bytes, so that a read past the
    packet is a fault.  Output of printk is left out. *)

From S2P Require Import Prelude DemuxTypes.

Class DemuxEnv := {
  crc32_be : Z -> list Z -> Z;
  cb_ret : list dmx_call -> Z;
  dvb_demux_tscheck : Z;
  dvb_demux_speedcheck : Z;
  current_kernel_time : nat -> Z * Z;
  timespec_delta_ns : Z * Z -> Z * Z -> Z;   (* timespec_to_ns (timespec_sub a b) *)
}.

(** ** Inline helpers: [buf] is the array and [o] the offset of the pointer *)

Definition section_length (buf : list Z) (o : Z) : option Z :=
  b1 ← buf.[o + 1];
  b2 ← buf.[o + 2];
  Some (u16 (3 + Z.shiftl (Z.land b1 0x0f) 8 + b2)).

Definition ts_pid (buf : list Z) : option Z :=
  b1 ← buf.[1];
  b2 ← buf.[2];
  Some (u16 (Z.shiftl (Z.land b1 0x1f) 8 + b2)).

Definition payload (tsp : list Z) : option Z :=
  b3 ← tsp.[3];
  if Z.land b3 0x10 =? 0 then Some 0
  else if truthy (Z.land b3 0x20) then
    b4 ← tsp.[4];
    if b4 >? 183 then Some 0 else Some (u8 (184 - 1 - b4))
  else Some 184.

Section filter.
Context {E : DemuxEnv}.

Definition dvb_dmx_crc32 (f : dvb_demux_feed) (src : list Z) : dvb_demux_feed * Z :=
  let c := crc32_be (crc_val f) src in (set_crc_val c f, c).

Definition dvb_dmx_memcopy (d : list Z) (off : Z) (s : list Z) : option (list Z) :=
  mwrite d off s.

(** ** Payload of a TS feed *)

Definition dvb_dmx_swfilter_payload (fi : nat) (feed : dvb_demux_feed)
    (log : list dmx_call) (buf : list Z) : option (dvb_demux_feed * list dmx_call * Z) :=
  count ← payload buf;
  if count =? 0 then Some (feed, log, -1)
  else
    let p := 188 - count in
    b1 ← buf.[1];
    let feed := if truthy (Z.land b1 0x40) then set_peslen 0xfffa feed else feed in
    let feed := set_peslen (u16 (peslen feed + count)) feed in
    data ← mread buf p count;
    let log := log ++ [CallTs fi data] in
    Some (feed, log, cb_ret log).

(** ** Sections *)

(** The comparison loop from byte [i] on, [n] bytes left: [None] inside is the
    early [return 0], [Some neq] the value of [neq] at the end. *)
Fixpoint sectionfilter_loop (f : dvb_demux_filter) (buf : list Z) (o : Z)
    (n : nat) (i neq : Z) : option (option Z) :=
  match n with
  | O => Some (Some neq)
  | S n =>
      v ← (filter_value f).[i];
      b ← buf.[o + i];
      let xor := Z.lxor v b in
      mm ← (maskandmode f).[i];
      if truthy (Z.land mm xor) then Some None
      else
        mn ← (maskandnotmode f).[i];
        sectionfilter_loop f buf o n (i + 1) (Z.lor neq (Z.land mn xor))
  end.

Definition dvb_dmx_swfilter_sectionfilter (fi : nat) (feed : dvb_demux_feed)
    (log : list dmx_call) (xi : nat) (f : dvb_demux_filter) :
    option (list dmx_call * Z) :=
  r ← sectionfilter_loop f (secbuf_base feed) (secbuf feed) DVB_DEMUX_MASK_MAX 0 0;
  match r with
  | None => Some (log, 0)
  | Some neq =>
      if truthy (doneq f) && (neq =? 0) then Some (log, 0)
      else
        data ← mread (secbuf_base feed) (secbuf feed) (seclen feed);
        let log := log ++ [CallSec fi xi data] in
        Some (log, cb_ret log)
  end.

(** The loop over the filters of the feed: [true] when a callback failed. *)
Fixpoint section_filters (fuel : nat) (fs : list dvb_demux_filter) (fi : nat)
    (feed : dvb_demux_feed) (log : list dmx_call) (xi : nat) :
    option (list dmx_call * bool) :=
  match fuel with
  | O => None
  | S fuel =>
      f ← fs !! xi;
      '(log, r) ← dvb_dmx_swfilter_sectionfilter fi feed log xi f;
      if r <? 0 then Some (log, true)
      else
        match next f with
        | Some xi' => if is_filtering feed then section_filters fuel fs fi feed log xi'
                      else Some (log, false)
        | None => Some (log, false)
        end
  end.

Definition dvb_dmx_swfilter_section_feed (fs : list dvb_demux_filter) (fi : nat)
    (feed : dvb_demux_feed) (log : list dmx_call) :
    option (dvb_demux_feed * list dmx_call * Z) :=
  if negb (is_filtering feed) then Some (feed, log, 0)
  else
    match feed_filter feed with
    | None => Some (feed, log, 0)
    | Some xi =>
        '(feed, bad) ←
          (if truthy (check_crc feed) then
             b1 ← (secbuf_base feed).[secbuf feed + 1];
             if truthy (Z.land b1 0x80) then
               data ← mread (secbuf_base feed) (secbuf feed) (seclen feed);
               let (feed, c) := dvb_dmx_crc32 feed data in
               Some (feed, truthy c)
             else Some (feed, false)
           else Some (feed, false));
        if (bad : bool) then Some (feed, log, -1)
        else
          '(log, failed) ← section_filters (S (length fs)) fs fi feed log xi;
          if (failed : bool) then Some (feed, log, -1)
          else Some (set_seclen 0 feed, log, 0)
    end.

Definition dvb_dmx_swfilter_section_new (feed : dvb_demux_feed) : dvb_demux_feed :=
  let feed := set_seclen 0 feed in
  let feed := set_secbufp (seclen feed) feed in
  let feed := set_tsfeedp (secbufp feed) feed in
  set_secbuf 0 feed.

(** The dump loop: every turn consumes at least three bytes of the
    [limit] ones, so that [limit] turns are enough. *)
Fixpoint copy_dump_loop (fuel : nat) (fs : list dvb_demux_filter) (fi : nat) (limit : Z)
    (feed : dvb_demux_feed) (log : list dmx_call) :
    option (dvb_demux_feed * list dmx_call) :=
  if secbufp feed + 2 <? limit then
    match fuel with
    | O => None
    | S fuel =>
        len ← section_length (secbuf_base feed) (secbuf feed);
        if (len <=? 0) || (len >? DMX_MAX_SECTION_SIZE) || (len + secbufp feed >? limit)
        then Some (feed, log)
        else
          let feed := set_seclen len feed in
          let feed := set_crc_val 0xffffffff feed in
          '(feed, log) ←
            (if truthy (pusi_seen feed) then
               '(feed, log, _) ← dvb_dmx_swfilter_section_feed fs fi feed log;
               Some (feed, log)
             else Some (feed, log));
          let feed := set_secbufp (u16 (secbufp feed + len)) feed in
          let feed := set_secbuf (secbuf feed + len) feed in
          copy_dump_loop fuel fs fi limit feed log
    end
  else Some (feed, log).

(** [len] is a [u8] parameter: the clamped length is stored in 8 bits. *)
Definition dvb_dmx_swfilter_section_copy_dump (fs : list dvb_demux_filter) (fi : nat)
    (feed : dvb_demux_feed) (log : list dmx_call) (buf : list Z) (p len : Z) :
    option (dvb_demux_feed * list dmx_call * Z) :=
  if tsfeedp feed >=? DMX_MAX_SECFEED_SIZE then Some (feed, log, 0)
  else
    let len := if tsfeedp feed + len >? DMX_MAX_SECFEED_SIZE
               then u8 (DMX_MAX_SECFEED_SIZE - tsfeedp feed) else len in
    if len <=? 0 then Some (feed, log, 0)
    else
      data ← mread buf p len;
      base ← dvb_dmx_memcopy (secbuf_base feed) (tsfeedp feed) data;
      let feed := set_secbuf_base base feed in
      let feed := set_tsfeedp (u16 (tsfeedp feed + len)) feed in
      let limit := tsfeedp feed in
      if limit >? DMX_MAX_SECFEED_SIZE then Some (feed, log, -1)
      else
        let feed := set_secbuf (secbufp feed) feed in
        '(feed, log) ← copy_dump_loop (Z.to_nat limit) fs fi limit feed log;
        Some (feed, log, 0).

(** Lines 315-321: the discontinuity indicator of the adaptation field. *)
Definition discontinuity (buf : list Z) : option bool :=
  b3 ← buf.[3];
  if truthy (Z.land b3 0x20) then
    b4 ← buf.[4];
    if b4 >? 0 then b5 ← buf.[5]; Some (truthy (Z.land b5 0x80))
    else Some false
  else Some false.

Definition dvb_dmx_swfilter_section_packet (fs : list dvb_demux_filter) (fi : nat)
    (feed : dvb_demux_feed) (log : list dmx_call) (buf : list Z) :
    option (dvb_demux_feed * list dmx_call * Z) :=
  count ← payload buf;
  if count =? 0 then Some (feed, log, -1)
  else
    let p := u8 (188 - count) in
    b3 ← buf.[3];
    let c := Z.land b3 0x0f in
    let ccok := Z.land (cc feed + 1) 0x0f =? c in
    let feed := set_cc c feed in
    dc_i ← discontinuity buf;
    let feed := if negb ccok || dc_i
                then dvb_dmx_swfilter_section_new (set_pusi_seen 0 feed) else feed in
    b1 ← buf.[1];
    if truthy (Z.land b1 0x40) then
      bp ← buf.[p];
      if (count >? 1) && (bp <? count) then
        let before := p + 1 in
        let before_len := bp in
        let after := before + before_len in
        let after_len := u8 (count - 1 - before_len) in
        '(feed, log, _) ←
          dvb_dmx_swfilter_section_copy_dump fs fi feed log buf before before_len;
        let feed := dvb_dmx_swfilter_section_new (set_pusi_seen 1 feed) in
        '(feed, log, _) ←
          dvb_dmx_swfilter_section_copy_dump fs fi feed log buf after after_len;
        Some (feed, log, 0)
      else Some (feed, log, 0)
    else
      '(feed, log, _) ← dvb_dmx_swfilter_section_copy_dump fs fi feed log buf p count;
      Some (feed, log, 0).

(** ** Dispatch of a packet *)

Definition dvb_dmx_swfilter_packet_type (fs : list dvb_demux_filter) (wtd : bool)
    (fi : nat) (feed : dvb_demux_feed) (log : list dmx_call) (buf : list Z) :
    option (dvb_demux_feed * list dmx_call) :=
  if feed_type feed =? DMX_TYPE_TS then
    if negb (is_filtering feed) then Some (feed, log)
    else
      '(feed, log) ←
        (if truthy (Z.land (ts_type feed) TS_PACKET) then
           if truthy (Z.land (ts_type feed) TS_PAYLOAD_ONLY) then
             '(feed, log, _) ← dvb_dmx_swfilter_payload fi feed log buf;
             Some (feed, log)
           else
             data ← mread buf 0 188;
             Some (feed, log ++ [CallTs fi data])
         else Some (feed, log));
      if truthy (Z.land (ts_type feed) TS_DECODER) && wtd then
        data ← mread buf 0 188;
        Some (feed, log ++ [CallDecoder fi data])
      else Some (feed, log)
  else if feed_type feed =? DMX_TYPE_SEC then
    if negb (is_filtering feed) then Some (feed, log)
    else
      '(feed, log, r) ← dvb_dmx_swfilter_section_packet fs fi feed log buf;
      if r <? 0 then Some (set_seclen 0 (set_secbufp 0 feed), log)
      else Some (feed, log)
  else Some (feed, log).

Definition DVR_FEED (f : dvb_demux_feed) : bool :=
  (feed_type f =? DMX_TYPE_TS) && is_filtering f &&
  (Z.land (ts_type f) (Z.lor TS_PACKET TS_DEMUX) =? TS_PACKET).

(** Lines 396-427; the quotient is only printed, but it can fault. *)
Definition speed_check (d : dvb_demux) : option dvb_demux :=
  if truthy dvb_demux_speedcheck then
    let d := set_speed_pkts_cnt (u32 (speed_pkts_cnt d + 1)) d in
    if speed_pkts_cnt d mod SPEED_PKTS_INTERVAL =? 0 then
      let cur_time := current_kernel_time (clock_reads d) in
      let d := set_clock_reads (S (clock_reads d)) d in
      _ ← (if truthy (fst (speed_last_time d)) && truthy (snd (speed_last_time d)) then
             let delta := u64 (timespec_delta_ns cur_time (speed_last_time d)) in
             let speed_timedelta := delta / 1000000 in
             if speed_timedelta =? 0 then None else Some ()
           else Some ());
      let d := set_speed_last_time cur_time d in
      Some (set_speed_pkts_cnt 0 d)
    else Some d
  else Some d.

(** Lines 429-447. *)
Definition cnt_check (pid : Z) (buf : list Z) (d : dvb_demux) : option dvb_demux :=
  match cnt_storage d with
  | Some st =>
      if truthy dvb_demux_tscheck && (pid <? MAX_PID) then
        _ ← buf.[1];
        b3 ← buf.[3];
        _ ← st.[pid];
        st ← mset st pid (Z.land (Z.land b3 0xf + 1) 0xf);
        Some (set_cnt_storage (Some st) d)
      else Some d
  | None => Some d
  end.

(** The loop over [feed_list], lines 449-462. *)
Fixpoint feed_loop (l : list nat) (pid0 : Z) (buf : list Z) (dvr_done : Z)
    (d : dvb_demux) : option dvb_demux :=
  match l with
  | [] => Some d
  | fi :: l =>
      feed ← dx_feed d !! fi;
      if negb (pid feed =? pid0) && negb (pid feed =? 0x2000)
      then feed_loop l pid0 buf dvr_done d
      else
        let '(skip, dvr_done) :=
          if DVR_FEED feed then (truthy dvr_done, dvr_done + 1) else (false, dvr_done) in
        if (skip : bool) then feed_loop l pid0 buf dvr_done d
        else
          d ← (if pid feed =? pid0 then
                 '(feed, log) ← dvb_dmx_swfilter_packet_type (dx_filter d)
                                  (has_write_to_decoder d) fi feed (dx_log d) buf;
                 Some (set_dx_log log (set_dx_feed (<[fi := feed]> (dx_feed d)) d))
               else if pid feed =? 0x2000 then
                 data ← mread buf 0 188;
                 Some (set_dx_log (dx_log d ++ [CallTs fi data]) d)
               else Some d);
          feed_loop l pid0 buf dvr_done d
  end.

Definition dvb_dmx_swfilter_packet (d : dvb_demux) (buf : list Z) : option dvb_demux :=
  pid ← ts_pid buf;
  d ← speed_check d;
  d ← cnt_check pid buf d;
  feed_loop (feed_list d) pid buf 0 d.

(** ** Splitting the stream into packets *)

Fixpoint swfilter_packets_loop (count : nat) (d : dvb_demux) (buf : list Z) (o : Z) :
    option dvb_demux :=
  match count with
  | O => Some d
  | S count =>
      b ← buf.[o];
      d ← (if b =? 0x47 then
             q ← mread buf o 188;
             dvb_dmx_swfilter_packet d q
           else Some d);
      swfilter_packets_loop count d buf (o + 188)
  end.

Definition dvb_dmx_swfilter_packets (d : dvb_demux) (buf : list Z) (count : Z) :
    option dvb_demux :=
  swfilter_packets_loop (Z.to_nat count) d buf 0.

(** A sync byte for this packet size (the tests of lines 487 and 496). *)
Definition is_sync (pktsize b : Z) : bool :=
  (b =? 0x47) || ((pktsize =? 204) && (b =? 0xB8)).

(** The scan of lines 486-491; [n] is the number of bytes left. *)
Fixpoint scan_sync (n : nat) (buf : list Z) (pos pktsize : Z) : option Z :=
  match n with
  | O => Some pos
  | S n =>
      b ← buf.[pos];
      if is_sync pktsize b then Some pos else scan_sync n buf (pos + 1) pktsize
  end.

Definition find_next_packet (buf : list Z) (pos count pktsize : Z) : option Z :=
  let start := pos in
  pos ← scan_sync (Z.to_nat (count - pos)) buf pos pktsize;
  let lost := pos - start in
  if truthy lost then
    let backtrack := pos - pktsize in
    if backtrack >=? 0 then
      b ← buf.[backtrack];
      if is_sync pktsize b then Some backtrack else Some pos
    else Some pos
  else Some pos.

(** [while (1)] of lines 527-545.  Every turn moves [p] forward. *)
Fixpoint swfilter_loop (fuel : nat) (d : dvb_demux) (buf : list Z) (count pktsize p : Z) :
    option (dvb_demux * Z) :=
  match fuel with
  | O => None
  | S fuel =>
      p ← find_next_packet buf p count pktsize;
      if p >=? count then Some (d, p)
      else if count - p <? pktsize then Some (d, p)
      else
        b ← buf.[p];
        '(d, q) ←
          (if (pktsize =? 204) && (b =? 0xB8) then
             data ← mread buf p 188;
             ts ← mwrite (tsbuf d) 0 data;
             ts ← mset ts 0 0x47;
             q ← mread ts 0 188;
             Some (set_tsbuf ts d, q)
           else
             q ← mread buf p 188;
             Some (d, q));
        d ← dvb_dmx_swfilter_packet d q;
        swfilter_loop fuel d buf count pktsize (p + pktsize)
  end.

(** Lines 547-553: the incomplete packet at the end is kept in [tsbuf]. *)
Definition keep_tail (d : dvb_demux) (buf : list Z) (count pktsize p : Z) :
    option dvb_demux :=
  let i := count - p in
  if truthy i then
    data ← mread buf p i;
    ts ← mwrite (tsbuf d) 0 data;
    let d := set_tsbufp i (set_tsbuf ts d) in
    b ← ts.[0];
    if (pktsize =? 204) && (b =? 0xB8) then
      ts ← mset ts 0 0x47;
      Some (set_tsbuf ts d)
    else Some d
  else Some d.

Definition _dvb_dmx_swfilter (d : dvb_demux) (buf : list Z) (count pktsize : Z) :
    option dvb_demux :=
  let stream d p :=
    '(d, p) ← swfilter_loop (S (Z.to_nat count)) d buf count pktsize p;
    keep_tail d buf count pktsize p in
  if truthy (tsbufp d) then
    let i := tsbufp d in
    let j := pktsize - i in
    if count <? u64 j then
      data ← mread buf 0 count;
      ts ← mwrite (tsbuf d) i data;
      Some (set_tsbufp (s32 (tsbufp d + count)) (set_tsbuf ts d))
    else
      data ← mread buf 0 j;
      ts ← mwrite (tsbuf d) i data;
      let d := set_tsbuf ts d in
      b0 ← ts.[0];
      d ← (if b0 =? 0x47 then
             q ← mread ts 0 188;
             dvb_dmx_swfilter_packet d q
           else Some d);
      stream (set_tsbufp 0 d) j
  else stream d 0.

Definition dvb_dmx_swfilter (d : dvb_demux) (buf : list Z) (count : Z) : option dvb_demux :=
  _dvb_dmx_swfilter d buf count 188.

Definition dvb_dmx_swfilter_204 (d : dvb_demux) (buf : list Z) (count : Z) :
    option dvb_demux :=
  _dvb_dmx_swfilter d buf count 204.
End filter.
