(* ===== verification/DemuxSection.v ===== *)
(** Correctness of the section path of the demultiplexer (Demux.v): the
    comparison of a section with a filter, the walk along the filters of a
    feed, and the reassembly of sections from packets, which refines a
    machine that only knows the bytes received since the last boundary. *)

From S2P Require Import Prelude DemuxTypes Demux.

(** ** Reference: splitting bytes into sections *)

(** The length of the section at the start of [data], when it is complete
    and not longer than a section may be. *)
Definition section_len (data : list Z) : option Z :=
  b1 ← data.[1];
  b2 ← data.[2];
  let n := u16 (3 + Z.shiftl (Z.land b1 0x0f) 8 + b2) in
  if (n <=? DMX_MAX_SECTION_SIZE) && (n <=? zlen data) then Some n else None.

Fixpoint split_sections (fuel : nat) (data : list Z) : list (list Z) :=
  match fuel with
  | O => []
  | S fuel =>
      match section_len data with
      | Some n => slice data 0 n :: split_sections fuel (drop (Z.to_nat n) data)
      | None => []
      end
  end.

(** All complete sections at the front of [data], and how many bytes they take. *)
Definition sections (data : list Z) : list (list Z) := split_sections (length data) data.
Definition consumed (data : list Z) : Z := zlen (concat (sections data)).

Definition is_byte (b : Z) : Prop := 0 <= b < 256.

(** ** Reference: which sections a filter accepts *)

Definition byte (d : list Z) (i : Z) : Z := default 0 (d.[i]).

Definition pos_ok (f : dvb_demux_filter) (d : list Z) (i : Z) : bool :=
  Z.land (byte (maskandmode f) i) (Z.lxor (byte (filter_value f) i) (byte d i)) =? 0.
Definition neg_ok (f : dvb_demux_filter) (d : list Z) (i : Z) : bool :=
  negb (Z.land (byte (maskandnotmode f) i) (Z.lxor (byte (filter_value f) i) (byte d i)) =? 0).

Definition filter_accepts (f : dvb_demux_filter) (d : list Z) : bool :=
  forallb (pos_ok f d) (seqZ 0 18) && ((doneq f =? 0) || existsb (neg_ok f d) (seqZ 0 18)).

Definition filter_ok (f : dvb_demux_filter) : Prop :=
  zlen (filter_value f) = 18 /\ zlen (maskandmode f) = 18 /\ zlen (maskandnotmode f) = 18.

(** The filters of a feed as the list its [next] links spell. *)
Fixpoint linked (fs : list dvb_demux_filter) (first : option nat) (l : list nat) : Prop :=
  match l with
  | [] => first = None
  | x :: l => first = Some x /\ exists f, fs !! x = Some f /\ filter_ok f /\ linked fs (next f) l
  end.

Section reference.
Context {E : DemuxEnv}.

(** The callbacks for a section: each accepting filter in the order of the
    list, until a callback fails. *)
Fixpoint section_calls (fs : list dvb_demux_filter) (fi : nat) (l : list nat)
    (sec : list Z) (log : list dmx_call) : list dmx_call * bool :=
  match l with
  | [] => (log, false)
  | x :: l =>
      match fs !! x with
      | Some f =>
          if filter_accepts f sec then
            let log := log ++ [CallSec fi x sec] in
            if cb_ret log <? 0 then (log, true) else section_calls fs fi l sec log
          else section_calls fs fi l sec log
      | None => (log, false)
      end
  end.

(** A section that announces a CRC is delivered only if it checks. *)
Definition crc_fails (chk : Z) (sec : list Z) : bool :=
  truthy chk && truthy (Z.land (byte sec 1) 0x80) && truthy (crc32_be 0xffffffff sec).

Definition deliver (fs : list dvb_demux_filter) (fi : nat) (l : list nat) (chk : Z)
    (log : list dmx_call) (sec : list Z) : list dmx_call :=
  if crc_fails chk sec then log else fst (section_calls fs fi l sec log).
End reference.

(** ** Lemmas on the reference *)

Lemma section_len_inv data n :
  Forall is_byte data -> section_len data = Some n ->
  3 <= n <= DMX_MAX_SECTION_SIZE /\ n <= zlen data.
Proof.
  intros Hb. unfold section_len.
  destruct (data.[1]) as [b1|] eqn:H1, (data.[2]) as [b2|] eqn:H2; cbn [mbind option_bind]; try done.
  assert (0 <= b2 < 256) as H2'.
  { apply mget_Some in H2 as [_ H2]. exact (Forall_lookup_1 _ _ _ _ Hb H2). }
  pose proof (land_bound b1 0x0f 4) as HB.
  rewrite Z.shiftl_mul_pow2, wrap_small by lia.
  case_match eqn:Hc; [|done]. apply andb_true_iff in Hc as [Hc1%Z.leb_le Hc2%Z.leb_le].
  intros [= <-]. lia.
Qed.

(** More data does not change the section in front. *)
Lemma section_len_app a b n : section_len a = Some n -> section_len (a ++ b) = Some n.
Proof.
  unfold section_len.
  destruct (a.[1]) as [b1|] eqn:H1, (a.[2]) as [b2|] eqn:H2; cbn [mbind option_bind]; try done.
  rewrite !mget_app_l, H1, H2 by (by eapply mget_lt). cbn [mbind option_bind].
  case_match eqn:Hc; [|done]. apply andb_true_iff in Hc as [Hc1%Z.leb_le Hc2%Z.leb_le].
  intros [= <-]. rewrite (proj2 (Z.leb_le _ _)) by lia.
  rewrite (proj2 (Z.leb_le _ _)); [done|]. rewrite zlen_app. pose proof (zlen_nonneg b). lia.
Qed.

Lemma split_fuel n m data :
  Forall is_byte data -> (length data <= n)%nat -> (length data <= m)%nat ->
  split_sections n data = split_sections m data.
Proof.
  revert m data. induction n as [|n IH]; intros m data Hb Hn Hm.
  - destruct data; [|cbn in Hn; lia]. by destruct m.
  - destruct m as [|m]; [destruct data; [done|cbn in Hm; lia]|].
    cbn [split_sections]. destruct (section_len data) as [k|] eqn:Hk; [|done].
    apply section_len_inv in Hk as [Hk1 Hk2]; [|done]. unfold zlen in Hk2.
    f_equal. apply IH; [by apply Forall_drop| |]; rewrite length_drop; lia.
Qed.

Lemma sections_eq data :
  Forall is_byte data ->
  sections data = match section_len data with
                  | Some n => slice data 0 n :: sections (drop (Z.to_nat n) data)
                  | None => []
                  end.
Proof.
  intros Hb. unfold sections at 1. destruct data as [|b data]; [done|].
  cbn [length split_sections]. case_match eqn:Hn; [|done].
  apply section_len_inv in Hn as [? ?]; [|done]. f_equal.
  apply split_fuel; [by apply Forall_drop|rewrite length_drop; cbn; lia|done].
Qed.

Lemma parse_consumed data :
  Forall is_byte data ->
  consumed data = match section_len data with
                  | Some n => n + consumed (drop (Z.to_nat n) data)
                  | None => 0
                  end.
Proof.
  intros Hb. unfold consumed at 1. rewrite sections_eq by done.
  destruct (section_len data) as [n|] eqn:Hn; [|done].
  apply section_len_inv in Hn as [? ?]; [|done].
  cbn [concat]. rewrite zlen_app, zlen_slice by lia. done.
Qed.

(** Induction on the data, a section at a time. *)
Lemma sections_ind (P : list Z -> Prop) :
  (forall data, Forall is_byte data -> section_len data = None -> P data) ->
  (forall data n, Forall is_byte data -> section_len data = Some n ->
     P (drop (Z.to_nat n) data) -> P data) ->
  forall data, Forall is_byte data -> P data.
Proof.
  intros H0 HS data. remember (length data) as m eqn:Hm. revert data Hm.
  induction (lt_wf m) as [m _ IH]. intros data -> Hb.
  destruct (section_len data) as [n|] eqn:Hn; [|by apply H0].
  eapply HS; [done..|]. apply section_len_inv in Hn as [? Hl]; [|done]. unfold zlen in Hl.
  eapply IH; [|done|by apply Forall_drop]. rewrite length_drop. lia.
Qed.

Lemma consumed_le data : Forall is_byte data -> 0 <= consumed data <= zlen data.
Proof.
  apply (sections_ind (fun data => 0 <= consumed data <= zlen data)); clear data.
  - intros data Hb Hn. rewrite parse_consumed, Hn by done. pose proof (zlen_nonneg data). lia.
  - intros data n Hb Hn IH. rewrite parse_consumed, Hn by done.
    apply section_len_inv in Hn as [? ?]; [|done].
    rewrite zlen_drop in IH by lia. lia.
Qed.

(** Parsing is incremental: the sections of [a ++ b] are those of [a] and
    those found from where the parse of [a] stopped. *)
Lemma sections_app a b :
  Forall is_byte a -> Forall is_byte b ->
  sections (a ++ b) = sections a ++ sections (drop (Z.to_nat (consumed a)) (a ++ b)) /\
  consumed (a ++ b) = consumed a + consumed (drop (Z.to_nat (consumed a)) (a ++ b)).
Proof.
  intros Ha Hb. revert a Ha. apply sections_ind.
  - intros a Ha Hn. rewrite (parse_consumed a), (sections_eq a), Hn by done. done.
  - intros a n Ha Hn [IH1 IH2].
    assert (Forall is_byte (a ++ b)) by (by apply Forall_app).
    rewrite (sections_eq (a ++ b)), (parse_consumed (a ++ b)) by done.
    rewrite (section_len_app _ _ _ Hn), (sections_eq a), (parse_consumed a), Hn by done.
    apply section_len_inv in Hn as [? Hn]; [|done].
    pose proof (consumed_le (drop (Z.to_nat n) a) ltac:(by apply Forall_drop)) as Hc.
    rewrite Z2Nat.inj_add, <- drop_drop, drop_app_le by (unfold zlen in *; lia).
    rewrite slice_app_l by (unfold zlen in *; lia).
    rewrite IH1 at 1. rewrite IH2 at 1. split; [done|lia].
Qed.

(** ** The comparison loop *)

Lemma byte_get d i : 0 <= i < zlen d -> d.[i] = Some (byte d i).
Proof. intros Hi. unfold byte. destruct (proj2 (mget_is_Some d i) Hi) as [x ->]. done. Qed.

Lemma sectionfilter_loop_spec f buf o n i neq :
  filter_ok f -> 0 <= o -> 0 <= i -> i + Z.of_nat n <= 18 -> o + 18 <= zlen buf ->
  let d := drop (Z.to_nat o) buf in
  exists neq',
    sectionfilter_loop f buf o n i neq =
      Some (if forallb (pos_ok f d) (seqZ i (Z.of_nat n)) then Some neq' else None) /\
    (neq' =? 0) = (neq =? 0) && negb (existsb (neg_ok f d) (seqZ i (Z.of_nat n))).
Proof.
  intros Hf Ho Hi Hn Hb. revert i neq Hi Hn.
  induction n as [|n IH]; intros i neq Hi Hn; cbn [sectionfilter_loop].
  { exists neq. cbn. by rewrite andb_true_r. }
  destruct Hf as (Hv & Hm & Hmn).
  rewrite (byte_get (filter_value f) i), (byte_get buf (o + i)),
    (byte_get (maskandmode f) i), (byte_get (maskandnotmode f) i) by lia.
  cbn [mbind option_bind].
  assert (byte buf (o + i) = byte (drop (Z.to_nat o) buf) i) as Hd.
  { unfold byte. by rewrite mget_drop by lia. }
  rewrite Hd, seqZ_cons by lia. cbn [forallb existsb].
  replace (Z.pred (Z.of_nat (S n))) with (Z.of_nat n) by lia.
  replace (Z.succ i) with (i + 1) by lia.
  unfold pos_ok at 1. unfold neg_ok at 1. destruct (_ =? 0) eqn:Hpos.
  - cbn [negb andb]. edestruct (IH (i + 1)) as (neq' & -> & Hneq'); [lia..|].
    exists neq'. split; [done|]. rewrite Hneq', negb_orb, negb_involutive, andb_assoc.
    f_equal. apply Bool.eq_iff_eq_true.
    rewrite andb_true_iff, !Z.eqb_eq. apply Z.lor_eq_0_iff.
  - cbn [negb andb]. eexists (if (_ : bool) then 0 else 1). split; [done|]. by case_match.
Qed.

(** A filter sees the section alone when that has the 18 bytes it compares. *)
Lemma filter_accepts_slice f buf o n :
  0 <= o -> 18 <= n ->
  filter_accepts f (slice buf o n) = filter_accepts f (drop (Z.to_nat o) buf).
Proof.
  intros Ho Hn. unfold filter_accepts.
  assert (forall i, i ∈ seqZ 0 18 ->
    byte (slice buf o n) i = byte (drop (Z.to_nat o) buf) i) as Hb.
  { intros i Hi%elem_of_seqZ. unfold byte. rewrite mget_drop, mget_slice by lia. done. }
  f_equal; [|f_equal].
  - apply forallb_ext_in. intros i Hi. unfold pos_ok. by rewrite Hb.
  - apply existsb_ext_in. intros i Hi. unfold neg_ok. by rewrite Hb.
Qed.

Section sec.
Context {E : DemuxEnv}.

(** The comparison is of the 18 bytes from [secbuf], whatever the section's length. *)
Lemma sectionfilter_window fi feed log xi f :
  filter_ok f -> 0 <= secbuf feed -> 0 <= seclen feed ->
  secbuf feed + 18 <= zlen (secbuf_base feed) -> secbuf feed + seclen feed <= zlen (secbuf_base feed) ->
  let sec := slice (secbuf_base feed) (secbuf feed) (seclen feed) in
  dvb_dmx_swfilter_sectionfilter fi feed log xi f =
    Some (if filter_accepts f (slice (secbuf_base feed) (secbuf feed) 18)
          then (log ++ [CallSec fi xi sec], cb_ret (log ++ [CallSec fi xi sec]))
          else (log, 0)).
Proof.
  intros Hf Ho Hn Hw Hb sec. unfold dvb_dmx_swfilter_sectionfilter.
  destruct (sectionfilter_loop_spec f (secbuf_base feed) (secbuf feed)
    DVB_DEMUX_MASK_MAX 0 0 Hf) as (neq & -> & Hneq); [done..|].
  cbn [mbind option_bind]. rewrite filter_accepts_slice by lia.
  unfold filter_accepts. change (Z.of_nat DVB_DEMUX_MASK_MAX) with 18 in *.
  destruct (forallb _ _); [|done]. cbn [andb]. rewrite Hneq. cbn [Z.eqb andb].
  destruct (doneq f =? 0), (existsb _ _); cbn [negb andb orb]; try done;
    rewrite mread_Some by lia; done.
Qed.

Lemma sectionfilter_spec fi feed log xi f :
  filter_ok f -> 0 <= secbuf feed -> 18 <= seclen feed ->
  secbuf feed + seclen feed <= zlen (secbuf_base feed) ->
  let sec := slice (secbuf_base feed) (secbuf feed) (seclen feed) in
  dvb_dmx_swfilter_sectionfilter fi feed log xi f =
    Some (if filter_accepts f sec
          then (log ++ [CallSec fi xi sec], cb_ret (log ++ [CallSec fi xi sec]))
          else (log, 0)).
Proof.
  intros Hf Ho Hl Hb sec. rewrite sectionfilter_window by (done || lia).
  unfold sec. by rewrite !filter_accepts_slice by lia.
Qed.

(** ** The walk along the filters *)

Lemma linked_functional fs first l1 l2 : linked fs first l1 -> linked fs first l2 -> l1 = l2.
Proof.
  revert first l2. induction l1 as [|x l1 IH]; intros first [|y l2]; cbn.
  - done.
  - intros -> [? _]; done.
  - intros [-> _] ?; done.
  - intros (-> & f & Hf & _ & H1) (? & g & Hg & _ & H2). simplify_eq. f_equal. eauto.
Qed.

Lemma linked_suffix fs first p x q :
  linked fs first (p ++ x :: q) -> linked fs (Some x) (x :: q).
Proof.
  revert first. induction p as [|y p IH]; intros first; cbn.
  - intros [-> H]. done.
  - intros (_ & f & _ & _ & H). exact (IH _ H).
Qed.

(** Links that end never meet a filter twice. *)
Lemma linked_NoDup fs first l : linked fs first l -> NoDup l.
Proof.
  revert first. induction l as [|x l IH]; intros first H; [constructor|].
  pose proof H as (-> & f & Hf & _ & Hl). constructor; [|eauto].
  intros (p & q & Heq)%list_elem_of_split. subst l.
  pose proof (linked_suffix _ _ (x :: p) x q H) as H'.
  pose proof (linked_functional _ _ _ _ H H') as Hc.
  apply (f_equal length) in Hc. rewrite !length_cons, length_app, length_cons in Hc. lia.
Qed.

Lemma linked_lookup fs first l x :
  linked fs first l -> x ∈ l -> exists f, fs !! x = Some f /\ filter_ok f.
Proof.
  revert first. induction l as [|y l IH]; intros first H Hx; [by apply not_elem_of_nil in Hx|].
  destruct H as (_ & f & Hf & Hok & Hl). apply elem_of_cons in Hx as [->|Hx]; eauto.
Qed.

Lemma linked_length fs first l : linked fs first l -> (length l <= length fs)%nat.
Proof.
  intros H. rewrite <- (length_seq (length fs) 0). apply submseteq_length.
  apply NoDup_submseteq; [by eapply linked_NoDup|]. intros x Hx.
  destruct (linked_lookup _ _ _ _ H Hx) as (f & Hf & _).
  apply elem_of_seq. apply lookup_lt_Some in Hf. lia.
Qed.

Lemma section_filters_spec fuel fs fi feed log xi l :
  linked fs (Some xi) l -> (length l <= fuel)%nat ->
  is_filtering feed = true -> 0 <= secbuf feed -> 18 <= seclen feed ->
  secbuf feed + seclen feed <= zlen (secbuf_base feed) ->
  section_filters fuel fs fi feed log xi =
    Some (section_calls fs fi l
            (slice (secbuf_base feed) (secbuf feed) (seclen feed)) log).
Proof.
  intros Hl Hfuel Hfl Ho Hn Hb. revert xi l log Hl Hfuel.
  induction fuel as [|fuel IH]; intros xi l log Hl Hfuel.
  { destruct l; cbn in *; [done|lia]. }
  destruct l as [|x l]; [done|]. destruct Hl as ([= ->] & f & Hf & Hok & Hl).
  cbn [section_filters section_calls length] in *. rewrite Hf. cbn [mbind option_bind].
  rewrite sectionfilter_spec by done. cbn [mbind option_bind].
  set (sec := slice _ _ _) in *.
  assert (forall log',
    match next f with
    | Some xi' => if is_filtering feed then section_filters fuel fs fi feed log' xi'
                  else Some (log', false)
    | None => Some (log', false)
    end = Some (section_calls fs fi l sec log')) as Hnext.
  { intros log'. destruct l as [|y l]; cbn [linked] in Hl.
    - by rewrite Hl.
    - rewrite (proj1 Hl), Hfl. apply IH; [|cbn in *; lia].
      split; [done|]. apply Hl. }
  destruct (filter_accepts f sec); [|apply Hnext].
  destruct (cb_ret _ <? 0); [done|apply Hnext].
Qed.

(** What the section code changes in a feed. *)
Definition sec_upd (crc len o : Z) (feed : dvb_demux_feed) : dvb_demux_feed :=
  set_crc_val crc (set_seclen len (set_secbufp o (set_secbuf o feed))).

Lemma section_feed_spec fs fi feed log l :
  linked fs (feed_filter feed) l -> is_filtering feed = true ->
  crc_val feed = 0xffffffff -> 0 <= secbuf feed -> 18 <= seclen feed ->
  secbuf feed + seclen feed <= zlen (secbuf_base feed) ->
  exists c n r,
    dvb_dmx_swfilter_section_feed fs fi feed log =
      Some (set_crc_val c (set_seclen n feed),
            deliver fs fi l (check_crc feed) log
              (slice (secbuf_base feed) (secbuf feed) (seclen feed)), r).
Proof.
  intros Hl Hfl Hcrc Ho Hn Hb. unfold dvb_dmx_swfilter_section_feed, deliver, crc_fails.
  set (sec := slice _ _ _). rewrite Hfl. cbn [negb].
  destruct (feed_filter feed) as [xi|] eqn:Hxi.
  2: { assert (l = []) as -> by (destruct l as [|? ?]; [done|by destruct Hl]).
       exists (crc_val feed), (seclen feed), 0. destruct feed. cbn. by case_match. }
  assert (forall feed', secbuf_base feed' = secbuf_base feed -> secbuf feed' = secbuf feed ->
    seclen feed' = seclen feed -> is_filtering feed' = true ->
    section_filters (S (length fs)) fs fi feed' log xi = Some (section_calls fs fi l sec log))
    as Hsf.
  { intros feed' H1 H2 H3 H4. unfold sec. rewrite <- H1, <- H2, <- H3.
    apply section_filters_spec; rewrite ?H1, ?H2, ?H3; try done.
    pose proof (linked_length _ _ _ Hl). lia. }
  destruct (section_calls fs fi l sec log) as [log' failed].
  destruct (truthy (check_crc feed)); cbn [negb andb].
  2: { cbn [mbind option_bind]. rewrite Hsf by done. cbn [mbind option_bind].
       destruct failed; [exists (crc_val feed), (seclen feed), (-1)
                        |exists (crc_val feed), 0, 0]; by destruct feed. }
  rewrite byte_get by lia. cbn [mbind option_bind].
  replace (byte (secbuf_base feed) (secbuf feed + 1)) with (byte sec 1).
  2: { unfold byte, sec. by rewrite mget_slice by lia. }
  destruct (truthy (Z.land (byte sec 1) 0x80)); cbn [negb andb].
  2: { cbn [mbind option_bind]. rewrite Hsf by done. cbn [mbind option_bind].
       destruct failed; [exists (crc_val feed), (seclen feed), (-1)
                        |exists (crc_val feed), 0, 0]; by destruct feed. }
  rewrite mread_Some by lia. cbn [mbind option_bind]. fold sec.
  unfold dvb_dmx_crc32. rewrite Hcrc. destruct (truthy (crc32_be _ sec)).
  - exists (crc32_be 0xffffffff sec), (seclen feed), (-1). by destruct feed.
  - cbn [mbind option_bind]. rewrite Hsf by done. cbn [mbind option_bind].
    destruct failed; [exists (crc32_be 0xffffffff sec), (seclen feed), (-1)
                     |exists (crc32_be 0xffffffff sec), 0, 0]; by destruct feed.
Qed.

(** ** The dump loop *)

Definition deliver_all (fs : list dvb_demux_filter) (fi : nat) (l : list nat) (chk : Z)
    (log : list dmx_call) (secs : list (list Z)) : list dmx_call :=
  foldl (deliver fs fi l chk) log secs.

(** The length test of the code on the buffer is [section_len] of the bytes
    between [secbufp] and [limit]. *)
Lemma section_len_buffer base o limit :
  0 <= o <= limit -> limit <= zlen base -> Forall is_byte base ->
  let rest := slice base o (limit - o) in
  if o + 2 <? limit then
    exists n, section_length base o = Some n /\ 3 <= n < 65536 /\
      section_len rest = (if (n <=? 0) || (n >? DMX_MAX_SECTION_SIZE) || (n + o >? limit)
                          then None else Some n)
  else section_len rest = None.
Proof.
  intros Ho Hl Hb rest. destruct (Z.ltb_spec (o + 2) limit).
  - unfold section_length, section_len, rest.
    rewrite !mget_slice, zlen_slice, !byte_get by lia. cbn [mbind option_bind].
    eexists. split; [done|].
    assert (0 <= byte base (o + 2) < 256) as H2.
    { pose proof (byte_get base (o + 2) ltac:(lia)) as [_ H2]%mget_Some.
      exact (Forall_lookup_1 _ _ _ _ Hb H2). }
    pose proof (land_bound (byte base (o + 1)) 0x0f 4) as H1.
    rewrite Z.shiftl_mul_pow2, wrap_small by lia. split; [lia|].
    set (n := 3 + _ + _) in *. rewrite (proj2 (Z.leb_gt n 0)) by lia. cbn [orb].
    repeat ztest; cbn; try done; lia.
  - unfold section_len, rest.
    destruct ((slice base o (limit - o)).[2]) as [b2|] eqn:H2.
    + apply mget_lt in H2. rewrite zlen_slice in H2 by lia. lia.
    + by destruct ((slice base o (limit - o)).[1]).
Qed.

Lemma dump_stop fs fi l base limit feed log :
  let rest := slice base (secbufp feed) (limit - secbufp feed) in
  Forall is_byte rest -> section_len rest = None -> secbuf feed = secbufp feed ->
  exists c n,
    Some (feed, log) =
      Some (sec_upd c n (secbufp feed + consumed rest) feed,
            if truthy (pusi_seen feed)
            then deliver_all fs fi l (check_crc feed) log (sections rest) else log).
Proof.
  intros rest Hb Hn Hs. exists (crc_val feed), (seclen feed).
  rewrite parse_consumed, sections_eq, Hn, Z.add_0_r by done.
  destruct feed; cbn in *. subst. by destruct (truthy pusi_seen).
Qed.

Lemma rest_split base o limit n :
  let rest := slice base o (limit - o) in
  Forall is_byte base -> 0 <= o <= limit -> limit <= zlen base -> section_len rest = Some n ->
  let next := slice base (o + n) (limit - (o + n)) in
  3 <= n /\ o + n <= limit /\ n <= 4096 /\
  sections rest = slice base o n :: sections next /\ consumed rest = n + consumed next.
Proof.
  intros rest Hb Ho Hlim Hn nxt.
  assert (Hr : Forall is_byte rest) by by apply Forall_slice.
  pose proof (section_len_inv _ _ Hr Hn) as [Hn3 Hnl].
  unfold rest in Hnl. rewrite zlen_slice in Hnl by lia.
  assert (Hd : drop (Z.to_nat n) rest = nxt).
  { unfold rest. rewrite drop_slice by lia. unfold nxt. f_equal. lia. }
  rewrite sections_eq, parse_consumed, Hn, Hd by done.
  unfold DMX_MAX_SECTION_SIZE in *. split_and!; try done; try lia.
  unfold rest. by rewrite slice_slice, Z.add_0_r by lia.
Qed.

(** One turn of the loop on a complete section. *)
Lemma dump_turn fs fi l feed log n :
  linked fs (feed_filter feed) l -> is_filtering feed = true ->
  0 <= secbuf feed -> secbuf feed + n <= zlen (secbuf_base feed) ->
  (truthy (pusi_seen feed) = true -> 18 <= n) ->
  let feed1 := set_crc_val 0xffffffff (set_seclen n feed) in
  exists c m,
    (if truthy (pusi_seen feed) then
       '(feed, log, _) ← dvb_dmx_swfilter_section_feed fs fi feed1 log; Some (feed, log)
     else Some (feed1, log)) =
    Some (set_crc_val c (set_seclen m feed),
          if truthy (pusi_seen feed)
          then deliver fs fi l (check_crc feed) log (slice (secbuf_base feed) (secbuf feed) n)
          else log).
Proof.
  intros Hl Hfl Ho Hn H18 feed1. destruct (truthy (pusi_seen feed)).
  - specialize (H18 eq_refl).
    destruct (section_feed_spec fs fi feed1 log l) as (c & m & r & Heq); [done..|].
    rewrite Heq. exists c, m. by destruct feed.
  - exists 0xffffffff, n. done.
Qed.

Lemma copy_dump_loop_spec fs fi l limit fuel feed log :
  let base := secbuf_base feed in
  linked fs (feed_filter feed) l -> is_filtering feed = true ->
  Forall is_byte base -> limit <= zlen base -> limit <= 4284 ->
  0 <= secbufp feed <= limit -> secbuf feed = secbufp feed ->
  let rest := slice base (secbufp feed) (limit - secbufp feed) in
  (truthy (pusi_seen feed) = true -> Forall (fun s => 18 <= zlen s) (sections rest)) ->
  (length rest <= fuel)%nat ->
  exists c n,
    copy_dump_loop fuel fs fi limit feed log =
      Some (sec_upd c n (secbufp feed + consumed rest) feed,
            if truthy (pusi_seen feed)
            then deliver_all fs fi l (check_crc feed) log (sections rest) else log).
Proof.
  revert feed log. induction fuel as [|fuel IH];
    intros feed log base Hl Hfl Hby Hlim Hmax Hp Hsec rest H18 Hfuel; cbn [copy_dump_loop];
    pose proof (section_len_buffer base (secbufp feed) limit Hp Hlim Hby) as Hlen;
    cbn zeta in Hlen; fold rest in Hlen;
    assert (Hrb : Forall is_byte rest) by (by apply Forall_slice);
    assert (Hrl : zlen rest = limit - secbufp feed) by (apply zlen_slice; lia);
    (destruct (secbufp feed + 2 <? limit) eqn:Hcond; [|by apply dump_stop]).
  { unfold zlen in Hrl. lia. }
  destruct Hlen as (n & Hn & Hnr & Hlen). fold base. rewrite Hsec, Hn. cbn [mbind option_bind].
  destruct (_ || (n + secbufp feed >? limit)); [by apply dump_stop|].
  destruct (rest_split base _ limit n Hby Hp Hlim Hlen) as (Hn3 & Hnl & Hn4 & Hsecs & Hcons).
  set (nxt := slice base (secbufp feed + n) _) in *. fold rest in Hsecs, Hcons.
  destruct (dump_turn fs fi l feed log n) as (c & m & Hturn); [done|done|lia|fold base; lia| |].
  { intros Hpusi. specialize (H18 Hpusi). rewrite Hsecs in H18.
    apply Forall_cons in H18 as [H18 _]. by rewrite zlen_slice in H18 by lia. }
  cbn [pusi_seen set_crc_val set_seclen]. rewrite Hturn. cbn [mbind option_bind].
  rewrite Hsecs, Hcons. clear Hturn.
  destruct (IH (set_secbuf (secbufp feed + n) (set_secbufp (secbufp feed + n)
    (set_crc_val c (set_seclen m feed))))
    (if truthy (pusi_seen feed)
     then deliver fs fi l (check_crc feed) log (slice base (secbuf feed) n) else log))
    as (c' & m' & Hrec); cbn; try done; try lia.
  { intros Hpusi. specialize (H18 Hpusi). rewrite Hsecs in H18.
    by apply Forall_cons in H18 as [_ H18]. }
  { fold base nxt. assert (zlen nxt = limit - (secbufp feed + n)) by (apply zlen_slice; lia).
    unfold zlen in *. lia. }
  exists c', m'. cbn in Hrec. rewrite wrap_small, Hsec by lia. rewrite Hsec in Hrec.
  fold base nxt in Hrec. fold base. rewrite Hrec. f_equal. f_equal.
  - by rewrite Z.add_assoc.
  - by destruct (truthy (pusi_seen feed)).
Qed.
End sec.

(** ** The reassembly machine

    All the code keeps of the past is the bytes since the last section
    boundary, whether a boundary has been seen, and the last continuity
    counter. *)

Record assembly := mk_assembly {
  as_data : list Z;
  as_synced : bool;
  as_cc : Z;
}.

Record sec_view := mk_view {
  v_pusi : bool;         (* payload_unit_start_indicator *)
  v_cc : Z;              (* continuity counter *)
  v_disc : bool;         (* discontinuity_indicator *)
  v_payload : list Z;
}.

(** What a packet with a payload says. *)
Definition view (buf : list Z) : option sec_view :=
  count ← payload buf;
  if count =? 0 then None
  else
    disc ← discontinuity buf;
    Some (mk_view (truthy (Z.land (byte buf 1) 0x40)) (Z.land (byte buf 3) 0x0f) disc
            (slice buf (188 - count) count)).

(** A section buffer holds 4284 bytes; what does not fit is dropped. *)
Definition absorb (data chunk : list Z) : list Z :=
  data ++ slice chunk 0 (Z.min (zlen chunk) (DMX_MAX_SECFEED_SIZE - zlen data)).

Definition new_sections (data chunk : list Z) : list (list Z) :=
  sections (drop (Z.to_nat (consumed data)) (absorb data chunk)).

Section machine.
Context {E : DemuxEnv}.
Context (fs : list dvb_demux_filter) (fi : nat) (l : list nat) (chk : Z).

(** [None]: a section shorter than the 18 bytes a filter compares. *)
Definition assemble_chunk (a : assembly) (log : list dmx_call) (chunk : list Z) :
    option (assembly * list dmx_call) :=
  let secs := new_sections (as_data a) chunk in
  let a' := mk_assembly (absorb (as_data a) chunk) (as_synced a) (as_cc a) in
  if as_synced a then
    if forallb (fun s => 18 <=? zlen s) secs
    then Some (a', deliver_all fs fi l chk log secs) else None
  else Some (a', log).

Definition assemble (a : assembly) (log : list dmx_call) (v : sec_view) :
    option (assembly * list dmx_call) :=
  let a := if negb (Z.land (as_cc a + 1) 0x0f =? v_cc v) || v_disc v
           then mk_assembly [] false (v_cc v)
           else mk_assembly (as_data a) (as_synced a) (v_cc v) in
  if v_pusi v then
    match v_payload v with
    | ptr :: rest =>
        if (1 <? zlen (v_payload v)) && (ptr <? zlen (v_payload v)) then
          '(_, log) ← assemble_chunk a log (slice rest 0 ptr);
          assemble_chunk (mk_assembly [] true (v_cc v)) log
            (slice rest ptr (zlen rest - ptr))
        else Some (a, log)
    | [] => Some (a, log)
    end
  else assemble_chunk a log (v_payload v).

(** The feed represents a state of the machine. *)
Record represents (a : assembly) (feed : dvb_demux_feed) : Prop := {
  rp_linked : linked fs (feed_filter feed) l;
  rp_type : feed_type feed = DMX_TYPE_SEC;
  rp_filtering : is_filtering feed = true;
  rp_chk : check_crc feed = chk;
  rp_base : zlen (secbuf_base feed) = DMX_MAX_SECFEED_SIZE;
  rp_bytes : Forall is_byte (secbuf_base feed);
  rp_len : zlen (as_data a) <= DMX_MAX_SECFEED_SIZE;
  rp_tsfeedp : tsfeedp feed = zlen (as_data a);
  rp_data : slice (secbuf_base feed) 0 (zlen (as_data a)) = as_data a;
  rp_secbufp : secbufp feed = consumed (as_data a);
  rp_synced : truthy (pusi_seen feed) = as_synced a;
  rp_cc : cc feed = as_cc a;
}.

Lemma absorb_nil (data chunk : list Z) :
  Z.min (zlen chunk) (DMX_MAX_SECFEED_SIZE - zlen data) <= 0 -> absorb data chunk = data.
Proof.
  intros H. unfold absorb, slice. rewrite Z2Nat.nonpos by done. apply app_nil_r.
Qed.

(** Nothing is left to deliver where the parse stopped. *)
Lemma sections_stopped data :
  Forall is_byte data -> sections (drop (Z.to_nat (consumed data)) data) = [].
Proof.
  intros Hb. destruct (sections_app data [] Hb ltac:(constructor)) as [H _].
  rewrite app_nil_r in H. apply (f_equal length) in H. rewrite length_app in H.
  destruct (sections (drop _ _)); [done|cbn in H; lia].
Qed.

Lemma represents_bytes a feed : represents a feed -> Forall is_byte (as_data a).
Proof. intros R. rewrite <- (rp_data _ _ R). apply Forall_slice, R. Qed.

Lemma assemble_chunk_nil a feed log chunk r :
  represents a feed -> absorb (as_data a) chunk = as_data a ->
  assemble_chunk a log chunk = Some r -> r = (a, log).
Proof.
  intros R Ha. unfold assemble_chunk, new_sections.
  rewrite Ha, sections_stopped by by eapply represents_bytes. cbn [forallb].
  destruct a as [d [] c]; by intros [= <-].
Qed.

Lemma assemble_chunk_inv a log chunk a' log' :
  assemble_chunk a log chunk = Some (a', log') ->
  let secs := new_sections (as_data a) chunk in
  a' = mk_assembly (absorb (as_data a) chunk) (as_synced a) (as_cc a) /\
  log' = (if as_synced a then deliver_all fs fi l chk log secs else log) /\
  (as_synced a = true -> Forall (fun s => 18 <= zlen s) secs).
Proof.
  unfold assemble_chunk. destruct (as_synced a).
  - destruct (forallb _ _) eqn:Hf; [|done]. intros [= <- <-]. split_and!; try done.
    intros _. apply Forall_forall. intros s Hs. apply Z.leb_le.
    rewrite forallb_forall in Hf. apply Hf. by apply list_elem_of_In.
  - intros [= <- <-]. done.
Qed.

(** The buffer after the copy holds the old data followed by the chunk. *)
Lemma copied_prefix a feed s :
  represents a feed -> zlen (as_data a) + zlen s <= 4284 ->
  let base := blit (secbuf_base feed) (zlen (as_data a)) s in
  slice base 0 (zlen (as_data a) + zlen s) = as_data a ++ s /\ zlen base = 4284 /\
  slice base (consumed (as_data a)) (zlen (as_data a) + zlen s - consumed (as_data a)) =
    drop (Z.to_nat (consumed (as_data a))) (as_data a ++ s).
Proof.
  intros R Hs base. pose proof (rp_base _ _ R). pose proof (rp_data _ _ R) as Hd.
  pose proof (consumed_le _ (represents_bytes _ _ R)). unfold DMX_MAX_SECFEED_SIZE in *.
  assert (Hpre : slice base 0 (zlen (as_data a) + zlen s) = as_data a ++ s)
    by (unfold base; rewrite blit_prefix, Hd by lia; done).
  pose proof (zlen_nonneg s). split_and!; [done|unfold base; rewrite zlen_blit; lia|].
  rewrite <- Hpre, drop_slice by lia. f_equal.
Qed.

(** The state after the copy, dumped, represents the state of the machine. *)
Lemma dump_represents a feed log chunk m a' log' :
  represents a feed -> Forall is_byte chunk -> 0 < m ->
  m = Z.min (zlen chunk) (4284 - zlen (as_data a)) ->
  assemble_chunk a log chunk = Some (a', log') ->
  let limit := zlen (as_data a) + m in
  let feed1 := set_secbuf (secbufp feed)
    (set_tsfeedp limit (set_secbuf_base
      (blit (secbuf_base feed) (zlen (as_data a)) (slice chunk 0 m)) feed)) in
  exists feed',
    ('(feed, log) ← copy_dump_loop (Z.to_nat limit) fs fi limit feed1 log;
     Some (feed, log, 0)) = Some (feed', log', 0) /\
    represents a' feed'.
Proof.
  intros R Hch Hm0 Hm Ha limit feed1.
  assert (Hs : zlen (slice chunk 0 m) = m) by (apply zlen_slice; lia).
  pose proof R as [Hl Hty Hfl Hck Hbl Hbb Hmax Htp Hd Hsp Hsy Hcc].
  destruct (copied_prefix a feed (slice chunk 0 m) R) as (Hpre & Hbl1 & Hrest); [lia|].
  rewrite Hs in Hpre, Hrest. fold limit in Hpre, Hrest.
  pose proof (represents_bytes _ _ R) as Hda. pose proof (consumed_le _ Hda) as Hcons.
  apply assemble_chunk_inv in Ha as (-> & -> & H18).
  assert (Hab : absorb (as_data a) chunk = as_data a ++ slice chunk 0 m).
  { unfold absorb. by rewrite Hm. }
  unfold new_sections in *. rewrite Hab in *. rewrite <- Hrest in *. rewrite <- Hsy in *.
  assert (Hby : Forall is_byte (secbuf_base feed1)) by by apply Forall_blit, Forall_slice.
  rewrite <- Hsp in *.
  destruct (copy_dump_loop_spec fs fi l limit (Z.to_nat limit) feed1 log)
    as (c & k & Heq); cbn in *; try done; try lia.
  { assert (zlen (slice (blit (secbuf_base feed) (zlen (as_data a)) (slice chunk 0 m))
      (secbufp feed) (limit - secbufp feed)) = limit - secbufp feed) as Hz
      by (apply zlen_slice; lia).
    unfold zlen at 1 in Hz. lia. }
  fold feed1 in Heq. rewrite Heq. cbn [mbind option_bind]. eexists. split; [by rewrite Hck|].
  pose proof (Forall_slice is_byte chunk 0 m Hch) as Hcb.
  destruct (sections_app (as_data a) (slice chunk 0 m) Hda Hcb) as [_ Hc].
  split; cbn; try done.
  - rewrite zlen_app, Hs. unfold DMX_MAX_SECFEED_SIZE. lia.
  - by rewrite zlen_app, Hs.
  - by rewrite zlen_app, Hs.
  - by rewrite Hc, Hrest, Hsp.
Qed.

Lemma copy_dump_refines a feed log buf p n a' log' :
  represents a feed -> Forall is_byte buf ->
  0 <= p -> 0 <= n < 256 -> p + n <= zlen buf ->
  assemble_chunk a log (slice buf p n) = Some (a', log') ->
  exists feed',
    dvb_dmx_swfilter_section_copy_dump fs fi feed log buf p n = Some (feed', log', 0) /\
    represents a' feed'.
Proof.
  intros R Hbuf Hp Hn Hpn Ha. pose proof R as [Hl Hty Hfl Hck Hbl Hbb Hmax Htp Hd Hsp Hsy Hcc].
  unfold dvb_dmx_swfilter_section_copy_dump. rewrite Htp.
  assert (Hsl : zlen (slice buf p n) = n) by (apply zlen_slice; lia).
  assert (Hnil : Z.min n (DMX_MAX_SECFEED_SIZE - zlen (as_data a)) <= 0 ->
    a' = a /\ log' = log).
  { intros Hm. assert (absorb (as_data a) (slice buf p n) = as_data a) as Hab
      by (apply absorb_nil; by rewrite Hsl).
    by apply (assemble_chunk_nil _ _ _ _ _ R Hab) in Ha as [= -> ->]. }
  unfold DMX_MAX_SECFEED_SIZE in *.
  destruct (Z.geb_spec (zlen (as_data a)) (4096 + 188)).
  { destruct Hnil as [-> ->]; [lia|]. eauto. }
  set (m := if _ >? _ then _ else n).
  assert (Hm : m = Z.min n (4284 - zlen (as_data a))).
  { unfold m. ztest; [rewrite wrap_small|]; lia. }
  clearbody m. destruct (Z.leb_spec m 0).
  { destruct Hnil as [-> ->]; [lia|]. eauto. }
  rewrite mread_Some by lia. cbn [mbind option_bind].
  unfold dvb_dmx_memcopy. assert (Hsm : zlen (slice buf p m) = m) by (apply zlen_slice; lia).
  pose proof (zlen_nonneg (as_data a)) as Hd0.
  rewrite mwrite_Some by lia. cbn [mbind option_bind].
  cbn [tsfeedp set_tsfeedp set_secbuf_base set_secbuf secbufp].
  rewrite Htp, wrap_small by lia. rewrite Z.gtb_ltb, (proj2 (Z.ltb_ge _ _)) by lia.
  replace (slice buf p m) with (slice (slice buf p n) 0 m)
    by (rewrite slice_slice, Z.add_0_r by lia; done).
  eapply dump_represents; [done|by apply Forall_slice|lia| |done]. lia.
Qed.

(** ** Packets *)

Lemma represents_new a feed c v s :
  represents a feed -> truthy v = s ->
  represents (mk_assembly [] s c)
    (dvb_dmx_swfilter_section_new (set_pusi_seen v (set_cc c feed))).
Proof. intros [] <-. by split. Qed.

Lemma represents_cc a feed c :
  represents a feed ->
  represents (mk_assembly (as_data a) (as_synced a) c) (set_cc c feed).
Proof. intros []. by split. Qed.

Lemma byte_range d i : Forall is_byte d -> 0 <= byte d i < 256.
Proof.
  intros Hd. unfold byte. destruct (d.[i]) as [b|] eqn:Hb; cbn; [|lia].
  apply mget_Some in Hb as [_ Hb]. exact (Forall_lookup_1 _ _ _ _ Hd Hb).
Qed.

Lemma payload_range buf :
  Forall is_byte buf -> zlen buf = 188 -> exists count, payload buf = Some count /\ 0 <= count <= 184.
Proof.
  intros Hb Hl. unfold payload. rewrite !byte_get by lia. cbn [mbind option_bind].
  pose proof (byte_range buf 4 Hb).
  case_match; [exists 0; split; [done|lia]|]. case_match; [|exists 184; split; [done|lia]].
  ztest; [exists 0|exists (184 - 1 - byte buf 4); rewrite wrap_small by lia]; (split; [done|lia]).
Qed.

Lemma discontinuity_Some buf :
  zlen buf = 188 -> exists b, discontinuity buf = Some b.
Proof.
  intros Hl. unfold discontinuity. rewrite !byte_get by lia. cbn [mbind option_bind].
  repeat case_match; eauto.
Qed.

Lemma pointer_split buf p n :
  0 <= p -> 0 < n -> p + n <= zlen buf ->
  slice buf p n = byte buf p :: slice buf (p + 1) (n - 1).
Proof.
  intros Hp Hn Hl. apply mget_ext; [zlia|]. intros i. rewrite zlen_slice by lia. intros Hi.
  rewrite mget_slice by lia. destruct (decide (i = 0)) as [->|].
  - by rewrite Z.add_0_r, byte_get by lia.
  - change (byte buf p :: ?s) with ([byte buf p] ++ s).
    rewrite (mget_app_r [byte buf p] (slice buf (p + 1) (n - 1)) i)
      by (change (zlen [byte buf p]) with 1; lia).
    change (zlen [byte buf p]) with 1. rewrite mget_slice by lia. f_equal. lia.
Qed.

Lemma pusi_refines a feed log buf p count a' log' c :
  represents a feed -> Forall is_byte buf -> zlen buf = 188 ->
  1 < count <= 184 -> p = 188 - count -> byte buf p < count ->
  ('(_, log) ← assemble_chunk a log (slice buf (p + 1) (byte buf p));
   assemble_chunk (mk_assembly [] true c) log
     (slice buf (p + 1 + byte buf p) (count - 1 - byte buf p))) = Some (a', log') ->
  as_cc a = c ->
  exists feed',
    ('(feed, log, _) ←
       dvb_dmx_swfilter_section_copy_dump fs fi feed log buf (p + 1) (byte buf p);
     let feed := dvb_dmx_swfilter_section_new (set_pusi_seen 1 feed) in
     '(feed, log, _) ←
       dvb_dmx_swfilter_section_copy_dump fs fi feed log buf (p + 1 + byte buf p)
         (u8 (count - 1 - byte buf p));
     Some (feed, log, 0)) = Some (feed', log', 0) /\ represents a' feed'.
Proof.
  intros R Hb Hl Hcount -> Hp Ha Hc. pose proof (byte_range buf (188 - count) Hb).
  apply bind_Some in Ha as ([a1 log1] & Ha1 & Ha2). cbn beta iota in Ha2.
  destruct (copy_dump_refines a feed log buf (188 - count + 1) (byte buf (188 - count)) a1 log1)
    as (feed1 & -> & R1); [done..|lia|lia|lia|done|]. cbn [mbind option_bind].
  rewrite wrap_small by lia.
  assert (as_cc a1 = c) as Hc1 by (apply assemble_chunk_inv in Ha1 as [-> _]; done).
  pose proof (represents_new a1 (set_cc c feed1) c 1 true) as R2.
  destruct (copy_dump_refines (mk_assembly [] true c)
    (dvb_dmx_swfilter_section_new (set_pusi_seen 1 feed1)) log1 buf
    (188 - count + 1 + byte buf (188 - count)) (count - 1 - byte buf (188 - count)) a' log')
    as (feed2 & -> & R3); [|done|lia|lia|lia|done|].
  - destruct R1. split; try done. cbn. congruence.
  - eauto.
Qed.

(** The code follows [assemble]. *)
Lemma packet_follows a feed log buf v a' log' :
  represents a feed -> Forall is_byte buf -> zlen buf = 188 ->
  view buf = Some v -> assemble a log v = Some (a', log') ->
  exists feed',
    dvb_dmx_swfilter_section_packet fs fi feed log buf = Some (feed', log', 0) /\
    represents a' feed'.
Proof.
  intros R Hb Hl Hv Ha. destruct (payload_range buf Hb Hl) as (count & Hpay & Hcount).
  destruct (discontinuity_Some buf Hl) as (disc & Hdisc).
  unfold view in Hv. unfold dvb_dmx_swfilter_section_packet. rewrite Hpay, Hdisc in *.
  cbn [mbind option_bind] in *. destruct (Z.eqb_spec count 0) as [|H0]; [done|].
  injection Hv as <-. rewrite wrap_small, !byte_get by lia. cbn [mbind option_bind].
  set (c := Z.land (byte buf 3) 15) in *. unfold assemble in Ha. cbn [v_cc v_disc v_pusi v_payload] in Ha.
  rewrite <- (rp_cc _ _ R) in Ha. set (cond := negb _ || disc) in *.
  set (a0 := if cond then _ else _) in Ha.
  set (feed0 := if cond then _ else _).
  assert (R0 : represents a0 feed0 /\ as_cc a0 = c).
  { unfold a0, feed0. destruct cond; (split; [|done]);
      [by eapply represents_new|by apply represents_cc]. }
  destruct R0 as [R0 Hc0]. clearbody a0 feed0. clear cond.
  assert (Hpl : zlen (slice buf (188 - count) count) = count) by (apply zlen_slice; lia).
  destruct (truthy (Z.land (byte buf 1) 64)).
  - rewrite Hpl in Ha.
    rewrite (pointer_split buf (188 - count) count) in Ha by lia.
    rewrite Z.gtb_ltb.
    destruct (Z.ltb_spec 1 count) as [H1|]; [|injection Ha as <- <-; eauto].
    destruct (Z.ltb_spec (byte buf (188 - count)) count) as [H2|];
      [|injection Ha as <- <-; eauto]. cbn [andb] in *.
    pose proof (byte_range buf (188 - count) Hb).
    rewrite (zlen_slice buf (188 - count + 1) (count - 1)) in Ha by lia.
    rewrite !slice_slice, Z.add_0_r in Ha by lia.
    apply (pusi_refines a0 feed0 log buf _ count a' log' c); try done. lia.
  - destruct (copy_dump_refines a0 feed0 log buf (188 - count) count a' log')
      as (feed' & -> & R'); [done..|lia|lia|lia|done|]. eauto.
Qed.

(** *** The machine without its check *)

(** A gap in the counters, or an announced discontinuity, loses what was there. *)
Definition resync (a : assembly) (v : sec_view) : assembly :=
  if negb (Z.land (as_cc a + 1) 0x0f =? v_cc v) || v_disc v
  then mk_assembly [] false (v_cc v)
  else mk_assembly (as_data a) (as_synced a) (v_cc v).

(** The sections that the bytes of a packet complete, and what is kept of them.  A pointer
    field divides the bytes into those of the section before and those of new ones. *)
Definition chunk_completed (a : assembly) (chunk : list Z) : list (list Z) :=
  if as_synced a then new_sections (as_data a) chunk else [].

Definition completed (a : assembly) (v : sec_view) : list (list Z) :=
  let a := resync a v in
  if v_pusi v then
    match v_payload v with
    | ptr :: rest =>
        if (1 <? zlen (v_payload v)) && (ptr <? zlen (v_payload v)) then
          chunk_completed a (slice rest 0 ptr) ++
          new_sections [] (slice rest ptr (zlen rest - ptr))
        else []
    | [] => []
    end
  else chunk_completed a (v_payload v).

Definition after_packet (a : assembly) (v : sec_view) : assembly :=
  let a := resync a v in
  if v_pusi v then
    match v_payload v with
    | ptr :: rest =>
        if (1 <? zlen (v_payload v)) && (ptr <? zlen (v_payload v)) then
          mk_assembly (absorb [] (slice rest ptr (zlen rest - ptr))) true (v_cc v)
        else a
    | [] => a
    end
  else mk_assembly (absorb (as_data a) (v_payload v)) (as_synced a) (as_cc a).

Lemma chunk_defined a log chunk :
  Forall (fun s => 18 <= zlen s) (chunk_completed a chunk) ->
  assemble_chunk a log chunk =
    Some (mk_assembly (absorb (as_data a) chunk) (as_synced a) (as_cc a),
          deliver_all fs fi l chk log (chunk_completed a chunk)).
Proof.
  unfold assemble_chunk, chunk_completed. destruct (as_synced a); [|done]. intros H.
  rewrite (proj2 (forallb_forall _ _)); [done|]. intros s Hs%list_elem_of_In. apply Z.leb_le.
  revert s Hs. by apply Forall_forall.
Qed.

Lemma assemble_defined a log v :
  Forall (fun s => 18 <= zlen s) (completed a v) ->
  assemble a log v = Some (after_packet a v, deliver_all fs fi l chk log (completed a v)).
Proof.
  unfold assemble, completed, after_packet. fold (resync a v).
  destruct (v_pusi v); [|by apply chunk_defined].
  destruct (v_payload v) as [|ptr rest]; [done|]. destruct (_ && _); [|done]. intros H.
  assert (as_cc (resync a v) = v_cc v) as Hcc by (unfold resync; by case_match).
  apply Forall_app in H as [H1 H2]. rewrite chunk_defined by done. cbn [mbind option_bind].
  rewrite chunk_defined by done. unfold deliver_all. by rewrite foldl_app.
Qed.

(** Claim C2: section reassembly.  On every packet that carries a payload and completes
    no section of less than the 18 bytes that a filter compares, the code does what
    the reassembly machine says, whatever the discontinuities, pointer fields and
    lengths in the packet: it makes the callbacks for exactly the sections the new bytes
    complete, to the filters that accept them, in order, returns 0 and stays in
    correspondence with the machine; no access leaves the packet or the section buffer.
    (A shorter section is compared together with bytes behind it.) *)
Theorem section_packet_refines a feed log buf v :
  represents a feed -> Forall is_byte buf -> zlen buf = 188 ->
  view buf = Some v -> Forall (fun s => 18 <= zlen s) (completed a v) ->
  exists feed',
    dvb_dmx_swfilter_section_packet fs fi feed log buf =
      Some (feed', deliver_all fs fi l chk log (completed a v), 0) /\
    represents (after_packet a v) feed'.
Proof. intros R Hb Hl Hv H18. eapply packet_follows; [done..|]. by apply assemble_defined. Qed.

(** ** Streams of packets *)

Fixpoint section_packets (feed : dvb_demux_feed) (log : list dmx_call)
    (pkts : list (list Z)) : option (dvb_demux_feed * list dmx_call) :=
  match pkts with
  | [] => Some (feed, log)
  | p :: pkts =>
      '(feed, log) ← dvb_dmx_swfilter_packet_type fs false fi feed log p;
      section_packets feed log pkts
  end.

Fixpoint assemble_all (a : assembly) (log : list dmx_call) (vs : list sec_view) :
    option (assembly * list dmx_call) :=
  match vs with
  | [] => Some (a, log)
  | v :: vs => '(a, log) ← assemble a log v; assemble_all a log vs
  end.

(** Packets that continue a unit: no boundary, no discontinuity, counters in
    sequence after [c]. *)
Fixpoint in_sequence (c : Z) (vs : list sec_view) : Prop :=
  match vs with
  | [] => True
  | v :: vs => v_pusi v = false /\ v_disc v = false /\ v_cc v = Z.land (c + 1) 0x0f /\
               in_sequence (v_cc v) vs
  end.

Lemma absorb_fits (data chunk : list Z) :
  zlen data + zlen chunk <= DMX_MAX_SECFEED_SIZE -> absorb data chunk = data ++ chunk.
Proof.
  intros H. unfold absorb. rewrite Z.min_l by lia. by rewrite slice_full.
Qed.

Lemma assemble_sequence vs data c log :
  Forall is_byte data -> Forall (fun v => Forall is_byte (v_payload v)) vs ->
  in_sequence c vs ->
  let all := data ++ concat (v_payload <$> vs) in
  zlen all <= DMX_MAX_SECFEED_SIZE -> Forall (fun s => 18 <= zlen s) (sections all) ->
  exists c', assemble_all (mk_assembly data true c) log vs =
    Some (mk_assembly all true c',
          deliver_all fs fi l chk log (sections (drop (Z.to_nat (consumed data)) all))).
Proof.
  revert data c log. induction vs as [|v vs IH]; intros data c log Hd Hvs Hseq all Hmax H18.
  { exists c. unfold all. cbn. by rewrite app_nil_r, sections_stopped by done. }
  apply Forall_cons in Hvs as [Hv Hvs]. destruct Hseq as (Hp & Hdi & Hcc & Hseq).
  set (d1 := data ++ v_payload v).
  assert (Hall : all = d1 ++ concat (v_payload <$> vs)).
  { unfold all, d1. cbn. by rewrite app_assoc. }
  assert (Hd1 : Forall is_byte d1) by by apply Forall_app.
  assert (Hrest : Forall is_byte (concat (v_payload <$> vs))).
  { clear -Hvs. induction Hvs; cbn; [done|]. by apply Forall_app. }
  rewrite Hall in Hmax. rewrite zlen_app in Hmax.
  pose proof (zlen_nonneg (concat (v_payload <$> vs))).
  destruct (sections_app d1 _ Hd1 Hrest) as [Hs1 _].
  destruct (sections_app data (v_payload v) Hd Hv) as [Hs2 Hc2]. fold d1 in Hs2, Hc2.
  cbn [assemble_all]. unfold assemble at 1. cbn [as_cc as_data as_synced].
  rewrite Hcc, Z.eqb_refl, Hdi, Hp, <- Hcc. cbn [negb orb]. unfold assemble_chunk at 1.
  cbn [as_data as_synced as_cc].
  unfold new_sections. rewrite absorb_fits by (unfold d1 in *; rewrite zlen_app in *; lia).
  fold d1. rewrite (proj2 (forallb_forall _ _)).
  2: { intros s Hs%list_elem_of_In. apply Z.leb_le. revert s Hs. apply Forall_forall.
       rewrite Hall, Hs1, Hs2 in H18. apply Forall_app in H18 as [H18 _].
       by apply Forall_app in H18 as [_ H18]. }
  cbn [mbind option_bind].
  destruct (IH d1 (v_cc v) (deliver_all fs fi l chk log
    (sections (drop (Z.to_nat (consumed data)) d1)))) as (c' & ->); try done.
  { rewrite zlen_app. lia. } { by rewrite <- Hall. }
  exists c'. rewrite Hall. do 2 f_equal. unfold deliver_all. rewrite <- foldl_app. f_equal.
  apply (app_inv_head (sections data)). rewrite app_assoc, <- Hs2, <- Hs1.
  unfold d1. rewrite <- app_assoc. apply sections_app; [done|by apply Forall_app].
Qed.

(** The code follows the machine along any list of packets with payloads. *)
Lemma section_packets_refine pkts vs a feed log a' log' :
  represents a feed -> Forall (fun p => Forall is_byte p /\ zlen p = 188) pkts ->
  Forall2 (fun p v => view p = Some v) pkts vs ->
  assemble_all a log vs = Some (a', log') ->
  exists feed', section_packets feed log pkts = Some (feed', log') /\ represents a' feed'.
Proof.
  intros R Hp Hv. revert a feed log R Hp.
  induction Hv as [|p v pkts vs Hv _ IH]; intros a feed log R Hp Ha.
  { injection Ha as <- <-. by exists feed. }
  apply Forall_cons in Hp as [[Hpb Hpl] Hp].
  cbn [assemble_all] in Ha. apply bind_Some in Ha as ([a1 log1] & Ha1 & Ha).
  destruct (packet_follows _ _ _ _ _ _ _ R Hpb Hpl Hv Ha1) as (feed1 & Heq & R1).
  cbn [section_packets]. unfold dvb_dmx_swfilter_packet_type.
  rewrite (rp_type _ _ R), (rp_filtering _ _ R), Heq. cbn.
  apply (IH a1 feed1 log1); try done.
Qed.

(** A packet that starts a section drops what was there before. *)
Lemma assemble_first a log c d after :
  Forall is_byte (as_data a) -> Forall is_byte after ->
  zlen after <= DMX_MAX_SECFEED_SIZE -> Forall (fun s => 18 <= zlen s) (sections after) ->
  after <> [] ->
  assemble a log (mk_view true c d (0 :: after)) =
    Some (mk_assembly after true c, deliver_all fs fi l chk log (sections after)).
Proof.
  intros Hd Ha Hmax H18 Hne. unfold assemble. cbn [v_cc v_disc v_pusi v_payload].
  set (a0 := if (_ : bool) then (_ : assembly) else _).
  assert (Hchunk : exists a1, assemble_chunk a0 log [] = Some (a1, log)).
  { assert (Hab : absorb (as_data a0) [] = as_data a0) by (apply absorb_nil; rewrite zlen_nil; lia).
    assert (Hb0 : Forall is_byte (as_data a0)) by (unfold a0; by case_match).
    unfold assemble_chunk, new_sections. rewrite Hab, sections_stopped by done.
    cbn. destruct (as_synced a0); eauto. }
  destruct Hchunk as [a1 Hchunk].
  assert (0 < zlen after) by (destruct after; [done|rewrite zlen_cons; pose proof (zlen_nonneg after); lia]).
  rewrite zlen_cons, (proj2 (Z.ltb_lt 1 _)), (proj2 (Z.ltb_lt 0 _)), slice_0 by lia.
  cbn [andb]. rewrite Hchunk, Z.sub_0_r, slice_full. cbn [mbind option_bind].
  unfold assemble_chunk, new_sections. cbn [as_data as_synced as_cc].
  rewrite (absorb_fits [] after) by (rewrite zlen_nil; lia). rewrite (proj2 (forallb_forall _ _)); [done|].
  intros s Hs%list_elem_of_In. apply Z.leb_le. revert s Hs. by apply Forall_forall.
Qed.

Lemma view_bytes p v : Forall is_byte p -> view p = Some v -> Forall is_byte (v_payload v).
Proof.
  intros Hb. unfold view. destruct (payload p); [|done]. cbn [mbind option_bind].
  case_match; [done|]. destruct (discontinuity p); [|done]. cbn [mbind option_bind].
  intros [= <-]. by apply Forall_slice.
Qed.

(** Fact: a table is delivered.  However the feed was left, after a
    packet that starts a section (pointer field 0) and packets that continue
    it in sequence, the callbacks made are those for exactly the complete
    sections of the concatenated payloads, each once and in order,
    independently of how the packets cut them. *)
Theorem section_unit_delivered a feed log p0 c d after pkts vs :
  represents a feed ->
  Forall (fun p => Forall is_byte p /\ zlen p = 188) (p0 :: pkts) ->
  view p0 = Some (mk_view true c d (0 :: after)) -> after <> [] ->
  Forall2 (fun p v => view p = Some v) pkts vs -> in_sequence c vs ->
  let stream := after ++ concat (v_payload <$> vs) in
  zlen stream <= DMX_MAX_SECFEED_SIZE -> Forall (fun s => 18 <= zlen s) (sections stream) ->
  exists feed',
    section_packets feed log (p0 :: pkts) =
      Some (feed', deliver_all fs fi l chk log (sections stream)).
Proof.
  intros R Hp Hv0 Hne Hv Hseq stream Hmax H18.
  assert (Hvs : Forall (fun v => Forall is_byte (v_payload v)) vs).
  { apply Forall_cons in Hp as [_ Hp]. clear -Hv Hp. induction Hv; constructor;
      apply Forall_cons in Hp as [[Hb _] Hp]; [by eapply view_bytes|auto]. }
  assert (Ha : Forall is_byte after).
  { apply Forall_cons in Hp as [[Hb _] _]. apply (view_bytes _ _ Hb) in Hv0.
    by apply Forall_cons in Hv0 as [_ Hv0]. }
  assert (Hstep : exists c', assemble_all a log (mk_view true c d (0 :: after) :: vs) =
    Some (mk_assembly stream true c', deliver_all fs fi l chk log (sections stream))).
  { destruct (sections_app after (concat (v_payload <$> vs)) Ha) as [Hs _].
    { clear -Hvs. induction Hvs; cbn; [done|]. by apply Forall_app. }
    pose proof (zlen_nonneg (concat (v_payload <$> vs))) as H0.
    unfold stream in Hmax. rewrite zlen_app in Hmax.
    cbn [assemble_all]. rewrite assemble_first; [|eapply represents_bytes; done|done|lia| |done].
    2: { unfold stream in H18. rewrite Hs in H18. by apply Forall_app in H18 as [H18 _]. }
    cbn [mbind option_bind].
    destruct (assemble_sequence vs after c (deliver_all fs fi l chk log (sections after)))
      as (c' & ->); try done.
    { rewrite zlen_app. lia. }
    exists c'. do 2 f_equal. unfold deliver_all. rewrite <- foldl_app. f_equal. done. }
  destruct Hstep as [c' Hstep].
  destruct (section_packets_refine (p0 :: pkts) _ a feed log _ _ R Hp
    ltac:(by constructor) Hstep) as (feed' & Heq & _). eauto.
Qed.
(** ** What a sender packs *)

(** A section whose length field is right, of at least the bytes a filter compares. *)
Definition is_section (s : list Z) : Prop :=
  Forall is_byte s /\ section_len s = Some (zlen s) /\ 18 <= zlen s.

Definition next_cc (c : Z) : Z := Z.land (c + 1) 0x0f.
Definition stuffing (pad : list Z) : Prop := Forall (fun b => b = 0xff) pad.

(** The packets of a sender, after the counter [c], that has [r] of a section left to send
    and [ss] after it: a packet in which a section starts has a pointer field to the
    first one, over what is left of the one before; a section that does not fill its
    packet is followed by others or by stuffing. *)
Inductive packed : Z -> list Z -> list (list Z) -> list sec_view -> Prop :=
  | packed_end c : packed c [] [] []
  | packed_idle c ss pad vs :
    stuffing pad -> packed (next_cc c) [] ss vs ->
    packed c [] ss (mk_view false (next_cc c) false pad :: vs)
  | packed_more c part rest ss vs :
    rest <> [] -> packed (next_cc c) rest ss vs ->
    packed c (part ++ rest) ss (mk_view false (next_cc c) false part :: vs)
  | packed_last c r ss pad vs :
    r <> [] -> stuffing pad -> packed (next_cc c) [] ss vs ->
    packed c r ss (mk_view false (next_cc c) false (r ++ pad) :: vs)
  | packed_whole c r whole ss pad vs :
    whole <> [] -> stuffing pad -> packed (next_cc c) [] ss vs ->
    packed c r (whole ++ ss) (mk_view true (next_cc c) false (zlen r :: r ++ concat whole ++ pad) :: vs)
  | packed_start c r whole part rest ss vs :
    part <> [] -> rest <> [] -> packed (next_cc c) rest ss vs ->
    packed c r (whole ++ (part ++ rest) :: ss)
      (mk_view true (next_cc c) false (zlen r :: r ++ concat whole ++ part) :: vs).

(** What was not parsed yet. *)
Definition tail_of (data : list Z) : list Z := drop (Z.to_nat (consumed data)) data.

Lemma tail_app data x :
  Forall is_byte data -> Forall is_byte x -> tail_of (data ++ x) = tail_of (tail_of data ++ x).
Proof.
  intros Hd Hx. unfold tail_of. pose proof (consumed_le data Hd) as Hc.
  destruct (sections_app data x Hd Hx) as [_ ->].
  rewrite <- (drop_app_le data x) by (unfold zlen in *; lia).
  pose proof (consumed_le (drop (Z.to_nat (consumed data)) (data ++ x))) as Hc2.
  rewrite drop_drop. f_equal. rewrite Z2Nat.inj_add; [done|lia|]. apply Hc2. by apply Forall_drop, Forall_app.
Qed.

Lemma new_sections_tail data x chunk :
  Forall is_byte data -> absorb data chunk = data ++ x -> new_sections data chunk = sections (tail_of data ++ x).
Proof.
  intros Hd Ha. unfold new_sections, tail_of. rewrite Ha. pose proof (consumed_le data Hd).
  by rewrite drop_app_le by (unfold zlen in *; lia).
Qed.

Lemma tail_nothing data : Forall is_byte data -> sections data = [] -> tail_of data = data.
Proof. intros Hd Hs. unfold tail_of, consumed. by rewrite Hs. Qed.

Lemma stuffing_bytes pad : stuffing pad -> Forall is_byte pad.
Proof. intros H. apply (Forall_impl _ _ _ H). intros b ->. unfold is_byte. lia. Qed.

Lemma section_len_stuffing pad : stuffing pad -> section_len pad = None.
Proof.
  intros Hp. unfold section_len. destruct pad as [|b0 [|b1 [|b2 pad]]]; try done.
  apply Forall_cons in Hp as [-> Hp]. apply Forall_cons in Hp as [-> Hp]. by apply Forall_cons in Hp as [-> _].
Qed.

Lemma sections_stuffing pad : stuffing pad -> sections pad = [].
Proof. intros Hp. rewrite sections_eq by by apply stuffing_bytes. by rewrite section_len_stuffing. Qed.

(** A section in front is found. *)
Lemma sections_front s x :
  is_section s -> Forall is_byte x -> sections (s ++ x) = s :: sections x.
Proof.
  intros (Hb & Hl & _) Hx. pose proof (zlen_nonneg s). rewrite sections_eq by by apply Forall_app.
  rewrite (section_len_app _ _ _ Hl), slice_app_l, slice_full by lia.
  unfold zlen. by rewrite Nat2Z.id, drop_app_length.
Qed.

Lemma tail_front s x : is_section s -> Forall is_byte x -> tail_of (s ++ x) = tail_of x.
Proof.
  intros Hs Hx. unfold tail_of, consumed. rewrite sections_front by done. cbn [concat].
  rewrite zlen_app. pose proof (zlen_nonneg s). pose proof (zlen_nonneg (concat (sections x))).
  rewrite Z2Nat.inj_add, <- drop_drop by lia.
  replace (Z.to_nat (zlen s)) with (length s) by (unfold zlen; lia). by rewrite drop_app_length.
Qed.

Lemma sections_whole whole x :
  Forall is_section whole -> Forall is_byte x ->
  sections (concat whole ++ x) = whole ++ sections x /\ tail_of (concat whole ++ x) = tail_of x.
Proof.
  intros Hw Hx. induction Hw as [|s whole Hs Hw [IH1 IH2]]; [done|]. cbn [concat].
  assert (Forall is_byte (concat whole ++ x)).
  { apply Forall_app. split; [|done]. clear -Hw. induction Hw as [|s' w' H1 _ IH]; [constructor|].
    cbn [concat]. apply Forall_app. split; [apply H1|done]. }
  rewrite <- app_assoc, sections_front, tail_front by done. by rewrite IH1, IH2.
Qed.

(** Its beginning is not taken for a section. *)
Lemma section_part part rest :
  rest <> [] -> section_len (part ++ rest) = Some (zlen (part ++ rest)) -> section_len part = None.
Proof.
  intros Hr Hs. destruct (section_len part) as [n|] eqn:Hn; [|done].
  rewrite (section_len_app _ _ _ Hn) in Hs. injection Hs as ->.
  unfold section_len in Hn. destruct (part.[1]); [|done]. destruct (part.[2]); [|done]. cbn [mbind option_bind] in Hn.
  case_match eqn:Hc; [|done]. apply andb_true_iff in Hc as [_ Hc%Z.leb_le]. injection Hn as Hn.
  rewrite Hn, zlen_app in Hc. destruct rest; [done|]. rewrite zlen_cons in Hc. pose proof (zlen_nonneg rest). lia.
Qed.

Lemma sections_part part rest :
  rest <> [] -> is_section (part ++ rest) -> sections part = [] /\ tail_of part = part.
Proof.
  intros Hr (Hb & Hs & _). apply Forall_app in Hb as [Hb _].
  assert (sections part = []) as Hn by (by rewrite sections_eq, (section_part part rest)).
  split; [done|]. by apply tail_nothing.
Qed.

Lemma section_size s : is_section s -> zlen s <= DMX_MAX_SECTION_SIZE.
Proof. intros (Hb & Hs & _). by apply section_len_inv in Hs as [[_ H] _]. Qed.

(** The machine while the sender has [r] left of a section: [cur] is that section. *)
Definition holds (c : Z) (r : list Z) (cur : list (list Z)) (a : assembly) : Prop :=
  as_cc a = c /\ as_synced a = true /\ Forall is_byte (as_data a) /\
  ((r = [] /\ cur = [] /\ stuffing (tail_of (as_data a))) \/
   (r <> [] /\ exists part, is_section (part ++ r) /\ cur = [part ++ r] /\
      tail_of (as_data a) = part /\ zlen (as_data a) <= 183 + zlen part)).

Lemma absorb_some data x pad :
  zlen data + zlen x <= DMX_MAX_SECFEED_SIZE -> stuffing pad ->
  exists pad', stuffing pad' /\ absorb data (x ++ pad) = data ++ x ++ pad'.
Proof.
  intros Hx Hp. pose proof (zlen_nonneg x). pose proof (zlen_nonneg pad). unfold absorb.
  set (n := Z.min _ _). assert (zlen x <= n) by (unfold n; rewrite zlen_app; lia).
  exists (take (Z.to_nat n - length x) pad). split; [by apply Forall_take|]. f_equal. unfold slice.
  rewrite drop_0. apply take_app_ge. unfold zlen in *. lia.
Qed.

Lemma absorb_stuffing data pad :
  stuffing pad -> exists pad', stuffing pad' /\ absorb data pad = data ++ pad'.
Proof.
  intros Hp. eexists. split; [|reflexivity]. by apply Forall_slice.
Qed.

Lemma resync_next a c pusi pl :
  as_cc a = c -> resync a (mk_view pusi (next_cc c) false pl) = mk_assembly (as_data a) (as_synced a) (next_cc c).
Proof. intros <-. unfold resync, next_cc. cbn [v_cc v_disc]. by rewrite Z.eqb_refl. Qed.

(** What is absorbed after a part of a section. *)
Lemma step_more c part rest cur a :
  rest <> [] -> holds c (part ++ rest) cur a ->
  let v := mk_view false (next_cc c) false part in
  completed a v = [] /\ holds (next_cc c) rest cur (after_packet a v).
Proof.
  intros Hr (Hc & Hsy & Hb & [(Hn & _)|(_ & p & Hs & Hcur & Ht & Hz)]) v.
  { by apply app_nil in Hn as [_ ?]. }
  pose proof (section_size _ Hs) as Hsz. rewrite !zlen_app in Hsz. pose proof (zlen_nonneg rest).
  rewrite (app_assoc p part rest) in *.
  pose proof Hs as (Hsb & _). apply Forall_app in Hsb as [Hsb _]. apply Forall_app in Hsb as [_ Hpb].
  assert (absorb (as_data a) part = as_data a ++ part) as Hab
    by (apply absorb_fits; unfold DMX_MAX_SECFEED_SIZE, DMX_MAX_SECTION_SIZE in *; lia).
  destruct (sections_part _ _ Hr Hs) as [Hsec Htl].
  unfold completed, after_packet, v. rewrite resync_next by done. cbn [v_pusi v_payload as_data as_synced as_cc].
  rewrite Hab. split.
  - unfold chunk_completed. cbn [as_synced as_data]. rewrite Hsy, (new_sections_tail _ part), Ht by done. done.
  - split; [done|]. split; [done|]. cbn [as_data]. split; [by apply Forall_app|]. right. split; [done|].
    exists (p ++ part). split; [done|]. split; [done|]. split; [by rewrite tail_app, Ht by done|].
    rewrite !zlen_app. lia.
Qed.

(** The bytes that end a section, and what may follow. *)
Lemma chunk_ends c r cur a pad :
  holds c r cur a -> stuffing pad ->
  exists pad', stuffing pad' /\ absorb (as_data a) (r ++ pad) = as_data a ++ r ++ pad' /\
    new_sections (as_data a) (r ++ pad) = cur /\ stuffing (tail_of (as_data a ++ r ++ pad')) /\
    Forall is_byte (as_data a ++ r ++ pad').
Proof.
  intros (Hc & Hsy & Hb & [(-> & -> & Ht)|(Hr & p & Hs & -> & Ht & Hz)]) Hp.
  - destruct (absorb_stuffing (as_data a) pad Hp) as (pad' & Hp' & Hab). exists pad'. cbn [app].
    pose proof (stuffing_bytes _ Hp') as Hb'. assert (stuffing (tail_of (as_data a) ++ pad')) as Hst by (by apply Forall_app).
    split_and!; [done|done| | |by apply Forall_app].
    + by rewrite (new_sections_tail _ pad'), sections_stuffing by done.
    + rewrite tail_app by done. rewrite tail_nothing; [done|by apply stuffing_bytes|by apply sections_stuffing].
  - pose proof (section_size _ Hs) as Hsz. rewrite zlen_app in Hsz.
    pose proof Hs as (Hsb & _). apply Forall_app in Hsb as [_ Hrb].
    destruct (absorb_some (as_data a) r pad) as (pad' & Hp' & Hab);
      [unfold DMX_MAX_SECFEED_SIZE, DMX_MAX_SECTION_SIZE in *; lia|done|].
    pose proof (stuffing_bytes _ Hp') as Hb'. assert (Forall is_byte (r ++ pad')) by (by apply Forall_app).
    exists pad'. split_and!; [done|done| | |by apply Forall_app].
    + by rewrite (new_sections_tail _ (r ++ pad')), Ht, app_assoc, sections_front, sections_stuffing by done.
    + rewrite tail_app, Ht, app_assoc, tail_front by done.
      rewrite tail_nothing; [done|done|by apply sections_stuffing].
Qed.

Lemma step_last c r cur a pad :
  holds c r cur a -> stuffing pad ->
  let v := mk_view false (next_cc c) false (r ++ pad) in
  completed a v = cur /\ holds (next_cc c) [] [] (after_packet a v).
Proof.
  intros Hh Hp v. destruct (chunk_ends c r cur a pad Hh Hp) as (pad' & _ & Hab & Hn & Ht & Hb).
  destruct Hh as (Hc & Hsy & _). unfold completed, after_packet, v. rewrite resync_next by done.
  cbn [v_pusi v_payload as_data as_synced as_cc]. split.
  - unfold chunk_completed. cbn [as_synced as_data]. by rewrite Hsy.
  - rewrite Hab. split_and!; [done..|]. by left.
Qed.

(** A packet in which sections start. *)
Lemma step_start a r cur cc d whole y :
  let v := mk_view true cc d (zlen r :: r ++ concat whole ++ y) in
  concat whole ++ y <> [] -> zlen (v_payload v) <= 184 -> Forall is_section whole -> Forall is_byte y ->
  chunk_completed (resync a v) r = cur ->
  completed a v = cur ++ whole ++ sections y /\
  after_packet a v = mk_assembly (concat whole ++ y) true cc.
Proof.
  intros v Hne Hl Hw Hy Hcur. cbn [v_payload v] in Hl.
  assert (0 < zlen (concat whole ++ y)) as Hpos.
  { destruct (concat whole ++ y) as [|b z]; [done|]. rewrite zlen_cons. pose proof (zlen_nonneg z). lia. }
  pose proof (zlen_nonneg r). rewrite zlen_cons, zlen_app in Hl.
  assert ((1 <? zlen (zlen r :: r ++ concat whole ++ y)) &&
    (zlen r <? zlen (zlen r :: r ++ concat whole ++ y)) = true) as Hif.
  { rewrite zlen_cons, zlen_app. apply andb_true_iff; split; apply Z.ltb_lt; lia. }
  assert (slice (r ++ concat whole ++ y) 0 (zlen r) = r) as Hs1.
  { rewrite slice_app_l, slice_full by lia. done. }
  assert (slice (r ++ concat whole ++ y) (zlen r) (zlen (r ++ concat whole ++ y) - zlen r) = concat whole ++ y) as Hs2.
  { rewrite zlen_app. replace (_ + _ - _) with (zlen (concat whole ++ y)) by lia.
    pose proof (slice_app_mid r (concat whole ++ y) []) as E0. by rewrite app_nil_r in E0. }
  assert (absorb [] (concat whole ++ y) = concat whole ++ y) as Hab
    by (apply (absorb_fits []); rewrite zlen_nil; unfold DMX_MAX_SECFEED_SIZE; lia).
  unfold completed, after_packet. cbn [v_pusi v_payload v v_cc]. rewrite Hif.
  rewrite Hs1, Hs2, Hab, Hcur. split; [|done]. f_equal. unfold new_sections. rewrite Hab. change (drop (Z.to_nat (consumed [])) ?x) with x.
  by apply sections_whole.
Qed.

Lemma holds_start c r cur a whole y :
  let v := mk_view true (next_cc c) false (zlen r :: r ++ concat whole ++ y) in
  holds c r cur a -> concat whole ++ y <> [] -> zlen (v_payload v) <= 184 ->
  Forall is_section whole -> Forall is_byte y ->
  completed a v = cur ++ whole ++ sections y /\
  after_packet a v = mk_assembly (concat whole ++ y) true (next_cc c).
Proof.
  intros v Hh Hne Hl Hw Hy. apply step_start; [done..|].
  destruct (chunk_ends c r cur a [] Hh ltac:(constructor)) as (pad' & _ & _ & Hn & _).
  destruct Hh as (Hc & Hsy & _). unfold v. rewrite resync_next by done. unfold chunk_completed.
  cbn [as_synced as_data]. rewrite Hsy. by rewrite app_nil_r in Hn.
Qed.

(** The sections of the packet are behind it, what it leaves is held. *)
Lemma held_whole cc whole pad :
  Forall is_section whole -> stuffing pad ->
  sections pad = [] /\ holds cc [] [] (mk_assembly (concat whole ++ pad) true cc).
Proof.
  intros Hw Hp. pose proof (stuffing_bytes _ Hp). split; [by apply sections_stuffing|].
  split_and!; [done|done| |left; split_and!; [done|done|]].
  - cbn [as_data]. apply Forall_app. split; [|done]. apply Forall_concat.
    apply (Forall_impl _ _ _ Hw). by intros s [Hs _].
  - cbn [as_data]. rewrite (proj2 (sections_whole _ _ Hw ltac:(done))).
    rewrite tail_nothing; [done|done|by apply sections_stuffing].
Qed.

Lemma held_start cc whole part rest :
  Forall is_section whole -> is_section (part ++ rest) -> rest <> [] ->
  zlen (concat whole ++ part) <= 183 ->
  sections part = [] /\
  holds cc rest [part ++ rest] (mk_assembly (concat whole ++ part) true cc).
Proof.
  intros Hw Hs Hr Hl. pose proof (sections_part _ _ Hr Hs) as [Hn Ht]. split; [done|].
  pose proof Hs as [Hb _]. apply Forall_app in Hb as [Hb _].
  split_and!; [done|done| |right; split; [done|]].
  - cbn [as_data]. apply Forall_app. split; [|done]. apply Forall_concat.
    apply (Forall_impl _ _ _ Hw). by intros s [? _].
  - exists part. cbn [as_data]. rewrite (proj2 (sections_whole _ _ Hw Hb)).
    split_and!; [done|done|done|]. pose proof (zlen_nonneg part). lia.
Qed.

(** The sections that are complete are those that were sent. *)
Fixpoint completed_all (a : assembly) (vs : list sec_view) : list (list Z) :=
  match vs with
  | [] => []
  | v :: vs => completed a v ++ completed_all (after_packet a v) vs
  end.

Lemma assemble_all_defined vs a log :
  Forall (fun s => 18 <= zlen s) (completed_all a vs) ->
  exists a', assemble_all a log vs = Some (a', deliver_all fs fi l chk log (completed_all a vs)).
Proof.
  revert a log. induction vs as [|v vs IH]; intros a log H; [by exists a|].
  cbn [completed_all] in *. apply Forall_app in H as [H1 H2]. cbn [assemble_all].
  rewrite assemble_defined by done. cbn [mbind option_bind].
  destruct (IH _ (deliver_all fs fi l chk log (completed a v)) H2) as [a' ->].
  exists a'. unfold deliver_all. by rewrite foldl_app.
Qed.

Lemma packed_completed c r ss vs cur a :
  packed c r ss vs -> holds c r cur a -> Forall is_section ss ->
  Forall (fun v => zlen (v_payload v) <= 184) vs -> completed_all a vs = cur ++ ss.
Proof.
  intros Hp. revert cur a.
  induction Hp as [c|c ss pad vs Hpad Hp IH|c part rest ss vs Hr Hp IH|c r ss pad vs Hr Hpad Hp IH
    |c r whole ss pad vs Hw Hpad Hp IH|c r whole part rest ss vs Hpa Hr Hp IH];
    intros cur a Hh Hss Hvs; try (apply Forall_cons in Hvs as [Hv Hvs]); cbn [completed_all].
  - by destruct Hh as (_ & _ & _ & [(_ & -> & _)|[? _]]).
  - pose proof (step_last c [] cur a pad Hh Hpad) as [Hc Hh']. cbn [app] in Hc, Hh'. rewrite Hc.
    by rewrite (IH [] _ Hh' Hss Hvs).
  - destruct (step_more c part rest cur a Hr Hh) as [-> Hh']. by apply IH.
  - destruct (step_last c r cur a pad Hh Hpad) as [-> Hh'].
    by rewrite (IH [] _ Hh' Hss Hvs).
  - apply Forall_app in Hss as [Hsw Hss].
    destruct (held_whole (next_cc c) whole pad Hsw Hpad) as [Hn Hh'].
    destruct (holds_start c r cur a whole pad Hh) as [-> ->]; [|done|done|by apply stuffing_bytes|].
    { destruct whole as [|s whole]; [done|]. apply Forall_cons in Hsw as [(_ & _ & Hs) _].
      destruct s; [by rewrite zlen_nil in Hs|done]. }
    rewrite Hn, (IH [] _ Hh' Hss Hvs), app_nil_r, <- app_assoc. done.
  - apply Forall_app in Hss as [Hsw Hss]. apply Forall_cons in Hss as [Hs Hss].
    cbn [v_payload] in Hv. rewrite zlen_cons, zlen_app in Hv. pose proof (zlen_nonneg r).
    destruct (held_start (next_cc c) whole part rest Hsw Hs Hr ltac:(lia)) as [Hn Hh'].
    destruct (holds_start c r cur a whole part Hh) as [-> ->]; [|cbn [v_payload]; rewrite zlen_cons, zlen_app; lia|done| |].
    { intros H0. by apply app_nil in H0 as [_ ?]. }
    { destruct Hs as [Hs _]. by apply Forall_app in Hs as [Hs _]. }
    rewrite Hn, (IH _ _ Hh' Hss Hvs), app_nil_r, <- app_assoc. done.
Qed.

(** However the machine was left, a packet in which a section starts at once begins afresh. *)
Lemma packed_begins c ss v vs a :
  packed c [] ss (v :: vs) -> v_pusi v = true -> Forall is_byte (as_data a) ->
  Forall is_section ss -> Forall (fun v => zlen (v_payload v) <= 184) (v :: vs) ->
  completed_all a (v :: vs) = ss.
Proof.
  intros Hp Hv Hb Hss Hl.
  trans (completed_all (mk_assembly [] true c) (v :: vs)).
  2: { apply (packed_completed c [] ss (v :: vs) [] _ Hp); [|done|done].
       split_and!; [done|done|by apply (Forall_nil_2 is_byte)|left; split_and!; [done|done|]].
       unfold tail_of. cbn [as_data]. rewrite drop_nil. by apply (Forall_nil_2 (fun b => b = 0xff)). }
  assert (forall a' whole y, Forall is_byte (as_data a') -> Forall is_section whole -> Forall is_byte y ->
    let v' := mk_view true (next_cc c) false (zlen (@nil Z) :: concat whole ++ y) in
    concat whole ++ y <> [] -> zlen (v_payload v') <= 184 ->
    completed a' v' = whole ++ sections y /\
    after_packet a' v' = mk_assembly (concat whole ++ y) true (next_cc c)) as Hbegin.
  { intros a' whole y Hb' Hw Hy v' Hne Hl'.
    apply (step_start a' [] [] (next_cc c) false whole y); [done..|].
    unfold chunk_completed, new_sections, resync. cbn [v_cc v_disc].
    destruct (_ || _); cbn [as_synced as_data]; [done|]. destruct (as_synced a'); [|done].
    rewrite absorb_nil by (rewrite zlen_nil; lia). by apply sections_stopped. }
  apply Forall_cons in Hl as [Hl _]. cbn [completed_all].
  assert (forall whole y, v = mk_view true (next_cc c) false (zlen (@nil Z) :: concat whole ++ y) ->
    Forall is_section whole -> Forall is_byte y -> concat whole ++ y <> [] ->
    completed a v ++ completed_all (after_packet a v) vs =
    completed (mk_assembly [] true c) v ++ completed_all (after_packet (mk_assembly [] true c) v) vs) as Hsame.
  { intros whole y -> Hw Hy Hne.
    destruct (Hbegin a whole y) as [-> ->]; [done..|].
    by destruct (Hbegin (mk_assembly [] true c) whole y) as [-> ->]. }
  inversion Hp as [| | | |? ? whole ss' pad vs' Hw Hpad Hp'|? ? whole part rest ss' vs' Hpa Hr Hp'];
    subst; try done.
  - apply Forall_app in Hss as [Hsw _]. apply (Hsame whole pad); [done..|by apply stuffing_bytes|].
    destruct whole as [|s whole]; [done|]. apply Forall_cons in Hsw as [(_ & _ & Hs) _].
    destruct s; [by rewrite zlen_nil in Hs|done].
  - apply Forall_app in Hss as [Hsw Hss]. apply Forall_cons in Hss as [[Hs _] _].
    apply Forall_app in Hs as [Hs _]. apply (Hsame whole part); [done..|].
    intros H0. by apply app_nil in H0 as [_ ?].
Qed.

Lemma view_payload_le p v :
  Forall is_byte p -> zlen p = 188 -> view p = Some v -> zlen (v_payload v) <= 184.
Proof.
  intros Hb Hl Hv. destruct (payload_range p Hb Hl) as (count & Hp & Hc). unfold view in Hv.
  rewrite Hp in Hv. cbn [mbind option_bind] in Hv. case_match; [done|].
  destruct (discontinuity p); [|done]. injection Hv as <-. cbn [v_payload]. rewrite zlen_slice by lia. lia.
Qed.

(** Claim C5: the sections that are sent arrive.  A sender packs sections of at least 18
    bytes, with a right length field each, in packets with a payload and counters in
    sequence: a packet in which a section starts has a pointer field to the first one, over
    what is left of the one before, and a section that does not fill its packet is followed
    by others or by stuffing.  However the feed was left before, from a packet on that
    starts a section at once the callbacks made are those for exactly the sections sent,
    each once, whole and in order, however the packets cut them. *)
Theorem section_stream_delivered a feed log c ss v0 vs pkts :
  represents a feed -> Forall (fun p => Forall is_byte p /\ zlen p = 188) pkts ->
  Forall2 (fun p v => view p = Some v) pkts (v0 :: vs) ->
  packed c [] ss (v0 :: vs) -> v_pusi v0 = true -> Forall is_section ss ->
  exists feed', section_packets feed log pkts = Some (feed', deliver_all fs fi l chk log ss).
Proof.
  intros R Hp Hv Hs Hv0 Hss.
  assert (Forall (fun v => zlen (v_payload v) <= 184) (v0 :: vs)) as Hl.
  { clear -Hp Hv. induction Hv as [|p v ps ws Hv _ IH]; constructor; apply Forall_cons in Hp as [[Hb Hl] Hp];
      [by apply (view_payload_le p)|by apply IH]. }
  assert (completed_all a (v0 :: vs) = ss) as Hc
    by (eapply packed_begins; [done|done|by eapply represents_bytes|done|done]).
  destruct (assemble_all_defined (v0 :: vs) a log) as [a' Ha].
  { rewrite Hc. apply (Forall_impl _ _ _ Hss). by intros s (_ & _ & ?). }
  rewrite Hc in Ha.
  destruct (section_packets_refine _ _ a feed log _ _ R Hp Hv Ha) as (feed' & Heq & _). by exists feed'.
Qed.

End machine.

(** ** Concrete runs *)

(** A quiet environment: CRCs check, callbacks succeed, no checks enabled. *)
#[export] Instance quiet_env : DemuxEnv := {|
  crc32_be := fun _ _ => 0;
  cb_ret := fun _ => 0;
  dvb_demux_tscheck := 0;
  dvb_demux_speedcheck := 0;
  current_kernel_time := fun _ => (0, 0);
  timespec_delta_ns := fun _ _ => 0;
|}.

Definition zeros (n : nat) : list Z := replicate n 0.

(** A filter that accepts sections with table id 0x42. *)
Definition ex_filter : dvb_demux_filter :=
  mk_filter (0x42 :: zeros 17) (0xff :: zeros 17) (replicate 18 0xff) None
    (0xff :: zeros 17) (zeros 18) 0 None (Some 0%nat) 0 DMX_STATE_READY DMX_TYPE_SEC.

Definition ex_feed : dvb_demux_feed :=
  mk_feed true None 1 0 0 (zeros 4284) 0 0 0 DMX_TYPE_SEC DMX_STATE_GO 0x100 0 (0, 0)
    (Some 0%nat) 0 0 0 0 0 0.

(** A section of [n + 3] bytes. *)
Definition ex_section (n : nat) : list Z := [0x42; 0xf0; Z.of_nat n] ++ replicate n 0x55.

(** [ex_start] starts a section of 243 bytes, [ex_cont] completes it. *)
Definition ex_start : list Z :=
  [0x47; 0x41; 0x00; 0x11; 0] ++ take 183 (ex_section 240).
Definition ex_cont : list Z :=
  [0x47; 0x01; 0x00; 0x12] ++ drop 183 (ex_section 240) ++ replicate 124 0xff.
Definition ex_adaptation_only : list Z := [0x47; 0x01; 0x00; 0x23; 183] ++ zeros 183.

Lemma ex_represents : represents [ex_filter] [0%nat] 1 (mk_assembly [] false 0) ex_feed.
Proof.
  split; try done.
  - split; [done|]. exists ex_filter. done.
  - apply Forall_replicate. unfold is_byte. lia.
Qed.

Ltac bytes := repeat (constructor; [unfold is_byte; lia|]); constructor.

Lemma section_packet_refines_witness :
  exists feed', dvb_dmx_swfilter_section_packet [ex_filter] 0 ex_feed [] ex_start =
                  Some (feed', [], 0) /\
    represents [ex_filter] [0%nat] 1 (mk_assembly (take 183 (ex_section 240)) true 1) feed'.
Proof.
  apply (section_packet_refines [ex_filter] 0 [0%nat] 1 (mk_assembly [] false 0) ex_feed []
    ex_start (mk_view true 1 false (0 :: take 183 (ex_section 240)))).
  - apply ex_represents.
  - bytes.
  - reflexivity.
  - reflexivity.
  - vm_compute. constructor.
Defined.

Lemma section_unit_delivered_witness :
  exists feed',
    section_packets [ex_filter] 0 ex_feed [] [ex_start; ex_cont] =
      Some (feed', [CallSec 0 0 (ex_section 240)]).
Proof.
  replace [CallSec 0 0 (ex_section 240)] with
    (deliver_all [ex_filter] 0 [0%nat] 1 [] (sections
      (take 183 (ex_section 240) ++
       concat (v_payload <$>
         [mk_view false 2 false (drop 183 (ex_section 240) ++ replicate 124 0xff)]))))
    by (vm_compute; reflexivity).
  apply (section_unit_delivered [ex_filter] 0 [0%nat] 1 (mk_assembly [] false 0) ex_feed []
    ex_start 1 false (take 183 (ex_section 240)) [ex_cont]
    [mk_view false 2 false (drop 183 (ex_section 240) ++ replicate 124 0xff)]).
  - apply ex_represents.
  - repeat (constructor; [split; [bytes|reflexivity]|]). constructor.
  - reflexivity.
  - discriminate.
  - repeat constructor.
  - repeat constructor.
  - vm_compute. discriminate.
  - vm_compute. repeat (constructor; [discriminate|]). constructor.
Defined.

(** A section of 243 bytes over two packets, the second with stuffing behind it. *)
Lemma section_stream_delivered_witness :
  exists feed',
    section_packets [ex_filter] 0 ex_feed [] [ex_start; ex_cont] =
      Some (feed', deliver_all [ex_filter] 0 [0%nat] 1 [] [ex_section 240]).
Proof.
  apply (section_stream_delivered [ex_filter] 0 [0%nat] 1 (mk_assembly [] false 0) ex_feed []
    0 [ex_section 240] (mk_view true 1 false (0 :: take 183 (ex_section 240)))
    [mk_view false 2 false (drop 183 (ex_section 240) ++ replicate 124 0xff)]).
  - apply ex_represents.
  - repeat (constructor; [split; [bytes|reflexivity]|]). constructor.
  - repeat constructor.
  - apply (packed_start 0 [] [] (take 183 (ex_section 240)) (drop 183 (ex_section 240)) []
      [mk_view false 2 false (drop 183 (ex_section 240) ++ replicate 124 0xff)]);
      [discriminate|discriminate|].
    apply (packed_last 1 (drop 183 (ex_section 240)) [] (replicate 124 0xff));
      [discriminate| |apply packed_end].
    repeat constructor.
  - reflexivity.
  - constructor; [|constructor]. split; [bytes|]. split; [reflexivity|vm_compute; discriminate].
Defined.

(** Fact: a packet that only carries an adaptation field makes the next
    packet of the table deliver again every section received since the last
    boundary: its error return rewinds [secbufp] but not [tsfeedp]. *)
Theorem adaptation_only_redelivers :
  exists f1 f2,
    section_packets [ex_filter] 0 ex_feed [] [ex_start; ex_cont; ex_adaptation_only] =
      Some (f1, [CallSec 0 0 (ex_section 240)]) /\
    section_packets [ex_filter] 0 ex_feed []
      [ex_start; ex_cont; ex_adaptation_only;
       [0x47; 0x01; 0x00; 0x13] ++ replicate 184 0xff] =
      Some (f2, [CallSec 0 0 (ex_section 240); CallSec 0 0 (ex_section 240)]).
Proof. do 2 eexists. split; vm_compute; reflexivity. Qed.
