(* ===== verification/DemuxStream.v ===== *)
(** Correctness of the packet path of the demultiplexer (Demux.v): splitting
    a byte stream into packets does not depend on how the stream is cut into
    buffers, never reads or writes out of bounds and terminates, and a packet
    reaches the DVR client at most once. *)

From S2P Require Import Prelude DemuxTypes Demux DemuxSection.

(** Everything of a demultiplexer but the stream buffer. *)
Definition set_ts (b : list Z) (p : Z) (d : dvb_demux) : dvb_demux :=
  set_tsbufp p (set_tsbuf b d).
Definition erase (d : dvb_demux) : dvb_demux := set_ts [] 0 d.

Lemma set_ts_set_ts b p b' p' d : set_ts b p (set_ts b' p' d) = set_ts b p d.
Proof. done. Qed.

Lemma set_ts_erase b p d : set_ts b p (erase d) = set_ts b p d.
Proof. done. Qed.

Lemma set_ts_id d : set_ts (tsbuf d) (tsbufp d) d = d.
Proof. by destruct d. Qed.

Section stream.
Context {E : DemuxEnv}.

(** ** Handling a packet neither reads nor writes the stream buffer *)

Lemma feed_loop_set_ts l pid0 buf n b p d :
  feed_loop l pid0 buf n (set_ts b p d) = set_ts b p <$> feed_loop l pid0 buf n d.
Proof.
  revert n d. induction l as [|fi l IH]; intros n d; cbn [feed_loop]; [done|].
  change (dx_feed (set_ts b p d)) with (dx_feed d).
  destruct (dx_feed d !! fi) as [feed|]; [|done]. cbn [mbind option_bind].
  destruct (negb _ && _); [apply IH|].
  destruct (if DVR_FEED feed then _ else _) as [[] n']; [apply IH|].
  change (dx_filter (set_ts b p d)) with (dx_filter d).
  change (has_write_to_decoder (set_ts b p d)) with (has_write_to_decoder d).
  change (dx_log (set_ts b p d)) with (dx_log d).
  destruct (pid feed =? pid0).
  - destruct (dvb_dmx_swfilter_packet_type _ _ _ _ _ _) as [[feed' log']|]; [|done].
    cbn [mbind option_bind]. apply (IH n' (set_dx_log log' (set_dx_feed _ d))).
  - destruct (pid feed =? 8192); cbn [mbind option_bind]; [|apply IH].
    destruct (mread buf 0 188) as [data|]; [|done]. cbn [mbind option_bind].
    apply (IH n' (set_dx_log _ d)).
Qed.

Lemma packet_set_ts d b p buf :
  dvb_dmx_swfilter_packet (set_ts b p d) buf = set_ts b p <$> dvb_dmx_swfilter_packet d buf.
Proof.
  unfold dvb_dmx_swfilter_packet. destruct (ts_pid buf) as [pid0|]; [|done].
  cbn [mbind option_bind].
  assert (speed_check (set_ts b p d) = set_ts b p <$> speed_check d) as ->.
  { unfold speed_check, set_ts. cbn. repeat case_match; done. }
  destruct (speed_check d) as [d1|]; [|done]. cbn [mbind option_bind fmap option_fmap option_map].
  assert (cnt_check pid0 buf (set_ts b p d1) = set_ts b p <$> cnt_check pid0 buf d1) as ->.
  { unfold cnt_check. change (cnt_storage (set_ts b p d1)) with (cnt_storage d1).
    destruct (cnt_storage d1) as [st|]; [|done]. case_match; [|done].
    destruct (buf.[1]), (buf.[3]), (st.[pid0]); cbn [mbind option_bind]; try done.
    by destruct (mset st pid0 _). }
  destruct (cnt_check pid0 buf d1) as [d2|]; [|done]. apply feed_loop_set_ts.
Qed.

Fixpoint packets (d : dvb_demux) (pkts : list (list Z)) : option dvb_demux :=
  match pkts with
  | [] => Some d
  | q :: pkts => d ← dvb_dmx_swfilter_packet d q; packets d pkts
  end.

Lemma packets_set_ts d b p pkts :
  packets (set_ts b p d) pkts = set_ts b p <$> packets d pkts.
Proof.
  revert d. induction pkts as [|q pkts IH]; intros d; cbn [packets]; [done|].
  rewrite packet_set_ts. destruct (dvb_dmx_swfilter_packet d q); [apply IH|done].
Qed.

Lemma packets_erase d pkts :
  packets d pkts = set_ts (tsbuf d) (tsbufp d) <$> packets (erase d) pkts.
Proof. by rewrite <- packets_set_ts, set_ts_erase, set_ts_id. Qed.

Lemma packets_app d ps qs :
  packets d (ps ++ qs) = (d ← packets d ps; packets d qs).
Proof.
  revert d. induction ps as [|q ps IH]; intros d; cbn [packets app]; [done|].
  destruct (dvb_dmx_swfilter_packet d q); [apply IH|done].
Qed.

(** ** Aligned streams *)

Definition aligned (q : list Z) : Prop := zlen q = 188 /\ q.[0] = Some 0x47.

(** A possibly empty start of a packet. *)
Definition partial (t : list Z) : Prop := zlen t < 188 /\ (t = [] \/ t.[0] = Some 0x47).

Lemma find_next_sync buf p count :
  0 <= p <= count -> (p < count -> buf.[p] = Some 0x47) ->
  find_next_packet buf p count 188 = Some p.
Proof.
  intros Hp Hb. unfold find_next_packet.
  assert (scan_sync (Z.to_nat (count - p)) buf p 188 = Some p) as ->.
  { destruct (Z.to_nat (count - p)) eqn:Hn; [done|]. cbn [scan_sync].
    rewrite Hb by lia. done. }
  cbn [mbind option_bind]. by rewrite Z.sub_diag.
Qed.

Lemma loop_aligned fuel pkts pre tail d :
  Forall aligned pkts -> partial tail -> (length pkts < fuel)%nat ->
  let buf := pre ++ concat pkts ++ tail in
  swfilter_loop fuel d buf (zlen buf) 188 (zlen pre) =
    (fun d' => (d', zlen buf - zlen tail)) <$> packets d pkts.
Proof.
  intros Hp [Ht Hsync]. revert fuel pre d.
  induction Hp as [|q pkts [Hq Hq0] Hp IH]; intros fuel pre d Hfuel buf;
    (destruct fuel as [|fuel]; [lia|]); cbn [swfilter_loop packets];
    pose proof (zlen_nonneg pre); pose proof (zlen_nonneg tail).
  - assert (Hb : zlen buf = zlen pre + zlen tail) by (unfold buf; cbn; by rewrite zlen_app).
    rewrite find_next_sync; [|lia|].
    2: { intros Hlt. unfold buf. rewrite mget_app_r, Z.sub_diag by lia. cbn.
         destruct Hsync as [->|Hs]; [|done]. rewrite zlen_nil in Hb. lia. }
    cbn [mbind option_bind]. cbn. rewrite Hb.
    destruct (Z.geb_spec (zlen pre) (zlen pre + zlen tail)).
    + do 2 f_equal. lia.
    + rewrite (proj2 (Z.ltb_lt _ _)) by lia. do 2 f_equal. lia.
  - assert (Hb : zlen buf = zlen pre + 188 + zlen (concat pkts) + zlen tail).
    { unfold buf. cbn. rewrite !zlen_app, Hq. lia. }
    pose proof (zlen_nonneg (concat pkts)).
    assert (Hb0 : buf.[zlen pre] = Some 0x47).
    { unfold buf. rewrite mget_app_r, Z.sub_diag by lia. cbn.
      rewrite <- app_assoc, mget_app_l by lia. done. }
    rewrite find_next_sync; [|lia|done]. cbn [mbind option_bind].
    destruct (Z.geb_spec (zlen pre) (zlen buf)); [lia|].
    rewrite (proj2 (Z.ltb_ge _ _)), Hb0 by lia. cbn [mbind option_bind andb Z.eqb Pos.eqb].
    assert (Hread : mread buf (zlen pre) 188 = Some q).
    { rewrite mread_Some by lia. f_equal. unfold buf. cbn.
      rewrite <- app_assoc. rewrite <- Hq at 1. apply slice_app_mid. }
    rewrite Hread. cbn [mbind option_bind].
    destruct (dvb_dmx_swfilter_packet d q) as [d1|]; [|done]. cbn [mbind option_bind].
    specialize (IH fuel (pre ++ q) d1 ltac:(cbn in Hfuel; lia)).
    replace ((pre ++ q) ++ concat pkts ++ tail) with buf in IH
      by (unfold buf; cbn; by rewrite <- !app_assoc).
    by rewrite zlen_app, Hq in IH.
Qed.

(** A stream buffer [b] that holds the start [t] of a packet. *)
Definition holds (b t : list Z) : Prop := zlen b = 204 /\ slice b 0 (zlen t) = t.

Lemma holds_blit base t : zlen base = 204 -> zlen t < 188 -> holds (blit base 0 t) t.
Proof.
  intros Hb Ht. split; [by rewrite zlen_blit by lia|]. by rewrite slice_blit_same by lia.
Qed.

Lemma blit_nil {A} (base : list A) n : blit base n [] = base.
Proof. unfold blit. cbn. rewrite Nat.add_0_r. apply take_drop. Qed.

Lemma zlen_0_inv {A} (l : list A) : zlen l = 0 -> l = [].
Proof. destruct l; [done|]. rewrite zlen_cons. pose proof (zlen_nonneg l). lia. Qed.

Lemma keep_tail_spec d x tail :
  zlen (tsbuf d) = 204 -> tsbufp d = 0 -> zlen tail < 188 ->
  keep_tail d (x ++ tail) (zlen (x ++ tail)) 188 (zlen (x ++ tail) - zlen tail) =
    Some (set_ts (blit (tsbuf d) 0 tail) (zlen tail) d).
Proof.
  intros Hb Hp Ht. unfold keep_tail. rewrite zlen_app.
  replace (_ - (_ - zlen tail)) with (zlen tail) by lia.
  pose proof (zlen_nonneg x). pose proof (zlen_nonneg tail).
  destruct (Z.eqb_spec (zlen tail) 0) as [Ht0|Ht0]; cbn [negb].
  - apply zlen_0_inv in Ht0 as ->. rewrite blit_nil. change (zlen []) with 0.
    rewrite <- Hp. by rewrite set_ts_id.
  - assert (Hread : mread (x ++ tail) (zlen x + zlen tail - zlen tail) (zlen tail) = Some tail).
    { rewrite mread_Some by (rewrite ?zlen_app; lia). f_equal.
      replace (_ - zlen tail) with (zlen x) by lia.
      pose proof (slice_app_mid x tail []) as Hm. by rewrite app_nil_r in Hm. }
    rewrite Hread. cbn [mbind option_bind]. rewrite mwrite_Some by lia. cbn [mbind option_bind].
    rewrite byte_get by (rewrite zlen_blit; lia). done.
Qed.

Lemma stream_aligned d pre pkts tail :
  zlen (tsbuf d) = 204 -> tsbufp d = 0 -> Forall aligned pkts -> partial tail ->
  let c := pre ++ concat pkts ++ tail in
  ('(d, p) ← swfilter_loop (S (Z.to_nat (zlen c))) d c (zlen c) 188 (zlen pre);
   keep_tail d c (zlen c) 188 p) =
  set_ts (blit (tsbuf d) 0 tail) (zlen tail) <$> packets (erase d) pkts.
Proof.
  intros Hb Hp Hpk Ht c.
  assert (Hlen : (length pkts < S (Z.to_nat (zlen c)))%nat).
  { assert (Z.of_nat (length pkts) <= zlen (concat pkts)).
    { clear -Hpk. induction Hpk as [|q pkts [Hq _] _ IH]; [done|].
      cbn. rewrite zlen_app. lia. }
    unfold c. rewrite !zlen_app. pose proof (zlen_nonneg pre). pose proof (zlen_nonneg tail). lia. }
  assert (Hloop : swfilter_loop (S (Z.to_nat (zlen c))) d c (zlen c) 188 (zlen pre) =
    (fun d' => (d', zlen c - zlen tail)) <$> packets d pkts)
    by exact (loop_aligned _ pkts pre tail d Hpk Ht Hlen).
  rewrite Hloop, (packets_erase d). destruct (packets (erase d) pkts) as [d1|]; [|done].
  cbn [fmap option_fmap option_map mbind option_bind].
  replace c with ((pre ++ concat pkts) ++ tail) by (unfold c; by rewrite app_assoc).
  rewrite keep_tail_spec; try done. apply Ht.
Qed.

(** The demultiplexer holds the start [r] of a packet. *)
Definition pending (d : dvb_demux) (r : list Z) : Prop :=
  holds (tsbuf d) r /\ tsbufp d = zlen r /\ partial r.


Lemma packet_split r c q (rest : list Z) :
  zlen q = 188 -> r ++ c = q ++ rest -> zlen r <= 188 ->
  q = r ++ slice c 0 (188 - zlen r) /\ c = slice c 0 (188 - zlen r) ++ rest.
Proof.
  intros Hq Heq Hr. unfold slice, zlen in *. rewrite drop_0.
  assert (q = r ++ take (Z.to_nat (188 - Z.of_nat (length r))) c) as Hq1.
  { apply (f_equal (take 188)) in Heq.
    rewrite take_app_ge in Heq by lia. rewrite take_app_le, (take_ge q) in Heq by lia.
    rewrite <- Heq. do 2 f_equal. lia. }
  split; [done|]. rewrite Hq1, <- app_assoc in Heq. by apply app_inv_head in Heq.
Qed.

Lemma swfilter_chunk d r c pkts tail :
  pending d r -> r ++ c = concat pkts ++ tail -> Forall aligned pkts -> partial tail ->
  zlen c < 2 ^ 31 - 188 ->
  exists b, holds b tail /\
    dvb_dmx_swfilter d c (zlen c) = set_ts b (zlen tail) <$> packets (erase d) pkts.
Proof.
  intros ([Hb Hr] & Hp & Hpr & Hr0) Hrc Hpk Ht Hc.
  unfold dvb_dmx_swfilter, _dvb_dmx_swfilter. rewrite Hp.
  destruct (Z.eqb_spec (zlen r) 0) as [H0|H0]; cbn [negb].
  { apply zlen_0_inv in H0 as ->. cbn in Hrc. subst c.
    exists (blit (tsbuf d) 0 tail). split; [by apply holds_blit, Ht|].
    by apply (stream_aligned d [] pkts tail). }
  pose proof (zlen_nonneg r). pose proof (zlen_nonneg c). rewrite wrap_small by lia.
  destruct (Z.ltb_spec (zlen c) (188 - zlen r)) as [Hlt|Hge].
  - (* the packet stays incomplete *)
    assert (pkts = [] /\ tail = r ++ c) as [-> ->].
    { destruct Hpk as [|q pkts [Hq _] _]; [by cbn in Hrc|].
      apply (f_equal zlen) in Hrc. cbn in Hrc. rewrite !zlen_app in Hrc.
      pose proof (zlen_nonneg tail). pose proof (zlen_nonneg (concat pkts)). lia. }
    rewrite mread_Some by lia. cbn [mbind option_bind]. rewrite slice_full.
    rewrite mwrite_Some by lia. cbn [mbind option_bind fmap option_fmap option_map packets].
    exists (blit (tsbuf d) (zlen r) c). split.
    { split; [by rewrite zlen_blit by lia|].
      by rewrite zlen_app, blit_prefix, Hr by lia. }
    rewrite set_ts_erase, zlen_app, s32_small by lia. done.
  - (* the packet is completed *)
    destruct Hpk as [|q pkts [Hq Hq0] Hpk].
    { cbn in Hrc. rewrite <- Hrc in Ht. destruct Ht as [Ht _].
      rewrite zlen_app in Ht. lia. }
    destruct (packet_split r c q (concat pkts ++ tail)) as [Hq1 Hc1]; [done| |lia..|].
    { rewrite Hrc. cbn. by rewrite <- app_assoc. }
    rewrite mread_Some by lia. cbn [mbind option_bind].
    set (c1 := slice c 0 (188 - zlen r)) in *.
    assert (Hc1l : zlen c1 = 188 - zlen r) by (apply zlen_slice; lia).
    rewrite mwrite_Some by lia. cbn [mbind option_bind].
    set (ts := blit (tsbuf d) (zlen r) c1).
    assert (Hts : slice ts 0 188 = q).
    { rewrite Hq1, <- Hr at 1. rewrite <- (blit_prefix (tsbuf d) c1) by lia.
      fold ts. f_equal. lia. }
    assert (Htl : zlen ts = 204) by (unfold ts; rewrite zlen_blit; lia).
    assert (ts.[0] = Some 0x47) as ->.
    { rewrite <- Hq0, <- Hts. by rewrite mget_slice by lia. }
    cbn [mbind option_bind Z.eqb Pos.eqb]. rewrite mread_Some by lia. cbn [mbind option_bind].
    rewrite Hts. cbn [packets]. exists (blit ts 0 tail). split; [by apply holds_blit, Ht|].
    change (set_tsbuf ts d) with (set_ts ts (tsbufp d) d).
    rewrite packet_set_ts. unfold erase. rewrite packet_set_ts.
    destruct (dvb_dmx_swfilter_packet d q) as [d1|]; [|done].
    cbn [fmap option_fmap option_map mbind option_bind].
    change (set_tsbufp 0 (set_ts ts (tsbufp d) d1)) with (set_ts ts 0 d1).
    rewrite <- Hc1l. rewrite Hc1.
    by rewrite (stream_aligned (set_ts ts 0 d1) c1 pkts tail).
Qed.

(** ** Buffers *)

Fixpoint swfilter_all (d : dvb_demux) (chunks : list (list Z)) : option dvb_demux :=
  match chunks with
  | [] => Some d
  | c :: chunks => d ← dvb_dmx_swfilter d c (zlen c); swfilter_all d chunks
  end.

Lemma prefix_split x y pkts tail :
  Forall aligned pkts -> partial tail -> x ++ y = concat pkts ++ tail ->
  exists pkts1 pkts2 tail1,
    pkts = pkts1 ++ pkts2 /\ x = concat pkts1 ++ tail1 /\ partial tail1 /\
    tail1 ++ y = concat pkts2 ++ tail.
Proof.
  intros Hp [Ht Ht0]. revert x. induction Hp as [|q pkts [Hq Hq0] Hp IH]; intros x Hx.
  - exists [], [], x. split_and!; try done. cbn in Hx. split.
    + apply (f_equal zlen) in Hx. rewrite zlen_app in Hx. pose proof (zlen_nonneg y). lia.
    + destruct x as [|b x]; [by left|right]. subst tail. by destruct Ht0.
  - destruct (decide (zlen x < 188)) as [Hs|Hs].
    + exists [], (q :: pkts), x. split_and!; try done. split; [done|].
      destruct x as [|b x]; [by left|right]. destruct q as [|b' q]; [done|].
      cbn in Hx. injection Hx as -> _. done.
    + cbn in Hx. rewrite <- app_assoc in Hx. symmetry in Hx.
      assert (x = q ++ drop 188 x) as Hx1.
      { rewrite <- (take_drop 188 x) at 1. f_equal. unfold zlen in *.
        rewrite <- (take_app_le x y), <- Hx by lia.
        rewrite take_app_le by lia. apply take_ge. lia. }
      rewrite Hx1, <- app_assoc in Hx. apply app_inv_head in Hx.
      destruct (IH (drop 188 x) (eq_sym Hx)) as (p1 & p2 & t1 & -> & Hd & Ht1 & Hy).
      exists (q :: p1), p2, t1. split_and!; try done.
      rewrite Hx1, Hd. cbn. by rewrite app_assoc.
Qed.

Lemma swfilter_all_aligned chunks d r pkts tail :
  pending d r -> r ++ concat chunks = concat pkts ++ tail -> Forall aligned pkts ->
  partial tail -> Forall (fun c => zlen c < 2 ^ 31 - 188) chunks ->
  exists b, holds b tail /\
    swfilter_all d chunks = set_ts b (zlen tail) <$> packets (erase d) pkts.
Proof.
  intros Hpd Heq Hp Ht Hc. revert d r pkts Hpd Heq Hp.
  induction Hc as [|c chunks Hc1 Hc IH]; intros d r pkts Hpd Heq Hp.
  - destruct Hpd as ([Hb Hr] & Hpp & Hpr & _). cbn in Heq. rewrite app_nil_r in Heq. subst r.
    destruct Hp as [|q pkts [Hq _] _].
    + exists (tsbuf d). split; [done|]. cbn in Hpp |- *. rewrite <- Hpp.
      by rewrite set_ts_erase, set_ts_id.
    + cbn in Hpr. rewrite !zlen_app in Hpr. pose proof (zlen_nonneg tail).
      pose proof (zlen_nonneg (concat pkts)). lia.
  - cbn in Heq. rewrite app_assoc in Heq.
    destruct (prefix_split _ _ _ _ Hp Ht Heq) as (p1 & p2 & t1 & -> & Hrc & Ht1 & Hrest).
    apply Forall_app in Hp as [Hp1 Hp2].
    destruct (swfilter_chunk d r c p1 t1 Hpd Hrc Hp1 Ht1 Hc1) as (b1 & Hb1 & Hsw).
    cbn [swfilter_all]. rewrite Hsw, packets_app.
    destruct (packets (erase d) p1) as [e|] eqn:He.
    2: { exists (blit (replicate 204 0) 0 tail). split; [by apply holds_blit, Ht|done]. }
    destruct (IH (set_ts b1 (zlen t1) e) t1 p2) as (b & Hb & Hall); [by split|done|done|].
    exists b. split; [done|]. cbn [mbind option_bind fmap option_fmap option_map].
    rewrite Hall.
    unfold erase in He. rewrite packets_set_ts in He. apply fmap_Some in He as (e0 & _ & ->). done.
Qed.

(** Claim C7: the packets do not depend on the buffers.  A stream of whole
    packets leaves the demultiplexer (callbacks, reassembly, counters) in the
    same state however it is cut into buffers: the state packet-by-packet
    handling leads to, a fault included; and nothing is kept back. *)
Theorem swfilter_chunking d pkts chunks :
  zlen (tsbuf d) = 204 -> tsbufp d = 0 -> Forall aligned pkts ->
  concat chunks = concat pkts -> Forall (fun c => zlen c < 2 ^ 31 - 188) chunks ->
  exists b, zlen b = 204 /\
    swfilter_all d chunks = set_ts b 0 <$> packets (erase d) pkts.
Proof.
  intros Hb Hp Hpk Heq Hc.
  destruct (swfilter_all_aligned chunks d [] pkts []) as (b & [Hb1 _] & Hsw); try done.
  - split; [by split|]. split; [done|]. split; [done|by left].
  - by rewrite app_nil_r.
  - split; [done|by left].
  - eauto.
Qed.

(** ** Arbitrary streams *)

Lemma packet_ts d q d' :
  dvb_dmx_swfilter_packet d q = Some d' -> tsbuf d' = tsbuf d /\ tsbufp d' = tsbufp d.
Proof.
  rewrite <- (set_ts_id d) at 1. rewrite packet_set_ts.
  intros (d0 & _ & ->)%fmap_Some. done.
Qed.

Lemma scan_sync_spec n buf p pktsize :
  0 <= p -> p + Z.of_nat n <= zlen buf ->
  exists pos, scan_sync n buf p pktsize = Some pos /\ p <= pos <= p + Z.of_nat n.
Proof.
  revert p. induction n as [|n IH]; intros p Hp Hn; cbn [scan_sync].
  { exists p. split; [done|lia]. }
  rewrite byte_get by lia. cbn [mbind option_bind]. destruct (is_sync _ _).
  - exists p. split; [done|lia].
  - destruct (IH (p + 1)) as (pos & -> & ?); [lia..|]. exists pos. split; [done|lia].
Qed.

(** The next packet ends after the place the search started from, although
    the search may go back before it. *)
Lemma find_next_packet_spec buf p count pktsize :
  0 <= p <= count -> count <= zlen buf -> 0 < pktsize ->
  exists q, find_next_packet buf p count pktsize = Some q /\
    0 <= q <= count /\ p < q + pktsize.
Proof.
  intros Hp Hc Hk. unfold find_next_packet.
  destruct (scan_sync_spec (Z.to_nat (count - p)) buf p pktsize) as (pos & -> & Hpos); [lia..|].
  cbn [mbind option_bind]. destruct (Z.eqb_spec (pos - p) 0); cbn [negb].
  { exists pos. split; [done|lia]. }
  ztest; [|exists pos; split; [done|lia]].
  rewrite byte_get by lia. cbn [mbind option_bind].
  destruct (is_sync _ _); eexists; (split; [done|lia]).
Qed.

(** [Inv]: what makes handling a packet safe. *)
Section safe.
Context (Inv : dvb_demux -> Prop).
Context (Inv_ts : forall b p d, Inv d -> Inv (set_ts b p d)).
Context (Inv_packet : forall d q, Inv d -> zlen q = 188 -> Forall is_byte q ->
  exists d', dvb_dmx_swfilter_packet d q = Some d' /\ Inv d').

Definition stream_ok (d : dvb_demux) : Prop :=
  Inv d /\ zlen (tsbuf d) = 204 /\ Forall is_byte (tsbuf d).

Lemma packet_ok d q :
  stream_ok d -> zlen q = 188 -> Forall is_byte q ->
  exists d', dvb_dmx_swfilter_packet d q = Some d' /\ stream_ok d' /\ tsbufp d' = tsbufp d.
Proof.
  intros (Hi & Hl & Hb) Hq Hqb. destruct (Inv_packet d q Hi Hq Hqb) as (d' & Hd & Hi').
  exists d'. pose proof (packet_ts _ _ _ Hd) as [Ht Htp]. split; [done|].
  unfold stream_ok. rewrite Ht. done.
Qed.

Lemma stream_ok_set_ts b p d :
  stream_ok d -> zlen b = 204 -> Forall is_byte b -> stream_ok (set_ts b p d).
Proof. intros (Hi & _ & _) Hl Hb. split; [by apply Inv_ts|done]. Qed.

(** The packet at [p]: an 0xB8 one is copied and its sync byte replaced. *)
Lemma packet_at d buf p pktsize :
  stream_ok d -> Forall is_byte buf -> 0 <= p -> p + 188 <= zlen buf ->
  exists d1 q b,
    buf.[p] = Some b /\
    (if (pktsize =? 204) && (b =? 0xB8) then
       data ← mread buf p 188;
       ts ← mwrite (tsbuf d) 0 data;
       ts ← mset ts 0 0x47;
       q ← mread ts 0 188;
       Some (set_tsbuf ts d, q)
     else
       q ← mread buf p 188;
       Some (d, q)) = Some (d1, q) /\
    stream_ok d1 /\ tsbufp d1 = tsbufp d /\ zlen q = 188 /\ Forall is_byte q.
Proof.
  intros Hok Hb Hp Hl. pose proof Hok as (Hi & Htl & Htb).
  rewrite byte_get, mread_Some by lia. cbn [mbind option_bind].
  assert (Hq : zlen (slice buf p 188) = 188) by (apply zlen_slice; lia).
  destruct ((pktsize =? 204) && (byte buf p =? 184)) eqn:Hc.
  - rewrite mwrite_Some by lia. cbn [mbind option_bind].
    set (ts := blit (tsbuf d) 0 (slice buf p 188)).
    assert (Hts : zlen ts = 204) by (unfold ts; rewrite zlen_blit; lia).
    rewrite mset_blit, mwrite_Some by (rewrite ?zlen_singleton; lia).
    cbn [mbind option_bind]. set (ts' := blit ts 0 [71]).
    assert (Hts' : zlen ts' = 204)
      by (unfold ts'; rewrite zlen_blit; rewrite ?zlen_singleton; lia).
    assert (Hbts : Forall is_byte ts').
    { apply Forall_blit; [by apply Forall_blit, Forall_slice|].
      constructor; [unfold is_byte; lia|constructor]. }
    rewrite mread_Some by lia. do 2 eexists. exists (byte buf p). rewrite Hc.
    split; [done|]. split; [done|].
    split; [exact (stream_ok_set_ts ts' (tsbufp d) d Hok Hts' Hbts)|]. split; [done|].
    split; [apply (zlen_slice ts' 0 188); lia|by apply Forall_slice].
  - do 2 eexists. exists (byte buf p). rewrite Hc. do 5 (split; [done|]). by apply Forall_slice.
Qed.

Lemma swfilter_loop_ok fuel d buf pktsize p :
  stream_ok d -> Forall is_byte buf -> 188 <= pktsize -> 0 <= p <= zlen buf ->
  zlen buf - p < Z.of_nat fuel ->
  exists d' p', swfilter_loop fuel d buf (zlen buf) pktsize p = Some (d', p') /\
    stream_ok d' /\ tsbufp d' = tsbufp d /\ 0 <= p' <= zlen buf /\ zlen buf - p' < pktsize.
Proof.
  intros Hok Hb Hk. revert d p Hok. induction fuel as [|fuel IH]; intros d p Hok Hp Hf; [lia|].
  cbn [swfilter_loop].
  destruct (find_next_packet_spec buf p (zlen buf) pktsize) as (q & -> & Hq & Hprog); [lia..|].
  cbn [mbind option_bind].
  destruct (Z.geb_spec q (zlen buf)). { exists d, q. split; [done|]. split_and!; done || lia. }
  destruct (Z.ltb_spec (zlen buf - q) pktsize).
  { exists d, q. split; [done|]. split_and!; done || lia. }
  destruct (packet_at d buf q pktsize Hok Hb) as (d1 & pk & b & Hbq & Hpk & Hok1 & Hp1 & Hpkl & Hpkb);
    [lia..|].
  rewrite Hbq. cbn [mbind option_bind]. rewrite Hpk. cbn [mbind option_bind].
  destruct (packet_ok d1 pk Hok1 Hpkl Hpkb) as (d2 & -> & Hok2 & Hp2). cbn [mbind option_bind].
  destruct (IH d2 (q + pktsize) Hok2) as (d' & p' & Heq & ? & ? & ? & ?); [lia..|].
  exists d', p'. split; [done|]. split_and!; try done; lia.
Qed.

Lemma keep_tail_ok d buf pktsize p :
  stream_ok d -> Forall is_byte buf -> 0 <= p <= zlen buf -> zlen buf - p < pktsize ->
  188 <= pktsize <= 204 -> tsbufp d = 0 ->
  exists d', keep_tail d buf (zlen buf) pktsize p = Some d' /\ stream_ok d' /\
    0 <= tsbufp d' < pktsize.
Proof.
  intros Hok Hb Hp Ht Hk H0. pose proof Hok as (Hi & Htl & Htb). unfold keep_tail.
  destruct (Z.eqb_spec (zlen buf - p) 0); cbn [negb].
  { exists d. split; [done|]. split; [done|lia]. }
  rewrite mread_Some by lia. cbn [mbind option_bind].
  assert (Hs : zlen (slice buf p (zlen buf - p)) = zlen buf - p) by (apply zlen_slice; lia).
  rewrite mwrite_Some by lia. cbn [mbind option_bind].
  set (ts := blit _ 0 _). assert (Hts : zlen ts = 204) by (unfold ts; rewrite zlen_blit; lia).
  assert (Hbts : Forall is_byte ts) by by apply Forall_blit, Forall_slice.
  rewrite byte_get by lia. cbn [mbind option_bind]. destruct (_ && _).
  - rewrite mset_blit, mwrite_Some by (rewrite ?zlen_singleton; lia). cbn [mbind option_bind].
    eexists. split; [done|]. split; [|cbn; lia].
    apply (stream_ok_set_ts (blit ts 0 [71]) (zlen buf - p) d Hok).
    + rewrite zlen_blit; rewrite ?zlen_singleton; lia.
    + apply Forall_blit; [done|]. constructor; [unfold is_byte; lia|constructor].
  - eexists. split; [done|]. split; [|cbn; lia].
    by apply (stream_ok_set_ts ts (zlen buf - p) d Hok).
Qed.

Lemma stream_safe d buf pktsize p :
  stream_ok d -> Forall is_byte buf -> 188 <= pktsize <= 204 -> 0 <= p <= zlen buf ->
  tsbufp d = 0 ->
  exists d',
    ('(d, p) ← swfilter_loop (S (Z.to_nat (zlen buf))) d buf (zlen buf) pktsize p;
     keep_tail d buf (zlen buf) pktsize p) = Some d' /\ stream_ok d' /\
    0 <= tsbufp d' < pktsize.
Proof.
  intros Hok Hb Hk Hp H0.
  destruct (swfilter_loop_ok (S (Z.to_nat (zlen buf))) d buf pktsize p)
    as (d1 & p1 & -> & Hok1 & Htp & Hp1 & Hend); [done|done|lia|lia|lia|].
  cbn [mbind option_bind]. apply keep_tail_ok; try done. congruence.
Qed.

Lemma swfilter_safe d buf pktsize :
  stream_ok d -> 0 <= tsbufp d < pktsize -> 188 <= pktsize <= 204 ->
  Forall is_byte buf -> zlen buf < 2 ^ 31 - 204 ->
  exists d', _dvb_dmx_swfilter d buf (zlen buf) pktsize = Some d' /\ stream_ok d' /\
    0 <= tsbufp d' < pktsize.
Proof.
  intros Hok Htp Hk Hb Hl. pose proof Hok as (Hi & Htl & Htb).
  pose proof (zlen_nonneg buf). unfold _dvb_dmx_swfilter.
  destruct (Z.eqb_spec (tsbufp d) 0); cbn [negb]; [apply stream_safe; try done; lia|].
  rewrite wrap_small by lia. destruct (Z.ltb_spec (zlen buf) (pktsize - tsbufp d)).
  - rewrite mread_Some by lia. cbn [mbind option_bind]. rewrite slice_full.
    rewrite mwrite_Some by lia. cbn [mbind option_bind]. eexists. split; [done|].
    split; [|cbn; rewrite s32_small; lia].
    apply (stream_ok_set_ts (blit (tsbuf d) (tsbufp d) buf) _ d Hok);
      [by rewrite zlen_blit by lia|by apply Forall_blit].
  - rewrite mread_Some by lia. cbn [mbind option_bind].
    assert (Hs : zlen (slice buf 0 (pktsize - tsbufp d)) = pktsize - tsbufp d)
      by (apply zlen_slice; lia).
    rewrite mwrite_Some by lia. cbn [mbind option_bind].
    set (ts := blit _ _ _). assert (Hts : zlen ts = 204) by (unfold ts; rewrite zlen_blit; lia).
    assert (Hbts : Forall is_byte ts) by by apply Forall_blit, Forall_slice.
    assert (Hok1 : stream_ok (set_tsbuf ts d)) by exact (stream_ok_set_ts ts (tsbufp d) d Hok Hts Hbts).
    rewrite byte_get by lia. cbn [mbind option_bind].
    assert (exists d1, (if byte ts 0 =? 71 then
              q ← mread ts 0 188; dvb_dmx_swfilter_packet (set_tsbuf ts d) q
            else Some (set_tsbuf ts d)) = Some d1 /\ stream_ok d1) as (d1 & -> & Hok2).
    { destruct (_ =? 71); [|eauto]. rewrite mread_Some by lia. cbn [mbind option_bind].
      destruct (packet_ok (set_tsbuf ts d) (slice ts 0 188) Hok1) as (d1 & ? & ? & _);
        [apply zlen_slice; lia|by apply Forall_slice|eauto]. }
    cbn [mbind option_bind]. apply stream_safe; try done; [|lia].
    destruct Hok2 as (Hi2 & Htl2 & Htb2).
    exact (stream_ok_set_ts (tsbuf d1) 0 d1 (conj Hi2 (conj Htl2 Htb2)) Htl2 Htb2).
Qed.
End safe.

(** ** Demultiplexers whose filtering feeds are TS feeds *)

Definition feed_safe (f : dvb_demux_feed) : Prop :=
  feed_type f = DMX_TYPE_SEC -> is_filtering f = false.

Definition ts_only (d : dvb_demux) : Prop :=
  (forall fi, fi ∈ feed_list d -> exists f, dx_feed d !! fi = Some f /\ feed_safe f) /\
  (forall st, cnt_storage d = Some st -> zlen st = MAX_PID + 1).

Lemma packet_type_safe fs wtd fi feed log buf :
  feed_safe feed -> zlen buf = 188 -> Forall is_byte buf ->
  exists feed' log',
    dvb_dmx_swfilter_packet_type fs wtd fi feed log buf = Some (feed', log') /\ feed_safe feed'.
Proof.
  intros Hs Hl Hb. unfold dvb_dmx_swfilter_packet_type.
  destruct (feed_type feed =? DMX_TYPE_TS) eqn:Ht.
  2: { destruct (Z.eqb_spec (feed_type feed) DMX_TYPE_SEC) as [Hsec|]; [|eauto].
       rewrite (Hs Hsec). cbn. eauto. }
  destruct (is_filtering feed) eqn:Hf; cbn [negb]; [|eauto].
  rewrite !mread_Some by lia. cbn [mbind option_bind].
  assert (forall feed1 (log1 : list dmx_call), feed_safe feed1 -> exists feed' log',
    (if truthy (Z.land (ts_type feed1) TS_DECODER) && wtd
     then Some (feed1, log1 ++ [CallDecoder fi (slice buf 0 188)]) else Some (feed1, log1))
     = Some (feed', log') /\ feed_safe feed') as Hdec.
  { intros. case_match; eauto. }
  destruct (truthy (Z.land _ TS_PACKET)); [|apply Hdec, Hs].
  destruct (truthy (Z.land _ TS_PAYLOAD_ONLY)); [|apply Hdec, Hs].
  unfold dvb_dmx_swfilter_payload.
  destruct (payload_range buf Hb Hl) as (count & -> & Hcount). cbn [mbind option_bind].
  case_match; [apply Hdec, Hs|].
  rewrite byte_get, mread_Some by lia. cbn [mbind option_bind].
  assert (Hsafe : feed_safe (set_peslen (u16 (peslen (if truthy (Z.land (byte buf 1) 64)
    then set_peslen 65530 feed else feed) + count)) (if truthy (Z.land (byte buf 1) 64)
    then set_peslen 65530 feed else feed))) by (case_match; exact Hs).
  apply (Hdec _ _ Hsafe).
Qed.

Lemma feed_loop_safe l pid0 buf n d :
  (forall fi, fi ∈ feed_list d -> exists f, dx_feed d !! fi = Some f /\ feed_safe f) ->
  (forall fi, fi ∈ l -> fi ∈ feed_list d) -> zlen buf = 188 -> Forall is_byte buf ->
  exists d', feed_loop l pid0 buf n d = Some d' /\
    (forall fi, fi ∈ feed_list d' -> exists f, dx_feed d' !! fi = Some f /\ feed_safe f) /\
    cnt_storage d' = cnt_storage d.
Proof.
  intros Hd Hl Hb1 Hb2. revert n d Hd Hl. induction l as [|fi l IH]; intros n d Hd Hl;
    cbn [feed_loop]; [eauto|].
  assert (Hl' : forall fi', fi' ∈ l -> fi' ∈ feed_list d) by (intros; apply Hl; by right).
  destruct (Hd fi) as (f & Hf & Hsafe); [apply Hl; by left|]. rewrite Hf. cbn [mbind option_bind].
  destruct (negb _ && _); [by apply IH|].
  destruct (if DVR_FEED f then _ else _) as [[] n']; [by apply IH|].
  rewrite mread_Some by lia. cbn [mbind option_bind].
  destruct (packet_type_safe (dx_filter d) (has_write_to_decoder d) fi f (dx_log d) buf)
    as (f' & log' & -> & Hsafe'); try done. cbn [mbind option_bind].
  destruct (pid f =? pid0).
  2: { destruct (pid f =? 8192); cbn [mbind option_bind]; [|by apply IH].
       by apply (IH n' (set_dx_log (dx_log d ++ [CallTs fi (slice buf 0 188)]) d)). }
  apply (IH n' (set_dx_log log' (set_dx_feed (<[fi:=f']> (dx_feed d)) d))); [|done].
  intros fi' Hfi'. cbn. destruct (decide (fi' = fi)) as [->|].
  - exists f'. split; [|done]. apply list_lookup_insert_eq. by eapply lookup_lt_Some.
  - rewrite list_lookup_insert_ne by done. by apply Hd.
Qed.

Lemma ts_pid_range buf :
  zlen buf = 188 -> exists p, ts_pid buf = Some p /\ 0 <= p.
Proof.
  intros Hl. unfold ts_pid. rewrite !byte_get by lia. cbn [mbind option_bind].
  eexists. split; [done|]. by apply wrap_range.
Qed.

Lemma packet_safe d q :
  dvb_demux_speedcheck = 0 -> ts_only d -> zlen q = 188 -> Forall is_byte q ->
  exists d', dvb_dmx_swfilter_packet d q = Some d' /\ ts_only d'.
Proof.
  intros Hsp [Hd Hst] Hl Hb. unfold dvb_dmx_swfilter_packet, speed_check.
  destruct (ts_pid_range q Hl) as (p & -> & Hp). cbn [mbind option_bind].
  rewrite Hsp. cbn [mbind option_bind Z.eqb negb].
  assert (exists d1, cnt_check p q d = Some d1 /\ feed_list d1 = feed_list d /\
    dx_feed d1 = dx_feed d /\ forall st, cnt_storage d1 = Some st -> zlen st = MAX_PID + 1)
    as (d1 & -> & Hfl & Hfe & Hst1).
  { unfold cnt_check. destruct (cnt_storage d) as [st|] eqn:Hc.
    2: { exists d. rewrite Hc. done. }
    pose proof (Hst st eq_refl) as Hst0. unfold MAX_PID in *.
    destruct (Z.eqb_spec dvb_demux_tscheck 0); cbn [negb andb];
      [exists d; rewrite Hc; eauto|]. destruct (Z.ltb_spec p 8191) as [Hlt|]; [|exists d; rewrite Hc; eauto].
    rewrite !byte_get by lia. cbn [mbind option_bind].
    unfold mset. rewrite bool_decide_true by lia. cbn [mbind option_bind].
    eexists. split; [done|]. cbn. split_and!; try done. intros st' [= <-]. by rewrite zlen_insert. }
  cbn [mbind option_bind].
  destruct (feed_loop_safe (feed_list d1) p q 0 d1) as (d' & Heq & Hd' & Hc'); try done.
  { by rewrite Hfl, Hfe. }
  exists d'. split; [done|]. split; [done|]. by rewrite Hc'.
Qed.

(** Claim C9: no stream can make the packet splitter misbehave.  With TS
    feeds (and no section feed filtering) any bytes, in any amount, are
    handled without an access out of the buffer, the kept packet start or the
    tables; the loop ends; and less than a packet is kept for the next call,
    for 188-byte and for 204-byte packets. *)
Theorem swfilter_total d buf pktsize :
  dvb_demux_speedcheck = 0 -> ts_only d ->
  zlen (tsbuf d) = 204 -> Forall is_byte (tsbuf d) -> 0 <= tsbufp d < pktsize ->
  pktsize = 188 \/ pktsize = 204 -> Forall is_byte buf -> zlen buf < 2 ^ 31 - 204 ->
  exists d', _dvb_dmx_swfilter d buf (zlen buf) pktsize = Some d' /\
    ts_only d' /\ zlen (tsbuf d') = 204 /\ Forall is_byte (tsbuf d') /\
    0 <= tsbufp d' < pktsize.
Proof.
  intros Hsp Hd Hl Hb Hp Hk Hbuf Hc.
  destruct (swfilter_safe ts_only ltac:(done) (fun d q => packet_safe d q Hsp) d buf pktsize)
    as (d' & Heq & (? & ? & ?) & ?); try done; [lia|]. exists d'. done.
Qed.

(** ** Who gets a packet *)

Definition call_feed (c : dmx_call) : nat :=
  match c with
  | CallTs fi _ | CallSec fi _ _ | CallDecoder fi _ | CallStartFeed fi | CallStopFeed fi => fi
  end.

Definition sec_call (fi : nat) (c : dmx_call) : Prop := exists x d, c = CallSec fi x d.

(** The callbacks made between two points, all of the kind [P]. *)
Definition extends (P : dmx_call -> Prop) (log log' : list dmx_call) : Prop :=
  exists calls, log' = log ++ calls /\ Forall P calls.

Lemma extends_refl P log : extends P log log.
Proof. exists []. split; [by rewrite app_nil_r|constructor]. Qed.

Lemma extends_trans P log1 log2 log3 :
  extends P log1 log2 -> extends P log2 log3 -> extends P log1 log3.
Proof.
  intros (c1 & -> & H1) (c2 & -> & H2). exists (c1 ++ c2).
  split; [by rewrite app_assoc|by apply Forall_app].
Qed.

Lemma extends_one (P : dmx_call -> Prop) log c : P c -> extends P log (log ++ [c]).
Proof. intros. exists [c]. split; [done|by constructor]. Qed.

Lemma section_filters_extends fuel fs fi feed log xi log' b :
  section_filters fuel fs fi feed log xi = Some (log', b) -> extends (sec_call fi) log log'.
Proof.
  revert log xi. induction fuel as [|fuel IH]; intros log xi H; [done|]. cbn in H.
  apply bind_Some in H as (f & _ & H). apply bind_Some in H as ([log1 r] & Hf & H).
  assert (extends (sec_call fi) log log1) as H1.
  { unfold dvb_dmx_swfilter_sectionfilter in Hf. apply bind_Some in Hf as ([neq|] & _ & Hf);
      [|binv; apply extends_refl].
    destruct (_ && _); [binv; apply extends_refl|].
    apply bind_Some in Hf as (data & _ & Hf). injection Hf as <- <-.
    apply extends_one. unfold sec_call. eauto. }
  destruct (r <? 0); [by injection H as <- <-|].
  destruct (next f); [|by injection H as <- <-].
  destruct (is_filtering feed); [|by injection H as <- <-].
  eapply extends_trans; [exact H1|]. eauto.
Qed.

Lemma section_feed_extends fs fi feed log feed' log' r :
  dvb_dmx_swfilter_section_feed fs fi feed log = Some (feed', log', r) ->
  extends (sec_call fi) log log'.
Proof.
  unfold dvb_dmx_swfilter_section_feed. intros H. binv; try apply extends_refl;
    by eapply section_filters_extends.
Qed.

Lemma copy_dump_loop_extends fuel fs fi limit feed log feed' log' :
  copy_dump_loop fuel fs fi limit feed log = Some (feed', log') ->
  extends (sec_call fi) log log'.
Proof.
  revert feed log. induction fuel as [|fuel IH]; intros feed log H; cbn [copy_dump_loop] in H.
  - binv. apply extends_refl.
  - destruct (_ <? limit); [|binv; apply extends_refl].
    apply bind_Some in H as (len & _ & H).
    destruct (_ || _); [binv; apply extends_refl|].
    apply bind_Some in H as ([feed1 log1] & Hf & H). apply IH in H.
    refine (extends_trans _ _ _ _ _ H). clear H.
    destruct (truthy _); [|injection Hf as <- <-; apply extends_refl].
    apply bind_Some in Hf as ([[feed2 log2] r2] & Hf & Heq). injection Heq as <- <-.
    by eapply section_feed_extends.
Qed.

Lemma copy_dump_extends fs fi feed log buf p len feed' log' r :
  dvb_dmx_swfilter_section_copy_dump fs fi feed log buf p len = Some (feed', log', r) ->
  extends (sec_call fi) log log'.
Proof.
  unfold dvb_dmx_swfilter_section_copy_dump. intros H. binv; try apply extends_refl.
  by eapply copy_dump_loop_extends.
Qed.

Lemma section_packet_extends fs fi feed log buf feed' log' r :
  dvb_dmx_swfilter_section_packet fs fi feed log buf = Some (feed', log', r) ->
  extends (sec_call fi) log log'.
Proof.
  unfold dvb_dmx_swfilter_section_packet. intros H.
  apply bind_Some in H as (count & _ & H). destruct (count =? 0); [binv; apply extends_refl|].
  apply bind_Some in H as (b3 & _ & H). apply bind_Some in H as (dc & _ & H).
  apply bind_Some in H as (b1 & _ & H). destruct (truthy _).
  - apply bind_Some in H as (bp & _ & H). destruct (_ && _); [|binv; apply extends_refl].
    apply bind_Some in H as ([[f1 log1] r1] & H1 & H).
    apply bind_Some in H as ([[f2 log2] r2] & H2 & H). injection H as <- <- <-.
    eapply extends_trans; eapply copy_dump_extends; eauto.
  - apply bind_Some in H as ([[f1 log1] r1] & H1 & H). injection H as <- <- <-.
    by eapply copy_dump_extends.
Qed.

Definition count_if {A} (p : A -> bool) (l : list A) : nat := length (List.filter p l).

Lemma count_if_app {A} (p : A -> bool) l k : count_if p (l ++ k) = (count_if p l + count_if p k)%nat.
Proof. unfold count_if. by rewrite List.filter_app, length_app. Qed.

Lemma count_if_ext {A} (p q : A -> bool) l :
  Forall (fun x => p x = q x) l -> count_if p l = count_if q l.
Proof.
  unfold count_if. induction 1 as [|x l Hx _ IH]; [done|]. cbn. rewrite Hx.
  destruct (q x); cbn; by rewrite IH.
Qed.

Lemma count_if_0 {A} (p : A -> bool) l : Forall (fun x => p x = false) l -> count_if p l = 0%nat.
Proof.
  unfold count_if. induction 1 as [|x l Hx _ IH]; [done|]. cbn. by rewrite Hx.
Qed.

Definition is_ts_call (c : dmx_call) : bool :=
  match c with CallTs _ _ => true | _ => false end.

Lemma packet_type_calls fs wtd fi feed log buf feed' log' :
  dvb_dmx_swfilter_packet_type fs wtd fi feed log buf = Some (feed', log') ->
  exists calls, log' = log ++ calls /\ Forall (fun c => call_feed c = fi) calls /\
    (count_if is_ts_call calls <= 1)%nat.
Proof.
  unfold dvb_dmx_swfilter_packet_type. intros H.
  assert (Hnone : exists calls, log = log ++ calls /\ Forall (fun c => call_feed c = fi) calls /\
    (count_if is_ts_call calls <= 1)%nat).
  { exists []. rewrite app_nil_r. split_and!; [done|constructor|cbn; lia]. }
  destruct (feed_type feed =? DMX_TYPE_TS).
  - destruct (negb _); [by injection H as <- <-|].
    apply bind_Some in H as ([f1 log1] & H1 & H).
    assert (log1 = log \/ exists data, log1 = log ++ [CallTs fi data]) as Hlog1.
    { clear H. unfold dvb_dmx_swfilter_payload in H1. binv; eauto. }
    assert (log' = log1 \/ exists data, log' = log1 ++ [CallDecoder fi data]) as Hlog'.
    { clear H1 Hlog1. binv; eauto. }
    destruct Hlog1 as [->|(d1 & ->)], Hlog' as [->|(d2 & ->)]; [done|..];
      rewrite <- ?app_assoc; eexists; (split; [reflexivity|]);
      (split; [repeat constructor|cbn; lia]).
  - destruct (feed_type feed =? DMX_TYPE_SEC); [|by injection H as <- <-].
    destruct (negb _); [by injection H as <- <-|].
    apply bind_Some in H as ([[f1 log1] r] & H1 & H).
    apply section_packet_extends in H1 as (calls & -> & Hcalls).
    assert (log' = log ++ calls) as -> by (destruct (r <? 0); by injection H).
    exists calls. split; [done|]. split.
    + eapply Forall_impl; [exact Hcalls|]. by intros c (x & data & ->).
    + rewrite count_if_0; [lia|]. eapply Forall_impl; [exact Hcalls|].
      by intros c (x & data & ->).
Qed.

(** A TS callback of a DVR feed. *)
Definition dvr_call (d : dvb_demux) (c : dmx_call) : bool :=
  is_ts_call c && match dx_feed d !! call_feed c with Some f => DVR_FEED f | None => false end.

(** The feeds that get a packet with this PID. *)
Definition gets (d : dvb_demux) (pid0 : Z) (fi : nat) : Prop :=
  exists f, dx_feed d !! fi = Some f /\ (pid f = pid0 \/ pid f = 0x2000).

Lemma feed_step d fi f pid0 buf d1 :
  dx_feed d !! fi = Some f ->
  (if pid f =? pid0 then
     '(feed, log) ← dvb_dmx_swfilter_packet_type (dx_filter d) (has_write_to_decoder d)
                      fi f (dx_log d) buf;
     Some (set_dx_log log (set_dx_feed (<[fi := feed]> (dx_feed d)) d))
   else if pid f =? 0x2000 then
     data ← mread buf 0 188;
     Some (set_dx_log (dx_log d ++ [CallTs fi data]) d)
   else Some d) = Some d1 ->
  exists calls, dx_log d1 = dx_log d ++ calls /\ Forall (fun c => call_feed c = fi) calls /\
    (count_if is_ts_call calls <= 1)%nat /\
    feed_list d1 = feed_list d /\
    (forall fi', fi' <> fi -> dx_feed d1 !! fi' = dx_feed d !! fi').
Proof.
  intros Hf H. destruct (pid f =? pid0); [|destruct (pid f =? 0x2000)].
  - apply bind_Some in H as ([f' log'] & H & Heq). injection Heq as <-.
    apply packet_type_calls in H as (calls & -> & Hc & Hn). exists calls.
    split_and!; try done. intros fi' Hne. by apply list_lookup_insert_ne.
  - apply bind_Some in H as (data & H & Heq). injection Heq as <-.
    exists [CallTs fi data]. split_and!; try done. by repeat constructor.
  - injection H as <-. exists []. rewrite app_nil_r. split_and!; try done. cbn; lia.
Qed.

Definition same_feeds (d1 d : dvb_demux) : Prop :=
  dx_feed d1 = dx_feed d /\ feed_list d1 = feed_list d /\ dx_log d1 = dx_log d.

(** How many DVR feeds may still get the packet. *)
Definition dvr_budget (dvr_done : Z) : nat := if dvr_done =? 0 then 1%nat else 0%nat.

Lemma dvr_decision (dvr : bool) n skip m :
  (if dvr then (truthy n, n + 1) else (false, n)) = (skip, m) -> 0 <= n ->
  0 <= m /\ (skip = true -> (m =? 0) = (n =? 0)) /\
  (skip = false -> (dvr_budget m + (if dvr then 1 else 0) <= dvr_budget n)%nat).
Proof.
  unfold dvr_budget. destruct dvr; intros [= <- <-] Hn.
  - split_and!; [lia| |].
    + intros Hz%negb_true_iff. rewrite Hz. apply Z.eqb_neq in Hz. apply Z.eqb_neq. lia.
    + intros Hz%negb_false_iff. rewrite Hz. apply Z.eqb_eq in Hz as ->. done.
  - split_and!; [done|done|lia].
Qed.

Lemma dvr_count d fi f c1 (k : nat) m n :
  dx_feed d !! fi = Some f -> Forall (fun c => call_feed c = fi) c1 ->
  (count_if is_ts_call c1 <= 1)%nat -> (k <= dvr_budget m)%nat ->
  (dvr_budget m + (if DVR_FEED f then 1 else 0) <= dvr_budget n)%nat ->
  (count_if (dvr_call d) c1 + k <= dvr_budget n)%nat.
Proof.
  intros Hf Hc Hts Hk Hb. destruct (DVR_FEED f) eqn:Hd.
  - assert (count_if (dvr_call d) c1 = count_if is_ts_call c1) as ->; [|lia].
    apply count_if_ext. eapply Forall_impl; [exact Hc|]. intros c <-. unfold dvr_call.
    by rewrite Hf, Hd, andb_true_r.
  - rewrite count_if_0; [lia|]. eapply Forall_impl; [exact Hc|]. intros c <-. unfold dvr_call.
    by rewrite Hf, Hd, andb_false_r.
Qed.

Lemma feed_loop_calls l pid0 buf n d d' :
  NoDup l -> 0 <= n -> feed_loop l pid0 buf n d = Some d' ->
  exists calls, dx_log d' = dx_log d ++ calls /\
    Forall (fun c => call_feed c ∈ l /\ gets d pid0 (call_feed c)) calls /\
    (count_if (dvr_call d) calls <= dvr_budget n)%nat.
Proof.
  intros Hnd. revert n d. induction Hnd as [|fi l Hfi Hnd IH]; intros n d Hn H; cbn [feed_loop] in H.
  { injection H as <-. exists []. rewrite app_nil_r. split_and!; [done|constructor|cbn; lia]. }
  apply bind_Some in H as (f & Hf & H).
  assert (Hskip : forall m, 0 <= m -> (m =? 0) = (n =? 0) ->
    feed_loop l pid0 buf m d = Some d' ->
    exists calls, dx_log d' = dx_log d ++ calls /\
    Forall (fun c => call_feed c ∈ fi :: l /\ gets d pid0 (call_feed c)) calls /\
    (count_if (dvr_call d) calls <= dvr_budget n)%nat).
  { intros m Hm Hmn Hl. destruct (IH m d Hm Hl) as (calls & -> & Hc & Hcount).
    exists calls. split; [done|]. unfold dvr_budget in *. rewrite <- Hmn. split; [|done].
    eapply Forall_impl; [exact Hc|]. intros c [? ?]. split; [by right|done]. }
  destruct (negb _ && _) eqn:Hpid; [by apply (Hskip n)|].
  assert (Hgets : gets d pid0 fi).
  { exists f. split; [done|]. apply andb_false_iff in Hpid as [Hpid|Hpid];
      apply negb_false_iff, Z.eqb_eq in Hpid; auto. }
  destruct (if DVR_FEED f then _ else _) as [skip m] eqn:Hs.
  apply dvr_decision in Hs as (Hm0 & Hskip1 & Hgo); [|done].
  destruct skip; [by apply (Hskip m); auto|].
  apply bind_Some in H as (d1 & H1 & H2).
  destruct (feed_step _ _ _ _ _ _ Hf H1) as (c1 & Hlog1 & Hc1 & Hts1 & Hfl & Hfe).
  destruct (IH m d1 Hm0 H2) as (c2 & Hlog2 & Hc2 & Hcount2).
  assert (Hsame : forall c, call_feed c ∈ l -> dx_feed d1 !! call_feed c = dx_feed d !! call_feed c).
  { intros c Hc. apply Hfe. intros Heq. rewrite Heq in Hc. done. }
  exists (c1 ++ c2). split; [by rewrite Hlog2, Hlog1, app_assoc|]. split.
  - apply Forall_app. split; (eapply Forall_impl; [eassumption|]).
    + intros c Hc. cbn in Hc. rewrite Hc. split; [by left|done].
    + intros c [Hc (f' & Hf' & Hp')]. split; [by right|]. exists f'. by rewrite <- Hsame.
  - rewrite count_if_app, (count_if_ext (dvr_call d) (dvr_call d1) c2).
    2: { eapply Forall_impl; [exact Hc2|]. intros c [Hc _]. unfold dvr_call. by rewrite Hsame. }
    apply (dvr_count d fi f c1 _ m n); auto.
Qed.

(** Claim C17: a packet is copied to the DVR device once.  A packet makes
    callbacks only for listed feeds with its PID (or the wildcard PID), and
    at most one of them is a TS callback of a DVR feed, however many DVR
    filters match. *)
Theorem packet_to_dvr_once d q d' :
  NoDup (feed_list d) -> dvb_dmx_swfilter_packet d q = Some d' ->
  exists calls pid0, ts_pid q = Some pid0 /\ dx_log d' = dx_log d ++ calls /\
    Forall (fun c => call_feed c ∈ feed_list d /\ gets d pid0 (call_feed c)) calls /\
    (count_if (dvr_call d) calls <= 1)%nat.
Proof.
  intros Hnd. unfold dvb_dmx_swfilter_packet. intros H.
  apply bind_Some in H as (pid0 & Hpid & H). apply bind_Some in H as (d1 & Hd1 & H).
  apply bind_Some in H as (d2 & Hd2 & H).
  assert (same_feeds d1 d) as H1 by (unfold speed_check in Hd1; binv; done).
  assert (same_feeds d2 d1) as H2 by (unfold cnt_check in Hd2; binv; done).
  destruct H1 as (Hf1 & Hl1 & Hlog1), H2 as (Hf2 & Hl2 & Hlog2).
  rewrite Hl2, Hl1 in H.
  destruct (feed_loop_calls _ _ _ _ _ _ Hnd ltac:(done) H) as (calls & Hlog & Hc & Hn).
  exists calls, pid0. unfold dvr_call, gets in *. rewrite Hf2, Hf1 in *.
  by rewrite Hlog, Hlog2, Hlog1.
Qed.
End stream.

(** ** Concrete runs *)

Definition ex_ts_feed (p : Z) (filtering : bool) : dvb_demux_feed :=
  mk_feed filtering None 0 0 0 (zeros 4284) 0 0 0 DMX_TYPE_TS DMX_STATE_GO p 0 (0, 0)
    None TS_PACKET 0 0 0 0 0.

(** Two DVR feeds on PID 0x100 and the given third feed, nothing received. *)
Definition ex_demux (third : dvb_demux_feed) : dvb_demux :=
  mk_demux [] [ex_ts_feed 0x100 true; ex_ts_feed 0x100 true; third] true true false 0 [] None
    (replicate 20 None) (replicate 20 0xffff) 0 0 [0; 1; 2]%nat false (zeros 204) 0 None
    (0, 0) 0 0 [].

Definition ex_packet (b : Z) : list Z := [0x47; 0x01; 0x00; 0x10] ++ replicate 184 b.

Lemma swfilter_chunking_witness :
  exists b, zlen b = 204 /\
    swfilter_all (ex_demux (ex_ts_feed 0x101 true))
      [take 100 (ex_packet 1); drop 100 (ex_packet 1) ++ take 3 (ex_packet 2);
       drop 3 (ex_packet 2)] =
    set_ts b 0 <$> packets (erase (ex_demux (ex_ts_feed 0x101 true))) [ex_packet 1; ex_packet 2].
Proof.
  apply (swfilter_chunking (ex_demux (ex_ts_feed 0x101 true)) [ex_packet 1; ex_packet 2]
    [take 100 (ex_packet 1); drop 100 (ex_packet 1) ++ take 3 (ex_packet 2);
     drop 3 (ex_packet 2)]).
  - reflexivity.
  - reflexivity.
  - repeat (constructor; [split; reflexivity|]). constructor.
  - reflexivity.
  - repeat (constructor; [reflexivity|]). constructor.
Defined.

Lemma swfilter_total_witness :
  exists d', _dvb_dmx_swfilter (ex_demux (ex_ts_feed 0x2000 true)) (replicate 300 0x47) 300 188 = Some d' /\
    ts_only d' /\ zlen (tsbuf d') = 204 /\ Forall is_byte (tsbuf d') /\ 0 <= tsbufp d' < 188.
Proof.
  apply (swfilter_total (ex_demux (ex_ts_feed 0x2000 true)) (replicate 300 0x47) 188).
  - reflexivity.
  - split; [|discriminate]. intros fi Hfi. cbn in Hfi.
    repeat (apply elem_of_cons in Hfi as [->|Hfi];
      [eexists; split; [reflexivity|discriminate]|]). by apply not_elem_of_nil in Hfi.
  - reflexivity.
  - apply Forall_replicate. unfold is_byte. lia.
  - split; reflexivity.
  - by left.
  - apply Forall_replicate. unfold is_byte. lia.
  - reflexivity.
Defined.

Lemma packet_to_dvr_once_witness :
  exists d' calls pid0,
    ts_pid (ex_packet 7) = Some pid0 /\
    dx_log d' = [] ++ calls /\
    Forall (fun c => call_feed c ∈ [0; 1; 2]%nat /\
      gets (ex_demux (ex_ts_feed 0x2000 true)) pid0 (call_feed c)) calls /\
    (count_if (dvr_call (ex_demux (ex_ts_feed 0x2000 true))) calls <= 1)%nat.
Proof.
  eexists. apply (packet_to_dvr_once (ex_demux (ex_ts_feed 0x2000 true)) (ex_packet 7)).
  - apply (bool_decide_unpack _). vm_compute. reflexivity.
  - vm_compute. reflexivity.
Defined.

(** Fact: garbage after a packet can make the splitter go back into bytes
    it has already delivered: the packet handed on is made of the end of the
    good packet and of the garbage. *)
Theorem resync_redelivers_bytes :
  let good := [0x47; 0x01; 0x00; 0x10; 0; 0; 0; 0; 0; 0; 0x47] ++ zeros 177 in
  let d := ex_demux (ex_ts_feed 0x2000 true) in
  let buf := good ++ replicate 10 0x55 ++ ex_packet 1 in
  exists d', dvb_dmx_swfilter d buf (zlen buf) = Some d' /\
    dx_log d' = [CallTs 0 good; CallTs 2 (slice buf 10 188); CallTs 0 (ex_packet 1)].
Proof. eexists. split; vm_compute; reflexivity. Qed.

(** Fact: a feed set to the wildcard PID gets every packet although it
    was never started (or was stopped): the wildcard branch does not look at
    [is_filtering]. *)
Theorem wildcard_ignores_filtering :
  exists d', dvb_dmx_swfilter_packet (ex_demux (ex_ts_feed 0x2000 false)) (ex_packet 7) = Some d' /\
    dx_log d' = [CallTs 0 (ex_packet 7); CallTs 2 (ex_packet 7)].
Proof. eexists. split; vm_compute; reflexivity. Qed.
