(* ===== verification/DemuxFeed.v ===== *)
(** The feeds of the DVB demultiplexer, drivers/media/dvb/dvb-core/dvb_demux.c
    (lines 571-1298): allocation of feeds and filters, the TS feed and the
    section feed interfaces, the demux interface and its initialisation.

    [None] is a fault (a null or wild pointer) or a deadlock: [mutex_lock] on
    a mutex the caller holds never returns.  [intr] is what
    [mutex_lock_interruptible] answers when it is interrupted by a signal.
    [start_feed] and [stop_feed] are logged and answer [cb_ret].  The file is
    compiled with NOBUFS, so feeds have no buffer of their own. *)

From S2P Require Import Prelude DemuxTypes Demux.

Definition mutex_lock (d : dvb_demux) : option dvb_demux :=
  if dx_mutex d then None else Some (set_dx_mutex true d).
Definition mutex_unlock (d : dvb_demux) : dvb_demux := set_dx_mutex false d.

Definition put_feed (fi : nat) (f : dvb_demux_feed) (d : dvb_demux) : dvb_demux :=
  set_dx_feed (<[fi := f]> (dx_feed d)) d.
Definition put_filter (xi : nat) (f : dvb_demux_filter) (d : dvb_demux) : dvb_demux :=
  set_dx_filter (<[xi := f]> (dx_filter d)) d.

(** ** Allocation *)

(** The search loops of the two allocators: the first free element. *)
Fixpoint first_free {A} (state : A -> Z) (l : list A) (i : nat) : option nat :=
  match l with
  | [] => None
  | x :: l => if state x =? DMX_STATE_FREE then Some i else first_free state l (S i)
  end.

Definition dvb_dmx_filter_alloc (d : dvb_demux) : dvb_demux * option nat :=
  match first_free filter_state (dx_filter d) 0 with
  | None => (d, None)
  | Some i =>
      (set_dx_filter (alter (set_filter_state DMX_STATE_ALLOCATED) i (dx_filter d)) d, Some i)
  end.

Definition dvb_dmx_feed_alloc (d : dvb_demux) : dvb_demux * option nat :=
  match first_free feed_state (dx_feed d) 0 with
  | None => (d, None)
  | Some i =>
      (set_dx_feed (alter (set_feed_state DMX_STATE_ALLOCATED) i (dx_feed d)) d, Some i)
  end.

(** ** The list of set feeds *)

Fixpoint dvb_demux_feed_find (fi : nat) (l : list nat) : bool :=
  match l with
  | [] => false
  | e :: l => if (e =? fi)%nat then true else dvb_demux_feed_find fi l
  end.

Definition dvb_demux_feed_add (fi : nat) (d : dvb_demux) : dvb_demux :=
  if dvb_demux_feed_find fi (feed_list d) then d
  else set_feed_list (fi :: feed_list d) d.

(** [list_del] unlinks the one node of the feed. *)
Fixpoint list_del (fi : nat) (l : list nat) : list nat :=
  match l with
  | [] => []
  | e :: l => if (e =? fi)%nat then l else e :: list_del fi l
  end.

Definition dvb_demux_feed_del (fi : nat) (d : dvb_demux) : dvb_demux :=
  if negb (dvb_demux_feed_find fi (feed_list d)) then d
  else set_feed_list (list_del fi (feed_list d)) d.

Section ops.
Context {E : DemuxEnv}.

Definition call_start_feed (fi : nat) (d : dvb_demux) : dvb_demux * Z :=
  let log := dx_log d ++ [CallStartFeed fi] in (set_dx_log log d, cb_ret log).
Definition call_stop_feed (fi : nat) (d : dvb_demux) : dvb_demux * Z :=
  let log := dx_log d ++ [CallStopFeed fi] in (set_dx_log log d, cb_ret log).

(** ** TS feeds *)

Definition dmx_ts_feed_set (intr : bool) (fi : nat) (p tst pt size : Z) (tmo : Z * Z)
    (d : dvb_demux) : option (dvb_demux * Z) :=
  if p >? DMX_MAX_PID then Some (d, - EINVAL)
  else if intr then Some (d, - ERESTARTSYS)
  else
    d ← mutex_lock d;
    feed ← dx_feed d !! fi;
    '(d, bad) ←
      (if truthy (Z.land tst TS_DECODER) then
         if pt >=? DMX_TS_PES_OTHER then Some (d, true)
         else
           owner ← (pesfilter d).[pt];
           if bool_decide (is_Some owner) && negb (bool_decide (owner = Some fi))
           then Some (d, true)
           else
             pf ← mset (pesfilter d) pt (Some fi);
             ps ← mset (pids d) pt p;
             Some (set_pids ps (set_pesfilter pf d), false)
       else Some (d, false));
    if (bad : bool) then Some (mutex_unlock d, - EINVAL)
    else
      let d := dvb_demux_feed_add fi d in
      let feed := set_pid p feed in
      let feed := set_buffer_size (s32 size) feed in
      let feed := set_timeout tmo feed in
      let feed := set_ts_type tst feed in
      let feed := set_pes_type pt feed in
      let feed := set_feed_state DMX_STATE_READY feed in
      Some (mutex_unlock (put_feed fi feed d), 0).

Definition dmx_ts_feed_start_filtering (intr : bool) (fi : nat) (d : dvb_demux) :
    option (dvb_demux * Z) :=
  if intr then Some (d, - ERESTARTSYS)
  else
    d ← mutex_lock d;
    feed ← dx_feed d !! fi;
    if negb (feed_state feed =? DMX_STATE_READY) || negb (feed_type feed =? DMX_TYPE_TS)
    then Some (mutex_unlock d, - EINVAL)
    else if negb (has_start_feed d) then Some (mutex_unlock d, - ENODEV)
    else
      let (d, ret) := call_start_feed fi d in
      if ret <? 0 then Some (mutex_unlock d, ret)
      else
        let feed := set_is_filtering true feed in
        let feed := set_feed_state DMX_STATE_GO feed in
        Some (mutex_unlock (put_feed fi feed d), 0).

Definition dmx_ts_feed_stop_filtering (fi : nat) (d : dvb_demux) : option (dvb_demux * Z) :=
  d ← mutex_lock d;
  feed ← dx_feed d !! fi;
  if feed_state feed <? DMX_STATE_GO then Some (mutex_unlock d, - EINVAL)
  else if negb (has_stop_feed d) then Some (mutex_unlock d, - ENODEV)
  else
    let (d, ret) := call_stop_feed fi d in
    let feed := set_is_filtering false feed in
    let feed := set_feed_state DMX_STATE_ALLOCATED feed in
    Some (mutex_unlock (put_feed fi feed d), ret).

Definition dvbdmx_allocate_ts_feed (intr : bool) (d : dvb_demux) :
    option (dvb_demux * Z * option nat) :=
  if intr then Some (d, - ERESTARTSYS, None)
  else
    d ← mutex_lock d;
    match dvb_dmx_feed_alloc d with
    | (d, None) => Some (mutex_unlock d, - EBUSY, None)
    | (d, Some fi) =>
        feed ← dx_feed d !! fi;
        let feed := set_feed_type DMX_TYPE_TS feed in
        let feed := set_pid 0xffff feed in
        let feed := set_peslen 0xfffa feed in
        let feed := set_feed_priv None feed in
        let feed := set_is_filtering false feed in
        match dvb_dmx_filter_alloc d with
        | (d, None) =>
            let feed := set_feed_filter None feed in
            let feed := set_feed_state DMX_STATE_FREE feed in
            Some (mutex_unlock (put_feed fi feed d), - EBUSY, Some fi)
        | (d, Some xi) =>
            let feed := set_feed_filter (Some xi) feed in
            f ← dx_filter d !! xi;
            let f := set_filter_type DMX_TYPE_TS f in
            let f := set_filter_feed (Some fi) f in
            let f := set_filter_state DMX_STATE_READY f in
            Some (mutex_unlock (put_filter xi f (put_feed fi feed d)), 0, Some fi)
        end
    end.

Definition dvbdmx_release_ts_feed (fi : nat) (d : dvb_demux) : option (dvb_demux * Z) :=
  d ← mutex_lock d;
  feed ← dx_feed d !! fi;
  if feed_state feed =? DMX_STATE_FREE then Some (mutex_unlock d, - EINVAL)
  else
    let feed := set_feed_state DMX_STATE_FREE feed in
    xi ← feed_filter feed;
    f ← dx_filter d !! xi;
    let d := put_filter xi (set_filter_state DMX_STATE_FREE f) d in
    let d := dvb_demux_feed_del fi d in
    let feed := set_pid 0xffff feed in
    let d := put_feed fi feed d in
    d ← (if truthy (Z.land (ts_type feed) TS_DECODER) && (pes_type feed <? DMX_TS_PES_OTHER)
         then pf ← mset (pesfilter d) (pes_type feed) None; Some (set_pesfilter pf d)
         else Some d);
    Some (mutex_unlock d, 0).

(** ** Section feeds *)

Definition dmx_section_feed_allocate_filter (intr : bool) (fi : nat) (d : dvb_demux) :
    option (dvb_demux * Z * option nat) :=
  if intr then Some (d, - ERESTARTSYS, None)
  else
    d ← mutex_lock d;
    match dvb_dmx_filter_alloc d with
    | (d, None) => Some (mutex_unlock d, - EBUSY, None)
    | (d, Some xi) =>
        feed ← dx_feed d !! fi;
        f ← dx_filter d !! xi;
        let f := set_filter_priv None f in
        let f := set_filter_feed (Some fi) f in
        let f := set_filter_type DMX_TYPE_SEC f in
        let f := set_filter_state DMX_STATE_READY f in
        let f := set_next (feed_filter feed) f in
        let feed := set_feed_filter (Some xi) feed in
        Some (mutex_unlock (put_feed fi feed (put_filter xi f d)), 0, Some xi)
    end.

Definition dmx_section_feed_set (intr : bool) (fi : nat) (p size chk : Z) (d : dvb_demux) :
    option (dvb_demux * Z) :=
  if p >? 0x1fff then Some (d, - EINVAL)
  else if intr then Some (d, - ERESTARTSYS)
  else
    d ← mutex_lock d;
    feed ← dx_feed d !! fi;
    let d := dvb_demux_feed_add fi d in
    let feed := set_pid p feed in
    let feed := set_buffer_size (s32 size) feed in
    let feed := set_check_crc chk feed in
    let feed := set_feed_state DMX_STATE_READY feed in
    Some (mutex_unlock (put_feed fi feed d), 0).

(** The loop over the mask bytes of one filter, [n] bytes from [i] on. *)
Fixpoint prepare_bytes (n : nat) (i : Z) (f : dvb_demux_filter) (doneq : Z) :
    option (dvb_demux_filter * Z) :=
  match n with
  | O => Some (f, doneq)
  | S n =>
      mode ← (filter_mode f).[i];
      mask ← (filter_mask f).[i];
      mm ← mset (maskandmode f) i (Z.land mask mode);
      mn ← mset (maskandnotmode f) i (u8 (Z.land mask (Z.lnot mode)));
      prepare_bytes n (i + 1) (set_maskandnotmode mn (set_maskandmode mm f))
        (Z.lor doneq (u8 (Z.land mask (Z.lnot mode))))
  end.

Definition prepare_filter (f : dvb_demux_filter) : option dvb_demux_filter :=
  '(f, dq) ← prepare_bytes DVB_DEMUX_MASK_MAX 0 f 0;
  Some (set_doneq (if truthy dq then 1 else 0) f).

(** The loop over the filters of the feed. *)
Fixpoint prepare_chain (fuel : nat) (xi : nat) (fs : list dvb_demux_filter) :
    option (list dvb_demux_filter) :=
  match fuel with
  | O => None
  | S fuel =>
      f ← fs !! xi;
      f ← prepare_filter f;
      let fs := <[xi := f]> fs in
      match next f with
      | Some xi' => prepare_chain fuel xi' fs
      | None => Some fs
      end
  end.

Definition prepare_secfilters (feed : dvb_demux_feed) (d : dvb_demux) : option dvb_demux :=
  match feed_filter feed with
  | None => Some d
  | Some xi =>
      fs ← prepare_chain (S (length (dx_filter d))) xi (dx_filter d);
      Some (set_dx_filter fs d)
  end.

Definition dmx_section_feed_start_filtering (intr : bool) (fi : nat) (d : dvb_demux) :
    option (dvb_demux * Z) :=
  if intr then Some (d, - ERESTARTSYS)
  else
    d ← mutex_lock d;
    feed ← dx_feed d !! fi;
    if is_filtering feed then Some (mutex_unlock d, - EBUSY)
    else if negb (bool_decide (is_Some (feed_filter feed))) then Some (mutex_unlock d, - EINVAL)
    else
      let feed := set_tsfeedp 0 feed in
      let feed := set_secbuf 0 feed in
      let feed := set_secbufp 0 feed in
      let feed := set_seclen 0 feed in
      let d := put_feed fi feed d in
      if negb (has_start_feed d) then Some (mutex_unlock d, - ENODEV)
      else
        d ← prepare_secfilters feed d;
        let (d, ret) := call_start_feed fi d in
        if ret <? 0 then Some (mutex_unlock d, ret)
        else
          let feed := set_is_filtering true feed in
          let feed := set_feed_state DMX_STATE_GO feed in
          Some (mutex_unlock (put_feed fi feed d), 0).

Definition dmx_section_feed_stop_filtering (fi : nat) (d : dvb_demux) :
    option (dvb_demux * Z) :=
  d ← mutex_lock d;
  if negb (has_stop_feed d) then Some (mutex_unlock d, - ENODEV)
  else
    let (d, ret) := call_stop_feed fi d in
    feed ← dx_feed d !! fi;
    let feed := set_feed_state DMX_STATE_READY feed in
    let feed := set_is_filtering false feed in
    Some (mutex_unlock (put_feed fi feed d), ret).

(** [while (f->next != dvbdmxfilter) f = f->next; f->next = f->next->next];
    the walk faults at the end of the list. *)
Fixpoint unlink_filter (fuel : nat) (fx xi : nat) (fs : list dvb_demux_filter) :
    option (list dvb_demux_filter) :=
  match fuel with
  | O => None
  | S fuel =>
      f ← fs !! fx;
      nx ← next f;
      if (nx =? xi)%nat then
        g ← fs !! nx;
        Some (<[fx := set_next (next g) f]> fs)
      else unlink_filter fuel nx xi fs
  end.

Definition dmx_section_feed_release_filter (fi xi : nat) (d : dvb_demux) :
    option (dvb_demux * Z) :=
  d ← mutex_lock d;
  f ← dx_filter d !! xi;
  if negb (bool_decide (filter_feed f = Some fi)) then Some (mutex_unlock d, - EINVAL)
  else
    feed ← dx_feed d !! fi;
    d ← (if is_filtering feed then
           '(d, _) ← dmx_section_feed_stop_filtering fi d; Some d
         else Some d);
    feed ← dx_feed d !! fi;
    d ← (if bool_decide (feed_filter feed = Some xi) then
           f ← dx_filter d !! xi;
           Some (put_feed fi (set_feed_filter (next f) feed) d)
         else
           fx ← feed_filter feed;
           fs ← unlink_filter (S (length (dx_filter d))) fx xi (dx_filter d);
           Some (set_dx_filter fs d));
    f ← dx_filter d !! xi;
    Some (mutex_unlock (put_filter xi (set_filter_state DMX_STATE_FREE f) d), 0).

Definition dvbdmx_allocate_section_feed (intr : bool) (d : dvb_demux) :
    option (dvb_demux * Z * option nat) :=
  if intr then Some (d, - ERESTARTSYS, None)
  else
    d ← mutex_lock d;
    match dvb_dmx_feed_alloc d with
    | (d, None) => Some (mutex_unlock d, - EBUSY, None)
    | (d, Some fi) =>
        feed ← dx_feed d !! fi;
        let feed := set_feed_type DMX_TYPE_SEC feed in
        let feed := set_pid 0xffff feed in
        let feed := set_secbuf 0 feed in
        let feed := set_seclen 0 feed in
        let feed := set_secbufp (seclen feed) feed in
        let feed := set_tsfeedp 0 feed in
        let feed := set_feed_filter None feed in
        let feed := set_is_filtering false feed in
        let feed := set_feed_priv None feed in
        Some (mutex_unlock (put_feed fi feed d), 0, Some fi)
    end.

Definition dvbdmx_release_section_feed (fi : nat) (d : dvb_demux) : option (dvb_demux * Z) :=
  d ← mutex_lock d;
  feed ← dx_feed d !! fi;
  if feed_state feed =? DMX_STATE_FREE then Some (mutex_unlock d, - EINVAL)
  else
    let feed := set_feed_state DMX_STATE_FREE feed in
    let d := dvb_demux_feed_del fi d in
    let feed := set_pid 0xffff feed in
    Some (mutex_unlock (put_feed fi feed d), 0).

(** ** The demux interface *)

Definition dvbdmx_open (d : dvb_demux) : dvb_demux * Z :=
  if users d >=? MAX_DVB_DEMUX_USERS then (d, - EUSERS)
  else (set_users (users d + 1) d, 0).

Definition dvbdmx_close (d : dvb_demux) : dvb_demux * Z :=
  if users d =? 0 then (d, - ENODEV)
  else (set_users (users d - 1) d, 0).

(** [is_memory fe]: the front-end's source is DMX_MEMORY_FE.  [user] is what
    [memdup_user] returns: a copy of the caller's buffer or an error. *)
Definition dvbdmx_write (is_memory : nat -> bool) (user : list Z + Z) (intr sig : bool)
    (d : dvb_demux) : option (dvb_demux * Z) :=
  match frontend d with
  | None => Some (d, - EINVAL)
  | Some fe =>
      if negb (is_memory fe) then Some (d, - EINVAL)
      else
        match user with
        | inr err => Some (d, err)
        | inl p =>
            if intr then Some (d, - ERESTARTSYS)
            else
              d ← mutex_lock d;
              d ← dvb_dmx_swfilter d p (zlen p);
              let d := mutex_unlock d in
              if sig then Some (d, - EINTR) else Some (d, zlen p)
        end
  end.

Definition dvbdmx_add_frontend (fe : nat) (d : dvb_demux) : dvb_demux * Z :=
  (set_frontend_list (fe :: frontend_list d) d, 0).

(** The search-and-delete loop of [dvbdmx_remove_frontend]. *)
Fixpoint remove_frontend (fe : nat) (l : list nat) : option (list nat) :=
  match l with
  | [] => None
  | x :: l => if (x =? fe)%nat then Some l
              else l ← remove_frontend fe l; Some (x :: l)
  end.

Definition dvbdmx_remove_frontend (fe : nat) (d : dvb_demux) : dvb_demux * Z :=
  match remove_frontend fe (frontend_list d) with
  | Some l => (set_frontend_list l d, 0)
  | None => (d, - ENODEV)
  end.

Definition dvbdmx_get_frontends (d : dvb_demux) : option (list nat) :=
  match frontend_list d with
  | [] => None
  | l => Some l
  end.

(** [fe] may be NULL. *)
Definition dvbdmx_connect_frontend (fe : option nat) (d : dvb_demux) : option (dvb_demux * Z) :=
  if bool_decide (is_Some (frontend d)) then Some (d, - EINVAL)
  else
    d ← mutex_lock d;
    Some (mutex_unlock (set_frontend fe d), 0).

Definition dvbdmx_disconnect_frontend (d : dvb_demux) : option (dvb_demux * Z) :=
  d ← mutex_lock d;
  Some (mutex_unlock (set_frontend None d), 0).

Definition dvbdmx_get_pes_pids (d : dvb_demux) : option (list Z) := mread (pids d) 0 5.

(** [dvb_dmx_init].  [fs], [feeds] and [cnt] are what the three calls of
    vmalloc return: memory of any content, or [None].  The number given to
    each element is its position. *)
Definition dvb_dmx_init (fs : option (list dvb_demux_filter))
    (feeds : option (list dvb_demux_feed)) (cnt : option (list Z)) (d : dvb_demux) :
    dvb_demux * Z :=
  let d := set_cnt_storage None d in
  let d := set_users 0 d in
  match fs with
  | None => (set_dx_filter [] d, - ENOMEM)
  | Some fs =>
      match feeds with
      | None => (set_dx_feed [] (set_dx_filter [] d), - ENOMEM)
      | Some feeds =>
          let d := set_dx_filter
            (imap (fun i f => set_filter_index (Z.of_nat i)
                                (set_filter_state DMX_STATE_FREE f)) fs) d in
          let d := set_dx_feed
            (imap (fun i f => set_feed_index (Z.of_nat i)
                                (set_feed_state DMX_STATE_FREE f)) feeds) d in
          let d := set_cnt_storage cnt d in
          let d := set_frontend_list [] d in
          let d := set_pesfilter (replicate 20 None) d in
          let d := set_pids (replicate 20 0xffff) d in
          let d := set_feed_list [] d in
          let d := set_playing 0 d in
          let d := set_recording 0 d in
          let d := set_tsbufp 0 d in
          let d := set_frontend None d in
          (set_dx_mutex false d, 0)
      end
  end.

(** [dvb_dmx_release] frees the three arrays. *)
Definition dvb_dmx_release (d : dvb_demux) : dvb_demux :=
  set_dx_feed [] (set_dx_filter [] (set_cnt_storage None d)).
End ops.
