(* ===== verification/DemuxFeedProofs.v ===== *)
(** Correctness of the feeds (DemuxFeed.v): what a section filter accepts, bit
    by bit; the list of filters of a feed; the list of set feeds; and the
    mutex. *)

From S2P Require Import Prelude DemuxTypes Demux DemuxSection DemuxStream DemuxFeed.

(** ** Section filters, bit by bit *)

Definition in_filter (i b : Z) : Prop := 0 <= i < 18 /\ 0 <= b < 8.
Definition bit (l : list Z) (i b : Z) : bool := Z.testbit (byte l i) b.

(** Every masked bit with mode 1 must be equal; if there are masked bits with
    mode 0, one of them must differ. *)
Definition section_matches (value mask mode data : list Z) : Prop :=
  (forall i b, in_filter i b -> bit mask i b = true -> bit mode i b = true ->
     bit value i b = bit data i b) /\
  ((exists i b, in_filter i b /\ bit mask i b = true /\ bit mode i b = false) ->
   exists i b, in_filter i b /\ bit mask i b = true /\ bit mode i b = false /\
     bit value i b <> bit data i b).

(** The arrays of a filter, as a client fills them. *)
Definition raw_filter_ok (f : dvb_demux_filter) : Prop :=
  filter_ok f /\ zlen (filter_mask f) = 18 /\ zlen (filter_mode f) = 18 /\
  Forall is_byte (filter_value f) /\ Forall is_byte (filter_mask f) /\
  Forall is_byte (filter_mode f).

Lemma mset_byte l i v :
  0 <= i < zlen l -> exists l', mset l i v = Some l' /\ zlen l' = zlen l /\
    forall j, byte l' j = if bool_decide (j = i) then v else byte l j.
Proof.
  intros Hi. exists (<[Z.to_nat i := v]> l). unfold mset. rewrite bool_decide_true by lia.
  split; [done|]. split; [by rewrite zlen_insert|]. intros j. unfold byte, mget.
  destruct (decide (j = i)) as [->|Hne].
  - rewrite !bool_decide_true by (done || lia). rewrite list_lookup_insert_eq; [done|].
    unfold zlen in Hi. lia.
  - rewrite (bool_decide_false (j = i)) by done. case_bool_decide; [|done].
    rewrite list_lookup_insert_ne by lia. done.
Qed.

Definition and_mode (f : dvb_demux_filter) (i : Z) : Z :=
  Z.land (byte (filter_mask f) i) (byte (filter_mode f) i).
Definition and_not_mode (f : dvb_demux_filter) (i : Z) : Z :=
  u8 (Z.land (byte (filter_mask f) i) (Z.lnot (byte (filter_mode f) i))).

Lemma prepare_bytes_spec n i f dq :
  raw_filter_ok f -> 0 <= i -> i + Z.of_nat n <= 18 ->
  exists mm mn dq',
    prepare_bytes n i f dq = Some (set_maskandnotmode mn (set_maskandmode mm f), dq') /\
    zlen mm = 18 /\ zlen mn = 18 /\
    (forall j, byte mm j = if bool_decide (i <= j < i + Z.of_nat n) then and_mode f j
                           else byte (maskandmode f) j) /\
    (forall j, byte mn j = if bool_decide (i <= j < i + Z.of_nat n) then and_not_mode f j
                           else byte (maskandnotmode f) j) /\
    (dq' = 0 <-> dq = 0 /\ forall j, i <= j < i + Z.of_nat n -> and_not_mode f j = 0).
Proof.
  revert i f dq. induction n as [|n IH]; intros i f dq Hf Hi Hn; cbn [prepare_bytes].
  - exists (maskandmode f), (maskandnotmode f), dq. destruct Hf as ((_ & H1 & H2) & _).
    split; [by destruct f|]. do 2 (split; [done|]).
    split; [intros; by rewrite bool_decide_false by lia|].
    split; [intros; by rewrite bool_decide_false by lia|]. split; [|tauto].
    intros ->. split; [done|]. intros; lia.
  - pose proof Hf as ((Hv & Hm & Hmn) & Hmask & Hmode & Hb).
    rewrite (byte_get (filter_mode f)), (byte_get (filter_mask f)) by lia.
    cbn [mbind option_bind].
    destruct (mset_byte (maskandmode f) i (and_mode f i)) as (mm1 & Hmm1 & Hmml & Hmmb); [lia|].
    destruct (mset_byte (maskandnotmode f) i (and_not_mode f i)) as (mn1 & Hmn1 & Hmnl & Hmnb);
      [lia|].
    unfold and_mode in Hmm1. unfold and_not_mode in Hmn1. rewrite Hmm1. cbn [mbind option_bind].
    rewrite Hmn1. cbn [mbind option_bind].
    set (f1 := set_maskandnotmode mn1 (set_maskandmode mm1 f)).
    destruct (IH (i + 1) f1 (Z.lor dq (and_not_mode f i))) as (mm & mn & dq' & Heq & H1 & H2 & H3 & H4 & H5).
    { unfold raw_filter_ok, filter_ok, f1. cbn. rewrite Hmml, Hmnl. done. }
    { lia. } { lia. }
    exists mm, mn, dq'. split; [exact Heq|]. do 2 (split; [done|]). split; [|split].
    + intros j. rewrite H3. cbn. rewrite Hmmb. repeat case_bool_decide; subst; try done; lia.
    + intros j. rewrite H4. cbn. rewrite Hmnb. repeat case_bool_decide; subst; try done; lia.
    + rewrite H5, Z.lor_eq_0_iff. split.
      * intros [[-> H0] Hall]. split; [done|]. intros j Hj.
        destruct (decide (j = i)) as [->|]; [done|]. apply (Hall j). lia.
      * intros [-> Hall]. split; [split; [done|apply Hall; lia]|]. intros j Hj.
        apply (Hall j). lia.
Qed.

Lemma byte_zero a :
  0 <= a < 256 -> (a =? 0) = negb (existsb (Z.testbit a) (seqZ 0 8)).
Proof.
  intros Ha. destruct (existsb _ _) eqn:He; cbn.
  - apply existsb_exists in He as (b & _ & Hb). apply Z.eqb_neq. intros ->.
    by rewrite Z.testbit_0_l in Hb.
  - apply Z.eqb_eq, Z.bits_inj'. intros b Hb. rewrite Z.testbit_0_l.
    destruct (decide (b < 8)); [|apply (testbit_above 8); lia].
    destruct (Z.testbit a b) eqn:Ht; [|done]. rewrite <- He. symmetry.
    apply existsb_exists. exists b. split; [|done].
    apply list_elem_of_In, elem_of_seqZ. lia.
Qed.

Lemma land_byte a b : 0 <= a < 256 -> 0 <= Z.land a b < 256.
Proof. intros. rewrite Z.land_comm. by apply (land_bound b a 8). Qed.

Lemma masked_zero a v d :
  0 <= a < 256 ->
  (Z.land a (Z.lxor v d) =? 0) = true <->
  forall b, 0 <= b < 8 -> Z.testbit a b = true -> Z.testbit v b = Z.testbit d b.
Proof.
  intros Ha. rewrite byte_zero by by apply land_byte. rewrite negb_true_iff.
  rewrite <- not_true_iff_false, existsb_exists. split.
  - intros H b Hb Ht. destruct (Z.testbit v b) eqn:Hv, (Z.testbit d b) eqn:Hd; try done;
      destruct H; exists b; (split; [apply list_elem_of_In, elem_of_seqZ; lia|]);
      by rewrite Z.land_spec, Z.lxor_spec, Ht, Hv, Hd.
  - intros H (b & Hb%list_elem_of_In%elem_of_seqZ & Ht).
    rewrite Z.land_spec, Z.lxor_spec in Ht. apply andb_true_iff in Ht as [Ht Hx].
    rewrite (H b) in Hx by (done || lia). by rewrite xorb_nilpotent in Hx.
Qed.

Lemma masked_nonzero a v d :
  0 <= a < 256 ->
  negb (Z.land a (Z.lxor v d) =? 0) = true <->
  exists b, 0 <= b < 8 /\ Z.testbit a b = true /\ Z.testbit v b <> Z.testbit d b.
Proof.
  intros Ha. rewrite byte_zero by by apply land_byte. rewrite negb_involutive.
  rewrite existsb_exists. split.
  - intros (b & Hb%list_elem_of_In%elem_of_seqZ & Ht).
    rewrite Z.land_spec, Z.lxor_spec in Ht. apply andb_true_iff in Ht as [Ht Hx].
    exists b. split_and!; [lia..|done|]. intros Heq. by rewrite Heq, xorb_nilpotent in Hx.
  - intros (b & Hb & Ht & Hne). exists b. split; [apply list_elem_of_In, elem_of_seqZ; lia|].
    rewrite Z.land_spec, Z.lxor_spec, Ht. cbn. by destruct (Z.testbit v b), (Z.testbit d b).
Qed.

Lemma and_mode_bit f i b :
  Z.testbit (and_mode f i) b = bit (filter_mask f) i b && bit (filter_mode f) i b.
Proof. apply Z.land_spec. Qed.

Lemma and_not_mode_bit f i b :
  0 <= b < 8 ->
  Z.testbit (and_not_mode f i) b = bit (filter_mask f) i b && negb (bit (filter_mode f) i b).
Proof.
  intros Hb. unfold and_not_mode. rewrite testbit_wrap, bool_decide_true by lia. cbn [andb].
  by rewrite Z.land_spec, Z.lnot_spec by lia.
Qed.

Lemma and_mode_range f i : raw_filter_ok f -> 0 <= and_mode f i < 256.
Proof. intros (_ & _ & _ & _ & Hm & _). apply land_byte. by apply byte_range. Qed.

Lemma and_not_mode_range f i : 0 <= and_not_mode f i < 256.
Proof. by apply wrap_range. Qed.

(** [prepare_filter] computes the two masks and whether the second is empty. *)
Lemma prepare_filter_spec f :
  raw_filter_ok f -> exists f',
    prepare_filter f = Some f' /\ filter_ok f' /\ filter_value f' = filter_value f /\
    next f' = next f /\
    (forall i, 0 <= i < 18 -> byte (maskandmode f') i = and_mode f i /\
                              byte (maskandnotmode f') i = and_not_mode f i) /\
    ((doneq f' =? 0) = true <-> forall i, 0 <= i < 18 -> and_not_mode f i = 0).
Proof.
  intros Hf. destruct (prepare_bytes_spec DVB_DEMUX_MASK_MAX 0 f 0 Hf)
    as (mm & mn & dq & Heq & Hmm & Hmn & Hmmb & Hmnb & Hdq); [lia|done|].
  change (0 + Z.of_nat DVB_DEMUX_MASK_MAX) with 18 in *.
  unfold prepare_filter. rewrite Heq. cbn [mbind option_bind]. eexists. split; [done|].
  destruct Hf as ((Hv & _) & _). split_and!; try done.
  - intros i Hi. cbn. by rewrite Hmmb, Hmnb, !bool_decide_true by lia.
  - cbn. destruct (Z.eqb_spec dq 0) as [Hz|Hz]; cbn.
    + split; [|done]. intros _. by apply Hdq.
    + split; [done|]. intros H. destruct Hz. by apply Hdq.
Qed.

Lemma filter_accepts_matches f f' data :
  raw_filter_ok f -> prepare_filter f = Some f' ->
  filter_accepts f' data = true <->
  section_matches (filter_value f) (filter_mask f) (filter_mode f) data.
Proof.
  intros Hf Hp. destruct (prepare_filter_spec f Hf) as (f'' & Hp' & _ & Hv & _ & Hb & Hdq).
  rewrite Hp in Hp'. injection Hp' as <-.
  unfold filter_accepts, section_matches. rewrite andb_true_iff, orb_true_iff, forallb_forall,
    existsb_exists, Hdq.
  assert (Hpos : forall i, 0 <= i < 18 -> pos_ok f' data i = true <->
    forall b, 0 <= b < 8 -> bit (filter_mask f) i b = true -> bit (filter_mode f) i b = true ->
      bit (filter_value f) i b = bit data i b).
  { intros i Hi. unfold pos_ok. destruct (Hb i Hi) as [-> _]. rewrite Hv.
    rewrite masked_zero by by apply and_mode_range. setoid_rewrite and_mode_bit.
    setoid_rewrite andb_true_iff. unfold bit. naive_solver. }
  assert (Hneg : forall i, 0 <= i < 18 -> neg_ok f' data i = true <->
    exists b, 0 <= b < 8 /\ bit (filter_mask f) i b = true /\ bit (filter_mode f) i b = false /\
      bit (filter_value f) i b <> bit data i b).
  { intros i Hi. unfold neg_ok. destruct (Hb i Hi) as [_ ->]. rewrite Hv.
    rewrite masked_nonzero by apply and_not_mode_range.
    split; intros (b & Hbr & Ht & Hx); exists b; split; try done.
    - rewrite and_not_mode_bit in Ht by done.
      apply andb_true_iff in Ht as [? ?%negb_true_iff]. done.
    - rewrite and_not_mode_bit by done. destruct Hx as [Hx1 Hx2]. by rewrite Ht, Hx1. }
  assert (Hin : forall i, In i (seqZ 0 18) <-> 0 <= i < 18).
  { intros i. rewrite <- list_elem_of_In, elem_of_seqZ. lia. }
  split; intros [H1 H2]; split.
  - intros i b [Hi Hbr]. apply Hpos; [done|by apply H1, Hin|done].
  - intros (i & b & [Hi Hbr] & Hm & Hmd). destruct H2 as [H2|(x & Hx%Hin & Hn)].
    + assert (Z.testbit (and_not_mode f i) b = true) as Ht
        by (rewrite and_not_mode_bit, Hm, Hmd by done; done).
      by rewrite H2, Z.testbit_0_l in Ht by done.
    + apply (Hneg x Hx) in Hn as (b' & ? & ? & ? & ?). exists x, b'. done.
  - intros x Hx%Hin. apply Hpos; [done|]. intros b Hbr. by apply H1.
  - destruct (decide (Forall (fun i => and_not_mode f i = 0) (seqZ 0 18))) as [Hall|Hsome].
    { left. intros i Hi%Hin%list_elem_of_In. by eapply Forall_forall in Hall. }
    right. apply not_Forall_Exists, Exists_exists in Hsome as (i & Hi & Hnz); [|apply _].
    apply Z.eqb_neq in Hnz. rewrite byte_zero in Hnz by apply and_not_mode_range.
    apply negb_false_iff, existsb_exists in Hnz as (b & Hbr%list_elem_of_In%elem_of_seqZ & Ht).
    rewrite and_not_mode_bit in Ht by lia. apply andb_true_iff in Ht as [? ?%negb_true_iff].
    apply list_elem_of_In, Hin in Hi.
    destruct H2 as (i' & b' & [Hi' Hb'] & Hrest); [exists i, b; by repeat split; try lia|].
    exists i'. split; [by apply Hin|]. apply (Hneg i' Hi'). exists b'. done.
Qed.

Section proofs.
Context {E : DemuxEnv}.

(** Claim C25: what a started section filter accepts.  After
    [prepare_secfilters] the byte-wise comparison of the software filter
    passes a section of any length to the client exactly when, in the 18 bytes
    from where it starts in the section buffer, all bits masked with mode 1
    equal the filter's value and, if there are bits masked with mode 0, at
    least one of those differs; otherwise it returns 0 without a callback.
    The buffer must hold those 18 bytes: they are the section's own, and for a
    section of fewer the bytes behind it as well. *)
Theorem section_filter_semantics f fi feed log xi :
  raw_filter_ok f -> 0 <= secbuf feed -> 0 <= seclen feed ->
  secbuf feed + 18 <= zlen (secbuf_base feed) ->
  secbuf feed + seclen feed <= zlen (secbuf_base feed) ->
  let sec := slice (secbuf_base feed) (secbuf feed) (seclen feed) in
  let window := slice (secbuf_base feed) (secbuf feed) 18 in
  exists f', prepare_filter f = Some f' /\
    (section_matches (filter_value f) (filter_mask f) (filter_mode f) window ->
     dvb_dmx_swfilter_sectionfilter fi feed log xi f' =
       Some (log ++ [CallSec fi xi sec], cb_ret (log ++ [CallSec fi xi sec]))) /\
    (~ section_matches (filter_value f) (filter_mask f) (filter_mode f) window ->
     dvb_dmx_swfilter_sectionfilter fi feed log xi f' = Some (log, 0)).
Proof.
  intros Hf Ho Hl Hw Hb sec window. destruct (prepare_filter_spec f Hf) as (f' & Hp & Hok & _).
  exists f'. split; [done|].
  pose proof (filter_accepts_matches f f' window Hf Hp) as Hm.
  rewrite (sectionfilter_window fi feed log xi f' Hok Ho Hl Hw Hb). fold sec window.
  destruct (filter_accepts f' window); split; intros Hx; try done.
  - destruct Hx. by apply Hm.
  - apply Hm in Hx. done.
Qed.

(** ** The list of filters of a feed *)

Lemma linked_insert_ne fs first l x f :
  x ∉ l -> linked fs first l -> linked (<[x := f]> fs) first l.
Proof.
  revert first. induction l as [|y l IH]; intros first Hx; [done|].
  apply not_elem_of_cons in Hx as [Hne Hx]. intros (-> & g & Hg & Hok & Hl).
  split; [done|]. exists g. rewrite list_lookup_insert_ne by done. auto.
Qed.

(** The filters of a feed as a client left them. *)
Definition raw_filters (fs : list dvb_demux_filter) (l : list nat) : Prop :=
  forall x, x ∈ l -> exists f, fs !! x = Some f /\ raw_filter_ok f.

Lemma prepare_chain_spec fuel xi l fs :
  linked fs (Some xi) l -> raw_filters fs l -> (length l <= fuel)%nat ->
  exists fs', prepare_chain fuel xi fs = Some fs' /\ linked fs' (Some xi) l /\
    (forall x, x ∈ l -> exists f, fs !! x = Some f /\ fs' !! x = prepare_filter f) /\
    (forall x, x ∉ l -> fs' !! x = fs !! x).
Proof.
  revert xi l fs. induction fuel as [|fuel IH]; intros xi l fs Hl Hraw Hfuel;
    (destruct l as [|y l]; [done|]); [cbn in Hfuel; lia|].
  pose proof (linked_NoDup _ _ _ Hl) as [Hy _]%NoDup_cons.
  destruct Hl as ([= <-] & f & Hf & _ & Hl).
  destruct (Hraw xi ltac:(by left)) as (f0 & Hf0 & Hr). rewrite Hf in Hf0. injection Hf0 as <-.
  destruct (prepare_filter_spec f Hr) as (f' & Hp & Hok & _ & Hn & _).
  cbn [prepare_chain]. rewrite Hf. cbn [mbind option_bind]. rewrite Hp. cbn [mbind option_bind].
  rewrite Hn. set (fs1 := <[xi := f']> fs).
  assert (Hxi : fs1 !! xi = Some f') by (apply list_lookup_insert_eq; by eapply lookup_lt_Some).
  assert (Hne : forall x, x <> xi -> fs1 !! x = fs !! x)
    by (intros; apply list_lookup_insert_ne; congruence).
  destruct l as [|y l].
  - cbn in Hl. rewrite Hl. exists fs1. split; [done|]. split; [|split].
    + split; [done|]. exists f'. by rewrite Hn, Hl.
    + intros x [->|Hx]%elem_of_cons; [|by apply not_elem_of_nil in Hx]. exists f. by rewrite Hp.
    + intros x [Hx _]%not_elem_of_cons. by apply Hne.
  - pose proof (proj1 Hl) as Hny. rewrite Hny in *.
    destruct (IH y (y :: l) fs1) as (fs' & Heq & Hl' & Hin & Hout).
    { by apply linked_insert_ne. }
    { intros x Hx. rewrite Hne by (intros ->; done). apply Hraw. by right. }
    { cbn in *. lia. }
    exists fs'. split; [done|]. split; [|split].
    + split; [done|]. exists f'. by rewrite Hout, Hn.
    + intros x Hx. destruct (decide (x = xi)) as [->|Hxne].
      * exists f. by rewrite Hout, Hxi, Hp.
      * apply elem_of_cons in Hx as [|Hx]; [done|]. destruct (Hin x Hx) as (g & Hg & Hg').
        exists g. by rewrite <- Hne.
    + intros x [Hx1 Hx2]%not_elem_of_cons. rewrite Hout by done. by apply Hne.
Qed.

(** Fact: starting a section feed.  On a feed that is not filtering and
    has filters, with a driver that accepts it, start_filtering prepares every
    filter of the feed and no other, leaves the feed in the initial state of
    the reassembly machine and releases the mutex. *)
Theorem section_start_ready d fi feed l :
  dx_mutex d = false -> dx_feed d !! fi = Some feed -> feed_type feed = DMX_TYPE_SEC ->
  is_filtering feed = false -> linked (dx_filter d) (feed_filter feed) l -> l <> [] ->
  raw_filters (dx_filter d) l -> has_start_feed d = true ->
  0 <= cb_ret (dx_log d ++ [CallStartFeed fi]) ->
  zlen (secbuf_base feed) = DMX_MAX_SECFEED_SIZE -> Forall is_byte (secbuf_base feed) ->
  exists d' feed',
    dmx_section_feed_start_filtering false fi d = Some (d', 0) /\
    dx_mutex d' = false /\ dx_feed d' !! fi = Some feed' /\
    represents (dx_filter d') l (check_crc feed)
      (mk_assembly [] (truthy (pusi_seen feed)) (cc feed)) feed' /\
    (forall x, x ∈ l -> exists f, dx_filter d !! x = Some f /\ dx_filter d' !! x = prepare_filter f) /\
    (forall x, x ∉ l -> dx_filter d' !! x = dx_filter d !! x).
Proof.
  intros Hmx Hfeed Hty Hfl Hl Hne Hraw Hsf Hcb Hbl Hbb.
  unfold dmx_section_feed_start_filtering, mutex_lock. rewrite Hmx. cbn [mbind option_bind].
  cbn [dx_feed set_dx_mutex]. rewrite Hfeed. cbn [mbind option_bind]. rewrite Hfl.
  destruct (feed_filter feed) as [xi|] eqn:Hxi.
  2: { destruct l as [|y l]; [done|]. by destruct Hl. }
  cbn [negb bool_decide]. rewrite bool_decide_true by eauto. cbn [negb has_start_feed put_feed set_dx_feed set_dx_mutex].
  rewrite Hsf. cbn [negb]. unfold prepare_secfilters. cbn [feed_filter set_tsfeedp set_secbuf set_secbufp set_seclen].
  rewrite Hxi. change (dx_filter (put_feed fi ?f (set_dx_mutex true d))) with (dx_filter d).
  destruct (prepare_chain_spec (S (length (dx_filter d))) xi l (dx_filter d))
    as (fs' & Heq & Hl' & Hin & Hout); [done|done|pose proof (linked_length _ _ _ Hl); lia|].
  rewrite Heq. cbn [mbind option_bind]. unfold call_start_feed.
  change (dx_log (set_dx_filter fs' (put_feed fi ?f (set_dx_mutex true d)))) with (dx_log d).
  rewrite (proj2 (Z.ltb_ge _ _)) by done.
  do 2 eexists. split; [reflexivity|]. split; [done|]. split; [|split; [|done]].
  - cbn. rewrite list_insert_insert_eq. apply list_lookup_insert_eq.
    by eapply lookup_lt_Some.
  - split; try done. cbn. by rewrite Hxi.
Qed.

(** Two filters that differ at most in their link. *)
Definition same_but_next (o1 o2 : option dvb_demux_filter) : Prop :=
  set_next None <$> o1 = set_next None <$> o2.

Lemma unlink_filter_spec fuel fx l xi fs :
  linked fs (Some fx) (fx :: l) -> xi ∈ l -> (length l <= fuel)%nat ->
  exists fs', unlink_filter fuel fx xi fs = Some fs' /\
    linked fs' (Some fx) (fx :: list_del xi l) /\
    (forall x, same_but_next (fs' !! x) (fs !! x)) /\
    (forall x, x ∉ fx :: l -> fs' !! x = fs !! x).
Proof.
  revert fx l fs. induction fuel as [|fuel IH]; intros fx l fs Hl Hxi Hfuel;
    (destruct l as [|y l]; [by apply not_elem_of_nil in Hxi|]); [cbn in Hfuel; lia|].
  pose proof (linked_NoDup _ _ _ Hl) as [Hfx Hnd]%NoDup_cons.
  destruct Hl as (_ & f & Hf & Hok & Hl). pose proof Hl as (Hny & g & Hg & Hgok & Hl2).
  cbn [unlink_filter list_del]. rewrite Hf. cbn [mbind option_bind]. rewrite Hny.
  cbn [mbind option_bind]. destruct (Nat.eqb_spec y xi) as [->|Hne].
  - rewrite Hg. cbn [mbind option_bind]. eexists. split; [done|]. split; [|split].
    + split; [done|]. exists (set_next (next g) f).
      rewrite list_lookup_insert_eq by by eapply lookup_lt_Some.
      split; [done|]. split; [done|]. apply linked_insert_ne; [|done].
      apply not_elem_of_cons in Hfx as [_ Hfx]. done.
    + intros x. unfold same_but_next. destruct (decide (x = fx)) as [->|].
      * rewrite list_lookup_insert_eq, Hf by by eapply lookup_lt_Some. done.
      * by rewrite list_lookup_insert_ne.
    + intros x [Hx _]%not_elem_of_cons. by apply list_lookup_insert_ne.
  - apply elem_of_cons in Hxi as [|Hxi]; [done|]. rewrite Hny in Hl.
    destruct (IH y l fs Hl Hxi) as (fs' & Heq & Hl' & Hsame & Hout); [cbn in Hfuel; lia|].
    exists fs'. split; [done|]. split; [|split; [done|]].
    + split; [done|]. exists f. rewrite Hout by done. rewrite Hny. done.
    + intros x [_ Hx]%not_elem_of_cons. by apply Hout.
Qed.

Lemma list_del_notin x l : x ∉ l -> list_del x l = l.
Proof.
  induction l as [|y l IH]; [done|]. intros [Hne Hl]%not_elem_of_cons. cbn.
  destruct (Nat.eqb_spec y x); [done|]. by rewrite IH.
Qed.

Lemma elem_of_list_del x y l : NoDup l -> x ∈ list_del y l <-> x ∈ l /\ x <> y.
Proof.
  induction 1 as [|z l Hz Hnd IH]; cbn.
  - split; [by intros ?%not_elem_of_nil|by intros [?%not_elem_of_nil _]].
  - destruct (Nat.eqb_spec z y) as [->|Hne]; rewrite !elem_of_cons; [|rewrite IH]; naive_solver.
Qed.

Lemma NoDup_list_del y l : NoDup l -> NoDup (list_del y l).
Proof.
  induction 1 as [|z l Hz Hnd IH]; cbn; [constructor|].
  destruct (Nat.eqb_spec z y); [done|]. constructor; [|done].
  rewrite elem_of_list_del by done. tauto.
Qed.

Lemma linked_state fs first l xi f st :
  fs !! xi = Some f -> linked fs first l ->
  linked (<[xi := set_filter_state st f]> fs) first l.
Proof.
  intros Hf. revert first. induction l as [|y l IH]; intros first; [done|].
  intros (-> & g & Hg & Hok & Hl). split; [done|]. destruct (decide (y = xi)) as [->|].
  - exists (set_filter_state st f). rewrite list_lookup_insert_eq by by eapply lookup_lt_Some.
    rewrite Hf in Hg. injection Hg as ->. split; [done|]. split; [done|]. by apply IH.
  - exists g. rewrite list_lookup_insert_ne by done. auto.
Qed.

(** The walk of release_filter, whether the filter is the first or not. *)
Lemma unlink_spec d fi feed l xi :
  dx_feed d !! fi = Some feed -> linked (dx_filter d) (feed_filter feed) l -> xi ∈ l ->
  exists d1 feed1,
    (if bool_decide (feed_filter feed = Some xi) then
       f ← dx_filter d !! xi;
       Some (put_feed fi (set_feed_filter (next f) feed) d)
     else
       fx ← feed_filter feed;
       fs ← unlink_filter (S (length (dx_filter d))) fx xi (dx_filter d);
       Some (set_dx_filter fs d)) = Some d1 /\
    dx_feed d1 !! fi = Some feed1 /\ (forall fj, fj <> fi -> dx_feed d1 !! fj = dx_feed d !! fj) /\
    linked (dx_filter d1) (feed_filter feed1) (list_del xi l) /\
    (forall x, same_but_next (dx_filter d1 !! x) (dx_filter d !! x)) /\
    (forall x, x ∉ l -> dx_filter d1 !! x = dx_filter d !! x) /\
    feed_list d1 = feed_list d /\ dx_log d1 = dx_log d.
Proof.
  intros Hfeed Hl Hxi. case_bool_decide as Hfirst.
  - destruct l as [|y l]; [by apply not_elem_of_nil in Hxi|].
    rewrite Hfirst in Hl. destruct Hl as ([= <-] & f & Hf & _ & Hl). rewrite Hf.
    cbn [mbind option_bind]. do 2 eexists. split; [done|]. cbn.
    rewrite list_lookup_insert_eq by by eapply lookup_lt_Some.
    rewrite Nat.eqb_refl. split_and!; try done. intros. by apply list_lookup_insert_ne.
  - destruct l as [|fx l]; [by apply not_elem_of_nil in Hxi|].
    pose proof Hl as (Hfx & _). rewrite Hfx in Hl |- *. cbn [mbind option_bind].
    assert (fx <> xi) by congruence. apply elem_of_cons in Hxi as [|Hxi]; [done|].
    destruct (unlink_filter_spec (S (length (dx_filter d))) fx l xi (dx_filter d) Hl Hxi)
      as (fs' & -> & Hl' & Hsame & Hout).
    { pose proof (linked_length _ _ _ Hl) as Hlen. cbn in Hlen. lia. }
    cbn [mbind option_bind]. exists (set_dx_filter fs' d), feed. cbn [list_del].
    destruct (Nat.eqb_spec fx xi); [done|]. rewrite Hfx. done.
Qed.

(** Fact: releasing a section filter.  On a feed that is not filtering,
    releasing one of its filters, wherever it is in the list, removes exactly
    that filter from the feed's list, makes it free, keeps every other filter
    (up to the link that skips it) and releases the mutex. *)
Theorem release_filter_removes d fi feed l xi f :
  dx_mutex d = false -> dx_feed d !! fi = Some feed -> is_filtering feed = false ->
  linked (dx_filter d) (feed_filter feed) l -> xi ∈ l ->
  dx_filter d !! xi = Some f -> filter_feed f = Some fi ->
  exists d' feed',
    dmx_section_feed_release_filter fi xi d = Some (d', 0) /\
    dx_mutex d' = false /\ dx_feed d' !! fi = Some feed' /\
    linked (dx_filter d') (feed_filter feed') (list_del xi l) /\ xi ∉ list_del xi l /\
    filter_state <$> dx_filter d' !! xi = Some DMX_STATE_FREE /\
    (forall x, x <> xi -> same_but_next (dx_filter d' !! x) (dx_filter d !! x)) /\
    (forall x, x ∉ l -> dx_filter d' !! x = dx_filter d !! x).
Proof.
  intros Hmx Hfeed Hfl Hl Hxi Hf Hff. unfold dmx_section_feed_release_filter, mutex_lock.
  rewrite Hmx. cbn [mbind option_bind]. set (d0 := set_dx_mutex true d).
  assert (Hf0 : dx_filter d0 !! xi = Some f) by done.
  assert (Hfe0 : dx_feed d0 !! fi = Some feed) by done.
  rewrite Hf0. cbn [mbind option_bind]. rewrite Hff, bool_decide_true by done. cbn [negb].
  rewrite Hfe0. cbn [mbind option_bind]. rewrite Hfl. cbn [mbind option_bind].
  rewrite Hfe0. cbn [mbind option_bind].
  destruct (unlink_spec d0 fi feed l xi Hfe0 Hl Hxi)
    as (d1 & feed1 & -> & Hfe1 & _ & Hl1 & Hsame & Hout & _).
  cbn [mbind option_bind].
  destruct (dx_filter d1 !! xi) as [f1|] eqn:Hf1.
  2: { specialize (Hsame xi). rewrite Hf1, Hf0 in Hsame. done. }
  cbn [mbind option_bind]. do 2 eexists. split; [done|]. split; [done|]. split; [exact Hfe1|].
  cbn. split; [by apply linked_state|].
  pose proof (linked_NoDup _ _ _ Hl) as Hnd.
  split; [rewrite elem_of_list_del by done; tauto|].
  rewrite list_lookup_insert_eq by by eapply lookup_lt_Some. split; [done|]. split.
  - intros x Hx. rewrite list_lookup_insert_ne by done. apply Hsame.
  - intros x Hx. rewrite list_lookup_insert_ne by (intros ->; done). by apply Hout.
Qed.

(** ** The list of set feeds *)

(** The operations of the feed interfaces, with the feed they are called on. *)
Inductive feed_op :=
  | OpAllocTs (intr : bool)
  | OpSetTs (intr : bool) (fi : nat) (p tst pt size : Z) (tmo : Z * Z)
  | OpStartTs (intr : bool) (fi : nat)
  | OpStopTs (fi : nat)
  | OpReleaseTs (fi : nat)
  | OpAllocSec (intr : bool)
  | OpAllocFilter (intr : bool) (fi : nat)
  | OpSetSec (intr : bool) (fi : nat) (p size chk : Z)
  | OpStartSec (intr : bool) (fi : nat)
  | OpStopSec (fi : nat)
  | OpReleaseFilter (fi xi : nat)
  | OpReleaseSec (fi : nat).

Definition run_op (op : feed_op) (d : dvb_demux) : option dvb_demux :=
  match op with
  | OpAllocTs intr => '(d, _, _) ← dvbdmx_allocate_ts_feed intr d; Some d
  | OpSetTs intr fi p tst pt size tmo =>
      '(d, _) ← dmx_ts_feed_set intr fi p tst pt size tmo d; Some d
  | OpStartTs intr fi => '(d, _) ← dmx_ts_feed_start_filtering intr fi d; Some d
  | OpStopTs fi => '(d, _) ← dmx_ts_feed_stop_filtering fi d; Some d
  | OpReleaseTs fi => '(d, _) ← dvbdmx_release_ts_feed fi d; Some d
  | OpAllocSec intr => '(d, _, _) ← dvbdmx_allocate_section_feed intr d; Some d
  | OpAllocFilter intr fi => '(d, _, _) ← dmx_section_feed_allocate_filter intr fi d; Some d
  | OpSetSec intr fi p size chk => '(d, _) ← dmx_section_feed_set intr fi p size chk d; Some d
  | OpStartSec intr fi => '(d, _) ← dmx_section_feed_start_filtering intr fi d; Some d
  | OpStopSec fi => '(d, _) ← dmx_section_feed_stop_filtering fi d; Some d
  | OpReleaseFilter fi xi => '(d, _) ← dmx_section_feed_release_filter fi xi d; Some d
  | OpReleaseSec fi => '(d, _) ← dvbdmx_release_section_feed fi d; Some d
  end.

(** Clients use a feed they were given and have not released. *)
Definition op_feed (op : feed_op) : option nat :=
  match op with
  | OpAllocTs _ | OpAllocSec _ => None
  | OpSetTs _ fi _ _ _ _ _ | OpStartTs _ fi | OpStopTs fi | OpReleaseTs fi
  | OpAllocFilter _ fi | OpSetSec _ fi _ _ _ | OpStartSec _ fi | OpStopSec fi
  | OpReleaseFilter fi _ | OpReleaseSec fi => Some fi
  end.

Definition in_use (d : dvb_demux) (fi : nat) : Prop :=
  exists f, dx_feed d !! fi = Some f /\ feed_state f <> DMX_STATE_FREE.

Record feeds_wf (d : dvb_demux) : Prop := {
  fw_mutex : dx_mutex d = false;
  fw_nodup : NoDup (feed_list d);
  fw_listed : forall fi, fi ∈ feed_list d -> in_use d fi;
}.

Lemma feed_find_spec fi l : dvb_demux_feed_find fi l = bool_decide (fi ∈ l).
Proof.
  induction l as [|e l IH]; [done|]. cbn. destruct (Nat.eqb_spec e fi) as [->|Hne].
  - by rewrite bool_decide_true by by left.
  - rewrite IH. apply bool_decide_ext. rewrite elem_of_cons. naive_solver.
Qed.

(** A step that keeps the list, the mutex aside, and no used feed becomes free. *)
Lemma feeds_wf_keep d d' :
  feeds_wf d -> dx_mutex d' = false -> feed_list d' = feed_list d ->
  (forall fi, in_use d fi -> in_use d' fi) -> feeds_wf d'.
Proof.
  intros [Hm Hn Hl] Hm' Hl' Hu. split; [done|by rewrite Hl'|].
  intros fi Hfi. rewrite Hl' in Hfi. auto.
Qed.

Lemma feeds_wf_add d fi :
  NoDup (feed_list d) -> (forall fj, fj ∈ feed_list d -> in_use d fj) -> in_use d fi ->
  let d' := dvb_demux_feed_add fi d in
  NoDup (feed_list d') /\ forall fj, fj ∈ feed_list d' -> in_use d' fj.
Proof.
  intros Hn Hl Hu. unfold dvb_demux_feed_add. rewrite feed_find_spec.
  case_bool_decide as Hin; [done|]. cbn. split; [by constructor|].
  intros fj [->|Hfj]%elem_of_cons; [done|]. by apply Hl.
Qed.

Lemma in_use_put d fi f fj :
  feed_state f <> DMX_STATE_FREE -> in_use d fj -> in_use (put_feed fi f d) fj.
Proof.
  intros Hf (g & Hg & Hs). unfold in_use. cbn. destruct (decide (fj = fi)) as [->|].
  - exists f. split; [|done]. apply list_lookup_insert_eq. by eapply lookup_lt_Some.
  - exists g. by rewrite list_lookup_insert_ne.
Qed.

Lemma in_use_alloc d fi fj :
  in_use d fj ->
  in_use (set_dx_feed (alter (set_feed_state DMX_STATE_ALLOCATED) fi (dx_feed d)) d) fj.
Proof.
  intros (g & Hg & Hs). unfold in_use. cbn. destruct (decide (fj = fi)) as [->|].
  - exists (set_feed_state DMX_STATE_ALLOCATED g). by rewrite list_lookup_alter_eq, Hg.
  - exists g. by rewrite list_lookup_alter_ne.
Qed.

Lemma first_free_spec {A} (st : A -> Z) l i n :
  first_free st l i = Some n -> (i <= n)%nat /\ exists x, l !! (n - i)%nat = Some x /\ st x = DMX_STATE_FREE.
Proof.
  revert i. induction l as [|y l IH]; intros i; cbn; [done|].
  destruct (Z.eqb_spec (st y) DMX_STATE_FREE).
  - intros [= ->]. split; [lia|]. exists y. by rewrite Nat.sub_diag.
  - intros (? & x & Hx & Hs)%IH. split; [lia|]. exists x.
    by replace (n - i)%nat with (S (n - S i)) by lia.
Qed.

Lemma feed_alloc_spec d :
  match dvb_dmx_feed_alloc d with
  | (d', None) => d' = d
  | (d', Some fi) =>
      ~ in_use d fi /\ feed_list d' = feed_list d /\ dx_mutex d' = dx_mutex d /\
      (forall fj, in_use d fj -> in_use d' fj)
  end.
Proof.
  unfold dvb_dmx_feed_alloc. destruct (first_free _ _ _) as [fi|] eqn:Hf; [|done].
  apply first_free_spec in Hf as (_ & x & Hx & Hs). rewrite Nat.sub_0_r in Hx.
  split; [|split; [done|split; [done|apply in_use_alloc]]].
  intros (g & Hg & Hgs). congruence.
Qed.

Lemma filter_alloc_spec d d' o :
  dvb_dmx_filter_alloc d = (d', o) ->
  feed_list d' = feed_list d /\ dx_mutex d' = dx_mutex d /\ dx_feed d' = dx_feed d.
Proof. unfold dvb_dmx_filter_alloc. case_match; by intros [= <- <-]. Qed.

Lemma in_use_put_ne d fi f fj : fj <> fi -> in_use d fj -> in_use (put_feed fi f d) fj.
Proof.
  intros Hne (g & Hg & Hs). exists g. cbn. by rewrite list_lookup_insert_ne.
Qed.

Lemma mutex_lock_free d : dx_mutex d = false -> mutex_lock d = Some (set_dx_mutex true d).
Proof. unfold mutex_lock. by intros ->. Qed.

Lemma alloc_wf d d' o :
  feeds_wf d -> (exists intr r, dvbdmx_allocate_ts_feed intr d = Some (d', r, o) \/
                 dvbdmx_allocate_section_feed intr d = Some (d', r, o)) ->
  feeds_wf d'.
Proof.
  intros Hw (intr & r & H). pose proof Hw as [Hm Hn Hl].
  unfold dvbdmx_allocate_ts_feed, dvbdmx_allocate_section_feed in H.
  destruct intr; [destruct H as [[= <- _]|[= <- _]]; done|].
  rewrite !mutex_lock_free in H by done. cbn [mbind option_bind] in H.
  pose proof (feed_alloc_spec (set_dx_mutex true d)) as Ha.
  destruct (dvb_dmx_feed_alloc _) as [d1 [fi|]].
  2: { subst d1. destruct H as [[= <- _ _]|[= <- _ _]]; by apply (feeds_wf_keep d). }
  destruct Ha as (Hfree & Hfl & _ & Huse).
  assert (Hother : forall fj f, in_use d fj -> in_use (put_feed fi f d1) fj).
  { intros fj f Hfj. apply in_use_put_ne; [|by apply Huse].
    intros ->. by apply Hfree. }
  destruct H as [H|H]; apply bind_Some in H as (f & Hf & H).
  - destruct (dvb_dmx_filter_alloc d1) as [d2 o2] eqn:Hx. apply filter_alloc_spec in Hx as (E1 & E2 & E3).
    assert (Huse2 : forall fj f, in_use d fj -> in_use (put_feed fi f d2) fj).
    { intros fj g Hfj. specialize (Hother fj g Hfj). unfold in_use in *. cbn in *. by rewrite E3. }
    assert (Hlist : feed_list d2 = feed_list d) by (by rewrite E1, Hfl).
    destruct o2 as [xi|]; [apply bind_Some in H as (x & _ & H)|]; injection H as <- _ _;
      (apply (feeds_wf_keep d); [done|done|done|]); intros fj Hfj; by apply Huse2.
  - injection H as <- _ _. apply (feeds_wf_keep d); try done. intros fj Hfj. by apply Hother.
Qed.

(** The operations that change the state of one used feed and may list it. *)
Lemma put_wf d fi f d' :
  feeds_wf d -> in_use d fi -> feed_state f <> DMX_STATE_FREE ->
  dx_mutex d' = false -> dx_feed d' = <[fi := f]> (dx_feed d) ->
  feed_list d' = feed_list d \/ feed_list d' = feed_list (dvb_demux_feed_add fi d) ->
  feeds_wf d'.
Proof.
  intros [Hm Hn Hl] Hu Hs Hm' Hfe Hfl.
  assert (Huse : forall fj, in_use d fj -> in_use d' fj).
  { intros fj Hfj. pose proof (in_use_put d fi f fj Hs Hfj). unfold in_use. by rewrite Hfe. }
  destruct (feeds_wf_add d fi Hn Hl Hu) as [Hn2 Hl2].
  assert (Hl3 : forall fj, fj ∈ feed_list (dvb_demux_feed_add fi d) -> in_use d fj).
  { intros fj Hfj. specialize (Hl2 fj Hfj). unfold in_use, dvb_demux_feed_add in *.
    by destruct (dvb_demux_feed_find fi (feed_list d)). }
  split; [done|destruct Hfl as [Hfl|Hfl]; by rewrite Hfl|].
  intros fj Hfj. apply Huse. destruct Hfl as [Hfl|Hfl]; rewrite Hfl in Hfj; auto.
Qed.

Lemma feed_add_list fi d1 d :
  feed_list d1 = feed_list d ->
  feed_list (dvb_demux_feed_add fi d1) = feed_list (dvb_demux_feed_add fi d) /\
  dx_feed (dvb_demux_feed_add fi d1) = dx_feed d1.
Proof. unfold dvb_demux_feed_add. intros Hfl. rewrite Hfl. by case_match. Qed.

Lemma set_wf op d d' fi :
  (exists intr p tst pt size tmo, op = OpSetTs intr fi p tst pt size tmo) \/
  (exists intr p size chk, op = OpSetSec intr fi p size chk) ->
  feeds_wf d -> in_use d fi -> run_op op d = Some d' -> feeds_wf d'.
Proof.
  intros Hop Hw Hu H. pose proof Hw as [Hm Hn Hl].
  destruct Hop as [(intr & p & tst & pt & size & tmo & ->)|(intr & p & size & chk & ->)];
    cbn [run_op] in H; apply bind_Some in H as ([d1 r] & H & [= <-]).
  - unfold dmx_ts_feed_set in H. destruct (p >? _); [by injection H as <- _|].
    destruct intr; [by injection H as <- _|]. rewrite mutex_lock_free in H by done.
    cbn [mbind option_bind] in H. apply bind_Some in H as (f & Hf & H).
    apply bind_Some in H as ([d2 bad] & H2 & H).
    assert (feed_list d2 = feed_list d /\ dx_feed d2 = dx_feed d) as [Hfl Hfe] by (binv; done).
    destruct bad; injection H as <- _.
    + apply (feeds_wf_keep d); try done. intros fj Hfj. unfold in_use. cbn. by rewrite Hfe.
    + destruct (feed_add_list fi d2 d Hfl) as [E1 E2].
      eapply (put_wf d); [done|done| |done|cbn; by rewrite E2, ?Hfe|by right]. done.
  - unfold dmx_section_feed_set in H. destruct (p >? _); [by injection H as <- _|].
    destruct intr; [by injection H as <- _|]. rewrite mutex_lock_free in H by done.
    cbn [mbind option_bind] in H. apply bind_Some in H as (f & Hf & H). injection H as <- _.
    destruct (feed_add_list fi (set_dx_mutex true d) d eq_refl) as [E1 E2].
    eapply (put_wf d); [done|done| |done|cbn; by rewrite E2|by right]. done.
Qed.

Lemma feed_del_list fi d1 d :
  feed_list d1 = feed_list d -> NoDup (feed_list d) ->
  NoDup (feed_list (dvb_demux_feed_del fi d1)) /\
  dx_feed (dvb_demux_feed_del fi d1) = dx_feed d1 /\
  forall fj, fj ∈ feed_list (dvb_demux_feed_del fi d1) <-> fj ∈ feed_list d /\ fj <> fi.
Proof.
  intros Hfl Hn. unfold dvb_demux_feed_del. rewrite feed_find_spec, Hfl.
  case_bool_decide as Hin; cbn.
  - split; [by apply NoDup_list_del|]. split; [done|]. intros. by apply elem_of_list_del.
  - rewrite Hfl. split; [done|]. split; [done|]. naive_solver.
Qed.

Lemma release_wf d fi f d1 d' :
  feeds_wf d -> dx_mutex d' = false -> feed_list d1 = feed_list d -> dx_feed d1 = dx_feed d ->
  feed_list d' = feed_list (dvb_demux_feed_del fi d1) ->
  dx_feed d' = <[fi := f]> (dx_feed d) -> feeds_wf d'.
Proof.
  intros [Hm Hn Hl] Hm' Hfl Hfe Hfl' Hfe'.
  destruct (feed_del_list fi d1 d Hfl Hn) as (Hn2 & _ & Hin).
  split; [done|by rewrite Hfl'|]. intros fj Hfj. rewrite Hfl' in Hfj.
  apply Hin in Hfj as [Hfj Hne]. destruct (Hl fj Hfj) as (g & Hg & Hs).
  exists g. by rewrite Hfe', list_lookup_insert_ne.
Qed.

Lemma release_op_wf d d' fi r :
  dvbdmx_release_ts_feed fi d = Some (d', r) \/ dvbdmx_release_section_feed fi d = Some (d', r) ->
  feeds_wf d -> feeds_wf d'.
Proof.
  intros H Hw. pose proof Hw as [Hm Hn Hl].
  unfold dvbdmx_release_ts_feed, dvbdmx_release_section_feed in H.
  rewrite mutex_lock_free in H by done. cbn [mbind option_bind] in H.
  destruct H as [H|H]; apply bind_Some in H as (f & Hf & H);
    (destruct (feed_state f =? DMX_STATE_FREE);
     [injection H as <- _; by apply (feeds_wf_keep d)|]).
  - apply bind_Some in H as (xi & Hxi & H). apply bind_Some in H as (x & Hx & H).
    apply bind_Some in H as (d2 & H2 & H). injection H as <- _.
    set (d1 := put_filter xi _ _) in H2. set (f1 := set_pid _ _) in H2.
    assert (feed_list d2 = feed_list (dvb_demux_feed_del fi d1) /\
      dx_feed d2 = <[fi := f1]> (dx_feed d)) as [E1 E2].
    { destruct (feed_del_list fi d1 d eq_refl Hn) as (_ & Hfe & _).
      assert (dx_feed (put_feed fi f1 (dvb_demux_feed_del fi d1)) = <[fi := f1]> (dx_feed d))
        as Hput by (cbn; by rewrite Hfe).
      destruct (_ && _); [apply bind_Some in H2 as (pf & _ & [= <-])|injection H2 as <-]; done. }
    by apply (release_wf d fi f1 d1).
  - injection H as <- _. set (d1 := set_dx_mutex true d). eapply (release_wf d fi _ d1); try done.
    destruct (feed_del_list fi d1 d eq_refl Hn) as (_ & Hfe & _). cbn. by rewrite Hfe.
Qed.

Lemma start_stop_wf op d d' fi :
  op = OpStopTs fi \/ op = OpStopSec fi \/ (exists intr, op = OpStartTs intr fi) \/
  (exists intr, op = OpStartSec intr fi) ->
  feeds_wf d -> in_use d fi -> run_op op d = Some d' -> feeds_wf d'.
Proof.
  intros Hop Hw Hu H. pose proof Hw as [Hm Hn Hl].
  assert (Hkeep : forall d1, feed_list d1 = feed_list d -> dx_feed d1 = dx_feed d ->
    feeds_wf (mutex_unlock d1)).
  { intros d1 E1 E2. apply (feeds_wf_keep d); try done. intros fj (g & Hg & Hs).
    exists g. cbn. by rewrite E2. }
  destruct Hop as [->|[->|[[intr ->]|[intr ->]]]]; cbn [run_op] in H;
    apply bind_Some in H as ([d1 r] & H & [= <-]).
  - unfold dmx_ts_feed_stop_filtering in H. rewrite mutex_lock_free in H by done.
    cbn [mbind option_bind] in H. apply bind_Some in H as (f & Hf & H).
    destruct (_ <? _); [injection H as <- _; by apply Hkeep|].
    destruct (negb _); [injection H as <- _; by apply Hkeep|].
    injection H as <- _. eapply (put_wf d); [done|done| |done|reflexivity|by left]. done.
  - unfold dmx_section_feed_stop_filtering in H. rewrite mutex_lock_free in H by done.
    cbn [mbind option_bind] in H. destruct (negb _); [injection H as <- _; by apply Hkeep|].
    apply bind_Some in H as (f & Hf & H). injection H as <- _.
    eapply (put_wf d); [done|done| |done|reflexivity|by left]. done.
  - unfold dmx_ts_feed_start_filtering in H. destruct intr; [by injection H as <- _|].
    rewrite mutex_lock_free in H by done.
    cbn [mbind option_bind] in H. apply bind_Some in H as (f & Hf & H).
    destruct (_ || _); [injection H as <- _; by apply Hkeep|].
    destruct (negb _); [injection H as <- _; by apply Hkeep|].
    cbn beta iota zeta delta [call_start_feed] in H.
    destruct (_ <? 0); injection H as <- _; [by apply Hkeep|].
    eapply (put_wf d); [done|done| |done|reflexivity|by left]. done.
  - unfold dmx_section_feed_start_filtering in H. destruct intr; [by injection H as <- _|].
    rewrite mutex_lock_free in H by done.
    cbn [mbind option_bind] in H. apply bind_Some in H as (f & Hf & H).
    destruct (is_filtering f); [injection H as <- _; by apply Hkeep|].
    destruct (negb _); [injection H as <- _; by apply Hkeep|].
    set (f1 := set_seclen 0 _) in H. set (d1' := put_feed fi f1 _) in H.
    assert (Hs1 : feed_state f1 <> DMX_STATE_FREE).
    { destruct Hu as (g & Hg & Hs). change (feed_state f1) with (feed_state f).
      cbn in Hf. congruence. }
    destruct (negb _).
    { injection H as <- _. by eapply (put_wf d _ f1); try done; left. }
    apply bind_Some in H as (d2 & H2 & H).
    assert (dx_feed d2 = <[fi := f1]> (dx_feed d) /\ feed_list d2 = feed_list d) as [E1 E2].
    { unfold prepare_secfilters in H2. destruct (feed_filter f1); [|by injection H2 as <-].
      by apply bind_Some in H2 as (fs' & _ & [= <-]). }
    cbn beta iota zeta delta [call_start_feed] in H. destruct (_ <? 0); injection H as <- _.
    + by eapply (put_wf d _ f1); try done; left.
    + eapply (put_wf d); [done|done| |done| |by left];
        [|cbn; rewrite E1; apply list_insert_insert_eq]. done.
Qed.

Lemma filter_op_wf d d' fi r :
  (exists intr o, dmx_section_feed_allocate_filter intr fi d = Some (d', r, o)) \/
  (exists xi, dmx_section_feed_release_filter fi xi d = Some (d', r)) ->
  feeds_wf d -> in_use d fi -> feeds_wf d'.
Proof.
  intros H Hw Hu. pose proof Hw as [Hm Hn Hl]. pose proof Hu as (f0 & Hf0 & Hs0).
  destruct H as [(intr & o & H)|(xi & H)].
  - unfold dmx_section_feed_allocate_filter in H. destruct intr; [by injection H as <- _ _|].
    rewrite mutex_lock_free in H by done. cbn [mbind option_bind] in H.
    destruct (dvb_dmx_filter_alloc _) as [d1 o1] eqn:Ha.
    apply filter_alloc_spec in Ha as (E1 & _ & E3).
    destruct o1 as [xi|].
    + apply bind_Some in H as (f & Hf & H). apply bind_Some in H as (x & Hx & H).
      injection H as <- _ _. rewrite E3 in Hf. cbn in Hf. rewrite Hf0 in Hf. injection Hf as <-.
      eapply (put_wf d); [done|done| |done|cbn; by rewrite E3|by left]. done.
    + injection H as <- _ _. apply (feeds_wf_keep d); try done.
      intros fj (g & Hg & Hs). exists g. cbn. by rewrite E3.
  - unfold dmx_section_feed_release_filter in H. rewrite mutex_lock_free in H by done.
    cbn [mbind option_bind] in H. apply bind_Some in H as (x & Hx & H).
    destruct (negb _); [injection H as <- _; by apply (feeds_wf_keep d)|].
    apply bind_Some in H as (f & Hf & H). cbn in Hf. rewrite Hf0 in Hf. injection Hf as <-.
    apply bind_Some in H as (d1 & H1 & H).
    destruct (is_filtering f0).
    { unfold dmx_section_feed_stop_filtering, mutex_lock in H1. done. }
    injection H1 as <-. apply bind_Some in H as (f & Hf & H). cbn in Hf.
    rewrite Hf0 in Hf. injection Hf as <-.
    apply bind_Some in H as (d2 & H2 & H). apply bind_Some in H as (y & _ & H).
    injection H as <- _.
    case_bool_decide; apply bind_Some in H2 as (z & _ & H2).
    + injection H2 as <-. eapply (put_wf d); [done|done| |done|reflexivity|by left]. done.
    + apply bind_Some in H2 as (fs' & _ & [= <-]). by apply (feeds_wf_keep d).
Qed.

Fixpoint run_ops (ops : list feed_op) (d : dvb_demux) : option dvb_demux :=
  match ops with
  | [] => Some d
  | op :: ops => d ← run_op op d; run_ops ops d
  end.

Lemma run_op_wf op d d' :
  feeds_wf d -> (forall fi, op_feed op = Some fi -> in_use d fi) ->
  run_op op d = Some d' -> feeds_wf d'.
Proof.
  intros Hw1 Hop H.
  destruct op; cbn [op_feed] in Hop; try (specialize (Hop _ eq_refl));
    match type of H with run_op ?op _ = _ =>
      try (by apply (start_stop_wf op d d' fi); [eauto 6|..]);
      try (by apply (set_wf op d d' fi); [eauto 12|..])
    end; cbn [run_op] in H;
    [apply bind_Some in H as ([[d2 r] o] & H & [= <-]); apply (alloc_wf d d2 o); eauto
    |apply bind_Some in H as ([d2 r] & H & [= <-]); apply (release_op_wf d d2 fi r); eauto
    |apply bind_Some in H as ([[d2 r] o] & H & [= <-]); apply (alloc_wf d d2 o); eauto
    |apply bind_Some in H as ([[d2 r] o] & H & [= <-]); apply (filter_op_wf d d2 fi r); eauto
    |apply bind_Some in H as ([d2 r] & H & [= <-]); apply (filter_op_wf d d2 fi r); eauto
    |apply bind_Some in H as ([d2 r] & H & [= <-]); apply (release_op_wf d d2 fi r); eauto].
Qed.

(** Fact: releasing a filter of a feed that is still filtering never
    returns: release_filter stops the feed while it holds the mutex that
    stopping takes. *)
Theorem release_filter_filtering_hangs d fi feed xi f :
  dx_feed d !! fi = Some feed -> is_filtering feed = true ->
  dx_filter d !! xi = Some f -> filter_feed f = Some fi ->
  dmx_section_feed_release_filter fi xi d = None.
Proof.
  intros Hfeed Hfl Hf Hff. unfold dmx_section_feed_release_filter.
  unfold mutex_lock at 1. destruct (dx_mutex d); [done|]. cbn [mbind option_bind].
  change (dx_filter (set_dx_mutex true d)) with (dx_filter d).
  change (dx_feed (set_dx_mutex true d)) with (dx_feed d).
  rewrite Hf. cbn [mbind option_bind]. rewrite Hff, bool_decide_true by done. cbn [negb].
  rewrite Hfeed. cbn [mbind option_bind]. rewrite Hfl. done.
Qed.
End proofs.

(** ** Concrete runs *)

Definition raw_filter : dvb_demux_filter :=
  mk_filter (0x42 :: zeros 17) (0xff :: zeros 17) (replicate 18 0xff) None
    (zeros 18) (zeros 18) 0 None (Some 0%nat) 0 DMX_STATE_READY DMX_TYPE_SEC.

Definition sec_feed (filtering : bool) : dvb_demux_feed :=
  mk_feed filtering None 1 0 0 (zeros 4284) 0 0 0 DMX_TYPE_SEC DMX_STATE_READY 0x100 0 (0, 0)
    (Some 0%nat) 0 0 0 0 0 0.

Definition sec_demux (filtering : bool) : dvb_demux :=
  mk_demux [raw_filter] [sec_feed filtering] true true false 0 [] None
    (replicate 20 None) (replicate 20 0xffff) 0 0 [0]%nat false (zeros 204) 0 None
    (0, 0) 0 0 [].

Lemma raw_filter_is_ok : raw_filter_ok raw_filter.
Proof. repeat split; bytes. Qed.

Lemma raw_linked : linked [raw_filter] (Some 0%nat) [0%nat].
Proof. split; [done|]. exists raw_filter. repeat split. Qed.

Lemma raw_mask i : 0 < i < 18 -> byte (filter_mask raw_filter) i = 0.
Proof.
  intros Hi. unfold byte, mget. rewrite bool_decide_true by lia.
  replace (Z.to_nat i) with (S (Z.to_nat (i - 1))) by lia.
  change (filter_mask raw_filter !! S ?n) with (replicate 17 0 !! n).
  by rewrite lookup_replicate_2 by lia.
Qed.

Lemma raw_mode i : 0 <= i < 18 -> byte (filter_mode raw_filter) i = 0xff.
Proof.
  intros Hi. unfold byte, mget. rewrite bool_decide_true by lia. cbn [filter_mode raw_filter].
  by rewrite lookup_replicate_2 by lia.
Qed.

Lemma section_filter_semantics_witness :
  let feed := set_secbuf_base (ex_section 240 ++ zeros 100) (set_seclen 243 (sec_feed true)) in
  exists f', prepare_filter raw_filter = Some f' /\
    dvb_dmx_swfilter_sectionfilter 0 feed [] 0 f' =
      Some ([CallSec 0 0 (ex_section 240)], 0).
Proof.
  intros feed.
  destruct (section_filter_semantics raw_filter 0 feed [] 0 raw_filter_is_ok)
    as (f' & Hp & Hm & _); [vm_compute; discriminate..|].
  exists f'. split; [exact Hp|]. apply Hm. split.
  - intros i b [Hi Hb] Hmask _. destruct (decide (i = 0)) as [->|Hne]; [done|].
    unfold bit in Hmask. rewrite raw_mask, Z.testbit_0_l in Hmask by lia. done.
  - intros (i & b & [Hi Hb] & _ & Hmode). exfalso. unfold bit in Hmode.
    rewrite raw_mode in Hmode by lia.
    assert (b = 0 \/ b = 1 \/ b = 2 \/ b = 3 \/ b = 4 \/ b = 5 \/ b = 6 \/ b = 7) as Hc by lia.
    repeat (destruct Hc as [->|Hc]; [discriminate|]). subst b. discriminate.
Defined.

Lemma section_start_ready_witness :
  exists d' feed',
    dmx_section_feed_start_filtering false 0 (sec_demux false) = Some (d', 0) /\
    dx_mutex d' = false /\ dx_feed d' !! 0%nat = Some feed' /\
    represents (dx_filter d') [0%nat] 1 (mk_assembly [] false 0) feed' /\
    (forall x, x ∈ [0%nat] -> exists f, dx_filter (sec_demux false) !! x = Some f /\
       dx_filter d' !! x = prepare_filter f) /\
    (forall x, x ∉ [0%nat] -> dx_filter d' !! x = dx_filter (sec_demux false) !! x).
Proof.
  apply (section_start_ready (sec_demux false) 0 (sec_feed false) [0%nat]); try reflexivity.
  - exact raw_linked.
  - discriminate.
  - intros x Hx. apply elem_of_cons in Hx as [->|Hx]; [|by apply not_elem_of_nil in Hx].
    exists raw_filter. split; [reflexivity|exact raw_filter_is_ok].
  - apply Forall_replicate. unfold is_byte. lia.
Defined.

Lemma release_filter_removes_witness :
  exists d' feed',
    dmx_section_feed_release_filter 0 0 (sec_demux false) = Some (d', 0) /\
    dx_mutex d' = false /\ dx_feed d' !! 0%nat = Some feed' /\
    linked (dx_filter d') (feed_filter feed') [] /\ 0%nat ∉ (@nil nat) /\
    filter_state <$> dx_filter d' !! 0%nat = Some DMX_STATE_FREE /\
    (forall x, x <> 0%nat -> same_but_next (dx_filter d' !! x) ([raw_filter] !! x)) /\
    (forall x, x ∉ [0%nat] -> dx_filter d' !! x = [raw_filter] !! x).
Proof.
  apply (release_filter_removes (sec_demux false) 0 (sec_feed false) [0%nat] 0 raw_filter);
    try reflexivity.
  - exact raw_linked.
  - left.
Defined.

Lemma release_filter_filtering_hangs_witness :
  dmx_section_feed_release_filter 0 0 (sec_demux true) = None.
Proof.
  apply (release_filter_filtering_hangs (sec_demux true) 0 (sec_feed true) 0 raw_filter);
    reflexivity.
Defined.

Definition no_feeds : dvb_demux :=
  fst (dvb_dmx_init (Some (replicate 3 raw_filter)) (Some (replicate 3 (set_secbuf_base [] (sec_feed false)))) None
         (sec_demux false)).

(** Fact: releasing a feed can take the decoder from another one.  Feed 0
    uses and releases the decoder of PES type 1, feed 1 takes it over; when a
    client then allocates feed 0 again, is refused the decoder and releases
    its feed, the decoder's entry is cleared although feed 1 still uses it
    (release reads the type of the feed's previous life), and the next client
    is given the same decoder. *)
Theorem release_clears_foreign_decoder :
  let set fi := OpSetTs false fi 0x100 TS_DECODER 1 0 (0, 0) in
  let run := fun ops => run_ops ops no_feeds in
  exists d1 d2,
    run [OpAllocTs false; OpAllocTs false; set 0%nat; OpReleaseTs 0; set 1%nat;
         OpAllocTs false] = Some d1 /\
    (pesfilter d1).[1] = Some (Some 1%nat) /\
    dmx_ts_feed_set false 0 0x100 TS_DECODER 1 0 (0, 0) d1 = Some (d1, - EINVAL) /\
    run_op (OpReleaseTs 0) d1 = Some d2 /\
    (pesfilter d2).[1] = Some None /\ 1%nat ∈ feed_list d2 /\
    exists d3, (d ← run_op (OpAllocTs false) d2;
                dmx_ts_feed_set false 0 0x100 TS_DECODER 1 0 (0, 0) d) = Some (d3, 0).
Proof.
  do 2 eexists. split; [vm_compute; reflexivity|]. split; [reflexivity|].
  split; [vm_compute; reflexivity|]. split; [vm_compute; reflexivity|].
  split; [reflexivity|]. split; [left|]. eexists. vm_compute. reflexivity.
Qed.
