(* ===== verification/DemuxChains.v ===== *)
(** The filters of all section feeds of a demultiplexer together
    (DemuxFeed.v): each feed in use has a list of filters of its own, linked
    through [next], and every operation on section feeds keeps it so.  This is
    what dmxdev needs to hear from the demultiplexer.  With the filters that the
    TS feeds hold it is the invariant under which all operations on feeds return. *)

From stdpp Require Import gmap.
From S2P Require Import Prelude DemuxTypes Demux DemuxSection DemuxStream DemuxFeed DemuxFeedProofs.

(** The list of filters of each section feed that is in use. *)
Abbreviation chains := (gmap nat (list nat)).

Definition chain_of (d : dvb_demux) (fi : nat) (l : list nat) : Prop :=
  exists feed, dx_feed d !! fi = Some feed /\ feed_state feed <> DMX_STATE_FREE /\
    linked (dx_filter d) (feed_filter feed) l /\
    forall x, x ∈ l -> exists f, dx_filter d !! x = Some f /\ filter_feed f = Some fi /\
                              filter_state f <> DMX_STATE_FREE.

Record chains_ok (d : dvb_demux) (ch : chains) : Prop := {
  co_mutex : dx_mutex d = false;
  co_stop : has_stop_feed d = true;
  co_raw : forall x f, dx_filter d !! x = Some f -> raw_filter_ok f;
  co_chain : forall fi l, ch !! fi = Some l -> chain_of d fi l;
}.

(** ** Lemmas *)

Lemma linked_ext fs fs' first l :
  (forall x, x ∈ l -> fs' !! x = fs !! x) -> linked fs first l -> linked fs' first l.
Proof.
  revert first. induction l as [|y l IH]; intros first He; [done|].
  intros (-> & f & Hf & Hok & Hl). split; [done|]. exists f.
  rewrite He by apply list_elem_of_here. split; [done|]. split; [done|].
  apply IH; [|done]. intros x Hx. apply He. by apply list_elem_of_further.
Qed.

(** Chains of different feeds have no filter in common. *)
Lemma chains_disjoint d fi l fj k x :
  chain_of d fi l -> chain_of d fj k -> x ∈ l -> x ∈ k -> fi = fj.
Proof.
  intros (_ & _ & _ & _ & H1) (_ & _ & _ & _ & H2) Hx Hy.
  destruct (H1 x Hx) as (f & Hf & Hff & _), (H2 x Hy) as (g & Hg & Hgf & _). congruence.
Qed.

Lemma chain_frame d d' fi l :
  chain_of d fi l -> (forall x, x ∈ l -> dx_filter d' !! x = dx_filter d !! x) ->
  dx_feed d' !! fi = dx_feed d !! fi -> chain_of d' fi l.
Proof.
  intros (feed & Hf & Hs & Hl & Hx) He Hfe. exists feed. rewrite Hfe. split_and!; [done..| |].
  - by eapply linked_ext.
  - intros x Hin. rewrite He by done. auto.
Qed.

(** A feed is written, the link to its filters and its being in use aside. *)
Lemma chains_put_feed d d' ch fi feed feed' :
  chains_ok d ch -> dx_feed d !! fi = Some feed ->
  feed_filter feed' = feed_filter feed ->
  (feed_state feed' <> DMX_STATE_FREE \/ ch !! fi = None) ->
  dx_mutex d' = false -> has_stop_feed d' = has_stop_feed d -> dx_filter d' = dx_filter d ->
  dx_feed d' = <[fi := feed']> (dx_feed d) -> chains_ok d' ch.
Proof.
  intros [Hm Hs Hr Hc] Hfeed Hff Hfree Hm' Hs' Hx Hfe. split; [done|congruence|by rewrite Hx|].
  intros fj l Hl. destruct (Hc fj l Hl) as (g & Hg & Hgs & Hgl & Hgx).
  unfold chain_of. rewrite Hx, Hfe. destruct (decide (fj = fi)) as [->|Hne].
  - rewrite list_lookup_insert_eq by by eapply lookup_lt_Some. exists feed'.
    assert (g = feed) as -> by congruence. rewrite Hff. split_and!; try done.
    destruct Hfree; [done|congruence].
  - rewrite list_lookup_insert_ne by done. eauto.
Qed.

Lemma chains_same d d' ch :
  chains_ok d ch -> dx_mutex d' = false -> has_stop_feed d' = has_stop_feed d ->
  dx_filter d' = dx_filter d -> dx_feed d' = dx_feed d -> chains_ok d' ch.
Proof.
  intros [Hm Hs Hr Hc] Hm' Hs' Hx Hf. split; [done|congruence|by rewrite Hx|].
  intros fi l Hl. eapply chain_frame; [by apply Hc|..]; intros; congruence.
Qed.

(** Preparing a filter keeps what the client and the lists put there. *)
Lemma prepare_filter_keeps f f' :
  raw_filter_ok f -> prepare_filter f = Some f' ->
  raw_filter_ok f' /\ filter_feed f' = filter_feed f /\ filter_state f' = filter_state f.
Proof.
  intros Hr Hp. destruct (prepare_bytes_spec DVB_DEMUX_MASK_MAX 0 f 0 Hr)
    as (mm & mn & dq & Heq & Hmm & Hmn & _); [lia|done|].
  unfold prepare_filter in Hp. rewrite Heq in Hp. cbn in Hp. injection Hp as <-.
  split; [|done]. destruct Hr as ((Hv & _) & Hrest). by split.
Qed.

Section ops.
Context {E : DemuxEnv}.

Lemma stop_section_ok d ch fi l :
  chains_ok d ch -> ch !! fi = Some l ->
  exists d' r feed, dmx_section_feed_stop_filtering fi d = Some (d', r) /\ chains_ok d' ch /\
    dx_feed d' !! fi = Some feed /\ is_filtering feed = false.
Proof.
  intros Hco Hl. pose proof Hco as [Hm Hs _ Hc]. destruct (Hc fi l Hl) as (feed & Hf & Hst & _).
  unfold dmx_section_feed_stop_filtering, mutex_lock. rewrite Hm. cbn [mbind option_bind].
  cbn [has_stop_feed set_dx_mutex]. rewrite Hs. cbn. rewrite Hf. cbn.
  do 3 eexists. split; [reflexivity|]. split; [|split].
  - eapply (chains_put_feed d _ ch fi feed); [done|done| | |done..]; [|left]; done.
  - cbn. apply list_lookup_insert_eq. by eapply lookup_lt_Some.
  - done.
Qed.

(** Starting a feed without filters answers an error and changes nothing. *)
Lemma start_section_empty intr d ch fi feed :
  chains_ok d ch -> dx_feed d !! fi = Some feed -> feed_filter feed = None ->
  exists d' r, dmx_section_feed_start_filtering intr fi d = Some (d', r) /\ chains_ok d' ch.
Proof.
  intros Hco Hf Hn. pose proof Hco as [Hm _ _ _].
  unfold dmx_section_feed_start_filtering, mutex_lock. destruct intr; [eauto|].
  rewrite Hm. cbn. rewrite Hf. cbn. destruct (is_filtering feed); cbn.
  - do 2 eexists. split; [done|]. by eapply (chains_same d).
  - rewrite Hn. cbn. do 2 eexists. split; [done|]. by eapply (chains_same d).
Qed.

Lemma start_section_ok intr d ch fi l :
  chains_ok d ch -> ch !! fi = Some l ->
  exists d' r, dmx_section_feed_start_filtering intr fi d = Some (d', r) /\ chains_ok d' ch.
Proof.
  intros Hco Hl. pose proof Hco as [Hm _ Hraw Hc].
  destruct (Hc fi l Hl) as (feed & Hf & Hst & Hlk & Hin).
  destruct l as [|x l]; [by eapply start_section_empty|]. pose proof (proj1 Hlk) as Hfirst.
  unfold dmx_section_feed_start_filtering, mutex_lock. destruct intr; [eauto|].
  rewrite Hm. cbn [mbind option_bind dx_feed set_dx_mutex]. rewrite Hf. cbn [mbind option_bind].
  destruct (is_filtering feed).
  { do 2 eexists. split; [done|]. by eapply (chains_same d). }
  rewrite Hfirst. rewrite bool_decide_true by eauto. cbn [negb].
  set (feed1 := set_seclen 0 _). set (d1 := put_feed fi feed1 _).
  assert (Hput : forall d2, dx_mutex d2 = false -> has_stop_feed d2 = has_stop_feed d ->
    dx_filter d2 = dx_filter d -> dx_feed d2 = <[fi := feed1]> (dx_feed d) -> chains_ok d2 ch).
  { intros. eapply (chains_put_feed d _ ch fi feed feed1); try done. by left. }
  destruct (has_start_feed d1); cbn [negb].
  2: { do 2 eexists. split; [done|]. by apply Hput. }
  assert (Hraws : raw_filters (dx_filter d) (x :: l)).
  { intros y Hy. destruct (Hin y Hy) as (f & Hfy & _). eauto. }
  destruct (prepare_chain_spec (S (length (dx_filter d))) x (x :: l) (dx_filter d))
    as (fs' & Heq & Hlk' & Hins & Hout); [by rewrite <- Hfirst|done|
      pose proof (linked_length _ _ _ Hlk); lia|].
  unfold prepare_secfilters. change (feed_filter feed1) with (feed_filter feed). rewrite Hfirst.
  change (dx_filter d1) with (dx_filter d). rewrite Heq. cbn [mbind option_bind call_start_feed].
  assert (Hch : forall d2 feed2, dx_mutex d2 = false -> has_stop_feed d2 = has_stop_feed d ->
    dx_filter d2 = fs' -> dx_feed d2 = <[fi := feed2]> (dx_feed d) ->
    feed_filter feed2 = Some x -> feed_state feed2 <> DMX_STATE_FREE -> chains_ok d2 ch).
  { intros d2 feed2 H1 H2 H3 H4 H5 H6. split; [done|rewrite H2; apply Hco|rewrite H3|].
    - intros y f Hy. destruct (decide (y ∈ x :: l)) as [Hyl|Hyl].
      + destruct (Hins y Hyl) as (g & Hg & Hp). rewrite Hp in Hy.
        by apply (prepare_filter_keeps g f (Hraw y g Hg)).
      + rewrite Hout in Hy by done. by eapply Hraw.
    - intros fj k Hk. destruct (decide (fj = fi)) as [->|Hne].
      + rewrite Hl in Hk. injection Hk as <-. exists feed2. rewrite H4.
        rewrite list_lookup_insert_eq by by eapply lookup_lt_Some.
        split; [done|]. split; [done|]. rewrite H3, H5. split; [done|].
        intros y Hy. destruct (Hins y Hy) as (g & Hg & Hp). destruct (Hin y Hy) as (g' & Hg' & Hff & Hgs).
        rewrite Hg in Hg'. injection Hg' as <-.
        destruct (prepare_filter_spec g (Hraw y g Hg)) as (f' & Hf' & _). rewrite Hf' in Hp.
        destruct (prepare_filter_keeps g f' (Hraw y g Hg) Hf') as (_ & E1 & E2).
        exists f'. rewrite Hp, E1, E2. done.
      + eapply chain_frame; [by apply Hc| |].
        * intros y Hy. rewrite H3. apply Hout. intros Hyl. apply Hne.
          eapply (chains_disjoint d fj k fi (x :: l) y); [by apply Hc..|done|done].
        * rewrite H4. by rewrite list_lookup_insert_ne. }
  case_match; do 2 eexists; (split; [done|]).
  - by eapply (Hch _ feed1).
  - apply (Hch _ (set_feed_state DMX_STATE_GO (set_is_filtering true feed1))); try done.
    apply list_insert_insert_eq.
Qed.

Lemma same_but_next_Some d d' x f :
  same_but_next (dx_filter d' !! x) (dx_filter d !! x) -> dx_filter d' !! x = Some f ->
  exists g, dx_filter d !! x = Some g /\ filter_feed f = filter_feed g /\
    filter_state f = filter_state g /\ (raw_filter_ok g -> raw_filter_ok f).
Proof.
  unfold same_but_next. intros Hs Hf. rewrite Hf in Hs. destruct (dx_filter d !! x) as [g|]; [|done].
  exists g. destruct f, g. cbn in Hs. injection Hs as. subst. split_and!; done.
Qed.

Lemma release_filter_ok d ch fi l xi feed :
  chains_ok d ch -> ch !! fi = Some l -> xi ∈ l ->
  dx_feed d !! fi = Some feed -> is_filtering feed = false ->
  exists d' r, dmx_section_feed_release_filter fi xi d = Some (d', r) /\
    chains_ok d' (<[fi := list_del xi l]> ch).
Proof.
  intros Hco Hl Hxi Hfeed Hfl. pose proof Hco as [Hm Hs Hraw Hc].
  destruct (Hc fi l Hl) as (feed' & Hf' & Hst & Hlk & Hin).
  assert (feed' = feed) as -> by congruence. destruct (Hin xi Hxi) as (f & Hf & Hff & _).
  unfold dmx_section_feed_release_filter, mutex_lock. rewrite Hm. cbn [mbind option_bind].
  set (d0 := set_dx_mutex true d).
  change (dx_filter d0) with (dx_filter d). rewrite Hf. cbn [mbind option_bind].
  rewrite Hff, bool_decide_true by done. cbn [negb]. change (dx_feed d0) with (dx_feed d).
  rewrite Hfeed. cbn [mbind option_bind]. rewrite Hfl. cbn [mbind option_bind].
  change (dx_feed d0) with (dx_feed d). rewrite Hfeed. cbn [mbind option_bind].
  destruct (unlink_spec d0 fi feed l xi Hfeed Hlk Hxi)
    as (d1 & feed1 & Heq & Hfe1 & Hother & Hl1 & Hsame & Hout & _).
  assert (Hkeep : has_stop_feed d1 = has_stop_feed d0 /\ feed_state feed1 = feed_state feed).
  { case_bool_decide.
    - apply bind_Some in Heq as (g & _ & [= <-]). cbn in Hfe1.
      rewrite list_lookup_insert_eq in Hfe1 by by eapply lookup_lt_Some. by injection Hfe1 as <-.
    - apply bind_Some in Heq as (fx & _ & Heq). apply bind_Some in Heq as (fs & _ & [= <-]).
      cbn in Hfe1. split; [done|congruence]. }
  destruct Hkeep as [Hk1 Hk2]. rewrite Heq. cbn [mbind option_bind].
  destruct (dx_filter d1 !! xi) as [f1|] eqn:Hf1.
  2: { specialize (Hsame xi). rewrite Hf1 in Hsame. change (dx_filter d0) with (dx_filter d) in Hsame.
       by rewrite Hf in Hsame. }
  cbn [mbind option_bind]. do 2 eexists. split; [done|].
  pose proof (linked_NoDup _ _ _ Hlk) as Hnd.
  split; [done|by cbn; rewrite Hk1| |].
  - intros x g. cbn. destruct (decide (x = xi)) as [->|Hne].
    + rewrite list_lookup_insert_eq by by eapply lookup_lt_Some. intros [= <-].
      destruct (same_but_next_Some d0 d1 xi f1 (Hsame xi) Hf1) as (g & Hg & _ & _ & Hr).
      exact (Hr (Hraw xi g Hg)).
    + rewrite list_lookup_insert_ne by done. intros Hg1.
      destruct (same_but_next_Some d0 d1 x g (Hsame x) Hg1) as (g0 & Hg & _ & _ & Hr).
      exact (Hr (Hraw x g0 Hg)).
  - intros fj k. destruct (decide (fj = fi)) as [->|Hne].
    + rewrite lookup_insert_eq. intros [= <-]. exists feed1. cbn. split; [done|].
      split; [congruence|]. split; [by apply linked_state|].
      intros x [Hx Hxne]%elem_of_list_del; [|done]. rewrite list_lookup_insert_ne by done.
      destruct (Hin x Hx) as (g & Hg & Hgf & Hgs). specialize (Hsame x).
      destruct (dx_filter d1 !! x) as [g1|] eqn:Hg1.
      2: { change (dx_filter d0) with (dx_filter d) in Hsame. by rewrite Hg in Hsame. }
      destruct (same_but_next_Some d0 d1 x g1) as (g0 & Hg0 & E1 & E2 & _); [by rewrite Hg1|done|].
      change (dx_filter d0) with (dx_filter d) in Hg0. exists g1. split_and!; [done|congruence..].
    + rewrite lookup_insert_ne by done. intros Hk.
      assert (Hnotin : forall x, x ∈ k -> x ∉ l).
      { intros x Hx Hx'. apply Hne. by eapply (chains_disjoint d fj k fi l x); [apply Hc..| |]. }
      eapply (chain_frame d); [by apply Hc| |cbn; by apply Hother].
      intros x Hx. cbn. rewrite list_lookup_insert_ne by (intros ->; by apply (Hnotin x)).
      by apply Hout, Hnotin.
Qed.

Lemma release_section_ok d ch fi l :
  chains_ok d ch -> ch !! fi = Some l ->
  exists d' r feed, dvbdmx_release_section_feed fi d = Some (d', r) /\
    chains_ok d' (delete fi ch) /\ dx_feed d' !! fi = Some feed /\
    linked (dx_filter d') (feed_filter feed) l.
Proof.
  intros Hco Hl. pose proof Hco as [Hm Hs Hraw Hc].
  destruct (Hc fi l Hl) as (feed & Hf & Hst & Hlk & _).
  unfold dvbdmx_release_section_feed, mutex_lock. rewrite Hm. cbn [mbind option_bind].
  change (dx_feed (set_dx_mutex true d)) with (dx_feed d). rewrite Hf. cbn [mbind option_bind].
  rewrite (proj2 (Z.eqb_neq _ _)) by done.
  set (d1 := dvb_demux_feed_del fi (set_dx_mutex true d)).
  assert (dx_feed d1 = dx_feed d /\ dx_filter d1 = dx_filter d /\ has_stop_feed d1 = has_stop_feed d)
    as (E1 & E2 & E3) by (unfold d1, dvb_demux_feed_del; by case_match).
  do 3 eexists. split; [done|]. split; [|split].
  - assert (Hco' : chains_ok d (delete fi ch)).
    { split; try done. intros fj k [_ Hk]%lookup_delete_Some. by apply Hc. }
    eapply (chains_put_feed d _ (delete fi ch) fi feed); [done|done| | |done|cbn; by rewrite ?E3|
      done|cbn; by rewrite E1]; [done|right]. apply lookup_delete_eq.
  - cbn. rewrite E1. apply list_lookup_insert_eq. by eapply lookup_lt_Some.
  - cbn. by rewrite E2.
Qed.

Lemma alloc_section_ok intr d ch :
  chains_ok d ch ->
  exists d' r o, dvbdmx_allocate_section_feed intr d = Some (d', r, o) /\
    match o with
    | None => r < 0 /\ chains_ok d' ch
    | Some fi => r = 0 /\ ch !! fi = None /\ chains_ok d' (<[fi := []]> ch)
    end.
Proof.
  intros Hco. pose proof Hco as [Hm Hs Hraw Hc].
  unfold dvbdmx_allocate_section_feed, mutex_lock. destruct intr; [do 3 eexists; by split|].
  rewrite Hm. cbn [mbind option_bind]. unfold dvb_dmx_feed_alloc.
  change (dx_feed (set_dx_mutex true d)) with (dx_feed d).
  destruct (first_free feed_state (dx_feed d) 0) as [fi|] eqn:Hfree.
  2: { do 3 eexists. split; [done|]. split; [done|]. by eapply (chains_same d). }
  apply first_free_spec in Hfree as (_ & x & Hx & Hst). rewrite Nat.sub_0_r in Hx.
  cbn [dx_feed set_dx_feed]. rewrite list_lookup_alter_eq, Hx. cbn [fmap option_fmap option_map mbind option_bind].
  do 3 eexists. split; [done|]. split; [done|].
  assert (Hnone : ch !! fi = None).
  { destruct (ch !! fi) as [l|] eqn:Hl; [|done]. destruct (Hc fi l Hl) as (g & Hg & Hgs & _). congruence. }
  split; [done|]. split; [done|done|done|]. intros fj k Hk.
  assert (Hlt : (fi < length (alter (set_feed_state DMX_STATE_ALLOCATED) fi (dx_feed d)))%nat).
  { rewrite length_alter. by eapply lookup_lt_Some. }
  apply lookup_insert_Some in Hk as [[<- <-]|[Hne Hk]].
  - eexists. cbn. rewrite list_lookup_insert_eq by done. split_and!; try done.
    intros y Hy. by apply not_elem_of_nil in Hy.
  - eapply (chain_frame d); [by apply Hc|done|]. cbn. rewrite list_lookup_insert_ne by done.
    by apply list_lookup_alter_ne.
Qed.

Lemma set_section_ok intr d ch fi l p size chk :
  chains_ok d ch -> ch !! fi = Some l ->
  exists d' r, dmx_section_feed_set intr fi p size chk d = Some (d', r) /\ chains_ok d' ch.
Proof.
  intros Hco Hl. pose proof Hco as [Hm Hs Hraw Hc].
  destruct (Hc fi l Hl) as (feed & Hf & Hst & _).
  unfold dmx_section_feed_set, mutex_lock. case_match; [eauto|]. destruct intr; [eauto|].
  rewrite Hm. cbn [mbind option_bind]. change (dx_feed (set_dx_mutex true d)) with (dx_feed d).
  rewrite Hf. cbn [mbind option_bind]. set (d1 := dvb_demux_feed_add fi (set_dx_mutex true d)).
  assert (dx_feed d1 = dx_feed d /\ dx_filter d1 = dx_filter d /\ has_stop_feed d1 = has_stop_feed d)
    as (E1 & E2 & E3) by (unfold d1, dvb_demux_feed_add; by case_match).
  do 2 eexists. split; [done|].
  eapply (chains_put_feed d _ ch fi feed); [done|done| | |done|cbn; by rewrite ?E3|
    cbn; by rewrite ?E2|cbn; by rewrite E1]; [done|left]. done.
Qed.

Lemma alloc_filter_ok intr d ch fi l :
  chains_ok d ch -> ch !! fi = Some l ->
  exists d' r o, dmx_section_feed_allocate_filter intr fi d = Some (d', r, o) /\
    match o with
    | None => r < 0 /\ chains_ok d' ch
    | Some xi => r = 0 /\ (forall fj k, ch !! fj = Some k -> xi ∉ k) /\
                 chains_ok d' (<[fi := xi :: l]> ch)
    end.
Proof.
  intros Hco Hl. pose proof Hco as [Hm Hs Hraw Hc].
  destruct (Hc fi l Hl) as (feed & Hf & Hst & Hlk & Hin).
  unfold dmx_section_feed_allocate_filter, mutex_lock. destruct intr; [do 3 eexists; by split|].
  rewrite Hm. cbn [mbind option_bind]. unfold dvb_dmx_filter_alloc.
  change (dx_filter (set_dx_mutex true d)) with (dx_filter d).
  destruct (first_free filter_state (dx_filter d) 0) as [xi|] eqn:Hfree.
  2: { do 3 eexists. split; [done|]. split; [done|]. by eapply (chains_same d). }
  apply first_free_spec in Hfree as (_ & x & Hx & Hxs). rewrite Nat.sub_0_r in Hx.
  cbn [dx_feed dx_filter set_dx_filter set_dx_mutex]. rewrite Hf. cbn [mbind option_bind].
  rewrite list_lookup_alter_eq, Hx. cbn [fmap option_fmap option_map mbind option_bind].
  do 3 eexists. split; [done|]. split; [done|].
  assert (Hnew : forall fj k, ch !! fj = Some k -> xi ∉ k).
  { intros fj k Hk Hxi. destruct (Hc fj k Hk) as (_ & _ & _ & _ & Hin').
    destruct (Hin' xi Hxi) as (g & Hg & _ & Hgs). congruence. }
  split; [done|].
  assert (Hlt : (xi < length (alter (set_filter_state DMX_STATE_ALLOCATED) xi (dx_filter d)))%nat).
  { rewrite length_alter. by eapply lookup_lt_Some. }
  assert (Hold : forall y f', y <> xi ->
    <[xi := f']> (alter (set_filter_state DMX_STATE_ALLOCATED) xi (dx_filter d)) !! y = dx_filter d !! y).
  { intros y f' Hy. rewrite list_lookup_insert_ne by done. by apply list_lookup_alter_ne. }
  split; [done|done| |].
  - intros y g. cbn. destruct (decide (y = xi)) as [->|Hne].
    + rewrite list_lookup_insert_eq by done. intros [= <-]. exact (Hraw xi x Hx).
    + rewrite Hold by done. apply Hraw.
  - intros fj k [[<- <-]|[Hne Hk]]%lookup_insert_Some.
    + eexists. cbn. rewrite list_lookup_insert_eq by by eapply lookup_lt_Some.
      split; [done|]. split; [done|]. split.
      * split; [done|]. eexists. rewrite list_lookup_insert_eq by done. split; [done|].
        split; [apply (Hraw xi x Hx)|]. cbn. eapply linked_ext; [|exact Hlk].
        intros y Hy. apply Hold. intros ->. by apply (Hnew fi l).
      * intros y [->|Hy]%elem_of_cons.
        -- rewrite list_lookup_insert_eq by done. by eexists.
        -- rewrite Hold by (intros ->; by apply (Hnew fi l)). by apply Hin.
    + eapply (chain_frame d); [by apply Hc| |].
      * intros y Hy. cbn. apply Hold. intros ->. by apply (Hnew fj k).
      * cbn. by rewrite list_lookup_insert_ne.
Qed.

(** The client fills the arrays of a filter. *)
Lemma put_filter_ok d ch xi f f' :
  chains_ok d ch -> dx_filter d !! xi = Some f -> raw_filter_ok f' ->
  next f' = next f -> filter_feed f' = filter_feed f -> filter_state f' = filter_state f ->
  chains_ok (put_filter xi f' d) ch.
Proof.
  intros [Hm Hs Hraw Hc] Hf Hr Hn Hff Hfs. split; [done|done| |].
  - intros y g. cbn. intros [(-> & <- & _)|[_ Hg]]%list_lookup_insert_Some; [done|]. by eapply Hraw.
  - intros fi l Hl. destruct (Hc fi l Hl) as (feed & Hfe & Hst & Hlk & Hin). exists feed.
    cbn. split; [done|]. split; [done|]. split.
    + clear -Hlk Hf Hr Hn. revert Hlk. generalize (feed_filter feed). induction l as [|y l IH]; [done|].
      intros first (-> & g & Hg & Hok & Hlk). split; [done|]. destruct (decide (y = xi)) as [->|Hne].
      * exists f'. rewrite list_lookup_insert_eq by by eapply lookup_lt_Some.
        split; [done|]. split; [apply Hr|]. rewrite Hn. apply IH. congruence.
      * exists g. rewrite list_lookup_insert_ne by done. auto.
    + intros y Hy. destruct (Hin y Hy) as (g & Hg & Hgf & Hgs). destruct (decide (y = xi)) as [->|Hne].
      * exists f'. rewrite list_lookup_insert_eq by by eapply lookup_lt_Some.
        rewrite Hf in Hg. injection Hg as <-. split_and!; [done|congruence..].
      * exists g. by rewrite list_lookup_insert_ne.
Qed.
End ops.

(** ** All feeds and filters *)

(** The client of [fi] holds a feed of type [ty]. *)
Definition held (d : dvb_demux) (ty : Z) (fi : nat) : Prop :=
  exists feed, dx_feed d !! fi = Some feed /\ feed_state feed <> DMX_STATE_FREE /\ feed_type feed = ty.

(** A TS feed holds a filter of its own; section feeds are those with a chain. *)
Definition feed_sound (d : dvb_demux) (ch : chains) (fi : nat) (feed : dvb_demux_feed) : Prop :=
  0 <= pes_type feed /\
  (feed_state feed <> DMX_STATE_FREE ->
   (feed_type feed = DMX_TYPE_SEC /\ is_Some (ch !! fi)) \/
   (feed_type feed = DMX_TYPE_TS /\ ch !! fi = None /\
    exists xi f, feed_filter feed = Some xi /\ dx_filter d !! xi = Some f /\
      filter_feed f = Some fi /\ filter_state f <> DMX_STATE_FREE)).

Record system_ok (d : dvb_demux) (ch : chains) : Prop := {
  so_chains : chains_ok d ch;
  so_wf : feeds_wf d;
  so_pes : zlen (pesfilter d) = DMX_TS_PES_OTHER /\ zlen (pids d) = DMX_TS_PES_OTHER;
  so_feed : forall fi feed, dx_feed d !! fi = Some feed -> feed_sound d ch fi feed;
}.

(** The demultiplexer is in order: the mutex is free, the list of the software filter
    holds every feed once and only feeds in use, and each filter in use is held by one feed. *)
Definition feeds_ok (d : dvb_demux) : Prop := exists ch, system_ok d ch.

(** What the clients keep to: a feed is used by who holds it, with the operations of its
    type, and a filter is released that hangs on the feed, when that is not filtering. *)
Definition op_ok (op : feed_op) (d : dvb_demux) : Prop :=
  match op with
  | OpAllocTs _ | OpAllocSec _ => True
  | OpSetTs _ fi _ _ pt _ _ => held d DMX_TYPE_TS fi /\ 0 <= pt
  | OpStartTs _ fi | OpStopTs fi | OpReleaseTs fi => held d DMX_TYPE_TS fi
  | OpAllocFilter _ fi | OpSetSec _ fi _ _ _ | OpStartSec _ fi | OpStopSec fi | OpReleaseSec fi =>
      held d DMX_TYPE_SEC fi
  | OpReleaseFilter fi xi =>
      held d DMX_TYPE_SEC fi /\
      exists feed l, dx_feed d !! fi = Some feed /\ is_filtering feed = false /\
        linked (dx_filter d) (feed_filter feed) l /\ xi ∈ l
  end.

(** Filters in use that other feeds than [fi] hold stay theirs. *)
Definition keeps_filters (fi : nat) (fs fs' : list dvb_demux_filter) : Prop :=
  forall x f, fs !! x = Some f -> filter_state f <> DMX_STATE_FREE -> filter_feed f <> Some fi ->
  exists f', fs' !! x = Some f' /\ filter_feed f' = filter_feed f /\ filter_state f' <> DMX_STATE_FREE.

Lemma keeps_refl fi fs : keeps_filters fi fs fs.
Proof. intros x f Hf Hs _. by exists f. Qed.

Lemma keeps_trans fi fs1 fs2 fs3 :
  keeps_filters fi fs1 fs2 -> keeps_filters fi fs2 fs3 -> keeps_filters fi fs1 fs3.
Proof.
  intros H1 H2 x f Hf Hs Hn. destruct (H1 x f Hf Hs Hn) as (f1 & Hf1 & E1 & Hs1).
  destruct (H2 x f1 Hf1 Hs1) as (f2 & Hf2 & E2 & Hs2); [congruence|]. exists f2. split_and!; congruence.
Qed.

Lemma keeps_put fi fs xi f f' :
  fs !! xi = Some f -> (filter_state f = DMX_STATE_FREE \/ filter_feed f = Some fi) ->
  keeps_filters fi fs (<[xi := f']> fs).
Proof.
  intros Hf Ho x g Hg Hs Hn. destruct (decide (x = xi)) as [->|].
  - destruct Ho; simplify_eq.
  - exists g. by rewrite list_lookup_insert_ne.
Qed.

(** A change of a filter that leaves alone who holds it. *)
Lemma keeps_same fi fs xi f f' :
  fs !! xi = Some f -> filter_feed f' = filter_feed f -> filter_state f' = filter_state f ->
  keeps_filters fi fs (<[xi := f']> fs).
Proof.
  intros Hf E1 E2 x g Hg Hs Hn. destruct (decide (x = xi)) as [->|].
  - exists f'. rewrite list_lookup_insert_eq by by eapply lookup_lt_Some.
    simplify_eq. split_and!; congruence.
  - exists g. by rewrite list_lookup_insert_ne.
Qed.

Lemma prepare_bytes_keeps n i f dq f' dq' :
  prepare_bytes n i f dq = Some (f', dq') ->
  filter_feed f' = filter_feed f /\ filter_state f' = filter_state f.
Proof.
  revert i f dq. induction n as [|n IH]; intros i f dq H; [by injection H as <- _|].
  cbn [prepare_bytes] in H. apply bind_Some in H as (m1 & _ & H). apply bind_Some in H as (m2 & _ & H).
  apply bind_Some in H as (m3 & _ & H). apply bind_Some in H as (m4 & _ & H). exact (IH _ _ _ H).
Qed.

Lemma prepare_chain_keeps fi fuel xi fs fs' :
  prepare_chain fuel xi fs = Some fs' -> keeps_filters fi fs fs'.
Proof.
  revert xi fs. induction fuel as [|fuel IH]; intros xi fs H; [done|]. cbn [prepare_chain] in H.
  apply bind_Some in H as (f & Hf & H). apply bind_Some in H as (f1 & Hp & H).
  unfold prepare_filter in Hp. apply bind_Some in Hp as ([f2 dq] & Hb & [= <-]).
  apply prepare_bytes_keeps in Hb as [E1 E2].
  eapply keeps_trans; [by apply (keeps_same fi fs xi f (set_doneq (if truthy dq then 1 else 0) f2))|].
  destruct (next _); [by eapply IH|injection H as <-; apply keeps_refl].
Qed.

Lemma unlink_filter_keeps fi fuel fx xi fs fs' :
  unlink_filter fuel fx xi fs = Some fs' -> keeps_filters fi fs fs'.
Proof.
  revert fx. induction fuel as [|fuel IH]; intros fx H; [done|]. cbn [unlink_filter] in H.
  apply bind_Some in H as (f & Hf & H). apply bind_Some in H as (nx & _ & H).
  case_match; [|by eapply IH]. apply bind_Some in H as (g & _ & [= <-]). by eapply keeps_same.
Qed.

(** An operation on the feed [fi]. *)
Record touches (fi : nat) (d d' : dvb_demux) (feed' : dvb_demux_feed) : Prop := {
  tc_feed : dx_feed d' = <[fi := feed']> (dx_feed d);
  tc_filter : keeps_filters fi (dx_filter d) (dx_filter d');
  tc_pes : zlen (pesfilter d') = zlen (pesfilter d) /\ zlen (pids d') = zlen (pids d);
}.

Lemma system_step d d' ch ch' fi feed' :
  system_ok d ch -> touches fi d d' feed' -> feeds_wf d' -> chains_ok d' ch' ->
  (forall fj, fj <> fi -> ch' !! fj = ch !! fj) ->
  feed_sound d' ch' fi feed' -> system_ok d' ch'.
Proof.
  intros [_ _ [Hp1 Hp2] Hs] [Hfe Hk [E1 E2]] Hw Hc Hch Hf. split; [done|done|split; congruence|].
  intros fj feed. rewrite Hfe. intros [(-> & <- & _)|[Hne Hfj]]%list_lookup_insert_Some; [done|].
  destruct (Hs fj feed Hfj) as [Hp Hu]. split; [done|]. intros Hst. rewrite Hch by done.
  destruct (Hu Hst) as [?|(Ht & Hn & xi & f & Hx & Hl & Hff & Hfs)]; [by left|right].
  destruct (Hk xi f Hl Hfs) as (f' & Hf' & E & Hs'); [congruence|].
  split; [done|]. split; [done|]. exists xi, f'. split_and!; congruence.
Qed.

Lemma unlink_keeps_owner fuel fx xi fs fs' x f :
  unlink_filter fuel fx xi fs = Some fs' -> fs !! x = Some f ->
  exists f', fs' !! x = Some f' /\ filter_feed f' = filter_feed f.
Proof.
  revert fx. induction fuel as [|fuel IH]; intros fx H Hf; [done|]. cbn [unlink_filter] in H.
  apply bind_Some in H as (g & Hg & H). apply bind_Some in H as (nx & _ & H).
  case_match; [|by eapply IH]. apply bind_Some in H as (h & _ & [= <-]).
  destruct (decide (x = fx)) as [->|]; [|exists f; by rewrite list_lookup_insert_ne].
  eexists. rewrite list_lookup_insert_eq by by eapply lookup_lt_Some. split; [done|]. cbn. congruence.
Qed.

Section feeds.
Context {E : DemuxEnv}.

Lemma touches_same fi d d' feed :
  dx_feed d !! fi = Some feed -> dx_feed d' = dx_feed d -> dx_filter d' = dx_filter d ->
  pesfilter d' = pesfilter d -> pids d' = pids d -> touches fi d d' feed.
Proof.
  intros Hf E1 E2 E3 E4. split; [by rewrite E1, list_insert_id|rewrite E2; apply keeps_refl|by rewrite E3, E4].
Qed.

Lemma touches_put fi d d' feed' :
  dx_feed d' = <[fi := feed']> (dx_feed d) -> dx_filter d' = dx_filter d ->
  pesfilter d' = pesfilter d -> pids d' = pids d -> touches fi d d' feed'.
Proof. intros E1 E2 E3 E4. split; [done|rewrite E2; apply keeps_refl|by rewrite E3, E4]. Qed.

(** The operations on a section feed touch it and its filters only. *)
Definition section_op (op : feed_op) (fi : nat) : Prop :=
  match op with
  | OpAllocFilter _ fj | OpSetSec _ fj _ _ _ | OpStartSec _ fj | OpStopSec fj | OpReleaseFilter fj _ => fj = fi
  | _ => False
  end.

Lemma feed_add_same fi d :
  dx_feed (dvb_demux_feed_add fi d) = dx_feed d /\ dx_filter (dvb_demux_feed_add fi d) = dx_filter d /\
  pesfilter (dvb_demux_feed_add fi d) = pesfilter d /\ pids (dvb_demux_feed_add fi d) = pids d /\
  has_stop_feed (dvb_demux_feed_add fi d) = has_stop_feed d.
Proof. unfold dvb_demux_feed_add. by case_match. Qed.

Lemma feed_del_same fi d :
  dx_feed (dvb_demux_feed_del fi d) = dx_feed d /\ dx_filter (dvb_demux_feed_del fi d) = dx_filter d /\
  pesfilter (dvb_demux_feed_del fi d) = pesfilter d /\ pids (dvb_demux_feed_del fi d) = pids d /\
  has_stop_feed (dvb_demux_feed_del fi d) = has_stop_feed d.
Proof. unfold dvb_demux_feed_del. by case_match. Qed.

(** A write of the one feed, or nothing. *)
Ltac touch feed := first
  [exists feed; split; [by apply touches_same|done]
  |eexists; split; [by apply touches_put|done]].

Lemma set_section_touches intr fi p size chk d d' feed :
  dx_mutex d = false -> dx_feed d !! fi = Some feed ->
  run_op (OpSetSec intr fi p size chk) d = Some d' ->
  exists feed', touches fi d d' feed' /\ feed_type feed' = feed_type feed /\ pes_type feed' = pes_type feed.
Proof.
  intros Hm Hf H. cbn [run_op] in H. apply bind_Some in H as ([d1 r] & H & [= <-]).
  unfold dmx_section_feed_set in H. case_match; [injection H as <- _; touch feed|].
  destruct intr; [injection H as <- _; touch feed|].
  rewrite mutex_lock_free in H by done. cbn [mbind option_bind dx_feed set_dx_mutex] in H.
  rewrite Hf in H. cbn [mbind option_bind] in H. injection H as <- _.
  destruct (feed_add_same fi (set_dx_mutex true d)) as (E1 & E2 & E3 & E4 & _).
  eexists. split; [apply touches_put; cbn; [by rewrite E1|done..]|done].
Qed.

Lemma start_section_touches intr fi d d' feed :
  dx_mutex d = false -> dx_feed d !! fi = Some feed -> run_op (OpStartSec intr fi) d = Some d' ->
  exists feed', touches fi d d' feed' /\ feed_type feed' = feed_type feed /\ pes_type feed' = pes_type feed.
Proof.
  intros Hm Hf H. cbn [run_op] in H. apply bind_Some in H as ([d1 r] & H & [= <-]).
  unfold dmx_section_feed_start_filtering in H. destruct intr; [injection H as <- _; touch feed|].
  rewrite mutex_lock_free in H by done. cbn [mbind option_bind dx_feed set_dx_mutex] in H.
  rewrite Hf in H. cbn [mbind option_bind] in H.
  destruct (is_filtering feed); [injection H as <- _; touch feed|].
  destruct (negb _); [injection H as <- _; touch feed|].
  set (f1 := set_seclen 0 _) in H. set (d1' := put_feed fi f1 _) in H.
  destruct (negb _); [injection H as <- _; exists f1; split; [by apply touches_put|done]|].
  apply bind_Some in H as (d2 & H2 & H).
  assert (touches fi d d2 f1) as Ht.
  { unfold prepare_secfilters in H2. destruct (feed_filter f1) as [xi|].
    - apply bind_Some in H2 as (fs' & Hp & [= <-]). split; [done|by eapply prepare_chain_keeps|done].
    - injection H2 as <-. by apply touches_put. }
  destruct Ht as [Ht1 Ht2 Ht3]. cbn beta iota zeta delta [call_start_feed] in H.
  destruct (_ <? 0); injection H as <- _.
  - exists f1. by split.
  - eexists. split; [split; [cbn; rewrite Ht1; apply list_insert_insert_eq|done|done]|done].
Qed.

Lemma stop_section_touches fi d d' feed :
  dx_mutex d = false -> dx_feed d !! fi = Some feed -> run_op (OpStopSec fi) d = Some d' ->
  exists feed', touches fi d d' feed' /\ feed_type feed' = feed_type feed /\ pes_type feed' = pes_type feed.
Proof.
  intros Hm Hf H. cbn [run_op] in H. apply bind_Some in H as ([d1 r] & H & [= <-]).
  unfold dmx_section_feed_stop_filtering in H. rewrite mutex_lock_free in H by done.
  cbn [mbind option_bind] in H. destruct (negb _); [injection H as <- _; touch feed|].
  cbn beta iota zeta delta [call_stop_feed] in H. cbn [dx_feed set_dx_log set_dx_mutex] in H.
  rewrite Hf in H. cbn [mbind option_bind] in H. injection H as <- _.
  eexists. split; [by apply touches_put|done].
Qed.

(** Taking a free filter. *)
Lemma filter_alloc_free d d' xi :
  dvb_dmx_filter_alloc d = (d', Some xi) ->
  exists f, dx_filter d !! xi = Some f /\ filter_state f = DMX_STATE_FREE /\
    d' = set_dx_filter (<[xi := set_filter_state DMX_STATE_ALLOCATED f]> (dx_filter d)) d.
Proof.
  unfold dvb_dmx_filter_alloc. destruct (first_free _ _ _) as [i|] eqn:Hi; [|done]. intros [= <- ->].
  apply first_free_spec in Hi as (_ & f & Hf & Hs). rewrite Nat.sub_0_r in Hf. exists f. split_and!; [done|done|].
  f_equal. apply list_eq. intros i. destruct (decide (i = xi)) as [->|].
  - by rewrite list_lookup_alter_eq, Hf, list_lookup_insert_eq by by eapply lookup_lt_Some.
  - by rewrite list_lookup_alter_ne, list_lookup_insert_ne.
Qed.

Lemma alloc_filter_touches intr fi d d' feed :
  dx_mutex d = false -> dx_feed d !! fi = Some feed -> run_op (OpAllocFilter intr fi) d = Some d' ->
  exists feed', touches fi d d' feed' /\ feed_type feed' = feed_type feed /\ pes_type feed' = pes_type feed.
Proof.
  intros Hm Hf H. cbn [run_op] in H. apply bind_Some in H as ([[d1 r] o] & H & [= <-]).
  unfold dmx_section_feed_allocate_filter in H. destruct intr; [injection H as <- _ _; touch feed|].
  rewrite mutex_lock_free in H by done. cbn [mbind option_bind] in H.
  destruct (dvb_dmx_filter_alloc _) as [d2 [xi|]] eqn:Ha.
  - apply filter_alloc_free in Ha as (f & Hx & Hs & ->).
    cbn [dx_feed dx_filter set_dx_filter set_dx_mutex] in H. rewrite Hf in H. cbn [mbind option_bind] in H.
    apply bind_Some in H as (f2 & _ & H). injection H as <- _ _.
    eexists. split; [split; [reflexivity| |done]|done]. cbn. rewrite list_insert_insert_eq.
    eapply keeps_put; [done|by left].
  - injection H as <- _ _. unfold dvb_dmx_filter_alloc in Ha. case_match; [done|]. injection Ha as <-. touch feed.
Qed.

Lemma release_filter_touches fi xi d d' feed :
  dx_mutex d = false -> dx_feed d !! fi = Some feed -> is_filtering feed = false ->
  run_op (OpReleaseFilter fi xi) d = Some d' ->
  exists feed', touches fi d d' feed' /\ feed_type feed' = feed_type feed /\ pes_type feed' = pes_type feed.
Proof.
  intros Hm Hf Hfl H. cbn [run_op] in H. apply bind_Some in H as ([d1 r] & H & [= <-]).
  unfold dmx_section_feed_release_filter in H. rewrite mutex_lock_free in H by done.
  cbn [mbind option_bind dx_filter dx_feed set_dx_mutex] in H. apply bind_Some in H as (x & Hx & H).
  case_bool_decide as Hff; cbn [negb] in H; [|injection H as <- _; touch feed].
  rewrite Hf in H. cbn [mbind option_bind] in H. rewrite Hfl in H. cbn [mbind option_bind dx_feed set_dx_mutex] in H.
  rewrite Hf in H. cbn [mbind option_bind] in H.
  apply bind_Some in H as (d2 & H2 & H). apply bind_Some in H as (y & Hy & H). injection H as <- _.
  assert (filter_feed y = Some fi /\ exists feed', touches fi d d2 feed' /\
    feed_type feed' = feed_type feed /\ pes_type feed' = pes_type feed) as (Hyf & feed' & [T1 T2 T3] & Ht).
  { case_bool_decide.
    - apply bind_Some in H2 as (z & _ & [= <-]). cbn in Hy. split; [congruence|].
      eexists. split; [by apply touches_put|done].
    - apply bind_Some in H2 as (fx & _ & H2). apply bind_Some in H2 as (fs' & Hu & [= <-]).
      pose proof (unlink_keeps_owner _ _ _ _ _ xi x Hu Hx) as (y' & Hy' & Ho). cbn in Hy.
      split; [congruence|]. exists feed. split; [|done].
      split; [cbn; by rewrite list_insert_id|by eapply unlink_filter_keeps|done]. }
  exists feed'. split; [|done]. split; [done| |done].
  eapply keeps_trans; [done|]. cbn. eapply keeps_put; [done|by right].
Qed.

(** *** Section operations *)

Lemma held_in_use d ty fi : held d ty fi -> in_use d fi.
Proof. intros (feed & Hf & Hs & _). by exists feed. Qed.

Lemma op_in_use op d fi : op_ok op d -> op_feed op = Some fi -> in_use d fi.
Proof.
  intros Hop Hfi. destruct op; cbn in Hop, Hfi; injection Hfi as <- || done;
    repeat match goal with H : _ /\ _ |- _ => destruct H end; by eapply held_in_use.
Qed.

Lemma held_section d ch fi :
  system_ok d ch -> held d DMX_TYPE_SEC fi ->
  exists feed l, dx_feed d !! fi = Some feed /\ feed_type feed = DMX_TYPE_SEC /\ 0 <= pes_type feed /\ ch !! fi = Some l.
Proof.
  intros Hs (feed & Hf & Hst & Ht). destruct (so_feed _ _ Hs fi feed Hf) as [Hp Hu].
  destruct (Hu Hst) as [[_ [l Hl]]|[Ht' _]]; [by exists feed, l|by rewrite Ht in Ht'].
Qed.

Lemma section_kept op fi d d' ch ch' l feed :
  system_ok d ch -> op_ok op d -> op_feed op = Some fi -> run_op op d = Some d' ->
  dx_feed d !! fi = Some feed -> feed_type feed = DMX_TYPE_SEC -> 0 <= pes_type feed ->
  (exists feed', touches fi d d' feed' /\ feed_type feed' = feed_type feed /\ pes_type feed' = pes_type feed) ->
  chains_ok d' ch' -> ch' = <[fi := l]> ch -> feeds_ok d'.
Proof.
  intros Hs Hop Hfi Hr Hf Ht Hp (feed' & Htc & E1 & E2) Hc ->. exists (<[fi := l]> ch).
  eapply (system_step d d' ch); [done|done| |done| |].
  - eapply run_op_wf; [apply Hs| |done]. intros fj Hfj. by eapply op_in_use.
  - intros fj Hne. by rewrite lookup_insert_ne.
  - split; [congruence|]. intros _. left. split; [congruence|]. rewrite lookup_insert_eq. by eexists.
Qed.

Lemma section_op_returns op fi d ch :
  system_ok d ch -> section_op op fi -> op_ok op d ->
  exists d', run_op op d = Some d' /\ feeds_ok d'.
Proof.
  intros Hs Hop Hok. pose proof (so_chains _ _ Hs) as Hc. pose proof (co_mutex _ _ Hc) as Hm.
  assert (op_feed op = Some fi) as Hfi by (destruct op; cbn in Hop |- *; by subst).
  assert (held d DMX_TYPE_SEC fi) as Hh by (destruct op; cbn in Hop, Hok; subst; first [done|apply Hok]).
  destruct (held_section d ch fi Hs Hh) as (feed & l & Hf & Ht & Hp & Hl).
  assert (Hgo : forall d' ch' k, run_op op d = Some d' -> chains_ok d' ch' -> ch' = <[fi := k]> ch ->
    (exists feed', touches fi d d' feed' /\ feed_type feed' = feed_type feed /\ pes_type feed' = pes_type feed) ->
    exists d', run_op op d = Some d' /\ feeds_ok d').
  { intros d' ch' k Hr Hc' Hch Htc. exists d'. split; [done|].
    exact (section_kept op fi d d' ch ch' k feed Hs Hok Hfi Hr Hf Ht Hp Htc Hc' Hch). }
  destruct op; cbn in Hop; try done; subst.
  - destruct (alloc_filter_ok intr d ch fi l Hc Hl) as (d' & r & o & Heq & Ho).
    assert (run_op (OpAllocFilter intr fi) d = Some d') as Hr by (cbn; by rewrite Heq).
    pose proof (alloc_filter_touches intr fi d d' feed Hm Hf Hr) as Htc.
    destruct o as [xi|]; [destruct Ho as (_ & _ & Ho); by eapply Hgo|destruct Ho as [_ Ho]].
    eapply (Hgo _ ch l); [done|done|by rewrite insert_id|done].
  - destruct (set_section_ok intr d ch fi l p size chk Hc Hl) as (d' & r & Heq & Ho).
    assert (run_op (OpSetSec intr fi p size chk) d = Some d') as Hr by (cbn; by rewrite Heq).
    eapply (Hgo _ ch l); [done|done|by rewrite insert_id|by eapply set_section_touches].
  - destruct (start_section_ok intr d ch fi l Hc Hl) as (d' & r & Heq & Ho).
    assert (run_op (OpStartSec intr fi) d = Some d') as Hr by (cbn; by rewrite Heq).
    eapply (Hgo _ ch l); [done|done|by rewrite insert_id|by eapply start_section_touches].
  - destruct (stop_section_ok d ch fi l Hc Hl) as (d' & r & f' & Heq & Ho & _).
    assert (run_op (OpStopSec fi) d = Some d') as Hr by (cbn; by rewrite Heq).
    eapply (Hgo _ ch l); [done|done|by rewrite insert_id|by eapply stop_section_touches].
  - destruct Hok as (_ & feed1 & l1 & Hf1 & Hfl & Hlk & Hxi). rewrite Hf in Hf1. injection Hf1 as <-.
    assert (l1 = l) as ->.
    { destruct (co_chain _ _ Hc fi l Hl) as (feed2 & Hf2 & _ & Hlk2 & _). rewrite Hf in Hf2. injection Hf2 as <-.
      by eapply linked_functional. }
    destruct (release_filter_ok d ch fi l xi feed Hc Hl Hxi Hf Hfl) as (d' & r & Heq & Ho).
    assert (run_op (OpReleaseFilter fi xi) d = Some d') as Hr by (cbn; by rewrite Heq).
    eapply Hgo; [done|done|done|by eapply release_filter_touches].
Qed.

(** *** The release of a section feed, and allocation *)

Lemma release_section_returns d ch fi :
  system_ok d ch -> held d DMX_TYPE_SEC fi ->
  exists d', run_op (OpReleaseSec fi) d = Some d' /\ feeds_ok d'.
Proof.
  intros Hs Hh. pose proof (so_chains _ _ Hs) as Hc.
  destruct (held_section d ch fi Hs Hh) as (feed & l & Hf & Ht & Hp & Hl).
  destruct (release_section_ok d ch fi l Hc Hl) as (d' & r & _ & Heq & Hc' & _).
  assert (run_op (OpReleaseSec fi) d = Some d') as Hr by (cbn; by rewrite Heq).
  exists d'. split; [done|]. exists (delete fi ch).
  assert (exists feed', touches fi d d' feed' /\ feed_state feed' = DMX_STATE_FREE /\ pes_type feed' = pes_type feed)
    as (feed' & Htc & Hst & Hp').
  { unfold dvbdmx_release_section_feed in Heq. rewrite mutex_lock_free in Heq by apply Hc.
    cbn [mbind option_bind dx_feed set_dx_mutex] in Heq. rewrite Hf in Heq. cbn [mbind option_bind] in Heq.
    destruct Hh as (feed0 & Hf0 & Hst & _). rewrite Hf in Hf0. injection Hf0 as <-.
    rewrite (proj2 (Z.eqb_neq _ _)) in Heq by done. injection Heq as <- _.
    destruct (feed_del_same fi (set_dx_mutex true d)) as (E1 & E2 & E3 & E4 & _).
    eexists. split; [apply touches_put; cbn; [by rewrite E1|done..]|done]. }
  eapply (system_step d d' ch _ fi feed'); [done|done| |done| |].
  - eapply run_op_wf; [apply Hs| |done]. intros fj [= <-]. by eapply held_in_use.
  - intros fj Hne. by rewrite lookup_delete_ne.
  - split; [lia|done].
Qed.

Lemma system_same d d' ch :
  system_ok d ch -> feeds_wf d' -> dx_mutex d' = false -> has_stop_feed d' = has_stop_feed d ->
  dx_feed d' = dx_feed d -> dx_filter d' = dx_filter d -> pesfilter d' = pesfilter d -> pids d' = pids d ->
  feeds_ok d'.
Proof.
  intros [Hc _ Hp Hs] Hw Hm Hst E1 E2 E3 E4. exists ch. split; [by eapply chains_same|done|by rewrite E3, E4|].
  intros fi feed. rewrite E1. intros Hf. unfold feed_sound. rewrite E2. by apply Hs.
Qed.

(** Taking a free feed. *)
Lemma feed_alloc_free d d' fi :
  dvb_dmx_feed_alloc d = (d', Some fi) ->
  exists f, dx_feed d !! fi = Some f /\ feed_state f = DMX_STATE_FREE /\
    d' = set_dx_feed (<[fi := set_feed_state DMX_STATE_ALLOCATED f]> (dx_feed d)) d.
Proof.
  unfold dvb_dmx_feed_alloc. destruct (first_free _ _ _) as [i|] eqn:Hi; [|done]. intros [= <- ->].
  apply first_free_spec in Hi as (_ & f & Hf & Hs). rewrite Nat.sub_0_r in Hf. exists f. split_and!; [done|done|].
  f_equal. apply list_eq. intros i. destruct (decide (i = fi)) as [->|].
  - by rewrite list_lookup_alter_eq, Hf, list_lookup_insert_eq by by eapply lookup_lt_Some.
  - by rewrite list_lookup_alter_ne, list_lookup_insert_ne.
Qed.

Lemma free_not_chained d ch fi feed :
  system_ok d ch -> dx_feed d !! fi = Some feed -> feed_state feed = DMX_STATE_FREE -> ch !! fi = None.
Proof.
  intros Hs Hf Hst. destruct (ch !! fi) as [l|] eqn:Hl; [|done].
  destruct (co_chain _ _ (so_chains _ _ Hs) fi l Hl) as (g & Hg & Hgs & _). congruence.
Qed.

Lemma alloc_section_returns intr d ch :
  system_ok d ch -> exists d', run_op (OpAllocSec intr) d = Some d' /\ feeds_ok d'.
Proof.
  intros Hs. pose proof (so_chains _ _ Hs) as Hc.
  destruct (alloc_section_ok intr d ch Hc) as (d' & r & o & Heq & Ho).
  assert (run_op (OpAllocSec intr) d = Some d') as Hr by (cbn; by rewrite Heq).
  assert (feeds_wf d') as Hw by (apply (run_op_wf (OpAllocSec intr) d); [apply Hs|done|done]).
  exists d'. split; [done|]. unfold dvbdmx_allocate_section_feed in Heq.
  destruct intr; [injection Heq as <- <- <-; by exists ch|].
  rewrite mutex_lock_free in Heq by apply Hc. cbn [mbind option_bind] in Heq.
  destruct (dvb_dmx_feed_alloc _) as [d1 [fi|]] eqn:Ha.
  2: { injection Heq as <- _ _. unfold dvb_dmx_feed_alloc in Ha. destruct (first_free _ _ _); [done|]. injection Ha as <-.
       by eapply (system_same d). }
  apply feed_alloc_free in Ha as (f & Hf & Hst & ->). cbn [dx_feed set_dx_feed set_dx_mutex] in Heq, Hf.
  rewrite list_lookup_insert_eq in Heq by by eapply lookup_lt_Some. cbn [mbind option_bind] in Heq.
  injection Heq as Hd <- Ho'. subst o. destruct Ho as (_ & Hn & Hc'). exists (<[fi := []]> ch).
  eapply (system_step d d' ch _ fi); [done| |done|exact Hc'| |].
  - rewrite <- Hd. apply touches_put; [cbn; apply list_insert_insert_eq|done..].
  - intros fj Hne. by rewrite lookup_insert_ne.
  - split; [apply (so_feed _ _ Hs fi f Hf)|]. intros _. left. split; [done|].
    rewrite lookup_insert_eq. by eexists.
Qed.

(** *** Transport stream operations *)

Lemma chains_off d d' ch :
  chains_ok d ch ->
  (forall fi l, ch !! fi = Some l -> dx_feed d' !! fi = dx_feed d !! fi) ->
  (forall fi l x, ch !! fi = Some l -> x ∈ l -> dx_filter d' !! x = dx_filter d !! x) ->
  (forall x f, dx_filter d' !! x = Some f -> raw_filter_ok f) ->
  dx_mutex d' = false -> has_stop_feed d' = has_stop_feed d -> chains_ok d' ch.
Proof.
  intros [Hm Hs Hr Hc] Hfe Hx Hraw Hm' Hs'. split; [done|congruence|done|].
  intros fi l Hl. eapply chain_frame; [by apply Hc|intros; by eapply Hx|by eapply Hfe].
Qed.

(** A filter outside the chains is written. *)
Lemma raw_put (fs : list dvb_demux_filter) xi f f' :
  (forall x f, fs !! x = Some f -> raw_filter_ok f) -> fs !! xi = Some f ->
  (raw_filter_ok f -> raw_filter_ok f') ->
  forall x g, <[xi := f']> fs !! x = Some g -> raw_filter_ok g.
Proof.
  intros Hraw Hf Hok x g [(-> & <- & _)|[_ Hg]]%list_lookup_insert_Some; [|by eapply Hraw].
  apply Hok. by eapply Hraw.
Qed.

Lemma held_ts d ch fi :
  system_ok d ch -> held d DMX_TYPE_TS fi ->
  exists feed xi f, dx_feed d !! fi = Some feed /\ feed_type feed = DMX_TYPE_TS /\
    feed_state feed <> DMX_STATE_FREE /\ 0 <= pes_type feed /\ ch !! fi = None /\
    feed_filter feed = Some xi /\ dx_filter d !! xi = Some f /\ filter_feed f = Some fi /\
    filter_state f <> DMX_STATE_FREE.
Proof.
  intros Hs (feed & Hf & Hst & Ht). destruct (so_feed _ _ Hs fi feed Hf) as [Hp Hu].
  destruct (Hu Hst) as [[Ht' _]|(_ & Hn & xi & f & Hx)]; [by rewrite Ht in Ht'|].
  exists feed, xi, f. split_and!; try done; apply Hx.
Qed.

(** An operation that keeps the filters and the feed's hold on its own. *)
Lemma ts_kept op fi d d' ch feed feed' :
  system_ok d ch -> held d DMX_TYPE_TS fi -> run_op op d = Some d' -> op_feed op = Some fi ->
  dx_feed d !! fi = Some feed -> dx_feed d' = <[fi := feed']> (dx_feed d) ->
  dx_filter d' = dx_filter d -> zlen (pesfilter d') = zlen (pesfilter d) -> zlen (pids d') = zlen (pids d) ->
  dx_mutex d' = false -> has_stop_feed d' = has_stop_feed d ->
  feed_type feed' = feed_type feed -> feed_filter feed' = feed_filter feed -> 0 <= pes_type feed' ->
  feeds_ok d'.
Proof.
  intros Hs Hh Hr Hfi Hf E1 E2 E3 E4 Hm Hst Et Ef Hp.
  destruct (held_ts d ch fi Hs Hh) as (feed0 & xi & f & Hf0 & Ht & _ & _ & Hn & Hx & Hxf & Hff & Hfs).
  rewrite Hf in Hf0. injection Hf0 as <-. exists ch.
  eapply (system_step d d' ch ch fi feed'); [done| | | |done|].
  - split; [done|rewrite E2; apply keeps_refl|done].
  - eapply run_op_wf; [apply Hs| |done]. intros fj Hfj. rewrite Hfi in Hfj. injection Hfj as <-. by eapply held_in_use.
  - eapply (chains_put_feed d _ ch fi feed); [apply Hs|done|done|by right|done..].
  - split; [done|]. intros _. right. split; [congruence|]. split; [done|].
    exists xi, f. rewrite E2. split_and!; [congruence|done..].
Qed.

Lemma ts_same op fi d d' ch feed :
  system_ok d ch -> held d DMX_TYPE_TS fi -> run_op op d = Some d' -> op_feed op = Some fi ->
  dx_feed d !! fi = Some feed -> 0 <= pes_type feed -> dx_feed d' = dx_feed d ->
  dx_filter d' = dx_filter d -> zlen (pesfilter d') = zlen (pesfilter d) -> zlen (pids d') = zlen (pids d) ->
  dx_mutex d' = false -> has_stop_feed d' = has_stop_feed d -> feeds_ok d'.
Proof.
  intros Hs Hh Hr Hfi Hf Hp E1. intros. eapply (ts_kept op fi d d' ch feed feed); try done.
  by rewrite E1, list_insert_id.
Qed.

Lemma mset_defined {A} (l : list A) i v :
  0 <= i < zlen l -> exists l', mset l i v = Some l' /\ zlen l' = zlen l.
Proof.
  intros Hi. unfold mset. rewrite bool_decide_true by done. eexists. split; [done|]. apply zlen_insert.
Qed.

Lemma mget_defined {A} (l : list A) i : 0 <= i < zlen l -> exists x, l.[i] = Some x.
Proof.
  intros Hi. unfold mget. rewrite bool_decide_true by lia. apply lookup_lt_is_Some. unfold zlen in Hi. lia.
Qed.

Lemma start_ts_returns intr fi d ch :
  system_ok d ch -> held d DMX_TYPE_TS fi ->
  exists d', run_op (OpStartTs intr fi) d = Some d' /\ feeds_ok d'.
Proof.
  intros Hs Hh. destruct (held_ts d ch fi Hs Hh) as (feed & xi & f & Hf & Ht & Hst & Hp & _).
  pose proof (co_mutex _ _ (so_chains _ _ Hs)) as Hm.
  assert (forall d', run_op (OpStartTs intr fi) d = Some d' -> feeds_ok d') as Hgo.
  { intros d' Hr. pose proof Hr as H. cbn [run_op] in H. apply bind_Some in H as ([d1 r] & H & [= <-]).
    unfold dmx_ts_feed_start_filtering in H. destruct intr; [injection H as <- _; by exists ch|].
    rewrite mutex_lock_free in H by done. cbn [mbind option_bind dx_feed set_dx_mutex] in H.
    rewrite Hf in H. cbn [mbind option_bind] in H.
    destruct (_ || _); [injection H as <- _; by eapply ts_same|].
    destruct (negb _); [injection H as <- _; by eapply ts_same|].
    cbn beta iota zeta delta [call_start_feed] in H.
    destruct (_ <? 0); injection H as <- _; [by eapply ts_same|by eapply ts_kept]. }
  assert (exists d', run_op (OpStartTs intr fi) d = Some d') as [d' Hr]; [|eauto].
  cbn [run_op]. unfold dmx_ts_feed_start_filtering. destruct intr; [by eexists|].
  rewrite mutex_lock_free by done. cbn [mbind option_bind dx_feed set_dx_mutex]. rewrite Hf. cbn [mbind option_bind].
  destruct (_ || _); [by eexists|]. destruct (negb _); [by eexists|].
  cbn beta iota zeta delta [call_start_feed]. destruct (_ <? 0); by eexists.
Qed.

Lemma stop_ts_returns fi d ch :
  system_ok d ch -> held d DMX_TYPE_TS fi ->
  exists d', run_op (OpStopTs fi) d = Some d' /\ feeds_ok d'.
Proof.
  intros Hs Hh. destruct (held_ts d ch fi Hs Hh) as (feed & xi & f & Hf & Ht & Hst & Hp & _).
  pose proof (co_mutex _ _ (so_chains _ _ Hs)) as Hm.
  assert (forall d', run_op (OpStopTs fi) d = Some d' -> feeds_ok d') as Hgo.
  { intros d' Hr. pose proof Hr as H. cbn [run_op] in H. apply bind_Some in H as ([d1 r] & H & [= <-]).
    unfold dmx_ts_feed_stop_filtering in H.
    rewrite mutex_lock_free in H by done. cbn [mbind option_bind dx_feed set_dx_mutex] in H.
    rewrite Hf in H. cbn [mbind option_bind] in H.
    destruct (_ <? _); [injection H as <- _; by eapply ts_same|].
    destruct (negb _); [injection H as <- _; by eapply ts_same|].
    injection H as <- _; by eapply ts_kept. }
  assert (exists d', run_op (OpStopTs fi) d = Some d') as [d' Hr]; [|eauto].
  cbn [run_op]. unfold dmx_ts_feed_stop_filtering.
  rewrite mutex_lock_free by done. cbn [mbind option_bind dx_feed set_dx_mutex]. rewrite Hf. cbn [mbind option_bind].
  destruct (_ <? _); [by eexists|]. destruct (negb _); by eexists.
Qed.

Lemma set_ts_returns intr fi p tst pt size tmo d ch :
  system_ok d ch -> held d DMX_TYPE_TS fi -> 0 <= pt ->
  exists d', run_op (OpSetTs intr fi p tst pt size tmo) d = Some d' /\ feeds_ok d'.
Proof.
  intros Hs Hh Hpt. destruct (held_ts d ch fi Hs Hh) as (feed & xi & f & Hf & Ht & Hst & Hp & _).
  pose proof (co_mutex _ _ (so_chains _ _ Hs)) as Hm. destruct (so_pes _ _ Hs) as [Hz1 Hz2].
  assert (forall d', run_op (OpSetTs intr fi p tst pt size tmo) d = Some d' -> feeds_ok d') as Hgo.
  { intros d' Hr. pose proof Hr as H. cbn [run_op] in H. apply bind_Some in H as ([d1 r] & H & [= <-]).
    unfold dmx_ts_feed_set in H. destruct (_ >? _); [injection H as <- _; by exists ch|].
    destruct intr; [injection H as <- _; by exists ch|].
    rewrite mutex_lock_free in H by done. cbn [mbind option_bind dx_feed set_dx_mutex] in H.
    rewrite Hf in H. cbn [mbind option_bind] in H. apply bind_Some in H as ([d2 bad] & H2 & H).
    assert (dx_feed d2 = dx_feed d /\ dx_filter d2 = dx_filter d /\ zlen (pesfilter d2) = zlen (pesfilter d) /\
      zlen (pids d2) = zlen (pids d) /\ has_stop_feed d2 = has_stop_feed d) as (E1 & E2 & E3 & E4 & E5).
    { destruct (truthy _); [|by injection H2 as <- _]. destruct (_ >=? _); [by injection H2 as <- _|].
      apply bind_Some in H2 as (owner & _ & H2). destruct (_ && _); [by injection H2 as <- _|].
      apply bind_Some in H2 as (pf & Hpf & H2). apply bind_Some in H2 as (ps & Hps & H2). injection H2 as <- _.
      cbn. unfold mset in Hpf, Hps. case_bool_decide; [|done]. case_bool_decide; [|done].
      injection Hpf as <-. injection Hps as <-. cbn. by rewrite !zlen_insert. }
    destruct bad; [injection H as <- _; by eapply ts_same|].
    destruct (feed_add_same fi d2) as (F1 & F2 & F3 & F4 & F5). injection H as <- _.
    eapply (ts_kept _ fi d _ ch feed); [done|done|done|done|done|cbn; by rewrite F1, E1|cbn; by rewrite F2|
      cbn; by rewrite F3|cbn; by rewrite F4|done|cbn; by rewrite F5|done..]. }
  assert (exists d', run_op (OpSetTs intr fi p tst pt size tmo) d = Some d') as [d' Hr]; [|eauto].
  cbn [run_op]. unfold dmx_ts_feed_set. destruct (_ >? _); [by eexists|]. destruct intr; [by eexists|].
  rewrite mutex_lock_free by done. cbn [mbind option_bind dx_feed set_dx_mutex]. rewrite Hf. cbn [mbind option_bind].
  destruct (truthy _); [|by eexists]. destruct (Z.geb_spec pt DMX_TS_PES_OTHER); [by eexists|].
  cbn [pesfilter pids set_dx_mutex].
  destruct (mget_defined (pesfilter d) pt) as [owner ->]; [lia|]. cbn [mbind option_bind].
  destruct (_ && _); [by eexists|].
  destruct (mset_defined (pesfilter d) pt (Some fi)) as (pf & -> & _); [lia|].
  destruct (mset_defined (pids d) pt p) as (ps & -> & _); [lia|]. by eexists.
Qed.

Lemma release_ts_returns fi d ch :
  system_ok d ch -> held d DMX_TYPE_TS fi ->
  exists d', run_op (OpReleaseTs fi) d = Some d' /\ feeds_ok d'.
Proof.
  intros Hs Hh.
  destruct (held_ts d ch fi Hs Hh) as (feed & xi & f & Hf & Ht & Hst & Hp & Hn & Hx & Hxf & Hff & _).
  pose proof (so_chains _ _ Hs) as Hc. destruct (so_pes _ _ Hs) as [Hz1 _].
  set (feed' := set_pid 0xffff (set_feed_state DMX_STATE_FREE feed)).
  assert (exists d', run_op (OpReleaseTs fi) d = Some d' /\ dx_feed d' = <[fi := feed']> (dx_feed d) /\
    dx_filter d' = <[xi := set_filter_state DMX_STATE_FREE f]> (dx_filter d) /\
    zlen (pesfilter d') = zlen (pesfilter d) /\ pids d' = pids d /\ dx_mutex d' = false /\
    has_stop_feed d' = has_stop_feed d) as (d' & Hr & E1 & E2 & E3 & E4 & E5 & E6).
  { cbn [run_op]. unfold dvbdmx_release_ts_feed. rewrite mutex_lock_free by apply Hc.
    cbn [mbind option_bind dx_feed dx_filter set_dx_mutex]. rewrite Hf. cbn [mbind option_bind].
    rewrite (proj2 (Z.eqb_neq _ _)) by done. change (feed_filter (set_feed_state _ feed)) with (feed_filter feed).
    rewrite Hx. cbn [mbind option_bind]. rewrite Hxf. cbn [mbind option_bind].
    set (d1 := put_filter xi _ _). destruct (feed_del_same fi d1) as (F1 & F2 & F3 & F4 & F5). fold feed'.
    change (pes_type feed') with (pes_type feed). change (ts_type feed') with (ts_type feed).
    cbn [pesfilter put_feed set_dx_feed]. rewrite F3. change (pesfilter d1) with (pesfilter d).
    destruct (truthy _); cbn [andb].
    2: { eexists. split; [done|]. cbn. by rewrite F1, F2, F3, F4, F5. }
    destruct (Z.ltb_spec (pes_type feed) DMX_TS_PES_OTHER); [|eexists; split; [done|]; cbn; by rewrite F1, F2, F3, F4, F5].
    destruct (mset_defined (pesfilter d) (pes_type feed) None) as (pf & -> & Hz); [lia|].
    eexists. split; [done|]. cbn. by rewrite F1, F2, F4, F5. }
  exists d'. split; [done|]. exists ch. eapply (system_step d d' ch ch fi feed'); [done| | | |done|by split].
  - split; [done|rewrite E2; eapply keeps_put; [done|by right]|by rewrite E3, E4].
  - eapply run_op_wf; [apply Hs| |done]. intros fj [= <-]. by eapply held_in_use.
  - apply (chains_off d); [done| | | |done|done].
    + intros fj l Hl. rewrite E1. apply list_lookup_insert_ne. congruence.
    + intros fj l x Hl Hin. rewrite E2. apply list_lookup_insert_ne. intros ->.
      destruct (co_chain _ _ Hc fj l Hl) as (_ & _ & _ & _ & H).
      destruct (H x Hin) as (g & Hg & Hgf & _). congruence.
    + rewrite E2. apply (raw_put _ _ f); [apply Hc|done|done].
Qed.

Lemma alloc_ts_returns intr d ch :
  system_ok d ch -> exists d', run_op (OpAllocTs intr) d = Some d' /\ feeds_ok d'.
Proof.
  intros Hs. pose proof (so_chains _ _ Hs) as Hc.
  assert (exists d', run_op (OpAllocTs intr) d = Some d' /\ (feeds_wf d' -> feeds_ok d')) as (d' & Hr & Hok).
  2: { exists d'. split; [done|]. apply Hok. by apply (run_op_wf (OpAllocTs intr) d); [apply Hs| |]. }
  cbn [run_op]. unfold dvbdmx_allocate_ts_feed. destruct intr; [eexists; split; [done|]; by exists ch|].
  rewrite mutex_lock_free by apply Hc. cbn [mbind option_bind].
  destruct (dvb_dmx_feed_alloc _) as [d1 [fi|]] eqn:Ha.
  2: { eexists. split; [done|]. intros Hw. unfold dvb_dmx_feed_alloc in Ha.
       destruct (first_free _ _ _); [done|]. injection Ha as <-. by eapply (system_same d). }
  apply feed_alloc_free in Ha as (feed & Hf & Hst & ->). cbn [dx_feed set_dx_feed set_dx_mutex] in Hf |- *.
  rewrite list_lookup_insert_eq by by eapply lookup_lt_Some. cbn [mbind option_bind].
  pose proof (free_not_chained d ch fi feed Hs Hf Hst) as Hn. destruct (so_feed _ _ Hs fi feed Hf) as [Hp _].
  assert (Hnew : forall d' feed', dx_feed d' = <[fi := feed']> (dx_feed d) ->
    forall fj l, ch !! fj = Some l -> dx_feed d' !! fj = dx_feed d !! fj).
  { intros d' feed' E1 fj l Hl. rewrite E1. apply list_lookup_insert_ne. congruence. }
  destruct (dvb_dmx_filter_alloc _) as [d2 [xi|]] eqn:Hx.
  - apply filter_alloc_free in Hx as (f & Hxf & Hfs & ->). cbn [dx_filter set_dx_filter set_dx_feed set_dx_mutex] in Hxf |- *.
    rewrite list_lookup_insert_eq by by eapply lookup_lt_Some. cbn [mbind option_bind].
    eexists. split; [done|]. intros Hw. exists ch.
    eapply (system_step d _ ch ch fi); [done| |done| |done|].
    + split; [cbn; apply list_insert_insert_eq| |done]. cbn. rewrite list_insert_insert_eq.
      eapply keeps_put; [done|by left].
    + apply (chains_off d); [done| | | |done|done].
      * eapply Hnew. cbn. apply list_insert_insert_eq.
      * intros fj l x Hl Hin. cbn. rewrite list_insert_insert_eq. apply list_lookup_insert_ne. intros ->.
        destruct (co_chain _ _ Hc fj l Hl) as (_ & _ & _ & _ & H). destruct (H x Hin) as (g & Hg & _ & Hgs). congruence.
      * cbn. rewrite list_insert_insert_eq. apply (raw_put _ _ f); [apply Hc|done|done].
    + split; [done|]. intros _. right. split; [done|]. split; [done|]. do 2 eexists. split; [done|]. cbn.
      rewrite list_insert_insert_eq, list_lookup_insert_eq by by eapply lookup_lt_Some. split; [done|by split].
  - unfold dvb_dmx_filter_alloc in Hx. destruct (first_free _ _ _); [done|]. injection Hx as <-.
    eexists. split; [done|]. intros Hw. exists ch.
    eapply (system_step d _ ch ch fi); [done| |done| |done|].
    + apply touches_put; [cbn; apply list_insert_insert_eq|done..].
    + apply (chains_off d); [done| |done|apply Hc|done|done]. eapply Hnew. cbn. apply list_insert_insert_eq.
    + by split.
Qed.

(** *** Every operation *)

Lemma op_returns op d :
  feeds_ok d -> op_ok op d -> exists d', run_op op d = Some d' /\ feeds_ok d'.
Proof.
  intros [ch Hs] Hok. destruct op.
  - by eapply alloc_ts_returns.
  - destruct Hok. by eapply set_ts_returns.
  - by eapply start_ts_returns.
  - by eapply stop_ts_returns.
  - by eapply release_ts_returns.
  - by eapply alloc_section_returns.
  - by eapply section_op_returns.
  - by eapply section_op_returns.
  - by eapply section_op_returns.
  - by eapply section_op_returns.
  - by eapply section_op_returns.
  - by eapply release_section_returns.
Qed.

(** The clients' side of the contract, along a sequence of operations. *)
Fixpoint uses_own_feeds (ops : list feed_op) (d : dvb_demux) : Prop :=
  match ops with
  | [] => True
  | op :: ops => op_ok op d /\ forall d', run_op op d = Some d' -> uses_own_feeds ops d'
  end.

(** Claim C29: the operations on feeds return and keep the demultiplexer in order.  The
    clients use the feeds they hold, with the operations of the feed's type, and release a
    filter only from a feed it hangs on and that is not filtering (otherwise the release
    deadlocks); the driver has a stop_feed hook.  Then whatever they do in whatever order,
    and whatever the driver hooks and signals answer, every operation returns, without an
    access out of bounds, with the mutex free, and the list the software filter walks holds
    each feed once and only feeds that are in use: no packet goes to a released feed. *)
Theorem feed_ops_keep_wf ops d :
  feeds_ok d -> uses_own_feeds ops d ->
  exists d', run_ops ops d = Some d' /\ feeds_ok d' /\ feeds_wf d'.
Proof.
  revert d. induction ops as [|op ops IH]; intros d Hok Hu.
  { exists d. split; [done|]. split; [done|]. destruct Hok as [ch Hs]. apply Hs. }
  destruct Hu as [Hop Hu]. destruct (op_returns op d Hok Hop) as (d1 & Hr & Hok1).
  cbn [run_ops]. rewrite Hr. exact (IH d1 Hok1 (Hu d1 Hr)).
Qed.

(** A new demultiplexer is in order. *)
Lemma init_feeds_ok fs feeds cnt d :
  has_stop_feed d = true -> Forall raw_filter_ok fs -> Forall (fun feed => 0 <= pes_type feed) feeds ->
  feeds_ok (fst (dvb_dmx_init (Some fs) (Some feeds) cnt d)).
Proof.
  intros Hst Hfs Hfe. exists ∅. split; [split| |done|].
  - done.
  - done.
  - intros x f. cbn. rewrite list_lookup_imap. intros (g & Hg & ->)%fmap_Some.
    exact (Forall_lookup_1 _ _ _ _ Hfs Hg).
  - intros fi l. by rewrite lookup_empty.
  - split; [done|constructor|]. intros fi Hfi. by apply not_elem_of_nil in Hfi.
  - intros fi feed. cbn. rewrite list_lookup_imap. intros (g & Hg & ->)%fmap_Some.
    split; [exact (Forall_lookup_1 _ _ _ _ Hfe Hg)|done].
Qed.
End feeds.

(** A TS feed and a section feed of a new demultiplexer, from allocation to release. *)
Definition feed_session : list feed_op :=
  [OpAllocTs false; OpSetTs false 0 0x100 TS_DECODER 1 0 (0, 0); OpStartTs false 0;
   OpAllocSec false; OpAllocFilter false 1; OpSetSec false 1 0x101 4096 1; OpStartSec false 1;
   OpStopSec 1; OpReleaseFilter 1 1; OpReleaseSec 1; OpStopTs 0; OpReleaseTs 0].

Lemma feed_ops_keep_wf_witness :
  exists d', run_ops feed_session no_feeds = Some d' /\ feeds_ok d' /\ feeds_wf d'.
Proof.
  apply (feed_ops_keep_wf feed_session no_feeds).
  - apply init_feeds_ok; [done|repeat (constructor; [apply raw_filter_is_ok|]); constructor|].
    repeat (constructor; [vm_compute; discriminate|]). constructor.
  - cbn [uses_own_feeds feed_session op_ok].
    repeat (split;
      [first
        [exact I
        |eexists; split; [vm_compute; reflexivity|split; [vm_compute; discriminate|vm_compute; reflexivity]]
        |split; [eexists; split; [vm_compute; reflexivity|split; [vm_compute; discriminate|vm_compute; reflexivity]]|];
         first
          [vm_compute; discriminate
          |eexists; exists [1%nat]; split; [vm_compute; reflexivity|]; split; [reflexivity|]; split;
           [split; [reflexivity|]; eexists; split; [vm_compute; reflexivity|split; [repeat split; bytes|reflexivity]]
           |left]]]|];
      intros d1 Hd1; vm_compute in Hd1; injection Hd1 as <-).
    exact I.
Defined.
