(* ===== verification/DmxdevTypes.v ===== *)
(** The data of dmxdev, drivers/media/dvb/dvb-core/dmxdev.h and
    include/linux/dvb/dmx.h: the client that gives user space the demultiplexer
    as devices.

    A [dmxdev_filter] is one open demux device; it points to feeds and section
    filters of the demultiplexer by their index there.  The three unions of the
    structure are tagged with the member written last: what the code gets when
    it reads another member is not given a meaning ([None]).  [fl_buffer] is a
    ring buffer of RingBuffer.v.

    What the code calls and does not contain is the parameter [DmxdevEnv]; what
    its members answer may depend on how often they were asked ([dd_tick]). *)

From S2P Require Import Prelude StateM RingBuffer DemuxTypes.

#[global] Open Scope state_scope.

(** ** Constants of <linux/dvb/dmx.h>, <fcntl.h> and <poll.h> *)

Definition DMX_FILTER_SIZE : Z := 16.
Definition DMX_CHECK_CRC : Z := 1.
Definition DMX_ONESHOT : Z := 2.
Definition DMX_IMMEDIATE_START : Z := 4.

Definition DMX_OUT_DECODER : Z := 0.
Definition DMX_OUT_TAP : Z := 1.
Definition DMX_OUT_TS_TAP : Z := 2.
Definition DMX_OUT_TSDEMUX_TAP : Z := 3.

(** The last member of [dmx_pes_type_t]. *)
Definition DMX_PES_OTHER : Z := 20.

Definition DMX_MEMORY_FE : Z := 0.

Definition O_RDONLY : Z := 0.
Definition O_WRONLY : Z := 1.
Definition O_RDWR : Z := 2.

Definition POLLIN : Z := 1.
Definition POLLPRI : Z := 2.
Definition POLLOUT : Z := 4.
Definition POLLERR : Z := 8.
Definition POLLRDNORM : Z := 64.
Definition POLLWRNORM : Z := 256.

(** ** Constants of dmxdev.h *)

Definition DMXDEV_STATE_FREE : Z := 0.
Definition DMXDEV_STATE_ALLOCATED : Z := 1.
Definition DMXDEV_STATE_SET : Z := 2.
Definition DMXDEV_STATE_GO : Z := 3.
Definition DMXDEV_STATE_DONE : Z := 4.
Definition DMXDEV_STATE_TIMEDOUT : Z := 5.

Definition DMXDEV_CAP_DUPLEX : Z := 1.
Definition DVR_BUFFER_SIZE : Z := 10 * 188 * 1024.

(** ** Data *)

Record dmx_sct_filter_params := mk_sct {
  sct_pid : Z;   (* u16 *)
  sct_filter : list Z;   (* u8[16] *)
  sct_mask : list Z;   (* u8[16] *)
  sct_mode : list Z;   (* u8[16] *)
  sct_timeout : Z;   (* u32, milliseconds *)
  sct_flags : Z;   (* u32 *)
}.

Definition set_sct_mode (v : list Z) (r : dmx_sct_filter_params) : dmx_sct_filter_params :=
  mk_sct (sct_pid r) (sct_filter r) (sct_mask r) v (sct_timeout r) (sct_flags r).

Record dmx_pes_filter_params := mk_pes {
  pf_pid : Z;   (* u16 *)
  pf_input : Z;   (* dmx_input_t *)
  pf_output : Z;   (* dmx_output_t *)
  pf_pes_type : Z;   (* dmx_pes_type_t *)
  pf_flags : Z;   (* u32 *)
}.


Inductive dmxdev_type := DMXDEV_TYPE_NONE | DMXDEV_TYPE_SEC | DMXDEV_TYPE_PES.

#[export] Instance dmxdev_type_eq : EqDecision dmxdev_type.
Proof. solve_decision. Defined.

(** One PID of a PES filter and the TS feed it runs on. *)
Record dmxdev_feed := mk_dfeed {
  df_pid : Z;   (* u16 *)
  df_ts : option nat;   (* feed of the demux *)
}.

Definition set_df_ts (v : option nat) (r : dmxdev_feed) : dmxdev_feed := mk_dfeed (df_pid r) v.

(** The unions [feed] and [params]. *)
Inductive feed_union := FeedNone | FeedTs (l : list dmxdev_feed) | FeedSec (feed : option nat).
Inductive params_union :=
  | ParamsNone | ParamsSec (p : dmx_sct_filter_params) | ParamsPes (p : dmx_pes_filter_params).

Record dmxdev_filter := mk_dfil {
  fl_sec : option nat;   (* filter.sec, filter of the demux *)
  fl_feed : feed_union;
  fl_params : params_union;
  fl_type : dmxdev_type;
  fl_state : Z;   (* DMXDEV_STATE_* *)
  fl_buffer : dvb_ringbuffer;
  fl_timer : option Z;   (* expiry, when pending *)
  fl_todo : Z;   (* int *)
  fl_secheader : list Z;   (* u8[3] *)
}.

Definition set_fl_sec (v : option nat) (r : dmxdev_filter) : dmxdev_filter :=
  mk_dfil v (fl_feed r) (fl_params r) (fl_type r) (fl_state r) (fl_buffer r)
    (fl_timer r) (fl_todo r) (fl_secheader r).
Definition set_fl_feed (v : feed_union) (r : dmxdev_filter) : dmxdev_filter :=
  mk_dfil (fl_sec r) v (fl_params r) (fl_type r) (fl_state r) (fl_buffer r)
    (fl_timer r) (fl_todo r) (fl_secheader r).
Definition set_fl_params (v : params_union) (r : dmxdev_filter) : dmxdev_filter :=
  mk_dfil (fl_sec r) (fl_feed r) v (fl_type r) (fl_state r) (fl_buffer r)
    (fl_timer r) (fl_todo r) (fl_secheader r).
Definition set_fl_type (v : dmxdev_type) (r : dmxdev_filter) : dmxdev_filter :=
  mk_dfil (fl_sec r) (fl_feed r) (fl_params r) v (fl_state r) (fl_buffer r)
    (fl_timer r) (fl_todo r) (fl_secheader r).
Definition set_fl_state (v : Z) (r : dmxdev_filter) : dmxdev_filter :=
  mk_dfil (fl_sec r) (fl_feed r) (fl_params r) (fl_type r) v (fl_buffer r)
    (fl_timer r) (fl_todo r) (fl_secheader r).
Definition set_fl_buffer (v : dvb_ringbuffer) (r : dmxdev_filter) : dmxdev_filter :=
  mk_dfil (fl_sec r) (fl_feed r) (fl_params r) (fl_type r) (fl_state r) v
    (fl_timer r) (fl_todo r) (fl_secheader r).
Definition set_fl_timer (v : option Z) (r : dmxdev_filter) : dmxdev_filter :=
  mk_dfil (fl_sec r) (fl_feed r) (fl_params r) (fl_type r) (fl_state r)
    (fl_buffer r) v (fl_todo r) (fl_secheader r).
Definition set_fl_todo (v : Z) (r : dmxdev_filter) : dmxdev_filter :=
  mk_dfil (fl_sec r) (fl_feed r) (fl_params r) (fl_type r) (fl_state r)
    (fl_buffer r) (fl_timer r) v (fl_secheader r).
Definition set_fl_secheader (v : list Z) (r : dmxdev_filter) : dmxdev_filter :=
  mk_dfil (fl_sec r) (fl_feed r) (fl_params r) (fl_type r) (fl_state r)
    (fl_buffer r) (fl_timer r) (fl_todo r) v.

(** [struct dmxdev], with the counters of its two devices. *)
Record dmxdev := mk_dmxdev {
  dd_filter : list dmxdev_filter;   (* filternum elements, NULL is [] *)
  dd_demux : dvb_demux;
  dd_capabilities : Z;   (* int *)
  dd_exit : bool;
  dd_dvr_orig_fe : option nat;
  dd_dvr_buffer : dvb_ringbuffer;
  dd_users : Z;   (* dvbdev->users *)
  dd_dvr_users : Z;   (* dvr_dvbdev->users *)
  dd_dvr_readers : Z;   (* dvr_dvbdev->readers *)
  dd_jiffies : Z;   (* the clock of the kernel *)
  dd_tick : nat;   (* ghost: questions asked to the environment *)
}.

Definition set_dd_filter (v : list dmxdev_filter) (r : dmxdev) : dmxdev :=
  mk_dmxdev v (dd_demux r) (dd_capabilities r) (dd_exit r) (dd_dvr_orig_fe r)
    (dd_dvr_buffer r) (dd_users r) (dd_dvr_users r) (dd_dvr_readers r)
    (dd_jiffies r) (dd_tick r).
Definition set_dd_demux (v : dvb_demux) (r : dmxdev) : dmxdev :=
  mk_dmxdev (dd_filter r) v (dd_capabilities r) (dd_exit r) (dd_dvr_orig_fe r)
    (dd_dvr_buffer r) (dd_users r) (dd_dvr_users r) (dd_dvr_readers r)
    (dd_jiffies r) (dd_tick r).
Definition set_dd_capabilities (v : Z) (r : dmxdev) : dmxdev :=
  mk_dmxdev (dd_filter r) (dd_demux r) v (dd_exit r) (dd_dvr_orig_fe r)
    (dd_dvr_buffer r) (dd_users r) (dd_dvr_users r) (dd_dvr_readers r)
    (dd_jiffies r) (dd_tick r).
Definition set_dd_exit (v : bool) (r : dmxdev) : dmxdev :=
  mk_dmxdev (dd_filter r) (dd_demux r) (dd_capabilities r) v (dd_dvr_orig_fe r)
    (dd_dvr_buffer r) (dd_users r) (dd_dvr_users r) (dd_dvr_readers r)
    (dd_jiffies r) (dd_tick r).
Definition set_dd_dvr_orig_fe (v : option nat) (r : dmxdev) : dmxdev :=
  mk_dmxdev (dd_filter r) (dd_demux r) (dd_capabilities r) (dd_exit r) v
    (dd_dvr_buffer r) (dd_users r) (dd_dvr_users r) (dd_dvr_readers r)
    (dd_jiffies r) (dd_tick r).
Definition set_dd_dvr_buffer (v : dvb_ringbuffer) (r : dmxdev) : dmxdev :=
  mk_dmxdev (dd_filter r) (dd_demux r) (dd_capabilities r) (dd_exit r)
    (dd_dvr_orig_fe r) v (dd_users r) (dd_dvr_users r) (dd_dvr_readers r)
    (dd_jiffies r) (dd_tick r).
Definition set_dd_users (v : Z) (r : dmxdev) : dmxdev :=
  mk_dmxdev (dd_filter r) (dd_demux r) (dd_capabilities r) (dd_exit r)
    (dd_dvr_orig_fe r) (dd_dvr_buffer r) v (dd_dvr_users r) (dd_dvr_readers r)
    (dd_jiffies r) (dd_tick r).
Definition set_dd_dvr_users (v : Z) (r : dmxdev) : dmxdev :=
  mk_dmxdev (dd_filter r) (dd_demux r) (dd_capabilities r) (dd_exit r)
    (dd_dvr_orig_fe r) (dd_dvr_buffer r) (dd_users r) v (dd_dvr_readers r)
    (dd_jiffies r) (dd_tick r).
Definition set_dd_dvr_readers (v : Z) (r : dmxdev) : dmxdev :=
  mk_dmxdev (dd_filter r) (dd_demux r) (dd_capabilities r) (dd_exit r)
    (dd_dvr_orig_fe r) (dd_dvr_buffer r) (dd_users r) (dd_dvr_users r) v
    (dd_jiffies r) (dd_tick r).
Definition set_dd_jiffies (v : Z) (r : dmxdev) : dmxdev :=
  mk_dmxdev (dd_filter r) (dd_demux r) (dd_capabilities r) (dd_exit r)
    (dd_dvr_orig_fe r) (dd_dvr_buffer r) (dd_users r) (dd_dvr_users r)
    (dd_dvr_readers r) v (dd_tick r).
Definition set_dd_tick (v : nat) (r : dmxdev) : dmxdev :=
  mk_dmxdev (dd_filter r) (dd_demux r) (dd_capabilities r) (dd_exit r)
    (dd_dvr_orig_fe r) (dd_dvr_buffer r) (dd_users r) (dd_dvr_users r)
    (dd_dvr_readers r) (dd_jiffies r) v.

(** ** The environment *)

Class DmxdevEnv := {
  mutex_intr : nat -> bool;                       (* a signal interrupts the wait *)
  vmalloc : nat -> Z -> option (list Z);          (* the memory and what it holds *)
  kzalloc_fails : nat -> bool;
  copy_to_user : nat -> Z -> list Z -> bool;      (* does the copy fault? *)
  copy_from_user : nat -> list Z -> option (list Z);   (* what is read back *)
  HZ : Z;
  fe_source : nat -> Z;                           (* source of a front-end *)
  get_caps : option Z;                            (* hooks of the demux driver: *)
  set_source : option Z;                          (* NULL or what they answer *)
  get_stc : option Z;
}.

(** Memory of the kernel: of the size asked for, and smaller than 2^62. *)
Class DmxdevEnvLaws (E : DmxdevEnv) := {
  vmalloc_size n size m : vmalloc n size = Some m -> zlen m = size;
  vmalloc_bound n size m : vmalloc n size = Some m -> size < 2 ^ 62;
}.

(** User memory is mapped, and only the reader writes to its buffer. *)
Class UserMemoryMapped (E : DmxdevEnv) := {
  mapped_to n off s : copy_to_user n off s = false;
  mapped_from n s : copy_from_user n s = Some s;
}.

(** ** Accesses *)

Abbreviation dmxM := (stateM dmxdev).

Definition tick : dmxM nat := n <- gets dd_tick ;; modify (set_dd_tick (S n)) ;; mdo n.

Definition fl_get (i : nat) : dmxM dmxdev_filter := l <- gets dd_filter ;; the (l !! i).
Definition fl_upd (i : nat) (f : dmxdev_filter -> dmxdev_filter) : dmxM unit :=
  x <- fl_get i ;; l <- gets dd_filter ;; modify (set_dd_filter (<[i := f x]> l)).

Definition feed_ts (f : dmxdev_filter) : dmxM (list dmxdev_feed) :=
  match fl_feed f with FeedTs l => mdo l | _ => fault end.
Definition feed_sec (f : dmxdev_filter) : dmxM (option nat) :=
  match fl_feed f with FeedSec o => mdo o | _ => fault end.
Definition params_sec (f : dmxdev_filter) : dmxM dmx_sct_filter_params :=
  match fl_params f with ParamsSec p => mdo p | _ => fault end.
Definition params_pes (f : dmxdev_filter) : dmxM dmx_pes_filter_params :=
  match fl_params f with ParamsPes p => mdo p | _ => fault end.

(** A call through the demux's hooks. *)
Definition demux_call {A} (f : dvb_demux -> option (dvb_demux * A)) : dmxM A :=
  d <- gets dd_demux ;; r <- the (f d) ;; modify (set_dd_demux r.1) ;; mdo r.2.
Definition demux_alloc (f : dvb_demux -> option (dvb_demux * Z * option nat)) :
    dmxM (Z * option nat) :=
  demux_call (fun d => r ← f d; Some (r.1.1, (r.1.2, r.2))).
