(* ===== verification/Dmxdev.v ===== *)
(** dmxdev, drivers/media/dvb/dvb-core/dmxdev.c: the demux and DVR devices.

    One definition per function, in the order of the file, in the monad of
    StateM.v over [dmxdev].  A demux device is the index of its
    [dmxdev_filter].  The demultiplexer behind it is the one of DemuxFeed.v and
    Demux.v, and its calls of the two callbacks, which Demux.v logs, are carried
    out by [deliver].

    A read that has to wait answers [ReadSleep] with what the stack of the
    sleeping process holds, and the [_resume] functions go on after a wake-up
    or a signal; any other operation may run in between.  What [wake_up] does
    is to make that possible, so it leaves no trace here.  Spinlocks leave none
    either: what runs under them is part of one step. *)

From S2P Require Import Prelude StateM RingBuffer DemuxTypes Demux DemuxFeed DmxdevTypes.

Abbreviation EWOULDBLOCK := EAGAIN.

(** ** The buffer of a device *)

Definition dvb_dmxdev_buffer_write (buf : dvb_ringbuffer) (src : list Z) (len : Z) :
    option (Z * dvb_ringbuffer) :=
  if len =? 0 then Some (0, buf)
  else match rb_data buf with
  | None => Some (0, buf)
  | Some _ =>
    let free := dvb_ringbuffer_free buf in
    if len >? u64 free then Some (- EOVERFLOW, buf)
    else '(r, buf) ← dvb_ringbuffer_write buf src len; Some (s32 r, buf)
  end.

(** What both callbacks do with the data they are given. *)
Definition store_data (buf : dvb_ringbuffer) (buffer1 buffer2 : list Z) : option dvb_ringbuffer :=
  '(ret, buf) ← dvb_dmxdev_buffer_write buf buffer1 (zlen buffer1);
  '(ret, buf) ← (if u64 ret =? zlen buffer1
                 then dvb_dmxdev_buffer_write buf buffer2 (zlen buffer2)
                 else Some (ret, buf));
  if ret <? 0 then Some (set_error (dvb_ringbuffer_flush buf) ret) else Some buf.

(** The outcome of [dvb_dmxdev_buffer_read]: the result and the bytes in the
    user's buffer, or asleep with [todo] bytes to go and these bytes copied. *)
Inductive read_result := RdDone (ret : Z) (copied : list Z) | RdSleep (todo : Z) (copied : list Z).

(** [return (count - todo) ? (count - todo) : ret;] *)
Definition read_return (count todo ret : Z) : Z := if count - todo =? 0 then ret else count - todo.

Section buffer_read.
Variable copy_to_user : Z -> list Z -> bool.

(** One turn of the loop from the end of [wait_event_interruptible] on; [inl]
    goes on with the next turn. *)
Definition read_turn (src : dvb_ringbuffer) (count todo : Z) (copied : list Z) :
    option (((Z * list Z) + read_result) * dvb_ringbuffer) :=
  if truthy (rb_error src) then
    Some (inr (RdDone (read_return count todo (rb_error src)) copied), dvb_ringbuffer_flush src)
  else
    let avail := dvb_ringbuffer_avail src in
    let avail := if u64 avail >? todo then todo else avail in
    '(ret, s, src) ← dvb_ringbuffer_read_user (fun off => copy_to_user (zlen copied + off)) src avail;
    if ret <? 0 then Some (inr (RdDone (read_return count todo ret) (copied ++ s)), src)
    else Some (inl (todo - ret, copied ++ s), src).

(** The loop; a turn either ends the read or empties the buffer. *)
Fixpoint read_loop (fuel : nat) (src : dvb_ringbuffer) (non_blocking : bool)
    (count todo ret : Z) (copied : list Z) : option (read_result * dvb_ringbuffer) :=
  if todo >? 0 then
    match fuel with
    | O => None
    | S fuel =>
      if non_blocking && dvb_ringbuffer_empty src then
        Some (RdDone (read_return count todo (- EWOULDBLOCK)) copied, src)
      else if dvb_ringbuffer_empty src && (rb_error src =? 0) then
        Some (RdSleep todo copied, src)
      else
        '(r, src) ← read_turn src count todo copied;
        match r with
        | inr r => Some (r, src)
        | inl (todo', copied) => read_loop fuel src non_blocking count todo' (todo - todo') copied
        end
    end
  else Some (RdDone (read_return count todo ret) copied, src).

Definition dvb_dmxdev_buffer_read (src : dvb_ringbuffer) (non_blocking : bool) (count : Z) :
    option (read_result * dvb_ringbuffer) :=
  match rb_data src with
  | None => Some (RdDone 0 [], src)
  | Some _ =>
    if truthy (rb_error src) then Some (RdDone (rb_error src) [], dvb_ringbuffer_flush src)
    else read_loop 2 src non_blocking count count 0 []
  end.

(** After the sleep: a signal ends the read, a wake-up checks the condition
    again.  Only a blocking read sleeps. *)
Definition buffer_read_resume (src : dvb_ringbuffer) (signal : bool) (count todo : Z)
    (copied : list Z) : option (read_result * dvb_ringbuffer) :=
  if signal then Some (RdDone (read_return count todo (- ERESTARTSYS)) copied, src)
  else read_loop 2 src false count todo 0 copied.
End buffer_read.

Section ops.
Context {DE : DemuxEnv} {E : DmxdevEnv}.

Definition mutex_lock_interruptible : dmxM bool := n <- tick ;; mdo (mutex_intr n).

(** [if (mutex_lock_interruptible(...)) return -ERESTARTSYS; ...] *)
Definition with_lock (body : dmxM Z) : dmxM Z :=
  intr <- mutex_lock_interruptible ;; if (intr : bool) then mdo (- ERESTARTSYS) else body.

(** The ring buffer of the DVR device or of a filter. *)
Definition get_buffer (b : option nat) : dmxM dvb_ringbuffer :=
  match b with None => gets dd_dvr_buffer | Some i => f <- fl_get i ;; mdo (fl_buffer f) end.
Definition put_buffer (b : option nat) (rb : dvb_ringbuffer) : dmxM unit :=
  match b with None => modify (set_dd_dvr_buffer rb) | Some i => fl_upd i (set_fl_buffer rb) end.

Definition buffer_read (b : option nat) (non_blocking : bool) (count : Z) : dmxM read_result :=
  rb <- get_buffer b ;; n <- tick ;;
  r <- the (dvb_dmxdev_buffer_read (copy_to_user n) rb non_blocking count) ;;
  put_buffer b r.2 ;; mdo r.1.
Definition buffer_resume (b : option nat) (signal : bool) (count todo : Z) (copied : list Z) :
    dmxM read_result :=
  rb <- get_buffer b ;; n <- tick ;;
  r <- the (buffer_read_resume (copy_to_user n) rb signal count todo copied) ;;
  put_buffer b r.2 ;; mdo r.1.

(** ** The DVR device *)

Definition get_fe (type : Z) : dmxM (option nat) :=
  d <- gets dd_demux ;;
  match dvbdmx_get_frontends d with
  | None => mdo None
  | Some head => mdo (snd <$> list_find (fun fe => fe_source fe = type) head)
  end.

Definition dvb_dvr_open (accmode : Z) : dmxM Z :=
  with_lock (
    exit <- gets dd_exit ;; caps <- gets dd_capabilities ;; readers <- gets dd_dvr_readers ;;
    let opened := n <- gets dd_dvr_users ;; modify (set_dd_dvr_users (n + 1)) ;; mdo 0 in
    if (exit : bool) then mdo (- ENODEV)
    else if (accmode =? O_RDWR) && (Z.land caps DMXDEV_CAP_DUPLEX =? 0) then mdo (- EOPNOTSUPP)
    else if accmode =? O_RDONLY then
      if readers =? 0 then mdo (- EBUSY)
      else
        n <- tick ;;
        match vmalloc n DVR_BUFFER_SIZE with
        | None => mdo (- ENOMEM)
        | Some mem =>
          modify (set_dd_dvr_buffer (dvb_ringbuffer_init (Some mem) DVR_BUFFER_SIZE)) ;;
          modify (set_dd_dvr_readers (readers - 1)) ;;
          opened
        end
    else if accmode =? O_WRONLY then
      d <- gets dd_demux ;;
      modify (set_dd_dvr_orig_fe (frontend d)) ;;
      front <- get_fe DMX_MEMORY_FE ;;
      match front with
      | None => mdo (- EINVAL)
      | Some fe =>
        demux_call dvbdmx_disconnect_frontend ;;
        demux_call (dvbdmx_connect_frontend (Some fe)) ;;
        opened
      end
    else opened).

(** Also returns whether the process that waits in [dvb_dmxdev_release] is
    woken. *)
Definition dvb_dvr_release (accmode : Z) : dmxM (Z * bool) :=
  (if accmode =? O_WRONLY then
     fe <- gets dd_dvr_orig_fe ;;
     demux_call dvbdmx_disconnect_frontend ;;
     demux_call (dvbdmx_connect_frontend fe) ;; mdo tt
   else mdo tt) ;;
  (if accmode =? O_RDONLY then
     readers <- gets dd_dvr_readers ;;
     modify (set_dd_dvr_readers (readers + 1)) ;;
     rb <- gets dd_dvr_buffer ;;
     modify (set_dd_dvr_buffer (set_data rb None))
   else mdo tt) ;;
  n <- gets dd_dvr_users ;; modify (set_dd_dvr_users (n - 1)) ;;
  exit <- gets dd_exit ;;
  mdo (0, (n - 1 =? 1) && exit).

Definition dvb_dvr_read (non_blocking : bool) (count : Z) : dmxM read_result :=
  exit <- gets dd_exit ;;
  if (exit : bool) then mdo (RdDone (- ENODEV) []) else buffer_read None non_blocking count.
Definition dvb_dvr_read_resume (signal : bool) (count todo : Z) (copied : list Z) :
    dmxM read_result := buffer_resume None signal count todo copied.

(** [buf->size = size] with new memory, and the indices reset. *)
Definition new_memory (buf : dvb_ringbuffer) (mem : list Z) (size : Z) : dvb_ringbuffer :=
  dvb_ringbuffer_reset (mk_rb (Some mem) size (rb_pread buf) (rb_pwrite buf) (rb_error buf)).

Definition dvb_dvr_set_buffer_size (size : Z) : dmxM Z :=
  buf <- gets dd_dvr_buffer ;;
  if rb_size buf =? size then mdo 0
  else if size =? 0 then mdo (- EINVAL)
  else
    n <- tick ;;
    match vmalloc n size with
    | None => mdo (- ENOMEM)
    | Some newmem => modify (set_dd_dvr_buffer (new_memory buf newmem size)) ;; mdo 0
    end.

(** ** Filters: buffer, timer, callbacks *)

Definition dvb_dmxdev_filter_state_set (i : nat) (state : Z) : dmxM unit :=
  fl_upd i (set_fl_state state).

Definition dvb_dmxdev_set_buffer_size (i : nat) (size : Z) : dmxM Z :=
  f <- fl_get i ;;
  if rb_size (fl_buffer f) =? size then mdo 0
  else if size =? 0 then mdo (- EINVAL)
  else if fl_state f >=? DMXDEV_STATE_GO then mdo (- EBUSY)
  else
    n <- tick ;;
    match vmalloc n size with
    | None => mdo (- ENOMEM)
    | Some newmem => fl_upd i (set_fl_buffer (new_memory (fl_buffer f) newmem size)) ;; mdo 0
    end.

(** The handler of the timer, which is no longer pending when it runs. *)
Definition dvb_dmxdev_filter_timeout (i : nat) : dmxM unit :=
  fl_upd i (fun f => set_fl_buffer (set_error (fl_buffer f) (- ETIMEDOUT)) f) ;;
  dvb_dmxdev_filter_state_set i DMXDEV_STATE_TIMEDOUT.

Definition del_timer (i : nat) : dmxM unit := fl_upd i (set_fl_timer None).

(** The sum under the division is an [unsigned int]. *)
Definition dvb_dmxdev_filter_timer (i : nat) : dmxM unit :=
  f <- fl_get i ;; para <- params_sec f ;;
  del_timer i ;;
  if truthy (sct_timeout para) then
    now <- gets dd_jiffies ;;
    fl_upd i (set_fl_timer
      (Some (u64 (now + 1 + u32 (HZ / 2 + HZ * sct_timeout para) / 1000))))
  else mdo tt.

(** Both callbacks return 0. *)
Definition dvb_dmxdev_section_callback (buffer1 buffer2 : list Z) (priv : nat) : dmxM unit :=
  f <- fl_get priv ;;
  if truthy (rb_error (fl_buffer f)) then mdo tt
  else if negb (fl_state f =? DMXDEV_STATE_GO) then mdo tt
  else
    del_timer priv ;;
    rb <- the (store_data (fl_buffer f) buffer1 buffer2) ;;
    fl_upd priv (set_fl_buffer rb) ;;
    para <- params_sec f ;;
    if truthy (Z.land (sct_flags para) DMX_ONESHOT)
    then fl_upd priv (set_fl_state DMXDEV_STATE_DONE) else mdo tt.

Definition dvb_dmxdev_ts_callback (buffer1 buffer2 : list Z) (priv : nat) : dmxM unit :=
  f <- fl_get priv ;; para <- params_pes f ;;
  if pf_output para =? DMX_OUT_DECODER then mdo tt
  else
    let b := if (pf_output para =? DMX_OUT_TAP) || (pf_output para =? DMX_OUT_TSDEMUX_TAP)
             then Some priv else None in
    buffer <- get_buffer b ;;
    if truthy (rb_error buffer) then mdo tt
    else rb <- the (store_data buffer buffer1 buffer2) ;; put_buffer b rb.

(** The calls the demultiplexer logs, each with an empty second buffer.  A
    client stands in the feed's or the filter's [priv]. *)
Definition deliver (c : dmx_call) : dmxM unit :=
  d <- gets dd_demux ;;
  match c with
  | CallTs fi data =>
    feed <- the (dx_feed d !! fi) ;; priv <- the (feed_priv feed) ;;
    dvb_dmxdev_ts_callback data [] priv
  | CallSec _ xi data =>
    x <- the (dx_filter d !! xi) ;; priv <- the (filter_priv x) ;;
    dvb_dmxdev_section_callback data [] priv
  | _ => mdo tt
  end.

(** Run the demultiplexer and carry out the callbacks it makes. *)
Definition demux_run {A} (f : dvb_demux -> option (dvb_demux * A)) : dmxM A :=
  d <- gets dd_demux ;;
  r <- demux_call f ;;
  d' <- gets dd_demux ;;
  mfor (drop (length (dx_log d)) (dx_log d')) deliver ;;
  mdo r.

(** A chunk of the stream arrives from a driver. *)
Definition stream_input (buf : list Z) : dmxM unit :=
  demux_run (fun d => d ← dvb_dmx_swfilter d buf (zlen buf); Some (d, tt)).

Definition dvb_dvr_write (accmode : Z) (user : list Z + Z) (sig : bool) : dmxM Z :=
  if negb (accmode =? O_WRONLY) then mdo (- EINVAL)
  else
    with_lock (
      exit <- gets dd_exit ;;
      if (exit : bool) then mdo (- ENODEV)
      else
        intr <- mutex_lock_interruptible ;;
        ret <- demux_run (dvbdmx_write (fun fe => fe_source fe =? DMX_MEMORY_FE) user intr sig) ;;
        mdo (s32 ret)).
End ops.
