(* ===== verification/DmxdevFilter.v ===== *)
(** dmxdev, continued: starting and stopping filters on feeds of the
    demultiplexer, reading from them, and the file operations of the devices.

    Section filters with the same PID share one section feed, so that stopping
    one restarts the feed for another; a PES filter has a feed of its own for
    each of its PIDs. *)

From S2P Require Import Prelude StateM RingBuffer DemuxTypes Demux DemuxFeed DmxdevTypes Dmxdev.

Section ops.
Context {DE : DemuxEnv} {E : DmxdevEnv}.

(** ** Feeds *)

Definition start_section_feed (fi : nat) : dmxM Z :=
  intr <- mutex_lock_interruptible ;; demux_call (dmx_section_feed_start_filtering intr fi).

Definition dvb_dmxdev_feed_stop (i : nat) : dmxM Z :=
  dvb_dmxdev_filter_state_set i DMXDEV_STATE_SET ;;
  f <- fl_get i ;;
  match fl_type f with
  | DMXDEV_TYPE_SEC =>
    del_timer i ;;
    o <- feed_sec f ;; fi <- the o ;;
    demux_call (dmx_section_feed_stop_filtering fi) ;;
    mdo 0
  | DMXDEV_TYPE_PES =>
    l <- feed_ts f ;;
    mfor l (fun feed => fi <- the (df_ts feed) ;;
                        demux_call (dmx_ts_feed_stop_filtering fi) ;; mdo tt) ;;
    mdo 0
  | DMXDEV_TYPE_NONE => mdo (- EINVAL)
  end.

Fixpoint feed_start_loop (i : nat) (l : list dmxdev_feed) : dmxM Z :=
  match l with
  | [] => mdo 0
  | feed :: l =>
    fi <- the (df_ts feed) ;;
    intr <- mutex_lock_interruptible ;;
    ret <- demux_call (dmx_ts_feed_start_filtering intr fi) ;;
    if ret <? 0 then dvb_dmxdev_feed_stop i ;; mdo ret else feed_start_loop i l
  end.

Definition dvb_dmxdev_feed_start (i : nat) : dmxM Z :=
  dvb_dmxdev_filter_state_set i DMXDEV_STATE_GO ;;
  f <- fl_get i ;;
  match fl_type f with
  | DMXDEV_TYPE_SEC => o <- feed_sec f ;; fi <- the o ;; start_section_feed fi
  | DMXDEV_TYPE_PES => l <- feed_ts f ;; feed_start_loop i l
  | DMXDEV_TYPE_NONE => mdo (- EINVAL)
  end.

(** The test of the two search loops; both kinds of parameters start with the
    PID. *)
Definition runs_on (pid : Z) (f : dmxdev_filter) : bool :=
  (fl_state f >=? DMXDEV_STATE_GO) && bool_decide (fl_type f = DMXDEV_TYPE_SEC) &&
  match fl_params f with
  | ParamsSec p => sct_pid p =? pid
  | ParamsPes p => pf_pid p =? pid
  | ParamsNone => false
  end.

Definition find_running (pid : Z) (l : list dmxdev_filter) : option (nat * dmxdev_filter) :=
  list_find (fun f => runs_on pid f = true) l.

Definition dvb_dmxdev_feed_restart (i : nat) : dmxM Z :=
  f <- fl_get i ;; para <- params_sec f ;; l <- gets dd_filter ;;
  match find_running (sct_pid para) l with
  | Some (j, _) => dvb_dmxdev_feed_start j ;; mdo 0
  | None =>
    o <- feed_sec f ;; fi <- the o ;;
    demux_call (dvbdmx_release_section_feed fi) ;; mdo 0
  end.

Definition ts_upd (i k : nat) (ts : option nat) : dmxM unit :=
  f <- fl_get i ;; l <- feed_ts f ;;
  fl_upd i (set_fl_feed (FeedTs (alter (set_df_ts ts) k l))).

(** The loop over the feeds of a PES filter. *)
Fixpoint release_loop (i k n : nat) : dmxM unit :=
  match n with
  | O => mdo tt
  | S n =>
    f <- fl_get i ;; l <- feed_ts f ;; feed <- the (l !! k) ;;
    fi <- the (df_ts feed) ;;
    demux_call (dvbdmx_release_ts_feed fi) ;;
    ts_upd i k None ;;
    release_loop i (S k) n
  end.

Definition dvb_dmxdev_filter_stop (i : nat) : dmxM Z :=
  f <- fl_get i ;;
  let flush := fl_upd i (fun f => set_fl_buffer (dvb_ringbuffer_flush (fl_buffer f)) f) ;; mdo 0 in
  if fl_state f <? DMXDEV_STATE_GO then mdo 0
  else match fl_type f with
  | DMXDEV_TYPE_SEC =>
    o <- feed_sec f ;;
    match o with
    | None => flush
    | Some fi =>
      dvb_dmxdev_feed_stop i ;;
      match fl_sec f with
      | Some xi => demux_call (dmx_section_feed_release_filter fi xi) ;; mdo tt
      | None => mdo tt
      end ;;
      dvb_dmxdev_feed_restart i ;;
      fl_upd i (set_fl_feed (FeedSec None)) ;;
      flush
    end
  | DMXDEV_TYPE_PES =>
    dvb_dmxdev_feed_stop i ;;
    l <- feed_ts f ;;
    release_loop i 0 (length l) ;;
    flush
  | DMXDEV_TYPE_NONE =>
    if fl_state f =? DMXDEV_STATE_ALLOCATED then mdo 0 else mdo (- EINVAL)
  end.

Definition dvb_dmxdev_delete_pids (i : nat) : dmxM unit :=
  f <- fl_get i ;; feed_ts f ;; fl_upd i (set_fl_feed (FeedTs [])).

Definition dvb_dmxdev_filter_reset (i : nat) : dmxM Z :=
  f <- fl_get i ;;
  if fl_state f <? DMXDEV_STATE_SET then mdo 0
  else
    (if decide (fl_type f = DMXDEV_TYPE_PES) then dvb_dmxdev_delete_pids i else mdo tt) ;;
    fl_upd i (set_fl_type DMXDEV_TYPE_NONE) ;;
    dvb_dmxdev_filter_state_set i DMXDEV_STATE_ALLOCATED ;;
    mdo 0.

(** ** Starting *)

Definition feed_ts_type (para : dmx_pes_filter_params) : Z :=
  let otype := pf_output para in
  let ts_type := if pf_pes_type para <? DMX_PES_OTHER then TS_DECODER else 0 in
  if otype =? DMX_OUT_TS_TAP then Z.lor ts_type TS_PACKET
  else if otype =? DMX_OUT_TSDEMUX_TAP then Z.lor ts_type (Z.lor TS_PACKET TS_DEMUX)
  else if otype =? DMX_OUT_TAP then
    Z.lor ts_type (Z.lor (Z.lor TS_PACKET TS_DEMUX) TS_PAYLOAD_ONLY)
  else ts_type.

(** [feed] is the [k]-th of the filter's list. *)
Definition dvb_dmxdev_start_feed (i k : nat) : dmxM Z :=
  ts_upd i k None ;;
  f <- fl_get i ;; para <- params_pes f ;; l <- feed_ts f ;; feed <- the (l !! k) ;;
  intr <- mutex_lock_interruptible ;;
  r <- demux_alloc (dvbdmx_allocate_ts_feed intr) ;;
  ts_upd i k r.2 ;;
  if r.1 <? 0 then mdo r.1
  else
    tsfeed <- the r.2 ;;
    d <- gets dd_demux ;; x <- the (dx_feed d !! tsfeed) ;;
    modify (set_dd_demux (put_feed tsfeed (set_feed_priv (Some i) x) d)) ;;
    intr <- mutex_lock_interruptible ;;
    ret <- demux_call (dmx_ts_feed_set intr tsfeed (df_pid feed) (feed_ts_type para)
                         (pf_pes_type para) 32768 (0, 0)) ;;
    if ret <? 0 then demux_call (dvbdmx_release_ts_feed tsfeed) ;; mdo ret
    else
      intr <- mutex_lock_interruptible ;;
      ret <- demux_call (dmx_ts_feed_start_filtering intr tsfeed) ;;
      if ret <? 0 then demux_call (dvbdmx_release_ts_feed tsfeed) ;; mdo ret
      else mdo 0.

(** A user filter skips the two length bytes of the section header. *)
Definition fill_array (dst src : list Z) : option (list Z) :=
  s ← mread src 1 (DMX_FILTER_SIZE - 1);
  dst ← mwrite dst 3 s;
  b ← src.[0];
  mset dst 0 b.

Definition fill_filter (i : nat) (para : dmx_sct_filter_params) (x : dvb_demux_filter) :
    option dvb_demux_filter :=
  let x := set_filter_priv (Some i) x in
  v ← fill_array (filter_value x) (sct_filter para);
  m ← fill_array (filter_mask x) (sct_mask para);
  mo ← fill_array (filter_mode x) (sct_mode para);
  m ← mset m 1 0;
  m ← mset m 2 0;
  Some (set_filter_mode mo (set_filter_mask m (set_filter_value v x))).

(** The rest of a section filter's start, once [*secfeed] is there; [Some] is
    an early return. *)
Definition start_section_filter (i : nat) (para : dmx_sct_filter_params) : dmxM (option Z) :=
  f <- fl_get i ;; o <- feed_sec f ;; fi <- the o ;;
  intr <- mutex_lock_interruptible ;;
  r <- demux_alloc (dmx_section_feed_allocate_filter intr fi) ;;
  fl_upd i (set_fl_sec r.2) ;;
  if r.1 <? 0 then
    dvb_dmxdev_feed_restart i ;;
    start_section_feed fi ;;
    mdo (Some r.1)
  else
    xi <- the r.2 ;;
    d <- gets dd_demux ;; x <- the (dx_filter d !! xi) ;; x <- the (fill_filter i para x) ;;
    modify (set_dd_demux (put_filter xi x d)) ;;
    fl_upd i (set_fl_todo 0) ;;
    ret <- start_section_feed fi ;;
    if ret <? 0 then mdo (Some ret)
    else dvb_dmxdev_filter_timer i ;; mdo None.

Definition start_section (i : nat) : dmxM (option Z) :=
  f <- fl_get i ;; para <- params_sec f ;;
  fl_upd i (set_fl_sec None) ;;
  fl_upd i (set_fl_feed (FeedSec None)) ;;
  l <- gets dd_filter ;;
  secfeed <- match find_running (sct_pid para) l with
             | Some (_, g) => feed_sec g
             | None => mdo None
             end ;;
  fl_upd i (set_fl_feed (FeedSec secfeed)) ;;
  match secfeed with
  | None =>
    intr <- mutex_lock_interruptible ;;
    r <- demux_alloc (dvbdmx_allocate_section_feed intr) ;;
    fl_upd i (set_fl_feed (FeedSec r.2)) ;;
    if r.1 <? 0 then mdo (Some r.1)
    else
      fi <- the r.2 ;;
      intr <- mutex_lock_interruptible ;;
      ret <- demux_call (dmx_section_feed_set intr fi (sct_pid para) 32768
               (if truthy (Z.land (sct_flags para) DMX_CHECK_CRC) then 1 else 0)) ;;
      if ret <? 0 then dvb_dmxdev_feed_restart i ;; mdo (Some ret)
      else start_section_filter i para
  | Some _ => dvb_dmxdev_feed_stop i ;; start_section_filter i para
  end.

Fixpoint start_feeds (i k n : nat) : dmxM Z :=
  match n with
  | O => mdo 0
  | S n =>
    ret <- dvb_dmxdev_start_feed i k ;;
    if ret <? 0 then dvb_dmxdev_filter_stop i ;; mdo ret else start_feeds i (S k) n
  end.

Definition dvb_dmxdev_filter_start (i : nat) : dmxM Z :=
  f <- fl_get i ;;
  if fl_state f <? DMXDEV_STATE_SET then mdo (- EINVAL)
  else
    (if fl_state f >=? DMXDEV_STATE_GO then dvb_dmxdev_filter_stop i ;; mdo tt else mdo tt) ;;
    f <- fl_get i ;;
    n <- tick ;;
    let buf := fl_buffer f in
    match (match rb_data buf with
           | Some _ => Some buf
           | None => mem ← vmalloc n (rb_size buf); Some (set_data buf (Some mem))
           end) with
    | None => mdo (- ENOMEM)
    | Some buf =>
      fl_upd i (set_fl_buffer (dvb_ringbuffer_flush buf)) ;;
      early <- match fl_type f with
               | DMXDEV_TYPE_SEC => start_section i
               | DMXDEV_TYPE_PES =>
                 l <- feed_ts f ;;
                 ret <- start_feeds i 0 (length l) ;;
                 mdo (if ret <? 0 then Some ret else None)
               | DMXDEV_TYPE_NONE => mdo (Some (- EINVAL))
               end ;;
      match early with
      | Some ret => mdo ret
      | None => dvb_dmxdev_filter_state_set i DMXDEV_STATE_GO ;; mdo 0
      end
    end.

(** ** Open, set and release *)

(** The new device's filter on success. *)
Definition dvb_demux_open : dmxM (Z * option nat) :=
  l <- gets dd_filter ;;
  match l with
  | [] => mdo (- EINVAL, None)
  | _ =>
    intr <- mutex_lock_interruptible ;;
    if (intr : bool) then mdo (- ERESTARTSYS, None)
    else match list_find (fun f => fl_state f = DMXDEV_STATE_FREE) l with
    | None => mdo (- EMFILE, None)
    | Some (i, _) =>
      fl_upd i (set_fl_buffer (dvb_ringbuffer_init None 8192)) ;;
      fl_upd i (set_fl_type DMXDEV_TYPE_NONE) ;;
      dvb_dmxdev_filter_state_set i DMXDEV_STATE_ALLOCATED ;;
      fl_upd i (set_fl_timer None) ;;
      n <- gets dd_users ;; modify (set_dd_users (n + 1)) ;;
      mdo (0, Some i)
    end
  end.

Definition dvb_dmxdev_filter_free (i : nat) : dmxM Z :=
  dvb_dmxdev_filter_stop i ;;
  dvb_dmxdev_filter_reset i ;;
  fl_upd i (fun f => set_fl_buffer (set_data (fl_buffer f) None) f) ;;
  dvb_dmxdev_filter_state_set i DMXDEV_STATE_FREE ;;
  mdo 0.

Definition invert_mode (filter : dmx_sct_filter_params) : dmx_sct_filter_params :=
  set_sct_mode ((fun b => Z.lxor b 0xff) <$> sct_mode filter) filter.

Definition dvb_dmxdev_add_pid (i : nat) (p : Z) : dmxM Z :=
  f <- fl_get i ;;
  if negb (bool_decide (fl_type f = DMXDEV_TYPE_PES)) || (fl_state f <? DMXDEV_STATE_SET)
  then mdo (- EINVAL)
  else
    para <- params_pes f ;; l <- feed_ts f ;;
    if negb (pf_output para =? DMX_OUT_TSDEMUX_TAP) && negb (bool_decide (l = []))
    then mdo (- EINVAL)
    else
      n <- tick ;;
      if kzalloc_fails n then mdo (- ENOMEM)
      else
        fl_upd i (set_fl_feed (FeedTs (mk_dfeed p None :: l))) ;;
        if fl_state f >=? DMXDEV_STATE_GO then dvb_dmxdev_start_feed i 0 else mdo 0.

(** The feeds that are left. *)
Fixpoint remove_loop (p : Z) (l : list dmxdev_feed) : dmxM (list dmxdev_feed) :=
  match l with
  | [] => mdo []
  | feed :: l =>
    match df_ts feed with
    | Some fi =>
      if df_pid feed =? p then
        demux_call (dmx_ts_feed_stop_filtering fi) ;;
        demux_call (dvbdmx_release_ts_feed fi) ;;
        remove_loop p l
      else rest <- remove_loop p l ;; mdo (feed :: rest)
    | None => rest <- remove_loop p l ;; mdo (feed :: rest)
    end
  end.

Definition dvb_dmxdev_remove_pid (i : nat) (p : Z) : dmxM Z :=
  f <- fl_get i ;;
  if negb (bool_decide (fl_type f = DMXDEV_TYPE_PES)) || (fl_state f <? DMXDEV_STATE_SET)
  then mdo (- EINVAL)
  else
    l <- feed_ts f ;; l <- remove_loop p l ;;
    fl_upd i (set_fl_feed (FeedTs l)) ;;
    mdo 0.

Definition dvb_dmxdev_filter_set (i : nat) (params : dmx_sct_filter_params) : dmxM Z :=
  dvb_dmxdev_filter_stop i ;;
  fl_upd i (set_fl_type DMXDEV_TYPE_SEC) ;;
  fl_upd i (set_fl_params (ParamsSec (invert_mode params))) ;;
  dvb_dmxdev_filter_state_set i DMXDEV_STATE_SET ;;
  if truthy (Z.land (sct_flags params) DMX_IMMEDIATE_START)
  then dvb_dmxdev_filter_start i else mdo 0.

Definition dvb_dmxdev_pes_filter_set (i : nat) (params : dmx_pes_filter_params) : dmxM Z :=
  dvb_dmxdev_filter_stop i ;;
  dvb_dmxdev_filter_reset i ;;
  if (pf_pes_type params >? DMX_PES_OTHER) || (pf_pes_type params <? 0) then mdo (- EINVAL)
  else
    fl_upd i (set_fl_type DMXDEV_TYPE_PES) ;;
    fl_upd i (set_fl_params (ParamsPes params)) ;;
    fl_upd i (set_fl_feed (FeedTs [])) ;;
    dvb_dmxdev_filter_state_set i DMXDEV_STATE_SET ;;
    ret <- dvb_dmxdev_add_pid i (pf_pid params) ;;
    if ret <? 0 then mdo ret
    else if truthy (Z.land (pf_flags params) DMX_IMMEDIATE_START)
    then dvb_dmxdev_filter_start i else mdo 0.

(** ** Reading sections *)

(** Where in [dvb_dmxdev_read_sec] a reader sleeps: in the read of the header
    or in that of the payload. *)
Inductive sec_stage := InHeader | InPayload.

(** A sleeping [dvb_dmxdev_buffer_read] called with [ss_inner] bytes, with
    [count] and [done] of its caller, and what was copied before the call. *)
Record sec_sleep := mk_sleep {
  ss_stage : sec_stage;
  ss_inner : Z;
  ss_todo : Z;
  ss_copied : list Z;
  ss_count : Z;
  ss_done : Z;
  ss_before : list Z;
}.

Inductive sec_result := SecDone (ret : Z) (copied : list Z) | SecSleep (s : sec_sleep).

(** [return result + done], when the payload was read. *)
Definition payload_read (i : nat) (inner count done : Z) (before : list Z) (r : read_result) :
    dmxM sec_result :=
  match r with
  | RdSleep todo copied => mdo (SecSleep (mk_sleep InPayload inner todo copied count done before))
  | RdDone ret copied =>
    let result := s32 ret in
    if result <? 0 then mdo (SecDone result (before ++ copied))
    else
      fl_upd i (fun f => set_fl_todo (s32 (fl_todo f - result)) f) ;;
      mdo (SecDone (result + done) (before ++ copied))
  end.

Definition read_payload (i : nat) (non_blocking : bool) (count done : Z) (before : list Z) :
    dmxM sec_result :=
  f <- fl_get i ;;
  let inner := if count >? u64 (fl_todo f) then u64 (fl_todo f) else count in
  r <- buffer_read (Some i) non_blocking inner ;;
  payload_read i inner inner done before r.

(** When the header was read: [secheader] is filled from the user's buffer. *)
Definition header_read (i : nat) (non_blocking : bool) (inner count : Z) (r : read_result) :
    dmxM sec_result :=
  match r with
  | RdSleep todo copied => mdo (SecSleep (mk_sleep InHeader inner todo copied count 0 []))
  | RdDone ret copied =>
    let result := s32 ret in
    if result <? 0 then fl_upd i (set_fl_todo 0) ;; mdo (SecDone result copied)
    else
      n <- tick ;;
      match copy_from_user n (slice copied 0 result) with
      | None => mdo (SecDone (- EFAULT) copied)
      | Some bytes =>
        f <- fl_get i ;;
        hd <- the (mwrite (fl_secheader f) (- fl_todo f) bytes) ;;
        fl_upd i (set_fl_secheader hd) ;;
        let todo := s32 (fl_todo f - result) in
        fl_upd i (set_fl_todo todo) ;;
        if todo >? -3 then mdo (SecDone result copied)
        else
          h1 <- the (hd.[1]) ;; h2 <- the (hd.[2]) ;;
          fl_upd i (set_fl_todo (Z.land (Z.lor (Z.shiftl h1 8) h2) 0xfff)) ;;
          if count - result =? 0 then mdo (SecDone result copied)
          else read_payload i non_blocking (count - result) result copied
      end
  end.

Definition dvb_dmxdev_read_sec (i : nat) (non_blocking : bool) (count : Z) : dmxM sec_result :=
  f <- fl_get i ;;
  if fl_todo f <=? 0 then
    let hcount := s32 (3 + fl_todo f) in
    let hcount := if u64 hcount >? count then s32 count else hcount in
    r <- buffer_read (Some i) non_blocking (u64 hcount) ;;
    header_read i non_blocking (u64 hcount) count r
  else read_payload i non_blocking count 0 [].

(** Only a blocking reader sleeps. *)
Definition read_sec_resume (i : nat) (signal : bool) (s : sec_sleep) : dmxM sec_result :=
  r <- buffer_resume (Some i) signal (ss_inner s) (ss_todo s) (ss_copied s) ;;
  match ss_stage s with
  | InHeader => header_read i false (ss_inner s) (ss_count s) r
  | InPayload => payload_read i (ss_inner s) (ss_count s) (ss_done s) (ss_before s) r
  end.

(** [dvb_demux_read] on a filter of either type. *)
Inductive demux_read_result :=
  | DemuxRead (ret : Z) (copied : list Z)
  | DemuxSleepSec (s : sec_sleep)
  | DemuxSleep (todo : Z) (copied : list Z).

Definition from_sec (r : sec_result) : demux_read_result :=
  match r with SecDone ret copied => DemuxRead (s32 ret) copied | SecSleep s => DemuxSleepSec s end.
Definition from_plain (r : read_result) : demux_read_result :=
  match r with
  | RdDone ret copied => DemuxRead (s32 ret) copied
  | RdSleep todo copied => DemuxSleep todo copied
  end.

Definition dvb_demux_read (i : nat) (non_blocking : bool) (count : Z) : dmxM demux_read_result :=
  intr <- mutex_lock_interruptible ;;
  if (intr : bool) then mdo (DemuxRead (- ERESTARTSYS) [])
  else
    f <- fl_get i ;;
    if decide (fl_type f = DMXDEV_TYPE_SEC)
    then r <- dvb_dmxdev_read_sec i non_blocking count ;; mdo (from_sec r)
    else r <- buffer_read (Some i) non_blocking count ;; mdo (from_plain r).

(** The rest of [dvb_demux_read] after the sleep. *)
Definition demux_read_resume (i : nat) (signal : bool) (r : demux_read_result) : dmxM demux_read_result :=
  match r with
  | DemuxRead _ _ => mdo r
  | DemuxSleepSec s => r <- read_sec_resume i signal s ;; mdo (from_sec r)
  | DemuxSleep todo copied =>
    r <- buffer_resume (Some i) signal (todo + zlen copied) todo copied ;; mdo (from_plain r)
  end.

(** ** The other file operations *)

Inductive demux_cmd :=
  | DMX_START | DMX_STOP
  | DMX_SET_FILTER (params : dmx_sct_filter_params)
  | DMX_SET_PES_FILTER (params : dmx_pes_filter_params)
  | DMX_SET_BUFFER_SIZE (size : Z)
  | DMX_GET_PES_PIDS | DMX_GET_CAPS | DMX_SET_SOURCE | DMX_GET_STC
  | DMX_ADD_PID (p : Z) | DMX_REMOVE_PID (p : Z)
  | DMX_OTHER.

(** A hook of the demux driver that may be missing. *)
Definition call_hook (h : option Z) : dmxM Z :=
  match h with None => mdo (- EINVAL) | Some ret => mdo ret end.

(** Also returns what is stored at [parg]. *)
Definition dvb_demux_do_ioctl (i : nat) (cmd : demux_cmd) : dmxM (Z * list Z) :=
  let answer (m : dmxM Z) := ret <- m ;; mdo (ret, []) in
  intr <- mutex_lock_interruptible ;;
  if (intr : bool) then mdo (- ERESTARTSYS, [])
  else match cmd with
  | DMX_START =>
    answer (with_lock (f <- fl_get i ;;
                       if fl_state f <? DMXDEV_STATE_SET then mdo (- EINVAL)
                       else dvb_dmxdev_filter_start i))
  | DMX_STOP => answer (with_lock (dvb_dmxdev_filter_stop i))
  | DMX_SET_FILTER params => answer (with_lock (dvb_dmxdev_filter_set i params))
  | DMX_SET_PES_FILTER params => answer (with_lock (dvb_dmxdev_pes_filter_set i params))
  | DMX_SET_BUFFER_SIZE size => answer (with_lock (dvb_dmxdev_set_buffer_size i size))
  | DMX_GET_PES_PIDS =>
    d <- gets dd_demux ;; ps <- the (dvbdmx_get_pes_pids d) ;; mdo (0, ps)
  | DMX_GET_CAPS => answer (call_hook get_caps)
  | DMX_SET_SOURCE => answer (call_hook set_source)
  | DMX_GET_STC => answer (call_hook get_stc)
  | DMX_ADD_PID p => answer (with_lock (dvb_dmxdev_add_pid i p))
  | DMX_REMOVE_PID p => answer (with_lock (dvb_dmxdev_remove_pid i p))
  | DMX_OTHER => mdo (- EINVAL, [])
  end.

Definition readable_mask (rb : dvb_ringbuffer) : Z :=
  let mask := if truthy (rb_error rb)
              then Z.lor (Z.lor (Z.lor POLLIN POLLRDNORM) POLLPRI) POLLERR else 0 in
  if negb (dvb_ringbuffer_empty rb)
  then Z.lor mask (Z.lor (Z.lor POLLIN POLLRDNORM) POLLPRI) else mask.

Definition dvb_demux_poll (i : nat) : dmxM Z :=
  f <- fl_get i ;;
  if negb (fl_state f =? DMXDEV_STATE_GO) && negb (fl_state f =? DMXDEV_STATE_DONE) &&
     negb (fl_state f =? DMXDEV_STATE_TIMEDOUT)
  then mdo 0 else mdo (readable_mask (fl_buffer f)).

(** Also returns whether the process that waits in [dvb_dmxdev_release] is
    woken. *)
Definition dvb_demux_release (i : nat) : dmxM (Z * bool) :=
  ret <- dvb_dmxdev_filter_free i ;;
  n <- gets dd_users ;; modify (set_dd_users (n - 1)) ;;
  exit <- gets dd_exit ;;
  mdo (ret, (n - 1 =? 1) && exit).

Definition dvb_dvr_do_ioctl (cmd : demux_cmd) : dmxM Z :=
  with_lock match cmd with
            | DMX_SET_BUFFER_SIZE size => dvb_dvr_set_buffer_size size
            | _ => mdo (- EINVAL)
            end.

Definition dvb_dvr_poll (accmode : Z) : dmxM Z :=
  rb <- gets dd_dvr_buffer ;;
  if accmode =? O_RDONLY then mdo (readable_mask rb)
  else mdo (Z.lor (Z.lor POLLOUT POLLWRNORM) POLLPRI).

(** [filters] is what the call of vmalloc returns: memory of any content. *)
Definition dvb_dmxdev_init (filters : option (list dmxdev_filter)) : dmxM Z :=
  ret <- demux_call (fun d => Some (dvbdmx_open d)) ;;
  if ret <? 0 then mdo (- EUSERS)
  else match filters with
  | None => modify (set_dd_filter []) ;; mdo (- ENOMEM)
  | Some l =>
    modify (set_dd_filter
      ((fun f => set_fl_state DMXDEV_STATE_FREE
                   (set_fl_buffer (set_data (fl_buffer f) None) f)) <$> l)) ;;
    modify (set_dd_users 1) ;; modify (set_dd_dvr_users 1) ;; modify (set_dd_dvr_readers 1) ;;
    modify (set_dd_dvr_buffer (dvb_ringbuffer_init None 8192)) ;;
    mdo 0
  end.

(** [None]: asleep until the last user of a device is gone, and called again
    then. *)
Definition dvb_dmxdev_release : dmxM (option unit) :=
  modify (set_dd_exit true) ;;
  n <- gets dd_users ;; m <- gets dd_dvr_users ;;
  if n >? 1 then mdo None
  else if m >? 1 then mdo None
  else
    modify (set_dd_filter []) ;;
    demux_call (fun d => Some (dvbdmx_close d)) ;;
    mdo (Some tt).
End ops.
