(* ===== verification/DmxdevRead.v ===== *)
(** What a reader of a demux or DVR device gets (Dmxdev.v, DmxdevFilter.v): the
    device's buffer refines a bounded byte stream with a pending error, and a
    section filter hands out its sections one at a time. *)

From S2P Require Import Prelude StateM RingBuffer DemuxTypes Demux DemuxFeed DmxdevTypes Dmxdev DmxdevFilter.

(** ** The buffer of a device as a stream *)

(** The bytes waiting, and the error to report. *)
Record stream := mk_stream { st_queue : list Z; st_error : Z }.

(** [rb] is a buffer of [cap] bytes in state [s]. *)
Definition holds_stream (rb : dvb_ringbuffer) (cap : Z) (s : stream) : Prop :=
  rb_queue rb cap (st_queue s) /\ rb_error rb = st_error s.

Inductive stream_op :=
  | StreamData (buffer1 buffer2 : list Z)
  | StreamRead (non_blocking : bool) (count : Z)
  | StreamResume (signal : bool) (count todo : Z) (copied : list Z).

(** Data is taken whole or not at all; when it does not fit, what was waiting
    is lost and the error is set.  While the error is pending, data is
    dropped. *)
Definition stream_data (cap : Z) (b1 b2 : list Z) (s : stream) : stream :=
  if truthy (st_error s) then s
  else if zlen (st_queue s) + zlen b1 + zlen b2 <=? cap - 1
  then mk_stream (st_queue s ++ b1 ++ b2) 0
  else mk_stream [] (- EOVERFLOW).

(** [todo] more bytes for a reader that has [copied] of [count]. *)
Definition stream_take (non_blocking : bool) (count todo : Z) (copied : list Z) (s : stream) :
    read_result * stream :=
  let q := st_queue s in
  if todo <=? zlen q then
    (RdDone count (copied ++ take (Z.to_nat todo) q),
     mk_stream (drop (Z.to_nat todo) q) 0)
  else if non_blocking then
    (RdDone (read_return count (todo - zlen q) (- EWOULDBLOCK)) (copied ++ q), mk_stream [] 0)
  else (RdSleep (todo - zlen q) (copied ++ q), mk_stream [] 0).

Definition stream_step (cap : Z) (op : stream_op) (s : stream) : option read_result * stream :=
  match op with
  | StreamData b1 b2 => (None, stream_data cap b1 b2 s)
  | StreamRead nb count =>
    if truthy (st_error s) then (Some (RdDone (st_error s) []), mk_stream [] 0)
    else let (r, s) := stream_take nb count count [] s in (Some r, s)
  | StreamResume signal count todo copied =>
    if signal then (Some (RdDone (read_return count todo (- ERESTARTSYS)) copied), s)
    else if truthy (st_error s)
    then (Some (RdDone (read_return count todo (st_error s)) copied), mk_stream [] 0)
    else let (r, s) := stream_take false count todo copied s in (Some r, s)
  end.

(** The code. *)
Definition buffer_step (copy_to_user : Z -> list Z -> bool) (op : stream_op) (rb : dvb_ringbuffer) :
    option (option read_result * dvb_ringbuffer) :=
  match op with
  | StreamData b1 b2 =>
    if truthy (rb_error rb) then Some (None, rb) else rb ← store_data rb b1 b2; Some (None, rb)
  | StreamRead nb count =>
    '(r, rb) ← dvb_dmxdev_buffer_read copy_to_user rb nb count; Some (Some r, rb)
  | StreamResume signal count todo copied =>
    '(r, rb) ← buffer_read_resume copy_to_user rb signal count todo copied; Some (Some r, rb)
  end.

(** Sizes the C types can hold, and a read that is under way. *)
Definition op_ok (op : stream_op) : Prop :=
  match op with
  | StreamData b1 b2 => zlen b1 < 2 ^ 31 /\ zlen b2 < 2 ^ 31
  | StreamRead _ count => 0 <= count < 2 ^ 63
  | StreamResume _ count todo _ => 0 < todo <= count /\ count < 2 ^ 63
  end.

Lemma holds_data rb cap s : holds_stream rb cap s -> exists d, rb_data rb = Some d.
Proof. intros [(d & Hwf & _) _]. exists d. by destruct Hwf. Qed.

Lemma holds_cap rb cap s : holds_stream rb cap s -> 0 < cap < 2 ^ 62 /\ zlen (st_queue s) < cap.
Proof.
  intros [(d & Hwf & <- & Hq) _]. pose proof (avail_range rb d Hwf).
  rewrite <- Hq, (zlen_contents rb d Hwf). destruct Hwf. lia.
Qed.

Lemma buffer_write_spec rb cap q src :
  rb_queue rb cap q -> zlen src < 2 ^ 31 ->
  if zlen src <=? cap - 1 - zlen q then
    exists rb', dvb_dmxdev_buffer_write rb src (zlen src) = Some (zlen src, rb') /\
      rb_queue rb' cap (q ++ src) /\ rb_error rb' = rb_error rb
  else dvb_dmxdev_buffer_write rb src (zlen src) = Some (- EOVERFLOW, rb).
Proof.
  intros Hq Hs. pose proof (rb_queue_free _ _ _ Hq) as Hf. pose proof (zlen_nonneg src).
  destruct (holds_cap rb cap (mk_stream q (rb_error rb))) as [Hc Hl]; [done|]. cbn in Hl.
  destruct (holds_data rb cap (mk_stream q (rb_error rb))) as [d Hd]; [done|].
  unfold dvb_dmxdev_buffer_write. rewrite Hd, Hf. pose proof (zlen_nonneg q).
  rewrite (wrap_small 64) by lia. rewrite Z.gtb_ltb.
  destruct (Z.eqb_spec (zlen src) 0) as [Hz|Hz].
  - rewrite (proj2 (Z.leb_le _ _)) by lia. exists rb. rewrite Hz.
    destruct src; [by rewrite app_nil_r|]. unfold zlen in Hz. cbn in Hz. lia.
  - destruct (Z.leb_spec (zlen src) (cap - 1 - zlen q)).
    + rewrite (proj2 (Z.ltb_ge _ _)) by lia.
      destruct (rb_queue_write _ _ _ src Hq) as (rb' & Hw & Hq' & He); [lia|].
      rewrite Hw. cbn. rewrite s32_small by lia. eauto.
    + by rewrite (proj2 (Z.ltb_lt _ _)) by lia.
Qed.

Lemma store_data_spec rb cap s b1 b2 :
  holds_stream rb cap s -> st_error s = 0 -> zlen b1 < 2 ^ 31 -> zlen b2 < 2 ^ 31 ->
  exists rb', store_data rb b1 b2 = Some rb' /\ holds_stream rb' cap (stream_data cap b1 b2 s).
Proof.
  intros [Hq He] H0 H1 H2. pose proof (zlen_nonneg b1). pose proof (zlen_nonneg b2).
  unfold store_data, stream_data. rewrite H0. cbn [negb Z.eqb].
  assert (Hover : forall rb1 q1, rb_queue rb1 cap q1 ->
    holds_stream (set_error (dvb_ringbuffer_flush rb1) (- EOVERFLOW)) cap
      (mk_stream [] (- EOVERFLOW))).
  { intros rb1 q1 Hq1. split; [|done]. cbn.
    destruct (rb_queue_flush _ _ _ Hq1) as (d & [] & Hc & Hx). exists d. by split. }
  pose proof (buffer_write_spec _ _ _ b1 Hq H1) as Hw.
  destruct (Z.leb_spec (zlen b1) (cap - 1 - zlen (st_queue s))).
  - destruct Hw as (rb1 & -> & Hq1 & He1). cbn [mbind option_bind].
    rewrite wrap_small, Z.eqb_refl by lia. pose proof (buffer_write_spec _ _ _ b2 Hq1 H2) as Hw2.
    rewrite zlen_app in Hw2.
    destruct (Z.leb_spec (zlen b2) (cap - 1 - (zlen (st_queue s) + zlen b1))).
    + destruct Hw2 as (rb2 & -> & Hq2 & He2). cbn [mbind option_bind].
      rewrite (proj2 (Z.ltb_ge _ _)), (proj2 (Z.leb_le _ _)) by lia.
      exists rb2. split; [done|]. split; cbn; [by rewrite app_assoc|congruence].
    + rewrite Hw2. cbn [mbind option_bind]. rewrite (proj2 (Z.leb_gt _ _)) by lia. cbn.
      eauto.
  - rewrite Hw. cbn [mbind option_bind]. rewrite (proj2 (Z.leb_gt _ _)) by lia.
    destruct (Z.eqb_spec (u64 (- EOVERFLOW)) (zlen b1)) as [Hx|_].
    { assert (u64 (- EOVERFLOW) = 2 ^ 64 - 75) as Hu by done. lia. }
    cbn. eauto.
Qed.

Section reads.
Context (ctu : Z -> list Z -> bool) (Hctu : forall off s, ctu off s = false).

Lemma read_turn_spec rb cap q count todo copied :
  holds_stream rb cap (mk_stream q 0) -> 0 < todo < 2 ^ 63 ->
  exists rb', read_turn ctu rb count todo copied =
      Some (inl (todo - Z.min todo (zlen q), copied ++ take (Z.to_nat todo) q), rb') /\
    holds_stream rb' cap (mk_stream (drop (Z.to_nat todo) q) 0).
Proof.
  intros Hs Ht. pose proof (holds_cap _ _ _ Hs) as [Hc Hl]. destruct Hs as [Hq He].
  cbn in Hq, He, Hl. pose proof (zlen_nonneg q). unfold read_turn. rewrite He. cbn.
  rewrite (rb_queue_avail _ _ _ Hq), wrap_small, Z.gtb_ltb by lia.
  set (n := if todo <? zlen q then todo else zlen q).
  assert (Hn : n = Z.min todo (zlen q)) by (unfold n; ztest; lia).
  destruct (rb_queue_read _ _ _ n Hq) as (rb' & Hr & Hq' & He'); [lia|].
  destruct Hq as (d & Hwf & Hcap & Hcont).
  rewrite (read_user_eq rb d Hwf) by (auto; lia). rewrite Hr. cbn.
  rewrite (proj2 (Z.ltb_ge _ _)) by lia. exists rb'. rewrite Hn.
  assert (take (Z.to_nat n) q = take (Z.to_nat todo) q /\
                  drop (Z.to_nat n) q = drop (Z.to_nat todo) q) as [<- <-].
  { destruct (decide (todo <= zlen q)); [replace n with todo by lia; done|].
    replace n with (zlen q) by lia. unfold zlen in *.
    rewrite !take_ge, !drop_ge by lia. done. }
  rewrite Hn. split; [done|]. rewrite Hn in Hq'. split; cbn; [done|congruence].
Qed.

Lemma read_loop_spec rb cap q nb count todo copied :
  holds_stream rb cap (mk_stream q 0) -> 0 <= todo <= count -> count < 2 ^ 63 ->
  exists rb', read_loop ctu 2 rb nb count todo 0 copied =
      Some ((stream_take nb count todo copied (mk_stream q 0)).1, rb') /\
    holds_stream rb' cap (stream_take nb count todo copied (mk_stream q 0)).2.
Proof.
  intros Hs Ht Hc. unfold stream_take. cbn [st_queue]. cbn [read_loop].
  rewrite Z.gtb_ltb. destruct (Z.ltb_spec 0 todo) as [Hpos|Hz].
  2:{ assert (todo = 0) as -> by lia. pose proof (zlen_nonneg q).
      rewrite (proj2 (Z.leb_le _ _)) by lia. cbn. exists rb.
      rewrite app_nil_r, drop_0. unfold read_return. rewrite Z.sub_0_r.
      split; [|done]. destruct (Z.eqb_spec count 0) as [->|]; done. }
  assert (Hempty : dvb_ringbuffer_empty rb = bool_decide (q = [])).
  { destruct Hs as [Hq _]. apply rb_queue_empty in Hq. cbn in Hq.
    case_bool_decide as Hb; [by apply Hq|]. apply not_true_iff_false. tauto. }
  assert (Herr : rb_error rb = 0) by apply Hs.
  destruct (decide (q = [])) as [->|Hne].
  - rewrite Hempty, bool_decide_true, Herr by done. cbn. rewrite zlen_nil, Z.sub_0_r, app_nil_r.
    rewrite (proj2 (Z.leb_gt _ _)) by lia. destruct nb; cbn; eauto.
  - rewrite Hempty, bool_decide_false by done. rewrite andb_false_r. cbn [andb].
    destruct (read_turn_spec rb cap q count todo copied Hs) as (rb' & -> & Hs'); [lia|].
    cbn [mbind option_bind]. pose proof (zlen_nonneg q). rewrite Z.gtb_ltb.
    destruct (Z.leb_spec todo (zlen q)) as [Hle|Hgt].
    + rewrite Z.min_l, Z.sub_diag by lia. cbn. exists rb'. split; [|done].
      unfold read_return. rewrite !Z.sub_0_r. destruct (Z.eqb_spec count 0); [lia|done].
    + rewrite Z.min_r, (proj2 (Z.ltb_lt _ _)) by lia.
      unfold zlen in *. rewrite take_ge, drop_ge in * by lia.
      assert (dvb_ringbuffer_empty rb' = true) as ->.
      { eapply rb_queue_empty; [apply Hs'|done]. }
      rewrite andb_true_r. assert (rb_error rb' = 0) as -> by apply Hs'. cbn.
      destruct nb; eauto.
Qed.

Lemma flush_holds rb cap s :
  holds_stream rb cap s -> holds_stream (dvb_ringbuffer_flush rb) cap (mk_stream [] 0).
Proof. intros [Hq _]. split; [by eapply rb_queue_flush|done]. Qed.

Lemma resume_spec rb cap s signal count todo copied :
  holds_stream rb cap s -> 0 < todo <= count -> count < 2 ^ 63 ->
  exists r rb', buffer_read_resume ctu rb signal count todo copied = Some (r, rb') /\
    stream_step cap (StreamResume signal count todo copied) s =
      (Some r, (stream_step cap (StreamResume signal count todo copied) s).2) /\
    holds_stream rb' cap (stream_step cap (StreamResume signal count todo copied) s).2.
Proof.
  intros Hs Ht Hc. unfold buffer_read_resume. cbn [stream_step].
  destruct signal; [by do 2 eexists|]. destruct (Z.eqb_spec (st_error s) 0) as [H0|Hne]; cbn [negb].
  - destruct s as [q e]. cbn in H0. subst e.
    destruct (read_loop_spec rb cap q false count todo copied) as (rb' & -> & Hs'); [done|lia..|].
    destruct (stream_take _ _ _ _ _) as [r s']. cbn in *. eauto.
  - cbn [read_loop]. rewrite Z.gtb_ltb, (proj2 (Z.ltb_lt _ _)) by lia.
    cbn [andb]. assert (rb_error rb = st_error s) as He by apply Hs.
    assert ((rb_error rb =? 0) = false) as Hz by (apply Z.eqb_neq; lia).
    rewrite Hz, andb_false_r. unfold read_turn. rewrite Hz. cbn. rewrite He.
    do 2 eexists. split_and!; [done..|]. by eapply flush_holds.
Qed.

Lemma buffer_step_refines rb cap s op :
  holds_stream rb cap s -> op_ok op ->
  exists rb', buffer_step ctu op rb = Some ((stream_step cap op s).1, rb') /\
    holds_stream rb' cap (stream_step cap op s).2.
Proof.
  intros Hs Hop. pose proof Hs as [Hq He]. destruct op as [b1 b2|nb count|signal count todo copied].
  - cbn [buffer_step stream_step fst snd]. rewrite He. destruct (Z.eqb_spec (st_error s) 0) as [H0|H0]; cbn [negb].
    + destruct Hop. destruct (store_data_spec rb cap s b1 b2 Hs H0) as (rb' & -> & Hs'); [done..|].
      cbn [mbind option_bind]. eauto.
    + exists rb. split; [done|]. unfold stream_data. by rewrite (proj2 (Z.eqb_neq _ _)).
  - cbn [buffer_step stream_step]. cbn in Hop. unfold dvb_dmxdev_buffer_read.
    destruct (holds_data _ _ _ Hs) as [d ->]. rewrite He.
    destruct (Z.eqb_spec (st_error s) 0) as [H0|H0]; cbn [negb].
    + destruct s as [q e]. cbn in H0. subst e.
      destruct (read_loop_spec rb cap q nb count count [] Hs) as (rb' & -> & Hs'); [lia..|].
      destruct (stream_take _ _ _ _ _) as [r s']. cbn in *. eauto.
    + cbn. eexists. split; [done|]. by eapply flush_holds.
  - destruct Hop. destruct (resume_spec rb cap s signal count todo copied Hs)
      as (r & rb' & Hr & Hstep & Hs'); [lia..|].
    exists rb'. rewrite Hstep. cbn [buffer_step fst snd]. rewrite Hr. by rewrite Hstep in Hs'.
Qed.
End reads.

Fixpoint buffer_run (ctu : Z -> list Z -> bool) (ops : list stream_op) (rb : dvb_ringbuffer) :
    option (list read_result * dvb_ringbuffer) :=
  match ops with
  | [] => Some ([], rb)
  | op :: ops =>
    '(r, rb) ← buffer_step ctu op rb; '(rs, rb) ← buffer_run ctu ops rb;
    Some (option_list r ++ rs, rb)
  end.

Fixpoint stream_run (cap : Z) (ops : list stream_op) (s : stream) : list read_result * stream :=
  match ops with
  | [] => ([], s)
  | op :: ops =>
    let (r, s) := stream_step cap op s in let (rs, s) := stream_run cap ops s in
    (option_list r ++ rs, s)
  end.

(** Claim C15: the buffer of a demux or DVR device, under the callbacks that fill
    it and the reads that empty it, refines a byte stream of [size - 1] bytes
    with a pending error.  For any sequence of arrivals (of data in two parts),
    reads (blocking or not) and resumptions of sleeping reads, by a wake-up or
    a signal, no access leaves the buffer and every read gives exactly the bytes
    and the result of the stream: bytes in order of arrival, a short count or
    -EWOULDBLOCK without blocking, sleep when blocking, and -EOVERFLOW once for
    data that did not fit, which empties the stream. *)
Theorem device_buffer_refines_stream ctu ops rb cap s :
  (forall off l, ctu off l = false) -> Forall op_ok ops -> holds_stream rb cap s ->
  exists rb', buffer_run ctu ops rb = Some ((stream_run cap ops s).1, rb') /\
    holds_stream rb' cap (stream_run cap ops s).2.
Proof.
  intros Hctu Hops. revert rb s. induction Hops as [|op ops Hop _ IH]; intros rb s Hs; cbn.
  { eauto. }
  destruct (buffer_step_refines ctu Hctu rb cap s op Hs Hop) as (rb1 & -> & Hs1).
  destruct (stream_step cap op s) as [r s1]. cbn in *.
  destruct (IH rb1 s1 Hs1) as (rb2 & -> & Hs2). destruct (stream_run cap ops s1). cbn in *. eauto.
Qed.

Lemma device_buffer_refines_stream_witness :
  let ops := [StreamData [1; 2; 3] []; StreamRead true 2; StreamRead false 5;
              StreamData [4; 5] [6; 7]; StreamResume false 5 4 [3];
              StreamData [8; 9] []; StreamData [10; 11; 12] [13; 14; 15]; StreamRead true 9;
              StreamRead true 9] in
  let rb := dvb_ringbuffer_init (Some (replicate 8 0)) 8 in
  exists rb', buffer_run (fun _ _ => false) ops rb =
    Some ([RdDone 2 [1; 2]; RdSleep 4 [3]; RdDone 5 [3; 4; 5; 6; 7];
           RdDone (- EOVERFLOW) []; RdDone (- EWOULDBLOCK) []], rb') /\
  holds_stream rb' 8 (mk_stream [] 0).
Proof.
  intros ops rb.
  apply (device_buffer_refines_stream (fun _ _ => false) ops rb 8 (mk_stream [] 0)); [done| |].
  - repeat constructor; vm_compute; done.
  - split; [|done]. apply (rb_queue_init (replicate 8 0)). vm_compute. done.
Defined.
