(* ===== verification/DmxdevSection.v ===== *)
(** Reading a section filter (DmxdevFilter.v): [dvb_dmxdev_read_sec] finds the
    sections again in the bytes of the filter's buffer, and gives a reader at
    most one section at a time. *)

From S2P Require Import Prelude StateM RingBuffer DemuxTypes Demux DemuxSection DemuxFeed DmxdevTypes Dmxdev DmxdevFilter DmxdevRead.

(** Bytes whose header announces their length. *)
Definition is_section (s : list Z) : Prop :=
  Forall DemuxSection.is_byte s /\ section_len s = Some (zlen s).

(** The state with another filter and tick. *)
Definition put_fl (i : nat) (f : dmxdev_filter) (t : nat) (s : dmxdev) : dmxdev :=
  set_dd_tick t (set_dd_filter (<[i := f]> (dd_filter s)) s).

(** What a read leaves alone. *)
Definition frame_of (f : dmxdev_filter) :=
  (fl_sec f, fl_feed f, fl_params f, fl_type f, fl_state f).

(** Filter [f] has the sections [secs] waiting, and its reader has already got
    [pos] bytes of the first of them. *)
Record sec_reader (f0 f : dmxdev_filter) (cap pos : Z) (secs : list (list Z)) : Prop := {
  sr_frame : frame_of f = frame_of f0;
  sr_secs : Forall is_section secs;
  sr_pos : match secs with [] => pos = 0 | s :: _ => 0 <= pos < zlen s end;
  sr_buf : holds_stream (fl_buffer f) cap (mk_stream (drop (Z.to_nat pos) (concat secs)) 0);
  sr_len : zlen (fl_secheader f) = 3;
  sr_todo : fl_todo f = match secs with
                        | [] => 0
                        | s :: _ => if pos <? 3 then - pos else zlen s - pos
                        end;
  sr_header : pos < 3 -> slice (fl_secheader f) 0 pos = slice (concat secs) 0 pos;
}.

(** One read: as much of the first section as is asked for and left. *)
Definition next_piece (pos count : Z) (s : list Z) : list Z :=
  slice s pos (Z.min count (zlen s - pos)).
Definition advance (pos count : Z) (s : list Z) (rest : list (list Z)) : Z * list (list Z) :=
  let p := pos + Z.min count (zlen s - pos) in if p =? zlen s then (0, rest) else (p, s :: rest).

(** ** Lemmas *)

Lemma header_length a b :
  0 <= a < 256 -> 0 <= b < 256 ->
  Z.land (Z.lor (Z.shiftl a 8) b) 0xfff = Z.shiftl (Z.land a 0x0f) 8 + b.
Proof.
  intros Ha Hb. rewrite (land_mask _ 12), (land_mask _ 4), !Z.shiftl_mul_pow2 by done.
  assert (Z.lor (a * 2 ^ 8) b = a * 2 ^ 8 + b) as ->.
  { symmetry. rewrite <- Z.shiftl_mul_pow2 by done. apply Z.add_nocarry_lor, Z.bits_inj'.
    intros i Hi. rewrite Z.land_spec, Z.bits_0, Z.shiftl_spec by done.
    destruct (decide (i < 8)); [by rewrite Z.testbit_neg_r by lia|].
    by rewrite (testbit_above 8 b), andb_false_r by lia. }
  pose proof (Z.div_mod a (2 ^ 4)). pose proof (Z.mod_pos_bound a (2 ^ 4)).
  symmetry. apply (Z.mod_unique _ _ (a / 2 ^ 4)); lia.
Qed.

Lemma section_header s :
  is_section s -> 3 <= zlen s <= 4096 /\ exists a b, s.[1] = Some a /\ s.[2] = Some b /\
    Z.land (Z.lor (Z.shiftl a 8) b) 0xfff = zlen s - 3.
Proof.
  intros [Hb Hl]. pose proof (section_len_inv _ _ Hb Hl) as [Hn _]. split; [exact Hn|].
  assert (Hbyte : forall i x, s.[i] = Some x -> 0 <= x < 256).
  { intros i x [_ Hx]%mget_Some. exact (Forall_lookup_1 _ _ _ _ Hb Hx). }
  unfold section_len in Hl.
  destruct (s.[1]) as [a|] eqn:Ha, (s.[2]) as [b|] eqn:Hb2; cbn [mbind option_bind] in Hl; try done.
  exists a, b. split_and!; [done..|]. apply Hbyte in Ha, Hb2.
  rewrite header_length by done. case_match eqn:Hc; [|done].
  injection Hl as Hl. pose proof (land_bound a 0x0f 4) as Hla.
  rewrite Z.shiftl_mul_pow2 in * by done. rewrite wrap_small in Hl by lia. lia.
Qed.

Section reader.
Context {DE : DemuxEnv} {E : DmxdevEnv} {C : UserMemoryMapped E}.

Lemma wp_fl_get {B} i f (k : dmxdev_filter -> dmxM B) s Q :
  dd_filter s !! i = Some f -> wp (k f) s Q -> wp (mthen (fl_get i) k) s Q.
Proof. intros Hf Hk. unfold wp, mthen, fl_get, gets, the, mdo. unfold mthen. by rewrite Hf. Qed.

Lemma fl_upd_eq i f g s :
  dd_filter s !! i = Some f -> fl_upd i g s = Some (tt, put_fl i (g f) (dd_tick s) s).
Proof.
  intros Hf. unfold fl_upd, fl_get, gets, modify, the, mdo. unfold mthen. rewrite Hf.
  unfold put_fl. by destruct s.
Qed.

Lemma wp_fl_upd {B} i f g (k : unit -> dmxM B) s Q :
  dd_filter s !! i = Some f -> wp (k tt) (put_fl i (g f) (dd_tick s) s) Q ->
  wp (mthen (fl_upd i g) k) s Q.
Proof. intros Hf Hk. unfold wp, mthen. by rewrite (fl_upd_eq i f g s Hf). Qed.

Lemma put_fl_lookup i f t s g : dd_filter s !! i = Some g -> dd_filter (put_fl i f t s) !! i = Some f.
Proof. intros Hg. cbn. apply list_lookup_insert_eq. by eapply lookup_lt_Some. Qed.

Lemma put_fl_put_fl i f t g u s : put_fl i f t (put_fl i g u s) = put_fl i f t s.
Proof. unfold put_fl. cbn. by rewrite list_insert_insert_eq. Qed.

(** The same accesses once the filter has been written. *)
Lemma wp_put_get {B} i g f t (k : dmxdev_filter -> dmxM B) s Q :
  dd_filter s !! i = Some g -> wp (k f) (put_fl i f t s) Q ->
  wp (mthen (fl_get i) k) (put_fl i f t s) Q.
Proof. intros Hg. apply wp_fl_get. by eapply put_fl_lookup. Qed.

Lemma wp_put_upd {B} i g f t h (k : unit -> dmxM B) s Q :
  dd_filter s !! i = Some g -> wp (k tt) (put_fl i (h f) t s) Q ->
  wp (mthen (fl_upd i h) k) (put_fl i f t s) Q.
Proof.
  intros Hg Hk. eapply wp_fl_upd; [by eapply put_fl_lookup|]. by rewrite put_fl_put_fl.
Qed.

Lemma wp_put_tick {B} i f t (k : nat -> dmxM B) s Q :
  wp (k t) (put_fl i f (S t) s) Q -> wp (mthen tick k) (put_fl i f t s) Q.
Proof. intros Hk. apply wp_mthen. unfold tick. apply wp_gets, wp_modify, wp_mdo. exact Hk. Qed.

(** A read of bytes that are there. *)
Lemma wp_buffer_read {B} i f cap q nb n (k : read_result -> dmxM B) s Q :
  dd_filter s !! i = Some f -> holds_stream (fl_buffer f) cap (mk_stream q 0) ->
  0 <= n <= zlen q ->
  (forall rb, holds_stream rb cap (mk_stream (drop (Z.to_nat n) q) 0) ->
     wp (k (RdDone n (slice q 0 n))) (put_fl i (set_fl_buffer rb f) (S (dd_tick s)) s) Q) ->
  wp (mthen (buffer_read (Some i) nb n) k) s Q.
Proof.
  intros Hf Hs Hn Hk. pose proof (holds_cap _ _ _ Hs) as [Hc Hl]. cbn in Hl.
  destruct (buffer_step_refines (copy_to_user (dd_tick s)) (mapped_to _) _ _ _
              (StreamRead nb n) Hs) as (rb & Hr & Hs'); [cbn; lia|].
  cbn in Hr, Hs'. unfold stream_take in Hr, Hs'. cbn in Hr, Hs'.
  rewrite (proj2 (Z.leb_le _ _)) in Hr, Hs' by lia. cbn in Hr, Hs'.
  apply bind_Some in Hr as ([r rb1] & Hr & [= -> ->]).
  apply wp_mthen. unfold buffer_read. cbn [get_buffer put_buffer].
  apply wp_mthen. eapply wp_fl_get; [exact Hf|]. apply wp_mdo.
  apply wp_mthen. unfold tick. apply wp_gets, wp_modify, wp_mdo.
  eapply wp_the; [exact Hr|]. cbn [fst snd].
  eapply wp_fl_upd; [exact Hf|]. apply wp_mdo.
  change (slice q 0 n) with (take (Z.to_nat n) q) in Hk.
  specialize (Hk rb Hs'). unfold put_fl in *. destruct s. exact Hk.
Qed.

(** The rest of the first section, from byte [pos] of its payload on. *)
Lemma wp_read_payload i f0 f cap pos s0 rest nb count done before s Q :
  dd_filter s !! i = Some f -> Forall is_section (s0 :: rest) ->
  holds_stream (fl_buffer f) cap (mk_stream (drop (Z.to_nat pos) (concat (s0 :: rest))) 0) ->
  zlen (fl_secheader f) = 3 -> 3 <= pos <= zlen s0 -> fl_todo f = zlen s0 - pos ->
  0 <= count < 2 ^ 63 -> frame_of f = frame_of f0 ->
  (forall f' t, sec_reader f0 f' cap (advance pos count s0 rest).1 (advance pos count s0 rest).2 ->
     Q (SecDone (Z.min count (zlen s0 - pos) + done) (before ++ next_piece pos count s0))
       (put_fl i f' t s)) ->
  wp (read_payload i nb count done before) s Q.
Proof.
  intros Hf Hsec Hbuf Hhd Hpos Htodo Hcount Hframe HQ.
  pose proof (Forall_inv Hsec) as Hs0. destruct (section_header _ Hs0) as [Hlen _].
  set (n := Z.min count (zlen s0 - pos)).
  assert (Hq : drop (Z.to_nat pos) (concat (s0 :: rest)) = drop (Z.to_nat pos) s0 ++ concat rest).
  { cbn. rewrite drop_app_le; [done|]. unfold zlen in *. lia. }
  assert (Hzq : n <= zlen (drop (Z.to_nat pos) (concat (s0 :: rest)))).
  { rewrite Hq, zlen_app, zlen_drop by lia. pose proof (zlen_nonneg (concat rest)). lia. }
  unfold read_payload. eapply wp_fl_get; [exact Hf|]. rewrite Htodo.
  rewrite (wrap_small 64), Z.gtb_ltb by lia.
  replace (if zlen s0 - pos <? count then zlen s0 - pos else count) with n by (unfold n; ztest; lia).
  cbv zeta. eapply wp_buffer_read; [exact Hf|exact Hbuf|unfold n in *; lia|]. intros rb Hrb.
  unfold payload_read. rewrite s32_small by lia. rewrite (proj2 (Z.ltb_ge _ _)) by lia.
  eapply wp_fl_upd; [by eapply put_fl_lookup|]. rewrite put_fl_put_fl. apply wp_mdo.
  assert (slice (drop (Z.to_nat pos) (concat (s0 :: rest))) 0 n = next_piece pos count s0) as ->.
  { rewrite Hq, slice_app_l, slice_drop, Z.add_0_r by (rewrite ?zlen_drop; lia). done. }
  apply HQ. cbn [fl_todo set_fl_buffer]. rewrite Htodo, s32_small by lia.
  unfold advance. fold n. rewrite drop_drop in Hrb.
  replace (Z.to_nat pos + Z.to_nat n)%nat with (Z.to_nat (pos + n)) in Hrb by lia.
  destruct (Z.eqb_spec (pos + n) (zlen s0)) as [He|Hne]; cbn [fst snd].
  - split; cbn [fl_buffer fl_secheader fl_todo set_fl_buffer set_fl_todo].
    + done.
    + by apply Forall_inv_tail in Hsec.
    + destruct rest as [|s1 rest]; [done|].
      apply Forall_inv_tail, Forall_inv, section_header in Hsec as [? _]. lia.
    + replace (drop (Z.to_nat (pos + n)) (concat (s0 :: rest))) with (concat rest) in Hrb; [done|].
      cbn. rewrite He. unfold zlen. rewrite Nat2Z.id. by rewrite drop_app_length.
    + done.
    + destruct rest; cbn; lia.
    + intros _. done.
  - split; cbn [fl_buffer fl_secheader fl_todo set_fl_buffer set_fl_todo]; try done; try lia.
    rewrite (proj2 (Z.ltb_ge _ _)) by lia. lia.
Qed.

(** The reader's state after [h] more bytes of the header. *)
Lemma header_reader f0 f cap pos s0 rest h rb hd todo :
  sec_reader f0 f cap pos (s0 :: rest) -> 0 <= h -> pos + h <= 3 ->
  holds_stream rb cap (mk_stream (drop (Z.to_nat (pos + h)) (concat (s0 :: rest))) 0) ->
  zlen hd = 3 -> slice hd 0 (pos + h) = slice s0 0 (pos + h) ->
  todo = (if pos + h <? 3 then - (pos + h) else zlen s0 - 3) ->
  sec_reader f0 (set_fl_todo todo (set_fl_secheader hd (set_fl_buffer rb f))) cap
    (advance pos h s0 rest).1 (advance pos h s0 rest).2.
Proof.
  intros [Hframe Hsec Hpos _ _ _ _] Hh Hle Hrb Hhd Hpre ->.
  destruct (section_header _ (Forall_inv Hsec)) as [Hlen _].
  unfold advance. rewrite Z.min_l by lia.
  destruct (Z.eqb_spec (pos + h) (zlen s0)) as [He|Hne]; cbn [fst snd];
    split; cbn [fl_buffer fl_secheader fl_todo set_fl_buffer set_fl_secheader set_fl_todo];
    try done.
  - by apply Forall_inv_tail in Hsec.
  - destruct rest as [|s1 rest]; [done|].
    apply Forall_inv_tail, Forall_inv, section_header in Hsec as [? _]. lia.
  - replace (drop (Z.to_nat (pos + h)) (concat (s0 :: rest))) with (concat rest) in Hrb; [done|].
    cbn [concat app]. rewrite He. unfold zlen. rewrite Nat2Z.id. by rewrite drop_app_length.
  - rewrite (proj2 (Z.ltb_ge _ _)) by lia. destruct rest; cbn; lia.
  - lia.
  - ztest; lia.
  - intros _. cbn [concat]. rewrite slice_app_l by lia. done.
Qed.

(** The header: [pos] of its three bytes are already read. *)
Lemma wp_header_read i f0 f cap pos s0 rest nb count h s Q :
  dd_filter s !! i = Some f -> sec_reader f0 f cap pos (s0 :: rest) -> pos < 3 ->
  h = Z.min (3 - pos) count -> 0 <= count < 2 ^ 63 ->
  (forall f' t, sec_reader f0 f' cap (advance pos count s0 rest).1 (advance pos count s0 rest).2 ->
     Q (SecDone (Z.min count (zlen s0 - pos)) (next_piece pos count s0)) (put_fl i f' t s)) ->
  wp (mthen (buffer_read (Some i) nb h) (header_read i nb h count)) s Q.
Proof.
  intros Hf Hrd Hp3 Hh Hcount HQ. pose proof Hrd as [Hframe Hsec Hpos Hbuf Hhd Htodo Hheader].
  rewrite (proj2 (Z.ltb_lt _ _)) in Htodo by lia. specialize (Hheader Hp3).
  cbn [concat] in Hheader.
  destruct (section_header _ (Forall_inv Hsec)) as (Hlen & a & b & Ha & Hb & Hab).
  rewrite slice_app_l in Hheader by lia.
  assert (Hq : drop (Z.to_nat pos) (concat (s0 :: rest)) = drop (Z.to_nat pos) s0 ++ concat rest).
  { cbn. rewrite drop_app_le; [done|]. unfold zlen in *. lia. }
  assert (Hzq : h <= zlen (drop (Z.to_nat pos) (concat (s0 :: rest)))).
  { rewrite Hq, zlen_app, zlen_drop by lia. pose proof (zlen_nonneg (concat rest)). lia. }
  eapply wp_buffer_read; [exact Hf|exact Hbuf|lia|]. intros rb Hrb. unfold header_read.
  rewrite s32_small by lia. cbv zeta. rewrite (proj2 (Z.ltb_ge _ _)) by lia.
  apply wp_put_tick. rewrite mapped_from, slice_slice, Z.add_0_r by lia.
  rewrite Hq, slice_app_l, slice_drop, Z.add_0_r by (rewrite ?zlen_drop; lia).
  eapply wp_put_get; [exact Hf|]. cbn [fl_secheader fl_todo set_fl_buffer].
  rewrite Htodo, Z.opp_involutive, mwrite_Some by (rewrite ?zlen_slice; lia).
  eapply wp_the; [done|]. set (hd := blit (fl_secheader f) pos (slice s0 pos h)).
  assert (Hhd' : zlen hd = 3) by (unfold hd; rewrite zlen_blit by (rewrite ?zlen_slice; lia); lia).
  assert (Hpre : slice hd 0 (pos + h) = slice s0 0 (pos + h)).
  { unfold hd. pose proof (blit_prefix (fl_secheader f) (slice s0 pos h) pos) as Hbp.
    rewrite zlen_slice in Hbp by lia. rewrite Hbp, Hheader, slice_app by lia. done. }
  do 2 (eapply wp_put_upd; [exact Hf|]). rewrite s32_small, Z.gtb_ltb by lia.
  rewrite drop_drop in Hrb.
  replace (Z.to_nat pos + Z.to_nat h)%nat with (Z.to_nat (pos + h)) in Hrb by lia.
  pose proof (fun todo => header_reader _ _ _ _ _ _ h rb hd todo Hrd) as Hnew.
  destruct (Z.ltb_spec (-3) (- pos - h)) as [Hshort|Hfull].
  - assert (h = count) as -> by lia. apply wp_mdo.
    rewrite Z.min_l in HQ by lia. unfold next_piece in HQ. rewrite Z.min_l in HQ by lia.
    apply HQ, Hnew; try done; try lia. rewrite (proj2 (Z.ltb_lt _ _)) by lia. lia.
  - assert (Hph : pos + h = 3) by lia. rewrite Hph in *.
    assert (Hget : forall j x, 0 <= j < 3 -> s0.[j] = Some x -> hd.[j] = Some x).
    { intros j x Hj Hx. replace j with (0 + j) by lia.
      rewrite <- (mget_slice hd 0 3), Hpre, mget_slice by lia. done. }
    eapply wp_the; [apply (Hget 1); [lia|exact Ha]|].
    eapply wp_the; [apply (Hget 2); [lia|exact Hb]|].
    eapply wp_put_upd; [exact Hf|]. rewrite Hab.
    destruct (Z.eqb_spec (count - h) 0) as [Hc|Hc].
    + assert (count = h) as -> by lia. apply wp_mdo.
      unfold next_piece in HQ. rewrite Z.min_l in HQ by lia. apply HQ, Hnew; done || lia.
    + match goal with |- wp _ (put_fl i ?f' ?t _) _ => set (f1 := f'); set (t1 := t) end.
      eapply (wp_read_payload i f0 f1 cap 3);
        [by eapply put_fl_lookup|done|done|done|lia|done|lia|done|].
      intros f' t Hf'. rewrite put_fl_put_fl.
      assert (advance 3 (count - h) s0 rest = advance pos count s0 rest) as Hadv.
      { unfold advance. replace (3 + Z.min (count - h) (zlen s0 - 3))
          with (pos + Z.min count (zlen s0 - pos)) by lia. done. }
      rewrite Hadv in Hf'. specialize (HQ f' t Hf').
      replace (Z.min (count - h) (zlen s0 - 3) + h) with (Z.min count (zlen s0 - pos)) by lia.
      assert (slice s0 pos h ++ next_piece 3 (count - h) s0 = next_piece pos count s0) as ->;
        [|exact HQ].
      unfold next_piece. rewrite <- Hph, <- slice_app by lia. f_equal. lia.
Qed.

(** A read while sections are waiting. *)
Lemma wp_read_sec i f0 f cap pos s0 rest nb count s (Q : sec_result -> dmxdev -> Prop) :
  dd_filter s !! i = Some f -> sec_reader f0 f cap pos (s0 :: rest) -> 0 <= count < 2 ^ 63 ->
  (forall f' t, sec_reader f0 f' cap (advance pos count s0 rest).1 (advance pos count s0 rest).2 ->
     Q (SecDone (Z.min count (zlen s0 - pos)) (next_piece pos count s0)) (put_fl i f' t s)) ->
  wp (dvb_dmxdev_read_sec i nb count) s Q.
Proof.
  intros Hf Hrd Hcount HQ. pose proof Hrd as [Hframe Hsec Hpos Hbuf Hhd Htodo Hheader].
  unfold dvb_dmxdev_read_sec. eapply wp_fl_get; [exact Hf|]. rewrite Htodo.
  destruct (Z.ltb_spec pos 3) as [Hlt|Hge].
  - rewrite (proj2 (Z.leb_le _ _)), s32_small, (wrap_small 64 (3 + - pos)), Z.gtb_ltb by lia. cbv zeta.
    assert ((if count <? 3 + - pos then s32 count else 3 + - pos) = Z.min (3 - pos) count) as ->.
    { ztest; [rewrite s32_small by lia|]; lia. }
    rewrite wrap_small by lia. by eapply wp_header_read.
  - rewrite (proj2 (Z.leb_gt _ _)) by lia.
    eapply wp_read_payload; try done; [lia|]. intros f' t Hf'. rewrite Z.add_0_r. by apply HQ.
Qed.

(** Without sections waiting. *)
Lemma wp_read_none i f0 f cap count s (Q : sec_result -> dmxdev -> Prop) :
  dd_filter s !! i = Some f -> sec_reader f0 f cap 0 [] -> 0 < count < 2 ^ 63 ->
  (forall f' t, sec_reader f0 f' cap 0 [] -> Q (SecDone (- EWOULDBLOCK) []) (put_fl i f' t s)) ->
  wp (dvb_dmxdev_read_sec i true count) s Q.
Proof.
  intros Hf Hrd Hcount HQ. pose proof Hrd as [Hframe _ _ Hbuf Hhd Htodo _].
  cbn [concat] in Hbuf. rewrite drop_nil in Hbuf.
  unfold dvb_dmxdev_read_sec. eapply wp_fl_get; [exact Hf|]. rewrite Htodo. cbn [Z.leb Z.compare].
  set (h := u64 _). assert (0 < h <= 3).
  { unfold h. change (s32 (3 + 0)) with 3. change (u64 3) with 3. rewrite Z.gtb_ltb.
    ztest; [rewrite s32_small by lia|]; rewrite wrap_small; lia. }
  cbv zeta. fold h. clearbody h.
  destruct (buffer_step_refines (copy_to_user (dd_tick s)) (mapped_to _) _ _ _
              (StreamRead true h) Hbuf) as (rb & Hr & Hs'); [cbn; lia|].
  cbn in Hr, Hs'. unfold stream_take in Hr, Hs'. cbn in Hr, Hs'.
  rewrite zlen_nil, (proj2 (Z.leb_gt _ _)) in Hr, Hs' by lia. cbn in Hr, Hs'.
  rewrite Z.sub_0_r in Hr. unfold read_return in Hr. rewrite Z.sub_diag in Hr. cbn in Hr.
  apply bind_Some in Hr as ([r rb1] & Hr & [= -> ->]).
  apply wp_mthen. unfold buffer_read. cbn [get_buffer put_buffer].
  apply wp_mthen. eapply wp_fl_get; [exact Hf|]. apply wp_mdo.
  apply wp_mthen. unfold tick. apply wp_gets, wp_modify, wp_mdo.
  eapply wp_the; [exact Hr|]. cbn [fst snd].
  eapply wp_fl_upd; [exact Hf|]. apply wp_mdo. unfold header_read.
  change (s32 (- EWOULDBLOCK)) with (- EWOULDBLOCK). cbn [Z.ltb Z.compare Z.opp].
  eapply wp_put_upd; [exact Hf|]. apply wp_mdo.
  match goal with |- Q _ (put_fl i ?f' _ _) => set (f1 := f') end.
  assert (sec_reader f0 f1 cap 0 []) as H1 by by split.
  specialize (HQ f1 (S (dd_tick s)) H1). by destruct s.
Qed.

(** A section arrives and fits. *)
Lemma wp_arrive i f0 f cap pos secs sec p s (Q : unit -> dmxdev -> Prop) :
  dd_filter s !! i = Some f -> sec_reader f0 f cap pos secs ->
  fl_state f0 = DMXDEV_STATE_GO -> fl_params f0 = ParamsSec p ->
  Z.land (sct_flags p) DMX_ONESHOT = 0 -> is_section sec ->
  zlen (drop (Z.to_nat pos) (concat secs)) + zlen sec <= cap - 1 ->
  (forall f' t, sec_reader f0 f' cap pos (secs ++ [sec]) -> Q tt (put_fl i f' t s)) ->
  wp (dvb_dmxdev_section_callback sec [] i) s Q.
Proof.
  intros Hf [Hframe Hsec Hpos Hbuf Hhd Htodo Hheader] Hgo Hp Hone Hs1 Hfit HQ.
  destruct (section_header _ Hs1) as [Hlen _].
  assert (He : rb_error (fl_buffer f) = 0) by apply Hbuf.
  assert (fl_state f = DMXDEV_STATE_GO /\ fl_params f = ParamsSec p) as [Hst Hpar].
  { unfold frame_of in Hframe. split; congruence. }
  unfold dvb_dmxdev_section_callback. eapply wp_fl_get; [exact Hf|].
  rewrite He, Hst. cbn [Z.eqb negb Pos.eqb DMXDEV_STATE_GO].
  unfold del_timer. eapply wp_fl_upd; [exact Hf|].
  destruct (store_data_spec _ _ _ sec [] Hbuf) as (rb & Hstore & Hrb); [done|lia|done|].
  unfold stream_data in Hrb. cbn in Hrb. rewrite zlen_nil, Z.add_0_r, app_nil_r in Hrb.
  rewrite (proj2 (Z.leb_le _ _)) in Hrb by lia.
  eapply wp_the; [exact Hstore|]. eapply wp_put_upd; [exact Hf|].
  unfold params_sec. rewrite Hpar. apply wp_mthen, wp_mdo. rewrite Hone. cbn [Z.eqb negb].
  apply wp_mdo, HQ.
  assert (Hdrop : drop (Z.to_nat pos) (concat (secs ++ [sec])) = drop (Z.to_nat pos) (concat secs) ++ sec).
  { rewrite concat_app, drop_app_le; cbn; [by rewrite app_nil_r|].
    destruct secs as [|s1 secs]; cbn; [lia|]. rewrite length_app. unfold zlen in Hpos. lia. }
  split; cbn [fl_buffer fl_secheader fl_todo set_fl_buffer set_fl_timer].
  - done.
  - apply Forall_app. auto.
  - destruct secs; cbn; [lia|done].
  - by rewrite Hdrop.
  - done.
  - rewrite Htodo. destruct secs; cbn; [|done]. by rewrite Hpos.
  - intros H3. rewrite Hheader by done. rewrite concat_app.
    destruct secs as [|s1 secs]; [by rewrite Hpos|]. rewrite slice_app_l; [done|lia|lia|].
    cbn [concat]. rewrite zlen_app. pose proof (zlen_nonneg (concat secs)). lia.
Qed.

(** ** Sequences of sections and reads *)

Inductive sec_op := SecArrive (sec : list Z) | SecRead (non_blocking : bool) (count : Z).

Definition sec_op_ok (op : sec_op) : Prop :=
  match op with SecArrive sec => is_section sec | SecRead _ count => 0 <= count < 2 ^ 63 end.

(** The code. *)
Fixpoint sec_run (i : nat) (ops : list sec_op) : dmxM (list sec_result) :=
  match ops with
  | [] => mdo []
  | SecArrive sec :: ops => dvb_dmxdev_section_callback sec [] i ;; sec_run i ops
  | SecRead nb count :: ops =>
    r <- dvb_dmxdev_read_sec i nb count ;; rs <- sec_run i ops ;; mdo (r :: rs)
  end.

(** A queue of sections, and the position of the reader in the first of them.
    [None]: a section does not fit, or a read would sleep. *)
Fixpoint sec_spec (cap : Z) (ops : list sec_op) (pos : Z) (secs : list (list Z)) :
    option (list sec_result * (Z * list (list Z))) :=
  match ops with
  | [] => Some ([], (pos, secs))
  | SecArrive sec :: ops =>
    if zlen (drop (Z.to_nat pos) (concat secs)) + zlen sec <=? cap - 1
    then sec_spec cap ops pos (secs ++ [sec]) else None
  | SecRead nb count :: ops =>
    match secs with
    | s :: rest =>
      '(rs, st) ← sec_spec cap ops (advance pos count s rest).1 (advance pos count s rest).2;
      Some (SecDone (Z.min count (zlen s - pos)) (next_piece pos count s) :: rs, st)
    | [] =>
      if nb && (0 <? count)
      then '(rs, st) ← sec_spec cap ops 0 []; Some (SecDone (- EWOULDBLOCK) [] :: rs, st)
      else None
    end
  end.

Lemma sec_run_refines i f0 cap p ops :
  fl_state f0 = DMXDEV_STATE_GO -> fl_params f0 = ParamsSec p ->
  Z.land (sct_flags p) DMX_ONESHOT = 0 -> Forall sec_op_ok ops ->
  forall f pos secs s rs st,
  dd_filter s !! i = Some f -> sec_reader f0 f cap pos secs ->
  sec_spec cap ops pos secs = Some (rs, st) ->
  exists f' t, sec_run i ops s = Some (rs, put_fl i f' t s) /\ sec_reader f0 f' cap st.1 st.2.
Proof.
  intros Hgo Hp Hone Hops. cut (forall f pos secs s rs st,
    dd_filter s !! i = Some f -> sec_reader f0 f cap pos secs ->
    sec_spec cap ops pos secs = Some (rs, st) ->
    wp (sec_run i ops) s (fun rs' s' => rs' = rs /\
      exists f' t, s' = put_fl i f' t s /\ sec_reader f0 f' cap st.1 st.2)).
  { intros Hwp f pos secs s rs st Hf Hrd Hs.
    destruct (wp_run _ _ _ (Hwp f pos secs s rs st Hf Hrd Hs)) as (a & s' & Hrun & -> & f' & t & -> & Hr).
    eauto. }
  induction Hops as [|op ops Hop _ IH]; intros f pos secs s rs st Hf Hrd Hs; cbn [sec_spec] in Hs.
  - injection Hs as <- <-. cbn. split; [done|]. exists f, (dd_tick s). split; [|done].
    unfold put_fl. rewrite list_insert_id by done. by destruct s.
  - assert (Hgo' : forall f' t pos' secs' rs', sec_reader f0 f' cap pos' secs' ->
      sec_spec cap ops pos' secs' = Some (rs', st) ->
      wp (sec_run i ops) (put_fl i f' t s) (fun rs1 s' => rs1 = rs' /\
        exists f' t, s' = put_fl i f' t s /\ sec_reader f0 f' cap st.1 st.2)).
    { intros f' t pos' secs' rs' Hr' Hs'. eapply wp_mono; [eapply (IH f'); try done; by eapply put_fl_lookup|].
      cbv beta. intros rs1 s' (-> & f2 & t2 & -> & Hr2). rewrite put_fl_put_fl. eauto 10. }
    destruct op as [sec|nb count]; cbn [sec_run].
    + case_match eqn:Hfit; [|done]. apply Z.leb_le in Hfit. apply wp_mthen.
      eapply wp_arrive; try done. cbv beta. intros f' t Hr'. by eapply Hgo'.
    + cbn in Hop. apply wp_mthen. destruct secs as [|s0 rest].
      * case_match eqn:Hnb; [|done]. apply andb_true_iff in Hnb as [-> Hc%Z.ltb_lt].
        apply bind_Some in Hs as ([rs' st'] & Hs' & [= <- <-]).
        assert (pos = 0) as -> by apply Hrd.
        eapply wp_read_none; [done|done|lia|]. cbv beta. intros f' t Hr'.
        eapply wp_seq; [by eapply Hgo'|]. cbv beta. intros rs1 s' [-> Hs1]. by apply wp_mdo.
      * apply bind_Some in Hs as ([rs' st'] & Hs' & [= <- <-]).
        eapply wp_read_sec; [done|done|lia|]. cbv beta. intros f' t Hr'.
        eapply wp_seq; [by eapply Hgo'|]. cbv beta. intros rs1 s' [-> Hs1]. by apply wp_mdo.
Qed.

(** Claim C24: a section filter hands its sections to the reader one at a time,
    whole and in order.  For any sequence of sections that fit into the
    filter's buffer and of reads of any size that need not sleep,
    [dvb_dmxdev_read_sec] returns the next bytes of the section at the front of
    the queue, never bytes of two sections in one read, and -EWOULDBLOCK when
    there is none; nothing but the filter's buffer, timer, [todo] and
    [secheader] changes. *)
Theorem sections_read_one_at_a_time i f0 cap p ops f pos secs s rs st :
  fl_state f0 = DMXDEV_STATE_GO -> fl_params f0 = ParamsSec p ->
  Z.land (sct_flags p) DMX_ONESHOT = 0 -> Forall sec_op_ok ops ->
  dd_filter s !! i = Some f -> sec_reader f0 f cap pos secs ->
  sec_spec cap ops pos secs = Some (rs, st) ->
  exists f' t, sec_run i ops s = Some (rs, put_fl i f' t s) /\ sec_reader f0 f' cap st.1 st.2.
Proof. intros. by eapply sec_run_refines. Qed.

(** Reads long enough for any section, one for each of [secs]. *)
Lemma sec_spec_reads cap secs counts :
  Forall is_section secs -> Forall (fun c => 4096 <= c) counts -> length counts = length secs ->
  sec_spec cap (SecRead true <$> counts) 0 secs = Some ((fun s => SecDone (zlen s) s) <$> secs, (0, [])).
Proof.
  intros Hs. revert counts. induction Hs as [|s secs Hs1 _ IH]; intros counts Hc Hl.
  { by destruct counts. }
  destruct counts as [|c counts]; [done|]. cbn [fmap list_fmap sec_spec].
  apply Forall_cons in Hc as [Hc1 Hc]. destruct (section_header _ Hs1) as [Hlen _].
  unfold advance, next_piece. rewrite Z.sub_0_r, Z.min_r, Z.add_0_l, Z.eqb_refl, slice_full by lia.
  cbn [fst snd]. rewrite IH; [done|done|]. by injection Hl.
Qed.

Lemma sec_spec_arrivals cap new ops secs :
  zlen (concat (secs ++ new)) <= cap - 1 ->
  sec_spec cap ((SecArrive <$> new) ++ ops) 0 secs = sec_spec cap ops 0 (secs ++ new).
Proof.
  revert secs. induction new as [|n new IH]; intros secs Hfit; cbn [fmap list_fmap app sec_spec].
  - by rewrite app_nil_r.
  - change (Z.to_nat 0) with 0%nat. rewrite drop_0.
    replace (secs ++ n :: new) with ((secs ++ [n]) ++ new) in * by by rewrite <- app_assoc.
    rewrite (proj2 (Z.leb_le _ _)); [by apply IH|].
    rewrite !concat_app, !zlen_app in Hfit. cbn in Hfit. rewrite app_nil_r in Hfit.
    pose proof (zlen_nonneg (concat new)). lia.
Qed.

(** Fact: round trip.  Sections that together fit into the buffer of a
    started section filter come back from as many reads of at least 4096 bytes
    each, one whole section per read, in the order of the callbacks. *)
Theorem sections_roundtrip i f cap p secs counts s :
  fl_state f = DMXDEV_STATE_GO -> fl_params f = ParamsSec p ->
  Z.land (sct_flags p) DMX_ONESHOT = 0 ->
  dd_filter s !! i = Some f -> sec_reader f f cap 0 [] ->
  Forall is_section secs -> zlen (concat secs) <= cap - 1 ->
  Forall (fun c => 4096 <= c < 2 ^ 63) counts -> length counts = length secs ->
  exists f' t, sec_run i ((SecArrive <$> secs) ++ (SecRead true <$> counts)) s =
    Some ((fun s => SecDone (zlen s) s) <$> secs, put_fl i f' t s) /\ sec_reader f f' cap 0 [].
Proof.
  intros Hgo Hp Hone Hf Hrd Hsecs Hfit Hc Hl.
  refine (sec_run_refines i f cap p _ Hgo Hp Hone _ f 0 [] s _ (0, []) Hf Hrd _).
  - apply Forall_app. split; apply Forall_fmap; [by eapply Forall_impl|].
    eapply Forall_impl; [exact Hc|]. cbn. lia.
  - rewrite sec_spec_arrivals by done. cbn [app]. apply sec_spec_reads; [done| |done].
    eapply Forall_impl; [exact Hc|]. cbn. lia.
Qed.
End reader.

(** ** A concrete device *)

#[export] Instance demo_env : DmxdevEnv := {|
  mutex_intr _ := false;
  vmalloc _ size := if bool_decide (0 <= size < 2 ^ 30) then Some (replicate (Z.to_nat size) 0) else None;
  kzalloc_fails _ := false;
  copy_to_user _ _ _ := false;
  copy_from_user _ s := Some s;
  HZ := 250;
  fe_source _ := 1;
  get_caps := None;
  set_source := None;
  get_stc := None;
|}.

#[export] Instance demo_laws : DmxdevEnvLaws demo_env.
Proof.
  split; intros n size m; cbn; case_bool_decide; [|done| |done]; intros [= <-]; [|lia].
  rewrite zlen_replicate. lia.
Qed.

#[export] Instance demo_mapped : UserMemoryMapped demo_env.
Proof. by split. Qed.

#[export] Instance demo_demux_env : DemuxEnv := {|
  crc32_be _ _ := 0;
  cb_ret _ := 0;
  dvb_demux_tscheck := 0;
  dvb_demux_speedcheck := 0;
  current_kernel_time _ := (0, 0);
  timespec_delta_ns _ _ := 0;
|}.

Definition demo_params (p flags : Z) : dmx_sct_filter_params :=
  mk_sct p (replicate 16 0) (replicate 16 0) (replicate 16 0) 0 flags.

(** A filter in zeroed memory. *)
Definition closed_filter : dmxdev_filter :=
  mk_dfil None FeedNone ParamsNone DMXDEV_TYPE_NONE DMXDEV_STATE_FREE
    (dvb_ringbuffer_init None 0) None 0 [0; 0; 0].

(** A started section filter with a buffer of [size] bytes. *)
Definition demo_filter (flags size : Z) : dmxdev_filter :=
  mk_dfil (Some 0%nat) (FeedSec (Some 0%nat)) (ParamsSec (demo_params 0x100 flags))
    DMXDEV_TYPE_SEC DMXDEV_STATE_GO
    (dvb_ringbuffer_init (Some (replicate (Z.to_nat size) 0)) size) None 0 [0; 0; 0].

(** A demultiplexer with [nf] section filters and [n] feeds, nothing in use. *)
Definition demo_demux (nf n : nat) : dvb_demux :=
  let f := mk_filter (replicate 18 0) (replicate 18 0) (replicate 18 0) None (replicate 18 0)
             (replicate 18 0) 0 None None 0 0 0 in
  let fd := mk_feed false None 0 0 0 (replicate 4284 0) 0 0 0 0 0 0xffff 0 (0, 0) None 0 0 0 0 0 0 in
  let d := mk_demux [] [] true true true 0 [] None [] [] 0 0 [] false (replicate 204 0) 0 None (0, 0)
             0 0 [] in
  (dvb_dmx_init (Some (replicate nf f)) (Some (replicate n fd)) None d).1.

Definition demo_dmxdev (filters : list dmxdev_filter) (d : dvb_demux) : dmxdev :=
  mk_dmxdev filters d 0 false None (dvb_ringbuffer_init None 8192) 1 1 1 1000 0.

Definition demo_section (n : Z) : list Z := [0x42; 0x30; n] ++ seqZ 1 n.

Lemma demo_section_ok n : 0 <= n < 200 -> is_section (demo_section n).
Proof.
  intros Hn. assert (Hz : zlen (demo_section n) = n + 3).
  { unfold demo_section, zlen. rewrite length_app, length_seqZ. cbn. lia. }
  split.
  - apply Forall_app. split; [repeat constructor; lia|].
    apply Forall_forall. intros x Hx%elem_of_seqZ. unfold DemuxSection.is_byte. lia.
  - unfold section_len. rewrite Hz. cbn [mget app].
    unfold demo_section, mget. rewrite !bool_decide_true by lia.
    change (Z.to_nat 1) with 1%nat. change (Z.to_nat 2) with 2%nat. cbn [app lookup list_lookup].
    cbn [mbind option_bind]. change (Z.shiftl (Z.land 48 15) 8) with 0.
    rewrite wrap_small by lia. unfold DMX_MAX_SECTION_SIZE.
    rewrite !(proj2 (Z.leb_le _ _)) by lia. cbn. f_equal. lia.
Qed.

Lemma demo_reader flags size :
  0 < size < 2 ^ 62 ->
  sec_reader (demo_filter flags size) (demo_filter flags size) size 0 [].
Proof.
  intros Hs. split; try done. split; [|done]. cbn.
  pose proof (rb_queue_init (replicate (Z.to_nat size) 0)) as Hi.
  rewrite zlen_replicate, Z2Nat.id in Hi by lia. by apply Hi.
Qed.

Lemma sections_read_one_at_a_time_witness :
  let s := demo_dmxdev [demo_filter 0 64] (demo_demux 1 1) in
  exists f' t, sec_run 0
    [SecArrive (demo_section 4); SecArrive (demo_section 0); SecRead true 2; SecRead true 3;
     SecArrive (demo_section 1); SecRead true 100; SecRead true 100; SecRead true 100;
     SecRead true 100] s =
    Some ([SecDone 2 [0x42; 0x30]; SecDone 3 [4; 1; 2]; SecDone 2 [3; 4]; SecDone 3 [0x42; 0x30; 0];
           SecDone 4 [0x42; 0x30; 1; 1]; SecDone (- EWOULDBLOCK) []], put_fl 0 f' t s) /\
    sec_reader (demo_filter 0 64) f' 64 0 [].
Proof.
  intros s. apply (sections_read_one_at_a_time 0 (demo_filter 0 64) 64 (demo_params 0x100 0) _
    (demo_filter 0 64) 0 [] s _ (0, [])); try done.
  - repeat constructor; try lia; try apply demo_section_ok; lia.
  - by apply demo_reader.
Defined.

Lemma sections_roundtrip_witness :
  let s := demo_dmxdev [demo_filter 0 64] (demo_demux 1 1) in
  exists f' t, sec_run 0 ((SecArrive <$> [demo_section 9; demo_section 0; demo_section 5]) ++
                          (SecRead true <$> [4096; 5000; 6000])) s =
    Some ((fun s => SecDone (zlen s) s) <$> [demo_section 9; demo_section 0; demo_section 5],
          put_fl 0 f' t s) /\ sec_reader (demo_filter 0 64) f' 64 0 [].
Proof.
  intros s. apply (sections_roundtrip 0 (demo_filter 0 64) 64 (demo_params 0x100 0)); try done.
  - by apply demo_reader.
  - rewrite !Forall_cons, Forall_nil. split_and!; try done; apply demo_section_ok; lia.
  - repeat constructor; lia.
Defined.

(** Fact: an overflow in the middle of a section loses the framing for
    good.  When the reader has taken part of a section and the buffer
    overflows, the read that reports -EOVERFLOW leaves [todo] standing, so the
    bytes still missing from the lost section are taken from the front of the
    next one, and a header is then read from its middle: the reads after the
    error cut a section of 13 bytes into pieces of 8 and 5, and the three bytes
    at its ninth count as the header of a section still to come. *)
Theorem overflow_loses_framing :
  fst <$> sec_run 0
    [SecArrive (demo_section 10); SecRead true 5; SecArrive (demo_section 28); SecRead true 100;
     SecArrive (demo_section 10); SecRead true 100; SecRead true 100; SecRead true 100]
    (demo_dmxdev [demo_filter 0 32] (demo_demux 1 1)) =
  Some [SecDone 5 (slice (demo_section 10) 0 5); SecDone (- EOVERFLOW) [];
        SecDone 8 (slice (demo_section 10) 0 8); SecDone 5 (slice (demo_section 10) 8 5);
        SecDone (- EWOULDBLOCK) []].
Proof. vm_compute. reflexivity. Qed.
