(* ===== verification/DmxdevFindings.v ===== *)
(** Runs of the devices of dmxdev (DmxdevFilter.v) on which the code breaks its
    own rules, each evaluated on a concrete device. *)

From S2P Require Import Prelude StateM RingBuffer DemuxTypes Demux DemuxFeed DmxdevTypes Dmxdev DmxdevFilter DmxdevRead DmxdevSection.

Definition ioctl (i : nat) (cmd : demux_cmd) : dmxM Z :=
  r <- dvb_demux_do_ioctl i cmd ;; mdo r.1.

(** A device with [n] closed filters. *)
Definition opened (n : nat) (d : dvb_demux) : dmxdev := demo_dmxdev (replicate n closed_filter) d.

Definition fresh (n nf nd : nat) : dmxdev := opened n (demo_demux nf nd).

Definition one_shot := demo_params 0x100 (Z.lor DMX_ONESHOT DMX_IMMEDIATE_START).
Definition started := demo_params 0x100 DMX_IMMEDIATE_START.
Definition tap (output p : Z) : dmx_pes_filter_params :=
  mk_pes p 0 output DMX_PES_OTHER DMX_IMMEDIATE_START.

Definition state_of (i : nat) : dmxM Z := f <- fl_get i ;; mdo (fl_state f).

(** Fact: a finished one-shot filter comes back to life.  Filters 0 (one
    shot) and 1 share a PID; filter 0 has had its section and is DONE.  When
    filter 1 is stopped, [dvb_dmxdev_feed_restart] takes any filter of the PID
    in a state from GO on, so filter 0 goes back to GO and gets another
    section, which its reader was promised not to get. *)
Theorem feed_restart_revives_one_shot :
  fst <$> (dvb_demux_open ;; dvb_demux_open ;;
    ioctl 0 (DMX_SET_FILTER one_shot) ;; ioctl 1 (DMX_SET_FILTER started) ;;
    dvb_dmxdev_section_callback (demo_section 3) [] 0 ;; done <- state_of 0 ;;
    ioctl 1 DMX_STOP ;; revived <- state_of 0 ;;
    dvb_dmxdev_section_callback (demo_section 4) [] 0 ;;
    r1 <- dvb_dmxdev_read_sec 0 true 100 ;; r2 <- dvb_dmxdev_read_sec 0 true 100 ;;
    mdo (done, revived, r1, r2)) (fresh 2 4 4)
  = Some (DMXDEV_STATE_DONE, DMXDEV_STATE_GO, SecDone 6 (demo_section 3),
          SecDone 7 (demo_section 4)).
Proof. vm_compute. reflexivity. Qed.

(** Fact: a PID that could not be added to a running PES filter leaves an
    entry without a feed in its list.  The next stop or close of the filter
    calls [stop_filtering] through that NULL pointer: with one feed in the
    demultiplexer, DMX_SET_PES_FILTER starts on it, DMX_ADD_PID answers -EBUSY,
    and DMX_STOP faults. *)
Theorem failed_add_pid_makes_stop_fault :
  let setup := dvb_demux_open ;; r1 <- ioctl 0 (DMX_SET_PES_FILTER (tap DMX_OUT_TSDEMUX_TAP 0x100)) ;;
               r2 <- ioctl 0 (DMX_ADD_PID 0x101) ;; mdo (r1, r2) in
  fst <$> setup (fresh 1 4 1) = Some (0, - EBUSY) /\
  (setup ;; ioctl 0 DMX_STOP) (fresh 1 4 1) = None /\
  (setup ;; dvb_demux_release 0) (fresh 1 4 1) = None.
Proof. vm_compute. done. Qed.

(** Fact: a PES filter that fails to start half-way keeps running.  The
    filter has two PIDs and the demultiplexer one feed: DMX_START answers -EBUSY
    and calls [dvb_dmxdev_filter_stop], which does nothing because the filter is
    not in GO yet.  The feed of the first PID still filters and fills the
    filter's buffer, and DMX_STOP does nothing either. *)
Theorem failed_start_keeps_feed_running :
  fst <$> (dvb_demux_open ;;
    ioctl 0 (DMX_SET_PES_FILTER (mk_pes 0x100 0 DMX_OUT_TSDEMUX_TAP DMX_PES_OTHER 0)) ;;
    ioctl 0 (DMX_ADD_PID 0x101) ;;
    r1 <- ioctl 0 DMX_START ;; r2 <- ioctl 0 DMX_STOP ;; st <- state_of 0 ;;
    d <- gets dd_demux ;;
    stream_input ([0x47; 0x01; 0x01; 0x10] ++ replicate 184 7) ;;
    rb <- get_buffer (Some 0%nat) ;;
    mdo (r1, r2, st, is_filtering <$> dx_feed d, dvb_ringbuffer_avail rb)) (fresh 1 4 1)
  = Some (- EBUSY, 0, DMXDEV_STATE_SET, [true], 188).
Proof. vm_compute. reflexivity. Qed.

(** Fact: a blocking read that already has bytes hides an overflow.  The
    reader sleeps with one of its five bytes; data arrives that does not fit, so
    the buffer is emptied and the error set; the reader wakes, finds the error,
    clears it and returns the one byte it had.  The next read gets what arrived
    after the gap, and no read reports -EOVERFLOW. *)
Theorem overflow_hidden_from_blocking_reader :
  fst <$> buffer_run (fun _ _ => false)
    [StreamData [1] []; StreamRead false 5; StreamData [2; 3; 4; 5; 6; 7; 8; 9] [];
     StreamResume false 5 4 [1]; StreamData [10; 11] []; StreamRead false 2]
    (dvb_ringbuffer_init (Some (replicate 8 0)) 8) =
  Some [RdSleep 4 [1]; RdDone 1 [1]; RdDone 2 [10; 11]].
Proof. vm_compute. reflexivity. Qed.

(** Fact: a section filter whose start fails keeps its feed and its filter
    for ever.  A signal ends the last lock of the start; the filter stays in
    SET, where neither DMX_STOP nor closing the device releases anything, and
    the next start forgets them: of one feed and one filter nothing is left. *)
Theorem failed_start_leaks_section_feed :
  let env : DmxdevEnv := {|
    mutex_intr n := (n =? 7)%nat; vmalloc _ size := Some (replicate (Z.to_nat size) 0);
    kzalloc_fails _ := false; copy_to_user _ _ _ := false; copy_from_user _ l := Some l;
    HZ := 250; fe_source _ := 1; get_caps := None; set_source := None; get_stc := None |} in
  fst <$> (dvb_demux_open (E := env) ;;
    r1 <- dvb_demux_do_ioctl (E := env) 0 (DMX_SET_FILTER started) ;;
    dvb_demux_release 0 ;; dvb_demux_open (E := env) ;;
    r2 <- dvb_demux_do_ioctl (E := env) 0 (DMX_SET_FILTER started) ;;
    mdo (r1.1, r2.1)) (fresh 1 1 1)
  = Some (- ERESTARTSYS, - EBUSY).
Proof. vm_compute. reflexivity. Qed.

(** Fact: [todo] is read before it is set.  Opening a device does not
    initialise the filter's [todo], which only a start does; the array of filters
    comes from vmalloc.  A read of a filter that is set but not started uses what
    the memory held: with [todo] at -100 the copy of the header goes past
    [secheader]. *)
Theorem unstarted_read_uses_old_todo :
  let setup := dvb_demux_open ;; ioctl 0 (DMX_SET_FILTER (demo_params 0x100 0)) in
  let garbage todo := demo_dmxdev [set_fl_todo todo closed_filter] (demo_demux 4 4) in
  fst <$> setup (garbage 0) = Some 0 /\ fst <$> setup (garbage (-100)) = Some 0 /\
  fst <$> (setup ;; dvb_demux_read 0 true 10) (garbage 0) = Some (DemuxRead 0 []) /\
  (setup ;; dvb_demux_read 0 true 10) (garbage (-100)) = None.
Proof. vm_compute. done. Qed.
