(* ===== verification/DmxdevSafe.v ===== *)
(** Section filters never lose their feed (DmxdevFilter.v): whatever the users
    of the demux devices do with section filters, whatever signals, memory and
    the driver answer, every running filter stays on a live section feed of the
    demultiplexer with a section filter of its own, and no operation faults or
    deadlocks. *)

From stdpp Require Import gmap.
From S2P Require Import Prelude StateM RingBuffer DemuxTypes Demux DemuxSection DemuxFeed DemuxFeedProofs DemuxChains DmxdevTypes Dmxdev DmxdevFilter DmxdevRead DmxdevSection.

(** ** The invariant *)

Definition running (f : dmxdev_filter) : Prop := DMXDEV_STATE_GO <= fl_state f.

Definition array_ok (a : list Z) : Prop := zlen a = 16 /\ Forall DemuxSection.is_byte a.
Definition sct_ok (p : dmx_sct_filter_params) : Prop :=
  array_ok (sct_filter p) /\ array_ok (sct_mask p) /\ array_ok (sct_mode p).

(** A ring buffer whose memory may not be there yet. *)
Definition buffer_ok (rb : dvb_ringbuffer) : Prop :=
  0 < rb_size rb < 2 ^ 62 /\ 0 <= rb_pread rb < rb_size rb /\ 0 <= rb_pwrite rb < rb_size rb /\
  - 2 ^ 31 <= rb_error rb <= 0 /\ forall d, rb_data rb = Some d -> zlen d = rb_size rb.

(** An open filter that is no PES filter. *)
Record open_ok (f : dmxdev_filter) : Prop := {
  oo_type : fl_type f <> DMXDEV_TYPE_PES;
  oo_params : fl_type f = DMXDEV_TYPE_SEC -> exists p, fl_params f = ParamsSec p /\ sct_ok p;
  oo_buffer : buffer_ok (fl_buffer f);
  oo_todo : -3 < fl_todo f < 4096;
  oo_header : zlen (fl_secheader f) = 3;
}.

(** A running filter has a feed in use and one of that feed's filters. *)
Definition on_feed (ch : chains) (f : dmxdev_filter) (fi xi : nat) : Prop :=
  fl_feed f = FeedSec (Some fi) /\ fl_sec f = Some xi /\ exists l, ch !! fi = Some l /\ xi ∈ l.

Definition filter_pid (f : dmxdev_filter) : option Z :=
  match fl_params f with ParamsSec p => Some (sct_pid p) | _ => None end.

Record dev_filter_ok (ch : chains) (f : dmxdev_filter) : Prop := {
  fo_open : fl_state f <> DMXDEV_STATE_FREE -> open_ok f;
  fo_run : running f -> fl_type f = DMXDEV_TYPE_SEC /\ exists fi xi, on_feed ch f fi xi;
  fo_timer : is_Some (fl_timer f) -> running f;
  fo_mem : -3 < fl_todo f < 4096 /\ zlen (fl_secheader f) = 3;
}.

(** The invariant while an operation works on filter [me]: [W j f] is what
    someone who waits on filter [j] relies on. *)
Record dev_ok (W : nat -> dmxdev_filter -> Prop) (me : nat) (s : dmxdev) (ch : chains) : Prop := {
  do_chains : chains_ok (dd_demux s) ch;
  do_filter : forall i f, dd_filter s !! i = Some f -> dev_filter_ok ch f;
  do_own : forall i j f g, dd_filter s !! i = Some f -> dd_filter s !! j = Some g -> i <> j ->
    running f -> running g -> fl_sec f <> fl_sec g;
  do_share : forall i j f g, dd_filter s !! i = Some f -> dd_filter s !! j = Some g ->
    running f -> running g -> fl_feed f = fl_feed g <-> filter_pid f = filter_pid g;
  do_wait : forall j f, dd_filter s !! j = Some f -> j <> me -> W j f;
}.

(** ** Changes of the state that keep it *)

Lemma running_open f : running f -> fl_state f <> DMXDEV_STATE_FREE.
Proof. unfold running, DMXDEV_STATE_GO, DMXDEV_STATE_FREE. lia. Qed.

(** A filter that runs is not disturbed by what happens to its buffer. *)
Lemma dev_filter_ok_same ch f f' :
  dev_filter_ok ch f -> frame_of f' = frame_of f -> fl_timer f' = fl_timer f \/ fl_timer f' = None ->
  (open_ok f -> buffer_ok (fl_buffer f')) -> -3 < fl_todo f' < 4096 /\ zlen (fl_secheader f') = 3 ->
  dev_filter_ok ch f'.
Proof.
  intros [H1 H2 H3 H4] Hfr Ht Hb Hmem. unfold frame_of in Hfr. injection Hfr as E1 E2 E3 E4 E5.
  split.
  - rewrite E5. intros Hne. destruct (H1 Hne) as [A B C D F]. split; [by rewrite E4|by rewrite E3, E4|by apply Hb|apply Hmem..].
  - unfold running, on_feed. rewrite E1, E2, E4, E5. exact H2.
  - unfold running. rewrite E5. intros [x Hx]. destruct Ht as [Ht|Ht]; [|congruence].
    apply H3. by exists x; rewrite <- Ht.
  - done.
Qed.


Section safe.
Context {DE : DemuxEnv} {E : DmxdevEnv}.
Context (W : nat -> dmxdev_filter -> Prop) (i : nat).
Context (W_go : forall j g, W j g -> running g -> W j (set_fl_state DMXDEV_STATE_GO g)).
Abbreviation ok := (dev_ok W i).

(** What makes filters compare equal for the invariant. *)
Definition key (f : dmxdev_filter) := (fl_sec f, fl_feed f, filter_pid f).

Lemma dev_put_at j f f' t s ch :
  ok s ch -> dd_filter s !! j = Some f -> dev_filter_ok ch f' ->
  (running f' -> running f /\ key f' = key f) -> (j <> i -> W j f') -> ok (put_fl j f' t s) ch.
Proof.
  intros [Hc Hf Ho Hs Hw] Hj Hok Hrun HW.
  assert (Hback : forall k g, <[j := f']> (dd_filter s) !! k = Some g -> running g ->
    exists g0, dd_filter s !! k = Some g0 /\ running g0 /\ key g = key g0).
  { intros k g [(-> & <- & _)|[_ Hg]]%list_lookup_insert_Some Hr; [|by eauto].
    destruct (Hrun Hr). eauto. }
  split; cbn.
  - done.
  - intros k g [(-> & <- & _)|[_ Hg]]%list_lookup_insert_Some; [done|by eapply Hf].
  - intros k l g h Hg Hh Hne Hrg Hrh.
    destruct (Hback k g Hg Hrg) as (g0 & Hg0 & Hr0 & [= -> _ _]).
    destruct (Hback l h Hh Hrh) as (h0 & Hh0 & Hr1 & [= -> _ _]). by eapply Ho.
  - intros k l g h Hg Hh Hrg Hrh.
    destruct (Hback k g Hg Hrg) as (g0 & Hg0 & Hr0 & [= _ -> ->]).
    destruct (Hback l h Hh Hrh) as (h0 & Hh0 & Hr1 & [= _ -> ->]). by eapply Hs.
  - intros k g [(-> & <- & _)|[_ Hg]]%list_lookup_insert_Some; [done|by apply Hw].
Qed.

Lemma dev_put s ch f f' t :
  ok s ch -> dd_filter s !! i = Some f -> dev_filter_ok ch f' ->
  (running f' -> running f /\ key f' = key f) -> ok (put_fl i f' t s) ch.
Proof. intros. by eapply dev_put_at. Qed.

(** The demultiplexer changes; the running filters keep what they have. *)
Lemma dev_demux s ch d ch' :
  ok s ch -> chains_ok d ch' ->
  (forall j f fi xi, dd_filter s !! j = Some f -> running f -> on_feed ch f fi xi ->
     on_feed ch' f fi xi) ->
  ok (set_dd_demux d s) ch'.
Proof.
  intros [Hc Hf Ho Hs Hw] Hd Hkeep. split; [done| |done..].
  intros j f Hj. destruct (Hf j f Hj) as [H1 H2 H3 H4]. split; [done| |done..].
  intros Hr. destruct (H2 Hr) as (Ht & fi & xi & Hon). split; [done|]. exists fi, xi. by eapply Hkeep.
Qed.

Lemma dev_demux_same s ch d : ok s ch -> chains_ok d ch -> ok (set_dd_demux d s) ch.
Proof. intros Hs Hd. by eapply dev_demux. Qed.

(** A filter starts to run. *)
Lemma dev_run s ch f f' t fi xi p :
  ok s ch -> dd_filter s !! i = Some f -> open_ok f' -> running f' ->
  fl_type f' = DMXDEV_TYPE_SEC -> on_feed ch f' fi xi -> filter_pid f' = Some p ->
  (forall j g, dd_filter s !! j = Some g -> j <> i -> running g ->
     fl_sec g <> Some xi /\ (fl_feed g = FeedSec (Some fi) <-> filter_pid g = Some p)) ->
  ok (put_fl i f' t s) ch.
Proof.
  intros [Hc Hf Ho Hs Hw] Hi Hopen Hrun Hty Hon Hpid Hoth. pose proof Hon as (Hfe & Hse & _).
  split; cbn.
  - done.
  - intros j g [(-> & <- & _)|[_ Hg]]%list_lookup_insert_Some; [|by eapply Hf].
    split; [done| |done|by destruct Hopen]. intros _. split; [done|]. by exists fi, xi.
  - intros j k g h [(-> & <- & _)|[Hj Hg]]%list_lookup_insert_Some
      [(-> & <- & _)|[Hk Hh]]%list_lookup_insert_Some Hne Hrg Hrh; [done| | |by eapply Ho].
    + destruct (Hoth k h) as [Hx _]; [done|congruence|done|]. rewrite Hse. congruence.
    + destruct (Hoth j g) as [Hx _]; [done|congruence|done|]. by rewrite Hse.
  - intros j k g h [(-> & <- & _)|[Hj Hg]]%list_lookup_insert_Some
      [(-> & <- & _)|[Hk Hh]]%list_lookup_insert_Some Hrg Hrh; [done| | |by eapply Hs].
    + destruct (Hoth k h) as [_ Hx]; [done|congruence|done|]. rewrite Hfe, Hpid.
      split; intros ?; symmetry; apply Hx; congruence.
    + destruct (Hoth j g) as [_ Hx]; [done|congruence|done|]. by rewrite Hfe, Hpid.
  - intros j g [(-> & <- & _)|[_ Hg]]%list_lookup_insert_Some; [done|by apply Hw].
Qed.

(** ** Rules *)

Lemma wp_call {A B} (F : dvb_demux -> option (dvb_demux * A)) d r (k : A -> dmxM B) s Q :
  F (dd_demux s) = Some (d, r) -> wp (k r) (set_dd_demux d s) Q -> wp (mthen (demux_call F) k) s Q.
Proof.
  intros HF Hk. apply wp_mthen. unfold demux_call. apply wp_gets.
  eapply wp_the; [exact HF|]. apply wp_modify, wp_mdo. exact Hk.
Qed.

Lemma wp_call_last {A} (F : dvb_demux -> option (dvb_demux * A)) d r s (Q : A -> dmxdev -> Prop) :
  F (dd_demux s) = Some (d, r) -> Q r (set_dd_demux d s) -> wp (demux_call F) s Q.
Proof.
  intros HF Hq. unfold demux_call. apply wp_gets. eapply wp_the; [exact HF|].
  by apply wp_modify, wp_mdo.
Qed.

Lemma wp_alloc {B} F d r o (k : Z * option nat -> dmxM B) s Q :
  F (dd_demux s) = Some (d, r, o) -> wp (k (r, o)) (set_dd_demux d s) Q ->
  wp (mthen (demux_alloc F) k) s Q.
Proof. intros HF Hk. unfold demux_alloc. eapply wp_call; [|exact Hk]. by rewrite HF. Qed.

(** Questions to the environment change the tick only. *)
Lemma wp_lock {B} (k : bool -> dmxM B) s Q :
  (forall b, wp (k b) (set_dd_tick (S (dd_tick s)) s) Q) ->
  wp (mthen mutex_lock_interruptible k) s Q.
Proof.
  intros Hk. apply wp_mthen. unfold mutex_lock_interruptible, tick.
  apply wp_mthen, wp_gets, wp_modify, wp_mdo, wp_mdo. apply Hk.
Qed.

Lemma dev_tick s ch t : ok s ch -> ok (set_dd_tick t s) ch.
Proof. intros []. by split. Qed.

Lemma wp_with_lock (body : dmxM Z) s (Q : Z -> dmxdev -> Prop) :
  (forall b, Q (- ERESTARTSYS) (set_dd_tick b s)) ->
  wp body (set_dd_tick (S (dd_tick s)) s) Q -> wp (with_lock body) s Q.
Proof. intros Ho Hb. unfold with_lock. apply wp_lock. intros []; [apply wp_mdo, Ho|done]. Qed.

(** ** Stopping and restarting feeds *)

Definition stopped (f : dmxdev_filter) : dmxdev_filter :=
  set_fl_timer None (set_fl_state DMXDEV_STATE_SET f).

Lemma not_running_set f : fl_state f = DMXDEV_STATE_SET -> ~ running f.
Proof. unfold running. intros ->. unfold DMXDEV_STATE_SET, DMXDEV_STATE_GO. lia. Qed.

Lemma stopped_ok ch f : open_ok f -> dev_filter_ok ch (stopped f).
Proof.
  intros []. split; [done| | |done].
  - intros Hr. by apply not_running_set in Hr.
  - by intros [? [=]].
Qed.

Lemma wp_feed_stop {B} f fi l s ch (k : Z -> dmxM B) Q :
  ok s ch -> dd_filter s !! i = Some f -> open_ok f -> fl_type f = DMXDEV_TYPE_SEC ->
  fl_feed f = FeedSec (Some fi) -> ch !! fi = Some l ->
  (forall d feed, ok (set_dd_demux d (put_fl i (stopped f) (dd_tick s) s)) ch ->
     dx_feed d !! fi = Some feed -> is_filtering feed = false ->
     wp (k 0) (set_dd_demux d (put_fl i (stopped f) (dd_tick s) s)) Q) ->
  wp (mthen (dvb_dmxdev_feed_stop i) k) s Q.
Proof.
  intros Hs Hf Hok Hty Hfe Hl Hk.
  assert (Hs1 : ok (put_fl i (stopped f) (dd_tick s) s) ch).
  { eapply dev_put; [done|done|by apply stopped_ok|]. intros Hr. by apply not_running_set in Hr. }
  destruct (stop_section_ok (dd_demux s) ch fi l) as (d & r & feed & Hst & Hc & Hfd & Hfl);
    [apply Hs|done|].
  apply wp_mthen. unfold dvb_dmxdev_feed_stop, dvb_dmxdev_filter_state_set.
  eapply wp_fl_upd; [exact Hf|]. eapply wp_put_get; [exact Hf|]. cbn [fl_type set_fl_state].
  rewrite Hty. unfold del_timer. eapply wp_put_upd; [exact Hf|].
  unfold feed_sec. cbn [fl_feed set_fl_state]. rewrite Hfe. apply wp_mthen, wp_mdo.
  eapply wp_the; [done|]. eapply wp_call; [exact Hst|]. apply wp_mdo.
  apply (Hk d feed); [by apply dev_demux_same|done|done].
Qed.

Lemma wp_start_feed {B} fi l s ch (k : Z -> dmxM B) Q :
  ok s ch -> ch !! fi = Some l ->
  (forall d r, chains_ok d ch -> wp (k r) (set_dd_demux d (set_dd_tick (S (dd_tick s)) s)) Q) ->
  wp (mthen (start_section_feed fi) k) s Q.
Proof.
  intros Hs Hl Hk. apply wp_mthen. unfold start_section_feed. apply wp_lock. intros intr.
  destruct (start_section_ok intr (dd_demux s) ch fi l) as (d & r & Hst & Hc); [apply Hs|done|].
  eapply wp_call_last; [exact Hst|]. by apply Hk.
Qed.

Lemma find_running_some pid s ch j g :
  ok s ch -> find_running pid (dd_filter s) = Some (j, g) ->
  dd_filter s !! j = Some g /\ running g /\ filter_pid g = Some pid.
Proof.
  intros Hs Hf. apply list_find_Some in Hf as (Hj & Hr & _). split; [done|].
  unfold runs_on in Hr. rewrite !andb_true_iff, Z.geb_leb, Z.leb_le, bool_decide_eq_true in Hr.
  destruct Hr as [[Hgo Hty] Hp]. split; [done|].
  destruct (do_filter _ _ s ch Hs j g Hj) as [Ho _ _ _].
  destruct (oo_params g) with (2 := Hty) as (p & Hpar & _); [by apply Ho, running_open|].
  unfold filter_pid. rewrite Hpar in *. apply Z.eqb_eq in Hp. by rewrite Hp.
Qed.

Lemma find_running_none pid s ch j g :
  ok s ch -> find_running pid (dd_filter s) = None -> dd_filter s !! j = Some g ->
  running g -> filter_pid g <> Some pid.
Proof.
  intros Hs Hf Hj Hr Hp. apply list_find_None in Hf. eapply Forall_lookup_1 in Hf; [|exact Hj].
  apply Hf. clear Hf. destruct (do_filter _ _ s ch Hs j g Hj) as [_ Hrun _ _]. destruct (Hrun Hr) as [Hty _].
  unfold runs_on, filter_pid in *. destruct (fl_params g); try done. injection Hp as ->.
  rewrite !andb_true_iff, Z.geb_leb, Z.leb_le, bool_decide_eq_true, Z.eqb_eq. done.
Qed.

(** A running filter goes on running. *)
Lemma go_again ch f : dev_filter_ok ch f -> running f -> dev_filter_ok ch (set_fl_state DMXDEV_STATE_GO f).
Proof.
  intros [H1 H2 H3 H4] Hr. assert (Hgo : running (set_fl_state DMXDEV_STATE_GO f)).
  { unfold running. cbn. unfold DMXDEV_STATE_GO. lia. }
  split; [|intros _; exact (H2 Hr)|done..]. intros _. destruct (H1 (running_open f Hr)). by split.
Qed.

Lemma wp_feed_restart {B} f fi l p s ch (k : Z -> dmxM B) Q :
  ok s ch -> dd_filter s !! i = Some f -> ~ running f -> fl_params f = ParamsSec p ->
  fl_feed f = FeedSec (Some fi) -> ch !! fi = Some l ->
  (forall j g, dd_filter s !! j = Some g -> running g -> fl_feed g = FeedSec (Some fi) ->
     filter_pid g = Some (sct_pid p)) ->
  (forall s' ch', ok s' ch' -> dd_filter s' !! i = Some f ->
     ch' !! fi = Some l \/
     ((forall j g, dd_filter s !! j = Some g -> running g -> filter_pid g <> Some (sct_pid p)) /\
      exists feed, dx_feed (dd_demux s') !! fi = Some feed /\
        linked (dx_filter (dd_demux s')) (feed_filter feed) l) ->
     wp (k 0) s' Q) ->
  wp (mthen (dvb_dmxdev_feed_restart i) k) s Q.
Proof.
  intros Hs Hf Hnr Hp Hfe Hl Hsole Hk. apply wp_mthen. unfold dvb_dmxdev_feed_restart.
  eapply wp_fl_get; [exact Hf|]. unfold params_sec. rewrite Hp. apply wp_mthen, wp_mdo, wp_gets.
  destruct (find_running (sct_pid p) (dd_filter s)) as [[j g]|] eqn:Hfind.
  - destruct (find_running_some _ _ _ _ _ Hs Hfind) as (Hj & Hr & Hpid).
    destruct (do_filter _ _ s ch Hs j g Hj) as [Ho Hrun Ht _].
    destruct (Hrun Hr) as (Hty & fj & xj & Hfj & _ & lj & Hlj & _).
    assert (Hne : i <> j) by (intros ->; assert (f = g) as -> by congruence; done).
    assert (Hs1 : ok (put_fl j (set_fl_state DMXDEV_STATE_GO g) (dd_tick s) s) ch).
    { eapply dev_put_at; [done|done|by apply go_again; [eapply do_filter|]|by intros _|].
      intros _. apply W_go; [by eapply do_wait|done]. }
    apply wp_mthen. unfold dvb_dmxdev_feed_start, dvb_dmxdev_filter_state_set.
    eapply wp_fl_upd; [exact Hj|]. eapply wp_put_get; [exact Hj|].
    cbn [fl_type fl_feed set_fl_state]. rewrite Hty. unfold feed_sec. cbn [fl_feed set_fl_state].
    rewrite Hfj. apply wp_mthen, wp_mdo. eapply wp_the; [done|].
    eapply wp_mono; [|intros r s' HP; apply wp_mdo; exact HP].
    unfold start_section_feed. apply wp_lock. intros intr.
    destruct (start_section_ok intr (dd_demux s) ch fj lj) as (d & r & Hst & Hc); [apply Hs|done|].
    eapply wp_call_last; [exact Hst|]. eapply (Hk _ ch).
    + apply dev_demux_same; [by apply dev_tick|done].
    + cbn. rewrite list_lookup_insert_ne by done. exact Hf.
    + by left.
  - unfold feed_sec. rewrite Hfe. apply wp_mthen, wp_mdo. eapply wp_the; [done|].
    destruct (release_section_ok (dd_demux s) ch fi l) as (d & r & feed & Hrel & Hc & Hfd & Hlk);
      [apply Hs|done|].
    eapply wp_call; [exact Hrel|]. apply wp_mdo. eapply (Hk _ (delete fi ch)); [|done|].
    + eapply dev_demux; [done|done|]. intros j g fj xj Hj Hr (H1 & H2 & k' & Hk' & Hx).
      split; [done|]. split; [done|]. exists k'. split; [|done].
      apply lookup_delete_Some. split; [|done]. intros <-.
      eapply find_running_none; [exact Hs|exact Hfind|exact Hj|exact Hr|]. by eapply Hsole.
    + right. split; [|by eauto]. intros j g Hj Hr. by eapply find_running_none.
Qed.

(** ** Stopping a filter *)

Lemma flush_ok rb : buffer_ok rb -> buffer_ok (dvb_ringbuffer_flush rb).
Proof. intros (H1 & H2 & H3 & H4 & H5). unfold buffer_ok. split_and!; cbn; done || lia. Qed.

(** The result: the filter does not run, and keeps its type and parameters. *)
Definition idle (f f' : dmxdev_filter) : Prop :=
  ~ running f' /\ fl_type f' = fl_type f /\ fl_params f' = fl_params f /\ open_ok f' /\
  (DMXDEV_STATE_SET <= fl_state f -> fl_state f' = DMXDEV_STATE_SET) /\
  (fl_state f < DMXDEV_STATE_SET -> fl_state f' = fl_state f).

Lemma wp_filter_stop {B} f s ch (k : Z -> dmxM B) Q :
  ok s ch -> dd_filter s !! i = Some f -> fl_state f <> DMXDEV_STATE_FREE ->
  (forall s' ch' f', ok s' ch' -> dd_filter s' !! i = Some f' -> idle f f' -> wp (k 0) s' Q) ->
  wp (mthen (dvb_dmxdev_filter_stop i) k) s Q.
Proof.
  intros Hs Hf Hnf Hk. pose proof (do_filter _ _ s ch Hs i f Hf) as [Ho Hrun _ _]. specialize (Ho Hnf).
  apply wp_mthen. unfold dvb_dmxdev_filter_stop. eapply wp_fl_get; [exact Hf|]. cbv zeta.
  destruct (Z.ltb_spec (fl_state f) DMXDEV_STATE_GO) as [Hlt|Hge].
  { apply wp_mdo. eapply (Hk s ch f); [done..|]. unfold idle, running.
    split_and!; try done; [lia|]. unfold DMXDEV_STATE_GO, DMXDEV_STATE_SET in *. lia. }
  destruct (Hrun Hge) as (Hty & fi & xi & Hfe & Hse & l & Hl & Hx). rewrite Hty.
  unfold feed_sec. rewrite Hfe. apply wp_mthen, wp_mdo.
  eapply wp_feed_stop; [done..|]. intros d feed Hs1 Hfd Hfl. rewrite Hse.
  destruct (release_filter_ok d ch fi l xi feed) as (d2 & r2 & Hrel & Hc2); [apply Hs1|done..|].
  apply wp_mthen. eapply wp_call; [exact Hrel|]. apply wp_mdo.
  set (s1 := set_dd_demux d (put_fl i (stopped f) (dd_tick s) s)) in *.
  change (wp (mthen (dvb_dmxdev_feed_restart i) (fun _ => mthen (fl_upd i (set_fl_feed (FeedSec None)))
    (fun _ => mthen (fl_upd i (fun f0 => set_fl_buffer (dvb_ringbuffer_flush (fl_buffer f0)) f0))
    (fun _ => mdo 0)))) (set_dd_demux d2 s1) (fun a s' => wp (k a) s' Q)).
  assert (Hi1 : dd_filter s1 !! i = Some (stopped f)).
  { cbn. apply list_lookup_insert_eq. by eapply lookup_lt_Some. }
  assert (Hoth : forall j g, dd_filter s1 !! j = Some g -> running g -> dd_filter s !! j = Some g /\ j <> i).
  { intros j g. cbn. intros [(-> & <- & _)|[Hne Hg]]%list_lookup_insert_Some Hr; [|done].
    by apply not_running_set in Hr. }
  assert (Hs2 : ok (set_dd_demux d2 s1) (<[fi := list_del xi l]> ch)).
  { eapply dev_demux; [done|done|]. intros j g fj xj Hj Hr (H1 & H2 & k' & Hk' & Hxk).
    split; [done|]. split; [done|]. destruct (Hoth j g Hj Hr) as [Hjs Hne].
    destruct (decide (fj = fi)) as [->|Hfne].
    - exists (list_del xi l). rewrite lookup_insert_eq. split; [done|].
      rewrite Hl in Hk'. injection Hk' as <-.
      destruct (co_chain _ _ (do_chains _ _ _ _ Hs) fi l Hl) as (fd & _ & _ & Hlk & _).
      apply elem_of_list_del; [by eapply linked_NoDup|]. split; [done|]. intros ->.
      apply (do_own _ _ s ch Hs j i g f); try done. congruence.
    - exists k'. by rewrite lookup_insert_ne. }
  destruct (oo_params f Ho Hty) as (p & Hp & Hpok).
  eapply (wp_feed_restart (stopped f) fi (list_del xi l) p _ (<[fi := list_del xi l]> ch)).
  - done.
  - done.
  - by apply not_running_set.
  - exact Hp.
  - exact Hfe.
  - apply lookup_insert_eq.
  - intros j g Hj Hr Hg. destruct (Hoth j g Hj Hr) as [Hjs _].
    transitivity (filter_pid f); [|unfold filter_pid; by rewrite Hp].
    apply (do_share _ _ s ch Hs j i g f); try done. congruence.
  - intros s' ch' Hs' Hf' _. eapply wp_fl_upd; [exact Hf'|]. eapply wp_put_upd; [exact Hf'|].
    apply wp_mdo. eapply Hk; [| by eapply put_fl_lookup|].
    + eapply dev_put; [done|exact Hf'| |].
      * split; [|intros Hr; by apply not_running_set in Hr|by intros [? [=]]|by destruct Ho].
        intros _. destruct Ho. split; try done. cbn. by apply flush_ok.
      * intros Hr. by apply not_running_set in Hr.
    + unfold idle. split; [by apply not_running_set|]. split; [done|]. split; [done|].
      split; [destruct Ho; split; try done; cbn; by apply flush_ok|]. split; [done|].
      intros Hlt. exfalso. unfold DMXDEV_STATE_GO, DMXDEV_STATE_SET in *. lia.
Qed.

(** ** Starting a section filter *)

Lemma fill_array_ok dst src :
  zlen dst = 18 -> Forall DemuxSection.is_byte dst -> array_ok src ->
  exists d, fill_array dst src = Some d /\ zlen d = 18 /\ Forall DemuxSection.is_byte d.
Proof.
  intros Hd Hdb [Hs Hsb]. unfold fill_array, DMX_FILTER_SIZE. pose proof (zlen_nonneg src).
  rewrite mread_Some by lia. cbn [mbind option_bind].
  rewrite mwrite_Some by zlia. cbn [mbind option_bind].
  destruct (proj2 (mget_is_Some src 0)) as [b Hb]; [lia|]. rewrite Hb. cbn [mbind option_bind].
  assert (Hz : zlen (blit dst 3 (slice src 1 (16 - 1))) = 18) by (rewrite zlen_blit; zlia).
  unfold mset. rewrite bool_decide_true by lia.
  eexists. split; [done|]. split; [by rewrite zlen_insert|].
  apply Forall_insert; [by apply Forall_blit, Forall_slice|].
  apply mget_Some in Hb as [_ Hb]. by eapply Forall_lookup_1.
Qed.

Lemma fill_filter_ok p x :
  sct_ok p -> raw_filter_ok x ->
  exists x', fill_filter i p x = Some x' /\ raw_filter_ok x' /\ next x' = next x /\
    filter_feed x' = filter_feed x /\ filter_state x' = filter_state x.
Proof.
  intros (Hv & Hm & Hmo) ((Lv & Hmm & Hmn) & Lm & Lmo & Bv & Bm & Bmo). unfold fill_filter.
  destruct (fill_array_ok (filter_value x) (sct_filter p)) as (v & Ev & Lv' & Bv'); [done..|].
  destruct (fill_array_ok (filter_mask x) (sct_mask p)) as (m & Em & Lm' & Bm'); [done..|].
  destruct (fill_array_ok (filter_mode x) (sct_mode p)) as (mo & Emo & Lmo' & Bmo'); [done..|].
  cbn [filter_value filter_mask filter_mode set_filter_priv].
  rewrite Ev. cbn [mbind option_bind]. rewrite Em. cbn [mbind option_bind]. rewrite Emo.
  cbn [mbind option_bind]. unfold mset. rewrite bool_decide_true by lia. cbn [mbind option_bind].
  rewrite bool_decide_true by (rewrite zlen_insert; lia).
  eexists. split; [done|]. split; [|done].
  assert (Hz : DemuxSection.is_byte 0) by (unfold DemuxSection.is_byte; lia).
  split_and!; try done; cbn [filter_mask set_filter_mode set_filter_mask]; [by rewrite !zlen_insert|].
  by apply Forall_insert; [apply Forall_insert|].
Qed.

(** The filter will run, on a feed whose other filters have its PID. *)
Definition pid_feed (s : dmxdev) (i fi : nat) (pid : Z) : Prop :=
  forall j g, dd_filter s !! j = Some g -> j <> i -> running g ->
    fl_feed g = FeedSec (Some fi) <-> filter_pid g = Some pid.

Definition going (s : dmxdev) : Prop :=
  exists f ch, dd_filter s !! i = Some f /\
    ok (put_fl i (set_fl_state DMXDEV_STATE_GO f) (dd_tick s) s) ch.

(** How a start ends: early with a code, or with all but the last step done. *)
Definition start_post (r : option Z) (s : dmxdev) : Prop :=
  match r with Some _ => exists ch, ok s ch | None => going s end.

Lemma wp_filter_timer {B} f p (k : unit -> dmxM B) s Q :
  dd_filter s !! i = Some f -> fl_params f = ParamsSec p ->
  (forall t, wp (k tt) (put_fl i (set_fl_timer t f) (dd_tick s) s) Q) ->
  wp (mthen (dvb_dmxdev_filter_timer i) k) s Q.
Proof.
  intros Hf Hp Hk. apply wp_mthen. unfold dvb_dmxdev_filter_timer, del_timer, params_sec.
  eapply wp_fl_get; [exact Hf|]. rewrite Hp. apply wp_mthen, wp_mdo.
  eapply wp_fl_upd; [exact Hf|]. case_match; [|apply wp_mdo, Hk].
  apply wp_gets. unfold wp. erewrite fl_upd_eq by by eapply put_fl_lookup.
  rewrite put_fl_put_fl. apply Hk.
Qed.


(** A filter that does not run is written. *)
Lemma dev_put_idle s ch f f' t :
  ok s ch -> dd_filter s !! i = Some f -> ~ running f -> ~ running f' -> open_ok f' ->
  fl_timer f' = fl_timer f -> ok (put_fl i f' t s) ch.
Proof.
  intros Hs Hf Hnr Hnr' Hok Ht. eapply dev_put; [done|done| |done].
  destruct (do_filter _ _ s ch Hs i f Hf) as [_ _ H3 _].
  split; [done|done| |by destruct Hok]. rewrite Ht. intros Hx. by apply H3 in Hx.
Qed.

(** What a client may do with a filter it has just allocated. *)
Lemma wp_fill {B} p xi x (k : unit -> dmxM B) s ch Q :
  ok s ch -> dx_filter (dd_demux s) !! xi = Some x -> sct_ok p ->
  (forall d, ok (set_dd_demux d s) ch -> wp (k tt) (set_dd_demux d s) Q) ->
  wp (mthen (gets dd_demux) (fun d => mthen (the (dx_filter d !! xi)) (fun x =>
      mthen (the (fill_filter i p x)) (fun x => mthen (modify (set_dd_demux (put_filter xi x d))) k)))) s Q.
Proof.
  intros Hs Hx Hp Hk. apply wp_gets. eapply wp_the; [exact Hx|].
  destruct (fill_filter_ok p x Hp) as (x' & Ex & Hr & H1 & H2 & H3).
  { by eapply co_raw; [by eapply do_chains|]. }
  eapply wp_the; [exact Ex|]. apply wp_modify, Hk. apply dev_demux_same; [done|].
  by eapply put_filter_ok; [by eapply do_chains| | | | |].
Qed.

(** A new filter on the feed: the running ones keep theirs. *)
Lemma dev_add_chain s ch d fi l xi :
  ok s ch -> chains_ok d (<[fi := xi :: l]> ch) -> ch !! fi = Some l ->
  ok (set_dd_demux d s) (<[fi := xi :: l]> ch).
Proof.
  intros Hs Hd Hl. eapply dev_demux; [done|done|]. intros j g fj xj _ _ (H1 & H2 & k & Hk & Hx).
  split; [done|]. split; [done|]. destruct (decide (fj = fi)) as [->|Hne].
  - exists (xi :: l). rewrite lookup_insert_eq. split; [done|].
    assert (k = l) as -> by congruence. by apply list_elem_of_further.
  - exists k. by rewrite lookup_insert_ne.
Qed.

Lemma open_set_sec o f : open_ok f -> open_ok (set_fl_sec o f).
Proof. by intros []. Qed.

(** No filter is left: the feed is given up when nobody else uses it. *)
Lemma wp_undo_start f p fi l s ch r :
  ok s ch -> dd_filter s !! i = Some f -> ~ running f -> fl_params f = ParamsSec p ->
  fl_feed f = FeedSec (Some fi) -> ch !! fi = Some l -> pid_feed s i fi (sct_pid p) ->
  (l = [] \/ exists j g, dd_filter s !! j = Some g /\ running g /\ filter_pid g = Some (sct_pid p)) ->
  wp (dvb_dmxdev_feed_restart i ;; start_section_feed fi ;; mdo (Some r)) s start_post.
Proof.
  intros Hs Hf Hnr Hp Hfe Hl Hpid Hone.
  eapply (wp_feed_restart f fi l p s ch); [done..| |].
  { intros j g Hj Hrg Hg. apply (Hpid j g); [done| |done|done]. intros ->.
    assert (g = f) as -> by congruence. done. }
  intros s' ch' Hs' _ [Hl'|[Hno (feed & Hfd & Hlk)]].
  - eapply wp_start_feed; [done..|]. intros d' r' Hd'. apply wp_mdo. eexists.
    apply dev_demux_same; [by apply dev_tick|done].
  - destruct Hone as [->|(j & g & Hj & Hrg & Hg)]; [|exfalso; by eapply (Hno j g)].
    apply wp_mthen. unfold start_section_feed. apply wp_lock. intros intr.
    destruct (start_section_empty intr (dd_demux s') ch' fi feed) as (d' & r' & Hst' & Hd');
      [apply Hs'|done|done|].
    eapply wp_call_last; [exact Hst'|]. apply wp_mdo. eexists.
    apply dev_demux_same; [by apply dev_tick|done].
Qed.

(** The filter is there: its feed is started, and the timer after that. *)
Lemma wp_filter_ready f p fi xi l s ch :
  ok s ch -> dd_filter s !! i = Some f -> open_ok f -> ~ running f ->
  fl_type f = DMXDEV_TYPE_SEC -> fl_params f = ParamsSec p -> fl_sec f = Some xi ->
  fl_feed f = FeedSec (Some fi) -> ch !! fi = Some (xi :: l) -> pid_feed s i fi (sct_pid p) ->
  (forall j g, dd_filter s !! j = Some g -> j <> i -> running g -> fl_sec g <> Some xi) ->
  wp (fl_upd i (set_fl_todo 0) ;;
      ret <- start_section_feed fi ;;
      if ret <? 0 then mdo (Some ret) else dvb_dmxdev_filter_timer i ;; mdo None) s start_post.
Proof.
  intros Hs Hf Hok Hnr Hty Hp Hse Hfe Hl Hpid Hoth.
  eapply wp_fl_upd; [exact Hf|]. set (f2 := set_fl_todo 0 f). set (s3 := put_fl _ _ _ _).
  assert (Hok2 : open_ok f2) by by destruct Hok.
  assert (Hs3 : ok s3 ch) by by eapply dev_put_idle.
  eapply wp_start_feed; [exact Hs3|exact Hl|]. intros d3 ret Hd3. set (s4 := set_dd_demux _ _).
  assert (Hs4 : ok s4 ch) by (apply dev_demux_same; [by apply dev_tick|done]).
  destruct (Z.ltb_spec ret 0); [apply wp_mdo; by eexists|].
  assert (Hi4 : dd_filter s4 !! i = Some f2) by by apply (put_fl_lookup i f2 (dd_tick s) _ f).
  eapply wp_filter_timer; [exact Hi4|done|]. intros t. apply wp_mdo.
  exists (set_fl_timer t f2), ch. split; [by eapply put_fl_lookup|]. rewrite put_fl_put_fl.
  eapply (dev_run s4 ch f2 _ _ fi xi (sct_pid p)); [done|done|by destruct Hok2|done|done| | |].
  - split; [done|]. split; [done|]. exists (xi :: l). split; [done|apply list_elem_of_here].
  - unfold filter_pid. cbn. by rewrite Hp.
  - intros j g Hj Hne Hrg. cbn in Hj. rewrite list_lookup_insert_ne in Hj by done.
    split; [by eapply Hoth|by eapply Hpid].
Qed.

Lemma wp_start_section_filter f p fi l s ch :
  ok s ch -> dd_filter s !! i = Some f -> open_ok f -> fl_type f = DMXDEV_TYPE_SEC ->
  fl_params f = ParamsSec p -> ~ running f -> fl_feed f = FeedSec (Some fi) ->
  ch !! fi = Some l -> pid_feed s i fi (sct_pid p) ->
  (l = [] \/ exists j g, dd_filter s !! j = Some g /\ running g /\ filter_pid g = Some (sct_pid p)) ->
  wp (start_section_filter i p) s start_post.
Proof.
  intros Hs Hf Hok Hty Hp Hnr Hfe Hl Hpid Hone.
  unfold start_section_filter. eapply wp_fl_get; [exact Hf|].
  unfold feed_sec. rewrite Hfe. apply wp_mthen, wp_mdo. eapply wp_the; [done|]. apply wp_lock.
  intros intr. set (s0 := set_dd_tick _ s). assert (Hs0 : ok s0 ch) by by apply dev_tick.
  destruct (alloc_filter_ok intr (dd_demux s0) ch fi l) as (d & r & o & Hal & Hpost);
    [apply Hs0|done|].
  eapply wp_alloc; [exact Hal|]. cbn [fst snd]. eapply wp_fl_upd; [exact Hf|].
  set (s1 := put_fl i (set_fl_sec o f) _ _).
  assert (Hi1 : dd_filter s1 !! i = Some (set_fl_sec o f)) by by eapply put_fl_lookup.
  assert (Hold : forall j, j <> i -> dd_filter s1 !! j = dd_filter s !! j).
  { intros j Hne. cbn. by rewrite list_lookup_insert_ne. }
  assert (Hpid1 : pid_feed s1 i fi (sct_pid p)).
  { intros j g Hj Hne. rewrite Hold in Hj by done. by apply (Hpid j). }
  destruct o as [xi|].
  - destruct Hpost as (-> & Hnew & Hd). cbn [Z.ltb Z.compare]. eapply wp_the; [done|].
    assert (Hs1 : ok s1 (<[fi := xi :: l]> ch)).
    { eapply dev_put_idle; [by apply dev_add_chain|exact Hf|done|done|by apply open_set_sec|done]. }
    destruct (co_chain _ _ Hd fi (xi :: l)) as (feed & _ & _ & _ & Hin); [apply lookup_insert_eq|].
    destruct (Hin xi) as (x & Hx & _); [apply list_elem_of_here|].
    destruct (oo_params f Hok Hty) as (p' & Hp' & Hpok). assert (p' = p) as -> by congruence.
    eapply wp_fill; [exact Hs1|exact Hx|done|]. intros d2 Hs2.
    eapply (wp_filter_ready _ p fi xi l); try done; [by apply open_set_sec|apply lookup_insert_eq|].
    intros j g Hj Hne Hrg. change (dd_filter s1 !! j = Some g) in Hj. rewrite Hold in Hj by done.
    destruct (fo_run ch g (do_filter _ _ s ch Hs j g Hj) Hrg) as (_ & fj & xj & _ & -> & k' & Hk' & Hx').
    intros [= ->]. by eapply Hnew.
  - destruct Hpost as [Hr Hd]. rewrite (proj2 (Z.ltb_lt _ _)) by done.
    eapply (wp_undo_start (set_fl_sec None f) p fi l s1 ch); try done.
    + eapply dev_put_idle; [by apply dev_demux_same|exact Hf|done|done|by apply open_set_sec|done].
    + destruct Hone as [->|(j & g & Hj & Hrg & Hg)]; [by left|right]. exists j, g.
      rewrite Hold; [done|]. intros ->. by assert (g = f) as -> by congruence.
Qed.

(** The feed of a running filter with the PID is shared. *)
Lemma wp_join_feed f p j g fi s ch :
  ok s ch -> dd_filter s !! i = Some f -> open_ok f -> fl_type f = DMXDEV_TYPE_SEC ->
  fl_params f = ParamsSec p -> ~ running f -> fl_feed f = FeedSec (Some fi) ->
  dd_filter s !! j = Some g -> running g -> filter_pid g = Some (sct_pid p) ->
  fl_feed g = FeedSec (Some fi) ->
  wp (dvb_dmxdev_feed_stop i ;; start_section_filter i p) s start_post.
Proof.
  intros Hs Hf Hok Hty Hp Hnr Hfe Hj Hr Hpid Hg.
  destruct (fo_run ch g (do_filter _ _ s ch Hs j g Hj) Hr) as (_ & fj & xj & Hfj & _ & l & Hl & _).
  assert (fj = fi) as -> by congruence.
  assert (Hne : j <> i) by (intros ->; assert (g = f) as -> by congruence; done).
  eapply wp_feed_stop; [done..|]. intros d feed Hs1 _ _. set (s1 := set_dd_demux _ _) in *.
  assert (Hold : forall n, n <> i -> dd_filter s1 !! n = dd_filter s !! n).
  { intros n Hn. cbn. by rewrite list_lookup_insert_ne. }
  eapply (wp_start_section_filter (stopped f) p fi l s1 ch); try done.
  - by eapply put_fl_lookup.
  - by destruct Hok.
  - by apply not_running_set.
  - intros n h Hn Hni Hrh. rewrite Hold in Hn by done. rewrite <- Hg, <- Hpid.
    by apply (do_share _ _ s ch Hs n j h g).
  - right. exists j, g. by rewrite Hold.
Qed.

(** A feed of its own. *)
Lemma wp_new_feed f p s ch :
  ok s ch -> dd_filter s !! i = Some f -> open_ok f -> fl_type f = DMXDEV_TYPE_SEC ->
  fl_params f = ParamsSec p -> ~ running f ->
  (forall j g, dd_filter s !! j = Some g -> running g -> filter_pid g <> Some (sct_pid p)) ->
  wp (intr <- mutex_lock_interruptible ;;
      r <- demux_alloc (dvbdmx_allocate_section_feed intr) ;;
      fl_upd i (set_fl_feed (FeedSec r.2)) ;;
      if r.1 <? 0 then mdo (Some r.1)
      else
        fi <- the r.2 ;;
        intr <- mutex_lock_interruptible ;;
        ret <- demux_call (dmx_section_feed_set intr fi (sct_pid p) 32768
                 (if truthy (Z.land (sct_flags p) DMX_CHECK_CRC) then 1 else 0)) ;;
        if ret <? 0 then dvb_dmxdev_feed_restart i ;; mdo (Some ret)
        else start_section_filter i p) s start_post.
Proof.
  intros Hs Hf Hok Hty Hp Hnr Hpid. apply wp_lock. intros intr. set (s0 := set_dd_tick _ s).
  assert (Hs0 : ok s0 ch) by by apply dev_tick.
  destruct (alloc_section_ok intr (dd_demux s0) ch) as (d & r & o & Hal & Hpost); [apply Hs0|].
  eapply wp_alloc; [exact Hal|]. cbn [fst snd]. eapply wp_fl_upd; [exact Hf|].
  assert (Hok1 : open_ok (set_fl_feed (FeedSec o) f)) by by destruct Hok.
  destruct o as [fi|]; destruct Hpost as [Hr Hd].
  2: { rewrite (proj2 (Z.ltb_lt _ _)) by done. apply wp_mdo. exists ch.
       eapply dev_put_idle; [by apply dev_demux_same|exact Hf|done..]. }
  destruct Hd as [Hnone Hd]. rewrite Hr. cbn [Z.ltb Z.compare]. eapply wp_the; [done|].
  set (s1 := put_fl _ _ _ _). set (ch1 := <[fi := []]> ch) in *.
  assert (Hs1 : ok s1 ch1).
  { eapply dev_put_idle; [|exact Hf|done..]. eapply dev_demux; [done|done|].
    intros j g fj xj _ _ (H1 & H2 & k & Hk & Hx). split; [done|]. split; [done|]. exists k.
    unfold ch1. rewrite lookup_insert_ne; [done|]. congruence. }
  apply wp_lock. intros intr2. set (s2 := set_dd_tick _ s1).
  assert (Hs2 : ok s2 ch1) by by apply dev_tick.
  destruct (set_section_ok intr2 (dd_demux s2) ch1 fi [] (sct_pid p) 32768
    (if truthy (Z.land (sct_flags p) DMX_CHECK_CRC) then 1 else 0)) as (d3 & ret & Hset & Hd3);
    [apply Hs2|apply lookup_insert_eq|].
  eapply wp_call; [exact Hset|]. set (s3 := set_dd_demux d3 s2).
  assert (Hs3 : ok s3 ch1) by by apply dev_demux_same.
  assert (Hi3 : dd_filter s3 !! i = Some (set_fl_feed (FeedSec (Some fi)) f))
    by by apply (put_fl_lookup i _ 0 s f).
  assert (Hlk : ch1 !! fi = Some []) by apply lookup_insert_eq.
  assert (Hoth : pid_feed s3 i fi (sct_pid p)).
  { intros j g Hj Hne Hrg. cbn in Hj. rewrite list_lookup_insert_ne in Hj by done.
    split; [|by intros ?%(Hpid j g Hj Hrg)]. intros Hg.
    destruct (fo_run ch g (do_filter _ _ s ch Hs j g Hj) Hrg) as (_ & fj & xj & Hfj & _ & l & Hl & _).
    congruence. }
  destruct (Z.ltb_spec ret 0).
  - eapply (wp_feed_restart _ fi [] p); try done.
    { intros j g Hj Hrg Hg. apply (Hoth j g); [done| |done|done]. intros ->.
      rewrite Hi3 in Hj. injection Hj as <-. done. }
    intros s' ch' Hs' _ _. apply wp_mdo. by eexists.
  - eapply (wp_start_section_filter _ p fi [] s3 ch1); try done. by left.
Qed.

Lemma wp_start_section f p s ch :
  ok s ch -> dd_filter s !! i = Some f -> open_ok f -> fl_type f = DMXDEV_TYPE_SEC ->
  fl_params f = ParamsSec p -> ~ running f ->
  wp (start_section i) s start_post.
Proof.
  intros Hs Hf Hok Hty Hp Hnr. unfold start_section.
  eapply wp_fl_get; [exact Hf|]. unfold params_sec. rewrite Hp. apply wp_mthen, wp_mdo.
  eapply wp_fl_upd; [exact Hf|]. eapply wp_put_upd; [exact Hf|]. apply wp_gets.
  set (f1 := set_fl_feed (FeedSec None) (set_fl_sec None f)). set (s1 := put_fl _ _ _ _).
  assert (Hok1 : forall o, open_ok (set_fl_feed (FeedSec o) f1)) by by destruct Hok.
  assert (Hi1 : dd_filter s1 !! i = Some f1) by by eapply put_fl_lookup.
  assert (Hs1 : ok s1 ch) by (eapply dev_put_idle; try done; by destruct Hok).
  assert (Hput : forall o t, ok (put_fl i (set_fl_feed (FeedSec o) f1) t s1) ch).
  { intros o t. by eapply dev_put_idle. }
  assert (Hold : forall o t j g, dd_filter (put_fl i (set_fl_feed (FeedSec o) f1) t s1) !! j = Some g ->
    running g -> dd_filter s1 !! j = Some g).
  { intros o t j g. cbn. intros [(-> & <- & _)|[_ Hg]]%list_lookup_insert_Some Hr; [|done].
    by destruct Hnr. }
  destruct (find_running (sct_pid p) (dd_filter s1)) as [[j g]|] eqn:Hfind.
  - destruct (find_running_some _ _ _ _ _ Hs1 Hfind) as (Hj & Hr & Hpid).
    destruct (fo_run ch g (do_filter _ _ s1 ch Hs1 j g Hj) Hr) as (_ & fi & xi & Hg & _).
    apply wp_mthen. unfold feed_sec. rewrite Hg. apply wp_mdo. eapply wp_fl_upd; [exact Hi1|].
    assert (Hne : i <> j) by (intros ->; assert (g = f1) as -> by congruence; done).
    eapply (wp_join_feed (set_fl_feed (FeedSec (Some fi)) f1) p j g fi); try done.
    + by eapply put_fl_lookup.
    + cbn. rewrite list_lookup_insert_ne; done.
  - apply wp_mthen, wp_mdo. eapply wp_fl_upd; [exact Hi1|].
    eapply (wp_new_feed (set_fl_feed (FeedSec None) f1) p); try done.
    + by eapply put_fl_lookup.
    + intros j g Hj Hr. eapply find_running_none; [exact Hs1|exact Hfind|by eapply Hold|done].
Qed.
End safe.
