(* ===== verification/DmxdevOps.v ===== *)
(** The operations of a section device keep the invariant of DmxdevSafe.v and
    never fault: starting, setting and closing a filter, its timer and its
    callback, the size of its buffer, and reading from it. *)

From stdpp Require Import gmap.
From S2P Require Import Prelude StateM RingBuffer DemuxTypes Demux DemuxSection DemuxFeed DemuxFeedProofs DemuxChains DmxdevTypes Dmxdev DmxdevFilter DmxdevRead DmxdevSection DmxdevSafe.

Section ops.
Context {DE : DemuxEnv} {E : DmxdevEnv} {L : DmxdevEnvLaws E} {C : UserMemoryMapped E}.
Context (W : nat -> dmxdev_filter -> Prop) (i : nat).
Context (W_go : forall j g, W j g -> running g -> W j (set_fl_state DMXDEV_STATE_GO g)).
Abbreviation ok := (dev_ok W i).

(** What every operation ends with. *)
Definition safe {A} (_ : A) (s : dmxdev) : Prop := exists ch, ok s ch.

(** ** Starting, setting and closing *)

Lemma not_running_idle f : ~ running f -> fl_state f < DMXDEV_STATE_GO.
Proof. unfold running. lia. Qed.

Lemma memory_ok n rb mem :
  buffer_ok rb -> vmalloc n (rb_size rb) = Some mem -> buffer_ok (set_data rb (Some mem)).
Proof.
  intros (H1 & H2 & H3 & H4 & _) Hv. do 4 (split; [done|]). intros d [= <-]. by eapply vmalloc_size.
Qed.

Lemma open_ok_buffer f rb : open_ok f -> buffer_ok rb -> open_ok (set_fl_buffer rb f).
Proof. by intros []. Qed.

Lemma wp_last_step s :
  going W i s -> wp (dvb_dmxdev_filter_state_set i DMXDEV_STATE_GO ;; mdo 0) s safe.
Proof.
  intros (f & ch & Hf & Hok). eapply wp_fl_upd; [exact Hf|]. apply wp_mdo. by exists ch.
Qed.

(** The filter does not run; its buffer gets its memory and the start begins. *)
Lemma wp_start_idle f s ch :
  ok s ch -> dd_filter s !! i = Some f -> open_ok f -> ~ running f ->
  wp (n <- tick ;;
      let buf := fl_buffer f in
      match (match rb_data buf with
             | Some _ => Some buf
             | None => mem ← vmalloc n (rb_size buf); Some (set_data buf (Some mem))
             end) with
      | None => mdo (- ENOMEM)
      | Some buf =>
        fl_upd i (set_fl_buffer (dvb_ringbuffer_flush buf)) ;;
        early <- match fl_type f with
                 | DMXDEV_TYPE_SEC => start_section i
                 | DMXDEV_TYPE_PES =>
                   l <- feed_ts f ;;
                   ret <- start_feeds i 0 (length l) ;;
                   mdo (if ret <? 0 then Some ret else None)
                 | DMXDEV_TYPE_NONE => mdo (Some (- EINVAL))
                 end ;;
        match early with
        | Some ret => mdo ret
        | None => dvb_dmxdev_filter_state_set i DMXDEV_STATE_GO ;; mdo 0
        end
      end) s safe.
Proof.
  intros Hs Hf Hok Hnr. apply wp_mthen. unfold tick. apply wp_gets, wp_modify, wp_mdo.
  set (s0 := set_dd_tick _ s). assert (Hs0 : ok s0 ch) by by apply dev_tick.
  set (buf := match rb_data (fl_buffer f) with Some _ => _ | None => _ end).
  assert (Hbuf : forall rb, buf = Some rb -> buffer_ok rb).
  { intros rb. unfold buf. destruct (rb_data (fl_buffer f)); [intros [= <-]; by apply Hok|].
    intros (mem & Hm & [= <-])%bind_Some. eapply memory_ok; [apply Hok|exact Hm]. }
  cbv zeta. fold buf. destruct buf as [rb|]; [|apply wp_mdo; by exists ch].
  eapply wp_fl_upd; [exact Hf|]. set (f1 := set_fl_buffer _ f).
  assert (Hok1 : open_ok f1) by by apply open_ok_buffer, flush_ok, Hbuf.
  assert (Hs1 : ok (put_fl i f1 (dd_tick s0) s0) ch) by by eapply dev_put_idle.
  assert (Hi1 : dd_filter (put_fl i f1 (dd_tick s0) s0) !! i = Some f1) by by eapply put_fl_lookup.
  destruct (fl_type f) eqn:Hty.
  - apply wp_mthen, wp_mdo, wp_mdo. by exists ch.
  - destruct (oo_params f Hok Hty) as (p & Hp & _).
    eapply wp_seq; [by eapply (wp_start_section W i W_go f1 p)|]. intros [ret|] s' Hpost.
    + by apply wp_mdo.
    + by apply wp_last_step.
  - by destruct (oo_type f Hok).
Qed.

Lemma wp_filter_start f s ch :
  ok s ch -> dd_filter s !! i = Some f -> fl_state f <> DMXDEV_STATE_FREE ->
  wp (dvb_dmxdev_filter_start i) s safe.
Proof.
  intros Hs Hf Hnf. pose proof (fo_open ch f (do_filter _ _ s ch Hs i f Hf) Hnf) as Hok.
  unfold dvb_dmxdev_filter_start. eapply wp_fl_get; [exact Hf|].
  case_match; [apply wp_mdo; by exists ch|].
  eapply (wp_seq _ _ _ (fun _ s' => exists ch' f', ok s' ch' /\ dd_filter s' !! i = Some f' /\
    open_ok f' /\ ~ running f')).
  - rewrite Z.geb_leb. destruct (Z.leb_spec DMXDEV_STATE_GO (fl_state f)).
    + eapply wp_filter_stop; [done..|]. intros s' ch' f' Hs' Hf' Hidle. apply wp_mdo.
      exists ch', f'. destruct Hidle as (? & _ & _ & ? & _). done.
    + apply wp_mdo. exists ch, f. split_and!; try done. unfold running. lia.
  - intros [] s' (ch' & f' & Hs' & Hf' & Hok' & Hnr). eapply wp_fl_get; [exact Hf'|].
    by eapply wp_start_idle.
Qed.

Lemma invert_ok p : sct_ok p -> sct_ok (invert_mode p).
Proof.
  intros (Hv & Hm & Hl & Hb). split; [done|]. split; [done|]. split; cbn; [by rewrite zlen_fmap|].
  apply Forall_fmap. eapply Forall_impl; [exact Hb|]. intros b Hx. cbn. unfold DemuxSection.is_byte in *.
  split; [by apply Z.lxor_nonneg; lia|].
  assert (Z.lxor b 0xff = Z.lxor b 0xff mod 2 ^ 8) as ->; [|apply Z.mod_pos_bound; lia].
  apply Z.bits_inj'. intros n Hn. destruct (decide (n < 8)).
  - by rewrite Z.mod_pow2_bits_low by lia.
  - rewrite Z.mod_pow2_bits_high, Z.lxor_spec, !(testbit_above 8) by lia. done.
Qed.

Lemma wp_filter_set p f s ch :
  ok s ch -> dd_filter s !! i = Some f -> fl_state f <> DMXDEV_STATE_FREE -> sct_ok p ->
  wp (dvb_dmxdev_filter_set i p) s safe.
Proof.
  intros Hs Hf Hnf Hp. unfold dvb_dmxdev_filter_set. eapply wp_filter_stop; [done..|].
  intros s' ch' f' Hs' Hf' (Hnr & _ & _ & Hok & _).
  eapply wp_fl_upd; [exact Hf'|]. do 2 (eapply wp_put_upd; [exact Hf'|]).
  set (f1 := set_fl_state _ _). set (s1 := put_fl _ _ _ _).
  assert (Hs1 : ok s1 ch').
  { eapply dev_put_idle; [done|done|done|by apply not_running_set| |done]. destruct Hok. split; try done.
    intros _. exists (invert_mode p). split; [done|by apply invert_ok]. }
  case_match; [|apply wp_mdo; by exists ch'].
  eapply (wp_filter_start f1); [exact Hs1|by eapply put_fl_lookup|done].
Qed.

(** Closing: the filter is free again. *)
Lemma wp_filter_free {B} f s ch (k : Z -> dmxM B) Q :
  ok s ch -> dd_filter s !! i = Some f -> fl_state f <> DMXDEV_STATE_FREE ->
  (forall s' ch' f', ok s' ch' -> dd_filter s' !! i = Some f' -> fl_state f' = DMXDEV_STATE_FREE ->
     wp (k 0) s' Q) ->
  wp (mthen (dvb_dmxdev_filter_free i) k) s Q.
Proof.
  intros Hs Hf Hnf Hk. apply wp_mthen. unfold dvb_dmxdev_filter_free.
  eapply wp_filter_stop; [done..|]. intros s1 ch1 f1 Hs1 Hf1 (Hnr & _ & _ & Hok & _).
  assert (Hfree : forall f', open_ok f' -> fl_timer f' = fl_timer f1 -> forall t,
    wp (fl_upd i (fun f => set_fl_buffer (set_data (fl_buffer f) None) f) ;;
        dvb_dmxdev_filter_state_set i DMXDEV_STATE_FREE ;; mdo 0)
      (put_fl i f' t s1) (fun a s' => wp (k a) s' Q)).
  { intros f' [Ht Hp (B1 & B2 & B3 & B4 & B5) Hto Hh] Htm t. do 2 (eapply wp_put_upd; [exact Hf1|]). apply wp_mdo.
    eapply (Hk _ ch1); [|by eapply put_fl_lookup|done].
    eapply dev_put_idle; [done|done|done| | |done].
    - unfold running. cbn. unfold DMXDEV_STATE_GO, DMXDEV_STATE_FREE. lia.
    - by split. }
  apply wp_mthen. unfold dvb_dmxdev_filter_reset. eapply wp_fl_get; [exact Hf1|]. case_match.
  - apply wp_mdo. assert (s1 = put_fl i f1 (dd_tick s1) s1) as ->; [|by apply Hfree].
    unfold put_fl. rewrite list_insert_id by done. by destruct s1.
  - rewrite decide_False by apply Hok. apply wp_mthen, wp_mdo.
    eapply wp_fl_upd; [exact Hf1|]. eapply wp_put_upd; [exact Hf1|]. apply wp_mdo.
    apply Hfree; [|done]. by destruct Hok.
Qed.

Lemma new_memory_ok n rb mem size :
  buffer_ok rb -> vmalloc n size = Some mem -> size <> 0 -> buffer_ok (new_memory rb mem size).
Proof.
  intros Hb Hv Hz. pose proof (vmalloc_size _ _ _ Hv) as Hs. pose proof (vmalloc_bound _ _ _ Hv).
  pose proof (zlen_nonneg mem). do 4 (split; [cbn; lia|]).
  intros d [= <-]. done.
Qed.

Lemma wp_set_buffer_size size f s ch :
  ok s ch -> dd_filter s !! i = Some f -> fl_state f <> DMXDEV_STATE_FREE ->
  wp (dvb_dmxdev_set_buffer_size i size) s safe.
Proof.
  intros Hs Hf Hnf. pose proof (fo_open ch f (do_filter _ _ s ch Hs i f Hf) Hnf) as Hok.
  unfold dvb_dmxdev_set_buffer_size. eapply wp_fl_get; [exact Hf|].
  case_match; [apply wp_mdo; by exists ch|]. destruct (Z.eqb_spec size 0); [apply wp_mdo; by exists ch|].
  rewrite Z.geb_leb. destruct (Z.leb_spec DMXDEV_STATE_GO (fl_state f)); [apply wp_mdo; by exists ch|].
  apply wp_mthen. unfold tick. apply wp_gets, wp_modify, wp_mdo.
  assert (Hs0 : ok (set_dd_tick (S (dd_tick s)) s) ch) by by apply dev_tick.
  destruct (vmalloc _ _) as [mem|] eqn:Hv; [|apply wp_mdo; by exists ch].
  eapply wp_fl_upd; [exact Hf|]. apply wp_mdo. exists ch.
  assert (Hnr : ~ running f) by (unfold running; lia).
  eapply dev_put_idle; [exact Hs0|exact Hf|done|done| |done].
  apply open_ok_buffer; [done|]. eapply new_memory_ok; [apply Hok|done|done].
Qed.
End ops.

(** Reading from a section device, and what happens to one behind the reader's
    back (DmxdevFilter.v): reads of any size, that may sleep, wake-ups and
    signals, the callback of the demultiplexer and the timer, all keep the
    invariant of DmxdevSafe.v. *)

(** ** The buffer, whatever is in it *)

(** Results of a read of [n] bytes. *)
Definition read_ok (n : Z) (r : read_result) : Prop :=
  match r with
  | RdDone ret _ => - 2 ^ 31 <= ret <= n
  | RdSleep todo copied => 0 < todo /\ todo + zlen copied = n
  end.

Definition sleeps (r : read_result) : bool := if r is RdSleep _ _ then true else false.

Definition error_ok (e : Z) : Prop := - 2 ^ 31 <= e <= 0.

Lemma buffer_holds rb :
  buffer_ok rb -> is_Some (rb_data rb) ->
  exists q, holds_stream rb (rb_size rb) (mk_stream q (rb_error rb)).
Proof.
  intros (H1 & H2 & H3 & H4 & H5) [d Hd]. exists (contents rb d). split; [|done].
  exists d. split; [|done]. split; try done. by apply H5.
Qed.

Lemma holds_buffer rb cap s :
  holds_stream rb cap s -> error_ok (st_error s) -> buffer_ok rb /\ is_Some (rb_data rb).
Proof.
  intros [(d & [H1 H2 H3 H4 H5] & _) He] Herr. split; [|by eexists].
  split; [done|]. split; [done|]. split; [done|]. split; [by rewrite He|]. intros d' ?. congruence.
Qed.

Lemma take_ok nb count todo copied s :
  0 <= todo -> todo + zlen copied = count -> read_ok count (stream_take nb count todo copied s).1.
Proof.
  intros Ht Hc. unfold stream_take. pose proof (zlen_nonneg copied). pose proof (zlen_nonneg (st_queue s)).
  destruct (Z.leb_spec todo (zlen (st_queue s))); [cbn; lia|]. destruct nb; cbn.
  - unfold read_return. unfold EAGAIN. ztest; lia.
  - rewrite zlen_app. lia.
Qed.

Lemma take_error nb count todo copied s : error_ok (st_error (stream_take nb count todo copied s).2).
Proof. unfold stream_take, error_ok. repeat case_match; cbn; lia. Qed.

Lemma take_non_blocking count todo copied s :
  sleeps (stream_take true count todo copied s).1 = false.
Proof. unfold stream_take. by repeat case_match. Qed.

Lemma data_error cap b1 b2 s : error_ok (st_error s) -> error_ok (st_error (stream_data cap b1 b2 s)).
Proof.
  intros He. unfold stream_data, error_ok, EOVERFLOW in *. repeat case_match; cbn; lia.
Qed.

(** Data arrives. *)
Lemma store_data_ok rb b1 b2 :
  buffer_ok rb -> rb_error rb = 0 -> zlen b1 < 2 ^ 31 -> zlen b2 < 2 ^ 31 ->
  exists rb', store_data rb b1 b2 = Some rb' /\ buffer_ok rb' /\
    (is_Some (rb_data rb) -> is_Some (rb_data rb')).
Proof.
  intros Hb He H1 H2. destruct (rb_data rb) as [d|] eqn:Hd.
  - destruct (buffer_holds rb Hb) as [q Hs]; [by eexists|]. rewrite He in Hs.
    destruct (store_data_spec rb _ _ b1 b2 Hs) as (rb' & -> & Hs'); [done..|].
    destruct (holds_buffer _ _ _ Hs') as [Hb' Hd']; [by apply data_error|]. eauto.
  - exists rb. assert (forall b, dvb_dmxdev_buffer_write rb b (zlen b) = Some (0, rb)) as Hw.
    { intros b. unfold dvb_dmxdev_buffer_write. rewrite Hd. by case_match. }
    unfold store_data. rewrite Hw. cbn [mbind option_bind]. case_match.
    + rewrite Hw. cbn. split; [done|]. split; [done|]. by intros [].
    + cbn. split; [done|]. split; [done|]. by intros [].
Qed.

Section reads.
Context {DE : DemuxEnv} {E : DmxdevEnv} {C : UserMemoryMapped E}.

Lemma read_ok_spec t nb n rb :
  buffer_ok rb -> 0 <= n < 2 ^ 63 ->
  exists r rb', dvb_dmxdev_buffer_read (copy_to_user t) rb nb n = Some (r, rb') /\
    buffer_ok rb' /\ read_ok n r /\
    (sleeps r = true -> nb = false /\ is_Some (rb_data rb')).
Proof.
  intros Hb Hn. destruct (rb_data rb) as [d|] eqn:Hd.
  - destruct (buffer_holds rb Hb) as [q Hs]; [by eexists|]. destruct Hb as (_ & _ & _ & He & _).
    destruct (buffer_step_refines (copy_to_user t) (mapped_to _) _ _ _ (StreamRead nb n) Hs)
      as (rb' & Hr & Hs'); [done|].
    cbn in Hr, Hs'. apply bind_Some in Hr as ([r rb1] & Hr & [= Hres <-]). exists r, rb1.
    split; [done|]. destruct (Z.eqb_spec (rb_error rb) 0) as [H0|H0]; cbn [negb] in *.
    + destruct (stream_take nb n n [] _) as [r' s'] eqn:Ht. cbn in Hres, Hs'. injection Hres as ->.
      destruct (holds_buffer _ _ _ Hs') as [Hb' Hd'].
      { change s' with (r', s').2. rewrite <- Ht. apply take_error. }
      split; [done|]. change r' with (r', s').1. rewrite <- Ht. split.
      * apply take_ok; rewrite ?zlen_nil; lia.
      * destruct nb; [by rewrite take_non_blocking|done].
    + cbn in Hres, Hs'. injection Hres as ->. destruct (holds_buffer _ _ _ Hs') as [Hb' _]; [by unfold error_ok; cbn; lia|].
      split; [done|]. split; [cbn; lia|done].
  - unfold dvb_dmxdev_buffer_read. rewrite Hd. do 2 eexists. split; [done|]. split; [done|].
    split; [cbn; lia|done].
Qed.

Lemma resume_ok_spec t signal todo copied rb :
  buffer_ok rb -> is_Some (rb_data rb) -> 0 < todo -> todo + zlen copied < 2 ^ 63 ->
  exists r rb', buffer_read_resume (copy_to_user t) rb signal (todo + zlen copied) todo copied =
      Some (r, rb') /\
    buffer_ok rb' /\ read_ok (todo + zlen copied) r /\ is_Some (rb_data rb').
Proof.
  intros Hb Hd Ht Hn. destruct (buffer_holds rb Hb Hd) as [q Hs].
  pose proof Hb as (_ & _ & _ & He & _). pose proof (zlen_nonneg copied).
  set (count := todo + zlen copied) in *.
  destruct (resume_spec (copy_to_user t) (mapped_to _) _ _ _ signal count todo copied Hs)
    as (r & rb' & Hr & Hstep & Hs'); [lia..|]. exists r, rb'. split; [done|].
  cbn in Hstep, Hs'. destruct signal; cbn in Hs'.
  { destruct (holds_buffer _ _ _ Hs') as [Hb' Hd']; [done|]. split; [done|]. split; [|done].
    injection Hstep as <-. cbn. unfold read_return, ERESTARTSYS. ztest; lia. }
  destruct (Z.eqb_spec (rb_error rb) 0); cbn in Hstep, Hs'.
  - destruct (stream_take false count todo copied _) as [r' s'] eqn:Htk. cbn in Hstep, Hs'.
    injection Hstep as ->. destruct (holds_buffer _ _ _ Hs') as [Hb' Hd'].
    { change s' with (r, s').2. rewrite <- Htk. apply take_error. }
    split; [done|]. split; [|done]. change r with (r, s').1. rewrite <- Htk. apply take_ok; lia.
  - injection Hstep as <-. destruct (holds_buffer _ _ _ Hs') as [Hb' Hd']; [unfold error_ok; cbn; lia|].
    split; [done|]. split; [|done]. cbn. unfold read_return. ztest; lia.
Qed.
End reads.

(** ** Readers that wait *)

(** What a sleeping section reader counts on. *)
Definition sec_wait_ok (f : dmxdev_filter) (ss : sec_sleep) : Prop :=
  0 < ss_todo ss /\ ss_todo ss + zlen (ss_copied ss) = ss_inner ss /\
  0 <= ss_count ss < 2 ^ 63 /\ is_Some (rb_data (fl_buffer f)) /\
  match ss_stage ss with
  | InHeader => ss_inner ss <= ss_count ss /\ fl_todo f <= 0 /\ ss_inner ss <= 3 + fl_todo f
  | InPayload => ss_inner ss <= fl_todo f
  end.

Definition sec_post (f : dmxdev_filter) (r : sec_result) : Prop :=
  match r with SecDone _ _ => True | SecSleep ss => sec_wait_ok f ss end.

Definition wait_ok (f : dmxdev_filter) (r : demux_read_result) : Prop :=
  fl_state f <> DMXDEV_STATE_FREE /\
  match r with
  | DemuxRead _ _ => True
  | DemuxSleepSec ss => sec_wait_ok f ss
  | DemuxSleep todo copied =>
    0 < todo /\ todo + zlen copied < 2 ^ 63 /\ is_Some (rb_data (fl_buffer f))
  end.

(** The reader is not disturbed. *)
Definition undisturbed (f f' : dmxdev_filter) : Prop :=
  fl_todo f' = fl_todo f /\ (is_Some (rb_data (fl_buffer f)) -> is_Some (rb_data (fl_buffer f'))).

Lemma undisturbed_wait f f' r :
  undisturbed f f' -> fl_state f' <> DMXDEV_STATE_FREE -> wait_ok f r -> wait_ok f' r.
Proof.
  intros [Ht Hd] Hn [_ Hr]. split; [done|]. destruct r as [|ss|]; [done| |naive_solver].
  destruct Hr as (H1 & H2 & H3 & H4 & H5). unfold sec_wait_ok. rewrite Ht. do 3 (split; [done|]). auto.
Qed.

Section ops.
Context {DE : DemuxEnv} {E : DmxdevEnv} {C : UserMemoryMapped E}.
Context (W : nat -> dmxdev_filter -> Prop) (i : nat).
Abbreviation ok := (dev_ok W i).

(** An open filter, and how operations of its reader leave it. *)
Definition opened (f : dmxdev_filter) (s : dmxdev) (ch : chains) : Prop :=
  ok s ch /\ dd_filter s !! i = Some f /\ fl_state f <> DMXDEV_STATE_FREE.

Definition left_with {A} (w : dmxdev_filter -> A -> Prop) (r : A) (s : dmxdev) : Prop :=
  exists ch f, opened f s ch /\ w f r.

Lemma opened_ok f s ch : opened f s ch -> open_ok f.
Proof. intros (Hs & Hf & Hn). by apply (fo_open ch f (do_filter _ _ s ch Hs i f Hf)). Qed.

(** The reader's fields and the buffer change. *)
Lemma opened_put f f' t s ch :
  opened f s ch -> frame_of f' = frame_of f -> fl_timer f' = fl_timer f -> buffer_ok (fl_buffer f') ->
  -3 < fl_todo f' < 4096 /\ zlen (fl_secheader f') = 3 -> opened f' (put_fl i f' t s) ch.
Proof.
  intros (Hs & Hf & Hn) Hfr Ht Hb Hm. split; [|split; [by eapply put_fl_lookup|]].
  - eapply dev_put; [done|done|eapply dev_filter_ok_same; [by eapply do_filter|done|by left|done|done]|].
    unfold frame_of in Hfr. injection Hfr as E1 E2 E3 E4 E5. unfold running, key, filter_pid.
    by rewrite E1, E2, E3, E5.
  - unfold frame_of in Hfr. congruence.
Qed.

Lemma opened_tick f t s ch : opened f s ch -> opened f (set_dd_tick t s) ch.
Proof. intros (Hs & Hf & Hn). split; [by apply dev_tick|done]. Qed.

Lemma opened_upd {B} f g (k : unit -> dmxM B) s ch Q :
  opened f s ch -> wp (k tt) (put_fl i (g f) (dd_tick s) s) Q -> wp (mthen (fl_upd i g) k) s Q.
Proof. intros (_ & Hf & _). by apply wp_fl_upd. Qed.

Lemma opened_get {B} f (k : dmxdev_filter -> dmxM B) s ch Q :
  opened f s ch -> wp (k f) s Q -> wp (mthen (fl_get i) k) s Q.
Proof. intros (_ & Hf & _). by apply wp_fl_get. Qed.

Lemma wp_read_any {B} f nb n (k : read_result -> dmxM B) s ch Q :
  opened f s ch -> 0 <= n < 2 ^ 63 ->
  (forall r rb s', opened (set_fl_buffer rb f) s' ch -> read_ok n r ->
     (sleeps r = true -> nb = false /\ is_Some (rb_data rb)) -> wp (k r) s' Q) ->
  wp (mthen (buffer_read (Some i) nb n) k) s Q.
Proof.
  intros Hop Hn Hk. pose proof (opened_ok _ _ _ Hop) as [_ _ Hb Hto Hhd].
  destruct (read_ok_spec (dd_tick s) nb n (fl_buffer f) Hb Hn) as (r & rb & Hr & Hb' & Hrok & Hsl).
  apply wp_mthen. unfold buffer_read. cbn [get_buffer put_buffer].
  apply wp_mthen. eapply opened_get; [exact Hop|]. apply wp_mdo.
  apply wp_mthen. unfold tick. apply wp_gets, wp_modify, wp_mdo.
  eapply wp_the; [exact Hr|]. cbn [fst snd].
  eapply opened_upd; [by apply opened_tick|]. apply wp_mdo. eapply Hk; [|done|done].
  apply (opened_put f); [by apply opened_tick|done..].
Qed.

Lemma wp_resume_any {B} f signal todo copied (k : read_result -> dmxM B) s ch Q :
  opened f s ch -> 0 < todo -> todo + zlen copied < 2 ^ 63 -> is_Some (rb_data (fl_buffer f)) ->
  (forall r rb s', opened (set_fl_buffer rb f) s' ch -> read_ok (todo + zlen copied) r ->
     is_Some (rb_data rb) -> wp (k r) s' Q) ->
  wp (mthen (buffer_resume (Some i) signal (todo + zlen copied) todo copied) k) s Q.
Proof.
  intros Hop Ht Hn Hd Hk. pose proof (opened_ok _ _ _ Hop) as [_ _ Hb Hto Hhd].
  destruct (resume_ok_spec (dd_tick s) signal todo copied (fl_buffer f) Hb Hd Ht Hn)
    as (r & rb & Hr & Hb' & Hrok & Hsl).
  apply wp_mthen. unfold buffer_resume. cbn [get_buffer put_buffer].
  apply wp_mthen. eapply opened_get; [exact Hop|]. apply wp_mdo.
  apply wp_mthen. unfold tick. apply wp_gets, wp_modify, wp_mdo.
  eapply wp_the; [exact Hr|]. cbn [fst snd].
  eapply opened_upd; [by apply opened_tick|]. apply wp_mdo. eapply Hk; [|done|done].
  apply (opened_put f); [by apply opened_tick|done..].
Qed.

Lemma wp_payload_read f inner count done before r s ch :
  opened f s ch -> inner <= fl_todo f -> 0 <= count < 2 ^ 63 -> read_ok inner r ->
  (sleeps r = true -> is_Some (rb_data (fl_buffer f))) ->
  wp (payload_read i inner count done before r) s (left_with sec_post).
Proof.
  intros Hop Hin Hc Hr Hsl. pose proof (opened_ok _ _ _ Hop) as [_ _ Hb Hto Hhd].
  unfold payload_read. destruct r as [ret copied|todo copied]; cbn in Hr.
  - rewrite s32_small by lia. cbv zeta. destruct (Z.ltb_spec ret 0).
    + apply wp_mdo. by exists ch, f.
    + eapply opened_upd; [exact Hop|]. apply wp_mdo. exists ch. eexists. split; [|done].
      eapply opened_put; [exact Hop|done..|]. cbn. rewrite s32_small; lia.
  - apply wp_mdo. exists ch, f. split; [done|]. cbn. unfold sec_wait_ok. cbn. by split_and!; try lia; auto.
Qed.

Lemma wp_read_payload_any f nb count done before s ch :
  opened f s ch -> 0 <= fl_todo f -> 0 <= count < 2 ^ 63 ->
  wp (read_payload i nb count done before) s (left_with sec_post).
Proof.
  intros Hop Ht Hc. pose proof (opened_ok _ _ _ Hop) as [_ _ Hb Hto Hhd].
  unfold read_payload. eapply opened_get; [exact Hop|]. rewrite (wrap_small 64), Z.gtb_ltb by lia.
  set (inner := if fl_todo f <? count then fl_todo f else count). cbv zeta.
  assert (Hin : 0 <= inner <= fl_todo f /\ inner <= count) by (unfold inner; ztest; lia).
  eapply wp_read_any; [exact Hop|lia|]. intros r rb s' Hop' Hr Hsl.
  eapply wp_payload_read; [exact Hop'|cbn; lia|lia|done|]. intros Hx. by apply Hsl.
Qed.

Lemma wp_header_read_any f nb inner count r s ch :
  opened f s ch -> fl_todo f <= 0 -> inner <= 3 + fl_todo f -> inner <= count -> 0 <= count < 2 ^ 63 ->
  read_ok inner r -> (sleeps r = true -> is_Some (rb_data (fl_buffer f))) ->
  wp (header_read i nb inner count r) s (left_with sec_post).
Proof.
  intros Hop Ht Hin Hic Hc Hr Hsl. pose proof (opened_ok _ _ _ Hop) as [_ _ Hb Hto Hhd].
  unfold header_read. destruct r as [ret copied|todo copied]; cbn in Hr.
  2: { apply wp_mdo. exists ch, f. split; [done|]. cbn. unfold sec_wait_ok. cbn. by split_and!; try lia; auto. }
  rewrite s32_small by lia. cbv zeta. destruct (Z.ltb_spec ret 0).
  { eapply opened_upd; [exact Hop|]. apply wp_mdo. exists ch. eexists. split; [|done].
    by eapply opened_put; [exact Hop|..]. }
  apply wp_mthen. unfold tick. apply wp_gets, wp_modify, wp_mdo. rewrite mapped_from.
  set (bytes := slice copied 0 ret). assert (Hbl : zlen bytes <= ret).
  { unfold bytes, slice, zlen. rewrite length_take. lia. }
  eapply opened_get; [by apply opened_tick|].
  rewrite mwrite_Some by lia. eapply wp_the; [done|].
  set (hd := blit _ _ bytes). assert (Hhd' : zlen hd = 3) by (unfold hd; rewrite zlen_blit; lia).
  eapply opened_upd; [by apply opened_tick|]. eapply wp_put_upd; [apply Hop|].
  rewrite s32_small, Z.gtb_ltb by lia. set (f2 := set_fl_todo _ _). set (s0 := set_dd_tick _ s).
  assert (Hop2 : forall t todo, -3 < todo < 4096 -> opened (set_fl_todo todo f2) (put_fl i (set_fl_todo todo f2) t s0) ch).
  { intros t todo Hx. eapply opened_put; [by apply opened_tick|done..]. }
  destruct (Z.ltb_spec (-3) (fl_todo f - ret)) as [Hlt|Hge].
  { apply wp_mdo. exists ch, f2. split; [|done]. apply (Hop2 _ (fl_todo f - ret)). lia. }
  destruct (proj2 (mget_is_Some hd 1)) as [h1 E1]; [lia|]. destruct (proj2 (mget_is_Some hd 2)) as [h2 E2]; [lia|].
  eapply wp_the; [exact E1|]. eapply wp_the; [exact E2|]. eapply wp_put_upd; [apply Hop|].
  set (todo := Z.land _ 0xfff). assert (0 <= todo < 2 ^ 12) by (apply land_bound; lia).
  destruct (Z.eqb_spec (count - ret) 0).
  - apply wp_mdo. exists ch. eexists. split; [apply (Hop2 _ todo); lia|done].
  - eapply wp_read_payload_any; [apply (Hop2 _ todo); lia|cbn; lia|lia].
Qed.

Lemma wp_read_sec_any f nb count s ch :
  opened f s ch -> 0 <= count < 2 ^ 63 -> wp (dvb_dmxdev_read_sec i nb count) s (left_with sec_post).
Proof.
  intros Hop Hc. pose proof (opened_ok _ _ _ Hop) as [_ _ Hb Hto Hhd].
  unfold dvb_dmxdev_read_sec. eapply opened_get; [exact Hop|].
  destruct (Z.leb_spec (fl_todo f) 0); [|eapply wp_read_payload_any; [exact Hop|lia..]].
  rewrite s32_small, (wrap_small 64 (3 + _)), Z.gtb_ltb by lia. cbv zeta.
  set (h := if count <? 3 + fl_todo f then s32 count else 3 + fl_todo f).
  assert (0 <= h <= 3 + fl_todo f /\ h <= count).
  { unfold h. ztest; [rewrite s32_small by lia|]; lia. }
  rewrite (wrap_small 64) by lia. eapply wp_read_any; [exact Hop|lia|]. intros r rb s' Hop' Hr Hsl.
  eapply wp_header_read_any; [exact Hop'|cbn; lia..|lia|done|]. intros Hx. by apply Hsl.
Qed.

Lemma wp_sec_resume_any f signal ss s ch :
  opened f s ch -> sec_wait_ok f ss -> wp (read_sec_resume i signal ss) s (left_with sec_post).
Proof.
  intros Hop (Ht & Hn & Hc & Hd & Hst). pose proof (opened_ok _ _ _ Hop) as [_ _ Hb Hto Hhd].
  unfold read_sec_resume. rewrite <- Hn.
  assert (ss_inner ss < 2 ^ 63) by (destruct (ss_stage ss); lia).
  eapply wp_resume_any; [exact Hop|done|lia|done|]. intros r rb s' Hop' Hr Hd'.
  destruct (ss_stage ss).
  - eapply wp_header_read_any; [exact Hop'|cbn; lia..|lia|lia|done|done].
  - eapply wp_payload_read; [exact Hop'|cbn; lia|lia|done|done].
Qed.

Lemma left_plain f rb n r s ch :
  opened (set_fl_buffer rb f) s ch -> read_ok n r -> n < 2 ^ 63 ->
  (sleeps r = true -> is_Some (rb_data rb)) -> left_with wait_ok (from_plain r) s.
Proof.
  intros Hop Hr Hn Hsl. exists ch. eexists. split; [exact Hop|]. split; [apply Hop|].
  destruct r as [|todo copied]; [done|]. cbn in *. split_and!; [lia|lia|by apply Hsl].
Qed.

Lemma wp_from_sec (m : dmxM sec_result) s :
  wp m s (left_with sec_post) -> wp (r <- m ;; mdo (from_sec r)) s (left_with wait_ok).
Proof.
  intros Hm. eapply wp_seq; [exact Hm|]. intros r s' (ch & f & Hop & Hr).
  apply wp_mdo. exists ch, f. split; [exact Hop|]. split; [apply Hop|]. by destruct r.
Qed.

Lemma wp_demux_read f nb count s ch :
  opened f s ch -> 0 <= count < 2 ^ 63 -> wp (dvb_demux_read i nb count) s (left_with wait_ok).
Proof.
  intros Hop Hc. unfold dvb_demux_read. apply wp_lock. intros [].
  { apply wp_mdo. exists ch, f. split; [by apply opened_tick|]. split; [apply Hop|done]. }
  eapply opened_get; [by apply opened_tick|]. case_decide.
  - apply wp_from_sec. eapply wp_read_sec_any; [by apply opened_tick|done].
  - eapply wp_read_any; [by apply opened_tick|done|]. intros r rb s' Hop' Hr Hsl. apply wp_mdo.
    eapply left_plain; [exact Hop'|exact Hr|lia|]. intros Hx. by apply Hsl.
Qed.

Lemma wp_demux_resume f signal r s ch :
  opened f s ch -> wait_ok f r -> wp (demux_read_resume i signal r) s (left_with wait_ok).
Proof.
  intros Hop [Hn Hr]. destruct r as [ret copied|ss|todo copied]; cbn [demux_read_resume].
  - apply wp_mdo. by exists ch, f.
  - apply wp_from_sec. by eapply wp_sec_resume_any.
  - destruct Hr as (Ht & Hc & Hd). eapply wp_resume_any; [exact Hop|done..|].
    intros r rb s' Hop' Hr Hd'. apply wp_mdo. by eapply left_plain.
Qed.

(** ** Behind the reader's back *)

(** A running filter goes on with another buffer or state. *)
Lemma opened_running f f' t s ch :
  opened f s ch -> running f -> running f' -> key f' = key f -> fl_type f' = fl_type f ->
  fl_params f' = fl_params f -> buffer_ok (fl_buffer f') -> fl_todo f' = fl_todo f ->
  fl_secheader f' = fl_secheader f -> opened f' (put_fl i f' t s) ch.
Proof.
  intros Hop Hr Hr' Hk Hty Hp Hb Ht Hh. pose proof (opened_ok _ _ _ Hop) as [A B _ D F].
  destruct Hop as (Hs & Hf & Hn). pose proof (running_open f' Hr').
  split; [|split; [by eapply put_fl_lookup|done]].
  eapply dev_put; [done|done| |done]. destruct (do_filter _ _ s ch Hs i f Hf) as [_ H2 _ H4].
  unfold key in Hk. injection Hk as K1 K2 _. split; [|intros _|done|by rewrite Ht, Hh].
  - intros _. split; [by rewrite Hty|by rewrite Hty, Hp|done|by rewrite Ht|by rewrite Hh].
  - unfold on_feed. rewrite Hty, K1, K2. by apply H2.
Qed.

Definition unharmed (f0 : dmxdev_filter) {A} (_ : A) (s : dmxdev) : Prop :=
  exists ch f, opened f s ch /\ undisturbed f0 f.

(** The timer is pending and fires. *)
Lemma wp_timeout f s ch :
  opened f s ch -> is_Some (fl_timer f) ->
  wp (del_timer i ;; dvb_dmxdev_filter_timeout i) s (unharmed f).
Proof.
  intros Hop Ht. pose proof (opened_ok _ _ _ Hop) as [_ _ (B1 & B2 & B3 & B4 & B5) Hto Hhd].
  pose proof Hop as (Hs & Hf & Hn).
  assert (Hr : running f) by by apply (fo_timer ch f (do_filter _ _ s ch Hs i f Hf)).
  eapply opened_upd; [exact Hop|]. unfold dvb_dmxdev_filter_timeout.
  eapply wp_put_upd; [exact Hf|]. unfold dvb_dmxdev_filter_state_set, wp.
  erewrite fl_upd_eq by by eapply put_fl_lookup. rewrite put_fl_put_fl.
  exists ch. eexists. split; [eapply (opened_running f); try done|done].
Qed.

(** The demultiplexer hands over a section. *)
Lemma wp_section_callback f b1 b2 s ch :
  opened f s ch -> zlen b1 < 2 ^ 31 -> zlen b2 < 2 ^ 31 ->
  wp (dvb_dmxdev_section_callback b1 b2 i) s (unharmed f).
Proof.
  intros Hop H1 H2. pose proof (opened_ok _ _ _ Hop) as Hok. pose proof Hop as (Hs & Hf & Hn).
  assert (Hsame : unharmed f tt s) by (exists ch, f; by split).
  unfold dvb_dmxdev_section_callback. eapply opened_get; [exact Hop|].
  destruct (Z.eqb_spec (rb_error (fl_buffer f)) 0) as [He|]; cbn [negb]; [|by apply wp_mdo].
  destruct (Z.eqb_spec (fl_state f) DMXDEV_STATE_GO) as [Hgo|]; cbn [negb]; [|by apply wp_mdo].
  assert (Hr : running f) by by unfold running; rewrite Hgo.
  destruct (fo_run ch f (do_filter _ _ s ch Hs i f Hf) Hr) as (Hty & _).
  destruct (oo_params f Hok Hty) as (p & Hp & _).
  destruct (store_data_ok (fl_buffer f) b1 b2) as (rb & Hst & Hb & Hd); [apply Hok|done..|].
  unfold del_timer. eapply opened_upd; [exact Hop|]. eapply wp_the; [exact Hst|].
  eapply wp_put_upd; [exact Hf|]. unfold params_sec. rewrite Hp. apply wp_mthen, wp_mdo.
  case_match.
  - unfold wp. erewrite fl_upd_eq by by eapply put_fl_lookup. rewrite put_fl_put_fl.
    exists ch. eexists. split; [by eapply (opened_running f)|done].
  - apply wp_mdo. exists ch. eexists. split; [by eapply (opened_running f)|done].
Qed.
End ops.
