(* ===== verification/DmxdevSystem.v ===== *)
(** The demux devices as a system: processes that open section devices, set,
    start, stop, read and close their filters, in any order, while the
    demultiplexer delivers sections and timers fire.  No sequence of these steps
    faults or deadlocks, whatever signals, memory and the driver answer.

    A reader that waits holds the mutex of its filter, so the calls of other
    processes on that filter wait too; here they are skipped. *)

From stdpp Require Import gmap.
From S2P Require Import Prelude StateM RingBuffer DemuxTypes Demux DemuxSection DemuxFeed DemuxFeedProofs DemuxChains DmxdevTypes Dmxdev DmxdevFilter DmxdevRead DmxdevSection DmxdevSafe DmxdevOps.

(** The devices, and the readers that wait. *)
Record dev_sys := mk_sys {
  ds_dev : dmxdev;
  ds_wait : gmap nat demux_read_result;
}.

Inductive dev_op :=
  | DevOpen
  | DevIoctl (i : nat) (cmd : demux_cmd)
  | DevPoll (i : nat)
  | DevRead (i : nat) (non_blocking : bool) (count : Z)
  | DevWake (i : nat) (signal : bool)
  | DevRelease (i : nat)
  | DevSection (i : nat) (data : list Z)
  | DevTimer (i : nat).

(** Commands for section filters. *)
Definition section_cmd (cmd : demux_cmd) : bool :=
  match cmd with DMX_SET_PES_FILTER _ | DMX_GET_PES_PIDS => false | _ => true end.

(** What the types of the C arguments promise. *)
Definition dev_op_ok (op : dev_op) : Prop :=
  match op with
  | DevIoctl _ cmd => section_cmd cmd = true /\
                      match cmd with DMX_SET_FILTER p => sct_ok p | _ => True end
  | DevRead _ _ count => 0 <= count < 2 ^ 63
  | DevSection _ data => zlen data < 2 ^ 31
  | _ => True
  end.

Definition is_open (s : dev_sys) (i : nat) : bool :=
  match dd_filter (ds_dev s) !! i with
  | Some f => negb (fl_state f =? DMXDEV_STATE_FREE)
  | None => false
  end.
Definition usable (s : dev_sys) (i : nat) : bool :=
  is_open s i && bool_decide (ds_wait s !! i = None).
Definition timer_pending (s : dev_sys) (i : nat) : bool :=
  is_open s i &&
  match dd_filter (ds_dev s) !! i with Some f => bool_decide (is_Some (fl_timer f)) | None => false end.

(** A reader goes on waiting or is done. *)
Definition put_wait (i : nat) (r : demux_read_result) (w : gmap nat demux_read_result) :
    gmap nat demux_read_result :=
  match r with DemuxRead _ _ => delete i w | _ => <[i := r]> w end.

Section system.
Context {DE : DemuxEnv} {E : DmxdevEnv}.

Definition run_dev {A} (guard : bool) (m : dmxM A) (s : dev_sys) : option dev_sys :=
  if guard then '(_, d) ← m (ds_dev s); Some (mk_sys d (ds_wait s)) else Some s.
Definition run_read (i : nat) (m : dmxM demux_read_result) (s : dev_sys) : option dev_sys :=
  '(r, d) ← m (ds_dev s); Some (mk_sys d (put_wait i r (ds_wait s))).

Definition dev_step (op : dev_op) (s : dev_sys) : option dev_sys :=
  match op with
  | DevOpen => run_dev true dvb_demux_open s
  | DevIoctl i cmd => run_dev (usable s i) (dvb_demux_do_ioctl i cmd) s
  | DevPoll i => run_dev (is_open s i) (dvb_demux_poll i) s
  | DevRead i nb count => if usable s i then run_read i (dvb_demux_read i nb count) s else Some s
  | DevWake i signal =>
    match ds_wait s !! i with
    | Some r => if is_open s i then run_read i (demux_read_resume i signal r) s else Some s
    | None => Some s
    end
  | DevRelease i => run_dev (usable s i) (dvb_demux_release i) s
  | DevSection i data => run_dev (is_open s i) (dvb_dmxdev_section_callback data [] i) s
  | DevTimer i => run_dev (timer_pending s i) (del_timer i ;; dvb_dmxdev_filter_timeout i) s
  end.

Fixpoint dev_run (ops : list dev_op) (s : dev_sys) : option dev_sys :=
  match ops with [] => Some s | op :: ops => s ← dev_step op s; dev_run ops s end.

(** What the readers count on. *)
Definition waits (w : gmap nat demux_read_result) (j : nat) (f : dmxdev_filter) : Prop :=
  forall r, w !! j = Some r -> wait_ok f r.

Definition sys_ok (s : dev_sys) : Prop :=
  exists ch, forall i, dev_ok (waits (ds_wait s)) i (ds_dev s) ch.

(** ** The steps keep the invariant *)

Lemma waits_go w j g : waits w j g -> running g -> waits w j (set_fl_state DMXDEV_STATE_GO g).
Proof. intros Hw _ r Hr. apply (undisturbed_wait g); [by split|done|by apply Hw]. Qed.

(** Done with filter [i]. *)
Lemma dev_done w w' i s ch :
  dev_ok (waits w) i s ch -> (forall j, j <> i -> w' !! j = w !! j) ->
  (forall f, dd_filter s !! i = Some f -> waits w' i f) -> sys_ok (mk_sys s w').
Proof.
  intros [H1 H2 H3 H4 H5] Hw Hi. exists ch. intros k. split; [done..|]. cbn.
  intros j f Hj _. destruct (decide (j = i)) as [->|Hne]; [by apply Hi|].
  intros r Hr. rewrite Hw in Hr by done. by apply (H5 j f).
Qed.

Lemma run_dev_ok {A} guard (m : dmxM A) s (P : A -> dmxdev -> Prop) :
  sys_ok s -> (guard = true -> wp m (ds_dev s) P) ->
  (forall a d, P a d -> sys_ok (mk_sys d (ds_wait s))) ->
  exists s', run_dev guard m s = Some s' /\ sys_ok s'.
Proof.
  intros Hs Hm HP. unfold run_dev. destruct guard; [|by eexists].
  destruct (wp_run _ _ _ (Hm eq_refl)) as (a & d & -> & Hd). cbn. eexists. split; [done|]. by eapply HP.
Qed.

Lemma is_open_spec s i :
  sys_ok s -> is_open s i = true ->
  exists ch f, opened (waits (ds_wait s)) i f (ds_dev s) ch /\ waits (ds_wait s) i f.
Proof.
  intros [ch Hok] Ho. unfold is_open in Ho. destruct (dd_filter (ds_dev s) !! i) as [f|] eqn:Hf; [|done].
  exists ch, f. split; [split; [apply Hok|]; split; [done|]|].
  - by apply negb_true_iff, Z.eqb_neq in Ho.
  - apply (do_wait _ _ _ _ (Hok (S i)) i f Hf). lia.
Qed.

Lemma usable_spec s i :
  sys_ok s -> usable s i = true ->
  ds_wait s !! i = None /\ exists ch f, opened (waits (ds_wait s)) i f (ds_dev s) ch.
Proof.
  intros Hs [Ho Hw%bool_decide_eq_true]%andb_true_iff. split; [done|].
  destruct (is_open_spec s i Hs Ho) as (ch & f & H & _). eauto.
Qed.

(** Nobody waits on the filter. *)
Lemma dev_done_idle w i s ch : dev_ok (waits w) i s ch -> w !! i = None -> sys_ok (mk_sys s w).
Proof. intros H Hw. eapply dev_done; [done|done|]. intros f _ r Hr. congruence. Qed.

Lemma run_read_ok i m s w :
  (forall j, j <> i -> w !! j = ds_wait s !! j) ->
  wp m (ds_dev s) (left_with (waits w) i wait_ok) ->
  exists s', run_read i m s = Some s' /\ sys_ok s'.
Proof.
  intros Hw Hm. destruct (wp_run _ _ _ Hm) as (r & d & Hr & ch & f & (Hok & Hf & Hn) & Hwait).
  unfold run_read. rewrite Hr. cbn. eexists. split; [done|].
  eapply (dev_done w); [exact Hok| |].
  - intros j Hj. rewrite Hw by done. destruct r; cbn; by rewrite ?lookup_delete_ne, ?lookup_insert_ne by done.
  - intros f' Hf' r' Hr'. assert (f' = f) as -> by congruence. destruct r; cbn in Hr'.
    + by rewrite lookup_delete_eq in Hr'.
    + rewrite lookup_insert_eq in Hr'. by injection Hr' as <-.
    + rewrite lookup_insert_eq in Hr'. by injection Hr' as <-.
Qed.

Context {L : DmxdevEnvLaws E} {C : UserMemoryMapped E}.

(** Opening takes a free filter. *)
Lemma wp_open s ch w :
  (forall i, dev_ok (waits w) i s ch) ->
  wp dvb_demux_open s (fun _ s' => sys_ok (mk_sys s' w)).
Proof.
  intros Hs. assert (Hsame : forall t, sys_ok (mk_sys (set_dd_tick t s) w)).
  { intros t. exists ch. intros i. by apply dev_tick. }
  unfold dvb_demux_open. apply wp_gets. destruct (dd_filter s) as [|f0 l] eqn:Hl.
  { apply wp_mdo. specialize (Hsame (dd_tick s)). by destruct s. }
  rewrite <- Hl. apply wp_lock. intros []; [apply wp_mdo, Hsame|].
  destruct (list_find _ _) as [[i f]|] eqn:Hfind; [|apply wp_mdo, Hsame].
  apply list_find_Some in Hfind as (Hf & Hfree & _). set (s0 := set_dd_tick _ s).
  assert (Hs0 : dev_ok (waits w) i s0 ch) by by apply dev_tick.
  eapply wp_fl_upd; [exact Hf|]. do 3 (eapply wp_put_upd; [exact Hf|]).
  apply wp_gets, wp_modify, wp_mdo. set (f' := set_fl_timer None _).
  assert (Hok : dev_ok (waits w) i (put_fl i f' (dd_tick s0) s0) ch).
  { eapply dev_put; [exact Hs0|exact Hf| |].
    - destruct (do_filter _ _ _ _ Hs0 i f Hf) as [_ _ _ [Hto Hhd]].
      split; [intros _|..]; [by split| |by intros [? [=]]|done].
      intros Hr. unfold running in Hr. cbn in Hr. unfold DMXDEV_STATE_ALLOCATED, DMXDEV_STATE_GO in Hr. lia.
    - unfold running. cbn. unfold DMXDEV_STATE_ALLOCATED, DMXDEV_STATE_GO. lia. }
  eapply dev_done_idle; [destruct Hok; by split|].
  destruct (w !! i) as [r|] eqn:Hw; [exfalso|done].
  destruct (do_wait _ _ _ _ (Hs (S i)) i f Hf ltac:(lia) r Hw) as [Hn _]. done.
Qed.

Section ioctl.
Context (W : nat -> dmxdev_filter -> Prop) (i : nat) (f : dmxdev_filter) (ch : chains).
Context (W_go : forall j g, W j g -> running g -> W j (set_fl_state DMXDEV_STATE_GO g)).

Lemma wp_locked (m : dmxM Z) s :
  opened W i f s ch -> (forall s, opened W i f s ch -> wp m s (safe W i)) ->
  wp (ret <- with_lock m ;; mdo (ret, @nil Z)) s (safe W i).
Proof.
  intros Hop Hm. eapply wp_seq.
  - apply (wp_with_lock m s (safe W i)).
    + intros t. exists ch. by apply (opened_tick W i f).
    + apply Hm. by apply opened_tick.
  - intros ret s' Hs'. by apply wp_mdo.
Qed.

Lemma wp_hook (h : option Z) s :
  opened W i f s ch -> wp (ret <- call_hook h ;; mdo (ret, @nil Z)) s (safe W i).
Proof. intros (Hs & _). apply wp_mthen. unfold call_hook. destruct h; apply wp_mdo, wp_mdo; by exists ch. Qed.

(** The PID commands are for PES filters. *)
Lemma wp_not_pes (k : dmxdev_filter -> dmxM Z) s :
  opened W i f s ch ->
  wp (f <- fl_get i ;;
      if negb (bool_decide (fl_type f = DMXDEV_TYPE_PES)) || (fl_state f <? DMXDEV_STATE_SET)
      then mdo (- EINVAL) else k f) s (safe W i).
Proof.
  intros Hop. eapply opened_get; [exact Hop|]. rewrite bool_decide_false by by eapply oo_type, opened_ok.
  apply wp_mdo. exists ch. apply Hop.
Qed.

Lemma wp_ioctl cmd s :
  opened W i f s ch -> section_cmd cmd = true ->
  match cmd with DMX_SET_FILTER p => sct_ok p | _ => True end ->
  wp (dvb_demux_do_ioctl i cmd) s (safe W i).
Proof.
  intros Hop Hcmd Hp. unfold dvb_demux_do_ioctl. apply wp_lock. intros [].
  { apply wp_mdo. exists ch. by eapply opened_tick. }
  apply (opened_tick _ _ _ (S (dd_tick s))) in Hop. revert Hop. generalize (set_dd_tick (S (dd_tick s)) s).
  clear s. intros s Hop.
  destruct cmd; try done; try (by apply wp_hook); try (apply wp_locked; [exact Hop|]; clear s Hop; intros s Hop).
  - eapply opened_get; [exact Hop|]. case_match; [apply wp_mdo; exists ch; apply Hop|].
    eapply wp_filter_start; [exact W_go|apply Hop..].
  - apply wp_ret. eapply wp_filter_stop; [exact W_go|apply Hop..|].
    intros s' ch' f' Hs' _ _. apply wp_mdo. by exists ch'.
  - eapply wp_filter_set; [exact W_go|apply Hop..|done].
  - eapply wp_set_buffer_size; apply Hop.
  - apply wp_not_pes; exact Hop.
  - apply wp_not_pes; exact Hop.
  - apply wp_mdo. exists ch. apply Hop.
Qed.

Lemma wp_release s :
  opened W i f s ch -> wp (dvb_demux_release i) s (safe W i).
Proof.
  intros Hop. unfold dvb_demux_release. eapply wp_filter_free; [exact W_go|apply Hop..|].
  intros s' ch' f' Hs' _ _. apply wp_gets, wp_modify, wp_gets, wp_mdo. exists ch'. destruct Hs'. by split.
Qed.

Lemma wp_poll s :
  opened W i f s ch -> wp (dvb_demux_poll i) s (fun _ s' => s' = s).
Proof.
  intros Hop. unfold dvb_demux_poll. eapply opened_get; [exact Hop|]. case_match; by apply wp_mdo.
Qed.
End ioctl.

(** ** The steps *)

Lemma dev_unharmed w i f (a : unit) d :
  waits w i f -> unharmed (waits w) i f a d -> sys_ok (mk_sys d w).
Proof.
  intros Hw (ch & f' & (Hd & Hf & Hn) & Hund). eapply dev_done; [exact Hd|done|].
  intros g Hg r Hr. assert (g = f') as -> by congruence.
  apply (undisturbed_wait f); [done|done|by apply Hw].
Qed.

Lemma dev_step_ok op s :
  dev_op_ok op -> sys_ok s -> exists s', dev_step op s = Some s' /\ sys_ok s'.
Proof.
  intros Hop Hs. pose proof (waits_go (ds_wait s)) as Hgo. destruct op; cbn [dev_step]; cbn in Hop.
  - eapply (run_dev_ok _ _ _ (fun _ d => sys_ok (mk_sys d (ds_wait s)))); [done| |done].
    destruct Hs as [ch Hs]. intros _. by eapply wp_open.
  - destruct (usable s i) eqn:Hu; [|by eexists].
    destruct (usable_spec s i Hs Hu) as (Hw & ch & f & Hf). destruct Hop.
    eapply (run_dev_ok _ _ _ (safe (waits (ds_wait s)) i)); [done| |].
    + intros _. by eapply wp_ioctl.
    + intros _ d [ch' Hd]. by eapply dev_done_idle.
  - destruct (is_open s i) eqn:Hu; [|by eexists].
    destruct (is_open_spec s i Hs Hu) as (ch & f & Hf & _).
    eapply (run_dev_ok _ _ _ (fun _ d => d = ds_dev s)); [done| |].
    + intros _. by eapply wp_poll.
    + intros _ d ->. by destruct s.
  - destruct (usable s i) eqn:Hu; [|by eexists].
    destruct (usable_spec s i Hs Hu) as (Hw & ch & f & Hf).
    eapply run_read_ok; [done|]. by eapply wp_demux_read.
  - destruct (ds_wait s !! i) as [r|] eqn:Hr; [|by eexists].
    destruct (is_open s i) eqn:Hu; [|by eexists].
    destruct (is_open_spec s i Hs Hu) as (ch & f & Hf & Hwf).
    eapply run_read_ok; [done|]. eapply wp_demux_resume; [exact Hf|by apply Hwf].
  - destruct (usable s i) eqn:Hu; [|by eexists].
    destruct (usable_spec s i Hs Hu) as (Hw & ch & f & Hf).
    eapply (run_dev_ok _ _ _ (safe (waits (ds_wait s)) i)); [done| |].
    + intros _. by eapply wp_release.
    + intros _ d [ch' Hd]. by eapply dev_done_idle.
  - destruct (is_open s i) eqn:Hu; [|by eexists].
    destruct (is_open_spec s i Hs Hu) as (ch & f & Hf & Hwf).
    eapply (run_dev_ok _ _ _ (unharmed (waits (ds_wait s)) i f)); [done| |].
    + intros _. eapply wp_section_callback; [exact Hf|exact Hop|done].
    + intros a d Hd. by eapply dev_unharmed.
  - destruct (timer_pending s i) eqn:Hu; [|by eexists]. apply andb_true_iff in Hu as [Hu Ht].
    destruct (is_open_spec s i Hs Hu) as (ch & f & Hf & Hwf).
    eapply (run_dev_ok _ _ _ (unharmed (waits (ds_wait s)) i f)); [done| |].
    + intros _. eapply wp_timeout; [exact Hf|]. destruct Hf as (_ & Hf & _). rewrite Hf in Ht.
      by apply bool_decide_eq_true in Ht.
    + intros a d Hd. by eapply dev_unharmed.
Qed.

Lemma dev_run_ok ops s :
  Forall dev_op_ok ops -> sys_ok s -> exists s', dev_run ops s = Some s' /\ sys_ok s'.
Proof.
  intros Hops. revert s. induction Hops as [|op ops Hop _ IH]; intros s Hs; cbn [dev_run]; [by eexists|].
  destruct (dev_step_ok op s Hop Hs) as (s1 & -> & Hs1). by apply IH.
Qed.

(** The memory of the filters, when it is all zero. *)
Definition zeroed (f : dmxdev_filter) : Prop :=
  fl_timer f = None /\ fl_todo f = 0 /\ zlen (fl_secheader f) = 3.

Lemma init_ok s fs s1 :
  chains_ok (dd_demux s) ∅ -> Forall zeroed fs ->
  dvb_dmxdev_init (Some fs) s = Some (0, s1) -> sys_ok (mk_sys s1 ∅).
Proof.
  intros Hd Hfs Hinit. exists ∅.
  assert (Hs1 : chains_ok (dd_demux s1) ∅ /\ forall i f, dd_filter s1 !! i = Some f ->
    fl_state f = DMXDEV_STATE_FREE /\ zeroed f).
  { unfold dvb_dmxdev_init, demux_call, modify, gets, the, mdo, mthen in Hinit. cbn in Hinit.
    destruct (dvbdmx_open _) as [d r] eqn:Ho. cbn in Hinit. case_match; [done|].
    injection Hinit as <-. cbn. split.
    - unfold dvbdmx_open in Ho. case_match; injection Ho as <- _; [done|].
      eapply chains_same; [exact Hd|apply Hd|done..].
    - intros i f Hf. rewrite list_lookup_fmap in Hf.
      destruct (fs !! i) as [g|] eqn:Hg; [|done]. injection Hf as <-. split; [done|].
      exact (Forall_lookup_1 _ _ _ _ Hfs Hg). }
  destruct Hs1 as [Hd1 Hf1]. intros i.
  assert (Hidle : forall j f, dd_filter s1 !! j = Some f -> ~ running f).
  { intros j f Hf. destruct (Hf1 j f Hf) as [Hst _]. unfold running. rewrite Hst.
    unfold DMXDEV_STATE_FREE, DMXDEV_STATE_GO. lia. }
  split; [done| | | |].
  - intros j f Hf. destruct (Hf1 j f Hf) as (Hst & Ht & Hto & Hhd). split.
    + done.
    + intros Hr. by apply (Hidle j f) in Hr.
    + rewrite Ht. by intros [? [=]].
    + by rewrite Hto, Hhd.
  - intros j k f g Hf _ _ Hr. by apply (Hidle j f) in Hr.
  - intros j k f g Hf _ Hr. by apply (Hidle j f) in Hr.
  - intros j f _ _ r Hr. cbn [ds_wait] in Hr. by apply lookup_empty_Some in Hr.
Qed.

(** Claim C13: section devices never fault.  From the initialisation on, with the memory
    of the device's filters zero at the start (a filter's [todo] is set only when it is
    started: [unstarted_read_uses_old_todo]), a demultiplexer in order without feeds and
    whose driver has stop_feed, and pointers of userspace that can be read and written,
    for any sequence of steps of the users of section devices (open, SET_FILTER, START,
    STOP, SET_BUFFER_SIZE and every other command but those of PES filters, poll,
    reads of any size that may sleep, wake-ups and signals, close), with the
    demultiplexer's callbacks and the timers in between at any place, and
    whatever the locks, the memory allocator and the driver answer, no step
    faults: no access outside the buffers, the header or the tables, no null
    feed or filter, no wrong member of a union, no deadlock on the
    demultiplexer's mutex.  And after each of them every running filter has a
    section filter of its own on a live feed, which two running filters share
    exactly when they want the same PID ([sys_ok], [dev_ok]). *)
Theorem section_devices_never_fault ops s fs s1 :
  chains_ok (dd_demux s) ∅ -> Forall zeroed fs -> Forall dev_op_ok ops ->
  dvb_dmxdev_init (Some fs) s = Some (0, s1) ->
  exists s', dev_run ops (mk_sys s1 ∅) = Some s' /\ sys_ok s'.
Proof. intros Hd Hfs Hops Hinit. apply dev_run_ok; [done|]. by eapply init_ok. Qed.
End system.

Lemma demo_chains : chains_ok (demo_demux 4 4) ∅.
Proof.
  assert (Hb : Forall DemuxSection.is_byte (replicate 18 0)).
  { apply Forall_replicate. unfold DemuxSection.is_byte. lia. }
  split; [done|done| |done].
  intros x f Hf. assert (Hin : f ∈ dx_filter (demo_demux 4 4)) by by eapply list_elem_of_lookup_2.
  cbn in Hin. rewrite !elem_of_cons in Hin.
  assert (exists g, f = g /\ raw_filter_ok g) as (g & -> & Hg); [|done].
  exists f. split; [done|].
  destruct Hin as [->|[->|[->|[->|Hin]]]]; [by split..|by apply not_elem_of_nil in Hin].
Qed.

Lemma demo_params_ok p flags : sct_ok (demo_params p flags).
Proof.
  assert (array_ok (replicate 16 0)).
  { split; [done|]. apply Forall_replicate. unfold DemuxSection.is_byte. lia. }
  by split.
Qed.

Lemma section_devices_never_fault_witness :
  let s := demo_dmxdev [] (demo_demux 4 4) in
  let s1 := default s (snd <$> dvb_dmxdev_init (Some [closed_filter; closed_filter]) s) in
  let start := DMX_SET_FILTER (demo_params 0x100 DMX_IMMEDIATE_START) in
  let ops := [DevOpen; DevOpen; DevIoctl 0 start; DevIoctl 1 start; DevRead 0 false 100;
              DevIoctl 1 DMX_STOP; DevSection 0 (demo_section 5); DevWake 0 false;
              DevIoctl 1 DMX_START; DevRead 1 false 2; DevTimer 1; DevWake 1 true;
              DevRelease 0; DevIoctl 1 (DMX_SET_BUFFER_SIZE 100); DevRelease 1] in
  exists s', dev_run ops (mk_sys s1 ∅) = Some s' /\ sys_ok s'.
Proof.
  intros s s1 start ops.
  assert (Hinit : fst <$> dvb_dmxdev_init (Some [closed_filter; closed_filter]) s = Some 0)
    by (vm_compute; reflexivity).
  apply (section_devices_never_fault ops s [closed_filter; closed_filter] s1).
  - exact demo_chains.
  - by repeat constructor.
  - repeat constructor; cbn; try lia; try apply demo_params_ok.
  - unfold s1. clearbody s. destruct (dvb_dmxdev_init _ s) as [[r d]|]; [|done].
    cbn in *. congruence.
Defined.
