(* ===== verification/DvbNet.v ===== *)
(** Network interfaces over DVB, drivers/media/dvb/dvb-core/dvb_net.c: data, socket
    buffers, and the two receivers, [dvb_net_ule] for ultra lightweight
    encapsulation and [dvb_net_sec] for multiprotocol encapsulation.

    A socket buffer is its memory, [None] where nothing was written, with the
    offsets of its pointers.  [crc32_be] and the allocator are parameters.  What
    goes wrong in C is a [crash] that says where.  Output of printk is left out,
    and so are the parts under ULE_DEBUG, which the file undefines. *)

From S2P Require Import Prelude.

Definition ETH_ALEN : Z := 6.
Definition ETH_HLEN : Z := 14.
Definition ETH_P_802_3 : Z := 0x0001.
Definition ETH_P_802_2 : Z := 0x0004.
Definition PACKET_HOST : Z := 0.
Definition PACKET_BROADCAST : Z := 1.
Definition PACKET_MULTICAST : Z := 2.

Definition DVB_NET_MULTICAST_MAX : Z := 10.
Definition RX_MODE_UNI : Z := 0.
Definition RX_MODE_MULTI : Z := 1.
Definition RX_MODE_ALL_MULTI : Z := 2.
Definition RX_MODE_PROMISC : Z := 3.

Definition TS_SZ : Z := 188.
Definition TS_SYNC : Z := 0x47.
Definition TS_TEI : Z := 0x80.
Definition TS_SC : Z := 0xC0.
Definition TS_PUSI : Z := 0x40.

(** ** Data *)

Record sk_buff := mk_skb {
  skb_mem : list (option Z);   (* head .. end *)
  skb_data : Z;   (* offsets from head *)
  skb_tail : Z;
  skb_len : Z;   (* unsigned int *)
  skb_mac : Z;   (* mac_header *)
  skb_pkt_type : Z;
  skb_protocol : Z;
}.

Definition set_skb_mem (v : list (option Z)) (r : sk_buff) : sk_buff :=
  mk_skb v (skb_data r) (skb_tail r) (skb_len r) (skb_mac r) (skb_pkt_type r) (skb_protocol r).
Definition set_skb_data (v : Z) (r : sk_buff) : sk_buff :=
  mk_skb (skb_mem r) v (skb_tail r) (skb_len r) (skb_mac r) (skb_pkt_type r) (skb_protocol r).
Definition set_skb_tail (v : Z) (r : sk_buff) : sk_buff :=
  mk_skb (skb_mem r) (skb_data r) v (skb_len r) (skb_mac r) (skb_pkt_type r) (skb_protocol r).
Definition set_skb_len (v : Z) (r : sk_buff) : sk_buff :=
  mk_skb (skb_mem r) (skb_data r) (skb_tail r) v (skb_mac r) (skb_pkt_type r) (skb_protocol r).
Definition set_skb_mac (v : Z) (r : sk_buff) : sk_buff :=
  mk_skb (skb_mem r) (skb_data r) (skb_tail r) (skb_len r) v (skb_pkt_type r) (skb_protocol r).
Definition set_skb_pkt_type (v : Z) (r : sk_buff) : sk_buff :=
  mk_skb (skb_mem r) (skb_data r) (skb_tail r) (skb_len r) (skb_mac r) v (skb_protocol r).
Definition set_skb_protocol (v : Z) (r : sk_buff) : sk_buff :=
  mk_skb (skb_mem r) (skb_data r) (skb_tail r) (skb_len r) (skb_mac r) (skb_pkt_type r) v.

(** Counters, unsigned long. *)
Record net_device_stats := mk_stats {
  rx_packets : Z;
  rx_bytes : Z;
  rx_errors : Z;
  rx_dropped : Z;
  rx_length_errors : Z;
  rx_crc_errors : Z;
  rx_frame_errors : Z;
}.

Definition set_rx_packets (v : Z) (r : net_device_stats) : net_device_stats :=
  mk_stats v (rx_bytes r) (rx_errors r) (rx_dropped r) (rx_length_errors r) (rx_crc_errors r)
    (rx_frame_errors r).
Definition set_rx_bytes (v : Z) (r : net_device_stats) : net_device_stats :=
  mk_stats (rx_packets r) v (rx_errors r) (rx_dropped r) (rx_length_errors r) (rx_crc_errors r)
    (rx_frame_errors r).
Definition set_rx_errors (v : Z) (r : net_device_stats) : net_device_stats :=
  mk_stats (rx_packets r) (rx_bytes r) v (rx_dropped r) (rx_length_errors r) (rx_crc_errors r)
    (rx_frame_errors r).
Definition set_rx_dropped (v : Z) (r : net_device_stats) : net_device_stats :=
  mk_stats (rx_packets r) (rx_bytes r) (rx_errors r) v (rx_length_errors r) (rx_crc_errors r)
    (rx_frame_errors r).
Definition set_rx_length_errors (v : Z) (r : net_device_stats) : net_device_stats :=
  mk_stats (rx_packets r) (rx_bytes r) (rx_errors r) (rx_dropped r) v (rx_crc_errors r)
    (rx_frame_errors r).
Definition set_rx_crc_errors (v : Z) (r : net_device_stats) : net_device_stats :=
  mk_stats (rx_packets r) (rx_bytes r) (rx_errors r) (rx_dropped r) (rx_length_errors r) v
    (rx_frame_errors r).
Definition set_rx_frame_errors (v : Z) (r : net_device_stats) : net_device_stats :=
  mk_stats (rx_packets r) (rx_bytes r) (rx_errors r) (rx_dropped r) (rx_length_errors r)
    (rx_crc_errors r) v.

Record dvb_net_priv := mk_priv {
  np_in_use : Z;   (* int *)
  np_pid : Z;   (* u16 *)
  np_secfeed : option nat;   (* a feed of the demultiplexer *)
  np_secfilter : option nat;
  np_tsfeed : option nat;
  np_multi_num : Z;   (* int *)
  np_multi_secfilter : list (option nat);
  np_multi_macs : list (list Z);
  np_rx_mode : Z;   (* int *)
  np_feedtype : Z;   (* unsigned char *)
  need_pusi : Z;   (* int *)
  tscc : Z;   (* unsigned char *)
  ule_skb : option sk_buff;
  ule_next_hdr : Z;   (* offset into the memory of ule_skb *)
  ule_sndu_len : Z;   (* unsigned short *)
  ule_sndu_type : Z;   (* unsigned short *)
  ule_sndu_type_1 : Z;   (* unsigned char *)
  ule_dbit : Z;   (* unsigned char *)
  ule_bridged : Z;   (* unsigned char *)
  ule_sndu_remain : Z;   (* int *)
  ts_count : Z;   (* unsigned long *)
}.

Definition set_np_in_use (v : Z) (r : dvb_net_priv) : dvb_net_priv :=
  mk_priv v (np_pid r) (np_secfeed r) (np_secfilter r) (np_tsfeed r) (np_multi_num r)
    (np_multi_secfilter r) (np_multi_macs r) (np_rx_mode r) (np_feedtype r) (need_pusi r)
    (tscc r) (ule_skb r) (ule_next_hdr r) (ule_sndu_len r) (ule_sndu_type r) (ule_sndu_type_1 r)
    (ule_dbit r) (ule_bridged r) (ule_sndu_remain r) (ts_count r).
Definition set_np_pid (v : Z) (r : dvb_net_priv) : dvb_net_priv :=
  mk_priv (np_in_use r) v (np_secfeed r) (np_secfilter r) (np_tsfeed r) (np_multi_num r)
    (np_multi_secfilter r) (np_multi_macs r) (np_rx_mode r) (np_feedtype r) (need_pusi r)
    (tscc r) (ule_skb r) (ule_next_hdr r) (ule_sndu_len r) (ule_sndu_type r) (ule_sndu_type_1 r)
    (ule_dbit r) (ule_bridged r) (ule_sndu_remain r) (ts_count r).
Definition set_np_secfeed (v : option nat) (r : dvb_net_priv) : dvb_net_priv :=
  mk_priv (np_in_use r) (np_pid r) v (np_secfilter r) (np_tsfeed r) (np_multi_num r)
    (np_multi_secfilter r) (np_multi_macs r) (np_rx_mode r) (np_feedtype r) (need_pusi r)
    (tscc r) (ule_skb r) (ule_next_hdr r) (ule_sndu_len r) (ule_sndu_type r) (ule_sndu_type_1 r)
    (ule_dbit r) (ule_bridged r) (ule_sndu_remain r) (ts_count r).
Definition set_np_secfilter (v : option nat) (r : dvb_net_priv) : dvb_net_priv :=
  mk_priv (np_in_use r) (np_pid r) (np_secfeed r) v (np_tsfeed r) (np_multi_num r)
    (np_multi_secfilter r) (np_multi_macs r) (np_rx_mode r) (np_feedtype r) (need_pusi r)
    (tscc r) (ule_skb r) (ule_next_hdr r) (ule_sndu_len r) (ule_sndu_type r) (ule_sndu_type_1 r)
    (ule_dbit r) (ule_bridged r) (ule_sndu_remain r) (ts_count r).
Definition set_np_tsfeed (v : option nat) (r : dvb_net_priv) : dvb_net_priv :=
  mk_priv (np_in_use r) (np_pid r) (np_secfeed r) (np_secfilter r) v (np_multi_num r)
    (np_multi_secfilter r) (np_multi_macs r) (np_rx_mode r) (np_feedtype r) (need_pusi r)
    (tscc r) (ule_skb r) (ule_next_hdr r) (ule_sndu_len r) (ule_sndu_type r) (ule_sndu_type_1 r)
    (ule_dbit r) (ule_bridged r) (ule_sndu_remain r) (ts_count r).
Definition set_np_multi_num (v : Z) (r : dvb_net_priv) : dvb_net_priv :=
  mk_priv (np_in_use r) (np_pid r) (np_secfeed r) (np_secfilter r) (np_tsfeed r) v
    (np_multi_secfilter r) (np_multi_macs r) (np_rx_mode r) (np_feedtype r) (need_pusi r)
    (tscc r) (ule_skb r) (ule_next_hdr r) (ule_sndu_len r) (ule_sndu_type r) (ule_sndu_type_1 r)
    (ule_dbit r) (ule_bridged r) (ule_sndu_remain r) (ts_count r).
Definition set_np_multi_secfilter (v : list (option nat)) (r : dvb_net_priv) : dvb_net_priv :=
  mk_priv (np_in_use r) (np_pid r) (np_secfeed r) (np_secfilter r) (np_tsfeed r)
    (np_multi_num r) v (np_multi_macs r) (np_rx_mode r) (np_feedtype r) (need_pusi r) (tscc r)
    (ule_skb r) (ule_next_hdr r) (ule_sndu_len r) (ule_sndu_type r) (ule_sndu_type_1 r)
    (ule_dbit r) (ule_bridged r) (ule_sndu_remain r) (ts_count r).
Definition set_np_multi_macs (v : list (list Z)) (r : dvb_net_priv) : dvb_net_priv :=
  mk_priv (np_in_use r) (np_pid r) (np_secfeed r) (np_secfilter r) (np_tsfeed r)
    (np_multi_num r) (np_multi_secfilter r) v (np_rx_mode r) (np_feedtype r) (need_pusi r)
    (tscc r) (ule_skb r) (ule_next_hdr r) (ule_sndu_len r) (ule_sndu_type r) (ule_sndu_type_1 r)
    (ule_dbit r) (ule_bridged r) (ule_sndu_remain r) (ts_count r).
Definition set_np_rx_mode (v : Z) (r : dvb_net_priv) : dvb_net_priv :=
  mk_priv (np_in_use r) (np_pid r) (np_secfeed r) (np_secfilter r) (np_tsfeed r)
    (np_multi_num r) (np_multi_secfilter r) (np_multi_macs r) v (np_feedtype r) (need_pusi r)
    (tscc r) (ule_skb r) (ule_next_hdr r) (ule_sndu_len r) (ule_sndu_type r) (ule_sndu_type_1 r)
    (ule_dbit r) (ule_bridged r) (ule_sndu_remain r) (ts_count r).
Definition set_np_feedtype (v : Z) (r : dvb_net_priv) : dvb_net_priv :=
  mk_priv (np_in_use r) (np_pid r) (np_secfeed r) (np_secfilter r) (np_tsfeed r)
    (np_multi_num r) (np_multi_secfilter r) (np_multi_macs r) (np_rx_mode r) v (need_pusi r)
    (tscc r) (ule_skb r) (ule_next_hdr r) (ule_sndu_len r) (ule_sndu_type r) (ule_sndu_type_1 r)
    (ule_dbit r) (ule_bridged r) (ule_sndu_remain r) (ts_count r).
Definition set_need_pusi (v : Z) (r : dvb_net_priv) : dvb_net_priv :=
  mk_priv (np_in_use r) (np_pid r) (np_secfeed r) (np_secfilter r) (np_tsfeed r)
    (np_multi_num r) (np_multi_secfilter r) (np_multi_macs r) (np_rx_mode r) (np_feedtype r) v
    (tscc r) (ule_skb r) (ule_next_hdr r) (ule_sndu_len r) (ule_sndu_type r) (ule_sndu_type_1 r)
    (ule_dbit r) (ule_bridged r) (ule_sndu_remain r) (ts_count r).
Definition set_tscc (v : Z) (r : dvb_net_priv) : dvb_net_priv :=
  mk_priv (np_in_use r) (np_pid r) (np_secfeed r) (np_secfilter r) (np_tsfeed r)
    (np_multi_num r) (np_multi_secfilter r) (np_multi_macs r) (np_rx_mode r) (np_feedtype r)
    (need_pusi r) v (ule_skb r) (ule_next_hdr r) (ule_sndu_len r) (ule_sndu_type r)
    (ule_sndu_type_1 r) (ule_dbit r) (ule_bridged r) (ule_sndu_remain r) (ts_count r).
Definition set_ule_skb (v : option sk_buff) (r : dvb_net_priv) : dvb_net_priv :=
  mk_priv (np_in_use r) (np_pid r) (np_secfeed r) (np_secfilter r) (np_tsfeed r)
    (np_multi_num r) (np_multi_secfilter r) (np_multi_macs r) (np_rx_mode r) (np_feedtype r)
    (need_pusi r) (tscc r) v (ule_next_hdr r) (ule_sndu_len r) (ule_sndu_type r)
    (ule_sndu_type_1 r) (ule_dbit r) (ule_bridged r) (ule_sndu_remain r) (ts_count r).
Definition set_ule_next_hdr (v : Z) (r : dvb_net_priv) : dvb_net_priv :=
  mk_priv (np_in_use r) (np_pid r) (np_secfeed r) (np_secfilter r) (np_tsfeed r)
    (np_multi_num r) (np_multi_secfilter r) (np_multi_macs r) (np_rx_mode r) (np_feedtype r)
    (need_pusi r) (tscc r) (ule_skb r) v (ule_sndu_len r) (ule_sndu_type r) (ule_sndu_type_1 r)
    (ule_dbit r) (ule_bridged r) (ule_sndu_remain r) (ts_count r).
Definition set_ule_sndu_len (v : Z) (r : dvb_net_priv) : dvb_net_priv :=
  mk_priv (np_in_use r) (np_pid r) (np_secfeed r) (np_secfilter r) (np_tsfeed r)
    (np_multi_num r) (np_multi_secfilter r) (np_multi_macs r) (np_rx_mode r) (np_feedtype r)
    (need_pusi r) (tscc r) (ule_skb r) (ule_next_hdr r) v (ule_sndu_type r) (ule_sndu_type_1 r)
    (ule_dbit r) (ule_bridged r) (ule_sndu_remain r) (ts_count r).
Definition set_ule_sndu_type (v : Z) (r : dvb_net_priv) : dvb_net_priv :=
  mk_priv (np_in_use r) (np_pid r) (np_secfeed r) (np_secfilter r) (np_tsfeed r)
    (np_multi_num r) (np_multi_secfilter r) (np_multi_macs r) (np_rx_mode r) (np_feedtype r)
    (need_pusi r) (tscc r) (ule_skb r) (ule_next_hdr r) (ule_sndu_len r) v (ule_sndu_type_1 r)
    (ule_dbit r) (ule_bridged r) (ule_sndu_remain r) (ts_count r).
Definition set_ule_sndu_type_1 (v : Z) (r : dvb_net_priv) : dvb_net_priv :=
  mk_priv (np_in_use r) (np_pid r) (np_secfeed r) (np_secfilter r) (np_tsfeed r)
    (np_multi_num r) (np_multi_secfilter r) (np_multi_macs r) (np_rx_mode r) (np_feedtype r)
    (need_pusi r) (tscc r) (ule_skb r) (ule_next_hdr r) (ule_sndu_len r) (ule_sndu_type r) v
    (ule_dbit r) (ule_bridged r) (ule_sndu_remain r) (ts_count r).
Definition set_ule_dbit (v : Z) (r : dvb_net_priv) : dvb_net_priv :=
  mk_priv (np_in_use r) (np_pid r) (np_secfeed r) (np_secfilter r) (np_tsfeed r)
    (np_multi_num r) (np_multi_secfilter r) (np_multi_macs r) (np_rx_mode r) (np_feedtype r)
    (need_pusi r) (tscc r) (ule_skb r) (ule_next_hdr r) (ule_sndu_len r) (ule_sndu_type r)
    (ule_sndu_type_1 r) v (ule_bridged r) (ule_sndu_remain r) (ts_count r).
Definition set_ule_bridged (v : Z) (r : dvb_net_priv) : dvb_net_priv :=
  mk_priv (np_in_use r) (np_pid r) (np_secfeed r) (np_secfilter r) (np_tsfeed r)
    (np_multi_num r) (np_multi_secfilter r) (np_multi_macs r) (np_rx_mode r) (np_feedtype r)
    (need_pusi r) (tscc r) (ule_skb r) (ule_next_hdr r) (ule_sndu_len r) (ule_sndu_type r)
    (ule_sndu_type_1 r) (ule_dbit r) v (ule_sndu_remain r) (ts_count r).
Definition set_ule_sndu_remain (v : Z) (r : dvb_net_priv) : dvb_net_priv :=
  mk_priv (np_in_use r) (np_pid r) (np_secfeed r) (np_secfilter r) (np_tsfeed r)
    (np_multi_num r) (np_multi_secfilter r) (np_multi_macs r) (np_rx_mode r) (np_feedtype r)
    (need_pusi r) (tscc r) (ule_skb r) (ule_next_hdr r) (ule_sndu_len r) (ule_sndu_type r)
    (ule_sndu_type_1 r) (ule_dbit r) (ule_bridged r) v (ts_count r).
Definition set_ts_count (v : Z) (r : dvb_net_priv) : dvb_net_priv :=
  mk_priv (np_in_use r) (np_pid r) (np_secfeed r) (np_secfilter r) (np_tsfeed r)
    (np_multi_num r) (np_multi_secfilter r) (np_multi_macs r) (np_rx_mode r) (np_feedtype r)
    (need_pusi r) (tscc r) (ule_skb r) (ule_next_hdr r) (ule_sndu_len r) (ule_sndu_type r)
    (ule_sndu_type_1 r) (ule_dbit r) (ule_bridged r) (ule_sndu_remain r) v.

Record net_device := mk_dev {
  nd_priv : dvb_net_priv;   (* netdev_priv *)
  nd_addr : list Z;   (* dev_addr *)
  nd_broadcast : list Z;   (* broadcast *)
  nd_flags : Z;
  nd_mc : list (list Z);   (* multicast addresses *)
  nd_stats : net_device_stats;
  nd_received : list sk_buff;   (* passed to netif_rx *)
  nd_allocs : nat;   (* calls of dev_alloc_skb so far *)
}.

Definition set_nd_priv (v : dvb_net_priv) (r : net_device) : net_device :=
  mk_dev v (nd_addr r) (nd_broadcast r) (nd_flags r) (nd_mc r) (nd_stats r) (nd_received r)
    (nd_allocs r).
Definition set_nd_addr (v : list Z) (r : net_device) : net_device :=
  mk_dev (nd_priv r) v (nd_broadcast r) (nd_flags r) (nd_mc r) (nd_stats r) (nd_received r)
    (nd_allocs r).
Definition set_nd_broadcast (v : list Z) (r : net_device) : net_device :=
  mk_dev (nd_priv r) (nd_addr r) v (nd_flags r) (nd_mc r) (nd_stats r) (nd_received r)
    (nd_allocs r).
Definition set_nd_flags (v : Z) (r : net_device) : net_device :=
  mk_dev (nd_priv r) (nd_addr r) (nd_broadcast r) v (nd_mc r) (nd_stats r) (nd_received r)
    (nd_allocs r).
Definition set_nd_mc (v : list (list Z)) (r : net_device) : net_device :=
  mk_dev (nd_priv r) (nd_addr r) (nd_broadcast r) (nd_flags r) v (nd_stats r) (nd_received r)
    (nd_allocs r).
Definition set_nd_stats (v : net_device_stats) (r : net_device) : net_device :=
  mk_dev (nd_priv r) (nd_addr r) (nd_broadcast r) (nd_flags r) (nd_mc r) v (nd_received r)
    (nd_allocs r).
Definition set_nd_received (v : list sk_buff) (r : net_device) : net_device :=
  mk_dev (nd_priv r) (nd_addr r) (nd_broadcast r) (nd_flags r) (nd_mc r) (nd_stats r) v
    (nd_allocs r).
Definition set_nd_allocs (v : nat) (r : net_device) : net_device :=
  mk_dev (nd_priv r) (nd_addr r) (nd_broadcast r) (nd_flags r) (nd_mc r) (nd_stats r)
    (nd_received r) v.

(** Where C would do what is undefined, or not come back: reading the cells, filling
    the buffer of an SNDU, processing the contents of one, the loop over the cells. *)
Inductive crash := InCell | InBuffer | InSndu | Stuck.

Definition netM (A : Type) : Type := net_device -> A * net_device + crash.
Definition ndo {A} (a : A) : netM A := fun d => inl (a, d).
Definition nthen {A B} (m : netM A) (f : A -> netM B) : netM B :=
  fun d => match m d with inl (a, d') => f a d' | inr c => inr c end.
Definition ncrash {A} (c : crash) : netM A := fun _ => inr c.
Definition nget {A} (f : net_device -> A) : netM A := fun d => inl (f d, d).
Definition nset (f : net_device -> net_device) : netM unit := fun d => inl (tt, f d).
Definition need {A} (c : crash) (o : option A) : netM A :=
  match o with Some a => ndo a | None => ncrash c end.

Declare Scope net_scope.
Delimit Scope net_scope with net.
Notation "x <- m ;; k" := (nthen m (fun x => k))
  (at level 100, m at next level, right associativity) : net_scope.
Notation "m ;; k" := (nthen m (fun _ => k))
  (at level 100, right associativity) : net_scope.
#[global] Open Scope net_scope.

Definition priv_set (f : dvb_net_priv -> dvb_net_priv) : netM unit :=
  nset (fun d => set_nd_priv (f (nd_priv d)) d).
Definition stats_set (f : net_device_stats -> net_device_stats) : netM unit :=
  nset (fun d => set_nd_stats (f (nd_stats d)) d).

Definition rx_error (s : net_device_stats) : net_device_stats := set_rx_errors (u64 (rx_errors s + 1)) s.
Definition frame_error (s : net_device_stats) : net_device_stats :=
  set_rx_frame_errors (u64 (rx_frame_errors s + 1)) (rx_error s).
Definition length_error (s : net_device_stats) : net_device_stats :=
  set_rx_length_errors (u64 (rx_length_errors s + 1)) (rx_error s).
Definition crc_error (s : net_device_stats) : net_device_stats :=
  set_rx_crc_errors (u64 (rx_crc_errors s + 1)) (rx_error s).
Definition dropped (s : net_device_stats) : net_device_stats := set_rx_dropped (u64 (rx_dropped s + 1)) s.
Definition packet_in (len : Z) (s : net_device_stats) : net_device_stats :=
  set_rx_bytes (u64 (rx_bytes s + len)) (set_rx_packets (u64 (rx_packets s + 1)) s).

Class NetEnv := {
  crc32_be : Z -> list Z -> Z;      (* lib/crc32.c *)
  alloc_skb : nat -> bool;          (* whether the n-th dev_alloc_skb gives memory *)
}.

(** ** Socket buffers, include/linux/skbuff.h *)

Definition skb_reserve (n : Z) (sk : sk_buff) : sk_buff :=
  set_skb_tail (skb_tail sk + n) (set_skb_data (skb_data sk + n) sk).

(** Also returns the old tail; past the end the kernel stops. *)
Definition skb_put (sk : sk_buff) (n : Z) : option (sk_buff * Z) :=
  if skb_tail sk + n <=? zlen (skb_mem sk)
  then Some (set_skb_len (skb_len sk + n) (set_skb_tail (skb_tail sk + n) sk), skb_tail sk)
  else None.

(** NULL, and no change, when there is less data. *)
Definition skb_pull (sk : sk_buff) (n : Z) : sk_buff :=
  if n >? skb_len sk then sk
  else set_skb_len (skb_len sk - n) (set_skb_data (skb_data sk + n) sk).

Definition skb_push (sk : sk_buff) (n : Z) : option sk_buff :=
  if skb_data sk - n <? 0 then None
  else Some (set_skb_len (skb_len sk + n) (set_skb_data (skb_data sk - n) sk)).

Definition skb_read (sk : sk_buff) (o n : Z) : option (list Z) :=
  l ← mread (skb_mem sk) o n; mapM id l.

Definition skb_write (sk : sk_buff) (o : Z) (bs : list Z) : option sk_buff :=
  m ← mwrite (skb_mem sk) o (Some <$> bs); Some (set_skb_mem m sk).

(** Big-endian values. *)
Definition be16 (v : Z) : list Z := [Z.land (Z.shiftr v 8) 0xff; Z.land v 0xff].

Definition ntohs (l : list Z) : Z :=
  match l with [a; b] => Z.lor (Z.shiftl a 8) b | _ => 0 end.

Definition skb_be16 (sk : sk_buff) (o : Z) : option Z := l ← skb_read sk o 2; Some (ntohs l).

(** An address of six bytes; [memcmp] with another. *)
Definition same_addr (a b : list Z) : bool := bool_decide (a = b).

Section net.
Context {E : NetEnv}.

Definition dev_alloc_skb (n : Z) : netM (option sk_buff) :=
  k <- nget nd_allocs ;; nset (set_nd_allocs (S k)) ;;
  ndo (if alloc_skb k
       then Some (mk_skb (replicate (Z.to_nat n) None) 0 0 0 0 PACKET_HOST 0) else None).

Definition netif_rx (sk : sk_buff) : netM unit :=
  nset (fun d => set_nd_received (nd_received d ++ [sk]) d).

Definition iov_crc32 (c : Z) (iov : list (list Z)) : Z := foldl crc32_be c iov.

(** The protocol in host order, and the buffer without its header. *)
Definition dvb_net_eth_type_trans (broadcast : list Z) (sk : sk_buff) : option (sk_buff * Z) :=
  let sk := skb_pull (set_skb_mac (skb_data sk) sk) ETH_HLEN in
  h_dest ← skb_read sk (skb_mac sk) ETH_ALEN;
  h_proto ← skb_be16 sk (skb_mac sk + 12);
  b ← h_dest.[0];
  let sk :=
    if truthy (Z.land b 1) then
      set_skb_pkt_type (if same_addr h_dest broadcast then PACKET_BROADCAST else PACKET_MULTICAST) sk
    else sk in
  if h_proto >=? 1536 then Some (sk, h_proto)
  else
    rawp ← skb_be16 sk (skb_data sk);
    Some (sk, if rawp =? 0xFFFF then ETH_P_802_3 else ETH_P_802_2).

(** ** Extension headers of ULE *)

Definition ule_test_sndu (p : dvb_net_priv) : option (dvb_net_priv * Z) := Some (p, -1).

Definition ule_bridged_sndu (p : dvb_net_priv) : option (dvb_net_priv * Z) :=
  sk ← ule_skb p;
  h_proto ← skb_be16 sk (ule_next_hdr p + 12);
  let framelen := ule_sndu_len p - ((ule_next_hdr p + ETH_HLEN) - skb_data sk) in
  if (h_proto <? 1536) && negb (framelen =? h_proto) then Some (p, -1)
  else Some (set_ule_bridged 1 p, 0).

Definition ule_exthdr_padding (p : dvb_net_priv) : option (dvb_net_priv * Z) := Some (p, 0).

(** The tables of handlers, by type of header. *)
Definition ext_handler : Type := dvb_net_priv -> option (dvb_net_priv * Z).
Definition ule_mandatory_ext_handlers : list (option ext_handler) :=
  Some ule_test_sndu :: Some ule_bridged_sndu :: replicate 253 None.
Definition ule_optional_ext_handlers : list (option ext_handler) :=
  Some ule_exthdr_padding :: replicate 254 None.

Definition handle_one_ule_extension (p : dvb_net_priv) : option (dvb_net_priv * Z) :=
  let hlen := Z.shiftr (Z.land (ule_sndu_type p) 0x0700) 8 in
  let htype := Z.land (ule_sndu_type p) 0x00FF in
  sk ← ule_skb p;
  if hlen =? 0 then
    handler ← ule_mandatory_ext_handlers.[htype];
    match handler with
    | Some h =>
      '(p, ext_len) ← h p;
      if ext_len >=? 0 then
        let p := set_ule_next_hdr (ule_next_hdr p + ext_len) p in
        if ule_bridged p =? 0 then
          t ← skb_be16 sk (ule_next_hdr p);
          Some (set_ule_next_hdr (ule_next_hdr p + 2) (set_ule_sndu_type t p), ext_len)
        else
          t ← skb_be16 sk (ule_next_hdr p + (if truthy (ule_dbit p) then 2 else 3) * ETH_ALEN);
          Some (set_ule_sndu_type t p, ext_len)
      else Some (p, ext_len)
    | None => Some (p, -1)
    end
  else
    let ext_len := Z.shiftl hlen 1 in
    handler ← ule_optional_ext_handlers.[htype];
    '(p, _) ← match handler with Some h => h p | None => Some (p, 0) end;
    let p := set_ule_next_hdr (ule_next_hdr p + ext_len) p in
    t ← skb_be16 sk (ule_next_hdr p - 2);
    Some (set_ule_sndu_type t p, ext_len).

Fixpoint handle_exts (fuel : nat) (total_ext_len : Z) (p : dvb_net_priv) :
    option (dvb_net_priv * Z) :=
  match fuel with
  | O => None
  | S fuel =>
    '(p, l) ← handle_one_ule_extension p;
    if l <? 0 then Some (p, l)
    else
      let total_ext_len := total_ext_len + l in
      if ule_sndu_type p <? 1536 then handle_exts fuel total_ext_len p
      else Some (p, total_ext_len)
  end.

(** A header that does not end the loop either takes two bytes or is the bridged
    one, which takes none. *)
Definition handle_ule_extensions (p : dvb_net_priv) : option (dvb_net_priv * Z) :=
  sk ← ule_skb p;
  handle_exts (2 * length (skb_mem sk) + 2) 0 (set_ule_next_hdr (skb_data sk) p).

(** Also the reset of an interface that is added. *)
Definition reset_ule (p : dvb_net_priv) : dvb_net_priv :=
  set_ule_bridged 0 (set_ule_dbit 0xFF (set_ule_sndu_remain 0 (set_ule_sndu_type_1 0
    (set_ule_sndu_type 0 (set_ule_sndu_len 0 (set_ule_next_hdr 0 (set_ule_skb None p))))))).

(** ** A complete SNDU *)

Definition bc_addr : list Z := replicate 6 0xff.

(** Whether the destination is one the interface does not receive. *)
Definition ule_drop (p : dvb_net_priv) (dev_addr dest : list Z) : option bool :=
  if negb (np_rx_mode p =? RX_MODE_PROMISC) then
    b ← dest.[0];
    if truthy (Z.land b 0x01) then
      if negb (same_addr dest bc_addr) then
        if np_rx_mode p =? RX_MODE_MULTI then
          macs ← mread (np_multi_macs p) 0 (np_multi_num p);
          Some (negb (existsb (same_addr dest) macs))
        else Some (negb (np_rx_mode p =? RX_MODE_ALL_MULTI))
      else Some false
    else Some (negb (same_addr dest dev_addr))
  else Some false.

(** The CRC was right and is cut off: the destination, extension headers, the
    Ethernet header, and up to the kernel's protocols.  [None] is a dropped SNDU. *)
Definition ule_frame (p : dvb_net_priv) (dev_addr : list Z) (sk : sk_buff) :
    option (option (dvb_net_priv * sk_buff)) :=
  dest_addr ← (if ule_dbit p =? 0 then
                 l ← skb_read sk (skb_data sk) ETH_ALEN; Some (Some l)
               else Some None);
  drop ← match dest_addr with Some l => ule_drop p dev_addr l | None => Some false end;
  if (drop : bool) then Some None
  else
    let sk := if dest_addr is Some _ then skb_pull sk ETH_ALEN else sk in
    '(p, l) ← (if ule_sndu_type p <? 1536 then handle_ule_extensions (set_ule_skb (Some sk) p)
               else Some (p, 0));
    if l <? 0 then Some None
    else
      let sk := skb_pull sk l in
      sk ← (if ule_bridged p =? 0 then
              sk ← skb_push sk ETH_HLEN;
              skb_write sk (skb_data sk)
                (match dest_addr with Some l => l | None => replicate 6 0 end ++ replicate 6 0 ++
                 be16 (ule_sndu_type p))
            else Some sk);
      Some (Some (set_ule_bridged 0 p, sk)).

Definition ule_accept (sk : sk_buff) : netM unit :=
  p <- nget nd_priv ;; dev_addr <- nget nd_addr ;; broadcast <- nget nd_broadcast ;;
  r <- need InSndu (ule_frame p dev_addr sk) ;;
  match r with
  | None => ndo tt
  | Some (p, sk) =>
    priv_set (fun _ => p) ;;
    r <- need InSndu (dvb_net_eth_type_trans broadcast sk) ;;
    let sk := set_skb_protocol (snd r) (fst r) in
    stats_set (packet_in (skb_len sk)) ;;
    netif_rx sk
  end.

(** The SNDU in the buffer is complete: the CRC, then [ule_accept]. *)
Definition ule_complete : netM unit :=
  p <- nget nd_priv ;; sk <- need InBuffer (ule_skb p) ;;
  let ulen := be16 (Z.lor (ule_sndu_len p) (if truthy (ule_dbit p) then 0x8000 else 0)) in
  let utype := be16 (ule_sndu_type p) in
  data <- need InBuffer (skb_read sk (skb_data sk) (skb_len sk - 4)) ;;
  tail <- need InBuffer (skb_read sk (skb_tail sk - 4) 4) ;;
  let ule_crc := iov_crc32 0xffffffff [ulen; utype; data] in
  let expected_crc := foldl (fun c b => Z.lor (Z.shiftl c 8) b) 0 tail in
  (if negb (ule_crc =? expected_crc) then stats_set crc_error
   else ule_accept (set_skb_len (skb_len sk - 4) (set_skb_tail (skb_tail sk - 4) sk))) ;;
  priv_set reset_ule.

(** ** The loop over the cells

    Its local variables: [ts] and [from_where] as offsets into the buffer, [ts_remain]
    (a u8) and [new_ts].  A part of its body goes on ([Go]), continues with the next
    turn or leaves the function. *)
Record locals := mk_locals { l_ts : Z; l_from : Z; l_remain : Z; l_new : bool }.

Inductive turn := Go (l : locals) | Next (l : locals) | Leave.

Definition go_on (m : netM turn) (k : locals -> netM turn) : netM turn :=
  t <- m ;; match t with Go l => k l | t => ndo t end.

Section cells.
Variable buf : list Z.

Definition cell (i : Z) : netM Z := need InCell buf.[i].

(** Drop a partly decoded SNDU and wait for the start of a payload unit. *)
Definition drop_sndu : netM unit :=
  p <- nget nd_priv ;;
  (if ule_skb p then stats_set frame_error else ndo tt) ;;
  priv_set (fun p => set_need_pusi 1 (reset_ule p)).

Definition next_cell (l : locals) : locals := mk_locals (l_ts l + TS_SZ) (l_from l) (l_remain l) (l_new l).
Definition new_cell (l : locals) : locals := mk_locals (l_ts l + TS_SZ) (l_from l) (l_remain l) true.
Definition skip (n : Z) (l : locals) : locals :=
  mk_locals (l_ts l) (l_from l + n) (u8 (l_remain l - n)) (l_new l).
Definition count_cell : netM unit := priv_set (fun p => set_ts_count (u64 (ts_count p + 1)) p).

(** The head of a new cell. *)
Definition ule_head (l : locals) : netM turn :=
  if l_new l then
    t0 <- cell (l_ts l) ;; t1 <- cell (l_ts l + 1) ;; t3 <- cell (l_ts l + 3) ;;
    if negb (t0 =? TS_SYNC) || truthy (Z.land t1 TS_TEI) || truthy (Z.land t3 TS_SC) then
      drop_sndu ;; count_cell ;; ndo (Next (next_cell l))
    else ndo (Go (mk_locals (l_ts l) (l_ts l + 4) 184 (l_new l)))
  else ndo (Go l).

(** Synchronise on PUSI. *)
Definition ule_sync (l : locals) : netM turn :=
  p <- nget nd_priv ;;
  if truthy (need_pusi p) then
    t1 <- cell (l_ts l + 1) ;;
    if truthy (Z.land t1 TS_PUSI) then
      t3 <- cell (l_ts l + 3) ;;
      priv_set (set_tscc (Z.land t3 0x0F)) ;;
      t4 <- cell (l_ts l + 4) ;;
      if t4 >? l_remain l then count_cell ;; ndo (Next (next_cell l))
      else ndo (Go (mk_locals (l_ts l) (l_ts l + 5 + t4) (u8 (l_remain l - (1 + t4))) (l_new l)))
    else count_cell ;; ndo (Next (next_cell l))
  else ndo (Go l).

(** The pointer field of a cell in which another payload unit starts. *)
Definition ule_pointer (l : locals) : netM turn :=
  p <- nget nd_priv ;;
  if need_pusi p =? 0 then
    f <- cell (l_from l) ;;
    if negb (f <? l_remain l - 1) || negb (f =? ule_sndu_remain p) then
      let error := if ule_skb p then true else false in
      (if error || truthy (ule_sndu_remain p) then stats_set frame_error else ndo tt) ;;
      priv_set (fun p => set_need_pusi 1 (reset_ule p)) ;;
      ndo (Next l)
    else ndo (Go (skip 1 l))
  else priv_set (set_need_pusi 0) ;; ndo (Go l).

Definition ule_flush (l : locals) : netM turn :=
  p <- nget nd_priv ;;
  if ule_sndu_remain p >? 183 then
    stats_set length_error ;;
    priv_set reset_ule ;;
    t4 <- cell (l_ts l + 4) ;;
    ndo (Go (skip t4 l))
  else ndo (Go l).

(** The continuity counter, and the pointer field. *)
Definition ule_continuity (l : locals) : netM turn :=
  if l_new l then
    p <- nget nd_priv ;;
    t3 <- cell (l_ts l + 3) ;;
    if Z.land t3 0x0F =? tscc p then
      priv_set (fun p => set_tscc (Z.land (tscc p + 1) 0x0F) p) ;;
      t1 <- cell (l_ts l + 1) ;;
      if truthy (Z.land t1 TS_PUSI) then go_on (ule_pointer l) ule_flush
      else ndo (Go l)
    else drop_sndu ;; ndo (Next l)
  else ndo (Go l).

(** The length of an SNDU. *)
Definition ule_length (l : locals) : netM turn :=
  p <- nget nd_priv ;;
  if ule_sndu_len p =? 0 then
    b0 <- cell (l_from l) ;; b1 <- cell (l_from l + 1) ;;
    let len := Z.lor (Z.shiftl b0 8) b1 in
    (if truthy (Z.land len 0x8000) then
       priv_set (fun p => set_ule_dbit 1 (set_ule_sndu_len (Z.land len 0x7FFF) p))
     else priv_set (fun p => set_ule_dbit 0 (set_ule_sndu_len len p))) ;;
    p <- nget nd_priv ;;
    if ule_sndu_len p <? 5 then
      stats_set length_error ;;
      priv_set (fun p => set_need_pusi 1 (set_ule_sndu_len 0 p)) ;;
      count_cell ;; ndo (Next (new_cell l))
    else ndo (Go (skip 2 l))
  else ndo (Go l).

(** Its type, of which a cell may hold none, the first byte, or all that is missing. *)
Definition ule_type (l : locals) : netM turn :=
  priv_set (fun p => set_ule_sndu_remain (ule_sndu_len p + 2) p) ;;
  if l_remain l =? 1 then
    b0 <- cell (l_from l) ;;
    priv_set (fun p => set_ule_sndu_type_1 1 (set_ule_sndu_type (Z.shiftl b0 8)
                         (set_ule_sndu_remain (ule_sndu_remain p - 1) p))) ;;
    count_cell ;; ndo (Next (new_cell (skip 1 l)))
  else if l_remain l =? 0 then count_cell ;; ndo (Next (new_cell l))
  else
    p <- nget nd_priv ;;
    b0 <- cell (l_from l) ;;
    if truthy (ule_sndu_type_1 p) then
      priv_set (fun p => set_ule_sndu_type (Z.lor (ule_sndu_type p) b0) (set_ule_sndu_type_1 0 p)) ;;
      ndo (Go (skip 1 l))
    else
      b1 <- cell (l_from l + 1) ;;
      priv_set (set_ule_sndu_type (Z.lor (Z.shiftl b0 8) b1)) ;;
      ndo (Go (skip 2 l)).

(** Its buffer, with room for an Ethernet header and an address in front. *)
Definition ule_buffer (l : locals) : netM turn :=
  p <- nget nd_priv ;;
  skb <- dev_alloc_skb (ule_sndu_len p + ETH_HLEN + ETH_ALEN) ;;
  match skb with
  | None => priv_set (set_ule_skb None) ;; stats_set dropped ;; ndo Leave
  | Some sk =>
    priv_set (fun p => set_ule_sndu_remain (ule_sndu_len p)
                         (set_ule_skb (Some (skb_reserve (ETH_HLEN + ETH_ALEN) sk)) p)) ;;
    ndo (Go l)
  end.

(** A new SNDU, if none is being decoded. *)
Definition ule_start (l : locals) : netM turn :=
  p <- nget nd_priv ;;
  match ule_skb p with
  | None =>
    if l_remain l <? 2 then
      priv_set (fun p => set_need_pusi 1 (set_ule_sndu_len 0 p)) ;; ndo (Next (next_cell l))
    else go_on (go_on (ule_length l) ule_type) ule_buffer
  | Some _ => ndo (Go l)
  end.

(** Copy what there is. *)
Definition ule_copy (l : locals) : netM turn :=
  p <- nget nd_priv ;; sk <- need InBuffer (ule_skb p) ;;
  let how_much := u8 (Z.min (ule_sndu_remain p) (l_remain l)) in
  bs <- need InCell (mread buf (l_from l) how_much) ;;
  r <- need InBuffer (skb_put sk how_much) ;;
  sk <- need InBuffer (skb_write (fst r) (snd r) bs) ;;
  priv_set (fun p => set_ule_sndu_remain (ule_sndu_remain p - how_much) (set_ule_skb (Some sk) p)) ;;
  p <- nget nd_priv ;;
  (if ule_sndu_remain p <=? 0 then ule_complete else ndo tt) ;;
  ndo (Go (skip how_much l)).

(** More data in this cell? *)
Definition ule_more (l : locals) : netM turn :=
  more <- (if l_remain l >=? 2 then
             b0 <- cell (l_from l) ;; b1 <- cell (l_from l + 1) ;;
             ndo (negb ((b0 =? 0xff) && (b1 =? 0xff)))
           else ndo false) ;;
  if (more : bool) then
    priv_set (fun p => set_ule_sndu_len 0 (set_ule_sndu_type_1 0 (set_ule_skb None p))) ;;
    ndo (Next (mk_locals (l_ts l) (l_from l) (l_remain l) false))
  else
    count_cell ;;
    p <- nget nd_priv ;;
    (if ule_skb p then ndo tt
     else priv_set (fun p => set_ule_sndu_len 0 (set_ule_sndu_type_1 0 (set_need_pusi 1 p)))) ;;
    ndo (Next (new_cell l)).

Definition ule_turn (l : locals) : netM turn :=
  go_on (go_on (go_on (go_on (go_on (ule_head l) ule_sync) ule_continuity) ule_start) ule_copy) ule_more.

Fixpoint ule_loop (fuel : nat) (l : locals) : netM unit :=
  if l_ts l <? zlen buf then
    match fuel with
    | O => ncrash Stuck
    | S fuel =>
      t <- ule_turn l ;;
      match t with Go l => ule_loop fuel l | Next l => ule_loop fuel l | Leave => ndo tt end
    end
  else ndo tt.

(** A turn takes at least two bytes of a cell, moves on to the next cell, or gives up
    the SNDU and synchronises. *)
Definition turns (n : Z) : nat := Z.to_nat ((n / TS_SZ + 2) * 400).

Definition dvb_net_ule : netM unit := ule_loop (turns (zlen buf)) (mk_locals 0 0 0 true).
End cells.

Definition dvb_net_ts_callback (buffer1 : list Z) (buffer2 : option (list Z)) : netM Z :=
  dvb_net_ule buffer1 ;; ndo 0.

(** ** Multiprotocol encapsulation *)

Definition mpe_ethertype (pkt : list Z) (snap : Z) : option (list Z) :=
  if truthy snap then t0 ← pkt.[18]; t1 ← pkt.[19]; Some [t0; t1]
  else v ← pkt.[12]; Some (if Z.shiftr v 4 =? 6 then [0x86; 0xdd] else [0x08; 0x00]).

(** The frame of a section: the address, its bytes in reverse and around the header,
    no source, the type and the datagram. *)
Definition mpe_frame (pkt : list Z) (snap : Z) : option (list Z) :=
  datagram ← mread pkt (12 + snap) (zlen pkt - 12 - 4 - snap);
  e0 ← pkt.[0x0b]; e1 ← pkt.[0x0a]; e2 ← pkt.[0x09]; e3 ← pkt.[0x08]; e4 ← pkt.[0x04]; e5 ← pkt.[0x03];
  ty ← mpe_ethertype pkt snap;
  Some ([e0; e1; e2; e3; e4; e5] ++ replicate 6 0 ++ ty ++ datagram).

Definition dvb_net_sec (pkt : list Z) : netM unit :=
  if zlen pkt <? 16 then stats_set length_error
  else
    p5 <- need InCell pkt.[5] ;;
    if truthy (Z.land p5 0x3c) then stats_set crc_error
    else
      llc <- (if truthy (Z.land p5 0x02) then
                if zlen pkt <? 24 then ndo None
                else
                  h <- need InCell (mread pkt 12 6) ;;
                  ndo (if bool_decide (h = [0xaa; 0xaa; 0x03; 0; 0; 0]) then Some 8 else None)
              else ndo (Some 0)) ;;
      match llc with
      | None => stats_set dropped
      | Some snap =>
        p7 <- need InCell pkt.[7] ;;
        if truthy p7 then stats_set frame_error
        else
          skb <- dev_alloc_skb (zlen pkt - 4 - 12 + 14 + 2 - snap) ;;
          match skb with
          | None => stats_set dropped
          | Some sk =>
            r <- need InBuffer (skb_put (skb_reserve 2 sk) (zlen pkt - 12 - 4 + 14 - snap)) ;;
            frame <- need InCell (mpe_frame pkt snap) ;;
            sk <- need InBuffer (skb_write (fst r) (snd r) frame) ;;
            broadcast <- nget nd_broadcast ;;
            r <- need InSndu (dvb_net_eth_type_trans broadcast sk) ;;
            let sk := set_skb_protocol (snd r) (fst r) in
            stats_set (packet_in (skb_len sk)) ;;
            netif_rx sk
          end
      end.

Definition dvb_net_sec_callback (buffer1 : list Z) (buffer2 : option (list Z)) : netM Z :=
  dvb_net_sec buffer1 ;; ndo 0.
End net.
