(* ===== verification/DvbNetUle.v ===== *)
(** The decoder of ULE cells is safe: weakest preconditions of the receivers of
    DvbNet.v, and what [dvb_net_ule] keeps whatever the cells hold.  It reads
    inside its cells, never overruns the buffer of an SNDU and comes back. *)

From S2P Require Import Prelude RingBuffer DvbNet.

(** ** Weakest preconditions, with the crashes that are allowed *)

Section wp.
Context {R : crash -> Prop}.

Definition nwp {A} (m : netM A) (d : net_device) (Q : A -> net_device -> Prop) : Prop :=
  match m d with inl (a, d') => Q a d' | inr c => R c end.

Lemma nwp_then {A B} (m : netM A) (f : A -> netM B) d Q :
  nwp m d (fun a d' => nwp (f a) d' Q) -> nwp (nthen m f) d Q.
Proof. unfold nwp, nthen. by destruct (m d) as [[a d']|]. Qed.

Lemma nwp_mono {A} (m : netM A) d (P Q : A -> net_device -> Prop) :
  nwp m d P -> (forall a d', P a d' -> Q a d') -> nwp m d Q.
Proof. unfold nwp. destruct (m d) as [[a d']|]; auto. Qed.

Lemma nwp_seq {A B} (m : netM A) (f : A -> netM B) d P Q :
  nwp m d P -> (forall a d', P a d' -> nwp (f a) d' Q) -> nwp (nthen m f) d Q.
Proof. intros Hm Hf. apply nwp_then. by eapply nwp_mono. Qed.

Lemma nwp_do {A} (a : A) d (Q : A -> net_device -> Prop) : Q a d -> nwp (ndo a) d Q.
Proof. done. Qed.

Lemma nwp_get {A B} (f : net_device -> A) (k : A -> netM B) d Q :
  nwp (k (f d)) d Q -> nwp (nthen (nget f) k) d Q.
Proof. done. Qed.

Lemma nwp_set {B} f (k : unit -> netM B) d Q :
  nwp (k tt) (f d) Q -> nwp (nthen (nset f) k) d Q.
Proof. done. Qed.

Lemma nwp_upd f d (Q : unit -> net_device -> Prop) : Q tt (f d) -> nwp (nset f) d Q.
Proof. done. Qed.

Lemma nwp_need {A B} c (o : option A) a (k : A -> netM B) d Q :
  o = Some a -> nwp (k a) d Q -> nwp (nthen (need c o) k) d Q.
Proof. by intros ->. Qed.

(** A crash that is allowed. *)
Lemma nwp_may {A B} (c : crash) (o : option A) (k : A -> netM B) d Q :
  R c -> (forall a, o = Some a -> nwp (k a) d Q) -> nwp (nthen (need c o) k) d Q.
Proof. intros Hc H. destruct o as [a|]; [by apply (H a)|done]. Qed.

(** The parts of a turn. *)
Lemma nwp_go_on m k d (Q : turn -> net_device -> Prop) P :
  nwp m d P ->
  (forall t d', P t d' -> match t with Go l => nwp (k l) d' Q | t => Q t d' end) ->
  nwp (go_on m k) d Q.
Proof.
  intros Hm Hk. unfold go_on. eapply nwp_seq; [exact Hm|]. intros t d' HP. specialize (Hk t d' HP).
  by destruct t.
Qed.
End wp.
Arguments nwp R {A} m d Q : simpl never.

(** ** Cells *)

Lemma cell_in {buf : list Z} {i} : 0 <= i < zlen buf -> exists b, buf.[i] = Some b.
Proof. intros H. by apply mget_is_Some in H. Qed.

Lemma is_byte_at buf i b : Forall is_byte buf -> buf.[i] = Some b -> 0 <= b < 256.
Proof. intros Hb H. apply mget_Some in H as [_ H]. exact (Forall_lookup_1 _ _ _ _ Hb H). Qed.

Lemma lor_shift a b : 0 <= b < 256 -> Z.lor (Z.shiftl a 8) b = a * 256 + b.
Proof.
  intros Hb. rewrite Z.shiftl_mul_pow2 by lia. change 256 with (2 ^ 8) in *.
  assert (Z.land (a * 2 ^ 8) b = 0) as Hl.
  { apply Z.bits_inj'. intros i Hi. rewrite Z.land_spec, Z.bits_0. destruct (decide (i < 8)).
    - by rewrite Z.mul_pow2_bits_low by lia.
    - rewrite (testbit_above 8 b i) by lia. apply andb_false_r. }
  pose proof (Z.add_lor_land (a * 2 ^ 8) b). lia.
Qed.

Lemma below_bit15 v : 0 <= v < 65536 -> Z.land v 0x8000 = 0 -> v < 32768.
Proof.
  intros Hv H. destruct (decide (v < 32768)) as [|Hge]; [done|].
  assert (Z.testbit v 15 = true) as Hb.
  { apply Z.testbit_true; [lia|]. assert (v / 2 ^ 15 = 1) as ->; [|done].
    symmetry. apply (Z.div_unique_pos _ _ _ (v - 32768)); lia. }
  assert (Z.testbit (Z.land v 0x8000) 15 = true) by (by rewrite Z.land_spec, Hb). by rewrite H in *.
Qed.

(** ** The buffer of an SNDU *)

(** The buffer with the bytes [bs] and room for [room] more. *)
Definition filled (bs : list Z) (room : Z) : sk_buff :=
  mk_skb (replicate 20 None ++ (Some <$> bs) ++ replicate (Z.to_nat room) None)
    20 (20 + zlen bs) (zlen bs) 0 PACKET_HOST 0.

Lemma mapM_id_some (l : list Z) : mapM id (Some <$> l) = Some l.
Proof. induction l as [|x l IH]; [done|]. cbn. by rewrite IH. Qed.

Lemma filled_size bs room : 0 <= room -> zlen (skb_mem (filled bs room)) = 20 + zlen bs + room.
Proof. intros. cbn. autorewrite with zlen. lia. Qed.

Lemma filled_new n :
  0 <= n -> skb_reserve 20 (mk_skb (replicate (Z.to_nat (n + 20)) None) 0 0 0 0 PACKET_HOST 0) = filled [] n.
Proof.
  intros Hn. unfold skb_reserve, filled. cbn [skb_tail skb_data set_skb_tail set_skb_data fmap list_fmap].
  unfold set_skb_tail, set_skb_data. cbn. f_equal.
  rewrite (Z.add_comm n), Z2Nat.inj_add by lia. done.
Qed.

Lemma filled_put bs room n :
  0 <= n <= room ->
  skb_put (filled bs room) n =
    Some (set_skb_len (zlen bs + n) (set_skb_tail (20 + zlen bs + n) (filled bs room)), 20 + zlen bs).
Proof.
  intros Hn. unfold skb_put. rewrite filled_size by lia. cbn [skb_tail skb_len filled].
  rewrite (proj2 (Z.leb_le _ _)) by lia. done.
Qed.

Lemma filled_write bs room new :
  zlen new <= room ->
  skb_write (set_skb_len (zlen bs + zlen new) (set_skb_tail (20 + zlen bs + zlen new) (filled bs room)))
    (20 + zlen bs) new = Some (filled (bs ++ new) (room - zlen new)).
Proof.
  intros Hn. pose proof (zlen_nonneg bs). pose proof (zlen_nonneg new).
  unfold skb_write. cbn [skb_mem set_skb_len set_skb_tail filled].
  rewrite mwrite_Some by (autorewrite with zlen; lia). cbn [option_bind mbind].
  unfold set_skb_mem, set_skb_len, set_skb_tail, filled.
  cbn [skb_mem skb_data skb_tail skb_len skb_mac skb_pkt_type skb_protocol].
  rewrite zlen_app, Z.add_assoc. do 2 f_equal.
  unfold blit. rewrite fmap_app, <- !app_assoc.
  rewrite (app_assoc (replicate 20 None)), take_app_length', drop_app_ge by
    (rewrite ?length_app, ?length_replicate, ?length_fmap; unfold zlen; lia).
  rewrite <- app_assoc. do 3 f_equal. rewrite drop_replicate. f_equal.
  rewrite !length_app, !length_replicate, !length_fmap. unfold zlen in *. lia.
Qed.

(** Reading what was written behind [h] bytes that were not. *)
Lemma read_behind sk h bs tl o n :
  skb_mem sk = replicate h None ++ (Some <$> bs) ++ tl -> 0 <= o -> 0 <= n -> o + n <= zlen bs ->
  skb_read sk (Z.of_nat h + o) n = Some (slice bs o n).
Proof.
  intros Hm Ho Hn Hl. unfold skb_read. rewrite Hm. pose proof (zlen_nonneg tl).
  rewrite mread_Some by (autorewrite with zlen; lia). cbn [mbind option_bind].
  assert (slice (replicate h None ++ (Some <$> bs) ++ tl) (Z.of_nat h + o) n = Some <$> slice bs o n) as ->.
  { unfold slice. rewrite drop_app_ge by (rewrite length_replicate; lia). rewrite length_replicate.
    replace (Z.to_nat (Z.of_nat h + o) - h)%nat with (Z.to_nat o) by lia.
    rewrite drop_app_le by (rewrite length_fmap; unfold zlen in *; lia).
    rewrite take_app_le by (rewrite length_drop, length_fmap; unfold zlen in *; lia).
    by rewrite <- fmap_drop, <- fmap_take. }
  apply mapM_id_some.
Qed.

Lemma filled_read bs room o n :
  0 <= o -> 0 <= n -> o + n <= zlen bs -> skb_read (filled bs room) (20 + o) n = Some (slice bs o n).
Proof. by eapply (read_behind _ 20). Qed.

(** ** What a decoder keeps *)

(** What the receiver of an SNDU and its extension headers may change. *)
Definition strip (p : dvb_net_priv) : dvb_net_priv :=
  set_ule_skb None (set_ule_next_hdr 0 (set_ule_sndu_type 0 (set_ule_bridged 0 p))).

Lemma reset_strip p q : strip p = strip q -> reset_ule p = reset_ule q.
Proof. destruct p, q. unfold strip, reset_ule. cbn. intros H. injection H as ->. subst. done. Qed.

Definition handler_keeps (h : ext_handler) : Prop :=
  forall (p q : dvb_net_priv) (n : Z), h p = Some (q, n) -> strip p = strip q.

Lemma ext_tables_keep :
  Forall (fun o => forall h, o = Some h -> handler_keeps h)
    (ule_mandatory_ext_handlers ++ ule_optional_ext_handlers).
Proof.
  assert (forall n, Forall (fun o => forall h, o = Some h -> handler_keeps h) (replicate n None)) as HN.
  { intros n. by apply Forall_replicate. }
  unfold ule_mandatory_ext_handlers, ule_optional_ext_handlers.
  apply Forall_app_2; [apply Forall_cons_2; [|apply Forall_cons_2; [|apply HN]]|apply Forall_cons_2; [|apply HN]];
    intros h [= <-] p q n; unfold ule_test_sndu, ule_bridged_sndu, ule_exthdr_padding;
    intros H; [by simplify_eq| |by simplify_eq].
  apply bind_Some in H as (sk & _ & H). apply bind_Some in H as (t & _ & H).
  by case_match; simplify_eq.
Qed.

Lemma table_keeps tbl i h :
  tbl = ule_mandatory_ext_handlers \/ tbl = ule_optional_ext_handlers ->
  tbl.[i] = Some (Some h) -> handler_keeps h.
Proof.
  pose proof ext_tables_keep as [Hm Ho]%Forall_app.
  intros [-> | ->] [_ H]%mget_Some.
  - by apply (Forall_lookup_1 _ _ _ _ Hm H).
  - by apply (Forall_lookup_1 _ _ _ _ Ho H).
Qed.

Lemma handle_one_keeps p q n : handle_one_ule_extension p = Some (q, n) -> strip p = strip q.
Proof.
  unfold handle_one_ule_extension. intros (sk & _ & H)%bind_Some. case_match.
  - apply bind_Some in H as ([h|] & Ht & H); [|by simplify_eq].
    apply bind_Some in H as ([q' l] & Hh & H).
    apply (table_keeps _ _ _ (or_introl eq_refl)) in Ht. rewrite (Ht _ _ _ Hh).
    case_match; [|by simplify_eq]. by case_match; apply bind_Some in H as (t & _ & H); simplify_eq.
  - apply bind_Some in H as (h & Ht & H). apply bind_Some in H as ([q' l] & Hh & H).
    apply bind_Some in H as (t & _ & H). simplify_eq.
    destruct h as [h|]; [|by simplify_eq].
    apply (table_keeps _ _ _ (or_intror eq_refl)) in Ht. by rewrite (Ht _ _ _ Hh).
Qed.

Lemma handle_exts_keeps fuel t p q n : handle_exts fuel t p = Some (q, n) -> strip p = strip q.
Proof.
  revert t p. induction fuel as [|fuel IH]; intros t p; [done|]. cbn [handle_exts].
  intros ([q' l] & Ho & H)%bind_Some. rewrite (handle_one_keeps _ _ _ Ho).
  repeat case_match; simplify_eq; eauto.
Qed.

Lemma ule_frame_keeps p addr sk q sk' : ule_frame p addr sk = Some (Some (q, sk')) -> strip p = strip q.
Proof.
  unfold ule_frame. intros (dest & _ & H)%bind_Some. apply bind_Some in H as (drop & _ & H).
  destruct drop; [done|]. apply bind_Some in H as ([r l] & Hx & H).
  assert (strip p = strip r) as ->.
  { destruct (ule_sndu_type p <? 1536); [|by simplify_eq]. apply bind_Some in Hx as (sk0 & _ & Hx).
    by rewrite <- (handle_exts_keeps _ _ _ _ _ Hx). }
  destruct (l <? 0); [done|]. by apply bind_Some in H as (sk0 & _ & H); simplify_eq.
Qed.

(** What the contents of an SNDU may change of the interface. *)
Record same_receiver (d d' : net_device) : Prop := {
  sr_addr : nd_addr d' = nd_addr d;
  sr_broadcast : nd_broadcast d' = nd_broadcast d;
  sr_allocs : nd_allocs d' = nd_allocs d;
}.

Section safe.
Context {E : NetEnv}.

(** Only the contents of an SNDU may crash. *)
Definition in_sndu (c : crash) : Prop := c = InSndu.

Abbreviation safe := (nwp in_sndu).

Lemma accept_safe sk d :
  safe (ule_accept sk) d (fun _ d' => same_receiver d d' /\ strip (nd_priv d') = strip (nd_priv d)).
Proof.
  unfold ule_accept. apply nwp_get, nwp_get, nwp_get, nwp_may; [done|]. intros [[q sk']|] Hf; [|done].
  apply nwp_set, nwp_may; [done|]. intros [sk2 proto] _. apply nwp_set, nwp_upd.
  split; [done|]. cbn. symmetry. by eapply ule_frame_keeps.
Qed.

(** The buffer is full: the CRC is checked, and all is reset. *)
Lemma complete_safe bs d :
  ule_skb (nd_priv d) = Some (filled bs 0) -> 5 <= zlen bs ->
  safe ule_complete d (fun _ d' => same_receiver d d' /\ nd_priv d' = reset_ule (nd_priv d)).
Proof.
  intros Hs Hb. unfold ule_complete. apply nwp_get. eapply nwp_need; [exact Hs|].
  cbn [skb_data skb_len skb_tail filled].
  eapply nwp_need; [apply (filled_read bs 0 0); lia|].
  replace (20 + zlen bs - 4) with (20 + (zlen bs - 4)) by lia.
  eapply nwp_need; [apply (filled_read bs 0); lia|]. cbv zeta.
  eapply (nwp_seq _ _ _ (fun _ d' => same_receiver d d' /\ strip (nd_priv d') = strip (nd_priv d))).
  - case_match; [by apply nwp_upd|apply accept_safe].
  - intros [] d' [Hr Hp]. apply nwp_upd. split; [by destruct Hr; constructor|]. by apply reset_strip.
Qed.

(** ** The state between two turns *)

Definition idle (p : dvb_net_priv) : Prop :=
  ule_skb p = None /\ ule_sndu_len p = 0 /\ ule_sndu_remain p = 0.

(** The buffer of the SNDU that is being decoded. *)
Definition filling (p : dvb_net_priv) : Prop :=
  need_pusi p = 0 /\ 5 <= ule_sndu_len p < 32768 /\ 0 < ule_sndu_remain p /\
  exists bs, ule_skb p = Some (filled bs (ule_sndu_remain p)) /\
             zlen bs = ule_sndu_len p - ule_sndu_remain p.

(** Only the length, and maybe the first byte of the type, of an SNDU were seen. *)
Definition headless (p : dvb_net_priv) : Prop :=
  ule_skb p = None /\ need_pusi p = 0 /\ 5 <= ule_sndu_len p < 32768 /\
  ule_sndu_len p + 1 <= ule_sndu_remain p <= ule_sndu_len p + 2.

Definition framed (p : dvb_net_priv) : Prop := idle p \/ headless p \/ filling p.

Section turn.
Variables (buf : list Z) (n : Z).
Hypothesis Hlen : zlen buf = 188 * n.
Hypothesis Hbytes : Forall is_byte buf.
Hypothesis Hptr : forall i, 0 <= i < n -> buf.[188 * i + 4] <> Some 184.

(** Progress: the cells left, then what the turn may still do in this one. *)
Definition measure (i : Z) (l : locals) (p : dvb_net_priv) : Z :=
  400 * (n - i) + (if l_new l then (if need_pusi p =? 0 then 301 else 300) else l_remain l).

Definition between (i : Z) (l : locals) (p : dvb_net_priv) : Prop :=
  0 <= i <= n /\ l_ts l = 188 * i /\ framed p /\
  (l_new l = false -> i < n /\ l_from l + l_remain l = l_ts l + 188 /\ 2 <= l_remain l <= 184 /\
                      idle p /\ need_pusi p = 0).

(** The position is inside cell [i]. *)
Definition inside (i : Z) (l : locals) : Prop :=
  0 <= i < n /\ l_ts l = 188 * i /\ 0 <= l_remain l <= 184 /\ l_from l + l_remain l = l_ts l + 188.

(** What a part of a turn ends with: going on as [K], or another turn, nearer the end
    than [M], or leaving. *)
Definition ends (M : Z) (K : locals -> net_device -> Prop) (t : turn) (d : net_device) : Prop :=
  match t with
  | Go l => K l d
  | Next l => exists i, between i l (nd_priv d) /\ measure i l (nd_priv d) < M
  | Leave => framed (nd_priv d)
  end.

Lemma ends_go_on M K K' m k d :
  safe m d (ends M K) -> (forall l d', K l d' -> safe (k l) d' (ends M K')) ->
  safe (go_on m k) d (ends M K').
Proof. intros Hm Hk. eapply nwp_go_on; [exact Hm|]. intros [l|l|] d' H; [by apply Hk|done..]. Qed.

Lemma nwp_cell {A} j (k : Z -> netM A) d Q :
  0 <= j < 188 * n -> (forall b, buf.[j] = Some b -> 0 <= b < 256 -> safe (k b) d Q) ->
  safe (nthen (cell buf j) k) d Q.
Proof.
  intros Hj Hk. destruct (cell_in (buf := buf) (i := j)) as [b Hb]; [lia|].
  eapply nwp_need; [exact Hb|]. apply Hk; [done|]. by eapply is_byte_at.
Qed.

(** The next cell, with the SNDU in a state that may continue in it. *)
Lemma ends_next M K i l d :
  framed (nd_priv d) -> 0 <= i < n -> l_ts l = 188 * i + 188 -> l_new l = true -> 400 * (n - i) <= M ->
  ends M K (Next l) d.
Proof.
  intros Hf Hi Hl Hn HM. exists (i + 1). split.
  - split; [lia|]. split; [lia|]. split; [done|]. by rewrite Hn.
  - unfold measure. rewrite Hn. destruct (_ =? 0); lia.
Qed.

Lemma idle_reset p b : idle (set_need_pusi b (reset_ule p)).
Proof. done. Qed.

Lemma framed_count p v : framed p -> framed (set_ts_count v p).
Proof. done. Qed.

Lemma drop_safe d Q :
  (forall d', nd_priv d' = set_need_pusi 1 (reset_ule (nd_priv d)) -> Q tt d') -> safe drop_sndu d Q.
Proof.
  intros HQ. unfold drop_sndu. apply nwp_get.
  destruct (ule_skb (nd_priv d)); by apply nwp_then, nwp_upd, nwp_upd, HQ.
Qed.

(** ** The parts of a turn *)

Lemma head_safe i l d :
  between i l (nd_priv d) -> i < n ->
  safe (ule_head buf l) d (ends (measure i l (nd_priv d)) (fun l' d' =>
    d' = d /\ l_new l' = l_new l /\ inside i l' /\
    (if l_new l then l_from l' = l_ts l' + 4 /\ l_remain l' = 184 else l' = l))).
Proof.
  intros (Hi & Ht & Hf & Hn) Hin. unfold ule_head, measure. destruct (l_new l) eqn:Hnew.
  - do 3 (apply nwp_cell; [lia|]; intros ? _ _). case_match.
    + eapply nwp_then, drop_safe. intros d' Hd'. apply nwp_set, nwp_do.
      eapply (ends_next _ _ i); cbn; unfold TS_SZ; [|lia|lia|done|case_match; lia].
      apply framed_count. rewrite Hd'. left. apply idle_reset.
    + apply nwp_do. cbn. unfold inside. cbn. repeat split; try lia.
  - apply nwp_do. destruct (Hn eq_refl) as (? & ? & ? & _). cbn. unfold inside. by repeat split; try lia.
Qed.

(** After synchronisation: in step, or at the start of a payload unit whose counter was
    taken over. *)
Definition in_step (M i : Z) (l : locals) (p : dvb_net_priv) : Prop :=
  need_pusi p = 0 /\ framed p /\ l_from l = l_ts l + 4 /\ l_remain l = 184 /\ 400 * (n - i) + 301 <= M.

Definition synced (M i : Z) (l : locals) (d : net_device) : Prop :=
  let p := nd_priv d in
  inside i l /\ 400 * (n - i) + (if l_new l then 300 else l_remain l) <= M /\
  if l_new l then
    in_step M i l p \/
    (need_pusi p <> 0 /\ idle p /\
     exists t1 t3, buf.[l_ts l + 1] = Some t1 /\ truthy (Z.land t1 TS_PUSI) = true /\
                   buf.[l_ts l + 3] = Some t3 /\ tscc p = Z.land t3 0x0F)
  else idle p /\ need_pusi p = 0 /\ 2 <= l_remain l.

Lemma framed_pusi p : framed p -> need_pusi p <> 0 -> idle p.
Proof. intros [?|[(_ & ? & _)|(? & _)]] ?; done. Qed.

Lemma sync_safe i l l0 d :
  between i l0 (nd_priv d) -> l_new l = l_new l0 -> inside i l ->
  (if l_new l0 then l_from l = l_ts l + 4 /\ l_remain l = 184 else l = l0) ->
  safe (ule_sync buf l) d (ends (measure i l0 (nd_priv d)) (synced (measure i l0 (nd_priv d)) i)).
Proof.
  intros (Hi & Ht & Hf & Hn) Hnew (Hi' & Ht' & Hr) Hl. unfold ule_sync. apply nwp_get.
  set (M := measure i l0 (nd_priv d)).
  destruct (l_new l0) eqn:Hnew0.
  - destruct Hl as [Hfrom Hrem].
    assert (M = 400 * (n - i) + (if need_pusi (nd_priv d) =? 0 then 301 else 300)) as HM
      by (unfold M, measure; by rewrite Hnew0).
    destruct (need_pusi (nd_priv d) =? 0) eqn:Hp; cbn [negb].
    { apply nwp_do. unfold ends, synced. rewrite Hnew. unfold inside. split; [lia|]. split; [lia|]. left.
      split; [lia|]. repeat split; auto; lia. }
    apply framed_pusi in Hf; [|lia].
    apply nwp_cell; [lia|]. intros t1 H1 _. destruct (Z.land t1 TS_PUSI =? 0) eqn:Ht1; cbn [negb].
    { apply nwp_set, nwp_do. apply (ends_next _ _ i); cbn; unfold TS_SZ; try lia; [by left|done]. }
    apply nwp_cell; [lia|]. intros t3 H3 _. apply nwp_set.
    apply nwp_cell; [lia|]. intros t4 H4 Hb4.
    assert (t4 <> 184) by (intros ->; apply (Hptr i); [lia|]; by rewrite Ht' in H4).
    case_match.
    { apply nwp_set, nwp_do. apply (ends_next _ _ i); cbn; unfold TS_SZ; try lia; [by left|done]. }
    apply nwp_do. unfold ends, synced. cbn [l_new l_ts l_from l_remain nd_priv set_nd_priv].
    rewrite Hnew. rewrite wrap_small by lia. unfold inside. cbn. split; [lia|]. split; [lia|]. right.
    split; [lia|]. split; [done|]. exists t1, t3. by rewrite Ht1.
  - subst l. destruct (Hn eq_refl) as (_ & _ & Hr2 & Hid & Hp).
    rewrite Hp. cbn. apply nwp_do. unfold ends, synced. rewrite Hnew0. unfold inside.
    assert (M = 400 * (n - i) + l_remain l0) as -> by (unfold M, measure; by rewrite Hnew0).
    split; [lia|]. split; [lia|]. done || (split; [done|]; split; [done|lia]).
Qed.

(** The cell is the one expected. *)
Definition checked (M i : Z) (l : locals) (d : net_device) : Prop :=
  let p := nd_priv d in
  inside i l /\ 400 * (n - i) + (if l_new l then 300 else l_remain l) <= M /\
  framed p /\ need_pusi p = 0 /\ (idle p \/ 183 <= l_remain l /\ l_new l = true) /\
  (l_new l = false -> 2 <= l_remain l).

Lemma pointer_safe M i l d :
  inside i l -> 400 * (n - i) + 300 <= M -> l_new l = true ->
  in_step M i l (nd_priv d) \/ need_pusi (nd_priv d) <> 0 /\ idle (nd_priv d) ->
  safe (ule_pointer buf l) d (ends M (fun l d => checked M i l d /\ ule_sndu_remain (nd_priv d) <= 183)).
Proof.
  intros Hin HM Hnew Hs. destruct (Hin) as (Hi & Ht & Hr & Hfrom).
  unfold ule_pointer. apply nwp_get. destruct Hs as [(Hp & Hf & Hl & Hr' & HM')|(Hp & Hid)].
  - rewrite Hp. cbn [Z.eqb]. apply nwp_cell; [lia|]. intros f _ Hf'. case_match.
    + apply (nwp_seq _ _ _ (fun _ d' => nd_priv d' = nd_priv d)); [by case_match; [apply nwp_upd|apply nwp_do]|].
      intros [] d' Hd'. apply nwp_set, nwp_do. exists i. unfold measure. rewrite Hnew.
      cbn [need_pusi set_need_pusi nd_priv set_nd_priv Z.eqb]. split; [|lia].
      split; [lia|]. split; [done|]. rewrite Hnew. split; [left; apply idle_reset|done].
    + apply nwp_do. unfold ends, checked, inside, skip. cbn [l_ts l_from l_remain l_new].
      rewrite Hnew, wrap_small by lia. repeat split; try lia; try done.
  - rewrite (proj2 (Z.eqb_neq _ _)) by done. apply nwp_set, nwp_do.
    unfold ends, checked. rewrite Hnew. destruct Hid as (H1 & H2 & H3).
    assert (idle (set_need_pusi 0 (nd_priv d))) by done.
    repeat split; try lia; try done; try (by left). cbn. lia.
Qed.

Lemma flush_safe M i l d :
  checked M i l d -> ule_sndu_remain (nd_priv d) <= 183 -> safe (ule_flush buf l) d (ends M (checked M i)).
Proof.
  intros Hc Hr. unfold ule_flush. apply nwp_get.
  rewrite Z.gtb_ltb, (proj2 (Z.ltb_ge _ _)) by lia. by apply nwp_do.
Qed.

Lemma synced_checked M i l d :
  synced M i l d -> need_pusi (nd_priv d) = 0 -> checked M i l d.
Proof.
  intros (Hin & HM & Hs) Hp. unfold checked. split; [done|]. split; [done|]. destruct (l_new l).
  - destruct Hs as [(_ & Hf & _ & Hr & _)|(? & _)]; [|done]. repeat split; try done. right. lia.
  - destruct Hs as (Hid & _ & Hr). repeat split; try done; by left.
Qed.

Lemma continuity_safe M i l d :
  synced M i l d -> safe (ule_continuity buf l) d (ends M (checked M i)).
Proof.
  intros Hs. pose proof Hs as (Hin & HM & H). destruct Hin as (Hi & Ht & Hr & Hfrom). unfold ule_continuity.
  destruct (l_new l) eqn:Hnew; [|by apply nwp_do, synced_checked; [|tauto]].
  apply nwp_get, nwp_cell; [lia|]. intros t3 H3 _. case_match eqn:Hcc.
  - apply nwp_set, nwp_cell; [lia|]. intros t1 H1 _. case_match eqn:Hpusi.
    + eapply ends_go_on.
      * apply pointer_safe; [done|lia|done|].
        destruct H as [?|(Hp & Hid & _)]; [by left|right; by split].
      * intros l' d' [Hc Hrem]. by apply flush_safe.
    + destruct H as [H|(_ & _ & t1' & ? & H1' & Hp' & _)]; [|congruence].
      apply nwp_do. apply synced_checked; [|by destruct H].
      split; [done|]. split; [by rewrite Hnew|]. rewrite Hnew. by left.
  - destruct H as [(Hp & _ & _ & _ & HM')|(_ & _ & ? & t3' & _ & _ & H3' & Hcc')]; [|exfalso; simplify_eq; lia].
    eapply nwp_then, drop_safe. intros d' Hd'. apply nwp_do. exists i. unfold measure, between. rewrite Hnew, Hd'.
    cbn [need_pusi set_need_pusi Z.eqb]. split; [|lia]. repeat split; try lia; try done. left. apply idle_reset.
Qed.

(** The length of the SNDU is known. *)
Definition sized (M i : Z) (l : locals) (d : net_device) : Prop :=
  let p := nd_priv d in
  inside i l /\ 400 * (n - i) + l_remain l < M /\
  ule_skb p = None /\ need_pusi p = 0 /\ 5 <= ule_sndu_len p < 32768.

Lemma next_inside M K i l d :
  inside i l -> 400 * (n - i) <= M -> framed (nd_priv d) -> ends M K (Next (new_cell l)) d.
Proof.
  intros (Hi & Ht & _) ? Hf. apply (ends_next _ _ i); cbn; unfold TS_SZ; try lia; done.
Qed.

Lemma length_safe M i l d :
  checked M i l d -> ule_skb (nd_priv d) = None -> 2 <= l_remain l ->
  safe (ule_length buf l) d (ends M (sized M i)).
Proof.
  intros (Hin & HM & Hf & Hp & Hnid & _) Hs Hr. destruct (Hin) as (Hi & Ht & Hr' & Hfrom).
  unfold ule_length. apply nwp_get. destruct (ule_sndu_len (nd_priv d) =? 0) eqn:Hz.
  - assert (idle (nd_priv d)) as Hid.
    { destruct Hf as [?|[(_ & _ & ? & _)|(_ & ? & _)]]; [done|lia..]. }
    apply nwp_cell; [lia|]. intros b0 _ Hb0. apply nwp_cell; [lia|]. intros b1 _ Hb1. cbv zeta.
    rewrite lor_shift by lia. set (len := b0 * 256 + b1).
    apply (nwp_seq _ _ _ (fun _ d' => exists b v, 0 <= v < 32768 /\
             nd_priv d' = set_ule_dbit b (set_ule_sndu_len v (nd_priv d)))).
    { destruct (Z.land len 0x8000 =? 0) eqn:Hbit; cbn [negb]; apply nwp_upd; eexists _, _; (split; [|done]).
      - split; [lia|]. apply below_bit15; lia.
      - apply (land_bound _ _ 15); lia. }
    intros [] d' (b & v & Hv & Hd'). apply nwp_get. destruct (ule_sndu_len (nd_priv d') <? 5) eqn:H5.
    + apply nwp_set, nwp_set, nwp_set, nwp_do. cbn [nd_priv set_nd_priv set_nd_stats].
      apply (next_inside _ _ i); [done|destruct (l_new l); lia|].
      cbn. rewrite Hd'. left. split; [done|]. split; [done|]. by destruct Hid as (_ & _ & ?).
    + apply nwp_do. unfold ends, sized. rewrite Hd'. unfold inside, skip. cbn. rewrite wrap_small by lia.
      rewrite Hd' in H5. cbn in H5. destruct (l_new l); repeat split; try lia; done.
  - apply nwp_do. split; [done|]. destruct Hf as [(_ & ? & _)|[(_ & _ & ? & _)|(_ & _ & _ & ? & ? & _)]];
      [lia| |congruence]. destruct Hnid as [(_ & ? & _)|[Hrem Hnew]]; [lia|]. rewrite Hnew in HM.
    repeat split; try done; lia.
Qed.

(** The type is known. *)
Definition typed (M i : Z) (l : locals) (d : net_device) : Prop :=
  sized M i l d /\ ule_sndu_remain (nd_priv d) = ule_sndu_len (nd_priv d) + 2.

Lemma type_safe M i l d :
  sized M i l d -> safe (ule_type buf l) d (ends M (typed M i)).
Proof.
  intros (Hin & HM & Hs & Hp & Hl). destruct (Hin) as (Hi & Ht & Hr & Hfrom).
  unfold ule_type. apply nwp_set. case_match eqn:H1.
  { apply nwp_cell; [lia|]. intros b0 _ _. apply nwp_set, nwp_set, nwp_do.
    apply (next_inside _ _ i); [|lia|].
    - unfold inside, skip. cbn. rewrite wrap_small by lia. lia.
    - right. left. repeat split; try done; cbn; lia. }
  case_match eqn:H0.
  { apply nwp_set, nwp_do. apply (next_inside _ _ i); [done|lia|].
    right. left. repeat split; try done; cbn; lia. }
  apply nwp_get, nwp_cell; [lia|]. intros b0 _ _. case_match.
  - apply nwp_set, nwp_do. unfold ends, typed, sized, inside, skip. cbn. rewrite wrap_small by lia.
    repeat split; try done; try lia.
  - apply nwp_cell; [lia|]. intros b1 _ _. apply nwp_set, nwp_do.
    unfold ends, typed, sized, inside, skip. cbn. rewrite wrap_small by lia.
    repeat split; try done; try lia.
Qed.

(** There is a buffer to fill. *)
Definition started (M i : Z) (l : locals) (d : net_device) : Prop :=
  inside i l /\ 400 * (n - i) + l_remain l < M /\ filling (nd_priv d).

Lemma buffer_safe M i l d : typed M i l d -> safe (ule_buffer l) d (ends M (started M i)).
Proof.
  intros [(Hin & HM & Hs & Hp & Hl) Hrem]. unfold ule_buffer, dev_alloc_skb. apply nwp_get.
  apply nwp_then, nwp_get, nwp_set, nwp_do. destruct (alloc_skb _).
  - apply nwp_set, nwp_do. split; [done|]. split; [done|]. split; [done|]. split; [done|].
    cbn [ule_sndu_remain ule_sndu_len set_ule_sndu_remain set_ule_skb nd_priv set_nd_priv set_nd_allocs]. split; [lia|].
    exists []. split; [|rewrite zlen_nil; lia]. cbn [ule_skb set_ule_sndu_remain set_ule_skb].
    f_equal. rewrite <- Z.add_assoc. apply filled_new. lia.
  - apply nwp_set, nwp_set, nwp_do. right. left. repeat split; try done; cbn; lia.
Qed.

Lemma start_safe M i l d : checked M i l d -> safe (ule_start buf l) d (ends M (started M i)).
Proof.
  intros Hc. pose proof Hc as (Hin & HM & Hf & Hp & Hnid & Hr2). unfold ule_start. apply nwp_get.
  destruct (ule_skb (nd_priv d)) as [sk|] eqn:Hs.
  - apply nwp_do. destruct Hf as [(? & _)|[(? & _)|Hf]]; [congruence..|].
    split; [done|]. split; [|done]. destruct Hin as (_ & _ & ? & _).
    destruct Hnid as [(? & _)|[_ Hnew]]; [congruence|]. rewrite Hnew in HM. lia.
  - destruct (l_remain l <? 2) eqn:Hlt.
    + apply nwp_set, nwp_do. destruct (l_new l) eqn:Hnew; [|specialize (Hr2 eq_refl); lia].
      destruct Hnid as [(? & ? & ?)|?]; [|lia]. destruct Hin as (? & ? & _).
      apply (ends_next _ _ i); cbn; unfold TS_SZ; try lia; [|done]. by left.
    + eapply ends_go_on; [eapply ends_go_on|].
      * apply length_safe; [done|done|lia].
      * intros l' d' H'. by apply type_safe.
      * intros l' d' H'. by apply buffer_safe.
Qed.

(** The SNDU is complete or the cell is used up. *)
Definition copied (M i : Z) (l : locals) (d : net_device) : Prop :=
  let p := nd_priv d in
  inside i l /\ 400 * (n - i) + l_remain l < M /\
  (idle p /\ need_pusi p = 0 \/ filling p /\ l_remain l = 0).

Lemma copy_safe M i l d : started M i l d -> safe (ule_copy buf l) d (ends M (copied M i)).
Proof.
  intros (Hin & HM & Hf). destruct (Hin) as (Hi & Ht & Hr & Hfrom).
  pose proof Hf as (Hp & Hl & Hrem & bs & Hs & Hbs).
  unfold ule_copy. apply nwp_get. eapply nwp_need; [exact Hs|]. cbv zeta.
  set (k := Z.min (ule_sndu_remain (nd_priv d)) (l_remain l)).
  assert (0 <= k <= ule_sndu_remain (nd_priv d) /\ k <= l_remain l) as [Hk Hkl] by lia.
  rewrite (wrap_small 8 k) by lia.
  eapply nwp_need; [apply mread_Some; lia|].
  eapply nwp_need; [apply filled_put; lia|]. cbn [fst snd].
  assert (zlen (slice buf (l_from l) k) = k) as Hsl by (apply zlen_slice; lia).
  rewrite <- Hsl at 1 2. eapply nwp_need; [apply filled_write; lia|]. rewrite Hsl.
  apply nwp_set, nwp_get. set (d1 := set_nd_priv _ d).
  assert (inside i (skip k l) /\ 400 * (n - i) + l_remain (skip k l) < M) as [Hin' HM'].
  { unfold inside, skip. cbn. rewrite wrap_small by lia. lia. }
  cbn [ule_sndu_remain set_ule_sndu_remain nd_priv set_nd_priv d1]. case_match.
  - assert (ule_sndu_remain (nd_priv d) - k = 0) as H0 by lia.
    eapply nwp_seq; [apply (complete_safe (bs ++ slice buf (l_from l) k)); [|rewrite zlen_app, Hsl; lia]|].
    { cbn. by rewrite H0. }
    intros [] d' [_ Hd']. apply nwp_do. split; [done|]. split; [done|]. left. rewrite Hd'. done.
  - apply nwp_then, nwp_do, nwp_do. split; [done|]. split; [done|]. right.
    split; [|cbn; rewrite wrap_small; lia]. split; [done|]. split; [done|].
    cbn. split; [lia|]. exists (bs ++ slice buf (l_from l) k). split; [done|]. rewrite zlen_app, Hsl. lia.
Qed.

Lemma more_safe M i l d : copied M i l d -> safe (ule_more buf l) d (ends M (fun _ _ => False)).
Proof.
  intros (Hin & HM & Hf). destruct (Hin) as (Hi & Ht & Hr & Hfrom). unfold ule_more.
  apply (nwp_seq _ _ _ (fun more d' => d' = d /\ (more = true -> 2 <= l_remain l))).
  { case_match; [|by apply nwp_do]. do 2 (apply nwp_cell; [lia|]; intros ? _ _). apply nwp_do. split; [done|lia]. }
  intros more d' [-> Hm]. destruct more.
  - specialize (Hm eq_refl). destruct Hf as [[(_ & _ & ?) ?]|[_ ?]]; [|lia]. apply nwp_set, nwp_do. exists i.
    split; [|unfold measure; cbn; lia]. split; [lia|]. split; [done|]. split; [by left|].
    intros _. cbn. repeat split; try lia; done.
  - apply nwp_set, nwp_get. cbn [ule_skb set_ts_count nd_priv set_nd_priv].
    destruct Hf as [[(Hs & ? & ?) ?]|[Hf ?]].
    + rewrite Hs. apply nwp_set, nwp_do, (next_inside _ _ i); [done|lia|]. by left.
    + pose proof Hf as (_ & _ & _ & bs & Hs & _). rewrite Hs. apply nwp_then, nwp_do, nwp_do.
      apply (next_inside _ _ i); [done|lia|]. by right; right.
Qed.

Lemma turn_safe i l d :
  between i l (nd_priv d) -> i < n ->
  safe (ule_turn buf l) d (ends (measure i l (nd_priv d)) (fun _ _ => False)).
Proof.
  intros Hb Hi. unfold ule_turn. set (M := measure i l (nd_priv d)).
  eapply ends_go_on; [eapply ends_go_on; [eapply ends_go_on; [eapply ends_go_on; [eapply ends_go_on|]|]|]|].
  - by apply head_safe.
  - intros l' d' (-> & Hn & Hin & Hl). by apply (sync_safe i).
  - intros l' d' H. by apply (continuity_safe M i).
  - intros l' d' H. by apply (start_safe M i).
  - intros l' d' H. by apply (copy_safe M i).
  - intros l' d' H. by apply (more_safe M i).
Qed.

Lemma loop_safe fuel i l d :
  between i l (nd_priv d) -> measure i l (nd_priv d) < Z.of_nat fuel ->
  safe (ule_loop buf fuel l) d (fun _ d' => framed (nd_priv d')).
Proof.
  revert i l d. induction fuel as [|fuel IH]; intros i l d Hb HM; cbn [ule_loop];
    pose proof Hb as (Hi & Ht & Hf & Hn); rewrite Hlen; case_match; try by apply nwp_do.
  - exfalso. unfold measure in HM. destruct (l_new l); [destruct (_ =? 0)|specialize (Hn eq_refl)]; lia.
  - eapply nwp_seq; [apply (turn_safe i); [done|lia]|]. intros t d' Ht'. destruct t as [?|l'|]; [done| |done].
    destruct Ht' as (j & Hb' & HM'). apply (IH j); [done|lia].
Qed.
End turn.

Definition whole_cells (buf : list Z) : Prop :=
  Forall is_byte buf /\ exists n, zlen buf = 188 * n.

(** The one value of a pointer field that points past its cell. *)
Definition pointers_ok (buf : list Z) : Prop :=
  forall i, 0 <= i < zlen buf / 188 -> buf.[188 * i + 4] <> Some 184.

End safe.
