(* ===== verification/DvbNetEncap.v ===== *)
(** Ultra lightweight encapsulation as RFC 4326 gives it: SNDUs, their CRC, and the
    cells that carry them, with SNDUs packed into one cell or padded as the sender
    likes.  What [dvb_net_ule] of DvbNet.v receives is what was sent. *)

From S2P Require Import Prelude RingBuffer DvbNet DvbNetUle.

(** ** SNDUs *)

(** An SNDU with its destination address, if it has one (the D bit says it has not). *)
Record sndu := mk_sndu { sn_dest : option (list Z); sn_type : Z; sn_payload : list Z }.

Definition sn_dbit (f : sndu) : Z := if sn_dest f then 0 else 1.
Definition sn_data (f : sndu) : list Z := default [] (sn_dest f) ++ sn_payload f.
(** The length counts what follows the type. *)
Definition sn_len (f : sndu) : Z := zlen (sn_data f) + 4.

Definition be32 (v : Z) : list Z := be16 (Z.shiftr v 16) ++ be16 (Z.land v 0xffff).

(** An Ethernet frame as the kernel gets it. *)
Record ether := mk_ether {
  et_dest : list Z; et_source : list Z; et_protocol : Z; et_pkt_type : Z; et_data : list Z }.

Definition ether_of (sk : sk_buff) : option ether :=
  d ← skb_read sk (skb_mac sk) 6; s ← skb_read sk (skb_mac sk + 6) 6;
  l ← skb_read sk (skb_data sk) (skb_len sk);
  Some (mk_ether d s (skb_protocol sk) (skb_pkt_type sk) l).

(** ** Cells *)

(** Fill a payload from its first free byte, a new SNDU after each that ends, as long as
    the sender wants it in this cell: the payload, what is left of the last SNDU, and
    the SNDUs after it. *)
Fixpoint fill (room : Z) (l : list (bool * list Z)) : list Z * list Z * list (bool * list Z) :=
  match l with
  | [] => (replicate (Z.to_nat room) 0xff, [], [])
  | (pack, s) :: l' =>
    if (room <? 2) || negb pack then (replicate (Z.to_nat room) 0xff, [], l)
    else if zlen s <=? room then
      let '(p, r, l'') := fill (room - zlen s) l' in (s ++ p, r, l'')
    else (take (Z.to_nat room) s, drop (Z.to_nat room) s, l')
  end.

(** The first SNDU of a cell need not be packed. *)
Definition pack_first (l : list (bool * list Z)) : list (bool * list Z) :=
  match l with [] => [] | (_, s) :: l => (true, s) :: l end.

(** Whether another SNDU starts in a cell after the rest [r] of one. *)
Definition starts_after (r : list Z) (l : list (bool * list Z)) : bool :=
  match l with (true, _) :: _ => zlen r + 3 <=? 184 | _ => false end.

(** The payload of a cell: whether a payload unit starts in it, its bytes, and what is
    left to send. *)
Definition cell_payload (r : list Z) (l : list (bool * list Z)) :
    bool * list Z * list Z * list (bool * list Z) :=
  if decide (r = []) then
    let '(p, r', l') := fill 183 (pack_first l) in (true, 0 :: p, r', l')
  else if starts_after r l then
    let '(p, r', l') := fill (183 - zlen r) l in (true, zlen r :: r ++ p, r', l')
  else
    (false, take 184 r ++ replicate (184 - length (take 184 r)) 0xff, drop 184 r, l).

Definition ts_cell (pid cc : Z) (pusi : bool) (payload : list Z) : list Z :=
  [0x47; Z.lor (if pusi then 0x40 else 0) (Z.land (Z.shiftr pid 8) 0x1f); Z.land pid 0xff;
   Z.lor 0x10 (Z.land cc 0x0f)] ++ payload.

Fixpoint cells (fuel : nat) (pid cc : Z) (r : list Z) (l : list (bool * list Z)) : list (list Z) :=
  match fuel, r, l with
  | S fuel, _ :: _, _ | S fuel, _, _ :: _ =>
    let '(pusi, payload, r', l') := cell_payload r l in
    ts_cell pid cc pusi payload :: cells fuel pid (cc + 1) r' l'
  | _, _, _ => []
  end.

Definition to_send (r : list Z) (l : list (bool * list Z)) : nat := length r + sum_list (length <$> l.*2).

(** ** What an interface receives *)

(** Whether an interface in its mode receives a destination. *)
Definition accepts (d : net_device) (a : list Z) : bool :=
  let mode := np_rx_mode (nd_priv d) in
  (mode =? RX_MODE_PROMISC) ||
  (if Z.odd (hd 0 a) then
     same_addr a bc_addr || (mode =? RX_MODE_ALL_MULTI) ||
     (mode =? RX_MODE_MULTI) &&
       existsb (same_addr a) (take (Z.to_nat (np_multi_num (nd_priv d))) (np_multi_macs (nd_priv d)))
   else same_addr a (nd_addr d)).

Definition accepted (d : net_device) (f : sndu) : bool :=
  match sn_dest f with Some a => accepts d a | None => true end.

(** The frame an SNDU becomes. *)
Definition ether_for (d : net_device) (f : sndu) : ether :=
  let a := default (replicate 6 0) (sn_dest f) in
  mk_ether a (replicate 6 0) (sn_type f)
    (if Z.odd (hd 0 a) then
       if same_addr a (nd_broadcast d) then PACKET_BROADCAST else PACKET_MULTICAST
     else PACKET_HOST) (sn_payload f).

(** An SNDU without extension headers that ULE can carry. *)
Record sndu_ok (f : sndu) : Prop := {
  so_dest : match sn_dest f with Some a => zlen a = 6 | None => True end;
  so_type : 1536 <= sn_type f < 65536;
  so_len : 5 <= sn_len f < 32767;
  so_bytes : Forall is_byte (sn_data f);
}.

Section encap.
Context {E : NetEnv}.

Definition sndu_bytes (f : sndu) : list Z :=
  let head := be16 (Z.lor (sn_len f) (0x8000 * sn_dbit f)) in
  head ++ be16 (sn_type f) ++ sn_data f ++
  be32 (iov_crc32 0xffffffff [head; be16 (sn_type f); sn_data f]).

(** The cells of a sequence of SNDUs; the mark of an SNDU says to pack it with the one
    before. *)
Definition ule_send (pid cc : Z) (l : list (bool * sndu)) : list (list Z) :=
  let l := prod_map id sndu_bytes <$> l in cells (to_send [] l) pid cc [] l.

Fixpoint ule_receive (l : list (list Z)) : netM unit :=
  match l with [] => ndo tt | c :: l => dvb_net_ule c ;; ule_receive l end.

(** ** Bytes *)

Lemma be16_bytes v : be16 v = [Z.shiftr v 8 mod 256; v mod 256].
Proof. unfold be16. by rewrite !(land_mask _ 8) by done. Qed.

Lemma be16_value v : 0 <= v < 65536 -> ntohs (be16 v) = v.
Proof.
  intros Hv. rewrite be16_bytes. cbn [ntohs]. rewrite lor_shift by (apply Z.mod_pos_bound; lia).
  rewrite Z.shiftr_div_pow2 by lia. change (2 ^ 8) with 256.
  pose proof (Z.div_mod v 256). rewrite (Z.mod_small (v / 256)); [lia|].
  split; [apply Z.div_pos|apply Z.div_lt_upper_bound]; lia.
Qed.

Lemma be32_value v :
  0 <= v < 2 ^ 32 -> foldl (fun c b => Z.lor (Z.shiftl c 8) b) 0 (be32 v) = v.
Proof.
  intros Hv. unfold be32. rewrite !be16_bytes. cbn [app foldl].
  rewrite !lor_shift by (apply Z.mod_pos_bound; lia).
  rewrite (land_mask v 16), !Z.shiftr_div_pow2 by done.
  change (2 ^ 8) with 256. change (2 ^ 16) with 65536. change (2 ^ 32) with 4294967296 in Hv.
  rewrite Z.div_div by lia. change (65536 * 256) with 16777216.
  pose proof (Z.div_mod v 16777216). pose proof (Z.mod_pos_bound v 16777216).
  Z.to_euclidean_division_equations. lia.
Qed.

Lemma lands_dbit len b :
  0 <= len < 32768 -> (b = 0 \/ b = 1) ->
  let v := Z.lor len (0x8000 * b) in
  Z.land v 0x8000 = 0x8000 * b /\ Z.land v 0x7FFF = len /\ v = len + 0x8000 * b.
Proof.
  intros Hl Hb v.
  assert (Z.land len 0x8000 = 0) as H0.
  { apply Z.bits_inj'. intros i Hi. rewrite Z.land_spec, Z.bits_0. destruct (decide (i < 15)).
    - change 0x8000 with (2 ^ 15). rewrite Z.pow2_bits_false by lia. apply andb_false_r.
    - by rewrite (testbit_above 15 len) by lia. }
  assert (Z.land len 0x7FFF = len) as H1 by (rewrite (land_mask _ 15) by done; apply Z.mod_small; lia).
  unfold v. rewrite !Z.land_lor_distr_l, H0, H1.
  pose proof (Z.add_lor_land len (0x8000 * b)) as Ha. destruct Hb as [-> | ->].
  - change (0x8000 * 0) with 0 in *. rewrite Z.land_0_l, !Z.lor_0_r in *. repeat split; lia.
  - change (0x8000 * 1) with 0x8000 in *. rewrite H0 in Ha. split; [done|].
    split; [apply Z.lor_0_r|lia].
Qed.

(** ** From the bytes of an SNDU to the frame *)

Definition sndu_crc (f : sndu) : Z :=
  iov_crc32 0xffffffff [be16 (Z.lor (sn_len f) (0x8000 * sn_dbit f)); be16 (sn_type f); sn_data f].

Definition sn_body (f : sndu) : list Z := sn_data f ++ be32 (sndu_crc f).

(** The buffer of an SNDU without its CRC. *)
Definition trimmed (data crc : list Z) : sk_buff :=
  set_skb_len (zlen data) (set_skb_tail (20 + zlen data) (filled (data ++ crc) 0)).

(** The bytes of its Ethernet header. *)
Definition header (f : sndu) : list Z :=
  default (replicate 6 0) (sn_dest f) ++ replicate 6 0 ++ be16 (sn_type f).

Definition headroom (f : sndu) : nat := if sn_dest f then 12 else 6.

(** The buffer with that header in front of the payload, which starts at [data]. *)
Definition with_header (f : sndu) (crc : list Z) (data len mac pt proto : Z) : sk_buff :=
  mk_skb (replicate (headroom f) None ++ (Some <$> (header f ++ sn_payload f ++ crc)) ++ [])
    data (20 + zlen (sn_data f)) len mac pt proto.

Lemma zlen_header f : sndu_ok f -> zlen (header f) = 14.
Proof.
  intros [Hd _ _ _]. unfold header. rewrite !zlen_app, zlen_replicate. cbn.
  destruct (sn_dest f); cbn; [rewrite Hd; done|done].
Qed.

(** Writing the header over the address, or into the room in front. *)
Lemma push_header f crc sk :
  sndu_ok f -> skb_mem sk = skb_mem (filled (sn_data f ++ crc) 0) ->
  skb_data sk = Z.of_nat (headroom f) ->
  skb_write sk (skb_data sk) (header f) =
    Some (set_skb_mem (skb_mem (with_header f crc 0 0 0 0 0)) sk).
Proof.
  intros Hok Hm Hd. unfold skb_write. rewrite Hm, Hd. cbn [skb_mem filled with_header].
  pose proof (zlen_header f Hok) as Hh. change (Z.to_nat 0) with 0%nat.
  pose proof (zlen_nonneg (sn_payload f)). pose proof (zlen_nonneg crc).
  rewrite mwrite_Some; cycle 1; [lia| |].
  { unfold headroom, sn_data. autorewrite with zlen. rewrite Hh.
    destruct (sn_dest f) as [a|] eqn:Ha; cbn; [|rewrite zlen_nil; lia].
    destruct Hok as [Hda _ _ _]. rewrite Ha in Hda. lia. }
  cbn [mbind option_bind]. f_equal. f_equal. unfold blit.
  change (replicate 0 (@None Z)) with (@nil (option Z)). rewrite !app_nil_r, Nat2Z.id.
  assert (length (header f) = 14%nat) as Hl by (unfold zlen in Hh; lia).
  rewrite length_fmap, Hl. unfold headroom, sn_data. destruct (sn_dest f) as [a|] eqn:Ha.
  - assert (length a = 6%nat) as Hla by (destruct Hok as [Hda _ _ _]; rewrite Ha in Hda; unfold zlen in Hda; lia).
    change (replicate 20 None) with (replicate 12 (@None Z) ++ replicate 8 None).
    rewrite <- app_assoc, take_app_length', drop_app_ge by (rewrite length_replicate; lia).
    f_equal. rewrite (fmap_app _ (header f)). f_equal. cbn [default option_fmap from_option id].
    rewrite length_replicate, <- app_assoc, fmap_app, drop_app_ge by (rewrite length_replicate; lia).
    rewrite length_replicate, drop_app_length' by (rewrite length_fmap; lia). done.
  - change (replicate 20 None) with (replicate 6 (@None Z) ++ replicate 14 None).
    rewrite <- app_assoc, take_app_length', drop_app_ge by (rewrite length_replicate; lia).
    f_equal. by rewrite (fmap_app _ (header f)).
Qed.

Lemma multicast_bit b : truthy (Z.land b 1) = Z.odd b.
Proof. rewrite (land_mask b 1) by done. change (2 ^ 1) with 2. rewrite Zmod_odd. by destruct (Z.odd b). Qed.

Lemma first_byte (a : list Z) : zlen a = 6 -> a.[0] = Some (hd 0 a).
Proof. by destruct a. Qed.

(** The addresses an interface listens to are in its table. *)
Definition macs_ok (p : dvb_net_priv) : Prop := 0 <= np_multi_num p <= zlen (np_multi_macs p).

Lemma drop_spec d p a :
  zlen a = 6 -> strip p = strip (nd_priv d) -> macs_ok (nd_priv d) ->
  ule_drop p (nd_addr d) a = Some (negb (accepts d a)).
Proof.
  intros Ha Hp [H0 Hm]. unfold ule_drop, accepts.
  assert (np_rx_mode p = np_rx_mode (nd_priv d)) as -> by (by apply (f_equal np_rx_mode) in Hp).
  assert (np_multi_num p = np_multi_num (nd_priv d)) as -> by (by apply (f_equal np_multi_num) in Hp).
  assert (np_multi_macs p = np_multi_macs (nd_priv d)) as -> by (by apply (f_equal np_multi_macs) in Hp).
  rewrite (first_byte _ Ha). destruct (np_rx_mode (nd_priv d) =? RX_MODE_PROMISC); [done|]. cbn [negb orb mbind option_bind].
  rewrite multicast_bit. destruct (Z.odd (hd 0 a)); [|done].
  destruct (same_addr a bc_addr); [done|]. cbn [negb orb].
  destruct (np_rx_mode (nd_priv d) =? RX_MODE_MULTI) eqn:He.
  - rewrite mread_Some by lia. unfold slice. cbn [mbind option_bind drop Z.to_nat].
    rewrite (proj2 (Z.eqb_neq _ RX_MODE_ALL_MULTI)); [done|]. unfold RX_MODE_ALL_MULTI, RX_MODE_MULTI in *. lia.
  - by rewrite orb_false_r.
Qed.

Lemma dest_read f crc :
  sndu_ok f -> zlen crc = 4 -> forall a, sn_dest f = Some a ->
  skb_read (trimmed (sn_data f) crc) 20 6 = Some a.
Proof.
  intros Hok Hc a Ha. pose proof (zlen_nonneg (sn_payload f)).
  assert (zlen a = 6) as Hl by (destruct Hok as [Hd _ _ _]; by rewrite Ha in Hd).
  rewrite (read_behind _ 20 (sn_data f ++ crc) [] 0 6); [|done..|].
  - unfold sn_data. rewrite Ha. cbn [default option_fmap from_option id]. rewrite <- app_assoc.
    unfold slice. rewrite drop_0. by rewrite take_app_length' by (unfold zlen in Hl; lia).
  - unfold sn_data. rewrite Ha. cbn [default option_fmap from_option id]. autorewrite with zlen. lia.
Qed.

(** A buffer whose pointers have moved. *)
Definition sk_at (mem : list (option Z)) (data tail len : Z) : sk_buff :=
  mk_skb mem data tail len 0 PACKET_HOST 0.

Lemma trimmed_at data crc :
  trimmed data crc = sk_at (skb_mem (filled (data ++ crc) 0)) 20 (20 + zlen data) (zlen data).
Proof. done. Qed.

Lemma pull_at mem data tail len n :
  n <= len -> skb_pull (sk_at mem data tail len) n = sk_at mem (data + n) tail (len - n).
Proof. intros. unfold skb_pull. cbn [skb_len sk_at]. by rewrite Z.gtb_ltb, (proj2 (Z.ltb_ge _ _)) by lia. Qed.

Lemma frame_spec f crc p d :
  sndu_ok f -> zlen crc = 4 -> strip p = strip (nd_priv d) -> macs_ok (nd_priv d) ->
  ule_dbit p = sn_dbit f -> ule_sndu_type p = sn_type f -> ule_bridged p = 0 ->
  ule_frame p (nd_addr d) (trimmed (sn_data f) crc) =
    Some (if accepted d f then
            Some (p, with_header f crc (Z.of_nat (headroom f)) (14 + zlen (sn_payload f)) 0 PACKET_HOST 0)
          else None).
Proof.
  intros Hok Hc Hp Hm Hd Ht Hb. pose proof (so_type f Hok) as Hty. unfold ule_frame. rewrite Hd, Ht.
  assert (set_ule_bridged 0 p = p) as Hbr by (destruct p; cbn in Hb; by subst).
  change (skb_data (trimmed (sn_data f) crc)) with 20. unfold sn_dbit, accepted, ETH_ALEN.
  rewrite (proj2 (Z.ltb_ge _ _)) by lia. pose proof (zlen_nonneg (sn_payload f)).
  destruct (sn_dest f) as [a|] eqn:Ha.
  - assert (zlen a = 6) as Hl by (destruct Hok as [Hd' _ _ _]; by rewrite Ha in Hd').
    assert (zlen (sn_data f) = 6 + zlen (sn_payload f)) as Hdl by (unfold sn_data; rewrite Ha; cbn; by rewrite zlen_app, Hl).
    cbn [Z.eqb]. rewrite (dest_read f crc Hok Hc a Ha). cbn [mbind option_bind].
    rewrite (drop_spec d p a) by done. cbn [mbind option_bind]. destruct (accepts d a); [|done]. cbn [negb].
    rewrite trimmed_at, pull_at by lia. cbn [Z.ltb Z.compare]. rewrite pull_at by lia.
    cbn [option_bind mbind]. rewrite Hb. cbn [Z.eqb]. unfold skb_push, sk_at. cbn [skb_data skb_len].
    rewrite (proj2 (Z.ltb_ge _ _)) by (unfold ETH_HLEN; lia). cbn [mbind option_bind].
    assert (a ++ replicate 6 0 ++ be16 (sn_type f) = header f) as Hhd by (unfold header; by rewrite Ha).
    rewrite Ht, Hhd, (push_header f crc); [|done|done|unfold headroom; by rewrite Ha].
    cbn [mbind option_bind]. rewrite Hbr. do 3 f_equal.
    unfold with_header, headroom, set_skb_mem, set_skb_len, set_skb_data, ETH_HLEN. rewrite Ha.
    cbn [skb_mem skb_data skb_tail skb_len skb_mac skb_pkt_type skb_protocol]. f_equal; lia.
  - assert (sn_data f = sn_payload f) as Hdl by (unfold sn_data; by rewrite Ha).
    cbn [Z.eqb mbind option_bind Z.ltb Z.compare].
    rewrite trimmed_at, pull_at by (rewrite Hdl; lia).
    cbn [option_bind mbind]. rewrite Hb. cbn [Z.eqb]. unfold skb_push, sk_at. cbn [skb_data skb_len].
    rewrite (proj2 (Z.ltb_ge _ _)) by (unfold ETH_HLEN; lia). cbn [mbind option_bind].
    assert (replicate 6 0 ++ replicate 6 0 ++ be16 (sn_type f) = header f) as Hhd by (unfold header; by rewrite Ha).
    rewrite Ht, Hhd, (push_header f crc); [|done|done|unfold headroom; by rewrite Ha].
    cbn [mbind option_bind]. rewrite Hbr. do 3 f_equal.
    unfold with_header, headroom, set_skb_mem, set_skb_len, set_skb_data, ETH_HLEN. rewrite Ha.
    cbn [skb_mem skb_data skb_tail skb_len skb_mac skb_pkt_type skb_protocol]. rewrite Hdl. f_equal; lia.
Qed.

(** The parts of the frame. *)
Lemma header_parts f r :
  sndu_ok f ->
  let bs := header f ++ sn_payload f ++ r in
  slice bs 0 6 = default (replicate 6 0) (sn_dest f) /\ slice bs 6 6 = replicate 6 0 /\
  slice bs 12 2 = be16 (sn_type f) /\ slice bs 14 (zlen (sn_payload f)) = sn_payload f.
Proof.
  intros Hok bs. assert (zlen (default (replicate 6 0) (sn_dest f)) = 6) as Hl.
  { destruct Hok as [Hd _ _ _]. by destruct (sn_dest f). }
  pose proof (zlen_header f Hok) as Hh. unfold bs, header in *. set (a := default _ _) in *.
  assert (zlen (be16 (sn_type f)) = 2) as H2 by done.
  assert (zlen (replicate 6 0) = 6) as H6 by done.
  rewrite <- !app_assoc. split; [|split; [|split]].
  - pose proof (slice_app_mid [] a (replicate 6 0 ++ be16 (sn_type f) ++ sn_payload f ++ r)) as H. by rewrite Hl in H.
  - pose proof (slice_app_mid a (replicate 6 0) (be16 (sn_type f) ++ sn_payload f ++ r)) as H. by rewrite Hl, H6 in H.
  - pose proof (slice_app_mid (a ++ replicate 6 0) (be16 (sn_type f)) (sn_payload f ++ r)) as H.
    rewrite zlen_app, Hl, H2 in H. by rewrite <- app_assoc in H.
  - pose proof (slice_app_mid (a ++ replicate 6 0 ++ be16 (sn_type f)) (sn_payload f) r) as H.
    rewrite Hh in H. by rewrite <- !app_assoc in H.
Qed.

Lemma read_frame f crc data len mac pt proto o n :
  sndu_ok f -> 0 <= o -> 0 <= n -> o + n <= 14 + zlen (sn_payload f) -> 
  skb_read (with_header f crc data len mac pt proto) (Z.of_nat (headroom f) + o) n =
    Some (slice (header f ++ sn_payload f ++ crc) o n).
Proof.
  intros Hok Ho Hn Hl. apply (read_behind _ (headroom f) _ []); [done..|]. pose proof (zlen_nonneg crc).
  rewrite !zlen_app, (zlen_header f Hok). lia.
Qed.

Lemma read_dest f crc data len mac pt proto :
  sndu_ok f -> skb_read (with_header f crc data len mac pt proto) (Z.of_nat (headroom f)) 6 =
    Some (default (replicate 6 0) (sn_dest f)).
Proof.
  intros Hok. pose proof (zlen_nonneg (sn_payload f)). rewrite <- (Z.add_0_r (Z.of_nat (headroom f))).
  rewrite read_frame by (done || lia). f_equal. by apply header_parts.
Qed.

Definition pkt_type_of (d : net_device) (f : sndu) : Z := et_pkt_type (ether_for d f).

Lemma type_trans_spec f crc d :
  sndu_ok f ->
  dvb_net_eth_type_trans (nd_broadcast d)
    (with_header f crc (Z.of_nat (headroom f)) (14 + zlen (sn_payload f)) 0 PACKET_HOST 0) =
  Some (with_header f crc (Z.of_nat (headroom f) + 14) (zlen (sn_payload f)) (Z.of_nat (headroom f))
          (pkt_type_of d f) 0, sn_type f).
Proof.
  intros Hok. pose proof (zlen_nonneg (sn_payload f)). pose proof (so_type f Hok) as Hty.
  destruct (header_parts f crc Hok) as (Hd & Hs & Ht & Hp).
  unfold dvb_net_eth_type_trans.
  assert (skb_pull (set_skb_mac (skb_data (with_header f crc (Z.of_nat (headroom f)) (14 + zlen (sn_payload f)) 0 PACKET_HOST 0))
            (with_header f crc (Z.of_nat (headroom f)) (14 + zlen (sn_payload f)) 0 PACKET_HOST 0)) ETH_HLEN
          = with_header f crc (Z.of_nat (headroom f) + 14) (zlen (sn_payload f)) (Z.of_nat (headroom f)) PACKET_HOST 0) as ->.
  { unfold skb_pull. cbn [skb_len set_skb_mac with_header]. unfold ETH_HLEN. rewrite Z.gtb_ltb, (proj2 (Z.ltb_ge _ _)) by lia.
    unfold with_header, set_skb_len, set_skb_data, set_skb_mac.
    cbn [skb_mem skb_data skb_tail skb_len skb_mac skb_pkt_type skb_protocol]. f_equal. lia. }
  cbn [skb_mac with_header]. fold (with_header f crc (Z.of_nat (headroom f) + 14) (zlen (sn_payload f)) (Z.of_nat (headroom f)) PACKET_HOST 0).
  unfold ETH_ALEN, skb_be16.
  rewrite read_dest, read_frame by (done || lia). cbn [mbind option_bind]. rewrite Ht, be16_value by lia.
  assert (zlen (default (replicate 6 0) (sn_dest f)) = 6) as Hl.
  { destruct Hok as [Hda _ _ _]. by destruct (sn_dest f). }
  rewrite (first_byte _ Hl). cbn [mbind option_bind].
  rewrite Z.geb_leb, (proj2 (Z.leb_le _ _)), multicast_bit by lia.
  unfold pkt_type_of. cbn [et_pkt_type ether_for]. by destruct (Z.odd _).
Qed.

Lemma ether_of_spec f crc d proto :
  sndu_ok f -> proto = sn_type f ->
  ether_of (set_skb_protocol proto
    (with_header f crc (Z.of_nat (headroom f) + 14) (zlen (sn_payload f)) (Z.of_nat (headroom f)) (pkt_type_of d f) 0)) =
  Some (ether_for d f).
Proof.
  intros Hok ->. pose proof (zlen_nonneg (sn_payload f)). destruct (header_parts f crc Hok) as (Hd & Hs & _ & Hp).
  match goal with |- ether_of ?sk = _ =>
    change sk with (with_header f crc (Z.of_nat (headroom f) + 14) (zlen (sn_payload f)) (Z.of_nat (headroom f))
                      (pkt_type_of d f) (sn_type f)) end.
  unfold ether_of.
  change (skb_mac (with_header f crc (Z.of_nat (headroom f) + 14) (zlen (sn_payload f)) (Z.of_nat (headroom f))
                      (pkt_type_of d f) (sn_type f))) with (Z.of_nat (headroom f)).
  change (skb_data (with_header f crc (Z.of_nat (headroom f) + 14) (zlen (sn_payload f)) (Z.of_nat (headroom f))
                      (pkt_type_of d f) (sn_type f))) with (Z.of_nat (headroom f) + 14).
  change (skb_len (with_header f crc (Z.of_nat (headroom f) + 14) (zlen (sn_payload f)) (Z.of_nat (headroom f))
                      (pkt_type_of d f) (sn_type f))) with (zlen (sn_payload f)).
  rewrite read_dest, !read_frame by (done || lia). cbn [mbind option_bind]. by rewrite Hs, Hp.
Qed.

(** ** The interface after some SNDUs *)

Definition errors_of (s : net_device_stats) : list Z :=
  [rx_errors s; rx_dropped s; rx_length_errors s; rx_crc_errors s; rx_frame_errors s].

(** What decides which frames are received. *)
Record same_filter (d0 d : net_device) : Prop := {
  sf_addr : nd_addr d = nd_addr d0;
  sf_broadcast : nd_broadcast d = nd_broadcast d0;
  sf_mode : np_rx_mode (nd_priv d) = np_rx_mode (nd_priv d0);
  sf_num : np_multi_num (nd_priv d) = np_multi_num (nd_priv d0);
  sf_macs : np_multi_macs (nd_priv d) = np_multi_macs (nd_priv d0);
}.

(** Since [d0], exactly the SNDUs [got] came, and no error was counted. *)
Record received (d0 : net_device) (got : list sndu) (d : net_device) : Prop := {
  rc_filter : same_filter d0 d;
  rc_errors : errors_of (nd_stats d) = errors_of (nd_stats d0);
  rc_frames : ether_of <$> nd_received d =
    (ether_of <$> nd_received d0) ++ (Some <$> (ether_for d0 <$> filter (fun f => accepted d0 f) got));
}.

Lemma same_accepted d0 d f : same_filter d0 d -> accepted d f = accepted d0 f.
Proof. intros [H1 H2 H3 H4 H5]. unfold accepted, accepts. by rewrite H1, H3, H4, H5. Qed.

Lemma same_ether d0 d f : same_filter d0 d -> ether_for d f = ether_for d0 f.
Proof. intros [H1 H2 H3 H4 H5]. unfold ether_for. by rewrite H2. Qed.

(** The CRC is a u32, and there is memory for every buffer. *)
Context {crc32_be_u32 : forall c l, 0 <= crc32_be c l < 2 ^ 32}.

Abbreviation never := (fun _ : crash => False).

Lemma crc_range f : 0 <= sndu_crc f < 2 ^ 32.
Proof. apply crc32_be_u32. Qed.

Lemma complete_spec d0 got f d :
  received d0 got d -> macs_ok (nd_priv d0) -> sndu_ok f ->
  ule_skb (nd_priv d) = Some (filled (sn_body f) 0) ->
  ule_sndu_len (nd_priv d) = sn_len f -> ule_dbit (nd_priv d) = sn_dbit f ->
  ule_sndu_type (nd_priv d) = sn_type f -> ule_bridged (nd_priv d) = 0 ->
  nwp never ule_complete d (fun _ d' =>
    received d0 (got ++ [f]) d' /\ nd_priv d' = reset_ule (nd_priv d)).
Proof.
  intros Hr Hm Hok Hs Hl Hdb Hty Hbr. unfold ule_complete. apply nwp_get. eapply nwp_need; [exact Hs|].
  pose proof (zlen_nonneg (sn_data f)).
  assert (zlen (sn_body f) = zlen (sn_data f) + 4) as Hlen by (unfold sn_body; by rewrite zlen_app).
  cbn [skb_data skb_len skb_tail filled]. rewrite Hlen.
  replace (zlen (sn_data f) + 4 - 4) with (zlen (sn_data f)) by lia.
  replace (20 + (zlen (sn_data f) + 4) - 4) with (20 + zlen (sn_data f)) by lia.
  eapply nwp_need; [apply (filled_read (sn_body f) 0 0); lia|].
  eapply nwp_need; [apply (filled_read (sn_body f) 0); lia|]. cbv zeta.
  assert (slice (sn_body f) 0 (zlen (sn_data f)) = sn_data f) as ->
    by (apply (slice_app_mid [] (sn_data f) (be32 (sndu_crc f)))).
  assert (slice (sn_body f) (zlen (sn_data f)) 4 = be32 (sndu_crc f)) as ->.
  { pose proof (slice_app_mid (sn_data f) (be32 (sndu_crc f)) []) as H'. by rewrite app_nil_r in H'. }
  rewrite be32_value by apply crc_range. rewrite Hl, Hdb, Hty.
  assert ((if truthy (sn_dbit f) then 0x8000 else 0) = 0x8000 * sn_dbit f) as ->
    by (unfold sn_dbit; by destruct (sn_dest f)).
  fold (sndu_crc f). rewrite Z.eqb_refl. cbn [negb].
  match goal with |- context [ule_accept ?sk] =>
    change sk with (trimmed (sn_data f) (be32 (sndu_crc f))) end.
  destruct Hr as [Hf He Hg]. assert (macs_ok (nd_priv d)) as Hm' by (destruct Hf; unfold macs_ok in *; congruence).
  apply (nwp_seq _ _ _ (fun _ d' => received d0 (got ++ [f]) d' /\ nd_priv d' = nd_priv d)).
  - unfold ule_accept. apply nwp_get, nwp_get, nwp_get.
    eapply nwp_need; [by apply (frame_spec f _ (nd_priv d) d)|].
    rewrite (same_accepted d0) by done. destruct (accepted d0 f) eqn:Ha.
    + apply nwp_set. eapply nwp_need; [by apply (type_trans_spec f _ d)|]. apply nwp_set, nwp_upd.
      split; [|reflexivity]. constructor.
      * destruct Hf. by constructor.
      * done.
      * cbn [nd_received set_nd_received set_nd_stats set_nd_priv fst snd].
        rewrite fmap_app, Hg, filter_app, !fmap_app, <- app_assoc. f_equal. f_equal.
        rewrite filter_cons_True by (by rewrite Ha). cbn [fmap list_fmap filter list_filter].
        by rewrite (ether_of_spec f _ d), (same_ether d0).
    + apply nwp_do. split; [|reflexivity]. constructor; [done..|].
      rewrite Hg, filter_app, filter_cons_False by (rewrite Ha; intros []). by rewrite app_nil_r.
  - intros [] d' [[Hf' He' Hg'] Hp']. apply nwp_upd. cbn [nd_priv set_nd_priv]. split; [|by rewrite Hp'].
    constructor; [|done..]. destruct Hf'. by constructor.
Qed.

(** Only the state of the decoder changes. *)
Record moved (d d' : net_device) : Prop := {
  mv_filter : same_filter d d';
  mv_stats : nd_stats d' = nd_stats d;
  mv_received : nd_received d' = nd_received d;
}.

Lemma received_moved d0 got d d' : received d0 got d -> moved d d' -> received d0 got d'.
Proof.
  intros [[F1 F2 F3 F4 F5] He Hg] [[G1 G2 G3 G4 G5] Hs Hr]. constructor.
  - constructor; congruence.
  - by rewrite Hs.
  - by rewrite Hr.
Qed.

Lemma moved_trans d1 d2 d3 : moved d1 d2 -> moved d2 d3 -> moved d1 d3.
Proof. intros [[] ? ?] [[] ? ?]. constructor; [constructor|..]; congruence. Qed.

(** ** A decoder that has seen part of an SNDU *)

Lemma sndu_bytes_split f :
  sndu_bytes f = be16 (Z.lor (sn_len f) (0x8000 * sn_dbit f)) ++ be16 (sn_type f) ++ sn_body f.
Proof. done. Qed.

Lemma zlen_body f : zlen (sn_body f) = sn_len f.
Proof. unfold sn_body. by rewrite zlen_app. Qed.

Lemma zlen_sndu f : zlen (sndu_bytes f) = sn_len f + 4.
Proof. rewrite sndu_bytes_split, !zlen_app, zlen_body. change (zlen (be16 _)) with 2. lia. Qed.

(** The decoder is in step, with the counter [c] expected next. *)
Definition link (c : Z) (p : dvb_net_priv) : Prop := need_pusi p = 0 /\ ule_bridged p = 0 /\ tscc p = c.

(** The length of [f] was read. *)
Definition head_of (f : sndu) (p : dvb_net_priv) : Prop :=
  ule_sndu_len p = sn_len f /\ ule_dbit p = sn_dbit f.

(** The first [k] bytes of [f] were seen. *)
Inductive decoding (c : Z) (f : sndu) (p : dvb_net_priv) : Z -> Prop :=
| dec_idle : link c p -> idle p -> ule_sndu_type_1 p = 0 -> decoding c f p 0
| dec_len : link c p -> ule_skb p = None -> head_of f p -> ule_sndu_type_1 p = 0 ->
    ule_sndu_remain p = sn_len f + 2 -> decoding c f p 2
| dec_type : link c p -> ule_skb p = None -> head_of f p -> ule_sndu_type_1 p = 1 ->
    ule_sndu_type p = Z.shiftl (Z.shiftr (sn_type f) 8) 8 ->
    ule_sndu_remain p = sn_len f + 1 -> decoding c f p 3
| dec_body k : 4 <= k -> link c p -> head_of f p -> ule_sndu_type_1 p = 0 -> ule_sndu_type p = sn_type f ->
    ule_skb p = Some (filled (take (Z.to_nat (k - 4)) (sn_body f)) (zlen (sndu_bytes f) - k)) ->
    ule_sndu_remain p = zlen (sndu_bytes f) - k -> decoding c f p k.

Context {skbs_plenty : forall n, alloc_skb n = true}.

Ltac moves := constructor; [constructor|..]; done.

Section cell.
Variable buf : list Z.

(** The bytes still to come in the cell. *)
Definition ahead (l : locals) (bs : list Z) : Prop :=
  0 <= l_from l /\ l_remain l = zlen bs /\ zlen bs <= 184 /\ l_from l + zlen bs = zlen buf /\
  drop (Z.to_nat (l_from l)) buf = bs.

Lemma ahead_get l bs i b : ahead l bs -> bs.[i] = Some b -> buf.[l_from l + i] = Some b.
Proof.
  intros (Hf & _ & _ & _ & <-) Hb. assert (0 <= i) by (apply mget_lt in Hb; lia). by rewrite mget_drop in Hb.
Qed.

Lemma ahead_skip l x y n : ahead l (x ++ y) -> n = zlen x -> ahead (skip n l) y.
Proof.
  intros (Hf & Hr & Hl & Ht & Hd) ->. pose proof (zlen_nonneg x). pose proof (zlen_nonneg y). rewrite zlen_app in *.
  unfold ahead, skip. cbn [l_from l_remain]. rewrite wrap_small by lia. repeat (split; [lia|]).
  rewrite Z2Nat.inj_add, <- drop_drop, Hd by lia. by rewrite drop_app_length' by (unfold zlen; lia).
Qed.

Lemma ahead_read l x y : ahead l (x ++ y) -> mread buf (l_from l) (zlen x) = Some x.
Proof.
  intros (Hf & Hr & Hl & Ht & Hd). pose proof (zlen_nonneg x). pose proof (zlen_nonneg y). rewrite zlen_app in *.
  rewrite mread_Some by lia. unfold slice. rewrite Hd. by rewrite take_app_length' by (unfold zlen; lia).
Qed.

Lemma nwp_byte {A} l bs i b (k : Z -> netM A) d Q :
  ahead l bs -> bs.[i] = Some b -> nwp never (k b) d Q -> nwp never (nthen (cell buf (l_from l + i)) k) d Q.
Proof. intros Ha Hb Hk. eapply nwp_need; [by eapply ahead_get|done]. Qed.

Lemma length_spec c f l z d :
  sndu_ok f -> decoding c f (nd_priv d) 0 ->
  ahead l (be16 (Z.lor (sn_len f) (0x8000 * sn_dbit f)) ++ z) ->
  nwp never (ule_length buf l) d (fun t d' => t = Go (skip 2 l) /\ moved d d' /\
    let p := nd_priv d' in link c p /\ ule_skb p = None /\ head_of f p /\ ule_sndu_type_1 p = 0).
Proof.
  intros Hok Hd Ha. inversion Hd as [Hlk (Hs & Hl & Hr) H1 Hk| | |]; [|lia].
  pose proof (so_len f Hok) as Hlen.
  destruct (lands_dbit (sn_len f) (sn_dbit f)) as (H8 & H7 & Hv);
    [lia|unfold sn_dbit; destruct (sn_dest f); lia|].
  set (v := Z.lor (sn_len f) (0x8000 * sn_dbit f)) in *.
  assert (0 <= v < 65536) as Hvr by (rewrite Hv; unfold sn_dbit; destruct (sn_dest f); lia).
  unfold ule_length. apply nwp_get. rewrite Hl. cbn [Z.eqb].
  rewrite <- (Z.add_0_r (l_from l)) at 1. eapply nwp_byte; [exact Ha|reflexivity|].
  eapply nwp_byte; [exact Ha|reflexivity|]. cbv zeta.
  pose proof (be16_value v Hvr) as Hb. cbn [ntohs be16] in Hb. rewrite Hb, H8, H7.
  assert (v = sn_len f \/ sn_dbit f = 1) as Hv1 by (rewrite Hv; unfold sn_dbit; destruct (sn_dest f); lia).
  apply (nwp_seq _ _ _ (fun _ d' => nd_priv d' = set_ule_dbit (sn_dbit f) (set_ule_sndu_len (sn_len f) (nd_priv d)) /\ moved d d')).
  { unfold sn_dbit in *. destruct (sn_dest f); cbn [Z.mul Z.eqb negb].
    - destruct Hv1 as [-> |]; [|done]. apply nwp_upd. split; [done|moves].
    - apply nwp_upd. split; [done|moves]. }
  intros [] d' [Hp' Hm]. apply nwp_get. rewrite Hp'. cbn [ule_sndu_len set_ule_dbit set_ule_sndu_len].
  rewrite (proj2 (Z.ltb_ge _ _)) by lia. apply nwp_do. split; [done|]. split; [done|]. rewrite Hp'. done.
Qed.

(** The state before the type is read. *)
Definition before_type (c : Z) (f : sndu) (j : Z) (p : dvb_net_priv) : Prop :=
  link c p /\ ule_skb p = None /\ head_of f p /\
  (j = 0 /\ ule_sndu_type_1 p = 0 \/
   j = 1 /\ ule_sndu_type_1 p = 1 /\ ule_sndu_type p = Z.shiftl (Z.shiftr (sn_type f) 8) 8).

Lemma type_bytes f : sndu_ok f -> be16 (sn_type f) = [Z.shiftr (sn_type f) 8; Z.land (sn_type f) 0xff].
Proof.
  intros Hok. pose proof (so_type f Hok). unfold be16. rewrite (land_mask (Z.shiftr _ _) 8) by done.
  rewrite Z.mod_small; [done|]. rewrite Z.shiftr_div_pow2 by lia. change (2 ^ 8) with 256.
  split; [apply Z.div_pos|apply Z.div_lt_upper_bound]; lia.
Qed.

Lemma type_value f : sndu_ok f -> Z.lor (Z.shiftl (Z.shiftr (sn_type f) 8) 8) (Z.land (sn_type f) 0xff) = sn_type f.
Proof.
  intros Hok. pose proof (be16_value (sn_type f)) as H. rewrite (type_bytes f Hok) in H. apply H.
  pose proof (so_type f Hok). lia.
Qed.

Lemma type_whole c f j l z d :
  sndu_ok f -> before_type c f j (nd_priv d) -> ahead l (drop (Z.to_nat j) (be16 (sn_type f)) ++ z) ->
  2 <= l_remain l ->
  nwp never (ule_type buf l) d (fun t d' => exists l', t = Go l' /\ l_ts l' = l_ts l /\ ahead l' z /\ moved d d' /\
    let p := nd_priv d' in link c p /\ head_of f p /\ ule_sndu_type_1 p = 0 /\ ule_sndu_type p = sn_type f).
Proof.
  intros Hok (Hlk & Hs & Hh & Hj) Ha Hr2. rewrite (type_bytes f Hok) in Ha. unfold ule_type. apply nwp_set.
  rewrite (proj2 (Z.eqb_neq _ 1)), (proj2 (Z.eqb_neq _ 0)) by lia. apply nwp_get.
  destruct Hj as [[-> H1]|(-> & H1 & Ht)].
  - change (drop (Z.to_nat 0) ?x) with x in Ha.
    rewrite <- (Z.add_0_r (l_from l)) at 1. eapply nwp_byte; [exact Ha|reflexivity|].
    cbn [ule_sndu_type_1 set_ule_sndu_remain nd_priv set_nd_priv]. rewrite H1. cbn [Z.eqb negb].
    eapply nwp_byte; [exact Ha|reflexivity|]. apply nwp_set, nwp_do. eexists. split; [done|]. split; [done|].
    split; [by eapply ahead_skip; [exact Ha|]|]. split; [moves|].
    split; [done|]. split; [done|]. split; [done|]. by apply type_value.
  - change (drop (Z.to_nat 1) [?x; ?y]) with [y] in Ha.
    rewrite <- (Z.add_0_r (l_from l)) at 1. eapply nwp_byte; [exact Ha|reflexivity|].
    cbn [ule_sndu_type_1 set_ule_sndu_remain nd_priv set_nd_priv]. rewrite H1. cbn [Z.eqb negb].
    apply nwp_set, nwp_do. eexists. split; [done|]. split; [done|].
    split; [by eapply ahead_skip; [exact Ha|]|]. split; [moves|].
    split; [done|]. split; [done|]. split; [done|]. cbn. rewrite Ht. by apply type_value.
Qed.

(** The cell ends within the header. *)
Lemma type_part c f l bs d :
  sndu_ok f -> before_type c f 0 (nd_priv d) -> ahead l bs ->
  bs = take (length bs) (be16 (sn_type f)) -> zlen bs < 2 ->
  nwp never (ule_type buf l) d (fun t d' => exists l', t = Next (new_cell l') /\ l_ts l' = l_ts l /\
    moved d d' /\ decoding c f (nd_priv d') (2 + zlen bs)).
Proof.
  intros Hok (Hlk & Hs & (Hhl & Hhd) & Hj) Ha Hbs Hl. destruct Hj as [[_ H1]|[? _]]; [|done].
  rewrite (type_bytes f Hok) in Hbs. pose proof Ha as (_ & Hr & _). unfold ule_type. apply nwp_set.
  destruct bs as [|b [|? ?]]; [..|rewrite !zlen_cons in Hl; pose proof (zlen_nonneg l0); lia].
  - rewrite Hr. cbn [zlen length Z.of_nat Z.eqb]. apply nwp_set, nwp_do. exists l. split; [done|]. split; [done|].
    split; [moves|]. apply dec_len; try done. cbn. lia.
  - cbn in Hbs. injection Hbs as ->. rewrite Hr, zlen_singleton. cbn [Z.eqb].
    rewrite <- (Z.add_0_r (l_from l)) at 1. eapply nwp_byte; [exact Ha|reflexivity|].
    apply nwp_set, nwp_set, nwp_do. eexists. split; [done|]. split; [done|]. split; [moves|].
    apply dec_type; try done. cbn. lia.
Qed.

Lemma buffer_spec c f l d :
  sndu_ok f ->
  (let p := nd_priv d in link c p /\ head_of f p /\ ule_sndu_type_1 p = 0 /\ ule_sndu_type p = sn_type f) ->
  nwp never (ule_buffer l) d (fun t d' => t = Go l /\ moved d d' /\ decoding c f (nd_priv d') 4).
Proof.
  intros Hok (Hlk & (Hl & Hd) & H1 & Ht). unfold ule_buffer, dev_alloc_skb. apply nwp_get.
  apply nwp_then, nwp_get, nwp_set, nwp_do. rewrite skbs_plenty. apply nwp_set, nwp_do.
  split; [done|]. split; [moves|]. pose proof (so_len f Hok).
  assert (zlen (sndu_bytes f) - 4 = sn_len f) as Hz by (rewrite zlen_sndu; lia).
  apply dec_body; try done;
    cbn [nd_priv set_nd_priv ule_skb set_ule_sndu_remain set_ule_skb ule_sndu_remain ule_sndu_len set_nd_allocs];
    [|by rewrite Hz, Hl]. rewrite Hz, Hl. f_equal. rewrite take_0.
  rewrite <- Z.add_assoc. apply filled_new. lia.
Qed.

(** The first four bytes. *)
Definition sndu_head (f : sndu) : list Z := be16 (Z.lor (sn_len f) (0x8000 * sn_dbit f)) ++ be16 (sn_type f).

Lemma start_whole c f k l z d :
  sndu_ok f -> decoding c f (nd_priv d) k -> k < 4 -> 2 <= l_remain l ->
  ahead l (drop (Z.to_nat k) (sndu_head f) ++ z) ->
  nwp never (ule_start buf l) d (fun t d' => exists l', t = Go l' /\ l_ts l' = l_ts l /\ ahead l' z /\
    moved d d' /\ decoding c f (nd_priv d') 4).
Proof.
  intros Hok Hd Hk Hr2 Ha. unfold ule_start. apply nwp_get. pose proof (so_len f Hok) as Hlen.
  assert (ule_skb (nd_priv d) = None) as Hs by (inversion Hd; try done; [by destruct H0|lia]).
  rewrite Hs, (proj2 (Z.ltb_ge _ _)) by lia.
  apply (nwp_go_on _ _ _ _ (fun t d' => exists l', t = Go l' /\ l_ts l' = l_ts l /\ ahead l' z /\ moved d d' /\
           let p := nd_priv d' in link c p /\ head_of f p /\ ule_sndu_type_1 p = 0 /\ ule_sndu_type p = sn_type f)).
  - apply (nwp_go_on _ _ _ _ (fun t d' => exists l' j, t = Go l' /\ l_ts l' = l_ts l /\ moved d d' /\ 2 <= l_remain l' /\
             before_type c f j (nd_priv d') /\ ahead l' (drop (Z.to_nat j) (be16 (sn_type f)) ++ z))).
    + destruct (decide (k = 0)) as [->|Hk0].
      * change (drop (Z.to_nat 0) ?x) with x in Ha. unfold sndu_head in Ha. rewrite <- app_assoc in Ha.
        eapply nwp_mono; [by eapply length_spec|]. intros t d' (-> & Hm & Hp).
        apply (ahead_skip _ _ _ 2) in Ha; [|done]. exists (skip 2 l), 0. split; [done|]. split; [done|].
        split; [done|]. pose proof Ha as (_ & -> & _). rewrite zlen_app. change (zlen (be16 _)) with 2.
        pose proof (zlen_nonneg z). split; [lia|]. split; [|done]. unfold before_type. naive_solver.
      * assert (before_type c f (k - 2) (nd_priv d) /\ (k = 2 \/ k = 3)) as [Hb Hk23].
        { inversion Hd; subst; try lia; (split; [|lia]); unfold before_type; naive_solver. }
        unfold ule_length. apply nwp_get.
        rewrite (proj2 (Z.eqb_neq _ _)) by (destruct Hb as (_ & _ & [-> _] & _); lia).
        apply nwp_do. exists l, (k - 2). split; [done|]. split; [done|]. split; [by destruct d; moves|].
        split; [done|]. split; [done|]. by destruct Hk23 as [-> | ->].
    + intros t d' (l' & j & -> & Ht & Hm & Hr' & Hb & Ha'). eapply nwp_mono; [by apply (type_whole c f j _ z)|].
      intros t' d2 (l2 & -> & Ht2 & Ha2 & Hm2 & Hp). exists l2. split; [done|]. split; [congruence|].
      split; [done|]. split; [by eapply moved_trans|done].
  - intros t d' (l' & -> & Ht & Ha' & Hm & Hp). eapply nwp_mono; [by apply (buffer_spec c f)|].
    intros t' d2 (-> & Hm2 & Hd2). exists l'. split; [done|]. split; [done|]. split; [done|].
    split; [by eapply moved_trans|done].
Qed.

Lemma start_part c f l bs d :
  sndu_ok f -> decoding c f (nd_priv d) 0 -> ahead l bs -> 2 <= zlen bs < 4 ->
  bs = take (length bs) (sndu_head f) ->
  nwp never (ule_start buf l) d (fun t d' => exists l', t = Next (new_cell l') /\ l_ts l' = l_ts l /\
    moved d d' /\ decoding c f (nd_priv d') (zlen bs)).
Proof.
  intros Hok Hd Ha Hl Hbs. unfold ule_start. apply nwp_get.
  assert (ule_skb (nd_priv d) = None) as Hs by (inversion Hd as [? Hi| | |]; [by destruct Hi|lia]).
  pose proof Ha as (_ & Hr & _). rewrite Hs, (proj2 (Z.ltb_ge _ _)) by lia.
  set (v := Z.lor (sn_len f) (0x8000 * sn_dbit f)). set (rest := take (length bs - 2) (be16 (sn_type f))).
  assert (bs = be16 v ++ rest) as Hbs'.
  { rewrite Hbs. unfold sndu_head, rest. rewrite take_app. f_equal.
    apply take_ge. change (length (be16 _)) with 2%nat. unfold zlen in Hl. lia. }
  assert (zlen bs = 2 + zlen rest) as Hz by (rewrite Hbs', zlen_app; done).
  rewrite Hbs' in Ha.
  eapply nwp_go_on; [eapply nwp_go_on; [by eapply length_spec|]|].
  - intros t d' (-> & Hm & Hp). apply (ahead_skip _ _ _ 2) in Ha; [|done].
    eapply nwp_mono; [apply (type_part c f _ rest); [done| |done| |lia]|].
    + unfold before_type. naive_solver.
    + assert (length rest = (length bs - 2)%nat) as ->; [|done].
      unfold rest. rewrite length_take. change (length (be16 _)) with 2%nat. unfold zlen in Hl. lia.
    + intros t d2 (l' & -> & Ht & Hm2 & Hd2).
      instantiate (1 := fun t d2 => exists l', t = Next (new_cell l') /\ l_ts l' = l_ts l /\ moved d d2 /\ decoding c f (nd_priv d2) (zlen bs)).
      exists l'. split; [done|]. split; [done|]. split; [by eapply moved_trans|]. by rewrite Hz.
  - intros t d' (l' & -> & H). by exists l'.
Qed.

(** The decoder between two SNDUs of a cell. *)
Definition fresh (c : Z) (p : dvb_net_priv) : Prop := link c p /\ idle p /\ ule_sndu_type_1 p = 0.

Lemma copy_done d0 got c f k l z d :
  received d0 got d -> macs_ok (nd_priv d0) -> sndu_ok f -> decoding c f (nd_priv d) k ->
  4 <= k <= zlen (sndu_bytes f) -> ahead l (drop (Z.to_nat (k - 4)) (sn_body f) ++ z) ->
  nwp never (ule_copy buf l) d (fun t d' => exists l', t = Go l' /\ l_ts l' = l_ts l /\ ahead l' z /\
    received d0 (got ++ [f]) d' /\ fresh c (nd_priv d')).
Proof.
  intros Hrc Hm Hok Hd Hk Ha. inversion Hd as [| | |? _ Hlk [Hl Hdb] H1 Hty Hs Hrem]; [lia..|].
  pose proof (zlen_sndu f) as Hz. pose proof (zlen_body f) as Hzb. pose proof (so_len f Hok).
  set (x := drop (Z.to_nat (k - 4)) (sn_body f)) in *.
  assert (zlen x = zlen (sndu_bytes f) - k) as Hx by (unfold x; rewrite zlen_drop by lia; lia).
  pose proof Ha as (_ & Hr & H184 & _). rewrite zlen_app in Hr, H184. pose proof (zlen_nonneg z). pose proof (zlen_nonneg x).
  unfold ule_copy. apply nwp_get. eapply nwp_need; [exact Hs|]. cbv zeta. rewrite Hrem, <- Hx.
  rewrite Z.min_l, (wrap_small 8) by lia.
  eapply nwp_need; [by eapply ahead_read|]. eapply nwp_need; [apply filled_put; lia|]. cbn [fst snd].
  eapply nwp_need; [apply filled_write; lia|]. apply nwp_set, nwp_get. rewrite Z.sub_diag.
  assert (take (Z.to_nat (k - 4)) (sn_body f) ++ x = sn_body f) as -> by apply take_drop.
  match goal with |- context [set_nd_priv ?q d] => set (p' := q) end.
  cbn [nd_priv set_nd_priv]. assert (ule_sndu_remain p' = 0) as -> by (unfold p'; cbn; lia).
  cbn [Z.leb Z.compare]. eapply nwp_seq.
  - apply (complete_spec d0 got f); try done; [|by destruct Hlk as (_ & ? & _)].
    eapply received_moved; [done|]. moves.
  - intros [] d' [Hr' Hp']. apply nwp_do. eexists. split; [done|]. split; [done|].
    split; [by eapply ahead_skip|]. split; [done|]. rewrite Hp'. destruct Hlk as (? & ? & ?). done.
Qed.

Lemma copy_part c f k l x y d :
  sndu_ok f -> decoding c f (nd_priv d) k -> 4 <= k -> drop (Z.to_nat (k - 4)) (sn_body f) = x ++ y -> y <> [] ->
  ahead l x ->
  nwp never (ule_copy buf l) d (fun t d' => exists l', t = Go l' /\ l_ts l' = l_ts l /\ ahead l' [] /\
    moved d d' /\ decoding c f (nd_priv d') (k + zlen x)).
Proof.
  intros Hok Hd Hk Hxy Hy Ha. inversion Hd as [| | |? _ Hlk [Hl Hdb] H1 Hty Hs Hrem]; [lia..|].
  pose proof (zlen_sndu f) as Hz. pose proof (zlen_body f) as Hzb. pose proof (so_len f Hok).
  assert (0 < zlen y) as Hy0 by (destruct y; [done|rewrite zlen_cons; pose proof (zlen_nonneg y); lia]).
  assert (zlen x + zlen y = zlen (sndu_bytes f) - k) as Hx.
  { rewrite <- zlen_app, <- Hxy. unfold zlen in *. rewrite length_drop in *.
    assert (length (drop (Z.to_nat (k - 4)) (sn_body f)) = length (x ++ y)) as Hl' by (by rewrite Hxy).
    rewrite length_drop, length_app in Hl'. lia. }
  pose proof Ha as (_ & Hr & H184 & _). pose proof (zlen_nonneg x).
  unfold ule_copy. apply nwp_get. eapply nwp_need; [exact Hs|]. cbv zeta. rewrite Hrem, Hr.
  rewrite Z.min_r, (wrap_small 8) by lia. rewrite <- (app_nil_r x) in Ha.
  eapply nwp_need; [by eapply ahead_read|]. eapply nwp_need; [apply filled_put; lia|]. cbn [fst snd].
  eapply nwp_need; [apply filled_write; lia|]. apply nwp_set, nwp_get.
  match goal with |- context [set_nd_priv ?q d] => set (p' := q) end.
  cbn [nd_priv set_nd_priv]. rewrite (proj2 (Z.leb_gt _ 0)) by (unfold p'; cbn [ule_sndu_remain set_ule_sndu_remain set_ule_skb]; lia).
  apply nwp_then, nwp_do, nwp_do. eexists. split; [done|]. split; [done|]. split; [by eapply ahead_skip|].
  split; [moves|]. apply dec_body; try done; try lia; unfold p'; cbn [ule_skb ule_sndu_remain set_ule_sndu_remain set_ule_skb nd_priv set_nd_priv]; [|lia].
  f_equal. f_equal; [|lia]. rewrite Z.add_comm, <- Z.add_sub_assoc, Z.add_comm.
  rewrite Z2Nat.inj_add by lia. rewrite <- take_take_drop, Hxy. f_equal. symmetry.
  apply take_app_length'. unfold zlen. lia.
Qed.

(** ** Starting, copying, and what follows in the cell *)

Definition ule_body (l : locals) : netM turn := go_on (go_on (ule_start buf l) (ule_copy buf)) (ule_more buf).

Lemma decoding_range c f p k : sndu_ok f -> decoding c f p k -> 0 <= k.
Proof. intros _ H. inversion H; lia. Qed.

Lemma bytes_after f k :
  0 <= k < 4 -> drop (Z.to_nat k) (sndu_bytes f) = drop (Z.to_nat k) (sndu_head f) ++ sn_body f.
Proof.
  intros Hk. rewrite sndu_bytes_split, app_assoc. change (_ ++ be16 (sn_type f)) with (sndu_head f).
  apply drop_app_le. change (length (sndu_head f)) with 4%nat. lia.
Qed.

Lemma bytes_later f k :
  4 <= k -> drop (Z.to_nat k) (sndu_bytes f) = drop (Z.to_nat (k - 4)) (sn_body f).
Proof.
  intros Hk. rewrite sndu_bytes_split, app_assoc. change (_ ++ be16 (sn_type f)) with (sndu_head f).
  rewrite drop_app_ge by (change (length (sndu_head f)) with 4%nat; lia).
  f_equal. change (length (sndu_head f)) with 4%nat. lia.
Qed.

(** The SNDU ends in this cell. *)
Lemma finish d0 got c f k l z d :
  received d0 got d -> macs_ok (nd_priv d0) -> sndu_ok f -> decoding c f (nd_priv d) k ->
  k < zlen (sndu_bytes f) -> ahead l (drop (Z.to_nat k) (sndu_bytes f) ++ z) ->
  nwp never (go_on (ule_start buf l) (ule_copy buf)) d (fun t d' => exists l', t = Go l' /\ l_ts l' = l_ts l /\
    ahead l' z /\ received d0 (got ++ [f]) d' /\ fresh c (nd_priv d')).
Proof.
  intros Hrc Hm Hok Hd Hk Ha. pose proof (so_len f Hok). pose proof (zlen_sndu f) as Hz. pose proof (zlen_body f) as Hzb.
  pose proof (decoding_range c f _ k Hok Hd).
  eapply (nwp_go_on _ _ _ _ (fun t d' => exists l' k', t = Go l' /\ l_ts l' = l_ts l /\ 4 <= k' <= zlen (sndu_bytes f) /\
    ahead l' (drop (Z.to_nat (k' - 4)) (sn_body f) ++ z) /\ moved d d' /\ decoding c f (nd_priv d') k')).
  - destruct (decide (k < 4)).
    + rewrite bytes_after, <- app_assoc in Ha by lia. pose proof Ha as (_ & Hr & _).
      rewrite !zlen_app, Hzb in Hr. pose proof (zlen_nonneg z).
      pose proof (zlen_nonneg (drop (Z.to_nat k) (sndu_head f))).
      eapply nwp_mono; [eapply start_whole; [done|done|lia|lia|exact Ha]|].
      intros t d' (l' & -> & Ht & Ha' & Hmv & Hd'). exists l', 4. split; [done|]. split; [done|]. split; [lia|]. done.
    + unfold ule_start. apply nwp_get. inversion Hd as [| | |? _ _ _ _ _ Hs _]; [lia..|]. rewrite Hs. apply nwp_do.
      rewrite bytes_later in Ha by lia. exists l, k. split; [done|]. split; [done|]. split; [lia|]. split; [done|].
      split; [by destruct d; moves|done].
  - intros t d' (l' & k' & -> & Ht & Hk' & Ha' & Hmv & Hd').
    eapply nwp_mono; [eapply (copy_done d0 got c f k' l' z); try done; by eapply received_moved|].
    intros t2 d2 (l2 & -> & Ht2 & H'). exists l2. split; [done|]. split; [congruence|done].
Qed.

(** It does not. *)
Lemma partial c f k l x y d :
  sndu_ok f -> decoding c f (nd_priv d) k -> drop (Z.to_nat k) (sndu_bytes f) = x ++ y -> y <> [] ->
  ahead l x -> (k < 4 -> 2 <= zlen x) ->
  nwp never (go_on (ule_start buf l) (ule_copy buf)) d (fun t d' => exists l', l_ts l' = l_ts l /\
    moved d d' /\ decoding c f (nd_priv d') (k + zlen x) /\
    (t = Next (new_cell l') \/ t = Go l' /\ ahead l' [] /\ 4 <= k + zlen x)).
Proof.
  intros Hok Hd Hxy Hy Ha H2. pose proof (so_len f Hok). pose proof (decoding_range c f _ k Hok Hd).
  pose proof (zlen_nonneg x).
  destruct (decide (4 <= k)) as [Hk|Hk].
  { eapply nwp_go_on with (P := fun t d' => t = Go l /\ d' = d).
    - unfold ule_start. apply nwp_get. inversion Hd as [| | |? _ _ _ _ _ Hs _]; [lia..|]. by rewrite Hs.
    - intros t d' [-> ->]. rewrite bytes_later in Hxy by done.
      eapply nwp_mono; [by eapply copy_part|]. intros t2 d2 (l2 & -> & Ht & Ha2 & Hm & Hd2).
      exists l2. split; [done|]. split; [done|]. split; [done|]. right. split; [done|]. split; [done|]. lia. }
  rewrite bytes_after in Hxy by lia. specialize (H2 ltac:(lia)). pose proof Ha as (_ & Hr & _).
  set (h := drop (Z.to_nat k) (sndu_head f)) in *.
  assert (length h = 4 - Z.to_nat k)%nat as Hh by (unfold h; rewrite length_drop; done).
  destruct (decide (zlen x < 4 - k)) as [Hs|Hs].
  - assert (k = 0) as -> by (inversion Hd; lia).
    eapply nwp_go_on.
    + apply (start_part c f l x); [done|done|done|lia|].
      change h with (sndu_head f) in *. apply (f_equal (take (length x))) in Hxy.
      rewrite take_app_length in Hxy. rewrite <- Hxy at 1. apply take_app_le. unfold zlen in *. lia.
    + intros t d' (l' & -> & Ht & Hm & Hd'). exists l'. split; [done|]. split; [done|]. split; [done|by left].
  - assert (x = h ++ drop (length h) x /\ sn_body f = drop (length h) x ++ y) as [Hx Hb].
    { assert (length h <= length x)%nat by (unfold zlen in *; lia).
      rewrite <- (take_drop (length h) x) in Hxy. rewrite <- app_assoc in Hxy.
      apply app_inj_1 in Hxy as [Hh' Hb]; [|rewrite length_take; lia]. split; [|done].
      rewrite Hh' at 1. by rewrite take_drop. }
    set (x' := drop (length h) x) in *. rewrite Hx in Ha.
    assert (zlen x = 4 - k + zlen x') as Hzx by (rewrite Hx at 1; rewrite zlen_app; unfold zlen; lia).
    eapply nwp_go_on; [eapply start_whole; [done|done|lia|lia|exact Ha]|].
    intros t d' (l' & -> & Ht & Ha' & Hm & Hd').
    eapply nwp_mono; [eapply (copy_part c f 4 l' x' y); try done|].
    intros t2 d2 (l2 & -> & Ht2 & Ha2 & Hm2 & Hd2). exists l2. split; [congruence|].
    split; [by eapply moved_trans|]. replace (k + zlen x) with (4 + zlen x') by lia.
    split; [done|]. right. pose proof (zlen_nonneg x'). split; [done|]. split; [done|lia].
Qed.

(** Between cells: waiting for a payload unit, or for the rest of an SNDU. *)
Definition lost (c : Z) (p : dvb_net_priv) : Prop :=
  need_pusi p = 1 /\ ule_bridged p = 0 /\ tscc p = c /\ idle p /\ ule_sndu_type_1 p = 0.

Definition waiting (c : Z) (pend : option (sndu * Z)) (p : dvb_net_priv) : Prop :=
  match pend with
  | None => lost c p
  | Some (f, k) => sndu_ok f /\ decoding c f p k /\ 0 < k < zlen (sndu_bytes f)
  end.

Definition rest_of (pend : option (sndu * Z)) : list Z :=
  match pend with Some (f, k) => drop (Z.to_nat k) (sndu_bytes f) | None => [] end.
Definition pending (pend : option (sndu * Z)) : list sndu :=
  match pend with Some (f, _) => [f] | None => [] end.
Definition wire (l : list (bool * sndu)) : list (bool * list Z) := prod_map id sndu_bytes <$> l.

(** Two bytes that do not start an SNDU, or less. *)
Definition no_more (z : list Z) : Prop :=
  match z with b0 :: b1 :: _ => b0 = 0xff /\ b1 = 0xff | _ => True end.

Lemma more_none c l z d :
  fresh c (nd_priv d) -> ahead l z -> no_more z ->
  nwp never (ule_more buf l) d (fun t d' => t = Next (new_cell l) /\ moved d d' /\ lost c (nd_priv d')).
Proof.
  intros ((H1 & H2 & H3) & Hi & H4) Ha Hn. unfold ule_more. pose proof Ha as (_ & Hr & _).
  apply (nwp_seq _ _ _ (fun b d' => b = false /\ d' = d)).
  - destruct z as [|b0 [|b1 z]].
    1, 2: by rewrite Hr; apply nwp_do.
    destruct Hn as [-> ->]. rewrite Hr, !zlen_cons. pose proof (zlen_nonneg z).
    rewrite Z.geb_leb, (proj2 (Z.leb_le _ _)) by lia.
    rewrite <- (Z.add_0_r (l_from l)) at 1. eapply nwp_byte; [exact Ha|reflexivity|].
    eapply nwp_byte; [exact Ha|reflexivity|]. by apply nwp_do.
  - intros b d' [-> ->]. apply nwp_set, nwp_get. cbn [ule_skb set_ts_count nd_priv set_nd_priv].
    pose proof Hi as (Hs & _). rewrite Hs. apply nwp_set, nwp_do. split; [done|]. split; [moves|].
    repeat split; try done; apply Hi.
Qed.

Lemma more_some c l v z d :
  fresh c (nd_priv d) -> ahead l (be16 v ++ z) -> 0 <= v < 0xffff ->
  nwp never (ule_more buf l) d (fun t d' =>
    t = Next (mk_locals (l_ts l) (l_from l) (l_remain l) false) /\ moved d d' /\ fresh c (nd_priv d')).
Proof.
  intros (Hl & Hi & H4) Ha Hv. unfold ule_more. pose proof Ha as (_ & Hr & _). pose proof (zlen_nonneg z).
  rewrite Hr, zlen_app. change (zlen (be16 v)) with 2.
  apply (nwp_seq _ _ _ (fun b d' => b = true /\ d' = d)).
  - rewrite Z.geb_leb, (proj2 (Z.leb_le _ _)) by lia.
    rewrite <- (Z.add_0_r (l_from l)) at 1. eapply nwp_byte; [exact Ha|reflexivity|].
    eapply nwp_byte; [exact Ha|reflexivity|]. apply nwp_do. split; [|done].
    pose proof (be16_value v) as Hb. cbn [be16 ntohs] in Hb. apply negb_true_iff, not_true_is_false. intros Hff.
    apply andb_true_iff in Hff as [E1%Z.eqb_eq E2%Z.eqb_eq]. specialize (Hb ltac:(lia)).
    rewrite E1, E2 in Hb. vm_compute in Hb. subst v. lia.
  - intros b d' [-> ->]. apply nwp_set, nwp_do. split; [done|]. split; [moves|].
    split; [done|]. split; [|done]. destruct Hi as (? & ? & ?). done.
Qed.

Lemma more_part c f k l d :
  decoding c f (nd_priv d) k -> 4 <= k -> ahead l [] ->
  nwp never (ule_more buf l) d (fun t d' => t = Next (new_cell l) /\ moved d d' /\ decoding c f (nd_priv d') k).
Proof.
  intros Hd Hk Ha. unfold ule_more. pose proof Ha as (_ & -> & _). cbn [zlen length Z.of_nat Z.geb Z.compare].
  inversion Hd as [| | |? _ Hl Hh H1 Ht Hs Hr]; [lia..|].
  apply nwp_then, nwp_do, nwp_set, nwp_get. cbn [ule_skb set_ts_count nd_priv set_nd_priv]. rewrite Hs.
  apply nwp_then, nwp_do, nwp_do. split; [done|]. split; [moves|]. by apply dec_body.
Qed.

(** ** The rest of a cell *)

Hypothesis Hbuf : zlen buf = 188.

(** The loop goes on after a turn. *)
Definition cont (fuel : nat) (Q : unit -> net_device -> Prop) (t : turn) (d : net_device) : Prop :=
  match t with Go l | Next l => nwp never (ule_loop buf fuel l) d Q | Leave => Q tt d end.

Lemma loop_end fuel l d (Q : unit -> net_device -> Prop) :
  l_ts l = 188 -> Q tt d -> nwp never (ule_loop buf fuel l) d Q.
Proof. intros Hl HQ. destruct fuel; cbn [ule_loop]; by rewrite Hl, Hbuf; apply nwp_do. Qed.

Lemma next_end fuel l d (Q : unit -> net_device -> Prop) :
  l_ts l = 0 -> Q tt d -> cont fuel Q (Next (new_cell l)) d.
Proof. intros Hl HQ. apply loop_end; [|done]. cbn. by rewrite Hl. Qed.

Lemma loop_turn fuel l d Q :
  l_ts l = 0 -> nwp never (ule_turn buf l) d (cont fuel Q) -> nwp never (ule_loop buf (S fuel) l) d Q.
Proof.
  intros Hl HT. cbn [ule_loop]. rewrite Hl, Hbuf. cbn [Z.ltb Z.compare]. eapply nwp_seq; [exact HT|].
  by intros [l'|l'|] d' H.
Qed.

(** A turn is what comes before the body, and the body. *)
Lemma turn_body l d Q :
  nwp never (go_on (go_on (ule_head buf l) (ule_sync buf)) (ule_continuity buf)) d
    (fun t d' => match t with Go l => nwp never (ule_body l) d' Q | t => Q t d' end) ->
  nwp never (ule_turn buf l) d Q.
Proof.
  unfold ule_turn, ule_body. generalize (go_on (go_on (ule_head buf l) (ule_sync buf)) (ule_continuity buf)).
  intros m. unfold nwp, go_on, nthen. destruct (m d) as [[[l'|l'|] d']|]; done.
Qed.

Lemma turn_inside l d Q :
  l_new l = false -> need_pusi (nd_priv d) = 0 -> nwp never (ule_body l) d Q -> nwp never (ule_turn buf l) d Q.
Proof.
  intros Hn Hp HQ. apply turn_body. unfold ule_head, ule_continuity. rewrite Hn.
  eapply (nwp_go_on _ _ _ _ (fun t d' => t = Go l /\ d' = d)).
  - eapply (nwp_go_on _ _ _ _ (fun t d' => t = Go l /\ d' = d)); [by apply nwp_do|].
    intros t d' [-> ->]. unfold ule_sync. apply nwp_get. rewrite Hp. by apply nwp_do.
  - intros t d' [-> ->]. rewrite Hn. by apply nwp_do.
Qed.

Lemma no_more_padding n : no_more (replicate n 0xff).
Proof. by destruct n as [|[|n]]. Qed.

Lemma fill_first room s l :
  2 <= room ->
  fill room ((true, s) :: l) =
    if zlen s <=? room then let '(p, r, l'') := fill (room - zlen s) l in (s ++ p, r, l'')
    else (take (Z.to_nat room) s, drop (Z.to_nat room) s, l).
Proof. intros. cbn [fill]. by rewrite (proj2 (Z.ltb_ge _ _)) by lia. Qed.

Definition goes_on (room : Z) (l : list (bool * list Z)) : bool :=
  match l with (true, _) :: _ => 2 <=? room | _ => false end.

Lemma fill_stops room l : goes_on room l = false -> fill room l = (replicate (Z.to_nat room) 0xff, [], l).
Proof.
  destruct l as [|[[] s] l]; [done| |intros _; cbn; by rewrite orb_true_r].
  cbn. intros. by rewrite (proj2 (Z.ltb_lt _ _)) by lia.
Qed.

Lemma fill_starts room f l p r w :
  fill room ((true, sndu_bytes f) :: l) = (p, r, w) -> 2 <= room ->
  exists z, p = be16 (Z.lor (sn_len f) (0x8000 * sn_dbit f)) ++ z.
Proof.
  intros Hf Hr. rewrite fill_first, sndu_bytes_split in Hf by done. case_match.
  - destruct (fill _ _) as [[p' r''] w'']. injection Hf as <- _ _. by eexists.
  - apply (f_equal (fun x => x.1.1)) in Hf. cbn [fst] in Hf. subst p.
    rewrite take_app_ge by (change (length (be16 _)) with 2%nat; lia). by eexists.
Qed.

Lemma length_below f : sndu_ok f -> 0 <= Z.lor (sn_len f) (0x8000 * sn_dbit f) < 0xffff.
Proof.
  intros Hok. pose proof (so_len f Hok).
  destruct (lands_dbit (sn_len f) (sn_dbit f)) as (_ & _ & ->); unfold sn_dbit; destruct (sn_dest f); lia.
Qed.

(** What is reported at the end of a cell whose payload leaves [r'] and [w'] of the SNDUs [l]. *)
Definition cell_ends (c : Z) (d0 : net_device) (got : list sndu) (l : list sndu) (r' : list Z)
    (w' : list (bool * list Z)) (d' : net_device) : Prop :=
  exists done pend todo', w' = wire todo' /\ r' = rest_of pend /\
    l = done ++ pending pend ++ todo'.*2 /\ received d0 (got ++ done) d' /\ waiting c pend (nd_priv d').

Lemma ends_after c d0 got f l r' w' d :
  cell_ends c d0 (got ++ [f]) l r' w' d -> cell_ends c d0 got (f :: l) r' w' d.
Proof.
  intros (done & pend & todo' & Hw & Hr & Hl & Hg & H). exists (f :: done), pend, todo'.
  rewrite Hl. rewrite <- app_assoc in Hg. done.
Qed.

(** The rest of a cell is decoded: the SNDUs that start in it. *)
Definition decodes (c : Z) (d0 : net_device) (f : sndu) (todo : list (bool * sndu)) : Prop :=
  forall fuel got d l pl r' w',
    fill (zlen pl) (wire ((true, f) :: todo)) = (pl, r', w') -> 2 <= zlen pl ->
    received d0 got d -> fresh c (nd_priv d) -> ahead l pl -> l_ts l = 0 -> zlen pl <= Z.of_nat fuel ->
    nwp never (ule_body l) d (cont fuel (fun _ => cell_ends c d0 got (f :: todo.*2) r' w')).

(** What follows an SNDU that is complete. *)
Lemma after_sndu c d0 todo got f fuel d l p r' w' :
  (forall f' todo', todo = (true, f') :: todo' -> decodes c d0 f' todo') ->
  Forall sndu_ok todo.*2 -> fill (zlen p) (wire todo) = (p, r', w') ->
  received d0 (got ++ [f]) d -> fresh c (nd_priv d) -> ahead l p -> l_ts l = 0 -> zlen p < Z.of_nat fuel ->
  nwp never (ule_more buf l) d (cont fuel (fun _ => cell_ends c d0 got (f :: todo.*2) r' w')).
Proof.
  intros IH Hok Hfill Hrc Hfr Ha Hts Hfuel. destruct (goes_on (zlen p) (wire todo)) eqn:Hg.
  - destruct todo as [|[[] f'] todo]; [done| |done]. specialize (IH f' todo eq_refl).
    assert (2 <= zlen p) as H2 by (apply Z.leb_le, Hg). pose proof (Forall_inv Hok) as Hokf.
    destruct (fill_starts _ f' _ _ _ _ Hfill H2) as [z Hz]. pose proof Ha as Ha'. rewrite Hz in Ha'.
    eapply nwp_mono; [apply (more_some c l (Z.lor (sn_len f') (0x8000 * sn_dbit f')) z); [done|done|by apply length_below]|].
    intros t d' (-> & Hmv & Hfr'). destruct fuel as [|fuel]; [lia|].
    apply loop_turn; [done|]. apply turn_inside; [done|by destruct Hfr' as ((? & _) & _)|].
    eapply nwp_mono; [eapply (IH fuel (got ++ [f])); try done|].
    + by eapply received_moved.
    + lia.
    + intros t d2 Hc. destruct t as [l2|l2|]; cbn [cont] in *.
      1, 2: eapply nwp_mono; [exact Hc|]; intros [] d3 Hd3; by apply ends_after.
      by apply ends_after.
  - rewrite fill_stops in Hfill by done. apply (f_equal (fun x => (x.1.1, x.1.2, x.2))) in Hfill.
    cbn [fst snd] in Hfill. assert (r' = [] /\ w' = wire todo) as [-> ->] by (split; congruence).
    eapply nwp_mono; [apply (more_none c l p); [done|done|]|].
    { assert (p = replicate (Z.to_nat (zlen p)) 0xff) as Hp by congruence. rewrite Hp. apply no_more_padding. }
    intros t d' (-> & Hmv & Hl). apply next_end; [done|].
    exists [f], None, todo. split; [done|]. split; [done|]. split; [done|]. split; [by eapply received_moved|done].
Qed.

(** A cell that ends within an SNDU. *)
Lemma partial_ends c d0 got f k l x y todo fuel d :
  sndu_ok f -> decoding c f (nd_priv d) k -> drop (Z.to_nat k) (sndu_bytes f) = x ++ y -> y <> [] ->
  ahead l x -> (k < 4 -> 2 <= zlen x) -> 0 < k + zlen x -> received d0 got d -> l_ts l = 0 ->
  nwp never (ule_body l) d (cont fuel (fun _ => cell_ends c d0 got (f :: todo.*2) y (wire todo))).
Proof.
  intros Hok Hd Hxy Hy Ha H2 H0 Hrc Hts. pose proof (decoding_range c f _ k Hok Hd) as Hk. pose proof (zlen_nonneg x).
  assert (drop (Z.to_nat (k + zlen x)) (sndu_bytes f) = y /\ k + zlen x < zlen (sndu_bytes f)) as [Hrest Hlt].
  { split.
    - rewrite Z2Nat.inj_add, <- drop_drop, Hxy by lia. apply drop_app_length'. unfold zlen. lia.
    - apply (f_equal length) in Hxy. rewrite length_drop, length_app in Hxy.
      assert (length y <> 0)%nat by (by destruct y). unfold zlen in *. lia. }
  assert (forall d', moved d d' -> decoding c f (nd_priv d') (k + zlen x) ->
            cell_ends c d0 got (f :: todo.*2) y (wire todo) d') as Hend.
  { intros d' Hmv Hd'. exists [], (Some (f, k + zlen x)), todo. split; [done|]. split; [done|]. split; [done|].
    rewrite app_nil_r. split; [by eapply received_moved|]. done. }
  unfold ule_body. eapply nwp_go_on; [by apply (partial c f k l x y)|].
  intros t d' (l' & Ht & Hmv & Hd' & [->|(-> & Ha' & H4)]).
  - apply next_end; [congruence|]. by apply Hend.
  - eapply nwp_mono; [by apply (more_part c f (k + zlen x) l')|]. intros t d2 (-> & Hmv2 & Hd2).
    apply next_end; [congruence|]. apply Hend; [by eapply moved_trans|done].
Qed.

(** The first of them fits, or is cut. *)
Lemma first_decodes c d0 f todo :
  macs_ok (nd_priv d0) -> Forall sndu_ok (f :: todo.*2) ->
  (forall f' todo', todo = (true, f') :: todo' -> decodes c d0 f' todo') -> decodes c d0 f todo.
Proof.
  intros Hm [Hok Hoks]%Forall_cons IH fuel got d l pl r' w' Hfill H2 Hrc Hfr Ha Hts Hfuel.
  assert (decoding c f (nd_priv d) 0) as Hd by (destruct Hfr as (? & ? & ?); by apply dec_idle).
  pose proof (so_len f Hok). pose proof (zlen_sndu f) as Hz.
  change (wire ((true, f) :: todo)) with ((true, sndu_bytes f) :: wire todo) in Hfill.
  rewrite fill_first in Hfill by done. unfold ule_body. destruct (zlen (sndu_bytes f) <=? zlen pl) eqn:Hfit.
  - destruct (fill _ (wire todo)) as [[p r] w] eqn:Hp.
    assert (pl = sndu_bytes f ++ p /\ r' = r /\ w' = w) as (Hpl & -> & ->) by (by simplify_eq).
    assert (zlen pl - zlen (sndu_bytes f) = zlen p) as Hzp by (rewrite Hpl at 1; rewrite zlen_app; lia).
    rewrite Hzp in Hp. rewrite Hpl in Ha.
    eapply nwp_go_on; [apply (finish d0 got c f 0 l p); try done; lia|].
    intros t d' (l' & -> & Ht & Ha' & Hrc' & Hfr'). eapply after_sndu; try done; [congruence|lia].
  - set (x := take (Z.to_nat (zlen pl)) (sndu_bytes f)) in *. set (y := drop (Z.to_nat (zlen pl)) (sndu_bytes f)) in *.
    assert (pl = x /\ r' = y /\ w' = wire todo) as (Hpl & -> & ->) by (repeat split; congruence).
    assert (y <> []) as Hy.
    { intros Hy. apply (f_equal length) in Hy. unfold y in Hy. rewrite length_drop in Hy.
      change (length []) with 0%nat in Hy. unfold zlen in *. lia. }
    rewrite Hpl in Ha. assert (zlen x = zlen pl) as Hx by (by rewrite <- Hpl).
    apply (partial_ends c d0 got f 0 l x y); try done; try lia. symmetry. apply take_drop.
Qed.

Lemma fill_decodes c d0 todo : forall f,
  macs_ok (nd_priv d0) -> Forall sndu_ok (f :: todo.*2) -> decodes c d0 f todo.
Proof.
  induction todo as [|[pk f1] todo IH]; intros f Hm Hok; apply first_decodes; try done.
  intros f' todo' [= -> -> ->]. apply IH; [done|]. by apply Forall_cons in Hok as [_ ?].
Qed.
End cell.

(** ** The head of a cell *)

Lemma cell_flags (pid : Z) (pusi : bool) :
  let b := Z.lor (if pusi then 0x40 else 0) (Z.land (Z.shiftr pid 8) 0x1f) in
  Z.land b TS_TEI = 0 /\ truthy (Z.land b TS_PUSI) = pusi.
Proof.
  cbv zeta. rewrite !Z.land_lor_distr_l, <- !Z.land_assoc. unfold TS_TEI, TS_PUSI.
  change (Z.land 0x1f 0x80) with 0. change (Z.land 0x1f 0x40) with 0. rewrite !Z.land_0_r, !Z.lor_0_r.
  by destruct pusi.
Qed.

Lemma cell_counter cc :
  let b := Z.lor 0x10 (Z.land cc 0x0f) in Z.land b TS_SC = 0 /\ Z.land b 0x0f = Z.land cc 0x0f.
Proof.
  cbv zeta. rewrite !Z.land_lor_distr_l, <- !Z.land_assoc. unfold TS_SC.
  change (Z.land 0x0f 0xC0) with 0. change (Z.land 0x0f 0x0f) with 0x0f. by rewrite !Z.land_0_r.
Qed.

Lemma next_counter cc : Z.land (Z.land cc 0x0f + 1) 0x0f = Z.land (cc + 1) 0x0f.
Proof. rewrite !(land_mask _ 4) by done. apply Zplus_mod_idemp_l. Qed.

Definition counter (cc : Z) : Z := Z.land cc 0x0f.

Lemma decoding_tscc c c' f p k : decoding c f p k -> decoding c' f (set_tscc c' p) k.
Proof.
  intros H. inversion H as [(?&?&?) (?&?&?) ?|(?&?&?) ? ? ? ?|(?&?&?) ? ? ? ? ?|? ? (?&?&?) ? ? ? ? ?]; subst;
    by constructor.
Qed.

Lemma decoding_remain c f p k : sndu_ok f -> decoding c f p k -> 0 < k -> ule_sndu_remain p = zlen (sndu_bytes f) - k.
Proof. intros Hok H Hk. rewrite zlen_sndu. inversion H; subst; try lia. rewrite zlen_sndu in *. lia. Qed.

Section head.
Variables (pid cc : Z) (pusi : bool) (payload : list Z).
Hypothesis Hpay : zlen payload = 184.

Let buf := ts_cell pid cc pusi payload.
Let l0 := mk_locals 0 0 0 true.
Let l1 := mk_locals 0 4 184 true.

Lemma head_spec d : nwp never (ule_head buf l0) d (fun t d' => t = Go l1 /\ d' = d).
Proof.
  unfold ule_head. cbn [l_new l0 l_ts]. do 3 (eapply nwp_need; [reflexivity|]).
  destruct (cell_flags pid pusi) as [-> _]. destruct (cell_counter cc) as [-> _].
  by apply nwp_do.
Qed.

Lemma ahead_payload : ahead buf l1 payload.
Proof.
  unfold ahead. cbn [l_from l_remain l1]. rewrite Hpay. repeat (split; [lia|]). split; [|done].
  unfold buf, ts_cell. rewrite zlen_app, Hpay. done.
Qed.

(** In step: the counter is the one expected. *)
Lemma sync_none d : need_pusi (nd_priv d) = 0 -> nwp never (ule_sync buf l1) d (fun t d' => t = Go l1 /\ d' = d).
Proof. intros H. unfold ule_sync. apply nwp_get. rewrite H. by apply nwp_do. Qed.

Definition front : netM turn := go_on (go_on (ule_head buf l0) (ule_sync buf)) (ule_continuity buf).

Lemma front_continues f k d :
  pusi = false -> decoding (counter cc) f (nd_priv d) k ->
  nwp never front d (fun t d' => t = Go l1 /\ moved d d' /\ decoding (counter (cc + 1)) f (nd_priv d') k).
Proof.
  intros Hp Hd. assert (need_pusi (nd_priv d) = 0 /\ tscc (nd_priv d) = counter cc) as [Hn Ht]
    by (inversion Hd as [(?&?&?)|(?&?&?)|(?&?&?)|? ? (?&?&?)]; done).
  unfold front. eapply nwp_go_on; [eapply nwp_go_on; [apply head_spec|]|].
  - intros t d' [-> ->]. by apply sync_none.
  - intros t d' [-> ->]. unfold ule_continuity. cbn [l_new l1 l_ts]. apply nwp_get.
    eapply nwp_need; [reflexivity|]. destruct (cell_counter cc) as [_ ->]. fold (counter cc).
    rewrite Ht, Z.eqb_refl. apply nwp_set. eapply nwp_need; [reflexivity|].
    destruct (cell_flags pid pusi) as [_ ->]. rewrite Hp. apply nwp_do. split; [done|].
    split; [moves|]. cbn [nd_priv set_nd_priv]. rewrite Ht. unfold counter. rewrite next_counter.
    by eapply decoding_tscc.
Qed.

Lemma pointer_read bs b : payload = b :: bs -> buf.[4] = Some b.
Proof. by intros ->. Qed.

(** Another SNDU starts behind the rest of [f]. *)
Lemma front_resumes f k rest d :
  pusi = true -> sndu_ok f -> decoding (counter cc) f (nd_priv d) k -> 0 < k ->
  payload = (zlen (sndu_bytes f) - k) :: rest -> 0 <= zlen (sndu_bytes f) - k < 183 ->
  nwp never front d (fun t d' => exists l, t = Go l /\ l_ts l = 0 /\ ahead buf l rest /\ moved d d' /\
    decoding (counter (cc + 1)) f (nd_priv d') k).
Proof.
  intros Hp Hok Hd Hk Hpl Hr. pose proof (decoding_remain _ _ _ _ Hok Hd Hk) as Hrem.
  assert (need_pusi (nd_priv d) = 0 /\ tscc (nd_priv d) = counter cc) as [Hn Ht]
    by (inversion Hd as [(?&?&?)|(?&?&?)|(?&?&?)|? ? (?&?&?)]; done).
  unfold front. eapply nwp_go_on; [eapply nwp_go_on; [apply head_spec|]|].
  - intros t d' [-> ->]. by apply sync_none.
  - intros t d' [-> ->]. unfold ule_continuity. cbn [l_new l1 l_ts]. apply nwp_get.
    eapply nwp_need; [reflexivity|]. destruct (cell_counter cc) as [_ ->]. fold (counter cc).
    rewrite Ht, Z.eqb_refl. apply nwp_set. eapply nwp_need; [reflexivity|].
    destruct (cell_flags pid pusi) as [_ ->]. rewrite Hp.
    eapply (nwp_go_on _ _ _ _ (fun t d' => t = Go (skip 1 l1) /\ moved d d' /\
              nd_priv d' = set_tscc (counter (cc + 1)) (nd_priv d))).
    + unfold ule_pointer. apply nwp_get. cbn [nd_priv set_nd_priv need_pusi set_tscc ule_sndu_remain]. rewrite Hn.
      cbn [Z.eqb]. eapply nwp_need; [exact (pointer_read _ _ Hpl)|]. cbn [l_remain l1]. rewrite Hrem, Z.eqb_refl.
      rewrite (proj2 (Z.ltb_lt _ _)) by lia. cbn [negb orb]. apply nwp_do. split; [done|]. split; [moves|].
      cbn [nd_priv set_nd_priv]. rewrite Ht. unfold counter. by rewrite next_counter.
    + intros t d' (-> & Hm & Hp'). unfold ule_flush. apply nwp_get. rewrite Hp'. cbn [ule_sndu_remain set_tscc].
      rewrite Hrem, Z.gtb_ltb, (proj2 (Z.ltb_ge _ _)) by lia. apply nwp_do. eexists. split; [done|]. split; [done|].
      split.
      { pose proof ahead_payload as Ha. rewrite Hpl in Ha.
        eapply (ahead_skip _ _ [_] rest); [exact Ha|done]. }
      split; [done|]. rewrite Hp'. by eapply decoding_tscc.
Qed.

(** The first SNDU starts right at the beginning. *)
Lemma front_starts c0 rest d :
  pusi = true -> lost c0 (nd_priv d) -> payload = 0 :: rest ->
  nwp never front d (fun t d' => exists l, t = Go l /\ l_ts l = 0 /\ ahead buf l rest /\ moved d d' /\
    fresh (counter (cc + 1)) (nd_priv d')).
Proof.
  intros Hp (Hn & Hb & _ & Hi & H1) Hpl. pose proof ahead_payload as Ha. rewrite Hpl in Ha.
  destruct (cell_flags pid pusi) as [_ Hpusi]. destruct (cell_counter cc) as [_ Hcc].
  apply (ahead_skip _ _ [_] rest 1) in Ha; [|done].
  unfold front. eapply (nwp_go_on _ _ _ _ (fun t d' => t = Go (skip 1 l1) /\ d' = set_nd_priv (set_tscc (counter cc) (nd_priv d)) d)).
  - eapply nwp_go_on; [apply head_spec|]. intros t d' [-> ->]. unfold ule_sync. apply nwp_get. rewrite Hn.
    cbn [Z.eqb negb l_ts l1]. eapply nwp_need; [reflexivity|]. rewrite Hpusi, Hp.
    eapply nwp_need; [reflexivity|]. rewrite Hcc. fold (counter cc). apply nwp_set.
    eapply nwp_need; [exact (pointer_read _ _ Hpl)|]. by apply nwp_do.
  - intros t d' [-> ->]. unfold ule_continuity. cbn [l_new l1 l_ts skip]. apply nwp_get.
    eapply nwp_need; [reflexivity|]. rewrite Hcc. fold (counter cc). cbn [nd_priv set_nd_priv tscc set_tscc].
    rewrite Z.eqb_refl. apply nwp_set. eapply nwp_need; [reflexivity|]. rewrite Hpusi, Hp.
    cbn [nd_priv set_nd_priv tscc set_tscc].
    eapply (nwp_go_on _ _ _ _ (fun t d' => t = Go (skip 1 l1) /\ moved d d' /\
              nd_priv d' = set_need_pusi 0 (set_tscc (counter (cc + 1)) (nd_priv d)))).
    + unfold ule_pointer. apply nwp_get. cbn [nd_priv set_nd_priv need_pusi set_tscc]. rewrite Hn. cbn [Z.eqb].
      apply nwp_set, nwp_do. split; [done|]. split; [moves|]. cbn [nd_priv set_nd_priv].
      unfold counter. by rewrite next_counter.
    + intros t d' (-> & Hm & Hp'). unfold ule_flush. apply nwp_get. rewrite Hp'.
      cbn [ule_sndu_remain set_tscc set_need_pusi]. destruct Hi as (Hs & Hl & Hr). rewrite Hr. cbn [Z.gtb Z.compare].
      apply nwp_do. eexists. split; [done|]. split; [done|]. split; [exact Ha|]. split; [done|]. rewrite Hp'. done.
Qed.
End head.

Lemma fill_length room l p r w : 0 <= room -> fill room l = (p, r, w) -> zlen p = room.
Proof.
  revert room p r w. induction l as [|[pk s] l IH]; intros room p r w H0 H; cbn [fill] in H.
  { injection H as <- _ _. rewrite zlen_replicate. lia. }
  destruct ((room <? 2) || negb pk); [simplify_eq; rewrite zlen_replicate; lia|].
  destruct (zlen s <=? room) eqn:Hs.
  - destruct (fill (room - zlen s) l) as [[p' r''] w''] eqn:He. simplify_eq.
    rewrite zlen_app, (IH (room - zlen s) p' r w); [lia|lia|done].
  - simplify_eq. unfold zlen in *. rewrite length_take. lia.
Qed.

Lemma turns_188 : turns 188 = S 1199.
Proof. done. Qed.

(** The cell is decoded as the parts of its payload are. *)
Lemma run_cell pid cc pusi payload d Q K :
  zlen payload = 184 ->
  nwp never (front pid cc pusi payload) d (fun t d' => exists l, t = Go l /\ l_ts l = 0 /\ K l d') ->
  (forall l d', l_ts l = 0 -> K l d' ->
     nwp never (ule_body (ts_cell pid cc pusi payload) l) d' (cont (ts_cell pid cc pusi payload) 1199 Q)) ->
  nwp never (dvb_net_ule (ts_cell pid cc pusi payload)) d Q.
Proof.
  intros Hp Hf HK. assert (zlen (ts_cell pid cc pusi payload) = 188) as Hz by (unfold ts_cell; rewrite zlen_app, Hp; done).
  unfold dvb_net_ule. rewrite Hz, turns_188. apply loop_turn; [done|done|]. apply turn_body.
  eapply nwp_mono; [exact Hf|]. intros t d' (l & -> & Ht & Hl). by apply HK.
Qed.

(** A cell that starts in the middle of an SNDU, without another one in it. *)
Lemma cell_continues pid cc f k todo d0 got d payload :
  let r := drop (Z.to_nat k) (sndu_bytes f) in
  macs_ok (nd_priv d0) -> sndu_ok f -> decoding (counter cc) f (nd_priv d) k -> 0 < k < zlen (sndu_bytes f) ->
  received d0 got d ->
  payload = take 184 r ++ replicate (184 - length (take 184 r)) 0xff ->
  nwp never (dvb_net_ule (ts_cell pid cc false payload)) d
    (fun _ => cell_ends (counter (cc + 1)) d0 got (f :: todo.*2) (drop 184 r) (wire todo)).
Proof.
  intros r Hm Hok Hd Hk Hrc Hp.
  assert (zlen r = zlen (sndu_bytes f) - k) as Hr by (unfold r; apply zlen_drop; lia).
  assert (zlen payload = 184) as H184 by (rewrite Hp, zlen_app, zlen_replicate; unfold zlen; rewrite length_take; lia).
  assert (zlen (ts_cell pid cc false payload) = 188) as Hz by (unfold ts_cell; rewrite zlen_app, H184; done).
  eapply (run_cell _ _ _ _ _ _ (fun l d' => ahead (ts_cell pid cc false payload) l payload /\ moved d d' /\
            decoding (counter (cc + 1)) f (nd_priv d') k)); [done| |].
  { eapply nwp_mono; [by eapply front_continues|]. intros t d' (-> & Hmv & Hd'). eexists. split; [done|].
    split; [done|]. split; [by apply ahead_payload|done]. }
  intros l d' Hts (Ha & Hmv & Hd'). assert (received d0 got d') as Hrc' by (by eapply received_moved).
  destruct (decide (zlen r <= 184)) as [Hle|Hgt].
  - assert (take 184 r = r) as Ht by (apply take_ge; unfold zlen in *; lia). rewrite Ht in Hp. rewrite Hp in Ha at 2.
    assert (drop 184 r = []) as -> by (apply drop_ge; unfold zlen in *; lia).
    unfold ule_body. eapply nwp_go_on; [eapply finish; try done; lia|].
    intros t d2 (l2 & -> & Ht2 & Ha2 & Hrc2 & Hfr2).
    eapply nwp_mono; [eapply more_none; [done|done|apply no_more_padding]|].
    intros t d3 (-> & Hmv3 & Hl3). apply next_end; [done|congruence|].
    exists [f], None, todo. split; [done|]. split; [done|]. split; [done|]. split; [by eapply received_moved|done].
  - assert (length (take 184 r) = 184%nat) as Hlt by (rewrite length_take; unfold zlen in *; lia).
    rewrite Hlt, app_nil_r in Hp. rewrite Hp in Ha at 2.
    assert (zlen (take 184 r) = 184) as Hzt by (unfold zlen; by rewrite Hlt).
    apply (partial_ends _ Hz _ d0 got f k l (take 184 r)); try done; try lia; [symmetry; apply take_drop|].
    intros Hd0. apply (f_equal length) in Hd0. rewrite length_drop in Hd0. cbn in Hd0. unfold zlen in *. lia.
Qed.

(** The same, with another SNDU after it. *)
Lemma cell_resumes pid cc f k todo d0 got d p r' w' :
  let r := drop (Z.to_nat k) (sndu_bytes f) in
  macs_ok (nd_priv d0) -> Forall sndu_ok (f :: todo.*2) -> decoding (counter cc) f (nd_priv d) k ->
  0 < k < zlen (sndu_bytes f) -> received d0 got d -> zlen r + 3 <= 184 ->
  fill (183 - zlen r) (wire todo) = (p, r', w') ->
  nwp never (dvb_net_ule (ts_cell pid cc true (zlen r :: r ++ p))) d
    (fun _ => cell_ends (counter (cc + 1)) d0 got (f :: todo.*2) r' w').
Proof.
  intros r Hm [Hok Hoks]%Forall_cons Hd Hk Hrc H3 Hf.
  assert (zlen r = zlen (sndu_bytes f) - k) as Hr by (unfold r; apply zlen_drop; lia).
  assert (zlen p = 183 - zlen r) as Hlp by (eapply fill_length; [|exact Hf]; lia).
  assert (zlen (zlen r :: r ++ p) = 184) as H184 by (rewrite zlen_cons, zlen_app; lia).
  assert (zlen (ts_cell pid cc true (zlen r :: r ++ p)) = 188) as Hz by (unfold ts_cell; rewrite zlen_app, H184; done).
  eapply run_cell; [done|eapply front_resumes; try done; [lia|by rewrite Hr|lia]|].
  intros l d' Hts (Ha & Hmv & Hd'). unfold ule_body. pose proof (zlen_nonneg r).
  eapply nwp_go_on; [eapply (finish _ d0 got); try done; [by eapply received_moved|lia]|].
  intros t d2 (l2 & -> & Ht2 & Ha2 & Hrc2 & Hfr2).
  eapply (after_sndu _ Hz); try done; [|by rewrite Hlp|congruence|lia].
  intros f' todo' ->. apply fill_decodes; [done|done|]. done.
Qed.

Lemma cell_spec pid cc c0 pend todo d0 got d pusi payload r' w' :
  macs_ok (nd_priv d0) -> Forall sndu_ok (pending pend ++ todo.*2) -> received d0 got d ->
  waiting c0 pend (nd_priv d) -> (pend <> None -> c0 = counter cc) -> (pend = None -> todo <> []) ->
  cell_payload (rest_of pend) (wire todo) = (pusi, payload, r', w') ->
  nwp never (dvb_net_ule (ts_cell pid cc pusi payload)) d
    (fun _ => cell_ends (counter (cc + 1)) d0 got (pending pend ++ todo.*2) r' w').
Proof.
  intros Hm Hoks Hrc Hw Hcc Hne Hp.
  assert (zlen (ts_cell pid cc pusi payload) = 188 <-> zlen payload = 184) as Hzl
    by (unfold ts_cell; rewrite zlen_app; change (zlen [_; _; _; _]) with 4; lia).
  destruct pend as [[f k]|].
  - cbn [waiting rest_of pending app] in *. destruct Hw as (Hok & Hd & Hk).
    rewrite (Hcc ltac:(done)) in Hd. clear Hcc Hne.
    unfold cell_payload in Hp. set (r := drop (Z.to_nat k) (sndu_bytes f)) in *.
    assert (r <> []) as Hr.
    { intros Hr. apply (f_equal length) in Hr. unfold r in Hr. rewrite length_drop in Hr. change (length []) with 0%nat in Hr. unfold zlen in Hk. lia. }
    rewrite decide_False in Hp by done. destruct (starts_after r (wire todo)) eqn:Hs.
    + destruct (fill (183 - zlen r) (wire todo)) as [[p r1] w1] eqn:Hf.
      assert (pusi = true /\ payload = zlen r :: r ++ p /\ r' = r1 /\ w' = w1) as (-> & -> & -> & ->)
        by (repeat split; congruence).
      apply (cell_resumes pid cc f k); try done. destruct todo as [|[[] f2] todo]; try done. apply Z.leb_le, Hs.
    + assert (pusi = false /\ payload = take 184 r ++ replicate (184 - length (take 184 r)) 0xff /\
              r' = drop 184 r /\ w' = wire todo) as (-> & Hpl & -> & ->) by (repeat split; congruence).
      by apply (cell_continues pid cc f k).
  - specialize (Hne eq_refl). cbn [waiting rest_of pending app] in *. destruct todo as [|[pk f] todo]; [done|].
    unfold cell_payload in Hp. rewrite decide_True in Hp by done.
    change (pack_first (wire ((pk, f) :: todo))) with (wire ((true, f) :: todo)) in Hp.
    destruct (fill 183 (wire ((true, f) :: todo))) as [[p r] w] eqn:Hf.
    assert (pusi = true /\ payload = 0 :: p /\ r' = r /\ w' = w) as (-> & -> & -> & ->) by (repeat split; congruence).
    assert (zlen p = 183) as Hlp by (eapply fill_length; [|exact Hf]; lia).
    assert (zlen (0 :: p) = 184) as Hl184 by (rewrite zlen_cons; lia).
    eapply run_cell; [done|by eapply front_starts|]. intros l d' Hts (Ha & Hmv & Hfr). cbn [snd fmap list_fmap].
    apply (fill_decodes _ (proj2 Hzl Hl184) _ d0 todo f Hm Hoks 1199%nat got d' l p r w); try done; try lia.
    + by rewrite Hlp.
    + by eapply received_moved.
Qed.

(** ** All cells *)

(** Every cell sends something. *)
Lemma fill_sends room l p r w : fill room l = (p, r, w) -> (to_send r w <= to_send [] l)%nat.
Proof.
  revert room p r w. induction l as [|[pk s] l IH]; intros room p r w H; cbn [fill] in H; [by simplify_eq|].
  destruct ((room <? 2) || negb pk); [by simplify_eq|]. destruct (zlen s <=? room) eqn:Hs.
  - destruct (fill (room - zlen s) l) as [[p' r''] w''] eqn:He. simplify_eq. apply IH in He.
    unfold to_send in *. cbn. cbn in He. lia.
  - simplify_eq. unfold to_send. cbn. rewrite length_drop. lia.
Qed.

Lemma first_sends room s l p r w :
  2 <= room -> s <> [] -> fill room ((true, s) :: l) = (p, r, w) -> (to_send r w < to_send [] ((true, s) :: l))%nat.
Proof.
  intros Hr Hs H. rewrite fill_first in H by done. assert (length s <> 0)%nat by (by destruct s).
  destruct (zlen s <=? room) eqn:Hf.
  - destruct (fill (room - zlen s) l) as [[p' r''] w''] eqn:He. simplify_eq. apply fill_sends in He.
    unfold to_send in *. cbn in *. lia.
  - simplify_eq. unfold to_send. cbn. rewrite length_drop. lia.
Qed.

Lemma cell_sends r l pusi p r' w' :
  Forall (fun x => x.2 <> []) l -> (r = [] -> l <> []) -> cell_payload r l = (pusi, p, r', w') ->
  (to_send r' w' < to_send r l)%nat.
Proof.
  intros Hl Hne H. unfold cell_payload in H. destruct (decide (r = [])) as [->|Hr].
  - destruct l as [|[pk s] l]; [by destruct (Hne eq_refl)|]. apply Forall_cons in Hl as [Hs _].
    cbn [pack_first] in H. destruct (fill 183 ((true, s) :: l)) as [[q r1] w1] eqn:Hf.
    assert (r' = r1 /\ w' = w1) as [-> ->] by (split; congruence).
    by apply first_sends in Hf.
  - assert (length r <> 0)%nat by (by destruct r). destruct (starts_after r l).
    + destruct (fill (183 - zlen r) l) as [[q r1] w1] eqn:Hf.
      assert (r' = r1 /\ w' = w1) as [-> ->] by (split; congruence).
      apply fill_sends in Hf. unfold to_send in *. cbn in Hf. lia.
    + assert (r' = drop 184 r /\ w' = l) as [-> ->] by (split; congruence).
      unfold to_send. rewrite length_drop. lia.
Qed.

Lemma wire_not_empty todo : Forall (fun x : bool * list Z => x.2 <> []) (wire todo).
Proof. apply Forall_forall. intros x. unfold wire. rewrite list_elem_of_fmap. by intros ([b f] & -> & _). Qed.

Lemma cells_step fuel pid cc r l :
  (r = [] -> l <> []) ->
  cells (S fuel) pid cc r l =
    let '(pusi, payload, r', l') := cell_payload r l in
    ts_cell pid cc pusi payload :: cells fuel pid (cc + 1) r' l'.
Proof. destruct r; [destruct l; [|done]|done]. by intros []. Qed.

Lemma cells_spec pid d0 fuel : forall cc c0 pend todo got d,
  (to_send (rest_of pend) (wire todo) <= fuel)%nat -> macs_ok (nd_priv d0) ->
  Forall sndu_ok (pending pend ++ todo.*2) -> received d0 got d -> waiting c0 pend (nd_priv d) ->
  (pend <> None -> c0 = counter cc) ->
  nwp never (ule_receive (cells fuel pid cc (rest_of pend) (wire todo))) d (fun _ d' =>
    received d0 (got ++ pending pend ++ todo.*2) d' /\ exists c, lost c (nd_priv d')).
Proof.
  induction fuel as [|fuel IH]; intros cc c0 pend todo got d Hf Hm Hoks Hrc Hw Hcc.
  all: destruct (decide (pend = None /\ todo = [])) as [[-> ->]|Hne];
    [destruct cc; apply nwp_do; cbn [pending rest_of app fmap list_fmap]; rewrite ?app_nil_r; by eauto|].
  all: assert (rest_of pend = [] -> wire todo <> []) as Hgo.
  1, 3: (destruct pend as [[f k]|];
    [intros Hr; apply (f_equal length) in Hr; destruct Hw as (_ & _ & Hk); cbn [rest_of] in Hr;
     rewrite length_drop in Hr; change (length []) with 0%nat in Hr; unfold zlen in Hk; lia
    |intros _; destruct todo; naive_solver]).
  all: destruct (cell_payload (rest_of pend) (wire todo)) as [[[pusi payload] r'] w'] eqn:Hp.
  all: pose proof (cell_sends _ _ _ _ _ _ (wire_not_empty todo) Hgo Hp) as Hlt.
  { lia. }
  rewrite cells_step, Hp by done. cbn [ule_receive].
  eapply nwp_seq.
  - eapply cell_spec; try done. intros ->. naive_solver.
  - intros [] d' (done & pend' & todo' & -> & -> & Hl & Hrc' & Hw').
    rewrite Hl in Hoks. apply Forall_app in Hoks as [_ Hoks'].
    eapply nwp_mono; [apply (IH (cc + 1) (counter (cc + 1)) pend' todo' (got ++ done)); try done; lia|].
    intros [] d2 [Hrc2 Hlost]. split; [|done]. by rewrite Hl, (app_assoc got).
Qed.

(** Claim C4: what is sent in ULE is received.  For any sequence of SNDUs without extension
    headers -- a type of 1536 or more, so neither bridged nor test frames, a destination of
    six bytes or none, a length from 5 to 32766 ([sndu_ok]) -- packed into cells or padded
    in any way, an interface that waits for a payload unit, has its multicast addresses in
    bounds and memory for the buffers receives exactly those for it, in order and as the
    frames that were sent, and counts no error. *)
Theorem ule_roundtrip pid cc l d c :
  macs_ok (nd_priv d) -> Forall sndu_ok l.*2 -> lost c (nd_priv d) ->
  exists d' c', ule_receive (ule_send pid cc l) d = inl (tt, d') /\ lost c' (nd_priv d') /\
    ether_of <$> nd_received d' =
      (ether_of <$> nd_received d) ++ (Some <$> (ether_for d <$> filter (fun f => accepted d f) l.*2)) /\
    errors_of (nd_stats d') = errors_of (nd_stats d).
Proof.
  intros Hm Hok Hl.
  assert (nwp never (ule_receive (ule_send pid cc l)) d (fun _ d' =>
            received d ([] ++ pending None ++ l.*2) d' /\ exists c, lost c (nd_priv d'))) as H.
  { apply (cells_spec pid d _ cc c None l); try done.
    constructor; [done|done|]. cbn. by rewrite app_nil_r. }
  unfold nwp in H. destruct (ule_receive _ d) as [[[] d']|]; [|done].
  destruct H as [[_ He Hr] [c' Hc]]. by exists d', c'.
Qed.
End encap.
