(* ===== verification/DvbNetIf.v ===== *)
(** Interfaces of dvb_net.c (DvbNet.v): adding and removing them, the feeds and section
    filters they take from the demultiplexer (DemuxFeed.v), multicast lists, and the
    way from a callback of the demultiplexer to a receiver.

    An interface is its index in [dn_device].  Work that was scheduled is a list of what
    is still to run.  The kernel answers through [NetIfEnv].  Names of interfaces and
    the character device are left out. *)

From S2P Require Import Prelude RingBuffer DemuxTypes Demux DemuxSection DemuxStream DemuxFeed DemuxFeedProofs DvbNet DvbNetUle DvbNetEncap StateM.

#[local] Open Scope state_scope.

Definition EPERM : Z := 1.
Definition ENOTTY : Z := 25.

Definition DVB_NET_DEVICES_MAX : nat := 10.
Definition DVB_NET_FEEDTYPE_MPE : Z := 0.
Definition DVB_NET_FEEDTYPE_ULE : Z := 1.

Definition IFF_UP : Z := 0x1.
Definition IFF_BROADCAST : Z := 0x2.
Definition IFF_NOARP : Z := 0x80.
Definition IFF_PROMISC : Z := 0x100.
Definition IFF_ALLMULTI : Z := 0x200.
Definition IFF_MULTICAST : Z := 0x1000.

Inductive net_work := SetMulticastList | RestartNetFeed.
#[global] Instance net_work_eq_dec : EqDecision net_work.
Proof. solve_decision. Defined.

Record dvb_net := mk_net {
  dn_device : list (option net_device);   (* DVB_NET_DEVICES_MAX *)
  dn_state : list Z;   (* int *)
  dn_exit : Z;
  dn_demux : dvb_demux;   (* demux *)
  dn_work : list (nat * net_work);   (* scheduled *)
  dn_modules : Z;   (* references to the module of the adapter *)
  dn_tick : nat;   (* questions to the kernel so far *)
}.

Definition set_dn_device (v : list (option net_device)) (r : dvb_net) : dvb_net :=
  mk_net v (dn_state r) (dn_exit r) (dn_demux r) (dn_work r) (dn_modules r) (dn_tick r).
Definition set_dn_state (v : list Z) (r : dvb_net) : dvb_net :=
  mk_net (dn_device r) v (dn_exit r) (dn_demux r) (dn_work r) (dn_modules r) (dn_tick r).
Definition set_dn_exit (v : Z) (r : dvb_net) : dvb_net :=
  mk_net (dn_device r) (dn_state r) v (dn_demux r) (dn_work r) (dn_modules r) (dn_tick r).
Definition set_dn_demux (v : dvb_demux) (r : dvb_net) : dvb_net :=
  mk_net (dn_device r) (dn_state r) (dn_exit r) v (dn_work r) (dn_modules r) (dn_tick r).
Definition set_dn_work (v : list (nat * net_work)) (r : dvb_net) : dvb_net :=
  mk_net (dn_device r) (dn_state r) (dn_exit r) (dn_demux r) v (dn_modules r) (dn_tick r).
Definition set_dn_modules (v : Z) (r : dvb_net) : dvb_net :=
  mk_net (dn_device r) (dn_state r) (dn_exit r) (dn_demux r) (dn_work r) v (dn_tick r).
Definition set_dn_tick (v : nat) (r : dvb_net) : dvb_net :=
  mk_net (dn_device r) (dn_state r) (dn_exit r) (dn_demux r) (dn_work r) (dn_modules r) v.


Abbreviation ifM := (stateM dvb_net).

Class NetIfEnv := {
  net_intr : nat -> bool;          (* a signal interrupts mutex_lock_interruptible *)
  alloc_netdev : nat -> bool;      (* there is memory *)
  register_netdev : nat -> Z;
  try_module_get : nat -> bool;
  proposed_mac : list Z;           (* of the adapter *)
}.

(** ** Accesses *)

Definition ask : ifM nat := n <- gets dn_tick ;; modify (set_dn_tick (S n)) ;; mdo n.

Definition dev_get (i : nat) : ifM net_device := l <- gets dn_device ;; o <- the (l !! i) ;; the o.
Definition dev_upd (i : nat) (f : net_device -> net_device) : ifM unit :=
  d <- dev_get i ;; l <- gets dn_device ;; modify (set_dn_device (<[i := Some (f d)]> l)).
Definition netdev_priv (i : nat) : ifM dvb_net_priv := d <- dev_get i ;; mdo (nd_priv d).
Definition priv_upd (i : nat) (f : dvb_net_priv -> dvb_net_priv) : ifM unit :=
  dev_upd i (fun d => set_nd_priv (f (nd_priv d)) d).

(** An operation of the demultiplexer. *)
Definition demux_op {A} (m : dvb_demux -> option (dvb_demux * A)) : ifM A :=
  d <- gets dn_demux ;; r <- the (m d) ;; modify (set_dn_demux (fst r)) ;; mdo (snd r).
Definition demux_alloc (m : dvb_demux -> option (dvb_demux * Z * option nat)) : ifM (Z * option nat) :=
  d <- gets dn_demux ;; r <- the (m d) ;; modify (set_dn_demux (fst (fst r))) ;; mdo (snd (fst r), snd r).

Definition feed_is_filtering (fi : nat) : ifM bool :=
  d <- gets dn_demux ;; feed <- the (dx_feed d !! fi) ;; mdo (is_filtering feed).

Section ops.
Context {DE : DemuxEnv} {E : NetIfEnv}.

Definition signal : ifM bool := n <- ask ;; mdo (net_intr n).

(** ** Section filters *)

Definition mask_normal : list Z := replicate 6 0xff.
Definition mask_allmulti : list Z := [0xff; 0xff; 0xff; 0x00; 0x00; 0x00].
Definition mac_allmulti : list Z := [0x01; 0x00; 0x5e; 0x00; 0x00; 0x00].
Definition mask_promisc : list Z := replicate 6 0.

(** The six bytes of an address where a section has them, behind [first]. *)
Definition mac_pattern (first : Z) (mac : list Z) : option (list Z) :=
  m0 ← mac.[0]; m1 ← mac.[1]; m2 ← mac.[2]; m3 ← mac.[3]; m4 ← mac.[4]; m5 ← mac.[5];
  Some ([first; 0; 0; m5; m4; 0; 0; 0; m3; m2; m1; m0] ++ replicate 6 0).

Definition mac_filter (i : nat) (mac mac_mask : list Z) (f : dvb_demux_filter) : option dvb_demux_filter :=
  value ← mac_pattern 0x3e mac; mask ← mac_pattern 0xff mac_mask;
  Some (set_filter_value value (set_filter_mask mask (set_filter_mode (replicate 18 0xff)
         (set_filter_priv (Some i) f)))).

(** Also returns what becomes of [*secfilter]. *)
Definition dvb_net_filter_sec_set (i : nat) (mac mac_mask : list Z) : ifM (Z * option nat) :=
  p <- netdev_priv i ;; fi <- the (np_secfeed p) ;;
  intr <- signal ;; r <- demux_alloc (dmx_section_feed_allocate_filter intr fi) ;;
  if fst r <? 0 then mdo (fst r, None)
  else
    xi <- the (snd r) ;; d <- gets dn_demux ;; f <- the (dx_filter d !! xi) ;;
    f <- the (mac_filter i mac mac_mask f) ;;
    modify (set_dn_demux (put_filter xi f d)) ;;
    mdo (0, Some xi).

Definition set_secfilter (i : nat) (mac mac_mask : list Z) : ifM unit :=
  priv_upd i (set_np_secfilter None) ;;
  r <- dvb_net_filter_sec_set i mac mac_mask ;;
  priv_upd i (set_np_secfilter (snd r)).

Definition set_multi_secfilter (i k : nat) (mac mac_mask : list Z) : ifM unit :=
  p <- netdev_priv i ;; the (np_multi_secfilter p !! k) ;;
  priv_upd i (fun p => set_np_multi_secfilter (<[k := None]> (np_multi_secfilter p)) p) ;;
  r <- dvb_net_filter_sec_set i mac mac_mask ;;
  priv_upd i (fun p => set_np_multi_secfilter (<[k := snd r]> (np_multi_secfilter p)) p).

(** ** Feeds *)

(** The filters of a section feed, by the mode of the interface. *)
Definition set_filters (i : nat) : ifM unit :=
  p <- netdev_priv i ;; d <- dev_get i ;;
  (if negb (np_rx_mode p =? RX_MODE_PROMISC) then set_secfilter i (nd_addr d) mask_normal else mdo tt) ;;
  if np_rx_mode p =? RX_MODE_MULTI then
    mfor (seq 0 (Z.to_nat (np_multi_num p))) (fun k =>
      p <- netdev_priv i ;; mac <- the (np_multi_macs p !! k) ;; set_multi_secfilter i k mac mask_normal)
  else if np_rx_mode p =? RX_MODE_ALL_MULTI then
    priv_upd i (set_np_multi_num 1) ;; set_multi_secfilter i 0 mac_allmulti mask_allmulti
  else if np_rx_mode p =? RX_MODE_PROMISC then
    priv_upd i (set_np_multi_num 0) ;; set_secfilter i (nd_addr d) mask_promisc
  else mdo tt.

Definition start_secfeed (i : nat) : ifM Z :=
  intr <- signal ;; r <- demux_alloc (dvbdmx_allocate_section_feed intr) ;;
  priv_upd i (set_np_secfeed (snd r)) ;;
  if fst r <? 0 then mdo (fst r)
  else
    fi <- the (snd r) ;; p <- netdev_priv i ;; intr <- signal ;;
    ret <- demux_op (dmx_section_feed_set intr fi (np_pid p) 32768 1) ;;
    if ret <? 0 then
      demux_op (dvbdmx_release_section_feed fi) ;; priv_upd i (set_np_secfeed None) ;; mdo ret
    else
      set_filters i ;;
      intr <- signal ;; demux_op (dmx_section_feed_start_filtering intr fi) ;;
      mdo ret.

(** A timeout of ten milliseconds. *)
Definition start_tsfeed (i : nat) : ifM Z :=
  intr <- signal ;; r <- demux_alloc (dvbdmx_allocate_ts_feed intr) ;;
  priv_upd i (set_np_tsfeed (snd r)) ;;
  if fst r <? 0 then mdo (fst r)
  else
    fi <- the (snd r) ;; p <- netdev_priv i ;;
    d <- gets dn_demux ;; feed <- the (dx_feed d !! fi) ;;
    modify (set_dn_demux (put_feed fi (set_feed_priv (Some i) feed) d)) ;;
    intr <- signal ;;
    ret <- demux_op (dmx_ts_feed_set intr fi (np_pid p) TS_PACKET DMX_TS_PES_OTHER 32768 (0, 10000000)) ;;
    if ret <? 0 then
      demux_op (dvbdmx_release_ts_feed fi) ;; priv_upd i (set_np_tsfeed None) ;; mdo ret
    else intr <- signal ;; demux_op (dmx_ts_feed_start_filtering intr fi) ;; mdo ret.

Definition dvb_net_feed_start (i : nat) : ifM Z :=
  priv_upd i (fun p => set_np_tsfeed None (set_np_secfilter None (set_np_secfeed None p))) ;;
  p <- netdev_priv i ;;
  if np_feedtype p =? DVB_NET_FEEDTYPE_MPE then start_secfeed i
  else if np_feedtype p =? DVB_NET_FEEDTYPE_ULE then start_tsfeed i
  else mdo (- EINVAL).

Definition stop_secfeed (i fi : nat) : ifM unit :=
  b <- feed_is_filtering fi ;;
  (if (b : bool) then demux_op (dmx_section_feed_stop_filtering fi) ;; mdo tt else mdo tt) ;;
  p <- netdev_priv i ;;
  (match np_secfilter p with
   | Some xi => demux_op (dmx_section_feed_release_filter fi xi) ;; priv_upd i (set_np_secfilter None)
   | None => mdo tt
   end) ;;
  mfor (seq 0 (Z.to_nat (np_multi_num p))) (fun k =>
    p <- netdev_priv i ;; o <- the (np_multi_secfilter p !! k) ;;
    match o with
    | Some xi =>
      demux_op (dmx_section_feed_release_filter fi xi) ;;
      priv_upd i (fun p => set_np_multi_secfilter (<[k := None]> (np_multi_secfilter p)) p)
    | None => mdo tt
    end) ;;
  demux_op (dvbdmx_release_section_feed fi) ;;
  priv_upd i (set_np_secfeed None).

Definition stop_tsfeed (i fi : nat) : ifM unit :=
  b <- feed_is_filtering fi ;;
  (if (b : bool) then demux_op (dmx_ts_feed_stop_filtering fi) ;; mdo tt else mdo tt) ;;
  demux_op (dvbdmx_release_ts_feed fi) ;;
  priv_upd i (set_np_tsfeed None).

Definition dvb_net_feed_stop (i : nat) : ifM Z :=
  p <- netdev_priv i ;;
  if np_feedtype p =? DVB_NET_FEEDTYPE_MPE then
    match np_secfeed p with Some fi => stop_secfeed i fi | None => mdo tt end ;; mdo 0
  else if np_feedtype p =? DVB_NET_FEEDTYPE_ULE then
    match np_tsfeed p with Some fi => stop_tsfeed i fi | None => mdo tt end ;; mdo 0
  else mdo (- EINVAL).

(** ** Addresses *)

Definition dvb_set_mc_filter (i : nat) (addr : list Z) : ifM Z :=
  p <- netdev_priv i ;;
  if np_multi_num p =? DVB_NET_MULTICAST_MAX then mdo (- ENOMEM)
  else
    k <- mdo (Z.to_nat (np_multi_num p)) ;; the (np_multi_macs p !! k) ;;
    priv_upd i (fun p => set_np_multi_num (np_multi_num p + 1)
                           (set_np_multi_macs (<[k := addr]> (np_multi_macs p)) p)) ;;
    mdo 0.

Definition wq_set_multicast_list (i : nat) : ifM unit :=
  dvb_net_feed_stop i ;;
  priv_upd i (set_np_rx_mode RX_MODE_UNI) ;;
  d <- dev_get i ;;
  (if truthy (Z.land (nd_flags d) IFF_PROMISC) then priv_upd i (set_np_rx_mode RX_MODE_PROMISC)
   else if truthy (Z.land (nd_flags d) IFF_ALLMULTI) then priv_upd i (set_np_rx_mode RX_MODE_ALL_MULTI)
   else if negb (bool_decide (nd_mc d = [])) then
     priv_upd i (fun p => set_np_multi_num 0 (set_np_rx_mode RX_MODE_MULTI p)) ;;
     mfor (nd_mc d) (fun addr => dvb_set_mc_filter i addr ;; mdo tt)
   else mdo tt) ;;
  dvb_net_feed_start i ;; mdo tt.

(** Work that waits already is not scheduled again. *)
Definition schedule_work (i : nat) (w : net_work) : ifM unit :=
  l <- gets dn_work ;; if decide ((i, w) ∈ l) then mdo tt else modify (set_dn_work (l ++ [(i, w)])).

Definition dvb_net_set_multicast_list (i : nat) : ifM unit := schedule_work i SetMulticastList.

Definition netif_running (i : nat) : ifM bool := d <- dev_get i ;; mdo (truthy (Z.land (nd_flags d) IFF_UP)).

Definition wq_restart_net_feed (i : nat) : ifM unit :=
  up <- netif_running i ;;
  if (up : bool) then dvb_net_feed_stop i ;; dvb_net_feed_start i ;; mdo tt else mdo tt.

Definition run_work (w : nat * net_work) : ifM unit :=
  match snd w with
  | SetMulticastList => wq_set_multicast_list (fst w)
  | RestartNetFeed => wq_restart_net_feed (fst w)
  end.

(** The worker takes the oldest work; [flush_work_sync] waits for one to be done. *)
Definition work_turn : ifM unit :=
  l <- gets dn_work ;;
  match l with [] => mdo tt | w :: l => modify (set_dn_work l) ;; run_work w end.

Definition flush_work_sync (i : nat) (w : net_work) : ifM unit :=
  l <- gets dn_work ;;
  if decide ((i, w) ∈ l) then
    modify (set_dn_work (filter (fun x => x <> (i, w)) l)) ;; run_work (i, w)
  else mdo tt.

Definition dvb_net_set_mac (i : nat) (addr : list Z) : ifM Z :=
  dev_upd i (set_nd_addr addr) ;;
  up <- netif_running i ;;
  (if (up : bool) then schedule_work i RestartNetFeed else mdo tt) ;;
  mdo 0.

Definition dvb_net_open (i : nat) : ifM Z :=
  priv_upd i (fun p => set_np_in_use (np_in_use p + 1) p) ;;
  dvb_net_feed_start i ;; mdo 0.

Definition dvb_net_stop (i : nat) : ifM Z :=
  priv_upd i (fun p => set_np_in_use (np_in_use p - 1) p) ;;
  dvb_net_feed_stop i.

(** ** Adding and removing *)

(** What alloc_netdev clears and [dvb_net_setup] and ether_setup fill in. *)
Definition dvb_net_setup : net_device :=
  mk_dev (mk_priv 0 0 None None None 0 (replicate 10 None) (replicate 10 (replicate 6 0)) 0 0
            0 0 None 0 0 0 0 0 0 0 0)
    (replicate 6 0) (replicate 6 0xff) (Z.lor IFF_NOARP (Z.lor IFF_BROADCAST IFF_MULTICAST)) []
    (mk_stats 0 0 0 0 0 0 0) [] 0.

Definition get_if : ifM (option nat) :=
  st <- gets dn_state ;;
  match list_find (fun s => s = 0) st with
  | None => mdo None
  | Some (i, _) => modify (set_dn_state (<[i := 1]> st)) ;; mdo (Some i)
  end.

Definition new_priv (pid feedtype : Z) (p : dvb_net_priv) : dvb_net_priv :=
  reset_ule (set_np_feedtype feedtype (set_tscc 0 (set_need_pusi 1
    (set_np_rx_mode RX_MODE_UNI (set_np_pid pid p))))).

Definition dvb_net_add_if (pid feedtype : Z) : ifM Z :=
  if negb (feedtype =? DVB_NET_FEEDTYPE_MPE) && negb (feedtype =? DVB_NET_FEEDTYPE_ULE) then mdo (- EINVAL)
  else
    o <- get_if ;;
    match o with
    | None => mdo (- EINVAL)
    | Some if_num =>
      n <- ask ;;
      if negb (alloc_netdev n) then mdo (- ENOMEM)
      else
        l <- gets dn_device ;;
        modify (set_dn_device (<[if_num := Some (set_nd_addr proposed_mac dvb_net_setup)]> l)) ;;
        priv_upd if_num (new_priv pid feedtype) ;;
        n <- ask ;;
        if register_netdev n <? 0 then
          l <- gets dn_device ;; modify (set_dn_device (<[if_num := None]> l)) ;; mdo (register_netdev n)
        else mdo (Z.of_nat if_num)
    end.

Definition dvb_net_remove_if (num : nat) : ifM Z :=
  st <- gets dn_state ;; s <- the (st !! num) ;;
  if s =? 0 then mdo (- EINVAL)
  else
    p <- netdev_priv num ;;
    if truthy (np_in_use p) then mdo (- EBUSY)
    else
      dvb_net_stop num ;;
      flush_work_sync num SetMulticastList ;; flush_work_sync num RestartNetFeed ;;
      st <- gets dn_state ;; modify (set_dn_state (<[num := 0]> st)) ;;
      l <- gets dn_device ;; modify (set_dn_device (<[num := None]> l)) ;;
      mdo 0.

(** ** ioctls *)

Inductive net_ioctl :=
  | NET_ADD_IF (pid feedtype : Z) | NET_GET_IF (if_num : Z) | NET_REMOVE_IF (num : Z)
  | NET_ADD_IF_OLD (pid : Z) | NET_GET_IF_OLD (if_num : Z) | NET_OTHER.

(** What is written back: a number, or PID and type of feed. *)
Inductive net_answer := NoAnswer | IfNum (n : Z) | IfIs (pid : Z) (feedtype : option Z).

Definition add_if (capable : bool) (pid feedtype : Z) : ifM (Z * net_answer) :=
  if negb capable then mdo (- EPERM, NoAnswer)
  else
    n <- ask ;;
    if negb (try_module_get n) then mdo (- EPERM, NoAnswer)
    else
      modify (fun s => set_dn_modules (dn_modules s + 1) s) ;;
      result <- dvb_net_add_if pid feedtype ;;
      if result <? 0 then
        modify (fun s => set_dn_modules (dn_modules s - 1) s) ;; mdo (result, NoAnswer)
      else mdo (0, IfNum result).

Definition get_if_data (n : Z) (old : bool) : ifM (Z * net_answer) :=
  if n >=? Z.of_nat DVB_NET_DEVICES_MAX then mdo (- EINVAL, NoAnswer)
  else
    st <- gets dn_state ;; s <- the (st !! Z.to_nat n) ;;
    if s =? 0 then mdo (- EINVAL, NoAnswer)
    else
      p <- netdev_priv (Z.to_nat n) ;;
      mdo (0, IfIs (np_pid p) (if old then None else Some (np_feedtype p))).

Definition dvb_net_do_ioctl (readonly capable : bool) (cmd : net_ioctl) : ifM (Z * net_answer) :=
  if readonly then mdo (- EPERM, NoAnswer)
  else
    match cmd with
    | NET_ADD_IF pid feedtype => add_if capable pid feedtype
    | NET_GET_IF n => get_if_data n false
    | NET_REMOVE_IF num =>
      if negb capable then mdo (- EPERM, NoAnswer)
      else if num >=? Z.of_nat DVB_NET_DEVICES_MAX then mdo (- EINVAL, NoAnswer)
      else
        ret <- dvb_net_remove_if (Z.to_nat num) ;;
        (if ret =? 0 then modify (fun s => set_dn_modules (dn_modules s - 1) s) else mdo tt) ;;
        mdo (ret, NoAnswer)
    | NET_ADD_IF_OLD pid => add_if capable pid DVB_NET_FEEDTYPE_MPE
    | NET_GET_IF_OLD n => get_if_data n true
    | NET_OTHER => mdo (- ENOTTY, NoAnswer)
    end.

Definition dvb_net_release : ifM unit :=
  modify (set_dn_exit 1) ;;
  mfor (seq 0 DVB_NET_DEVICES_MAX) (fun i =>
    st <- gets dn_state ;; s <- the (st !! i) ;;
    if s =? 0 then mdo tt else dvb_net_remove_if i ;; mdo tt).

Definition dvb_net_init (dmx : dvb_demux) (n : dvb_net) : dvb_net :=
  set_dn_state (replicate DVB_NET_DEVICES_MAX 0) (set_dn_demux dmx n).
End ops.

(** ** From the demultiplexer to the receivers *)

Section receive.
Context {NE : NetEnv}.

Definition on_device (i : nat) (m : netM Z) : ifM Z :=
  d <- dev_get i ;;
  match m d with
  | inl (a, d') => dev_upd i (fun _ => d') ;; mdo a
  | inr _ => fault
  end.

(** The callbacks of feeds that belong to interfaces: the device is the private data of the
    feed or of the filter. *)
Definition net_callback (c : dmx_call) : ifM Z :=
  d <- gets dn_demux ;;
  match c with
  | CallTs fi data =>
    feed <- the (dx_feed d !! fi) ;; i <- the (feed_priv feed) ;;
    on_device i (dvb_net_ts_callback data None)
  | CallSec _ xi sec =>
    f <- the (dx_filter d !! xi) ;; i <- the (filter_priv f) ;;
    on_device i (dvb_net_sec_callback sec None)
  | _ => mdo 0
  end.
End receive.

(** ** Multiprotocol encapsulation: a section and its datagram *)

Definition ip_type (l : list Z) : Z := if Z.shiftr (hd 0 l) 4 =? 6 then 0x86dd else 0x0800.

(** EN 301 192, 7.1: the section of a datagram, with or without LLC/SNAP. *)
Definition mpe_section (llc : bool) (f : sndu) (crc : list Z) : list Z :=
  let a := byte (default [] (sn_dest f)) in
  let body := (if llc then [0xaa; 0xaa; 0x03; 0; 0; 0] ++ be16 (sn_type f) else []) ++ sn_payload f ++ crc in
  let len := 9 + zlen body in
  [0x3e; Z.lor 0xb0 (Z.shiftr len 8); Z.land len 0xff; a 5; a 4; if llc then 0xc3 else 0xc1; 0; 0;
   a 3; a 2; a 1; a 0] ++ body.

(** The address a section is for. *)
Definition section_mac (sec : list Z) : list Z :=
  [byte sec 11; byte sec 10; byte sec 9; byte sec 8; byte sec 4; byte sec 3].

Definition masked (mac mask : list Z) : list Z := zip_with Z.land mac mask.

(** A frame that a section can carry. *)
Record mpe_ok (llc : bool) (f : sndu) : Prop := {
  mo_sndu : sndu_ok f;
  mo_dest : is_Some (sn_dest f);
  mo_type : llc = false -> sn_payload f <> [] /\ sn_type f = ip_type (sn_payload f);
}.

(** *** What a filter selects *)

Lemma bits_agree m v x :
  0 <= m < 256 ->
  (forall b, 0 <= b < 8 -> Z.testbit m b = true -> Z.testbit v b = Z.testbit x b) <->
  Z.land v m = Z.land x m.
Proof.
  intros Hm. split.
  - intros H. apply Z.bits_inj'. intros b Hb. rewrite !Z.land_spec.
    destruct (Z.testbit m b) eqn:Hmb; [|by rewrite !andb_false_r]. rewrite !andb_true_r.
    apply H; [|done]. split; [done|]. destruct (Z.lt_ge_cases b 8) as [|Hge]; [done|].
    rewrite Z.bits_above_log2 in Hmb; [done|lia|]. destruct (Z.eq_dec m 0) as [->|]; [cbn; lia|].
    apply Z.log2_lt_pow2; [lia|]. pose proof (Z.pow_le_mono_r 2 8 b). lia.
  - intros H b _ Hb. apply (f_equal (fun z => Z.testbit z b)) in H.
    by rewrite !Z.land_spec, Hb, !andb_true_r in H.
Qed.

Lemma full_mode i b : in_filter i b -> bit (replicate 18 0xff) i b = true.
Proof.
  intros [Hi Hb]. unfold bit, byte. rewrite mget_nth by (rewrite zlen_replicate; lia). cbn [default].
  rewrite lookup_total_replicate_2 by lia. change 255 with (Z.ones 8). apply Z.ones_spec_low. lia.
Qed.

Lemma full_mode_matches value mask sec :
  Forall is_byte mask ->
  section_matches value mask (replicate 18 0xff) sec <->
  Forall (fun i => Z.land (byte value i) (byte mask i) = Z.land (byte sec i) (byte mask i)) (seqZ 0 18).
Proof.
  intros Hm. unfold section_matches. rewrite Forall_forall. split.
  - intros [H _] i Hi%elem_of_seqZ. apply bits_agree; [by apply byte_range|]. intros b Hb Hb1.
    apply H; [split; lia|done|]. by apply full_mode.
  - intros H. split.
    + intros i b [Hi Hb] Hb1 _. unfold bit.
      apply (proj2 (bits_agree (byte mask i) _ _ (byte_range _ _ Hm))); [|done..].
      apply H, elem_of_seqZ. lia.
    + intros (i & b & Hi & _ & Hf). by rewrite full_mode in Hf.
Qed.

Lemma pattern_spec first mac :
  zlen mac = 6 ->
  mac_pattern first mac =
    Some ([first; 0; 0; byte mac 5; byte mac 4; 0; 0; 0; byte mac 3; byte mac 2; byte mac 1; byte mac 0]
            ++ replicate 6 0).
Proof. intros H. unfold zlen in H. do 7 (destruct mac as [|? mac]; [done|]). cbn [length] in H. lia. Qed.

Lemma six_bytes (mac : list Z) :
  zlen mac = 6 -> mac = [byte mac 0; byte mac 1; byte mac 2; byte mac 3; byte mac 4; byte mac 5].
Proof.
  intros H. unfold zlen in H. do 6 (destruct mac as [|? mac]; [done|]). destruct mac; [done|].
  cbn [length] in H. lia.
Qed.

Lemma pattern_bytes first mac value :
  is_byte first -> Forall is_byte mac -> mac_pattern first mac = Some value -> zlen mac = 6 ->
  zlen value = 18 /\ Forall is_byte value.
Proof.
  intros Hf Hm Hp Hl. rewrite pattern_spec in Hp by done. injection Hp as <-. split; [done|].
  repeat (apply Forall_cons_2; [first [done|by apply byte_range|unfold is_byte; lia]|]). by apply Forall_nil.
Qed.

Lemma mac_filter_raw i mac mask raw :
  zlen mac = 6 -> zlen mask = 6 -> Forall is_byte mac -> Forall is_byte mask -> filter_ok raw ->
  exists value m f, mac_pattern 0x3e mac = Some value /\ mac_pattern 0xff mask = Some m /\
    mac_filter i mac mask raw = Some f /\ raw_filter_ok f /\ filter_value f = value /\
    filter_mask f = m /\ filter_mode f = replicate 18 0xff.
Proof.
  intros Hl1 Hl2 Hb1 Hb2 (Hv & Hm1 & Hm2).
  pose proof (pattern_spec 0x3e mac Hl1) as E1. pose proof (pattern_spec 0xff mask Hl2) as E2.
  destruct (pattern_bytes 0x3e _ _ ltac:(done) Hb1 E1 Hl1) as [L1 B1].
  destruct (pattern_bytes 0xff _ _ ltac:(done) Hb2 E2 Hl2) as [L2 B2].
  unfold mac_filter. rewrite E1, E2. cbn [mbind option_bind].
  eexists _, _, _. do 3 (split; [reflexivity|]). split; [|done].
  split; [split; [exact L1|done]|]. split; [exact L2|]. split; [done|]. split; [exact B1|]. split; [exact B2|].
  apply Forall_replicate. done.
Qed.

Lemma pattern_selects mac mask value m sec :
  zlen mac = 6 -> zlen mask = 6 -> Forall is_byte sec ->
  mac_pattern 0x3e mac = Some value -> mac_pattern 0xff mask = Some m ->
  Forall (fun i => Z.land (byte value i) (byte m i) = Z.land (byte sec i) (byte m i)) (seqZ 0 18) <->
  byte sec 0 = 0x3e /\ masked mac mask = masked (section_mac sec) mask.
Proof.
  intros Hl1 Hl2 Hs E1 E2. rewrite pattern_spec in E1, E2 by done. injection E1 as <-. injection E2 as <-.
  assert (Z.land (byte sec 0) 0xff = byte sec 0) as H0.
  { pose proof (byte_range sec 0 Hs). change 0xff with (Z.ones 8). rewrite Z.land_ones by done. by apply Z.mod_small. }
  assert (masked mac mask = [Z.land (byte mac 0) (byte mask 0); Z.land (byte mac 1) (byte mask 1);
    Z.land (byte mac 2) (byte mask 2); Z.land (byte mac 3) (byte mask 3); Z.land (byte mac 4) (byte mask 4);
    Z.land (byte mac 5) (byte mask 5)]) as ->
    by (rewrite (six_bytes mac), (six_bytes mask) at 1 by done; reflexivity).
  assert (masked (section_mac sec) mask = [Z.land (byte sec 11) (byte mask 0); Z.land (byte sec 10) (byte mask 1);
    Z.land (byte sec 9) (byte mask 2); Z.land (byte sec 8) (byte mask 3); Z.land (byte sec 4) (byte mask 4);
    Z.land (byte sec 3) (byte mask 5)]) as ->
    by (rewrite (six_bytes mask) at 1 by done; reflexivity).
  change (seqZ 0 18) with [0; 1; 2; 3; 4; 5; 6; 7; 8; 9; 10; 11; 12; 13; 14; 15; 16; 17].
  rewrite !Forall_cons. clear Hs Hl1 Hl2.
  generalize dependent (byte sec). generalize (byte mac), (byte mask). intros a m s H0.
  unfold byte. repeat match goal with |- context [default 0 ?x] =>
    let v := eval vm_compute in (default 0 x) in change (default 0 x) with v end.
  rewrite !Z.land_0_r, H0. change (Z.land 62 255) with 62.
  split.
  - intros (E & _ & _ & E5 & E4 & _ & _ & _ & E3 & E2 & E1 & E0 & _). split; [done|]. congruence.
  - intros (E & [= E0 E1 E2 E3 E4 E5]). by repeat split.
Qed.

Lemma mac_filter_priv i mac mask raw f : mac_filter i mac mask raw = Some f -> filter_priv f = Some i.
Proof.
  unfold mac_filter. destruct (mac_pattern 0x3e mac), (mac_pattern 0xff mask); try done. by intros [= <-].
Qed.

Lemma prepare_keeps_priv f f' : raw_filter_ok f -> prepare_filter f = Some f' -> filter_priv f' = filter_priv f.
Proof.
  intros Hr Hp. destruct (prepare_bytes_spec DVB_DEMUX_MASK_MAX 0 f 0 Hr)
    as (mm & mn & dq & Heq & _); [lia|done|].
  unfold prepare_filter in Hp. rewrite Heq in Hp. by injection Hp as <-.
Qed.

(** Fact: the filter that dvb_net_filter_sec_set makes for an address and a mask lets a
    section of the demultiplexer through, to the interface, exactly when it is a section
    of datagrams (table 0x3e) whose address, put together from bytes 11, 10, 9, 8, 4 and
    3, agrees with the one of the filter in all bits of the mask. *)
Theorem mac_filter_selects {DE : DemuxEnv} i mac mask raw fi feed log xi :
  zlen mac = 6 -> zlen mask = 6 -> Forall is_byte mac -> Forall is_byte mask -> filter_ok raw ->
  0 <= secbuf feed -> 18 <= seclen feed -> secbuf feed + seclen feed <= zlen (secbuf_base feed) ->
  Forall is_byte (secbuf_base feed) ->
  let sec := slice (secbuf_base feed) (secbuf feed) (seclen feed) in
  exists f f', mac_filter i mac mask raw = Some f /\ prepare_filter f = Some f' /\
    filter_priv f' = Some i /\
    dvb_dmx_swfilter_sectionfilter fi feed log xi f' =
      Some (if decide (byte sec 0 = 0x3e /\ masked mac mask = masked (section_mac sec) mask)
            then (log ++ [CallSec fi xi sec], cb_ret (log ++ [CallSec fi xi sec]))
            else (log, 0)).
Proof.
  intros Hl1 Hl2 Hb1 Hb2 Hraw Ho Hn Hl Hb sec.
  destruct (mac_filter_raw i mac mask raw Hl1 Hl2 Hb1 Hb2 Hraw) as (value & m & f & E1 & E2 & Ef & Hf & Ev & Em & Emo).
  destruct (prepare_filter_spec f Hf) as (f' & Hp & Hok & _). exists f, f'. do 2 (split; [done|]). split.
  { rewrite (prepare_keeps_priv f f' Hf Hp). by eapply mac_filter_priv. }
  rewrite (sectionfilter_spec fi feed log xi f' Hok Ho Hn Hl). fold sec.
  pose proof (filter_accepts_matches f f' sec Hf Hp) as Ha. rewrite Ev, Em, Emo in Ha.
  destruct (pattern_bytes 0xff mask m) as [_ Hbm]; [done..|].
  rewrite full_mode_matches, (pattern_selects mac mask) in Ha by (done || by apply Forall_slice).
  destruct (filter_accepts f' sec), (decide _) as [Hd|Hd]; try done; [by destruct Hd; apply Ha|].
  by apply Ha in Hd.
Qed.

(** *** From the section to the frame *)

Section mpe.
Context {NE : NetEnv}.

(** The buffer of a frame, two bytes off. *)
Definition frame_buffer (f : sndu) (data len mac pt proto : Z) : sk_buff :=
  mk_skb (replicate 2 None ++ (Some <$> (header f ++ sn_payload f)) ++ [])
    data (16 + zlen (sn_payload f)) len mac pt proto.

Lemma read_buffer f data len mac pt proto o n :
  sndu_ok f -> 0 <= o -> 0 <= n -> o + n <= 14 + zlen (sn_payload f) ->
  skb_read (frame_buffer f data len mac pt proto) (2 + o) n = Some (slice (header f ++ sn_payload f ++ []) o n).
Proof.
  intros Hok Ho Hn Hl. rewrite app_nil_r. apply (read_behind _ 2 _ []); [done..|].
  rewrite zlen_app, (zlen_header f Hok). lia.
Qed.

Lemma trans_buffer f a d :
  sndu_ok f -> sn_dest f = Some a ->
  dvb_net_eth_type_trans (nd_broadcast d) (frame_buffer f 2 (14 + zlen (sn_payload f)) 0 PACKET_HOST 0) =
  Some (frame_buffer f 16 (zlen (sn_payload f)) 2 (pkt_type_of d f) 0, sn_type f).
Proof.
  intros Hok Ha. pose proof (zlen_nonneg (sn_payload f)). pose proof (so_type f Hok) as Hty.
  destruct (header_parts f [] Hok) as (Hd & _ & Ht & _). unfold dvb_net_eth_type_trans.
  assert (skb_pull (set_skb_mac (skb_data (frame_buffer f 2 (14 + zlen (sn_payload f)) 0 PACKET_HOST 0))
            (frame_buffer f 2 (14 + zlen (sn_payload f)) 0 PACKET_HOST 0)) ETH_HLEN
          = frame_buffer f 16 (zlen (sn_payload f)) 2 PACKET_HOST 0) as ->.
  { unfold skb_pull. cbn [skb_len set_skb_mac frame_buffer]. unfold ETH_HLEN.
    rewrite Z.gtb_ltb, (proj2 (Z.ltb_ge _ _)) by lia.
    unfold frame_buffer, set_skb_len, set_skb_data, set_skb_mac.
    cbn [skb_mem skb_data skb_tail skb_len skb_mac skb_pkt_type skb_protocol]. f_equal. lia. }
  cbn [skb_mac frame_buffer]. fold (frame_buffer f 16 (zlen (sn_payload f)) 2 PACKET_HOST 0).
  unfold ETH_ALEN, skb_be16. rewrite (read_buffer f _ _ _ _ _ 0 6), (read_buffer f _ _ _ _ _ 12 2) by (done || lia).
  cbn [mbind option_bind]. rewrite Hd, Ht, be16_value by lia.
  rewrite Ha. cbn [default from_option id].
  assert (zlen a = 6) as Hl by (destruct Hok as [Hda _ _ _]; by rewrite Ha in Hda).
  rewrite (first_byte _ Hl). cbn [mbind option_bind].
  rewrite Z.geb_leb, (proj2 (Z.leb_le _ _)), multicast_bit by lia.
  unfold pkt_type_of, ether_for. rewrite Ha. cbn [et_pkt_type default from_option id]. by destruct (Z.odd _).
Qed.

Lemma ether_buffer f d :
  sndu_ok f ->
  ether_of (set_skb_protocol (sn_type f) (frame_buffer f 16 (zlen (sn_payload f)) 2 (pkt_type_of d f) 0)) =
  Some (ether_for d f).
Proof.
  intros Hok. pose proof (zlen_nonneg (sn_payload f)). destruct (header_parts f [] Hok) as (Hd & Hs & _ & Hp).
  change (set_skb_protocol _ _) with (frame_buffer f 16 (zlen (sn_payload f)) 2 (pkt_type_of d f) (sn_type f)).
  unfold ether_of. cbn [skb_mac skb_data skb_len skb_protocol skb_pkt_type frame_buffer].
  fold (frame_buffer f 16 (zlen (sn_payload f)) 2 (pkt_type_of d f) (sn_type f)).
  change (skb_read (frame_buffer f 16 (zlen (sn_payload f)) 2 (pkt_type_of d f) (sn_type f)) 2 6)
    with (skb_read (frame_buffer f 16 (zlen (sn_payload f)) 2 (pkt_type_of d f) (sn_type f)) (2 + 0) 6).
  rewrite !(read_buffer f 16 _ 2) by (done || lia). cbn [mbind option_bind].
  rewrite (read_buffer f 16 _ 2 _ _ 14) by (done || lia). cbn [mbind option_bind]. by rewrite Hd, Hs, Hp.
Qed.

Definition snap_len (llc : bool) : Z := if llc then 8 else 0.

(** What comes before the datagram. *)
Lemma section_split llc f crc :
  exists pre, mpe_section llc f crc = pre ++ sn_payload f ++ crc /\ zlen pre = 12 + snap_len llc.
Proof.
  destruct llc.
  - eexists (_ :: _ :: _ :: _ :: _ :: _ :: _ :: _ :: _ :: _ :: _ :: _ :: _ :: _ :: _ :: _ :: _ :: _ :: _ :: [_]).
    split; reflexivity.
  - eexists (_ :: _ :: _ :: _ :: _ :: _ :: _ :: _ :: _ :: _ :: _ :: [_]). split; reflexivity.
Qed.

Lemma zlen_section llc f crc :
  zlen crc = 4 -> zlen (mpe_section llc f crc) = 16 + snap_len llc + zlen (sn_payload f).
Proof.
  intros Hc. destruct (section_split llc f crc) as (pre & -> & Hp). rewrite !zlen_app. lia.
Qed.

Lemma frame_of_section llc f crc :
  mpe_ok llc f -> zlen crc = 4 ->
  mpe_frame (mpe_section llc f crc) (snap_len llc) = Some (header f ++ sn_payload f).
Proof.
  intros [Hok [a Ha] Hty] Hc. pose proof (zlen_nonneg (sn_payload f)). pose proof (so_type f Hok) as Ht.
  assert (zlen a = 6) as Hl by (destruct Hok as [Hda _ _ _]; by rewrite Ha in Hda).
  unfold mpe_frame. rewrite zlen_section by done.
  assert (0 <= snap_len llc) as Hs by (by destruct llc).
  rewrite mread_Some by (rewrite ?zlen_section by done; lia).
  assert (slice (mpe_section llc f crc) (12 + snap_len llc)
           (16 + snap_len llc + zlen (sn_payload f) - 12 - 4 - snap_len llc) = sn_payload f) as ->.
  { destruct (section_split llc f crc) as (pre & -> & <-).
    replace (_ - 12 - 4 - _) with (zlen (sn_payload f)) by lia. apply slice_app_mid. }
  assert (mpe_ethertype (mpe_section llc f crc) (snap_len llc) = Some (be16 (sn_type f))) as Hmt.
  { destruct llc; [reflexivity|]. destruct (Hty eq_refl) as [Hne ->].
    unfold ip_type. destruct (sn_payload f) as [|b l] eqn:Hpl; [done|]. unfold mpe_ethertype. cbn [snap_len truthy Z.eqb negb].
    unfold mpe_section. rewrite Hpl. change (mget _ 12) with (Some b). cbn [mbind option_bind hd].
    by destruct (Z.shiftr b 4 =? 6). }
  cbn [mbind option_bind]. rewrite Hmt. unfold header. rewrite Ha. cbn [default from_option id].
  rewrite (six_bytes a) at 1 by done. rewrite <- !app_assoc. unfold mpe_section. rewrite Ha. by destruct llc.
Qed.

(** Filling the buffer. *)
Lemma write_buffer f n :
  sndu_ok f -> n = 16 + zlen (sn_payload f) ->
  let sk := mk_skb (replicate (Z.to_nat n) None) 2 n (14 + zlen (sn_payload f)) 0 PACKET_HOST 0 in
  skb_write sk 2 (header f ++ sn_payload f) =
    Some (frame_buffer f 2 (14 + zlen (sn_payload f)) 0 PACKET_HOST 0).
Proof.
  intros Hok -> sk. pose proof (zlen_nonneg (sn_payload f)). pose proof (zlen_header f Hok) as Hh.
  unfold skb_write, sk. cbn [skb_mem].
  assert (zlen (header f ++ sn_payload f) = 14 + zlen (sn_payload f)) as Hl by (rewrite zlen_app; lia).
  rewrite mwrite_Some; [|lia|autorewrite with zlen; lia]. cbn [mbind option_bind]. unfold frame_buffer, set_skb_mem.
  cbn [skb_mem skb_data skb_tail skb_len skb_mac skb_pkt_type skb_protocol]. f_equal. f_equal.
  unfold blit. rewrite take_replicate, drop_replicate, length_fmap.
  f_equal; [f_equal; lia|]. f_equal. unfold zlen in *. by replace (_ - _)%nat with 0%nat by lia.
Qed.

(** The checks of the header. *)
Lemma section_head llc f crc :
  (mpe_section llc f crc).[5] = Some (if llc then 0xc3 else 0xc1) /\
  (mpe_section llc f crc).[7] = Some 0 /\
  (llc = true -> mread (mpe_section llc f crc) 12 6 = Some [0xaa; 0xaa; 0x03; 0; 0; 0]).
Proof.
  split; [reflexivity|]. split; [reflexivity|]. intros ->. unfold mread.
  rewrite bool_decide_true; [reflexivity|]. split; [done|]. split; [done|].
  destruct (section_split true f crc) as (pre & -> & Hp). rewrite zlen_app. cbn [snap_len] in Hp.
  pose proof (zlen_nonneg (sn_payload f ++ crc)). lia.
Qed.

Lemma llc_spec (llc : bool) f crc d :
  zlen crc = 4 ->
  nwp (fun _ : crash => False)
    (if truthy (Z.land (if llc then 0xc3 else 0xc1) 0x02) then
       if zlen (mpe_section llc f crc) <? 24 then ndo None
       else h <- need InCell (mread (mpe_section llc f crc) 12 6) ;;
            ndo (if bool_decide (h = [0xaa; 0xaa; 0x03; 0; 0; 0]) then Some 8 else None)
     else ndo (Some 0))%net d (fun o d' => o = Some (snap_len llc) /\ d' = d).
Proof.
  intros Hc. destruct llc; [|by apply nwp_do]. cbn [truthy Z.land Z.eqb negb].
  pose proof (zlen_nonneg (sn_payload f)).
  rewrite (proj2 (Z.ltb_ge _ 24)) by (rewrite zlen_section by done; cbn [snap_len]; lia).
  eapply nwp_need; [by apply section_head|]. by apply nwp_do.
Qed.

Lemma sec_spec llc f crc d :
  mpe_ok llc f -> zlen crc = 4 -> alloc_skb (nd_allocs d) = true ->
  nwp (fun _ : crash => False) (dvb_net_sec (mpe_section llc f crc)) d (fun _ d' =>
    exists sk, nd_received d' = nd_received d ++ [sk] /\ ether_of sk = Some (ether_for d f) /\
      nd_stats d' = packet_in (zlen (sn_payload f)) (nd_stats d) /\ nd_priv d' = nd_priv d).
Proof.
  intros Hf Hc Ha. pose proof (mo_sndu _ _ Hf) as Hok. destruct (mo_dest _ _ Hf) as [a Hda].
  pose proof (zlen_nonneg (sn_payload f)). destruct (section_head llc f crc) as (H5 & H7 & _).
  pose proof (zlen_section llc f crc Hc) as Hl. assert (0 <= snap_len llc) as Hs by (by destruct llc).
  unfold dvb_net_sec. rewrite (proj2 (Z.ltb_ge _ 16)) by lia.
  eapply nwp_need; [exact H5|].
  assert (truthy (Z.land (if llc then 0xc3 else 0xc1) 0x3c) = false) as -> by (by destruct llc).
  eapply nwp_seq; [by apply llc_spec|]. cbv beta. intros o d' [-> ->].
  eapply nwp_need; [exact H7|]. cbn [truthy Z.eqb negb].
  replace (zlen (mpe_section llc f crc) - 4 - 12 + 14 + 2 - snap_len llc) with (16 + zlen (sn_payload f)) by lia.
  replace (zlen (mpe_section llc f crc) - 12 - 4 + 14 - snap_len llc) with (14 + zlen (sn_payload f)) by lia.
  apply nwp_then. unfold dev_alloc_skb. apply nwp_get, nwp_set, nwp_do. rewrite Ha. cbv beta iota.
  eapply nwp_need.
  { unfold skb_put, skb_reserve. cbn [skb_tail skb_mem skb_data skb_len set_skb_tail set_skb_data].
    rewrite zlen_replicate, (proj2 (Z.leb_le _ _)) by lia. reflexivity. }
  eapply nwp_need; [by apply frame_of_section|]. cbn [fst snd].
  eapply nwp_need.
  { unfold set_skb_len, set_skb_tail. cbn [skb_tail skb_mem skb_data skb_len skb_mac skb_pkt_type skb_protocol set_skb_tail set_skb_data].
    replace (0 + 2 + (14 + zlen (sn_payload f))) with (16 + zlen (sn_payload f)) by lia.
    by apply (write_buffer f (16 + zlen (sn_payload f))). }
  apply nwp_get. eapply nwp_need; [by eapply trans_buffer|]. cbn [fst snd].
  apply nwp_set, nwp_upd. cbn. eexists. split; [reflexivity|]. split; [by apply ether_buffer|]. done.
Qed.

(** Claim C36: a datagram that is sent as a section of the multiprotocol encapsulation,
    with an LLC/SNAP header or without one when its version tells the protocol, is received
    as the Ethernet frame with its address, protocol and contents, and counted. *)
Theorem mpe_roundtrip llc f crc d :
  mpe_ok llc f -> zlen crc = 4 -> alloc_skb (nd_allocs d) = true ->
  exists d' sk, dvb_net_sec_callback (mpe_section llc f crc) None d = inl (0, d') /\
    nd_received d' = nd_received d ++ [sk] /\ ether_of sk = Some (ether_for d f) /\
    nd_stats d' = packet_in (zlen (sn_payload f)) (nd_stats d) /\ nd_priv d' = nd_priv d.
Proof.
  intros Hf Hc Ha. pose proof (sec_spec llc f crc d Hf Hc Ha) as H. unfold nwp in H.
  unfold dvb_net_sec_callback, nthen. destruct (dvb_net_sec _ d) as [[[] d']|]; [|done].
  destruct H as (sk & H). by exists d', sk.
Qed.
End mpe.
