(* ===== verification/DvbNetDemo.v ===== *)
(** DVB network at work: an interface with the CRC-32 of the kernel, on which the theorems of
    DvbNetUle.v, DvbNetEncap.v and DvbNetIf.v are applied, and what the code does wrong. *)

From S2P Require Import Prelude RingBuffer DemuxTypes Demux DemuxSection DemuxStream DemuxFeed DemuxFeedProofs DvbNet DvbNetUle DvbNetEncap DvbNetIf.

(** ** An interface *)

(** crc32_be of lib/crc32.c, a bit at a time. *)
Definition crc_bit (c : Z) : Z :=
  let d := Z.land (Z.shiftl c 1) 0xffffffff in if Z.testbit c 31 then Z.lxor d 0x04c11db7 else d.
Definition crc_byte (c b : Z) : Z :=
  Z.land (Nat.iter 8 crc_bit (Z.lxor c (Z.shiftl b 24))) 0xffffffff.
Definition crc32 (c : Z) (l : list Z) : Z := foldl crc_byte (Z.land c 0xffffffff) l.

#[local] Instance demo_env : NetEnv := {| crc32_be := crc32; alloc_skb := fun _ => true |}.

Lemma crc32_u32 c l : 0 <= crc32_be c l < 2 ^ 32.
Proof.
  cbn. unfold crc32. assert (0 <= Z.land c 0xffffffff < 2 ^ 32) as H by (apply land_bound; lia).
  revert H. generalize (Z.land c 0xffffffff). induction l as [|b l IH]; intros d H; [done|].
  cbn [foldl]. apply IH. unfold crc_byte. apply land_bound; lia.
Qed.

Definition demo_addr : list Z := [0x02; 0x11; 0x22; 0x33; 0x44; 0x55].

Definition demo_priv : dvb_net_priv :=
  set_need_pusi 1 (reset_ule (mk_priv 1 100 None None None 0 (replicate 10 None)
    (replicate 10 (replicate 6 0)) RX_MODE_UNI 1 1 0 None 0 0 0 0 0 0 0 0)).

Definition demo_dev : net_device :=
  mk_dev demo_priv demo_addr (replicate 6 0xff) 0 [] (mk_stats 0 0 0 0 0 0 0) [] 0.

Definition bytes (l : list Z) : bool := forallb (fun b => (0 <=? b) && (b <? 256)) l.

Lemma bytes_ok l : bytes l = true -> Forall is_byte l.
Proof.
  unfold bytes, is_byte. rewrite forallb_forall, Forall_forall. intros H b Hb.
  specialize (H b (proj1 (list_elem_of_In _ _) Hb)). lia.
Qed.

(** Three datagrams: one for us, packed with one for somebody else. *)
Definition demo_snds : list (bool * sndu) :=
  [(false, mk_sndu (Some demo_addr) 0x0800 (replicate 60 0x45));
   (true, mk_sndu (Some (replicate 6 0x22)) 0x86dd (replicate 100 0x60));
   (true, mk_sndu None 0x0800 (replicate 40 0x46))].

Lemma demo_snds_ok : Forall sndu_ok demo_snds.*2.
Proof.
  repeat (apply Forall_cons_2; [constructor; [vm_compute; done|cbn; lia|vm_compute; split; done|by apply bytes_ok]|]).
  by apply Forall_nil.
Qed.

Lemma ule_roundtrip_witness :
  exists d' c', ule_receive (ule_send 100 7 demo_snds) demo_dev = inl (tt, d') /\ lost c' (nd_priv d') /\
    ether_of <$> nd_received d' =
      [] ++ (Some <$> (ether_for demo_dev <$> filter (fun f => accepted demo_dev f) demo_snds.*2)) /\
    errors_of (nd_stats d') = errors_of (nd_stats demo_dev).
Proof.
  apply (@ule_roundtrip demo_env crc32_u32 (fun _ => eq_refl) 100 7 demo_snds demo_dev 0).
  - vm_compute. split; discriminate.
  - exact demo_snds_ok.
  - vm_compute. repeat split; reflexivity.
Defined.

(** A cell of nonsense. *)
Definition noise : list Z := (fun i => (Z.of_nat i * 73 + 11) mod 256) <$> seq 0 188.


Definition demo_mpe : sndu := mk_sndu (Some demo_addr) 0x0800 (0x45 :: replicate 60 0x33).

Lemma demo_mpe_ok llc : mpe_ok llc demo_mpe.
Proof.
  constructor; [|by eexists|by intros _].
  constructor; [vm_compute; done|cbn; lia|vm_compute; split; done|by apply bytes_ok].
Qed.

Lemma mpe_roundtrip_witness :
  exists d' sk, dvb_net_sec_callback (mpe_section true demo_mpe [1; 2; 3; 4]) None demo_dev = inl (0, d') /\
    nd_received d' = nd_received demo_dev ++ [sk] /\ ether_of sk = Some (ether_for demo_dev demo_mpe) /\
    nd_stats d' = packet_in (zlen (sn_payload demo_mpe)) (nd_stats demo_dev) /\ nd_priv d' = nd_priv demo_dev.
Proof.
  apply (mpe_roundtrip true demo_mpe [1; 2; 3; 4] demo_dev); [apply demo_mpe_ok|reflexivity..].
Defined.

(** A demultiplexer, on which callbacks return 0. *)
#[local] Instance demo_demux_env : DemuxEnv :=
  {| Demux.crc32_be := crc32; cb_ret := fun _ => 0; dvb_demux_tscheck := 0; dvb_demux_speedcheck := 0;
     current_kernel_time := fun _ => (0, 0); timespec_delta_ns := fun _ _ => 0 |}.

(** A feed that holds the section of that datagram. *)
Definition demo_feed : dvb_demux_feed :=
  let sec := mpe_section false demo_mpe [1; 2; 3; 4] in
  set_seclen (zlen sec) (set_secbuf_base (sec ++ replicate 100 0) (sec_feed true)).

Lemma mac_filter_selects_witness :
  let sec := slice (secbuf_base demo_feed) (secbuf demo_feed) (seclen demo_feed) in
  exists f f', mac_filter 3 demo_addr mask_normal raw_filter = Some f /\ prepare_filter f = Some f' /\
    filter_priv f' = Some 3%nat /\
    dvb_dmx_swfilter_sectionfilter 0 demo_feed [] 0 f' =
      Some (if decide (byte sec 0 = 0x3e /\ masked demo_addr mask_normal = masked (section_mac sec) mask_normal)
            then ([CallSec 0 0 sec], cb_ret [CallSec 0 0 sec])
            else ([], 0)).
Proof.
  apply (mac_filter_selects 3 demo_addr mask_normal raw_filter 0 demo_feed [] 0);
    [reflexivity|reflexivity|apply bytes_ok; reflexivity|apply bytes_ok; reflexivity|
     repeat split; reflexivity|vm_compute; discriminate|vm_compute; discriminate|vm_compute; discriminate|
     apply bytes_ok; vm_compute; reflexivity].
Defined.

(** ** What goes wrong *)

(** The cells of one SNDU, whatever its type. *)
Definition sent (f : sndu) : list (list Z) := ule_send 100 0 [(false, f)].

(** An Ethernet frame with an IPv4 datagram, the identification of which is 1. *)
Definition ipv4_frame : list Z :=
  demo_addr ++ replicate 6 0x33 ++ [0x08; 0x00; 0x45; 0x00; 0x00; 0x1c; 0x00; 0x01] ++ replicate 24 0.

(** The bridged frame, after its destination was taken off. *)
Definition bridged_priv : dvb_net_priv :=
  set_ule_skb (Some (trimmed ipv4_frame (replicate 4 0)))
    (set_ule_sndu_len (zlen ipv4_frame + 10) (set_ule_sndu_type 1 (set_ule_dbit 0
      (set_ule_next_hdr 20 demo_priv)))).

Lemma exts_stuck p t : 
  handle_one_ule_extension p = Some (p, 0) -> ule_sndu_type p < 1536 -> forall fuel, handle_exts fuel t p = None.
Proof.
  intros H1 Ht fuel. revert t. induction fuel as [|fuel IH]; intros t; [done|]. cbn [handle_exts]. rewrite H1.
  cbn [mbind option_bind Z.ltb Z.compare]. rewrite (proj2 (Z.ltb_lt _ _)) by done. by apply IH.
Qed.

(** Fact: the loop over extension headers does not end on a bridged frame that comes with a
    destination address: the type is taken from 18 bytes into the frame, as if the
    address were still in front, and the identification 1 of its datagram is taken for
    another bridged header. *)
Theorem bridged_frame_hangs :
  (forall fuel, handle_exts fuel 0 bridged_priv = None) /\
  ule_receive (sent (mk_sndu (Some demo_addr) 1 ipv4_frame)) demo_dev = inr InSndu.
Proof.
  split; [|vm_compute; reflexivity]. intros [|fuel]; [done|].
  assert (exists q, handle_one_ule_extension bridged_priv = Some (q, 0) /\
            handle_one_ule_extension q = Some (q, 0) /\ ule_sndu_type q = 1) as (q & H1 & H2 & Ht).
  { eexists. split; [vm_compute; reflexivity|]. split; [vm_compute; reflexivity|]. reflexivity. }
  cbn [handle_exts]. rewrite H1. cbn [mbind option_bind Z.ltb Z.compare]. rewrite Ht. cbn [Z.ltb Z.compare].
  apply exts_stuck; [done|lia].
Qed.

(** Fact: the header type 255 is looked up behind the end of the tables of handlers. *)
Theorem header_255_faults p sk :
  ule_skb p = Some sk -> Z.land (ule_sndu_type p) 0x00FF = 0xFF -> handle_one_ule_extension p = None.
Proof. intros Hs Ht. unfold handle_one_ule_extension. rewrite Hs, Ht. cbn [mbind option_bind]. by case_match. Qed.

(** Fact: a pointer field of 184 is let through, and makes the decoder read behind its cell. *)
Theorem pointer_184_overreads :
  dvb_net_ule (ts_cell 100 0 true (184 :: replicate 183 0xff)) demo_dev = inr InCell.
Proof. vm_compute. reflexivity. Qed.

Definition ext_sndu : sndu := mk_sndu None 0x0100 (replicate 20 0x01).

(** Fact: extension headers are followed into the CRC: its first bytes become the protocol of
    a frame, which is received with its extension headers as payload. *)
Theorem extensions_run_into_crc :
  match ule_receive (sent ext_sndu) demo_dev with
  | inl (_, d) => ether_of <$> nd_received d =
      [Some (mk_ether (replicate 6 0) (replicate 6 0) (ntohs (take 2 (be32 (sndu_crc ext_sndu))))
               PACKET_HOST (replicate 20 0x01))]
  | inr _ => False
  end.
Proof. vm_compute. reflexivity. Qed.

(** Fact: an SNDU of five bytes is taken to have room for a destination address and a CRC. *)
Theorem short_sndu_overreads :
  ule_receive (sent (mk_sndu (Some [0x02]) 0x0800 [])) demo_dev = inr InSndu.
Proof. vm_compute. reflexivity. Qed.

Definition llc_frame : list Z := demo_addr ++ replicate 6 0x33 ++ [0; 30] ++ replicate 30 0x42.

(** Fact: a bridged 802.3 frame with the right length is dropped, silently: the length it is
    compared with includes the CRC of the SNDU. *)
Theorem bridged_llc_dropped :
  match ule_receive (sent (mk_sndu None 1 llc_frame)) demo_dev with
  | inl (_, d) => nd_received d = [] /\ nd_stats d = nd_stats demo_dev
  | inr _ => False
  end.
Proof. vm_compute. split; reflexivity. Qed.

(** A net device without interfaces, over a demultiplexer without feeds; there is no memory. *)
#[local] Instance no_memory : NetIfEnv :=
  {| net_intr := fun _ => false; alloc_netdev := fun _ => false; register_netdev := fun _ => 0;
     try_module_get := fun _ => true; proposed_mac := demo_addr |}.

Definition demo_net : dvb_net :=
  mk_net (replicate 10 None) (replicate 10 0) 0 (sec_demux false) [] 0 0.

(** Fact: an interface that could not be added keeps its place taken: asking for it, removing
    it and releasing the device all go through a NULL pointer. *)
Theorem failed_add_leaves_slot :
  exists n, dvb_net_do_ioctl false true (NET_ADD_IF 100 DVB_NET_FEEDTYPE_MPE) demo_net =
      Some ((- ENOMEM, NoAnswer), n) /\
    dvb_net_do_ioctl false true (NET_GET_IF 0) n = None /\
    dvb_net_do_ioctl false true (NET_REMOVE_IF 0) n = None /\
    dvb_net_release n = None.
Proof. eexists. split; [vm_compute; reflexivity|]. repeat split; vm_compute; reflexivity. Qed.
