(* ===== verification/MediaTypes.v ===== *)
(** The data of the media controller, include/media/media-entity.h and
    media-device.h: a graph of entities whose pads are connected by links.

    An entity is its index in [mg_entity], a pad is an entity and an index into
    its pads.  The arrays of links are on the heap ([mg_links]): a pointer to a
    link is the number of the allocation and an index into it, so a pointer into
    an array that krealloc has moved points nowhere.  A pointer field that holds
    NULL or was never written is [None]. *)

From stdpp Require Import gmap.
From S2P Require Import Prelude StateM.

#[global] Open Scope state_scope.

Definition ENOIOCTLCMD : Z := 515.

Definition MEDIA_ENT_ID_FLAG_NEXT : Z := 2 ^ 31.
Definition MEDIA_LNK_FL_ENABLED : Z := 1.
Definition MEDIA_LNK_FL_IMMUTABLE : Z := 2.
Definition MEDIA_LNK_FL_DYNAMIC : Z := 4.
Definition MEDIA_ENTITY_ENUM_MAX_DEPTH : Z := 16.

(** ** Data *)

Abbreviation pad_ptr := (nat * nat)%type.
Abbreviation link_ptr := (nat * nat)%type.

Record media_link := mk_link {
  ml_source : option pad_ptr;
  ml_sink : option pad_ptr;
  ml_reverse : option link_ptr;
  ml_flags : Z;   (* unsigned long *)
}.

Definition set_ml_reverse (v : option link_ptr) (r : media_link) : media_link :=
  mk_link (ml_source r) (ml_sink r) v (ml_flags r).
Definition set_ml_flags (v : Z) (r : media_link) : media_link :=
  mk_link (ml_source r) (ml_sink r) (ml_reverse r) v.

Record media_pad := mk_pad {
  mp_entity : nat;
  mp_index : Z;   (* u16 *)
  mp_flags : Z;   (* unsigned long *)
}.

Definition set_mp_entity (v : nat) (r : media_pad) : media_pad :=
  mk_pad v (mp_index r) (mp_flags r).
Definition set_mp_index (v : Z) (r : media_pad) : media_pad :=
  mk_pad (mp_entity r) v (mp_flags r).

Record media_entity := mk_entity {
  me_parent : bool;   (* registered with the media device *)
  me_id : Z;   (* u32 *)
  me_name : list Z;
  me_type : Z;   (* u32 *)
  me_revision : Z;   (* u32 *)
  me_flags : Z;   (* unsigned long *)
  me_group_id : Z;   (* u32 *)
  me_num_pads : Z;   (* u16 *)
  me_num_links : Z;   (* u16 *)
  me_num_backlinks : Z;   (* u16 *)
  me_max_links : Z;   (* u16 *)
  me_pads : list media_pad;
  me_links : option nat;   (* allocation of the array of links *)
  me_stream_count : Z;   (* int *)
  me_pipe : option nat;
  me_major : Z;   (* u32, the union's v4l *)
  me_minor : Z;   (* u32 *)
}.

Definition set_me_parent (v : bool) (r : media_entity) : media_entity :=
  mk_entity v (me_id r) (me_name r) (me_type r) (me_revision r) (me_flags r)
    (me_group_id r) (me_num_pads r) (me_num_links r) (me_num_backlinks r)
    (me_max_links r) (me_pads r) (me_links r) (me_stream_count r) (me_pipe r)
    (me_major r) (me_minor r).
Definition set_me_id (v : Z) (r : media_entity) : media_entity :=
  mk_entity (me_parent r) v (me_name r) (me_type r) (me_revision r) (me_flags r)
    (me_group_id r) (me_num_pads r) (me_num_links r) (me_num_backlinks r)
    (me_max_links r) (me_pads r) (me_links r) (me_stream_count r) (me_pipe r)
    (me_major r) (me_minor r).
Definition set_me_group_id (v : Z) (r : media_entity) : media_entity :=
  mk_entity (me_parent r) (me_id r) (me_name r) (me_type r) (me_revision r)
    (me_flags r) v (me_num_pads r) (me_num_links r) (me_num_backlinks r)
    (me_max_links r) (me_pads r) (me_links r) (me_stream_count r) (me_pipe r)
    (me_major r) (me_minor r).
Definition set_me_num_pads (v : Z) (r : media_entity) : media_entity :=
  mk_entity (me_parent r) (me_id r) (me_name r) (me_type r) (me_revision r)
    (me_flags r) (me_group_id r) v (me_num_links r) (me_num_backlinks r)
    (me_max_links r) (me_pads r) (me_links r) (me_stream_count r) (me_pipe r)
    (me_major r) (me_minor r).
Definition set_me_num_links (v : Z) (r : media_entity) : media_entity :=
  mk_entity (me_parent r) (me_id r) (me_name r) (me_type r) (me_revision r)
    (me_flags r) (me_group_id r) (me_num_pads r) v (me_num_backlinks r)
    (me_max_links r) (me_pads r) (me_links r) (me_stream_count r) (me_pipe r)
    (me_major r) (me_minor r).
Definition set_me_num_backlinks (v : Z) (r : media_entity) : media_entity :=
  mk_entity (me_parent r) (me_id r) (me_name r) (me_type r) (me_revision r)
    (me_flags r) (me_group_id r) (me_num_pads r) (me_num_links r) v (me_max_links r)
    (me_pads r) (me_links r) (me_stream_count r) (me_pipe r) (me_major r)
    (me_minor r).
Definition set_me_max_links (v : Z) (r : media_entity) : media_entity :=
  mk_entity (me_parent r) (me_id r) (me_name r) (me_type r) (me_revision r)
    (me_flags r) (me_group_id r) (me_num_pads r) (me_num_links r)
    (me_num_backlinks r) v (me_pads r) (me_links r) (me_stream_count r) (me_pipe r)
    (me_major r) (me_minor r).
Definition set_me_pads (v : list media_pad) (r : media_entity) : media_entity :=
  mk_entity (me_parent r) (me_id r) (me_name r) (me_type r) (me_revision r)
    (me_flags r) (me_group_id r) (me_num_pads r) (me_num_links r)
    (me_num_backlinks r) (me_max_links r) v (me_links r) (me_stream_count r)
    (me_pipe r) (me_major r) (me_minor r).
Definition set_me_links (v : option nat) (r : media_entity) : media_entity :=
  mk_entity (me_parent r) (me_id r) (me_name r) (me_type r) (me_revision r)
    (me_flags r) (me_group_id r) (me_num_pads r) (me_num_links r)
    (me_num_backlinks r) (me_max_links r) (me_pads r) v (me_stream_count r)
    (me_pipe r) (me_major r) (me_minor r).
Definition set_me_stream_count (v : Z) (r : media_entity) : media_entity :=
  mk_entity (me_parent r) (me_id r) (me_name r) (me_type r) (me_revision r)
    (me_flags r) (me_group_id r) (me_num_pads r) (me_num_links r)
    (me_num_backlinks r) (me_max_links r) (me_pads r) (me_links r) v (me_pipe r)
    (me_major r) (me_minor r).
Definition set_me_pipe (v : option nat) (r : media_entity) : media_entity :=
  mk_entity (me_parent r) (me_id r) (me_name r) (me_type r) (me_revision r)
    (me_flags r) (me_group_id r) (me_num_pads r) (me_num_links r)
    (me_num_backlinks r) (me_max_links r) (me_pads r) (me_links r)
    (me_stream_count r) v (me_major r) (me_minor r).

(** The structs of include/linux/media.h that are copied to the user; the
    padding between fields is left out. *)
Record media_entity_desc := mk_entity_desc {
  ed_id : Z;   (* u32 *)
  ed_name : list Z;   (* 32 bytes *)
  ed_type : Z;   (* u32 *)
  ed_revision : Z;   (* u32 *)
  ed_flags : Z;   (* u32 *)
  ed_group_id : Z;   (* u32 *)
  ed_pads : Z;   (* u16 *)
  ed_links : Z;   (* u16 *)
  ed_reserved : list Z;   (* 4 u32 *)
  ed_major : Z;   (* u32, the union's v4l *)
  ed_minor : Z;   (* u32 *)
  ed_raw : list Z;   (* the other 176 bytes of the union *)
}.

Record media_pad_desc := mk_pad_desc {
  pd_entity : Z;   (* u32 *)
  pd_index : Z;   (* u16 *)
  pd_flags : Z;   (* u32 *)
  pd_reserved : list Z;   (* 2 u32 *)
}.

Record media_link_desc := mk_link_desc {
  ld_source : media_pad_desc;
  ld_sink : media_pad_desc;
  ld_flags : Z;   (* u32 *)
  ld_reserved : list Z;   (* 2 u32 *)
}.

(** The user's pointers are only compared with NULL. *)
Record media_links_enum := mk_links_enum {
  le_entity : Z;   (* u32 *)
  le_pads : bool;
  le_links : bool;
  le_reserved : list Z;   (* 4 u32 *)
}.

(** What is copied to the user: a whole struct, or an element of the arrays
    [links.pads] and [links.links]. *)
Inductive user_write :=
  | WriteEntity (d : media_entity_desc)
  | WritePad (i : Z) (d : media_pad_desc)
  | WriteLink (i : Z) (d : media_link_desc)
  | WriteLinks (d : media_links_enum)
  | WriteSetup (d : media_link_desc).

(** What the code calls and does not contain. *)
Inductive media_call :=
  | CallLinkSetup (entity : nat) (local remote : pad_ptr) (flags ret : Z)
  | CallLinkNotify (source sink : pad_ptr) (flags ret : Z)
  | CallCopyToUser (w : user_write) (fails : bool).

(** The entities, the heap of links, and the fields of [struct media_device]. *)
Record media_graph := mk_graph {
  mg_entity : list media_entity;
  mg_links : gmap nat (list media_link);
  mg_entity_id : Z;   (* u32 *)
  mg_entities : list nat;   (* the list of registered entities *)
  mg_mutex : bool;   (* graph_mutex *)
  mg_log : list media_call;   (* ghost: calls made *)
  mg_tick : nat;   (* ghost: questions asked to the environment *)
}.

Definition set_mg_entity (v : list media_entity) (r : media_graph) : media_graph :=
  mk_graph v (mg_links r) (mg_entity_id r) (mg_entities r) (mg_mutex r) (mg_log r)
    (mg_tick r).
Definition set_mg_links (v : gmap nat (list media_link)) (r : media_graph) : media_graph :=
  mk_graph (mg_entity r) v (mg_entity_id r) (mg_entities r) (mg_mutex r) (mg_log r)
    (mg_tick r).
Definition set_mg_entity_id (v : Z) (r : media_graph) : media_graph :=
  mk_graph (mg_entity r) (mg_links r) v (mg_entities r) (mg_mutex r) (mg_log r)
    (mg_tick r).
Definition set_mg_entities (v : list nat) (r : media_graph) : media_graph :=
  mk_graph (mg_entity r) (mg_links r) (mg_entity_id r) v (mg_mutex r) (mg_log r)
    (mg_tick r).
Definition set_mg_mutex (v : bool) (r : media_graph) : media_graph :=
  mk_graph (mg_entity r) (mg_links r) (mg_entity_id r) (mg_entities r) v (mg_log r)
    (mg_tick r).
Definition set_mg_log (v : list media_call) (r : media_graph) : media_graph :=
  mk_graph (mg_entity r) (mg_links r) (mg_entity_id r) (mg_entities r)
    (mg_mutex r) v (mg_tick r).
Definition set_mg_tick (v : nat) (r : media_graph) : media_graph :=
  mk_graph (mg_entity r) (mg_links r) (mg_entity_id r) (mg_entities r) (mg_mutex r)
    (mg_log r) v.

(** How a call of krealloc ends. *)
Inductive realloc := ReallocFails | ReallocInPlace | ReallocMoves.

Class MediaEnv := {
  links_kzalloc_fails : nat -> bool;
  links_krealloc : nat -> realloc;
  link_setup : nat -> option (nat -> pad_ptr -> pad_ptr -> Z -> Z);   (* per entity *)
  link_notify : option (nat -> pad_ptr -> pad_ptr -> Z -> Z);
  media_copy_from_fails : nat -> bool;
  media_copy_to_fails : nat -> bool;
  strlcpy : list Z -> list Z -> list Z;   (* the destination after it; destination, source *)
  media_devnode_register : nat -> Z;
  device_create_file : nat -> Z;
}.
