(* ===== verification/MediaEntity.v ===== *)
(** drivers/media/media-entity.c: links between the entities of a media device,
    and walks over them.

    One definition per function, in the order of the file, in the monad of
    StateM.v over [media_graph].  The walk is the code's: a stack of 16 frames
    in an array, a depth-first search that remembers only where it came from.
    Its loops run on fuel; MediaWalk.v proves how much is enough. *)

From stdpp Require Import gmap.
From S2P Require Import Prelude StateM MediaTypes.

Abbreviation mediaM := (stateM media_graph).

(** ** Accesses *)

Definition me_get (e : nat) : mediaM media_entity := l <- gets mg_entity ;; the (l !! e).
Definition me_upd (e : nat) (f : media_entity -> media_entity) : mediaM unit :=
  x <- me_get e ;; l <- gets mg_entity ;; modify (set_mg_entity (<[e := f x]> l)).

(** [pad->entity] and the like. *)
Definition pad_get (p : pad_ptr) : mediaM media_pad := x <- me_get p.1 ;; the (me_pads x !! p.2).
(** [&entity->pads[pad]] *)
Definition pad_at (e : nat) (pad : Z) : mediaM pad_ptr :=
  x <- me_get e ;; the ((me_pads x).[pad]) ;; mdo (e, Z.to_nat pad).

Definition ml_get (p : link_ptr) : mediaM media_link :=
  h <- gets mg_links ;; a <- the (h !! p.1) ;; the (a !! p.2).
Definition ml_upd (p : link_ptr) (f : media_link -> media_link) : mediaM unit :=
  h <- gets mg_links ;; a <- the (h !! p.1) ;; x <- the (a !! p.2) ;;
  modify (set_mg_links (<[p.1 := <[p.2 := f x]> a]> h)).

(** [&entity->links[i]] *)
Definition link_at (e : nat) (i : Z) : mediaM link_ptr :=
  x <- me_get e ;; a <- the (me_links x) ;; mdo (a, Z.to_nat i).

(** [link->source->entity] and [link->sink->entity]. *)
Definition source_entity (l : media_link) : mediaM nat :=
  p <- the (ml_source l) ;; x <- pad_get p ;; mdo (mp_entity x).
Definition sink_entity (l : media_link) : mediaM nat :=
  p <- the (ml_sink l) ;; x <- pad_get p ;; mdo (mp_entity x).

(** A use of [entity->parent]. *)
Definition parent (e : nat) : mediaM unit := x <- me_get e ;; if me_parent x then mdo tt else fault.

Definition mg_ask : mediaM nat :=
  n <- gets mg_tick ;; modify (set_mg_tick (S n)) ;; mdo n.
Definition mg_call (c : media_call) : mediaM unit :=
  l <- gets mg_log ;; modify (set_mg_log (l ++ [c])).

Definition lock_graph : mediaM unit :=
  b <- gets mg_mutex ;; if (b : bool) then fault else modify (set_mg_mutex true).
Definition unlock_graph : mediaM unit := modify (set_mg_mutex false).

(** A number no allocation has. *)
Definition fresh_alloc (h : gmap nat (list media_link)) : nat := fresh (dom h).

Definition null_link : media_link := mk_link None None None 0.

Section ops.
Context {E : MediaEnv}.

(** ** Initialisation *)

(** [pads] is the array of the driver. *)
Definition media_entity_init (e : nat) (num_pads : Z) (pads : list media_pad) (extra_links : Z) :
    mediaM Z :=
  n <- mg_ask ;;
  if links_kzalloc_fails n then mdo (- ENOMEM)
  else
    h <- gets mg_links ;;
    let max_links := num_pads + extra_links in
    let a := fresh_alloc h in
    modify (set_mg_links (<[a := replicate (Z.to_nat max_links) null_link]> h)) ;;
    me_upd e (fun x =>
      set_me_links (Some a) (set_me_pads pads (set_me_num_pads num_pads
        (set_me_num_backlinks 0 (set_me_num_links 0 (set_me_max_links (u16 max_links)
          (set_me_group_id 0 x))))))) ;;
    mfor (seqZ 0 num_pads) (fun i =>
      x <- me_get e ;; p <- the ((me_pads x).[i]) ;;
      me_upd e (set_me_pads
        (<[Z.to_nat i := set_mp_index (u16 i) (set_mp_entity e p)]> (me_pads x)))) ;;
    mdo 0.

Definition media_entity_cleanup (e : nat) : mediaM unit :=
  x <- me_get e ;; a <- the (me_links x) ;; h <- gets mg_links ;;
  modify (set_mg_links (delete a h)).

(** ** Graph traversal *)

Definition media_entity_other (e : nat) (l : media_link) : mediaM nat :=
  s <- source_entity l ;; if decide (s = e) then sink_entity l else source_entity l.

(** One slot of the stack, which lies on the caller's stack: a field that was
    never written is [None]. *)
Record walk_frame := mk_frame {
  wf_entity : option (option nat);
  wf_link : option Z;   (* int *)
}.

Record media_entity_graph := mk_walk {
  gr_stack : list walk_frame;   (* 16 elements *)
  gr_top : Z;   (* int *)
}.

Definition stack_push (g : media_entity_graph) (entity : nat) : option media_entity_graph :=
  if gr_top g =? MEDIA_ENTITY_ENUM_MAX_DEPTH - 1 then Some g
  else
    let top := gr_top g + 1 in
    st ← mset (gr_stack g) top (mk_frame (Some (Some entity)) (Some 0));
    Some (mk_walk st top).

Definition frame_entity (g : media_entity_graph) (i : Z) : option (option nat) :=
  f ← (gr_stack g).[i]; wf_entity f.
Definition stack_peek (g : media_entity_graph) : option (option nat) := frame_entity g (gr_top g - 1).
Definition stack_top (g : media_entity_graph) : option (option nat) := frame_entity g (gr_top g).
Definition link_top (g : media_entity_graph) : option Z := f ← (gr_stack g).[gr_top g]; wf_link f.

(** [link_top(graph)++] *)
Definition link_top_inc (g : media_entity_graph) : option media_entity_graph :=
  f ← (gr_stack g).[gr_top g]; l ← wf_link f;
  st ← mset (gr_stack g) (gr_top g) (mk_frame (wf_entity f) (Some (l + 1)));
  Some (mk_walk st (gr_top g)).

Definition stack_pop (g : media_entity_graph) : option (option nat * media_entity_graph) :=
  e ← stack_top g; Some (e, mk_walk (gr_stack g) (gr_top g - 1)).

(** [st] is what the caller's stack held. *)
Definition media_entity_graph_walk_start (st : list walk_frame) (entity : nat) :
    option media_entity_graph :=
  f ← st.[0]; st ← mset st 0 (mk_frame (Some None) (wf_link f));
  stack_push (mk_walk st 0) entity.

Definition enabled (l : media_link) : bool := truthy (Z.land (ml_flags l) MEDIA_LNK_FL_ENABLED).

(** The loop of [media_entity_graph_walk_next]. *)
Fixpoint walk_loop (fuel : nat) (g : media_entity_graph) : mediaM media_entity_graph :=
  top <- the (stack_top g) ;; entity <- the top ;; lt <- the (link_top g) ;;
  x <- me_get entity ;;
  if lt <? me_num_links x then
    match fuel with
    | O => fault
    | S fuel =>
      p <- link_at entity lt ;; link <- ml_get p ;;
      if negb (enabled link) then g <- the (link_top_inc g) ;; walk_loop fuel g
      else
        next <- media_entity_other entity link ;;
        from <- the (stack_peek g) ;;
        g <- the (link_top_inc g) ;;
        if decide (from = Some next) then walk_loop fuel g
        else g <- the (stack_push g next) ;; walk_loop fuel g
    end
  else mdo g.

Definition media_entity_graph_walk_next (fuel : nat) (g : media_entity_graph) :
    mediaM (option nat * media_entity_graph) :=
  top <- the (stack_top g) ;;
  match top with
  | None => mdo (None, g)
  | Some _ => g <- walk_loop fuel g ;; the (stack_pop g)
  end.

(** ** Pipelines *)

(** [while ((entity = media_entity_graph_walk_next(&graph))) body] *)
Fixpoint walk_entities (fuel walk_fuel : nat) (g : media_entity_graph) (body : nat -> mediaM unit) :
    mediaM unit :=
  r <- media_entity_graph_walk_next walk_fuel g ;;
  match r with
  | (None, _) => mdo tt
  | (Some e, g) =>
    match fuel with O => fault | S fuel => body e ;; walk_entities fuel walk_fuel g body end
  end.

Definition start_entity (pipe : nat) (e : nat) : mediaM unit :=
  me_upd e (fun x => set_me_pipe (Some pipe) (set_me_stream_count (s32 (me_stream_count x + 1)) x)).

Definition stop_entity (e : nat) : mediaM unit :=
  me_upd e (fun x => set_me_stream_count (s32 (me_stream_count x - 1)) x) ;;
  x <- me_get e ;;
  if me_stream_count x =? 0 then me_upd e (set_me_pipe None) else mdo tt.

Definition media_entity_pipeline_start (fuel walk_fuel : nat) (st : list walk_frame)
    (entity pipe : nat) : mediaM unit :=
  parent entity ;; lock_graph ;;
  g <- the (media_entity_graph_walk_start st entity) ;;
  walk_entities fuel walk_fuel g (start_entity pipe) ;;
  unlock_graph.

Definition media_entity_pipeline_stop (fuel walk_fuel : nat) (st : list walk_frame) (entity : nat) :
    mediaM unit :=
  parent entity ;; lock_graph ;;
  g <- the (media_entity_graph_walk_start st entity) ;;
  walk_entities fuel walk_fuel g stop_entity ;;
  unlock_graph.

(** ** Links *)

(** The new array when the old one was too small (krealloc of NULL allocates):
    its new elements hold anything, and every pointer into an array that moves
    is dangling until the loop has set it. *)
Definition grow_links (e : nat) : mediaM (option unit) :=
  x <- me_get e ;;
  n <- mg_ask ;; h <- gets mg_links ;;
  old <- match me_links x with Some a => the (h !! a) | None => mdo [] end ;;
  let max_links := me_max_links x + 2 in
  let new := take (Z.to_nat max_links) (old ++ replicate (Z.to_nat max_links) null_link) in
  match links_krealloc n with
  | ReallocFails => mdo None
  | r =>
    let b := match r, me_links x with ReallocInPlace, Some a => a | _, _ => fresh_alloc h end in
    let h := match me_links x with Some a => delete a h | None => h end in
    modify (set_mg_links (<[b := new]> h)) ;;
    mfor (seqZ 0 (me_num_links x)) (fun i =>
      l <- ml_get (b, Z.to_nat i) ;; q <- the (ml_reverse l) ;;
      ml_upd q (set_ml_reverse (Some (b, Z.to_nat i)))) ;;
    me_upd e (fun x => set_me_links (Some b) (set_me_max_links (u16 max_links) x)) ;;
    mdo (Some tt)
  end.

Definition media_entity_add_link (e : nat) : mediaM (option link_ptr) :=
  x <- me_get e ;;
  r <- (if me_num_links x >=? me_max_links x then grow_links e else mdo (Some tt)) ;;
  match r with
  | None => mdo None
  | Some _ =>
    p <- link_at e (me_num_links x) ;;
    me_upd e (set_me_num_links (u16 (me_num_links x + 1))) ;;
    mdo (Some p)
  end.

(** [link->source = ...; link->sink = ...; link->flags = flags;] *)
Definition write_link (p : link_ptr) (source sink : pad_ptr) (flags : Z) : mediaM unit :=
  ml_upd p (fun l => mk_link (Some source) (Some sink) (ml_reverse l) flags).

(** [BUG_ON] stops the kernel. *)
Definition media_entity_create_link (source : nat) (source_pad : Z) (sink : nat) (sink_pad : Z)
    (flags : Z) : mediaM Z :=
  x <- me_get source ;; y <- me_get sink ;;
  if (source_pad >=? me_num_pads x) || (sink_pad >=? me_num_pads y) then fault
  else
    link <- media_entity_add_link source ;;
    match link with
    | None => mdo (- ENOMEM)
    | Some link =>
      p <- pad_at source source_pad ;; q <- pad_at sink sink_pad ;;
      write_link link p q flags ;;
      backlink <- media_entity_add_link sink ;;
      match backlink with
      | None =>
        me_upd source (fun x => set_me_num_links (u16 (me_num_links x - 1)) x) ;;
        mdo (- ENOMEM)
      | Some backlink =>
        write_link backlink p q flags ;;
        ml_upd link (set_ml_reverse (Some backlink)) ;;
        ml_upd backlink (set_ml_reverse (Some link)) ;;
        me_upd sink (fun x => set_me_num_backlinks (u16 (me_num_backlinks x + 1)) x) ;;
        mdo 0
      end
    end.

(** [media_entity_call(entity, link_setup, local, remote, flags)] *)
Definition call_link_setup (e : nat) (local remote : pad_ptr) (flags : Z) : mediaM Z :=
  match link_setup e with
  | None => mdo (- ENOIOCTLCMD)
  | Some f =>
    n <- mg_ask ;; let ret := f n local remote flags in
    mg_call (CallLinkSetup e local remote flags ret) ;; mdo ret
  end.

Definition refused (ret : Z) : bool := (ret <? 0) && negb (ret =? - ENOIOCTLCMD).

Definition __media_entity_setup_link_notify (link : link_ptr) (flags : Z) : mediaM Z :=
  l <- ml_get link ;; p <- the (ml_source l) ;; q <- the (ml_sink l) ;;
  source <- source_entity l ;; sink <- sink_entity l ;;
  ret <- call_link_setup source p q flags ;;
  if refused ret then mdo ret
  else
    ret <- call_link_setup sink q p flags ;;
    if refused ret then
      call_link_setup source p q (ml_flags l) ;; mdo ret
    else
      r <- the (ml_reverse l) ;;
      ml_upd link (set_ml_flags flags) ;;
      ml_upd r (set_ml_flags flags) ;;
      mdo 0.

(** [if (mdev->link_notify) ...], the device being the parent of [source]. *)
Definition call_link_notify (source : nat) (p q : pad_ptr) (flags : Z) : mediaM Z :=
  parent source ;;
  match link_notify with
  | None => mdo 0
  | Some f =>
    n <- mg_ask ;; let ret := f n p q flags in
    mg_call (CallLinkNotify p q flags ret) ;; mdo ret
  end.

(** The flags a link keeps: all but MEDIA_LNK_FL_ENABLED. *)
Definition fixed_flags (flags : Z) : Z := Z.land flags (u32 (Z.lnot MEDIA_LNK_FL_ENABLED)).

Definition __media_entity_setup_link (link : option link_ptr) (flags : Z) : mediaM Z :=
  match link with
  | None => mdo (- EINVAL)
  | Some link =>
    l <- ml_get link ;;
    if negb (fixed_flags (ml_flags l) =? fixed_flags flags) then mdo (- EINVAL)
    else if truthy (Z.land (ml_flags l) MEDIA_LNK_FL_IMMUTABLE) then
      mdo (if ml_flags l =? flags then 0 else - EINVAL)
    else if ml_flags l =? flags then mdo 0
    else
      p <- the (ml_source l) ;; q <- the (ml_sink l) ;;
      source <- source_entity l ;; sink <- sink_entity l ;;
      x <- me_get source ;; y <- me_get sink ;;
      if (Z.land (ml_flags l) MEDIA_LNK_FL_DYNAMIC =? 0) &&
         (truthy (me_stream_count x) || truthy (me_stream_count y))
      then mdo (- EBUSY)
      else
        let enable := truthy (Z.land flags MEDIA_LNK_FL_ENABLED) in
        ret <- (if enable then call_link_notify source p q MEDIA_LNK_FL_ENABLED else mdo 0) ;;
        if ret <? 0 then mdo ret
        else
          ret <- __media_entity_setup_link_notify link flags ;;
          if ret <? 0 then
            (if enable then call_link_notify source p q 0 ;; mdo tt else mdo tt) ;; mdo ret
          else
            (if enable then mdo tt else call_link_notify source p q 0 ;; mdo tt) ;; mdo 0
  end.

Definition media_entity_setup_link (link : link_ptr) (flags : Z) : mediaM Z :=
  l <- ml_get link ;; source <- source_entity l ;; parent source ;;
  lock_graph ;; ret <- __media_entity_setup_link (Some link) flags ;; unlock_graph ;; mdo ret.

(** The loop of [media_entity_find_link] over the links from [i] on. *)
Fixpoint find_link_loop (n : nat) (i : Z) (e : nat) (source sink : media_pad) :
    mediaM (option link_ptr) :=
  match n with
  | O => mdo None
  | S n =>
    link <- link_at e i ;; l <- ml_get link ;;
    p <- the (ml_source l) ;; p <- pad_get p ;; q <- the (ml_sink l) ;; q <- pad_get q ;;
    if bool_decide (mp_entity p = mp_entity source) && (mp_index p =? mp_index source) &&
       bool_decide (mp_entity q = mp_entity sink) && (mp_index q =? mp_index sink)
    then mdo (Some link)
    else find_link_loop n (i + 1) e source sink
  end.

Definition media_entity_find_link (source sink : pad_ptr) : mediaM (option link_ptr) :=
  p <- pad_get source ;; q <- pad_get sink ;; x <- me_get (mp_entity p) ;;
  find_link_loop (Z.to_nat (me_num_links x)) 0 (mp_entity p) p q.

Fixpoint remote_source_loop (n : nat) (i : Z) (e : nat) (pad : pad_ptr) :
    mediaM (option pad_ptr) :=
  match n with
  | O => mdo None
  | S n =>
    link <- link_at e i ;; l <- ml_get link ;;
    if negb (enabled l) then remote_source_loop n (i + 1) e pad
    else if decide (ml_source l = Some pad) then mdo (ml_sink l)
    else if decide (ml_sink l = Some pad) then mdo (ml_source l)
    else remote_source_loop n (i + 1) e pad
  end.

Definition media_entity_remote_source (pad : pad_ptr) : mediaM (option pad_ptr) :=
  p <- pad_get pad ;; x <- me_get (mp_entity p) ;;
  remote_source_loop (Z.to_nat (me_num_links x)) 0 (mp_entity p) pad.
End ops.
