(* ===== verification/MediaWalk.v ===== *)
(** The graph walk of media-entity.c computes a bounded depth-first search:
    what it visits, that it ends, and what the pipeline functions built on it do
    to the stream counts. *)

From stdpp Require Import gmap.
From S2P Require Import Prelude StateM MediaTypes MediaEntity.

(** ** The graph a walk sees *)

(** The entity at the other end of an enabled link. *)
Definition pad_entity (s : media_graph) (p : option pad_ptr) : option nat :=
  p ← p; x ← mg_entity s !! p.1; q ← me_pads x !! p.2; Some (mp_entity q).
Definition other_end (s : media_graph) (e : nat) (l : media_link) : option nat :=
  a ← pad_entity s (ml_source l);
  if decide (a = e) then pad_entity s (ml_sink l) else Some a.

(** The first [me_num_links] elements of the entity's array. *)
Definition links_of (s : media_graph) (e : nat) : list media_link :=
  match mg_entity s !! e with
  | Some x =>
    match me_links x with
    | Some a => take (Z.to_nat (me_num_links x)) (default [] (mg_links s !! a))
    | None => []
    end
  | None => []
  end.

(** The neighbours of [e] over enabled links, in the order of the links and
    once per link. *)
Definition neighbour (s : media_graph) (e : nat) (l : media_link) : option nat :=
  if enabled l then other_end s e l else None.
Definition neighbours (s : media_graph) (e : nat) (ls : list media_link) : list nat :=
  omap (neighbour s e) ls.

(** ** The specification: a recursive search *)

(** What is visited from [e], reached from [from], with room for [n] more
    entities on the stack: everything behind the neighbours other than [from],
    then [e]. *)
Fixpoint visit (s : media_graph) (n : nat) (from : option nat) (e : nat) : list nat :=
  match n with
  | O => []
  | S n => mjoin ((fun x => visit s n (Some e) x) <$>
                  filter (fun x => from <> Some x) (neighbours s e (links_of s e)))
  end ++ [e].

(** The stack of a walk holds 15 entities. *)
Definition walk (s : media_graph) (e : nat) : list nat := visit s 14 None e.

(** The graph is all there: arrays of the right size, no dangling pointers. *)
Record graph_ok (s : media_graph) : Prop := {
  go_links : forall e x, mg_entity s !! e = Some x -> 0 <= me_num_links x /\
    (0 < me_num_links x -> exists a ls, me_links x = Some a /\ mg_links s !! a = Some ls /\
       me_num_links x <= zlen ls);
  go_ends : forall e l, l ∈ links_of s e -> exists p q,
    pad_entity s (ml_source l) = Some p /\ pad_entity s (ml_sink l) = Some q /\
    (e = p \/ e = q) /\ is_Some (mg_entity s !! p) /\ is_Some (mg_entity s !! q);
}.

(** Iterations of the inner loop are at most the links on the stack. *)
Definition max_links (s : media_graph) : nat :=
  foldr Nat.max 0%nat ((fun x => Z.to_nat (me_num_links x)) <$> mg_entity s).
Definition enough_fuel (s : media_graph) : nat := (16 * max_links s)%nat.

(** ** The stack *)

Definition from_of (stk : list (nat * Z)) : option nat := fst <$> head stk.

Fixpoint holds_stack (st : list walk_frame) (stk : list (nat * Z)) : Prop :=
  match stk with
  | [] => exists l, st.[0] = Some (mk_frame (Some None) l)
  | (e, l) :: stk => st.[zlen stk + 1] = Some (mk_frame (Some (Some e)) (Some l)) /\ holds_stack st stk
  end.

Record represents (g : media_entity_graph) (stk : list (nat * Z)) : Prop := {
  rp_top : gr_top g = zlen stk;
  rp_room : zlen stk <= 15;
  rp_len : zlen (gr_stack g) = 16;
  rp_frames : holds_stack (gr_stack g) stk;
}.

Lemma holds_stack_insert st stk i f :
  zlen stk < i -> holds_stack st stk -> holds_stack (<[Z.to_nat i := f]> st) stk.
Proof.
  assert (Hget : forall j, 0 <= j < i -> (<[Z.to_nat i := f]> st).[j] = st.[j]).
  { intros j Hj. unfold mget. rewrite !bool_decide_true by lia. apply list_lookup_insert_ne. lia. }
  induction stk as [|[e l] stk IH]; intros Hi; cbn [holds_stack].
  - intros [l Hl]. exists l. rewrite Hget by (unfold zlen in Hi; cbn in Hi; lia). done.
  - rewrite zlen_cons in Hi. intros [H1 H2]. pose proof (zlen_nonneg stk).
    rewrite Hget by lia. split; [done|]. apply IH; [lia|done].
Qed.

Lemma represents_push g stk e :
  represents g stk -> zlen stk < 15 ->
  exists g', stack_push g e = Some g' /\ represents g' ((e, 0) :: stk).
Proof.
  intros [Ht Hr Hl Hf] Hlt. pose proof (zlen_nonneg stk). unfold stack_push.
  rewrite Ht. unfold MEDIA_ENTITY_ENUM_MAX_DEPTH. rewrite (proj2 (Z.eqb_neq _ _)) by lia.
  unfold mset. rewrite bool_decide_true by lia. cbn [mbind option_bind].
  eexists. split; [done|]. split; cbn [gr_top gr_stack].
  - rewrite zlen_cons. lia.
  - rewrite zlen_cons. lia.
  - by rewrite zlen_insert.
  - split; [|apply holds_stack_insert; [lia|done]].
    unfold mget. rewrite bool_decide_true by lia. apply list_lookup_insert_eq. unfold zlen in *. lia.
Qed.

Lemma push_full g stk e : represents g stk -> zlen stk = 15 -> stack_push g e = Some g.
Proof. intros [Ht _ _ _] H. unfold stack_push. by rewrite Ht, H. Qed.

Lemma represents_inc g e l stk :
  represents g ((e, l) :: stk) ->
  exists g', link_top_inc g = Some g' /\ represents g' ((e, l + 1) :: stk).
Proof.
  intros [Ht Hr Hl [Hf Hs]]. rewrite zlen_cons in *. pose proof (zlen_nonneg stk).
  unfold link_top_inc. replace (gr_top g) with (zlen stk + 1) by lia. rewrite Hf. cbn [mbind option_bind wf_link].
  unfold mset. rewrite bool_decide_true by lia. eexists. split; [done|].
  split; cbn [gr_top gr_stack wf_entity].
  - rewrite zlen_cons. lia.
  - rewrite zlen_cons. lia.
  - by rewrite zlen_insert.
  - split; [|apply holds_stack_insert; [lia|done]].
    unfold mget. rewrite bool_decide_true by lia. apply list_lookup_insert_eq. unfold zlen in *. lia.
Qed.

Lemma represents_top g e l stk :
  represents g ((e, l) :: stk) ->
  stack_top g = Some (Some e) /\ link_top g = Some l /\ stack_peek g = Some (from_of stk).
Proof.
  intros [Ht Hr Hl [Hf Hs]]. rewrite zlen_cons in Ht. unfold stack_top, link_top, stack_peek, frame_entity.
  replace (gr_top g) with (zlen stk + 1) by lia. rewrite Hf. cbn. split; [done|]. split; [done|].
  replace (zlen stk + 1 - 1) with (zlen stk) by lia. destruct stk as [|[e' l'] stk]; cbn in Hs.
  - destruct Hs as [x Hx]. change (zlen []) with 0. by rewrite Hx.
  - destruct Hs as [Hx _]. rewrite zlen_cons, Z.add_comm, Hx. done.
Qed.

Lemma represents_nil g : represents g [] -> stack_top g = Some None.
Proof.
  intros [Ht _ _ [l Hl]]. unfold stack_top, frame_entity. rewrite Ht. change (zlen []) with 0. by rewrite Hl.
Qed.

Lemma represents_pop g e l stk :
  represents g ((e, l) :: stk) -> exists g', stack_pop g = Some (Some e, g') /\ represents g' stk.
Proof.
  intros Hr. destruct (represents_top _ _ _ _ Hr) as (Hs & _). destruct Hr as [Ht Hr Hl [Hf Hst]].
  rewrite zlen_cons in *. unfold stack_pop. rewrite Hs. cbn. eexists. split; [done|].
  split; cbn; [lia|lia|done|done].
Qed.

Lemma represents_start st e :
  zlen st = 16 -> exists g, media_entity_graph_walk_start st e = Some g /\ represents g [(e, 0)].
Proof.
  intros Hl. unfold media_entity_graph_walk_start.
  destruct (proj2 (mget_is_Some st 0)) as [f Hf]; [lia|]. rewrite Hf. cbn [mbind option_bind].
  unfold mset. rewrite bool_decide_true by lia. cbn [mbind option_bind].
  apply represents_push; [|done]. split; cbn [gr_top gr_stack]; [done|done|by rewrite zlen_insert|].
  exists (wf_link f). unfold mget. rewrite bool_decide_true by lia. apply list_lookup_insert_eq.
  unfold zlen in Hl. lia.
Qed.

(** ** What is still to come *)

Section pending.
Context (s : media_graph).

Definition behind (n : nat) (from : option nat) (e : nat) (l : Z) : list nat :=
  match n with
  | O => []
  | S n => mjoin ((fun x => visit s n (Some e) x) <$>
                  filter (fun x => from <> Some x) (neighbours s e (drop (Z.to_nat l) (links_of s e))))
  end.

Fixpoint pending (stk : list (nat * Z)) : list nat :=
  match stk with
  | [] => []
  | (e, l) :: stk => behind (14 - length stk) (from_of stk) e l ++ e :: pending stk
  end.

Lemma visit_behind n from e : visit s n from e = behind n from e 0 ++ [e].
Proof. destruct n; [done|]. cbn. by rewrite drop_0. Qed.

Lemma behind_done n from e l : zlen (links_of s e) <= l -> behind n from e l = [].
Proof. intros Hl. destruct n; [done|]. cbn. rewrite drop_ge by (unfold zlen in Hl; lia). done. Qed.

(** One link: not followed, or followed. *)
Lemma behind_skip n from e l link :
  0 <= l -> links_of s e !! Z.to_nat l = Some link ->
  (neighbour s e link = None \/ neighbour s e link = from) ->
  behind n from e l = behind n from e (l + 1).
Proof.
  intros Hl Hlink Hn. destruct n; [done|]. cbn. rewrite (drop_S _ _ _ Hlink).
  replace (Z.to_nat (l + 1)) with (S (Z.to_nat l)) by lia. unfold neighbours at 1. cbn [omap list_omap].
  destruct (neighbour s e link) as [x|] eqn:Hx; [|done]. destruct Hn as [|<-]; [done|].
  rewrite filter_cons_False by (intros H; by apply H). done.
Qed.

Lemma behind_follow n from e l link x :
  0 <= l -> links_of s e !! Z.to_nat l = Some link -> neighbour s e link = Some x -> from <> Some x ->
  behind (S n) from e l = visit s n (Some e) x ++ behind (S n) from e (l + 1).
Proof.
  intros Hl Hlink Hx Hn. cbn. rewrite (drop_S _ _ _ Hlink).
  replace (Z.to_nat (l + 1)) with (S (Z.to_nat l)) by lia. unfold neighbours at 1. cbn [omap list_omap].
  rewrite Hx. rewrite filter_cons_True by done. done.
Qed.
End pending.

(** ** The code follows the specification *)

Lemma max_links_le s e x : mg_entity s !! e = Some x -> (Z.to_nat (me_num_links x) <= max_links s)%nat.
Proof.
  unfold max_links. generalize (mg_entity s). intros l. revert e.
  induction l as [|y l IH]; intros e He; [done|]. cbn. destruct e as [|e]; cbn in He.
  - injection He as ->. lia.
  - apply IH in He. lia.
Qed.

Definition stack_valid (s : media_graph) (stk : list (nat * Z)) : Prop :=
  forall e l, (e, l) ∈ stk -> is_Some (mg_entity s !! e) /\ 0 <= l.

Lemma stack_valid_cons s e l stk :
  stack_valid s ((e, l) :: stk) <-> (is_Some (mg_entity s !! e) /\ 0 <= l) /\ stack_valid s stk.
Proof.
  unfold stack_valid. split.
  - intros H. split; [apply (H e l), list_elem_of_here|]. intros e' l' Hin. apply H. by apply list_elem_of_further.
  - intros [H1 H2] e' l' [[= -> ->]|Hin]%elem_of_cons; [done|by apply H2].
Qed.

Section walk.
Context {E : MediaEnv} (s : media_graph) (Hs : graph_ok s).

Lemma wp_me_get {B} e x (k : media_entity -> mediaM B) Q :
  mg_entity s !! e = Some x -> wp (k x) s Q -> wp (mthen (me_get e) k) s Q.
Proof. intros Hx Hk. apply wp_mthen. unfold me_get. apply wp_gets. by rewrite Hx. Qed.

Lemma wp_pad {B} p e (k : nat -> mediaM B) Q :
  pad_entity s p = Some e -> wp (k e) s Q ->
  wp (mthen (p <- the p ;; x <- pad_get p ;; mdo (mp_entity x)) k) s Q.
Proof.
  unfold pad_entity. intros Hp Hk. apply bind_Some in Hp as (q & -> & Hp).
  apply bind_Some in Hp as (x & Hx & Hp). apply bind_Some in Hp as (y & Hy & [= <-]).
  apply wp_mthen. eapply wp_the; [done|]. unfold pad_get. apply wp_mthen.
  eapply wp_me_get; [exact Hx|]. by rewrite Hy.
Qed.

Lemma wp_other {B} e link y (k : nat -> mediaM B) Q :
  other_end s e link = Some y -> wp (k y) s Q -> wp (mthen (media_entity_other e link) k) s Q.
Proof.
  unfold other_end. intros Ho Hk. apply bind_Some in Ho as (a & Ha & Ho).
  apply wp_mthen. unfold media_entity_other. eapply wp_pad; [exact Ha|]. apply wp_ret.
  case_decide; (eapply wp_pad; [|by apply wp_mdo]); [done|]. by injection Ho as <-.
Qed.

Lemma entity_link e x l :
  mg_entity s !! e = Some x -> 0 <= l < me_num_links x ->
  exists a link, me_links x = Some a /\ (mg_links s !! a ≫= fun ls => ls !! Z.to_nat l) = Some link /\
    links_of s e !! Z.to_nat l = Some link.
Proof.
  intros Hx Hl. destruct (go_links s Hs e x Hx) as [_ Hn]. destruct Hn as (a & ls & Ha & Hls & Hn); [lia|].
  destruct (lookup_lt_is_Some_2 ls (Z.to_nat l)) as [link Hlink]; [unfold zlen in Hn; lia|].
  exists a, link. split; [done|]. rewrite Hls. split; [done|]. unfold links_of. rewrite Hx, Ha, Hls. cbn.
  rewrite lookup_take_lt by lia. done.
Qed.

Lemma zlen_links_of e x : mg_entity s !! e = Some x -> zlen (links_of s e) = me_num_links x.
Proof.
  intros Hx. destruct (go_links s Hs e x Hx) as [H0 Hn]. unfold links_of. rewrite Hx.
  destruct (decide (me_num_links x = 0)) as [Hz|Hz].
  - rewrite Hz. by destruct (me_links x).
  - destruct Hn as (a & ls & Ha & Hls & Hn); [lia|]. rewrite Ha, Hls. cbn. unfold zlen in *.
    rewrite length_take. lia.
Qed.

(** A link of an entity leads to an entity. *)
Lemma link_ends e l link :
  links_of s e !! l = Some link ->
  exists y, other_end s e link = Some y /\ is_Some (mg_entity s !! y).
Proof.
  intros Hl. destruct (go_ends s Hs e link) as (p & q & Hp & Hq & _ & Vp & Vq).
  { by eapply list_elem_of_lookup_2. }
  unfold other_end. rewrite Hp. cbn. case_decide; eauto.
Qed.

(** The state of the walk when the inner loop stops. *)
Definition at_end (l0 : list nat) (g : media_entity_graph) (s' : media_graph) : Prop :=
  s' = s /\ exists e l stk, represents g ((e, l) :: stk) /\ stack_valid s ((e, l) :: stk) /\
    l0 = e :: pending s stk.

Lemma wp_walk_loop fuel g e l stk x :
  represents g ((e, l) :: stk) -> stack_valid s ((e, l) :: stk) -> mg_entity s !! e = Some x ->
  (Z.to_nat (me_num_links x - l) + (14 - length stk) * max_links s <= fuel)%nat ->
  wp (walk_loop fuel g) s (at_end (pending s ((e, l) :: stk))).
Proof.
  revert g e l stk x. induction fuel as [fuel IH] using lt_wf_ind. intros g e l stk x Hg Hv Hx Hfuel.
  pose proof (proj1 (stack_valid_cons s e l stk) Hv) as [[_ Hl0] Hvs].
  destruct (represents_top g e l stk Hg) as (Ht & Hlt & Hpk).
  remember ((14 - length stk) * max_links s)%nat as C eqn:HC.
  destruct fuel as [|fuel]; cbn [walk_loop]; rewrite Ht, Hlt.
  - do 3 (eapply wp_the; [done|]). eapply wp_me_get; [exact Hx|]. rewrite (proj2 (Z.ltb_ge _ _)) by lia.
    apply wp_mdo. split; [done|]. exists e, l, stk. split; [done|]. split; [done|]. cbn [pending].
    rewrite behind_done; [done|]. rewrite (zlen_links_of e x Hx). lia.
  - do 3 (eapply wp_the; [done|]). eapply wp_me_get; [exact Hx|].
    destruct (Z.ltb_spec l (me_num_links x)) as [Hlt'|Hge].
    2: { apply wp_mdo. split; [done|]. exists e, l, stk. split; [done|]. split; [done|]. cbn [pending].
         rewrite behind_done; [done|]. rewrite (zlen_links_of e x Hx). lia. }
    destruct (entity_link e x l Hx) as (a & link & Ha & Hlink & Hof); [lia|].
    apply wp_mthen. unfold link_at. eapply wp_me_get; [exact Hx|]. eapply wp_the; [exact Ha|]. apply wp_mdo.
    apply wp_mthen. unfold ml_get. apply wp_gets. apply bind_Some in Hlink as (ls & Hls & Hlink).
    eapply wp_the; [exact Hls|]. cbn [fst snd]. rewrite Hlink. cbn [the]. apply wp_mdo.
    destruct (represents_inc g e l stk Hg) as (g1 & Hinc & Hg1).
    assert (Hv1 : stack_valid s ((e, l + 1) :: stk)).
    { apply stack_valid_cons. split; [split; [by eexists|lia]|done]. }
    assert (Hskip : neighbour s e link = None \/ neighbour s e link = from_of stk ->
      wp (walk_loop fuel g1) s (at_end (pending s ((e, l) :: stk)))).
    { intros Hn. eapply wp_mono; [eapply (IH fuel); [lia|exact Hg1|done|exact Hx|rewrite <- HC; lia]|].
      intros g2 s2. unfold at_end. cbn [pending]. by rewrite <- (behind_skip s _ _ e l link). }
    unfold neighbour in Hskip. destruct (enabled link) eqn:Hen; cbn [negb].
    2: { eapply wp_the; [exact Hinc|]. apply Hskip. by left. }
    destruct (link_ends e _ link Hof) as (y & Hy & Vy).
    eapply wp_other; [exact Hy|]. eapply wp_the; [exact Hpk|]. eapply wp_the; [exact Hinc|].
    case_decide as Hfrom; [apply Hskip; right; congruence|].
    pose proof (rp_room _ _ Hg1) as Hlen. rewrite zlen_cons in Hlen.
    destruct (decide (length stk < 14)%nat) as [Hroom|Hfull].
    + destruct (represents_push g1 _ y Hg1) as (g2 & Hpush & Hg2).
      { rewrite zlen_cons. unfold zlen. lia. }
      eapply wp_the; [exact Hpush|]. destruct Vy as [z Hz].
      eapply wp_mono; [eapply (IH fuel); [lia|exact Hg2| |exact Hz|]|].
      * apply stack_valid_cons. split; [split; [by eexists|done]|done].
      * rewrite Z.sub_0_r. cbn [length]. pose proof (max_links_le s y z Hz). nia.
      * intros g3 s3. unfold at_end. cbn [pending from_of head fmap option_fmap option_map fst length].
        replace (14 - length stk)%nat with (S (14 - S (length stk))) by lia.
        rewrite (behind_follow s _ _ e l link y); [|done|done|by unfold neighbour; rewrite Hen|done].
        by rewrite visit_behind, <- !app_assoc.
    + rewrite (push_full g1 _ y Hg1) by (rewrite zlen_cons; unfold zlen in *; lia).
      cbn [the]. apply wp_mthen, wp_mdo.
      eapply wp_mono; [eapply (IH fuel); [lia|exact Hg1|done|exact Hx|rewrite <- HC; lia]|].
      intros g2 s2. unfold at_end. cbn [pending]. by replace (14 - length stk)%nat with 0%nat by lia.
Qed.

Lemma wp_walk_next fuel g stk :
  represents g stk -> stack_valid s stk -> (enough_fuel s <= fuel)%nat ->
  wp (media_entity_graph_walk_next fuel g) s (fun r s' => s' = s /\
    match pending s stk with
    | [] => r.1 = None
    | e :: l => r.1 = Some e /\ is_Some (mg_entity s !! e) /\
        exists stk', represents r.2 stk' /\ stack_valid s stk' /\ pending s stk' = l
    end).
Proof.
  intros Hg Hv Hfuel. unfold media_entity_graph_walk_next. destruct stk as [|[e l] stk].
  { rewrite (represents_nil g Hg). cbn. done. }
  destruct (represents_top g e l stk Hg) as (Ht & _). eapply wp_the; [exact Ht|].
  pose proof (proj1 (stack_valid_cons s e l stk) Hv) as [[[x Hx] Hl] _].
  eapply wp_seq.
  { eapply wp_walk_loop; [exact Hg|done|exact Hx|]. pose proof (max_links_le s e x Hx).
    unfold enough_fuel in Hfuel. nia. }
  intros g1 s1 (-> & e1 & l1 & stk1 & Hg1 & Hv1 & Hp). rewrite Hp.
  destruct (represents_pop g1 e1 l1 stk1 Hg1) as (g2 & Hpop & Hg2). rewrite Hpop. cbn [the].
  apply wp_mdo. apply stack_valid_cons in Hv1 as [[? _] ?]. split; [done|]. split; [done|].
  split; [done|]. by exists stk1.
Qed.
End walk.

(** ** Walks that change entities on the way *)

(** What a walk depends on. *)
Definition core (x : media_entity) := (me_pads x, me_links x, me_num_links x).
Definition same_graph (s' s : media_graph) : Prop :=
  mg_links s' = mg_links s /\ core <$> mg_entity s' = core <$> mg_entity s.

#[export] Instance same_graph_equivalence : Equivalence same_graph.
Proof.
  split.
  - done.
  - intros s s' [H1 H2]. by split.
  - intros s1 s2 s3 [H1 H2] [H3 H4]. split; congruence.
Qed.

Section same.
Context (s' s : media_graph) (Hsame : same_graph s' s).

Lemma same_lookup e : core <$> mg_entity s' !! e = core <$> mg_entity s !! e.
Proof. rewrite <- !list_lookup_fmap. by rewrite (proj2 Hsame). Qed.

Lemma same_lookup_Some e x :
  mg_entity s !! e = Some x -> exists y, mg_entity s' !! e = Some y /\ core y = core x.
Proof. intros Hx. pose proof (same_lookup e) as H. rewrite Hx in H. by apply fmap_Some in H as (y & ? & ?); exists y. Qed.

Lemma same_valid e : is_Some (mg_entity s' !! e) <-> is_Some (mg_entity s !! e).
Proof. rewrite <- (fmap_is_Some core), same_lookup, fmap_is_Some. done. Qed.

Lemma same_pad_entity p : pad_entity s' p = pad_entity s p.
Proof.
  destruct p as [[e i]|]; [|done]. cbn. pose proof (same_lookup e) as H.
  destruct (mg_entity s' !! e) as [y|], (mg_entity s !! e) as [x|]; try done.
  injection H as H _ _. cbn. by rewrite H.
Qed.

Lemma same_links_of e : links_of s' e = links_of s e.
Proof.
  unfold links_of. rewrite (proj1 Hsame). pose proof (same_lookup e) as H.
  destruct (mg_entity s' !! e) as [y|], (mg_entity s !! e) as [x|]; try done.
  injection H as _ H1 H2. by rewrite H1, H2.
Qed.

Lemma same_other_end e l : other_end s' e l = other_end s e l.
Proof. unfold other_end. by rewrite !same_pad_entity. Qed.

Lemma same_neighbours e ls : neighbours s' e ls = neighbours s e ls.
Proof.
  unfold neighbours. apply list_omap_ext, Forall2_same_length_lookup. split; [done|].
  intros i x y Hx Hy. assert (x = y) as -> by congruence. unfold neighbour. by rewrite same_other_end.
Qed.

Lemma same_visit n from e : visit s' n from e = visit s n from e.
Proof.
  revert from e. induction n as [|n IH]; intros from e; [done|]. cbn.
  rewrite same_links_of, same_neighbours. do 2 f_equal. apply list_fmap_ext. intros _ x _. apply IH.
Qed.

Lemma same_pending stk : pending s' stk = pending s stk.
Proof.
  induction stk as [|[e l] stk IH]; [done|]. cbn. rewrite IH. f_equal. unfold behind. case_match; [done|].
  rewrite same_links_of, same_neighbours. f_equal. apply list_fmap_ext. intros _ x _. apply same_visit.
Qed.

Lemma same_fuel : enough_fuel s' = enough_fuel s.
Proof.
  unfold enough_fuel, max_links. do 2 f_equal.
  change (fun x => Z.to_nat (me_num_links x)) with ((fun c => Z.to_nat c.2) ∘ core).
  by rewrite !list_fmap_compose, (proj2 Hsame).
Qed.

Lemma same_graph_ok : graph_ok s -> graph_ok s'.
Proof.
  intros [H1 H2]. split.
  - intros e y Hy. pose proof (same_lookup e) as H. rewrite Hy in H.
    destruct (mg_entity s !! e) as [x|] eqn:Hx; [|done]. injection H as _ Hl Hn.
    rewrite Hl, Hn, (proj1 Hsame). by eapply H1.
  - intros e l. rewrite same_links_of. intros Hl. destruct (H2 e l Hl) as (p & q & Hp & Hq & He & V1 & V2).
    exists p, q. by rewrite !same_pad_entity, !same_valid.
Qed.

Lemma same_stack_valid stk : stack_valid s stk -> stack_valid s' stk.
Proof. intros H e l Hin. rewrite same_valid. by apply H. Qed.
End same.

(** What is done for each entity leaves the graph alone. *)
Definition keeps_graph (body : nat -> mediaM unit) : Prop :=
  forall e s s', body e s = Some (tt, s') -> same_graph s' s.

Section entities.
Context {E : MediaEnv} (body : nat -> mediaM unit) (Hbody : keeps_graph body).

Lemma walk_entities_pending fuel wf g stk s :
  graph_ok s -> represents g stk -> stack_valid s stk -> (enough_fuel s <= wf)%nat ->
  (length (pending s stk) <= fuel)%nat ->
  walk_entities fuel wf g body s = mfor (pending s stk) body s.
Proof.
  revert g stk s. induction fuel as [|fuel IH]; intros g stk s Hs Hg Hv Hwf Hfuel; cbn [walk_entities];
    destruct (wp_run _ _ _ (wp_walk_next s Hs wf g stk Hg Hv Hwf)) as ([r g'] & s1 & Hr & -> & Hp);
    unfold mthen at 1; rewrite Hr; cbn [fst snd] in Hp.
  - destruct (pending s stk) as [|e l]; [|cbn in Hfuel; lia]. by rewrite Hp.
  - destruct (pending s stk) as [|e l]; [by rewrite Hp|]. destruct Hp as (-> & _ & stk' & Hg' & Hv' & <-).
    cbn [mfor]. unfold mthen. destruct (body e s) as [[[] s1]|] eqn:He; [|done].
    pose proof (Hbody e s s1 He) as Hsame. rewrite <- (same_pending s1 s Hsame stk').
    cbn [length] in Hfuel. apply IH; [by eapply same_graph_ok|done|by eapply same_stack_valid| |].
    + by rewrite (same_fuel s1 s Hsame).
    + rewrite (same_pending s1 s Hsame). lia.
Qed.

(** Claim C23: the walk of the media graph is a depth-first search and always
    ends.  For any graph without dangling pointers, with cycles or not, and any
    work [body] on the entities that leaves the links alone,
    [media_entity_graph_walk_start] and repeated [..._walk_next] hand [body]
    exactly the entities of the recursive search [walk], in its order: for each
    entity first what lies behind its enabled links, in the order of the links
    and except back over where it came from, down to the 15 entities the stack
    holds, then the entity itself.  The array of 16 frames is never left, and
    the loops need at most [16 * max_links] turns for an entity and one step
    for each entity of [walk]. *)
Theorem graph_walk_is_depth_first fuel wf st e s :
  graph_ok s -> is_Some (mg_entity s !! e) -> zlen st = 16 -> (enough_fuel s <= wf)%nat ->
  (length (walk s e) <= fuel)%nat ->
  mthen (the (media_entity_graph_walk_start st e)) (fun g => walk_entities fuel wf g body) s =
  mfor (walk s e) body s.
Proof.
  intros Hs He Hst Hwf Hfuel. destruct (represents_start st e Hst) as (g & -> & Hg).
  assert (Hw : walk s e = pending s [(e, 0)]) by (unfold walk; rewrite visit_behind; done).
  rewrite Hw in *. unfold mthen. cbn [the mdo]. apply walk_entities_pending; try done.
  intros e' l [= -> ->]%list_elem_of_singleton. done.
Qed.
End entities.
