(* ===== verification/MediaPipeline.v ===== *)
(** What the walk of the media graph means (MediaWalk.v): which entities it
    reaches, that it reaches each of a tree once, and that starting and stopping
    a pipeline cancel out. *)

From stdpp Require Import gmap.
From S2P Require Import Prelude StateM MediaTypes MediaEntity MediaWalk.

(** ** Reaching entities *)

(** [y] is across an enabled link of [e]. *)
Definition linked (s : media_graph) (e y : nat) : Prop := y ∈ neighbours s e (links_of s e).

(** Within [n] enabled links. *)
Inductive within (s : media_graph) : nat -> nat -> nat -> Prop :=
  | within_here n e : within s n e e
  | within_step n e y x : linked s e y -> within s n y x -> within s (S n) e x.

(** The same without turning round on the way. *)
Inductive leads (s : media_graph) : nat -> option nat -> nat -> nat -> Prop :=
  | leads_here n from e : leads s n from e e
  | leads_step n from e y x :
      linked s e y -> from <> Some y -> leads s n (Some e) y x -> leads s (S n) from e x.

Section reach.
Context (s : media_graph).

Lemma elem_of_visit n from e x : x ∈ visit s n from e <-> leads s n from e x.
Proof.
  revert from e. induction n as [|n IH]; intros from e; cbn [visit].
  - cbn. rewrite list_elem_of_singleton. split; [intros ->; constructor|by inversion 1].
  - rewrite elem_of_app, list_elem_of_singleton, list_elem_of_join. setoid_rewrite list_elem_of_fmap.
    split.
    + intros [(l & Hx & y & -> & Hy)| ->]; [|constructor].
      apply list_elem_of_filter in Hy as [Hf Hy]. apply IH in Hx. by econstructor.
    + inversion 1 as [|? ? ? y ? Hy Hf Hl]; subst; [by right|left].
      eexists. split; [by apply IH|]. exists y. split; [done|]. by apply list_elem_of_filter.
Qed.

Lemma leads_mono n m from e x : leads s n from e x -> (n <= m)%nat -> leads s m from e x.
Proof.
  intros H. revert m. induction H as [|n from e y x Hy Hf _ IH]; intros m Hm; [constructor|].
  destruct m as [|m]; [lia|]. econstructor; [done|done|]. apply IH. lia.
Qed.

Lemma leads_within n from e x : leads s n from e x -> within s n e x.
Proof. induction 1; [constructor|by econstructor]. Qed.

(** A path that turns round can be made shorter. *)
Lemma within_leads n e x : within s n e x -> forall from,
  leads s n from e x \/ exists z m, from = Some z /\ (m < n)%nat /\ within s m z x.
Proof.
  revert e. induction n as [n IH] using lt_wf_ind. intros e Hw from.
  inversion Hw as [|n' ? y ? Hy Hyx]; subst; [left; constructor|].
  destruct (decide (from = Some y)) as [->|Hne]; [right; exists y, n'; split_and!; [done|lia|done]|].
  destruct (IH n' ltac:(lia) y Hyx (Some e)) as [Hl|(z & m & [= <-] & Hm & Hz)].
  { left. by econstructor. }
  destruct (IH m ltac:(lia) e Hz from) as [Hl|(z & m' & -> & Hm' & Hz')].
  - left. eapply leads_mono; [done|lia].
  - right. exists z, m'. split_and!; [done|lia|done].
Qed.

(** Fact: the walk reaches what is connected.  An entity is visited
    from [e] exactly when at most 14 enabled links lead to it. *)
Theorem walk_reaches e x : x ∈ walk s e <-> within s 14 e x.
Proof.
  unfold walk. rewrite elem_of_visit. split; [apply leads_within|].
  intros Hw. by destruct (within_leads 14 e x Hw None) as [|(z & m & [=] & _)].
Qed.
End reach.

(** ** Trees *)

(** The enabled links around [root] form a tree: everybody's neighbours are the
    parent and the children, each over one link. *)
Record tree_from (s : media_graph) (root : nat) (par : nat -> option nat) (depth : nat -> nat) : Prop := {
  tf_root : par root = None;
  tf_links : forall e y, linked s e y <-> par e = Some y \/ par y = Some e;
  tf_once : forall e, NoDup (neighbours s e (links_of s e));
  tf_depth : forall e y, par y = Some e -> depth y = S (depth e);
}.

Section tree.
Context (s : media_graph) (root : nat) (par : nat -> option nat) (depth : nat -> nat).
Context (T : tree_from s root par depth).

(** [e] is [k] generations above [x]. *)
Fixpoint above (k : nat) (e x : nat) : Prop :=
  match k with O => x = e | S k => exists y, par x = Some y /\ above k e y end.

Lemma above_depth k e x : above k e x -> depth x = (depth e + k)%nat.
Proof.
  revert x. induction k as [|k IH]; intros x; cbn; [intros ->; lia|].
  intros (y & Hy & Ha). rewrite (tf_depth _ _ _ _ T y x Hy), (IH y Ha). lia.
Qed.

Lemma above_functional k e e' x : above k e x -> above k e' x -> e = e'.
Proof.
  revert x. induction k as [|k IH]; intros x; cbn; [congruence|].
  intros (y & Hy & Ha) (y' & Hy' & Ha'). assert (y' = y) as -> by congruence. by apply (IH y).
Qed.

Lemma above_parent k e y x : above k y x -> par y = Some e -> above (S k) e x.
Proof.
  revert x. induction k as [|k IH]; intros x; cbn [above].
  - intros -> Hy. by exists e.
  - intros (z & Hz & Ha) Hy. exists z. split; [done|]. apply (IH z Ha Hy).
Qed.

Lemma child e y : linked s e y -> par e <> Some y -> par y = Some e.
Proof. intros Hl Hne. apply (tf_links _ _ _ _ T) in Hl as [?|?]; [done|done]. Qed.

Lemma visit_above n e x : x ∈ visit s n (par e) e -> exists k, above k e x.
Proof.
  rewrite elem_of_visit. remember (par e) as from eqn:Hfrom. intros Hl. revert Hfrom.
  induction Hl as [n from e|n from e y x Hy Hf _ IH]; intros ->; [by exists 0%nat|].
  pose proof (child e y Hy Hf) as Hp. destruct IH as [k Hk]; [done|].
  exists (S k). by eapply above_parent.
Qed.

Lemma visit_once n e : NoDup (visit s n (par e) e).
Proof.
  revert e. induction n as [|n IH]; intros e; cbn [visit]; [apply NoDup_singleton|].
  set (cs := filter _ _). assert (Hcs : forall y, y ∈ cs -> par y = Some e).
  { intros y [Hf Hy]%list_elem_of_filter. by apply child. }
  assert (Hnd : NoDup cs) by apply NoDup_filter, (tf_once _ _ _ _ T).
  apply NoDup_app. split; [|split; [|apply NoDup_singleton]].
  - clear -IH Hcs Hnd T. induction Hnd as [|y cs Hy Hnd IHcs]; [apply NoDup_nil_2|]. cbn.
    rewrite <- (Hcs y) by apply list_elem_of_here. apply NoDup_app. split; [apply IH|]. split.
    + intros x Hx Hin. apply list_elem_of_join in Hin as (l & Hxl & (z & -> & Hz)%list_elem_of_fmap).
      pose proof (Hcs y ltac:(apply list_elem_of_here)) as Py.
      pose proof (Hcs z ltac:(by apply list_elem_of_further)) as Pz.
      rewrite Py, <- Pz in Hxl. destruct (visit_above _ _ _ Hx) as [k Hk], (visit_above _ _ _ Hxl) as [m Hm].
      pose proof (above_depth _ _ _ Hk). pose proof (above_depth _ _ _ Hm).
      pose proof (tf_depth _ _ _ _ T _ _ Py). pose proof (tf_depth _ _ _ _ T _ _ Pz).
      assert (k = m) as <- by lia. assert (y = z) as <- by by eapply above_functional. done.
    + rewrite (Hcs y) by apply list_elem_of_here. apply IHcs. intros z Hz. apply Hcs.
      by apply list_elem_of_further.
  - intros x Hin ->%list_elem_of_singleton.
    apply list_elem_of_join in Hin as (l & Hxl & (y & -> & Hy)%list_elem_of_fmap).
    pose proof (Hcs y Hy) as Py. rewrite <- Py in Hxl. destruct (visit_above _ _ _ Hxl) as [k Hk].
    pose proof (above_depth _ _ _ Hk). pose proof (tf_depth _ _ _ _ T _ _ Py). lia.
Qed.

(** Fact: the walk of a tree visits no entity twice. *)
Theorem tree_visited_once : NoDup (walk s root).
Proof. unfold walk. rewrite <- (tf_root _ _ _ _ T). apply visit_once. Qed.
End tree.

(** ** Pipelines *)

Definition start_one (pipe : nat) (x : media_entity) : media_entity :=
  set_me_pipe (Some pipe) (set_me_stream_count (s32 (me_stream_count x + 1)) x).

Definition stop_one (x : media_entity) : media_entity :=
  let x := set_me_stream_count (s32 (me_stream_count x - 1)) x in
  if me_stream_count x =? 0 then set_me_pipe None x else x.

Definition visits (l : list nat) (e : nat) : nat := count_occ Nat.eq_dec l e.

(** Every entity of [l] is changed by [f], each time it occurs. *)
Definition upd_visited (f : media_entity -> media_entity) (l : list nat) (s : media_graph) : media_graph :=
  set_mg_entity (imap (fun e x => Nat.iter (visits l e) f x) (mg_entity s)) s.

Lemma lookup_visited f l s e : mg_entity (upd_visited f l s) !! e = Nat.iter (visits l e) f <$> mg_entity s !! e.
Proof. cbn. rewrite list_lookup_imap. by destruct (mg_entity s !! e). Qed.

Lemma upd_visited_same f l s : (forall x, core (f x) = core x) -> same_graph (upd_visited f l s) s.
Proof.
  intros Hf. split; [done|]. apply list_eq. intros e. rewrite !list_lookup_fmap, lookup_visited.
  destruct (mg_entity s !! e) as [x|]; [|done]. cbn. f_equal.
  induction (visits l e) as [|n IH]; [done|]. cbn. by rewrite Hf.
Qed.

Lemma me_upd_eq e f s x :
  mg_entity s !! e = Some x -> me_upd e f s = Some (tt, set_mg_entity (<[e := f x]> (mg_entity s)) s).
Proof. intros Hx. unfold me_upd, me_get, gets, modify, the, mdo, mthen. by rewrite Hx. Qed.

Lemma iter_comm {A} n (f : A -> A) x : Nat.iter n f (f x) = f (Nat.iter n f x).
Proof. induction n as [|n IH]; [done|exact (f_equal f IH)]. Qed.

Lemma set_entity_id s l : l = mg_entity s -> set_mg_entity l s = s.
Proof. intros ->. by destruct s. Qed.

(** A loop over entities that changes each by [f]. *)
Lemma mfor_visited body f l s :
  (forall e s x, mg_entity s !! e = Some x ->
     body e s = Some (tt, set_mg_entity (<[e := f x]> (mg_entity s)) s)) ->
  (forall e, e ∈ l -> is_Some (mg_entity s !! e)) ->
  mfor l body s = Some (tt, upd_visited f l s).
Proof.
  intros Hbody. revert s. induction l as [|e l IH]; intros s Hl; cbn [mfor].
  - unfold mdo, upd_visited. rewrite set_entity_id; [done|].
    apply list_eq. intros i. rewrite list_lookup_imap. by destruct (mg_entity s !! i).
  - destruct (Hl e) as [x Hx]; [apply list_elem_of_here|]. unfold mthen. rewrite (Hbody e s x Hx).
    rewrite IH.
    2: { intros e' He'. cbn. destruct (Hl e') as [y Hy]; [by apply list_elem_of_further|].
         destruct (decide (e' = e)) as [->|Hne].
         - rewrite list_lookup_insert_eq; [by eexists|]. by eapply lookup_lt_Some.
         - by rewrite list_lookup_insert_ne. }
    unfold upd_visited. cbn [mg_entity set_mg_entity]. do 2 f_equal.
    change (set_mg_entity ?l (set_mg_entity _ s)) with (set_mg_entity l s). f_equal.
    apply list_eq. intros i. rewrite !list_lookup_imap. unfold visits. cbn [count_occ].
    destruct (decide (i = e)) as [->|Hne].
    + rewrite list_lookup_insert_eq by by eapply lookup_lt_Some. rewrite Hx. cbn.
      destruct (Nat.eq_dec e e); [|done]. cbn. by rewrite iter_comm.
    + rewrite list_lookup_insert_ne by done. by destruct (Nat.eq_dec e i).
Qed.

Lemma start_entity_eq pipe e s x :
  mg_entity s !! e = Some x ->
  start_entity pipe e s = Some (tt, set_mg_entity (<[e := start_one pipe x]> (mg_entity s)) s).
Proof. intros Hx. unfold start_entity. by rewrite (me_upd_eq e _ s x Hx). Qed.

Lemma stop_entity_eq e s x :
  mg_entity s !! e = Some x ->
  stop_entity e s = Some (tt, set_mg_entity (<[e := stop_one x]> (mg_entity s)) s).
Proof.
  intros Hx. unfold stop_entity, stop_one. unfold mthen. rewrite (me_upd_eq e _ s x Hx).
  set (y := set_me_stream_count _ x). set (s1 := set_mg_entity _ s).
  assert (Hy : mg_entity s1 !! e = Some y) by (apply list_lookup_insert_eq; by eapply lookup_lt_Some).
  unfold me_get, gets, the, mdo, mthen. rewrite Hy. case_match; [|done].
  rewrite (me_upd_eq e _ s1 y Hy). do 2 f_equal. unfold s1. cbn. by rewrite list_insert_insert_eq.
Qed.

Lemma same_core_insert e f s x :
  mg_entity s !! e = Some x -> (forall x, core (f x) = core x) ->
  same_graph (set_mg_entity (<[e := f x]> (mg_entity s)) s) s.
Proof.
  intros Hx Hf. split; [done|]. cbn. rewrite list_fmap_insert, Hf. apply list_insert_id.
  by rewrite list_lookup_fmap, Hx.
Qed.

Lemma me_upd_Some e f s s' : me_upd e f s = Some (tt, s') -> exists x, mg_entity s !! e = Some x.
Proof.
  unfold me_upd, me_get, gets, the, mthen, fault, mdo. destruct (mg_entity s !! e) as [x|]; [eauto|done].
Qed.

Lemma keeps_start pipe : keeps_graph (start_entity pipe).
Proof.
  intros e s s' Hs. destruct (me_upd_Some _ _ _ _ Hs) as [x Hx].
  rewrite (start_entity_eq pipe e s x Hx) in Hs. injection Hs as <-. by apply same_core_insert.
Qed.

Lemma keeps_stop : keeps_graph stop_entity.
Proof.
  intros e s s' Hs. destruct (mg_entity s !! e) as [x|] eqn:Hx.
  - rewrite (stop_entity_eq e s x Hx) in Hs. injection Hs as <-. apply same_core_insert; [done|].
    intros y. unfold stop_one. by case_match.
  - exfalso. unfold stop_entity, mthen in Hs. destruct (me_upd _ _ s) as [[[] s1]|] eqn:Hu; [|done].
    apply me_upd_Some in Hu as [x Hu]. congruence.
Qed.

Lemma linked_valid s e y : graph_ok s -> linked s e y -> is_Some (mg_entity s !! y).
Proof.
  intros Hs (l & Hl & Hy)%list_elem_of_omap. unfold neighbour in Hy. case_match; [|done].
  destruct (go_ends s Hs e l Hl) as (p & q & Hp & Hq & _ & Vp & Vq).
  unfold other_end in Hy. rewrite Hp in Hy. cbn in Hy. case_decide; congruence.
Qed.

Lemma leads_valid s n from e x :
  graph_ok s -> leads s n from e x -> is_Some (mg_entity s !! e) -> is_Some (mg_entity s !! x).
Proof. intros Hs. induction 1 as [|n from e y x Hy _ _ IH]; [done|]. intros _. by eapply IH, linked_valid. Qed.

Section pipeline.
Context {E : MediaEnv} (fuel wf : nat) (st : list walk_frame) (e : nat).

(** What the two functions may assume, and fuel for their loops. *)
Record ready (s : media_graph) : Prop := {
  rd_graph : graph_ok s;
  rd_mutex : mg_mutex s = false;
  rd_parent : exists x, mg_entity s !! e = Some x /\ me_parent x = true;
  rd_stack : zlen st = 16;
  rd_wf : (enough_fuel s <= wf)%nat;
  rd_fuel : (length (walk s e) <= fuel)%nat;
}.

Lemma pipeline_walk body f s :
  ready s -> keeps_graph body -> (forall x, core (f x) = core x) ->
  (forall e s x, mg_entity s !! e = Some x ->
     body e s = Some (tt, set_mg_entity (<[e := f x]> (mg_entity s)) s)) ->
  (parent e ;; lock_graph ;;
   g <- the (media_entity_graph_walk_start st e) ;;
   walk_entities fuel wf g body ;; unlock_graph) s = Some (tt, upd_visited f (walk s e) s).
Proof.
  intros [Hs Hm (x & Hx & Hp) Hst Hwf Hfuel] Hk Hf Hbody. destruct (represents_start st e Hst) as (g & Hg & Hrep).
  unfold parent, me_get, lock_graph, unlock_graph, gets, modify. unfold mthen.
  cbn [the mdo]. rewrite Hx. cbn [the mdo]. rewrite Hp. cbn [mdo]. rewrite Hm, Hg. cbn [the mdo].
  set (s1 := set_mg_mutex true s). assert (Hsame : same_graph s1 s) by done.
  assert (Hv : stack_valid s1 [(e, 0)]).
  { intros e' l [= -> ->]%list_elem_of_singleton. split; [by exists x|done]. }
  assert (Hw : pending s1 [(e, 0)] = walk s e).
  { rewrite (same_pending s1 s Hsame). unfold walk. by rewrite visit_behind. }
  rewrite (walk_entities_pending body Hk fuel wf g [(e, 0)] s1);
    [|by eapply same_graph_ok|done|done|by rewrite (same_fuel s1 s)|by rewrite Hw].
  rewrite Hw, (mfor_visited body f (walk s e) s1 Hbody).
  2: { intros y Hy. apply elem_of_visit in Hy. eapply (leads_valid s); [exact Hs|exact Hy|by exists x]. }
  cbn. do 2 f_equal. unfold upd_visited. destruct s. cbn in *. by subst.
Qed.

Lemma pipeline_start_eq pipe s :
  ready s ->
  media_entity_pipeline_start fuel wf st e pipe s = Some (tt, upd_visited (start_one pipe) (walk s e) s).
Proof.
  intros Hr. apply pipeline_walk; [done|apply keeps_start|done|]. intros. by apply start_entity_eq.
Qed.

Lemma pipeline_stop_eq s :
  ready s ->
  media_entity_pipeline_stop fuel wf st e s = Some (tt, upd_visited stop_one (walk s e) s).
Proof.
  intros Hr. apply pipeline_walk; [done|apply keeps_stop| |].
  - intros x. unfold stop_one. by case_match.
  - intros. by apply stop_entity_eq.
Qed.

Lemma ready_upd f l s : (forall x, core (f x) = core x /\ me_parent (f x) = me_parent x) -> ready s -> ready (upd_visited f l s).
Proof.
  intros Hf [Hs Hm (x & Hx & Hp) Hst Hwf Hfuel].
  assert (Hsame : same_graph (upd_visited f l s) s) by (apply upd_visited_same; intros; apply Hf).
  split; [by eapply same_graph_ok|done| |done|by rewrite (same_fuel _ s)|].
  - exists (Nat.iter (visits l e) f x). rewrite lookup_visited, Hx. split; [done|].
    induction (visits l e) as [|n IH]; [done|]. cbn. by rewrite (proj2 (Hf _)).
  - unfold walk. by rewrite (same_visit _ s).
Qed.

(** An entity outside of pipelines, or in [pipe] with that many starts; [n] more
    fit the [int]. *)
Definition stream_ok (pipe n : nat) (x : media_entity) : Prop :=
  0 <= me_stream_count x /\ me_stream_count x + Z.of_nat n < 2 ^ 31 /\
  me_pipe x = if me_stream_count x =? 0 then None else Some pipe.

Lemma stop_start pipe n x : (0 < n)%nat -> stream_ok pipe n x -> stop_one (start_one pipe x) = x.
Proof.
  intros Hn (H1 & H2 & H3). unfold stop_one, start_one. cbn. rewrite !s32_small by (rewrite ?s32_small; lia).
  replace (me_stream_count x + 1 - 1) with (me_stream_count x) by lia.
  destruct x. cbn in *. by case_match; subst.
Qed.

Lemma start_ok pipe n x : stream_ok pipe (S n) x -> stream_ok pipe n (start_one pipe x).
Proof.
  intros (H1 & H2 & H3). unfold stream_ok, start_one. cbn. rewrite s32_small by lia.
  split; [lia|]. split; [lia|]. by rewrite (proj2 (Z.eqb_neq _ _)) by lia.
Qed.

Lemma stop_start_times pipe n x :
  stream_ok pipe n x -> Nat.iter n stop_one (Nat.iter n (start_one pipe) x) = x.
Proof.
  revert x. induction n as [|n IH]; intros x Hx; [done|].
  change (Nat.iter (S n) (start_one pipe) x) with (start_one pipe (Nat.iter n (start_one pipe) x)).
  rewrite <- (iter_comm n (start_one pipe) x).
  change (stop_one (Nat.iter n stop_one (Nat.iter n (start_one pipe) (start_one pipe x))) = x).
  rewrite IH by by apply start_ok. apply (stop_start pipe (S n)); [lia|done].
Qed.

(** Claim C31: stopping a pipeline undoes starting it.  In any graph, with
    cycles or parallel links or not, [media_entity_pipeline_start] followed by
    [..._stop] at the same entity gives back the state as it was: every stream
    count and every pipeline pointer, also when pipelines of the same name are
    running already.  (The walk may reach an entity more than once, and counts
    it as often, but both functions walk alike.) *)
Theorem pipeline_start_stop_cancel pipe s :
  ready s ->
  (forall i x, mg_entity s !! i = Some x -> i ∈ walk s e -> stream_ok pipe (visits (walk s e) i) x) ->
  (media_entity_pipeline_start fuel wf st e pipe ;; media_entity_pipeline_stop fuel wf st e) s =
  Some (tt, s).
Proof.
  intros Hr Hok. unfold mthen. rewrite pipeline_start_eq by done.
  set (s1 := upd_visited _ _ s). assert (Hsame : same_graph s1 s) by by apply upd_visited_same.
  rewrite pipeline_stop_eq by by apply ready_upd. do 2 f_equal.
  rewrite (same_visit s1 s Hsame 14 None e : walk s1 e = walk s e).
  transitivity (set_mg_entity (mg_entity (upd_visited stop_one (walk s e) s1)) s); [done|].
  apply set_entity_id, list_eq. intros i. rewrite lookup_visited. unfold s1. rewrite lookup_visited.
  destruct (mg_entity s !! i) as [x|] eqn:Hx; [|done]. cbn [fmap option_fmap option_map]. f_equal.
  destruct (decide (i ∈ walk s e)) as [Hin|Hin]; [by apply (stop_start_times pipe), Hok|].
  assert (visits (walk s e) i = 0%nat) as ->; [|done].
  apply count_occ_not_In. by rewrite <- list_elem_of_In.
Qed.

(** Fact: starting a pipeline marks what is connected.  When the enabled
    links around the entity form a tree, [media_entity_pipeline_start] counts
    one more stream at each entity within 14 links, and sets its pipeline;
    nothing else changes. *)
Theorem pipeline_start_marks_tree pipe par depth s :
  ready s -> tree_from s e par depth ->
  exists s', media_entity_pipeline_start fuel wf st e pipe s = Some (tt, s') /\
    s' = set_mg_entity (mg_entity s') s /\ length (mg_entity s') = length (mg_entity s) /\
    forall i x, mg_entity s !! i = Some x ->
      (within s 14 e i -> mg_entity s' !! i = Some (start_one pipe x)) /\
      (~ within s 14 e i -> mg_entity s' !! i = Some x).
Proof.
  intros Hr T. eexists. split; [by apply pipeline_start_eq|]. split; [done|].
  split; [cbn; by rewrite length_imap|]. intros i x Hx. rewrite lookup_visited, Hx. cbn [fmap option_fmap option_map].
  assert (Hnd : NoDup (walk s e)).
  { unfold walk. rewrite <- (tf_root _ _ _ _ T). by eapply visit_once. }
  split; intros Hw.
  - assert (visits (walk s e) i = 1%nat) as ->; [|done].
    assert (i ∈ walk s e) as Hin.
    { apply elem_of_visit. by destruct (within_leads s 14 e i Hw None) as [|(z & m & [=] & _)]. }
    apply NoDup_ListNoDup in Hnd. apply NoDup_count_occ' ; [done|]. by apply list_elem_of_In.
  - assert (visits (walk s e) i = 0%nat) as ->; [|done].
    apply count_occ_not_In. rewrite <- list_elem_of_In. intros Hin. apply Hw.
    apply elem_of_visit in Hin. by eapply leads_within.
Qed.
End pipeline.
