(* ===== verification/MediaLinks.v ===== *)
(** The links of the media graph (media-entity.c): every link has its twin in
    the entity at its other end, the pointers between the two arrays stay valid
    when an array is moved, and both always agree. *)

From stdpp Require Import gmap.
From S2P Require Import Prelude StateM MediaTypes MediaEntity MediaWalk MediaPipeline.

(** ** The invariant *)

(** [&entity->links[i]] *)
Definition addr (s : media_graph) (e i : nat) : option link_ptr :=
  x ← mg_entity s !! e; a ← me_links x; Some (a, i).

(** Between a pad of [e] and one of [e']. *)
Definition ends (s : media_graph) (l : media_link) (e e' : nat) : Prop :=
  exists p q, ml_source l = Some p /\ ml_sink l = Some q /\
    ((p.1 = e /\ q.1 = e') \/ (p.1 = e' /\ q.1 = e)) /\
    pad_entity s (Some p) = Some p.1 /\ pad_entity s (Some q) = Some q.1.

(** The link [l] at [i] of [e] and the link [l'] at [j] of [e']. *)
Record twins (s : media_graph) (e i : nat) (l : media_link) (e' j : nat) (l' : media_link) : Prop := {
  tw_ne : e <> e';
  tw_link : links_of s e' !! j = Some l';
  tw_reverse : ml_reverse l = addr s e' j;
  tw_back : ml_reverse l' = addr s e i;
  tw_source : ml_source l' = ml_source l;
  tw_sink : ml_sink l' = ml_sink l;
  tw_flags : ml_flags l' = ml_flags l;
  tw_ends : ends s l e e';
}.

Definition entity_wf (s : media_graph) (x : media_entity) : Prop :=
  0 <= me_num_links x <= me_max_links x /\ me_max_links x < 2 ^ 16 /\
  match me_links x with
  | None => me_max_links x = 0
  | Some a => exists ls, mg_links s !! a = Some ls /\ me_max_links x <= zlen ls
  end.

(** All links but those of [pend], which are being made, have their twins. *)
Record links_wf (pend : list (nat * nat)) (s : media_graph) : Prop := {
  lw_entity : forall e x, mg_entity s !! e = Some x -> entity_wf s x;
  lw_alloc : forall e e' x x' a, mg_entity s !! e = Some x -> mg_entity s !! e' = Some x' ->
    me_links x = Some a -> me_links x' = Some a -> e = e';
  lw_twin : forall e i l, links_of s e !! i = Some l -> (e, i) ∉ pend ->
    exists e' j l', (e', j) ∉ pend /\ twins s e i l e' j l';
  lw_pads : forall e x i p, mg_entity s !! e = Some x -> me_pads x !! i = Some p -> mp_entity p = e;
}.

(** ** Lemmas *)

Lemma links_of_Some s e i l :
  links_of s e !! i = Some l -> exists x a ls, mg_entity s !! e = Some x /\ me_links x = Some a /\
    mg_links s !! a = Some ls /\ (i < Z.to_nat (me_num_links x))%nat /\ ls !! i = Some l.
Proof.
  unfold links_of. intros H. destruct (mg_entity s !! e) as [x|] eqn:Hx; [|done].
  destruct (me_links x) as [a|] eqn:Ha; [|done]. apply lookup_take_Some in H as [H Hi].
  destruct (mg_links s !! a) as [ls|] eqn:Hls; [|done]. by exists x, a, ls.
Qed.

Lemma links_of_intro s e i l x a ls :
  mg_entity s !! e = Some x -> me_links x = Some a -> mg_links s !! a = Some ls ->
  (i < Z.to_nat (me_num_links x))%nat -> ls !! i = Some l -> links_of s e !! i = Some l.
Proof.
  intros Hx Ha Hls Hi Hl. unfold links_of. rewrite Hx, Ha, Hls. cbn. by rewrite lookup_take_lt.
Qed.

Lemma addr_Some s e i x a : mg_entity s !! e = Some x -> me_links x = Some a -> addr s e i = Some (a, i).
Proof. intros Hx Ha. unfold addr. by rewrite Hx; cbn; rewrite Ha. Qed.

Lemma links_of_addr s e i l : links_of s e !! i = Some l -> exists a, addr s e i = Some (a, i).
Proof. intros (x & a & ls & Hx & Ha & _)%links_of_Some. exists a. by eapply addr_Some. Qed.

Lemma addr_inj pend s e i e' j l l' :
  links_wf pend s -> links_of s e !! i = Some l -> links_of s e' !! j = Some l' ->
  addr s e i = addr s e' j -> e = e' /\ i = j.
Proof.
  intros Hw (x & a & ls & Hx & Ha & _)%links_of_Some (y & b & ks & Hy & Hb & _)%links_of_Some.
  rewrite (addr_Some s e i x a), (addr_Some s e' j y b) by done. intros [= <- <-].
  split; [|done]. by eapply lw_alloc.
Qed.

(** A slot has only one twin. *)
Lemma twin_unique pend s e i l e1 j1 l1 e2 j2 l2 :
  links_wf pend s -> twins s e i l e1 j1 l1 -> twins s e i l e2 j2 l2 -> e1 = e2 /\ j1 = j2.
Proof.
  intros Hw [_ H1 R1 _ _ _ _ _] [_ H2 R2 _ _ _ _ _]. eapply addr_inj; [exact Hw|done|done|congruence].
Qed.

Lemma wf_graph_ok s : links_wf [] s -> graph_ok s.
Proof.
  intros Hw. split.
  - intros e x Hx. destruct (lw_entity _ _ Hw e x Hx) as (Hn & Hm & Ha). split; [lia|]. intros Hpos.
    destruct (me_links x) as [a|]; [|lia]. destruct Ha as (ls & Hls & Hz). exists a, ls. split_and!; [done|done|lia].
  - intros e l [i Hi]%list_elem_of_lookup_1.
    destruct (lw_twin _ _ Hw e i l Hi) as (e' & j & l' & _ & T); [by apply not_elem_of_nil|].
    destruct (tw_ends _ _ _ _ _ _ _ T) as (p & q & Hp & Hq & He & Pp & Pq).
    apply links_of_Some in Hi as (x & _ & _ & Hx & _).
    destruct (links_of_Some _ _ _ _ (tw_link _ _ _ _ _ _ _ T)) as (y & _ & _ & Hy & _).
    exists p.1, q.1. rewrite Hp, Hq. split; [done|]. split; [done|].
    destruct He as [[-> ->]|[-> ->]]; (split; [by (left + right)|]); split; by eexists.
Qed.

(** A link and its twin are made together, and may be unmade together. *)
Lemma close_pair s e i l e' j l' :
  links_wf [(e', j); (e, i)] s -> links_of s e !! i = Some l -> links_of s e' !! j = Some l' ->
  twins s e i l e' j l' -> twins s e' j l' e i l -> links_wf [] s.
Proof.
  intros Hw Hl Hl' T T'. split; [apply Hw..| |apply Hw]. intros e0 i0 k0 Hk0 _.
  destruct (decide ((e0, i0) = (e, i))) as [[= -> ->]|N1].
  { exists e', j, l'. split; [by apply not_elem_of_nil|]. rewrite Hl in Hk0. by injection Hk0 as <-. }
  destruct (decide ((e0, i0) = (e', j))) as [[= -> ->]|N2].
  { exists e, i, l. split; [by apply not_elem_of_nil|]. rewrite Hl' in Hk0. by injection Hk0 as <-. }
  destruct (lw_twin _ _ Hw e0 i0 k0 Hk0) as (e3 & j3 & l3 & _ & T3).
  { rewrite !not_elem_of_cons. split; [done|]. split; [done|]. apply not_elem_of_nil. }
  exists e3, j3, l3. split; [apply not_elem_of_nil|done].
Qed.

Lemma open_pair s e i l e' j l' :
  links_wf [] s -> links_of s e !! i = Some l -> twins s e i l e' j l' ->
  links_wf [(e', j); (e, i)] s.
Proof.
  intros Hw Hl T. pose proof (tw_link _ _ _ _ _ _ _ T) as Hl'.
  split; [apply Hw..| |apply Hw]. intros e0 i0 k0 Hk0 [N1 [N2 _]%not_elem_of_cons]%not_elem_of_cons.
  destruct (lw_twin _ _ Hw e0 i0 k0 Hk0) as (e3 & j3 & l3 & _ & T3); [apply not_elem_of_nil|].
  pose proof (tw_back _ _ _ _ _ _ _ T3) as B3. pose proof (tw_link _ _ _ _ _ _ _ T3) as Hl3.
  exists e3, j3, l3. split; [|done]. rewrite !not_elem_of_cons. split; [|split; [|apply not_elem_of_nil]].
  - intros [= -> ->]. assert (l3 = l') as -> by congruence. rewrite (tw_back _ _ _ _ _ _ _ T) in B3.
    destruct (addr_inj _ _ _ _ _ _ _ _ Hw Hl Hk0 B3) as [-> ->]. by apply N2.
  - intros [= -> ->]. assert (l3 = l) as -> by congruence. rewrite (tw_reverse _ _ _ _ _ _ _ T) in B3.
    destruct (addr_inj _ _ _ _ _ _ _ _ Hw Hl' Hk0 B3) as [-> ->]. by apply N1.
Qed.

(** ** Writing one link *)

Definition put_links (h : gmap nat (list media_link)) (s : media_graph) : media_graph := set_mg_links h s.

(** The state after a write to the link at [i] of [e]. *)
Record slot_written (e i : nat) (l : media_link) (s s' : media_graph) : Prop := {
  sw_state : s' = set_mg_links (mg_links s') s;
  sw_links : forall e', links_of s' e' = if decide (e' = e) then <[i := l]> (links_of s e) else links_of s e';
  sw_len : forall a, length <$> (mg_links s' !! a) = length <$> (mg_links s !! a);
}.

Lemma take_insert_eq {A} n i (x : A) l : (i < n)%nat -> take n (<[i := x]> l) = <[i := x]> (take n l).
Proof.
  intros Hi. apply list_eq. intros j. destruct (decide (j = i)) as [->|Hne].
  - destruct (decide (i < length l)%nat) as [Hl|Hl].
    + rewrite lookup_take_lt, !list_lookup_insert_eq by (rewrite ?length_take; lia). done.
    + rewrite !lookup_ge_None_2; [done|..]; rewrite ?length_insert, ?length_take, ?length_insert; lia.
  - rewrite (list_lookup_insert_ne (take n l)) by done. destruct (decide (j < n)%nat).
    + by rewrite !lookup_take_lt, list_lookup_insert_ne by done.
    + by rewrite !lookup_take_ge by lia.
Qed.

Lemma ml_upd_slot pend s e i l q f :
  links_wf pend s -> links_of s e !! i = Some l -> addr s e i = Some q ->
  exists s', ml_upd q f s = Some (tt, s') /\ slot_written e i (f l) s s'.
Proof.
  intros Hw Hl Hq. pose proof Hl as (x & a & ls & Hx & Ha & Hls & Hi & Hli)%links_of_Some.
  rewrite (addr_Some s e i x a) in Hq by done. injection Hq as <-.
  unfold ml_upd, gets, the, modify, mdo. unfold mthen. cbn [fst snd]. rewrite Hls, Hli.
  eexists. split; [done|]. split; cbn [mg_links set_mg_links].
  - done.
  - intros e'. unfold links_of. cbn [mg_entity mg_links set_mg_links]. case_decide as He.
    + subst e'. rewrite Hx, Ha, lookup_insert_eq, Hls. cbn. by apply take_insert_eq.
    + destruct (mg_entity s !! e') as [y|] eqn:Hy; [|done]. destruct (me_links y) as [c|] eqn:Hc; [|done].
      rewrite lookup_insert_ne; [done|]. intros <-. apply He. by eapply lw_alloc.
  - intros c. destruct (decide (c = a)) as [->|Hne].
    + rewrite lookup_insert_eq, Hls. cbn. by rewrite length_insert.
    + by rewrite lookup_insert_ne.
Qed.

(** The rest of the state is as it was. *)
Lemma sw_entity e i l s s' : slot_written e i l s s' -> mg_entity s' = mg_entity s.
Proof. intros [-> _ _]. done. Qed.

Lemma sw_addr e i l s s' : slot_written e i l s s' -> forall e' j, addr s' e' j = addr s e' j.
Proof. intros Hs e' j. unfold addr. by rewrite (sw_entity _ _ _ _ _ Hs). Qed.

Lemma sw_pad e i l s s' : slot_written e i l s s' -> forall p, pad_entity s' p = pad_entity s p.
Proof. intros Hs p. unfold pad_entity. by rewrite (sw_entity _ _ _ _ _ Hs). Qed.

Lemma sw_ends e i l s s' : slot_written e i l s s' -> forall l e1 e2, ends s l e1 e2 -> ends s' l e1 e2.
Proof.
  intros Hs k e1 e2 (p & q & H1 & H2 & H3 & H4 & H5). exists p, q. by rewrite !(sw_pad _ _ _ _ _ Hs).
Qed.

Lemma sw_entity_wf e i l s s' : slot_written e i l s s' -> forall x, entity_wf s x -> entity_wf s' x.
Proof.
  intros Hs x (H1 & H2 & H3). split; [done|]. split; [done|]. destruct (me_links x) as [a|]; [|done].
  destruct H3 as (ls & Hls & Hz). pose proof (sw_len _ _ _ _ _ Hs a) as Hlen. rewrite Hls in Hlen.
  destruct (mg_links s' !! a) as [ks|]; [|done]. injection Hlen as Hlen. exists ks. split; [done|].
  unfold zlen in *. lia.
Qed.

(** A slot that is being made may be written at will. *)
Lemma write_pending pend s s' e i l :
  links_wf pend s -> slot_written e i l s s' -> (e, i) ∈ pend -> links_wf pend s'.
Proof.
  intros Hw Hs Hin. pose proof (sw_entity _ _ _ _ _ Hs) as He. split.
  - intros e' x. rewrite He. intros Hx. eapply sw_entity_wf; [done|]. by eapply lw_entity.
  - rewrite He. apply Hw.
  - assert (Hother : forall e' j, (e', j) ∉ pend -> links_of s' e' !! j = links_of s e' !! j).
    { intros e' j Hn. rewrite (sw_links _ _ _ _ _ Hs). case_decide as E; [|done]. subst e'.
      apply list_lookup_insert_ne. intros ->. done. }
    intros e' j k Hk Hn. rewrite Hother in Hk by done.
    destruct (lw_twin _ _ Hw e' j k Hk Hn) as (e2 & j2 & k2 & Hn2 & [T1 T2 T3 T4 T5 T6 T7 T8]).
    exists e2, j2, k2. split; [done|]. split; try done.
    + by rewrite Hother.
    + by rewrite (sw_addr _ _ _ _ _ Hs).
    + by rewrite (sw_addr _ _ _ _ _ Hs).
    + by eapply sw_ends.
  - rewrite He. apply Hw.
Qed.

(** ** Moving an array *)

Definition redirect (a b k : nat) (p : option link_ptr) : option link_ptr :=
  match p with
  | Some (c, i) => if decide (c = a /\ (i < k)%nat) then Some (b, i) else p
  | None => None
  end.

Definition moved_link (pend : list (nat * nat)) (a b k e' j : nat) (l : media_link) : media_link :=
  if decide ((e', j) ∈ pend) then l else set_ml_reverse (redirect a b k (ml_reverse l)) l.

Section grow.
Context (pend : list (nat * nat)) (s : media_graph) (e : nat) (x : media_entity) (a b : nat).
Context (Hw : links_wf pend s) (Hx : mg_entity s !! e = Some x) (Ha : me_links x = Some a).
Context (Hpend : forall i, (e, i) ∉ pend).
Context (Hb : b = a \/ b ∉ dom (mg_links s)).

Definition base (e' c : nat) : nat := if decide (e' = e) then b else c.

(** The first [k] links of the moved array are known to their twins. *)
Definition moving (k : nat) (s' : media_graph) : Prop :=
  s' = set_mg_links (mg_links s') s /\
  forall e' y c, mg_entity s !! e' = Some y -> me_links y = Some c -> exists ks,
    mg_links s' !! base e' c = Some ks /\
    (if decide (e' = e) then zlen ks = me_max_links x + 2
     else length <$> mg_links s !! c = Some (length ks)) /\
    forall j l, links_of s e' !! j = Some l -> ks !! j = Some (moved_link pend a b k e' j l).

Lemma base_inj e1 y1 c1 e2 y2 c2 :
  mg_entity s !! e1 = Some y1 -> me_links y1 = Some c1 -> mg_entity s !! e2 = Some y2 ->
  me_links y2 = Some c2 -> is_Some (mg_links s !! c1) -> is_Some (mg_links s !! c2) ->
  base e1 c1 = base e2 c2 -> e1 = e2.
Proof.
  intros H1 C1 H2 C2 V1 V2. unfold base.
  assert (Hnew : forall e' y c, mg_entity s !! e' = Some y -> me_links y = Some c ->
    is_Some (mg_links s !! c) -> b = c -> e = e').
  { intros e' y c Hy Hc Hv Heq. destruct Hb as [Hba|Hnb].
    - eapply (lw_alloc _ _ Hw e e' x y a); congruence.
    - exfalso. apply Hnb, elem_of_dom. by rewrite Heq. }
  repeat case_decide; intros Heq.
  - congruence.
  - rewrite H. by eapply Hnew.
  - rewrite H0. symmetry. by eapply Hnew.
  - subst c2. by eapply lw_alloc.
Qed.

Lemma moving_step k s' :
  (k < Z.to_nat (me_num_links x))%nat -> moving k s' ->
  exists s2, (l <- ml_get (b, k) ;; q <- the (ml_reverse l) ;; ml_upd q (set_ml_reverse (Some (b, k)))) s' =
    Some (tt, s2) /\ moving (S k) s2.
Proof.
  intros Hk [Hst Hm].
  destruct (lw_entity _ _ Hw e x Hx) as (Hn & _ & Hls). rewrite Ha in Hls. destruct Hls as (ls & Hls & Hz).
  destruct (lookup_lt_is_Some_2 ls k) as [l Hl]; [unfold zlen in Hz; lia|].
  assert (Hlk : links_of s e !! k = Some l) by by eapply links_of_intro.
  destruct (lw_twin _ _ Hw e k l Hlk (Hpend k)) as (e' & j & l' & Hnp & T).
  pose proof (tw_link _ _ _ _ _ _ _ T) as Hl'.
  pose proof Hl' as (y & c & ks0 & Hy & Hc & Hks0 & Hj & Hl0)%links_of_Some.
  assert (Hrev : ml_reverse l = Some (c, j)).
  { rewrite (tw_reverse _ _ _ _ _ _ _ T). by eapply addr_Some. }
  assert (Hback : ml_reverse l' = Some (a, k)).
  { rewrite (tw_back _ _ _ _ _ _ _ T). by eapply addr_Some. }
  pose proof (tw_ne _ _ _ _ _ _ _ T) as Hne.
  assert (Hca : c <> a) by (intros ->; apply Hne; by eapply lw_alloc).
  destruct (Hm e x a Hx Ha) as (ks & Hks & _ & Hkl). specialize (Hkl k l Hlk).
  destruct (Hm e' y c Hy Hc) as (ks' & Hks' & Hlen' & Hkl'). specialize (Hkl' j l' Hl').
  unfold base in Hks, Hks'. rewrite decide_True in Hks by done. rewrite decide_False in Hks' by done.
  rewrite decide_False in Hlen' by done.
  unfold moved_link in Hkl, Hkl'. rewrite decide_False in Hkl by done. rewrite decide_False in Hkl' by done.
  unfold ml_get, ml_upd, gets, the, modify, mdo. unfold mthen. cbn [fst snd].
  rewrite Hks, Hkl. cbn [ml_reverse set_ml_reverse]. rewrite Hrev. cbn [redirect].
  rewrite decide_False by (intros [? _]; done). cbn [fst snd]. rewrite Hks', Hkl'.
  eexists. split; [done|]. split; [rewrite Hst; done|].
  intros e2 y2 c2 Hy2 Hc2. cbn [mg_links set_mg_links].
  assert (Hsome : forall e3 y3 c3, mg_entity s !! e3 = Some y3 -> me_links y3 = Some c3 ->
    is_Some (mg_links s !! c3)).
  { intros e3 y3 c3 H3 C3. destruct (lw_entity _ _ Hw e3 y3 H3) as (_ & _ & H4). rewrite C3 in H4.
    destruct H4 as (? & ? & _). by eexists. }
  (* nobody else points to the link that was moved *)
  assert (Hsame : forall j2 l2, links_of s e2 !! j2 = Some l2 -> (e2, j2) <> (e', j) ->
    moved_link pend a b (S k) e2 j2 l2 = moved_link pend a b k e2 j2 l2).
  { intros j2 l2 H2 Hd. unfold moved_link. case_decide as Hp; [done|]. f_equal.
    destruct (ml_reverse l2) as [[c3 i3]|] eqn:R2; [|done]. cbn.
    destruct (decide (c3 = a /\ (i3 < S k)%nat)) as [[-> Hi]|Hno].
    - rewrite (decide_True (P := a = a /\ (i3 < k)%nat)); [done|]. split; [done|].
      destruct (decide (i3 = k)) as [->|]; [exfalso|lia].
      destruct (lw_twin _ _ Hw e2 j2 l2 H2 Hp) as (e4 & j4 & l4 & _ & T4).
      rewrite (tw_reverse _ _ _ _ _ _ _ T4), <- (addr_Some s e k x a Hx Ha) in R2.
      destruct (addr_inj _ _ _ _ _ _ _ _ Hw (tw_link _ _ _ _ _ _ _ T4) Hlk R2) as [-> ->].
      pose proof (tw_link _ _ _ _ _ _ _ T4) as H4. rewrite Hlk in H4. injection H4 as <-.
      pose proof (tw_back _ _ _ _ _ _ _ T4) as B4. rewrite (tw_reverse _ _ _ _ _ _ _ T) in B4.
      destruct (addr_inj _ _ _ _ _ _ _ _ Hw Hl' H2 B4) as [-> ->]. done.
    - rewrite decide_False; [done|]. intros [-> ?]. apply Hno. split; [done|lia]. }
  destruct (Hm e2 y2 c2 Hy2 Hc2) as (ks2 & Hks2 & Hlen2 & Hkl2).
  destruct (decide (e2 = e')) as [->|Hne2].
  - assert (c2 = c) as -> by congruence. unfold base. rewrite (decide_False (P := e' = e)) by done.
    eexists. split; [apply lookup_insert_eq|]. rewrite decide_False by done.
    split; [by rewrite length_insert|].
    intros j2 l2 H2. destruct (decide (j2 = j)) as [->|Hnj].
    + rewrite list_lookup_insert_eq by by eapply lookup_lt_Some.
      assert (l2 = l') as -> by congruence. unfold moved_link. rewrite decide_False by done.
      rewrite Hback. cbn [redirect]. rewrite (decide_True (P := a = a /\ (k < S k)%nat)) by (split; [done|lia]). done.
    + rewrite list_lookup_insert_ne by done. rewrite Hsame by (done || congruence).
      assert (ks2 = ks') as -> by (unfold base in Hks2; rewrite decide_False in Hks2 by done; congruence).
      by apply Hkl2.
  - exists ks2. rewrite lookup_insert_ne.
    2: { intros Hcb. apply Hne2. symmetry. eapply (base_inj e' y c e2 y2 c2); eauto.
         unfold base at 1. by rewrite decide_False. }
    split; [done|]. split; [done|]. intros j2 l2 H2. rewrite Hsame by (done || congruence). by apply Hkl2.
Qed.
Lemma redirect_0 r : redirect a b 0 r = r.
Proof. destruct r as [[c i]|]; [|done]. cbn. by rewrite decide_False by lia. Qed.

Lemma moved_0 e' j l : moved_link pend a b 0 e' j l = l.
Proof. unfold moved_link. case_decide; [done|]. rewrite redirect_0. by destruct l. Qed.

Lemma entity_alloc e' y c : mg_entity s !! e' = Some y -> me_links y = Some c -> is_Some (mg_links s !! c).
Proof.
  intros Hy Hc. destruct (lw_entity _ _ Hw e' y Hy) as (_ & _ & H). rewrite Hc in H.
  destruct H as (ks & Hks & _). by eexists.
Qed.

Lemma moving_start old :
  mg_links s !! a = Some old ->
  moving 0 (set_mg_links
    (<[b := take (Z.to_nat (me_max_links x + 2)) (old ++ replicate (Z.to_nat (me_max_links x + 2)) null_link)]>
       (delete a (mg_links s))) s).
Proof.
  intros Hold. split; [done|]. intros e' y c Hy Hc. cbn [mg_links set_mg_links].
  destruct (lw_entity _ _ Hw e x Hx) as (Hn & _ & H). rewrite Ha in H. destruct H as (old' & Hold' & Hz).
  assert (old' = old) as -> by congruence.
  destruct (entity_alloc e' y c Hy Hc) as [ks Hks].
  destruct (decide (e' = e)) as [->|Hne].
  - unfold base. rewrite (decide_True (P := e = e)) by done. eexists. split; [apply lookup_insert_eq|].
    split; [unfold zlen; rewrite length_take, length_app, length_replicate; lia|].
    intros j l (y' & c' & ks' & Hy' & Hc' & Hks' & Hj & Hl)%links_of_Some. rewrite moved_0.
    assert (y' = x) as -> by congruence. assert (ks' = old) as -> by congruence.
    rewrite lookup_take_lt by lia. by apply lookup_app_l_Some.
  - exists ks. rewrite lookup_insert_ne.
    2: { intros Hcb. apply Hne. symmetry. eapply (base_inj e x a e' y c); eauto using entity_alloc.
         rewrite <- Hcb. unfold base. by rewrite decide_True. }
    unfold base. rewrite (decide_False (P := e' = e)) by done. rewrite lookup_delete_ne.
    2: { intros ->. apply Hne. by eapply lw_alloc. }
    split; [done|]. split; [by rewrite Hks|].
    intros j l (y' & c' & ks' & Hy' & Hc' & Hks' & Hj & Hl)%links_of_Some. rewrite moved_0. congruence.
Qed.

Lemma moving_loop n k s' :
  Z.of_nat (k + n) = me_num_links x -> moving k s' ->
  exists s2, mfor (seqZ (Z.of_nat k) (Z.of_nat n)) (fun i =>
      l <- ml_get (b, Z.to_nat i) ;; q <- the (ml_reverse l) ;;
      ml_upd q (set_ml_reverse (Some (b, Z.to_nat i)))) s' = Some (tt, s2) /\
    moving (k + n) s2.
Proof.
  revert k s'. induction n as [|n IH]; intros k s' Hn Hm.
  - exists s'. rewrite Nat.add_0_r. done.
  - rewrite seqZ_cons by lia. cbn [mfor]. destruct (moving_step k s') as (s2 & Hs2 & Hm2); [lia|done|].
    unfold mthen at 1. rewrite Nat2Z.id, Hs2.
    replace (Z.succ (Z.of_nat k)) with (Z.of_nat (S k)) by lia.
    replace (Z.pred (Z.of_nat (S n))) with (Z.of_nat n) by lia.
    replace (k + S n)%nat with (S k + n)%nat by lia. apply IH; [lia|done].
Qed.

(** The entity with its new array. *)
Definition grown : media_entity :=
  set_me_links (Some b) (set_me_max_links (u16 (me_max_links x + 2)) x).

Context (s' : media_graph) (Hmax : me_max_links x <= 65533).
Context (Hm : moving (Z.to_nat (me_num_links x)) s').

Definition after_grow : media_graph := set_mg_entity (<[e := grown]> (mg_entity s')) s'.

Lemma after_entity : mg_entity after_grow = <[e := grown]> (mg_entity s).
Proof. unfold after_grow. cbn. destruct Hm as [-> _]. done. Qed.

Lemma after_lookup e' :
  mg_entity after_grow !! e' = if decide (e' = e) then Some grown else mg_entity s !! e'.
Proof.
  rewrite after_entity. case_decide as Hd.
  - rewrite Hd. apply list_lookup_insert_eq. by eapply lookup_lt_Some.
  - by apply list_lookup_insert_ne.
Qed.

Lemma after_pad p : pad_entity after_grow p = pad_entity s p.
Proof.
  unfold pad_entity. destruct p as [[e' i]|]; [|done]. cbn. rewrite after_lookup.
  case_decide as Hd; [|done]. by rewrite Hd, Hx.
Qed.

Lemma after_addr e' y c j :
  mg_entity s !! e' = Some y -> me_links y = Some c -> addr after_grow e' j = Some (base e' c, j).
Proof.
  intros Hy Hc. unfold addr, base. rewrite after_lookup. case_decide; [done|]. rewrite Hy. cbn. by rewrite Hc.
Qed.

Lemma after_addr_ne e' j : e' <> e -> addr after_grow e' j = addr s e' j.
Proof. intros Hne. unfold addr. rewrite after_lookup. by rewrite decide_False. Qed.

Lemma after_links e' :
  links_of after_grow e' = imap (moved_link pend a b (Z.to_nat (me_num_links x)) e') (links_of s e').
Proof.
  apply list_eq. intros j. rewrite list_lookup_imap.
  destruct (links_of s e' !! j) as [l|] eqn:Hl; cbn [fmap option_fmap option_map].
  - pose proof Hl as (y & c & ks & Hy & Hc & Hks & Hj & Hlj)%links_of_Some.
    destruct Hm as [_ Hm']. destruct (Hm' e' y c Hy Hc) as (ks' & Hks' & _ & Hk). specialize (Hk j l Hl).
    destruct (decide (e' = e)) as [->|Hne].
    + eapply (links_of_intro _ _ _ _ grown (base e c)); [|by unfold base; rewrite decide_True|exact Hks'|cbn|exact Hk].
      * rewrite after_lookup. by rewrite decide_True.
      * assert (y = x) as -> by congruence. done.
    + eapply (links_of_intro _ _ _ _ y (base e' c)); [|by unfold base; rewrite decide_False|exact Hks'|done|exact Hk].
      rewrite after_lookup. by rewrite decide_False.
  - destruct (links_of after_grow e' !! j) as [l|] eqn:Hl'; [exfalso|done].
    apply links_of_Some in Hl' as (y & c & ks & Hy & Hc & _ & Hj & _). rewrite after_lookup in Hy.
    assert (exists y' c', mg_entity s !! e' = Some y' /\ me_links y' = Some c' /\ me_num_links y' = me_num_links y)
      as (y' & c' & Hy' & Hc' & Hn').
    { case_decide as Hd; [|by exists y, c]. rewrite Hd. injection Hy as <-. by exists x, a. }
    destruct (lw_entity _ _ Hw e' y' Hy') as (H1 & _ & H2). rewrite Hc' in H2. destruct H2 as (ks' & Hks' & Hz).
    destruct (lookup_lt_is_Some_2 ks' j) as [l' Hl']; [unfold zlen in Hz; lia|].
    rewrite (links_of_intro s e' j l' y' c' ks') in Hl by (done || lia). done.
Qed.

Lemma after_links_Some e' j l2 :
  links_of after_grow e' !! j = Some l2 ->
  exists l, links_of s e' !! j = Some l /\ l2 = moved_link pend a b (Z.to_nat (me_num_links x)) e' j l.
Proof.
  rewrite after_links, list_lookup_imap. destruct (links_of s e' !! j) as [l|]; [|done].
  intros [= <-]. by exists l.
Qed.

(** A pointer to a link is right again once its array has moved. *)
Lemma after_pointer e' j l :
  links_of s e' !! j = Some l ->
  redirect a b (Z.to_nat (me_num_links x)) (addr s e' j) = addr after_grow e' j.
Proof.
  intros (y & c & ks & Hy & Hc & _ & Hj & _)%links_of_Some.
  rewrite (after_addr e' y c j Hy Hc), (addr_Some s e' j y c Hy Hc). cbn. unfold base.
  destruct (decide (e' = e)) as [->|Hne].
  - rewrite decide_True; [done|]. split; [congruence|]. assert (y = x) as -> by congruence. done.
  - rewrite decide_False; [done|]. intros [-> _]. apply Hne. by eapply lw_alloc.
Qed.

Lemma after_twin e1 j1 l1 e2 j2 l2 :
  links_of s e1 !! j1 = Some l1 -> (e1, j1) ∉ pend -> (e2, j2) ∉ pend -> twins s e1 j1 l1 e2 j2 l2 ->
  let mv := moved_link pend a b (Z.to_nat (me_num_links x)) in
  twins after_grow e1 j1 (mv e1 j1 l1) e2 j2 (mv e2 j2 l2).
Proof.
  intros H1 N1 N2 [T1 T2 T3 T4 T5 T6 T7 T8]. cbn. unfold moved_link. rewrite !decide_False by done.
  split; cbn [ml_reverse ml_source ml_sink ml_flags set_ml_reverse]; try done.
  - rewrite after_links, list_lookup_imap, T2. cbn [fmap option_fmap option_map].
    unfold moved_link. by rewrite decide_False.
  - rewrite T3. by eapply after_pointer.
  - rewrite T4. by eapply after_pointer.
  - destruct T8 as (p & q & Hp & Hq & He & Pp & Pq). exists p, q. rewrite !after_pad. done.
Qed.

Lemma grow_wf : links_wf pend after_grow.
Proof.
  split.
  - intros e' y Hy. rewrite after_lookup in Hy. destruct Hm as [_ Hm']. case_decide as Hd.
    + injection Hy as <-. unfold entity_wf, grown. cbn.
      destruct (lw_entity _ _ Hw e x Hx) as (H1 & H2 & _). rewrite wrap_small by lia.
      split; [lia|]. split; [lia|]. destruct (Hm' e x a Hx Ha) as (ks & Hks & Hz & _).
      unfold base in Hks. rewrite !decide_True in * by done. exists ks. split; [done|lia].
    + destruct (lw_entity _ _ Hw e' y Hy) as (H1 & H2 & H3). split; [done|]. split; [done|].
      destruct (me_links y) as [c|] eqn:Hc; [|done]. destruct H3 as (ks & Hks & Hz).
      destruct (Hm' e' y c Hy Hc) as (ks' & Hks' & Hlen & _). unfold base in Hks'.
      rewrite !decide_False in * by done. rewrite Hks in Hlen. injection Hlen as Hlen. exists ks'.
      split; [done|]. unfold zlen in *. lia.
  - assert (Hback : forall e' y c, mg_entity after_grow !! e' = Some y -> me_links y = Some c ->
      exists y' c', mg_entity s !! e' = Some y' /\ me_links y' = Some c' /\ c = base e' c').
    { intros e' y c Hy Hc. rewrite after_lookup in Hy. unfold base. case_decide as Hd; [|by exists y, c].
      rewrite Hd. injection Hy as <-. exists x, a. by injection Hc as <-. }
    intros e1 e2 y1 y2 c H1 H2 C1 C2.
    destruct (Hback e1 y1 c H1 C1) as (z1 & d1 & Z1 & D1 & E1).
    destruct (Hback e2 y2 c H2 C2) as (z2 & d2 & Z2 & D2 & E2).
    eapply (base_inj e1 z1 d1 e2 z2 d2); eauto using entity_alloc. congruence.
  - intros e1 j1 l1 (l & Hl & ->)%after_links_Some N1.
    destruct (lw_twin _ _ Hw e1 j1 l Hl N1) as (e2 & j2 & l2 & N2 & T). do 3 eexists.
    split; [exact N2|]. by eapply after_twin.
  - intros e' y i p Hy Hp. rewrite after_lookup in Hy. case_decide as Hd.
    + injection Hy as <-. rewrite Hd. by eapply (lw_pads _ _ Hw e x i p).
    + by eapply lw_pads.
Qed.
End grow.

(** ** What a link says *)

(** A link without its pointer. *)
Definition facts (l : media_link) : option pad_ptr * option pad_ptr * Z :=
  (ml_source l, ml_sink l, ml_flags l).
Definition facts_of (s : media_graph) (e : nat) : list (option pad_ptr * option pad_ptr * Z) :=
  facts <$> links_of s e.

(** All of an entity but its links. *)
Definition rest (x : media_entity) : media_entity :=
  set_me_links None (set_me_num_links 0 (set_me_max_links 0 x)).

(** [s'] is [s] but for links, and entities other than those of [es] are as they were. *)
Record links_only (es : list nat) (s s' : media_graph) : Prop := {
  lo_rest : rest <$> mg_entity s' = rest <$> mg_entity s;
  lo_other : forall e, e ∉ es -> mg_entity s' !! e = mg_entity s !! e;
  lo_mutex : mg_mutex s' = mg_mutex s;
  lo_log : mg_log s' = mg_log s;
  lo_reg : mg_entities s' = mg_entities s /\ mg_entity_id s' = mg_entity_id s;
}.

Lemma links_wf_eq pend s s' :
  mg_entity s' = mg_entity s -> mg_links s' = mg_links s -> links_wf pend s -> links_wf pend s'.
Proof.
  intros He Hl [H1 H2 H3 H4].
  assert (Hlinks : forall e, links_of s' e = links_of s e) by (intros e; unfold links_of; by rewrite He, Hl).
  assert (Haddr : forall e i, addr s' e i = addr s e i) by (intros e i; unfold addr; by rewrite He).
  split; rewrite ?He; [|done| |done].
  - intros e x Hx. unfold entity_wf. rewrite Hl. by apply H1 in Hx.
  - intros e i l. rewrite Hlinks. intros Hi Hn. destruct (H3 e i l Hi Hn) as (e' & j & l' & Hn' & T).
    exists e', j, l'. split; [done|]. destruct T as [T1 T2 T3 T4 T5 T6 T7 (p & q & Hp & Hq & Hd & Pp & Pq)].
    split; rewrite ?Hlinks, ?Haddr; try done. exists p, q. unfold pad_entity in *. by rewrite He.
Qed.

Lemma links_only_refl es s : links_only es s s.
Proof. done. Qed.

Lemma links_only_trans es1 es2 s1 s2 s3 :
  es1 ⊆ es2 -> links_only es1 s1 s2 -> links_only es2 s2 s3 -> links_only es2 s1 s3.
Proof.
  intros Hsub [H1 H2 H3 H4 [H5 H6]] [K1 K2 K3 K4 [K5 K6]]. split; [congruence| |congruence..|].
  - intros e He. rewrite K2 by done. apply H2. intros Hin. by apply He, Hsub.
  - split; congruence.
Qed.

(** A change that leaves pads, arrays and the finished links where they are. *)
Lemma links_wf_transfer pend pend' s s' :
  links_wf pend s ->
  (forall e x', mg_entity s' !! e = Some x' -> entity_wf s' x' /\ exists x, mg_entity s !! e = Some x /\
     me_links x' = me_links x /\ me_pads x' = me_pads x) ->
  (forall p, pad_entity s' p = pad_entity s p) ->
  (forall e j, addr s' e j = addr s e j) ->
  (forall e j l, links_of s' e !! j = Some l -> (e, j) ∉ pend' ->
     links_of s e !! j = Some l /\ (e, j) ∉ pend) ->
  (forall e j l, links_of s e !! j = Some l -> (e, j) ∉ pend ->
     links_of s' e !! j = Some l /\ (e, j) ∉ pend') ->
  links_wf pend' s'.
Proof.
  intros Hw He Hp Ha Hback Hforth. split.
  - intros e x Hx. apply (He e x Hx).
  - intros e1 e2 x1 x2 c H1 H2 C1 C2. destruct (He e1 x1 H1) as (_ & y1 & Y1 & L1 & _).
    destruct (He e2 x2 H2) as (_ & y2 & Y2 & L2 & _). eapply (lw_alloc _ _ Hw e1 e2 y1 y2 c); congruence.
  - intros e j l Hl Hn. destruct (Hback e j l Hl Hn) as [Hl0 Hn0].
    destruct (lw_twin _ _ Hw e j l Hl0 Hn0) as (e2 & j2 & l2 & N2 & [T1 T2 T3 T4 T5 T6 T7 T8]).
    destruct (Hforth e2 j2 l2 T2 N2) as [Hl2 Hn2]. exists e2, j2, l2. split; [done|].
    split; rewrite ?Ha; try done.
    destruct T8 as (p & q & E1 & E2 & E3 & E4 & E5). exists p, q. by rewrite !Hp.
  - intros e x i p Hx Hi. destruct (He e x Hx) as (_ & y & Hy & _ & Hpads). rewrite Hpads in Hi.
    by eapply lw_pads.
Qed.

(** Another number of links or backlinks for the entity [e]. *)
Section count.
Context (s : media_graph) (e : nat) (x x' : media_entity).
Context (Hx : mg_entity s !! e = Some x).
Context (Hlinks : me_links x' = me_links x) (Hpads : me_pads x' = me_pads x).

Definition counted : media_graph := set_mg_entity (<[e := x']> (mg_entity s)) s.

Lemma counted_lookup e' : mg_entity counted !! e' = if decide (e' = e) then Some x' else mg_entity s !! e'.
Proof.
  unfold counted. cbn. case_decide as Hd.
  - rewrite Hd. apply list_lookup_insert_eq. by eapply lookup_lt_Some.
  - by apply list_lookup_insert_ne.
Qed.

Lemma counted_pad p : pad_entity counted p = pad_entity s p.
Proof.
  unfold pad_entity. destruct p as [[e' i]|]; [|done]. cbn [mbind option_bind fst snd]. rewrite counted_lookup.
  case_decide as Hd; [|done]. rewrite Hd, Hx. cbn. by rewrite Hpads.
Qed.

Lemma counted_addr e' j : addr counted e' j = addr s e' j.
Proof.
  unfold addr. rewrite counted_lookup. case_decide as Hd; [|done]. rewrite Hd, Hx. cbn. by rewrite Hlinks.
Qed.

Lemma counted_links_ne e' : e' <> e -> links_of counted e' = links_of s e'.
Proof. intros Hne. unfold links_of. rewrite counted_lookup. by rewrite decide_False. Qed.

Lemma counted_links a : me_links x = Some a ->
  links_of counted e = take (Z.to_nat (me_num_links x')) (default [] (mg_links s !! a)).
Proof. intros Ha. unfold links_of. rewrite counted_lookup, decide_True by done. by rewrite Hlinks, Ha. Qed.

Lemma counted_wf pend pend' :
  links_wf pend s -> me_max_links x' = me_max_links x -> 0 <= me_num_links x' <= me_max_links x ->
  (forall e' j l, links_of counted e' !! j = Some l -> (e', j) ∉ pend' ->
     links_of s e' !! j = Some l /\ (e', j) ∉ pend) ->
  (forall e' j l, links_of s e' !! j = Some l -> (e', j) ∉ pend ->
     links_of counted e' !! j = Some l /\ (e', j) ∉ pend') ->
  links_wf pend' counted.
Proof.
  intros Hw Hmax Hnum Hback Hforth. eapply links_wf_transfer; [exact Hw|..].
  - intros e' y Hy. rewrite counted_lookup in Hy. case_decide as Hd.
    + injection Hy as <-. rewrite Hd. split; [|by exists x].
      destruct (lw_entity _ _ Hw e x Hx) as (H1 & H2 & H3). split; [lia|]. split; [lia|].
      rewrite Hlinks, Hmax. exact H3.
    + split; [|by exists y]. exact (lw_entity _ _ Hw e' y Hy).
  - apply counted_pad.
  - apply counted_addr.
  - exact Hback.
  - exact Hforth.
Qed.

Lemma counted_only : rest x' = rest x -> links_only [e] s counted.
Proof.
  intros Hr. split; [| |done..].
  - cbn. rewrite list_fmap_insert, Hr. apply list_insert_id. by rewrite list_lookup_fmap, Hx.
  - intros e' Hn. rewrite counted_lookup. rewrite decide_False; [done|]. intros ->. apply Hn, list_elem_of_here.
Qed.
End count.

Section create.
Context {E : MediaEnv}.

(** What making room for a link does to the entity [e]. *)
Record made_room (pend : list (nat * nat)) (e : nat) (s s' : media_graph) : Prop := {
  mr_wf : links_wf pend s';
  mr_only : links_only [e] s s';
  mr_facts : forall e', facts_of s' e' = facts_of s e';
  mr_addr : forall e' j, e' <> e -> addr s' e' j = addr s e' j;
}.

Lemma grow_room pend s e x a b s' :
  links_wf pend s -> mg_entity s !! e = Some x -> me_links x = Some a -> (forall i, (e, i) ∉ pend) ->
  (b = a \/ b ∉ dom (mg_links s)) -> me_max_links x <= 65533 ->
  moving pend s e x a b (Z.to_nat (me_num_links x)) s' ->
  made_room pend e s (after_grow e x b s').
Proof.
  intros Hw Hx Ha Hp Hb Hmax Hm.
  split.
  - by apply (grow_wf pend s e x a b).
  - pose proof (after_entity pend s e x a b s' Hm) as He. destruct Hm as [Hst _].
    split; [| |by rewrite Hst..].
    + rewrite He, list_fmap_insert. apply list_insert_id. by rewrite list_lookup_fmap, Hx.
    + intros e' Hn. rewrite He. apply list_lookup_insert_ne. intros ->. apply Hn, list_elem_of_here.
  - intros e'. unfold facts_of. erewrite after_links by done. apply list_eq. intros j.
    rewrite !list_lookup_fmap, list_lookup_imap. destruct (links_of s e' !! j) as [l|]; [|done].
    cbn. f_equal. unfold moved_link. by case_decide.
  - intros e' j Hne. by eapply after_addr_ne.
Qed.

Lemma grow_tail pend s e x a b old (Q : option unit -> media_graph -> Prop) :
  links_wf pend s -> mg_entity s !! e = Some x -> me_links x = Some a -> (forall i, (e, i) ∉ pend) ->
  (b = a \/ b ∉ dom (mg_links s)) -> me_max_links x <= 65533 -> mg_links s !! a = Some old ->
  (forall s', made_room pend e s s' -> mg_entity s' !! e = Some (grown x b) -> Q (Some tt) s') ->
  wp (modify (set_mg_links
       (<[b := take (Z.to_nat (me_max_links x + 2)) (old ++ replicate (Z.to_nat (me_max_links x + 2)) null_link)]>
          (delete a (mg_links s)))) ;;
      mfor (seqZ 0 (me_num_links x)) (fun i =>
        l <- ml_get (b, Z.to_nat i) ;; q <- the (ml_reverse l) ;;
        ml_upd q (set_ml_reverse (Some (b, Z.to_nat i)))) ;;
      me_upd e (fun x0 => set_me_links (Some b) (set_me_max_links (u16 (me_max_links x + 2)) x0)) ;;
      mdo (Some tt)) s Q.
Proof.
  intros Hw Hx Ha Hp Hb Hmax Hold HQ. apply wp_modify. destruct (lw_entity _ _ Hw e x Hx) as (Hn & _).
  pose proof (moving_start pend s e x a b Hw Hx Ha Hb old Hold) as Hm.
  destruct (moving_loop pend s e x a b Hw Hx Ha Hp Hb (Z.to_nat (me_num_links x)) 0 _ ltac:(lia) Hm) as (s2 & Hs2 & Hm2).
  change (Z.of_nat 0) with 0 in Hs2. rewrite Z2Nat.id in Hs2 by lia.
  apply wp_mthen. unfold wp at 1. rewrite Hs2.
  assert (Hx2 : mg_entity s2 !! e = Some x) by (destruct Hm2 as [-> _]; done).
  apply wp_mthen. unfold wp at 1. rewrite (me_upd_eq e _ s2 x Hx2). apply (HQ (after_grow e x b s2)).
  - by apply (grow_room pend s e x a b).
  - apply list_lookup_insert_eq. by eapply lookup_lt_Some.
Qed.

Lemma made_room_tick pend e s s' n :
  made_room pend e (set_mg_tick n s) s' -> made_room pend e s s'.
Proof. intros [H1 [H2 H3 H4 H5 H6] H7 H8]. done. Qed.

Lemma wp_grow_links pend s e x a Q :
  links_wf pend s -> mg_entity s !! e = Some x -> me_links x = Some a -> (forall i, (e, i) ∉ pend) ->
  me_max_links x <= 65533 ->
  (forall s', made_room pend e s s' -> mg_entity s' = mg_entity s -> Q None s') ->
  (forall s' b, made_room pend e s s' -> mg_entity s' !! e = Some (grown x b) -> Q (Some tt) s') ->
  wp (grow_links e) s Q.
Proof.
  intros Hw Hx Ha Hp Hmax Hnone Hsome. unfold grow_links.
  eapply wp_me_get; [exact Hx|]. unfold mg_ask. apply wp_mthen, wp_gets, wp_modify, wp_mdo. apply wp_gets.
  set (s1 := set_mg_tick _ s).
  assert (Hw1 : links_wf pend s1) by (by eapply links_wf_eq; [..|exact Hw]).
  destruct (entity_alloc pend s1 Hw1 e x a Hx Ha) as [old Hold].
  rewrite Ha. eapply wp_the; [exact Hold|]. cbn beta zeta.
  assert (Hgrow : forall s' b, made_room pend e s1 s' -> mg_entity s' !! e = Some (grown x b) -> Q (Some tt) s').
  { intros s' b Hm. apply Hsome. by eapply made_room_tick. }
  destruct (links_krealloc (mg_tick s)).
  - apply wp_mdo, Hnone; [|done]. by split.
  - eapply (grow_tail pend s1 e x a a old); eauto.
  - eapply (grow_tail pend s1 e x a (fresh_alloc (mg_links s1)) old); eauto.
    right. exact (is_fresh (dom (mg_links s1) : gset nat)).
Qed.

(** An entity with its array of links and room for one more of them. *)
Definition has_room (x : media_entity) : Prop :=
  is_Some (me_links x) /\ (me_num_links x < me_max_links x \/ me_max_links x <= 65533).

(** A new link at [n] of [e]. *)
Record added (pend : list (nat * nat)) (e n : nat) (s s' : media_graph) : Prop := {
  ad_wf : links_wf ((e, n) :: pend) s';
  ad_only : links_only [e] s s';
  ad_facts : forall e', e' <> e -> facts_of s' e' = facts_of s e';
  ad_new : exists f, facts_of s' e = facts_of s e ++ [f];
  ad_addr : forall e' j, e' <> e -> addr s' e' j = addr s e' j;
}.

Lemma length_links_of pend s e x : links_wf pend s -> mg_entity s !! e = Some x ->
  length (links_of s e) = Z.to_nat (me_num_links x).
Proof.
  intros Hw Hx. destruct (lw_entity _ _ Hw e x Hx) as (Hn & _ & Ha). unfold links_of. rewrite Hx.
  destruct (me_links x) as [a|]; [|cbn; lia]. destruct Ha as (ls & Hls & Hz). rewrite Hls. cbn.
  rewrite length_take. unfold zlen in Hz. lia.
Qed.

Lemma bump_added pend s e x a :
  links_wf pend s -> mg_entity s !! e = Some x -> me_links x = Some a -> (forall i, (e, i) ∉ pend) ->
  me_num_links x < me_max_links x ->
  added pend e (Z.to_nat (me_num_links x)) s (counted s e (set_me_num_links (me_num_links x + 1) x)).
Proof.
  intros Hw Hx Ha Hp Hlt. set (x' := set_me_num_links _ x).
  pose proof (lw_entity _ _ Hw e x Hx) as (Hn & Hm & Hls). rewrite Ha in Hls. destruct Hls as (ls & Hls & Hz).
  set (n := Z.to_nat (me_num_links x)).
  destruct (lookup_lt_is_Some_2 ls n) as [l Hl]; [unfold n, zlen in *; lia|].
  assert (Hnew : links_of (counted s e x') e = links_of s e ++ [l]).
  { rewrite (counted_links s e x x' Hx eq_refl a Ha), Hls. cbn [default from_option id].
    replace (Z.to_nat (me_num_links x')) with (S n) by (unfold x', n; cbn; lia).
    rewrite (take_S_r _ _ _ Hl). f_equal. unfold links_of. by rewrite Hx, Ha, Hls. }
  assert (Hlen : length (links_of s e) = n) by by eapply length_links_of.
  split.
  - apply (counted_wf s e x x' Hx eq_refl eq_refl pend); [done|done|unfold x'; cbn; lia|..].
    + intros e' j k Hk [Hne Hnp]%not_elem_of_cons. split; [|done].
      destruct (decide (e' = e)) as [->|Hd]; [|by rewrite (counted_links_ne s e x x' Hx) in Hk].
      rewrite Hnew in Hk. apply lookup_app_Some in Hk as [Hk|[Hge Hk]]; [done|exfalso].
      rewrite Hlen in *. apply list_lookup_singleton_Some in Hk as [Hj _]. apply Hne. f_equal. lia.
    + intros e' j k Hk Hnp. destruct (decide (e' = e)) as [->|Hd].
      * rewrite Hnew. split; [by apply lookup_app_l_Some|]. apply not_elem_of_cons. split; [|done].
        intros [= ->]. apply lookup_lt_Some in Hk. lia.
      * rewrite (counted_links_ne s e x x' Hx) by done. split; [done|]. apply not_elem_of_cons. split; [congruence|done].
  - by eapply counted_only.
  - intros e' Hne. unfold facts_of. by rewrite (counted_links_ne s e x x' Hx).
  - exists (facts l). unfold facts_of. by rewrite Hnew, fmap_app.
  - intros e' j Hne. by eapply counted_addr.
Qed.

Lemma added_after_room pend e n s s1 s' :
  made_room pend e s s1 -> added pend e n s1 s' -> added pend e n s s'.
Proof.
  intros [R1 R2 R3 R4] [A1 A2 A3 [f A4] A5]. split; [done|by eapply links_only_trans| | |].
  - intros e' He. by rewrite A3, R3.
  - exists f. by rewrite A4, R3.
  - intros e' j He. by rewrite A5, R4.
Qed.

Lemma wp_add_link pend s e x (Q : option link_ptr -> media_graph -> Prop) :
  links_wf pend s -> mg_entity s !! e = Some x -> has_room x -> (forall i, (e, i) ∉ pend) ->
  (forall s', made_room pend e s s' -> mg_entity s' = mg_entity s -> Q None s') ->
  (forall s' p x', added pend e (Z.to_nat (me_num_links x)) s s' ->
     addr s' e (Z.to_nat (me_num_links x)) = Some p -> mg_entity s' !! e = Some x' ->
     me_num_links x' = me_num_links x + 1 -> Q (Some p) s') ->
  wp (media_entity_add_link e) s Q.
Proof.
  intros Hw Hx [[a Ha] Hroom] Hp Hnone Hsome. unfold media_entity_add_link.
  eapply wp_me_get; [exact Hx|].
  (* the link, once there is room *)
  assert (Htake : forall s1 x1 b, made_room pend e s s1 -> mg_entity s1 !! e = Some x1 -> me_links x1 = Some b ->
    me_num_links x1 = me_num_links x -> me_num_links x1 < me_max_links x1 ->
    wp (p <- link_at e (me_num_links x) ;;
        me_upd e (set_me_num_links (u16 (me_num_links x + 1))) ;; mdo (Some p)) s1 Q).
  { intros s1 x1 b Hr Hx1 Hb Hn Hlt. apply wp_mthen. unfold link_at. eapply wp_me_get; [exact Hx1|].
    eapply wp_the; [exact Hb|]. apply wp_mdo. apply wp_mthen. unfold wp at 1. rewrite (me_upd_eq e _ s1 x1 Hx1).
    destruct (lw_entity _ _ (mr_wf _ _ _ _ Hr) e x1 Hx1) as (H1 & H2 & _).
    rewrite wrap_small by lia. rewrite <- Hn.
    apply (Hsome (counted s1 e (set_me_num_links (me_num_links x1 + 1) x1)) _ (set_me_num_links (me_num_links x1 + 1) x1)).
    - rewrite <- Hn. eapply added_after_room; [exact Hr|]. by eapply bump_added; [apply Hr|..].
    - rewrite (counted_addr s1 e x1) by done. rewrite Hn. by eapply addr_Some.
    - rewrite counted_lookup with (x := x1) by done. by rewrite decide_True.
    - cbn. by rewrite Hn. }
  destruct (me_num_links x >=? me_max_links x) eqn:Hge.
  - apply wp_mthen. eapply wp_grow_links; [done|done|exact Ha|done|lia| |].
    + intros s' Hr He. apply wp_mdo. by apply Hnone.
    + intros s' b Hr He. cbn beta. eapply Htake; [done|exact He|done|done|].
      destruct (lw_entity _ _ Hw e x Hx) as (H1 & H2 & _). cbn. rewrite wrap_small by lia. lia.
  - apply wp_mthen, wp_mdo. eapply Htake; [|exact Hx|exact Ha|done|lia]. by split.
Qed.

Lemma wp_ml_upd {B} pend s e i l q f (k : unit -> mediaM B) Q :
  links_wf pend s -> links_of s e !! i = Some l -> addr s e i = Some q ->
  (forall s', slot_written e i (f l) s s' -> wp (k tt) s' Q) -> wp (mthen (ml_upd q f) k) s Q.
Proof.
  intros Hw Hl Hq Hk. destruct (ml_upd_slot pend s e i l q f Hw Hl Hq) as (s' & Hs & Hsw).
  apply wp_mthen. unfold wp at 1. rewrite Hs. by apply Hk.
Qed.

Lemma slot_facts e i l s s' e' : slot_written e i l s s' ->
  facts_of s' e' = if decide (e' = e) then <[i := facts l]> (facts_of s e) else facts_of s e'.
Proof.
  intros Hs. unfold facts_of. rewrite (sw_links _ _ _ _ _ Hs). case_decide; [|done]. apply list_fmap_insert.
Qed.

Lemma slot_only es e i l s s' : slot_written e i l s s' -> links_only es s s'.
Proof. intros [-> _ _]. done. Qed.

(** Two finished links that point to each other. *)
Lemma tie_links {B} s e i l e' j l' p p' (k : mediaM B) Q :
  links_wf [(e', j); (e, i)] s -> e <> e' ->
  links_of s e !! i = Some l -> links_of s e' !! j = Some l' ->
  addr s e i = Some p -> addr s e' j = Some p' -> facts l' = facts l -> ends s l e e' ->
  (forall s', links_wf [] s' -> mg_entity s' = mg_entity s -> (forall e0, facts_of s' e0 = facts_of s e0) ->
     links_only [] s s' -> wp k s' Q) ->
  wp (ml_upd p (set_ml_reverse (Some p')) ;; ml_upd p' (set_ml_reverse (Some p)) ;; k) s Q.
Proof.
  intros Hw Hne Hl Hl' Hp Hp' Hf Hends Hk.
  eapply wp_ml_upd; [exact Hw|exact Hl|exact Hp|]. intros s1 S1.
  assert (Hw1 : links_wf [(e', j); (e, i)] s1).
  { eapply write_pending; [exact Hw|exact S1|]. apply list_elem_of_further, list_elem_of_here. }
  assert (L1 : forall e0, links_of s1 e0 = if decide (e0 = e) then <[i := set_ml_reverse (Some p') l]> (links_of s e)
                            else links_of s e0) by apply S1.
  eapply (wp_ml_upd _ s1 e' j l'); [exact Hw1| |by rewrite (sw_addr _ _ _ _ _ S1)|].
  { rewrite L1. by rewrite decide_False. }
  intros s2 S2. cbn beta.
  assert (Hw2 : links_wf [(e', j); (e, i)] s2).
  { eapply write_pending; [exact Hw1|exact S2|]. apply list_elem_of_here. }
  assert (He2 : mg_entity s2 = mg_entity s) by (by rewrite (sw_entity _ _ _ _ _ S2), (sw_entity _ _ _ _ _ S1)).
  assert (Ha2 : forall e0 i0, addr s2 e0 i0 = addr s e0 i0).
  { intros. by rewrite (sw_addr _ _ _ _ _ S2), (sw_addr _ _ _ _ _ S1). }
  assert (Le : links_of s2 e !! i = Some (set_ml_reverse (Some p') l)).
  { rewrite (sw_links _ _ _ _ _ S2), decide_False, L1, decide_True by done.
    apply list_lookup_insert_eq. by eapply lookup_lt_Some. }
  assert (Le' : links_of s2 e' !! j = Some (set_ml_reverse (Some p) l')).
  { rewrite (sw_links _ _ _ _ _ S2), decide_True, L1, decide_False by done.
    apply list_lookup_insert_eq. by eapply lookup_lt_Some. }
  assert (Hends2 : ends s2 l e e') by (eapply sw_ends; [exact S2|]; by eapply sw_ends).
  unfold facts in Hf. injection Hf as F1 F2 F3.
  assert (T : twins s2 e i (set_ml_reverse (Some p') l) e' j (set_ml_reverse (Some p) l')).
  { split; cbn; rewrite ?Ha2; done. }
  assert (T' : twins s2 e' j (set_ml_reverse (Some p) l') e i (set_ml_reverse (Some p') l)).
  { split; cbn; rewrite ?Ha2; try done. destruct Hends2 as (a & b & H1 & H2 & H3 & H4 & H5).
    exists a, b. cbn. rewrite F1, F2. split_and!; try done. destruct H3 as [[]|[]]; by (left + right). }
  apply Hk.
  - by eapply close_pair.
  - done.
  - intros e0. rewrite (slot_facts _ _ _ _ _ _ S2), !(slot_facts _ _ _ _ _ _ S1).
    rewrite (decide_False (P := e' = e)) by done.
    case_decide as D1; [|case_decide as D2; [|done]].
    + rewrite D1. apply list_insert_id. unfold facts_of. by rewrite list_lookup_fmap, Hl'.
    + rewrite D2. apply list_insert_id. unfold facts_of. by rewrite list_lookup_fmap, Hl.
  - eapply links_only_trans; [done|by eapply slot_only|by eapply slot_only].
Qed.

Lemma only_pads es s s' p : links_only es s s' -> pad_entity s' p = pad_entity s p.
Proof.
  intros Hr. unfold pad_entity. destruct p as [[e i]|]; [|done]. cbn [mbind option_bind fst snd].
  pose proof (f_equal (fun l => l !! e) (lo_rest _ _ _ Hr)) as He. cbn in He. rewrite !list_lookup_fmap in He.
  destruct (mg_entity s' !! e) as [x'|], (mg_entity s !! e) as [x|]; try done.
  cbn in He. injection He as He. cbn. by replace (me_pads x') with (me_pads x) by congruence.
Qed.

Lemma pad_of pend s e x i : links_wf pend s -> mg_entity s !! e = Some x ->
  is_Some (me_pads x !! i) -> pad_entity s (Some (e, i)) = Some e.
Proof.
  intros Hw Hx [q Hq]. unfold pad_entity. cbn. rewrite Hx. cbn. rewrite Hq. cbn. f_equal. by eapply lw_pads.
Qed.

Lemma wp_pad_at {B} es s s' e x pad (k : pad_ptr -> mediaM B) Q :
  links_only es s s' -> mg_entity s !! e = Some x -> 0 <= pad < zlen (me_pads x) ->
  wp (k (e, Z.to_nat pad)) s' Q -> wp (mthen (pad_at e pad) k) s' Q.
Proof.
  intros Hr Hx Hpad Hk. pose proof (f_equal (fun l => l !! e) (lo_rest _ _ _ Hr)) as He. cbn in He.
  rewrite !list_lookup_fmap, Hx in He. destruct (mg_entity s' !! e) as [x'|] eqn:Hx'; [|done].
  injection He as He. apply wp_mthen. unfold pad_at. eapply wp_me_get; [exact Hx'|].
  replace (me_pads x') with (me_pads x) by congruence.
  destruct (proj2 (mget_is_Some (me_pads x) pad) Hpad) as [q Hq]. eapply wp_the; [exact Hq|]. by apply wp_mdo.
Qed.

(** Writing the ends and the flags of a link that is being made. *)
Lemma wp_write_link {B} pend s e i q p1 p2 flags (k : unit -> mediaM B) Q :
  links_wf pend s -> (e, i) ∈ pend -> is_Some (facts_of s e !! i) -> addr s e i = Some q ->
  (forall s', links_wf pend s' -> links_only [] s s' -> mg_entity s' = mg_entity s ->
     (forall e', facts_of s' e' =
        if decide (e' = e) then <[i := (Some p1, Some p2, flags)]> (facts_of s e) else facts_of s e') ->
     wp (k tt) s' Q) ->
  wp (mthen (write_link q p1 p2 flags) k) s Q.
Proof.
  intros Hw Hin [f Hf] Hq Hk. unfold facts_of in Hf. rewrite list_lookup_fmap in Hf.
  destruct (links_of s e !! i) as [l|] eqn:Hl; [|done]. eapply wp_ml_upd; [exact Hw|exact Hl|exact Hq|].
  intros s' Hs. apply Hk.
  - by eapply write_pending.
  - by eapply slot_only.
  - by eapply sw_entity.
  - intros e'. by rewrite (slot_facts _ _ _ _ _ _ Hs).
Qed.

(** A link that was being made is taken back. *)
Lemma take_back s e x :
  links_wf [(e, Z.to_nat (me_num_links x - 1))] s -> mg_entity s !! e = Some x -> 0 < me_num_links x ->
  let s' := counted s e (set_me_num_links (me_num_links x - 1) x) in
  links_wf [] s' /\ links_only [e] s s' /\
  facts_of s' e = take (Z.to_nat (me_num_links x - 1)) (facts_of s e) /\
  forall e', e' <> e -> facts_of s' e' = facts_of s e'.
Proof.
  intros Hw Hx Hpos. set (x' := set_me_num_links _ x). set (n := Z.to_nat (me_num_links x - 1)). cbn zeta.
  pose proof (lw_entity _ _ Hw e x Hx) as (Hn & Hm & Hls).
  destruct (me_links x) as [a|] eqn:Ha; [|lia]. destruct Hls as (ls & Hls & Hz).
  assert (Hold : links_of s e = take (Z.to_nat (me_num_links x)) ls) by (unfold links_of; by rewrite Hx, Ha, Hls).
  assert (Hnew : links_of (counted s e x') e = take n (links_of s e)).
  { rewrite (counted_links s e x x' Hx eq_refl a Ha), Hls, Hold. cbn [default from_option id].
    rewrite take_take. f_equal. unfold x', n. cbn. lia. }
  assert (Hlen : length (links_of s e) = S n) by (erewrite length_links_of by done; unfold n; lia).
  split_and!.
  - apply (counted_wf s e x x' Hx eq_refl eq_refl [(e, n)]); [done|done|unfold x'; cbn; lia|..].
    + intros e' j k Hk _. destruct (decide (e' = e)) as [->|Hd].
      * rewrite Hnew in Hk. apply lookup_take_Some in Hk as [Hk Hj]. split; [done|].
        apply not_elem_of_cons. split; [|apply not_elem_of_nil]. intros [=]. lia.
      * rewrite (counted_links_ne s e x x' Hx) in Hk by done. split; [done|]. apply not_elem_of_cons.
        split; [congruence|apply not_elem_of_nil].
    + intros e' j k Hk [Hnp _]%not_elem_of_cons. split; [|apply not_elem_of_nil].
      destruct (decide (e' = e)) as [->|Hd]; [|by rewrite (counted_links_ne s e x x' Hx)].
      rewrite Hnew. rewrite lookup_take_lt; [done|]. apply lookup_lt_Some in Hk.
      assert (j <> n) by (intros ->; by apply Hnp). lia.
  - by eapply counted_only.
  - unfold facts_of. by rewrite Hnew, fmap_take.
  - intros e' Hne. unfold facts_of. by rewrite (counted_links_ne s e x x' Hx).
Qed.
End create.
