(* ===== verification/MediaCreate.v ===== *)
(** media_entity_create_link: a new link and its twin, or nothing. *)

From stdpp Require Import gmap.
From S2P Require Import Prelude StateM MediaTypes MediaEntity MediaWalk MediaPipeline MediaLinks.

Section create_link.
Context {E : MediaEnv}.

(** The entity [e] can be given a link at its pad [pad]. *)
Definition linkable (s : media_graph) (e : nat) (pad : Z) : Prop :=
  exists x, mg_entity s !! e = Some x /\ has_room x /\ me_num_pads x = zlen (me_pads x) /\
    0 <= pad < me_num_pads x.

Context (s : media_graph) (source : nat) (source_pad : Z) (sink : nat) (sink_pad flags : Z).
Context (Hw : links_wf [] s) (Hne : source <> sink).

Abbreviation src_pad := (source, Z.to_nat source_pad).
Abbreviation snk_pad := (sink, Z.to_nat sink_pad).

Definition new_link : option pad_ptr * option pad_ptr * Z := (Some src_pad, Some snk_pad, flags).

(** The links of [e] when creating the link has ended with [ret]. *)
Definition links_after (ret : Z) (e : nat) : list (option pad_ptr * option pad_ptr * Z) :=
  facts_of s e ++ (if decide (ret = 0 /\ (e = source \/ e = sink)) then [new_link] else []).

(** The sink counts the new link. *)
Definition count_back (x : media_entity) : media_entity :=
  set_me_num_backlinks (u16 (me_num_backlinks x + 1)) x.
Definition back_counted (ret : Z) : media_graph :=
  if decide (ret = 0) then set_mg_entity (alter count_back sink (mg_entity s)) s else s.

Definition created (ret : Z) (s' : media_graph) : Prop :=
  (ret = 0 \/ ret = - ENOMEM) /\ links_wf [] s' /\ links_only [source; sink] (back_counted ret) s' /\
  forall e, facts_of s' e = links_after ret e.

Lemma links_after_fail e : links_after (- ENOMEM) e = facts_of s e.
Proof. unfold links_after. rewrite decide_False by (intros [? _]; done). apply app_nil_r. Qed.

Lemma links_after_new e : e = source \/ e = sink -> links_after 0 e = facts_of s e ++ [new_link].
Proof. intros He. unfold links_after. by rewrite decide_True. Qed.

Lemma links_after_other e : e <> source -> e <> sink -> links_after 0 e = facts_of s e.
Proof. intros H1 H2. unfold links_after. rewrite decide_False by tauto. apply app_nil_r. Qed.

Lemma rest_count f (l : list media_entity) : (rest <$> alter count_back f l) = alter count_back f (rest <$> l).
Proof.
  apply list_eq. intros j. rewrite !list_lookup_fmap. destruct (decide (j = f)) as [->|Hd].
  - rewrite !list_lookup_alter_eq, list_lookup_fmap. by destruct (l !! f).
  - rewrite !list_lookup_alter_ne by done. by rewrite list_lookup_fmap.
Qed.

Lemma only_counted es s5 y :
  links_only es s s5 -> sink ∈ es -> mg_entity s5 !! sink = Some y ->
  links_only es (back_counted 0) (counted s5 sink (count_back y)).
Proof.
  intros [H1 H2 H3 H4 H5] Hin Hy. unfold back_counted. rewrite decide_True by done.
  assert (He : mg_entity (counted s5 sink (count_back y)) = alter count_back sink (mg_entity s5)).
  { unfold counted. cbn. apply list_eq. intros j. destruct (decide (j = sink)) as [->|Hd].
    - rewrite list_lookup_insert_eq by by eapply lookup_lt_Some. by rewrite list_lookup_alter_eq, Hy.
    - by rewrite list_lookup_insert_ne, list_lookup_alter_ne. }
  split; rewrite ?He; try done.
  - cbn [mg_entity set_mg_entity]. rewrite !rest_count. by rewrite H1.
  - intros e Hn. cbn [mg_entity set_mg_entity]. rewrite !list_lookup_alter_ne by (intros ->; done). by apply H2.
Qed.

Lemma made_room_fails e s' :
  e = source \/ e = sink -> made_room [] e s s' -> created (- ENOMEM) s'.
Proof.
  intros He [R1 R2 R3 R4]. split; [by right|]. split; [done|]. split.
  - eapply links_only_trans; [|exact R2|apply links_only_refl]. destruct He as [->| ->]; set_solver.
  - intros e'. by rewrite links_after_fail, R3.
Qed.

(** The new link is in the source, its twin is not yet made. *)
Record half_made (x : media_entity) (p1 : link_ptr) (s2 : media_graph) : Prop := {
  hm_wf : links_wf [(source, Z.to_nat (me_num_links x))] s2;
  hm_only : links_only [source] s s2;
  hm_source : facts_of s2 source = facts_of s source ++ [new_link];
  hm_facts : forall e, e <> source -> facts_of s2 e = facts_of s e;
  hm_addr : addr s2 source (Z.to_nat (me_num_links x)) = Some p1;
  hm_count : exists x2, mg_entity s2 !! source = Some x2 /\ me_num_links x2 = me_num_links x + 1;
}.

(** No memory for the twin: the link is taken back. *)
Lemma undo_half x p1 s2 s3 x3 :
  mg_entity s !! source = Some x -> half_made x p1 s2 ->
  made_room [(source, Z.to_nat (me_num_links x))] sink s2 s3 -> mg_entity s3 = mg_entity s2 ->
  mg_entity s3 !! source = Some x3 ->
  created (- ENOMEM) (counted s3 source (set_me_num_links (u16 (me_num_links x3 - 1)) x3)).
Proof.
  intros Hx [H1 H2 H3 H4 H5 (x2 & Hx2 & Hn2)] [R1 R2 R3 R4] He3 Hx3.
  assert (x3 = x2) as -> by congruence.
  destruct (lw_entity _ _ Hw source x Hx) as (Hn & Hm & _).
  destruct (lw_entity _ _ R1 source x2 Hx3) as (Hn' & Hm' & _).
  rewrite wrap_small by lia.
  destruct (take_back s3 source x2) as (T1 & T2 & T3 & T4);
    [by replace (me_num_links x2 - 1) with (me_num_links x) by lia|done|lia|].
  split; [by right|]. split; [done|]. split.
  - eapply links_only_trans; [|exact H2|]; [set_solver|].
    eapply (links_only_trans [sink]); [set_solver|done|].
    eapply links_only_trans; [|exact T2|apply links_only_refl]. set_solver.
  - intros e. rewrite links_after_fail. destruct (decide (e = source)) as [->|Hd].
    + rewrite T3, R3, H3. replace (me_num_links x2 - 1) with (me_num_links x) by lia.
      apply take_app_length'. unfold facts_of. rewrite length_fmap. symmetry. by eapply length_links_of.
    + by rewrite T4, R3, H4.
Qed.

(** The twin has a slot: it is written, both are tied, and counted. *)
Lemma finish_half x y p1 p2 s2 s3 y3 :
  mg_entity s !! source = Some x -> mg_entity s !! sink = Some y ->
  pad_entity s (Some src_pad) = Some source -> pad_entity s (Some snk_pad) = Some sink ->
  half_made x p1 s2 ->
  added [(source, Z.to_nat (me_num_links x))] sink (Z.to_nat (me_num_links y)) s2 s3 ->
  addr s3 sink (Z.to_nat (me_num_links y)) = Some p2 -> mg_entity s3 !! sink = Some y3 ->
  wp (write_link p2 src_pad snk_pad flags ;;
      ml_upd p1 (set_ml_reverse (Some p2)) ;;
      ml_upd p2 (set_ml_reverse (Some p1)) ;;
      me_upd sink (fun x => set_me_num_backlinks (u16 (me_num_backlinks x + 1)) x) ;;
      mdo 0) s3 created.
Proof.
  intros Hx Hy Pp Pq [H1 H2 H3 H4 H5 _] [A1 A2 A3 [f A4] A5] Hp2 Hy3.
  assert (Hny : length (facts_of s sink) = Z.to_nat (me_num_links y)).
  { unfold facts_of. rewrite length_fmap. by eapply length_links_of. }
  assert (Hnx : length (facts_of s source) = Z.to_nat (me_num_links x)).
  { unfold facts_of. rewrite length_fmap. by eapply length_links_of. }
  rewrite (H4 sink) in A4 by done.
  eapply wp_write_link; [exact A1|apply list_elem_of_here| |exact Hp2|].
  { rewrite A4, lookup_app_r, Hny, Nat.sub_diag by lia. by eexists. }
  intros s4 W4 O4 E4 F4. cbn beta.
  assert (Fsnk : facts_of s4 sink = facts_of s sink ++ [new_link]).
  { rewrite F4, decide_True, A4 by done. rewrite insert_app_r_alt, Hny, Nat.sub_diag by lia. done. }
  assert (Fsrc : facts_of s4 source = facts_of s source ++ [new_link]).
  { rewrite F4, decide_False, A3, H3 by done. done. }
  assert (Hlast : forall e n, facts_of s4 e = facts_of s e ++ [new_link] -> length (facts_of s e) = n ->
    exists l, links_of s4 e !! n = Some l /\ facts l = new_link).
  { intros e n Hf Hl. assert (Hat : facts_of s4 e !! n = Some new_link).
    { rewrite Hf, lookup_app_r, Hl, Nat.sub_diag by lia. done. }
    unfold facts_of in Hat. rewrite list_lookup_fmap in Hat. destruct (links_of s4 e !! n) as [l|]; [|done].
    exists l. split; [done|]. cbn in Hat. congruence. }
  destruct (Hlast source _ Fsrc Hnx) as (l1 & L1 & G1). destruct (Hlast sink _ Fsnk Hny) as (l2 & L2 & G2).
  assert (Haddr : forall e j, addr s4 e j = addr s3 e j) by (intros; unfold addr; by rewrite E4).
  assert (O2 : links_only [source; sink] s s4).
  { eapply links_only_trans; [|exact H2|]; [set_solver|].
    eapply (links_only_trans [sink]); [set_solver|exact A2|].
    eapply links_only_trans; [|exact O4|apply links_only_refl]. set_solver. }
  eapply (tie_links s4 source _ l1 sink _ l2); [exact W4|done|exact L1|exact L2| |by rewrite Haddr|congruence| |].
  { rewrite Haddr, A5 by done. exact H5. }
  { unfold facts, new_link in G1. injection G1 as G1 G1' _. exists src_pad, snk_pad.
    rewrite !(only_pads _ s s4) by done. split_and!; try done. by left. }
  intros s5 W5 E5 F5 O5. cbn beta.
  assert (Hy5 : mg_entity s5 !! sink = Some y3) by congruence.
  apply wp_mthen. unfold wp at 1. rewrite (me_upd_eq sink _ s5 y3 Hy5). apply wp_mdo.
  set (y' := set_me_num_backlinks _ y3).
  assert (Hc : forall e, links_of (counted s5 sink y') e = links_of s5 e).
  { intros e. destruct (decide (e = sink)) as [->|Hd]; [|by apply (counted_links_ne s5 sink y3 y')].
    unfold links_of. rewrite (counted_lookup s5 sink y3), decide_True, Hy5 by done. done. }
  split; [by left|]. split; [|split].
  - apply (counted_wf s5 sink y3 y' Hy5 eq_refl eq_refl []); [done|done| | |].
    + unfold y'. cbn. apply (lw_entity _ _ W5 sink y3 Hy5).
    + intros e j l. rewrite Hc. done.
    + intros e j l. rewrite Hc. done.
  - apply only_counted; [|set_solver|done].
    eapply links_only_trans; [|exact O2|]; [done|].
    eapply links_only_trans; [|exact O5|apply links_only_refl]. set_solver.
  - intros e. transitivity (facts_of s4 e); [unfold facts_of in *; by rewrite Hc, F5|].
    destruct (decide (e = source)) as [->|D1]; [rewrite links_after_new by (by left); done|].
    destruct (decide (e = sink)) as [->|D2]; [rewrite links_after_new by (by right); done|].
    rewrite links_after_other, F4, decide_False, A3, H4 by done. done.
Qed.

(** The first half: the source gets its link, or there is no memory. *)
Lemma wp_half {B} x y (k : option link_ptr -> mediaM B) Q :
  mg_entity s !! source = Some x -> mg_entity s !! sink = Some y -> has_room x ->
  0 <= source_pad < zlen (me_pads x) -> 0 <= sink_pad < zlen (me_pads y) ->
  (forall s', made_room [] source s s' -> wp (k None) s' Q) ->
  (forall p1 s1, (forall B (k : pad_ptr -> pad_ptr -> unit -> mediaM B) Q,
     (forall s2, half_made x p1 s2 -> wp (k src_pad snk_pad tt) s2 Q) ->
     wp (p <- pad_at source source_pad ;; q <- pad_at sink sink_pad ;;
         mthen (write_link p1 p q flags) (k p q)) s1 Q) -> wp (k (Some p1)) s1 Q) ->
  wp (mthen (media_entity_add_link source) k) s Q.
Proof.
  intros Hx Hy Hroom Px Py Hnone Hsome. apply wp_mthen.
  eapply wp_add_link; [exact Hw|exact Hx|done|intros i; apply not_elem_of_nil| |].
  { intros s' Hr _. by apply Hnone. }
  intros s1 p1 x1 [A1 A2 A3 [f A4] A5] Hp1 Hx1 Hn1. apply Hsome. clear k Q Hnone Hsome.
  intros C k Q Hk.
  eapply wp_pad_at; [exact A2|exact Hx|done|]. eapply wp_pad_at; [exact A2|exact Hy|done|].
  assert (Hlen : length (facts_of s source) = Z.to_nat (me_num_links x)).
  { unfold facts_of. rewrite length_fmap. by eapply length_links_of. }
  eapply wp_write_link; [exact A1|apply list_elem_of_here| |exact Hp1|].
  { rewrite A4, lookup_app_r, Hlen, Nat.sub_diag by lia. by eexists. }
  intros s2 W2 O2 E2 F2. apply Hk. split.
  - done.
  - eapply links_only_trans; [|exact A2|]; [done|].
    eapply links_only_trans; [|exact O2|apply links_only_refl]. set_solver.
  - rewrite F2, decide_True, A4 by done. rewrite insert_app_r_alt, Hlen, Nat.sub_diag by lia. done.
  - intros e Hd. rewrite F2, decide_False by done. by apply A3.
  - unfold addr. rewrite E2. exact Hp1.
  - exists x1. by rewrite E2.
Qed.

Lemma linkable_pad e pad : linkable s e pad -> pad_entity s (Some (e, Z.to_nat pad)) = Some e.
Proof.
  intros (x & Hx & _ & Hp & Hr). eapply pad_of; [exact Hw|exact Hx|].
  destruct (proj2 (mget_is_Some (me_pads x) pad)) as [q Hq]; [lia|]. unfold mget in Hq.
  rewrite bool_decide_true in Hq by lia. by exists q.
Qed.

Lemma wp_create_link :
  linkable s source source_pad -> linkable s sink sink_pad ->
  wp (media_entity_create_link source source_pad sink sink_pad flags) s created.
Proof.
  intros Hsrc Hsnk. pose proof (linkable_pad _ _ Hsrc) as Pp. pose proof (linkable_pad _ _ Hsnk) as Pq.
  destruct Hsrc as (x & Hx & Rx & Nx & Bx). destruct Hsnk as (y & Hy & Ry & Ny & By).
  unfold media_entity_create_link.
  eapply wp_me_get; [exact Hx|]. eapply wp_me_get; [exact Hy|].
  rewrite (proj2 (orb_false_iff _ _)) by lia.
  eapply (wp_half x y); [done|done|done|lia|lia| |].
  { intros s' Hr. apply wp_mdo. eapply made_room_fails; [by left|done]. }
  intros p1 s1 Hwrite. cbn beta iota. apply Hwrite. intros s2 Hh. cbn beta.
  assert (Hy2 : mg_entity s2 !! sink = Some y).
  { rewrite (lo_other _ _ _ (hm_only _ _ _ Hh) sink); [done|]. set_solver. }
  apply wp_mthen. eapply wp_add_link; [apply Hh|exact Hy2|done| | |].
  - intros i. apply not_elem_of_cons. split; [congruence|apply not_elem_of_nil].
  - intros s3 Hr He. destruct (hm_count _ _ _ Hh) as (x2 & Hx2 & _). cbn beta iota.
    assert (Hx3 : mg_entity s3 !! source = Some x2) by congruence.
    apply wp_mthen. unfold wp at 1. rewrite (me_upd_eq source _ s3 x2 Hx3). apply wp_mdo.
    by eapply undo_half.
  - intros s3 p2 y3 Had Hp2 Hy3 _. cbn beta iota. by eapply finish_half.
Qed.

(** Claim C20: creating a link makes both of its ends or nothing.  On a graph
    where every link has its twin, [media_entity_create_link] between pads of
    two entities never faults, whether krealloc fails, extends an array of
    links in place or moves it; afterwards every link has its twin, no pointer
    dangles, and the two entities have one more link each between the pads
    asked for, or, if memory ran out, exactly the links they had. *)
Theorem create_link_makes_twins :
  linkable s source source_pad -> linkable s sink sink_pad ->
  exists ret s', media_entity_create_link source source_pad sink sink_pad flags s = Some (ret, s') /\
    created ret s'.
Proof. intros Hsrc Hsnk. by apply wp_run, wp_create_link. Qed.
End create_link.
