(* ===== verification/MediaSetup.v ===== *)
(** media_entity_setup_link: the flags of a link and of its twin change
    together, after both entities agreed, or not at all.  Then media_entity_init, and the
    graphs that drivers build with it. *)

From stdpp Require Import gmap.
From S2P Require Import Prelude StateM MediaTypes MediaEntity MediaWalk MediaPipeline MediaLinks MediaCreate.

(** ** Calls to the drivers *)

Record called (cs : list media_call) (s s' : media_graph) : Prop := {
  ca_state : s' = set_mg_log (mg_log s') (set_mg_tick (mg_tick s') s);
  ca_log : mg_log s' = mg_log s ++ cs;
}.

Lemma called_nil s : called [] s s.
Proof. split; [by destruct s|by rewrite app_nil_r]. Qed.

Lemma called_app cs1 cs2 s1 s2 s3 : called cs1 s1 s2 -> called cs2 s2 s3 -> called (cs1 ++ cs2) s1 s3.
Proof.
  intros [H1 H2] [H3 H4]. split; [|by rewrite H4, H2, app_assoc].
  rewrite H3, H1. done.
Qed.

Lemma called_links cs s s' : called cs s s' -> mg_links s' = mg_links s.
Proof. intros [-> _]. done. Qed.

Lemma called_entity cs s s' : called cs s s' -> mg_entity s' = mg_entity s.
Proof. intros [-> _]. done. Qed.

Lemma called_mutex cs s s' : called cs s s' -> mg_mutex s' = mg_mutex s.
Proof. intros [-> _]. done. Qed.

Lemma called_entities cs s s' : called cs s s' -> mg_entities s' = mg_entities s.
Proof. intros [-> _]. done. Qed.

Lemma called_links_of cs s s' e : called cs s s' -> links_of s' e = links_of s e.
Proof. intros [-> _]. done. Qed.

Section setup_link.
Context {E : MediaEnv}.

(** The log of a call of [link_setup], if the entity [e] has it, and of [link_notify]. *)
Definition setup_call (e : nat) (local remote : pad_ptr) (flags ret : Z) : list media_call :=
  match link_setup e with None => [] | Some _ => [CallLinkSetup e local remote flags ret] end.
Definition notify_call (p q : pad_ptr) (flags ret : Z) : list media_call :=
  match link_notify with None => [] | Some _ => [CallLinkNotify p q flags ret] end.

Lemma wp_call_setup {B} e local remote flags s (k : Z -> mediaM B) Q :
  (forall ret s', called (setup_call e local remote flags ret) s s' -> wp (k ret) s' Q) ->
  wp (mthen (call_link_setup e local remote flags) k) s Q.
Proof.
  intros Hk. apply wp_mthen. unfold call_link_setup, setup_call in *.
  destruct (link_setup e) as [f|].
  - unfold mg_ask, mg_call. apply wp_mthen, wp_gets, wp_modify, wp_mdo. cbn zeta.
    apply wp_mthen, wp_gets. apply wp_mdo. apply Hk. done.
  - apply wp_mdo, Hk, called_nil.
Qed.

Lemma wp_call_notify {B} source x p q flags s (k : Z -> mediaM B) Q :
  mg_entity s !! source = Some x -> me_parent x = true ->
  (forall ret s', called (notify_call p q flags ret) s s' -> (link_notify = None -> ret = 0) -> wp (k ret) s' Q) ->
  wp (mthen (call_link_notify source p q flags) k) s Q.
Proof.
  intros Hx Hp Hk. apply wp_mthen. unfold call_link_notify, notify_call in *. apply wp_mthen.
  unfold parent. eapply wp_me_get; [exact Hx|]. rewrite Hp. apply wp_mdo.
  destruct link_notify as [f|].
  - unfold mg_ask, mg_call. apply wp_mthen, wp_gets, wp_modify, wp_mdo. cbn zeta.
    apply wp_mthen, wp_gets. apply wp_mdo. apply Hk; done.
  - apply wp_mdo, Hk; [apply called_nil|done].
Qed.

(** ** Both flags at once *)

(** The link at [i] of [e] and its twin at [j] of [e'] have the flags [flags],
    and nothing else of any link has changed. *)
Definition both_flags (e i e' j : nat) (flags : Z) (s s' : media_graph) : Prop :=
  forall e0, links_of s' e0 =
    if decide (e0 = e) then alter (set_ml_flags flags) i (links_of s e)
    else if decide (e0 = e') then alter (set_ml_flags flags) j (links_of s e') else links_of s e0.

Lemma set_flags_twins s e i l e' j l' flags :
  twins s e i l e' j l' -> links_of s e !! i = Some l -> forall s',
  (forall e0 i0, addr s' e0 i0 = addr s e0 i0) -> (forall p, pad_entity s' p = pad_entity s p) ->
  both_flags e i e' j flags s s' ->
  twins s' e i (set_ml_flags flags l) e' j (set_ml_flags flags l') /\
  twins s' e' j (set_ml_flags flags l') e i (set_ml_flags flags l).
Proof.
  intros [T1 T2 T3 T4 T5 T6 T7 (p & q & P1 & P2 & P3 & P4 & P5)] Hl s' Ha Hp Hb.
  assert (Hends : forall l0 e1 e2, ml_source l0 = Some p -> ml_sink l0 = Some q ->
    (e1 = e /\ e2 = e') \/ (e1 = e' /\ e2 = e) -> ends s' l0 e1 e2).
  { intros l0 e1 e2 S1 S2 Hd. exists p, q. rewrite !Hp. split_and!; try done.
    destruct Hd as [[-> ->]|[-> ->]]; destruct P3 as [[]|[]]; by (left + right). }
  split; split; cbn; rewrite ?Ha; try done.
  - rewrite Hb, decide_False, decide_True by done. by rewrite list_lookup_alter_eq, T2.
  - apply Hends; [done|done|by left].
  - rewrite Hb, decide_True by done. by rewrite list_lookup_alter_eq, Hl.
  - apply Hends; cbn; [congruence|congruence|by right].
Qed.

Lemma alter_insert {A} (f : A -> A) i x (l : list A) : l !! i = Some x -> <[i := f x]> l = alter f i l.
Proof.
  intros Hx. apply list_eq. intros j. destruct (decide (j = i)) as [->|Hne].
  - rewrite list_lookup_alter_eq, Hx, list_lookup_insert_eq; [done|]. by eapply lookup_lt_Some.
  - by rewrite list_lookup_alter_ne, list_lookup_insert_ne.
Qed.

(** [link->flags = flags; link->reverse->flags = link->flags;] *)
Lemma wp_set_both {B} s e i l link e' j l' r flags (k : mediaM B) Q :
  links_wf [] s -> links_of s e !! i = Some l -> addr s e i = Some link ->
  twins s e i l e' j l' -> addr s e' j = Some r ->
  (forall s', links_wf [] s' -> mg_entity s' = mg_entity s -> mg_mutex s' = mg_mutex s ->
     mg_entities s' = mg_entities s -> mg_log s' = mg_log s -> both_flags e i e' j flags s s' -> wp k s' Q) ->
  wp (ml_upd link (set_ml_flags flags) ;; ml_upd r (set_ml_flags flags) ;; k) s Q.
Proof.
  intros Hw Hl Hlink T Hr Hk. pose proof (tw_ne _ _ _ _ _ _ _ T) as Hne. pose proof (tw_link _ _ _ _ _ _ _ T) as Hl'.
  pose proof (open_pair _ _ _ _ _ _ _ Hw Hl T) as Hp.
  eapply wp_ml_upd; [exact Hp|exact Hl|exact Hlink|]. intros s1 S1.
  assert (Hp1 : links_wf [(e', j); (e, i)] s1).
  { eapply write_pending; [exact Hp|exact S1|]. apply list_elem_of_further, list_elem_of_here. }
  eapply (wp_ml_upd _ s1 e' j l'); [exact Hp1| |by rewrite (sw_addr _ _ _ _ _ S1)|].
  { rewrite (sw_links _ _ _ _ _ S1). by rewrite decide_False. }
  intros s2 S2. assert (Hp2 : links_wf [(e', j); (e, i)] s2).
  { eapply write_pending; [exact Hp1|exact S2|]. apply list_elem_of_here. }
  assert (Hb : both_flags e i e' j flags s s2).
  { intros e0. rewrite (sw_links _ _ _ _ _ S2), !(sw_links _ _ _ _ _ S1).
    rewrite (decide_False (P := e' = e)), !alter_insert by done.
    destruct (decide (e0 = e')) as [->|]; [by rewrite decide_False|done]. }
  destruct (set_flags_twins s e i l e' j l' flags T Hl s2) as [T1 T2]; [| |done|].
  { intros. by rewrite (sw_addr _ _ _ _ _ S2), (sw_addr _ _ _ _ _ S1). }
  { intros. by rewrite (sw_pad _ _ _ _ _ S2), (sw_pad _ _ _ _ _ S1). }
  apply Hk.
  - eapply close_pair; [exact Hp2| |exact (tw_link _ _ _ _ _ _ _ T1)|exact T1|exact T2].
    exact (tw_link _ _ _ _ _ _ _ T2).
  - by rewrite (sw_entity _ _ _ _ _ S2), (sw_entity _ _ _ _ _ S1).
  - destruct S2 as [-> _ _], S1 as [-> _ _]. done.
  - destruct S2 as [-> _ _], S1 as [-> _ _]. done.
  - destruct S2 as [-> _ _], S1 as [-> _ _]. done.
  - done.
Qed.

(** ** The contract *)

(** What the link and the two entities decide by themselves. *)
Definition decided (l : media_link) (x y : media_entity) (flags : Z) : option Z :=
  if negb (fixed_flags (ml_flags l) =? fixed_flags flags) then Some (- EINVAL)
  else if truthy (Z.land (ml_flags l) MEDIA_LNK_FL_IMMUTABLE) then
    Some (if ml_flags l =? flags then 0 else - EINVAL)
  else if ml_flags l =? flags then Some 0
  else if (Z.land (ml_flags l) MEDIA_LNK_FL_DYNAMIC =? 0) &&
    (truthy (me_stream_count x) || truthy (me_stream_count y)) then Some (- EBUSY)
  else None.

Section trace.
Context (p q : pad_ptr) (old flags : Z).

Definition enable : bool := truthy (Z.land flags MEDIA_LNK_FL_ENABLED).
Definition before (r : Z) : list media_call := if enable then notify_call p q MEDIA_LNK_FL_ENABLED r else [].
Definition undo_before (r : Z) : list media_call := if enable then notify_call p q 0 r else [].

(** The calls made to the drivers, for every result. *)
Inductive setup_trace : Z -> list media_call -> Prop :=
  | TraceDone r r1 r2 r3 : 0 <= r -> refused r1 = false -> refused r2 = false ->
      setup_trace 0 (before r ++ setup_call p.1 p q flags r1 ++ setup_call q.1 q p flags r2 ++
                     if enable then [] else notify_call p q 0 r3)
  | TraceNotifyRefused r : r < 0 -> enable = true ->
      setup_trace r (notify_call p q MEDIA_LNK_FL_ENABLED r)
  | TraceSourceRefused r r1 r3 : 0 <= r -> refused r1 = true ->
      setup_trace r1 (before r ++ setup_call p.1 p q flags r1 ++ undo_before r3)
  | TraceSinkRefused r r1 r2 r3 r4 : 0 <= r -> refused r1 = false -> refused r2 = true ->
      setup_trace r2 (before r ++ (setup_call p.1 p q flags r1 ++ setup_call q.1 q p flags r2 ++
                      setup_call p.1 p q old r4) ++ undo_before r3).
End trace.

(** ** The proof *)

Section proof.
Context (e i : nat) (l : media_link) (e' j : nat) (l' : media_link) (link r : link_ptr) (p q : pad_ptr).

(** The graph at any time of the call: the link is still as it was. *)
Record at_link (s : media_graph) : Prop := {
  al_wf : links_wf [] s;
  al_link : links_of s e !! i = Some l;
  al_addr : addr s e i = Some link;
  al_twin : twins s e i l e' j l';
  al_reverse : addr s e' j = Some r;
  al_source : ml_source l = Some p;
  al_sink : ml_sink l = Some q;
  al_pads : pad_entity s (Some p) = Some p.1 /\ pad_entity s (Some q) = Some q.1;
}.

Lemma called_at_link cs s s' : called cs s s' -> at_link s -> at_link s'.
Proof.
  intros [-> _] [H1 H2 H3 [T1 T2 T3 T4 T5 T6 T7 T8] H5 H6 H7 H8]. split; try done.
  eapply links_wf_eq; [..|exact H1]; done.
Qed.

Lemma wp_ml_get {B} s (k : media_link -> mediaM B) Q :
  at_link s -> wp (k l) s Q -> wp (mthen (ml_get link) k) s Q.
Proof.
  intros [_ Hl Ha _ _ _ _ _] Hk. apply links_of_Some in Hl as (x & a & ls & Hx & Hxa & Hls & _ & Hli).
  rewrite (addr_Some s e i x a) in Ha by done. injection Ha as <-.
  apply wp_mthen. unfold ml_get. apply wp_gets. eapply wp_the; [exact Hls|]. cbn. rewrite Hli. by apply wp_mdo.
Qed.

Lemma wp_source {B} s (k : nat -> mediaM B) Q :
  at_link s -> wp (k p.1) s Q -> wp (mthen (source_entity l) k) s Q.
Proof. intros Ha Hk. eapply wp_pad; [|exact Hk]. rewrite (al_source _ Ha). apply (al_pads _ Ha). Qed.

Lemma wp_sink {B} s (k : nat -> mediaM B) Q :
  at_link s -> wp (k q.1) s Q -> wp (mthen (sink_entity l) k) s Q.
Proof. intros Ha Hk. eapply wp_pad; [|exact Hk]. rewrite (al_sink _ Ha). apply (al_pads _ Ha). Qed.

(** What the flags and the state are after the two entities were asked. *)
Definition asked (flags : Z) (s : media_graph) (ret : Z) (s' : media_graph) : Prop :=
  (ret = 0 /\ links_wf [] s' /\ mg_entity s' = mg_entity s /\ mg_mutex s' = mg_mutex s /\
   mg_entities s' = mg_entities s /\ both_flags e i e' j flags s s' /\ exists r1 r2, refused r1 = false /\ refused r2 = false /\
   mg_log s' = mg_log s ++ setup_call p.1 p q flags r1 ++ setup_call q.1 q p flags r2) \/
  (refused ret = true /\ exists cs, called cs s s' /\
   (cs = setup_call p.1 p q flags ret \/ exists r1 r4, refused r1 = false /\
    cs = setup_call p.1 p q flags r1 ++ setup_call q.1 q p flags ret ++ setup_call p.1 p q (ml_flags l) r4)).

Lemma wp_setup_notify flags s :
  at_link s -> wp (__media_entity_setup_link_notify link flags) s (asked flags s).
Proof.
  intros Ha. unfold __media_entity_setup_link_notify. eapply wp_ml_get; [exact Ha|].
  eapply wp_the; [apply Ha|]. eapply wp_the; [apply Ha|].
  eapply wp_source; [exact Ha|]. eapply wp_sink; [exact Ha|].
  apply wp_call_setup. intros r1 s1 C1. cbn beta. pose proof (called_at_link _ _ _ C1 Ha) as A1.
  destruct (refused r1) eqn:R1.
  { apply wp_mdo. right. split; [done|]. eexists. split; [exact C1|]. by left. }
  apply wp_call_setup. intros r2 s2 C2. cbn beta. pose proof (called_at_link _ _ _ C2 A1) as A2.
  destruct (refused r2) eqn:R2.
  { apply wp_call_setup. intros r4 s4 C4. apply wp_mdo. right. split; [done|]. eexists.
    split; [eapply called_app; [exact C1|]; by eapply called_app|]. right. by exists r1, r4. }
  eapply wp_the; [rewrite (tw_reverse _ _ _ _ _ _ _ (al_twin _ A2)); apply A2|].
  eapply wp_set_both; [apply A2|apply A2|apply A2|apply A2|apply A2|].
  intros s3 W3 E3 M3 G3 L3 B3. apply wp_mdo. left. split; [done|].
  destruct C1 as [S1 K1], C2 as [S2 K2].
  split_and!; [done| | | |..].
  - rewrite E3, S2, S1. done.
  - rewrite M3, S2, S1. done.
  - rewrite G3, S2, S1. done.
  - intros e0. rewrite B3, S2, S1. done.
  - exists r1, r2. split; [done|]. split; [done|]. by rewrite L3, K2, K1, app_assoc.
Qed.

(** After the whole of [__media_entity_setup_link], when it asks anybody. *)
Definition outcome (flags : Z) (s : media_graph) (ret : Z) (s' : media_graph) : Prop :=
  links_wf [] s' /\ mg_entity s' = mg_entity s /\ mg_mutex s' = mg_mutex s /\
  mg_entities s' = mg_entities s /\
  (exists cs, mg_log s' = mg_log s ++ cs /\ setup_trace p q (ml_flags l) flags ret cs) /\
  ((ret = 0 /\ both_flags e i e' j flags s s') \/ (ret < 0 /\ mg_links s' = mg_links s)).

Lemma refused_neg ret : refused ret = true -> ret < 0.
Proof. unfold refused. lia. Qed.

Context (x y : media_entity) (flags : Z).

Lemma called_outcome s ret s' cs :
  at_link s -> called cs s s' -> ret < 0 -> setup_trace p q (ml_flags l) flags ret cs -> outcome flags s ret s'.
Proof.
  intros Ha Hc Hr Ht. pose proof (called_at_link _ _ _ Hc Ha) as A. destruct Hc as [S K].
  split; [apply A|]. split; [by rewrite S|]. split; [by rewrite S|]. split; [by rewrite S|]. split; [by exists cs|].
  right. split; [done|by rewrite S].
Qed.

(** [link_notify] when the link is enabled, and when it is or stays disabled. *)
Lemma wp_notify_if {B} (b : bool) s fl (k : Z -> mediaM B) Q :
  mg_entity s !! p.1 = Some x -> me_parent x = true ->
  (forall ret s', called (if b then notify_call p q fl ret else []) s s' -> (b = false -> ret = 0) ->
     wp (k ret) s' Q) ->
  wp (mthen (if b then call_link_notify p.1 p q fl else mdo 0) k) s Q.
Proof.
  intros Hx Hp Hk. destruct b.
  - eapply wp_call_notify; [exact Hx|done|]. intros ret s' Hc _. apply Hk; done.
  - apply wp_mthen, wp_mdo. apply Hk; [apply called_nil|done].
Qed.

Lemma notify_if_eq (b : bool) fl :
  (if b then (call_link_notify p.1 p q fl ;; mdo tt) else mdo tt) =
  mthen (if b then call_link_notify p.1 p q fl else mdo 0) (fun _ => mdo tt).
Proof. by destruct b. Qed.

Lemma wp_after_notify (b : bool) s fl (ret : Z) (Q : Z -> media_graph -> Prop) :
  mg_entity s !! p.1 = Some x -> me_parent x = true ->
  (forall r3 s', called (if b then notify_call p q fl r3 else []) s s' -> Q ret s') ->
  wp ((if b then (call_link_notify p.1 p q fl ;; mdo tt) else mdo tt) ;; mdo ret) s Q.
Proof.
  intros Hx Hp Hk. rewrite notify_if_eq. apply wp_mthen. eapply (wp_notify_if b); [exact Hx|exact Hp|].
  intros r3 s' Hc _. apply wp_mdo, wp_mdo. by eapply Hk.
Qed.

Lemma swap_if {A} (b : bool) (c d : A) : (if b then c else d) = if negb b then d else c.
Proof. by destruct b. Qed.

Lemma wp_setup_link s (Q : Z -> media_graph -> Prop) :
  at_link s -> mg_entity s !! p.1 = Some x -> me_parent x = true -> mg_entity s !! q.1 = Some y ->
  match decided l x y flags with
  | Some ret => Q ret s
  | None => forall ret s', outcome flags s ret s' -> Q ret s'
  end -> wp (__media_entity_setup_link (Some link) flags) s Q.
Proof.
  intros Ha Hx Hp Hy. unfold decided, __media_entity_setup_link. intros HQ.
  eapply wp_ml_get; [exact Ha|]. destruct (negb _); [by apply wp_mdo|].
  destruct (truthy (Z.land (ml_flags l) MEDIA_LNK_FL_IMMUTABLE)); [by apply wp_mdo|].
  destruct (ml_flags l =? flags); [by apply wp_mdo|].
  eapply wp_the; [apply Ha|]. eapply wp_the; [apply Ha|].
  eapply wp_source; [exact Ha|]. eapply wp_sink; [exact Ha|].
  eapply wp_me_get; [exact Hx|]. eapply wp_me_get; [exact Hy|].
  destruct (_ && _); [by apply wp_mdo|]. cbn zeta. fold (enable flags).
  eapply (wp_notify_if (enable flags)); [exact Hx|done|]. intros r0 s1 C0 Hr0. cbn beta.
  pose proof (called_at_link _ _ _ C0 Ha) as A1.
  destruct (Z.ltb_spec r0 0) as [Hneg|Hpos].
  { apply wp_mdo, HQ. eapply called_outcome; [exact Ha|exact C0|done|].
    destruct (enable flags) eqn:He; [by apply TraceNotifyRefused|exfalso].
    specialize (Hr0 eq_refl). lia. }
  eapply wp_seq; [by apply wp_setup_notify|]. intros ret s2 Hasked. cbn beta.
  destruct Hasked as [(-> & W2 & E2 & M2 & G2 & B2 & r1 & r2 & R1 & R2 & L2)|(Hret & cs & C2 & Hcs)].
  - rewrite (proj2 (Z.ltb_ge _ _)) by lia. rewrite swap_if.
    assert (Hx2 : mg_entity s2 !! p.1 = Some x) by (by rewrite E2, (called_entity _ _ _ C0)).
    eapply wp_after_notify; [exact Hx2|done|]. intros r3 s3 C3. apply HQ.
    split; [by eapply links_wf_eq; [by eapply called_entity|by eapply called_links|]|].
    split; [by rewrite (called_entity _ _ _ C3), E2, (called_entity _ _ _ C0)|].
    split; [by rewrite (called_mutex _ _ _ C3), M2, (called_mutex _ _ _ C0)|].
    split; [by rewrite (called_entities _ _ _ C3), G2, (called_entities _ _ _ C0)|].
    split.
    + eexists. split; [|by eapply (TraceDone p q (ml_flags l) flags r0 r1 r2 r3)].
      rewrite (ca_log _ _ _ C3), L2, (ca_log _ _ _ C0), <- !app_assoc. unfold before. by destruct (enable flags).
    + left. split; [done|]. intros e0. rewrite (called_links_of _ _ _ _ C3), B2.
      by rewrite !(called_links_of _ _ _ _ C0).
  - pose proof (refused_neg _ Hret). rewrite (proj2 (Z.ltb_lt _ _)) by lia.
    pose proof (called_at_link _ _ _ C2 A1) as A2.
    assert (Hx2 : mg_entity s2 !! p.1 = Some x).
    { by rewrite (called_entity _ _ _ C2), (called_entity _ _ _ C0). }
    eapply wp_after_notify; [exact Hx2|done|]. intros r3 s3 C3. apply HQ.
    eapply called_outcome; [exact Ha|eapply called_app; [exact C0|eapply called_app; [exact C2|exact C3]]|done|].
    destruct Hcs as [->|(r1 & r4 & R1 & ->)].
    + by eapply (TraceSourceRefused p q (ml_flags l) flags r0 ret r3).
    + by eapply (TraceSinkRefused p q (ml_flags l) flags r0 r1 ret r3 r4).
Qed.
End proof.

Definition registered (s : media_graph) (l : media_link) : Prop :=
  exists p x, ml_source l = Some p /\ mg_entity s !! p.1 = Some x /\ me_parent x = true.

(** What setting the flags of the link [l], at [i] of [e], may do. *)
Definition setup_contract (e i : nat) (l : media_link) (flags : Z) (s : media_graph) (ret : Z)
    (s' : media_graph) : Prop :=
  exists e' j p q x y, ml_reverse l = addr s e' j /\ ml_source l = Some p /\ ml_sink l = Some q /\
    mg_entity s !! p.1 = Some x /\ mg_entity s !! q.1 = Some y /\
    match decided l x y flags with
    | Some r => ret = r /\ s' = s
    | None => outcome e i l e' j p q flags s ret s'
    end.

Lemma pad_entity_Some s p e : pad_entity s (Some p) = Some e -> is_Some (mg_entity s !! p.1).
Proof. unfold pad_entity. cbn. destruct (mg_entity s !! p.1); [by eexists|done]. Qed.

Lemma wp_setup_link_any s e i l link flags :
  links_wf [] s -> links_of s e !! i = Some l -> addr s e i = Some link -> registered s l ->
  wp (__media_entity_setup_link (Some link) flags) s
    (fun ret s' => links_wf [] s' /\ setup_contract e i l flags s ret s').
Proof.
  intros Hw Hl Hlink (p & x & Hp & Hx & Hpar).
  destruct (lw_twin _ _ Hw e i l Hl) as (e' & j & l' & _ & T); [apply not_elem_of_nil|].
  destruct (tw_ends _ _ _ _ _ _ _ T) as (p' & q & Hp' & Hq & _ & Pp & Pq).
  assert (p' = p) as -> by congruence. destruct (pad_entity_Some _ _ _ Pq) as [y Hy].
  destruct (links_of_addr _ _ _ _ (tw_link _ _ _ _ _ _ _ T)) as [b Hr].
  assert (Ha : at_link e i l e' j l' link (b, j) p q s) by done.
  eapply wp_setup_link; [exact Ha|exact Hx|exact Hpar|exact Hy|].
  destruct (decided l x y flags) as [r|] eqn:Hd.
  - split; [done|]. exists e', j, p, q, x, y. rewrite Hd. split_and!; try done. apply T.
  - intros ret s' Ho. split; [apply Ho|]. exists e', j, p, q, x, y. rewrite Hd. split_and!; try done. apply T.
Qed.

(** The mutex is not part of the contract. *)
Lemma contract_unlocked e i l flags s ret s' :
  mg_mutex s = false -> setup_contract e i l flags (set_mg_mutex true s) ret s' ->
  setup_contract e i l flags s ret (set_mg_mutex false s').
Proof.
  intros Hm (e' & j & p & q & x & y & H1 & H2 & H3 & H4 & H5 & H6). exists e', j, p, q, x, y.
  split_and!; try done. destruct (decided l x y flags).
  - destruct H6 as [-> ->]. split; [done|]. destruct s. cbn in *. by subst.
  - destruct H6 as (W & E1 & M & G & (cs & L & T) & Hres).
    split; [by eapply links_wf_eq; [..|exact W]|]. split; [done|]. split; [by rewrite Hm|].
    split; [done|]. split; [by exists cs|done].
Qed.

Lemma wp_media_entity_setup_link s e i l link flags :
  links_wf [] s -> links_of s e !! i = Some l -> addr s e i = Some link -> mg_mutex s = false ->
  registered s l ->
  wp (media_entity_setup_link link flags) s
    (fun ret s' => links_wf [] s' /\ setup_contract e i l flags s ret s').
Proof.
  intros Hw Hl Hlink Hm Hreg. pose proof Hreg as (p & x & Hp & Hx & Hpar).
  assert (Hpe : pad_entity s (Some p) = Some p.1).
  { destruct (lw_twin _ _ Hw e i l Hl) as (? & ? & ? & _ & T); [apply not_elem_of_nil|].
    destruct (tw_ends _ _ _ _ _ _ _ T) as (p' & q & Hp' & _ & _ & Pp & _). congruence. }
  unfold media_entity_setup_link. pose proof Hl as (y & a & ls & Hy & Ha & Hls & _ & Hli)%links_of_Some.
  apply wp_mthen. unfold ml_get. apply wp_gets. rewrite (addr_Some s e i y a) in Hlink by done.
  injection Hlink as <-. eapply wp_the; [exact Hls|]. cbn [fst snd]. rewrite Hli. apply wp_mdo.
  eapply wp_pad; [by rewrite Hp|]. apply wp_mthen. unfold parent. eapply wp_me_get; [exact Hx|].
  rewrite Hpar. apply wp_mdo. apply wp_mthen. unfold lock_graph. apply wp_gets. rewrite Hm.
  apply wp_mdo. apply wp_mthen.
  assert (W1 : links_wf [] (set_mg_mutex true s)) by by eapply links_wf_eq; [..|exact Hw].
  eapply wp_mono; [apply (wp_setup_link_any (set_mg_mutex true s) e i l)|].
  - exact W1.
  - exact Hl.
  - by eapply addr_Some.
  - exact Hreg.
  - intros ret s' [W2 Hc]. apply wp_mthen. unfold unlock_graph. apply wp_mdo. split.
    + by eapply links_wf_eq; [..|exact W2].
    + by apply contract_unlocked.
Qed.

(** Claim C21: a link changes with its twin, after both entities agreed, or not at
    all.  [media_entity_setup_link] on any link of a well-formed graph never
    faults.  The result and the state are decided by the flags alone for an
    immutable link, a fixed flag, no change, or a streaming entity; nobody is
    called then.  Otherwise the drivers are called in the order of the trace,
    the change is undone towards those that had accepted when one refuses, and
    either both halves of the link have the new flags and the result is 0, or
    no link has changed and the result is an error. *)
Theorem setup_link_both_or_neither s e i l link flags :
  links_wf [] s -> links_of s e !! i = Some l -> addr s e i = Some link -> mg_mutex s = false ->
  registered s l ->
  exists ret s', media_entity_setup_link link flags s = Some (ret, s') /\
    links_wf [] s' /\ setup_contract e i l flags s ret s'.
Proof. intros. by apply wp_run, wp_media_entity_setup_link. Qed.
End setup_link.

(** media_entity_init, and the graphs that drivers build with it: every graph
    that initialisations, new links and changes of links lead to is one where
    walks end, visit what the specification says, and find no dangling pointer. *)

(** ** Initialisation *)

(** The driver's array of pads, numbered. *)
Definition number_pad (e : nat) (i : nat) (p : media_pad) : media_pad :=
  set_mp_index (u16 (Z.of_nat i)) (set_mp_entity e p).
Definition numbered (e k : nat) (pads : list media_pad) : list media_pad :=
  imap (fun i p => if decide (i < k)%nat then number_pad e i p else p) pads.

Definition initialised (e : nat) (num_pads extra_links : Z) (pads : list media_pad) (a : nat)
    (x : media_entity) : media_entity :=
  set_me_links (Some a) (set_me_pads pads (set_me_num_pads num_pads
    (set_me_num_backlinks 0 (set_me_num_links 0 (set_me_max_links (u16 (num_pads + extra_links))
      (set_me_group_id 0 x)))))).

Section init.
Context {E : MediaEnv}.

Lemma number_step e k pads p :
  pads !! k = Some p ->
  <[k := set_mp_index (u16 (Z.of_nat k)) (set_mp_entity e p)]> (numbered e k pads) = numbered e (S k) pads.
Proof.
  intros Hp. apply list_eq. intros i. unfold numbered. destruct (decide (i = k)) as [->|Hne].
  - rewrite list_lookup_insert_eq by (rewrite length_imap; by eapply lookup_lt_Some).
    rewrite list_lookup_imap, Hp. cbn. by rewrite decide_True by lia.
  - rewrite list_lookup_insert_ne, !list_lookup_imap by done. destruct (pads !! i); [|done]. cbn.
    destruct (decide (i < k)%nat); [rewrite decide_True by lia|rewrite decide_False by lia]; done.
Qed.

Lemma number_loop e n k x s :
  (k + n = length (me_pads x))%nat -> mg_entity s !! e = Some (set_me_pads (numbered e k (me_pads x)) x) ->
  mfor (seqZ (Z.of_nat k) (Z.of_nat n)) (fun i =>
    x <- me_get e ;; p <- the ((me_pads x).[i]) ;;
    me_upd e (set_me_pads (<[Z.to_nat i := set_mp_index (u16 i) (set_mp_entity e p)]> (me_pads x)))) s =
  Some (tt, set_mg_entity (<[e := set_me_pads (numbered e (k + n) (me_pads x)) x]> (mg_entity s)) s).
Proof.
  revert k s. induction n as [|n IH]; intros k s Hn Hx.
  - cbn. unfold mdo. rewrite Nat.add_0_r. rewrite list_insert_id by done. by destruct s.
  - rewrite seqZ_cons by lia. cbn [mfor]. unfold mthen at 1.
    destruct (lookup_lt_is_Some_2 (me_pads x) k) as [p Hp]; [lia|].
    assert (Hat : (numbered e k (me_pads x)).[Z.of_nat k] = Some p).
    { unfold mget. rewrite bool_decide_true by lia. rewrite Nat2Z.id. unfold numbered.
      rewrite list_lookup_imap, Hp. cbn. by rewrite decide_False by lia. }
    unfold mthen at 1, me_get at 1, gets at 1. unfold mthen at 1. rewrite Hx. cbn [the mdo me_pads set_me_pads].
    unfold mthen at 1. rewrite Hat. cbn [the mdo].
    rewrite (me_upd_eq e _ s _ Hx). cbn beta.
    replace (Z.succ (Z.of_nat k)) with (Z.of_nat (S k)) by lia.
    replace (Z.pred (Z.of_nat (S n))) with (Z.of_nat n) by lia.
    rewrite (IH (S k)); [|lia|].
    + cbn [mg_entity set_mg_entity]. rewrite list_insert_insert_eq.
      by replace (S k + n)%nat with (k + S n)%nat by lia.
    + cbn [mg_entity set_mg_entity]. rewrite list_lookup_insert_eq by by eapply lookup_lt_Some.
      rewrite Nat2Z.id, number_step by done. done.
Qed.

(** An entity that was not initialised before. *)
Definition blank (x : media_entity) : Prop :=
  me_links x = None /\ me_num_links x = 0 /\ me_max_links x = 0.

Lemma blank_links s e x : mg_entity s !! e = Some x -> blank x -> links_of s e = [].
Proof. intros Hx (Hl & _). unfold links_of. by rewrite Hx, Hl. Qed.

(** The state after an initialisation that found memory for the array [a]. *)
Definition after_init (s : media_graph) (e a : nat) (x' : media_entity) (ls : list media_link) : media_graph :=
  set_mg_entity (<[e := x']> (mg_entity s)) (set_mg_links (<[a := ls]> (mg_links s)) s).

Section after.
Context (s : media_graph) (e a : nat) (x x' : media_entity) (ls : list media_link).
Context (Hw : links_wf [] s) (Hx : mg_entity s !! e = Some x) (Hblank : blank x).
Context (Ha : a ∉ dom (mg_links s)) (Hx' : me_links x' = Some a) (Hn : me_num_links x' = 0).
Context (Hmax : 0 <= me_max_links x' <= zlen ls) (H16 : me_max_links x' < 2 ^ 16).
Context (Hpads : forall i p, me_pads x' !! i = Some p -> mp_entity p = e).

Abbreviation s' := (after_init s e a x' ls).

Lemma init_lookup e' : mg_entity s' !! e' = if decide (e' = e) then Some x' else mg_entity s !! e'.
Proof.
  unfold after_init. cbn. case_decide as Hd.
  - rewrite Hd. apply list_lookup_insert_eq. by eapply lookup_lt_Some.
  - by apply list_lookup_insert_ne.
Qed.

Lemma init_alloc e' y c : mg_entity s !! e' = Some y -> me_links y = Some c -> mg_links s' !! c = mg_links s !! c /\ c <> a.
Proof.
  intros Hy Hc. destruct (entity_alloc [] s Hw e' y c Hy Hc) as [ks Hks].
  assert (c <> a) by (intros ->; by apply Ha, elem_of_dom). split; [|done].
  unfold after_init. cbn. by rewrite lookup_insert_ne.
Qed.

Lemma init_links e' : links_of s' e' = links_of s e'.
Proof.
  unfold links_of. rewrite init_lookup. case_decide as Hd.
  - rewrite Hd, Hx, Hx', Hn. destruct Hblank as (-> & _). done.
  - destruct (mg_entity s !! e') as [y|] eqn:Hy; [|done]. destruct (me_links y) as [c|] eqn:Hc; [|done].
    by rewrite (proj1 (init_alloc e' y c Hy Hc)).
Qed.

Lemma init_wf : links_wf [] s'.
Proof.
  split.
  - intros e' y Hy. rewrite init_lookup in Hy. case_decide as Hd.
    + injection Hy as <-. split; [lia|]. split; [lia|]. rewrite Hx'. exists ls. split; [apply lookup_insert_eq|lia].
    + destruct (lw_entity _ _ Hw e' y Hy) as (H1 & H2 & H3). split; [done|]. split; [done|].
      destruct (me_links y) as [c|] eqn:Hc; [|done]. by rewrite (proj1 (init_alloc e' y c Hy Hc)).
  - intros e1 e2 x1 x2 c H1 H2 C1 C2. rewrite init_lookup in H1, H2.
    destruct (decide (e1 = e)) as [D1|D1], (decide (e2 = e)) as [D2|D2]; [congruence| | |by eapply lw_alloc].
    + injection H1 as <-. exfalso. apply (proj2 (init_alloc e2 x2 c H2 C2)). congruence.
    + injection H2 as <-. exfalso. apply (proj2 (init_alloc e1 x1 c H1 C1)). congruence.
  - intros e1 j1 l1 H1 _. rewrite init_links in H1.
    destruct (lw_twin _ _ Hw e1 j1 l1 H1) as (e2 & j2 & l2 & N2 & [T1 T2 T3 T4 T5 T6 T7 T8]); [apply not_elem_of_nil|].
    assert (Hother : forall e0 j0 l0, links_of s e0 !! j0 = Some l0 -> e0 <> e).
    { intros e0 j0 l0 H0 ->. by rewrite (blank_links s e x) in H0. }
    pose proof (Hother _ _ _ H1) as O1. pose proof (Hother _ _ _ T2) as O2.
    assert (Haddr : forall e0 j0, e0 <> e -> addr s' e0 j0 = addr s e0 j0).
    { intros e0 j0 H0. unfold addr. rewrite init_lookup. by rewrite decide_False. }
    assert (Hpe : forall p0 : pad_ptr, p0.1 <> e -> pad_entity s' (Some p0) = pad_entity s (Some p0)).
    { intros p0 H0. unfold pad_entity. cbn. rewrite init_lookup. by rewrite decide_False. }
    exists e2, j2, l2. split; [done|]. split; rewrite ?init_links, ?Haddr by done; try done.
    destruct T8 as (p & q & P1 & P2 & P3 & P4 & P5). exists p, q.
    assert (p.1 <> e /\ q.1 <> e) as [Np Nq] by (destruct P3 as [[-> ->]|[-> ->]]; done).
    rewrite !Hpe by done. done.
  - intros e' y i p Hy Hp. rewrite init_lookup in Hy. case_decide as Hd.
    + injection Hy as <-. rewrite Hd. by eapply Hpads.
    + by eapply lw_pads.
Qed.
End after.
End init.
