(* ===== verification/MediaDevice.v ===== *)
(** drivers/media/media-device.c: the registered entities of a media device and
    the ioctls on its graph.

    A structure on the stack that the code fills only in part is an argument,
    [u_ent] and the like: what the stack held before.  Copies to the user are
    logged. *)

From stdpp Require Import gmap.
From S2P Require Import Prelude StateM MediaTypes MediaEntity.

Section device.
Context {E : MediaEnv}.

(** [copy_from_user] failed / the result of a [copy_to_user]. *)
Definition copy_from : mediaM bool := n <- mg_ask ;; mdo (media_copy_from_fails n).
Definition copy_to (w : user_write) : mediaM bool :=
  n <- mg_ask ;; mg_call (CallCopyToUser w (media_copy_to_fails n)) ;; mdo (media_copy_to_fails n).

(** ** Entities by their id *)

Definition id_next (id : Z) : bool := truthy (Z.land id MEDIA_ENT_ID_FLAG_NEXT).
Definition id_number (id : Z) : Z := Z.land id (u32 (Z.lnot MEDIA_ENT_ID_FLAG_NEXT)).

(** [media_device_for_each_entity] *)
Fixpoint find_entity_loop (l : list nat) (id : Z) (next : bool) : mediaM (option nat) :=
  match l with
  | [] => mdo None
  | e :: l =>
    x <- me_get e ;;
    if ((me_id x =? id) && negb next) || ((id <? me_id x) && next) then mdo (Some e)
    else find_entity_loop l id next
  end.

Definition find_entity (id : Z) : mediaM (option nat) :=
  l <- gets mg_entities ;; find_entity_loop l (id_number id) (id_next id).

(** ** The ioctls *)

Definition entity_desc (u_ent : media_entity_desc) (ent : media_entity) : media_entity_desc :=
  let name := match ed_name u_ent with [] => [] | _ :: name => 0 :: name end in
  {| ed_id := me_id ent;
     ed_name := match me_name ent with [] => name | src => strlcpy name src end;
     ed_type := me_type ent;
     ed_revision := me_revision ent;
     ed_flags := u32 (me_flags ent);
     ed_group_id := me_group_id ent;
     ed_pads := me_num_pads ent;
     ed_links := u16 (me_num_links ent - me_num_backlinks ent);
     ed_reserved := ed_reserved u_ent;
     ed_major := me_major ent;
     ed_minor := me_minor ent;
     ed_raw := ed_raw u_ent |}.

(** [id] is what the user's struct says. *)
Definition media_device_enum_entities (u_ent : media_entity_desc) (id : Z) : mediaM Z :=
  fails <- copy_from ;;
  if fails : bool then mdo (- EFAULT)
  else
    ent <- find_entity id ;;
    match ent with
    | None => mdo (- EINVAL)
    | Some e =>
      x <- me_get e ;;
      fails <- copy_to (WriteEntity (entity_desc u_ent x)) ;;
      mdo (if fails : bool then - EFAULT else 0)
    end.

Definition media_device_kpad_to_upad (kpad : media_pad) (upad : media_pad_desc) : mediaM media_pad_desc :=
  x <- me_get (mp_entity kpad) ;;
  mdo {| pd_entity := me_id x; pd_index := mp_index kpad; pd_flags := u32 (mp_flags kpad);
         pd_reserved := pd_reserved upad |}.

(** The loops over the pads and the links, from [p] and [l] on; [ulink] is the
    index of the user's link that is written next.  The result says whether a
    copy failed. *)
Fixpoint enum_pads_loop (n : nat) (p : Z) (e : nat) (pad : media_pad_desc) : mediaM bool :=
  match n with
  | O => mdo false
  | S n =>
    x <- me_get e ;; kpad <- the ((me_pads x).[p]) ;;
    upad <- media_device_kpad_to_upad kpad pad ;;
    fails <- copy_to (WritePad p upad) ;;
    if fails : bool then mdo true else enum_pads_loop n (p + 1) e pad
  end.

Fixpoint enum_links_loop (n : nat) (l ulink : Z) (e : nat) (link : media_link_desc) : mediaM bool :=
  match n with
  | O => mdo false
  | S n =>
    q <- link_at e l ;; k <- ml_get q ;; source <- source_entity k ;;
    if negb (bool_decide (source = e)) then enum_links_loop n (l + 1) ulink e link
    else
      p <- the (ml_source k) ;; kp <- pad_get p ;; up <- media_device_kpad_to_upad kp (ld_source link) ;;
      q <- the (ml_sink k) ;; kq <- pad_get q ;; uq <- media_device_kpad_to_upad kq (ld_sink link) ;;
      fails <- copy_to (WriteLink ulink (mk_link_desc up uq (u32 (ml_flags k)) (ld_reserved link))) ;;
      if fails : bool then mdo true else enum_links_loop n (l + 1) (ulink + 1) e link
  end.

Definition media_device_enum_links (pad : media_pad_desc) (link : media_link_desc)
    (links : media_links_enum) : mediaM Z :=
  fails <- copy_from ;;
  if fails : bool then mdo (- EFAULT)
  else
    entity <- find_entity (le_entity links) ;;
    match entity with
    | None => mdo (- EINVAL)
    | Some e =>
      x <- me_get e ;;
      fails <- (if le_pads links then enum_pads_loop (Z.to_nat (me_num_pads x)) 0 e pad else mdo false) ;;
      if fails : bool then mdo (- EFAULT)
      else
        fails <- (if le_links links then enum_links_loop (Z.to_nat (me_num_links x)) 0 0 e link
                  else mdo false) ;;
        if fails : bool then mdo (- EFAULT)
        else fails <- copy_to (WriteLinks links) ;; mdo (if fails : bool then - EFAULT else 0)
    end.

Definition media_device_setup_link (ulink : media_link_desc) : mediaM Z :=
  fails <- copy_from ;;
  if fails : bool then mdo (- EFAULT)
  else
    source <- find_entity (pd_entity (ld_source ulink)) ;;
    sink <- find_entity (pd_entity (ld_sink ulink)) ;;
    match source, sink with
    | Some source, Some sink =>
      x <- me_get source ;; y <- me_get sink ;;
      if (pd_index (ld_source ulink) >=? me_num_pads x) || (pd_index (ld_sink ulink) >=? me_num_pads y)
      then mdo (- EINVAL)
      else
        p <- pad_at source (pd_index (ld_source ulink)) ;; q <- pad_at sink (pd_index (ld_sink ulink)) ;;
        link <- media_entity_find_link p q ;;
        match link with
        | None => mdo (- EINVAL)
        | Some _ =>
          ret <- __media_entity_setup_link link (ld_flags ulink) ;;
          fails <- copy_to (WriteSetup ulink) ;;
          mdo (if fails : bool then - EFAULT else ret)
        end
    | _, _ => mdo (- EINVAL)
    end.

(** The commands, with what the user's struct holds; MEDIA_IOC_DEVICE_INFO
    copies strings of the device and is left out. *)
Inductive media_cmd :=
  | MediaIocEnumEntities (u_ent : media_entity_desc) (id : Z)
  | MediaIocEnumLinks (pad : media_pad_desc) (link : media_link_desc) (links : media_links_enum)
  | MediaIocSetupLink (ulink : media_link_desc)
  | MediaIocUnknown.

Definition media_device_ioctl (cmd : media_cmd) : mediaM Z :=
  match cmd with
  | MediaIocEnumEntities u_ent id => media_device_enum_entities u_ent id
  | MediaIocEnumLinks pad link links =>
    lock_graph ;; ret <- media_device_enum_links pad link links ;; unlock_graph ;; mdo ret
  | MediaIocSetupLink ulink =>
    lock_graph ;; ret <- media_device_setup_link ulink ;; unlock_graph ;; mdo ret
  | MediaIocUnknown => mdo (- ENOIOCTLCMD)
  end.

(** ** Registration *)

(** Adding an entity that is in the list already would corrupt the list. *)
Definition media_device_register_entity (e : nat) : mediaM Z :=
  me_upd e (set_me_parent true) ;;
  x <- me_get e ;; next <- gets mg_entity_id ;;
  (if me_id x =? 0 then me_upd e (set_me_id next) ;; modify (set_mg_entity_id (u32 (next + 1)))
   else modify (set_mg_entity_id (Z.max (u32 (me_id x + 1)) next))) ;;
  l <- gets mg_entities ;;
  if decide (e ∈ l) then fault else modify (set_mg_entities (l ++ [e])) ;; mdo 0.

Definition media_device_unregister_entity (e : nat) : mediaM unit :=
  x <- me_get e ;;
  if negb (me_parent x) then mdo tt
  else
    l <- gets mg_entities ;;
    if decide (e ∈ l) then
      modify (set_mg_entities (filter (fun e' => e' <> e) l)) ;; me_upd e (set_me_parent false)
    else fault.

(** [valid] says that [mdev->dev] and [mdev->model] are set. *)
Definition media_device_register (valid : bool) : mediaM Z :=
  if negb valid then mdo (- EINVAL)
  else
    modify (set_mg_entity_id 1) ;; modify (set_mg_entities []) ;; modify (set_mg_mutex false) ;;
    n <- mg_ask ;;
    if media_devnode_register n <? 0 then mdo (media_devnode_register n)
    else n <- mg_ask ;; if device_create_file n <? 0 then mdo (device_create_file n) else mdo 0.

(** [list_for_each_entry_safe]; the device node goes away after it. *)
Definition media_device_unregister : mediaM unit :=
  l <- gets mg_entities ;; mfor l media_device_unregister_entity.
End device.
