(* ===== verification/MediaEnum.v ===== *)
(** What the enumeration ioctls of the media device tell the user: every entity
    once, and for an entity exactly its pads and the links that start at it. *)

From stdpp Require Import gmap sorting.
From S2P Require Import Prelude StateM MediaTypes MediaEntity MediaWalk MediaPipeline MediaLinks.
From S2P Require Import MediaCreate MediaSetup MediaDevice.

(** ** Entities by their id *)

Lemma id_next_lor id : id_next (Z.lor id MEDIA_ENT_ID_FLAG_NEXT) = true.
Proof.
  unfold id_next, truthy, MEDIA_ENT_ID_FLAG_NEXT.
  rewrite Z.land_lor_distr_l, Z.land_diag. apply negb_true_iff, Z.eqb_neq. intros H.
  apply Z.lor_eq_0_iff in H as [_ H]. lia.
Qed.

Lemma id_number_small id : 0 <= id < 2 ^ 31 -> id_number id = id /\ id_next id = false.
Proof.
  intros H. unfold id_number, id_next, MEDIA_ENT_ID_FLAG_NEXT.
  change (u32 (Z.lnot (2 ^ 31))) with (Z.ones 31). rewrite Z.land_ones by lia.
  rewrite Z.mod_small by lia. split; [done|]. unfold truthy. apply negb_false_iff, Z.eqb_eq.
  apply Z.bits_inj'. intros n Hn. rewrite Z.land_spec, Z.bits_0.
  destruct (decide (n = 31)) as [->|Hne].
  - replace (Z.testbit id 31) with false; [done|]. symmetry. rewrite <- (Z.mod_small id (2 ^ 31)) by lia.
    apply Z.mod_pow2_bits_high. lia.
  - rewrite Z.pow2_bits_false by done. apply andb_false_r.
Qed.

Lemma id_number_lor id : 0 <= id < 2 ^ 31 -> id_number (Z.lor id MEDIA_ENT_ID_FLAG_NEXT) = id.
Proof.
  intros H. unfold id_number, MEDIA_ENT_ID_FLAG_NEXT. rewrite Z.land_lor_distr_l.
  change (Z.land (2 ^ 31) _) with 0. rewrite Z.lor_0_r. by apply id_number_small.
Qed.

Section find.
Context {E : MediaEnv} (s : media_graph).

Definition id_of (e : nat) : Z := from_option me_id 0 (mg_entity s !! e).
Definition wanted (id : Z) (next : bool) (e : nat) : bool :=
  ((id_of e =? id) && negb next) || ((id <? id_of e) && next).
Definition entities_valid : Prop := forall e, e ∈ mg_entities s -> is_Some (mg_entity s !! e).

Lemma find_loop_eq l id next :
  (forall e, e ∈ l -> is_Some (mg_entity s !! e)) ->
  find_entity_loop l id next s = Some (List.find (wanted id next) l, s).
Proof.
  induction l as [|e l IH]; intros Hl; [done|]. cbn [find_entity_loop List.find].
  destruct (Hl e) as [x Hx]; [apply list_elem_of_here|].
  unfold mthen, me_get, gets, the. unfold mthen. rewrite Hx. cbn [mdo]. unfold wanted, id_of at 1 2.
  rewrite Hx. cbn [from_option]. case_match; [done|]. apply IH. intros e' He'. apply Hl.
  by apply list_elem_of_further.
Qed.

Lemma find_entity_eq id :
  entities_valid ->
  find_entity id s = Some (List.find (wanted (id_number id) (id_next id)) (mg_entities s), s).
Proof. intros Hv. unfold find_entity, mthen, gets. by apply find_loop_eq. Qed.

(** The entities as a program gets them that asks for the next one until there
    is none. *)
Fixpoint enumerate (fuel : nat) (id : Z) : mediaM (list nat) :=
  match fuel with
  | O => fault
  | S fuel =>
    r <- find_entity (Z.lor id MEDIA_ENT_ID_FLAG_NEXT) ;;
    match r with
    | None => mdo []
    | Some e => x <- me_get e ;; l <- enumerate fuel (me_id x) ;; mdo (e :: l)
    end
  end.

(** The ids grow along the list of entities and leave the flag's bit alone. *)
Record ids_sorted : Prop := {
  is_sorted : StronglySorted Z.lt (id_of <$> mg_entities s);
  is_range : forall e, e ∈ mg_entities s -> 0 < id_of e < 2 ^ 31;
}.

Lemma find_skip (f : nat -> bool) l1 l2 : (forall e, e ∈ l1 -> f e = false) -> List.find f (l1 ++ l2) = List.find f l2.
Proof.
  induction l1 as [|e l1 IH]; intros Hf; [done|]. cbn. rewrite Hf by apply list_elem_of_here.
  apply IH. intros e' He'. apply Hf. by apply list_elem_of_further.
Qed.

Lemma enumerate_from fuel l1 l2 id :
  entities_valid -> ids_sorted -> mg_entities s = l1 ++ l2 -> 0 <= id < 2 ^ 31 ->
  (forall e, e ∈ l1 -> id_of e <= id) -> (forall e, e ∈ l2 -> id < id_of e) -> (length l2 < fuel)%nat ->
  enumerate fuel id s = Some (l2, s).
Proof.
  intros Hv Hs. revert l1 l2 id. induction fuel as [|fuel IH]; intros l1 l2 id Hl Hid H1 H2 Hf; [lia|].
  cbn [enumerate]. unfold mthen at 1. rewrite find_entity_eq, id_next_lor, id_number_lor, Hl by done.
  rewrite find_skip.
  2: { intros e He. apply H1 in He. unfold wanted. rewrite andb_false_r, andb_true_r. lia. }
  destruct l2 as [|e l2]; [done|]. cbn [List.find].
  assert (He : wanted id true e = true).
  { specialize (H2 e (list_elem_of_here _ _)). unfold wanted. rewrite andb_false_r, andb_true_r. lia. }
  rewrite He. destruct (Hv e) as [x Hx]; [rewrite Hl; set_solver|].
  unfold mthen at 1, me_get, gets, the. unfold mthen at 1. rewrite Hx. cbn [mdo].
  assert (Hxe : me_id x = id_of e) by (unfold id_of; by rewrite Hx).
  unfold mthen. rewrite (IH (l1 ++ [e]) l2 (me_id x)).
  - done.
  - by rewrite Hl, <- app_assoc.
  - rewrite Hxe. pose proof (is_range Hs e) as Hr. rewrite Hl in Hr. specialize (Hr ltac:(set_solver)). lia.
  - rewrite Hxe. intros e' [He'|He'%list_elem_of_singleton]%elem_of_app; [|subst; lia].
    apply H1 in He'. specialize (H2 e (list_elem_of_here _ _)). lia.
  - rewrite Hxe. intros e' He'. pose proof (is_sorted Hs) as Hss. rewrite Hl, fmap_app in Hss.
    cbn in Hss. apply StronglySorted_app in Hss as (_ & _ & Hss). apply StronglySorted_inv in Hss as [_ Hss].
    eapply Forall_forall; [exact Hss|]. by apply list_elem_of_fmap_2.
  - cbn in Hf. lia.
Qed.

(** Fact: the user can list the entities.  When the ids grow in the order of
    registration, a program that starts at 0 and asks
    [MEDIA_IOC_ENUM_ENTITIES] for the next id until it gets an error finds
    every registered entity exactly once, in the order they were registered. *)
Theorem enumeration_is_complete fuel :
  entities_valid -> ids_sorted -> (length (mg_entities s) < fuel)%nat ->
  enumerate fuel 0 s = Some (mg_entities s, s).
Proof.
  intros Hv Hs Hf. apply (enumerate_from fuel [] (mg_entities s) 0); try done; [by intros e He%elem_of_nil|].
  intros e He. apply (is_range Hs) in He. lia.
Qed.
End find.

(** ** Pads and links *)

Section enum_links.
Context {E : MediaEnv}.

(** Copies one after the other, until one fails. *)
Fixpoint copy_all (ws : list user_write) : mediaM bool :=
  match ws with
  | [] => mdo false
  | w :: ws => fails <- copy_to w ;; if fails : bool then mdo true else copy_all ws
  end.

Section graph.
Context (s : media_graph).

Definition kpad (p : option pad_ptr) : option media_pad := p ← p; x ← mg_entity s !! p.1; me_pads x !! p.2.
Definition pad_desc (d : media_pad_desc) (k : media_pad) : media_pad_desc :=
  mk_pad_desc (id_of s (mp_entity k)) (mp_index k) (u32 (mp_flags k)) (pd_reserved d).
Definition pad_desc_at (d : media_pad_desc) (p : option pad_ptr) : media_pad_desc :=
  from_option (pad_desc d) d (kpad p).
Definition link_desc (d : media_link_desc) (k : media_link) : media_link_desc :=
  mk_link_desc (pad_desc_at (ld_source d) (ml_source k)) (pad_desc_at (ld_sink d) (ml_sink k))
    (u32 (ml_flags k)) (ld_reserved d).

(** The links that start at [e]: no backlinks. *)
Definition forward (e : nat) (ks : list media_link) : list media_link :=
  filter (fun k => pad_entity s (ml_source k) = Some e) ks.

Definition pad_writes (d : media_pad_desc) (p : Z) (pads : list media_pad) : list user_write :=
  imap (fun i k => WritePad (p + Z.of_nat i) (pad_desc d k)) pads.
Definition link_writes (d : media_link_desc) (u : Z) (ks : list media_link) : list user_write :=
  imap (fun i k => WriteLink (u + Z.of_nat i) (link_desc d k)) ks.

(** All that [media_device_enum_links] writes for the entity [x], at [e]. *)
Definition enum_writes (pad : media_pad_desc) (link : media_link_desc) (links : media_links_enum)
    (e : nat) (x : media_entity) : list user_write :=
  (if le_pads links then pad_writes pad 0 (me_pads x) else []) ++
  (if le_links links then link_writes link 0 (forward e (links_of s e)) else []) ++ [WriteLinks links].

Lemma pad_writes_cons d p k pads :
  pad_writes d p (k :: pads) = WritePad p (pad_desc d k) :: pad_writes d (p + 1) pads.
Proof.
  unfold pad_writes. rewrite imap_cons. f_equal; [f_equal; lia|].
  apply imap_ext. intros i y _. cbn. f_equal. lia.
Qed.

Lemma link_writes_cons d u k ks :
  link_writes d u (k :: ks) = WriteLink u (link_desc d k) :: link_writes d (u + 1) ks.
Proof.
  unfold link_writes. rewrite imap_cons. f_equal; [f_equal; lia|].
  apply imap_ext. intros i y _. cbn. f_equal. lia.
Qed.

(** Nothing but copies has happened since [s]. *)
Definition copying (s' : media_graph) : Prop := mg_entity s' = mg_entity s /\ mg_links s' = mg_links s.

Lemma copy_to_eq w s' : copying s' -> exists b s2, copy_to w s' = Some (b, s2) /\ copying s2.
Proof. intros [H1 H2]. eexists _, _. split; [done|]. done. Qed.

Context (Hw : links_wf [] s).

Lemma kpad_to_upad_eq d k s' :
  copying s' -> is_Some (mg_entity s !! mp_entity k) ->
  media_device_kpad_to_upad k d s' = Some (pad_desc d k, s').
Proof.
  intros [He _] [x Hx]. unfold media_device_kpad_to_upad, pad_desc, id_of, mthen, me_get, gets, the, mthen.
  rewrite He, Hx. done.
Qed.

Lemma enum_pads_eq e x pad n p s' :
  mg_entity s !! e = Some x -> copying s' -> (p + n = length (me_pads x))%nat ->
  enum_pads_loop n (Z.of_nat p) e pad s' = copy_all (pad_writes pad (Z.of_nat p) (drop p (me_pads x))) s'.
Proof.
  intros Hx. revert p s'. induction n as [|n IH]; intros p s' Hs Hn.
  - rewrite drop_ge by lia. done.
  - destruct (lookup_lt_is_Some_2 (me_pads x) p) as [k Hk]; [lia|].
    rewrite (drop_S _ _ _ Hk), pad_writes_cons. cbn [enum_pads_loop copy_all].
    pose proof (lw_pads _ _ Hw e x p k Hx Hk) as Hke.
    assert (Hat : (me_pads x).[Z.of_nat p] = Some k).
    { unfold mget. rewrite bool_decide_true by lia. by rewrite Nat2Z.id. }
    unfold mthen at 1, me_get, gets at 1, the at 1. unfold mthen at 1. rewrite (proj1 Hs), Hx. cbn [mdo].
    unfold mthen at 1, the at 1. rewrite Hat. cbn [mdo].
    unfold mthen at 1. rewrite kpad_to_upad_eq by (done || rewrite Hke; eauto).
    unfold mthen. destruct (copy_to_eq (WritePad (Z.of_nat p) (pad_desc pad k)) s' Hs) as (b & s2 & -> & Hs2).
    destruct b; [done|]. replace (Z.of_nat p + 1) with (Z.of_nat (S p)) by lia. apply IH; [done|lia].
Qed.

Lemma kpad_entity p e : pad_entity s p = Some e ->
  exists k, kpad p = Some k /\ mp_entity k = e /\ is_Some (mg_entity s !! e).
Proof.
  unfold pad_entity, kpad. intros H. apply bind_Some in H as (q & -> & H). apply bind_Some in H as (x & Hx & H).
  apply bind_Some in H as (k & Hk & [= <-]). exists k. cbn. rewrite Hx. cbn. split; [done|]. split; [done|].
  rewrite (lw_pads _ _ Hw _ _ _ _ Hx Hk). by eexists.
Qed.

Lemma link_read e l k s' :
  copying s' -> links_of s e !! l = Some k ->
  exists q, link_at e (Z.of_nat l) s' = Some (q, s') /\ ml_get q s' = Some (k, s').
Proof.
  intros [He Hl] (x & a & ls & Hx & Ha & Hls & Hi & Hk)%links_of_Some. exists (a, l).
  unfold link_at, ml_get, me_get, gets, the, mdo. unfold mthen. rewrite He, Hx. cbn [fst snd].
  rewrite Ha, Nat2Z.id, Hl, Hls, Hk. done.
Qed.

Lemma source_read k e s' : copying s' -> pad_entity s (ml_source k) = Some e -> source_entity k s' = Some (e, s').
Proof.
  intros [He _] H. unfold pad_entity in H. apply bind_Some in H as (p & Hp & H).
  apply bind_Some in H as (x & Hx & H). apply bind_Some in H as (y & Hy & [= <-]).
  unfold source_entity, pad_get, me_get, gets, the, mdo. unfold mthen. rewrite Hp, He, Hx, Hy. done.
Qed.

(** A pad that a link names, on its way to the user. *)
Lemma upad_read {B} d p e (k : pad_ptr -> media_pad -> media_pad_desc -> mediaM B) s' :
  copying s' -> pad_entity s p = Some e -> exists q kp,
  (q <- the p ;; kp <- pad_get q ;; up <- media_device_kpad_to_upad kp d ;; k q kp up) s' =
  k q kp (pad_desc_at d p) s'.
Proof.
  intros Hs Hp. destruct (kpad_entity p e Hp) as (kp & Hk & Hkp & Hv). unfold pad_desc_at. rewrite Hk.
  unfold kpad in Hk. apply bind_Some in Hk as (q & -> & Hk). apply bind_Some in Hk as (x & Hx & Hk).
  exists q, kp. unfold mthen at 1, the at 1. cbn [mdo].
  unfold mthen at 1, pad_get, me_get, gets, the, mdo. unfold mthen at 1. unfold mthen at 1.
  rewrite (proj1 Hs), Hx. unfold mthen at 1. rewrite Hk.
  unfold mthen. rewrite kpad_to_upad_eq by (done || by rewrite Hkp). done.
Qed.

Lemma enum_links_loop_eq e x link n l u s' :
  mg_entity s !! e = Some x -> copying s' -> (l + n = length (links_of s e))%nat ->
  enum_links_loop n (Z.of_nat l) u e link s' =
  copy_all (link_writes link u (forward e (drop l (links_of s e)))) s'.
Proof.
  intros Hx. revert l u s'. induction n as [|n IH]; intros l u s' Hs Hn.
  - rewrite drop_ge by lia. done.
  - destruct (lookup_lt_is_Some_2 (links_of s e) l) as [k Hk]; [lia|].
    rewrite (drop_S _ _ _ Hk). cbn [enum_links_loop]. unfold forward.
    destruct (lw_twin _ _ Hw e l k Hk) as (e' & j & k' & _ & T); [apply not_elem_of_nil|].
    destruct (tw_ends _ _ _ _ _ _ _ T) as (p & q & Hp & Hq & _ & Pp & Pq).
    rewrite <- Hp in Pp. rewrite <- Hq in Pq.
    destruct (link_read e l k s' Hs Hk) as (r & R1 & R2).
    unfold mthen at 1. rewrite R1. unfold mthen at 1. rewrite R2. unfold mthen at 1.
    rewrite (source_read k p.1 s' Hs Pp).
    replace (Z.of_nat l + 1) with (Z.of_nat (S l)) by lia.
    destruct (decide (p.1 = e)) as [Hpe|Hpe].
    + rewrite bool_decide_true by done. cbn [negb]. rewrite filter_cons_True by congruence.
      rewrite link_writes_cons. cbn [copy_all].
      destruct (upad_read (ld_source link) (ml_source k) p.1 (fun _ _ up =>
        q <- the (ml_sink k) ;; kq <- pad_get q ;; uq <- media_device_kpad_to_upad kq (ld_sink link) ;;
        fails <- copy_to (WriteLink u (mk_link_desc up uq (u32 (ml_flags k)) (ld_reserved link))) ;;
        if fails : bool then mdo true else enum_links_loop n (Z.of_nat (S l)) (u + 1) e link) s' Hs Pp)
        as (? & ? & ->).
      destruct (upad_read (ld_sink link) (ml_sink k) q.1 (fun _ _ uq =>
        fails <- copy_to (WriteLink u (mk_link_desc (pad_desc_at (ld_source link) (ml_source k)) uq
          (u32 (ml_flags k)) (ld_reserved link))) ;;
        if fails : bool then mdo true else enum_links_loop n (Z.of_nat (S l)) (u + 1) e link) s' Hs Pq)
        as (? & ? & ->).
      fold (link_desc link k). unfold mthen.
      destruct (copy_to_eq (WriteLink u (link_desc link k)) s' Hs) as (b & s2 & -> & Hs2).
      destruct b; [done|]. apply IH; [done|lia].
    + rewrite bool_decide_false by done. cbn [negb]. rewrite filter_cons_False by congruence.
      apply IH; [done|lia].
Qed.

Lemma copy_all_state ws s' : copying s' -> exists b s2, copy_all ws s' = Some (b, s2) /\ copying s2.
Proof.
  revert s'. induction ws as [|w ws IH]; intros s' Hs; [by exists false, s'|]. cbn [copy_all]. unfold mthen.
  destruct (copy_to_eq w s' Hs) as (b & s2 & -> & Hs2). destruct b; [by exists true, s2|by apply IH].
Qed.

Lemma copy_all_app ws1 ws2 s' :
  copy_all (ws1 ++ ws2) s' = (fails <- copy_all ws1 ;; if fails : bool then mdo true else copy_all ws2) s'.
Proof.
  revert s'. induction ws1 as [|w ws1 IH]; intros s'; [done|]. cbn [copy_all app]. unfold mthen.
  destruct (copy_to w s') as [[b s2]|]; [|done]. destruct b; [done|]. rewrite IH. done.
Qed.

Lemma enum_body_eq e x pad link links s' :
  mg_entity s !! e = Some x -> me_num_pads x = zlen (me_pads x) -> copying s' ->
  (fails <- (if le_pads links then enum_pads_loop (Z.to_nat (me_num_pads x)) 0 e pad else mdo false) ;;
   if fails : bool then mdo (- EFAULT)
   else
     fails <- (if le_links links then enum_links_loop (Z.to_nat (me_num_links x)) 0 0 e link
               else mdo false) ;;
     if fails : bool then mdo (- EFAULT)
     else fails <- copy_to (WriteLinks links) ;; mdo (if fails : bool then - EFAULT else 0)) s' =
  (fails <- copy_all (enum_writes pad link links e x) ;; mdo (if fails : bool then - EFAULT else 0)) s'.
Proof.
  intros Hx Hn Hs. unfold enum_writes.
  assert (H1 : forall s', copying s' ->
    (if le_pads links then enum_pads_loop (Z.to_nat (me_num_pads x)) 0 e pad else mdo false) s' =
    copy_all (if le_pads links then pad_writes pad 0 (me_pads x) else []) s').
  { intros s1 Hs1. destruct (le_pads links); [|done]. apply (enum_pads_eq e x pad _ 0); [done|done|].
    rewrite Hn. unfold zlen. lia. }
  assert (H2 : forall s', copying s' ->
    (if le_links links then enum_links_loop (Z.to_nat (me_num_links x)) 0 0 e link else mdo false) s' =
    copy_all (if le_links links then link_writes link 0 (forward e (links_of s e)) else []) s').
  { intros s1 Hs1. destruct (le_links links); [|done]. apply (enum_links_loop_eq e x link _ 0); [done|done|].
    by erewrite length_links_of. }
  unfold mthen at 1. rewrite H1 by done. unfold mthen at 3. rewrite copy_all_app. unfold mthen at 3.
  destruct (copy_all_state (if le_pads links then pad_writes pad 0 (me_pads x) else []) s' Hs) as (b & s2 & -> & Hs2).
  destruct b; [done|]. unfold mthen at 1. rewrite H2 by done. rewrite copy_all_app. unfold mthen at 2.
  destruct (copy_all_state (if le_links links then link_writes link 0 (forward e (links_of s e)) else []) s2 Hs2)
    as (b & s3 & -> & Hs3).
  destruct b; [done|]. cbn [copy_all]. unfold mthen.
  destruct (copy_to_eq (WriteLinks links) s3 Hs3) as (b & s4 & -> & _). by destruct b.
Qed.
End graph.
End enum_links.
