(* ===== verification/MediaInv.v ===== *)
(** The invariant of a media device: its links have their twins, entities count
    their backlinks, the list of registered entities is the entities that have
    the device as their parent.  Every operation keeps it. *)

From stdpp Require Import gmap.
From S2P Require Import Prelude StateM MediaTypes MediaEntity MediaWalk MediaPipeline MediaLinks.
From S2P Require Import MediaCreate MediaSetup MediaDevice MediaEnum.

(** The links of [e] that start elsewhere. *)
Definition backs (e : nat) (fs : list (option pad_ptr * option pad_ptr * Z)) :=
  filter (fun f => fst <$> f.1.1 <> Some e) fs.

Record graph_inv (s : media_graph) : Prop := {
  gi_wf : links_wf [] s;
  gi_back : forall e x, mg_entity s !! e = Some x -> me_num_backlinks x = zlen (backs e (facts_of s e));
  gi_pads : forall e x, mg_entity s !! e = Some x -> me_num_pads x = zlen (me_pads x);
  gi_nodup : NoDup (mg_entities s);
  gi_registered : forall e, e ∈ mg_entities s <-> me_parent <$> mg_entity s !! e = Some true;
  gi_mutex : mg_mutex s = false;
}.

Lemma gi_valid s : graph_inv s -> entities_valid s.
Proof.
  intros Hi e He. apply (gi_registered _ Hi) in He. destruct (mg_entity s !! e); [by eexists|done].
Qed.

Lemma length_facts s e x : links_wf [] s -> mg_entity s !! e = Some x -> zlen (facts_of s e) = me_num_links x.
Proof.
  intros Hw Hx. unfold zlen, facts_of. rewrite length_fmap. erewrite length_links_of by done.
  destruct (lw_entity _ _ Hw e x Hx). lia.
Qed.

Lemma zlen_filter_le {A} (P : A -> Prop) `{!forall x, Decision (P x)} l : zlen (filter P l) <= zlen l.
Proof. unfold zlen. pose proof (length_filter P l). lia. Qed.

(** A change that keeps the facts, the pads, the counts and the registration. *)
Definition kept (x : media_entity) := (me_pads x, me_num_pads x, me_num_backlinks x, me_parent x).

(** Only where links start and end counts. *)
Lemma backs_len e l l' : fst <$> l = fst <$> l' -> zlen (backs e l) = zlen (backs e l').
Proof.
  revert l'. induction l as [|[a f] l IH]; intros [|[a' f'] l'] H; try done. cbn in H. injection H as -> H.
  unfold backs in *. destruct (decide (fst <$> a'.1 = Some e)) as [Hd|Hd].
  - rewrite !filter_cons_False by (cbn; intros Hn; by apply Hn). by apply IH.
  - rewrite !filter_cons_True by done. rewrite !zlen_cons. by rewrite (IH l').
Qed.

Lemma inv_kept s s' :
  graph_inv s -> links_wf [] s' -> (forall e, fst <$> facts_of s' e = fst <$> facts_of s e) ->
  kept <$> mg_entity s' = kept <$> mg_entity s -> mg_entities s' = mg_entities s ->
  mg_mutex s' = mg_mutex s -> graph_inv s'.
Proof.
  intros [H1 H2 H3 H4 H5 H6] Hw Hf Hk He Hm.
  assert (Hat : forall e, kept <$> mg_entity s' !! e = kept <$> mg_entity s !! e).
  { intros e. rewrite <- !list_lookup_fmap. by rewrite Hk. }
  assert (Hback : forall e x', mg_entity s' !! e = Some x' -> exists x, mg_entity s !! e = Some x /\ kept x' = kept x).
  { intros e x' Hx'. specialize (Hat e). rewrite Hx' in Hat. destruct (mg_entity s !! e) as [x|]; [|done].
    exists x. split; [done|]. by apply (inj Some) in Hat. }
  split; [done| | |by rewrite He| |by rewrite Hm].
  - intros e x' Hx'. destruct (Hback e x' Hx') as (x & Hx & [= _ _ K _]). rewrite (backs_len e _ _ (Hf e)), K. by apply H2.
  - intros e x' Hx'. destruct (Hback e x' Hx') as (x & Hx & [= K1 K2 _ _]). rewrite K1, K2. by eapply H3.
  - intros e. rewrite He, H5. specialize (Hat e).
    destruct (mg_entity s' !! e), (mg_entity s !! e); try done. cbn in *. injection Hat as _ _ _ ->. done.
Qed.

(** The list after a link was created. *)
Section inv_created.
Context {E : MediaEnv} (s s' : media_graph) (source : nat) (source_pad : Z) (sink : nat) (sink_pad flags ret : Z).
Context (Hi : graph_inv s) (Hne : source <> sink).

Lemma kept_rest x x' : rest x' = rest x -> kept x' = kept x.
Proof. destruct x, x'. unfold rest, kept. cbn. by intros [=]; subst. Qed.

Lemma only_kept es s1 s2 : links_only es s1 s2 -> kept <$> mg_entity s2 = kept <$> mg_entity s1.
Proof.
  intros Hr. apply list_eq. intros i. pose proof (f_equal (fun l => l !! i) (lo_rest _ _ _ Hr)) as H. cbn in H.
  rewrite !list_lookup_fmap in *. destruct (mg_entity s1 !! i), (mg_entity s2 !! i); try done.
  cbn in *. f_equal. apply kept_rest. congruence.
Qed.

Lemma inv_created : created s source source_pad sink sink_pad flags ret s' -> graph_inv s'.
Proof.
  intros (Hret & Hw' & Hr & Hf). unfold back_counted in Hr. unfold links_after in Hf.
  destruct (decide (ret = 0)) as [->|Hz].
  2: { eapply inv_kept; [exact Hi|done| |by eapply only_kept| |].
       - intros e. rewrite Hf. rewrite decide_False by tauto. by rewrite app_nil_r.
       - apply (lo_reg _ _ _ Hr).
       - apply (lo_mutex _ _ _ Hr). }
  pose proof (only_kept _ _ _ Hr) as Hk. cbn [mg_entity set_mg_entity] in Hk.
  assert (Hat : forall e x', mg_entity s' !! e = Some x' -> exists x, mg_entity s !! e = Some x /\
    kept x' = kept (if decide (e = sink) then count_back x else x)).
  { intros e x' Hx'. pose proof (f_equal (fun l => l !! e) Hk) as H. cbn in H.
    rewrite !list_lookup_fmap, Hx' in H. destruct (decide (e = sink)) as [Hd|Hd].
    - rewrite Hd, list_lookup_alter_eq in H. rewrite Hd. destruct (mg_entity s !! sink) as [x|]; [|done].
      exists x. split; [done|]. by apply (inj Some) in H.
    - rewrite list_lookup_alter_ne in H by done. destruct (mg_entity s !! e) as [x|]; [|done].
      exists x. split; [done|]. by apply (inj Some) in H. }
  destruct Hi as [H1 H2 H3 H4 H5 H6]. destruct (lo_reg _ _ _ Hr) as [Hreg _].
  split; [done| | |by rewrite Hreg| |by rewrite (lo_mutex _ _ _ Hr)].
  - intros e x' Hx'. destruct (Hat e x' Hx') as (x & Hx & [= _ _ K _]). rewrite Hf, K.
    pose proof (length_facts s' e x' Hw' Hx') as Hlen. rewrite Hf in Hlen.
    destruct (lw_entity _ _ Hw' e x' Hx') as (? & ? & _). unfold backs.
    pose proof (zlen_filter_le (fun f => fst <$> f.1.1 <> Some e) (facts_of s e)) as Hle.
    specialize (H2 e x Hx). fold (backs e (facts_of s e)) in *.
    destruct (decide (e = sink)) as [->|Hd].
    + rewrite decide_True in Hlen by auto. rewrite decide_True by auto. rewrite zlen_app in Hlen. change (zlen [_]) with 1 in Hlen.
      rewrite filter_app, filter_cons_True by (cbn; congruence). rewrite zlen_app. cbn.
      change (zlen [_]) with 1. pose proof (zlen_nonneg (backs sink (facts_of s sink))).
      unfold backs in *. rewrite wrap_small by lia. lia.
    + destruct (decide (e = source)) as [->|Hs].
      * rewrite decide_True by auto. rewrite filter_app, filter_cons_False by (cbn; intros Hn; by apply Hn).
        rewrite app_nil_r. exact H2.
      * rewrite decide_False by tauto. rewrite app_nil_r. exact H2.
  - intros e x' Hx'. destruct (Hat e x' Hx') as (x & Hx & [= K1 K2 _ _]). rewrite K1, K2.
    specialize (H3 e x Hx). by destruct (decide (e = sink)).
  - intros e. rewrite Hreg. cbn [mg_entities set_mg_entity]. rewrite H5.
    pose proof (f_equal (fun l => l !! e) Hk) as H. cbn in H. rewrite !list_lookup_fmap in H.
    destruct (decide (e = sink)) as [->|Hd].
    + rewrite list_lookup_alter_eq in H. destruct (mg_entity s' !! sink), (mg_entity s !! sink); try done.
      cbn in *. injection H as _ _ _ ->. done.
    + rewrite list_lookup_alter_ne in H by done. destruct (mg_entity s' !! e), (mg_entity s !! e); try done.
      cbn in *. injection H as _ _ _ ->. done.
Qed.
End inv_created.

(** ** The other operations *)

(** What of an entity the links depend on. *)
Definition anchors (x : media_entity) := (me_pads x, me_links x, me_num_links x, me_max_links x).

Lemma wf_anchors s s' :
  links_wf [] s -> anchors <$> mg_entity s' = anchors <$> mg_entity s -> mg_links s' = mg_links s ->
  links_wf [] s' /\ (forall e, links_of s' e = links_of s e).
Proof.
  intros Hw He Hl.
  assert (Hat : forall e, anchors <$> mg_entity s' !! e = anchors <$> mg_entity s !! e).
  { intros e. rewrite <- !list_lookup_fmap. by rewrite He. }
  assert (Hlinks : forall e, links_of s' e = links_of s e).
  { intros e. unfold links_of. specialize (Hat e). rewrite Hl.
    destruct (mg_entity s' !! e) as [x'|], (mg_entity s !! e) as [x|]; try done.
    apply (inj Some) in Hat. injection Hat as _ H2 H3 _. by rewrite H2, H3. }
  split; [|done]. eapply links_wf_transfer; [exact Hw|..].
  - intros e x' Hx'. specialize (Hat e). rewrite Hx' in Hat. destruct (mg_entity s !! e) as [x|] eqn:Hx; [|done].
    apply (inj Some) in Hat. injection Hat as H1 H2 H3 H4. split; [|by exists x].
    destruct (lw_entity _ _ Hw e x Hx) as (K1 & K2 & K3). unfold entity_wf. rewrite H2, H3, H4, Hl. done.
  - intros [[e i]|]; [|done]. unfold pad_entity. cbn. specialize (Hat e).
    destruct (mg_entity s' !! e) as [x'|], (mg_entity s !! e) as [x|]; try done.
    apply (inj Some) in Hat. injection Hat as H1 _ _ _. cbn. by rewrite H1.
  - intros e j. unfold addr. specialize (Hat e).
    destruct (mg_entity s' !! e) as [x'|], (mg_entity s !! e) as [x|]; try done.
    apply (inj Some) in Hat. injection Hat as _ H2 _ _. cbn. by rewrite H2.
  - intros e j l. rewrite Hlinks. done.
  - intros e j l. rewrite Hlinks. done.
Qed.

Section ops.
Context {E : MediaEnv}.

Lemma fmap_list_insert {A B} (f : A -> B) (l : list A) i x y :
  l !! i = Some x -> f y = f x -> f <$> <[i := y]> l = f <$> l.
Proof.
  intros Hx Hf. rewrite list_fmap_insert, Hf. apply list_insert_id. by rewrite list_lookup_fmap, Hx.
Qed.

(** Starting and stopping pipelines. *)
Lemma inv_visited f l s :
  (forall x, anchors (f x) = anchors x /\ kept (f x) = kept x) -> graph_inv s -> graph_inv (upd_visited f l s).
Proof.
  intros Hf Hi.
  assert (Hiter : forall n x, anchors (Nat.iter n f x) = anchors x /\ kept (Nat.iter n f x) = kept x).
  { induction n as [|n IH]; intros x; [done|]. change (Nat.iter (S n) f x) with (f (Nat.iter n f x)).
    destruct (Hf (Nat.iter n f x)) as [-> ->]. apply IH. }
  destruct (wf_anchors s (upd_visited f l s)) as [Hw Hl]; [apply Hi| |done|].
  - apply list_eq. intros i. rewrite !list_lookup_fmap, lookup_visited.
    destruct (mg_entity s !! i) as [x|]; [|done]. cbn [fmap option_fmap option_map]. f_equal. apply Hiter.
  - apply (inv_kept s); try done.
    + intros e. unfold facts_of. by rewrite Hl.
    + apply list_eq. intros i. rewrite !list_lookup_fmap, lookup_visited.
      destruct (mg_entity s !! i) as [x|]; [|done]. cbn [fmap option_fmap option_map]. f_equal. apply Hiter.
Qed.

Lemma inv_setup s e i l flags ret s' :
  graph_inv s -> links_of s e !! i = Some l -> links_wf [] s' ->
  setup_contract e i l flags s ret s' -> graph_inv s'.
Proof.
  intros Hi Hl Hw' (e' & j & p & q & x & y & _ & _ & _ & _ & _ & Hd).
  destruct (decided l x y flags) as [r|]; [by destruct Hd as [_ ->]|].
  destruct Hd as (_ & He & Hm & Hreg & _ & Hres).
  apply (inv_kept s); try done; [|by rewrite He].
  destruct Hres as [[_ Hb]|[_ Hlk]].
  - intros e0. unfold facts_of. rewrite Hb. repeat case_decide; subst; [| |done];
      apply list_eq; intros k; rewrite !list_lookup_fmap.
    all: match goal with |- context [alter _ ?i ?l !! ?k] => destruct (decide (k = i)) as [->|];
      [rewrite list_lookup_alter_eq|by rewrite list_lookup_alter_ne] end.
    all: match goal with |- context [links_of ?s ?e !! ?k] => by destruct (links_of s e !! k) end.
  - intros e0. unfold facts_of, links_of. by rewrite He, Hlk.
Qed.

Lemma inv_tick s n : graph_inv s -> graph_inv (set_mg_tick n s).
Proof.
  intros Hi. apply (inv_kept s); try done. eapply links_wf_eq; [..|apply Hi]; done.
Qed.

(** A new entity. *)
Lemma inv_after_init s e a x x' ls :
  graph_inv s -> mg_entity s !! e = Some x -> blank x -> a ∉ dom (mg_links s) ->
  me_links x' = Some a -> me_num_links x' = 0 -> 0 <= me_max_links x' <= zlen ls -> me_max_links x' < 2 ^ 16 ->
  (forall i p, me_pads x' !! i = Some p -> mp_entity p = e) -> me_num_backlinks x' = 0 ->
  me_num_pads x' = zlen (me_pads x') -> me_parent x' = me_parent x ->
  graph_inv (after_init s e a x' ls).
Proof.
  intros Hi Hx Hb Ha H1 H2 H3 H4 H5 H6 H7 H8.
  pose proof (init_wf s e a x x' ls (gi_wf _ Hi) Hx Hb Ha H1 H2 H3 H4 H5) as Hw.
  assert (Hl : forall e0, links_of (after_init s e a x' ls) e0 = links_of s e0).
  { by eapply init_links; [apply Hi|..]. }
  assert (Hat : forall e0, mg_entity (after_init s e a x' ls) !! e0 = if decide (e0 = e) then Some x' else mg_entity s !! e0).
  { by eapply init_lookup. }
  split; [done| | |by apply Hi| |by apply Hi].
  - intros e0 y Hy. rewrite Hat in Hy. unfold facts_of. rewrite Hl. case_decide as Hd.
    + rewrite Hd, (blank_links s e x) by done. injection Hy as <-. exact H6.
    + by apply (gi_back _ Hi).
  - intros e0 y Hy. rewrite Hat in Hy. case_decide; [by injection Hy as <-|by eapply gi_pads].
  - intros e0. rewrite Hat. change (mg_entities _) with (mg_entities s). rewrite (gi_registered _ Hi).
    case_decide as Hd; [|done]. rewrite Hd, Hx. cbn. by rewrite H8.
Qed.

Lemma numbered_pads e pads i p : numbered e (length pads) pads !! i = Some p -> mp_entity p = e.
Proof.
  unfold numbered. rewrite list_lookup_imap. destruct (pads !! i) as [q|] eqn:Hq; [|done]. cbn.
  rewrite decide_True by by eapply lookup_lt_Some. by intros [= <-].
Qed.

(** What [media_entity_init] promises. *)
Definition init_contract (e : nat) (x : media_entity) (pads : list media_pad) (extra_links : Z)
    (s : media_graph) (ret : Z) (s' : media_graph) : Prop :=
  (ret = - ENOMEM /\ mg_entity s' = mg_entity s /\ mg_links s' = mg_links s) \/
  (ret = 0 /\ (forall e', links_of s' e' = links_of s e') /\ exists a, mg_entity s' =
     <[e := initialised e (zlen pads) extra_links (numbered e (length pads) pads) a x]> (mg_entity s)).

Lemma wp_init s e x pads extra_links :
  graph_inv s -> mg_entity s !! e = Some x -> blank x -> 0 <= extra_links -> zlen pads + extra_links < 2 ^ 16 ->
  wp (media_entity_init e (zlen pads) pads extra_links) s (fun ret s' =>
    graph_inv s' /\ init_contract e x pads extra_links s ret s').
Proof.
  intros Hi Hx Hb Hextra H16. pose proof (zlen_nonneg pads) as Hp. unfold media_entity_init, mg_ask.
  apply wp_mthen, wp_gets, wp_modify, wp_mdo. destruct (links_kzalloc_fails (mg_tick s)).
  { apply wp_mdo. split; [by apply inv_tick|]. by left. }
  apply wp_gets. cbn zeta. set (s1 := set_mg_tick _ s). pose proof (inv_tick s (S (mg_tick s)) Hi : graph_inv s1) as Hi1.
  apply wp_modify. set (a := fresh_alloc (mg_links s1)). set (ls := replicate _ null_link).
  set (s2 := set_mg_links _ s1). apply wp_mthen. unfold wp at 1. rewrite (me_upd_eq e _ s2 x Hx).
  fold (initialised e (zlen pads) extra_links pads a x). set (x1 := initialised _ _ _ _ _ x).
  set (s3 := set_mg_entity _ s2). apply wp_mthen. unfold wp at 1.
  pose proof (number_loop e (length pads) 0 x1 s3) as Hloop. change (Z.of_nat 0) with 0 in Hloop.
  change (Z.of_nat (length pads)) with (zlen pads) in Hloop. rewrite Hloop; [|done|].
  2: { unfold s3. cbn [mg_entity set_mg_entity]. rewrite list_lookup_insert_eq by by eapply lookup_lt_Some.
       assert (numbered e 0 (me_pads x1) = pads) as ->; [|done]. change (me_pads x1) with pads.
       apply list_eq. intros i. unfold numbered. rewrite list_lookup_imap. destruct (pads !! i); [|done].
       cbn. by rewrite decide_False by lia. }
  apply wp_mdo. clear Hloop.
  set (x2 := initialised e (zlen pads) extra_links (numbered e (length pads) pads) a x).
  assert (Hs : set_mg_entity (<[e := set_me_pads (numbered e (0 + length pads) (me_pads x1)) x1]> (mg_entity s3)) s3 =
    after_init s1 e a x2 ls).
  { unfold after_init, s3. cbn [mg_entity set_mg_entity]. by rewrite list_insert_insert_eq. }
  rewrite Hs. assert (Ha : a ∉ dom (mg_links s1)) by exact (is_fresh (dom (mg_links s1) : gset nat)).
  assert (Hmax : me_max_links x2 = zlen pads + extra_links) by (cbn; by rewrite wrap_small by lia).
  assert (Hlen : zlen ls = zlen pads + extra_links) by (unfold ls, zlen; rewrite length_replicate; lia).
  split.
  - apply (inv_after_init s1 e a x x2 ls); try done; [lia|lia|apply numbered_pads|].
    unfold zlen. cbn. unfold numbered. by rewrite length_imap.
  - right. split; [done|]. split; [|by exists a]. intros e'.
    eapply (init_links s1 e a x x2 ls); [apply Hi1|exact Hx|done|done|done|done].
Qed.

(** ** Registration *)

(** The id an entity gets, and the next one. *)
Definition new_id (s : media_graph) (x : media_entity) : Z := if me_id x =? 0 then mg_entity_id s else me_id x.
Definition next_id (s : media_graph) (x : media_entity) : Z :=
  if me_id x =? 0 then u32 (mg_entity_id s + 1) else Z.max (u32 (me_id x + 1)) (mg_entity_id s).

Definition registered_as (x : media_entity) (i : Z) : media_entity := set_me_id i (set_me_parent true x).

Definition after_register (s : media_graph) (e : nat) (x : media_entity) : media_graph :=
  set_mg_entities (mg_entities s ++ [e]) (set_mg_entity_id (next_id s x)
    (set_mg_entity (<[e := registered_as x (new_id s x)]> (mg_entity s)) s)).

Lemma register_eq s e x :
  mg_entity s !! e = Some x -> e ∉ mg_entities s ->
  media_device_register_entity e s = Some (0, after_register s e x).
Proof.
  intros Hx Hn. unfold media_device_register_entity. unfold mthen at 1. rewrite (me_upd_eq e _ s x Hx).
  set (s1 := set_mg_entity _ s). assert (Hlt : (e < length (mg_entity s))%nat) by by eapply lookup_lt_Some.
  assert (Hx1 : mg_entity s1 !! e = Some (set_me_parent true x)) by by apply list_lookup_insert_eq.
  unfold mthen at 1, me_get, gets at 1, the. unfold mthen at 1. rewrite Hx1. cbn [mdo].
  unfold mthen at 1, gets at 1. unfold mthen at 1. change (me_id (set_me_parent true x)) with (me_id x).
  unfold after_register, new_id, next_id, registered_as. destruct (me_id x =? 0) eqn:Hid.
  - unfold mthen at 1. rewrite (me_upd_eq e _ s1 _ Hx1). unfold modify at 1, mthen, gets.
    cbn [mg_entities set_mg_entity_id set_mg_entity]. change (mg_entities s1) with (mg_entities s).
    rewrite decide_False by done. unfold modify, mdo. unfold s1. cbn [mg_entity set_mg_entity].
    by rewrite list_insert_insert_eq.
  - unfold modify at 1, mthen, gets. cbn [mg_entities set_mg_entity_id]. change (mg_entities s1) with (mg_entities s).
    rewrite decide_False by done. unfold modify, mdo, s1. cbn. done.
Qed.

(** An entity whose registration changes. *)
Lemma inv_parent s s' e x b :
  graph_inv s -> mg_entity s !! e = Some x -> links_wf [] s' -> mg_mutex s' = mg_mutex s ->
  (forall e', links_of s' e' = links_of s e') ->
  kept <$> mg_entity s' = kept <$> <[e := set_me_parent b x]> (mg_entity s) ->
  NoDup (mg_entities s') -> (forall e', e' ∈ mg_entities s' <-> (e' <> e /\ e' ∈ mg_entities s) \/ (e' = e /\ b = true)) ->
  graph_inv s'.
Proof.
  intros Hi Hx Hw Hm Hl Hk Hnd Hreg.
  assert (Hat : forall e', kept <$> mg_entity s' !! e' =
    if decide (e' = e) then Some (kept (set_me_parent b x)) else kept <$> mg_entity s !! e').
  { intros e'. rewrite <- list_lookup_fmap, Hk, list_lookup_fmap. case_decide as Hd.
    - rewrite Hd, list_lookup_insert_eq; [done|]. by eapply lookup_lt_Some.
    - by rewrite list_lookup_insert_ne. }
  assert (Hold : forall e' y, mg_entity s' !! e' = Some y -> exists y0, mg_entity s !! e' = Some y0 /\
    me_pads y = me_pads y0 /\ me_num_pads y = me_num_pads y0 /\ me_num_backlinks y = me_num_backlinks y0).
  { intros e' y Hy. specialize (Hat e'). rewrite Hy in Hat. case_decide as Hd.
    - apply (inj Some) in Hat. injection Hat as H1 H2 H3 _. rewrite Hd. by exists x.
    - destruct (mg_entity s !! e') as [y0|]; [|done]. apply (inj Some) in Hat. injection Hat as H1 H2 H3 _. by exists y0. }
  split; [done| | |done| |by rewrite Hm; apply Hi].
  - intros e' y Hy. destruct (Hold e' y Hy) as (y0 & Hy0 & _ & _ & ->). unfold facts_of. rewrite Hl.
    by apply (gi_back _ Hi).
  - intros e' y Hy. destruct (Hold e' y Hy) as (y0 & Hy0 & -> & -> & _). by eapply gi_pads.
  - intros e'. rewrite Hreg, (gi_registered _ Hi). specialize (Hat e').
    destruct (decide (e' = e)) as [->|Hd].
    + destruct (mg_entity s' !! e) as [y|]; [|done]. apply (inj Some) in Hat. injection Hat as _ _ _ Hb.
      cbn. rewrite Hb. split; [intros [[? _]|[_ ->]]; done|]. intros [= ->]. by right.
    + destruct (mg_entity s' !! e') as [y|], (mg_entity s !! e') as [y0|]; try done; [|tauto].
      apply (inj Some) in Hat. injection Hat as _ _ _ Hb. cbn. rewrite Hb. tauto.
Qed.

Lemma inv_register s e x :
  graph_inv s -> mg_entity s !! e = Some x -> me_parent x = false ->
  e ∉ mg_entities s /\ graph_inv (after_register s e x).
Proof.
  intros Hi Hx Hp.
  assert (Hn : e ∉ mg_entities s) by (rewrite (gi_registered _ Hi), Hx; cbn; congruence).
  split; [done|]. destruct (wf_anchors s (after_register s e x)) as [Hw Hl]; [apply Hi| |done|].
  { by apply (fmap_list_insert _ _ e x). }
  apply (inv_parent s _ e x true); try done.
  - cbn [mg_entity after_register set_mg_entities set_mg_entity_id set_mg_entity]. by rewrite !list_fmap_insert.
  - cbn. apply NoDup_app. split; [apply Hi|]. split; [|apply NoDup_singleton].
    intros y Hy ->%list_elem_of_singleton. done.
  - intros e'. cbn. rewrite elem_of_app, list_elem_of_singleton. destruct (decide (e' = e)) as [->|]; naive_solver.
Qed.

Definition after_unregister (s : media_graph) (e : nat) (x : media_entity) : media_graph :=
  set_mg_entity (<[e := set_me_parent false x]> (mg_entity s))
    (set_mg_entities (filter (fun e' => e' <> e) (mg_entities s)) s).

Lemma unregister_eq s e x :
  graph_inv s -> mg_entity s !! e = Some x ->
  media_device_unregister_entity e s =
  Some (tt, if me_parent x then after_unregister s e x else s).
Proof.
  intros Hi Hx. unfold media_device_unregister_entity, mthen, me_get, gets, the, mthen. rewrite Hx. cbn [mdo].
  destruct (me_parent x) eqn:Hp; [|done]. cbn [negb].
  rewrite decide_True by (rewrite (gi_registered _ Hi), Hx; cbn; by rewrite Hp).
  unfold modify. by rewrite (me_upd_eq e _ _ x).
Qed.

Lemma inv_unregister s e x :
  graph_inv s -> mg_entity s !! e = Some x -> graph_inv (after_unregister s e x).
Proof.
  intros Hi Hx. destruct (wf_anchors s (after_unregister s e x)) as [Hw Hl]; [apply Hi| |done|].
  { by apply (fmap_list_insert _ _ e x). }
  apply (inv_parent s _ e x false); try done.
  - cbn. by apply NoDup_filter, Hi.
  - intros e'. cbn. rewrite list_elem_of_filter. naive_solver.
Qed.
End ops.
