(* ===== verification/MediaSystem.v ===== *)
(** The media device as a whole: drivers build and change the graph, pipelines
    start and stop, programs use the ioctls, in any order; no step goes wrong. *)

From stdpp Require Import gmap sorting.
From S2P Require Import Prelude StateM MediaTypes MediaEntity MediaWalk MediaPipeline MediaLinks.
From S2P Require Import MediaCreate MediaSetup MediaDevice MediaEnum MediaInv.

Section system.
Context {E : MediaEnv}.

(** ** Finding a link *)

(** The link runs from a pad like [kp] to one like [kq]. *)
Definition runs (s : media_graph) (kp kq : media_pad) (l : media_link) : bool :=
  match kpad s (ml_source l), kpad s (ml_sink l) with
  | Some a, Some b =>
    bool_decide (mp_entity a = mp_entity kp) && (mp_index a =? mp_index kp) &&
    bool_decide (mp_entity b = mp_entity kq) && (mp_index b =? mp_index kq)
  | _, _ => false
  end.

Lemma find_link_loop_eq s e kp kq x n i :
  links_wf [] s -> mg_entity s !! e = Some x -> (i + n = length (links_of s e))%nat ->
  find_link_loop n (Z.of_nat i) e kp kq s =
  Some (match list_find (runs s kp kq) (drop i (links_of s e)) with
        | Some (j, _) => addr s e (i + j) | None => None end, s).
Proof.
  intros Hw Hx. revert i. induction n as [|n IH]; intros i Hn.
  - rewrite drop_ge by lia. done.
  - destruct (lookup_lt_is_Some_2 (links_of s e) i) as [l Hl]; [lia|].
    rewrite (drop_S _ _ _ Hl). cbn [find_link_loop list_find].
    destruct (lw_twin _ _ Hw e i l Hl) as (e' & j & l' & _ & T); [apply not_elem_of_nil|].
    destruct (tw_ends _ _ _ _ _ _ _ T) as (p & q & Hp & Hq & _ & Pp & Pq).
    destruct (kpad_entity s Hw _ _ Pp) as (a & Ka & _). destruct (kpad_entity s Hw _ _ Pq) as (b & Kb & _).
    destruct (link_read s e i l s (conj eq_refl eq_refl) Hl) as (r & R1 & R2).
    destruct (links_of_addr _ _ _ _ Hl) as [al Hal].
    assert (r = (al, i)) as ->.
    { unfold link_at, me_get, gets, the, mdo in R1. unfold mthen in R1. rewrite Hx in R1.
      unfold addr in Hal. rewrite Hx in Hal. cbn in Hal. destruct (me_links x) as [al'|]; [|done].
      injection Hal as <-. injection R1 as <-. by rewrite Nat2Z.id. }
    unfold mthen at 1. rewrite R1. unfold mthen at 1. rewrite R2.
    assert (Hpad : forall p k, kpad s (Some p) = Some k -> pad_get p s = Some (k, s)).
    { intros p0 k Hk. unfold kpad in Hk. cbn in Hk. apply bind_Some in Hk as (z & Hz & Hk).
      unfold pad_get, me_get, gets, the, mdo. unfold mthen. by rewrite Hz, Hk. }
    unfold mthen at 1, the at 1. rewrite Hp. cbn [mdo]. unfold mthen at 1. rewrite (Hpad p a Ka).
    unfold mthen at 1, the at 1. rewrite Hq. cbn [mdo]. unfold mthen at 1. rewrite (Hpad q b Kb).
    assert (Hruns : runs s kp kq l = bool_decide (mp_entity a = mp_entity kp) && (mp_index a =? mp_index kp) &&
      bool_decide (mp_entity b = mp_entity kq) && (mp_index b =? mp_index kq)).
    { unfold runs. by rewrite Hp, Hq, Ka, Kb. }
    rewrite <- Hruns. destruct (runs s kp kq l) eqn:Hr.
    + rewrite decide_True by done. rewrite Nat.add_0_r, Hal. done.
    + rewrite decide_False by (intros []). replace (Z.of_nat i + 1) with (Z.of_nat (S i)) by lia.
      rewrite IH by lia. destruct (list_find _ _) as [[j2 ?]|]; [|done]. cbn. by rewrite Nat.add_succ_r.
Qed.

(** The first link of the source's entity that runs between two pads. *)
Definition found_link (s : media_graph) (kp kq : media_pad) : option link_ptr :=
  match list_find (runs s kp kq) (links_of s (mp_entity kp)) with
  | Some (j, _) => addr s (mp_entity kp) j | None => None end.

Lemma find_link_eq s p q kp kq x :
  links_wf [] s -> kpad s (Some p) = Some kp -> kpad s (Some q) = Some kq ->
  mg_entity s !! mp_entity kp = Some x ->
  media_entity_find_link p q s = Some (found_link s kp kq, s).
Proof.
  intros Hw Kp Kq Hx.
  assert (Hpad : forall p k, kpad s (Some p) = Some k -> pad_get p s = Some (k, s)).
  { intros p0 k Hk. unfold kpad in Hk. cbn in Hk. apply bind_Some in Hk as (z & Hz & Hk).
    unfold pad_get, me_get, gets, the, mdo. unfold mthen. by rewrite Hz, Hk. }
  unfold media_entity_find_link. unfold mthen at 1. rewrite (Hpad p kp Kp). unfold mthen at 1.
  rewrite (Hpad q kq Kq). unfold mthen at 1, me_get, gets, the. unfold mthen. rewrite Hx. cbn [mdo].
  apply (find_link_loop_eq s (mp_entity kp) kp kq x _ 0); [done|done|]. by erewrite length_links_of.
Qed.


(** ** The ioctls keep the invariant *)

(** The invariant while the mutex is held. *)
Definition locked_inv (s : media_graph) : Prop := graph_inv (set_mg_mutex false s).

Lemma inv_same s s' :
  graph_inv s -> mg_entity s' = mg_entity s -> mg_links s' = mg_links s -> mg_entities s' = mg_entities s ->
  mg_mutex s' = false -> graph_inv s'.
Proof.
  intros Hi He Hl Hr Hm. apply (inv_kept s); try done.
  - eapply links_wf_eq; [exact He|exact Hl|apply Hi].
  - intros e. unfold facts_of, links_of. by rewrite He, Hl.
  - by rewrite He.
  - rewrite Hm. symmetry. apply Hi.
Qed.

Lemma inv_locked s : graph_inv s -> locked_inv (set_mg_mutex true s).
Proof. intros Hi. by apply (inv_same s). Qed.

Lemma locked_called cs s s' : called cs s s' -> locked_inv s -> locked_inv s'.
Proof. intros [-> _] Hi. by eapply inv_same. Qed.

Lemma inv_called cs s s' : called cs s s' -> graph_inv s -> graph_inv s'.
Proof. intros [-> _] Hi. eapply inv_same; try done. apply Hi. Qed.

Lemma locked_wf s : locked_inv s -> links_wf [] s.
Proof. intros Hi. eapply links_wf_eq; [..|apply Hi]; done. Qed.

Lemma wp_copy_from {B} s (k : bool -> mediaM B) Q :
  (forall b s', called [] s s' -> wp (k b) s' Q) -> wp (mthen copy_from k) s Q.
Proof.
  intros Hk. apply wp_mthen. unfold copy_from, mg_ask. apply wp_mthen, wp_gets, wp_modify, wp_mdo, wp_mdo.
  apply Hk. split; cbn; [done|]. by rewrite app_nil_r.
Qed.

Lemma wp_copy_to {B} w s (k : bool -> mediaM B) Q :
  (forall b s', called [CallCopyToUser w b] s s' -> wp (k b) s' Q) -> wp (mthen (copy_to w) k) s Q.
Proof.
  intros Hk. apply wp_mthen. unfold copy_to, mg_ask, mg_call. apply wp_mthen, wp_gets, wp_modify, wp_mdo.
  apply wp_mthen, wp_gets. apply wp_mdo. apply wp_mdo. by apply Hk.
Qed.

Lemma wp_copy_all ws s : wp (copy_all ws) s (fun _ s' => exists cs, called cs s s').
Proof.
  revert s. induction ws as [|w ws IH]; intros s; [exists []; apply called_nil|]. cbn [copy_all].
  apply wp_copy_to. intros b s1 C1. destruct b; [by exists [CallCopyToUser w true]|].
  eapply wp_mono; [apply IH|]. intros b s2 [cs C2]. eexists. by eapply called_app.
Qed.

(** The entity that the user's id stands for is registered. *)
Lemma wp_find_entity {B} s id (k : option nat -> mediaM B) Q :
  locked_inv s -> (forall r, (forall e, r = Some e -> exists x, mg_entity s !! e = Some x /\ me_parent x = true) ->
    wp (k r) s Q) -> wp (mthen (find_entity id) k) s Q.
Proof.
  intros Hi Hk. apply wp_mthen. unfold wp. rewrite find_entity_eq by exact (gi_valid _ Hi). apply Hk.
  intros e [He _]%find_some. apply list_elem_of_In, (gi_registered _ Hi) in He.
  cbn in He. destruct (mg_entity s !! e) as [x|]; [|done]. exists x. split; [done|]. by injection He.
Qed.

Lemma wp_enum_entities u_ent id s :
  graph_inv s -> wp (media_device_enum_entities u_ent id) s (fun _ s' => graph_inv s').
Proof.
  intros Hi. unfold media_device_enum_entities. apply wp_copy_from. intros b s1 C1.
  pose proof (inv_called _ _ _ C1 Hi) as Hi1. destruct b; [done|].
  apply wp_find_entity; [by eapply inv_same; [exact Hi1|..]|]. intros [e|] He; [|done].
  destruct (He e eq_refl) as (x & Hx & _). eapply wp_me_get; [exact Hx|].
  apply wp_copy_to. intros b s2 C2. apply wp_mdo. by eapply inv_called.
Qed.

Lemma wp_enum_links pad link links s :
  locked_inv s -> wp (media_device_enum_links pad link links) s (fun _ s' => locked_inv s').
Proof.
  intros Hi. unfold media_device_enum_links. apply wp_copy_from. intros b s1 C1.
  pose proof (locked_called _ _ _ C1 Hi) as Hi1. destruct b; [done|].
  apply wp_find_entity; [done|]. intros [e|] He; [|done].
  destruct (He e eq_refl) as (x & Hx & _). eapply wp_me_get; [exact Hx|]. unfold wp.
  rewrite (enum_body_eq s1 (locked_wf _ Hi1) e x pad link links s1 Hx (gi_pads _ Hi1 e x Hx) (conj eq_refl eq_refl)).
  change (wp (fails <- copy_all (enum_writes s1 pad link links e x) ;; mdo (if fails : bool then - EFAULT else 0))
    s1 (fun _ s' => locked_inv s')).
  eapply wp_seq; [apply wp_copy_all|]. intros b s2 [cs C2]. apply wp_mdo. by eapply locked_called.
Qed.

Lemma found_link_ok s kp kq p link x :
  locked_inv s -> mg_entity s !! mp_entity kp = Some x -> me_parent x = true ->
  kpad s (Some p) = Some kp -> found_link s kp kq = Some link ->
  exists i l, links_of s (mp_entity kp) !! i = Some l /\ addr s (mp_entity kp) i = Some link /\ registered s l.
Proof.
  intros Hi Hx Hpar Hkp. unfold found_link. destruct (list_find _ _) as [[i l]|] eqn:Hf; [|done]. intros Ha.
  apply list_find_Some in Hf as (Hl & Hr & _). exists i, l. split; [done|]. split; [done|].
  unfold runs in Hr. destruct (kpad s (ml_source l)) as [a|] eqn:Ka; [|done].
  destruct (kpad s (ml_sink l)) as [b|]; [|done]. apply Is_true_true, andb_true_iff in Hr as [Hr _].
  apply andb_true_iff in Hr as [Hr _]. apply andb_true_iff in Hr as [Hr _]. apply bool_decide_eq_true in Hr.
  unfold kpad in Ka. apply bind_Some in Ka as (q & Hq & Ka). apply bind_Some in Ka as (z & Hz & Ka).
  pose proof (lw_pads _ _ (locked_wf _ Hi) _ _ _ _ Hz Ka) as Hqe. exists q, x. split; [done|].
  split; [congruence|done].
Qed.

Lemma wp_device_setup_link ulink s :
  0 <= pd_index (ld_source ulink) -> 0 <= pd_index (ld_sink ulink) -> locked_inv s ->
  wp (media_device_setup_link ulink) s (fun _ s' => locked_inv s').
Proof.
  intros H1 H2 Hi. unfold media_device_setup_link. apply wp_copy_from. intros b s1 C1.
  pose proof (locked_called _ _ _ C1 Hi) as Hi1. destruct b; [done|].
  apply wp_find_entity; [done|]. intros [source|] Hsrc; (apply wp_find_entity; [done|]).
  2: { intros r _. by apply wp_mdo. }
  intros [sink|] Hsnk; [|by apply wp_mdo].
  destruct (Hsrc source eq_refl) as (x & Hx & Px). destruct (Hsnk sink eq_refl) as (y & Hy & _).
  eapply wp_me_get; [exact Hx|]. eapply wp_me_get; [exact Hy|].
  destruct (_ || _) eqn:Hlt; [by apply wp_mdo|]. apply orb_false_iff in Hlt as [L1 L2].
  pose proof (gi_pads _ Hi1 source x Hx) as Nx. pose proof (gi_pads _ Hi1 sink y Hy) as Ny.
  eapply wp_pad_at; [apply (links_only_refl [])|exact Hx|lia|].
  eapply wp_pad_at; [apply (links_only_refl [])|exact Hy|lia|].
  assert (Hkpad : forall e z pad, mg_entity s1 !! e = Some z -> 0 <= pad < zlen (me_pads z) ->
    exists k, kpad s1 (Some (e, Z.to_nat pad)) = Some k /\ mp_entity k = e).
  { intros e z pad Hz Hp. destruct (proj2 (mget_is_Some (me_pads z) pad)) as [k Hk]; [done|].
    unfold mget in Hk. rewrite bool_decide_true in Hk by lia. exists k. unfold kpad. cbn. rewrite Hz. cbn.
    split; [done|]. by eapply (lw_pads _ _ (locked_wf _ Hi1)). }
  destruct (Hkpad source x (pd_index (ld_source ulink)) Hx) as (kp & Kp & Ep); [lia|].
  destruct (Hkpad sink y (pd_index (ld_sink ulink)) Hy) as (kq & Kq & Eq); [lia|].
  apply wp_mthen. unfold wp at 1. rewrite <- Ep in Hx.
  rewrite (find_link_eq s1 _ _ kp kq x (locked_wf _ Hi1) Kp Kq Hx).
  destruct (found_link s1 kp kq) as [link|] eqn:Hf; [|done].
  destruct (found_link_ok s1 kp kq _ link x Hi1 Hx Px Kp Hf) as (i & l & Hl & Ha & Hreg).
  eapply wp_seq; [by apply (wp_setup_link_any s1 (mp_entity kp) i l link); [apply locked_wf|..]|].
  intros ret s2 [W2 Hc]. apply wp_copy_to. intros b s3 C3. apply wp_mdo.
  eapply locked_called; [exact C3|].
  apply (inv_setup (set_mg_mutex false s1) (mp_entity kp) i l (ld_flags ulink) ret); [exact Hi1|exact Hl| |].
  - by eapply links_wf_eq; [..|exact W2].
  - destruct Hc as (e' & j & p & q & x' & y' & D1 & D2 & D3 & D4 & D5 & D6). exists e', j, p, q, x', y'.
    split_and!; try done. destruct (decided l x' y' (ld_flags ulink)); [by destruct D6 as [-> ->]|].
    destruct D6 as (_ & O2 & O3 & O4 & O5 & O6). split; [by eapply links_wf_eq; [..|exact W2]|]. done.
Qed.

Definition cmd_ok (cmd : media_cmd) : Prop :=
  match cmd with
  | MediaIocSetupLink ulink => 0 <= pd_index (ld_source ulink) /\ 0 <= pd_index (ld_sink ulink)
  | _ => True
  end.

Lemma wp_graph_locked {B} (body : mediaM B) s Q :
  graph_inv s -> wp body (set_mg_mutex true s) (fun r s' => Q r (set_mg_mutex false s')) ->
  wp (lock_graph ;; ret <- body ;; unlock_graph ;; mdo ret) s Q.
Proof.
  intros Hi Hb. apply wp_mthen. unfold lock_graph. apply wp_gets. rewrite (gi_mutex _ Hi). apply wp_mdo.
  eapply wp_seq; [exact Hb|]. intros r s' Hq. exact Hq.
Qed.

Lemma wp_media_ioctl cmd s :
  graph_inv s -> cmd_ok cmd -> wp (media_device_ioctl cmd) s (fun _ s' => graph_inv s').
Proof.
  intros Hi Hc. destruct cmd as [u_ent id|pad link links|ulink|]; cbn [media_device_ioctl].
  - by apply wp_enum_entities.
  - apply wp_graph_locked; [done|]. by apply wp_enum_links, inv_locked.
  - apply wp_graph_locked; [done|]. destruct Hc. by apply wp_device_setup_link, inv_locked.
  - by apply wp_mdo.
Qed.

(** ** What was promised is what is written *)

Definition is_pad_write (w : user_write) : bool := match w with WritePad _ _ => true | _ => false end.
Definition is_link_write (w : user_write) : bool := match w with WriteLink _ _ => true | _ => false end.
Definition write_index (w : user_write) : Z := match w with WritePad i _ | WriteLink i _ => i | _ => 0 end.
Definition count_writes (f : user_write -> bool) (ws : list user_write) : Z :=
  zlen (filter (fun w => f w = true) ws).

Lemma count_app f ws1 ws2 : count_writes f (ws1 ++ ws2) = count_writes f ws1 + count_writes f ws2.
Proof. unfold count_writes. by rewrite filter_app, zlen_app. Qed.

Lemma count_all f ws : (forall w, w ∈ ws -> f w = true) -> count_writes f ws = zlen ws.
Proof.
  induction ws as [|w ws IH]; intros Hf; [done|]. unfold count_writes in *.
  rewrite filter_cons_True by apply Hf, list_elem_of_here. rewrite !zlen_cons, IH; [done|].
  intros w' Hw'. apply Hf. by apply list_elem_of_further.
Qed.

Lemma count_none f ws : (forall w, w ∈ ws -> f w = false) -> count_writes f ws = 0.
Proof.
  induction ws as [|w ws IH]; intros Hf; [done|]. unfold count_writes in *.
  rewrite filter_cons_False by (rewrite (Hf w) by apply list_elem_of_here; done). apply IH.
  intros w' Hw'. apply Hf. by apply list_elem_of_further.
Qed.

Lemma elem_pad_writes s d p pads w : w ∈ pad_writes s d p pads ->
  is_pad_write w = true /\ is_link_write w = false /\ p <= write_index w < p + zlen pads.
Proof.
  intros [i Hi]%list_elem_of_lookup_1. unfold pad_writes in Hi. rewrite list_lookup_imap in Hi.
  destruct (pads !! i) as [k|] eqn:Hk; [|done]. injection Hi as <-. apply lookup_lt_Some in Hk.
  split; [done|]. split; [done|]. cbn. unfold zlen. lia.
Qed.

Lemma elem_link_writes s d u ks w : w ∈ link_writes s d u ks ->
  is_link_write w = true /\ is_pad_write w = false /\ u <= write_index w < u + zlen ks.
Proof.
  intros [i Hi]%list_elem_of_lookup_1. unfold link_writes in Hi. rewrite list_lookup_imap in Hi.
  destruct (ks !! i) as [k|] eqn:Hk; [|done]. injection Hi as <-. apply lookup_lt_Some in Hk.
  split; [done|]. split; [done|]. cbn. unfold zlen. lia.
Qed.

(** The links that start at an entity are those that are not backlinks. *)
Lemma forward_count s e x :
  graph_inv s -> mg_entity s !! e = Some x ->
  zlen (forward s e (links_of s e)) = me_num_links x - me_num_backlinks x.
Proof.
  intros Hi Hx. rewrite (gi_back _ Hi e x Hx), <- (length_facts s e x (gi_wf _ Hi) Hx). unfold facts_of, backs.
  assert (Hl : forall l, l ∈ links_of s e -> exists p, ml_source l = Some p /\ pad_entity s (Some p) = Some p.1).
  { intros l [i Hl]%list_elem_of_lookup_1.
    destruct (lw_twin _ _ (gi_wf _ Hi) e i l Hl) as (? & ? & ? & _ & T); [apply not_elem_of_nil|].
    destruct (tw_ends _ _ _ _ _ _ _ T) as (p & q & Hp & _ & _ & Pp & _). by exists p. }
  induction (links_of s e) as [|l ls IH]; [done|]. rewrite !fmap_cons.
  destruct (Hl l) as (p & Hp & Pp); [apply list_elem_of_here|]. unfold forward in *.
  specialize (IH (fun l' Hl' => Hl l' (list_elem_of_further _ _ _ Hl'))).
  destruct (decide (p.1 = e)) as [He|He].
  - rewrite filter_cons_True by congruence. rewrite filter_cons_False.
    2: { cbn. rewrite Hp. cbn. intros Hn. by apply Hn; rewrite He. }
    rewrite !zlen_cons. lia.
  - rewrite filter_cons_False by congruence. rewrite filter_cons_True.
    2: { cbn. rewrite Hp. cbn. congruence. }
    rewrite !zlen_cons. lia.
Qed.

Lemma ioctl_enum_links_eq pad link links s s1 :
  graph_inv s -> copy_from (set_mg_mutex true s) = Some (false, s1) ->
  media_device_ioctl (MediaIocEnumLinks pad link links) s =
  match List.find (wanted s (id_number (le_entity links)) (id_next (le_entity links))) (mg_entities s) with
  | None => Some (- EINVAL, set_mg_mutex false s1)
  | Some e =>
    x ← mg_entity s !! e; '(fails, s') ← copy_all (enum_writes s pad link links e x) s1;
    Some (if fails : bool then - EFAULT else 0, set_mg_mutex false s')
  end.
Proof.
  intros Hi Hc. cbn [media_device_ioctl]. unfold mthen at 1, lock_graph. unfold mthen at 1, gets.
  rewrite (gi_mutex _ Hi). unfold modify. unfold mthen at 1, media_device_enum_links.
  unfold mthen at 1. rewrite Hc.
  assert (Hs1 : copying s s1 /\ mg_entities s1 = mg_entities s /\ locked_inv s1).
  { unfold copy_from, mg_ask, gets, modify, mdo in Hc. unfold mthen in Hc. injection Hc as _ <-.
    split; [done|]. split; [done|]. by apply (inv_same s). }
  destruct Hs1 as (Hcp & Hents & Hi1). unfold mthen at 1.
  rewrite find_entity_eq by exact (gi_valid _ Hi1). rewrite Hents.
  replace (wanted s1) with (wanted s).
  2: { unfold wanted, id_of. by rewrite (proj1 Hcp). }
  destruct (List.find _ (mg_entities s)) as [e|] eqn:Hf; [|done].
  apply find_some in Hf as [He _]. apply list_elem_of_In, (gi_valid _ Hi) in He as [x Hx]. rewrite Hx.
  unfold mthen at 1, me_get, gets, the. unfold mthen at 1. rewrite (proj1 Hcp), Hx. cbn [mdo].
  rewrite (enum_body_eq s (gi_wf _ Hi) e x pad link links s1 Hx (gi_pads _ Hi e x Hx) Hcp).
  unfold mthen at 1. cbn [mbind option_bind].
  by destruct (copy_all _ s1) as [[b s2]|].
Qed.

(** Claim C28: enumerating the links of an entity stays within the arrays the
    user was told to provide.  [MEDIA_IOC_ENUM_LINKS] on a registered entity is
    the same as copying, until a copy fails, the descriptions of its pads in
    their order, of the links that start at it in their order, and the struct
    itself; these are exactly as many pads and links as
    [MEDIA_IOC_ENUM_ENTITIES] reports for the entity, and every index is below
    that number. *)
Theorem enum_links_fits pad link links u_ent s s1 e x :
  graph_inv s -> copy_from (set_mg_mutex true s) = Some (false, s1) ->
  List.find (wanted s (id_number (le_entity links)) (id_next (le_entity links))) (mg_entities s) = Some e ->
  mg_entity s !! e = Some x -> le_pads links = true -> le_links links = true ->
  let ws := enum_writes s pad link links e x in
  media_device_ioctl (MediaIocEnumLinks pad link links) s =
    ('(fails, s') ← copy_all ws s1; Some (if fails : bool then - EFAULT else 0, set_mg_mutex false s')) /\
  count_writes is_pad_write ws = ed_pads (entity_desc u_ent x) /\
  count_writes is_link_write ws = ed_links (entity_desc u_ent x) /\
  forall w, w ∈ ws -> (is_pad_write w = true -> 0 <= write_index w < ed_pads (entity_desc u_ent x)) /\
    (is_link_write w = true -> 0 <= write_index w < ed_links (entity_desc u_ent x)).
Proof.
  intros Hi Hc Hf Hx Hpads Hlinks. cbn zeta.
  assert (Hfwd : zlen (forward s e (links_of s e)) = ed_links (entity_desc u_ent x)).
  { rewrite (forward_count s e x Hi Hx). cbn. pose proof (forward_count s e x Hi Hx) as Hn.
    pose proof (zlen_nonneg (forward s e (links_of s e))).
    pose proof (zlen_nonneg (backs e (facts_of s e))). pose proof (gi_back _ Hi e x Hx).
    destruct (lw_entity _ _ (gi_wf _ Hi) e x Hx) as (B1 & B2 & _). by rewrite wrap_small by lia. }
  assert (Hp : zlen (me_pads x) = ed_pads (entity_desc u_ent x)) by (cbn; symmetry; by eapply gi_pads).
  split; [by rewrite (ioctl_enum_links_eq pad link links s s1), Hf, Hx|].
  unfold enum_writes. rewrite Hpads, Hlinks. rewrite !count_app.
  split; [|split].
  - rewrite count_all by (intros w Hw; by apply elem_pad_writes in Hw as (? & _)).
    rewrite count_none by (intros w Hw; by apply elem_link_writes in Hw as (_ & ? & _)).
    change (count_writes is_pad_write [WriteLinks links]) with 0. rewrite <- Hp.
    unfold pad_writes, zlen. rewrite length_imap. lia.
  - rewrite count_none by (intros w Hw; by apply elem_pad_writes in Hw as (_ & ? & _)).
    rewrite count_all by (intros w Hw; by apply elem_link_writes in Hw as (? & _)).
    change (count_writes is_link_write [WriteLinks links]) with 0. rewrite <- Hfwd.
    unfold link_writes, zlen. rewrite length_imap. lia.
  - rewrite <- Hp, <- Hfwd. intros w [Hw|[Hw|Hw]%elem_of_app]%elem_of_app.
    + apply elem_pad_writes in Hw as (H1 & H2 & H3). rewrite H2. split; [intros _; lia|done].
    + apply elem_link_writes in Hw as (H1 & H2 & H3). rewrite H2. split; [done|intros _; lia].
    + apply list_elem_of_singleton in Hw as ->. done.
Qed.

(** ** Ids *)

(** The ids grow, and the next one is above them all. *)
Record ids_ok (s : media_graph) : Prop := {
  io_sorted : ids_sorted s;
  io_next : 0 < mg_entity_id s;
  io_below : forall e, e ∈ mg_entities s -> id_of s e < mg_entity_id s;
}.

(** Fact: entities without an id of their own, or with one that is not below
    the next one, can be enumerated: registering them keeps the ids growing. *)
Theorem register_keeps_ids s e x :
  graph_inv s -> ids_ok s -> mg_entity s !! e = Some x -> me_parent x = false ->
  me_id x = 0 \/ mg_entity_id s <= me_id x -> new_id s x < 2 ^ 31 - 1 ->
  exists s', media_device_register_entity e s = Some (0, s') /\ ids_ok s' /\ mg_entities s' = mg_entities s ++ [e].
Proof.
  intros Hi [Hs Hn Hb] Hx Hpar Hid Hlt. destruct (inv_register s e x Hi Hx Hpar) as [Hnew _].
  exists (after_register s e x). split; [by apply register_eq|]. split; [|done].
  assert (Hat : forall e', e' ∈ mg_entities s -> id_of (after_register s e x) e' = id_of s e').
  { intros e' He'. unfold id_of. cbn. rewrite list_lookup_insert_ne; [done|]. intros ->. done. }
  assert (He : id_of (after_register s e x) e = new_id s x).
  { unfold id_of. cbn. rewrite list_lookup_insert_eq by by eapply lookup_lt_Some. done. }
  assert (Hge : mg_entity_id s <= new_id s x /\ next_id s x = new_id s x + 1).
  { unfold new_id, next_id in *. destruct (Z.eqb_spec (me_id x) 0); rewrite !wrap_small by lia; lia. }
  assert (Hfm : id_of (after_register s e x) <$> mg_entities s = id_of s <$> mg_entities s).
  { apply list_fmap_ext. intros i e' He'. apply Hat. by eapply list_elem_of_lookup_2. }
  split; cbn [mg_entity_id mg_entities after_register set_mg_entities set_mg_entity_id]; [split|lia|];
    cbn [mg_entities after_register set_mg_entities].
  - rewrite fmap_app, Hfm. apply StronglySorted_app_2; [|apply Hs|repeat constructor].
    intros i j Hin Hj. cbn in Hj. rewrite He in Hj. apply list_elem_of_singleton in Hj as ->.
    apply list_elem_of_fmap in Hin as (e' & -> & He'). apply Hb in He'. lia.
  - intros e' [He'|He'%list_elem_of_singleton]%elem_of_app.
    + rewrite Hat by done. by apply (is_range _ Hs).
    + rewrite He', He. lia.
  - intros e' [He'|He'%list_elem_of_singleton]%elem_of_app.
    + rewrite Hat by done. apply Hb in He'. lia.
    + rewrite He', He. lia.
Qed.

(** ** Any sequence of operations *)

Inductive media_op :=
  | OpInit (e : nat) (pads : list media_pad) (extra_links : Z)
  | OpCreateLink (source : nat) (source_pad : Z) (sink : nat) (sink_pad flags : Z)
  | OpSetupLink (link : link_ptr) (flags : Z)
  | OpStart (st : list walk_frame) (e pipe : nat)
  | OpStop (st : list walk_frame) (e : nat)
  | OpRegister (e : nat)
  | OpUnregister (e : nat)
  | OpIoctl (cmd : media_cmd).

(** The walks get the fuel that MediaWalk.v shows to be enough. *)
Definition media_run (op : media_op) : mediaM Z :=
  match op with
  | OpInit e pads extra_links => media_entity_init e (zlen pads) pads extra_links
  | OpCreateLink source source_pad sink sink_pad flags =>
    media_entity_create_link source source_pad sink sink_pad flags
  | OpSetupLink link flags => media_entity_setup_link link flags
  | OpStart st e pipe => fun s =>
    (media_entity_pipeline_start (length (walk s e)) (enough_fuel s) st e pipe ;; mdo 0) s
  | OpStop st e => fun s =>
    (media_entity_pipeline_stop (length (walk s e)) (enough_fuel s) st e ;; mdo 0) s
  | OpRegister e => media_device_register_entity e
  | OpUnregister e => media_device_unregister_entity e ;; mdo 0
  | OpIoctl cmd => media_device_ioctl cmd
  end.

(** What the callers in the kernel must see to; a program may do any ioctl. *)
Definition media_pre (s : media_graph) (op : media_op) : Prop :=
  match op with
  | OpInit e pads extra_links => exists x, mg_entity s !! e = Some x /\ blank x /\
      0 <= extra_links /\ zlen pads + extra_links < 2 ^ 16
  | OpCreateLink source source_pad sink sink_pad flags =>
      source <> sink /\ linkable s source source_pad /\ linkable s sink sink_pad
  | OpSetupLink link flags => exists e i l, links_of s e !! i = Some l /\ addr s e i = Some link /\ registered s l
  | OpStart st e _ | OpStop st e =>
      zlen st = 16 /\ exists x, mg_entity s !! e = Some x /\ me_parent x = true
  | OpRegister e => exists x, mg_entity s !! e = Some x /\ me_parent x = false
  | OpUnregister e => is_Some (mg_entity s !! e)
  | OpIoctl cmd => cmd_ok cmd
  end.

Lemma ready_of s e st :
  graph_inv s -> zlen st = 16 -> (exists x, mg_entity s !! e = Some x /\ me_parent x = true) ->
  ready (length (walk s e)) (enough_fuel s) st e s.
Proof. intros Hi Hst Hx. split; [apply wf_graph_ok, Hi|apply Hi|done|done|done|done]. Qed.

Lemma wp_media_run op s :
  graph_inv s -> media_pre s op -> wp (media_run op) s (fun _ s' => graph_inv s').
Proof.
  intros Hi Hp. destruct op; cbn [media_run media_pre] in *.
  - destruct Hp as (x & Hx & Hb & H1 & H2). eapply wp_mono; [by apply (wp_init s e x)|]. by intros ? ? [].
  - destruct Hp as (Hne & H1 & H2). eapply wp_mono; [by apply wp_create_link; [apply Hi|..]|].
    intros ret s' Hc. by eapply inv_created.
  - destruct Hp as (e & i & l & Hl & Ha & Hreg).
    eapply wp_mono; [by apply (wp_media_entity_setup_link s e i l); [apply Hi|..|apply Hi|]|].
    intros ret s' [Hw Hc]. by eapply inv_setup.
  - destruct Hp as [Hst Hx]. unfold wp, mthen. rewrite (pipeline_start_eq _ _ _ _ _ _ (ready_of s e st Hi Hst Hx)).
    by apply inv_visited.
  - destruct Hp as [Hst Hx]. unfold wp, mthen. rewrite (pipeline_stop_eq _ _ _ _ _ (ready_of s e st Hi Hst Hx)).
    apply inv_visited; [|done]. intros x. unfold stop_one. by case_match.
  - destruct Hp as (x & Hx & Hpar). destruct (inv_register s e x Hi Hx Hpar) as [Hn Hi'].
    unfold wp. by rewrite (register_eq s e x).
  - destruct Hp as [x Hx]. unfold wp, mthen. rewrite (unregister_eq s e x) by done.
    destruct (me_parent x); [by apply inv_unregister|done].
  - by apply wp_media_ioctl.
Qed.

(** The entities before anything happened to them. *)
Record unused (s : media_graph) : Prop := {
  un_blank : forall e x, mg_entity s !! e = Some x -> blank x /\ me_num_backlinks x = 0 /\ me_pads x = [] /\
    me_num_pads x = 0 /\ me_parent x = false;
  un_entities : mg_entities s = [];
  un_mutex : mg_mutex s = false;
}.

Lemma inv_unused s : unused s -> graph_inv s.
Proof.
  intros [Hb He Hm].
  assert (Hl : forall e, links_of s e = []).
  { intros e. unfold links_of. destruct (mg_entity s !! e) as [x|] eqn:Hx; [|done].
    destruct (Hb e x Hx) as ((-> & _) & _). done. }
  split; [split| | | | |done].
  - intros e x Hx. destruct (Hb e x Hx) as ((H1 & H2 & H3) & _). unfold entity_wf. rewrite H1, H2, H3. lia.
  - intros e e' x x' a Hx _ Ha _. destruct (Hb e x Hx) as ((H1 & _) & _). congruence.
  - intros e i l. by rewrite Hl.
  - intros e x i p Hx. destruct (Hb e x Hx) as (_ & _ & -> & _). done.
  - intros e x Hx. destruct (Hb e x Hx) as (_ & -> & _). unfold facts_of. by rewrite Hl.
  - intros e x Hx. destruct (Hb e x Hx) as (_ & _ & -> & -> & _). done.
  - rewrite He. apply NoDup_nil_2.
  - intros e. rewrite He. split; [by intros ?%elem_of_nil|]. destruct (mg_entity s !! e) as [x|] eqn:Hx; [|done].
    destruct (Hb e x Hx) as (_ & _ & _ & _ & Hp). cbn. congruence.
Qed.

(** The states of a media device. *)
Inductive media_reach : media_graph -> Prop :=
  | ReachUnused s : unused s -> media_reach s
  | ReachStep s op r s' : media_reach s -> media_pre s op -> media_run op s = Some (r, s') -> media_reach s'.

Lemma reach_inv s : media_reach s -> graph_inv s.
Proof.
  induction 1 as [s Hu|s op r s' _ IH Hp Hr]; [by apply inv_unused|].
  pose proof (wp_media_run op s IH Hp) as Hw. unfold wp in Hw. by rewrite Hr in Hw.
Qed.

(** Claim C14: a media device stays safe under its drivers' contract.  Drivers initialise an
    entity once and for fewer than 2^16 links, link pads that exist, of two different
    entities (a link of an entity to itself faults: [self_link_faults]) that have room for
    the count of one more, set links that are registered, and start and stop pipelines at
    registered entities; the ioctls name pads by unsigned numbers ([media_pre]).  Whatever
    sequence of such initialisations, registrations, new links, changes of links, starts
    and stops of pipelines and ioctls has led to a state, every link has its twin, the
    backlinks are counted and the mutex is free; and any such operation next comes to an
    end without following a pointer that is NULL, was never set or points into an array
    that was moved, without leaving an array, and without taking the mutex twice. *)
Theorem media_device_is_safe s op :
  media_reach s -> graph_inv s /\ (media_pre s op -> exists r s', media_run op s = Some (r, s') /\ media_reach s').
Proof.
  intros Hr. pose proof (reach_inv s Hr) as Hi. split; [done|]. intros Hp.
  destruct (wp_run _ _ _ (wp_media_run op s Hi Hp)) as (r & s' & Hrun & _).
  exists r, s'. split; [done|]. by eapply ReachStep.
Qed.
End system.
