(* ===== verification/MediaDemo.v ===== *)
(** A small media device on which the theorems on the graph are applied, and
    what the code does that it should not do. *)

From stdpp Require Import gmap sorting.
From S2P Require Import Prelude StateM MediaTypes MediaEntity MediaWalk MediaPipeline MediaLinks.
From S2P Require Import MediaCreate MediaSetup MediaDevice MediaEnum MediaInv MediaSystem.

(** ** A sensor, a bridge and a video node *)

#[local] Instance demo_env : MediaEnv := {|
  links_kzalloc_fails _ := false;
  links_krealloc _ := ReallocMoves;
  link_setup _ := Some (fun _ _ _ _ => 0);
  link_notify := Some (fun _ _ _ _ => 0);
  media_copy_from_fails _ := false;
  media_copy_to_fails _ := false;
  strlcpy dst src := take 31 src ++ [0] ++ drop (S (length (take 31 src))) dst;
  media_devnode_register _ := 0;
  device_create_file _ := 0;
|}.

Definition unused_entity : media_entity :=
  mk_entity false 0 [] 0 0 0 0 0 0 0 0 [] None 0 None 0 0.
Definition fresh_device (n : nat) : media_graph := mk_graph (replicate n unused_entity) ∅ 1 [] false [] 0.
Definition new_pad : media_pad := mk_pad 0 0 0.

(** The sensor's only pad leads to pad 0 of the bridge, pad 1 of the bridge to
    the video node; no room is left for extra links of the bridge. *)
Definition demo_ops : list media_op :=
  [OpInit 0 [new_pad] 0; OpInit 1 [new_pad; new_pad] 0; OpInit 2 [new_pad] 0;
   OpRegister 0; OpRegister 1; OpRegister 2;
   OpCreateLink 0 0 1 0 MEDIA_LNK_FL_ENABLED;
   OpCreateLink 1 1 2 0 MEDIA_LNK_FL_ENABLED; OpCreateLink 1 1 2 0 MEDIA_LNK_FL_DYNAMIC].

Fixpoint run_ops (ops : list media_op) (s : media_graph) : option media_graph :=
  match ops with [] => Some s | op :: ops => '(_, s) ← media_run op s; run_ops ops s end.

Definition demo_state (n : nat) : media_graph :=
  default (fresh_device 3) (run_ops (take n demo_ops) (fresh_device 3)).

Fixpoint pres (ops : list media_op) (s : media_graph) : Prop :=
  match ops with
  | [] => True
  | op :: ops =>
    media_pre s op /\ match media_run op s with Some (_, s') => pres ops s' | None => False end
  end.

Lemma pres_reach ops s s' : media_reach s -> pres ops s -> run_ops ops s = Some s' -> media_reach s'.
Proof.
  revert s. induction ops as [|op ops IH]; intros s Hr Hp Hrun; [by injection Hrun as <-|].
  cbn [pres run_ops] in *. destruct Hp as [Hp Hps]. destruct (media_run op s) as [[r s1]|] eqn:Hm; [|done].
  eapply IH; [by eapply ReachStep|exact Hps|exact Hrun].
Qed.

Lemma fresh_unused n : unused (fresh_device n).
Proof.
  split; [|done|done]. intros e x [-> _]%lookup_replicate. done.
Qed.

Ltac demo_pre :=
  cbn [media_pre];
  match goal with
  | |- _ <> _ /\ _ => split; [done|]; split; (eexists; split; [reflexivity|]; split;
      [split; [by eexists|vm_compute; by (left + right)]|split; [reflexivity|done]])
  | |- _ => eexists; split; [reflexivity|done]
  end.

Ltac demo_step :=
  cbn [pres]; split; [demo_pre|];
  match goal with
  | |- match ?m with _ => _ end =>
    let r := eval vm_compute in m in replace m with r by (vm_compute; reflexivity); cbv iota beta
  end.

Lemma demo_pres : pres demo_ops (fresh_device 3).
Proof. unfold demo_ops. do 9 demo_step. exact I. Qed.

Definition demo : media_graph := Eval vm_compute in demo_state 9.

Lemma demo_reach : media_reach demo.
Proof.
  apply (pres_reach demo_ops (fresh_device 3)); [by apply ReachUnused, fresh_unused|exact demo_pres|].
  vm_compute. reflexivity.
Qed.

Definition demo_inv : graph_inv demo := reach_inv demo demo_reach.
Definition stack16 : list walk_frame := replicate 16 (mk_frame None None).

(** ** Applications of the theorems *)

Lemma media_device_is_safe_witness :
  graph_inv demo /\ exists r s', media_run (OpStart stack16 1 7) demo = Some (r, s') /\ media_reach s'.
Proof.
  destruct (media_device_is_safe demo (OpStart stack16 1 7) demo_reach) as [Hi H]. split; [exact Hi|].
  apply H. split; [reflexivity|]. eexists. split; reflexivity.
Defined.

(** The bridge has room, the sensor's array must be moved. *)
Lemma create_link_makes_twins_witness :
  exists ret s', media_entity_create_link 0 0 1 0 MEDIA_LNK_FL_DYNAMIC demo = Some (ret, s') /\
    created demo 0 0 1 0 MEDIA_LNK_FL_DYNAMIC ret s'.
Proof.
  apply (create_link_makes_twins demo 0 0 1 0 MEDIA_LNK_FL_DYNAMIC (gi_wf _ demo_inv)); [lia|..];
    (eexists; split; [reflexivity|split; [split; [by eexists|by (left + right)]|done]]).
Defined.

(** The dynamic link is enabled, by way of its slot at the video node. *)
Definition dynamic_link : media_link :=
  mk_link (Some (1%nat, 1%nat)) (Some (2%nat, 0%nat)) (Some (3%nat, 2%nat)) MEDIA_LNK_FL_DYNAMIC.

Lemma setup_link_both_or_neither_witness :
  exists ret s', media_entity_setup_link (4, 1)%nat (MEDIA_LNK_FL_DYNAMIC + MEDIA_LNK_FL_ENABLED) demo = Some (ret, s') /\
    links_wf [] s' /\
    setup_contract 2 1 dynamic_link (MEDIA_LNK_FL_DYNAMIC + MEDIA_LNK_FL_ENABLED) demo ret s'.
Proof.
  apply (setup_link_both_or_neither demo 2 1 dynamic_link); [exact (gi_wf _ demo_inv)|reflexivity..|].
  exists (1%nat, 1%nat). eexists. split; [reflexivity|]. split; reflexivity.
Defined.

Lemma enumeration_is_complete_witness : enumerate 4 0 demo = Some ([0; 1; 2]%nat, demo).
Proof.
  apply (enumeration_is_complete demo 4); [exact (gi_valid _ demo_inv)| |vm_compute; lia].
  split.
  - repeat constructor; vm_compute; done.
  - intros e He. repeat (apply elem_of_cons in He as [->|He]; [vm_compute; done|]). by apply elem_of_nil in He.
Defined.

Definition no_desc : media_entity_desc := mk_entity_desc 0 (replicate 32 0) 0 0 0 0 0 0 [] 0 0 [].

Lemma enum_links_fits_witness :
  let links := mk_links_enum 2 true true [] in
  let ws := enum_writes demo (mk_pad_desc 0 0 0 []) (mk_link_desc (mk_pad_desc 0 0 0 []) (mk_pad_desc 0 0 0 []) 0 [])
    links 1 (default unused_entity (mg_entity demo !! 1%nat)) in
  count_writes is_pad_write ws = 2 /\ count_writes is_link_write ws = 2.
Proof.
  cbn zeta. eassert (H : _) by (eapply (enum_links_fits (mk_pad_desc 0 0 0 [])
    (mk_link_desc (mk_pad_desc 0 0 0 []) (mk_pad_desc 0 0 0 []) 0 []) (mk_links_enum 2 true true []) no_desc demo);
    [exact demo_inv|reflexivity..]).
  cbn zeta in H. destruct H as (_ & Hp & Hl & _). split; [exact Hp|exact Hl].
Defined.

Lemma graph_walk_is_depth_first_witness :
  mthen (the (media_entity_graph_walk_start stack16 0)) (fun g => walk_entities 3 48 g (fun _ => mdo tt)) demo =
  mfor [2; 1; 0]%nat (fun _ => mdo tt) demo.
Proof.
  apply (graph_walk_is_depth_first (fun _ => mdo tt)).
  - intros e s s' [= <-]. reflexivity.
  - exact (wf_graph_ok demo (gi_wf _ demo_inv)).
  - by eexists.
  - reflexivity.
  - vm_compute. lia.
  - vm_compute. lia.
Defined.

Lemma demo_ready : ready 3 48 stack16 0 demo.
Proof.
  split; [exact (wf_graph_ok demo (gi_wf _ demo_inv))|reflexivity|by eexists|reflexivity|vm_compute; lia|vm_compute; lia].
Qed.

Lemma pipeline_start_stop_cancel_witness :
  (media_entity_pipeline_start 3 48 stack16 0 7 ;; media_entity_pipeline_stop 3 48 stack16 0) demo = Some (tt, demo).
Proof.
  apply (pipeline_start_stop_cancel 3 48 stack16 0 7 demo demo_ready).
  intros i x Hx Hi. vm_compute in Hi. destruct i as [|[|[|i]]]; [injection Hx as <-; vm_compute; done..|discriminate Hx].
Defined.

(** ** What the code does that it should not do *)

(** A link from an entity to itself follows a NULL pointer: there is room for one
    link, and making room for the twin looks for the twin of the new link. *)
Theorem self_link_faults :
  media_entity_create_link 0 0 0 0 0 (default demo (run_ops [OpInit 0 [new_pad] 0] (fresh_device 1))) = None.
Proof. vm_compute. reflexivity. Qed.

(** The reserved fields and most of the union of the struct that the ioctl
    copies to the user are what the kernel's stack held before. *)
Theorem enum_entities_leaks_the_stack u_ent :
  exists s' d, media_run (OpIoctl (MediaIocEnumEntities u_ent 1)) demo = Some (0, s') /\
    mg_log s' = mg_log demo ++ [CallCopyToUser (WriteEntity d) false] /\
    ed_reserved d = ed_reserved u_ent /\ ed_raw d = ed_raw u_ent.
Proof. do 2 eexists. split; [reflexivity|]. split; [reflexivity|]. by split. Qed.

(** Two entities, the drivers of which chose the ids 5 and 3: both can be
    registered, and a program that enumerates the entities misses the second. *)
Definition chosen_ids : media_graph :=
  mk_graph [set_me_id 5 unused_entity; set_me_id 3 unused_entity] ∅ 1 [] false [] 0.

Theorem enumeration_misses_entities :
  exists s, run_ops [OpRegister 0; OpRegister 1] chosen_ids = Some s /\
    mg_entities s = [0; 1]%nat /\ enumerate 4 0 s = Some ([0%nat], s).
Proof. eexists. split; [vm_compute; reflexivity|]. split; vm_compute; reflexivity. Qed.

(** The id that an entity gets when it has none may be in use already. *)
Theorem ids_are_not_unique :
  exists s, run_ops [OpRegister 0; OpRegister 1] (set_mg_entity [unused_entity; set_me_id 1 unused_entity] chosen_ids) = Some s /\
    id_of s 0 = id_of s 1.
Proof. eexists. split; vm_compute; reflexivity. Qed.

(** Two enabled links between the same entities: the walk comes twice, and one
    start counts two streams. *)
Theorem parallel_links_count_twice :
  exists s x, run_ops [OpInit 0 [new_pad] 1; OpInit 1 [new_pad] 1; OpRegister 0; OpRegister 1;
      OpCreateLink 0 0 1 0 MEDIA_LNK_FL_ENABLED; OpCreateLink 0 0 1 0 MEDIA_LNK_FL_ENABLED;
      OpStart stack16 0 7] (fresh_device 2) = Some s /\
    mg_entity s !! 1%nat = Some x /\ me_stream_count x = 2.
Proof. do 2 eexists. split; [vm_compute; reflexivity|]. split; vm_compute; reflexivity. Qed.
