(* ===== verification/RcTypes.v ===== *)
(** The data of the remote controller core: include/media/rc-core.h,
    include/media/rc-map.h and drivers/media/rc/rc-core-priv.h.

    One record per structure, with a setter per field, and the inline helpers
    of the two headers.  Calls of the input subsystem, of the timer and of the
    driver's hooks leave this code: they are entries of [rd_calls], oldest
    first.  The global clock [jiffies] and [ktime_get()] are fields that an
    environment step may advance at any time. *)

From stdpp Require Export strings gmap.
From S2P Require Import Prelude.

#[global] Open Scope Z_scope.

(** ** Events *)

Definition IR_SPACE : Z := 1.
Definition IR_PULSE : Z := 2.
Definition IR_START_EVENT : Z := 4.
Definition IR_STOP_EVENT : Z := 8.

(** A pulse or space ([struct ir_raw_event]). *)
Record ir_raw_event := mk_event {
  duration : Z;   (* u32, ns; shared with the carrier of a carrier report *)
  pulse : bool;   (* 1-bit field *)
  reset : bool;
  timeout : bool;
  carrier_report : bool;
}.

Definition set_duration (v : Z) (r : ir_raw_event) : ir_raw_event :=
  mk_event v (pulse r) (reset r) (timeout r) (carrier_report r).
Definition set_pulse (v : bool) (r : ir_raw_event) : ir_raw_event :=
  mk_event (duration r) v (reset r) (timeout r) (carrier_report r).
Definition set_reset (v : bool) (r : ir_raw_event) : ir_raw_event :=
  mk_event (duration r) (pulse r) v (timeout r) (carrier_report r).
Definition set_timeout (v : bool) (r : ir_raw_event) : ir_raw_event :=
  mk_event (duration r) (pulse r) (reset r) v (carrier_report r).
Definition set_carrier_report (v : bool) (r : ir_raw_event) : ir_raw_event :=
  mk_event (duration r) (pulse r) (reset r) (timeout r) v.

(** [DEFINE_IR_RAW_EVENT] and [init_ir_raw_event]. *)
Definition init_ir_raw_event : ir_raw_event := mk_event 0 false false false false.

#[export] Instance ir_raw_event_eq_dec : EqDecision ir_raw_event.
Proof. solve_decision. Defined.

(** ** Decoder states (the [struct ..._dec] of [struct ir_raw_event_ctrl]) *)

Module Nec.
Inductive nec_state :=
  | STATE_INACTIVE
  | STATE_HEADER_SPACE
  | STATE_BIT_PULSE
  | STATE_BIT_SPACE
  | STATE_TRAILER_PULSE
  | STATE_TRAILER_SPACE.
#[export] Instance nec_state_eq_dec : EqDecision nec_state.
Proof. solve_decision. Defined.
End Nec.

Module Rc5.
Inductive rc5_state :=
  | STATE_INACTIVE
  | STATE_BIT_START
  | STATE_BIT_END
  | STATE_CHECK_RC5X
  | STATE_FINISHED.
#[export] Instance rc5_state_eq_dec : EqDecision rc5_state.
Proof. solve_decision. Defined.
End Rc5.

Module Rc6.
Inductive rc6_state :=
  | STATE_INACTIVE
  | STATE_PREFIX_SPACE
  | STATE_HEADER_BIT_START
  | STATE_HEADER_BIT_END
  | STATE_TOGGLE_START
  | STATE_TOGGLE_END
  | STATE_BODY_BIT_START
  | STATE_BODY_BIT_END
  | STATE_FINISHED.
#[export] Instance rc6_state_eq_dec : EqDecision rc6_state.
Proof. solve_decision. Defined.
End Rc6.

Module Sony.
Inductive sony_state :=
  | STATE_INACTIVE
  | STATE_HEADER_SPACE
  | STATE_BIT_PULSE
  | STATE_BIT_SPACE
  | STATE_FINISHED.
#[export] Instance sony_state_eq_dec : EqDecision sony_state.
Proof. solve_decision. Defined.
End Sony.

Module Jvc.
Inductive jvc_state :=
  | STATE_INACTIVE
  | STATE_HEADER_SPACE
  | STATE_BIT_PULSE
  | STATE_BIT_SPACE
  | STATE_TRAILER_PULSE
  | STATE_TRAILER_SPACE
  | STATE_CHECK_REPEAT.
#[export] Instance jvc_state_eq_dec : EqDecision jvc_state.
Proof. solve_decision. Defined.
End Jvc.

Module Rc5sz.
Inductive rc5_sz_state :=
  | STATE_INACTIVE
  | STATE_BIT_START
  | STATE_BIT_END
  | STATE_FINISHED.
#[export] Instance rc5_sz_state_eq_dec : EqDecision rc5_sz_state.
Proof. solve_decision. Defined.
End Rc5sz.

Module Mce.
Inductive mce_kbd_state :=
  | STATE_INACTIVE
  | STATE_HEADER_BIT_START
  | STATE_HEADER_BIT_END
  | STATE_BODY_BIT_START
  | STATE_BODY_BIT_END
  | STATE_FINISHED.
#[export] Instance mce_kbd_state_eq_dec : EqDecision mce_kbd_state.
Proof. solve_decision. Defined.
End Mce.

Record nec_dec := mk_nec {
  nec_st : Nec.nec_state;
  nec_count : Z;   (* unsigned *)
  nec_bits : Z;   (* u32 *)
  is_nec_x : bool;
  necx_repeat : bool;
}.

Definition set_nec_st (v : Nec.nec_state) (r : nec_dec) : nec_dec :=
  mk_nec v (nec_count r) (nec_bits r) (is_nec_x r) (necx_repeat r).
Definition set_nec_count (v : Z) (r : nec_dec) : nec_dec :=
  mk_nec (nec_st r) v (nec_bits r) (is_nec_x r) (necx_repeat r).
Definition set_nec_bits (v : Z) (r : nec_dec) : nec_dec :=
  mk_nec (nec_st r) (nec_count r) v (is_nec_x r) (necx_repeat r).
Definition set_is_nec_x (v : bool) (r : nec_dec) : nec_dec :=
  mk_nec (nec_st r) (nec_count r) (nec_bits r) v (necx_repeat r).
Definition set_necx_repeat (v : bool) (r : nec_dec) : nec_dec :=
  mk_nec (nec_st r) (nec_count r) (nec_bits r) (is_nec_x r) v.

Record rc5_dec := mk_rc5 {
  rc5_st : Rc5.rc5_state;
  rc5_bits : Z;   (* u32 *)
  rc5_count : Z;   (* unsigned *)
  rc5_wanted_bits : Z;   (* unsigned *)
}.

Definition set_rc5_st (v : Rc5.rc5_state) (r : rc5_dec) : rc5_dec :=
  mk_rc5 v (rc5_bits r) (rc5_count r) (rc5_wanted_bits r).
Definition set_rc5_bits (v : Z) (r : rc5_dec) : rc5_dec :=
  mk_rc5 (rc5_st r) v (rc5_count r) (rc5_wanted_bits r).
Definition set_rc5_count (v : Z) (r : rc5_dec) : rc5_dec :=
  mk_rc5 (rc5_st r) (rc5_bits r) v (rc5_wanted_bits r).
Definition set_rc5_wanted_bits (v : Z) (r : rc5_dec) : rc5_dec :=
  mk_rc5 (rc5_st r) (rc5_bits r) (rc5_count r) v.

Record rc6_dec := mk_rc6 {
  rc6_st : Rc6.rc6_state;
  rc6_header : Z;   (* u8 *)
  rc6_body : Z;   (* u32 *)
  rc6_toggle : bool;
  rc6_count : Z;   (* unsigned *)
  rc6_wanted_bits : Z;   (* unsigned *)
}.

Definition set_rc6_st (v : Rc6.rc6_state) (r : rc6_dec) : rc6_dec :=
  mk_rc6 v (rc6_header r) (rc6_body r) (rc6_toggle r) (rc6_count r)
    (rc6_wanted_bits r).
Definition set_rc6_header (v : Z) (r : rc6_dec) : rc6_dec :=
  mk_rc6 (rc6_st r) v (rc6_body r) (rc6_toggle r) (rc6_count r) (rc6_wanted_bits r).
Definition set_rc6_body (v : Z) (r : rc6_dec) : rc6_dec :=
  mk_rc6 (rc6_st r) (rc6_header r) v (rc6_toggle r) (rc6_count r)
    (rc6_wanted_bits r).
Definition set_rc6_toggle (v : bool) (r : rc6_dec) : rc6_dec :=
  mk_rc6 (rc6_st r) (rc6_header r) (rc6_body r) v (rc6_count r) (rc6_wanted_bits r).
Definition set_rc6_count (v : Z) (r : rc6_dec) : rc6_dec :=
  mk_rc6 (rc6_st r) (rc6_header r) (rc6_body r) (rc6_toggle r) v
    (rc6_wanted_bits r).
Definition set_rc6_wanted_bits (v : Z) (r : rc6_dec) : rc6_dec :=
  mk_rc6 (rc6_st r) (rc6_header r) (rc6_body r) (rc6_toggle r) (rc6_count r) v.

Record sony_dec := mk_sony {
  sony_st : Sony.sony_state;
  sony_bits : Z;   (* u32 *)
  sony_count : Z;   (* unsigned *)
}.

Definition set_sony_st (v : Sony.sony_state) (r : sony_dec) : sony_dec :=
  mk_sony v (sony_bits r) (sony_count r).
Definition set_sony_bits (v : Z) (r : sony_dec) : sony_dec :=
  mk_sony (sony_st r) v (sony_count r).
Definition set_sony_count (v : Z) (r : sony_dec) : sony_dec :=
  mk_sony (sony_st r) (sony_bits r) v.

Record jvc_dec := mk_jvc {
  jvc_st : Jvc.jvc_state;
  jvc_bits : Z;   (* u16 *)
  jvc_old_bits : Z;   (* u16 *)
  jvc_count : Z;   (* unsigned *)
  jvc_first : bool;
  jvc_toggle : bool;
}.

Definition set_jvc_st (v : Jvc.jvc_state) (r : jvc_dec) : jvc_dec :=
  mk_jvc v (jvc_bits r) (jvc_old_bits r) (jvc_count r) (jvc_first r) (jvc_toggle r).
Definition set_jvc_bits (v : Z) (r : jvc_dec) : jvc_dec :=
  mk_jvc (jvc_st r) v (jvc_old_bits r) (jvc_count r) (jvc_first r) (jvc_toggle r).
Definition set_jvc_old_bits (v : Z) (r : jvc_dec) : jvc_dec :=
  mk_jvc (jvc_st r) (jvc_bits r) v (jvc_count r) (jvc_first r) (jvc_toggle r).
Definition set_jvc_count (v : Z) (r : jvc_dec) : jvc_dec :=
  mk_jvc (jvc_st r) (jvc_bits r) (jvc_old_bits r) v (jvc_first r) (jvc_toggle r).
Definition set_jvc_first (v : bool) (r : jvc_dec) : jvc_dec :=
  mk_jvc (jvc_st r) (jvc_bits r) (jvc_old_bits r) (jvc_count r) v (jvc_toggle r).
Definition set_jvc_toggle (v : bool) (r : jvc_dec) : jvc_dec :=
  mk_jvc (jvc_st r) (jvc_bits r) (jvc_old_bits r) (jvc_count r) (jvc_first r) v.

Record rc5_sz_dec := mk_rc5sz {
  rc5sz_st : Rc5sz.rc5_sz_state;
  rc5sz_bits : Z;   (* u32 *)
  rc5sz_count : Z;   (* unsigned *)
  rc5sz_wanted_bits : Z;   (* unsigned *)
}.

Definition set_rc5sz_st (v : Rc5sz.rc5_sz_state) (r : rc5_sz_dec) : rc5_sz_dec :=
  mk_rc5sz v (rc5sz_bits r) (rc5sz_count r) (rc5sz_wanted_bits r).
Definition set_rc5sz_bits (v : Z) (r : rc5_sz_dec) : rc5_sz_dec :=
  mk_rc5sz (rc5sz_st r) v (rc5sz_count r) (rc5sz_wanted_bits r).
Definition set_rc5sz_count (v : Z) (r : rc5_sz_dec) : rc5_sz_dec :=
  mk_rc5sz (rc5sz_st r) (rc5sz_bits r) v (rc5sz_wanted_bits r).
Definition set_rc5sz_wanted_bits (v : Z) (r : rc5_sz_dec) : rc5_sz_dec :=
  mk_rc5sz (rc5sz_st r) (rc5sz_bits r) (rc5sz_count r) v.

Record mce_kbd_dec := mk_mce {
  mce_st : Mce.mce_kbd_state;
  mce_header : Z;   (* u8 *)
  mce_body : Z;   (* u32 *)
  mce_count : Z;   (* unsigned *)
  mce_wanted_bits : Z;   (* unsigned *)
  mce_idev : bool;   (* is the input device there? *)
}.

Definition set_mce_st (v : Mce.mce_kbd_state) (r : mce_kbd_dec) : mce_kbd_dec :=
  mk_mce v (mce_header r) (mce_body r) (mce_count r) (mce_wanted_bits r)
    (mce_idev r).
Definition set_mce_header (v : Z) (r : mce_kbd_dec) : mce_kbd_dec :=
  mk_mce (mce_st r) v (mce_body r) (mce_count r) (mce_wanted_bits r) (mce_idev r).
Definition set_mce_body (v : Z) (r : mce_kbd_dec) : mce_kbd_dec :=
  mk_mce (mce_st r) (mce_header r) v (mce_count r) (mce_wanted_bits r) (mce_idev r).
Definition set_mce_count (v : Z) (r : mce_kbd_dec) : mce_kbd_dec :=
  mk_mce (mce_st r) (mce_header r) (mce_body r) v (mce_wanted_bits r) (mce_idev r).
Definition set_mce_wanted_bits (v : Z) (r : mce_kbd_dec) : mce_kbd_dec :=
  mk_mce (mce_st r) (mce_header r) (mce_body r) (mce_count r) v (mce_idev r).
Definition set_mce_idev (v : bool) (r : mce_kbd_dec) : mce_kbd_dec :=
  mk_mce (mce_st r) (mce_header r) (mce_body r) (mce_count r) (mce_wanted_bits r) v.

(** The raw decoding state of a device. *)
Record ir_raw_event_ctrl := mk_ctrl {
  kfifo : list ir_raw_event;   (* samples stored and not yet taken out, oldest first *)
  last_event : Z;   (* ktime_t, ns *)
  last_type : Z;   (* enum raw_event_type, 0 at first *)
  enabled_protocols : Z;   (* u64 *)
  prev_ev : ir_raw_event;
  this_ev : ir_raw_event;
  nec : nec_dec;
  rc5 : rc5_dec;
  rc6 : rc6_dec;
  sony : sony_dec;
  jvc : jvc_dec;
  rc5_sz : rc5_sz_dec;
  mce_kbd : mce_kbd_dec;
}.

Definition set_kfifo (v : list ir_raw_event) (r : ir_raw_event_ctrl) : ir_raw_event_ctrl :=
  mk_ctrl v (last_event r) (last_type r) (enabled_protocols r) (prev_ev r)
    (this_ev r) (nec r) (rc5 r) (rc6 r) (sony r) (jvc r) (rc5_sz r) (mce_kbd r).
Definition set_last_event (v : Z) (r : ir_raw_event_ctrl) : ir_raw_event_ctrl :=
  mk_ctrl (kfifo r) v (last_type r) (enabled_protocols r) (prev_ev r) (this_ev r)
    (nec r) (rc5 r) (rc6 r) (sony r) (jvc r) (rc5_sz r) (mce_kbd r).
Definition set_last_type (v : Z) (r : ir_raw_event_ctrl) : ir_raw_event_ctrl :=
  mk_ctrl (kfifo r) (last_event r) v (enabled_protocols r) (prev_ev r) (this_ev r)
    (nec r) (rc5 r) (rc6 r) (sony r) (jvc r) (rc5_sz r) (mce_kbd r).
Definition set_enabled_protocols (v : Z) (r : ir_raw_event_ctrl) : ir_raw_event_ctrl :=
  mk_ctrl (kfifo r) (last_event r) (last_type r) v (prev_ev r) (this_ev r) (nec r)
    (rc5 r) (rc6 r) (sony r) (jvc r) (rc5_sz r) (mce_kbd r).
Definition set_prev_ev (v : ir_raw_event) (r : ir_raw_event_ctrl) : ir_raw_event_ctrl :=
  mk_ctrl (kfifo r) (last_event r) (last_type r) (enabled_protocols r) v (this_ev r)
    (nec r) (rc5 r) (rc6 r) (sony r) (jvc r) (rc5_sz r) (mce_kbd r).
Definition set_this_ev (v : ir_raw_event) (r : ir_raw_event_ctrl) : ir_raw_event_ctrl :=
  mk_ctrl (kfifo r) (last_event r) (last_type r) (enabled_protocols r) (prev_ev r) v
    (nec r) (rc5 r) (rc6 r) (sony r) (jvc r) (rc5_sz r) (mce_kbd r).
Definition set_nec (v : nec_dec) (r : ir_raw_event_ctrl) : ir_raw_event_ctrl :=
  mk_ctrl (kfifo r) (last_event r) (last_type r) (enabled_protocols r) (prev_ev r)
    (this_ev r) v (rc5 r) (rc6 r) (sony r) (jvc r) (rc5_sz r) (mce_kbd r).
Definition set_rc5 (v : rc5_dec) (r : ir_raw_event_ctrl) : ir_raw_event_ctrl :=
  mk_ctrl (kfifo r) (last_event r) (last_type r) (enabled_protocols r) (prev_ev r)
    (this_ev r) (nec r) v (rc6 r) (sony r) (jvc r) (rc5_sz r) (mce_kbd r).
Definition set_rc6 (v : rc6_dec) (r : ir_raw_event_ctrl) : ir_raw_event_ctrl :=
  mk_ctrl (kfifo r) (last_event r) (last_type r) (enabled_protocols r) (prev_ev r)
    (this_ev r) (nec r) (rc5 r) v (sony r) (jvc r) (rc5_sz r) (mce_kbd r).
Definition set_sony (v : sony_dec) (r : ir_raw_event_ctrl) : ir_raw_event_ctrl :=
  mk_ctrl (kfifo r) (last_event r) (last_type r) (enabled_protocols r) (prev_ev r)
    (this_ev r) (nec r) (rc5 r) (rc6 r) v (jvc r) (rc5_sz r) (mce_kbd r).
Definition set_jvc (v : jvc_dec) (r : ir_raw_event_ctrl) : ir_raw_event_ctrl :=
  mk_ctrl (kfifo r) (last_event r) (last_type r) (enabled_protocols r) (prev_ev r)
    (this_ev r) (nec r) (rc5 r) (rc6 r) (sony r) v (rc5_sz r) (mce_kbd r).
Definition set_rc5_sz (v : rc5_sz_dec) (r : ir_raw_event_ctrl) : ir_raw_event_ctrl :=
  mk_ctrl (kfifo r) (last_event r) (last_type r) (enabled_protocols r) (prev_ev r)
    (this_ev r) (nec r) (rc5 r) (rc6 r) (sony r) (jvc r) v (mce_kbd r).
Definition set_mce_kbd (v : mce_kbd_dec) (r : ir_raw_event_ctrl) : ir_raw_event_ctrl :=
  mk_ctrl (kfifo r) (last_event r) (last_type r) (enabled_protocols r) (prev_ev r)
    (this_ev r) (nec r) (rc5 r) (rc6 r) (sony r) (jvc r) (rc5_sz r) v.

(** [kzalloc] of the control structure. *)
Definition zeroed_ctrl : ir_raw_event_ctrl :=
  mk_ctrl [] 0 0 0 init_ir_raw_event init_ir_raw_event
    (mk_nec Nec.STATE_INACTIVE 0 0 false false) (mk_rc5 Rc5.STATE_INACTIVE 0 0 0)
    (mk_rc6 Rc6.STATE_INACTIVE 0 0 false 0 0) (mk_sony Sony.STATE_INACTIVE 0 0)
    (mk_jvc Jvc.STATE_INACTIVE 0 0 0 false false) (mk_rc5sz Rc5sz.STATE_INACTIVE 0 0 0)
    (mk_mce Mce.STATE_INACTIVE 0 0 0 0 false).

(** ** Key maps *)

Record rc_map_table := mk_scan {
  scancode : Z;   (* u32 *)
  keycode : Z;   (* u32 *)
}.

Definition set_scancode (v : Z) (r : rc_map_table) : rc_map_table :=
  mk_scan v (keycode r).
Definition set_keycode (v : Z) (r : rc_map_table) : rc_map_table :=
  mk_scan (scancode r) v.

#[export] Instance rc_map_table_eq_dec : EqDecision rc_map_table.
Proof. solve_decision. Defined.

Record rc_map := mk_map {
  map_scan : option (list (option rc_map_table));   (* the array; an entry never written is [None] *)
  map_size : Z;   (* unsigned: number of entries of the array *)
  map_len : Z;   (* unsigned: entries in use *)
  map_alloc : Z;   (* unsigned: bytes *)
  map_rc_type : Z;   (* u64 *)
  map_name : string;
}.

Definition set_map_scan (v : option (list (option rc_map_table))) (r : rc_map) : rc_map :=
  mk_map v (map_size r) (map_len r) (map_alloc r) (map_rc_type r) (map_name r).
Definition set_map_size (v : Z) (r : rc_map) : rc_map :=
  mk_map (map_scan r) v (map_len r) (map_alloc r) (map_rc_type r) (map_name r).
Definition set_map_len (v : Z) (r : rc_map) : rc_map :=
  mk_map (map_scan r) (map_size r) v (map_alloc r) (map_rc_type r) (map_name r).
Definition set_map_alloc (v : Z) (r : rc_map) : rc_map :=
  mk_map (map_scan r) (map_size r) (map_len r) v (map_rc_type r) (map_name r).
Definition set_map_rc_type (v : Z) (r : rc_map) : rc_map :=
  mk_map (map_scan r) (map_size r) (map_len r) (map_alloc r) v (map_name r).
Definition set_map_name (v : string) (r : rc_map) : rc_map :=
  mk_map (map_scan r) (map_size r) (map_len r) (map_alloc r) (map_rc_type r) v.

(** ** The device *)

(** Calls that leave the remote controller core. *)
Inductive rc_call :=
  | input_event (type code value : Z)
  | input_report_key (code : Z) (value : bool)
  | input_report_rel (code value : Z)
  | input_sync
  | mod_timer (expires : Z)
  | s_idle_call (enable : bool)
  | wake_up_process
  | mce_input_report_key (code : Z) (value : bool)
  | mce_input_report_rel (code value : Z)
  | mce_input_sync
  | mce_mod_timer (expires : Z).

#[export] Instance rc_call_eq_dec : EqDecision rc_call.
Proof. solve_decision. Defined.

Definition RC_DRIVER_SCANCODE : Z := 0.
Definition RC_DRIVER_IR_RAW : Z := 1.

(** [struct rc_dev]. *)
Record rc_dev := mk_dev {
  rd_map : rc_map;   (* rc_map *)
  raw : option ir_raw_event_ctrl;   (* NULL until registered as a raw device *)
  keybit : gset Z;   (* input_dev->keybit *)
  rep_delay : Z;   (* input_dev->rep[REP_DELAY] *)
  driver_type : Z;
  idle : bool;
  allowed_protos : Z;   (* u64 *)
  scanmask : Z;   (* u32 *)
  keypressed : bool;
  keyup_jiffies : Z;   (* unsigned long *)
  last_keycode : Z;   (* u32 *)
  last_scancode : Z;   (* u32 *)
  last_toggle : Z;   (* u8 *)
  rd_timeout : Z;   (* u32: timeout *)
  has_s_idle : bool;   (* s_idle hook set? *)
  jiffies : Z;   (* the clock: unsigned long *)
  ktime : Z;   (* the clock: ktime_get() in ns *)
  kmallocs : nat;   (* calls of kmalloc made so far *)
  rd_calls : list rc_call;   (* calls made so far *)
}.

Definition set_rd_map (v : rc_map) (r : rc_dev) : rc_dev :=
  mk_dev v (raw r) (keybit r) (rep_delay r) (driver_type r) (idle r)
    (allowed_protos r) (scanmask r) (keypressed r) (keyup_jiffies r)
    (last_keycode r) (last_scancode r) (last_toggle r) (rd_timeout r) (has_s_idle r)
    (jiffies r) (ktime r) (kmallocs r) (rd_calls r).
Definition set_raw (v : option ir_raw_event_ctrl) (r : rc_dev) : rc_dev :=
  mk_dev (rd_map r) v (keybit r) (rep_delay r) (driver_type r) (idle r)
    (allowed_protos r) (scanmask r) (keypressed r) (keyup_jiffies r)
    (last_keycode r) (last_scancode r) (last_toggle r) (rd_timeout r) (has_s_idle r)
    (jiffies r) (ktime r) (kmallocs r) (rd_calls r).
Definition set_keybit (v : gset Z) (r : rc_dev) : rc_dev :=
  mk_dev (rd_map r) (raw r) v (rep_delay r) (driver_type r) (idle r)
    (allowed_protos r) (scanmask r) (keypressed r) (keyup_jiffies r)
    (last_keycode r) (last_scancode r) (last_toggle r) (rd_timeout r) (has_s_idle r)
    (jiffies r) (ktime r) (kmallocs r) (rd_calls r).
Definition set_rep_delay (v : Z) (r : rc_dev) : rc_dev :=
  mk_dev (rd_map r) (raw r) (keybit r) v (driver_type r) (idle r) (allowed_protos r)
    (scanmask r) (keypressed r) (keyup_jiffies r) (last_keycode r) (last_scancode r)
    (last_toggle r) (rd_timeout r) (has_s_idle r) (jiffies r) (ktime r) (kmallocs r)
    (rd_calls r).
Definition set_driver_type (v : Z) (r : rc_dev) : rc_dev :=
  mk_dev (rd_map r) (raw r) (keybit r) (rep_delay r) v (idle r) (allowed_protos r)
    (scanmask r) (keypressed r) (keyup_jiffies r) (last_keycode r) (last_scancode r)
    (last_toggle r) (rd_timeout r) (has_s_idle r) (jiffies r) (ktime r) (kmallocs r)
    (rd_calls r).
Definition set_idle (v : bool) (r : rc_dev) : rc_dev :=
  mk_dev (rd_map r) (raw r) (keybit r) (rep_delay r) (driver_type r) v
    (allowed_protos r) (scanmask r) (keypressed r) (keyup_jiffies r)
    (last_keycode r) (last_scancode r) (last_toggle r) (rd_timeout r) (has_s_idle r)
    (jiffies r) (ktime r) (kmallocs r) (rd_calls r).
Definition set_allowed_protos (v : Z) (r : rc_dev) : rc_dev :=
  mk_dev (rd_map r) (raw r) (keybit r) (rep_delay r) (driver_type r) (idle r) v
    (scanmask r) (keypressed r) (keyup_jiffies r) (last_keycode r) (last_scancode r)
    (last_toggle r) (rd_timeout r) (has_s_idle r) (jiffies r) (ktime r) (kmallocs r)
    (rd_calls r).
Definition set_scanmask (v : Z) (r : rc_dev) : rc_dev :=
  mk_dev (rd_map r) (raw r) (keybit r) (rep_delay r) (driver_type r) (idle r)
    (allowed_protos r) v (keypressed r) (keyup_jiffies r) (last_keycode r)
    (last_scancode r) (last_toggle r) (rd_timeout r) (has_s_idle r) (jiffies r)
    (ktime r) (kmallocs r) (rd_calls r).
Definition set_keypressed (v : bool) (r : rc_dev) : rc_dev :=
  mk_dev (rd_map r) (raw r) (keybit r) (rep_delay r) (driver_type r) (idle r)
    (allowed_protos r) (scanmask r) v (keyup_jiffies r) (last_keycode r)
    (last_scancode r) (last_toggle r) (rd_timeout r) (has_s_idle r) (jiffies r)
    (ktime r) (kmallocs r) (rd_calls r).
Definition set_keyup_jiffies (v : Z) (r : rc_dev) : rc_dev :=
  mk_dev (rd_map r) (raw r) (keybit r) (rep_delay r) (driver_type r) (idle r)
    (allowed_protos r) (scanmask r) (keypressed r) v (last_keycode r)
    (last_scancode r) (last_toggle r) (rd_timeout r) (has_s_idle r) (jiffies r)
    (ktime r) (kmallocs r) (rd_calls r).
Definition set_last_keycode (v : Z) (r : rc_dev) : rc_dev :=
  mk_dev (rd_map r) (raw r) (keybit r) (rep_delay r) (driver_type r) (idle r)
    (allowed_protos r) (scanmask r) (keypressed r) (keyup_jiffies r) v
    (last_scancode r) (last_toggle r) (rd_timeout r) (has_s_idle r) (jiffies r)
    (ktime r) (kmallocs r) (rd_calls r).
Definition set_last_scancode (v : Z) (r : rc_dev) : rc_dev :=
  mk_dev (rd_map r) (raw r) (keybit r) (rep_delay r) (driver_type r) (idle r)
    (allowed_protos r) (scanmask r) (keypressed r) (keyup_jiffies r)
    (last_keycode r) v (last_toggle r) (rd_timeout r) (has_s_idle r) (jiffies r)
    (ktime r) (kmallocs r) (rd_calls r).
Definition set_last_toggle (v : Z) (r : rc_dev) : rc_dev :=
  mk_dev (rd_map r) (raw r) (keybit r) (rep_delay r) (driver_type r) (idle r)
    (allowed_protos r) (scanmask r) (keypressed r) (keyup_jiffies r)
    (last_keycode r) (last_scancode r) v (rd_timeout r) (has_s_idle r) (jiffies r)
    (ktime r) (kmallocs r) (rd_calls r).
Definition set_rd_timeout (v : Z) (r : rc_dev) : rc_dev :=
  mk_dev (rd_map r) (raw r) (keybit r) (rep_delay r) (driver_type r) (idle r)
    (allowed_protos r) (scanmask r) (keypressed r) (keyup_jiffies r)
    (last_keycode r) (last_scancode r) (last_toggle r) v (has_s_idle r) (jiffies r)
    (ktime r) (kmallocs r) (rd_calls r).
Definition set_has_s_idle (v : bool) (r : rc_dev) : rc_dev :=
  mk_dev (rd_map r) (raw r) (keybit r) (rep_delay r) (driver_type r) (idle r)
    (allowed_protos r) (scanmask r) (keypressed r) (keyup_jiffies r)
    (last_keycode r) (last_scancode r) (last_toggle r) (rd_timeout r) v (jiffies r)
    (ktime r) (kmallocs r) (rd_calls r).
Definition set_jiffies (v : Z) (r : rc_dev) : rc_dev :=
  mk_dev (rd_map r) (raw r) (keybit r) (rep_delay r) (driver_type r) (idle r)
    (allowed_protos r) (scanmask r) (keypressed r) (keyup_jiffies r)
    (last_keycode r) (last_scancode r) (last_toggle r) (rd_timeout r)
    (has_s_idle r) v (ktime r) (kmallocs r) (rd_calls r).
Definition set_ktime (v : Z) (r : rc_dev) : rc_dev :=
  mk_dev (rd_map r) (raw r) (keybit r) (rep_delay r) (driver_type r) (idle r)
    (allowed_protos r) (scanmask r) (keypressed r) (keyup_jiffies r)
    (last_keycode r) (last_scancode r) (last_toggle r) (rd_timeout r) (has_s_idle r)
    (jiffies r) v (kmallocs r) (rd_calls r).
Definition set_kmallocs (v : nat) (r : rc_dev) : rc_dev :=
  mk_dev (rd_map r) (raw r) (keybit r) (rep_delay r) (driver_type r) (idle r)
    (allowed_protos r) (scanmask r) (keypressed r) (keyup_jiffies r)
    (last_keycode r) (last_scancode r) (last_toggle r) (rd_timeout r) (has_s_idle r)
    (jiffies r) (ktime r) v (rd_calls r).
Definition set_rd_calls (v : list rc_call) (r : rc_dev) : rc_dev :=
  mk_dev (rd_map r) (raw r) (keybit r) (rep_delay r) (driver_type r) (idle r)
    (allowed_protos r) (scanmask r) (keypressed r) (keyup_jiffies r)
    (last_keycode r) (last_scancode r) (last_toggle r) (rd_timeout r) (has_s_idle r)
    (jiffies r) (ktime r) (kmallocs r) v.

(** A call of another subsystem. *)
Definition call (c : rc_call) (dev : rc_dev) : rc_dev :=
  set_rd_calls (rd_calls dev ++ [c]) dev.

(** ** Protocols *)

Definition RC_TYPE_UNKNOWN : Z := 0.
Definition RC_TYPE_RC5 : Z := Z.shiftl 1 0.
Definition RC_TYPE_NEC : Z := Z.shiftl 1 1.
Definition RC_TYPE_RC6 : Z := Z.shiftl 1 2.
Definition RC_TYPE_JVC : Z := Z.shiftl 1 3.
Definition RC_TYPE_SONY : Z := Z.shiftl 1 4.
Definition RC_TYPE_RC5_SZ : Z := Z.shiftl 1 5.
Definition RC_TYPE_MCE_KBD : Z := Z.shiftl 1 29.
Definition RC_TYPE_LIRC : Z := Z.shiftl 1 30.
Definition RC_TYPE_OTHER : Z := Z.shiftl 1 31.

(** ** Inline helpers of the decoders: durations are 32-bit unsigned *)

Definition geq_margin (d1 d2 margin : Z) : bool := d1 >? u32 (d2 - margin).

Definition eq_margin (d1 d2 margin : Z) : bool :=
  (d1 >? u32 (d2 - margin)) && (d1 <? u32 (d2 + margin)).

Definition is_transition (x y : ir_raw_event) : bool :=
  negb (Bool.eqb (pulse x) (pulse y)).

Definition decrease_duration (ev : ir_raw_event) (d : Z) : ir_raw_event :=
  if d >? duration ev then set_duration 0 ev else set_duration (duration ev - d) ev.

Definition is_timing_event (ev : ir_raw_event) : bool :=
  negb (carrier_report ev) && negb (reset ev).

(** [ir_extract_bits]: the loop runs until the shifted mask is zero, at most
    once per bit of a [u32]. *)
Fixpoint extract_loop (fuel : nat) (data mask vbit value : Z) : option Z :=
  match fuel with
  | O => None
  | S fuel =>
    let '(value, vbit) :=
      if truthy (Z.land mask 1)
      then (if truthy (Z.land data 1) then Z.lor value vbit else value, u32 (Z.shiftl vbit 1))
      else (value, vbit) in
    let data := Z.shiftr data 1 in
    let mask := Z.shiftr mask 1 in
    if truthy mask then extract_loop fuel data mask vbit value else Some value
  end.

Definition ir_extract_bits (data mask : Z) : option Z := extract_loop 32 data mask 1 0.

(** What the kernel library gives to this code. *)
Class RcEnv := {
  bitrev8 : Z -> Z;
  msecs_to_jiffies : Z -> Z;
  usecs_to_jiffies : Z -> Z;
  time_is_before_eq : Z -> Z -> bool;   (* [time_is_before_eq now a]: a is not after now *)
  roundup_pow_of_two : Z -> Z;
  kmalloc_ok : nat -> Z -> bool;        (* does the n-th kmalloc, of so many bytes, succeed? *)
  input_scancode_to_scalar : list Z -> Z -> Z * Z;   (* result code and scancode *)
  u32_bytes : Z -> list Z;              (* the bytes of a u32 in memory *)
  kfifo_fits : list ir_raw_event -> bool;   (* is there room for one more sample? *)
}.


(** What their documentation says of them. *)
Class RcEnvLaws (E : RcEnv) : Prop := {
  bitrev8_range : forall x, 0 <= x < 256 -> 0 <= bitrev8 x < 256;
  bitrev8_bit : forall x i, 0 <= x < 256 -> 0 <= i < 8 ->
    Z.testbit (bitrev8 x) i = Z.testbit x (7 - i);
  roundup_pow_of_two_spec : forall n, 0 < n <= 2 ^ 30 ->
    exists k, 0 <= k <= 30 /\ roundup_pow_of_two n = 2 ^ k /\ n <= 2 ^ k;
  time_is_before_eq_spec : forall now a,
    time_is_before_eq now a = (u64 (now - a) <? 2 ^ 63);
  msecs_to_jiffies_range : forall ms, 0 <= msecs_to_jiffies ms < 2 ^ 62;
  scancode_of_bytes : forall c rest, 0 <= c < 2 ^ 32 ->
    zlen (u32_bytes c) = 4 /\ input_scancode_to_scalar (u32_bytes c ++ rest) 4 = (0, c);
}.

(** A concrete environment: 100 jiffies a second, little endian memory, an
    allocator that never fails. *)
Definition sample_bitrev8 (x : Z) : Z :=
  fold_left (fun a i => Z.lor a (if Z.testbit x i then Z.shiftl 1 (7 - i) else 0))
    [0; 1; 2; 3; 4; 5; 6; 7] 0.

Definition sample_env : RcEnv := {|
  bitrev8 := sample_bitrev8;
  msecs_to_jiffies := fun ms => u32 (ms / 10);
  usecs_to_jiffies := fun us => u32 (us / 10000);
  time_is_before_eq := fun now a => u64 (now - a) <? 2 ^ 63;
  roundup_pow_of_two := fun n => 2 ^ Z.log2_up n;
  kmalloc_ok := fun _ _ => true;
  input_scancode_to_scalar := fun l n =>
    if n =? 4 then (0, nth 0 l 0 + 2 ^ 8 * nth 1 l 0 + 2 ^ 16 * nth 2 l 0 + 2 ^ 24 * nth 3 l 0)
    else (- EINVAL, 0);
  u32_bytes := fun c => [c mod 2 ^ 8; c / 2 ^ 8 mod 2 ^ 8; c / 2 ^ 16 mod 2 ^ 8; c / 2 ^ 24];
  kfifo_fits := fun q => Nat.ltb (length q) 512;
|}.

Lemma sample_bitrev8_all :
  forallb (fun x => let r := sample_bitrev8 x in (0 <=? r) && (r <? 256) &&
    forallb (fun i => Bool.eqb (Z.testbit r i) (Z.testbit x (7 - i))) [0;1;2;3;4;5;6;7])
    (seqZ 0 256) = true.
Proof. vm_compute. reflexivity. Qed.

#[export] Instance sample_env_laws : RcEnvLaws sample_env.
Proof.
  pose proof sample_bitrev8_all as Hb. rewrite forallb_forall in Hb.
  assert (forall x, 0 <= x < 256 -> 0 <= sample_bitrev8 x < 256 /\ forall i, 0 <= i < 8 ->
    Z.testbit (sample_bitrev8 x) i = Z.testbit x (7 - i)) as Hx.
  { intros x Hx. specialize (Hb x). rewrite <- list_elem_of_In, elem_of_seqZ in Hb.
    specialize (Hb ltac:(lia)). cbv zeta in Hb. rewrite !andb_true_iff in Hb.
    destruct Hb as [[H1 H2] H3]. rewrite forallb_forall in H3. split; [lia|].
    intros i Hi. apply Bool.eqb_prop, H3. cbn. lia. }
  split; cbn -[Z.pow Z.log2_up].
  - intros x ?. by apply Hx.
  - intros x i ? ?. by apply Hx.
  - intros n Hn. exists (Z.log2_up n). pose proof (Z.log2_up_nonneg n).
    pose proof (Z.log2_up_le_mono n (2 ^ 30)) as Hm. rewrite Z.log2_up_pow2 in Hm by lia.
    pose proof (Z.log2_log2_up_spec n). lia.
  - done.
  - intros ms. pose proof (wrap_range 32 (ms / 10)). lia.
  - intros c rest Hc. split; [done|]. cbn. f_equal.
    pose proof (Z.div_mod c (2 ^ 8)). pose proof (Z.div_mod (c / 2 ^ 8) (2 ^ 8)).
    pose proof (Z.div_mod (c / 2 ^ 16) (2 ^ 8)).
    rewrite !Z.div_div in * by lia. change (2 ^ 8 * 2 ^ 8) with (2 ^ 16) in *.
    change (2 ^ 16 * 2 ^ 8) with (2 ^ 24) in *. lia.
Qed.

(** A freshly allocated device ([rc_allocate_device] zeroes it). *)
Definition fresh_dev : rc_dev :=
  mk_dev (mk_map None 0 0 0 0 "") None ∅ 0 RC_DRIVER_IR_RAW false 0 0 false 0 0 0 0 0 false
    0 0 0 [].

