(* ===== verification/RcKeymap.v ===== *)
(** Scancode tables, drivers/media/rc/rc-main.c: the sorted table of a device
    ([ir_create_table] to [rc_g_keycode_from_table]) and the registry of key
    maps.

    Every caller passes [&dev->rc_map], so the table operations work on the
    device.  The array is checked memory whose entries start uninitialised. *)

From stdpp Require Import strings.
From S2P Require Import Prelude RcTypes.

Definition IR_TAB_MIN_SIZE : Z := 256.
Definition IR_TAB_MAX_SIZE : Z := 8192.

(** Constants of <linux/input.h>. *)
Definition KEY_RESERVED : Z := 0.
Definition KEY_UNKNOWN : Z := 240.
Definition KEY_CNT : Z := 0x300.
Definition INPUT_KEYMAP_BY_INDEX : Z := 1.

(** [struct input_keymap_entry] *)
Record input_keymap_entry := mk_ke {
  ke_flags : Z;
  ke_len : Z;
  ke_index : Z;
  ke_keycode : Z;
  ke_scancode : list Z;
}.

Definition sizeof_entry : Z := 8.
Definition NOT_FOUND : Z := 2 ^ 32 - 1.   (* -1U *)

Section table.
Context `{RcEnv}.

(** [rc_map->scan[i]] *)
Definition scan_get (m : rc_map) (i : Z) : option rc_map_table :=
  s ← map_scan m; e ← s.[i]; e.

Definition scan_set (m : rc_map) (i : Z) (e : rc_map_table) : option rc_map :=
  s ← map_scan m; s ← mset s i (Some e); Some (set_map_scan (Some s) m).

(** [memmove(&scan[dst], &scan[src], n * sizeof(struct rc_map_table))] *)
Definition scan_move (m : rc_map) (dst src n : Z) : option rc_map :=
  s ← map_scan m;
  b ← mread s src n;
  s ← mwrite s dst b;
  Some (set_map_scan (Some s) m).

Definition kmalloc (dev : rc_dev) (bytes : Z) : rc_dev * option (list (option rc_map_table)) :=
  (set_kmallocs (S (kmallocs dev)) dev,
   if kmalloc_ok (kmallocs dev) bytes
   then Some (replicate (Z.to_nat (bytes / sizeof_entry)) None) else None).

Definition set_keybit_at (code : Z) (dev : rc_dev) : option rc_dev :=
  if (0 <=? code) && (code <? KEY_CNT) then Some (set_keybit ({[code]} ∪ keybit dev) dev) else None.

Definition clear_keybit_at (code : Z) (dev : rc_dev) : option rc_dev :=
  if (0 <=? code) && (code <? KEY_CNT) then Some (set_keybit (keybit dev ∖ {[code]}) dev) else None.

Definition ir_create_table (dev : rc_dev) (name : string) (rc_type size : Z) : rc_dev * Z :=
  let m := set_map_rc_type rc_type (set_map_name name (rd_map dev)) in
  let m := set_map_alloc (u32 (roundup_pow_of_two (size * sizeof_entry))) m in
  let m := set_map_size (map_alloc m / sizeof_entry) m in
  let '(dev, scan) := kmalloc dev (map_alloc m) in
  let dev := set_rd_map (set_map_scan scan m) dev in
  match scan with
  | None => (dev, - ENOMEM)
  | Some _ => (dev, 0)
  end.

Definition ir_free_table (dev : rc_dev) : rc_dev :=
  set_rd_map (set_map_scan None (set_map_size 0 (rd_map dev))) dev.

(** The reallocation at the end of [ir_resize_table]. *)
Definition realloc_table (dev : rc_dev) (newalloc : Z) : option (rc_dev * Z) :=
  let m := rd_map dev in
  let '(dev, newscan) := kmalloc dev newalloc in
  match newscan with
  | None => Some (dev, - ENOMEM)
  | Some newscan =>
    s ← map_scan m;
    b ← mread s 0 (map_len m);
    newscan ← mwrite newscan 0 b;
    let m := set_map_alloc newalloc (set_map_scan (Some newscan) m) in
    let m := set_map_size (map_alloc m / sizeof_entry) m in
    Some (set_rd_map m dev, 0)
  end.

Definition ir_resize_table (dev : rc_dev) : option (rc_dev * Z) :=
  let m := rd_map dev in
  let oldalloc := map_alloc m in
  if (map_size m =? map_len m) && (map_alloc m >=? IR_TAB_MAX_SIZE) then Some (dev, - ENOMEM) else
  let newalloc := if map_size m =? map_len m then u32 (oldalloc * 2) else oldalloc in
  let newalloc :=
    if (u32 (map_len m * 3) <? map_size m) && (oldalloc >? IR_TAB_MIN_SIZE)
    then newalloc / 2 else newalloc in
  if newalloc =? oldalloc then Some (dev, 0) else realloc_table dev newalloc.

(** [for (i = 0; i < rc_map->len; i++) if (scan[i].keycode == old_keycode) ... break]:
    is the keycode still used? [n] entries are left. *)
Fixpoint keycode_used (m : rc_map) (n : nat) (i code : Z) : option bool :=
  match n with
  | O => Some false
  | S n =>
    e ← scan_get m i;
    if keycode e =? code then Some true else keycode_used m n (i + 1) code
  end.

Definition ir_update_mapping (dev : rc_dev) (index new_keycode : Z) : option (rc_dev * Z) :=
  e ← scan_get (rd_map dev) index;
  let old_keycode := keycode e in
  dev ←
    (if (new_keycode =? KEY_RESERVED) || (new_keycode =? KEY_UNKNOWN) then
       let m := set_map_len (u32 (map_len (rd_map dev) - 1)) (rd_map dev) in
       m ← scan_move m index (index + 1) (u32 (map_len m - index));
       Some (set_rd_map m dev)
     else
       m ← scan_set (rd_map dev) index (set_keycode new_keycode e);
       set_keybit_at new_keycode (set_rd_map m dev));
  if old_keycode =? KEY_RESERVED then Some (dev, old_keycode) else
  dev ← clear_keybit_at old_keycode dev;
  used ← keycode_used (rd_map dev) (Z.to_nat (map_len (rd_map dev))) 0 old_keycode;
  dev ← (if (used : bool) then set_keybit_at old_keycode dev else Some dev);
  '(dev, _) ← ir_resize_table dev;
  Some (dev, old_keycode).

(** The search loop of [ir_establish_scancode]: [inl i] for an entry that has
    the scancode, [inr i] for the place where it belongs. *)
Fixpoint establish_search (m : rc_map) (n : nat) (i code : Z) : option (Z + Z) :=
  match n with
  | O => Some (inr i)
  | S n =>
    e ← scan_get m i;
    if scancode e =? code then Some (inl i)
    else if scancode e >=? code then Some (inr i)
    else establish_search m n (i + 1) code
  end.

Definition ir_establish_scancode (dev : rc_dev) (code : Z) (resize : bool) :
    option (rc_dev * Z) :=
  let code := if truthy (scanmask dev) then Z.land code (scanmask dev) else code in
  found ← establish_search (rd_map dev) (Z.to_nat (map_len (rd_map dev))) 0 code;
  match found with
  | inl i => Some (dev, i)
  | inr i =>
    '(dev, ok) ←
      (if map_size (rd_map dev) =? map_len (rd_map dev) then
         if negb resize then Some (dev, false)
         else '(dev, rc) ← ir_resize_table dev; Some (dev, rc =? 0)
       else Some (dev, true));
    if negb ok then Some (dev, NOT_FOUND) else
    let m := rd_map dev in
    m ← (if i <? map_len m then scan_move m (i + 1) i (u32 (map_len m - i)) else Some m);
    m ← scan_set m i (mk_scan code KEY_RESERVED);
    Some (set_rd_map (set_map_len (u32 (map_len m + 1)) m) dev, i)
  end.

(** [ir_setkeycode]: result code, and the old keycode where it is stored. *)
Definition ir_setkeycode (dev : rc_dev) (ke : input_keymap_entry) :
    option (rc_dev * Z * option Z) :=
  if truthy (Z.land (ke_flags ke) INPUT_KEYMAP_BY_INDEX) then
    let index := ke_index ke in
    if index >=? map_len (rd_map dev) then Some (dev, - EINVAL, None) else
    '(dev, old) ← ir_update_mapping dev index (ke_keycode ke);
    Some (dev, 0, Some old)
  else
    let '(retval, code) := input_scancode_to_scalar (ke_scancode ke) (ke_len ke) in
    if truthy retval then Some (dev, retval, None) else
    '(dev, index) ← ir_establish_scancode dev code true;
    if index >=? map_len (rd_map dev) then Some (dev, - ENOMEM, None) else
    '(dev, old) ← ir_update_mapping dev index (ke_keycode ke);
    Some (dev, 0, Some old).

(** The loop of [ir_setkeytable] over the entries of [from]. *)
Fixpoint setkeytable_loop (dev : rc_dev) (from : list (option rc_map_table)) :
    option (rc_dev * Z) :=
  match from with
  | [] => Some (dev, 0)
  | e :: from =>
    e ← e;
    '(dev, index) ← ir_establish_scancode dev (scancode e) false;
    if index >=? map_len (rd_map dev) then Some (dev, - ENOMEM) else
    '(dev, _) ← ir_update_mapping dev index (keycode e);
    setkeytable_loop dev from
  end.

Definition ir_setkeytable (dev : rc_dev) (from : rc_map) : option (rc_dev * Z) :=
  let '(dev, rc) := ir_create_table dev (map_name from) (map_rc_type from) (map_size from) in
  if truthy rc then Some (dev, rc) else
  s ← map_scan from;
  entries ← mread s 0 (map_size from);
  '(dev, rc) ← setkeytable_loop dev entries;
  if truthy rc then Some (ir_free_table dev, rc) else Some (dev, rc).

(** Binary search; [start] and [end] are [int]. *)
Fixpoint lookup_loop (fuel : nat) (m : rc_map) (code start stop : Z) : option Z :=
  match fuel with
  | O => None
  | S fuel =>
    if start <=? stop then
      let mid := Z.quot (s32 (start + stop)) 2 in
      e ← scan_get m mid;
      if scancode e <? code then lookup_loop fuel m code (s32 (mid + 1)) stop
      else if scancode e >? code then lookup_loop fuel m code start (s32 (mid - 1))
      else Some mid
    else Some NOT_FOUND
  end.

Definition ir_lookup_by_scancode (m : rc_map) (code : Z) : option Z :=
  lookup_loop (S (Z.to_nat (map_len m))) m code 0 (s32 (map_len m - 1)).

Definition ir_getkeycode (dev : rc_dev) (ke : input_keymap_entry) :
    option (input_keymap_entry * Z) :=
  let by_index := truthy (Z.land (ke_flags ke) INPUT_KEYMAP_BY_INDEX) in
  let '(retval, code) :=
    if by_index then (0, 0) else input_scancode_to_scalar (ke_scancode ke) (ke_len ke) in
  if truthy retval then Some (ke, retval) else
  index ← (if by_index then Some (ke_index ke) else ir_lookup_by_scancode (rd_map dev) code);
  if index <? map_len (rd_map dev) then
    e ← scan_get (rd_map dev) index;
    bytes ← mwrite (ke_scancode ke) 0 (u32_bytes (scancode e));
    Some (mk_ke (ke_flags ke) 4 index (keycode e) bytes, 0)
  else if negb by_index then
    Some (mk_ke (ke_flags ke) (ke_len ke) index KEY_RESERVED (ke_scancode ke), 0)
  else Some (ke, - EINVAL).

Definition rc_g_keycode_from_table (dev : rc_dev) (code : Z) : option Z :=
  index ← ir_lookup_by_scancode (rd_map dev) code;
  if index <? map_len (rd_map dev) then
    e ← scan_get (rd_map dev) index; Some (keycode e)
  else Some KEY_RESERVED.

End table.
