(* ===== verification/RcKeymapProofs.v ===== *)
(** Scancode tables: a table is a sorted list of entries in a checked array;
    setting keycodes is insertion and deletion in a finite map, looking one up
    is lookup in it, and the device's key bits are the keycodes in use. *)

From Stdlib Require Import FunctionalExtensionality.
From stdpp Require Import strings sorting.
From S2P Require Import Prelude RcTypes RcKeymap.

(** ** What a table stands for *)

(** [m] holds the entries [es], in an array of a power of two of bytes. *)
Record table_repr (m : rc_map) (es : list rc_map_table) : Prop := {
  tr_scan : exists rest, map_scan m = Some ((Some <$> es) ++ rest) /\
              map_size m = zlen es + zlen rest;
  tr_len : map_len m = zlen es;
  tr_alloc : exists k, 3 <= k <= 30 /\ map_alloc m = 2 ^ k /\ map_size m = 2 ^ (k - 3);
}.

Definition entry_lt (a b : rc_map_table) : Prop := scancode a < scancode b.

Definition entry_ok (e : rc_map_table) : Prop :=
  0 <= scancode e < 2 ^ 32 /\ 0 <= keycode e < KEY_CNT.

(** The table as a map from scancodes to keycodes. *)
Definition view (es : list rc_map_table) : gmap Z Z :=
  list_to_map ((fun e => (scancode e, keycode e)) <$> es).

(** The key bits announced to the input layer are the keycodes in use. *)
Definition keybits_ok (dev : rc_dev) (es : list rc_map_table) : Prop :=
  forall c, c ∈ keybit dev <-> c <> KEY_RESERVED /\ exists e, e ∈ es /\ keycode e = c.

Record keymap_wf (dev : rc_dev) (es : list rc_map_table) : Prop := {
  kw_repr : table_repr (rd_map dev) es;
  kw_sorted : StronglySorted entry_lt es;
  kw_ok : Forall entry_ok es;
  kw_used : Forall (fun e => keycode e <> KEY_RESERVED /\ keycode e <> KEY_UNKNOWN) es;
  kw_keybits : keybits_ok dev es;
}.

(** The table operations touch the table, the key bits and the allocator. *)
Definition table_frame (dev dev' : rc_dev) : Prop :=
  dev' = set_rd_map (rd_map dev') (set_keybit (keybit dev') (set_kmallocs (kmallocs dev') dev)).

Lemma table_frame_refl dev : table_frame dev dev.
Proof. by destruct dev. Qed.

Lemma table_frame_trans a b c : table_frame a b -> table_frame b c -> table_frame a c.
Proof. unfold table_frame. intros -> H. rewrite H. done. Qed.

#[export] Hint Resolve table_frame_refl : rc.

Lemma pow2_bounds k : 3 <= k <= 30 -> 8 <= 2 ^ k <= 2 ^ 30 /\ 2 ^ k = 8 * 2 ^ (k - 3).
Proof.
  intros Hk. assert (2 ^ k = 2 ^ 3 * 2 ^ (k - 3)) as E by (rewrite <- Z.pow_add_r by lia; f_equal; lia).
  pose proof (Z.pow_le_mono_r 2 k 30). pose proof (Z.pow_le_mono_r 2 3 k). lia.
Qed.

Lemma repr_bounds m es :
  table_repr m es ->
  0 <= map_len m <= map_size m /\ 1 <= map_size m <= 2 ^ 27 /\ map_alloc m = 8 * map_size m.
Proof.
  intros [(rest & Hs & Hz) Hl (k & Hk & Ha & Hsz)].
  pose proof (pow2_bounds k Hk). pose proof (zlen_nonneg rest). pose proof (zlen_nonneg es). lia.
Qed.

Lemma fmap_some_lookup {A} (es : list A) rest i :
  0 <= i < zlen es -> ((Some <$> es) ++ rest).[i] = Some (es !! Z.to_nat i).
Proof.
  intros Hi. rewrite mget_app_l by (rewrite zlen_fmap; lia).
  unfold mget. rewrite bool_decide_true by lia. rewrite list_lookup_fmap.
  destruct (es !! Z.to_nat i) eqn:E; [done|].
  apply lookup_ge_None in E. unfold zlen in Hi. lia.
Qed.

Lemma scan_get_repr m es i :
  table_repr m es -> 0 <= i < zlen es -> scan_get m i = es !! Z.to_nat i.
Proof.
  intros [(rest & Hs & Hz) Hl Ha] Hi. unfold scan_get. rewrite Hs. cbn [mbind option_bind].
  rewrite fmap_some_lookup by done. done.
Qed.

Lemma scan_get_lookup m es i e :
  table_repr m es -> es !! i = Some e -> scan_get m (Z.of_nat i) = Some e.
Proof.
  intros Hr He. rewrite (scan_get_repr m es), Nat2Z.id; [done..|].
  apply lookup_lt_Some in He. unfold zlen. lia.
Qed.

(** ** Resizing *)

Lemma set_scan_repr m es rest k :
  3 <= k <= 30 -> map_len m = zlen es -> zlen es + zlen rest = 2 ^ (k - 3) ->
  table_repr (set_map_size (2 ^ k / sizeof_entry)
    (set_map_alloc (2 ^ k) (set_map_scan (Some ((Some <$> es) ++ rest)) m))) es.
Proof.
  intros Hk Hl Hz. pose proof (pow2_bounds k Hk) as [_ E].
  assert (2 ^ k / sizeof_entry = 2 ^ (k - 3)) as E'.
  { rewrite E. unfold sizeof_entry. rewrite Z.mul_comm. apply Z.div_mul. lia. }
  split; cbn.
  - exists rest. split; [done|]. lia.
  - done.
  - exists k. split_and!; [lia|lia|done|done].
Qed.

Section proofs.
Context `{RcEnv}.

(** The new array of [ir_resize_table] holds the same entries. *)
Lemma resize_copy es rest n :
  zlen es <= n ->
  (s ← mread ((Some <$> es) ++ rest) 0 (zlen es);
   mwrite (replicate (Z.to_nat n) None) 0 s) =
  Some ((Some <$> es) ++ replicate (Z.to_nat (n - zlen es)) (@None rc_map_table)).
Proof.
  intros Hn. pose proof (zlen_nonneg es). pose proof (zlen_nonneg rest).
  rewrite mread_Some by (rewrite ?zlen_app, ?zlen_fmap; lia). cbn [mbind option_bind].
  assert (slice ((Some <$> es) ++ rest) 0 (zlen es) = Some <$> es) as ->.
  { unfold slice, zlen. rewrite Nat2Z.id. cbn.
    rewrite drop_0. apply take_app_length'. by rewrite length_fmap. }
  rewrite mwrite_Some by (rewrite ?zlen_fmap, ?zlen_replicate; lia).
  f_equal. unfold blit. change (Z.to_nat 0) with 0%nat.
  rewrite take_0, app_nil_l, Nat.add_0_l, length_fmap, drop_replicate. f_equal.
  f_equal. unfold zlen in *. lia.
Qed.

(** What a call of the resizing code leaves. *)
Record resized (dev dev' : rc_dev) (es : list rc_map_table) (rc : Z) : Prop := {
  rz_repr : table_repr (rd_map dev') es;
  rz_frame : table_frame dev dev';
  rz_keybit : keybit dev' = keybit dev;
  rz_rc : rc = 0 \/ rc = - ENOMEM;
  rz_room : rc = 0 -> map_size (rd_map dev) = map_len (rd_map dev) ->
            map_len (rd_map dev') < map_size (rd_map dev');
  rz_alloc : rc <> 0 -> rd_map dev' = rd_map dev;
}.

Lemma realloc_spec dev es k :
  table_repr (rd_map dev) es -> 3 <= k <= 30 -> zlen es <= 2 ^ (k - 3) ->
  (map_size (rd_map dev) = map_len (rd_map dev) -> zlen es < 2 ^ (k - 3)) ->
  exists dev' rc, realloc_table dev (2 ^ k) = Some (dev', rc) /\ resized dev dev' es rc.
Proof.
  intros Hr Hk Hfit Hroom. pose proof Hr as [(rest & Hs & Hz) Hl Ha].
  unfold realloc_table, kmalloc. pose proof (pow2_bounds k Hk) as [Hb E].
  destruct (kmalloc_ok _ _).
  2: { do 2 eexists. split; [reflexivity|]. split; cbn; [done..|by right|done|done]. }
  assert (2 ^ k / sizeof_entry = 2 ^ (k - 3)) as Ed.
  { rewrite E. unfold sizeof_entry. rewrite Z.mul_comm. apply Z.div_mul. lia. }
  rewrite Hs. cbn [mbind option_bind]. rewrite Hl.
  pose proof (resize_copy es rest (2 ^ (k - 3)) Hfit) as Hc. rewrite Ed.
  apply bind_Some in Hc as (b & -> & Hc). cbn [mbind option_bind]. rewrite Hc.
  cbn [mbind option_bind]. do 2 eexists. split; [reflexivity|].
  split; [|done|done|by left| |done].
  - apply set_scan_repr; [done..|]. rewrite zlen_replicate. lia.
  - intros _ Hfull. cbn -[Z.pow]. change (map_len (rd_map dev) < 2 ^ k / sizeof_entry).
    rewrite Ed, Hl. by apply Hroom.
Qed.

Lemma resized_refl dev es rc :
  table_repr (rd_map dev) es -> rc = 0 \/ rc = - ENOMEM ->
  (rc = 0 -> map_size (rd_map dev) <> map_len (rd_map dev)) -> resized dev dev es rc.
Proof. intros Hr Hrc Hn. split; auto with rc. intros H0 Hf. by destruct (Hn H0). Qed.

(** Resizing keeps the entries; when it answers 0 for a full table there is room. *)
Lemma resize_spec dev es :
  table_repr (rd_map dev) es ->
  exists dev' rc, ir_resize_table dev = Some (dev', rc) /\ resized dev dev' es rc.
Proof.
  intros Hr. pose proof (repr_bounds _ _ Hr) as (Hlen & Hsz & Hal).
  pose proof (tr_len _ _ Hr) as Hl. destruct (tr_alloc _ _ Hr) as (k & Hk & Ha & Hs2).
  pose proof (pow2_bounds k Hk) as [Hb E].
  assert (u32 (map_len (rd_map dev) * 3) = map_len (rd_map dev) * 3) as E3
    by (apply wrap_small; lia).
  assert (u32 (map_alloc (rd_map dev) * 2) = 2 ^ (k + 1)) as E2.
  { rewrite Ha, Z.pow_add_r by lia. apply wrap_small. lia. }
  unfold ir_resize_table. rewrite E3, E2.
  destruct (Z.eqb_spec (map_size (rd_map dev)) (map_len (rd_map dev))) as [Hf|Hf]; cbn [andb].
  - destruct (Z.geb_spec (map_alloc (rd_map dev)) IR_TAB_MAX_SIZE) as [Hm|Hm].
    + do 2 eexists. split; [reflexivity|]. apply resized_refl; [done|by right|done].
    + destruct (Z.ltb_spec (map_len (rd_map dev) * 3) (map_size (rd_map dev))); [lia|].
      cbn [andb]. destruct (Z.eqb_spec (2 ^ (k + 1)) (map_alloc (rd_map dev))).
      { rewrite Z.pow_add_r in * by lia. lia. }
      assert (k < 30).
      { destruct (decide (k = 30)) as [->|]; [|lia]. unfold IR_TAB_MAX_SIZE in Hm. lia. }
      assert (2 ^ (k + 1 - 3) = 2 * 2 ^ (k - 3)).
      { rewrite <- Z.pow_succ_r by lia. f_equal. lia. }
      apply realloc_spec; [done|lia..].
  - destruct (_ && _) eqn:Ec.
    + apply andb_true_iff in Ec as [Hc1 Hc2]. apply Z.ltb_lt in Hc1. apply Z.gtb_lt in Hc2.
      assert (8 < k) as Hk8.
      { apply (Z.pow_lt_mono_r_iff 2); [lia..|]. unfold IR_TAB_MIN_SIZE in Hc2. lia. }
      assert (map_alloc (rd_map dev) / 2 = 2 ^ (k - 1)) as ->.
      { rewrite Ha. replace k with (Z.succ (k - 1)) at 1 by lia.
        rewrite Z.pow_succ_r, Z.mul_comm by lia. apply Z.div_mul. lia. }
      assert (2 ^ (k - 3) = 2 * 2 ^ (k - 1 - 3)).
      { rewrite <- Z.pow_succ_r by lia. f_equal. lia. }
      destruct (_ =? _).
      { do 2 eexists. split; [reflexivity|]. apply resized_refl; [done|by left|done]. }
      apply realloc_spec; [done|lia..].
    + rewrite Z.eqb_refl. do 2 eexists. split; [reflexivity|].
      apply resized_refl; [done|by left|done].
Qed.

(** ** Moving entries *)

(** [memmove] of the tail one entry down removes an entry. *)
Lemma move_down {A} (l rest : list A) i :
  0 <= i < zlen l ->
  exists rest', zlen rest' = zlen rest + 1 /\
  (b ← mread (l ++ rest) (i + 1) (zlen l - 1 - i); mwrite (l ++ rest) i b) =
  Some (delete (Z.to_nat i) l ++ rest').
Proof.
  intros Hi. pose proof (zlen_nonneg rest).
  exists (drop (length l - 1) (l ++ rest)).
  split; [unfold zlen in *; rewrite length_drop, length_app; lia|].
  rewrite mread_Some by (rewrite ?zlen_app; lia). cbn [mbind option_bind].
  assert (slice (l ++ rest) (i + 1) (zlen l - 1 - i) = drop (S (Z.to_nat i)) l) as ->.
  { unfold slice, zlen in *. rewrite drop_app_le by lia.
    replace (Z.to_nat (i + 1)) with (S (Z.to_nat i)) by lia.
    apply take_app_length'. rewrite length_drop. lia. }
  assert (zlen (drop (S (Z.to_nat i)) l) = zlen l - 1 - i) as El.
  { unfold zlen in *. rewrite length_drop. lia. }
  rewrite mwrite_Some by (rewrite ?El, ?zlen_app; lia). f_equal.
  unfold blit. rewrite delete_take_drop, take_app_le by (unfold zlen in *; lia).
  rewrite <- app_assoc. do 3 f_equal. unfold zlen in *. rewrite length_drop. lia.
Qed.

(** [memmove] of the tail one entry up and a store insert one. *)
Lemma move_up {A} (l rest : list A) i x :
  0 <= i < zlen l -> 0 < zlen rest ->
  (b ← mread (l ++ rest) i (zlen l - i); s ← mwrite (l ++ rest) (i + 1) b; mset s i x) =
  Some ((take (Z.to_nat i) l ++ x :: drop (Z.to_nat i) l) ++ drop 1 rest).
Proof.
  intros Hi Hr.
  rewrite mread_Some by (rewrite ?zlen_app; lia). cbn [mbind option_bind].
  assert (slice (l ++ rest) i (zlen l - i) = drop (Z.to_nat i) l) as ->.
  { unfold slice, zlen in *. rewrite drop_app_le by lia.
    apply take_app_length'. rewrite length_drop. lia. }
  assert (zlen (drop (Z.to_nat i) l) = zlen l - i) as El.
  { unfold zlen in *. rewrite length_drop. lia. }
  rewrite mwrite_Some by (rewrite ?El, ?zlen_app; lia). cbn [mbind option_bind].
  rewrite mset_blit, mwrite_Some by (rewrite ?zlen_singleton, ?zlen_blit by
    (rewrite ?El, ?zlen_app; lia); rewrite ?zlen_app; lia). f_equal.
  assert (length (take (Z.to_nat i) l) = Z.to_nat i) as Et
    by (rewrite length_take; unfold zlen in *; lia).
  unfold blit at 1. cbn [length].
  assert (take (Z.to_nat i) (blit (l ++ rest) (i + 1) (drop (Z.to_nat i) l)) =
    take (Z.to_nat i) l) as ->.
  { unfold blit. rewrite !take_app_le by (rewrite ?length_take, ?length_app; unfold zlen in *; lia).
    rewrite take_take. f_equal. lia. }
  rewrite <- app_assoc. f_equal. cbn. f_equal.
  unfold blit. rewrite drop_app_length'.
  2: { rewrite length_take, length_app. unfold zlen in *. lia. }
  f_equal. rewrite drop_app_ge by (rewrite ?length_drop; unfold zlen in *; lia).
  f_equal. rewrite length_drop. unfold zlen in *. lia.
Qed.

Lemma fmap_delete_list {A B} (f : A -> B) (i : nat) (l : list A) : f <$> delete i l = delete i (f <$> l).
Proof. by rewrite !delete_take_drop, fmap_app, fmap_take, fmap_drop. Qed.

Lemma zlen_delete {A} (l : list A) i : 0 <= i < zlen l -> zlen (delete (Z.to_nat i) l) = zlen l - 1.
Proof.
  intros Hi. unfold zlen in *. rewrite delete_take_drop, length_app, length_take, length_drop. lia.
Qed.

(** Removing an entry, as [ir_update_mapping] does. *)
Lemma remove_spec m es i :
  table_repr m es -> 0 <= i < zlen es ->
  let m1 := set_map_len (u32 (map_len m - 1)) m in
  exists m', scan_move m1 i (i + 1) (u32 (map_len m1 - i)) = Some m' /\
    table_repr m' (delete (Z.to_nat i) es).
Proof.
  intros Hr Hi m1. pose proof (repr_bounds _ _ Hr) as (Hlen & Hsz & Hal).
  destruct Hr as [(rest & Hs & Hz) Hl Ha].
  assert (u32 (map_len m - 1) = zlen es - 1) as E1
    by (rewrite Hl; apply wrap_small; lia).
  assert (u32 (map_len m1 - i) = zlen es - 1 - i) as E2.
  { change (map_len m1) with (u32 (map_len m - 1)). rewrite E1. apply wrap_small. lia. }
  destruct (move_down (Some <$> es) rest i) as (rest' & Hz' & Hmv);
    [by rewrite zlen_fmap|]. rewrite zlen_fmap in Hmv.
  unfold scan_move. rewrite E2. change (map_scan m1) with (map_scan m). rewrite Hs.
  cbn [mbind option_bind]. apply bind_Some in Hmv as (b & -> & Hmv).
  cbn [mbind option_bind]. rewrite Hmv. cbn [mbind option_bind].
  eexists. split; [reflexivity|]. split; cbn.
  - exists rest'. rewrite fmap_delete_list. split; [done|]. rewrite zlen_delete by done. lia.
  - rewrite E1, zlen_delete by done. done.
  - done.
Qed.

Lemma scan_set_spec m es i e :
  table_repr m es -> 0 <= i < zlen es ->
  exists m', scan_set m i e = Some m' /\ table_repr m' (<[Z.to_nat i := e]> es).
Proof.
  intros [(rest & Hs & Hz) Hl Ha] Hi. unfold scan_set. rewrite Hs. cbn [mbind option_bind].
  unfold mset. pose proof (zlen_nonneg rest).
  rewrite bool_decide_true by (rewrite zlen_app, zlen_fmap; lia). cbn [mbind option_bind].
  eexists. split; [reflexivity|]. split; cbn; rewrite ?zlen_insert; [|done|done].
  exists rest. rewrite insert_app_l by (rewrite length_fmap; unfold zlen in *; lia).
  by rewrite list_fmap_insert.
Qed.

(** Inserting an entry, as [ir_establish_scancode] does when there is room. *)
Lemma insert_spec m es i e :
  table_repr m es -> map_len m < map_size m -> 0 <= i <= zlen es ->
  exists m1 m', (if i <? map_len m then scan_move m (i + 1) i (u32 (map_len m - i))
                 else Some m) = Some m1 /\
    scan_set m1 i e = Some m' /\ map_len m1 = map_len m /\
    table_repr (set_map_len (u32 (map_len m + 1)) m')
      (take (Z.to_nat i) es ++ e :: drop (Z.to_nat i) es).
Proof.
  intros Hr Hroom Hi. pose proof (repr_bounds _ _ Hr) as (Hlen & Hsz & Hal).
  destruct Hr as [(rest & Hs & Hz) Hl Ha].
  assert (u32 (map_len m + 1) = zlen es + 1) as E1 by (rewrite Hl; apply wrap_small; lia).
  assert (zlen (take (Z.to_nat i) es ++ e :: drop (Z.to_nat i) es) = zlen es + 1) as Ez.
  { rewrite zlen_app, zlen_cons. unfold zlen in *. rewrite length_take, length_drop. lia. }
  assert (forall rest', zlen rest' = zlen rest - 1 ->
    table_repr (set_map_len (u32 (map_len m + 1)) (set_map_scan
      (Some ((Some <$> (take (Z.to_nat i) es ++ e :: drop (Z.to_nat i) es)) ++ rest')) m))
      (take (Z.to_nat i) es ++ e :: drop (Z.to_nat i) es)) as Hdone.
  { intros rest' Hrest. split; cbn; [|lia|done]. exists rest'. split; [done|]. lia. }
  destruct (Z.ltb_spec i (map_len m)) as [Hlt|Hge].
  - assert (u32 (map_len m - i) = zlen es - i) as E2 by (rewrite Hl; apply wrap_small; lia).
    pose proof (move_up (Some <$> es) rest i (Some e)) as Hmv.
    rewrite zlen_fmap in Hmv. specialize (Hmv ltac:(lia) ltac:(lia)).
    apply bind_Some in Hmv as (b & Hb & Hmv). apply bind_Some in Hmv as (s1 & Hs1 & Hmv).
    unfold scan_move. rewrite E2, Hs. cbn [mbind option_bind]. rewrite Hb.
    cbn [mbind option_bind]. rewrite Hs1. cbn [mbind option_bind].
    unfold scan_set. do 2 eexists. split; [reflexivity|]. cbn [map_scan set_map_scan mbind option_bind].
    rewrite Hmv. cbn [mbind option_bind]. split; [reflexivity|]. split; [done|].
    rewrite <- fmap_take, <- fmap_drop, <- (fmap_cons Some), <- fmap_app. apply Hdone.
    unfold zlen in *. rewrite length_drop. lia.
  - assert (i = zlen es) as -> by lia. exists m. unfold scan_set. rewrite Hs.
    cbn [mbind option_bind]. unfold mset. rewrite bool_decide_true by (rewrite zlen_app, zlen_fmap; lia).
    cbn [mbind option_bind]. eexists. split; [done|]. split; [reflexivity|]. split; [done|].
    destruct rest as [|r rest]; [rewrite zlen_nil in *; lia|].
    rewrite insert_app_r_alt by (rewrite length_fmap; unfold zlen; lia).
    rewrite length_fmap. unfold zlen. rewrite Nat2Z.id, Nat.sub_diag. cbn [list_insert insert].
    specialize (Hdone rest). unfold zlen in Hdone. rewrite Nat2Z.id, take_ge, drop_ge in Hdone by lia.
    rewrite take_ge, drop_ge by lia.
    replace ((Some <$> es) ++ Some e :: rest) with ((Some <$> (es ++ [e])) ++ rest).
    + apply Hdone. cbn [length]. lia.
    + rewrite fmap_app, <- app_assoc. done.
Qed.

(** ** Tables as finite maps *)

Lemma insert_delete_perm {A} (l : list A) (i : nat) e x :
  l !! i = Some e -> <[i:=x]> l ≡ₚ x :: delete i l.
Proof.
  intros He. assert (i < length l)%nat by (apply lookup_lt_Some in He; done).
  rewrite insert_take_drop, delete_take_drop by done. by rewrite <- Permutation_middle.
Qed.

Lemma sorted_nodup es :
  StronglySorted entry_lt es -> NoDup ((fun e => (scancode e, keycode e)) <$> es).*1.
Proof.
  induction 1 as [|e es Hs IH Hlt]; [constructor|]. cbn. constructor; [|done].
  intros Hin. apply list_elem_of_fmap in Hin as ([c k] & Hc & Hin). cbn in Hc. subst.
  apply list_elem_of_fmap in Hin as (e' & He & Hin).
  injection He as He _. rewrite Forall_forall in Hlt. specialize (Hlt _ Hin).
  unfold entry_lt in Hlt. lia.
Qed.

Lemma view_perm es es' : StronglySorted entry_lt es -> es ≡ₚ es' -> view es = view es'.
Proof. intros Hs Hp. apply list_to_map_proper; [by apply sorted_nodup|by rewrite Hp]. Qed.

Lemma view_lookup es c k :
  StronglySorted entry_lt es ->
  view es !! c = Some k <-> exists e, e ∈ es /\ scancode e = c /\ keycode e = k.
Proof.
  intros Hs. unfold view. rewrite <- elem_of_list_to_map by (by apply sorted_nodup).
  rewrite list_elem_of_fmap. split.
  - intros (e & [= -> ->] & He). eauto.
  - intros (e & He & <- & <-). eauto.
Qed.

Lemma view_lookup_none es c :
  StronglySorted entry_lt es ->
  view es !! c = None <-> forall e, e ∈ es -> scancode e <> c.
Proof.
  intros Hs. rewrite eq_None_not_Some. split.
  - intros Hn e He Hc. apply Hn. exists (keycode e). apply view_lookup; eauto.
  - intros Hn (k & Hk). apply view_lookup in Hk as (e & He & Hc & _); [|done]. by apply (Hn e).
Qed.

Lemma sorted_delete es i : StronglySorted entry_lt es -> StronglySorted entry_lt (delete i es).
Proof.
  intros Hs. destruct (decide (i < length es)%nat).
  2: { by rewrite delete_take_drop, take_ge, drop_ge, app_nil_r by lia. }
  rewrite delete_take_drop. rewrite <- (take_drop i es) in Hs.
  apply StronglySorted_app in Hs as (Hlt & H1 & H2). apply StronglySorted_app.
  destruct (lookup_lt_is_Some_2 es i) as [e He]; [done|].
  rewrite (drop_S _ _ _ He) in *. apply StronglySorted_cons in H2 as [Hf H2].
  split_and!; [|done..]. intros x1 x2 Hx1 Hx2. apply Hlt; [done|]. by right.
Qed.

Lemma sorted_update es i e k :
  StronglySorted entry_lt es -> es !! i = Some e ->
  StronglySorted entry_lt (<[i := mk_scan (scancode e) k]> es).
Proof.
  intros Hs He. revert i He. induction Hs as [|x es Hs IH Hlt]; intros i He; [done|].
  destruct i as [|i]; cbn in *.
  - injection He as ->. constructor; done.
  - constructor; [by apply IH|]. apply Forall_insert; [done|].
    apply (Forall_lookup_1 _ _ _ _ Hlt He).
Qed.

Lemma sorted_insert es i e :
  StronglySorted entry_lt es ->
  Forall (fun x => entry_lt x e) (take i es) -> Forall (entry_lt e) (drop i es) ->
  StronglySorted entry_lt (take i es ++ e :: drop i es).
Proof.
  intros Hs Hl Hg. rewrite <- (take_drop i es) in Hs.
  apply StronglySorted_app in Hs as (Hlt & H1 & H2). apply StronglySorted_app.
  rewrite Forall_forall in Hl, Hg. split_and!; [|done|].
  - intros x1 x2 Hx1 [->|Hx2]%elem_of_cons; [by apply Hl|by apply Hlt].
  - apply StronglySorted_cons. split; [by apply Forall_forall|done].
Qed.

Lemma view_split es i e :
  StronglySorted entry_lt es -> es !! i = Some e ->
  view es = <[scancode e := keycode e]> (view (delete i es)) /\
  view (delete i es) !! scancode e = None.
Proof.
  intros Hs He. pose proof (delete_Permutation _ _ _ He) as Hp. split.
  - by rewrite (view_perm _ _ Hs Hp).
  - apply not_elem_of_list_to_map_1. pose proof (sorted_nodup _ Hs) as Hnd.
    rewrite Hp in Hnd. cbn in Hnd. by inversion Hnd.
Qed.

Lemma view_delete es i e :
  StronglySorted entry_lt es -> es !! i = Some e ->
  view (delete i es) = delete (scancode e) (view es).
Proof.
  intros Hs He. destruct (view_split es i e Hs He) as [-> Hn].
  by rewrite delete_insert_id.
Qed.

Lemma view_update es i e k :
  StronglySorted entry_lt es -> es !! i = Some e ->
  view (<[i := mk_scan (scancode e) k]> es) = <[scancode e := k]> (view es).
Proof.
  intros Hs He. destruct (view_split es i e Hs He) as [-> Hn].
  rewrite (view_perm _ _ (sorted_update _ _ _ k Hs He) (insert_delete_perm _ _ _ _ He)).
  by rewrite insert_insert_eq.
Qed.

Lemma view_insert es i e :
  StronglySorted entry_lt (take i es ++ e :: drop i es) ->
  view (take i es ++ e :: drop i es) = <[scancode e := keycode e]> (view es).
Proof.
  intros Hs. rewrite (view_perm _ (e :: es) Hs); [done|].
  rewrite <- Permutation_middle, take_drop. done.
Qed.

(** ** Searching *)

Lemma keycode_used_spec m es code :
  table_repr m es -> forall n i, (i + n)%nat = length es ->
  keycode_used m n (Z.of_nat i) code =
  Some (existsb (fun e => keycode e =? code) (drop i es)).
Proof.
  intros Hr n. induction n as [|n IH]; intros i Hi.
  { by rewrite drop_ge by lia. }
  destruct (lookup_lt_is_Some_2 es i) as [e He]; [lia|].
  cbn [keycode_used]. rewrite (scan_get_lookup m es i e Hr He). cbn [mbind option_bind].
  rewrite (drop_S _ _ _ He). cbn [existsb]. destruct (keycode e =? code); [done|].
  replace (Z.of_nat i + 1) with (Z.of_nat (S i)) by lia. apply IH. lia.
Qed.

Lemma sorted_drop_gt es i e :
  StronglySorted entry_lt es -> es !! i = Some e -> Forall (entry_lt e) (drop (S i) es).
Proof.
  intros Hs He. rewrite <- (take_drop i es), (drop_S _ _ _ He) in Hs.
  apply StronglySorted_app in Hs as (_ & _ & Hs). by apply StronglySorted_cons in Hs as [].
Qed.

Lemma establish_search_spec m es code :
  table_repr m es -> StronglySorted entry_lt es -> forall n i, (i + n)%nat = length es ->
  Forall (fun e => scancode e < code) (take i es) ->
  exists r, establish_search m n (Z.of_nat i) code = Some r /\
    match r with
    | inl j => exists k e, j = Z.of_nat k /\ es !! k = Some e /\ scancode e = code
    | inr j => exists k, j = Z.of_nat k /\ (k <= length es)%nat /\
        Forall (fun e => scancode e < code) (take k es) /\
        Forall (fun e => code < scancode e) (drop k es)
    end.
Proof.
  intros Hr Hs n. induction n as [|n IH]; intros i Hi Hlt.
  { exists (inr (Z.of_nat i)). split; [done|]. exists i. rewrite drop_ge by lia. split_and!; auto; lia. }
  destruct (lookup_lt_is_Some_2 es i) as [e He]; [lia|].
  cbn [establish_search]. rewrite (scan_get_lookup m es i e Hr He). cbn [mbind option_bind].
  destruct (Z.eqb_spec (scancode e) code) as [E|E].
  { exists (inl (Z.of_nat i)). split; [done|]. by exists i, e. }
  destruct (Z.geb_spec (scancode e) code) as [G|G].
  - exists (inr (Z.of_nat i)). split; [done|]. exists i. split_and!; [done|lia|done|].
    rewrite (drop_S _ _ _ He). constructor; [lia|].
    eapply Forall_impl; [by apply (sorted_drop_gt es i e)|].
    unfold entry_lt. intros x Hx. cbn in Hx. lia.
  - replace (Z.of_nat i + 1) with (Z.of_nat (S i)) by lia. apply IH; [lia|].
    rewrite (take_S_r _ _ _ He). apply Forall_app. split; [done|]. constructor; [lia|done].
Qed.

(** ** Updating an entry *)

(** Does this keycode mean that the mapping is to be removed? *)
Definition removes (k : Z) : bool := (k =? KEY_RESERVED) || (k =? KEY_UNKNOWN).

Definition updated (es : list rc_map_table) (i : nat) (e : rc_map_table) (k : Z) :=
  if removes k then delete i es else <[i := mk_scan (scancode e) k]> es.

Lemma set_keybit_ok k dev :
  0 <= k < KEY_CNT -> set_keybit_at k dev = Some (set_keybit ({[k]} ∪ keybit dev) dev).
Proof.
  intros. unfold set_keybit_at. rewrite (proj2 (Z.leb_le _ _)), (proj2 (Z.ltb_lt _ _)) by lia. done.
Qed.

Lemma clear_keybit_ok k dev :
  0 <= k < KEY_CNT -> clear_keybit_at k dev = Some (set_keybit (keybit dev ∖ {[k]}) dev).
Proof.
  intros. unfold clear_keybit_at. rewrite (proj2 (Z.leb_le _ _)), (proj2 (Z.ltb_lt _ _)) by lia. done.
Qed.

(** The first half of [ir_update_mapping]: the table is updated and the new
    keycode announced. *)
Lemma update_entry_spec dev es i e k :
  table_repr (rd_map dev) es -> es !! i = Some e -> 0 <= k < KEY_CNT ->
  exists dev1,
    (if (k =? KEY_RESERVED) || (k =? KEY_UNKNOWN) then
       let m := set_map_len (u32 (map_len (rd_map dev) - 1)) (rd_map dev) in
       m ← scan_move m (Z.of_nat i) (Z.of_nat i + 1) (u32 (map_len m - Z.of_nat i));
       Some (set_rd_map m dev)
     else
       m ← scan_set (rd_map dev) (Z.of_nat i) (set_keycode k e);
       set_keybit_at k (set_rd_map m dev)) = Some dev1 /\
    table_repr (rd_map dev1) (updated es i e k) /\ table_frame dev dev1 /\
    keybit dev1 = (if removes k then keybit dev else {[k]} ∪ keybit dev).
Proof.
  intros Hr He Hk. assert (0 <= Z.of_nat i < zlen es) as Hi.
  { apply lookup_lt_Some in He. unfold zlen. lia. }
  unfold updated. fold (removes k). destruct (removes k).
  - destruct (remove_spec (rd_map dev) es (Z.of_nat i) Hr Hi) as (m' & Hm & Hr').
    cbv zeta in Hm. cbv zeta. rewrite Hm. cbn [mbind option_bind]. rewrite Nat2Z.id in Hr'.
    eexists. split; [reflexivity|]. done.
  - destruct (scan_set_spec (rd_map dev) es (Z.of_nat i) (set_keycode k e) Hr Hi) as (m' & Hm & Hr').
    rewrite Hm. cbn [mbind option_bind]. rewrite Nat2Z.id in Hr'. rewrite set_keybit_ok by done.
    eexists. split; [reflexivity|]. done.
Qed.

Lemma updated_elem es i e k x :
  es !! i = Some e ->
  x ∈ updated es i e k <->
  x ∈ delete i es \/ (removes k = false /\ x = mk_scan (scancode e) k).
Proof.
  intros He. unfold updated. destruct (removes k); [naive_solver|].
  rewrite (insert_delete_perm _ _ _ _ He), elem_of_cons. naive_solver.
Qed.

Lemma existsb_keycode es k :
  existsb (fun e => keycode e =? k) es = true <-> exists e, e ∈ es /\ keycode e = k.
Proof.
  rewrite existsb_exists. setoid_rewrite <- list_elem_of_In. by setoid_rewrite Z.eqb_eq.
Qed.

(** The key bits after an update, from the set that the code computes. *)
Lemma keybits_updated es i e k (kb kb' : gset Z) :
  es !! i = Some e ->
  (forall c, c ∈ kb <-> c <> KEY_RESERVED /\ exists x, x ∈ es /\ keycode x = c) ->
  (forall c, c ∈ kb' <->
     if bool_decide (c = keycode e /\ keycode e <> KEY_RESERVED)
     then existsb (fun x => keycode x =? keycode e) (updated es i e k) = true
     else c ∈ kb \/ (removes k = false /\ c = k)) ->
  forall c, c ∈ kb' <-> c <> KEY_RESERVED /\ exists x, x ∈ updated es i e k /\ keycode x = c.
Proof.
  intros He Hkb Hkb' c. rewrite Hkb'. clear Hkb'. case_bool_decide as Hc.
  { destruct Hc as [-> Hn]. rewrite existsb_keycode. naive_solver. }
  rewrite Hkb. setoid_rewrite (updated_elem es i e k); [|done].
  assert (forall x, x ∈ es <-> x = e \/ x ∈ delete i es) as Hin.
  { intros x. by rewrite (delete_Permutation _ _ _ He) at 1; rewrite elem_of_cons. }
  setoid_rewrite Hin. destruct (removes k) eqn:Hk.
  - split.
    + intros [(Hn & x & [->|Hx] & <-)|[? _]]; [|eauto 6|done]. destruct Hc. done.
    + intros (Hn & x & [Hx|[? _]] & <-); [|done]. left. eauto.
  - assert (k <> KEY_RESERVED) as Hk0.
    { intros ->. unfold removes in Hk. by rewrite Z.eqb_refl in Hk. }
    split.
    + intros [(Hn & x & [->|Hx] & <-)|[_ ->]]; [by destruct Hc|eauto 6|].
      split; [done|]. eexists. split; [by right|]. done.
    + intros (Hn & x & [Hx|[_ ->]] & <-); [eauto 6|]. by right.
Qed.

Lemma update_spec dev es i e k :
  table_repr (rd_map dev) es -> Forall entry_ok es -> keybits_ok dev es ->
  es !! i = Some e -> 0 <= k < KEY_CNT ->
  exists dev', ir_update_mapping dev (Z.of_nat i) k = Some (dev', keycode e) /\
    table_repr (rd_map dev') (updated es i e k) /\ table_frame dev dev' /\
    keybits_ok dev' (updated es i e k).
Proof.
  intros Hr Hok Hkb He Hk.
  assert (0 <= keycode e < KEY_CNT) as Hold.
  { by apply (Forall_lookup_1 _ _ _ _ Hok He). }
  unfold ir_update_mapping. rewrite (scan_get_lookup _ es i e Hr He). cbn [mbind option_bind].
  destruct (update_entry_spec dev es i e k Hr He Hk) as (dev1 & E1 & Hr1 & Hf1 & Hk1).
  cbv zeta in E1 |- *. rewrite E1. cbn [mbind option_bind].
  destruct (Z.eqb_spec (keycode e) KEY_RESERVED) as [Hz|Hz].
  { eexists. split; [reflexivity|]. split_and!; [done..|]. unfold keybits_ok.
    apply (keybits_updated es i e k _ _ He Hkb). intros c. rewrite bool_decide_false by tauto.
    rewrite Hk1. destruct (removes k); [naive_solver|]. set_solver. }
  rewrite clear_keybit_ok by done. cbn [mbind option_bind rd_map set_keybit].
  assert (map_len (rd_map dev1) = Z.of_nat (length (updated es i e k))) as El
    by (rewrite (tr_len _ _ Hr1); done).
  change (rd_map (set_keybit (keybit dev1 ∖ {[keycode e]}) dev1)) with (rd_map dev1).
  rewrite El, Nat2Z.id. change 0 with (Z.of_nat 0) at 1.
  rewrite (keycode_used_spec _ _ (keycode e) Hr1 (length (updated es i e k)) 0%nat eq_refl).
  rewrite drop_0. cbn [mbind option_bind].
  set (used := existsb _ _).
  assert (exists dev2, (if (used : bool) then set_keybit_at (keycode e)
      (set_keybit (keybit dev1 ∖ {[keycode e]}) dev1)
    else Some (set_keybit (keybit dev1 ∖ {[keycode e]}) dev1)) = Some dev2 /\
    rd_map dev2 = rd_map dev1 /\ table_frame dev1 dev2 /\ keybits_ok dev2 (updated es i e k))
    as (dev2 & E2 & Hm2 & Hf2 & Hkb2).
  { assert (forall kb, (forall c, c ∈ kb <-> if bool_decide (c = keycode e /\ keycode e <> KEY_RESERVED)
       then used = true else c ∈ keybit dev \/ (removes k = false /\ c = k)) ->
       keybits_ok (set_keybit kb dev1) (updated es i e k)) as Hfin.
    { intros kb Hkb'. exact (keybits_updated es i e k (keybit dev) kb He Hkb Hkb'). }
    destruct used eqn:Hu; rewrite ?set_keybit_ok by done; eexists; (split; [reflexivity|]);
      (split_and!; [done..|]); apply Hfin; intros c; cbn [keybit set_keybit]; rewrite Hk1;
      case_bool_decide as Hc; destruct (removes k); set_solver. }
  rewrite E2. cbn [mbind option_bind]. rewrite <- Hm2 in Hr1.
  destruct (resize_spec dev2 _ Hr1) as (dev3 & rc & -> & Hrz). cbn [mbind option_bind].
  eexists. split; [reflexivity|]. destruct Hrz. split_and!; [done| |].
  - eauto using table_frame_trans.
  - unfold keybits_ok. by rewrite rz_keybit0.
Qed.

(** ** Establishing a scancode *)

(** The scancode that the table stores for [code] on this device. *)
Definition masked (dev : rc_dev) (code : Z) : Z :=
  if truthy (scanmask dev) then Z.land code (scanmask dev) else code.

Definition in_table (es : list rc_map_table) (code : Z) : Prop :=
  exists e, e ∈ es /\ scancode e = code.

Inductive established (dev dev' : rc_dev) (es : list rc_map_table) (code : Z) : Z -> Prop :=
  | est_found k e :
      dev' = dev -> es !! k = Some e -> scancode e = code ->
      established dev dev' es code (Z.of_nat k)
  | est_full :
      ~ in_table es code -> table_repr (rd_map dev') es ->
      map_size (rd_map dev) = map_len (rd_map dev) ->
      table_frame dev dev' -> keybit dev' = keybit dev ->
      established dev dev' es code NOT_FOUND
  | est_new k :
      ~ in_table es code -> (k <= length es)%nat ->
      let es' := take k es ++ mk_scan code KEY_RESERVED :: drop k es in
      StronglySorted entry_lt es' -> table_repr (rd_map dev') es' ->
      table_frame dev dev' -> keybit dev' = keybit dev ->
      (map_size (rd_map dev) <> map_len (rd_map dev) ->
       map_size (rd_map dev') = map_size (rd_map dev)) ->
      established dev dev' es code (Z.of_nat k).

Lemma scan_move_size m dst src n m' : scan_move m dst src n = Some m' -> map_size m' = map_size m.
Proof.
  unfold scan_move. intros E. apply bind_Some in E as (s & _ & E).
  apply bind_Some in E as (b & _ & E). by apply bind_Some in E as (s' & _ & [= <-]).
Qed.

Lemma insert_at_spec dev1 es k code :
  table_repr (rd_map dev1) es -> map_len (rd_map dev1) < map_size (rd_map dev1) ->
  (k <= length es)%nat ->
  exists dev2,
    (let m := rd_map dev1 in
     m ← (if Z.of_nat k <? map_len m then scan_move m (Z.of_nat k + 1) (Z.of_nat k)
            (u32 (map_len m - Z.of_nat k)) else Some m);
     m ← scan_set m (Z.of_nat k) (mk_scan code KEY_RESERVED);
     Some (set_rd_map (set_map_len (u32 (map_len m + 1)) m) dev1, Z.of_nat k)) =
      Some (dev2, Z.of_nat k) /\
    table_repr (rd_map dev2) (take k es ++ mk_scan code KEY_RESERVED :: drop k es) /\
    table_frame dev1 dev2 /\ keybit dev2 = keybit dev1 /\
    map_size (rd_map dev2) = map_size (rd_map dev1).
Proof.
  intros Hr Hroom Hk.
  destruct (insert_spec (rd_map dev1) es (Z.of_nat k) (mk_scan code KEY_RESERVED) Hr Hroom)
    as (m1 & m2 & E1 & E2 & El & Hr2); [unfold zlen; lia|].
  cbv zeta. rewrite E1. cbn [mbind option_bind]. rewrite E2. cbn [mbind option_bind].
  rewrite Nat2Z.id in Hr2.
  assert (map_len m2 = map_len (rd_map dev1) /\ map_size m2 = map_size (rd_map dev1)) as [-> Ez].
  { unfold scan_set in E2. apply bind_Some in E2 as (s & _ & E2).
    apply bind_Some in E2 as (s' & _ & [= <-]). cbn. rewrite El. split; [done|].
    destruct (_ <? _); [by apply scan_move_size in E1|]. by injection E1 as ->. }
  eexists. split; [reflexivity|]. done.
Qed.

Lemma establish_spec dev es code resize :
  table_repr (rd_map dev) es -> StronglySorted entry_lt es ->
  exists dev' i, ir_establish_scancode dev code resize = Some (dev', i) /\
    established dev dev' es (masked dev code) i.
Proof.
  intros Hr Hs. unfold ir_establish_scancode. fold (masked dev code).
  set (c := masked dev code).
  replace (Z.to_nat (map_len (rd_map dev))) with (length es)
    by (rewrite (tr_len _ _ Hr); unfold zlen; lia).
  destruct (establish_search_spec _ es c Hr Hs (length es) 0%nat eq_refl) as (r & E & Hres);
    [by constructor|].
  change (Z.of_nat 0) with 0 in E. rewrite E. cbn [mbind option_bind].
  destruct r as [j|j].
  { destruct Hres as (k & e & -> & He & Hc). do 2 eexists. split; [reflexivity|].
    by eapply est_found. }
  destruct Hres as (k & -> & Hk & Hlt & Hgt).
  assert (~ in_table es c) as Hnot.
  { intros (e & He & Hc). rewrite <- (take_drop k es) in He.
    rewrite Forall_forall in Hlt, Hgt. apply elem_of_app in He as [He|He].
    - specialize (Hlt _ He). lia.
    - specialize (Hgt _ He). lia. }
  assert (StronglySorted entry_lt (take k es ++ mk_scan c KEY_RESERVED :: drop k es)) as Hs'
    by (by apply sorted_insert).
  pose proof (repr_bounds _ _ Hr) as (Hlen & _).
  destruct (Z.eqb_spec (map_size (rd_map dev)) (map_len (rd_map dev))) as [Hf|Hf].
  - destruct resize; cbn [negb mbind option_bind].
    2: { do 2 eexists. split; [reflexivity|]. apply est_full; auto with rc. }
    destruct (resize_spec dev es Hr) as (dev1 & rc & -> & Hrz). cbn [mbind option_bind].
    destruct Hrz as [Hr1 Hf1 Hk1 Hrc Hroom _].
    destruct (Z.eqb_spec rc 0) as [->|]; cbn [negb].
    2: { do 2 eexists. split; [reflexivity|]. by apply est_full. }
    destruct (insert_at_spec dev1 es k c Hr1) as (dev2 & E2 & Hr2 & Hf2 & Hk2 & _); [auto..|].
    cbv zeta in E2 |- *. rewrite E2.
    do 2 eexists. split; [reflexivity|]. eapply est_new; try done.
    + eauto using table_frame_trans.
    + congruence.
  - cbn [mbind option_bind negb].
    destruct (insert_at_spec dev es k c Hr) as (dev2 & E2 & Hr2 & Hf2 & Hk2 & Hz2); [lia|done|].
    cbv zeta in E2 |- *. rewrite E2.
    do 2 eexists. split; [reflexivity|]. by eapply est_new.
Qed.

(** ** Setting one mapping *)

Definition set_mapping (code k : Z) (v : gmap Z Z) : gmap Z Z :=
  if removes k then delete code v else <[code := k]> v.

(** Establishing a scancode and updating the entry, as [ir_setkeycode] and
    [ir_setkeytable] do. *)
Definition set_entry (dev : rc_dev) (code k : Z) (resize : bool) : option (rc_dev * Z * option Z) :=
  '(dev, index) ← ir_establish_scancode dev code resize;
  if index >=? map_len (rd_map dev) then Some (dev, - ENOMEM, None) else
  '(dev, old) ← ir_update_mapping dev index k;
  Some (dev, 0, Some old).

Lemma updated_wf dev' es i e k :
  StronglySorted entry_lt es -> Forall entry_ok es ->
  Forall (fun e => keycode e <> KEY_RESERVED /\ keycode e <> KEY_UNKNOWN) (delete i es) ->
  es !! i = Some e -> 0 <= k < KEY_CNT ->
  table_repr (rd_map dev') (updated es i e k) -> keybits_ok dev' (updated es i e k) ->
  keymap_wf dev' (updated es i e k).
Proof.
  intros Hs Hok Hused He Hk Hr Hkb.
  assert (forall x, x ∈ updated es i e k -> entry_ok x) as Hok'.
  { intros x Hx. rewrite (delete_Permutation _ _ _ He), Forall_cons in Hok.
    destruct Hok as [He' Hok]. rewrite Forall_forall in Hok.
    apply (updated_elem es i e k x He) in Hx as [Hx|[_ ->]]; [by apply Hok|].
    split; [apply He'|done]. }
  split; [done| |by apply Forall_forall| |done].
  - unfold updated. destruct (removes k); [by apply sorted_delete|by apply sorted_update].
  - apply Forall_forall. intros x Hx. rewrite Forall_forall in Hused.
    apply (updated_elem es i e k x He) in Hx as [Hx|[Hrm ->]]; [by apply Hused|]. cbn.
    unfold removes in Hrm. apply orb_false_iff in Hrm as [H1 H2].
    apply Z.eqb_neq in H1, H2. done.
Qed.

Lemma view_updated es i e k :
  StronglySorted entry_lt es -> es !! i = Some e ->
  view (updated es i e k) = set_mapping (scancode e) k (view es).
Proof.
  intros Hs He. unfold updated, set_mapping.
  destruct (removes k); [by apply view_delete|by apply view_update].
Qed.

Lemma masked_range dev code :
  0 <= code < 2 ^ 32 -> 0 <= scanmask dev < 2 ^ 32 -> 0 <= masked dev code < 2 ^ 32.
Proof. intros. unfold masked. destruct (truthy _); [|done]. by apply land_bound. Qed.

Lemma lookup_new_entry {A} (es : list A) n e :
  (n <= length es)%nat -> (take n es ++ e :: drop n es) !! n = Some e.
Proof.
  intros Hn. rewrite lookup_app_r; rewrite length_take; [|lia].
  replace (n - n `min` length es)%nat with 0%nat by lia. done.
Qed.

Lemma lookup_zlen_ltb {A} (es : list A) k e :
  es !! k = Some e -> (Z.of_nat k >=? zlen es) = false.
Proof.
  intros He. apply lookup_lt_Some in He. rewrite Z.geb_leb. apply Z.leb_gt. unfold zlen. lia.
Qed.

(** Updating the entry with a scancode that is in the table. *)
Lemma update_wf dev es i e k :
  keymap_wf dev es -> es !! i = Some e -> 0 <= k < KEY_CNT ->
  exists dev' es', ir_update_mapping dev (Z.of_nat i) k =
      Some (dev', default KEY_RESERVED (view es !! scancode e)) /\
    keymap_wf dev' es' /\ table_frame dev dev' /\
    view es' = set_mapping (scancode e) k (view es).
Proof.
  intros [Hr Hs Hok Hused Hkb] He Hk.
  destruct (update_spec dev es i e k Hr Hok Hkb He Hk) as (dev' & E & Hr' & Hf' & Hkb').
  exists dev', (updated es i e k).
  assert (view es !! scancode e = Some (keycode e)) as Hv.
  { apply view_lookup; [done|]. exists e. split; [|done]. by eapply list_elem_of_lookup_2. }
  rewrite Hv. split_and!; [done| |done|by apply view_updated].
  apply updated_wf; try done. by apply Forall_delete.
Qed.

Inductive set_outcome (dev dev' : rc_dev) (es : list rc_map_table) (code k : Z) :
    Z -> option Z -> Prop :=
  | set_done es' :
      keymap_wf dev' es' -> table_frame dev dev' ->
      view es' = set_mapping code k (view es) ->
      set_outcome dev dev' es code k 0 (Some (default KEY_RESERVED (view es !! code)))
  | set_full :
      keymap_wf dev' es -> table_frame dev dev' ->
      view es !! code = None -> map_size (rd_map dev) = map_len (rd_map dev) ->
      set_outcome dev dev' es code k (- ENOMEM) None.

Lemma not_in_table_view es code :
  StronglySorted entry_lt es -> ~ in_table es code -> view es !! code = None.
Proof.
  intros Hs Hn. apply view_lookup_none; [done|]. intros e He Hc. apply Hn. by exists e.
Qed.

Lemma set_entry_spec dev es code k resize :
  keymap_wf dev es -> 0 <= code < 2 ^ 32 -> 0 <= scanmask dev < 2 ^ 32 -> 0 <= k < KEY_CNT ->
  exists dev' rc old, set_entry dev code k resize = Some (dev', rc, old) /\
    set_outcome dev dev' es (masked dev code) k rc old.
Proof.
  intros Hwf Hcode Hmask Hk. pose proof Hwf as [Hr Hs Hok Hused Hkb]. unfold set_entry.
  pose proof (masked_range dev code Hcode Hmask) as Hc.
  destruct (establish_spec dev es code resize Hr Hs) as (dev1 & i & -> & Hest).
  cbn [mbind option_bind]. inversion Hest as [n e -> He Hsc|Hnot Hr1 Hfull Hf1 Hk1|
    n Hnot Hn es1 Hs1 Hr1 Hf1 Hk1 Hz1]; subst i.
  - rewrite (tr_len _ _ Hr), (lookup_zlen_ltb _ _ _ He).
    destruct (update_wf dev es n e k Hwf He Hk) as (dev' & es' & -> & Hwf' & Hf' & Hv').
    cbn [mbind option_bind]. do 3 eexists. split; [reflexivity|]. rewrite Hsc in *.
    by eapply set_done.
  - pose proof (repr_bounds _ _ Hr1) as (Hb & Hb2 & _).
    assert ((NOT_FOUND >=? map_len (rd_map dev1)) = true) as ->.
    { apply Z.geb_le. unfold NOT_FOUND. lia. }
    do 3 eexists. split; [reflexivity|]. apply set_full; [|done|by apply not_in_table_view|done].
    split; try done. unfold keybits_ok. by rewrite Hk1.
  - assert (es1 !! n = Some (mk_scan (masked dev code) KEY_RESERVED)) as He1.
    { by apply lookup_new_entry. }
    rewrite (tr_len _ _ Hr1), (lookup_zlen_ltb _ _ _ He1).
    assert (delete n es1 = es) as Hdel.
    { unfold es1. rewrite delete_take_drop.
      rewrite take_app_length' by (rewrite length_take; lia).
      rewrite drop_app_ge by (rewrite length_take; lia).
      replace (S n - length (take n es))%nat with 1%nat by (rewrite length_take; lia).
      cbn [drop]. by rewrite drop_0, take_drop. }
    assert (forall x, x ∈ es1 <-> x = mk_scan (masked dev code) KEY_RESERVED \/ x ∈ es) as Hin.
    { intros x. rewrite (delete_Permutation _ _ _ He1), Hdel. by rewrite elem_of_cons. }
    assert (Forall entry_ok es1) as Hok1.
    { rewrite (delete_Permutation _ _ _ He1), Hdel. constructor; [|done]. by split. }
    assert (keybits_ok dev1 es1) as Hkb1.
    { intros c. rewrite Hk1, (Hkb c). setoid_rewrite Hin.
      split; [naive_solver|]. intros (Hc0 & x & [->|Hx] & <-); [by destruct Hc0|eauto]. }
    destruct (update_spec dev1 es1 n _ k Hr1 Hok1 Hkb1 He1 Hk) as (dev' & -> & Hr' & Hf' & Hkb').
    cbn [mbind option_bind keycode]. do 3 eexists. split; [reflexivity|].
    pose proof (not_in_table_view es (masked dev code) Hs Hnot) as Hv.
    replace KEY_RESERVED with (default KEY_RESERVED (view es !! masked dev code)) by (by rewrite Hv).
    eapply set_done; [|by eapply table_frame_trans|].
    + apply updated_wf; try done. by rewrite Hdel.
    + rewrite (view_updated es1 n _ k Hs1 He1). cbn [scancode]. unfold es1.
      rewrite view_insert by done. cbn [scancode keycode]. unfold set_mapping.
      destruct (removes k); [by rewrite delete_insert_id, delete_id by done|].
      apply insert_insert_eq.
Qed.

(** Binary search: entries left of [start] are smaller, right of [stop] larger. *)
Lemma lookup_loop_spec m es code :
  table_repr m es -> StronglySorted entry_lt es -> forall fuel start stop,
  0 <= start -> -1 <= stop < zlen es -> start <= stop + 1 -> stop - start + 1 < Z.of_nat fuel ->
  (forall i e, es !! i = Some e -> Z.of_nat i < start -> scancode e < code) ->
  (forall i e, es !! i = Some e -> stop < Z.of_nat i -> code < scancode e) ->
  exists r, lookup_loop fuel m code start stop = Some r /\
    ((exists k e, r = Z.of_nat k /\ es !! k = Some e /\ scancode e = code) \/
     (r = NOT_FOUND /\ ~ in_table es code)).
Proof.
  intros Hr Hs fuel. pose proof (repr_bounds _ _ Hr) as (Hb & Hb2 & _).
  pose proof (tr_len _ _ Hr) as Hl.
  assert (forall i j a b, es !! i = Some a -> es !! j = Some b -> (i < j)%nat ->
    scancode a < scancode b) as Hord.
  { intros i j a b Ha Hb' Hij. pose proof (sorted_drop_gt es i a Hs Ha) as Hd.
    rewrite Forall_lookup in Hd. apply (Hd (j - S i)%nat). rewrite lookup_drop.
    by replace (S i + (j - S i))%nat with j by lia. }
  induction fuel as [|fuel IH]; intros start stop H0 H1 H2 Hfuel Hlo Hhi; [lia|].
  cbn [lookup_loop]. destruct (Z.leb_spec start stop) as [Hle|Hgt].
  2: { eexists. split; [reflexivity|]. right. split; [done|]. intros (e & He & Hc).
       apply list_elem_of_lookup in He as [i He]. destruct (decide (Z.of_nat i < start)).
       - specialize (Hlo i e He). lia.
       - specialize (Hhi i e He). lia. }
  assert (s32 (start + stop) = start + stop) as -> by (apply s32_small; lia).
  rewrite Z.quot_div_nonneg by lia. set (mid := (start + stop) / 2).
  assert (start <= mid <= stop) as Hmid.
  { unfold mid. pose proof (Z.div_mod (start + stop) 2). pose proof (Z.mod_pos_bound (start + stop) 2). lia. }
  cbv zeta. destruct (lookup_lt_is_Some_2 es (Z.to_nat mid)) as [e He]; [unfold zlen in *; lia|].
  rewrite (scan_get_repr m es mid Hr) by lia. rewrite He. cbn [mbind option_bind].
  assert (s32 (mid + 1) = mid + 1) as -> by (apply s32_small; lia).
  assert (s32 (mid - 1) = mid - 1) as -> by (apply s32_small; lia).
  destruct (Z.ltb_spec (scancode e) code).
  { apply IH; try lia; [|done]. intros i x Hx Hi.
    destruct (decide (i = Z.to_nat mid)) as [->|]; [by simplify_eq|].
    pose proof (Hord i _ _ _ Hx He ltac:(lia)). lia. }
  destruct (Z.gtb_spec (scancode e) code).
  { apply IH; try lia; [done|]. intros i x Hx Hi.
    destruct (decide (i = Z.to_nat mid)) as [->|]; [simplify_eq; lia|].
    pose proof (Hord _ i _ _ He Hx ltac:(lia)). lia. }
  eexists. split; [reflexivity|]. left. exists (Z.to_nat mid), e. split_and!; [lia|done|lia].
Qed.

Lemma lookup_spec m es code :
  table_repr m es -> StronglySorted entry_lt es ->
  exists r, ir_lookup_by_scancode m code = Some r /\
    ((exists k e, r = Z.of_nat k /\ es !! k = Some e /\ scancode e = code) \/
     (r = NOT_FOUND /\ ~ in_table es code)).
Proof.
  intros Hr Hs. unfold ir_lookup_by_scancode. pose proof (repr_bounds _ _ Hr) as (Hb & Hb2 & _).
  pose proof (tr_len _ _ Hr) as Hl.
  rewrite s32_small by lia. apply (lookup_loop_spec m es code Hr Hs); try lia.
  intros i e He Hi. apply lookup_lt_Some in He. unfold zlen in Hl. lia.
Qed.

Lemma keycode_lookup_refines_map_aux dev es code :
  keymap_wf dev es ->
  rc_g_keycode_from_table dev code = Some (default KEY_RESERVED (view es !! code)).
Proof.
  intros [Hr Hs _ _ _]. unfold rc_g_keycode_from_table.
  destruct (lookup_spec _ es code Hr Hs) as (r & -> & [(k & e & -> & He & Hc)|[-> Hn]]);
    cbn [mbind option_bind]; rewrite (tr_len _ _ Hr).
  - pose proof (lookup_zlen_ltb _ _ _ He) as Hlt. rewrite Z.geb_leb in Hlt. apply Z.leb_gt in Hlt.
    rewrite (proj2 (Z.ltb_lt _ _)) by done. rewrite (scan_get_lookup _ es k e Hr He).
    cbn [mbind option_bind]. rewrite (proj2 (view_lookup es code (keycode e) Hs)); eauto.
    exists e. split; [by eapply list_elem_of_lookup_2|done].
  - pose proof (repr_bounds _ _ Hr) as (Hb & Hb2 & _). rewrite (tr_len _ _ Hr) in Hb.
    rewrite (proj2 (Z.ltb_ge _ _)) by (unfold NOT_FOUND; lia).
    by rewrite (not_in_table_view es code Hs Hn).
Qed.

(** Claim C18: looking a scancode up, by binary search in the sorted table, is
    lookup in the finite map the table stands for, with KEY_RESERVED for a
    scancode that has no mapping; the search terminates, stays inside the
    table and its [int] arithmetic does not overflow. *)
Theorem keycode_lookup_refines_map dev es code :
  keymap_wf dev es ->
  rc_g_keycode_from_table dev code = Some (default KEY_RESERVED (view es !! code)).
Proof. apply keycode_lookup_refines_map_aux. Qed.

(** The scancode a request to change a keycode is about, or its error. *)
Definition ke_target (dev : rc_dev) (es : list rc_map_table) (ke : input_keymap_entry) : Z + Z :=
  if truthy (Z.land (ke_flags ke) INPUT_KEYMAP_BY_INDEX) then
    if bool_decide (0 <= ke_index ke) then
      match es !! Z.to_nat (ke_index ke) with
      | Some e => inl (scancode e)
      | None => inr (- EINVAL)
      end
    else inr (- EINVAL)
  else
    let '(retval, code) := input_scancode_to_scalar (ke_scancode ke) (ke_len ke) in
    if truthy retval then inr retval else inl (masked dev code).

Lemma set_code_refines_map_aux dev es ke :
  keymap_wf dev es -> 0 <= scanmask dev < 2 ^ 32 -> 0 <= ke_keycode ke < KEY_CNT ->
  0 <= ke_index ke -> 0 <= snd (input_scancode_to_scalar (ke_scancode ke) (ke_len ke)) < 2 ^ 32 ->
  match ke_target dev es ke with
  | inr err => ir_setkeycode dev ke = Some (dev, err, None)
  | inl code => exists dev' rc old, ir_setkeycode dev ke = Some (dev', rc, old) /\
      set_outcome dev dev' es code (ke_keycode ke) rc old
  end.
Proof.
  intros Hwf Hmask Hk Hidx Hconv. unfold ke_target, ir_setkeycode.
  pose proof Hwf as [Hr Hs _ _ _]. destruct (truthy (Z.land _ _)).
  - rewrite bool_decide_true by done. rewrite (tr_len _ _ Hr).
    destruct (es !! Z.to_nat (ke_index ke)) as [e|] eqn:He.
    + pose proof (lookup_zlen_ltb _ _ _ He) as Hlt. rewrite Z2Nat.id in Hlt by done. rewrite Hlt.
      destruct (update_wf dev es _ e (ke_keycode ke) Hwf He Hk) as (dev' & es' & E & Hwf' & Hf' & Hv').
      rewrite Z2Nat.id in E by done. rewrite E. cbn [mbind option_bind].
      do 3 eexists. split; [reflexivity|]. by eapply set_done.
    + apply lookup_ge_None in He. rewrite (proj2 (Z.geb_le _ _)) by (unfold zlen; lia). done.
  - destruct (input_scancode_to_scalar _ _) as [retval code] eqn:Ec. cbn in Hconv.
    destruct (truthy retval); [done|].
    apply (set_entry_spec dev es code (ke_keycode ke) true Hwf Hconv Hmask Hk).
Qed.

(** Claim C26: [ir_setkeycode] on a well-formed table changes the finite map
    exactly as asked -- removal for KEY_RESERVED and KEY_UNKNOWN, insertion
    otherwise --, returns the previous keycode, keeps the table sorted, inside
    its array and its key bits equal to the keycodes in use, and fails only
    with -EINVAL for a bad index, the error of the scancode conversion, or
    -ENOMEM with the mapping unchanged for a new scancode in a full table. *)
Theorem setkeycode_refines_map dev es ke :
  keymap_wf dev es -> 0 <= scanmask dev < 2 ^ 32 -> 0 <= ke_keycode ke < KEY_CNT ->
  0 <= ke_index ke -> 0 <= snd (input_scancode_to_scalar (ke_scancode ke) (ke_len ke)) < 2 ^ 32 ->
  match ke_target dev es ke with
  | inr err => ir_setkeycode dev ke = Some (dev, err, None)
  | inl code => exists dev' rc old, ir_setkeycode dev ke = Some (dev', rc, old) /\
      set_outcome dev dev' es code (ke_keycode ke) rc old
  end.
Proof. apply set_code_refines_map_aux. Qed.

(** ** Loading a whole table *)

(** The mappings of a key map, applied in order. *)
Definition load_mappings (dev : rc_dev) (v : gmap Z Z) (from : list rc_map_table) : gmap Z Z :=
  fold_left (fun v e => set_mapping (masked dev (scancode e)) (keycode e) v) from v.

Lemma setkeytable_loop_spec from : forall dev es,
  keymap_wf dev es -> 0 <= scanmask dev < 2 ^ 32 -> Forall entry_ok from ->
  exists dev' rc es', setkeytable_loop dev (Some <$> from) = Some (dev', rc) /\
    keymap_wf dev' es' /\ table_frame dev dev' /\
    (rc = 0 /\ view es' = load_mappings dev (view es) from \/ rc = - ENOMEM).
Proof.
  induction from as [|e from IH]; intros dev es Hwf Hmask Hok.
  { exists dev, 0, es. split_and!; auto with rc. }
  apply Forall_cons in Hok as [[Hsc Hkc] Hok]. cbn [fmap list_fmap setkeytable_loop mbind option_bind].
  destruct (set_entry_spec dev es (scancode e) (keycode e) false Hwf Hsc Hmask Hkc)
    as (dev1 & rc & old & E & Hout). unfold set_entry in E.
  apply bind_Some in E as ([dev0 index] & -> & E). cbn [mbind option_bind].
  destruct (index >=? _).
  { injection E as <- <- <-. inversion Hout. exists dev0, (- ENOMEM), es. split_and!; auto. }
  apply bind_Some in E as ([dev2 old2] & -> & [= <- <- <-]). cbn [mbind option_bind].
  inversion Hout as [es1 Hwf1 Hf1 Hv1|]; subst.
  assert (scanmask dev2 = scanmask dev) as Hm by (rewrite Hf1; done).
  destruct (IH dev2 es1 Hwf1) as (dev' & rc & es' & -> & Hwf' & Hf' & Hres); [by rewrite Hm|done|].
  exists dev', rc, es'. split_and!; [done..|by eapply table_frame_trans|].
  destruct Hres as [[-> Hv]|]; [left|by right]. split; [done|]. rewrite Hv, Hv1.
  unfold load_mappings, masked. by rewrite Hm.
Qed.

(** Filling a fresh slot leaves the size of the array. *)
Lemma set_entry_fresh dev es code k :
  keymap_wf dev es -> 0 <= code < 2 ^ 32 -> 0 <= scanmask dev < 2 ^ 32 -> 0 <= k < KEY_CNT ->
  removes k = false -> view es !! masked dev code = None ->
  map_len (rd_map dev) < map_size (rd_map dev) ->
  exists dev' es', set_entry dev code k false = Some (dev', 0, Some KEY_RESERVED) /\
    keymap_wf dev' es' /\ table_frame dev dev' /\
    view es' = <[masked dev code := k]> (view es) /\
    map_size (rd_map dev') = map_size (rd_map dev) /\ zlen es' = zlen es + 1.
Proof.
  intros Hwf Hcode Hmask Hk Hrm Hnone Hroom. pose proof Hwf as [Hr Hs _ _ _].
  destruct (set_entry_spec dev es code k false Hwf Hcode Hmask Hk) as (dev' & rc & old & E & Hout).
  pose proof E as E0. unfold set_entry in E0.
  destruct (establish_spec dev es code false Hr Hs) as (dev1 & i & Ee & Hest).
  rewrite Ee in E0. cbn [mbind option_bind] in E0. inversion Hest as [n e -> He Hsc|
    Hnot Hr1 Hfull Hf1 Hk1|n Hnot Hn es1 Hs1 Hr1 Hf1 Hk1 Hz1]; subst i; [|lia|].
  { exfalso. assert (view es !! masked dev code = Some (keycode e)) by
      (apply view_lookup; [done|exists e; split; [by eapply list_elem_of_lookup_2|done]]).
    congruence. }
  assert (es1 !! n = Some (mk_scan (masked dev code) KEY_RESERVED)) as He1.
  { by apply lookup_new_entry. }
  rewrite (tr_len _ _ Hr1), (lookup_zlen_ltb _ _ _ He1) in E0.
  unfold ir_update_mapping in E0. rewrite (scan_get_lookup _ es1 n _ Hr1 He1) in E0.
  cbn [mbind option_bind keycode] in E0. unfold removes in Hrm. rewrite Hrm in E0.
  destruct (scan_set_spec (rd_map dev1) es1 (Z.of_nat n)
    (set_keycode k (mk_scan (masked dev code) KEY_RESERVED)) Hr1) as (m' & Em & Hr').
  { apply lookup_lt_Some in He1. unfold zlen. lia. }
  rewrite Em in E0. cbn [mbind option_bind] in E0. rewrite set_keybit_ok in E0 by done.
  cbn [mbind option_bind] in E0. rewrite Z.eqb_refl in E0. cbn [mbind option_bind] in E0.
  injection E0 as <- <- <-. inversion Hout as [es' Hwf' Hf' Hv' Hold|]; subst.
  assert (map_size m' = map_size (rd_map dev)) as Hz.
  { rewrite <- Hz1 by lia. unfold scan_set in Em. apply bind_Some in Em as (s & _ & Em).
    by apply bind_Some in Em as (s' & _ & [= <-]). }
  eexists _, es'. rewrite Hnone. split; [exact E|]. split_and!; [done|done| |done|].
  - rewrite Hv'. unfold set_mapping, removes. by rewrite Hrm.
  - destruct Hwf' as [Hr2 _ _ _ _]. rewrite <- (tr_len _ _ Hr2). cbn [rd_map set_rd_map set_keybit].
    rewrite (tr_len _ _ Hr'), zlen_insert. unfold es1. rewrite zlen_app, zlen_cons.
    unfold zlen. rewrite length_take, length_drop. lia.
Qed.

Lemma setkeytable_loop_fresh from : forall dev es,
  keymap_wf dev es -> 0 <= scanmask dev < 2 ^ 32 -> Forall entry_ok from ->
  Forall (fun e => removes (keycode e) = false) from ->
  NoDup ((fun e => masked dev (scancode e)) <$> from) ->
  Forall (fun e => view es !! masked dev (scancode e) = None) from ->
  map_len (rd_map dev) + zlen from <= map_size (rd_map dev) ->
  exists dev', setkeytable_loop dev (Some <$> from) = Some (dev', 0).
Proof.
  induction from as [|e from IH]; intros dev es Hwf Hmask Hok Hrm Hnd Hnone Hroom.
  { by exists dev. }
  rewrite zlen_cons in Hroom. pose proof (zlen_nonneg from).
  apply Forall_cons in Hok as [[Hsc Hkc] Hok]. apply Forall_cons in Hrm as [Hre Hrm].
  apply Forall_cons in Hnone as [Hne Hnone]. cbn in Hnd. apply NoDup_cons in Hnd as [Hnin Hnd].
  cbn [fmap list_fmap setkeytable_loop mbind option_bind].
  destruct (set_entry_fresh dev es (scancode e) (keycode e) Hwf Hsc Hmask Hkc Hre Hne)
    as (dev' & es' & E & Hwf' & Hf' & Hv' & Hz' & Hl'); [lia|].
  unfold set_entry in E. apply bind_Some in E as ([dev0 index] & -> & E).
  cbn [mbind option_bind]. destruct (index >=? _); [done|].
  apply bind_Some in E as ([dev2 old2] & -> & [= -> ->]). cbn [mbind option_bind].
  assert (scanmask dev' = scanmask dev) as Hm by (rewrite Hf'; done).
  assert (forall c, masked dev' c = masked dev c) as Hmk by (intros; unfold masked; by rewrite Hm).
  apply (IH dev' es'); try done.
  - by rewrite Hm.
  - rewrite (list_fmap_ext _ (fun e => masked dev (scancode e)) from); [done|]. intros; apply Hmk.
  - apply Forall_forall. intros x Hx. rewrite Hv', Hmk.
    rewrite Forall_forall in Hnone. rewrite lookup_insert_ne; [by apply Hnone|].
    intros Heq. apply Hnin. apply list_elem_of_fmap. by exists x.
  - rewrite (tr_len _ _ (kw_repr _ _ Hwf')), Hl', Hz', <- (tr_len _ _ (kw_repr _ _ Hwf)). lia.
Qed.

Context `{!RcEnvLaws H}.

Lemma create_table_spec dev name rc_type size :
  map_len (rd_map dev) = 0 -> keybit dev = ∅ -> 0 < size <= 2 ^ 27 ->
  exists dev' rc, ir_create_table dev name rc_type size = (dev', rc) /\ table_frame dev dev' /\
    (if kmalloc_ok (kmallocs dev) (roundup_pow_of_two (size * sizeof_entry))
     then rc = 0 /\ keymap_wf dev' [] /\ size <= map_size (rd_map dev')
     else rc = - ENOMEM /\ map_scan (rd_map dev') = None).
Proof.
  intros Hl Hkb Hsz. unfold ir_create_table, kmalloc.
  destruct (roundup_pow_of_two_spec (size * sizeof_entry)) as (k & Hk & Ek & Hle);
    [unfold sizeof_entry; lia|].
  assert (3 <= k) as Hk3.
  { destruct (decide (3 <= k)); [done|]. pose proof (Z.pow_le_mono_r 2 k 2). unfold sizeof_entry in *. lia. }
  pose proof (pow2_bounds k ltac:(lia)) as [Hb E].
  assert (u32 (roundup_pow_of_two (size * sizeof_entry)) = 2 ^ k) as Eu.
  { rewrite Ek. apply wrap_small. lia. }
  assert (2 ^ k / sizeof_entry = 2 ^ (k - 3)) as Ed.
  { rewrite E. unfold sizeof_entry. rewrite Z.mul_comm. apply Z.div_mul. lia. }
  cbn -[Z.pow Z.div]. rewrite Eu, Ed, Ek.
  destruct (kmalloc_ok _ _); do 2 eexists; (split; [reflexivity|]).
  2: done.
  split; [done|]. split; [done|]. cbn -[Z.pow]. split; [|unfold sizeof_entry in *; lia].
  split; cbn -[Z.pow]; [|constructor..|].
  - split; cbn -[Z.pow]; [|by rewrite zlen_nil|exists k; split_and!; lia || done]. eexists. split; [reflexivity|].
    rewrite zlen_replicate, zlen_nil. lia.
  - unfold keybits_ok. cbn. rewrite Hkb. set_solver.
Qed.

(** Fact: loading a key map into a fresh device either succeeds with a
    well-formed table that stands for the key map's entries applied in order,
    or answers -ENOMEM with the table freed; a map without duplicate
    scancodes always loads when its allocation succeeds. *)
Theorem setkeytable_loads dev from fs rest :
  map_len (rd_map dev) = 0 -> keybit dev = ∅ -> 0 <= scanmask dev < 2 ^ 32 ->
  map_scan from = Some ((Some <$> fs) ++ rest) -> map_size from = zlen fs ->
  0 < zlen fs <= 2 ^ 27 -> Forall entry_ok fs ->
  exists dev' rc, ir_setkeytable dev from = Some (dev', rc) /\ table_frame dev dev' /\
    ((rc = 0 /\ exists es, keymap_wf dev' es /\ view es = load_mappings dev ∅ fs) \/
     (rc = - ENOMEM /\ map_scan (rd_map dev') = None)) /\
    (NoDup ((fun e => masked dev (scancode e)) <$> fs) ->
     Forall (fun e => removes (keycode e) = false) fs ->
     kmalloc_ok (kmallocs dev) (roundup_pow_of_two (zlen fs * sizeof_entry)) = true -> rc = 0).
Proof.
  intros Hl Hkb Hmask Hscan Hsize Hn Hok. unfold ir_setkeytable. rewrite Hsize.
  destruct (create_table_spec dev (map_name from) (map_rc_type from) (zlen fs) Hl Hkb Hn)
    as (dev1 & rc & -> & Hf1 & Hc). destruct (kmalloc_ok _ _).
  2: { destruct Hc as [-> Hs]. cbn. exists dev1, (- ENOMEM).
       split_and!; [done|done|by right|done]. }
  destruct Hc as (-> & Hwf1 & Hroom). cbn [Z.eqb negb]. rewrite Hscan. cbn [mbind option_bind].
  pose proof (zlen_nonneg rest). rewrite mread_Some by (rewrite ?zlen_app, ?zlen_fmap; lia).
  assert (slice ((Some <$> fs) ++ rest) 0 (zlen fs) = Some <$> fs) as ->.
  { unfold slice, zlen. rewrite Nat2Z.id. change (Z.to_nat 0) with 0%nat. rewrite drop_0.
    apply take_app_length'. by rewrite length_fmap. }
  cbn [mbind option_bind].
  assert (scanmask dev1 = scanmask dev) as Hm by (rewrite Hf1; done).
  destruct (setkeytable_loop_spec fs dev1 [] Hwf1) as (dev2 & rc & es & E & Hwf2 & Hf2 & Hres);
    [by rewrite Hm|done|]. rewrite E. cbn [mbind option_bind].
  assert (forall c, masked dev1 c = masked dev c) as Hmk by (intros; unfold masked; by rewrite Hm).
  destruct (truthy rc) eqn:Hrc; do 2 eexists; (split; [reflexivity|]).
  - assert (rc <> 0) as Hn0 by (intros ->; done). destruct Hres as [[? _]| ->]; [done|].
    split_and!; [by eapply (table_frame_trans _ _ _ Hf1), (table_frame_trans _ _ _ Hf2)|by right|].
    intros Hnd Hrm _. destruct (setkeytable_loop_fresh fs dev1 [] Hwf1) as (dev3 & E3);
      try done; [by rewrite Hm| |by apply Forall_forall| |by simplify_eq].
    + rewrite (list_fmap_ext _ (fun e => masked dev (scancode e)) fs); [done|]. intros; apply Hmk.
    + rewrite (tr_len _ _ (kw_repr _ _ Hwf1)), zlen_nil. lia.
  - assert (rc = 0) as -> by (apply negb_false_iff, Z.eqb_eq in Hrc; done).
    split_and!; [by eapply table_frame_trans| |done]. left. split; [done|]. exists es.
    split; [done|]. destruct Hres as [[_ ->]|]; [|done]. unfold load_mappings.
    f_equal. apply functional_extensionality. intros v. apply functional_extensionality.
    intros e. by rewrite Hmk.
Qed.

End proofs.

(** ** Reading a keycode back *)

Section getkeycode.
Context `{RcEnv} `{!RcEnvLaws H}.

(** [ir_getkeycode] by scancode reads the map, and by index the entries in
    order, giving back the scancode's bytes. *)
Lemma getkeycode_by_scancode dev es ke code :
  keymap_wf dev es -> Z.land (ke_flags ke) INPUT_KEYMAP_BY_INDEX = 0 ->
  input_scancode_to_scalar (ke_scancode ke) (ke_len ke) = (0, code) ->
  4 <= zlen (ke_scancode ke) -> 0 <= code < 2 ^ 32 ->
  exists ke', ir_getkeycode dev ke = Some (ke', 0) /\
    ke_keycode ke' = default KEY_RESERVED (view es !! code) /\
    (view es !! code <> None -> input_scancode_to_scalar (ke_scancode ke') (ke_len ke') = (0, code)).
Proof.
  intros [Hr Hs _ _ _] Hfl Hconv Hlen Hc. unfold ir_getkeycode. rewrite Hfl. cbn [Z.eqb negb].
  rewrite Hconv. cbn [Z.eqb negb].
  destruct (lookup_spec _ es code Hr Hs) as (r & -> & [(k & e & -> & He & He2)|[-> Hn]]);
    cbn [mbind option_bind]; rewrite (tr_len _ _ Hr).
  - pose proof (lookup_zlen_ltb _ _ _ He) as Hlt. rewrite Z.geb_leb in Hlt. apply Z.leb_gt in Hlt.
    rewrite (proj2 (Z.ltb_lt _ _)) by done. rewrite (scan_get_lookup _ es k e Hr He).
    cbn [mbind option_bind]. rewrite He2.
    destruct (scancode_of_bytes code (drop 4 (ke_scancode ke)) Hc) as [Hl Hb].
    rewrite mwrite_Some by lia. cbn [mbind option_bind].
    eexists. split; [reflexivity|]. cbn [ke_keycode ke_scancode ke_len].
    rewrite (proj2 (view_lookup es code (keycode e) Hs)).
    2: { exists e. split; [by eapply list_elem_of_lookup_2|done]. }
    split; [done|]. intros _. unfold blit. change (Z.to_nat 0) with 0%nat. rewrite take_0, app_nil_l.
    unfold zlen in Hl. replace (0 + length (u32_bytes code))%nat with 4%nat by lia. done.
  - pose proof (repr_bounds _ _ Hr) as (Hb & Hb2 & _). rewrite (tr_len _ _ Hr) in Hb.
    rewrite (proj2 (Z.ltb_ge _ _)) by (unfold NOT_FOUND; lia). cbn [negb].
    eexists. split; [reflexivity|]. cbn. rewrite (not_in_table_view es code Hs Hn). done.
Qed.

End getkeycode.

(** ** Concrete tables *)

Definition sample_es : list rc_map_table := [mk_scan 0x11 30; mk_scan 0x22 48].

Definition sample_dev : rc_dev :=
  set_keybit {[30; 48]} (set_rd_map
    (mk_map (Some ((Some <$> sample_es) ++ replicate 30 None)) 32 2 256 RC_TYPE_NEC "sample")
    fresh_dev).

Lemma sample_dev_wf : keymap_wf sample_dev sample_es.
Proof.
  split.
  - split; [by exists (replicate 30 None)|done|by exists 8].
  - repeat constructor.
  - repeat constructor; done.
  - repeat constructor; done.
  - intros c. cbn. rewrite elem_of_union, !elem_of_singleton.
    setoid_rewrite elem_of_cons. setoid_rewrite list_elem_of_singleton. split.
    + intros [->| ->]; (split; [done|]); eauto.
    + intros (_ & e & [->| ->] & <-); cbn; auto.
Qed.

Lemma keycode_lookup_refines_map_witness :
  @rc_g_keycode_from_table sample_dev 0x22 = Some 48.
Proof. exact (keycode_lookup_refines_map sample_dev sample_es 0x22 sample_dev_wf). Defined.

Lemma setkeycode_refines_map_witness :
  exists dev' rc old, @ir_setkeycode sample_env sample_dev (mk_ke 0 4 0 31 [0x22; 0; 0; 0]) =
    Some (dev', rc, old) /\ set_outcome sample_dev dev' sample_es 0x22 31 rc old.
Proof.
  apply (@setkeycode_refines_map sample_env sample_dev sample_es (mk_ke 0 4 0 31 [0x22; 0; 0; 0])
    sample_dev_wf); vm_compute; repeat split; discriminate.
Defined.

Definition sample_map : rc_map :=
  mk_map (Some ((Some <$> sample_es) ++ [])) (zlen sample_es) 0 16 RC_TYPE_NEC "sample".

Lemma setkeytable_loads_witness :
  exists dev' rc, @ir_setkeytable sample_env fresh_dev sample_map = Some (dev', rc) /\ rc = 0.
Proof.
  destruct (@setkeytable_loads sample_env sample_env_laws fresh_dev sample_map sample_es [])
    as (dev' & rc & E & _ & _ & Hok);
    [reflexivity|reflexivity|cbn; lia|reflexivity|reflexivity|change (zlen sample_es) with 2; lia| |].
  - repeat constructor; vm_compute; discriminate.
  - exists dev', rc. split; [exact E|]. apply Hok; [|repeat constructor|done].
    cbn. apply NoDup_cons. split; [|apply NoDup_singleton].
    intros Hin%list_elem_of_singleton. discriminate.
Defined.

(** Forty scancodes, the first of which is repeated. *)
Definition repeated_es : list rc_map_table :=
  mk_scan 0 30 :: ((fun i => mk_scan i (30 + i)) <$> seqZ 0 40).

Definition repeated_map : rc_map :=
  mk_map (Some (Some <$> repeated_es)) (zlen repeated_es) 0 (8 * zlen repeated_es) RC_TYPE_NEC "".

(** Fact: a key map that names a scancode twice can fail to load although
    every allocation succeeds: the second mention updates a mapping, which
    shrinks the nearly empty table that [ir_create_table] made large enough,
    and the entries that follow no longer fit. *)
Theorem repeated_scancode_fails_to_load :
  (kmalloc_ok (RcEnv := sample_env) = fun _ _ => true) /\
  exists dev', @ir_setkeytable sample_env fresh_dev repeated_map = Some (dev', - ENOMEM) /\
    map_scan (rd_map dev') = None.
Proof. split; [reflexivity|]. eexists. split; vm_compute; reflexivity. Qed.
