(* ===== verification/RcKeydown.v ===== *)
(** Key presses, drivers/media/rc/rc-main.c from [ir_do_keyup] to
    [rc_keydown_notimeout]: what the remote controller core reports to the
    input layer.

    The operations run under [dev->keylock]; an interleaving of them, of the
    timer, of clock ticks and of changes of the key map is a list of [key_op].
    The abstract state is the key being held, if any. *)

From stdpp Require Import strings.
From S2P Require Import Prelude RcTypes RcKeymap RcKeymapProofs.

Definition IR_KEYPRESS_TIMEOUT : Z := 250.

(** Constants of <linux/input.h>. *)
Definition EV_MSC : Z := 4.
Definition MSC_SCAN : Z := 4.

Section keydown.
Context `{RcEnv}.

Definition ir_do_keyup (dev : rc_dev) (sync : bool) : rc_dev :=
  if negb (keypressed dev) then dev else
  let dev := call (input_report_key (last_keycode dev) false) dev in
  let dev := if sync then call input_sync dev else dev in
  set_keypressed false dev.

Definition rc_keyup (dev : rc_dev) : rc_dev := ir_do_keyup dev true.

Definition ir_timer_keyup (dev : rc_dev) : rc_dev :=
  if time_is_before_eq (jiffies dev) (keyup_jiffies dev) then ir_do_keyup dev true else dev.

(** [keyup_jiffies = jiffies + msecs_to_jiffies(...); mod_timer(...)] *)
Definition arm_keyup (dev : rc_dev) : rc_dev :=
  let dev := set_keyup_jiffies (u64 (jiffies dev + msecs_to_jiffies IR_KEYPRESS_TIMEOUT)) dev in
  call (mod_timer (keyup_jiffies dev)) dev.

Definition rc_repeat (dev : rc_dev) : rc_dev :=
  let dev := call (input_event EV_MSC MSC_SCAN (s32 (last_scancode dev))) dev in
  let dev := call input_sync dev in
  if negb (keypressed dev) then dev else arm_keyup dev.

(** [code] is an [int], compared and stored as a [u32]. *)
Definition ir_do_keydown (dev : rc_dev) (code key toggle : Z) : rc_dev :=
  let new_event := negb (keypressed dev) || negb (last_scancode dev =? u32 code)
                   || negb (last_toggle dev =? toggle) in
  let dev := if new_event && keypressed dev then ir_do_keyup dev false else dev in
  let dev := call (input_event EV_MSC MSC_SCAN (s32 code)) dev in
  let dev :=
    if new_event && negb (key =? KEY_RESERVED) then
      let dev := set_keypressed true dev in
      let dev := set_last_scancode (u32 code) dev in
      let dev := set_last_toggle toggle dev in
      let dev := set_last_keycode key dev in
      call (input_report_key key true) dev
    else dev in
  call input_sync dev.

(** The parameters of the two functions are [int scancode, u8 toggle]. *)
Definition rc_keydown (dev : rc_dev) (code toggle : Z) : option rc_dev :=
  key ← rc_g_keycode_from_table dev (u32 code);
  let dev := ir_do_keydown dev code key (u8 toggle) in
  Some (if keypressed dev then arm_keyup dev else dev).

Definition rc_keydown_notimeout (dev : rc_dev) (code toggle : Z) : option rc_dev :=
  key ← rc_g_keycode_from_table dev (u32 code);
  Some (ir_do_keydown dev code key (u8 toggle)).

(** ** The abstract specification *)

(** The key being held: its scancode, toggle bit and keycode. *)
Definition held (dev : rc_dev) : option (Z * Z * Z) :=
  if keypressed dev then Some (last_scancode dev, last_toggle dev, last_keycode dev) else None.

(** What a key press does to the key held, and what the input layer hears. *)
Definition press (h : option (Z * Z * Z)) (code toggle key : Z) :
    option (Z * Z * Z) * list rc_call :=
  let scan := input_event EV_MSC MSC_SCAN (s32 code) in
  let release := match h with Some (_, _, k) => [input_report_key k false] | None => [] end in
  match h with
  | Some (c, t, _) =>
    if (c =? u32 code) && (t =? toggle) then (h, [scan; input_sync])
    else if key =? KEY_RESERVED then (None, release ++ [scan; input_sync])
    else (Some (u32 code, toggle, key),
          release ++ [scan; input_report_key key true; input_sync])
  | None =>
    if key =? KEY_RESERVED then (None, [scan; input_sync])
    else (Some (u32 code, toggle, key), [scan; input_report_key key true; input_sync])
  end.

Definition release (h : option (Z * Z * Z)) : list rc_call :=
  match h with Some (_, _, k) => [input_report_key k false; input_sync] | None => [] end.

(** Key presses touch the key state, the key-up time and the calls only. *)
Definition key_frame (dev dev' : rc_dev) : Prop :=
  rd_map dev' = rd_map dev /\ raw dev' = raw dev /\ keybit dev' = keybit dev /\
  jiffies dev' = jiffies dev /\ ktime dev' = ktime dev /\ scanmask dev' = scanmask dev /\
  rd_timeout dev' = rd_timeout dev /\ idle dev' = idle dev.

Lemma do_keydown_spec dev code key toggle :
  let dev' := ir_do_keydown dev code key toggle in
  held dev' = fst (press (held dev) code toggle key) /\
  rd_calls dev' = rd_calls dev ++ snd (press (held dev) code toggle key) /\
  keyup_jiffies dev' = keyup_jiffies dev /\ key_frame dev dev'.
Proof.
  unfold ir_do_keydown, ir_do_keyup, held, press, key_frame.
  destruct (keypressed dev) eqn:Ek; cbn.
  - destruct (last_scancode dev =? u32 code) eqn:E1, (last_toggle dev =? toggle) eqn:E2,
      (key =? KEY_RESERVED) eqn:E3; cbn; rewrite ?Ek, <- ?app_assoc; cbn; split_and!; reflexivity.
  - destruct (key =? KEY_RESERVED) eqn:E3; cbn; rewrite ?Ek, <- ?app_assoc; cbn;
      split_and!; reflexivity.
Qed.

Lemma do_keyup_spec dev :
  held (ir_do_keyup dev true) = None /\
  rd_calls (ir_do_keyup dev true) = rd_calls dev ++ release (held dev) /\
  key_frame dev (ir_do_keyup dev true).
Proof.
  unfold ir_do_keyup, held, release, key_frame.
  destruct (keypressed dev) eqn:Ek; cbn; rewrite ?Ek, <- ?app_assoc, ?app_nil_r; done.
Qed.

Lemma keypressed_held dev : keypressed dev = true <-> held dev <> None.
Proof. unfold held. by destruct (keypressed dev). Qed.

(** Claim C30: [rc_keydown] on a well-formed key map implements the abstract
    press on every branch -- a repeat of the held scancode and toggle only
    reports the scancode, anything else first releases the held key, and a
    scancode without mapping presses nothing --, and arms the key-up timer
    for the timeout from now exactly when a key is held afterwards. *)
Theorem keydown_refines_press dev es code toggle :
  keymap_wf dev es ->
  let key := default KEY_RESERVED (view es !! u32 code) in
  let '(h, calls) := press (held dev) code (u8 toggle) key in
  let expires := u64 (jiffies dev + msecs_to_jiffies IR_KEYPRESS_TIMEOUT) in
  exists dev', rc_keydown dev code toggle = Some dev' /\
    held dev' = h /\ key_frame dev dev' /\
    match h with
    | Some _ => rd_calls dev' = rd_calls dev ++ calls ++ [mod_timer expires] /\
                keyup_jiffies dev' = expires
    | None => rd_calls dev' = rd_calls dev ++ calls /\ keyup_jiffies dev' = keyup_jiffies dev
    end.
Proof.
  intros Hwf key. pose proof (do_keydown_spec dev code key (u8 toggle)) as Hd.
  destruct (press (held dev) code (u8 toggle) key) as [h calls]. intros expires.
  cbv zeta in Hd. destruct Hd as (Hh & Hc & Hj & Hf). unfold rc_keydown.
  rewrite (keycode_lookup_refines_map_aux dev es (u32 code) Hwf). cbn [mbind option_bind].
  fold key. set (dev1 := ir_do_keydown dev code key (u8 toggle)) in *. clearbody dev1.
  eexists. split; [reflexivity|]. cbn in Hh, Hc.
  unfold held in Hh. destruct Hf as (F1 & F2 & F3 & F4 & F5 & F6 & F7 & F8).
  destruct (keypressed dev1) eqn:Ep; subst h.
  - unfold key_frame, held, arm_keyup. cbn. rewrite Ep, Hc, F4, app_assoc. done.
  - unfold key_frame, held. rewrite Ep. done.
Qed.

(** ** Interleavings *)

Inductive key_op :=
  | KeyDown (code toggle : Z)
  | KeyDownNoTimeout (code toggle : Z)
  | KeyUp
  | KeyRepeat
  | TimerFires
  | Tick (n : Z)
  | SetKeycode (ke : input_keymap_entry).

Definition key_step (dev : rc_dev) (op : key_op) : option rc_dev :=
  match op with
  | KeyDown c t => rc_keydown dev c t
  | KeyDownNoTimeout c t => rc_keydown_notimeout dev c t
  | KeyUp => Some (rc_keyup dev)
  | KeyRepeat => Some (rc_repeat dev)
  | TimerFires => Some (ir_timer_keyup dev)
  | Tick n => Some (set_jiffies (u64 (jiffies dev + n)) dev)
  | SetKeycode ke => '(dev, _, _) ← ir_setkeycode dev ke; Some dev
  end.

Fixpoint key_run (dev : rc_dev) (ops : list key_op) : option rc_dev :=
  match ops with
  | [] => Some dev
  | op :: ops => dev ← key_step dev op; key_run dev ops
  end.

(** A listener that accepts one key at a time: a press needs no key down, a
    release needs that very key down. *)
Fixpoint listen (down : option Z) (calls : list rc_call) : option (option Z) :=
  match calls with
  | [] => Some down
  | input_report_key k true :: calls =>
      match down with None => listen (Some k) calls | Some _ => None end
  | input_report_key k false :: calls =>
      match down with
      | Some k' => if k =? k' then listen None calls else None
      | None => None
      end
  | _ :: calls => listen down calls
  end.

Definition heard (dev : rc_dev) : Prop :=
  listen None (rd_calls dev) = Some (snd <$> held dev).

Lemma listen_app down a b :
  listen down (a ++ b) = (d ← listen down a; listen d b).
Proof.
  revert down. induction a as [|x a IH]; intros down; [done|].
  destruct x; cbn; try apply IH. destruct value, down; cbn; try done.
  destruct (_ =? _); [apply IH|done].
Qed.

Lemma listen_press h code toggle key :
  listen (snd <$> h) (snd (press h code toggle key)) =
  Some (snd <$> fst (press h code toggle key)).
Proof.
  unfold press. destruct h as [[[c t] k]|]; cbn.
  - destruct (_ && _); [done|]. destruct (key =? KEY_RESERVED); cbn; by rewrite Z.eqb_refl.
  - by destruct (key =? KEY_RESERVED).
Qed.

Lemma heard_calls dev dev' calls :
  heard dev -> rd_calls dev' = rd_calls dev ++ calls ->
  listen (snd <$> held dev) calls = Some (snd <$> held dev') -> heard dev'.
Proof. unfold heard. intros Hd -> Hc. by rewrite listen_app, Hd. Qed.

Lemma heard_keyup dev : heard dev -> heard (ir_do_keyup dev true).
Proof.
  intros Hd. destruct (do_keyup_spec dev) as (Hh & Hc & _).
  apply (heard_calls dev _ _ Hd Hc). rewrite Hh. unfold release.
  destruct (held dev) as [[[c t] k]|]; cbn; [by rewrite Z.eqb_refl|done].
Qed.

Lemma heard_keydown dev code key toggle :
  heard dev -> heard (ir_do_keydown dev code key toggle).
Proof.
  intros Hd. destruct (do_keydown_spec dev code key toggle) as (Hh & Hc & _).
  apply (heard_calls dev _ _ Hd Hc). rewrite Hh. apply listen_press.
Qed.

Lemma heard_arm dev : heard dev -> heard (arm_keyup dev).
Proof.
  intros Hd. apply (heard_calls dev _ [mod_timer (keyup_jiffies (arm_keyup dev))]); [done|reflexivity..].
Qed.

Lemma heard_repeat dev : heard dev -> heard (rc_repeat dev).
Proof.
  intros Hd. unfold rc_repeat.
  set (d := call input_sync _). assert (heard d) as Hd'.
  { apply (heard_calls dev d [input_event EV_MSC MSC_SCAN (s32 (last_scancode dev)); input_sync] Hd);
      [|done]. cbn. by rewrite <- app_assoc. }
  destruct (negb _); [done|by apply heard_arm].
Qed.

Lemma keymap_wf_same dev dev' es :
  rd_map dev' = rd_map dev -> keybit dev' = keybit dev -> keymap_wf dev es -> keymap_wf dev' es.
Proof.
  intros Hm Hk [Hr Hs Hok Hu Hkb]. split; [by rewrite Hm|done..|].
  intros c. rewrite Hk. apply Hkb.
Qed.

(** Requests to change a keycode that the input core lets through. *)
Definition op_ok (op : key_op) : Prop :=
  match op with
  | SetKeycode ke => 0 <= ke_keycode ke < KEY_CNT /\ 0 <= ke_index ke /\
      0 <= snd (input_scancode_to_scalar (ke_scancode ke) (ke_len ke)) < 2 ^ 32
  | _ => True
  end.

Definition key_inv (dev : rc_dev) : Prop :=
  heard dev /\ 0 <= scanmask dev < 2 ^ 32 /\ exists es, keymap_wf dev es.

(** Any operation other than a change of the key map keeps map and key bits. *)
Lemma key_inv_frame dev dev' :
  key_inv dev -> heard dev' -> rd_map dev' = rd_map dev -> keybit dev' = keybit dev ->
  scanmask dev' = scanmask dev -> key_inv dev'.
Proof.
  intros (_ & Hm & es & Hwf) Hh E1 E2 E3. split_and!; [done|rewrite E3; lia|rewrite E3; lia|].
  exists es. by apply (keymap_wf_same dev).
Qed.

Lemma keyup_inv dev : key_inv dev -> key_inv (ir_do_keyup dev true).
Proof.
  intros Hi. destruct (do_keyup_spec dev) as (_ & _ & F1 & F2 & F3 & F4 & F5 & F6 & F7 & F8).
  apply (key_inv_frame dev); try done. apply heard_keyup, Hi.
Qed.

Lemma table_frame_heard dev dev' : table_frame dev dev' -> heard dev -> heard dev'.
Proof.
  intros Hf Hd. apply (heard_calls dev dev' [] Hd); [by rewrite Hf, app_nil_r|].
  by rewrite Hf.
Qed.

Lemma set_keycode_inv dev ke :
  key_inv dev -> op_ok (SetKeycode ke) ->
  exists dev', key_step dev (SetKeycode ke) = Some dev' /\ key_inv dev'.
Proof.
  intros (Hh & Hm & es & Hwf) (Hk & Hi & Hc). cbn [key_step].
  pose proof (set_code_refines_map_aux dev es ke Hwf Hm Hk Hi Hc) as Hset.
  destruct (ke_target dev es ke) as [code|err].
  - destruct Hset as (dev' & rc & old & -> & Hout). cbn [mbind option_bind].
    exists dev'. split; [done|].
    assert (table_frame dev dev' /\ exists es', keymap_wf dev' es') as [Hf Hwf'].
    { inversion Hout; subst; eauto. }
    split_and!; [by eapply table_frame_heard|rewrite Hf; cbn; lia|rewrite Hf; cbn; lia|done].
  - rewrite Hset. cbn [mbind option_bind]. exists dev. split; [done|].
    split_and!; [done|lia|lia|by exists es].
Qed.

Lemma key_step_inv dev op :
  key_inv dev -> op_ok op -> exists dev', key_step dev op = Some dev' /\ key_inv dev'.
Proof.
  intros Hi Hop. pose proof Hi as (Hh & Hm & es & Hwf).
  destruct op as [c t|c t| | | |n|ke]; try (by apply set_keycode_inv); cbn [key_step].
  - unfold rc_keydown. rewrite (keycode_lookup_refines_map_aux dev es _ Hwf). cbn [mbind option_bind].
    eexists. split; [reflexivity|]. set (k := default _ _).
    destruct (do_keydown_spec dev c k (u8 t)) as (_ & _ & _ & F1 & F2 & F3 & F4 & F5 & F6 & F7 & F8).
    pose proof (heard_keydown dev c k (u8 t) Hh) as Hh'.
    destruct (keypressed _); apply (key_inv_frame dev); try done. by apply heard_arm.
  - unfold rc_keydown_notimeout. rewrite (keycode_lookup_refines_map_aux dev es _ Hwf).
    cbn [mbind option_bind]. eexists. split; [reflexivity|]. set (k := default _ _).
    destruct (do_keydown_spec dev c k (u8 t)) as (_ & _ & _ & F1 & F2 & F3 & F4 & F5 & F6 & F7 & F8).
    apply (key_inv_frame dev); try done. by apply heard_keydown.
  - eexists. split; [reflexivity|]. by apply keyup_inv.
  - eexists. split; [reflexivity|]. apply (key_inv_frame dev); [done|by apply heard_repeat|..];
      unfold rc_repeat; cbn; by destruct (negb _).
  - eexists. split; [reflexivity|]. unfold ir_timer_keyup.
    destruct (time_is_before_eq _ _); [by apply keyup_inv|done].
  - eexists. split; [reflexivity|]. by apply (key_inv_frame dev).
Qed.

(** Claim C33: under any interleaving of key presses, repeats, releases, timer
    expiries, clock ticks and changes of the key map, no operation faults and
    the input layer hears at most one key down at a time: every press comes
    when no key is down and every release is of the key that is down, and what
    it believes is what the device records as held. *)
Theorem one_key_at_a_time ops dev :
  key_inv dev -> Forall op_ok ops ->
  exists dev', key_run dev ops = Some dev' /\
    listen None (rd_calls dev') = Some (snd <$> held dev').
Proof.
  revert dev. induction ops as [|op ops IH]; intros dev Hi Hok.
  { exists dev. split; [done|apply Hi]. }
  apply Forall_cons in Hok as [Hop Hok]. cbn [key_run].
  destruct (key_step_inv dev op Hi Hop) as (dev1 & -> & Hi1). by apply IH.
Qed.

Context `{!RcEnvLaws H}.

(** The expiry test, for a clock at most half its range past the key press. *)
Lemma expiry_test now n k :
  0 <= n < 2 ^ 62 -> 0 <= k < 2 ^ 62 ->
  time_is_before_eq (u64 (now + n)) (u64 (now + k)) = (k <=? n).
Proof.
  intros Hn Hk. rewrite time_is_before_eq_spec. unfold wrap.
  rewrite <- Zminus_mod. replace (now + n - (now + k)) with (n - k) by lia.
  destruct (Z.leb_spec k n).
  - rewrite Z.mod_small by lia. apply Z.ltb_lt. lia.
  - rewrite mod_neg_once by lia. apply Z.ltb_ge. lia.
Qed.

(** Fact: a key pressed with [rc_keydown] is released by the timer
    handler exactly when at least the timeout has passed since, also when
    [jiffies] wraps around in between; a handler that runs too early changes
    nothing, and a release reports the key that was pressed. *)
Theorem key_times_out dev es code toggle n dev1 :
  keymap_wf dev es -> rc_keydown dev code toggle = Some dev1 -> keypressed dev1 = true ->
  0 <= n < 2 ^ 62 ->
  let dev2 := set_jiffies (u64 (jiffies dev1 + n)) dev1 in
  if msecs_to_jiffies IR_KEYPRESS_TIMEOUT <=? n
  then held (ir_timer_keyup dev2) = None /\
       rd_calls (ir_timer_keyup dev2) =
         rd_calls dev1 ++ [input_report_key (last_keycode dev1) false; input_sync]
  else ir_timer_keyup dev2 = dev2.
Proof.
  intros Hwf Hkd Hp Hn dev2. unfold rc_keydown in Hkd.
  rewrite (keycode_lookup_refines_map_aux dev es _ Hwf) in Hkd. cbn [mbind option_bind] in Hkd.
  set (d := ir_do_keydown _ _ _ _) in Hkd. assert ((if keypressed d then arm_keyup d else d) = dev1) as Hd1
    by (by injection Hkd).
  clear Hkd. clearbody d.
  assert (keypressed d = true) as Hpd.
  { destruct (keypressed d) eqn:E; [done|]. rewrite ?E in Hd1. congruence. }
  rewrite Hpd in Hd1. unfold ir_timer_keyup.
  assert (time_is_before_eq (jiffies dev2) (keyup_jiffies dev2) =
    (msecs_to_jiffies IR_KEYPRESS_TIMEOUT <=? n)) as ->.
  { subst dev1. apply expiry_test; [done|apply msecs_to_jiffies_range]. }
  destruct (_ <=? n); [|done].
  destruct (do_keyup_spec dev2) as (Hh & Hc & _). rewrite Hh, Hc.
  split; [done|]. cbn. unfold held. cbn. by rewrite Hp.
Qed.

End keydown.

(** ** At work: press, hold, another key, time out *)

Lemma sample_dev_inv : key_inv sample_dev.
Proof. split_and!; [done..|]. exists sample_es. apply sample_dev_wf. Qed.

Lemma keydown_refines_press_witness :
  exists dev', @rc_keydown sample_env sample_dev 0x11 1 = Some dev' /\
    held dev' = Some (0x11, 1, 30).
Proof.
  destruct (@keydown_refines_press sample_env sample_dev sample_es 0x11 1 sample_dev_wf)
    as (dev' & E & Hh & _).
  exists dev'. split; [exact E|]. rewrite Hh. reflexivity.
Defined.

Definition sample_ops : list key_op :=
  [KeyDown 0x11 0; Tick 10; KeyRepeat; KeyDown 0x22 0; SetKeycode (mk_ke 0 4 0 0 [0x22; 0; 0; 0]);
   Tick 25; TimerFires; KeyDown 0x22 0].

Lemma one_key_at_a_time_witness :
  exists dev', @key_run sample_env sample_dev sample_ops = Some dev' /\
    listen None (rd_calls dev') = Some (snd <$> held dev').
Proof.
  apply (@one_key_at_a_time sample_env sample_ops sample_dev sample_dev_inv).
  repeat constructor; vm_compute; discriminate.
Defined.

Lemma key_times_out_witness :
  exists dev1, @rc_keydown sample_env sample_dev 0x11 0 = Some dev1 /\
    held (@ir_timer_keyup sample_env (set_jiffies (u64 (jiffies dev1 + 25)) dev1)) = None.
Proof.
  eexists. split; [vm_compute; reflexivity|].
  apply (@key_times_out sample_env sample_env_laws sample_dev sample_es 0x11 0 25 _ sample_dev_wf);
    [vm_compute; reflexivity|reflexivity|lia].
Defined.
