(* ===== verification/IrRaw.v ===== *)
(** Raw infrared decoding, drivers/media/rc/ir-raw.c: samples come in from the
    driver, are queued, and the decoding thread offers each to every handler.

    A decoder is an [ir_raw_handler]: a function from the device and a sample
    to the device and a result code.  The global lists of clients and handlers
    are [rc_core]; a client is the number of its device.  [kfifo] is queued
    samples: one is stored whole or not at all. *)

From stdpp Require Import strings.
From S2P Require Import Prelude RcTypes RcKeymap RcKeymapProofs RcKeydown.

Definition MAX_IR_EVENT_SIZE : Z := 512.
Definition MS_TO_NS (msec : Z) : Z := msec * 1000 * 1000.

Section raw.
Context `{RcEnv}.

(** ** The drivers' side *)

Definition ir_raw_event_store (dev : rc_dev) (ev : ir_raw_event) : rc_dev * Z :=
  match raw dev with
  | None => (dev, - EINVAL)
  | Some r =>
    if kfifo_fits (kfifo r) then (set_raw (Some (set_kfifo (kfifo r ++ [ev]) r)) dev, 0)
    else (dev, - ENOMEM)
  end.

Definition ir_raw_event_handle (dev : rc_dev) : rc_dev :=
  match raw dev with
  | None => dev
  | Some _ => call wake_up_process dev
  end.

Definition ir_raw_event_reset (dev : rc_dev) : rc_dev :=
  let ev := set_reset true init_ir_raw_event in
  let '(dev, _) := ir_raw_event_store dev ev in
  ir_raw_event_handle dev.

(** Update of the control structure of a device. *)
Definition upd_raw (f : ir_raw_event_ctrl -> ir_raw_event_ctrl) (dev : rc_dev) : rc_dev :=
  match raw dev with
  | None => dev
  | Some r => set_raw (Some (f r)) dev
  end.

Definition ir_raw_event_store_edge (dev : rc_dev) (type : Z) : rc_dev * Z :=
  match raw dev with
  | None => (dev, - EINVAL)
  | Some r =>
    let now := ktime dev in
    let delta := now - last_event r in
    let delay := s32 (MS_TO_NS (rep_delay dev)) in
    let start := (delta >? delay) || (last_type r =? 0) in
    let type := if start then Z.lor type IR_START_EVENT else type in
    let ev := if start then init_ir_raw_event else set_duration (u32 delta) init_ir_raw_event in
    let finish '(dev, rc) :=
      (upd_raw (fun r => set_last_type type (set_last_event now r)) dev, rc) in
    if truthy (Z.land type IR_START_EVENT) then finish (ir_raw_event_reset dev, 0)
    else if truthy (Z.land (last_type r) IR_SPACE) then
      finish (ir_raw_event_store dev (set_pulse false ev))
    else if truthy (Z.land (last_type r) IR_PULSE) then
      finish (ir_raw_event_store dev (set_pulse true ev))
    else (dev, 0)
  end.

Definition ir_raw_event_set_idle (dev : rc_dev) (enter : bool) : rc_dev :=
  match raw dev with
  | None => dev
  | Some r =>
    let dev :=
      if enter then
        let this := set_timeout true (this_ev r) in
        let dev := upd_raw (set_this_ev this) dev in
        let '(dev, _) := ir_raw_event_store dev this in
        upd_raw (set_this_ev init_ir_raw_event) dev
      else dev in
    let dev := if has_s_idle dev then call (s_idle_call enter) dev else dev in
    set_idle enter dev
  end.

Definition ir_raw_event_store_with_filter (dev : rc_dev) (ev : ir_raw_event) : rc_dev * Z :=
  match raw dev with
  | None => (dev, - EINVAL)
  | Some _ =>
    if idle dev && negb (pulse ev) then (dev, 0) else
    let dev := if idle dev then ir_raw_event_set_idle dev false else dev in
    let this := match raw dev with Some r => this_ev r | None => init_ir_raw_event end in
    let dev :=
      if duration this =? 0 then upd_raw (set_this_ev ev) dev
      else if Bool.eqb (pulse ev) (pulse this) then
        upd_raw (set_this_ev (set_duration (u32 (duration this + duration ev)) this)) dev
      else
        let '(dev, _) := ir_raw_event_store dev this in
        upd_raw (set_this_ev ev) dev in
    let this := match raw dev with Some r => this_ev r | None => init_ir_raw_event end in
    let dev :=
      if negb (pulse ev) && truthy (rd_timeout dev) && (duration this >=? rd_timeout dev)
      then ir_raw_event_set_idle dev true else dev in
    (dev, 0)
  end.

(** ** The decoding thread *)

Record ir_raw_handler := mk_handler {
  handler_id : nat;
  protocols : Z;
  decode : rc_dev -> ir_raw_event -> option (rc_dev * Z);
  raw_register : option (rc_dev -> option (rc_dev * Z));
  raw_unregister : option (rc_dev -> option (rc_dev * Z));
}.

(** [list_for_each_entry(handler, ...) handler->decode(raw->dev, ev)] *)
Fixpoint decode_all (hs : list ir_raw_handler) (dev : rc_dev) (ev : ir_raw_event) :
    option rc_dev :=
  match hs with
  | [] => Some dev
  | h :: hs => '(dev, _) ← decode h dev ev; decode_all hs dev ev
  end.

(** One turn of the loop of [ir_raw_event_thread]: with nothing queued the
    thread sleeps. *)
Definition ir_raw_event_thread (hs : list ir_raw_handler) (dev : rc_dev) : option rc_dev :=
  r ← raw dev;
  match kfifo r with
  | [] => Some dev
  | ev :: rest =>
    let dev := set_raw (Some (set_kfifo rest r)) dev in
    dev ← decode_all hs dev ev;
    Some (upd_raw (set_prev_ev ev) dev)
  end.

Fixpoint thread_turns (n : nat) (hs : list ir_raw_handler) (dev : rc_dev) : option rc_dev :=
  match n with
  | O => Some dev
  | S n => dev ← ir_raw_event_thread hs dev; thread_turns n hs dev
  end.

(** ** Clients and handlers *)

Record rc_core := mk_core {
  ir_raw_client_list : list nat;
  ir_raw_handler_list : list ir_raw_handler;
  available_protocols : Z;
  devices : gmap nat rc_dev;
}.

Definition ir_raw_get_allowed_protocols (c : rc_core) : Z := available_protocols c.

(** Run a hook of a handler on a device; its result is ignored. *)
Definition hook (f : option (rc_dev -> option (rc_dev * Z))) (c : rc_core) (id : nat) :
    option rc_core :=
  match f with
  | None => Some c
  | Some f =>
    dev ← devices c !! id;
    '(dev, _) ← f dev;
    Some (mk_core (ir_raw_client_list c) (ir_raw_handler_list c) (available_protocols c)
            (<[id := dev]> (devices c)))
  end.

Fixpoint hook_all {A} (f : A -> rc_core -> option rc_core) (l : list A) (c : rc_core) :
    option rc_core :=
  match l with
  | [] => Some c
  | x :: l => c ← f x c; hook_all f l c
  end.

Definition ir_raw_handler_register (c : rc_core) (h : ir_raw_handler) : option (rc_core * Z) :=
  let c := mk_core (ir_raw_client_list c) (ir_raw_handler_list c ++ [h])
             (available_protocols c) (devices c) in
  c ← hook_all (fun id c => hook (raw_register h) c id) (ir_raw_client_list c) c;
  Some (mk_core (ir_raw_client_list c) (ir_raw_handler_list c)
          (Z.lor (available_protocols c) (protocols h)) (devices c), 0).

Definition ir_raw_handler_unregister (c : rc_core) (h : ir_raw_handler) : option rc_core :=
  let c := mk_core (ir_raw_client_list c)
             (filter (fun x => handler_id x <> handler_id h) (ir_raw_handler_list c))
             (available_protocols c) (devices c) in
  c ← hook_all (fun id c => hook (raw_unregister h) c id) (ir_raw_client_list c) c;
  Some (mk_core (ir_raw_client_list c) (ir_raw_handler_list c)
          (Z.ldiff (available_protocols c) (protocols h)) (devices c)).

(** The results of [kzalloc], [kfifo_alloc] and [kthread_run]. *)
Record register_env := { kzalloc_ok : bool; kfifo_rc : Z; kthread_err : Z }.

Definition set_device (id : nat) (dev : rc_dev) (c : rc_core) : rc_core :=
  mk_core (ir_raw_client_list c) (ir_raw_handler_list c) (available_protocols c)
    (<[id := dev]> (devices c)).

Definition ir_raw_event_register (c : rc_core) (id : option nat) (e : register_env) :
    option (rc_core * Z) :=
  match id with
  | None => Some (c, - EINVAL)
  | Some id =>
    dev ← devices c !! id;
    if negb (kzalloc_ok e) then Some (set_device id (set_raw None dev) c, - ENOMEM) else
    let r := set_enabled_protocols (u64 (-1)) zeroed_ctrl in
    let dev := set_raw (Some r) dev in
    if kfifo_rc e <? 0 then Some (set_device id (set_raw None dev) c, kfifo_rc e) else
    if kthread_err e <? 0 then Some (set_device id (set_raw None dev) c, kthread_err e) else
    let c := set_device id dev c in
    let c := mk_core (ir_raw_client_list c ++ [id]) (ir_raw_handler_list c)
               (available_protocols c) (devices c) in
    c ← hook_all (fun h c => hook (raw_register h) c id) (ir_raw_handler_list c) c;
    Some (c, 0)
  end.

Definition ir_raw_event_unregister (c : rc_core) (id : option nat) : option rc_core :=
  match id with
  | None => Some c
  | Some id =>
    dev ← devices c !! id;
    match raw dev with
    | None => Some c
    | Some _ =>
      let c := mk_core (filter (fun x => x <> id) (ir_raw_client_list c)) (ir_raw_handler_list c)
                 (available_protocols c) (devices c) in
      c ← hook_all (fun h c => hook (raw_unregister h) c id) (ir_raw_handler_list c) c;
      dev ← devices c !! id;
      Some (set_device id (set_raw None dev) c)
    end
  end.

End raw.
