(* ===== verification/IrDecode.v ===== *)
(** What the decoders share: margins, shift registers, runs of a decoder over
    samples, and the connection with the decoding thread of IrRaw.v.

    The decoding theorems state what a remote control sends as a [signal]:
    pulses and spaces of a whole number of time units, each sample off by less
    than half a unit. *)

From stdpp Require Import strings.
From S2P Require Import Prelude RcTypes RcKeymap RcKeymapProofs RcKeydown IrRaw.

(** ** Margins *)

Lemma eq_margin_true d d2 m :
  0 <= m <= d2 -> d2 + m < 2 ^ 32 -> d2 - m < d < d2 + m -> eq_margin d d2 m = true.
Proof.
  intros. unfold eq_margin. rewrite !wrap_small, Z.gtb_ltb by lia.
  by rewrite !(proj2 (Z.ltb_lt _ _)) by lia.
Qed.

Lemma eq_margin_false d d2 m :
  0 <= m <= d2 -> d2 + m < 2 ^ 32 -> d <= d2 - m \/ d2 + m <= d -> eq_margin d d2 m = false.
Proof.
  intros. unfold eq_margin. rewrite !wrap_small, Z.gtb_ltb by lia.
  apply andb_false_iff. rewrite !Z.ltb_ge. lia.
Qed.

Lemma geq_margin_true d d2 m :
  0 <= m <= d2 -> d2 < 2 ^ 32 -> d2 - m < d -> geq_margin d d2 m = true.
Proof.
  intros. unfold geq_margin. rewrite wrap_small, Z.gtb_ltb by lia. apply Z.ltb_lt. lia.
Qed.

Lemma geq_margin_false d d2 m :
  0 <= m <= d2 -> d2 < 2 ^ 32 -> d <= d2 - m -> geq_margin d d2 m = false.
Proof.
  intros. unfold geq_margin. rewrite wrap_small, Z.gtb_ltb by lia. apply Z.ltb_ge. lia.
Qed.

(** ** Shift registers *)

(** [x <<= 1; if (b) x |= 1], in [w] bits. *)
Definition shift_in (w x : Z) (b : bool) : Z :=
  if b then Z.lor (wrap w (Z.shiftl x 1)) 1 else wrap w (Z.shiftl x 1).

(** The number whose bits, most significant first, are [l]. *)
Fixpoint msb_value (l : list bool) : Z :=
  match l with
  | [] => 0
  | b :: l => Z.b2z b * 2 ^ Z.of_nat (length l) + msb_value l
  end.

Lemma msb_value_range l : 0 <= msb_value l < 2 ^ Z.of_nat (length l).
Proof.
  induction l as [|b l IH]; [done|]. cbn [msb_value length].
  rewrite Nat2Z.inj_succ, Z.pow_succ_r by lia. destruct b; cbn [Z.b2z]; lia.
Qed.

Lemma msb_value_app l k :
  msb_value (l ++ k) = msb_value l * 2 ^ Z.of_nat (length k) + msb_value k.
Proof.
  induction l as [|b l IH]; [done|]. cbn [msb_value app].
  rewrite IH, length_app, Nat2Z.inj_add, Z.pow_add_r by lia. lia.
Qed.

Lemma shift_in_value w x b :
  0 < w -> shift_in w x b = wrap w (2 * x + Z.b2z b).
Proof.
  intros Hw. unfold shift_in. rewrite Z.shiftl_mul_pow2 by lia.
  change (2 ^ 1) with 2. rewrite (Z.mul_comm x).
  destruct b; cbn [Z.b2z]; [|by rewrite Z.add_0_r].
  apply Z.bits_inj'. intros i Hi. rewrite Z.lor_spec, !testbit_wrap by lia.
  destruct (decide (i = 0)) as [->|].
  - rewrite (bool_decide_true (0 < w)) by done. cbn [andb].
    rewrite Z.testbit_odd_0, orb_true_r. done.
  - rewrite <- (Z.succ_pred i), Z.testbit_odd_succ, Z.testbit_even_succ by lia.
    assert (Z.testbit 1 (Z.succ (Z.pred i)) = false) as ->.
    { rewrite Z.succ_pred. apply (testbit_above 1); lia. }
    by rewrite orb_false_r.
Qed.

Lemma shift_in_all w l : forall x, 0 < w ->
  fold_left (shift_in w) l (wrap w x) = wrap w (x * 2 ^ Z.of_nat (length l) + msb_value l).
Proof.
  induction l as [|b l IH]; intros x Hw.
  { cbn. f_equal. lia. }
  cbn [fold_left]. rewrite shift_in_value by done.
  assert (wrap w (2 * wrap w x + Z.b2z b) = wrap w (2 * x + Z.b2z b)) as ->.
  { unfold wrap. rewrite (Zplus_mod (2 * (x mod _))), Zmult_mod_idemp_r, <- Zplus_mod. done. }
  rewrite IH by done. f_equal. cbn [length msb_value].
  rewrite Nat2Z.inj_succ, Z.pow_succ_r by lia. lia.
Qed.

(** A register that was filled completely holds what was shifted in. *)
Lemma shift_in_full w l x :
  0 < w -> Z.of_nat (length l) = w -> 0 <= x < 2 ^ w -> fold_left (shift_in w) l x = msb_value l.
Proof.
  intros Hw Hl Hx. rewrite <- (wrap_small w x), shift_in_all, Hl by done.
  unfold wrap. rewrite Z.add_comm, Z_mod_plus_full. apply Z.mod_small.
  rewrite <- Hl. apply msb_value_range.
Qed.

(** The low bits of a register hold the bits shifted in last. *)
Lemma shift_in_low w l x :
  0 < w -> Z.of_nat (length l) <= w -> 0 <= x < 2 ^ w ->
  fold_left (shift_in w) l x mod 2 ^ Z.of_nat (length l) = msb_value l.
Proof.
  intros Hw Hl Hx. rewrite <- (wrap_small w x), shift_in_all by done. unfold wrap.
  rewrite Z.mod_mod_divide.
  2: { exists (2 ^ (w - Z.of_nat (length l))). rewrite <- Z.pow_add_r by lia. f_equal. lia. }
  rewrite Z.add_comm, Z_mod_plus_full. apply Z.mod_small, msb_value_range.
Qed.

Lemma shift_in_range w l x :
  0 < w -> 0 <= x < 2 ^ w -> 0 <= fold_left (shift_in w) l x < 2 ^ w.
Proof. intros Hw Hx. rewrite <- (wrap_small w x), shift_in_all by done. apply wrap_range. lia. Qed.

(** The bits of a byte, least significant first, as most remotes send them. *)
Definition lsb8 (a : Z) : list bool := Z.testbit a <$> [0; 1; 2; 3; 4; 5; 6; 7].

Lemma lsb8_table :
  forallb (fun a => let v := msb_value (lsb8 a) in
    forallb (fun i => Bool.eqb (Z.testbit v i) (Z.testbit a (7 - i))) [0;1;2;3;4;5;6;7])
    (seqZ 0 256) = true.
Proof. vm_compute. reflexivity. Qed.

(** [bitrev8] undoes the sending order. *)
Lemma bitrev8_lsb8 `{!RcEnvLaws E} a : 0 <= a < 256 -> bitrev8 (msb_value (lsb8 a)) = a.
Proof.
  intros Ha. pose proof (msb_value_range (lsb8 a)) as Hv. change (2 ^ _) with 256 in Hv.
  pose proof lsb8_table as Ht. rewrite forallb_forall in Ht. specialize (Ht a).
  rewrite <- list_elem_of_In, elem_of_seqZ in Ht. specialize (Ht ltac:(lia)). cbv zeta in Ht.
  rewrite forallb_forall in Ht. apply Z.bits_inj'. intros i Hi.
  destruct (decide (i < 8)).
  - rewrite bitrev8_bit by lia. rewrite (Bool.eqb_prop _ _ (Ht (7 - i) ltac:(cbn; lia))).
    f_equal. lia.
  - rewrite (testbit_above 8 a), (testbit_above 8 (bitrev8 _)); [done|..]; try lia.
    apply bitrev8_range. lia.
Qed.

(** ** Signals *)

(** A sample of [n] units of [U] nanoseconds, off by less than half a unit. *)
Definition near (U n d : Z) : Prop := n * U - U / 2 < d < n * U + U / 2.

Record is_sample (p : bool) (ok : Z -> Prop) (ev : ir_raw_event) : Prop := {
  sa_pulse : pulse ev = p;
  sa_reset : reset ev = false;
  sa_carrier : carrier_report ev = false;
  sa_duration : ok (duration ev);
}.

Definition sample (U : Z) (pn : bool * Z) : ir_raw_event -> Prop :=
  is_sample (fst pn) (near U (snd pn)).

(** At least [n] units, less half a unit: the silence that ends a frame. *)
Definition long_space (U n : Z) : ir_raw_event -> Prop :=
  is_sample false (fun d => n * U - U / 2 < d < 2 ^ 32).

Definition signal (U : Z) (l : list (bool * Z)) (evs : list ir_raw_event) : Prop :=
  Forall2 (sample U) l evs.

Lemma sample_timing p ok ev : is_sample p ok ev -> is_timing_event ev = true.
Proof. intros [_ H1 H2 _]. unfold is_timing_event. by rewrite H1, H2. Qed.

(** Take apart the signal of a frame. *)
Lemma signal_cons_inv U x l evs :
  signal U (x :: l) evs -> exists ev evs', evs = ev :: evs' /\ sample U x ev /\ signal U l evs'.
Proof. intros Hs. inversion Hs; subst. eauto. Qed.

Lemma signal_app_inv U l k evs :
  signal U (l ++ k) evs -> exists e1 e2, evs = e1 ++ e2 /\ signal U l e1 /\ signal U k e2.
Proof. intros Hs. apply Forall2_app_inv_l in Hs as (e1 & e2 & H1 & H2 & ->). eauto. Qed.

(** Perfect samples, for concrete frames. *)
Definition exact_sample (U : Z) (pn : bool * Z) : ir_raw_event :=
  mk_event (snd pn * U) (fst pn) false false false.

Lemma exact_signal U l : 1 < U -> signal U l (exact_sample U <$> l).
Proof.
  intros HU. induction l as [|[p n] l IH]; [constructor|]. constructor; [|done].
  assert (0 < U / 2) by (apply Z.div_str_pos; lia).
  split; cbn; [done..|]. unfold near. lia.
Qed.

(** ** Runs of a decoder *)

Definition decoder := rc_dev -> ir_raw_event -> option (rc_dev * Z).

(** The device with the control structure [r]. *)
Abbreviation on r dev := (set_raw (Some r) dev).

(** What the thread does with a decoder: decode, then remember the sample. *)
Fixpoint run (dec : decoder) (dev : rc_dev) (evs : list ir_raw_event) : option rc_dev :=
  match evs with
  | [] => Some dev
  | ev :: evs => '(dev, _) ← dec dev ev; run dec (upd_raw (set_prev_ev ev) dev) evs
  end.

Lemma run_app dec dev a b : run dec dev (a ++ b) = (d ← run dec dev a; run dec d b).
Proof.
  revert dev. induction a as [|ev a IH]; intros dev; [done|]. cbn [run app].
  destruct (dec dev ev) as [[d rc]|]; cbn [mbind option_bind]; [apply IH|done].
Qed.

Lemma run_step dec r dev ev evs r1 dev1 rc :
  dec (on r dev) ev = Some (on r1 dev1, rc) ->
  run dec (on r dev) (ev :: evs) = run dec (on (set_prev_ev ev r1) dev1) evs.
Proof. intros E. cbn [run]. rewrite E. done. Qed.

(** Samples that move a decoder from states in [P] to states in [Q], touching
    nothing but its control structure. *)
Definition moves (dec : decoder) (P : ir_raw_event_ctrl -> Prop) (evs : list ir_raw_event)
    (Q : ir_raw_event_ctrl -> Prop) : Prop :=
  forall r dev, P r -> exists r', run dec (on r dev) evs = Some (on r' dev) /\ Q r'.

Lemma moves_app dec P a Q b R :
  moves dec P a Q -> moves dec Q b R -> moves dec P (a ++ b) R.
Proof.
  intros H1 H2 r dev Hr. destruct (H1 r dev Hr) as (r1 & E1 & Hr1).
  destruct (H2 r1 dev Hr1) as (r2 & E2 & Hr2). exists r2. rewrite run_app, E1. done.
Qed.

Lemma moves_nil dec (P Q : ir_raw_event_ctrl -> Prop) : (forall r, P r -> Q r) -> moves dec P [] Q.
Proof. intros HPQ r dev Hr. exists r. split; [done|auto]. Qed.

Lemma moves_one dec (P Q : ir_raw_event_ctrl -> Prop) ev :
  (forall r dev, P r -> exists r' rc, dec (on r dev) ev = Some (on r' dev, rc) /\
                        Q (set_prev_ev ev r')) ->
  moves dec P [ev] Q.
Proof.
  intros Hs r dev Hr. destruct (Hs r dev Hr) as (r' & rc & E & Hq).
  exists (set_prev_ev ev r'). rewrite (run_step _ _ _ _ _ _ _ _ E). done.
Qed.

Lemma moves_cons dec P ev Q evs R :
  moves dec P [ev] Q -> moves dec Q evs R -> moves dec P (ev :: evs) R.
Proof. apply (moves_app dec P [ev]). Qed.

(** ** Key presses and the control structure *)

Section press.
Context `{RcEnv}.

Lemma rc_keydown_raw x dev code toggle :
  rc_keydown (set_raw x dev) code toggle = set_raw x <$> rc_keydown dev code toggle.
Proof.
  unfold rc_keydown. change (rc_g_keycode_from_table (set_raw x dev)) with
    (rc_g_keycode_from_table dev).
  destruct (rc_g_keycode_from_table dev (u32 code)) as [key|]; cbn [mbind option_bind fmap option_fmap option_map]; [|done].
  f_equal. assert (ir_do_keydown (set_raw x dev) code key (u8 toggle) =
    set_raw x (ir_do_keydown dev code key (u8 toggle))) as ->.
  { unfold ir_do_keydown, ir_do_keyup. cbn.
    destruct (keypressed dev); cbn; repeat (destruct (negb _); cbn); done. }
  cbn. by destruct (keypressed _).
Qed.

Lemma rc_repeat_raw x dev : rc_repeat (set_raw x dev) = set_raw x (rc_repeat dev).
Proof. unfold rc_repeat. cbn. by destruct (keypressed dev). Qed.

(** The samples [evs], fed to a decoder in a state of [P], press the key with
    this scancode and toggle, once, and leave the decoder in a state of [Q]. *)
Definition presses (dec : decoder) (P : ir_raw_event_ctrl -> Prop) (evs : list ir_raw_event)
    (Q : ir_raw_event_ctrl -> Prop) (code toggle : Z) : Prop :=
  forall r dev, P r -> exists r', Q r' /\
    run dec (on r dev) evs = set_raw (Some r') <$> rc_keydown dev code toggle.

Lemma presses_after dec P a Q b R code toggle :
  moves dec P a Q -> presses dec Q b R code toggle -> presses dec P (a ++ b) R code toggle.
Proof.
  intros H1 H2 r dev Hr. destruct (H1 r dev Hr) as (r1 & E1 & Hr1).
  destruct (H2 r1 dev Hr1) as (r2 & Hr2 & E2). exists r2. by rewrite run_app, E1.
Qed.

Lemma presses_one dec (P Q : ir_raw_event_ctrl -> Prop) ev code toggle :
  (forall r dev, P r -> exists r', Q (set_prev_ev ev r') /\
     dec (on r dev) ev = (fun d => (on r' d, 0)) <$> rc_keydown dev code toggle) ->
  presses dec P [ev] Q code toggle.
Proof.
  intros Hs r dev Hr. destruct (Hs r dev Hr) as (r' & Hq & E). exists (set_prev_ev ev r').
  split; [done|]. cbn [run]. rewrite E. by destruct (rc_keydown dev code toggle).
Qed.

End press.

(** ** Bi-phase coding

    RC-5, RC-6 and the MCE keyboard send a bit as two half bits of opposite
    level; neighbouring halves of one level merge into one sample.  [f b] is
    the level of the first half of [b].  [biphase f lvl bits] is the signal of
    [bits] when the pending half bit before them is at [lvl]; the last half
    bit stays pending. *)

Fixpoint biphase (f : bool -> bool) (lvl : bool) (bits : list bool) : list (bool * Z) :=
  match bits with
  | [] => []
  | b :: bits =>
    if Bool.eqb (f b) lvl then (lvl, 2) :: biphase f (negb lvl) bits
    else (lvl, 1) :: (negb lvl, 1) :: biphase f lvl bits
  end.

(** The level pending after [bits]. *)
Fixpoint pending (f : bool -> bool) (lvl : bool) (bits : list bool) : bool :=
  match bits with
  | [] => lvl
  | b :: bits => pending f (negb (f b)) bits
  end.

(** What a bi-phase decoder promises about single samples.  [bi_end lvl got]:
    the bits [got] are in and a half bit at [lvl] is due; [bi_start lvl got]:
    that half bit is over. *)
Class Biphase (dec : decoder) (U : Z) (f : bool -> bool) (more : list bool -> Prop)
    (bi_end bi_start : bool -> list bool -> ir_raw_event_ctrl -> Prop) : Prop := {
  bi_two lvl got b ev : more got -> f b = lvl -> sample U (lvl, 2) ev ->
    moves dec (bi_end lvl got) [ev] (bi_end (negb lvl) (got ++ [b]));
  bi_one lvl got ev : more got -> sample U (lvl, 1) ev ->
    moves dec (bi_end lvl got) [ev] (bi_start lvl got);
  bi_begin lvl got b ev : more got -> f b = negb lvl -> sample U (negb lvl, 1) ev ->
    moves dec (bi_start lvl got) [ev] (bi_end lvl (got ++ [b]));
}.

(** Such a decoder receives any bits it wants. *)
Lemma biphase_moves `{Biphase dec U f more bi_end bi_start} bits : forall lvl got evs,
  (forall k, (k < length bits)%nat -> more (got ++ take k bits)) ->
  signal U (biphase f lvl bits) evs ->
  moves dec (bi_end lvl got) evs (bi_end (pending f lvl bits) (got ++ bits)).
Proof.
  induction bits as [|b bits IH]; intros lvl got evs Hmore Hs.
  { inversion Hs; subst. rewrite app_nil_r. by apply moves_nil. }
  cbn [biphase pending] in *. pose proof (Hmore 0%nat ltac:(cbn; lia)) as H0. cbn in H0.
  rewrite app_nil_r in H0.
  assert (forall k, (k < length bits)%nat -> more ((got ++ [b]) ++ take k bits)) as Hmore'.
  { intros k Hk. specialize (Hmore (S k)). cbn in Hmore. rewrite <- app_assoc. apply Hmore. lia. }
  replace (got ++ b :: bits) with ((got ++ [b]) ++ bits) by (by rewrite <- app_assoc).
  destruct (Bool.eqb (f b) lvl) eqn:Hf.
  - apply Bool.eqb_prop in Hf. apply signal_cons_inv in Hs as (e & evs' & -> & He & Hs).
    rewrite Hf. eapply moves_cons; [by eapply bi_two|]. by apply IH.
  - assert (f b = negb lvl) as Hf' by (by destruct (f b), lvl).
    apply signal_cons_inv in Hs as (e1 & evs1 & -> & He1 & Hs).
    apply signal_cons_inv in Hs as (e2 & evs2 & -> & He2 & Hs).
    rewrite Hf', negb_involutive.
    eapply moves_cons; [by apply bi_one|]. eapply moves_cons; [by apply bi_begin|]. by apply IH.
Qed.

(** ** Field extraction *)

(** The [n] bits above the lowest [k] of a value. *)
Lemma field_value l a k n m mask :
  Z.of_nat (length k) = n -> Z.of_nat (length a) = m -> mask = Z.shiftl (2 ^ m - 1) n ->
  Z.shiftr (Z.land (msb_value (l ++ a ++ k)) mask) n = msb_value a.
Proof.
  intros Hn Hm ->. assert (0 <= n /\ 0 <= m) as [? ?] by lia.
  rewrite Z.shiftr_land, Z.shiftr_shiftl_l, Z.sub_diag, Z.shiftl_0_r by lia.
  rewrite (land_mask _ m) by (done || lia). rewrite Z.shiftr_div_pow2 by lia.
  rewrite app_assoc, msb_value_app, Hn. pose proof (msb_value_range k) as Hk. rewrite Hn in Hk.
  rewrite Z.div_add_l by (apply Z.pow_nonzero; lia).
  rewrite (Z.div_small (msb_value k)), Z.add_0_r by done.
  rewrite msb_value_app, Hm, Z.add_comm, Z_mod_plus_full. apply Z.mod_small.
  pose proof (msb_value_range a) as Hr. by rewrite Hm in Hr.
Qed.

Lemma land_low v n mask :
  0 <= n -> 0 <= mask < 2 ^ n -> Z.land v mask = Z.land (v mod 2 ^ n) mask.
Proof.
  intros Hn Hm. apply Z.bits_inj'. intros i Hi. rewrite !Z.land_spec.
  destruct (decide (i < n)).
  - by rewrite Z.mod_pow2_bits_low by lia.
  - rewrite (testbit_above n mask) by lia. by rewrite !andb_false_r.
Qed.

Lemma land_pow2_zero v n : 0 <= n -> Z.shiftr (Z.land v (2 ^ n)) n = 0 -> Z.land v (2 ^ n) = 0.
Proof.
  intros Hn Hs. apply Z.bits_inj'. intros i Hi. rewrite Z.bits_0, Z.land_spec, Z.pow2_bits_eqb by done.
  destruct (Z.eqb_spec n i) as [<-|]; [|apply andb_false_r].
  assert (Z.testbit (Z.shiftr (Z.land v (2 ^ n)) n) 0 = false) as Ht by (rewrite Hs; done).
  rewrite Z.shiftr_spec, Z.land_spec, Z.pow2_bits_true in Ht by lia. exact Ht.
Qed.

Lemma bit_value l b k n mask :
  Z.of_nat (length k) = n -> mask = 2 ^ n ->
  truthy (Z.land (msb_value (l ++ b :: k)) mask) = b.
Proof.
  intros Hn ->. assert (0 <= n) by lia.
  pose proof (field_value l [b] k n 1 (2 ^ n) Hn eq_refl) as Hf.
  rewrite Z.shiftl_1_l in Hf. specialize (Hf eq_refl). cbn [app] in Hf.
  set (v := msb_value _) in *. cbn in Hf. rewrite Z.mul_1_r, Z.add_0_r in Hf.
  destruct b; cbn in Hf.
  - destruct (Z.eqb_spec (Z.land v (2 ^ n)) 0) as [E|]; [|done]. rewrite E, Z.shiftr_0_l in Hf. done.
  - rewrite (land_pow2_zero v n); [done|lia|]. done.
Qed.

Lemma decrease_dur ev d :
  0 <= d -> 0 <= duration ev -> duration (decrease_duration ev d) = Z.max 0 (duration ev - d).
Proof.
  intros. unfold decrease_duration. rewrite Z.gtb_ltb.
  destruct (Z.ltb_spec (duration ev) d); cbn; lia.
Qed.

Lemma decrease_pulse ev d : pulse (decrease_duration ev d) = pulse ev.
Proof. unfold decrease_duration. by destruct (_ >? _). Qed.

(** The low [n] bits of a number, most significant first. *)
Fixpoint msb_bits (n : nat) (v : Z) : list bool :=
  match n with
  | O => []
  | S n => Z.testbit v (Z.of_nat n) :: msb_bits n v
  end.

Lemma msb_bits_length n v : length (msb_bits n v) = n.
Proof. induction n; [done|]. cbn. by f_equal. Qed.

Lemma msb_value_bits n v : 0 <= v < 2 ^ Z.of_nat n -> msb_value (msb_bits n v) = v.
Proof.
  intros Hv. rewrite <- (Z.mod_small v (2 ^ Z.of_nat n)) at 2 by done. clear Hv.
  induction n as [|n IH]; [by rewrite Z.mod_1_r|]. cbn [msb_bits msb_value].
  rewrite msb_bits_length, IH, Nat2Z.inj_succ, Z.pow_succ_r, (Z.mul_comm 2) by lia.
  assert (0 < 2 ^ Z.of_nat n) by (apply Z.pow_pos_nonneg; lia).
  pose proof (Z.testbit_spec' v (Z.of_nat n) ltac:(lia)) as ->.
  rewrite Z.rem_mul_r by lia. lia.
Qed.

(** The end of a bi-phase frame: the pending half bit runs into silence. *)
Definition biphase_ends (U : Z) (lvl : bool) (evs : list ir_raw_event) : Prop :=
  match lvl, evs with
  | true, [e; last] => sample U (true, 1) e /\ long_space U 2 last
  | false, [last] => long_space U 2 last
  | _, _ => False
  end.

(** A mask of [m] bits above [n], as arithmetic. *)
Lemma mask_field x n m mask :
  0 <= n -> 0 <= m -> mask = (2 ^ m - 1) * 2 ^ n ->
  Z.land x mask = (x / 2 ^ n) mod 2 ^ m * 2 ^ n.
Proof.
  intros Hn Hm ->. rewrite <- (Z.shiftl_mul_pow2 (2 ^ m - 1)), <- Z.shiftl_mul_pow2 by done.
  rewrite <- (land_mask (x / 2 ^ n) m (2 ^ m - 1)), <- Z.shiftr_div_pow2 by done.
  apply Z.bits_inj'. intros i Hi. rewrite Z.land_spec, !Z.shiftl_spec, Z.land_spec by done.
  destruct (decide (n <= i)).
  - rewrite Z.shiftr_spec by lia. f_equal. f_equal. lia.
  - rewrite !(Z.testbit_neg_r _ (i - n)) by lia. by rewrite andb_false_r.
Qed.

(** A field of a register whose low bits are known. *)
Lemma reg_field bits l a rest :
  bits mod 2 ^ zlen (l ++ a ++ rest) = msb_value (l ++ a ++ rest) ->
  (bits / 2 ^ zlen rest) mod 2 ^ zlen a = msb_value a.
Proof.
  intros Hb. pose proof (Z.div_mod bits (2 ^ zlen (l ++ a ++ rest))) as Hd. rewrite Hb in Hd.
  rewrite !zlen_app, !msb_value_app, length_app, Nat2Z.inj_add, !Z.pow_add_r in Hd
    by (unfold zlen; lia).
  fold (zlen a) (zlen rest) in Hd.
  set (P := 2 ^ zlen l) in *. set (M := 2 ^ zlen a) in *. set (K := 2 ^ zlen rest) in *.
  assert (0 < P /\ 0 < M /\ 0 < K) as (HP & HM & HK).
  { split_and!; apply Z.pow_pos_nonneg; unfold zlen; lia. }
  specialize (Hd ltac:(nia)). pose proof (msb_value_range rest) as Hr. fold (zlen rest) in Hr.
  pose proof (msb_value_range a) as Ha. fold (zlen a) in Ha. fold M in Ha. fold K in Hr.
  set (Q := bits / (P * (M * K))) in *.
  assert (bits / K = (P * Q + msb_value l) * M + msb_value a) as ->.
  { symmetry. apply (Z.div_unique_pos _ _ _ (msb_value rest)); [done|]. rewrite Hd at 1. ring. }
  rewrite Z.add_comm, Z_mod_plus_full. by apply Z.mod_small.
Qed.

(** ** Perfect frames, for concrete runs *)

(** A control structure that listens to some protocols. *)
Definition listening (protocols : Z) : ir_raw_event_ctrl :=
  set_enabled_protocols protocols zeroed_ctrl.

Definition exact_silence (U n : Z) : ir_raw_event := mk_event (n * U) false false false false.

Lemma exact_long_space U n : 1 < U -> n * U < 2 ^ 32 -> long_space U n (exact_silence U n).
Proof.
  intros HU Hn. assert (0 < U / 2) by (apply Z.div_str_pos; lia).
  split; cbn -[Z.pow]; [done..|]. lia.
Qed.

Definition exact_end (U : Z) (lvl : bool) : list ir_raw_event :=
  if lvl then [exact_sample U (true, 1); exact_silence U 2] else [exact_silence U 2].

Lemma exact_ends U lvl : 1 < U -> 2 * U < 2 ^ 32 -> biphase_ends U lvl (exact_end U lvl).
Proof.
  intros HU H2. destruct lvl; [|by apply exact_long_space]. split; [|by apply exact_long_space].
  pose proof (exact_signal U [(true, 1)] HU) as Hs. by inversion Hs.
Qed.
