(* ===== verification/IrNec.v ===== *)
(** The NEC decoder, drivers/media/rc/ir-nec-decoder.c. *)

From stdpp Require Import strings.
From S2P Require Import Prelude RcTypes RcKeymap RcKeymapProofs RcKeydown IrRaw IrDecode.

Definition NEC_NBITS : Z := 32.
Definition NEC_UNIT : Z := 562500.
Definition NEC_HEADER_PULSE : Z := 16 * NEC_UNIT.
Definition NECX_HEADER_PULSE : Z := 8 * NEC_UNIT.
Definition NEC_HEADER_SPACE : Z := 8 * NEC_UNIT.
Definition NEC_REPEAT_SPACE : Z := 4 * NEC_UNIT.
Definition NEC_BIT_PULSE : Z := 1 * NEC_UNIT.
Definition NEC_BIT_0_SPACE : Z := 1 * NEC_UNIT.
Definition NEC_BIT_1_SPACE : Z := 3 * NEC_UNIT.
Definition NEC_TRAILER_PULSE : Z := 1 * NEC_UNIT.
Definition NEC_TRAILER_SPACE : Z := 10 * NEC_UNIT.
Definition NECX_REPEAT_BITS : Z := 1.

Section nec.
Context `{RcEnv}.
Import Nec.

(** The scancode for 32 received bits. *)
Definition nec_scancode (bits : Z) : Z :=
  let address := bitrev8 (Z.land (Z.shiftr bits 24) 0xff) in
  let not_address := bitrev8 (Z.land (Z.shiftr bits 16) 0xff) in
  let command := bitrev8 (Z.land (Z.shiftr bits 8) 0xff) in
  let not_command := bitrev8 (Z.land (Z.shiftr bits 0) 0xff) in
  let send_32bits := negb (Z.lxor command not_command =? 0xff) in
  if send_32bits then bits
  else if negb (Z.lxor address not_address =? 0xff) then
    Z.lor (Z.lor (Z.shiftl address 16) (Z.shiftl not_address 8)) command
  else Z.lor (Z.shiftl address 8) command.

Definition put_nec (d : nec_dec) (dev : rc_dev) : rc_dev := upd_raw (set_nec d) dev.

Definition ir_nec_decode (dev : rc_dev) (ev : ir_raw_event) : option (rc_dev * Z) :=
  r ← raw dev;
  let data := nec r in
  if negb (truthy (Z.land (enabled_protocols r) RC_TYPE_NEC)) then Some (dev, 0) else
  if negb (is_timing_event ev) then
    Some (if reset ev then put_nec (set_nec_st STATE_INACTIVE data) dev else dev, 0) else
  let ok data := Some (put_nec data dev, 0) in
  let fail data := Some (put_nec (set_nec_st STATE_INACTIVE data) dev, - EINVAL) in
  let margin d2 := eq_margin (duration ev) d2 (NEC_UNIT / 2) in
  match nec_st data with
  | STATE_INACTIVE =>
    if negb (pulse ev) then fail data else
    let start data := ok (set_nec_st STATE_HEADER_SPACE (set_nec_count 0 data)) in
    if margin NEC_HEADER_PULSE then start (set_necx_repeat false (set_is_nec_x false data))
    else if margin NECX_HEADER_PULSE then start (set_is_nec_x true data)
    else fail data
  | STATE_HEADER_SPACE =>
    if pulse ev then fail data else
    if margin NEC_HEADER_SPACE then ok (set_nec_st STATE_BIT_PULSE data)
    else if margin NEC_REPEAT_SPACE then
      if negb (keypressed dev) then Some (dev, 0)
      else Some (put_nec (set_nec_st STATE_TRAILER_PULSE data) (rc_repeat dev), 0)
    else fail data
  | STATE_BIT_PULSE =>
    if negb (pulse ev) then fail data else
    if negb (margin NEC_BIT_PULSE) then fail data else
    ok (set_nec_st STATE_BIT_SPACE data)
  | STATE_BIT_SPACE =>
    if pulse ev then fail data else
    if necx_repeat data && (nec_count data =? NECX_REPEAT_BITS)
       && geq_margin (duration ev) NEC_TRAILER_SPACE (NEC_UNIT / 2)
    then Some (put_nec (set_nec_st STATE_INACTIVE data) (rc_repeat dev), 0) else
    let data :=
      if nec_count data >? NECX_REPEAT_BITS then set_necx_repeat false data else data in
    let data := set_nec_bits (u32 (Z.shiftl (nec_bits data) 1)) data in
    let count data :=
      let data := set_nec_count (u32 (nec_count data + 1)) data in
      if nec_count data =? NEC_NBITS then ok (set_nec_st STATE_TRAILER_PULSE data)
      else ok (set_nec_st STATE_BIT_PULSE data) in
    if margin NEC_BIT_1_SPACE then count (set_nec_bits (Z.lor (nec_bits data) 1) data)
    else if negb (margin NEC_BIT_0_SPACE) then fail data
    else count data
  | STATE_TRAILER_PULSE =>
    if negb (pulse ev) then fail data else
    if negb (margin NEC_TRAILER_PULSE) then fail data else
    ok (set_nec_st STATE_TRAILER_SPACE data)
  | STATE_TRAILER_SPACE =>
    if pulse ev then fail data else
    if negb (geq_margin (duration ev) NEC_TRAILER_SPACE (NEC_UNIT / 2)) then fail data else
    let scancode := nec_scancode (nec_bits data) in
    let data := if is_nec_x data then set_necx_repeat true data else data in
    dev ← rc_keydown dev scancode 0;
    Some (put_nec (set_nec_st STATE_INACTIVE data) dev, 0)
  end.

Definition nec_handler : ir_raw_handler := mk_handler 0 RC_TYPE_NEC ir_nec_decode None None.

(** ** A frame *)

Definition nec_bit (b : bool) : list (bool * Z) := [(true, 1); (false, if b then 3 else 1)].

(** Header ([hdr] units of pulse), bits, trailer pulse; a long space follows. *)
Definition nec_signal (hdr : Z) (bits : list bool) : list (bool * Z) :=
  [(true, hdr); (false, 8)] ++ flat_map nec_bit bits ++ [(true, 1)].

(** ** Steps of the decoder *)

Definition enabled (r : ir_raw_event_ctrl) : Prop :=
  truthy (Z.land (enabled_protocols r) RC_TYPE_NEC) = true.

Definition nec_at (st : nec_state) (r : ir_raw_event_ctrl) : Prop :=
  enabled r /\ nec_st (nec r) = st.

(** The bits [got] have been received. *)
Definition nec_got (st : nec_state) (got : list bool) (r : ir_raw_event_ctrl) : Prop :=
  nec_at st r /\ nec_count (nec r) = zlen got /\
  exists x, 0 <= x < 2 ^ 32 /\ nec_bits (nec r) = fold_left (shift_in 32) got x.

(** Between frames. *)
Definition nec_idle (r : ir_raw_event_ctrl) : Prop :=
  nec_at STATE_INACTIVE r /\ 0 <= nec_bits (nec r) < 2 ^ 32.

(** Open the decoder in a known state on a timing event. *)
Ltac nec_open He Hst Hs :=
  unfold ir_nec_decode; cbn [raw set_raw mbind option_bind]; unfold enabled in He;
  rewrite He, (sample_timing _ _ _ Hs), Hst; destruct Hs as [-> _ _ Hd]; cbn [fst snd] in Hd; cbn [fst snd negb].

(** Decide the margins of the decoder from the bounds of the sample. *)
Ltac units :=
  unfold NEC_UNIT, near in *; change (562500 / 2) with 281250 in *; cbv iota in *; lia.
Ltac margins :=
  repeat first
    [ rewrite eq_margin_true by units | rewrite eq_margin_false by units
    | rewrite geq_margin_true by units | rewrite geq_margin_false by units ].

Lemma nec_header hdr ev :
  hdr = 16 \/ hdr = 8 -> sample NEC_UNIT (true, hdr) ev ->
  moves ir_nec_decode nec_idle [ev] (nec_got STATE_HEADER_SPACE []).
Proof.
  intros Hh Hs. apply moves_one. intros r dev [[He Hst] Hb]. nec_open He Hst Hs.
  assert (forall d, nec_count d = 0 -> nec_st d = STATE_HEADER_SPACE -> nec_bits d = nec_bits (nec r) ->
    exists r' rc, Some (put_nec d (on r dev), 0) = Some (on r' dev, rc) /\
      nec_got STATE_HEADER_SPACE [] (set_prev_ev ev r')) as Hgo.
  { intros d Hc Hst' Hb'. exists (set_nec d r), 0. split; [done|].
    split; [done|]. split; [done|]. cbn. rewrite Hb'. eauto. }
  unfold NEC_HEADER_PULSE, NECX_HEADER_PULSE. destruct Hh as [-> | ->]; margins; by apply Hgo.
Qed.

Lemma nec_header_space ev :
  sample NEC_UNIT (false, 8) ev ->
  moves ir_nec_decode (nec_got STATE_HEADER_SPACE []) [ev] (nec_got STATE_BIT_PULSE []).
Proof.
  intros Hs. apply moves_one. intros r dev ([He Hst] & Hc & Hb). nec_open He Hst Hs.
  unfold NEC_HEADER_SPACE. margins. eexists _, _. split; [reflexivity|]. done.
Qed.

Lemma nec_bit_pulse got ev :
  sample NEC_UNIT (true, 1) ev ->
  moves ir_nec_decode (nec_got STATE_BIT_PULSE got) [ev] (nec_got STATE_BIT_SPACE got).
Proof.
  intros Hs. apply moves_one. intros r dev ([He Hst] & Hc & Hb). nec_open He Hst Hs.
  unfold NEC_BIT_PULSE. margins. eexists _, _. split; [reflexivity|]. done.
Qed.

Lemma nec_bit_space got b ev :
  zlen got < 32 -> sample NEC_UNIT (false, if b : bool then 3 else 1) ev ->
  moves ir_nec_decode (nec_got STATE_BIT_SPACE got) [ev]
    (nec_got (if zlen got + 1 =? 32 then STATE_TRAILER_PULSE else STATE_BIT_PULSE) (got ++ [b])).
Proof.
  intros Hn Hs. pose proof (zlen_nonneg got). apply moves_one.
  intros r dev ([He Hst] & Hc & x & Hx & Hb). nec_open He Hst Hs.
  assert (geq_margin (duration ev) NEC_TRAILER_SPACE (NEC_UNIT / 2) = false) as ->.
  { unfold NEC_TRAILER_SPACE. destruct b; margins; done. }
  rewrite andb_false_r.
  set (data := if _ >? _ then _ else _ : nec_dec).
  assert (nec_count data = zlen got /\ nec_bits data = nec_bits (nec r)) as [Hc' Hb'].
  { unfold data. destruct (_ >? _); done. }
  assert (forall d, nec_count d = zlen got -> nec_bits d = shift_in 32 (nec_bits (nec r)) b ->
    exists r' rc,
     (let data := set_nec_count (u32 (nec_count d + 1)) d in
      if nec_count data =? NEC_NBITS
      then Some (put_nec (set_nec_st STATE_TRAILER_PULSE data) (on r dev), 0)
      else Some (put_nec (set_nec_st STATE_BIT_PULSE data) (on r dev), 0)) = Some (on r' dev, rc) /\
     nec_got (if zlen got + 1 =? 32 then STATE_TRAILER_PULSE else STATE_BIT_PULSE) (got ++ [b])
       (set_prev_ev ev r')) as Hgo.
  { intros d Hcd Hbd. cbn [nec_count set_nec_count]. rewrite Hcd.
    rewrite wrap_small by lia. unfold NEC_NBITS.
    destruct (zlen got + 1 =? 32); (eexists _, _; split; [reflexivity|]);
      (split; [done|]); (split; [cbn; rewrite zlen_app; done|]); exists x; (split; [done|]);
      cbn; by rewrite Hbd, Hb, fold_left_app. }
  unfold NEC_BIT_1_SPACE, NEC_BIT_0_SPACE. destruct b; margins; cbn [negb]; apply Hgo; cbn;
    rewrite ?Hb'; done.
Qed.

Lemma nec_all_bits bits : forall got evs,
  zlen got + zlen bits = 32 -> bits <> [] -> signal NEC_UNIT (flat_map nec_bit bits) evs ->
  moves ir_nec_decode (nec_got STATE_BIT_PULSE got) evs (nec_got STATE_TRAILER_PULSE (got ++ bits)).
Proof.
  induction bits as [|b bits IH]; intros got evs Hl Hne Hs; [done|].
  cbn [flat_map nec_bit app] in Hs. rewrite zlen_cons in Hl. pose proof (zlen_nonneg bits).
  apply signal_cons_inv in Hs as (e1 & evs1 & -> & Hs1 & Hs).
  apply signal_cons_inv in Hs as (e2 & evs2 & -> & Hs2 & Hs).
  apply (moves_cons _ _ _ (nec_got STATE_BIT_SPACE got)); [by apply nec_bit_pulse|].
  pose proof (nec_bit_space got b e2 ltac:(lia) Hs2) as Hb.
  eapply moves_cons; [exact Hb|]. destruct bits as [|b' bits].
  - rewrite zlen_nil in Hl. rewrite (proj2 (Z.eqb_eq _ _)) by lia.
    inversion Hs; subst. by apply moves_nil.
  - rewrite (proj2 (Z.eqb_neq _ _)) by (rewrite zlen_cons in *; pose proof (zlen_nonneg bits); lia).
    replace (got ++ b :: b' :: bits) with ((got ++ [b]) ++ b' :: bits) by (by rewrite <- app_assoc).
    apply IH; [|done|done]. rewrite zlen_app, zlen_singleton, !zlen_cons in *. lia.
Qed.

Lemma nec_trailer_pulse got ev :
  sample NEC_UNIT (true, 1) ev ->
  moves ir_nec_decode (nec_got STATE_TRAILER_PULSE got) [ev] (nec_got STATE_TRAILER_SPACE got).
Proof.
  intros Hs. apply moves_one. intros r dev ([He Hst] & Hc & Hb). nec_open He Hst Hs.
  unfold NEC_TRAILER_PULSE. margins. eexists _, _. split; [reflexivity|]. done.
Qed.

Lemma nec_trailer_space got ev :
  zlen got = 32 -> long_space NEC_UNIT 10 ev ->
  presses ir_nec_decode (nec_got STATE_TRAILER_SPACE got) [ev] nec_idle
    (nec_scancode (msb_value got)) 0.
Proof.
  intros Hl Hs. apply presses_one. intros r dev ([He Hst] & Hc & x & Hx & Hb).
  nec_open He Hst Hs. unfold NEC_TRAILER_SPACE. margins. cbn [negb].
  rewrite Hb, shift_in_full by (done || lia).
  set (d := if is_nec_x (nec r) then _ else _ : nec_dec).
  exists (set_nec (set_nec_st STATE_INACTIVE d) r). split.
  - split; [by split|]. cbn. assert (nec_bits d = nec_bits (nec r)) as ->.
    { unfold d. by destruct (is_nec_x _). }
    rewrite Hb, shift_in_full by (done || lia). pose proof (msb_value_range got) as Hr.
    unfold zlen in Hl. by rewrite Hl in Hr.
  - rewrite rc_keydown_raw. by destruct (rc_keydown dev _ _).
Qed.

(** The scancode for the bytes that were sent. *)
Definition nec_code (address not_address command not_command : Z) : Z :=
  if negb (Z.lxor command not_command =? 0xff) then
    msb_value (lsb8 address ++ lsb8 not_address ++ lsb8 command ++ lsb8 not_command)
  else if negb (Z.lxor address not_address =? 0xff) then
    Z.lor (Z.lor (Z.shiftl address 16) (Z.shiftl not_address 8)) command
  else Z.lor (Z.shiftl address 8) command.

Context `{!RcEnvLaws H}.

Lemma byte_of_value l a k n :
  Z.of_nat (length k) = n -> length a = 8%nat ->
  Z.land (Z.shiftr (msb_value (l ++ a ++ k)) n) 0xff = msb_value a.
Proof.
  intros <- Ha. rewrite (land_mask _ 8) by done. rewrite Z.shiftr_div_pow2 by lia.
  rewrite app_assoc, msb_value_app. pose proof (msb_value_range k).
  rewrite Z.div_add_l by (apply Z.pow_nonzero; lia).
  rewrite (Z.div_small (msb_value k)), Z.add_0_r by done.
  rewrite msb_value_app, Ha, Z.add_comm, Z_mod_plus_full. apply Z.mod_small.
  pose proof (msb_value_range a) as Hr. by rewrite Ha in Hr.
Qed.

Lemma nec_scancode_code a na c nc :
  0 <= a < 256 -> 0 <= na < 256 -> 0 <= c < 256 -> 0 <= nc < 256 ->
  nec_scancode (msb_value (lsb8 a ++ lsb8 na ++ lsb8 c ++ lsb8 nc)) = nec_code a na c nc.
Proof.
  intros Ha Hna Hc Hnc. unfold nec_scancode, nec_code.
  pose proof (byte_of_value [] (lsb8 a) (lsb8 na ++ lsb8 c ++ lsb8 nc) 24 eq_refl eq_refl) as E1.
  pose proof (byte_of_value (lsb8 a) (lsb8 na) (lsb8 c ++ lsb8 nc) 16 eq_refl eq_refl) as E2.
  pose proof (byte_of_value (lsb8 a ++ lsb8 na) (lsb8 c) (lsb8 nc) 8 eq_refl eq_refl) as E3.
  pose proof (byte_of_value (lsb8 a ++ lsb8 na ++ lsb8 c) (lsb8 nc) [] 0 eq_refl eq_refl) as E4.
  rewrite app_nil_l in E1. rewrite <- app_assoc in E3. rewrite app_nil_r, <- !app_assoc in E4.
  rewrite E1, E2, E3, E4. by rewrite !bitrev8_lsb8.
Qed.

(** Every frame decodes; the property below says what to. *)
Lemma nec_roundtrip_aux hdr a na c nc evs last :
  hdr = 16 \/ hdr = 8 ->
  0 <= a < 256 -> 0 <= na < 256 -> 0 <= c < 256 -> 0 <= nc < 256 ->
  signal NEC_UNIT (nec_signal hdr (lsb8 a ++ lsb8 na ++ lsb8 c ++ lsb8 nc)) evs ->
  long_space NEC_UNIT 10 last ->
  presses ir_nec_decode nec_idle (evs ++ [last]) nec_idle (nec_code a na c nc) 0.
Proof.
  intros Hh Ha Hna Hc Hnc Hs Hlast. rewrite <- nec_scancode_code by done.
  set (bits := lsb8 a ++ _) in *. assert (zlen bits = 32) as Hl by done. clearbody bits.
  apply signal_app_inv in Hs as (e1 & e2 & -> & Hs1 & Hs).
  apply signal_app_inv in Hs as (e3 & e4 & -> & Hs3 & Hs4).
  apply signal_cons_inv in Hs1 as (h1 & l1 & -> & Hh1 & Hs1).
  apply signal_cons_inv in Hs1 as (h2 & l2 & -> & Hh2 & Hs2). inversion Hs2; subst.
  apply signal_cons_inv in Hs4 as (t1 & l4 & -> & Ht & Hs4). inversion Hs4; subst.
  eapply presses_after; [|by apply (nec_trailer_space bits)].
  apply (moves_cons _ _ _ (nec_got STATE_HEADER_SPACE [])); [by apply (nec_header hdr)|].
  apply (moves_cons _ _ _ (nec_got STATE_BIT_PULSE [])); [by apply nec_header_space|].
  apply (moves_app _ _ _ (nec_got STATE_TRAILER_PULSE bits)); [|by apply nec_trailer_pulse].
  apply (nec_all_bits bits []); [done| |done]. by intros ->.
Qed.

(** Claim C37: every NEC frame -- either header, any four bytes, each sample off
    by less than half a unit --, ended by the silence of a trailer, decodes to
    exactly one press of the key its bytes name: 16-bit for a complemented
    address and command, 24-bit for the extended protocol, all 32 bits when
    the command is not complemented; the decoder is then ready for the next
    frame. *)
Theorem nec_roundtrip hdr a na c nc evs last :
  hdr = 16 \/ hdr = 8 ->
  0 <= a < 256 -> 0 <= na < 256 -> 0 <= c < 256 -> 0 <= nc < 256 ->
  signal NEC_UNIT (nec_signal hdr (lsb8 a ++ lsb8 na ++ lsb8 c ++ lsb8 nc)) evs ->
  long_space NEC_UNIT 10 last ->
  presses ir_nec_decode nec_idle (evs ++ [last]) nec_idle (nec_code a na c nc) 0.
Proof. apply nec_roundtrip_aux. Qed.

End nec.

(** A frame at work: address 0, command 0x11. *)
Definition sample_nec : list ir_raw_event :=
  exact_sample NEC_UNIT <$> nec_signal 16 (lsb8 0 ++ lsb8 0xff ++ lsb8 0x11 ++ lsb8 0xee).

Lemma nec_roundtrip_witness :
  exists r', nec_idle r' /\
    run (@ir_nec_decode sample_env) (on (listening RC_TYPE_NEC) sample_dev)
      (sample_nec ++ [exact_silence NEC_UNIT 10]) =
    set_raw (Some r') <$> @rc_keydown sample_env sample_dev 0x11 0.
Proof.
  apply (@nec_roundtrip sample_env sample_env_laws 16 0 0xff 0x11 0xee sample_nec
    (exact_silence NEC_UNIT 10)).
  - by left.
  - done.
  - done.
  - done.
  - done.
  - by apply exact_signal.
  - by apply exact_long_space.
  - done.
Defined.
