(* ===== verification/IrRc5.v ===== *)
(** The RC-5 decoder, drivers/media/rc/ir-rc5-decoder.c: RC5, RC5X. *)

From stdpp Require Import strings.
From S2P Require Import Prelude RcTypes RcKeymap RcKeymapProofs RcKeydown IrRaw IrDecode.

Definition RC5_NBITS : Z := 14.
Definition RC5X_NBITS : Z := 20.
Definition CHECK_RC5X_NBITS : Z := 8.
Definition RC5_UNIT : Z := 888888.
Definition RC5_BIT_START : Z := 1 * RC5_UNIT.
Definition RC5_BIT_END : Z := 1 * RC5_UNIT.
Definition RC5X_SPACE : Z := 4 * RC5_UNIT.

Section rc5.
Context `{RcEnv}.
Import Rc5.

Definition put_rc5 (d : rc5_dec) (dev : rc_dev) : rc_dev := upd_raw (set_rc5 d) dev.

(** Scancode and toggle of the bits received. *)
Definition rc5_scancode (data : rc5_dec) : Z * Z :=
  let bits := rc5_bits data in
  if rc5_wanted_bits data =? RC5X_NBITS then
    let xdata := Z.shiftr (Z.land bits 0x0003F) 0 in
    let command := Z.shiftr (Z.land bits 0x00FC0) 6 in
    let system := Z.shiftr (Z.land bits 0x1F000) 12 in
    let toggle := if truthy (Z.land bits 0x20000) then 1 else 0 in
    let command := u8 (command + (if truthy (Z.land bits 0x01000) then 0 else 0x40)) in
    (Z.lor (Z.lor (Z.shiftl system 16) (Z.shiftl command 8)) xdata, toggle)
  else
    let command := Z.shiftr (Z.land bits 0x0003F) 0 in
    let system := Z.shiftr (Z.land bits 0x007C0) 6 in
    let toggle := if truthy (Z.land bits 0x00800) then 1 else 0 in
    let command := u8 (command + (if truthy (Z.land bits 0x01000) then 0 else 0x40)) in
    (Z.lor (Z.shiftl system 8) command, toggle).

(** The code from label [again] on; every [goto again] uses a unit of fuel. *)
Fixpoint rc5_again (fuel : nat) (data : rc5_dec) (dev : rc_dev) (ev : ir_raw_event) :
    option (rc_dev * Z) :=
  match fuel with
  | O => None
  | S fuel =>
    let fail data := Some (put_rc5 (set_rc5_st STATE_INACTIVE data) dev, - EINVAL) in
    if negb (geq_margin (duration ev) RC5_UNIT (RC5_UNIT / 2)) then Some (put_rc5 data dev, 0) else
    match rc5_st data with
    | STATE_INACTIVE =>
      if negb (pulse ev) then fail data else
      let data := set_rc5_count 1 (set_rc5_st STATE_BIT_START data) in
      let data := set_rc5_wanted_bits RC5X_NBITS data in
      rc5_again fuel data dev (decrease_duration ev RC5_BIT_START)
    | STATE_BIT_START =>
      if negb (eq_margin (duration ev) RC5_BIT_START (RC5_UNIT / 2)) then fail data else
      let data := set_rc5_bits (u32 (Z.shiftl (rc5_bits data) 1)) data in
      let data := if negb (pulse ev) then set_rc5_bits (Z.lor (rc5_bits data) 1) data else data in
      let data := set_rc5_count (u32 (rc5_count data + 1)) data in
      Some (put_rc5 (set_rc5_st STATE_BIT_END data) dev, 0)
    | STATE_BIT_END =>
      r ← raw dev;
      if negb (is_transition ev (prev_ev r)) then fail data else
      let data :=
        if rc5_count data =? rc5_wanted_bits data then set_rc5_st STATE_FINISHED data
        else if rc5_count data =? CHECK_RC5X_NBITS then set_rc5_st STATE_CHECK_RC5X data
        else set_rc5_st STATE_BIT_START data in
      rc5_again fuel data dev (decrease_duration ev RC5_BIT_END)
    | STATE_CHECK_RC5X =>
      if negb (pulse ev) && geq_margin (duration ev) RC5X_SPACE (RC5_UNIT / 2) then
        let data := set_rc5_wanted_bits RC5X_NBITS data in
        rc5_again fuel (set_rc5_st STATE_BIT_START data) dev (decrease_duration ev RC5X_SPACE)
      else
        let data := set_rc5_wanted_bits RC5_NBITS data in
        rc5_again fuel (set_rc5_st STATE_BIT_START data) dev ev
    | STATE_FINISHED =>
      if pulse ev then fail data else
      let '(scancode, toggle) := rc5_scancode data in
      dev ← rc_keydown dev scancode toggle;
      Some (put_rc5 (set_rc5_st STATE_INACTIVE data) dev, 0)
    end
  end.

Definition ir_rc5_decode (dev : rc_dev) (ev : ir_raw_event) : option (rc_dev * Z) :=
  r ← raw dev;
  let data := rc5 r in
  if negb (truthy (Z.land (enabled_protocols r) RC_TYPE_RC5)) then Some (dev, 0) else
  if negb (is_timing_event ev) then
    Some (if reset ev then put_rc5 (set_rc5_st STATE_INACTIVE data) dev else dev, 0) else
  if negb (geq_margin (duration ev) RC5_UNIT (RC5_UNIT / 2)) then
    Some (put_rc5 (set_rc5_st STATE_INACTIVE data) dev, - EINVAL) else
  rc5_again 4 data dev ev.

Definition rc5_handler : ir_raw_handler := mk_handler 1 RC_TYPE_RC5 ir_rc5_decode None None.

(** ** Steps of the decoder *)

(** One turn of the loop. *)
Lemma rc5_again_eq fuel data dev ev :
  rc5_again (S fuel) data dev ev =
  ltac:(let t := eval cbn [rc5_again] in (rc5_again (S fuel) data dev ev) in exact t).
Proof. reflexivity. Qed.

(** Decide the margins of the decoder from the bounds of the sample. *)
Ltac units :=
  unfold RC5X_SPACE, RC5_BIT_START, RC5_BIT_END, RC5_UNIT, near in *;
  change (888888 / 2) with 444444 in *; cbv iota in *; lia.
Ltac margins :=
  repeat first
    [ rewrite eq_margin_true by units | rewrite eq_margin_false by units
    | rewrite geq_margin_true by units | rewrite geq_margin_false by units
    | rewrite decrease_dur by units | rewrite decrease_pulse ]; cbn [negb andb].

Definition enabled (r : ir_raw_event_ctrl) : Prop :=
  truthy (Z.land (enabled_protocols r) RC_TYPE_RC5) = true.

(** What is known of the decoder with the bits [got] in: the start bit counts,
    and from the ninth bit on the length of the frame is decided. *)
Definition rc5_got (wanted : Z) (got : list bool) (d : rc5_dec) : Prop :=
  rc5_count d = 1 + zlen got /\
  rc5_wanted_bits d = (if zlen got <=? 7 then RC5X_NBITS else wanted) /\
  exists x, 0 <= x < 2 ^ 32 /\ rc5_bits d = fold_left (shift_in 32) got x.

(** Half a bit at [lvl] is due: either the decoder waits for the second half
    of a bit, or nothing has come and a start bit's pulse is due. *)
Definition rc5_end (wanted : Z) (lvl : bool) (got : list bool) (r : ir_raw_event_ctrl) : Prop :=
  enabled r /\ zlen got <= 19 /\
  ((rc5_st (rc5 r) = STATE_BIT_END /\ rc5_got wanted got (rc5 r) /\ pulse (prev_ev r) = negb lvl /\
    got <> []) \/
   (rc5_st (rc5 r) = STATE_INACTIVE /\ got = [] /\ lvl = true /\ 0 <= rc5_bits (rc5 r) < 2 ^ 32)).

Definition rc5_start (wanted : Z) (lvl : bool) (got : list bool) (r : ir_raw_event_ctrl) : Prop :=
  enabled r /\ zlen got <= 19 /\
  rc5_st (rc5 r) = (if zlen got =? 7 then STATE_CHECK_RC5X else STATE_BIT_START) /\
  rc5_got wanted got (rc5 r) /\ pulse (prev_ev r) = lvl.

Definition rc5_idle (r : ir_raw_event_ctrl) : Prop :=
  enabled r /\ rc5_st (rc5 r) = STATE_INACTIVE /\ 0 <= rc5_bits (rc5 r) < 2 ^ 32.

(** The bits a frame of [wanted] bits still takes; after the eighth an RC5X
    frame has a gap instead. *)
Definition rc5_more (wanted : Z) (got : list bool) : Prop :=
  zlen got + 1 < wanted <= 20 /\ (zlen got = 7 -> wanted = RC5_NBITS).

Lemma rc5_open r dev ev p ok :
  enabled r -> is_sample p ok ev -> (RC5_UNIT / 2 < duration ev) ->
  ir_rc5_decode (on r dev) ev = rc5_again 4 (rc5 r) (on r dev) ev.
Proof.
  intros He Hs Hd. unfold ir_rc5_decode. cbn [raw set_raw mbind option_bind]. unfold enabled in He.
  rewrite He, (sample_timing _ _ _ Hs). cbn [negb].
  rewrite geq_margin_true; [done|unfold RC5_UNIT; change (888888 / 2) with 444444; lia..|].
  unfold RC5_UNIT in *. change (888888 / 2) with 444444 in *. lia.
Qed.

(** One bit shifted in. *)
Lemma rc5_shift wanted got d b p :
  p = negb b -> zlen got <= 19 -> rc5_count d = 1 + zlen got ->
  rc5_wanted_bits d = (if zlen (got ++ [b]) <=? 7 then RC5X_NBITS else wanted) ->
  (exists x, 0 <= x < 2 ^ 32 /\ rc5_bits d = fold_left (shift_in 32) got x) ->
  let d := set_rc5_bits (u32 (Z.shiftl (rc5_bits d) 1)) d in
  let d := if negb p then set_rc5_bits (Z.lor (rc5_bits d) 1) d else d in
  rc5_got wanted (got ++ [b]) (set_rc5_st STATE_BIT_END (set_rc5_count (u32 (rc5_count d + 1)) d)).
Proof.
  intros -> Hl Hc Hw (x & Hx & Hb). cbv zeta. pose proof (zlen_nonneg got).
  rewrite negb_involutive. split; [|split].
  - rewrite zlen_app, zlen_singleton. destruct b; cbn; rewrite Hc, wrap_small; lia.
  - destruct b; cbn; done.
  - exists x. split; [done|]. rewrite fold_left_app. destruct b; cbn; by rewrite Hb.
Qed.

(** The step out of the middle of a bit when the frame goes on. *)
Lemma rc5_next wanted got d :
  rc5_got wanted got d -> zlen got + 1 < wanted <= 20 ->
  (rc5_count d =? rc5_wanted_bits d) = false /\
  (rc5_count d =? CHECK_RC5X_NBITS) = (zlen got =? 7).
Proof.
  intros (Hc & Hw & _) Hm. rewrite Hc, Hw. unfold CHECK_RC5X_NBITS, RC5X_NBITS in *. split.
  - apply Z.eqb_neq. destruct (Z.leb_spec (zlen got) 7); lia.
  - destruct (Z.eqb_spec (zlen got) 7), (Z.eqb_spec (1 + zlen got) 8); lia || done.
Qed.

Lemma rc5_wanted_after wanted got b d :
  rc5_more wanted got -> rc5_got wanted got d ->
  (if zlen got =? 7 then RC5_NBITS else rc5_wanted_bits d) =
  (if zlen (got ++ [b]) <=? 7 then RC5X_NBITS else wanted).
Proof.
  intros [Hm H7] (_ & Hw & _). rewrite zlen_app, zlen_singleton, Hw.
  destruct (Z.eqb_spec (zlen got) 7) as [E|E].
  - rewrite (proj2 (Z.leb_gt _ _)) by lia. by rewrite H7.
  - destruct (Z.leb_spec (zlen got) 7), (Z.leb_spec (zlen got + 1) 7); try lia; done.
Qed.

(** State BIT_START on a sample with one unit left. *)
Lemma rc5_at_start fuel wanted got b d dev ev :
  rc5_st d = STATE_BIT_START -> zlen got <= 19 -> rc5_count d = 1 + zlen got ->
  rc5_wanted_bits d = (if zlen (got ++ [b]) <=? 7 then RC5X_NBITS else wanted) ->
  (exists x, 0 <= x < 2 ^ 32 /\ rc5_bits d = fold_left (shift_in 32) got x) ->
  pulse ev = negb b -> near RC5_UNIT 1 (duration ev) ->
  exists d', rc5_again (S fuel) d dev ev = Some (put_rc5 d' dev, 0) /\
    rc5_st d' = STATE_BIT_END /\ rc5_got wanted (got ++ [b]) d'.
Proof.
  intros Hst Hl Hc Hw Hb Hp Hd. rewrite rc5_again_eq. margins. rewrite Hst. margins.
  eexists. split; [reflexivity|]. split; [done|]. by apply (rc5_shift wanted got d b).
Qed.

(** The same from CHECK_RC5X, which does not see a gap. *)
Lemma rc5_at_begin fuel wanted got b d dev ev :
  rc5_st d = (if zlen got =? 7 then STATE_CHECK_RC5X else STATE_BIT_START) ->
  rc5_got wanted got d -> rc5_more wanted got ->
  pulse ev = negb b -> near RC5_UNIT 1 (duration ev) ->
  exists d', rc5_again (S (S fuel)) d dev ev = Some (put_rc5 d' dev, 0) /\
    rc5_st d' = STATE_BIT_END /\ rc5_got wanted (got ++ [b]) d'.
Proof.
  intros Hst Hg Hm Hp Hd. pose proof (rc5_wanted_after wanted got b d Hm Hg) as Hw.
  pose proof Hg as (Hc & _ & Hb). assert (zlen got <= 19) as Hl by (destruct Hm; lia).
  destruct (zlen got =? 7).
  - rewrite rc5_again_eq. margins. rewrite Hst. margins. rewrite andb_false_r.
    by apply rc5_at_start.
  - by apply rc5_at_start.
Qed.

Lemma rc5_one wanted lvl got ev :
  zlen got + 1 < wanted <= 20 -> sample RC5_UNIT (lvl, 1) ev ->
  moves ir_rc5_decode (rc5_end wanted lvl got) [ev] (rc5_start wanted lvl got).
Proof.
  intros Hm Hs. apply moves_one. intros r dev (He & Hl & Hst).
  pose proof Hs as [Hp _ _ Hd]. cbn [fst snd] in Hp, Hd.
  rewrite (rc5_open r dev ev _ _ He Hs) by units.
  destruct Hst as [(Hst & Hg & Hpp & _)|(Hst & -> & -> & Hb)].
  - rewrite rc5_again_eq. margins. rewrite Hst. cbn [raw set_raw mbind option_bind].
    unfold is_transition. rewrite Hpp, Hp. replace (Bool.eqb lvl (negb lvl)) with false by (by destruct lvl).
    cbn [negb]. destruct (rc5_next _ _ _ Hg Hm) as [-> ->].
    rewrite rc5_again_eq. margins. eexists _, _. split; [reflexivity|]. split; [done|]. split; [done|].
    split; [cbn; by destruct (_ =? _)|]. split; [cbn; by destruct (_ =? _)|done].
  - rewrite rc5_again_eq. margins. rewrite Hst, Hp. cbn [negb].
    rewrite rc5_again_eq. margins. eexists _, _. split; [reflexivity|]. split; [done|]. split; [done|].
    split; [done|]. split; [|done]. split; [done|]. split; [done|]. cbn. eauto.
Qed.

#[export] Instance rc5_biphase wanted :
  Biphase ir_rc5_decode RC5_UNIT negb (rc5_more wanted) (rc5_end wanted) (rc5_start wanted).
Proof.
  split.
  - intros lvl got b ev Hm Hf Hs. apply moves_one. intros r dev (He & Hl & Hst).
    pose proof Hs as [Hp _ _ Hd]. cbn [fst snd] in Hp, Hd.
    rewrite (rc5_open r dev ev _ _ He Hs) by units.
    assert (zlen (got ++ [b]) <= 19) as Hl' by (rewrite zlen_app, zlen_singleton; destruct Hm; lia).
    assert (forall d', rc5_st d' = STATE_BIT_END -> rc5_got wanted (got ++ [b]) d' ->
      rc5_end wanted (negb lvl) (got ++ [b]) (set_prev_ev ev (set_rc5 d' r))) as Hdone.
    { intros d' Hst' Hg'. split; [done|]. split; [done|]. left. split; [done|]. split; [done|].
      split; [cbn; by rewrite Hp, negb_involutive|]. by destruct got. }
    destruct Hst as [(Hst & Hg & Hpp & _)|(Hst & -> & -> & Hb)].
    + rewrite rc5_again_eq. margins. rewrite Hst. cbn [raw set_raw mbind option_bind].
      unfold is_transition. rewrite Hpp, Hp. replace (Bool.eqb lvl (negb lvl)) with false by (by destruct lvl).
      cbn [negb]. destruct (rc5_next _ _ _ Hg (proj1 Hm)) as [-> ->].
      destruct (rc5_at_begin 1 wanted got b (if zlen got =? 7 then set_rc5_st STATE_CHECK_RC5X (rc5 r)
        else set_rc5_st STATE_BIT_START (rc5 r)) (on r dev) (decrease_duration ev RC5_BIT_END))
        as (d' & E & Hst' & Hg'); [by destruct (_ =? _)|by destruct (_ =? _)|done| | |].
      * by rewrite decrease_pulse, Hp, Hf.
      * rewrite decrease_dur by units. units.
      * rewrite E. exists (set_rc5 d' r), 0. split; [done|]. by apply Hdone.
    + rewrite rc5_again_eq. margins. rewrite Hst, Hp. cbn [negb].
      destruct (rc5_at_start 2 wanted [] b (set_rc5_wanted_bits RC5X_NBITS
        (set_rc5_count 1 (set_rc5_st STATE_BIT_START (rc5 r)))) (on r dev)
        (decrease_duration ev RC5_BIT_START)) as (d' & E & Hst' & Hg'); try done.
      * eauto.
      * by rewrite decrease_pulse, Hp, Hf.
      * rewrite decrease_dur by units. units.
      * rewrite E. exists (set_rc5 d' r), 0. split; [done|]. by apply Hdone.
  - intros lvl got ev [Hm _] Hs. by apply rc5_one.
  - intros lvl got b ev Hm Hf Hs. apply moves_one. intros r dev (He & Hl & Hst & Hg & Hpp).
    pose proof Hs as [Hp _ _ Hd]. cbn [fst snd] in Hp, Hd.
    rewrite (rc5_open r dev ev _ _ He Hs) by units.
    destruct (rc5_at_begin 2 wanted got b (rc5 r) (on r dev) ev) as (d' & -> & Hst' & Hg');
      [done..| |done|].
    + by rewrite Hp, Hf.
    + exists (set_rc5 d' r), 0. split; [done|]. split; [done|].
      split; [rewrite zlen_app, zlen_singleton; destruct Hm; lia|]. left.
      split; [done|]. split; [done|]. split; [by cbn; rewrite Hp|]. by destruct got.
Qed.

(** ** The end of a frame *)

Definition rc5_finished (wanted : Z) (got : list bool) (r : ir_raw_event_ctrl) : Prop :=
  enabled r /\ rc5_st (rc5 r) = STATE_FINISHED /\ rc5_got wanted got (rc5 r).

Lemma rc5_last_half wanted got ev :
  zlen got + 1 = wanted -> 8 < wanted <= 20 -> sample RC5_UNIT (true, 1) ev ->
  moves ir_rc5_decode (rc5_end wanted true got) [ev] (rc5_finished wanted got).
Proof.
  intros Hw Hr Hs. apply moves_one. intros r dev (He & Hl & Hst).
  pose proof Hs as [Hp _ _ Hd]. cbn [fst snd] in Hp, Hd.
  rewrite (rc5_open r dev ev _ _ He Hs) by units.
  destruct Hst as [(Hst & Hg & Hpp & _)|(_ & -> & _)]; [|rewrite zlen_nil in Hw; lia].
  pose proof Hg as (Hc & Hww & _). rewrite (proj2 (Z.leb_gt _ _)) in Hww by lia.
  rewrite rc5_again_eq. margins. rewrite Hst. cbn [raw set_raw mbind option_bind].
  unfold is_transition. rewrite Hpp, Hp. cbn [negb Bool.eqb]. rewrite Hc, Hww.
  rewrite (proj2 (Z.eqb_eq _ _)) by lia. rewrite rc5_again_eq. margins.
  eexists _, _. split; [reflexivity|]. done.
Qed.

(** A press from FINISHED, as long as the register is still a register. *)
Lemma rc5_press fuel wanted got d r dev ev :
  enabled r -> rc5_st d = STATE_FINISHED -> rc5_got wanted got d ->
  pulse ev = false -> RC5_UNIT / 2 < duration ev ->
  exists r', rc5_idle (set_prev_ev ev r') /\
    rc5_again (S fuel) d (on r dev) ev =
    (fun d => (on r' d, 0)) <$> rc_keydown dev (fst (rc5_scancode d)) (snd (rc5_scancode d)).
Proof.
  intros He Hst (Hc & Hw & x & Hx & Hb) Hp Hd. rewrite rc5_again_eq. margins. rewrite Hst, Hp.
  destruct (rc5_scancode d) as [code toggle]. cbn [fst snd]. rewrite rc_keydown_raw.
  exists (set_rc5 (set_rc5_st STATE_INACTIVE d) r). split.
  - split; [done|]. split; [done|]. cbn. rewrite Hb. by apply shift_in_range.
  - by destruct (rc_keydown dev code toggle).
Qed.

Lemma rc5_finish wanted got lvl evs code toggle :
  zlen got + 1 = wanted -> 8 < wanted <= 20 ->
  (forall d, rc5_got wanted got d -> rc5_scancode d = (code, toggle)) ->
  biphase_ends RC5_UNIT lvl evs ->
  presses ir_rc5_decode (rc5_end wanted lvl got) evs rc5_idle code toggle.
Proof.
  intros Hw Hr Hcode Hend.
  destruct lvl, evs as [|e [|last [|]]]; cbn in Hend; try done.
  - destruct Hend as [He Hl].
    apply (presses_after _ _ [e] (rc5_finished wanted got)); [by apply rc5_last_half|].
    apply presses_one. intros r dev (Hen & Hst & Hg). pose proof Hl as [Hp _ _ Hd].
    rewrite (rc5_open r dev last _ _ Hen Hl) by units.
    destruct (rc5_press 3 wanted got (rc5 r) r dev last Hen Hst Hg Hp) as (r' & Hr' & E); [units|].
    rewrite (Hcode _ Hg) in E. by exists r'.
  - apply presses_one. intros r dev (Hen & Hl & Hst). pose proof Hend as [Hp _ _ Hd].
    rewrite (rc5_open r dev e _ _ Hen Hend) by units.
    destruct Hst as [(Hst & Hg & Hpp & _)|(_ & -> & _)]; [|rewrite zlen_nil in Hw; lia].
    pose proof Hg as (Hc & Hww & _). rewrite (proj2 (Z.leb_gt _ _)) in Hww by lia.
    rewrite rc5_again_eq. margins. rewrite Hst. cbn [raw set_raw mbind option_bind].
    unfold is_transition. rewrite Hpp, Hp. cbn [negb Bool.eqb]. rewrite Hc, Hww.
    rewrite (proj2 (Z.eqb_eq _ _)) by lia.
    destruct (rc5_press 2 wanted got (set_rc5_st STATE_FINISHED (rc5 r)) r dev
      (decrease_duration e RC5_BIT_END) Hen eq_refl Hg) as (r' & Hr' & E).
    + by rewrite decrease_pulse.
    + rewrite decrease_dur by units. units.
    + rewrite (Hcode (set_rc5_st STATE_FINISHED (rc5 r)) Hg) in E. exists r'.
      split; [|exact E]. exact Hr'.
Qed.

(** ** Frames *)

(** The bits after the start bit. *)
Definition rc5_bits_of (field toggle : bool) (system command : Z) : list bool :=
  field :: toggle :: msb_bits 5 system ++ msb_bits 6 command.

Lemma rc5_code_of field toggle system command d :
  0 <= system < 32 -> 0 <= command < 64 ->
  rc5_got RC5_NBITS (rc5_bits_of field toggle system command) d ->
  rc5_scancode d =
  (Z.lor (Z.shiftl system 8) (command + (if field then 0 else 0x40)), Z.b2z toggle).
Proof.
  intros Hs Hc (_ & Hw & x & Hx & Hb). unfold rc5_scancode. rewrite Hw, Hb.
  set (bits := rc5_bits_of _ _ _ _).
  assert (length bits = 13%nat) as Hl.
  { unfold bits, rc5_bits_of. cbn [length]. by rewrite length_app, !msb_bits_length. }
  assert ((zlen bits <=? 7) = false) as -> by (unfold zlen; rewrite Hl; done).
  change (RC5_NBITS =? RC5X_NBITS) with false. cbv iota.
  assert (fold_left (shift_in 32) bits x mod 2 ^ 13 = msb_value bits) as Hlow.
  { change 13 with (Z.of_nat 13). rewrite <- Hl. apply shift_in_low; [done| |done].
    rewrite Hl. done. }
  assert (forall m, 0 <= m < 2 ^ 13 ->
    Z.land (fold_left (shift_in 32) bits x) m = Z.land (msb_value bits) m) as Hland.
  { intros m Hm. by rewrite (land_low _ 13), Hlow. }
  rewrite !Hland by done. unfold bits, rc5_bits_of.
  pose proof (msb_bits_length 5 system) as L5. pose proof (msb_bits_length 6 command) as L6.
  rewrite <- (app_nil_r (msb_bits 6 command)) at 1.
  rewrite (field_value (field :: toggle :: msb_bits 5 system) (msb_bits 6 command) [] 0 6)
    by (rewrite ?L6; done).
  rewrite (field_value [field; toggle] (msb_bits 5 system) (msb_bits 6 command) 6 5)
    by (rewrite ?L5, ?L6; done).
  pose proof (bit_value [field] toggle (msb_bits 5 system ++ msb_bits 6 command) 11 0x800) as B1.
  pose proof (bit_value [] field (toggle :: msb_bits 5 system ++ msb_bits 6 command) 12 0x1000) as B2.
  cbn [app] in B1, B2. rewrite B1, B2 by (cbn [length]; rewrite ?length_app, ?L5, ?L6; done).
  rewrite !msb_value_bits by done.
  rewrite (wrap_small 8) by (destruct field; lia). by destruct toggle.
Qed.

(** Fact: every RC-5 frame -- start bit, field bit, toggle bit, system and
    command, bi-phase coded with neighbouring halves merged, each sample off by
    less than half a unit -- decodes to exactly one press of the key with its
    system and seven-bit command (the inverted field bit on top) and its toggle
    bit; the decoder is then ready for the next frame. *)
Theorem rc5_roundtrip field toggle system command evs last :
  0 <= system < 32 -> 0 <= command < 64 ->
  signal RC5_UNIT (biphase negb true (rc5_bits_of field toggle system command)) evs ->
  biphase_ends RC5_UNIT (pending negb true (rc5_bits_of field toggle system command)) last ->
  presses ir_rc5_decode rc5_idle (evs ++ last) rc5_idle
    (Z.lor (Z.shiftl system 8) (command + (if field then 0 else 0x40))) (Z.b2z toggle).
Proof.
  intros Hs Hc Hsig Hend. set (bits := rc5_bits_of _ _ _ _) in *.
  assert (length bits = 13%nat) as Hl.
  { unfold bits, rc5_bits_of. cbn [length]. by rewrite length_app, !msb_bits_length. }
  eapply presses_after.
  - intros r dev (He & Hst & Hb).
    apply (biphase_moves (H := rc5_biphase RC5_NBITS) bits true []); [|done|].
    + intros k Hk. unfold rc5_more, zlen. cbn [app]. rewrite length_take.
      unfold RC5_NBITS. split; [lia|done].
    + split; [done|]. split; [done|]. by right.
  - apply (rc5_finish RC5_NBITS); [unfold zlen; cbn [app]; by rewrite Hl|done| |done].
    intros d Hd. by apply rc5_code_of.
Qed.

(** ** RC5X: a gap of four units after the eighth bit *)

(** The gap, between a half bit pending at [lvl] and the ninth bit [b]. *)
Definition rc5x_gap (lvl b : bool) : list (bool * Z) :=
  (if lvl then [(true, 1)] else []) ++
  (false, 4 + (if lvl then 0 else 1) + (if b then 1 else 0)) ::
  (if b then [] else [(true, 1)]).

Definition rc5x_over (got : list bool) (r : ir_raw_event_ctrl) : Prop :=
  enabled r /\ rc5_st (rc5 r) = STATE_BIT_START /\ rc5_got RC5X_NBITS got (rc5 r) /\
  pulse (prev_ev r) = false.

(** State CHECK_RC5X on the rest of the space. *)
Lemma rc5x_check fuel got (b : bool) d r dev ev :
  enabled r -> zlen got = 7 -> rc5_st d = STATE_CHECK_RC5X -> rc5_got RC5X_NBITS got d ->
  pulse ev = false -> near RC5_UNIT (4 + if b then 1 else 0) (duration ev) ->
  exists r', rc5_again (S (S fuel)) d (on r dev) ev = Some (on r' dev, 0) /\
    forall e, pulse e = false -> if b then rc5_end RC5X_NBITS true (got ++ [true]) (set_prev_ev e r')
              else rc5x_over got (set_prev_ev e r').
Proof.
  intros He Hl Hst Hg Hp Hd. rewrite rc5_again_eq.
  rewrite geq_margin_true by (destruct b; units). rewrite Hst, Hp.
  rewrite geq_margin_true by (destruct b; units). cbn [negb andb].
  pose proof Hg as (Hc & Hw & Hb).
  destruct b.
  - destruct (rc5_at_start fuel RC5X_NBITS got true
      (set_rc5_st STATE_BIT_START (set_rc5_wanted_bits RC5X_NBITS d)) (on r dev)
      (decrease_duration ev RC5X_SPACE)) as (d' & E & Hst' & Hg').
    + done.
    + lia.
    + done.
    + by destruct (zlen (got ++ [true]) <=? 7).
    + done.
    + by rewrite decrease_pulse.
    + rewrite decrease_dur by units. units.
    + rewrite E. exists (set_rc5 d' r). split; [done|]. intros e Hpe.
      split; [done|]. split; [rewrite zlen_app, zlen_singleton; lia|]. left.
      split; [done|]. split; [done|]. split; [done|]. by destruct got.
  - rewrite rc5_again_eq. margins. eexists (set_rc5 _ r). split; [reflexivity|].
    intros e Hpe. split; [done|]. split; [done|]. split; [|done].
    split; [done|]. split; [|done]. by destruct (zlen got <=? 7).
Qed.

Lemma rc5x_space got lvl b ev :
  zlen got = 7 -> sample RC5_UNIT (false, 4 + (if lvl : bool then 0 else 1) + (if b : bool then 1 else 0)) ev ->
  moves ir_rc5_decode
    (if lvl then rc5_start RC5X_NBITS true got else rc5_end RC5X_NBITS false got) [ev]
    (if b then rc5_end RC5X_NBITS true (got ++ [true]) else rc5x_over got).
Proof.
  intros H7 Hs. pose proof Hs as [Hp _ _ Hd]. cbn [fst snd] in Hp, Hd.
  apply moves_one. intros r dev Hst.
  assert (enabled r) as He by (by destruct lvl, Hst).
  rewrite (rc5_open r dev ev _ _ He Hs) by (destruct lvl, b; units).
  destruct lvl.
  - destruct Hst as (_ & _ & Hst & Hg & _). rewrite H7 in Hst.
    destruct (rc5x_check 2 got b (rc5 r) r dev ev He H7 Hst Hg Hp) as (r' & -> & Hr').
    { destruct b; units. }
    exists r', 0. split; [done|]. specialize (Hr' ev Hp). by destruct b.
  - destruct Hst as (_ & _ & [(Hst & Hg & Hpp & _)|(_ & -> & _)]); [|done].
    rewrite rc5_again_eq. rewrite geq_margin_true by (destruct b; units). rewrite Hst.
    cbn [negb raw set_raw mbind option_bind]. unfold is_transition. rewrite Hpp, Hp.
    cbn [negb Bool.eqb].
    destruct (rc5_next _ _ _ Hg) as [-> ->]; [unfold RC5X_NBITS; lia|]. rewrite H7. cbn [Z.eqb Pos.eqb].
    destruct (rc5x_check 1 got b (set_rc5_st STATE_CHECK_RC5X (rc5 r)) r dev
      (decrease_duration ev RC5_BIT_END) He H7 eq_refl Hg) as (r' & -> & Hr').
    + by rewrite decrease_pulse.
    + rewrite decrease_dur by (destruct b; units). destruct b; units.
    + exists r', 0. split; [done|]. specialize (Hr' ev Hp). by destruct b.
Qed.

Lemma rc5x_gap_moves got lvl b evs :
  zlen got = 7 -> signal RC5_UNIT (rc5x_gap lvl b) evs ->
  moves ir_rc5_decode (rc5_end RC5X_NBITS lvl got) evs (rc5_end RC5X_NBITS b (got ++ [b])).
Proof.
  intros H7 Hs. apply signal_app_inv in Hs as (e1 & e2 & -> & H1 & H2).
  apply signal_cons_inv in H2 as (sp & e3 & -> & Hsp & H3).
  apply (moves_app _ _ _ (if lvl then rc5_start RC5X_NBITS true got else rc5_end RC5X_NBITS false got)).
  { destruct lvl.
    - apply signal_cons_inv in H1 as (e & e' & -> & He & H1). inversion H1; subst.
      apply rc5_one; [unfold RC5X_NBITS; lia|done].
    - inversion H1; subst. by apply moves_nil. }
  apply (moves_cons _ _ _ (if b then rc5_end RC5X_NBITS true (got ++ [true]) else rc5x_over got));
    [by apply rc5x_space|].
  destruct b; [inversion H3; subst; by apply moves_nil|].
  apply signal_cons_inv in H3 as (e & e' & -> & He & H3). inversion H3; subst.
  apply moves_one. intros r dev (Hen & Hst & Hg & Hpp). pose proof He as [Hp _ _ Hd].
  cbn [fst snd] in Hp, Hd. rewrite (rc5_open r dev e _ _ Hen He) by units.
  pose proof Hg as (Hc & Hw & Hb).
  destruct (rc5_at_start 3 RC5X_NBITS got false (rc5 r) (on r dev) e) as (d' & -> & Hst' & Hg');
    [done|lia|done| |done|done|done|].
  - rewrite Hw. by destruct (zlen got <=? 7), (zlen (got ++ [false]) <=? 7).
  - exists (set_rc5 d' r), 0. split; [done|]. split; [done|].
    split; [rewrite zlen_app, zlen_singleton; lia|]. left.
    split; [done|]. split; [done|]. split; [done|]. by destruct got.
Qed.

Definition rc5x_first (field toggle : bool) (system : Z) : list bool :=
  field :: toggle :: msb_bits 5 system.
Definition rc5x_rest (command xdata : Z) : list bool := msb_bits 6 command ++ msb_bits 6 xdata.

(** The samples of an RC5X frame up to its last half bit, pending at [b2]. *)
Definition rc5x_signal (first : list bool) (b : bool) (rest : list bool) : list (bool * Z) :=
  biphase negb true first ++ rc5x_gap (pending negb true first) b ++ biphase negb b rest.

Lemma rc5x_code_of field toggle system command xdata d :
  0 <= system < 32 -> 0 <= command < 64 -> 0 <= xdata < 64 ->
  rc5_got RC5X_NBITS (rc5x_first field toggle system ++ rc5x_rest command xdata) d ->
  rc5_scancode d =
  (Z.lor (Z.lor (Z.shiftl system 16)
    (Z.shiftl (command + (if Z.testbit system 0 then 0 else 0x40)) 8)) xdata, Z.b2z toggle).
Proof.
  intros Hs Hc Hxd (_ & Hw & x & Hx & Hb). unfold rc5_scancode. rewrite Hw, Hb.
  set (bits := rc5x_first _ _ _ ++ _).
  assert (length bits = 19%nat) as Hl.
  { unfold bits, rc5x_first, rc5x_rest. by rewrite !length_app, !msb_bits_length. }
  assert ((zlen bits <=? 7) = false) as -> by (unfold zlen; rewrite Hl; done).
  rewrite Z.eqb_refl.
  assert (fold_left (shift_in 32) bits x mod 2 ^ 19 = msb_value bits) as Hlow.
  { change 19 with (Z.of_nat 19). rewrite <- Hl. apply shift_in_low; [done| |done].
    rewrite Hl. done. }
  assert (forall m, 0 <= m < 2 ^ 19 ->
    Z.land (fold_left (shift_in 32) bits x) m = Z.land (msb_value bits) m) as Hland.
  { intros m Hm. by rewrite (land_low _ 19), Hlow. }
  rewrite !Hland by done. unfold bits, rc5x_first, rc5x_rest.
  pose proof (msb_bits_length 5 system) as L5. pose proof (msb_bits_length 6 command) as L6.
  pose proof (msb_bits_length 6 xdata) as L6'. pose proof (msb_bits_length 4 (system / 2)) as L4.
  set (S5 := msb_bits 5 system) in *. set (C6 := msb_bits 6 command) in *.
  set (X6 := msb_bits 6 xdata) in *.
  pose proof (field_value (field :: toggle :: S5 ++ C6) X6 [] 0 6 0x3F eq_refl) as F1.
  pose proof (field_value (field :: toggle :: S5) C6 X6 6 6 0xFC0) as F2.
  pose proof (field_value [field; toggle] S5 (C6 ++ X6) 12 5 0x1F000) as F3.
  pose proof (bit_value [field] toggle (S5 ++ C6 ++ X6) 17 0x20000) as B1.
  pose proof (bit_value (field :: toggle :: take 4 S5) (Z.testbit system 0) (C6 ++ X6) 12 0x1000) as B2.
  cbn [app] in F1, F2, F3, B1, B2. rewrite <- !app_assoc, ?app_nil_r in F1.
  cbn [app]. rewrite F1, F2, F3, B1 by (cbn [length]; rewrite ?length_app, ?L5, ?L6, ?L6'; done).
  change (take 4 S5 ++ Z.testbit system 0 :: C6 ++ X6) with (S5 ++ C6 ++ X6) in B2.
  rewrite B2 by (cbn [length]; rewrite ?length_app, ?L6, ?L6'; done).
  unfold S5, C6, X6. rewrite !msb_value_bits by done.
  rewrite (wrap_small 8) by (destruct (Z.testbit system 0); lia). by destruct toggle.
Qed.

(** Fact: every RC5X frame decodes to exactly one press, with its toggle
    bit, of the key with its system, command and extra data -- but the seventh
    command bit is set by the lowest bit of the system, where the RC-5 branch
    uses the field bit, so frames that differ in the field bit are confused. *)
Theorem rc5x_decodes field toggle system command xdata b rest evs last :
  0 <= system < 32 -> 0 <= command < 64 -> 0 <= xdata < 64 ->
  rc5x_rest command xdata = b :: rest ->
  signal RC5_UNIT (rc5x_signal (rc5x_first field toggle system) b rest) evs ->
  biphase_ends RC5_UNIT (pending negb b rest) last ->
  presses ir_rc5_decode rc5_idle (evs ++ last) rc5_idle
    (Z.lor (Z.lor (Z.shiftl system 16)
       (Z.shiftl (command + (if Z.testbit system 0 then 0 else 0x40)) 8)) xdata)
    (Z.b2z toggle).
Proof.
  intros Hs Hc Hx Hrest Hsig Hend.
  assert (length (b :: rest) = 12%nat) as Hlr.
  { rewrite <- Hrest. unfold rc5x_rest. by rewrite length_app, !msb_bits_length. }
  pose proof (fun d => rc5x_code_of field toggle system command xdata d Hs Hc Hx) as Hcode.
  rewrite Hrest in Hcode. unfold rc5x_signal in Hsig.
  assert (length (rc5x_first field toggle system) = 7%nat) as Hlf by done.
  set (first := rc5x_first _ _ _) in *. clearbody first.
  apply signal_app_inv in Hsig as (e1 & e2 & -> & H1 & H2).
  apply signal_app_inv in H2 as (e3 & e4 & -> & H3 & H4).
  cbn in Hlr. eapply presses_after.
  - apply (moves_app _ _ _ (rc5_end RC5X_NBITS (pending negb true first) first)).
    { intros r dev (He & Hst & Hb).
      apply (biphase_moves (H := rc5_biphase RC5X_NBITS) first true []); [|done|].
      - intros k Hk. unfold rc5_more, zlen, RC5X_NBITS. cbn [app]. rewrite length_take. split; lia.
      - split; [done|]. split; [done|]. by right. }
    eapply moves_app; [apply rc5x_gap_moves; [unfold zlen; by rewrite Hlf|exact H3]|].
    apply (biphase_moves (H := rc5_biphase RC5X_NBITS) rest b (first ++ [b])); [|done].
    intros k Hk. unfold rc5_more, zlen, RC5X_NBITS. rewrite !length_app, length_take, Hlf. cbn [length].
    split; lia.
  - apply (rc5_finish RC5X_NBITS).
    + unfold zlen, RC5X_NBITS. rewrite !length_app, Hlf. cbn [length]. lia.
    + done.
    + intros d Hd. apply Hcode. by rewrite <- app_assoc in Hd.
    + done.
Qed.

End rc5.

(** Frames at work: system 0, command 0x11, toggle set; an RC5X frame with an
    odd system. *)
Definition sample_rc5 : list ir_raw_event :=
  exact_sample RC5_UNIT <$> biphase negb true (rc5_bits_of true true 0 0x11).

Lemma rc5_roundtrip_witness :
  exists r', rc5_idle r' /\
    run (@ir_rc5_decode sample_env) (on (listening RC_TYPE_RC5) sample_dev)
      (sample_rc5 ++ exact_end RC5_UNIT true) =
    set_raw (Some r') <$> @rc_keydown sample_env sample_dev 0x11 1.
Proof.
  apply (@rc5_roundtrip sample_env true true 0 0x11 sample_rc5 (exact_end RC5_UNIT true));
    [done|done|by apply exact_signal|by apply exact_ends|done].
Defined.

Definition sample_rc5x : list ir_raw_event :=
  exact_sample RC5_UNIT <$> rc5x_signal (rc5x_first true false 1) false
    (tail (rc5x_rest 0x11 0x22)).

Lemma rc5x_decodes_witness :
  exists r', rc5_idle r' /\
    run (@ir_rc5_decode sample_env) (on (listening RC_TYPE_RC5) sample_dev)
      (sample_rc5x ++ exact_end RC5_UNIT false) =
    set_raw (Some r') <$> @rc_keydown sample_env sample_dev 0x11122 0.
Proof.
  apply (@rc5x_decodes sample_env true false 1 0x11 0x22 false (tail (rc5x_rest 0x11 0x22))
    sample_rc5x (exact_end RC5_UNIT false));
    [done..|by apply exact_signal|by apply exact_ends|done].
Defined.
