(* ===== verification/IrSony.v ===== *)
(** The Sony decoder, drivers/media/rc/ir-sony-decoder.c: 12, 15 and 20 bits. *)

From stdpp Require Import strings.
From S2P Require Import Prelude RcTypes RcKeymap RcKeymapProofs RcKeydown IrRaw IrDecode.

Definition SONY_UNIT : Z := 600000.
Definition SONY_HEADER_PULSE : Z := 4 * SONY_UNIT.
Definition SONY_HEADER_SPACE : Z := 1 * SONY_UNIT.
Definition SONY_BIT_0_PULSE : Z := 1 * SONY_UNIT.
Definition SONY_BIT_1_PULSE : Z := 2 * SONY_UNIT.
Definition SONY_BIT_SPACE : Z := 1 * SONY_UNIT.
Definition SONY_TRAILER_SPACE : Z := 10 * SONY_UNIT.

Section sony.
Context `{RcEnv}.
Import Sony.

Definition put_sony (d : sony_dec) (dev : rc_dev) : rc_dev := upd_raw (set_sony d) dev.

(** Device, subdevice and function of the bits received, by their count. *)
Definition sony_fields (count bits : Z) : option (Z * Z * Z) :=
  if count =? 12 then
    Some (bitrev8 (Z.land (Z.shiftl bits 3) 0xF8), 0, bitrev8 (Z.land (Z.shiftr bits 4) 0xFE))
  else if count =? 15 then
    Some (bitrev8 (Z.land (Z.shiftr bits 0) 0xFF), 0, bitrev8 (Z.land (Z.shiftr bits 7) 0xFD))
  else if count =? 20 then
    Some (bitrev8 (Z.land (Z.shiftr bits 5) 0xF8), bitrev8 (Z.land (Z.shiftr bits 0) 0xFF),
          bitrev8 (Z.land (Z.shiftr bits 12) 0xFE))
  else None.

(** State FINISHED, also reached from BIT_SPACE. *)
Definition sony_finished (data : sony_dec) (dev : rc_dev) (ev : ir_raw_event) :
    option (rc_dev * Z) :=
  let fail data := Some (put_sony (set_sony_st STATE_INACTIVE data) dev, - EINVAL) in
  if pulse ev then fail data else
  if negb (geq_margin (duration ev) SONY_TRAILER_SPACE (SONY_UNIT / 2)) then fail data else
  match sony_fields (sony_count data) (sony_bits data) with
  | None => fail data
  | Some (device, subdevice, function) =>
    let scancode := Z.lor (Z.lor (Z.shiftl device 16) (Z.shiftl subdevice 8)) function in
    dev ← rc_keydown dev scancode 0;
    Some (put_sony (set_sony_st STATE_INACTIVE data) dev, 0)
  end.

Definition ir_sony_decode (dev : rc_dev) (ev : ir_raw_event) : option (rc_dev * Z) :=
  r ← raw dev;
  let data := sony r in
  if negb (truthy (Z.land (enabled_protocols r) RC_TYPE_SONY)) then Some (dev, 0) else
  if negb (is_timing_event ev) then
    Some (if reset ev then put_sony (set_sony_st STATE_INACTIVE data) dev else dev, 0) else
  let ok data := Some (put_sony data dev, 0) in
  let fail data := Some (put_sony (set_sony_st STATE_INACTIVE data) dev, - EINVAL) in
  let margin d2 := eq_margin (duration ev) d2 (SONY_UNIT / 2) in
  if negb (geq_margin (duration ev) SONY_UNIT (SONY_UNIT / 2)) then fail data else
  match sony_st data with
  | STATE_INACTIVE =>
    if negb (pulse ev) then fail data else
    if negb (margin SONY_HEADER_PULSE) then fail data else
    ok (set_sony_st STATE_HEADER_SPACE (set_sony_count 0 data))
  | STATE_HEADER_SPACE =>
    if pulse ev then fail data else
    if negb (margin SONY_HEADER_SPACE) then fail data else
    ok (set_sony_st STATE_BIT_PULSE data)
  | STATE_BIT_PULSE =>
    if negb (pulse ev) then fail data else
    let data := set_sony_bits (u32 (Z.shiftl (sony_bits data) 1)) data in
    let count data :=
      ok (set_sony_st STATE_BIT_SPACE (set_sony_count (u32 (sony_count data + 1)) data)) in
    if margin SONY_BIT_1_PULSE then count (set_sony_bits (Z.lor (sony_bits data) 1) data)
    else if negb (margin SONY_BIT_0_PULSE) then fail data
    else count data
  | STATE_BIT_SPACE =>
    if pulse ev then fail data else
    if negb (geq_margin (duration ev) SONY_BIT_SPACE (SONY_UNIT / 2)) then fail data else
    let ev := decrease_duration ev SONY_BIT_SPACE in
    if negb (geq_margin (duration ev) SONY_UNIT (SONY_UNIT / 2)) then
      ok (set_sony_st STATE_BIT_PULSE data)
    else sony_finished (set_sony_st STATE_FINISHED data) dev ev
  | STATE_FINISHED => sony_finished data dev ev
  end.

Definition sony_handler : ir_raw_handler := mk_handler 4 RC_TYPE_SONY ir_sony_decode None None.

(** ** A frame: header, then pulses of one or two units a unit apart *)

Fixpoint sony_pulses (bits : list bool) : list (bool * Z) :=
  match bits with
  | [] => []
  | [b] => [(true, if b then 2 else 1)]
  | b :: bits => (true, if b then 2 else 1) :: (false, 1) :: sony_pulses bits
  end.

Definition sony_signal (bits : list bool) : list (bool * Z) :=
  [(true, 4); (false, 1)] ++ sony_pulses bits.

Definition enabled (r : ir_raw_event_ctrl) : Prop :=
  truthy (Z.land (enabled_protocols r) RC_TYPE_SONY) = true.

Definition sony_got (st : sony_state) (got : list bool) (r : ir_raw_event_ctrl) : Prop :=
  enabled r /\ sony_st (sony r) = st /\ sony_count (sony r) = zlen got /\
  exists x, 0 <= x < 2 ^ 32 /\ sony_bits (sony r) = fold_left (shift_in 32) got x.

Definition sony_idle (r : ir_raw_event_ctrl) : Prop :=
  enabled r /\ sony_st (sony r) = STATE_INACTIVE /\ 0 <= sony_bits (sony r) < 2 ^ 32.

Ltac units :=
  unfold SONY_HEADER_PULSE, SONY_HEADER_SPACE, SONY_BIT_0_PULSE, SONY_BIT_1_PULSE,
    SONY_BIT_SPACE, SONY_TRAILER_SPACE, SONY_UNIT, near in *;
  change (600000 / 2) with 300000 in *; cbv iota in *; lia.
Ltac margins :=
  repeat first
    [ rewrite eq_margin_true by units | rewrite eq_margin_false by units
    | rewrite geq_margin_true by units | rewrite geq_margin_false by units
    | rewrite decrease_dur by units | rewrite decrease_pulse ]; cbn [negb andb].

Ltac sony_open He Hst Hs :=
  unfold ir_sony_decode; cbn [raw set_raw mbind option_bind]; unfold enabled in He;
  rewrite He, (sample_timing _ _ _ Hs), Hst; destruct Hs as [-> _ _ Hd]; cbn [fst snd] in Hd;
  cbn [fst snd negb].

Lemma sony_header h sp :
  sample SONY_UNIT (true, 4) h -> sample SONY_UNIT (false, 1) sp ->
  moves ir_sony_decode sony_idle [h; sp] (sony_got STATE_BIT_PULSE []).
Proof.
  intros Hh Hsp. apply (moves_cons _ _ _ (sony_got STATE_HEADER_SPACE [])); apply moves_one.
  - intros r dev (He & Hst & Hb). sony_open He Hst Hh. margins.
    eexists _, _. split; [reflexivity|]. split; [done|]. split; [done|]. split; [done|]. eauto.
  - intros r dev (He & Hst & Hc & Hb). sony_open He Hst Hsp. margins.
    eexists _, _. split; [reflexivity|]. done.
Qed.

Lemma sony_pulse got b ev :
  zlen got < 32 -> sample SONY_UNIT (true, if b : bool then 2 else 1) ev ->
  moves ir_sony_decode (sony_got STATE_BIT_PULSE got) [ev] (sony_got STATE_BIT_SPACE (got ++ [b])).
Proof.
  intros Hn Hs. pose proof (zlen_nonneg got). apply moves_one.
  intros r dev (He & Hst & Hc & x & Hx & Hb). sony_open He Hst Hs.
  rewrite geq_margin_true by (destruct b; units). cbn [negb].
  assert (u32 (zlen got + 1) = zlen (got ++ [b])) as E
    by (rewrite zlen_app, zlen_singleton; apply wrap_small; lia).
  destruct b; margins; (eexists _, _; split; [reflexivity|]); (split; [done|]); (split; [done|]);
    (split; [rewrite <- E, <- Hc; reflexivity|]); exists x; (split; [done|]); cbn;
    by rewrite Hb, fold_left_app.
Qed.

Lemma sony_space got ev :
  sample SONY_UNIT (false, 1) ev ->
  moves ir_sony_decode (sony_got STATE_BIT_SPACE got) [ev] (sony_got STATE_BIT_PULSE got).
Proof.
  intros Hs. apply moves_one. intros r dev (He & Hst & Hc & Hb). sony_open He Hst Hs. margins.
  eexists _, _. split; [reflexivity|]. done.
Qed.

Lemma sony_all_bits bits : forall got evs,
  zlen got + zlen bits <= 32 -> bits <> [] -> signal SONY_UNIT (sony_pulses bits) evs ->
  moves ir_sony_decode (sony_got STATE_BIT_PULSE got) evs (sony_got STATE_BIT_SPACE (got ++ bits)).
Proof.
  induction bits as [|b bits IH]; intros got evs Hl Hne Hs; [done|].
  rewrite zlen_cons in Hl. pose proof (zlen_nonneg bits).
  destruct bits as [|b' bits].
  - apply signal_cons_inv in Hs as (e & evs' & -> & He & Hs). inversion Hs; subst.
    apply sony_pulse; [lia|done].
  - apply signal_cons_inv in Hs as (e1 & evs1 & -> & He1 & Hs).
    apply signal_cons_inv in Hs as (e2 & evs2 & -> & He2 & Hs).
    eapply moves_cons; [apply (sony_pulse got b); [lia|done]|].
    eapply moves_cons; [by apply sony_space|].
    replace (got ++ b :: b' :: bits) with ((got ++ [b]) ++ b' :: bits) by (by rewrite <- app_assoc).
    apply IH; [|done|done]. rewrite zlen_app, zlen_singleton. lia.
Qed.

Lemma sony_trailer got ev device subdevice function :
  (forall bits, (exists x, 0 <= x < 2 ^ 32 /\ bits = fold_left (shift_in 32) got x) ->
     sony_fields (zlen got) bits = Some (device, subdevice, function)) ->
  long_space SONY_UNIT 11 ev ->
  presses ir_sony_decode (sony_got STATE_BIT_SPACE got) [ev] sony_idle
    (Z.lor (Z.lor (Z.shiftl device 16) (Z.shiftl subdevice 8)) function) 0.
Proof.
  intros Hf Hs. apply presses_one. intros r dev (He & Hst & Hc & x & Hx & Hb).
  pose proof (sa_pulse _ _ _ Hs) as Hp.
  sony_open He Hst Hs. margins. unfold sony_finished. margins. rewrite Hp. cbn [sony_count sony_bits set_sony_st].
  rewrite Hc, Hf by eauto.
  exists (set_sony (set_sony_st STATE_INACTIVE (set_sony_st STATE_FINISHED (sony r))) r). split.
  - split; [done|]. split; [done|]. cbn. rewrite Hb. by apply shift_in_range.
  - rewrite rc_keydown_raw. by destruct (rc_keydown dev _ _).
Qed.

(** ** The three frame lengths *)

(** The low [n] bits of a number, least significant first. *)
Definition lsb_bits (n : nat) (v : Z) : list bool := rev (msb_bits n v).

(** The register, with [n] known bits at the bottom. *)
Lemma register_low got bits :
  (exists x, 0 <= x < 2 ^ 32 /\ bits = fold_left (shift_in 32) got x) -> zlen got <= 32 ->
  0 <= bits < 2 ^ 32 /\ bits mod 2 ^ zlen got = msb_value got.
Proof.
  intros (x & Hx & ->) Hl. split; [by apply shift_in_range|].
  apply shift_in_low; [done| |done]. exact Hl.
Qed.

Context `{!RcEnvLaws H}.

(** [bitrev8] of a byte given by its bits. *)
Lemma bitrev8_bits l : length l = 8%nat -> bitrev8 (msb_value l) = msb_value (rev l).
Proof.
  intros Hl. destruct l as [|b7 [|b6 [|b5 [|b4 [|b3 [|b2 [|b1 [|b0 [|]]]]]]]]]; try done.
  replace [b7; b6; b5; b4; b3; b2; b1; b0]
    with (lsb8 (msb_value (rev [b7; b6; b5; b4; b3; b2; b1; b0]))) at 1
    by (by destruct b7, b6, b5, b4, b3, b2, b1, b0).
  apply bitrev8_lsb8. pose proof (msb_value_range (rev [b7; b6; b5; b4; b3; b2; b1; b0])) as Hr.
  done.
Qed.

Lemma lsb_bits_length n v : length (lsb_bits n v) = n.
Proof. unfold lsb_bits. by rewrite length_rev, msb_bits_length. Qed.

(** A field of fewer than eight bits, moved to the top of a byte and reversed. *)
Lemma bitrev8_field n v pad p :
  0 <= v < 2 ^ Z.of_nat n -> (n + pad = 8)%nat -> p = 2 ^ Z.of_nat pad ->
  bitrev8 (msb_value (lsb_bits n v) * p) = v.
Proof.
  intros Hv Hn ->. assert (msb_value (replicate pad false) = 0) as H0.
  { clear. induction pad as [|p IH]; [done|]. cbn. by rewrite IH. }
  replace (msb_value (lsb_bits n v) * 2 ^ Z.of_nat pad)
    with (msb_value (lsb_bits n v ++ replicate pad false)).
  2: { rewrite msb_value_app, length_replicate, H0. lia. }
  rewrite bitrev8_bits by (rewrite length_app, length_replicate, lsb_bits_length; lia).
  rewrite rev_app_distr. unfold lsb_bits. rewrite rev_involutive.
  rewrite msb_value_app, msb_value_bits by done.
  assert (rev (replicate pad false) = replicate pad false) as ->; [|rewrite H0; lia].
  clear. induction pad as [|p IH]; [done|]. cbn. rewrite IH.
  change [false] with (replicate 1 false). rewrite <- replicate_add.
  by rewrite Nat.add_comm.
Qed.

(** The frames: seven bits of function, then the device, then a subdevice. *)
Inductive sony_frame :=
  | Sony12 (function device : Z)
  | Sony15 (function device : Z)
  | Sony20 (function device subdevice : Z).

Definition sony_frame_ok (f : sony_frame) : Prop :=
  match f with
  | Sony12 f d => 0 <= f < 128 /\ 0 <= d < 32
  | Sony15 f d => 0 <= f < 128 /\ 0 <= d < 256
  | Sony20 f d s => 0 <= f < 128 /\ 0 <= d < 32 /\ 0 <= s < 256
  end.

Definition sony_frame_bits (f : sony_frame) : list bool :=
  match f with
  | Sony12 f d => lsb_bits 7 f ++ lsb_bits 5 d
  | Sony15 f d => lsb_bits 7 f ++ lsb_bits 8 d
  | Sony20 f d s => lsb_bits 7 f ++ lsb_bits 5 d ++ lsb_bits 8 s
  end.

(** The fields the decoder takes from a frame.  The mask of the 15-bit branch
    lets the lowest device bit into the function and drops the function's
    highest. *)
Definition sony_frame_fields (f : sony_frame) : Z * Z * Z :=
  match f with
  | Sony12 f d => (d, 0, f)
  | Sony15 f d => (d, 0, f mod 64 + 128 * Z.b2z (Z.testbit d 0))
  | Sony20 f d s => (d, s, f)
  end.

Lemma sony15_function f d bits :
  0 <= f < 128 -> 0 <= d < 256 ->
  bits mod 2 ^ 15 = msb_value (lsb_bits 7 f ++ lsb_bits 8 d) ->
  bitrev8 (Z.land (Z.shiftr bits 7) 0xFD) = f mod 64 + 128 * Z.b2z (Z.testbit d 0).
Proof.
  intros Hf Hd Hb. rewrite (land_low _ 8) by done. rewrite Z.shiftr_div_pow2 by done.
  pose proof (reg_field bits [] (lsb_bits 7 f ++ [Z.testbit d 0]) (tail (lsb_bits 8 d))) as Hr.
  change ([] ++ (lsb_bits 7 f ++ [Z.testbit d 0]) ++ tail (lsb_bits 8 d))
    with (lsb_bits 7 f ++ lsb_bits 8 d) in Hr. specialize (Hr Hb).
  change (zlen (lsb_bits 7 f ++ [Z.testbit d 0])) with 8 in Hr.
  change (zlen (tail (lsb_bits 8 d))) with 7 in Hr. rewrite Hr.
  rewrite <- (msb_value_bits 7 f) at 2 by done. cbn [lsb_bits msb_bits rev app].
  destruct (Z.testbit d 0), (Z.testbit f (Z.of_nat 6)), (Z.testbit f (Z.of_nat 5)),
    (Z.testbit f (Z.of_nat 4)), (Z.testbit f (Z.of_nat 3)), (Z.testbit f (Z.of_nat 2)),
    (Z.testbit f (Z.of_nat 1)), (Z.testbit f (Z.of_nat 0));
  match goal with |- bitrev8 (Z.land (msb_value [?a;?b;?c;?d;?e;?f;?g;?h]) 0xFD) = _ =>
    change (Z.land (msb_value [a;b;c;d;e;f;g;h]) 0xFD) with (msb_value [a;b;c;d;e;f;false;h])
  end; rewrite bitrev8_bits by done; reflexivity.
Qed.

Lemma sony_fields_of f bits :
  sony_frame_ok f ->
  (exists x, 0 <= x < 2 ^ 32 /\ bits = fold_left (shift_in 32) (sony_frame_bits f) x) ->
  sony_fields (zlen (sony_frame_bits f)) bits = Some (sony_frame_fields f).
Proof.
  intros Hok Hx. destruct (register_low _ _ Hx) as [Hr Hb]; [by destruct f|]. clear Hx.
  unfold sony_fields.
  destruct f as [f d|f d|f d s]; cbn [sony_frame_ok sony_frame_bits sony_frame_fields] in *.
  - change (zlen (lsb_bits 7 f ++ lsb_bits 5 d)) with 12 in *. cbn [Z.eqb Pos.eqb].
    destruct Hok as [Hf Hd]. rewrite (mask_field _ 3 5), (mask_field _ 1 7) by done.
    pose proof (reg_field bits (lsb_bits 7 f) (lsb_bits 5 d) []) as R1. rewrite app_nil_r in R1.
    specialize (R1 Hb). change (zlen (lsb_bits 5 d)) with 5 in R1. rewrite Z.div_1_r in R1.
    pose proof (reg_field bits [] (lsb_bits 7 f) (lsb_bits 5 d) Hb) as R2.
    change (zlen (lsb_bits 7 f)) with 7 in R2. change (zlen (lsb_bits 5 d)) with 5 in R2.
    rewrite Z.shiftl_mul_pow2, Z.div_mul, R1, Z.shiftr_div_pow2, Z.div_div by done.
    change (2 ^ 4 * 2 ^ 1) with (2 ^ 5). rewrite R2.
    by rewrite (bitrev8_field 5 d 3 (2 ^ 3)), (bitrev8_field 7 f 1 (2 ^ 1)) by (done || lia).
  - change (zlen (lsb_bits 7 f ++ lsb_bits 8 d)) with 15 in *. cbn [Z.eqb Pos.eqb].
    destruct Hok as [Hf Hd]. rewrite (sony15_function f d) by done.
    rewrite (mask_field _ 0 8), Z.shiftr_0_r, Z.div_1_r by done.
    pose proof (reg_field bits (lsb_bits 7 f) (lsb_bits 8 d) []) as R1. rewrite app_nil_r in R1.
    specialize (R1 Hb). change (zlen (lsb_bits 8 d)) with 8 in R1. rewrite Z.div_1_r in R1.
    by rewrite R1, (bitrev8_field 8 d 0 (2 ^ 0)) by (done || lia).
  - change (zlen (lsb_bits 7 f ++ lsb_bits 5 d ++ lsb_bits 8 s)) with 20 in *. cbn [Z.eqb Pos.eqb].
    destruct Hok as (Hf & Hd & Hs).
    rewrite (mask_field _ 3 5), (mask_field _ 0 8), (mask_field _ 1 7) by done.
    pose proof (reg_field bits [] (lsb_bits 7 f) (lsb_bits 5 d ++ lsb_bits 8 s) Hb) as R1.
    pose proof (reg_field bits (lsb_bits 7 f) (lsb_bits 5 d) (lsb_bits 8 s) Hb) as R2.
    pose proof (reg_field bits (lsb_bits 7 f ++ lsb_bits 5 d) (lsb_bits 8 s) []) as R3.
    rewrite app_nil_r, <- app_assoc in R3. specialize (R3 Hb).
    change (zlen (lsb_bits 7 f)) with 7 in R1. change (zlen (lsb_bits 5 d)) with 5 in R2.
    change (zlen (lsb_bits 8 s)) with 8 in R2, R3. rewrite Z.div_1_r in R3.
    change (zlen (lsb_bits 5 d ++ lsb_bits 8 s)) with 13 in R1.
    rewrite !Z.shiftr_div_pow2, !Z.div_div, Z.div_1_r by done.
    change (2 ^ 5 * 2 ^ 3) with (2 ^ 8). change (2 ^ 12 * 2 ^ 1) with (2 ^ 13).
    rewrite R1, R2, R3.
    by rewrite (bitrev8_field 5 d 3 (2 ^ 3)), (bitrev8_field 8 s 0 (2 ^ 0)), (bitrev8_field 7 f 1 (2 ^ 1)) by (done || lia).
Qed.

(** Fact: every Sony frame of 12, 15 or 20 bits, each sample off by less
    than half a unit and followed by the long silence, decodes to exactly one
    press of the key with its device, subdevice and function -- except that a
    15-bit frame loses the highest function bit and gets the lowest device bit
    in its place -- and leaves the decoder ready for the next frame. *)
Theorem sony_decodes f evs last :
  sony_frame_ok f -> signal SONY_UNIT (sony_signal (sony_frame_bits f)) evs ->
  long_space SONY_UNIT 11 last ->
  let '(device, subdevice, function) := sony_frame_fields f in
  presses ir_sony_decode sony_idle (evs ++ [last]) sony_idle
    (Z.lor (Z.lor (Z.shiftl device 16) (Z.shiftl subdevice 8)) function) 0.
Proof.
  intros Hok Hs Hlast. pose proof (fun bits => sony_fields_of f bits Hok) as Hf.
  destruct (sony_frame_fields f) as [[device subdevice] function].
  assert (zlen (sony_frame_bits f) <= 32 /\ sony_frame_bits f <> []) as [Hl Hne] by (by destruct f).
  apply signal_app_inv in Hs as (e1 & e2 & -> & H1 & H2).
  apply signal_cons_inv in H1 as (h & e3 & -> & Hh & H1).
  apply signal_cons_inv in H1 as (sp & e4 & -> & Hsp & H1). inversion H1; subst.
  eapply presses_after; [|by apply (sony_trailer (sony_frame_bits f))].
  eapply moves_app; [by apply sony_header|]. by apply (sony_all_bits (sony_frame_bits f) []).
Qed.

End sony.

(** A frame at work: function 0x11 of device 0, in twelve bits. *)
Definition sample_sony : list ir_raw_event :=
  exact_sample SONY_UNIT <$> sony_signal (sony_frame_bits (Sony12 0x11 0)).

Lemma sony_decodes_witness :
  exists r', sony_idle r' /\
    run (@ir_sony_decode sample_env) (on (listening RC_TYPE_SONY) sample_dev)
      (sample_sony ++ [exact_silence SONY_UNIT 11]) =
    set_raw (Some r') <$> @rc_keydown sample_env sample_dev 0x11 0.
Proof.
  apply (@sony_decodes sample_env sample_env_laws (Sony12 0x11 0) sample_sony
    (exact_silence SONY_UNIT 11)); [done|by apply exact_signal|by apply exact_long_space|done].
Defined.
