(* ===== verification/IrJvc.v ===== *)
(** The JVC decoder, drivers/media/rc/ir-jvc-decoder.c. *)

From stdpp Require Import strings.
From S2P Require Import Prelude RcTypes RcKeymap RcKeymapProofs RcKeydown IrRaw IrDecode.

Definition JVC_NBITS : Z := 16.
Definition JVC_UNIT : Z := 525000.
Definition JVC_HEADER_PULSE : Z := 16 * JVC_UNIT.
Definition JVC_HEADER_SPACE : Z := 8 * JVC_UNIT.
Definition JVC_BIT_PULSE : Z := 1 * JVC_UNIT.
Definition JVC_BIT_0_SPACE : Z := 1 * JVC_UNIT.
Definition JVC_BIT_1_SPACE : Z := 3 * JVC_UNIT.
Definition JVC_TRAILER_PULSE : Z := 1 * JVC_UNIT.
Definition JVC_TRAILER_SPACE : Z := 35 * JVC_UNIT.

Section jvc.
Context `{RcEnv}.
Import Jvc.

Definition put_jvc (d : jvc_dec) (dev : rc_dev) : rc_dev := upd_raw (set_jvc d) dev.

Definition jvc_scancode (bits : Z) : Z :=
  Z.lor (Z.shiftl (bitrev8 (Z.land (Z.shiftr bits 8) 0xff)) 8)
        (Z.shiftl (bitrev8 (Z.land (Z.shiftr bits 0) 0xff)) 0).

(** The code from label [again] on. *)
Fixpoint jvc_again (fuel : nat) (data : jvc_dec) (dev : rc_dev) (ev : ir_raw_event) :
    option (rc_dev * Z) :=
  match fuel with
  | O => None
  | S fuel =>
    let ok data := Some (put_jvc data dev, 0) in
    let fail data := Some (put_jvc (set_jvc_st STATE_INACTIVE data) dev, - EINVAL) in
    let margin d2 := eq_margin (duration ev) d2 (JVC_UNIT / 2) in
    match jvc_st data with
    | STATE_INACTIVE =>
      if negb (pulse ev) then fail data else
      if negb (margin JVC_HEADER_PULSE) then fail data else
      let data := set_jvc_first true (set_jvc_count 0 data) in
      let data := set_jvc_toggle (negb (jvc_toggle data)) data in
      ok (set_jvc_st STATE_HEADER_SPACE data)
    | STATE_HEADER_SPACE =>
      if pulse ev then fail data else
      if negb (margin JVC_HEADER_SPACE) then fail data else
      ok (set_jvc_st STATE_BIT_PULSE data)
    | STATE_BIT_PULSE =>
      if negb (pulse ev) then fail data else
      if negb (margin JVC_BIT_PULSE) then fail data else
      ok (set_jvc_st STATE_BIT_SPACE data)
    | STATE_BIT_SPACE =>
      if pulse ev then fail data else
      let data := set_jvc_bits (u16 (Z.shiftl (jvc_bits data) 1)) data in
      let count data :=
        let data := set_jvc_count (u32 (jvc_count data + 1)) data in
        if jvc_count data =? JVC_NBITS then ok (set_jvc_st STATE_TRAILER_PULSE data)
        else ok (set_jvc_st STATE_BIT_PULSE data) in
      if margin JVC_BIT_1_SPACE then count (set_jvc_bits (Z.lor (jvc_bits data) 1) data)
      else if margin JVC_BIT_0_SPACE then count data
      else fail data
    | STATE_TRAILER_PULSE =>
      if negb (pulse ev) then fail data else
      if negb (margin JVC_TRAILER_PULSE) then fail data else
      ok (set_jvc_st STATE_TRAILER_SPACE data)
    | STATE_TRAILER_SPACE =>
      if pulse ev then fail data else
      if negb (geq_margin (duration ev) JVC_TRAILER_SPACE (JVC_UNIT / 2)) then fail data else
      let finish data dev :=
        Some (put_jvc (set_jvc_st STATE_CHECK_REPEAT (set_jvc_count 0 data)) dev, 0) in
      if jvc_first data then
        dev ← rc_keydown dev (jvc_scancode (jvc_bits data)) (Z.b2z (jvc_toggle data));
        finish (set_jvc_old_bits (jvc_bits data) (set_jvc_first false data)) dev
      else if jvc_bits data =? jvc_old_bits data then finish data (rc_repeat dev)
      else fail data
    | STATE_CHECK_REPEAT =>
      if negb (pulse ev) then fail data else
      let data :=
        if margin JVC_HEADER_PULSE then set_jvc_st STATE_INACTIVE data
        else set_jvc_st STATE_BIT_PULSE data in
      jvc_again fuel data dev ev
    end
  end.

Definition ir_jvc_decode (dev : rc_dev) (ev : ir_raw_event) : option (rc_dev * Z) :=
  r ← raw dev;
  let data := jvc r in
  if negb (truthy (Z.land (enabled_protocols r) RC_TYPE_JVC)) then Some (dev, 0) else
  if negb (is_timing_event ev) then
    Some (if reset ev then put_jvc (set_jvc_st STATE_INACTIVE data) dev else dev, 0) else
  if negb (geq_margin (duration ev) JVC_UNIT (JVC_UNIT / 2)) then
    Some (put_jvc (set_jvc_st STATE_INACTIVE data) dev, - EINVAL) else
  jvc_again 2 data dev ev.

Definition jvc_handler : ir_raw_handler := mk_handler 3 RC_TYPE_JVC ir_jvc_decode None None.

(** ** Frames *)

Definition jvc_bit (b : bool) : list (bool * Z) := [(true, 1); (false, if b then 3 else 1)].

(** The bits and the trailer pulse; a full frame has a header before them, a
    repeat does not. *)
Definition jvc_body (bits : list bool) : list (bool * Z) := flat_map jvc_bit bits ++ [(true, 1)].
Definition jvc_header : list (bool * Z) := [(true, 16); (false, 8)].

Lemma jvc_again_eq fuel data dev ev :
  jvc_again (S fuel) data dev ev =
  ltac:(let t := eval cbn [jvc_again] in (jvc_again (S fuel) data dev ev) in exact t).
Proof. reflexivity. Qed.

Definition enabled (r : ir_raw_event_ctrl) : Prop :=
  truthy (Z.land (enabled_protocols r) RC_TYPE_JVC) = true.

Ltac units :=
  unfold JVC_HEADER_PULSE, JVC_HEADER_SPACE, JVC_BIT_0_SPACE, JVC_BIT_1_SPACE, JVC_BIT_PULSE,
    JVC_TRAILER_PULSE, JVC_TRAILER_SPACE, JVC_UNIT, near in *;
  change (525000 / 2) with 262500 in *; cbv iota in *; lia.
Ltac margins :=
  repeat first
    [ rewrite eq_margin_true by units | rewrite eq_margin_false by units
    | rewrite geq_margin_true by units | rewrite geq_margin_false by units ]; cbn [negb andb].

Ltac jvc_open He Hst Hs :=
  unfold ir_jvc_decode; cbn [raw set_raw mbind option_bind]; unfold enabled in He;
  rewrite He, (sample_timing _ _ _ Hs); destruct Hs as [Hp _ _ Hd]; cbn [fst snd] in Hp, Hd;
  cbn [negb]; margins; rewrite jvc_again_eq, Hst, ?Hp; cbn [negb].

(** What stays the same while a frame comes in: is it a first frame, the
    toggle, the bits of the frame before. *)
Definition jvc_frame := (bool * bool * Z)%type.

Definition jvc_got (st : jvc_state) (f : jvc_frame) (got : list bool) (r : ir_raw_event_ctrl) : Prop :=
  enabled r /\ jvc_st (jvc r) = st /\ jvc_count (jvc r) = zlen got /\
  f = (jvc_first (jvc r), jvc_toggle (jvc r), jvc_old_bits (jvc r)) /\
  exists x, 0 <= x < 2 ^ 16 /\ jvc_bits (jvc r) = fold_left (shift_in 16) got x.

(** Ready for a full frame. *)
Definition jvc_ready (t : bool) (r : ir_raw_event_ctrl) : Prop :=
  enabled r /\ (jvc_st (jvc r) = STATE_INACTIVE \/ jvc_st (jvc r) = STATE_CHECK_REPEAT) /\
  jvc_toggle (jvc r) = t /\ 0 <= jvc_bits (jvc r) < 2 ^ 16.

(** After a frame with these bits: ready for a repeat, too. *)
Definition jvc_after (t : bool) (bits : Z) (r : ir_raw_event_ctrl) : Prop :=
  jvc_got STATE_CHECK_REPEAT (false, t, bits) [] r /\ jvc_bits (jvc r) = bits.

Lemma jvc_start t h sp :
  sample JVC_UNIT (true, 16) h -> sample JVC_UNIT (false, 8) sp ->
  moves ir_jvc_decode (jvc_ready t) [h; sp]
    (fun r => exists old, jvc_got STATE_BIT_PULSE (true, negb t, old) [] r).
Proof.
  intros Hh Hsp. apply (moves_cons _ _ _
    (fun r => exists old, jvc_got STATE_HEADER_SPACE (true, negb t, old) [] r)); apply moves_one.
  - intros r dev (He & Hst & Ht & Hb).
    assert (ir_jvc_decode (on r dev) h = Some (put_jvc (set_jvc_st STATE_HEADER_SPACE
      (set_jvc_toggle (negb t) (set_jvc_first true (set_jvc_count 0
        (set_jvc_st STATE_INACTIVE (jvc r)))))) (on r dev), 0)) as ->.
    { destruct Hst as [Hst|Hst]; jvc_open He Hst Hh; margins.
      - cbn. by rewrite Ht.
      - rewrite jvc_again_eq. cbn [jvc_st set_jvc_st]. rewrite Hp. margins. cbn. by rewrite Ht. }
    eexists _, _. split; [reflexivity|]. exists (jvc_old_bits (jvc r)).
    split; [done|]. split; [done|]. split; [done|]. split; [done|]. eauto.
  - intros r dev (old & He & Hst & Hc & Hf & Hb). jvc_open He Hst Hsp. margins.
    eexists _, _. split; [reflexivity|]. by exists old.
Qed.

(** The first pulse of a repeat. *)
Lemma jvc_repeat_start f ev :
  sample JVC_UNIT (true, 1) ev ->
  moves ir_jvc_decode (jvc_got STATE_CHECK_REPEAT f []) [ev] (jvc_got STATE_BIT_SPACE f []).
Proof.
  intros Hs. apply moves_one. intros r dev (He & Hst & Hc & Hf & Hb). jvc_open He Hst Hs. margins.
  rewrite jvc_again_eq. cbn [jvc_st set_jvc_st]. rewrite Hp. margins.
  eexists _, _. split; [reflexivity|]. done.
Qed.

Lemma jvc_pulse f got ev :
  sample JVC_UNIT (true, 1) ev ->
  moves ir_jvc_decode (jvc_got STATE_BIT_PULSE f got) [ev] (jvc_got STATE_BIT_SPACE f got).
Proof.
  intros Hs. apply moves_one. intros r dev (He & Hst & Hc & Hf & Hb). jvc_open He Hst Hs. margins.
  eexists _, _. split; [reflexivity|]. done.
Qed.

Definition jvc_next (n : Z) : jvc_state := if n =? 16 then STATE_TRAILER_PULSE else STATE_BIT_PULSE.

Lemma jvc_space f got b ev :
  zlen got < 16 -> sample JVC_UNIT (false, if b : bool then 3 else 1) ev ->
  moves ir_jvc_decode (jvc_got STATE_BIT_SPACE f got) [ev]
    (jvc_got (jvc_next (zlen got + 1)) f (got ++ [b])).
Proof.
  intros Hn Hs. pose proof (zlen_nonneg got). apply moves_one.
  intros r dev (He & Hst & Hc & Hf & x & Hx & Hb).
  assert (262500 < duration ev) as Hlow by (destruct Hs as [_ _ _ Hd]; cbn in Hd; destruct b; units).
  jvc_open He Hst Hs.
  assert (u32 (jvc_count (jvc r) + 1) = zlen got + 1) as E
    by (rewrite Hc; apply wrap_small; lia).
  assert (forall v, v = shift_in 16 (jvc_bits (jvc r)) b ->
    exists r' rc,
     (let data := set_jvc_count (u32 (jvc_count (jvc r) + 1)) (set_jvc_bits v (jvc r)) in
      if jvc_count data =? JVC_NBITS
      then Some (put_jvc (set_jvc_st STATE_TRAILER_PULSE data) (on r dev), 0)
      else Some (put_jvc (set_jvc_st STATE_BIT_PULSE data) (on r dev), 0)) = Some (on r' dev, rc) /\
     jvc_got (jvc_next (zlen got + 1)) f (got ++ [b]) (set_prev_ev ev r')) as Hgo.
  { intros v Hv. cbn [jvc_count set_jvc_count]. rewrite E. unfold jvc_next, JVC_NBITS.
    assert (zlen (got ++ [b]) = zlen got + 1) as Ez by (rewrite zlen_app, zlen_singleton; done).
    destruct (zlen got + 1 =? 16); (eexists _, _; split; [reflexivity|]); (split; [done|]);
      (split; [done|]); (split; [by rewrite Ez|]); (split; [done|]); exists x; (split; [done|]);
      cbn; by rewrite Hv, Hb, fold_left_app. }
  destruct b; margins; by apply Hgo.
Qed.

(** The spaces and pulses after the first pulse of the body. *)
Fixpoint jvc_tail (bits : list bool) : list (bool * Z) :=
  match bits with
  | [] => []
  | b :: bits => (false, if b then 3 else 1) :: (true, 1) :: jvc_tail bits
  end.

Lemma jvc_body_tail bits : jvc_body bits = (true, 1) :: jvc_tail bits.
Proof.
  unfold jvc_body. induction bits as [|b bits IH]; [done|].
  cbn [flat_map jvc_bit app jvc_tail]. by rewrite IH.
Qed.

Lemma jvc_trailer_pulse f got ev :
  sample JVC_UNIT (true, 1) ev ->
  moves ir_jvc_decode (jvc_got STATE_TRAILER_PULSE f got) [ev] (jvc_got STATE_TRAILER_SPACE f got).
Proof.
  intros Hs. apply moves_one. intros r dev (He & Hst & Hc & Hf & Hb). jvc_open He Hst Hs. margins.
  eexists _, _. split; [reflexivity|]. done.
Qed.

Lemma jvc_all_bits f bits : forall got evs,
  zlen got + zlen bits = 16 -> bits <> [] -> signal JVC_UNIT (jvc_tail bits) evs ->
  moves ir_jvc_decode (jvc_got STATE_BIT_SPACE f got) evs
    (jvc_got STATE_TRAILER_SPACE f (got ++ bits)).
Proof.
  induction bits as [|b bits IH]; intros got evs Hl Hne Hs; [done|].
  cbn [jvc_tail] in Hs. rewrite zlen_cons in Hl. pose proof (zlen_nonneg bits).
  apply signal_cons_inv in Hs as (e1 & evs1 & -> & Hs1 & Hs).
  apply signal_cons_inv in Hs as (e2 & evs2 & -> & Hs2 & Hs).
  pose proof (jvc_space f got b e1 ltac:(lia) Hs1) as Hb. unfold jvc_next in Hb.
  eapply moves_cons; [exact Hb|]. destruct bits as [|b' bits].
  - rewrite zlen_nil in Hl. rewrite (proj2 (Z.eqb_eq _ _)) by lia.
    inversion Hs; subst. by apply jvc_trailer_pulse.
  - pose proof (zlen_nonneg bits). rewrite zlen_cons in Hl.
    rewrite (proj2 (Z.eqb_neq _ _)) by lia.
    eapply moves_cons; [by apply jvc_pulse|].
    replace (got ++ b :: b' :: bits) with ((got ++ [b]) ++ b' :: bits) by (by rewrite <- app_assoc).
    apply IH; [|done|done]. rewrite zlen_app, zlen_singleton, zlen_cons. lia.
Qed.

(** The silence after a first frame presses the key. *)
Lemma jvc_press t old got ev :
  zlen got = 16 -> long_space JVC_UNIT 35 ev ->
  presses ir_jvc_decode (jvc_got STATE_TRAILER_SPACE (true, t, old) got) [ev]
    (jvc_after t (msb_value got)) (jvc_scancode (msb_value got)) (Z.b2z t).
Proof.
  intros Hl Hs. apply presses_one. intros r dev (He & Hst & Hc & Hf & x & Hx & Hb).
  injection Hf as Hf1 Hf2 Hf3. jvc_open He Hst Hs. margins. rewrite <- Hf1, <- Hf2.
  rewrite Hb, shift_in_full by (done || (unfold zlen in Hl; lia)).
  exists (set_jvc (set_jvc_st STATE_CHECK_REPEAT (set_jvc_count 0
    (set_jvc_old_bits (msb_value got) (set_jvc_first false (jvc r))))) r). split.
  - split; [|cbn; by rewrite Hb, shift_in_full by (done || (unfold zlen in Hl; lia))].
    split; [done|]. split; [done|]. split; [done|]. split; [cbn; by rewrite <- Hf2|].
    exists (jvc_bits (jvc r)). split; [|done]. rewrite Hb. by apply shift_in_range.
  - rewrite rc_keydown_raw. by destruct (rc_keydown dev _ _).
Qed.

(** The silence after a repeat of the same bits only repeats. *)
Lemma jvc_repeat_end t old got ev r dev :
  zlen got = 16 -> old = msb_value got -> long_space JVC_UNIT 35 ev ->
  jvc_got STATE_TRAILER_SPACE (false, t, old) got r ->
  exists r', jvc_after t (msb_value got) r' /\
    run ir_jvc_decode (on r dev) [ev] = Some (on r' (rc_repeat dev)).
Proof.
  intros Hl -> Hs (He & Hst & Hc & Hf & x & Hx & Hb). injection Hf as Hf1 Hf2 Hf3.
  assert (jvc_bits (jvc r) = msb_value got) as Hv
    by (rewrite Hb; apply shift_in_full; [done|unfold zlen in Hl; lia|done]).
  assert (ir_jvc_decode (on r dev) ev = Some (on (set_jvc (set_jvc_st STATE_CHECK_REPEAT
    (set_jvc_count 0 (jvc r))) r) (rc_repeat dev), 0)) as E.
  { jvc_open He Hst Hs. margins. rewrite <- Hf1, Hv, <- Hf3, Z.eqb_refl.
    by rewrite rc_repeat_raw. }
  eexists. split; [|by rewrite (run_step _ _ _ _ _ _ _ _ E)].
  split; [|done]. split; [done|]. split; [done|]. split; [done|].
  split; [cbn; by rewrite <- Hf1, <- Hf2, <- Hf3|].
  exists (jvc_bits (jvc r)). split; [|done]. rewrite Hb. by apply shift_in_range.
Qed.

Context `{!RcEnvLaws H}.

Lemma jvc_scancode_code d c :
  0 <= d < 256 -> 0 <= c < 256 ->
  jvc_scancode (msb_value (lsb8 d ++ lsb8 c)) = Z.lor (Z.shiftl d 8) c.
Proof.
  intros Hd Hc. unfold jvc_scancode. rewrite Z.shiftr_0_r, Z.shiftl_0_r.
  pose proof (field_value [] (lsb8 d) (lsb8 c) 8 8 0xff00 eq_refl eq_refl eq_refl) as F1.
  pose proof (field_value (lsb8 d) (lsb8 c) [] 0 8 0xff eq_refl eq_refl eq_refl) as F2.
  rewrite app_nil_l in F1. rewrite app_nil_r, Z.shiftr_0_r in F2.
  rewrite Z.shiftr_land in F1. change (Z.shiftr 0xff00 8) with 0xff in F1.
  by rewrite F1, F2, !bitrev8_lsb8.
Qed.

(** Fact: every full JVC frame decodes to exactly one press of the key with
    its device and function, under a toggle that flips from frame to frame, and
    a header-less repetition of the same bits after it only signals that the
    key is still held; after either the decoder is ready for both. *)
Theorem jvc_roundtrip t d c evs last :
  0 <= d < 256 -> 0 <= c < 256 ->
  signal JVC_UNIT (jvc_header ++ jvc_body (lsb8 d ++ lsb8 c)) evs -> long_space JVC_UNIT 35 last ->
  let bits := msb_value (lsb8 d ++ lsb8 c) in
  presses ir_jvc_decode (jvc_ready t) (evs ++ [last]) (jvc_after (negb t) bits)
    (Z.lor (Z.shiftl d 8) c) (Z.b2z (negb t)) /\
  (forall r dev evs last, jvc_after (negb t) bits r ->
     signal JVC_UNIT (jvc_body (lsb8 d ++ lsb8 c)) evs -> long_space JVC_UNIT 35 last ->
     exists r', jvc_after (negb t) bits r' /\
       run ir_jvc_decode (on r dev) (evs ++ [last]) = Some (on r' (rc_repeat dev))) /\
  (forall r, jvc_after (negb t) bits r -> jvc_ready (negb t) r).
Proof.
  intros Hd Hc Hs Hlast bits0. unfold bits0. clear bits0. rewrite <- jvc_scancode_code by done.
  set (bits := lsb8 d ++ lsb8 c) in *. assert (zlen bits = 16) as Hl by done. clearbody bits.
  assert (bits <> []) as Hne by (by intros ->). rewrite jvc_body_tail in *. split; [|split].
  - apply signal_app_inv in Hs as (e1 & e2 & -> & H1 & H2).
    apply signal_cons_inv in H1 as (h & l1 & -> & Hh & H1).
    apply signal_cons_inv in H1 as (sp & l2 & -> & Hsp & H1). inversion H1; subst.
    apply signal_cons_inv in H2 as (p & l3 & -> & Hp & H2).
    intros r dev Hr. destruct (jvc_start t h sp Hh Hsp r dev Hr) as (r1 & E1 & old & Hr1).
    destruct (presses_after ir_jvc_decode (jvc_got STATE_BIT_PULSE (true, negb t, old) []) (p :: l3)
      (jvc_got STATE_TRAILER_SPACE (true, negb t, old) bits) [last] (jvc_after (negb t) (msb_value bits))
      (jvc_scancode (msb_value bits)) (Z.b2z (negb t))) with r1 dev as (r2 & Hr2 & E2); [|by apply jvc_press|done|].
    + eapply moves_cons; [by apply jvc_pulse|]. by apply (jvc_all_bits _ bits []).
    + exists r2. split; [done|]. rewrite <- app_assoc, run_app, E1. exact E2.
  - intros r dev evs' last' [Hr _] Hs' Hlast'.
    apply signal_cons_inv in Hs' as (p & l3 & -> & Hp & H2).
    destruct (moves_cons ir_jvc_decode (jvc_got STATE_CHECK_REPEAT (false, negb t, msb_value bits) [])
      p (jvc_got STATE_BIT_SPACE (false, negb t, msb_value bits) []) l3
      (jvc_got STATE_TRAILER_SPACE (false, negb t, msb_value bits) bits)) with r dev
      as (r1 & E1 & Hr1); [by apply jvc_repeat_start|by apply (jvc_all_bits _ bits [])|done|].
    destruct (jvc_repeat_end (negb t) _ bits last' r1 dev Hl eq_refl Hlast' Hr1) as (r2 & Hr2 & E2).
    exists r2. split; [done|]. by rewrite run_app, E1.
  - intros r ((He & Hst & _ & Hf & _) & Hb). injection Hf as _ Hf2 _.
    split; [done|]. split; [by right|]. split; [done|]. rewrite Hb.
    pose proof (msb_value_range bits) as Hr. unfold zlen in Hl. by rewrite Hl in Hr.
Qed.

End jvc.

(** A frame at work: device 0, function 0x22. *)
Definition sample_jvc : list ir_raw_event :=
  exact_sample JVC_UNIT <$> jvc_header ++ jvc_body (lsb8 0 ++ lsb8 0x22).

Lemma jvc_roundtrip_witness :
  exists r', jvc_after true 0x44 r' /\
    run (@ir_jvc_decode sample_env) (on (listening RC_TYPE_JVC) sample_dev)
      (sample_jvc ++ [exact_silence JVC_UNIT 35]) =
    set_raw (Some r') <$> @rc_keydown sample_env sample_dev 0x22 1.
Proof.
  apply (@jvc_roundtrip sample_env sample_env_laws false 0 0x22 sample_jvc
    (exact_silence JVC_UNIT 35)); [done|done|by apply exact_signal|by apply exact_long_space|].
  split_and!; [done|by left|done|done|done].
Defined.
