(* ===== verification/IrRc6.v ===== *)
(** The RC-6 decoder, drivers/media/rc/ir-rc6-decoder.c: mode 0 with 16 bits,
    mode 6A with 24 and with 32 bits. *)

From stdpp Require Import strings.
From S2P Require Import Prelude RcTypes RcKeymap RcKeymapProofs RcKeydown IrRaw IrDecode.

Definition RC6_UNIT : Z := 444444.
Definition RC6_HEADER_NBITS : Z := 4.
Definition RC6_0_NBITS : Z := 16.
Definition RC6_6A_SMALL_NBITS : Z := 24.
Definition RC6_6A_LARGE_NBITS : Z := 32.
Definition RC6_PREFIX_PULSE : Z := 6 * RC6_UNIT.
Definition RC6_PREFIX_SPACE : Z := 2 * RC6_UNIT.
Definition RC6_BIT_START : Z := 1 * RC6_UNIT.
Definition RC6_BIT_END : Z := 1 * RC6_UNIT.
Definition RC6_TOGGLE_START : Z := 2 * RC6_UNIT.
Definition RC6_TOGGLE_END : Z := 2 * RC6_UNIT.
Definition RC6_MODE_MASK : Z := 0x07.
Definition RC6_STARTBIT_MASK : Z := 0x08.
Definition RC6_6A_MCE_TOGGLE_MASK : Z := 0x8000.

Inductive rc6_mode_t := RC6_MODE_0 | RC6_MODE_6A | RC6_MODE_UNKNOWN.

Section rc6.
Context `{RcEnv}.
Import Rc6.

Definition rc6_mode (data : rc6_dec) : rc6_mode_t :=
  let mode := Z.land (rc6_header data) RC6_MODE_MASK in
  if mode =? 0 then RC6_MODE_0
  else if (mode =? 6) && negb (rc6_toggle data) then RC6_MODE_6A
  else RC6_MODE_UNKNOWN.

Definition put_rc6 (d : rc6_dec) (dev : rc_dev) : rc_dev := upd_raw (set_rc6 d) dev.

(** Scancode and toggle of a complete frame. *)
Definition rc6_scancode (data : rc6_dec) : option (Z * Z) :=
  match rc6_mode data with
  | RC6_MODE_0 => Some (Z.land (rc6_body data) 0xffff, Z.b2z (rc6_toggle data))
  | RC6_MODE_6A =>
    if rc6_wanted_bits data =? RC6_6A_LARGE_NBITS then
      Some (Z.land (rc6_body data) (u32 (Z.lnot RC6_6A_MCE_TOGGLE_MASK)),
            if truthy (Z.land (rc6_body data) RC6_6A_MCE_TOGGLE_MASK) then 1 else 0)
    else Some (Z.land (rc6_body data) 0xffffff, 0)
  | RC6_MODE_UNKNOWN => None
  end.

(** The code from label [again] on; every [goto again] uses a unit of fuel. *)
Fixpoint rc6_again (fuel : nat) (data : rc6_dec) (dev : rc_dev) (ev : ir_raw_event) :
    option (rc_dev * Z) :=
  match fuel with
  | O => None
  | S fuel =>
    let ok data := Some (put_rc6 data dev, 0) in
    let fail data := Some (put_rc6 (set_rc6_st STATE_INACTIVE data) dev, - EINVAL) in
    let transition r := is_transition ev (prev_ev r) in
    let margin d2 := eq_margin (duration ev) d2 (RC6_UNIT / 2) in
    if negb (geq_margin (duration ev) RC6_UNIT (RC6_UNIT / 2)) then ok data else
    match rc6_st data with
    | STATE_INACTIVE =>
      if negb (pulse ev) then fail data else
      if negb (eq_margin (duration ev) RC6_PREFIX_PULSE RC6_UNIT) then fail data else
      ok (set_rc6_count 0 (set_rc6_st STATE_PREFIX_SPACE data))
    | STATE_PREFIX_SPACE =>
      if pulse ev then fail data else
      if negb (margin RC6_PREFIX_SPACE) then fail data else
      ok (set_rc6_st STATE_HEADER_BIT_START data)
    | STATE_HEADER_BIT_START =>
      if negb (margin RC6_BIT_START) then fail data else
      let data := set_rc6_header (u8 (Z.shiftl (rc6_header data) 1)) data in
      let data := if pulse ev then set_rc6_header (Z.lor (rc6_header data) 1) data else data in
      let data := set_rc6_count (u32 (rc6_count data + 1)) data in
      ok (set_rc6_st STATE_HEADER_BIT_END data)
    | STATE_HEADER_BIT_END =>
      r ← raw dev;
      if negb (transition r) then fail data else
      let data :=
        if rc6_count data =? RC6_HEADER_NBITS then set_rc6_st STATE_TOGGLE_START data
        else set_rc6_st STATE_HEADER_BIT_START data in
      rc6_again fuel data dev (decrease_duration ev RC6_BIT_END)
    | STATE_TOGGLE_START =>
      if negb (margin RC6_TOGGLE_START) then fail data else
      ok (set_rc6_st STATE_TOGGLE_END (set_rc6_toggle (pulse ev) data))
    | STATE_TOGGLE_END =>
      r ← raw dev;
      if negb (transition r) || negb (geq_margin (duration ev) RC6_TOGGLE_END (RC6_UNIT / 2))
      then fail data else
      if negb (truthy (Z.land (rc6_header data) RC6_STARTBIT_MASK)) then fail data else
      let data := set_rc6_st STATE_BODY_BIT_START data in
      let ev := decrease_duration ev RC6_TOGGLE_END in
      let data := set_rc6_count 0 data in
      match rc6_mode data with
      | RC6_MODE_0 => rc6_again fuel (set_rc6_wanted_bits RC6_0_NBITS data) dev ev
      | RC6_MODE_6A =>
        let more := geq_margin (duration ev) RC6_UNIT (RC6_UNIT / 2) in
        let wanted :=
          if (negb (pulse ev) && negb more) || more then RC6_6A_LARGE_NBITS
          else RC6_6A_SMALL_NBITS in
        rc6_again fuel (set_rc6_wanted_bits wanted data) dev ev
      | RC6_MODE_UNKNOWN => fail data
      end
    | STATE_BODY_BIT_START =>
      if negb (margin RC6_BIT_START) then fail data else
      let data := set_rc6_body (u32 (Z.shiftl (rc6_body data) 1)) data in
      let data := if pulse ev then set_rc6_body (Z.lor (rc6_body data) 1) data else data in
      let data := set_rc6_count (u32 (rc6_count data + 1)) data in
      ok (set_rc6_st STATE_BODY_BIT_END data)
    | STATE_BODY_BIT_END =>
      r ← raw dev;
      if negb (transition r) then fail data else
      let data :=
        if rc6_count data =? rc6_wanted_bits data then set_rc6_st STATE_FINISHED data
        else set_rc6_st STATE_BODY_BIT_START data in
      rc6_again fuel data dev (decrease_duration ev RC6_BIT_END)
    | STATE_FINISHED =>
      if pulse ev then fail data else
      match rc6_scancode data with
      | None => fail data
      | Some (scancode, toggle) =>
        dev ← rc_keydown dev scancode toggle;
        Some (put_rc6 (set_rc6_st STATE_INACTIVE data) dev, 0)
      end
    end
  end.

Definition ir_rc6_decode (dev : rc_dev) (ev : ir_raw_event) : option (rc_dev * Z) :=
  r ← raw dev;
  let data := rc6 r in
  if negb (truthy (Z.land (enabled_protocols r) RC_TYPE_RC6)) then Some (dev, 0) else
  if negb (is_timing_event ev) then
    Some (if reset ev then put_rc6 (set_rc6_st STATE_INACTIVE data) dev else dev, 0) else
  if negb (geq_margin (duration ev) RC6_UNIT (RC6_UNIT / 2)) then
    Some (put_rc6 (set_rc6_st STATE_INACTIVE data) dev, - EINVAL) else
  rc6_again 3 data dev ev.

Definition rc6_handler : ir_raw_handler := mk_handler 2 RC_TYPE_RC6 ir_rc6_decode None None.

(** ** Steps of the decoder *)

Lemma rc6_again_eq fuel data dev ev :
  rc6_again (S fuel) data dev ev =
  ltac:(let t := eval cbn [rc6_again] in (rc6_again (S fuel) data dev ev) in exact t).
Proof. reflexivity. Qed.

Ltac units :=
  unfold RC6_PREFIX_PULSE, RC6_PREFIX_SPACE, RC6_BIT_START, RC6_BIT_END, RC6_TOGGLE_START,
    RC6_TOGGLE_END, RC6_UNIT, near in *;
  change (444444 / 2) with 222222 in *; cbv iota in *; lia.
Ltac margins :=
  repeat first
    [ rewrite eq_margin_true by units | rewrite eq_margin_false by units
    | rewrite geq_margin_true by units | rewrite geq_margin_false by units
    | rewrite decrease_dur by units | rewrite decrease_pulse ]; cbn [negb andb orb].

Definition enabled (r : ir_raw_event_ctrl) : Prop :=
  truthy (Z.land (enabled_protocols r) RC_TYPE_RC6) = true.

Lemma rc6_open r dev ev p ok :
  enabled r -> is_sample p ok ev -> RC6_UNIT / 2 < duration ev ->
  ir_rc6_decode (on r dev) ev = rc6_again 3 (rc6 r) (on r dev) ev.
Proof.
  intros He Hs Hd. unfold ir_rc6_decode. cbn [raw set_raw mbind option_bind]. unfold enabled in He.
  rewrite He, (sample_timing _ _ _ Hs). cbn [negb]. by margins.
Qed.

Definition rc6_idle (r : ir_raw_event_ctrl) : Prop :=
  enabled r /\ rc6_st (rc6 r) = STATE_INACTIVE /\ 0 <= rc6_header (rc6 r) < 2 ^ 8 /\
  0 <= rc6_body (rc6 r) < 2 ^ 32.

(** Header bits [got] are in. *)
Definition rc6_hdr (got : list bool) (d : rc6_dec) : Prop :=
  rc6_count d = zlen got /\ 0 <= rc6_body d < 2 ^ 32 /\
  exists x, 0 <= x < 2 ^ 8 /\ rc6_header d = fold_left (shift_in 8) got x.

Definition rc6_hdr_end (lvl : bool) (got : list bool) (r : ir_raw_event_ctrl) : Prop :=
  enabled r /\ rc6_st (rc6 r) = STATE_HEADER_BIT_END /\ rc6_hdr got (rc6 r) /\
  pulse (prev_ev r) = negb lvl.

Definition rc6_hdr_start (lvl : bool) (got : list bool) (r : ir_raw_event_ctrl) : Prop :=
  enabled r /\ rc6_st (rc6 r) = STATE_HEADER_BIT_START /\ rc6_hdr got (rc6 r).

(** Body bits [got] of [wanted] are in, after the header and toggle in [h]. *)
Definition rc6_bdy (wanted : Z) (h : Z * bool) (got : list bool) (d : rc6_dec) : Prop :=
  rc6_count d = zlen got /\ rc6_wanted_bits d = wanted /\ h = (rc6_header d, rc6_toggle d) /\
  exists x, 0 <= x < 2 ^ 32 /\ rc6_body d = fold_left (shift_in 32) got x.

Definition rc6_bdy_end (wanted : Z) h (lvl : bool) (got : list bool) (r : ir_raw_event_ctrl) : Prop :=
  enabled r /\ rc6_st (rc6 r) = STATE_BODY_BIT_END /\ rc6_bdy wanted h got (rc6 r) /\
  pulse (prev_ev r) = negb lvl.

Definition rc6_bdy_start (wanted : Z) h (lvl : bool) (got : list bool) (r : ir_raw_event_ctrl) : Prop :=
  enabled r /\ rc6_st (rc6 r) = STATE_BODY_BIT_START /\ rc6_bdy wanted h got (rc6 r).

(** A bit is a start half; [d] is at BIT_START and one unit of [ev] is left. *)
Lemma rc6_hdr_at_start fuel got b d dev ev :
  rc6_st d = STATE_HEADER_BIT_START -> rc6_hdr got d -> zlen got < 4 ->
  pulse ev = b -> near RC6_UNIT 1 (duration ev) ->
  exists d', rc6_again (S fuel) d dev ev = Some (put_rc6 d' dev, 0) /\
    rc6_st d' = STATE_HEADER_BIT_END /\ rc6_hdr (got ++ [b]) d'.
Proof.
  intros Hst (Hc & Hb & x & Hx & Hh) Hl Hp Hd. pose proof (zlen_nonneg got).
  rewrite rc6_again_eq. margins. rewrite Hst, Hp. margins.
  assert (u32 (zlen got + 1) = zlen (got ++ [b])) as E
    by (rewrite zlen_app, zlen_singleton; apply wrap_small; lia).
  eexists. split; [reflexivity|]. split; [done|].
  split; [rewrite <- E, <- Hc; by destruct b|]. split; [by destruct b|].
  exists x. split; [done|]. rewrite fold_left_app, <- Hh. by destruct b.
Qed.

Lemma rc6_bdy_at_start fuel wanted h got b d dev ev :
  rc6_st d = STATE_BODY_BIT_START -> rc6_bdy wanted h got d -> zlen got < 32 ->
  pulse ev = b -> near RC6_UNIT 1 (duration ev) ->
  exists d', rc6_again (S fuel) d dev ev = Some (put_rc6 d' dev, 0) /\
    rc6_st d' = STATE_BODY_BIT_END /\ rc6_bdy wanted h (got ++ [b]) d'.
Proof.
  intros Hst (Hc & Hw & Hh & x & Hx & Hb) Hl Hp Hd. pose proof (zlen_nonneg got).
  rewrite rc6_again_eq. margins. rewrite Hst, Hp. margins.
  assert (u32 (zlen got + 1) = zlen (got ++ [b])) as E
    by (rewrite zlen_app, zlen_singleton; apply wrap_small; lia).
  eexists. split; [reflexivity|]. split; [done|].
  split; [rewrite <- E, <- Hc; by destruct b|]. split; [by destruct b|].
  split; [by destruct b|].
  exists x. split; [done|]. rewrite fold_left_app, <- Hb. by destruct b.
Qed.

(** The header bits that are followed by another header bit. *)
Definition hdr_more (got : list bool) : Prop := zlen got < 4.
Definition bdy_more (wanted : Z) (got : list bool) : Prop := zlen got < wanted <= 32.

(** The end of a half bit: the sample [ev] at the level due, in state END. *)
Lemma rc6_transition r ev lvl :
  pulse (prev_ev r) = negb lvl -> pulse ev = lvl -> is_transition ev (prev_ev r) = true.
Proof. unfold is_transition. intros -> ->. by destruct lvl. Qed.

#[export] Instance rc6_header_biphase :
  Biphase ir_rc6_decode RC6_UNIT (fun b => b) hdr_more rc6_hdr_end rc6_hdr_start.
Proof.
  split.
  - intros lvl got b ev Hm <- Hs. apply moves_one. intros r dev (He & Hst & Hg & Hpp).
    pose proof Hs as [Hp _ _ Hd]. cbn [fst snd] in Hp, Hd.
    rewrite (rc6_open r dev ev _ _ He Hs) by units. rewrite rc6_again_eq. margins.
    rewrite Hst. cbn [raw set_raw mbind option_bind]. rewrite (rc6_transition r ev b) by done.
    cbn [negb]. pose proof Hg as (Hc & _). unfold hdr_more in Hm.
    rewrite Hc, (proj2 (Z.eqb_neq _ _)) by (unfold RC6_HEADER_NBITS; lia).
    destruct (rc6_hdr_at_start 1 got b (set_rc6_st STATE_HEADER_BIT_START (rc6 r)) (on r dev)
      (decrease_duration ev RC6_BIT_END)) as (d' & -> & Hst' & Hg'); [done|done|done| | |].
    + by rewrite decrease_pulse.
    + rewrite decrease_dur by units. units.
    + exists (set_rc6 d' r), 0. split; [done|]. split; [done|]. split; [done|]. split; [done|].
      cbn. by rewrite negb_involutive.
  - intros lvl got ev Hm Hs. apply moves_one. intros r dev (He & Hst & Hg & Hpp).
    pose proof Hs as [Hp _ _ Hd]. cbn [fst snd] in Hp, Hd.
    rewrite (rc6_open r dev ev _ _ He Hs) by units. rewrite rc6_again_eq. margins.
    rewrite Hst. cbn [raw set_raw mbind option_bind]. rewrite (rc6_transition r ev lvl) by done.
    cbn [negb]. pose proof Hg as (Hc & _). unfold hdr_more in Hm.
    rewrite Hc, (proj2 (Z.eqb_neq _ _)) by (unfold RC6_HEADER_NBITS; lia).
    rewrite rc6_again_eq. margins. eexists _, _. split; [reflexivity|]. done.
  - intros lvl got b ev Hm Hf Hs. apply moves_one. intros r dev (He & Hst & Hg).
    pose proof Hs as [Hp _ _ Hd]. cbn [fst snd] in Hp, Hd.
    rewrite (rc6_open r dev ev _ _ He Hs) by units.
    destruct (rc6_hdr_at_start 2 got b (rc6 r) (on r dev) ev) as (d' & -> & Hst' & Hg');
      [done|done|done|by rewrite Hp|done|].
    exists (set_rc6 d' r), 0. done.
Qed.

#[export] Instance rc6_body_biphase wanted h :
  Biphase ir_rc6_decode RC6_UNIT (fun b => b) (bdy_more wanted) (rc6_bdy_end wanted h)
    (rc6_bdy_start wanted h).
Proof.
  split.
  - intros lvl got b ev Hm <- Hs. apply moves_one. intros r dev (He & Hst & Hg & Hpp).
    pose proof Hs as [Hp _ _ Hd]. cbn [fst snd] in Hp, Hd.
    rewrite (rc6_open r dev ev _ _ He Hs) by units. rewrite rc6_again_eq. margins.
    rewrite Hst. cbn [raw set_raw mbind option_bind]. rewrite (rc6_transition r ev b) by done.
    cbn [negb]. pose proof Hg as (Hc & Hw & _). unfold bdy_more in Hm.
    rewrite Hc, Hw, (proj2 (Z.eqb_neq _ _)) by lia.
    destruct (rc6_bdy_at_start 1 wanted h got b (set_rc6_st STATE_BODY_BIT_START (rc6 r)) (on r dev)
      (decrease_duration ev RC6_BIT_END)) as (d' & -> & Hst' & Hg'); [done|done|lia| | |].
    + by rewrite decrease_pulse.
    + rewrite decrease_dur by units. units.
    + exists (set_rc6 d' r), 0. split; [done|]. split; [done|]. split; [done|]. split; [done|].
      cbn. by rewrite negb_involutive.
  - intros lvl got ev Hm Hs. apply moves_one. intros r dev (He & Hst & Hg & Hpp).
    pose proof Hs as [Hp _ _ Hd]. cbn [fst snd] in Hp, Hd.
    rewrite (rc6_open r dev ev _ _ He Hs) by units. rewrite rc6_again_eq. margins.
    rewrite Hst. cbn [raw set_raw mbind option_bind]. rewrite (rc6_transition r ev lvl) by done.
    cbn [negb]. pose proof Hg as (Hc & Hw & _). unfold bdy_more in Hm.
    rewrite Hc, Hw, (proj2 (Z.eqb_neq _ _)) by lia.
    rewrite rc6_again_eq. margins. eexists _, _. split; [reflexivity|]. done.
  - intros lvl got b ev Hm Hf Hs. apply moves_one. intros r dev (He & Hst & Hg).
    pose proof Hs as [Hp _ _ Hd]. cbn [fst snd] in Hp, Hd.
    rewrite (rc6_open r dev ev _ _ He Hs) by units. unfold bdy_more in Hm.
    destruct (rc6_bdy_at_start 2 wanted h got b (rc6 r) (on r dev) ev) as (d' & -> & Hst' & Hg');
      [done|done|lia|by rewrite Hp|done|].
    exists (set_rc6 d' r), 0. done.
Qed.

(** ** Prefix and toggle *)

Lemma rc6_prefix p sp :
  sample RC6_UNIT (true, 6) p -> sample RC6_UNIT (false, 2) sp ->
  moves ir_rc6_decode rc6_idle [p; sp] (rc6_hdr_start false []).
Proof.
  intros Hs1 Hs2. apply (moves_cons _ _ _ (fun r => enabled r /\
    rc6_st (rc6 r) = STATE_PREFIX_SPACE /\ rc6_hdr [] (rc6 r))); apply moves_one.
  - intros r dev (He & Hst & Hh & Hb). pose proof Hs1 as [Hp _ _ Hd]. cbn [fst snd] in Hp, Hd.
    rewrite (rc6_open r dev p _ _ He Hs1) by units. rewrite rc6_again_eq. margins.
    rewrite Hst, Hp. margins. eexists _, _. split; [reflexivity|].
    split; [done|]. split; [done|]. split; [done|]. split; [done|]. by exists (rc6_header (rc6 r)).
  - intros r dev (He & Hst & Hg). pose proof Hs2 as [Hp _ _ Hd]. cbn [fst snd] in Hp, Hd.
    rewrite (rc6_open r dev sp _ _ He Hs2) by units. rewrite rc6_again_eq. margins.
    rewrite Hst, Hp. margins. eexists _, _. split; [reflexivity|]. done.
Qed.

(** The first half of the toggle bit [t], after a header half at [lvl]. *)
Definition rc6_toggle_first (lvl t : bool) : list (bool * Z) :=
  if Bool.eqb lvl t then [(t, 3)] else [(lvl, 1); (t, 2)].

Definition rc6_toggled (got : list bool) (t : bool) (r : ir_raw_event_ctrl) : Prop :=
  enabled r /\ rc6_st (rc6 r) = STATE_TOGGLE_END /\ rc6_hdr got (rc6 r) /\
  rc6_toggle (rc6 r) = t /\ pulse (prev_ev r) = t.

Lemma rc6_toggle_moves lvl t got evs :
  zlen got = 4 -> signal RC6_UNIT (rc6_toggle_first lvl t) evs ->
  moves ir_rc6_decode (rc6_hdr_end lvl got) evs (rc6_toggled got t).
Proof.
  intros Hl Hs. unfold rc6_toggle_first in Hs. destruct (Bool.eqb lvl t) eqn:Et.
  - apply Bool.eqb_prop in Et as ->. apply signal_cons_inv in Hs as (ev & e' & -> & He & Hs).
    inversion Hs; subst. apply moves_one. intros r dev (Hen & Hst & Hg & Hpp).
    pose proof He as [Hp _ _ Hd]. cbn [fst snd] in Hp, Hd.
    rewrite (rc6_open r dev ev _ _ Hen He) by units. rewrite rc6_again_eq. margins.
    rewrite Hst. cbn [raw set_raw mbind option_bind]. rewrite (rc6_transition r ev t) by done.
    cbn [negb]. pose proof Hg as (Hc & _). rewrite Hc, Hl. cbn [Z.eqb Pos.eqb RC6_HEADER_NBITS].
    rewrite rc6_again_eq. margins. cbn [rc6_st set_rc6_st]. margins.
    eexists _, _. split; [reflexivity|]. split; [done|]. split; [done|]. split; [done|].
    cbn. by rewrite Hp.
  - apply signal_cons_inv in Hs as (e1 & e' & -> & He1 & Hs).
    apply signal_cons_inv in Hs as (e2 & e'' & -> & He2 & Hs). inversion Hs; subst.
    apply (moves_cons _ _ _ (fun r => enabled r /\ rc6_st (rc6 r) = STATE_TOGGLE_START /\
      rc6_hdr got (rc6 r))); apply moves_one.
    + intros r dev (Hen & Hst & Hg & Hpp). pose proof He1 as [Hp _ _ Hd]. cbn [fst snd] in Hp, Hd.
      rewrite (rc6_open r dev e1 _ _ Hen He1) by units. rewrite rc6_again_eq. margins.
      rewrite Hst. cbn [raw set_raw mbind option_bind]. rewrite (rc6_transition r e1 lvl) by done.
      cbn [negb]. pose proof Hg as (Hc & _). rewrite Hc, Hl. cbn [Z.eqb Pos.eqb RC6_HEADER_NBITS].
      rewrite rc6_again_eq. margins. eexists _, _. split; [reflexivity|]. done.
    + intros r dev (Hen & Hst & Hg). pose proof He2 as [Hp _ _ Hd]. cbn [fst snd] in Hp, Hd.
      rewrite (rc6_open r dev e2 _ _ Hen He2) by units. rewrite rc6_again_eq. margins.
      rewrite Hst. margins. eexists _, _. split; [reflexivity|].
      split; [done|]. split; [done|]. split; [done|]. cbn. by rewrite Hp.
Qed.

(** ** Into the body *)

(** The header bits of a mode. *)
Definition rc6_header_bits (mode : Z) : list bool := true :: msb_bits 3 mode.

(** The length of the body, which in mode 6A its first bit tells. *)
Definition rc6_length (mode : Z) (b : bool) : Z :=
  if mode =? 0 then RC6_0_NBITS else if b then RC6_6A_LARGE_NBITS else RC6_6A_SMALL_NBITS.

(** The modes the decoder knows. *)
Definition rc6_known (mode : Z) (t : bool) : Prop := mode = 0 \/ (mode = 6 /\ t = false).

(** The second half of the toggle bit and the first half of the body's first
    bit. *)
Definition rc6_toggle_second (t b : bool) : list (bool * Z) :=
  if Bool.eqb b (negb t) then [(b, 3)] else [(negb t, 2); (b, 1)].

Lemma rc6_hdr_fields mode d :
  0 <= mode < 8 -> rc6_hdr (rc6_header_bits mode) d ->
  Z.land (rc6_header d) RC6_MODE_MASK = mode /\
  truthy (Z.land (rc6_header d) RC6_STARTBIT_MASK) = true.
Proof.
  intros Hm (_ & _ & x & Hx & Hh). rewrite Hh.
  assert (fold_left (shift_in 8) (rc6_header_bits mode) x mod 2 ^ 4 =
    msb_value (rc6_header_bits mode)) as Hlow.
  { change 4 with (Z.of_nat (length (rc6_header_bits mode))). by apply shift_in_low. }
  rewrite (land_low _ 4 RC6_MODE_MASK), (land_low _ 4 RC6_STARTBIT_MASK), Hlow by done.
  rewrite <- (msb_value_bits 3 mode) at 2 by done. unfold rc6_header_bits. cbn [msb_bits].
  by destruct (Z.testbit mode (Z.of_nat 2)), (Z.testbit mode (Z.of_nat 1)),
    (Z.testbit mode (Z.of_nat 0)).
Qed.

Lemma rc6_mode_of mode t d :
  0 <= mode < 8 -> rc6_known mode t -> Z.land (rc6_header d) RC6_MODE_MASK = mode ->
  rc6_toggle d = t -> rc6_mode d = if mode =? 0 then RC6_MODE_0 else RC6_MODE_6A.
Proof.
  intros Hm Hk Hh Ht. unfold rc6_mode. rewrite Hh, Ht. by destruct Hk as [->|[-> ->]].
Qed.

(** What the header and toggle of a frame give the body. *)
Definition rc6_frame_head (mode : Z) (t : bool) (h : Z * bool) : Prop :=
  Z.land (fst h) RC6_MODE_MASK = mode /\ snd h = t /\ 0 <= fst h < 2 ^ 8.

Definition rc6_bdy_from mode t (lvl : bool) (got : list bool) (b0 : bool) (r : ir_raw_event_ctrl) :=
  exists h, rc6_frame_head mode t h /\ rc6_bdy_end (rc6_length mode b0) h lvl got r.

(** State TOGGLE_END passes to the body with the rest of the sample. *)
Lemma rc6_toggle_end mode t (b : bool) r dev ev :
  0 <= mode < 8 -> rc6_known mode t -> rc6_toggled (rc6_header_bits mode) t r ->
  pulse ev = negb t -> near RC6_UNIT (if Bool.eqb b (negb t) then 3 else 2) (duration ev) ->
  exists h d', rc6_frame_head mode t h /\
    rc6_st d' = STATE_BODY_BIT_START /\ rc6_bdy (rc6_length mode b) h [] d' /\
    rc6_again 3 (rc6 r) (on r dev) ev =
    rc6_again 2 d' (on r dev) (decrease_duration ev RC6_TOGGLE_END).
Proof.
  intros Hm Hk (He & Hst & Hg & Ht & Hpp) Hp Hd. rewrite rc6_again_eq.
  assert (2 * RC6_UNIT - RC6_UNIT / 2 < duration ev < 3 * RC6_UNIT + RC6_UNIT / 2) as Hd2
    by (revert Hd; destruct (Bool.eqb b (negb t)); intros Hd; units).
  rewrite geq_margin_true by units. rewrite Hst.
  cbn [negb raw set_raw mbind option_bind].
  rewrite (rc6_transition r ev (negb t)) by (by rewrite ?negb_involutive).
  rewrite geq_margin_true by units. cbn [negb orb].
  destruct (rc6_hdr_fields mode (rc6 r) Hm Hg) as [Hmode ->]. cbn [negb].
  destruct Hg as (Hc & Hb & hx & Hhx & Hhdr).
  assert (0 <= rc6_header (rc6 r) < 2 ^ 8) as Hrange by (rewrite Hhdr; by apply shift_in_range).
  set (d := set_rc6_count 0 (set_rc6_st STATE_BODY_BIT_START (rc6 r))).
  rewrite (rc6_mode_of mode t d Hm Hk Hmode Ht).
  assert (forall w, rc6_bdy w (rc6_header (rc6 r), t) [] (set_rc6_wanted_bits w d)) as Hbdy.
  { intros w. split; [done|]. split; [done|]. split; [cbn; by rewrite Ht|].
    by exists (rc6_body (rc6 r)). }
  destruct Hk as [->|[-> ->]]; cbn [Z.eqb].
  - exists (rc6_header (rc6 r), t), (set_rc6_wanted_bits RC6_0_NBITS d). split; [done|]. done.
  - exists (rc6_header (rc6 r), false), (set_rc6_wanted_bits (rc6_length 6 b) d).
    split; [done|]. split; [done|]. split; [done|].
    rewrite decrease_pulse, Hp. cbn [negb andb orb]. rewrite decrease_dur by units.
    destruct b; cbn [Bool.eqb negb] in Hd; margins; reflexivity.
Qed.

Lemma rc6_into_body mode t b evs :
  0 <= mode < 8 -> rc6_known mode t -> signal RC6_UNIT (rc6_toggle_second t b) evs ->
  moves ir_rc6_decode (rc6_toggled (rc6_header_bits mode) t) evs
    (rc6_bdy_from mode t (negb b) [b] b).
Proof.
  intros Hm Hk Hs. unfold rc6_toggle_second in Hs. destruct (Bool.eqb b (negb t)) eqn:Eb.
  - pose proof (Bool.eqb_prop _ _ Eb) as Hbt.
    apply signal_cons_inv in Hs as (ev & e' & -> & He & Hs). inversion Hs; subst e'.
    apply moves_one. intros r dev Hr. pose proof Hr as (Hen & _).
    pose proof He as [Hp _ _ Hd]. cbn [fst snd] in Hp, Hd.
    rewrite (rc6_open r dev ev _ _ Hen He) by units.
    destruct (rc6_toggle_end mode t b r dev ev Hm Hk Hr) as (h & d & Hh & Hst & Hg & ->);
      [congruence|by rewrite Eb|].
    destruct (rc6_bdy_at_start 1 (rc6_length mode b) h [] b d (on r dev)
      (decrease_duration ev RC6_TOGGLE_END) Hst Hg) as (d' & -> & Hst' & Hg'); [done| | |].
    + by rewrite decrease_pulse.
    + rewrite decrease_dur by units. units.
    + exists (set_rc6 d' r), 0. split; [done|]. exists h. split; [done|].
      split; [done|]. split; [done|]. split; [done|]. cbn. by rewrite negb_involutive.
  - apply signal_cons_inv in Hs as (e1 & e' & -> & He1 & Hs).
    apply signal_cons_inv in Hs as (e2 & e'' & -> & He2 & Hs). inversion Hs; subst e''.
    apply (moves_cons _ _ _ (fun r => exists h, rc6_frame_head mode t h /\
      rc6_bdy_start (rc6_length mode b) h (negb b) [] r)); apply moves_one.
    + intros r dev Hr. pose proof Hr as (Hen & _).
      pose proof He1 as [Hp _ _ Hd]. cbn [fst snd] in Hp, Hd.
      rewrite (rc6_open r dev e1 _ _ Hen He1) by units.
      destruct (rc6_toggle_end mode t b r dev e1 Hm Hk Hr) as (h & d & Hh & Hst & Hg & ->);
        [done|by rewrite Eb|].
      rewrite rc6_again_eq. margins. exists (set_rc6 d r), 0. split; [done|]. exists h. done.
    + intros r dev (h & Hh & Hen & Hst & Hg). pose proof He2 as [Hp _ _ Hd]. cbn [fst snd] in Hp, Hd.
      rewrite (rc6_open r dev e2 _ _ Hen He2) by units.
      destruct (rc6_bdy_at_start 2 (rc6_length mode b) h [] b (rc6 r) (on r dev) e2 Hst Hg)
        as (d' & -> & Hst' & Hg'); [done|done|done|].
      exists (set_rc6 d' r), 0. split; [done|]. exists h. split; [done|].
      split; [done|]. split; [done|]. split; [done|]. cbn. by rewrite Hp, negb_involutive.
Qed.

(** ** The end of a frame *)

Lemma rc6_press fuel wanted h got d r dev ev code toggle :
  enabled r -> rc6_st d = STATE_FINISHED -> rc6_bdy wanted h got d ->
  0 <= rc6_header d < 2 ^ 8 -> rc6_scancode d = Some (code, toggle) ->
  pulse ev = false -> RC6_UNIT / 2 < duration ev ->
  exists r', rc6_idle (set_prev_ev ev r') /\
    rc6_again (S fuel) d (on r dev) ev = (fun d => (on r' d, 0)) <$> rc_keydown dev code toggle.
Proof.
  intros He Hst (Hc & Hw & Hh & x & Hx & Hb) Hr Hcode Hp Hd. rewrite rc6_again_eq. margins.
  rewrite Hst, Hp, Hcode, rc_keydown_raw.
  exists (set_rc6 (set_rc6_st STATE_INACTIVE d) r). split.
  - split; [done|]. split; [done|]. split; [done|]. cbn. rewrite Hb. by apply shift_in_range.
  - by destruct (rc_keydown dev code toggle).
Qed.

Lemma rc6_head_range mode t h got w d :
  rc6_frame_head mode t h -> rc6_bdy w h got d -> 0 <= rc6_header d < 2 ^ 8.
Proof. intros (_ & _ & Hr) (_ & _ & -> & _). exact Hr. Qed.

Lemma rc6_finish mode t lvl got b0 evs code toggle :
  zlen got = rc6_length mode b0 ->
  (forall h d, rc6_frame_head mode t h -> rc6_bdy (rc6_length mode b0) h got d ->
     rc6_scancode d = Some (code, toggle)) ->
  biphase_ends RC6_UNIT lvl evs ->
  presses ir_rc6_decode (rc6_bdy_from mode t lvl got b0) evs rc6_idle code toggle.
Proof.
  intros Hl Hcode Hend. destruct lvl, evs as [|e [|last [|]]]; cbn in Hend; try done.
  - destruct Hend as [He Hlast].
    apply (presses_after _ _ [e] (fun r => enabled r /\ rc6_st (rc6 r) = STATE_FINISHED /\
      exists h, rc6_frame_head mode t h /\ rc6_bdy (rc6_length mode b0) h got (rc6 r))).
    + apply moves_one. intros r dev (h & Hh & Hen & Hst & Hg & Hpp).
      pose proof He as [Hp _ _ Hd]. cbn [fst snd] in Hp, Hd.
      rewrite (rc6_open r dev e _ _ Hen He) by units. rewrite rc6_again_eq. margins.
      rewrite Hst. cbn [raw set_raw mbind option_bind]. rewrite (rc6_transition r e true) by done.
      cbn [negb]. pose proof Hg as (Hc & Hw & _). rewrite Hc, Hw, Hl, Z.eqb_refl.
      rewrite rc6_again_eq. margins. eexists _, _. split; [reflexivity|].
      split; [done|]. split; [done|]. by exists h.
    + apply presses_one. intros r dev (Hen & Hst & h & Hh & Hg).
      pose proof Hlast as [Hp _ _ Hd]. rewrite (rc6_open r dev last _ _ Hen Hlast) by units.
      destruct (rc6_press 2 _ h got (rc6 r) r dev last code toggle Hen Hst Hg) as (r' & Hr' & E);
        [by apply (rc6_head_range mode t h got _ _ Hh Hg)|by apply (Hcode h)|done|units|]. by exists r'.
  - apply presses_one. intros r dev (h & Hh & Hen & Hst & Hg & Hpp).
    pose proof Hend as [Hp _ _ Hd]. rewrite (rc6_open r dev e _ _ Hen Hend) by units.
    rewrite rc6_again_eq. margins. rewrite Hst. cbn [raw set_raw mbind option_bind].
    rewrite (rc6_transition r e false) by done. cbn [negb].
    pose proof Hg as (Hc & Hw & _). rewrite Hc, Hw, Hl, Z.eqb_refl.
    destruct (rc6_press 1 _ h got (set_rc6_st STATE_FINISHED (rc6 r)) r dev
      (decrease_duration e RC6_BIT_END) code toggle Hen eq_refl Hg) as (r' & Hr' & E).
    + by apply (rc6_head_range mode t h got _ (rc6 r) Hh Hg).
    + by apply (Hcode h).
    + by rewrite decrease_pulse.
    + rewrite decrease_dur by units. units.
    + exists r'. split; [|exact E]. exact Hr'.
Qed.

(** ** Frames *)

(** Scancode and toggle of a frame with body [bits]. *)
Definition rc6_code (mode : Z) (t : bool) (bits : list bool) : Z * Z :=
  let v := msb_value bits in
  if mode =? 0 then (v, Z.b2z t)
  else if zlen bits =? 32 then (Z.land v 0xffff7fff, Z.b2z (Z.testbit v 15))
  else (v, 0).

Lemma rc6_code_of mode t b rest h d :
  0 <= mode < 8 -> rc6_known mode t -> zlen (b :: rest) = rc6_length mode b ->
  rc6_frame_head mode t h -> rc6_bdy (rc6_length mode b) h (b :: rest) d ->
  rc6_scancode d = Some (rc6_code mode t (b :: rest)).
Proof.
  intros Hm Hk Hl (Hh & Ht & _) (_ & Hw & -> & x & Hx & Hb). cbn [fst snd] in Hh, Ht.
  unfold rc6_scancode. rewrite (rc6_mode_of mode t d Hm Hk Hh Ht), Hb, Hw, Ht.
  set (bits := b :: rest) in *. clearbody bits. unfold rc6_code.
  assert (forall n m, zlen bits = n -> 0 <= n <= 32 -> m = 2 ^ n - 1 ->
    Z.land (fold_left (shift_in 32) bits x) m = msb_value bits) as Hland.
  { intros n m Hn Hn32 Hmask. rewrite (land_mask _ n) by (done || lia). rewrite <- Hn.
    apply shift_in_low; [done|unfold zlen in Hn; lia|done]. }
  unfold rc6_length in *. destruct Hk as [->|[-> ->]]; cbn [Z.eqb] in *.
  - by rewrite (Hland 16 0xffff).
  - destruct b; rewrite Hl.
    + change (RC6_6A_LARGE_NBITS =? RC6_6A_LARGE_NBITS) with true.
      change (RC6_6A_LARGE_NBITS =? 32) with true. cbv iota.
      rewrite shift_in_full by (done || (unfold zlen, RC6_6A_LARGE_NBITS in Hl; lia)).
      change (u32 (Z.lnot RC6_6A_MCE_TOGGLE_MASK)) with 0xffff7fff. f_equal. f_equal.
      unfold RC6_6A_MCE_TOGGLE_MASK. change 0x8000 with (2 ^ 15).
      destruct (Z.testbit (msb_value bits) 15) eqn:E.
      * destruct (Z.eqb_spec (Z.land (msb_value bits) (2 ^ 15)) 0) as [E0|]; [|done].
        assert (Z.testbit (Z.land (msb_value bits) (2 ^ 15)) 15 = true) as E1
          by (rewrite Z.land_spec, E; done).
        by rewrite E0 in E1.
      * rewrite land_pow2_zero; [done|done|]. apply Z.bits_inj'. intros i Hi.
        rewrite Z.bits_0, Z.shiftr_spec, Z.land_spec, Z.pow2_bits_eqb by lia.
        destruct (Z.eqb_spec 15 (i + 15)) as [Ei|]; [|apply andb_false_r].
        by rewrite <- Ei, E.
    + change (RC6_6A_SMALL_NBITS =? RC6_6A_LARGE_NBITS) with false.
      change (RC6_6A_SMALL_NBITS =? 32) with false. cbv iota. by rewrite (Hland 24 0xffffff).
Qed.

Definition rc6_signal (mode : Z) (t b : bool) (rest : list bool) : list (bool * Z) :=
  [(true, 6); (false, 2); (true, 1)] ++ biphase (fun b => b) false (msb_bits 3 mode) ++
  rc6_toggle_first (pending (fun b => b) false (msb_bits 3 mode)) t ++
  rc6_toggle_second t b ++ biphase (fun b => b) (negb b) rest.

(** Fact: every RC-6 frame of mode 0 (16 bits) and of mode 6A (24 bits, or
    32 bits when the first body bit is set) -- prefix, start bit, mode, the
    double-length toggle bit, body, bi-phase coded, each sample off by less
    than half a unit -- decodes to exactly one press: the body under the toggle
    bit, and for the 32-bit variant the body without bit 15 under bit 15. *)
Theorem rc6_roundtrip mode t b rest evs last :
  0 <= mode < 8 -> rc6_known mode t -> zlen (b :: rest) = rc6_length mode b ->
  signal RC6_UNIT (rc6_signal mode t b rest) evs ->
  biphase_ends RC6_UNIT (pending (fun b => b) (negb b) rest) last ->
  presses ir_rc6_decode rc6_idle (evs ++ last) rc6_idle
    (fst (rc6_code mode t (b :: rest))) (snd (rc6_code mode t (b :: rest))).
Proof.
  intros Hm Hk Hl Hs Hend. apply signal_app_inv in Hs as (e1 & e2 & -> & H1 & Hs).
  apply signal_app_inv in Hs as (e3 & e4 & -> & H3 & Hs).
  apply signal_app_inv in Hs as (e5 & e6 & -> & H5 & Hs).
  apply signal_app_inv in Hs as (e7 & e8 & -> & H7 & H8).
  apply signal_cons_inv in H1 as (p & l1 & -> & Hp & H1).
  apply signal_cons_inv in H1 as (sp & l2 & -> & Hsp & H1).
  apply signal_cons_inv in H1 as (st & l3 & -> & Hst & H1). inversion H1; subst.
  assert (rc6_length mode b <= 32) as Hl32
    by (unfold rc6_length, RC6_0_NBITS, RC6_6A_LARGE_NBITS, RC6_6A_SMALL_NBITS;
        destruct (mode =? 0), b; lia).
  apply (presses_after _ _ _ (rc6_bdy_from mode t
    (pending (fun b => b) (negb b) rest) (b :: rest) b)).
  - apply (moves_app _ _ [p; sp; st] (rc6_hdr_end false [true])).
    { apply (moves_app _ _ [p; sp] (rc6_hdr_start false [])); [by apply rc6_prefix|].
      by apply (bi_begin (Biphase := rc6_header_biphase) false [] true). }
    eapply moves_app; [apply (biphase_moves (H := rc6_header_biphase) (msb_bits 3 mode) false [true])|].
    { intros k Hkk. unfold hdr_more, zlen. rewrite length_app, length_take. cbn [length]. cbn in Hkk. lia. }
    { exact H3. }
    eapply moves_app; [by apply rc6_toggle_moves|].
    eapply moves_app; [by apply (rc6_into_body mode t b)|].
    intros r dev (h & Hh & Hr).
    destruct (biphase_moves (H := rc6_body_biphase (rc6_length mode b) h) rest (negb b) [b] e8)
      with r dev as (r' & E & Hr'); [|done|done|].
    { intros k Hkk. unfold bdy_more. rewrite <- Hl in *. unfold zlen in *.
      rewrite length_app, length_take. cbn [length] in *. lia. }
    exists r'. split; [exact E|]. exists h. split; [done|]. exact Hr'.
  - apply rc6_finish; [by rewrite Hl| |done].
    intros h d Hh Hd. rewrite (rc6_code_of mode t b rest h d) by done. by destruct (rc6_code _ _ _).
Qed.

End rc6.

(** A frame at work: mode 0, toggle set, scancode 0x11. *)
Definition sample_rc6 : list ir_raw_event :=
  exact_sample RC6_UNIT <$> rc6_signal 0 true false (tail (msb_bits 16 0x11)).

Lemma rc6_roundtrip_witness :
  exists r', rc6_idle r' /\
    run (@ir_rc6_decode sample_env) (on (listening RC_TYPE_RC6) sample_dev)
      (sample_rc6 ++ exact_end RC6_UNIT false) =
    set_raw (Some r') <$> @rc_keydown sample_env sample_dev 0x11 1.
Proof.
  apply (@rc6_roundtrip sample_env 0 true false (tail (msb_bits 16 0x11)) sample_rc6
    (exact_end RC6_UNIT false));
    [done|by left|done|by apply exact_signal|by apply exact_ends|done].
Defined.
