(* ===== verification/IrRc5Sz.v ===== *)
(** The Streamzap variant of RC-5, drivers/media/rc/ir-rc5-sz-decoder.c. *)

From stdpp Require Import strings.
From S2P Require Import Prelude RcTypes RcKeymap RcKeymapProofs RcKeydown IrRaw IrDecode.

Definition RC5_SZ_NBITS : Z := 15.
Definition RC5_UNIT : Z := 888888.
Definition RC5_BIT_START : Z := 1 * RC5_UNIT.
Definition RC5_BIT_END : Z := 1 * RC5_UNIT.

Section rc5_sz.
Context `{RcEnv}.
Import Rc5sz.

Definition put_rc5sz (d : rc5_sz_dec) (dev : rc_dev) : rc_dev := upd_raw (set_rc5_sz d) dev.

(** Scancode and toggle of the bits received. *)
Definition rc5_sz_scancode (bits : Z) : Z * Z :=
  let command := Z.shiftr (Z.land bits 0x0003F) 0 in
  let system := Z.shiftr (Z.land bits 0x02FC0) 6 in
  (Z.lor (Z.shiftl system 6) command, if truthy (Z.land bits 0x01000) then 1 else 0).

(** The code from label [again] on; every [goto again] uses a unit of fuel. *)
Fixpoint rc5_sz_again (fuel : nat) (data : rc5_sz_dec) (dev : rc_dev) (ev : ir_raw_event) :
    option (rc_dev * Z) :=
  match fuel with
  | O => None
  | S fuel =>
    let fail data := Some (put_rc5sz (set_rc5sz_st STATE_INACTIVE data) dev, - EINVAL) in
    if negb (geq_margin (duration ev) RC5_UNIT (RC5_UNIT / 2)) then Some (put_rc5sz data dev, 0) else
    match rc5sz_st data with
    | STATE_INACTIVE =>
      if negb (pulse ev) then fail data else
      let data := set_rc5sz_count 1 (set_rc5sz_st STATE_BIT_START data) in
      let data := set_rc5sz_wanted_bits RC5_SZ_NBITS data in
      rc5_sz_again fuel data dev (decrease_duration ev RC5_BIT_START)
    | STATE_BIT_START =>
      if negb (eq_margin (duration ev) RC5_BIT_START (RC5_UNIT / 2)) then fail data else
      let data := set_rc5sz_bits (u32 (Z.shiftl (rc5sz_bits data) 1)) data in
      let data := if negb (pulse ev) then set_rc5sz_bits (Z.lor (rc5sz_bits data) 1) data else data in
      let data := set_rc5sz_count (u32 (rc5sz_count data + 1)) data in
      Some (put_rc5sz (set_rc5sz_st STATE_BIT_END data) dev, 0)
    | STATE_BIT_END =>
      r ← raw dev;
      if negb (is_transition ev (prev_ev r)) then fail data else
      let data :=
        if rc5sz_count data =? rc5sz_wanted_bits data then set_rc5sz_st STATE_FINISHED data
        else set_rc5sz_st STATE_BIT_START data in
      rc5_sz_again fuel data dev (decrease_duration ev RC5_BIT_END)
    | STATE_FINISHED =>
      if pulse ev then fail data else
      let '(scancode, toggle) := rc5_sz_scancode (rc5sz_bits data) in
      dev ← rc_keydown dev scancode toggle;
      Some (put_rc5sz (set_rc5sz_st STATE_INACTIVE data) dev, 0)
    end
  end.

Definition ir_rc5_sz_decode (dev : rc_dev) (ev : ir_raw_event) : option (rc_dev * Z) :=
  r ← raw dev;
  let data := rc5_sz r in
  if negb (truthy (Z.land (enabled_protocols r) RC_TYPE_RC5_SZ)) then Some (dev, 0) else
  if negb (is_timing_event ev) then
    Some (if reset ev then put_rc5sz (set_rc5sz_st STATE_INACTIVE data) dev else dev, 0) else
  if negb (geq_margin (duration ev) RC5_UNIT (RC5_UNIT / 2)) then
    Some (put_rc5sz (set_rc5sz_st STATE_INACTIVE data) dev, - EINVAL) else
  rc5_sz_again 3 data dev ev.

Definition rc5_sz_handler : ir_raw_handler :=
  mk_handler 5 RC_TYPE_RC5_SZ ir_rc5_sz_decode None None.

(** ** Steps of the decoder *)

Lemma rc5_sz_again_eq fuel data dev ev :
  rc5_sz_again (S fuel) data dev ev =
  ltac:(let t := eval cbn [rc5_sz_again] in (rc5_sz_again (S fuel) data dev ev) in exact t).
Proof. reflexivity. Qed.

Ltac units :=
  unfold RC5_BIT_START, RC5_BIT_END, RC5_UNIT, near in *;
  change (888888 / 2) with 444444 in *; cbv iota in *; lia.
Ltac margins :=
  repeat first
    [ rewrite eq_margin_true by units | rewrite eq_margin_false by units
    | rewrite geq_margin_true by units | rewrite geq_margin_false by units
    | rewrite decrease_dur by units | rewrite decrease_pulse ]; cbn [negb andb].

Definition enabled (r : ir_raw_event_ctrl) : Prop :=
  truthy (Z.land (enabled_protocols r) RC_TYPE_RC5_SZ) = true.

Definition sz_got (got : list bool) (d : rc5_sz_dec) : Prop :=
  rc5sz_count d = 1 + zlen got /\ rc5sz_wanted_bits d = RC5_SZ_NBITS /\
  exists x, 0 <= x < 2 ^ 32 /\ rc5sz_bits d = fold_left (shift_in 32) got x.

Definition sz_idle (r : ir_raw_event_ctrl) : Prop :=
  enabled r /\ rc5sz_st (rc5_sz r) = STATE_INACTIVE /\ 0 <= rc5sz_bits (rc5_sz r) < 2 ^ 32.

(** Half a bit at [lvl] is due; at first, the pulse of the start bit. *)
Definition sz_end (lvl : bool) (got : list bool) (r : ir_raw_event_ctrl) : Prop :=
  enabled r /\
  ((rc5sz_st (rc5_sz r) = STATE_BIT_END /\ sz_got got (rc5_sz r) /\ pulse (prev_ev r) = negb lvl /\
    got <> []) \/ (sz_idle r /\ got = [] /\ lvl = true)).

Definition sz_start (lvl : bool) (got : list bool) (r : ir_raw_event_ctrl) : Prop :=
  enabled r /\ rc5sz_st (rc5_sz r) = STATE_BIT_START /\ sz_got got (rc5_sz r).

Definition sz_more (got : list bool) : Prop := zlen got < 14.

Lemma sz_open r dev ev p ok :
  enabled r -> is_sample p ok ev -> RC5_UNIT / 2 < duration ev ->
  ir_rc5_sz_decode (on r dev) ev = rc5_sz_again 3 (rc5_sz r) (on r dev) ev.
Proof.
  intros He Hs Hd. unfold ir_rc5_sz_decode. cbn [raw set_raw mbind option_bind]. unfold enabled in He.
  rewrite He, (sample_timing _ _ _ Hs). cbn [negb]. by margins.
Qed.

Lemma sz_at_start fuel got b d r dev ev :
  enabled r -> rc5sz_st d = STATE_BIT_START -> sz_got got d -> sz_more got ->
  pulse ev = negb b -> near RC5_UNIT 1 (duration ev) ->
  exists r', rc5_sz_again (S fuel) d (on r dev) ev = Some (on r' dev, 0) /\
    forall e, pulse e = negb b -> sz_end b (got ++ [b]) (set_prev_ev e r').
Proof.
  intros He Hst (Hc & Hw & x & Hx & Hb) Hl Hp Hd. pose proof (zlen_nonneg got). unfold sz_more in Hl.
  rewrite rc5_sz_again_eq. margins. rewrite Hst, Hp. margins.
  assert (u32 (1 + zlen got + 1) = 1 + zlen (got ++ [b])) as E
    by (rewrite zlen_app, zlen_singleton, wrap_small; lia).
  eexists (set_rc5_sz _ r). split; [reflexivity|]. intros e Hpe. split; [done|]. left.
  split; [done|]. split; [|split; [done|by destruct got]].
  split; [rewrite <- E, <- Hc; by destruct b|]. split; [by destruct b|].
  exists x. split; [done|]. rewrite fold_left_app, <- Hb. by destruct b.
Qed.

(** Leaving a bit that is not the last. *)
Lemma sz_leave got r dev ev lvl :
  sz_end lvl got r -> sz_more got -> pulse ev = lvl -> RC5_UNIT / 2 < duration ev ->
  exists d, rc5sz_st d = STATE_BIT_START /\ sz_got got d /\
    rc5_sz_again 3 (rc5_sz r) (on r dev) ev =
    rc5_sz_again 2 d (on r dev) (decrease_duration ev RC5_UNIT).
Proof.
  intros (He & Hst) Hm Hp Hd. unfold sz_more in Hm. rewrite rc5_sz_again_eq. margins.
  destruct Hst as [(Hst & Hg & Hpp & _)|((_ & Hst & Hb) & -> & ->)]; rewrite Hst.
  - cbn [raw set_raw mbind option_bind]. unfold is_transition. rewrite Hpp, Hp.
    replace (Bool.eqb lvl (negb lvl)) with false by (by destruct lvl). cbn [negb].
    pose proof Hg as (Hc & Hw & _). rewrite Hc, Hw.
    rewrite (proj2 (Z.eqb_neq _ _)) by (unfold RC5_SZ_NBITS; lia).
    by exists (set_rc5sz_st STATE_BIT_START (rc5_sz r)).
  - rewrite Hp. cbn [negb]. eexists. split; [|split; [|reflexivity]]; [done|].
    split; [done|]. split; [done|]. by exists (rc5sz_bits (rc5_sz r)).
Qed.

#[export] Instance sz_biphase : Biphase ir_rc5_sz_decode RC5_UNIT negb sz_more sz_end sz_start.
Proof.
  split.
  - intros lvl got b ev Hm Hf Hs. apply moves_one. intros r dev Hr. pose proof Hr as [He _].
    pose proof Hs as [Hp _ _ Hd]. cbn [fst snd] in Hp, Hd.
    rewrite (sz_open r dev ev _ _ He Hs) by units.
    destruct (sz_leave got r dev ev lvl Hr Hm Hp) as (d & Hst & Hg & ->); [units|].
    destruct (sz_at_start 1 got b d r dev (decrease_duration ev RC5_UNIT) He Hst Hg Hm)
      as (r' & -> & Hr').
    + by rewrite decrease_pulse, Hp, Hf.
    + rewrite decrease_dur by units. units.
    + exists r', 0. split; [done|]. rewrite <- Hf, negb_involutive. apply Hr'. by rewrite Hp, Hf.
  - intros lvl got ev Hm Hs. apply moves_one. intros r dev Hr. pose proof Hr as [He _].
    pose proof Hs as [Hp _ _ Hd]. cbn [fst snd] in Hp, Hd.
    rewrite (sz_open r dev ev _ _ He Hs) by units.
    destruct (sz_leave got r dev ev lvl Hr Hm Hp) as (d & Hst & Hg & ->); [units|].
    rewrite rc5_sz_again_eq. margins. exists (set_rc5_sz d r), 0. done.
  - intros lvl got b ev Hm Hf Hs. apply moves_one. intros r dev (He & Hst & Hg).
    pose proof Hs as [Hp _ _ Hd]. cbn [fst snd] in Hp, Hd.
    rewrite (sz_open r dev ev _ _ He Hs) by units.
    destruct (sz_at_start 2 got b (rc5_sz r) r dev ev He Hst Hg Hm) as (r' & -> & Hr');
      [by rewrite Hp, Hf|done|].
    exists r', 0. split; [done|]. replace lvl with b; [apply Hr'; by rewrite Hp, Hf|].
    by destruct b, lvl.
Qed.

(** ** The end of a frame *)

Lemma sz_press fuel got d r dev ev :
  enabled r -> rc5sz_st d = STATE_FINISHED -> sz_got got d ->
  pulse ev = false -> RC5_UNIT / 2 < duration ev ->
  exists r', sz_idle (set_prev_ev ev r') /\
    rc5_sz_again (S fuel) d (on r dev) ev =
    (fun d => (on r' d, 0)) <$> rc_keydown dev (fst (rc5_sz_scancode (rc5sz_bits d)))
                                              (snd (rc5_sz_scancode (rc5sz_bits d))).
Proof.
  intros He Hst (Hc & Hw & x & Hx & Hb) Hp Hd. rewrite rc5_sz_again_eq. margins. rewrite Hst, Hp.
  exists (set_rc5_sz (set_rc5sz_st STATE_INACTIVE d) r). split.
  - split; [done|]. split; [done|]. cbn. rewrite Hb. by apply shift_in_range.
  - destruct (rc5_sz_scancode _) as [code toggle]. cbn [fst snd]. rewrite rc_keydown_raw.
    by destruct (rc_keydown dev code toggle).
Qed.

(** The half bit that ends a frame. *)
Lemma sz_last fuel got r dev ev lvl :
  sz_end lvl got r -> zlen got = 14 -> pulse ev = lvl -> RC5_UNIT / 2 < duration ev ->
  rc5_sz_again (S fuel) (rc5_sz r) (on r dev) ev =
    rc5_sz_again fuel (set_rc5sz_st STATE_FINISHED (rc5_sz r)) (on r dev)
      (decrease_duration ev RC5_UNIT) /\ sz_got got (rc5_sz r).
Proof.
  intros (He & Hst) Hl Hp Hd. destruct Hst as [(Hst & Hg & Hpp & _)|(_ & -> & _)]; [|done].
  split; [|done]. rewrite rc5_sz_again_eq. margins. rewrite Hst.
  cbn [raw set_raw mbind option_bind]. unfold is_transition. rewrite Hpp, Hp.
  replace (Bool.eqb lvl (negb lvl)) with false by (by destruct lvl). cbn [negb].
  destruct Hg as (Hc & Hw & _). by rewrite Hc, Hw, Hl.
Qed.

Lemma sz_finish got lvl evs code toggle :
  zlen got = 14 -> (forall d, sz_got got d -> rc5_sz_scancode (rc5sz_bits d) = (code, toggle)) ->
  biphase_ends RC5_UNIT lvl evs ->
  presses ir_rc5_sz_decode (sz_end lvl got) evs sz_idle code toggle.
Proof.
  intros Hl Hcode Hend. destruct lvl, evs as [|e [|last [|]]]; cbn in Hend; try done.
  - destruct Hend as [He Hlast].
    apply (presses_after _ _ [e] (fun r => enabled r /\ rc5sz_st (rc5_sz r) = STATE_FINISHED /\
      sz_got got (rc5_sz r))).
    + apply moves_one. intros r dev Hr. pose proof Hr as [Hen _].
      pose proof He as [Hp _ _ Hd]. cbn [fst snd] in Hp, Hd.
      rewrite (sz_open r dev e _ _ Hen He) by units.
      destruct (sz_last 2 got r dev e true Hr Hl Hp) as [-> Hg]; [units|].
      rewrite rc5_sz_again_eq. margins. eexists _, _. split; [reflexivity|]. done.
    + apply presses_one. intros r dev (Hen & Hst & Hg). pose proof Hlast as [Hp _ _ Hd].
      rewrite (sz_open r dev last _ _ Hen Hlast) by units.
      destruct (sz_press 2 got (rc5_sz r) r dev last Hen Hst Hg Hp) as (r' & Hr' & E); [units|].
      rewrite (Hcode _ Hg) in E. by exists r'.
  - apply presses_one. intros r dev Hr. pose proof Hr as [Hen _]. pose proof Hend as [Hp _ _ Hd].
    rewrite (sz_open r dev e _ _ Hen Hend) by units.
    destruct (sz_last 2 got r dev e false Hr Hl Hp) as [-> Hg]; [units|].
    destruct (sz_press 1 got (set_rc5sz_st STATE_FINISHED (rc5_sz r)) r dev
      (decrease_duration e RC5_UNIT) Hen eq_refl Hg) as (r' & Hr' & E).
    + by rewrite decrease_pulse.
    + rewrite decrease_dur by units. units.
    + rewrite (Hcode (set_rc5sz_st STATE_FINISHED (rc5_sz r)) Hg) in E. exists r'.
      split; [|exact E]. exact Hr'.
Qed.

(** The bits after the start bit: a bit of the system, the toggle bit, six
    more bits of the system, the command. *)
Definition rc5_sz_bits_of (s7 toggle : bool) (system command : Z) : list bool :=
  s7 :: toggle :: msb_bits 6 system ++ msb_bits 6 command.

Lemma rc5_sz_code_of s7 toggle system command d :
  0 <= system < 64 -> 0 <= command < 64 ->
  sz_got (rc5_sz_bits_of s7 toggle system command) d ->
  rc5_sz_scancode (rc5sz_bits d) =
  (Z.lor (Z.shiftl (Z.lor system (Z.shiftl (Z.b2z s7) 7)) 6) command, Z.b2z toggle).
Proof.
  intros Hs Hc (_ & _ & x & Hx & Hb). unfold rc5_sz_scancode. rewrite Hb.
  set (bits := rc5_sz_bits_of _ _ _ _).
  assert (length bits = 14%nat) as Hl by done.
  assert (forall m, 0 <= m < 2 ^ 14 ->
    Z.land (fold_left (shift_in 32) bits x) m = Z.land (msb_value bits) m) as Hland.
  { intros m Hm. rewrite (land_low _ 14) by done. f_equal. change 14 with (Z.of_nat (length bits)).
    by apply shift_in_low. }
  rewrite !Hland by done. unfold bits, rc5_sz_bits_of.
  pose proof (msb_bits_length 6 system) as L1. pose proof (msb_bits_length 6 command) as L2.
  set (S6 := msb_bits 6 system) in *. set (C6 := msb_bits 6 command) in *.
  assert (length (S6 ++ C6) = 12%nat) as L12 by (by rewrite length_app, L1, L2).
  pose proof (field_value (s7 :: toggle :: S6) C6 [] 0 6 0x3F eq_refl) as F1.
  pose proof (field_value [s7; toggle] S6 C6 6 6 0xFC0) as F2.
  pose proof (field_value [] [s7] (toggle :: S6 ++ C6) 13 1 0x2000) as F3.
  pose proof (bit_value [s7] toggle (S6 ++ C6) 12 0x1000) as B1.
  cbn [app] in F1, F2, F3, B1. rewrite app_nil_r in F1.
  set (v := msb_value _) in *. rewrite F1, B1 by (rewrite ?L12, ?L2; done).
  change 0x2FC0 with (Z.lor 0xFC0 0x2000). rewrite Z.land_lor_distr_r, Z.shiftr_lor.
  rewrite F2 by (rewrite ?L1, ?L2; done).
  assert (Z.shiftr (Z.land v 0x2000) 6 = Z.shiftl (Z.b2z s7) 7) as ->.
  { rewrite <- (Z.shiftl_0_r (Z.shiftr _ 6)). rewrite (mask_field v 13 1 0x2000) by done.
    rewrite (mask_field v 13 1 0x2000) in F3 by done.
    rewrite Z.shiftr_div_pow2, Z.div_mul in F3 by done.
    rewrite F3 by (cbn [length]; rewrite ?L12; done). by destruct s7. }
  unfold S6, C6. rewrite !msb_value_bits by done. by destruct toggle.
Qed.

(** Fact: every Streamzap frame, each sample off by less than half a unit,
    decodes to exactly one press of the key with its system and command, under
    the toggle bit that stands among the system's bits. *)
Theorem rc5_sz_roundtrip s7 toggle system command evs last :
  0 <= system < 64 -> 0 <= command < 64 ->
  signal RC5_UNIT (biphase negb true (rc5_sz_bits_of s7 toggle system command)) evs ->
  biphase_ends RC5_UNIT (pending negb true (rc5_sz_bits_of s7 toggle system command)) last ->
  presses ir_rc5_sz_decode sz_idle (evs ++ last) sz_idle
    (Z.lor (Z.shiftl (Z.lor system (Z.shiftl (Z.b2z s7) 7)) 6) command) (Z.b2z toggle).
Proof.
  intros Hs Hc Hsig Hend. set (bits := rc5_sz_bits_of _ _ _ _) in *.
  assert (length bits = 14%nat) as Hl by done.
  apply (presses_after _ _ _ (sz_end (pending negb true bits) bits)).
  - intros r dev Hr. apply (biphase_moves (H := sz_biphase) bits true []); [|done|].
    + intros k Hk. unfold sz_more, zlen. cbn [app]. rewrite length_take. lia.
    + split; [by destruct Hr|]. by right.
  - apply sz_finish; [done| |done]. intros d Hd. by apply rc5_sz_code_of.
Qed.

End rc5_sz.

(** A frame at work: command 0x11 of system 0, toggle set. *)
Definition sample_rc5_sz : list ir_raw_event :=
  exact_sample RC5_UNIT <$> biphase negb true (rc5_sz_bits_of false true 0 0x11).

Lemma rc5_sz_roundtrip_witness :
  exists r', sz_idle r' /\
    run (@ir_rc5_sz_decode sample_env) (on (listening RC_TYPE_RC5_SZ) sample_dev)
      (sample_rc5_sz ++ exact_end RC5_UNIT true) =
    set_raw (Some r') <$> @rc_keydown sample_env sample_dev 0x11 1.
Proof.
  apply (@rc5_sz_roundtrip sample_env false true 0 0x11 sample_rc5_sz (exact_end RC5_UNIT true));
    [done|done|by apply exact_signal|by apply exact_ends|done].
Defined.
