(* ===== verification/IrMceKbd.v ===== *)
(** The MCE keyboard and mouse decoder, drivers/media/rc/ir-mce_kbd-decoder.c.

    It reports to an input device of its own, so what it does is a list of the
    [mce_...] calls. *)

From stdpp Require Import strings.
From S2P Require Import Prelude RcTypes RcKeymap RcKeymapProofs RcKeydown IrRaw IrDecode.

Definition MCIR2_UNIT : Z := 333333.
Definition MCIR2_HEADER_NBITS : Z := 5.
Definition MCIR2_MOUSE_NBITS : Z := 29.
Definition MCIR2_KEYBOARD_NBITS : Z := 32.
Definition MCIR2_PREFIX_PULSE : Z := 8 * MCIR2_UNIT.
Definition MCIR2_MAX_LEN : Z := 3 * MCIR2_UNIT.
Definition MCIR2_BIT_END : Z := 1 * MCIR2_UNIT.
Definition MCIR2_MODE_MASK : Z := 0xf.
Definition MCIR2_KEYBOARD_HEADER : Z := 0x4.
Definition MCIR2_MOUSE_HEADER : Z := 0x1.
Definition MCIR2_MASK_KEYS_START : Z := 0xe0.

(** Constants of <linux/input.h>. *)
Module Key.
Definition KEY_A : Z := 30.
Definition KEY_B : Z := 48.
Definition KEY_C : Z := 46.
Definition KEY_D : Z := 32.
Definition KEY_E : Z := 18.
Definition KEY_F : Z := 33.
Definition KEY_G : Z := 34.
Definition KEY_H : Z := 35.
Definition KEY_I : Z := 23.
Definition KEY_J : Z := 36.
Definition KEY_K : Z := 37.
Definition KEY_L : Z := 38.
Definition KEY_M : Z := 50.
Definition KEY_N : Z := 49.
Definition KEY_O : Z := 24.
Definition KEY_P : Z := 25.
Definition KEY_Q : Z := 16.
Definition KEY_R : Z := 19.
Definition KEY_S : Z := 31.
Definition KEY_T : Z := 20.
Definition KEY_U : Z := 22.
Definition KEY_V : Z := 47.
Definition KEY_W : Z := 17.
Definition KEY_X : Z := 45.
Definition KEY_Y : Z := 21.
Definition KEY_Z : Z := 44.
Definition KEY_1 : Z := 2.
Definition KEY_2 : Z := 3.
Definition KEY_3 : Z := 4.
Definition KEY_4 : Z := 5.
Definition KEY_5 : Z := 6.
Definition KEY_6 : Z := 7.
Definition KEY_7 : Z := 8.
Definition KEY_8 : Z := 9.
Definition KEY_9 : Z := 10.
Definition KEY_0 : Z := 11.
Definition KEY_ENTER : Z := 28.
Definition KEY_ESC : Z := 1.
Definition KEY_BACKSPACE : Z := 14.
Definition KEY_TAB : Z := 15.
Definition KEY_SPACE : Z := 57.
Definition KEY_MINUS : Z := 12.
Definition KEY_EQUAL : Z := 13.
Definition KEY_LEFTBRACE : Z := 26.
Definition KEY_RIGHTBRACE : Z := 27.
Definition KEY_BACKSLASH : Z := 43.
Definition KEY_SEMICOLON : Z := 39.
Definition KEY_APOSTROPHE : Z := 40.
Definition KEY_GRAVE : Z := 41.
Definition KEY_COMMA : Z := 51.
Definition KEY_DOT : Z := 52.
Definition KEY_SLASH : Z := 53.
Definition KEY_CAPSLOCK : Z := 58.
Definition KEY_F1 : Z := 59.
Definition KEY_F2 : Z := 60.
Definition KEY_F3 : Z := 61.
Definition KEY_F4 : Z := 62.
Definition KEY_F5 : Z := 63.
Definition KEY_F6 : Z := 64.
Definition KEY_F7 : Z := 65.
Definition KEY_F8 : Z := 66.
Definition KEY_F9 : Z := 67.
Definition KEY_F10 : Z := 68.
Definition KEY_F11 : Z := 87.
Definition KEY_F12 : Z := 88.
Definition KEY_SYSRQ : Z := 99.
Definition KEY_SCROLLLOCK : Z := 70.
Definition KEY_PAUSE : Z := 119.
Definition KEY_INSERT : Z := 110.
Definition KEY_HOME : Z := 102.
Definition KEY_PAGEUP : Z := 104.
Definition KEY_DELETE : Z := 111.
Definition KEY_END : Z := 107.
Definition KEY_PAGEDOWN : Z := 109.
Definition KEY_RIGHT : Z := 106.
Definition KEY_LEFT : Z := 105.
Definition KEY_DOWN : Z := 108.
Definition KEY_UP : Z := 103.
Definition KEY_NUMLOCK : Z := 69.
Definition KEY_KPSLASH : Z := 98.
Definition KEY_KPASTERISK : Z := 55.
Definition KEY_KPMINUS : Z := 74.
Definition KEY_KPPLUS : Z := 78.
Definition KEY_KPENTER : Z := 96.
Definition KEY_KP1 : Z := 79.
Definition KEY_KP2 : Z := 80.
Definition KEY_KP3 : Z := 81.
Definition KEY_KP4 : Z := 75.
Definition KEY_KP5 : Z := 76.
Definition KEY_KP6 : Z := 77.
Definition KEY_KP7 : Z := 71.
Definition KEY_KP8 : Z := 72.
Definition KEY_KP9 : Z := 73.
Definition KEY_KP0 : Z := 82.
Definition KEY_KPDOT : Z := 83.
Definition KEY_102ND : Z := 86.
Definition KEY_COMPOSE : Z := 127.
Definition KEY_POWER : Z := 116.
Definition KEY_KPEQUAL : Z := 117.
Definition KEY_F13 : Z := 183.
Definition KEY_F14 : Z := 184.
Definition KEY_F15 : Z := 185.
Definition KEY_F16 : Z := 186.
Definition KEY_F17 : Z := 187.
Definition KEY_F18 : Z := 188.
Definition KEY_F19 : Z := 189.
Definition KEY_F20 : Z := 190.
Definition KEY_F21 : Z := 191.
Definition KEY_F22 : Z := 192.
Definition KEY_F23 : Z := 193.
Definition KEY_F24 : Z := 194.
Definition KEY_OPEN : Z := 134.
Definition KEY_HELP : Z := 138.
Definition KEY_PROPS : Z := 130.
Definition KEY_FRONT : Z := 132.
Definition KEY_STOP : Z := 128.
Definition KEY_AGAIN : Z := 129.
Definition KEY_UNDO : Z := 131.
Definition KEY_CUT : Z := 137.
Definition KEY_COPY : Z := 133.
Definition KEY_PASTE : Z := 135.
Definition KEY_FIND : Z := 136.
Definition KEY_MUTE : Z := 113.
Definition KEY_VOLUMEUP : Z := 115.
Definition KEY_VOLUMEDOWN : Z := 114.
Definition KEY_KPCOMMA : Z := 121.
Definition KEY_RO : Z := 89.
Definition KEY_KATAKANAHIRAGANA : Z := 93.
Definition KEY_YEN : Z := 124.
Definition KEY_HENKAN : Z := 92.
Definition KEY_MUHENKAN : Z := 94.
Definition KEY_KPJPCOMMA : Z := 95.
Definition KEY_HANGUEL : Z := 122.
Definition KEY_HANJA : Z := 123.
Definition KEY_KATAKANA : Z := 90.
Definition KEY_HIRAGANA : Z := 91.
Definition KEY_ZENKAKUHANKAKU : Z := 85.
Definition KEY_LEFTCTRL : Z := 29.
Definition KEY_LEFTSHIFT : Z := 42.
Definition KEY_LEFTALT : Z := 56.
Definition KEY_LEFTMETA : Z := 125.
Definition KEY_RIGHTCTRL : Z := 97.
Definition KEY_RIGHTSHIFT : Z := 54.
Definition KEY_RIGHTALT : Z := 100.
Definition KEY_RIGHTMETA : Z := 126.
Definition KEY_PLAYPAUSE : Z := 164.
Definition KEY_STOPCD : Z := 166.
Definition KEY_PREVIOUSSONG : Z := 165.
Definition KEY_NEXTSONG : Z := 163.
Definition KEY_EJECTCD : Z := 161.
Definition KEY_WWW : Z := 150.
Definition KEY_BACK : Z := 158.
Definition KEY_FORWARD : Z := 159.
Definition KEY_SCROLLUP : Z := 177.
Definition KEY_SCROLLDOWN : Z := 178.
Definition KEY_EDIT : Z := 176.
Definition KEY_SLEEP : Z := 142.
Definition KEY_COFFEE : Z := 152.
Definition KEY_REFRESH : Z := 173.
Definition KEY_CALC : Z := 140.
Definition REL_X : Z := 0.
Definition REL_Y : Z := 1.
Definition BTN_LEFT : Z := 0x110.
Definition BTN_RIGHT : Z := 0x111.
End Key.
Import Key.

Definition kbd_keycodes : list Z := [
  KEY_RESERVED; KEY_RESERVED; KEY_RESERVED; KEY_RESERVED; KEY_A; KEY_B; KEY_C; KEY_D;
  KEY_E; KEY_F; KEY_G; KEY_H; KEY_I; KEY_J; KEY_K; KEY_L; KEY_M; KEY_N; KEY_O; KEY_P;
  KEY_Q; KEY_R; KEY_S; KEY_T; KEY_U; KEY_V; KEY_W; KEY_X; KEY_Y; KEY_Z; KEY_1; KEY_2;
  KEY_3; KEY_4; KEY_5; KEY_6; KEY_7; KEY_8; KEY_9; KEY_0; KEY_ENTER; KEY_ESC;
  KEY_BACKSPACE; KEY_TAB; KEY_SPACE; KEY_MINUS; KEY_EQUAL; KEY_LEFTBRACE;
  KEY_RIGHTBRACE; KEY_BACKSLASH; KEY_RESERVED; KEY_SEMICOLON; KEY_APOSTROPHE;
  KEY_GRAVE; KEY_COMMA; KEY_DOT; KEY_SLASH; KEY_CAPSLOCK; KEY_F1; KEY_F2; KEY_F3;
  KEY_F4; KEY_F5; KEY_F6; KEY_F7; KEY_F8; KEY_F9; KEY_F10; KEY_F11; KEY_F12;
  KEY_SYSRQ; KEY_SCROLLLOCK; KEY_PAUSE; KEY_INSERT; KEY_HOME; KEY_PAGEUP; KEY_DELETE;
  KEY_END; KEY_PAGEDOWN; KEY_RIGHT; KEY_LEFT; KEY_DOWN; KEY_UP; KEY_NUMLOCK;
  KEY_KPSLASH; KEY_KPASTERISK; KEY_KPMINUS; KEY_KPPLUS; KEY_KPENTER; KEY_KP1;
  KEY_KP2; KEY_KP3; KEY_KP4; KEY_KP5; KEY_KP6; KEY_KP7; KEY_KP8; KEY_KP9; KEY_KP0;
  KEY_KPDOT; KEY_102ND; KEY_COMPOSE; KEY_POWER; KEY_KPEQUAL; KEY_F13; KEY_F14;
  KEY_F15; KEY_F16; KEY_F17; KEY_F18; KEY_F19; KEY_F20; KEY_F21; KEY_F22; KEY_F23;
  KEY_F24; KEY_OPEN; KEY_HELP; KEY_PROPS; KEY_FRONT; KEY_STOP; KEY_AGAIN; KEY_UNDO;
  KEY_CUT; KEY_COPY; KEY_PASTE; KEY_FIND; KEY_MUTE; KEY_VOLUMEUP; KEY_VOLUMEDOWN;
  KEY_RESERVED; KEY_RESERVED; KEY_RESERVED; KEY_KPCOMMA; KEY_RESERVED; KEY_RO;
  KEY_KATAKANAHIRAGANA; KEY_YEN; KEY_HENKAN; KEY_MUHENKAN; KEY_KPJPCOMMA;
  KEY_RESERVED; KEY_RESERVED; KEY_RESERVED; KEY_HANGUEL; KEY_HANJA; KEY_KATAKANA;
  KEY_HIRAGANA; KEY_ZENKAKUHANKAKU; KEY_RESERVED; KEY_RESERVED; KEY_RESERVED;
  KEY_RESERVED; KEY_RESERVED; KEY_RESERVED; KEY_RESERVED; KEY_RESERVED; KEY_RESERVED;
  KEY_RESERVED; KEY_RESERVED; KEY_RESERVED; KEY_RESERVED; KEY_RESERVED; KEY_RESERVED;
  KEY_RESERVED; KEY_RESERVED; KEY_RESERVED; KEY_RESERVED; KEY_RESERVED; KEY_RESERVED;
  KEY_RESERVED; KEY_RESERVED; KEY_RESERVED; KEY_RESERVED; KEY_RESERVED; KEY_RESERVED;
  KEY_RESERVED; KEY_RESERVED; KEY_RESERVED; KEY_RESERVED; KEY_RESERVED; KEY_RESERVED;
  KEY_RESERVED; KEY_RESERVED; KEY_RESERVED; KEY_RESERVED; KEY_RESERVED; KEY_RESERVED;
  KEY_RESERVED; KEY_RESERVED; KEY_RESERVED; KEY_RESERVED; KEY_RESERVED; KEY_RESERVED;
  KEY_RESERVED; KEY_RESERVED; KEY_RESERVED; KEY_RESERVED; KEY_RESERVED; KEY_RESERVED;
  KEY_RESERVED; KEY_RESERVED; KEY_RESERVED; KEY_RESERVED; KEY_RESERVED; KEY_RESERVED;
  KEY_RESERVED; KEY_RESERVED; KEY_RESERVED; KEY_RESERVED; KEY_RESERVED; KEY_RESERVED;
  KEY_RESERVED; KEY_RESERVED; KEY_RESERVED; KEY_RESERVED; KEY_RESERVED; KEY_RESERVED;
  KEY_RESERVED; KEY_RESERVED; KEY_RESERVED; KEY_RESERVED; KEY_RESERVED; KEY_RESERVED;
  KEY_LEFTCTRL; KEY_LEFTSHIFT; KEY_LEFTALT; KEY_LEFTMETA; KEY_RIGHTCTRL;
  KEY_RIGHTSHIFT; KEY_RIGHTALT; KEY_RIGHTMETA; KEY_PLAYPAUSE; KEY_STOPCD;
  KEY_PREVIOUSSONG; KEY_NEXTSONG; KEY_EJECTCD; KEY_VOLUMEUP; KEY_VOLUMEDOWN;
  KEY_MUTE; KEY_WWW; KEY_BACK; KEY_FORWARD; KEY_STOP; KEY_FIND; KEY_SCROLLUP;
  KEY_SCROLLDOWN; KEY_EDIT; KEY_SLEEP; KEY_COFFEE; KEY_REFRESH; KEY_CALC;
  KEY_RESERVED; KEY_RESERVED; KEY_RESERVED; KEY_RESERVED
].

Inductive mce_kbd_mode_t := MCIR2_MODE_KEYBOARD | MCIR2_MODE_MOUSE | MCIR2_MODE_UNKNOWN.

(** Reports to the decoder's input device. *)
Definition report_key (code : Z) (value : bool) (dev : rc_dev) : rc_dev :=
  call (mce_input_report_key code value) dev.

(** [for (i = 0; i < n; i++) input_report_key(idev, kbd_keycodes[base + i], state(i))] *)
Fixpoint report_keys (n : nat) (base i : Z) (state : Z -> bool) (dev : rc_dev) : option rc_dev :=
  match n with
  | O => Some dev
  | S n =>
    code ← kbd_keycodes.[base + i];
    report_keys n base (i + 1) state (report_key code (state i) dev)
  end.

Definition mce_kbd_rx_timeout (dev : rc_dev) : option rc_dev :=
  dev ← report_keys 7 MCIR2_MASK_KEYS_START 0 (fun _ => false) dev;
  report_keys (Z.to_nat MCIR2_MASK_KEYS_START) 0 0 (fun _ => false) dev.

Definition mce_kbd_mode (data : mce_kbd_dec) : mce_kbd_mode_t :=
  let mode := Z.land (mce_header data) MCIR2_MODE_MASK in
  if mode =? MCIR2_KEYBOARD_HEADER then MCIR2_MODE_KEYBOARD
  else if mode =? MCIR2_MOUSE_HEADER then MCIR2_MODE_MOUSE
  else MCIR2_MODE_UNKNOWN.

Definition ir_mce_kbd_process_keyboard_data (dev : rc_dev) (code : Z) : option rc_dev :=
  let keydata := Z.land (Z.shiftr code 8) 0xff in
  let shiftmask := Z.land code 0xff in
  dev ← report_keys 7 MCIR2_MASK_KEYS_START 0
          (fun i => truthy (Z.land shiftmask (Z.shiftl 1 i))) dev;
  if truthy keydata then
    keycode ← kbd_keycodes.[keydata];
    Some (report_key keycode true dev)
  else report_keys (Z.to_nat MCIR2_MASK_KEYS_START) 0 0 (fun _ => false) dev.

(** A seven-bit two's complement coordinate. *)
Definition mce_coordinate (raw : Z) : Z :=
  if truthy (Z.land raw 0x40) then - (Z.land (Z.lnot raw) 0x7f + 1) else raw.

Definition ir_mce_kbd_process_mouse_data (dev : rc_dev) (code : Z) : rc_dev :=
  let xdata := Z.land (Z.shiftr code 7) 0x7f in
  let ydata := Z.land (Z.shiftr code 14) 0x7f in
  let right := truthy (Z.land code 0x40) in
  let left := truthy (Z.land code 0x20) in
  let dev := call (mce_input_report_rel REL_X (mce_coordinate xdata)) dev in
  let dev := call (mce_input_report_rel REL_Y (mce_coordinate ydata)) dev in
  let dev := report_key BTN_LEFT left dev in
  report_key BTN_RIGHT right dev.

Section mce.
Context `{RcEnv}.
Import Mce.

Definition put_mce (d : mce_kbd_dec) (dev : rc_dev) : rc_dev := upd_raw (set_mce_kbd d) dev.

(** State FINISHED: hand the message on. *)
Definition mce_deliver (data : mce_kbd_dec) (dev : rc_dev) : option (option rc_dev) :=
  if mce_wanted_bits data =? MCIR2_KEYBOARD_NBITS then
    let code := Z.land (mce_body data) 0xffff in
    let delay :=
      if truthy (rd_timeout dev) then usecs_to_jiffies (rd_timeout dev / 1000)
      else msecs_to_jiffies 100 in
    let dev := call (mce_mod_timer (u64 (jiffies dev + delay))) dev in
    dev ← ir_mce_kbd_process_keyboard_data dev code;
    Some (Some dev)
  else if mce_wanted_bits data =? MCIR2_MOUSE_NBITS then
    let code := Z.land (mce_body data) 0x1fffff in
    Some (Some (ir_mce_kbd_process_mouse_data dev code))
  else Some None.

(** The code from label [again] on; every [goto again] uses a unit of fuel.
    [input_sync] dereferences the input device. *)
Fixpoint mce_again (fuel : nat) (data : mce_kbd_dec) (dev : rc_dev) (ev : ir_raw_event) :
    option (rc_dev * Z) :=
  match fuel with
  | O => None
  | S fuel =>
    let ok data := Some (put_mce data dev, 0) in
    let fail data :=
      if mce_idev data then
        Some (call mce_input_sync (put_mce (set_mce_st STATE_INACTIVE data) dev), - EINVAL)
      else None in
    if negb (geq_margin (duration ev) MCIR2_UNIT (MCIR2_UNIT / 2)) then ok data else
    match mce_st data with
    | STATE_INACTIVE =>
      if negb (pulse ev) then fail data else
      if negb (eq_margin (duration ev) MCIR2_PREFIX_PULSE MCIR2_UNIT) then fail data else
      ok (set_mce_header 0 (set_mce_count 0 (set_mce_st STATE_HEADER_BIT_START data)))
    | STATE_HEADER_BIT_START =>
      if geq_margin (duration ev) MCIR2_MAX_LEN (MCIR2_UNIT / 2) then fail data else
      let data := set_mce_header (u8 (Z.shiftl (mce_header data) 1)) data in
      let data := if pulse ev then set_mce_header (Z.lor (mce_header data) 1) data else data in
      let data := set_mce_count (u32 (mce_count data + 1)) data in
      ok (set_mce_st STATE_HEADER_BIT_END data)
    | STATE_HEADER_BIT_END =>
      r ← raw dev;
      if negb (is_transition ev (prev_ev r)) then fail data else
      let ev := decrease_duration ev MCIR2_BIT_END in
      if negb (mce_count data =? MCIR2_HEADER_NBITS) then
        mce_again fuel (set_mce_st STATE_HEADER_BIT_START data) dev ev
      else
        let go wanted :=
          let data := set_mce_body 0 (set_mce_count 0 (set_mce_wanted_bits wanted data)) in
          mce_again fuel (set_mce_st STATE_BODY_BIT_START data) dev ev in
        match mce_kbd_mode data with
        | MCIR2_MODE_KEYBOARD => go MCIR2_KEYBOARD_NBITS
        | MCIR2_MODE_MOUSE => go MCIR2_MOUSE_NBITS
        | MCIR2_MODE_UNKNOWN => fail data
        end
    | STATE_BODY_BIT_START =>
      if geq_margin (duration ev) MCIR2_MAX_LEN (MCIR2_UNIT / 2) then fail data else
      let data := set_mce_body (u32 (Z.shiftl (mce_body data) 1)) data in
      let data := if pulse ev then set_mce_body (Z.lor (mce_body data) 1) data else data in
      let data := set_mce_count (u32 (mce_count data + 1)) data in
      ok (set_mce_st STATE_BODY_BIT_END data)
    | STATE_BODY_BIT_END =>
      r ← raw dev;
      if negb (is_transition ev (prev_ev r)) then fail data else
      let data :=
        if mce_count data =? mce_wanted_bits data then set_mce_st STATE_FINISHED data
        else set_mce_st STATE_BODY_BIT_START data in
      mce_again fuel data dev (decrease_duration ev MCIR2_BIT_END)
    | STATE_FINISHED =>
      if pulse ev then fail data else
      if negb (mce_idev data) then None else
      delivered ← mce_deliver data dev;
      match delivered with
      | None => fail data
      | Some dev => Some (call mce_input_sync (put_mce (set_mce_st STATE_INACTIVE data) dev), 0)
      end
    end
  end.

Definition ir_mce_kbd_decode (dev : rc_dev) (ev : ir_raw_event) : option (rc_dev * Z) :=
  r ← raw dev;
  let data := mce_kbd r in
  if negb (truthy (Z.land (enabled_protocols r) RC_TYPE_MCE_KBD)) then Some (dev, 0) else
  if negb (is_timing_event ev) then
    Some (if reset ev then put_mce (set_mce_st STATE_INACTIVE data) dev else dev, 0) else
  if negb (geq_margin (duration ev) MCIR2_UNIT (MCIR2_UNIT / 2)) then
    if mce_idev data then
      Some (call mce_input_sync (put_mce (set_mce_st STATE_INACTIVE data) dev), - EINVAL)
    else None
  else mce_again 3 data dev ev.

(** Registration of the input device; [idev] is the result of
    [input_allocate_device] and [ret] that of [input_register_device]. *)
Definition ir_mce_kbd_register (idev : bool) (ret : Z) (dev : rc_dev) : option (rc_dev * Z) :=
  r ← raw dev;
  if negb idev then Some (dev, - ENOMEM)
  else if ret <? 0 then Some (dev, - EIO)
  else Some (put_mce (set_mce_idev true (mce_kbd r)) dev, 0).

Definition ir_mce_kbd_unregister (dev : rc_dev) : option (rc_dev * Z) :=
  r ← raw dev;
  if mce_idev (mce_kbd r) then Some (dev, 0) else None.

Definition mce_kbd_handler (idev : bool) (ret : Z) : ir_raw_handler :=
  mk_handler 6 RC_TYPE_MCE_KBD ir_mce_kbd_decode (Some (ir_mce_kbd_register idev ret))
    (Some ir_mce_kbd_unregister).

(** ** Steps of the decoder *)

Lemma mce_again_eq fuel data dev ev :
  mce_again (S fuel) data dev ev =
  ltac:(let t := eval cbn [mce_again] in (mce_again (S fuel) data dev ev) in exact t).
Proof. reflexivity. Qed.

Ltac units :=
  unfold MCIR2_PREFIX_PULSE, MCIR2_MAX_LEN, MCIR2_BIT_END, MCIR2_UNIT, near in *;
  change (333333 / 2) with 166666 in *; cbv iota in *; lia.
Ltac margins :=
  repeat first
    [ rewrite eq_margin_true by units | rewrite eq_margin_false by units
    | rewrite geq_margin_true by units | rewrite geq_margin_false by units
    | rewrite decrease_dur by units | rewrite decrease_pulse ]; cbn [negb andb].

Definition enabled (r : ir_raw_event_ctrl) : Prop :=
  truthy (Z.land (enabled_protocols r) RC_TYPE_MCE_KBD) = true /\ mce_idev (mce_kbd r) = true.

(** Message kinds: the five header bits and the length of the body. *)
Definition mce_kind (hdr : list bool) (want : Z) : Prop :=
  (hdr = [false; false; true; false; false] /\ want = MCIR2_KEYBOARD_NBITS) \/
  (hdr = [false; false; false; false; true] /\ want = MCIR2_MOUSE_NBITS).

(** The bits [got], of header and body together, are in. *)
Definition mce_got (hdr : list bool) (want : Z) (got : list bool) (d : mce_kbd_dec) : Prop :=
  mce_idev d = true /\
  if zlen got <=? 5 then mce_count d = zlen got /\ mce_header d = msb_value got
  else mce_count d = zlen got - 5 /\ mce_wanted_bits d = want /\
       mce_body d = msb_value (drop 5 got).

Definition mce_end (hdr : list bool) (want : Z) (lvl : bool) (got : list bool) (r : ir_raw_event_ctrl) : Prop :=
  enabled r /\ mce_st (mce_kbd r) = (if zlen got <=? 5 then STATE_HEADER_BIT_END else STATE_BODY_BIT_END) /\
  mce_got hdr want got (mce_kbd r) /\ pulse (prev_ev r) = negb lvl.

(** Ready for the next bit. *)
Definition mce_next (hdr : list bool) (want : Z) (got : list bool) (d : mce_kbd_dec) : Prop :=
  mce_idev d = true /\
  if zlen got <? 5 then
    mce_st d = STATE_HEADER_BIT_START /\ mce_count d = zlen got /\ mce_header d = msb_value got
  else mce_st d = STATE_BODY_BIT_START /\ mce_count d = zlen got - 5 /\ mce_wanted_bits d = want /\
       mce_body d = msb_value (drop 5 got).

Definition mce_start (hdr : list bool) (want : Z) (lvl : bool) (got : list bool) (r : ir_raw_event_ctrl) : Prop :=
  enabled r /\ mce_next hdr want got (mce_kbd r).

Definition mce_more (hdr : list bool) (want : Z) (got : list bool) : Prop :=
  zlen got < 5 + want /\ (5 <= zlen got -> take 5 got = hdr).

Lemma mce_open r dev ev p ok :
  enabled r -> is_sample p ok ev -> MCIR2_UNIT / 2 + 1 < duration ev ->
  ir_mce_kbd_decode (on r dev) ev = mce_again 3 (mce_kbd r) (on r dev) ev.
Proof.
  intros [He Hi] Hs Hd. unfold ir_mce_kbd_decode. cbn [raw set_raw mbind option_bind].
  rewrite He, (sample_timing _ _ _ Hs). cbn [negb]. by margins.
Qed.

(** A bit shifted into a register that has room for it. *)
Lemma shift_msb w got b :
  0 < w -> zlen got < w -> shift_in w (msb_value got) b = msb_value (got ++ [b]).
Proof.
  intros Hw Hl. rewrite shift_in_value by done. rewrite msb_value_app. cbn [length msb_value].
  change (2 ^ Z.of_nat 1) with 2. rewrite (Z.mul_comm 2).
  replace (Z.b2z b * 2 ^ Z.of_nat 0 + 0) with (Z.b2z b) by (cbn; lia).
  apply wrap_small. pose proof (msb_value_range got) as Hr. fold (zlen got) in Hr.
  assert (2 ^ zlen got * 2 <= 2 ^ w) as Hp.
  { rewrite Z.mul_comm, <- Z.pow_succ_r by (unfold zlen; lia). apply Z.pow_le_mono_r; lia. }
  destruct b; cbn [Z.b2z]; lia.
Qed.

Lemma mce_at_start fuel hdr want got b d r dev ev :
  mce_kind hdr want -> enabled r -> mce_next hdr want got d -> mce_more hdr want got ->
  pulse ev = b -> near MCIR2_UNIT 1 (duration ev) ->
  exists r', mce_again (S fuel) d (on r dev) ev = Some (on r' dev, 0) /\
    forall e, pulse e = b -> mce_end hdr want (negb b) (got ++ [b]) (set_prev_ev e r').
Proof.
  intros Hk [He Hi] (Hid & Hn) [Hm _] Hp Hd. rewrite mce_again_eq. margins.
  pose proof (zlen_nonneg got).
  assert (want <= 32) as Hw by (destruct Hk as [[_ ->]|[_ ->]]; done).
  assert (zlen (got ++ [b]) = zlen got + 1) as Ez by (rewrite zlen_app, zlen_singleton; done).
  destruct (Z.ltb_spec (zlen got) 5) as [H5|H5].
  - destruct Hn as (Hst & Hc & Hh). rewrite Hst, Hp. margins.
    eexists (set_mce_kbd _ r). split; [reflexivity|]. intros e Hpe. split; [split; [done|by destruct b]|].
    rewrite Ez, (proj2 (Z.leb_le _ _)) by lia. split; [done|].
    split; [|cbn; by rewrite negb_involutive]. split; [by destruct b|]. rewrite Ez, (proj2 (Z.leb_le _ _)) by lia.
    rewrite <- (shift_msb 8 got b), <- Hh by lia. rewrite <- (wrap_small 32 (zlen got + 1)), <- Hc by lia.
    by destruct b.
  - destruct Hn as (Hst & Hc & Hww & Hb). rewrite Hst, Hp. margins.
    eexists (set_mce_kbd _ r). split; [reflexivity|]. intros e Hpe. split; [split; [done|by destruct b]|].
    rewrite Ez, (proj2 (Z.leb_gt _ _)) by lia. split; [done|].
    split; [|cbn; by rewrite negb_involutive]. split; [by destruct b|]. rewrite Ez, (proj2 (Z.leb_gt _ _)) by lia.
    rewrite drop_app_le by (unfold zlen in *; lia).
    rewrite <- (shift_msb 32 (drop 5 got) b), <- Hb by (unfold zlen in *; rewrite ?length_drop; lia).
    replace (zlen got + 1 - 5) with (u32 (mce_count d + 1)) by (rewrite Hc, wrap_small; lia).
    rewrite <- Hww. by destruct b.
Qed.

(** Leaving a bit that is not the last. *)
Lemma mce_leave hdr want got r dev ev lvl :
  mce_kind hdr want -> mce_end hdr want lvl got r -> mce_more hdr want got -> pulse ev = lvl ->
  MCIR2_UNIT / 2 + 1 < duration ev ->
  exists d, mce_next hdr want got d /\
    mce_again 3 (mce_kbd r) (on r dev) ev =
    mce_again 2 d (on r dev) (decrease_duration ev MCIR2_UNIT).
Proof.
  intros Hk ([He Hi] & Hst & (Hid & Hg) & Hpp) [Hm Hh] Hp Hd. rewrite mce_again_eq. margins.
  assert (is_transition ev (prev_ev r) = true) as Htr.
  { unfold is_transition. rewrite Hpp, Hp. by destruct lvl. }
  unfold mce_next. rewrite Hst. destruct (Z.leb_spec (zlen got) 5) as [H5|H5].
  - destruct Hg as (Hc & Hhd). cbn [raw set_raw mbind option_bind]. rewrite Htr. cbn [negb].
    rewrite Hc. unfold MCIR2_HEADER_NBITS.
    destruct (Z.eqb_spec (zlen got) 5) as [E|E]; cbn [negb].
    + assert (got = hdr) as Hgot.
      { rewrite <- Hh by lia. symmetry. apply take_ge. unfold zlen in E. lia. }
      unfold mce_kbd_mode. rewrite Hhd, Hgot.
      rewrite (drop_ge hdr) by (rewrite <- Hgot; unfold zlen in E; lia).
      rewrite <- Hgot, E. cbn [Z.ltb Z.compare Pos.compare Pos.compare_cont]. subst got.
      destruct Hk as [[-> ->]|[-> ->]]; cbn [msb_value length Z.b2z];
        (eexists; split; [|reflexivity]); done.
    + rewrite (proj2 (Z.ltb_lt _ _)) by lia.
      by exists (set_mce_st STATE_HEADER_BIT_START (mce_kbd r)).
  - destruct Hg as (Hc & Hw & Hb). cbn [raw set_raw mbind option_bind]. rewrite Htr. cbn [negb].
    rewrite Hc, Hw, (proj2 (Z.eqb_neq _ _)) by lia. rewrite (proj2 (Z.ltb_ge _ _)) by lia.
    by exists (set_mce_st STATE_BODY_BIT_START (mce_kbd r)).
Qed.

Lemma mce_biphase hdr want (Hk : mce_kind hdr want) :
  Biphase ir_mce_kbd_decode MCIR2_UNIT (fun b => b) (mce_more hdr want) (mce_end hdr want)
    (mce_start hdr want).
Proof.
  split.
  - intros lvl got b ev Hm <- Hs. apply moves_one. intros r dev Hr. pose proof Hr as [He _].
    pose proof Hs as [Hp _ _ Hd]. cbn [fst snd] in Hp, Hd.
    rewrite (mce_open r dev ev _ _ He Hs) by units.
    destruct (mce_leave hdr want got r dev ev b Hk Hr Hm Hp) as (d & Hn & ->); [units|].
    destruct (mce_at_start 1 hdr want got b d r dev (decrease_duration ev MCIR2_UNIT) Hk He Hn Hm)
      as (r' & -> & Hr').
    + by rewrite decrease_pulse.
    + rewrite decrease_dur by units. units.
    + exists r', 0. split; [done|]. by apply Hr'.
  - intros lvl got ev Hm Hs. apply moves_one. intros r dev Hr. pose proof Hr as [He _].
    pose proof Hs as [Hp _ _ Hd]. cbn [fst snd] in Hp, Hd.
    rewrite (mce_open r dev ev _ _ He Hs) by units.
    destruct (mce_leave hdr want got r dev ev lvl Hk Hr Hm Hp) as (d & Hn & ->); [units|].
    rewrite mce_again_eq. margins. exists (set_mce_kbd d r), 0. split; [done|].
    split; [|done]. destruct He. split; [done|]. by destruct Hn.
  - intros lvl got b ev Hm Hf Hs. apply moves_one. intros r dev (He & Hn).
    pose proof Hs as [Hp _ _ Hd]. cbn [fst snd] in Hp, Hd.
    rewrite (mce_open r dev ev _ _ He Hs) by units.
    destruct (mce_at_start 2 hdr want got b (mce_kbd r) r dev ev Hk He Hn Hm) as (r' & -> & Hr');
      [by rewrite Hp|done|].
    exists r', 0. split; [done|]. replace lvl with (negb b) by (by rewrite Hf, negb_involutive).
    apply Hr'. by rewrite Hp.
Qed.

(** ** What a message reports *)

Definition keycode_at (i : Z) : Z := default 0 kbd_keycodes.[i].

Definition add_calls (l : list rc_call) (dev : rc_dev) : rc_dev :=
  set_rd_calls (rd_calls dev ++ l) dev.

Lemma add_calls_app l k dev : add_calls k (add_calls l dev) = add_calls (l ++ k) dev.
Proof. unfold add_calls. cbn. by rewrite app_assoc. Qed.

Lemma report_keys_spec n : forall base i state dev,
  0 <= base -> 0 <= i -> base + i + Z.of_nat n <= 256 ->
  report_keys n base i state dev =
  Some (add_calls ((fun j => mce_input_report_key (keycode_at (base + j)) (state j)) <$>
                   seqZ i (Z.of_nat n)) dev).
Proof.
  induction n as [|n IH]; intros base i state dev Hb Hi Hn.
  { cbn. unfold add_calls. rewrite app_nil_r. by destruct dev. }
  cbn [report_keys]. destruct (proj2 (mget_is_Some kbd_keycodes (base + i))) as [c Hc].
  { change (zlen kbd_keycodes) with 256. lia. }
  rewrite Hc. cbn [mbind option_bind]. rewrite IH by lia.
  rewrite (seqZ_cons i) by lia. cbn [fmap list_fmap]. unfold keycode_at at 2. rewrite Hc.
  change (report_key c (state i) dev) with (add_calls [mce_input_report_key c (state i)] dev).
  rewrite add_calls_app. by replace (Z.pred (Z.of_nat (S n))) with (Z.of_nat n) by lia.
Qed.

(** The modifiers the code looks at, and the keys it releases. *)
Definition mce_modifiers (mask : Z -> bool) : list rc_call :=
  (fun j => mce_input_report_key (keycode_at (0xe0 + j)) (mask j)) <$> seqZ 0 7.
Definition mce_release_all : list rc_call :=
  (fun j => mce_input_report_key (keycode_at j) false) <$> seqZ 0 0xe0.

(** The reports of a keyboard message. *)
Definition mce_keyboard_calls (keydata shiftmask : Z) : list rc_call :=
  mce_modifiers (fun i => truthy (Z.land shiftmask (Z.shiftl 1 i))) ++
  (if keydata =? 0 then mce_release_all else [mce_input_report_key (keycode_at keydata) true]).

Lemma process_keyboard_spec keydata shiftmask dev :
  0 <= keydata < 256 -> 0 <= shiftmask < 256 ->
  ir_mce_kbd_process_keyboard_data dev (Z.lor (Z.shiftl keydata 8) shiftmask) =
  Some (add_calls (mce_keyboard_calls keydata shiftmask) dev).
Proof.
  intros Hk Hs. unfold ir_mce_kbd_process_keyboard_data.
  assert (Z.land (Z.shiftr (Z.lor (Z.shiftl keydata 8) shiftmask) 8) 0xff = keydata) as ->.
  { rewrite Z.shiftr_lor, Z.shiftr_shiftl_l, Z.shiftl_0_r by done.
    rewrite (Z.shiftr_div_pow2 shiftmask), Z.div_small, Z.lor_0_r by done.
    rewrite (land_mask _ 8) by done. by apply Z.mod_small. }
  assert (Z.land (Z.lor (Z.shiftl keydata 8) shiftmask) 0xff = shiftmask) as ->.
  { rewrite Z.land_lor_distr_l, !(land_mask _ 8), Z.shiftl_mul_pow2 by done.
    by rewrite Z_mod_mult, Z.lor_0_l, Z.mod_small. }
  rewrite report_keys_spec by (vm_compute; discriminate). cbn [mbind option_bind].
  unfold mce_keyboard_calls, mce_modifiers. destruct (Z.eqb_spec keydata 0) as [->|Hn]; cbn [negb].
  - rewrite report_keys_spec by (vm_compute; discriminate). by rewrite add_calls_app.
  - destruct (proj2 (mget_is_Some kbd_keycodes keydata)) as [c Hc]; [done|].
    assert (keycode_at keydata = c) as -> by (unfold keycode_at; by rewrite Hc).
    rewrite Hc. cbn [mbind option_bind]. by rewrite <- add_calls_app.
Qed.

(** A timeout releases the modifiers and the first 224 keys of the table. *)
Lemma rx_timeout_spec dev :
  mce_kbd_rx_timeout dev = Some (add_calls (mce_modifiers (fun _ => false) ++ mce_release_all) dev).
Proof.
  unfold mce_kbd_rx_timeout. rewrite report_keys_spec by (vm_compute; discriminate).
  cbn [mbind option_bind]. rewrite report_keys_spec by (vm_compute; discriminate). by rewrite add_calls_app.
Qed.

(** Fact: a key of the table above the modifiers -- PLAYPAUSE, say, or the
    right META key, which is a modifier the code does not look at -- is reported
    as pressed when its message comes, but never as released: neither the
    message without key, under any modifiers, nor the timeout reports it. *)
Theorem mce_key_sticks dev keydata :
  keydata = 0xe7 \/ keydata = 0xe8 ->
  exists down, ir_mce_kbd_process_keyboard_data dev (Z.shiftl keydata 8) = Some down /\
    (exists before, rd_calls down = before ++ [mce_input_report_key (keycode_at keydata) true]) /\
    forall shiftmask, 0 <= shiftmask < 256 ->
    exists up late, ir_mce_kbd_process_keyboard_data down shiftmask = Some up /\
      mce_kbd_rx_timeout up = Some late /\
      exists calls, rd_calls late = rd_calls down ++ calls /\
        ~ exists v, mce_input_report_key (keycode_at keydata) v ∈ calls.
Proof.
  intros Hk. pose proof (process_keyboard_spec keydata 0 dev) as Hdown. rewrite Z.lor_0_r in Hdown.
  eexists. split; [apply Hdown; destruct Hk as [-> | ->]; done|]. split.
  { destruct Hk as [-> | ->]; eexists; unfold add_calls, mce_keyboard_calls;
      cbn [rd_calls set_rd_calls Z.eqb]; apply app_assoc. }
  intros shiftmask Hs. set (down := add_calls _ _).
  pose proof (process_keyboard_spec 0 shiftmask down ltac:(done) Hs) as Hup.
  rewrite Z.shiftl_0_l, Z.lor_0_l in Hup.
  do 2 eexists. split; [exact Hup|]. split; [apply rx_timeout_spec|].
  eexists. rewrite add_calls_app. split; [reflexivity|]. intros (v & Hv).
  assert (forall f j, mce_input_report_key (keycode_at keydata) v ∈
     mce_modifiers f ++ mce_release_all -> j = 0 -> False) as Hno.
  { intros f j Hin _. unfold mce_modifiers, mce_release_all in Hin.
    assert (keycode_at keydata ∉ ((fun i => keycode_at (0xe0 + i)) <$> seqZ 0 7) ++
      (keycode_at <$> seqZ 0 0xe0)) as Hnot.
    { destruct Hk as [-> | ->]; refine (bool_decide_unpack _ _); vm_compute; exact I. }
    apply Hnot. apply elem_of_app in Hin as [Hin|Hin]; apply list_elem_of_fmap in Hin as (i & E & Hi);
      injection E as E _; rewrite E; apply elem_of_app; [left|right]; apply list_elem_of_fmap; eauto. }
  apply elem_of_app in Hv as [Hv|Hv]; by eapply (Hno _ 0).
Qed.

(** ** Messages *)

Lemma report_keys_raw n base i state x dev :
  report_keys n base i state (set_raw x dev) = set_raw x <$> report_keys n base i state dev.
Proof.
  revert i dev. induction n as [|n IH]; intros i dev; [done|]. cbn [report_keys].
  destruct (kbd_keycodes.[base + i]) as [c|]; cbn [mbind option_bind]; [|done].
  change (report_key c (state i) (set_raw x dev)) with (set_raw x (report_key c (state i) dev)).
  apply IH.
Qed.

Lemma deliver_raw d x dev :
  mce_deliver d (set_raw x dev) = option_map (set_raw x) <$> mce_deliver d dev.
Proof.
  unfold mce_deliver. destruct (_ =? _); [|by destruct (_ =? _)].
  unfold ir_mce_kbd_process_keyboard_data.
  change (call ?c (set_raw x dev)) with (set_raw x (call c dev)).
  cbn [jiffies rd_timeout set_raw]. rewrite report_keys_raw.
  destruct (report_keys 7 _ _ _ _) as [dev1|]; cbn [mbind option_bind fmap option_fmap option_map]; [|done].
  destruct (truthy (Z.land (Z.shiftr _ 8) 0xff)).
  - by destruct (kbd_keycodes.[_]).
  - rewrite report_keys_raw. by destruct (report_keys _ 0 0 _ _).
Qed.

Definition mce_idle (r : ir_raw_event_ctrl) : Prop :=
  enabled r /\ mce_st (mce_kbd r) = STATE_INACTIVE.

Lemma mce_prefix p hdr want :
  sample MCIR2_UNIT (true, 8) p ->
  moves ir_mce_kbd_decode mce_idle [p] (mce_start hdr want true []).
Proof.
  intros Hs. apply moves_one. intros r dev (He & Hst). pose proof Hs as [Hp _ _ Hd].
  cbn [fst snd] in Hp, Hd. rewrite (mce_open r dev p _ _ He Hs) by units.
  rewrite mce_again_eq. margins. rewrite Hst, Hp. margins.
  eexists _, _. split; [reflexivity|]. destruct He as [He Hi]. split; [done|]. done.
Qed.

(** State FINISHED delivers the message and closes it. *)
Lemma mce_finished fuel d r dev ev dev' :
  enabled r -> mce_idev d = true -> mce_st d = STATE_FINISHED -> pulse ev = false ->
  MCIR2_UNIT / 2 + 1 < duration ev -> mce_deliver d dev = Some (Some dev') ->
  exists r', mce_idle (set_prev_ev ev r') /\
    mce_again (S fuel) d (on r dev) ev = Some (on r' (call mce_input_sync dev'), 0).
Proof.
  intros [He Hi] Hid Hst Hp Hd Hdel. rewrite mce_again_eq. margins. rewrite Hst, Hp, Hid.
  cbn [negb]. rewrite deliver_raw, Hdel.
  cbn [fmap option_fmap option_map mbind option_bind].
  exists (set_mce_kbd (set_mce_st STATE_INACTIVE d) r). split; [|done]. done.
Qed.

Lemma mce_last hdr want fuel got r dev ev lvl :
  mce_kind hdr want -> mce_end hdr want lvl got r -> zlen got = 5 + want -> pulse ev = lvl ->
  MCIR2_UNIT / 2 + 1 < duration ev ->
  mce_again (S fuel) (mce_kbd r) (on r dev) ev =
    mce_again fuel (set_mce_st STATE_FINISHED (mce_kbd r)) (on r dev)
      (decrease_duration ev MCIR2_UNIT) /\
  mce_wanted_bits (mce_kbd r) = want /\ mce_body (mce_kbd r) = msb_value (drop 5 got) /\
  mce_idev (mce_kbd r) = true.
Proof.
  intros Hk (He & Hst & (Hid & Hg) & Hpp) Hl Hp Hd.
  assert (29 <= want) as Hw by (destruct Hk as [[_ ->]|[_ ->]]; done).
  rewrite (proj2 (Z.leb_gt _ _)) in Hst, Hg by lia. destruct Hg as (Hc & Hww & Hb).
  split; [|done]. rewrite mce_again_eq. margins. rewrite Hst.
  cbn [raw set_raw mbind option_bind]. unfold is_transition. rewrite Hpp, Hp.
  replace (Bool.eqb lvl (negb lvl)) with false by (by destruct lvl). cbn [negb].
  rewrite Hc, Hww. by replace (zlen got - 5) with want by lia; rewrite Z.eqb_refl.
Qed.

Lemma mce_finish hdr want lvl got evs r dev dev' :
  mce_kind hdr want -> zlen got = 5 + want -> mce_end hdr want lvl got r ->
  (forall d, mce_wanted_bits d = want -> mce_body d = msb_value (drop 5 got) ->
     mce_deliver d dev = Some (Some dev')) ->
  biphase_ends MCIR2_UNIT lvl evs ->
  exists r', mce_idle r' /\
    run ir_mce_kbd_decode (on r dev) evs = Some (on r' (call mce_input_sync dev')).
Proof.
  intros Hk Hl Hr Hdel Hend. pose proof Hr as [Hen _].
  destruct lvl, evs as [|e [|last [|]]]; cbn in Hend; try done.
  - destruct Hend as [He Hlast]. pose proof He as [Hp _ _ Hd]. cbn [fst snd] in Hp, Hd.
    destruct (mce_last hdr want 2 got r dev e true Hk Hr Hl Hp) as (E & Hw & Hb & Hid); [units|].
    rewrite (mce_again_eq 1) in E. rewrite geq_margin_false in E;
      [|units|units|rewrite decrease_dur by units; units]. cbn [negb] in E.
    assert (ir_mce_kbd_decode (on r dev) e = Some (on (set_mce_kbd
      (set_mce_st STATE_FINISHED (mce_kbd r)) r) dev, 0)) as E1.
    { rewrite (mce_open r dev e _ _ Hen He) by units. exact E. }
    rewrite (run_step _ _ _ _ _ _ _ _ E1). set (r1 := set_prev_ev e _).
    assert (enabled r1) as Hen1 by (by destruct Hen).
    pose proof Hlast as [Hp2 _ _ Hd2].
    destruct (mce_finished 2 (mce_kbd r1) r1 dev last dev' Hen1 Hid eq_refl Hp2) as (r' & Hr' & E2);
      [units|by apply Hdel|].
    rewrite <- (mce_open r1 dev last _ _ Hen1 Hlast) in E2 by units.
    exists (set_prev_ev last r'). split; [exact Hr'|]. by rewrite (run_step _ _ _ _ _ _ _ _ E2).
  - pose proof Hend as [Hp _ _ Hd].
    destruct (mce_last hdr want 2 got r dev e false Hk Hr Hl Hp) as (E & Hw & Hb & Hid); [units|].
    destruct (mce_finished 1 (set_mce_st STATE_FINISHED (mce_kbd r)) r dev
      (decrease_duration e MCIR2_UNIT) dev' Hen Hid eq_refl) as (r' & Hr' & E2).
    + by rewrite decrease_pulse.
    + rewrite decrease_dur by units. units.
    + by apply Hdel.
    + rewrite E2, <- (mce_open r dev e _ _ Hen Hend) in E by units.
      exists (set_prev_ev e r'). split; [exact Hr'|]. by rewrite (run_step _ _ _ _ _ _ _ _ E).
Qed.

Lemma mce_frame hdr want body evs last r dev dev' b0 rest :
  mce_kind hdr want -> zlen body = want -> hdr = b0 :: rest -> mce_idle r ->
  (forall d, mce_wanted_bits d = want -> mce_body d = msb_value body ->
     mce_deliver d dev = Some (Some dev')) ->
  signal MCIR2_UNIT ([(true, 8); (false, 1)] ++ biphase (fun b => b) true (rest ++ body)) evs ->
  biphase_ends MCIR2_UNIT (pending (fun b => b) true (rest ++ body)) last ->
  exists r', mce_idle r' /\
    run ir_mce_kbd_decode (on r dev) (evs ++ last) = Some (on r' (call mce_input_sync dev')).
Proof.
  intros Hk Hl Hh Hr Hdel Hs Hend. pose proof (mce_biphase hdr want Hk) as Hbp.
  assert (b0 = false) as -> by (destruct Hk as [[-> _]|[-> _]]; by injection Hh as <- _).
  assert (length hdr = 5%nat) as Hl5 by (destruct Hk as [[-> _]|[-> _]]; done).
  assert (29 <= want) as Hw by (destruct Hk as [[_ ->]|[_ ->]]; done).
  apply signal_app_inv in Hs as (e1 & e2 & -> & H1 & H2).
  apply signal_cons_inv in H1 as (p & l1 & -> & Hp & H1).
  apply signal_cons_inv in H1 as (sp & l2 & -> & Hsp & H1). inversion H1; subst l2.
  assert (mce_more hdr want []) as Hm0.
  { split; [rewrite zlen_nil; lia|]. rewrite zlen_nil. lia. }
  pose proof (bi_begin (Biphase := Hbp) true [] false sp Hm0 eq_refl Hsp) as Hb0.
  pose proof (biphase_moves (H := Hbp) (rest ++ body) true [false] e2) as Hbits.
  assert (forall k, (k < length (rest ++ body))%nat ->
    mce_more hdr want ([false] ++ take k (rest ++ body))) as Hmore.
  { intros k Hkk. subst hdr. cbn [length] in Hl5. rewrite length_app in Hkk. unfold zlen in *.
    split.
    - cbn [app]. unfold zlen. cbn [length]. rewrite length_take, length_app. lia.
    - cbn [app]. unfold zlen. cbn [length take]. rewrite length_take, length_app. intros H5. f_equal.
      rewrite take_take. replace (4 `min` k)%nat with 4%nat by lia. apply take_app_length'. lia. }
  destruct (moves_app _ _ [p] _ (sp :: e2) _ (mce_prefix p hdr want Hp)
    (moves_cons _ _ _ _ _ _ Hb0 (Hbits Hmore H2)) r dev Hr) as (r1 & E1 & Hr1).
  rewrite run_app. cbn [app] in E1 |- *. rewrite E1. cbn [mbind option_bind].
  change ([false] ++ rest ++ body) with ((false :: rest) ++ body) in Hr1. rewrite <- Hh in Hr1.
  apply (mce_finish hdr want (pending (fun b => b) true (rest ++ body)) (hdr ++ body)
    last r1 dev dev' Hk); [|done| |done].
  - rewrite zlen_app. unfold zlen at 1. rewrite Hl5. lia.
  - intros d Hdw Hdb. apply Hdel; [done|]. by rewrite drop_app_length' in Hdb.
Qed.

(** Fact: every keyboard message -- prefix, header, thirty-two bits of which
    the lower half is key and modifiers, each sample off by less than half a
    unit -- restarts the release timer, reports the seven modifiers the code
    knows, and then the key as pressed or, without key, the first 224 keys of
    the table as released; the decoder is then ready for the next message. *)
Theorem mce_keyboard_roundtrip hi keydata shiftmask evs last r dev :
  length hi = 16%nat -> 0 <= keydata < 256 -> 0 <= shiftmask < 256 -> mce_idle r ->
  let bits := [false; true; false; false] ++ hi ++ msb_bits 8 keydata ++ msb_bits 8 shiftmask in
  signal MCIR2_UNIT ([(true, 8); (false, 1)] ++ biphase (fun b => b) true bits) evs ->
  biphase_ends MCIR2_UNIT (pending (fun b => b) true bits) last ->
  let delay := if truthy (rd_timeout dev) then usecs_to_jiffies (rd_timeout dev / 1000)
               else msecs_to_jiffies 100 in
  exists r', mce_idle r' /\
    run ir_mce_kbd_decode (on r dev) (evs ++ last) =
    Some (on r' (add_calls ([mce_mod_timer (u64 (jiffies dev + delay))] ++
            mce_keyboard_calls keydata shiftmask ++ [mce_input_sync]) dev)).
Proof.
  intros Hhi Hk Hs Hr bits Hsig Hend delay.
  set (low := msb_bits 8 keydata ++ msb_bits 8 shiftmask) in *.
  assert (length low = 16%nat) as Hlow by done.
  set (mid := add_calls (mce_keyboard_calls keydata shiftmask)
    (call (mce_mod_timer (u64 (jiffies dev + delay))) dev)).
  destruct (mce_frame [false; false; true; false; false] MCIR2_KEYBOARD_NBITS (hi ++ low) evs last r dev
    mid false [false; true; false; false]) as (r' & Hr' & E); try done.
  - by left.
  - unfold zlen. rewrite length_app, Hhi, Hlow. done.
  - intros d Hw Hb. unfold mce_deliver. rewrite Hw, Hb, Z.eqb_refl.
    assert (Z.land (msb_value (hi ++ low)) 0xffff = Z.lor (Z.shiftl keydata 8) shiftmask) as ->.
    { rewrite (land_mask _ 16), msb_value_app, Hlow, Z.add_comm, Z_mod_plus_full by done.
      pose proof (msb_value_range low) as Hrl. rewrite Hlow in Hrl.
      rewrite Z.mod_small by done. unfold low. rewrite msb_value_app, !msb_value_bits by done.
      change (2 ^ Z.of_nat (length (msb_bits 8 shiftmask))) with (2 ^ 8).
      rewrite <- Z.shiftl_mul_pow2 by done. apply Z.add_nocarry_lor, Z.bits_inj'. intros i Hi.
      rewrite Z.bits_0, Z.land_spec. destruct (decide (i < 8)).
      - by rewrite Z.shiftl_spec_low.
      - rewrite (testbit_above 8 shiftmask) by lia. apply andb_false_r. }
    fold delay. rewrite process_keyboard_spec by done. done.
  - exists r'. split; [done|]. rewrite E. unfold mid, add_calls, call. cbn.
    by rewrite <- !app_assoc.
Qed.

End mce.

(** Fact: the decoder needs its input device.  When registering it failed, which
    [ir_raw_event_register] ignores, the pointer is NULL, and with the protocol enabled a
    sample that is too short already makes the decoder report to it. *)
Theorem mce_without_input_faults {H : RcEnv} r dev ev :
  raw dev = Some r -> truthy (Z.land (enabled_protocols r) RC_TYPE_MCE_KBD) = true ->
  mce_idev (mce_kbd r) = false -> is_timing_event ev = true ->
  geq_margin (duration ev) MCIR2_UNIT (MCIR2_UNIT / 2) = false ->
  ir_mce_kbd_decode dev ev = None.
Proof.
  intros Hr Hp Hi Ht Hd. unfold ir_mce_kbd_decode. rewrite Hr. cbn [mbind option_bind].
  by rewrite Hp, Ht, Hd, Hi.
Qed.

Lemma mce_without_input_faults_witness :
  @ir_mce_kbd_decode sample_env (on (listening RC_TYPE_MCE_KBD) fresh_dev)
    (exact_sample 1000 (true, 1)) = None.
Proof.
  apply (@mce_without_input_faults sample_env (listening RC_TYPE_MCE_KBD)); reflexivity.
Defined.

(** A message at work: KEY_C under the left shift key. *)
Definition sample_mce_bits : list bool :=
  [false; true; false; false] ++ replicate 16 false ++ msb_bits 8 6 ++ msb_bits 8 2.

Lemma mce_keyboard_roundtrip_witness :
  exists r', mce_idle r' /\
    run (@ir_mce_kbd_decode sample_env)
      (on (set_mce_kbd (set_mce_idev true (mce_kbd zeroed_ctrl)) (listening RC_TYPE_MCE_KBD)) fresh_dev)
      ((exact_sample MCIR2_UNIT <$>
          [(true, 8); (false, 1)] ++ biphase (fun b => b) true sample_mce_bits) ++
       exact_end MCIR2_UNIT true) =
    Some (on r' (add_calls ([mce_mod_timer 10] ++
            (mce_modifiers (fun i => i =? 1) ++ [mce_input_report_key Key.KEY_C true]) ++
            [mce_input_sync]) fresh_dev)).
Proof.
  apply (@mce_keyboard_roundtrip sample_env (replicate 16 false) 6 2
    (exact_sample MCIR2_UNIT <$> [(true, 8); (false, 1)] ++ biphase (fun b => b) true sample_mce_bits)
    (exact_end MCIR2_UNIT true)); [done..| |by apply exact_signal|by apply exact_ends].
  done.
Defined.

Lemma mce_key_sticks_witness :
  exists down, ir_mce_kbd_process_keyboard_data fresh_dev 0xe700 = Some down /\
    (exists before, rd_calls down = before ++ [mce_input_report_key (keycode_at 0xe7) true]) /\
    forall shiftmask, 0 <= shiftmask < 256 ->
    exists up late, ir_mce_kbd_process_keyboard_data down shiftmask = Some up /\
      mce_kbd_rx_timeout up = Some late /\
      exists calls, rd_calls late = rd_calls down ++ calls /\
        ~ exists v, mce_input_report_key (keycode_at 0xe7) v ∈ calls.
Proof. apply (mce_key_sticks fresh_dev 0xe7). by left. Defined.
