(* ===== verification/IrPipeline.v ===== *)
(** The infrared path as a whole: from the samples a driver stores, through the
    decoding thread and the registered decoders, to the input layer.

    [Decoder] is what a handler promises to the thread; the seven decoders are
    its instances, and the theorems about the thread rest on nothing else. *)

From stdpp Require Import strings.
From S2P Require Import Prelude RcTypes RcKeymap RcKeymapProofs RcKeydown IrRaw IrDecode.
From S2P Require Import IrNec IrRc5 IrSony IrJvc IrRc6 IrRc5Sz IrMceKbd.

Section pipeline.
Context `{RcEnv}.

(** ** What a decoder promises *)

(** A result, for the control structure whose queue is [q]. *)
Definition refit (q : list ir_raw_event) (res : ir_raw_event_ctrl * rc_dev * Z) : rc_dev * Z :=
  let '(r, dev, rc) := res in (on (set_kfifo q r) dev, rc).

(** An outcome from a device on which the key invariant holds and whose MCE
    keyboard is registered: there is one, and both still hold.  The enabled
    protocols never change. *)
Definition outcome_ok (r : ir_raw_event_ctrl) (dev : rc_dev)
    (res : option (ir_raw_event_ctrl * rc_dev * Z)) : Prop :=
  (forall r' d rc, res = Some (r', d, rc) -> enabled_protocols r' = enabled_protocols r) /\
  (key_inv dev -> mce_idev (mce_kbd r) = true ->
   exists r' d rc, res = Some (r', d, rc) /\ key_inv d /\ mce_idev (mce_kbd r') = true).

(** The same outcome, whichever of two queues the samples are in. *)
Definition related (q1 q2 : list ir_raw_event) (r : ir_raw_event_ctrl) (dev : rc_dev)
    (o1 o2 : option (rc_dev * Z)) : Prop :=
  exists res, o1 = refit q1 <$> res /\ o2 = refit q2 <$> res /\ outcome_ok r dev res.

Class Decoder (h : ir_raw_handler) : Prop := {
  decoder_off r dev ev : truthy (Z.land (enabled_protocols r) (protocols h)) = false ->
    decode h (on r dev) ev = Some (on r dev, 0);
  decoder_related q1 q2 r dev ev :
    related q1 q2 r dev (decode h (on (set_kfifo q1 r) dev) ev)
      (decode h (on (set_kfifo q2 r) dev) ev);
}.

(** ** Outcomes of decoder steps *)

(** A change of the control structure that leaves queue, protocols and MCE
    input device alone. *)
Definition own_slot (g : ir_raw_event_ctrl -> ir_raw_event_ctrl) : Prop :=
  forall r q, g (set_kfifo q r) = set_kfifo q (g r) /\
    enabled_protocols (g r) = enabled_protocols r.

Lemma related_ret q1 q2 r dev g d rc :
  own_slot g -> mce_idev (mce_kbd (g r)) = mce_idev (mce_kbd r) ->
  (key_inv dev -> key_inv d) ->
  related q1 q2 r dev (Some (upd_raw g (on (set_kfifo q1 r) d), rc))
    (Some (upd_raw g (on (set_kfifo q2 r) d), rc)).
Proof.
  intros Hg Hm Hd. exists (Some (g r, d, rc)). cbn. rewrite !(proj1 (Hg r _)).
  split; [done|]. split; [done|]. split.
  - intros r' d' rc' [= <- _ _]. apply (Hg r []).
  - intros Hi Hmce. exists (g r), d, rc. split; [done|]. split; [auto|]. congruence.
Qed.

Lemma related_same q1 q2 r dev rc :
  related q1 q2 r dev (Some (on (set_kfifo q1 r) dev, rc)) (Some (on (set_kfifo q2 r) dev, rc)).
Proof. by apply (related_ret q1 q2 r dev (fun r => r)). Qed.

Lemma keydown_inv dev code toggle :
  key_inv dev -> exists dev', rc_keydown dev code toggle = Some dev' /\ key_inv dev'.
Proof. intros Hi. by apply (key_step_inv dev (KeyDown code toggle)). Qed.

Lemma repeat_inv dev : key_inv dev -> key_inv (rc_repeat dev).
Proof. intros Hi. by destruct (key_step_inv dev KeyRepeat Hi I) as (d & [= <-] & Hd). Qed.

Lemma related_keydown q1 q2 r dev g code toggle rc :
  own_slot g -> mce_idev (mce_kbd (g r)) = mce_idev (mce_kbd r) ->
  related q1 q2 r dev
    (d ← rc_keydown (on (set_kfifo q1 r) dev) code toggle; Some (upd_raw g d, rc))
    (d ← rc_keydown (on (set_kfifo q2 r) dev) code toggle; Some (upd_raw g d, rc)).
Proof.
  intros Hg Hm. rewrite !rc_keydown_raw.
  destruct (rc_keydown dev code toggle) as [d|] eqn:E; cbn [mbind option_bind fmap option_fmap option_map].
  - apply related_ret; [done|done|]. intros Hi.
    destruct (keydown_inv dev code toggle Hi) as (d' & E' & Hd). congruence.
  - exists None. split; [done|]. split; [done|]. split; [done|].
    intros Hi. destruct (keydown_inv dev code toggle Hi) as (d' & E' & _). congruence.
Qed.

Lemma related_repeat q1 q2 r dev g rc :
  own_slot g -> mce_idev (mce_kbd (g r)) = mce_idev (mce_kbd r) ->
  related q1 q2 r dev (Some (upd_raw g (rc_repeat (on (set_kfifo q1 r) dev)), rc))
    (Some (upd_raw g (rc_repeat (on (set_kfifo q2 r) dev)), rc)).
Proof. intros Hg Hm. rewrite !rc_repeat_raw. apply related_ret; auto using repeat_inv. Qed.

Lemma related_raw q1 q2 r dev f g :
  related q1 q2 r dev (f (set_kfifo q1 r)) (g (set_kfifo q2 r)) ->
  related q1 q2 r dev (x ← raw (on (set_kfifo q1 r) dev); f x)
    (x ← raw (on (set_kfifo q2 r) dev); g x).
Proof. done. Qed.

Lemma related_eq q1 q2 r dev o1 o2 o1' o2' :
  o1 = o1' -> o2 = o2' -> related q1 q2 r dev o1' o2' -> related q1 q2 r dev o1 o2.
Proof. by intros -> ->. Qed.

(** Forget which queue a projection was taken from. *)
Ltac forget_queue :=
  cbv beta zeta;
  repeat match goal with
  | |- context [enabled_protocols (set_kfifo ?q ?r)] =>
    change (enabled_protocols (set_kfifo q r)) with (enabled_protocols r)
  | |- context [prev_ev (set_kfifo ?q ?r)] =>
    change (prev_ev (set_kfifo q r)) with (prev_ev r)
  | |- context [nec (set_kfifo ?q ?r)] => change (nec (set_kfifo q r)) with (nec r)
  | |- context [rc5 (set_kfifo ?q ?r)] => change (rc5 (set_kfifo q r)) with (rc5 r)
  | |- context [rc6 (set_kfifo ?q ?r)] => change (rc6 (set_kfifo q r)) with (rc6 r)
  | |- context [sony (set_kfifo ?q ?r)] => change (sony (set_kfifo q r)) with (sony r)
  | |- context [jvc (set_kfifo ?q ?r)] => change (jvc (set_kfifo q r)) with (jvc r)
  | |- context [rc5_sz (set_kfifo ?q ?r)] => change (rc5_sz (set_kfifo q r)) with (rc5_sz r)
  | |- context [mce_kbd (set_kfifo ?q ?r)] => change (mce_kbd (set_kfifo q r)) with (mce_kbd r)
  | |- context [keypressed (on ?r ?d)] => change (keypressed (on r d)) with (keypressed d)
  end.

(** Follow a decoder through its branches to a result. *)
Ltac decoder_step again_eq :=
  lazymatch goal with
  | |- related _ _ _ _ (_ ← raw _; _) _ => apply related_raw; forget_queue
  | |- related _ _ _ _ (_ ← rc_keydown _ _ _; _) _ => apply related_keydown; [by split|by cbn]
  | |- related _ _ _ _ (if ?b then _ else _) _ => destruct b
  | |- related _ _ _ _ (match ?x with _ => _ end) _ =>
    lazymatch x with context [if ?b then _ else _] => destruct b | _ => destruct x end
  | |- related _ _ _ _ (Some (if ?b then _ else _, _)) _ => destruct b
  | |- related _ _ _ _ (Some (upd_raw _ (rc_repeat _), _)) _ =>
    apply related_repeat; [by split|by cbn]
  | |- related _ _ _ _ (Some (upd_raw _ _, _)) _ => apply related_ret; [by split|by cbn|done]
  | |- related _ _ _ _ (Some (on _ _, _)) _ => apply related_same
  | |- _ => eapply related_eq; [apply again_eq|apply again_eq|cbv beta zeta]
  end.

#[export] Instance nec_decoder : Decoder nec_handler.
Proof.
  split.
  - intros r dev ev Hoff. cbn in *. by rewrite Hoff.
  - intros q1 q2 r dev ev. cbn [decode nec_handler]. unfold ir_nec_decode.
    unfold put_nec. apply related_raw. forget_queue. repeat decoder_step @eq_refl.
Qed.

#[export] Instance sony_decoder : Decoder sony_handler.
Proof.
  split.
  - intros r dev ev Hoff. cbn in *. by rewrite Hoff.
  - intros q1 q2 r dev ev. cbn [decode sony_handler]. unfold ir_sony_decode.
    unfold sony_finished, put_sony. apply related_raw. forget_queue. repeat decoder_step @eq_refl.
Qed.

#[export] Instance rc5_decoder : Decoder rc5_handler.
Proof.
  split.
  - intros r dev ev Hoff. cbn in *. by rewrite Hoff.
  - intros q1 q2 r dev ev. cbn [decode rc5_handler]. unfold ir_rc5_decode.
    apply related_raw. forget_queue. destruct (rc5 r) as [st bits count wanted].
    repeat (decoder_step rc5_again_eq; unfold put_rc5;
      cbn [rc5_st set_rc5_st set_rc5_bits rc5_bits set_rc5_count rc5_count set_rc5_wanted_bits]).
Qed.

#[export] Instance rc5_sz_decoder : Decoder rc5_sz_handler.
Proof.
  split.
  - intros r dev ev Hoff. cbn in *. by rewrite Hoff.
  - intros q1 q2 r dev ev. cbn [decode rc5_sz_handler]. unfold ir_rc5_sz_decode.
    apply related_raw. forget_queue. destruct (rc5_sz r) as [st bits count wanted].
    repeat (decoder_step rc5_sz_again_eq; unfold put_rc5sz;
      cbn [rc5sz_st set_rc5sz_st set_rc5sz_bits rc5sz_bits set_rc5sz_count rc5sz_count set_rc5sz_wanted_bits]).
Qed.

#[export] Instance jvc_decoder : Decoder jvc_handler.
Proof.
  split.
  - intros r dev ev Hoff. cbn in *. by rewrite Hoff.
  - intros q1 q2 r dev ev. cbn [decode jvc_handler]. unfold ir_jvc_decode.
    apply related_raw. forget_queue. destruct (jvc r) as [st bits old count first toggle].
    repeat (decoder_step jvc_again_eq; unfold put_jvc;
      cbn [jvc_st set_jvc_st set_jvc_bits jvc_bits set_jvc_count jvc_count set_jvc_first jvc_first set_jvc_toggle jvc_toggle set_jvc_old_bits jvc_old_bits]).
Qed.

#[export] Instance rc6_decoder : Decoder rc6_handler.
Proof.
  split.
  - intros r dev ev Hoff. cbn in *. by rewrite Hoff.
  - intros q1 q2 r dev ev. cbn [decode rc6_handler]. unfold ir_rc6_decode.
    apply related_raw. forget_queue. destruct (rc6 r) as [st header body toggle count wanted].
    repeat (decoder_step rc6_again_eq; unfold put_rc6;
      cbn [rc6_st set_rc6_st set_rc6_header rc6_header set_rc6_body rc6_body set_rc6_count rc6_count set_rc6_wanted_bits rc6_wanted_bits set_rc6_toggle]).
Qed.

(** Calls the one-key listener does not mind. *)
Definition silent (c : rc_call) : Prop :=
  match c with input_report_key _ _ => False | _ => True end.

Lemma listen_silent l down : Forall silent l -> listen down l = Some down.
Proof. induction 1 as [|c l Hc _ IH]; [done|]. by destruct c. Qed.

Lemma silent_inv l dev : Forall silent l -> key_inv dev -> key_inv (add_calls l dev).
Proof.
  intros Hl Hi. apply (key_inv_frame dev); try done.
  apply (heard_calls dev _ l); [apply Hi|done|]. by apply listen_silent.
Qed.

Lemma silent_reports {A} (f : A -> Z) (g : A -> bool) l :
  Forall silent ((fun j => mce_input_report_key (f j) (g j)) <$> l).
Proof. apply Forall_fmap, Forall_true. done. Qed.

Lemma keyboard_data_total dev code :
  exists l, Forall silent l /\ ir_mce_kbd_process_keyboard_data dev code = Some (add_calls l dev).
Proof.
  unfold ir_mce_kbd_process_keyboard_data.
  rewrite report_keys_spec by (vm_compute; discriminate). cbn [mbind option_bind].
  set (keydata := Z.land (Z.shiftr code 8) 0xff).
  destruct (truthy keydata).
  - destruct (proj2 (mget_is_Some kbd_keycodes keydata)) as [c Hc].
    { change (zlen kbd_keycodes) with 256. unfold keydata. rewrite (land_mask _ 8) by done.
      apply Z.mod_pos_bound. done. }
    rewrite Hc. cbn [mbind option_bind]. eexists. split; [|by rewrite <- add_calls_app].
    apply Forall_app. split; [apply silent_reports|by constructor].
  - rewrite report_keys_spec by (vm_compute; discriminate). eexists.
    split; [|by rewrite add_calls_app]. apply Forall_app. split; apply silent_reports.
Qed.

Lemma deliver_total data dev :
  mce_deliver data dev = Some None \/
  exists l, Forall silent l /\ mce_deliver data dev = Some (Some (add_calls l dev)).
Proof.
  unfold mce_deliver. destruct (_ =? _).
  - set (c := mce_mod_timer _).
    destruct (keyboard_data_total (call c dev) (Z.land (mce_body data) 0xffff)) as (l & Hl & ->).
    right. exists (c :: l). split; [by constructor|]. cbn [mbind option_bind].
    change (call c dev) with (add_calls [c] dev). by rewrite add_calls_app.
  - destruct (_ =? _); [|by left]. right.
    eexists [_; _; _; _]. split; [|unfold ir_mce_kbd_process_mouse_data, report_key, call, add_calls;
      cbn; by rewrite <- !app_assoc]. repeat constructor.
Qed.

Lemma related_none q1 q2 r dev : mce_idev (mce_kbd r) = false -> related q1 q2 r dev None None.
Proof. intros Hm. exists None. split; [done|]. split; [done|]. split; [done|congruence]. Qed.

Lemma related_sync q1 q2 r dev g d rc :
  own_slot g -> mce_idev (mce_kbd (g r)) = mce_idev (mce_kbd r) -> (key_inv dev -> key_inv d) ->
  related q1 q2 r dev (Some (call mce_input_sync (upd_raw g (on (set_kfifo q1 r) d)), rc))
    (Some (call mce_input_sync (upd_raw g (on (set_kfifo q2 r) d)), rc)).
Proof.
  intros Hg Hm Hd. apply (related_ret q1 q2 r dev g (add_calls [mce_input_sync] d)); [done..|].
  intros Hi. apply silent_inv; [by constructor|auto].
Qed.

Lemma related_deliver q1 q2 r dev data (f g : option rc_dev -> option (rc_dev * Z)) :
  related q1 q2 r dev (f None) (g None) ->
  (forall l, Forall silent l ->
   related q1 q2 r dev (f (Some (on (set_kfifo q1 r) (add_calls l dev))))
     (g (Some (on (set_kfifo q2 r) (add_calls l dev))))) ->
  related q1 q2 r dev (x ← mce_deliver data (on (set_kfifo q1 r) dev); f x)
    (x ← mce_deliver data (on (set_kfifo q2 r) dev); g x).
Proof.
  intros Hno Hyes. rewrite !deliver_raw.
  destruct (deliver_total data dev) as [-> | (l & Hl & ->)]; [exact Hno|by apply Hyes].
Qed.

Lemma mce_slot d : own_slot (set_mce_kbd d).
Proof. by split. Qed.

(** The steps the MCE decoder adds: reports, and faults without its input
    device. *)
Ltac mce_step :=
  lazymatch goal with
  | |- related _ _ _ _ None _ => by apply related_none
  | |- related _ _ _ _ (if negb ?b then _ else _) _ => destruct b; cbn [negb]
  | |- related _ _ _ _ (Some (call mce_input_sync _, _)) _ =>
    apply related_sync; [apply mce_slot|cbn; repeat case_match; cbn; congruence|auto using silent_inv]
  | |- related _ _ _ _ (Some (upd_raw _ (on _ _), _)) _ =>
    apply related_ret; [apply mce_slot|cbn; repeat case_match; cbn; congruence|done]
  | |- related _ _ _ _ (_ ← mce_deliver _ _; _) _ => apply related_deliver; [|intros l Hl]
  | |- _ => decoder_step mce_again_eq
  end.

#[export] Instance mce_decoder idev ret : Decoder (mce_kbd_handler idev ret).
Proof.
  split.
  - intros r dev ev Hoff. cbn in *. by rewrite Hoff.
  - intros q1 q2 r dev ev. cbn [decode mce_kbd_handler]. unfold ir_mce_kbd_decode.
    apply related_raw. forget_queue.
    destruct (mce_kbd r) as [st header body count wanted there] eqn:Er.
    assert (mce_idev (mce_kbd r) = there) as Hidev by (by rewrite Er).
    repeat (mce_step; unfold put_mce;
      cbn [mce_st set_mce_st set_mce_header mce_header set_mce_body mce_body set_mce_count
           mce_count set_mce_wanted_bits mce_wanted_bits mce_idev]).
Qed.

(** ** The thread *)

Lemma set_kfifo_same r : set_kfifo (kfifo r) r = r.
Proof. by destruct r. Qed.

(** One decoder on a device as it is. *)
Lemma decoder_step_ok h `{!Decoder h} r dev ev :
  key_inv dev -> mce_idev (mce_kbd r) = true ->
  exists r' d rc, decode h (on r dev) ev = Some (on r' d, rc) /\ key_inv d /\
    mce_idev (mce_kbd r') = true /\ kfifo r' = kfifo r /\
    enabled_protocols r' = enabled_protocols r.
Proof.
  intros Hi Hm. destruct (decoder_related (kfifo r) [] r dev ev) as (res & E & _ & Hen & Hok).
  rewrite set_kfifo_same in E. destruct (Hok Hi Hm) as (r' & d & rc & -> & Hd & Hm').
  exists (set_kfifo (kfifo r) r'), d, rc. split; [exact E|].
  split_and!; [done|done|done|]. by apply (Hen r' d rc).
Qed.

Lemma decode_all_ok hs r dev ev :
  Forall Decoder hs -> key_inv dev -> mce_idev (mce_kbd r) = true ->
  exists r' d, decode_all hs (on r dev) ev = Some (on r' d) /\ key_inv d /\
    mce_idev (mce_kbd r') = true /\ kfifo r' = kfifo r /\
    enabled_protocols r' = enabled_protocols r.
Proof.
  intros Hhs. revert r dev. induction Hhs as [|h hs Hh _ IH]; intros r dev Hi Hm; cbn [decode_all].
  { by exists r, dev. }
  destruct (decoder_step_ok h r dev ev Hi Hm) as (r1 & d1 & rc & -> & Hi1 & Hm1 & Hk1 & He1).
  cbn [mbind option_bind]. destruct (IH r1 d1 Hi1 Hm1) as (r2 & d2 & -> & Hi2 & Hm2 & Hk2 & He2).
  exists r2, d2. split_and!; [done..|congruence|congruence].
Qed.

Lemma thread_turns_ok hs n r dev :
  Forall Decoder hs -> key_inv dev -> mce_idev (mce_kbd r) = true ->
  exists r' d, thread_turns n hs (on r dev) = Some (on r' d) /\ key_inv d /\
    mce_idev (mce_kbd r') = true /\ kfifo r' = drop n (kfifo r) /\
    enabled_protocols r' = enabled_protocols r.
Proof.
  intros Hhs. revert r dev. induction n as [|n IH]; intros r dev Hi Hm; cbn [thread_turns].
  { by exists r, dev. }
  unfold ir_raw_event_thread. change (raw (on r dev)) with (Some r). cbn [mbind option_bind].
  destruct (kfifo r) as [|ev rest] eqn:Ek.
  - destruct (IH r dev Hi Hm) as (r' & d & E & Hi' & Hm' & Hk & He).
    exists r', d. split; [exact E|]. split_and!; [done..|by rewrite Hk, Ek, drop_nil|done].
  - destruct (decode_all_ok hs (set_kfifo rest r) dev ev Hhs Hi Hm) as (r1 & d1 & E & Hi1 & Hm1 & Hk1 & He1).
    change (set_raw (Some (set_kfifo rest r)) (on r dev)) with (on (set_kfifo rest r) dev).
    rewrite E. cbn [mbind option_bind].
    destruct (IH (set_prev_ev ev r1) d1 Hi1 Hm1) as (r2 & d2 & E2 & Hi2 & Hm2 & Hk2 & He2).
    exists r2, d2. split; [exact E2|]. cbn in Hk1, Hk2, He1, He2.
    split_and!; [done|done|by rewrite Hk2, Hk1|congruence].
Qed.

(** Claim C10: the decoder thread drains its queue.  On a device with a well-formed key
    map and the keys its input layer heard in order ([key_inv]), whose MCE keyboard
    decoder got its input device when it was registered, whatever samples are queued,
    whatever protocols are enabled and in whatever states the decoders are, the thread
    empties the queue in one turn per sample: no decoder runs on for ever or faults, and
    the input layer still hears one key at a time. *)
Theorem thread_drains hs r dev :
  Forall Decoder hs -> key_inv dev -> mce_idev (mce_kbd r) = true ->
  exists r' d, thread_turns (length (kfifo r)) hs (on r dev) = Some (on r' d) /\
    kfifo r' = [] /\ enabled_protocols r' = enabled_protocols r /\
    key_inv d /\ listen None (rd_calls d) = Some (snd <$> held d).
Proof.
  intros Hhs Hi Hm.
  destruct (thread_turns_ok hs (length (kfifo r)) r dev Hhs Hi Hm) as (r' & d & E & Hd & _ & Hk & He).
  exists r', d. rewrite drop_all in Hk. split_and!; try done. apply Hd.
Qed.

(** ** One protocol enabled *)

Definition off (r : ir_raw_event_ctrl) (h : ir_raw_handler) : Prop :=
  truthy (Z.land (enabled_protocols r) (protocols h)) = false.

Lemma decode_all_off hs r dev ev :
  Forall Decoder hs -> Forall (off r) hs -> decode_all hs (on r dev) ev = Some (on r dev).
Proof.
  induction 1 as [|h hs Hh _ IH]; intros Ho; [done|]. inversion Ho as [|? ? Hoff Hrest]; subst.
  cbn [decode_all]. rewrite decoder_off by done. cbn [mbind option_bind]. by apply IH.
Qed.

Lemma decode_all_app a b dev ev :
  decode_all (a ++ b) dev ev = (d ← decode_all a dev ev; decode_all b d ev).
Proof.
  revert dev. induction a as [|h a IH]; intros dev; [done|]. cbn [app decode_all].
  destruct (decode h dev ev) as [[d rc]|]; cbn [mbind option_bind]; [apply IH|done].
Qed.

(** With every other decoder off, the thread runs the one that is on. *)
Lemma thread_is_run h1 h h2 evs r dev :
  Forall Decoder (h1 ++ h :: h2) -> Forall (off r) (h1 ++ h2) -> kfifo r = [] ->
  thread_turns (length evs) (h1 ++ h :: h2) (on (set_kfifo evs r) dev) =
  run (decode h) (on r dev) evs.
Proof.
  intros Hhs. revert r dev. induction evs as [|ev evs IH]; intros r dev Hoff Hk.
  { cbn. by rewrite <- Hk, set_kfifo_same. }
  pose proof Hhs as (Hh1 & Hh2)%Forall_app. pose proof Hoff as (Ho1 & Ho2)%Forall_app.
  inversion Hh2 as [|? ? Hh Hh2']; subst.
  cbn [length thread_turns run]. unfold ir_raw_event_thread at 1.
  change (raw (on (set_kfifo (ev :: evs) r) dev)) with (Some (set_kfifo (ev :: evs) r)).
  cbn [mbind option_bind]. change (kfifo (set_kfifo (ev :: evs) r)) with (ev :: evs).
  cbv iota beta.
  change (on (set_kfifo evs (set_kfifo (ev :: evs) r)) (on (set_kfifo (ev :: evs) r) dev))
    with (on (set_kfifo evs r) dev).
  rewrite decode_all_app, decode_all_off by done. cbn [mbind option_bind decode_all].
  destruct (decoder_related evs [] r dev ev) as (res & E1 & E2 & Hen & _).
  rewrite <- Hk, set_kfifo_same in E2. rewrite E1, E2.
  destruct res as [[[r' d] rc]|]; cbn [fmap option_fmap option_map mbind option_bind refit]; [|done].
  specialize (Hen r' d rc eq_refl).
  rewrite decode_all_off; [|done|].
  2:{ eapply Forall_impl; [exact Ho2|]. intros x. unfold off. cbn. by rewrite Hen. }
  cbn [mbind option_bind]. rewrite Hk.
  change (upd_raw (set_prev_ev ev) (on (set_kfifo evs r') d)) with
    (on (set_kfifo evs (set_prev_ev ev (set_kfifo [] r'))) d).
  change (upd_raw (set_prev_ev ev) (on (set_kfifo [] r') d)) with
    (on (set_prev_ev ev (set_kfifo [] r')) d).
  apply IH; [|done]. eapply Forall_impl; [exact Hoff|]. intros x. unfold off. cbn. by rewrite Hen.
Qed.

(** The driver's side: store the samples one after the other. *)
Definition store_all (evs : list ir_raw_event) (dev : rc_dev) : rc_dev :=
  fold_left (fun d ev => fst (ir_raw_event_store d ev)) evs dev.

Lemma store_all_fits evs r dev :
  (forall n, (n < length evs)%nat -> kfifo_fits (kfifo r ++ take n evs) = true) ->
  store_all evs (on r dev) = on (set_kfifo (kfifo r ++ evs) r) dev.
Proof.
  revert r. induction evs as [|ev evs IH]; intros r Hf.
  { cbn. by rewrite app_nil_r, set_kfifo_same. }
  cbn [store_all fold_left]. unfold ir_raw_event_store at 2.
  change (raw (on r dev)) with (Some r). cbv iota beta.
  pose proof (Hf 0%nat ltac:(cbn; lia)) as H0. rewrite take_0, app_nil_r in H0. rewrite H0.
  change (set_raw (Some (set_kfifo (kfifo r ++ [ev]) r)) (on r dev)) with
    (on (set_kfifo (kfifo r ++ [ev]) r) dev). cbn [fst].
  fold (store_all evs (on (set_kfifo (kfifo r ++ [ev]) r) dev)). rewrite IH.
  - cbn [kfifo set_kfifo]. by rewrite <- app_assoc.
  - intros n Hn. cbn [kfifo set_kfifo]. rewrite <- app_assoc. apply (Hf (S n)). cbn. lia.
Qed.

Lemma run_keeps_queue h `{!Decoder h} evs r dev x :
  run (decode h) (on r dev) evs = Some x -> exists r' d, x = on r' d /\ kfifo r' = kfifo r.
Proof.
  revert r dev. induction evs as [|ev evs IH]; intros r dev; cbn [run].
  { intros [= <-]. by exists r, dev. }
  destruct (decoder_related (kfifo r) [] r dev ev) as (res & E & _ & _ & _).
  rewrite set_kfifo_same in E. rewrite E.
  destruct res as [[[r' d] rc]|]; cbn [fmap option_fmap option_map mbind option_bind refit]; [|done].
  intros Hrun. apply (IH (set_prev_ev ev (set_kfifo (kfifo r) r')) d) in Hrun. exact Hrun.
Qed.

(** Claim C11: the whole path of a frame, with one protocol enabled.  A frame that a decoder
    understands from where it is, stored sample by sample in an empty queue with room for
    it, makes the thread -- with any decoders before and after in its list, whose
    protocols are switched off -- press the frame's key once, and leave the decoder as
    after the frame and the queue empty. *)
Theorem frame_reaches_input h1 h h2 P Q evs code toggle r dev :
  Forall Decoder (h1 ++ h :: h2) -> Forall (off r) (h1 ++ h2) ->
  presses (decode h) P evs Q code toggle -> P r -> kfifo r = [] ->
  (forall n, (n < length evs)%nat -> kfifo_fits (take n evs) = true) ->
  exists r', Q r' /\
    thread_turns (length evs) (h1 ++ h :: h2) (store_all evs (on r dev)) =
      set_raw (Some r') <$> rc_keydown dev code toggle /\
    (rc_keydown dev code toggle <> None -> kfifo r' = []).
Proof.
  intros Hhs Hoff Hp Hr Hk Hf. destruct (Hp r dev Hr) as (r' & Hq & E). exists r'.
  split; [done|]. rewrite store_all_fits, Hk by (rewrite Hk; exact Hf). cbn [app].
  rewrite thread_is_run by done. split; [exact E|].
  assert (Decoder h) as Hh by (apply Forall_app in Hhs as [_ Hhs]; by inversion Hhs).
  destruct (rc_keydown dev code toggle) as [d|]; [intros _|done].
  destruct (run_keeps_queue h evs r dev _ E) as (r1 & d1 & E1 & Hk1).
  apply (f_equal raw) in E1. cbn in E1. congruence.
Qed.

End pipeline.

(** ** The seven decoders at work *)

Definition seven_decoders : list ir_raw_handler :=
  [@nec_handler sample_env; @rc5_handler sample_env; @rc6_handler sample_env;
   @jvc_handler sample_env; @sony_handler sample_env; @rc5_sz_handler sample_env;
   @mce_kbd_handler sample_env true 0].

Lemma seven_decoders_ok : Forall Decoder seven_decoders.
Proof. repeat (apply Forall_cons; split; [apply _|]). by apply Forall_nil. Qed.

Lemma sample_press :
  exists d, @rc_keydown sample_env sample_dev 0x11 0 = Some d /\ held d = Some (0x11, 0, 30).
Proof. eexists. split; vm_compute; reflexivity. Qed.

Lemma frame_reaches_input_witness :
  exists r' d, kfifo r' = [] /\ held d = Some (0x11, 0, 30) /\
    thread_turns 68 seven_decoders
      (@store_all sample_env (sample_nec ++ [exact_silence NEC_UNIT 10])
         (on (listening RC_TYPE_NEC) sample_dev)) = Some (on r' d).
Proof.
  destruct sample_press as (d & Ed & Hd).
  destruct (@frame_reaches_input sample_env [] (@nec_handler sample_env) (tail seven_decoders)
    nec_idle nec_idle (sample_nec ++ [exact_silence NEC_UNIT 10]) 0x11 0
    (listening RC_TYPE_NEC) sample_dev) as (r' & _ & E & Hk).
  - exact seven_decoders_ok.
  - repeat constructor.
  - apply (nec_roundtrip_aux 16 0 0xff 0x11 0xee); [by left|done..| |].
    + by apply exact_signal.
    + by apply exact_long_space.
  - done.
  - done.
  - intros n Hn. change (length (sample_nec ++ _)) with 68%nat in Hn. cbn [kfifo_fits sample_env].
    apply Nat.ltb_lt. rewrite length_take. lia.
  - rewrite Ed in E, Hk. exists r', d. split; [by apply Hk|]. split; [exact Hd|exact E].
Defined.

Lemma thread_drains_witness :
  exists r' d, thread_turns 3 seven_decoders
      (on (set_kfifo [exact_sample NEC_UNIT (true, 16); init_ir_raw_event;
                      exact_sample RC6_UNIT (true, 6)]
             (set_mce_kbd (set_mce_idev true (mce_kbd zeroed_ctrl)) (listening (2 ^ 64 - 1))))
         sample_dev) = Some (on r' d) /\ kfifo r' = [].
Proof.
  destruct (thread_drains seven_decoders (set_kfifo [exact_sample NEC_UNIT (true, 16);
      init_ir_raw_event; exact_sample RC6_UNIT (true, 6)]
      (set_mce_kbd (set_mce_idev true (mce_kbd zeroed_ctrl)) (listening (2 ^ 64 - 1)))) sample_dev
      seven_decoders_ok sample_dev_inv eq_refl) as (r' & d & E & Hk & _).
  exists r', d. split; [exact E|exact Hk].
Defined.
