(* ===== verification/IrFilter.v ===== *)
(** The run-length filter in front of the decoders, [ir_raw_event_store_with_filter]
    and [ir_raw_event_set_idle] of drivers/media/rc/ir-raw.c: drivers that
    sample at a fixed rate feed it pieces of pulses and spaces. *)

From stdpp Require Import strings.
From S2P Require Import Prelude RcTypes RcKeymap RcKeymapProofs RcKeydown IrRaw IrDecode.

Section filter.
Context `{RcEnv}.

(** The samples, fed to the filter one by one. *)
Definition feed_filter (evs : list ir_raw_event) (dev : rc_dev) : rc_dev :=
  fold_left (fun d ev => fst (ir_raw_event_store_with_filter d ev)) evs dev.

(** The sample being put together. *)
Definition pending_ev (r : ir_raw_event_ctrl) : list ir_raw_event :=
  if duration (this_ev r) =? 0 then [] else [this_ev r].

(** What came out of the filter so far, with what is still in it. *)
Definition filtered (r : ir_raw_event_ctrl) : list ir_raw_event := kfifo r ++ pending_ev r.

Definition time_of (evs : list ir_raw_event) : Z := foldr (fun ev t => duration ev + t) 0 evs.

Lemma time_of_app a b : time_of (a ++ b) = time_of a + time_of b.
Proof. induction a as [|ev a IH]; [done|]. cbn. fold (time_of a) (time_of (a ++ b)). lia. Qed.

(** ** The reference: neighbouring samples of one level become one *)

Definition join (a b : ir_raw_event) : ir_raw_event := set_duration (duration a + duration b) a.

Fixpoint runs (evs : list ir_raw_event) : list ir_raw_event :=
  match evs with
  | [] => []
  | a :: evs =>
    match runs evs with
    | [] => [a]
    | b :: rest => if Bool.eqb (pulse a) (pulse b) then join a b :: rest else a :: b :: rest
    end
  end.

Fixpoint alternates (evs : list ir_raw_event) : Prop :=
  match evs with
  | a :: (b :: _) as rest => pulse a <> pulse b /\ alternates rest
  | _ => True
  end.

Lemma runs_head a evs : exists d rest, runs (a :: evs) = set_duration d a :: rest.
Proof.
  cbn [runs]. destruct (runs evs) as [|b rest]; [by exists (duration a), []; destruct a|].
  destruct (Bool.eqb _ _).
  - by exists (duration a + duration b), rest.
  - exists (duration a), (b :: rest). by destruct a.
Qed.

Lemma join_assoc a b c : join (join a b) c = join a (join b c).
Proof. unfold join, set_duration. cbn. by rewrite Z.add_assoc. Qed.

(** Joining the first two samples of one level first makes no difference. *)
Lemma runs_join a b evs : pulse a = pulse b -> runs (join a b :: evs) = runs (a :: b :: evs).
Proof.
  intros E. cbn [runs]. destruct (runs evs) as [|c rest].
  - by rewrite E, eqb_reflx.
  - change (pulse (join a b)) with (pulse a). rewrite E.
    destruct (Bool.eqb (pulse b) (pulse c)) eqn:Ec.
    + change (pulse (join b c)) with (pulse b). rewrite eqb_reflx. by rewrite join_assoc.
    + by rewrite eqb_reflx.
Qed.

(** A change of level ends a run. *)
Lemma runs_split a b evs : pulse a <> pulse b -> runs (a :: b :: evs) = a :: runs (b :: evs).
Proof.
  intros E. change (runs (a :: b :: evs)) with (match runs (b :: evs) with [] => [a] | c :: rest =>
    if Bool.eqb (pulse a) (pulse c) then join a c :: rest else a :: c :: rest end).
  destruct (runs_head b evs) as (d & rest & ->). cbn [pulse set_duration].
  by destruct (Bool.eqb_spec (pulse a) (pulse b)).
Qed.

(** The result has no two neighbours of one level left. *)
Lemma runs_alternates evs : alternates (runs evs).
Proof.
  induction evs as [|a evs IH]; [done|]. cbn [runs]. destruct (runs evs) as [|b rest]; [done|].
  destruct (Bool.eqb_spec (pulse a) (pulse b)) as [E|E]; [|by split].
  destruct rest as [|c rest]; [done|]. cbn in *. by rewrite E.
Qed.

Lemma runs_time evs : time_of (runs evs) = time_of evs.
Proof.
  induction evs as [|a evs IH]; [done|]. cbn [runs time_of foldr]. fold (time_of evs). rewrite <- IH.
  destruct (runs evs) as [|b rest]; [done|]. destruct (Bool.eqb _ _); cbn; fold (time_of rest); lia.
Qed.

(** ** Steps of the filter *)

(** Room for what is pending and one sample more per sample fed. *)
Definition room (n : nat) (r : ir_raw_event_ctrl) : Prop :=
  forall q, (length q < length (filtered r) + n)%nat -> kfifo_fits q = true.

Lemma pending_some r : 0 < duration (this_ev r) -> pending_ev r = [this_ev r].
Proof. intros Hd. unfold pending_ev. by destruct (Z.eqb_spec (duration (this_ev r)) 0); [lia|]. Qed.

(** What a sample does to the sample being put together and the queue. *)
Definition absorb (ev : ir_raw_event) (r : ir_raw_event_ctrl) : ir_raw_event_ctrl :=
  if duration (this_ev r) =? 0 then set_this_ev ev r
  else if Bool.eqb (pulse ev) (pulse (this_ev r)) then set_this_ev (join (this_ev r) ev) r
  else set_this_ev ev (set_kfifo (kfifo r ++ [this_ev r]) r).

(** The end of a run: the sample goes out marked, and the filter idles. *)
Definition time_out (r : ir_raw_event_ctrl) : ir_raw_event_ctrl :=
  set_this_ev init_ir_raw_event
    (set_kfifo (kfifo r ++ [set_timeout true (this_ev r)])
       (set_this_ev (set_timeout true (this_ev r)) r)).

Definition timed_out (dev : rc_dev) (ev : ir_raw_event) (r : ir_raw_event_ctrl) : bool :=
  negb (pulse ev) && truthy (rd_timeout dev) && (duration (this_ev r) >=? rd_timeout dev).

Lemma set_idle_on r dev b :
  (b = true -> kfifo_fits (kfifo r) = true) ->
  exists d, ir_raw_event_set_idle (on r dev) b = on (if b then time_out r else r) d /\
    idle d = b /\ rd_timeout d = rd_timeout dev.
Proof.
  intros Hf. exists (set_idle b (if has_s_idle dev then call (s_idle_call b) dev else dev)).
  unfold ir_raw_event_set_idle, ir_raw_event_store, upd_raw.
  destruct b; cbn; [rewrite Hf by done; cbn|]; by destruct (has_s_idle dev).
Qed.

(** One sample through the filter. *)
Lemma filter_step r dev ev :
  0 < duration ev -> 0 <= duration (this_ev r) -> duration (this_ev r) + duration ev < 2 ^ 32 ->
  room 1 r ->
  let r1 := absorb ev r in
  exists d, ir_raw_event_store_with_filter (on r dev) ev =
      (if idle dev && negb (pulse ev) then (on r dev, 0)
       else (on (if timed_out dev ev r1 then time_out r1 else r1) d, 0)) /\
    idle d = timed_out dev ev r1 /\ rd_timeout d = rd_timeout dev.
Proof.
  intros Hev Hthis Hsum Hroom r1. unfold ir_raw_event_store_with_filter.
  change (raw (on r dev)) with (Some r). change (idle (on r dev)) with (idle dev). cbv iota beta.
  destruct (idle dev && negb (pulse ev)) eqn:Eskip.
  { exists (set_idle (timed_out dev ev r1) dev). done. }
  assert (exists d0, (if idle dev then ir_raw_event_set_idle (on r dev) false else on r dev) = on r d0 /\
    idle d0 = false /\ rd_timeout d0 = rd_timeout dev) as (d0 & -> & Hi0 & Ht0).
  { destruct (idle dev) eqn:Ei; [|by exists dev].
    destruct (set_idle_on r dev false) as (d0 & E & Hi & Ht); [done|]. exists d0. done. }
  change (raw (on r d0)) with (Some r). cbv iota beta.
  assert ((if duration (this_ev r) =? 0 then upd_raw (set_this_ev ev) (on r d0)
    else if Bool.eqb (pulse ev) (pulse (this_ev r)) then
      upd_raw (set_this_ev (set_duration (u32 (duration (this_ev r) + duration ev)) (this_ev r))) (on r d0)
    else let '(dev, _) := ir_raw_event_store (on r d0) (this_ev r) in upd_raw (set_this_ev ev) dev) =
    on r1 d0) as ->.
  { unfold r1, absorb, room, filtered, pending_ev in *.
    destruct (duration (this_ev r) =? 0) eqn:E0; [done|].
    rewrite length_app in Hroom. cbn [length] in Hroom.
    destruct (Bool.eqb _ _); [unfold join; by rewrite (wrap_small 32) by lia|].
    unfold ir_raw_event_store. change (raw (on r d0)) with (Some r). cbv iota beta.
    rewrite Hroom by lia. done. }
  change (raw (on r1 d0)) with (Some r1). cbv iota beta.
  change (rd_timeout (on r1 d0)) with (rd_timeout d0). rewrite Ht0. fold (timed_out dev ev r1).
  destruct (timed_out dev ev r1); [|by exists d0].
  destruct (set_idle_on r1 d0 true) as (d & E & Hi & Ht).
  - intros _. apply Hroom. unfold r1, absorb, filtered, pending_ev.
    rewrite length_app.
    destruct (duration (this_ev r) =? 0) eqn:E0; [cbn; lia|].
    destruct (Bool.eqb _ _); cbn; rewrite ?length_app; cbn; lia.
  - exists d. rewrite E. split; [done|]. split; [done|congruence].
Qed.

Lemma absorb_runs ev evs r :
  0 < duration ev -> 0 <= duration (this_ev r) ->
  kfifo (absorb ev r) ++ runs (pending_ev (absorb ev r) ++ evs) =
  kfifo r ++ runs (pending_ev r ++ ev :: evs).
Proof.
  intros Hev Hthis. unfold absorb, pending_ev.
  destruct (Z.eqb_spec (duration (this_ev r)) 0) as [E0|E0].
  - cbn [this_ev set_this_ev kfifo]. by destruct (Z.eqb_spec (duration ev) 0); [lia|].
  - destruct (Bool.eqb_spec (pulse ev) (pulse (this_ev r))) as [Ep|Ep];
      cbn [this_ev set_this_ev kfifo set_kfifo].
    + destruct (Z.eqb_spec (duration (join (this_ev r) ev)) 0) as [Ej|]; [cbn in Ej; lia|].
      cbn [app]. by rewrite runs_join.
    + destruct (Z.eqb_spec (duration ev) 0); [lia|]. cbn [app].
      rewrite runs_split by done. by rewrite <- app_assoc.
Qed.

Lemma absorb_time ev r :
  0 <= duration (this_ev r) -> 0 < duration ev ->
  0 <= duration (this_ev (absorb ev r)) <= duration (this_ev r) + duration ev.
Proof.
  intros Ht Hev. unfold absorb. destruct (_ =? 0); [cbn; lia|]. destruct (Bool.eqb _ _); cbn; lia.
Qed.

Lemma absorb_room ev r n : room (S n) r -> room n (absorb ev r).
Proof.
  unfold room, absorb, filtered, pending_ev. intros Hr q Hq. apply Hr. revert Hq.
  rewrite !length_app. destruct (duration (this_ev r) =? 0) eqn:E0.
  - cbn. destruct (duration ev =? 0); cbn; lia.
  - destruct (Bool.eqb _ _); cbn [this_ev set_this_ev kfifo set_kfifo];
      rewrite ?length_app; repeat case_match; cbn [length]; lia.
Qed.

Lemma runs_pending r : runs (pending_ev r) = pending_ev r.
Proof. unfold pending_ev. by destruct (_ =? 0). Qed.

(** Fact: without timeout the filter is the run-length reference: whatever
    positive pieces of pulses and spaces it is fed, what came out and what is
    still in it is the old queue followed by the runs of the pieces, so that
    no time is lost and neighbouring samples differ in level -- as long as the
    queue has room and no run outgrows the 32-bit duration. *)
Theorem filter_is_runs evs r dev :
  idle dev = false -> rd_timeout dev = 0 -> Forall (fun ev => 0 < duration ev) evs ->
  0 <= duration (this_ev r) -> duration (this_ev r) + time_of evs < 2 ^ 32 ->
  room (length evs) r ->
  exists r' dev', feed_filter evs (on r dev) = on r' dev' /\
    filtered r' = kfifo r ++ runs (pending_ev r ++ evs) /\
    alternates (runs (pending_ev r ++ evs)) /\
    time_of (runs (pending_ev r ++ evs)) = time_of (pending_ev r) + time_of evs.
Proof.
  intros Hi Ht Hpos Hthis Hsum Hroom.
  assert (exists r' dev', feed_filter evs (on r dev) = on r' dev' /\
    filtered r' = kfifo r ++ runs (pending_ev r ++ evs)) as (r' & dev' & E & Hf).
  { revert r dev Hi Ht Hthis Hsum Hroom.
    induction Hpos as [|ev evs Hev Hpos IH]; intros r dev Hi Ht Hthis Hsum Hroom.
    { exists r, dev. split; [done|]. by rewrite app_nil_r, runs_pending. }
    cbn [time_of foldr length] in Hsum, Hroom. fold (time_of evs) in Hsum.
    assert (0 <= time_of evs) by (clear -Hpos; induction Hpos; cbn; [lia|fold (time_of l); lia]).
    destruct (filter_step r dev ev Hev Hthis) as (d & E & Hid & Htd); [lia| |].
    { intros q Hq. apply Hroom. lia. }
    assert (timed_out dev ev (absorb ev r) = false) as Hto
      by (unfold timed_out; rewrite Ht; cbn; by rewrite andb_false_r).
    rewrite Hi, Hto in E. rewrite Hto in Hid. cbn [andb] in E.
    pose proof (absorb_time ev r Hthis Hev) as Hat.
    destruct (IH (absorb ev r) d Hid) as (r' & dev' & E' & Hf); [congruence|lia|lia|by apply absorb_room|].
    exists r', dev'. cbn [feed_filter fold_left]. rewrite E. cbn [fst]. split; [exact E'|].
    rewrite Hf. by apply absorb_runs. }
  exists r', dev'. split_and!; [done|done|apply runs_alternates|].
  by rewrite runs_time, time_of_app.
Qed.

(** ** With timeouts *)

Lemma alternates_snoc l x :
  alternates (l ++ [x]) <-> alternates l /\ forall y, last l = Some y -> pulse y <> pulse x.
Proof.
  induction l as [|a l IH]; [by cbn|]. destruct l as [|b l].
  - cbn. split; [intros [Hn _]; split; [done|by intros y [= <-]]|]. intros [_ Hy]. split; [by apply Hy|done].
  - change (alternates ((a :: b :: l) ++ [x])) with (pulse a <> pulse b /\ alternates ((b :: l) ++ [x])).
    change (alternates (a :: b :: l)) with (pulse a <> pulse b /\ alternates (b :: l)).
    change (last (a :: b :: l)) with (last (b :: l)). rewrite IH. tauto.
Qed.

(** Levels alternate, the filter idles only after a space, and nothing is
    pending only when it idles or at the start. *)
Definition filter_inv (dev : rc_dev) (r : ir_raw_event_ctrl) : Prop :=
  alternates (filtered r) /\
  (idle dev = true -> pending_ev r = [] /\ forall e, last (kfifo r) = Some e -> pulse e = false) /\
  (pending_ev r = [] -> idle dev = true \/ kfifo r = []).

Lemma absorb_alternates dev ev r :
  filter_inv dev r -> idle dev && negb (pulse ev) = false -> 0 < duration ev ->
  0 <= duration (this_ev r) ->
  alternates (filtered (absorb ev r)) /\ pending_ev (absorb ev r) = [this_ev (absorb ev r)] /\
  pulse (this_ev (absorb ev r)) = pulse ev.
Proof.
  intros (Ha & Hidle & Hnone) Hskip Hev Hthis. unfold absorb, filtered, pending_ev in *.
  destruct (Z.eqb_spec (duration (this_ev r)) 0) as [E0|E0].
  - cbn [this_ev set_this_ev kfifo]. destruct (Z.eqb_spec (duration ev) 0); [lia|].
    split; [|done]. apply alternates_snoc. rewrite app_nil_r in Ha. split; [done|].
    intros y Hy. destruct (Hnone eq_refl) as [Hi|Hk]; [|by rewrite Hk in Hy].
    rewrite Hi in Hskip. destruct (Hidle Hi) as [_ Hl]. rewrite (Hl y Hy). by destruct (pulse ev).
  - apply alternates_snoc in Ha as [Ha Hl].
    destruct (Bool.eqb_spec (pulse ev) (pulse (this_ev r))) as [Ep|Ep];
      cbn [this_ev set_this_ev kfifo set_kfifo].
    + destruct (Z.eqb_spec (duration (join (this_ev r) ev)) 0) as [Ej|]; [cbn in Ej; lia|].
      split; [|done]. apply alternates_snoc. split; [done|exact Hl].
    + destruct (Z.eqb_spec (duration ev) 0); [lia|]. split; [|done].
      apply alternates_snoc. split; [by apply alternates_snoc|].
      intros y Hy. rewrite last_snoc in Hy. injection Hy as <-. congruence.
Qed.

Lemma time_out_inv d r :
  alternates (filtered r) -> pending_ev r = [this_ev r] -> pulse (this_ev r) = false ->
  filter_inv d (time_out r) \/ idle d = false.
Proof.
  intros Ha Hp Hl. destruct (idle d) eqn:Hi; [left|by right]. unfold filter_inv, filtered in *.
  rewrite Hp in Ha. apply alternates_snoc in Ha as [Ha Hy].
  change (pending_ev (time_out r)) with (@nil ir_raw_event). rewrite app_nil_r.
  change (kfifo (time_out r)) with (kfifo r ++ [set_timeout true (this_ev r)]).
  split; [by apply alternates_snoc|]. split; [|by left].
  intros _. split; [done|]. intros e He. rewrite last_snoc in He. by injection He as <-.
Qed.

Lemma filter_step_inv r dev ev :
  0 < duration ev -> 0 <= duration (this_ev r) -> duration (this_ev r) + duration ev < 2 ^ 32 ->
  room 1 r -> filter_inv dev r ->
  exists r' d, ir_raw_event_store_with_filter (on r dev) ev = (on r' d, 0) /\ filter_inv d r' /\
    0 <= duration (this_ev r') <= duration (this_ev r) + duration ev /\
    (forall n, room (S n) r -> room n r').
Proof.
  intros Hev Hthis Hsum Hroom Hinv.
  destruct (filter_step r dev ev Hev Hthis Hsum Hroom) as (d & E & Hi & _). rewrite E.
  destruct (idle dev && negb (pulse ev)) eqn:Eskip.
  { exists r, dev. split_and!; [done..|lia|lia|]. intros n Hn q Hq. apply Hn. lia. }
  destruct (absorb_alternates dev ev r Hinv Eskip Hev Hthis) as (Ha & Hp & Hl).
  pose proof (absorb_time ev r Hthis Hev). pose proof (absorb_room ev r) as Har.
  set (r1 := absorb ev r) in *. clearbody r1.
  destruct (timed_out dev ev r1) eqn:Eto.
  - exists (time_out r1), d. split; [done|].
    destruct (time_out_inv d r1 Ha Hp) as [Hinv'|?]; [|split; [done|]|congruence].
    + rewrite Hl. unfold timed_out in Eto. by destruct (pulse ev).
    + split; [cbn; lia|]. intros n Hn q Hq. apply (Har n Hn). revert Hq. unfold filtered.
      change (pending_ev (time_out r1)) with (@nil ir_raw_event).
      change (kfifo (time_out r1)) with (kfifo r1 ++ [set_timeout true (this_ev r1)]).
      rewrite Hp, !length_app. cbn. lia.
  - exists r1, d. split; [done|]. split; [|split; [lia|exact Har]].
    split; [done|]. rewrite Hi, Hp. done.
Qed.

(** Fact: with any timeout and from any consistent state, what the filter
    has put out and still holds alternates between pulse and space, whatever
    positive pieces it is fed: a run that reaches the timeout goes out, the
    device idles, and the spaces that follow are dropped until a pulse comes,
    so that the decoders never see two samples of one level in a row. *)
Theorem filter_alternates evs r dev :
  Forall (fun ev => 0 < duration ev) evs -> 0 <= duration (this_ev r) ->
  duration (this_ev r) + time_of evs < 2 ^ 32 -> room (length evs) r -> filter_inv dev r ->
  exists r' dev', feed_filter evs (on r dev) = on r' dev' /\ alternates (filtered r') /\
    filter_inv dev' r'.
Proof.
  intros Hpos. revert r dev. induction Hpos as [|ev evs Hev Hpos IH]; intros r dev Hthis Hsum Hroom Hinv.
  { exists r, dev. split; [done|]. split; [apply Hinv|done]. }
  cbn [time_of foldr length] in Hsum, Hroom. fold (time_of evs) in Hsum.
  assert (0 <= time_of evs) by (clear -Hpos; induction Hpos; cbn; [lia|fold (time_of l); lia]).
  destruct (filter_step_inv r dev ev Hev Hthis) as (r1 & d & E & Hinv1 & Ht1 & Hroom1); [lia| |done|].
  { intros q Hq. apply Hroom. lia. }
  destruct (IH r1 d) as (r' & dev' & E' & H'); [lia|lia|by apply Hroom1|done|].
  exists r', dev'. cbn [feed_filter fold_left]. rewrite E. cbn [fst]. split; [exact E'|exact H'].
Qed.

End filter.

(** ** Pieces at work *)

Definition sample_pieces : list ir_raw_event :=
  (fun '(p, d) => mk_event d p false false false) <$>
  [(true, 50); (true, 50); (false, 30); (true, 50); (false, 60); (false, 60); (false, 60); (true, 50)].

Lemma sample_room : @room sample_env 8 zeroed_ctrl.
Proof. intros q Hq. apply Nat.ltb_lt. cbn in Hq. lia. Qed.

Lemma sample_positive : Forall (fun ev => 0 < duration ev) sample_pieces.
Proof. repeat constructor. Qed.

Lemma filter_is_runs_witness :
  exists r' dev', @feed_filter sample_env sample_pieces (on zeroed_ctrl fresh_dev) = on r' dev' /\
    filtered r' = (fun '(p, d) => mk_event d p false false false) <$>
      [(true, 100); (false, 30); (true, 50); (false, 180); (true, 50)].
Proof.
  destruct (@filter_is_runs sample_env sample_pieces zeroed_ctrl fresh_dev) as (r' & dev' & E & Hf & _);
    [done..|apply sample_positive|done|done|apply sample_room|].
  exists r', dev'. split; [exact E|exact Hf].
Defined.

Lemma filter_alternates_witness :
  exists r' dev', @feed_filter sample_env sample_pieces
      (on zeroed_ctrl (set_rd_timeout 100 (set_idle true fresh_dev))) = on r' dev' /\
    alternates (filtered r').
Proof.
  destruct (@filter_alternates sample_env sample_pieces zeroed_ctrl
    (set_rd_timeout 100 (set_idle true fresh_dev))) as (r' & dev' & E & Ha & _);
    [apply sample_positive|done|done|apply sample_room| |].
  - split; [done|]. split; [|by left]. intros _. split; [done|]. by intros e He.
  - exists r', dev'. split; [exact E|exact Ha].
Defined.
