(* ===== verification/Vb2Types.v ===== *)
(** The data of videobuf2: include/media/videobuf2-core.h, and the structures of
    the file I/O emulator in drivers/media/video/videobuf2-core.c.

    The buffers of a queue live on a heap of their own, [q_heap], under the
    addresses that [q->bufs] and the two lists hold: an access to a buffer that
    was freed, or was never there, is a fault.  The driver ([struct vb2_ops])
    and the allocator ([struct vb2_mem_ops]) are parameters ([Vb2Env]); what they
    answer may depend on all the calls made so far, which are recorded in
    [q_log], oldest first. *)

From stdpp Require Export gmap.
From S2P Require Import Prelude StateM.

#[global] Open Scope Z_scope.

(** ** Constants of <linux/videodev2.h> and <linux/mm.h> *)

Definition VIDEO_MAX_FRAME : Z := 32.
Definition VIDEO_MAX_PLANES : Z := 8.
Definition V4L2_MEMORY_MMAP : Z := 1.
Definition V4L2_MEMORY_USERPTR : Z := 2.
Definition V4L2_BUF_FLAG_MAPPED : Z := 0x0001.
Definition V4L2_BUF_FLAG_QUEUED : Z := 0x0002.
Definition V4L2_BUF_FLAG_DONE : Z := 0x0004.
Definition V4L2_BUF_FLAG_ERROR : Z := 0x0040.
Definition V4L2_BUF_TYPE_VIDEO_CAPTURE : Z := 1.
Definition V4L2_BUF_TYPE_VIDEO_OUTPUT : Z := 2.
Definition V4L2_TYPE_IS_MULTIPLANAR (type : Z) : bool := (type =? 9) || (type =? 10).
Definition V4L2_TYPE_IS_OUTPUT (type : Z) : bool :=
  (type =? 2) || (type =? 10) || (type =? 3) || (type =? 8) || (type =? 5) || (type =? 7).
Definition PAGE_SHIFT : Z := 12.
Definition PAGE_ALIGN (x : Z) : Z := u64 (Z.land (x + 0xfff) (Z.lnot 0xfff)).
Definition VM_READ : Z := 1.
Definition VM_WRITE : Z := 2.
Definition VM_SHARED : Z := 8.

Definition V4L2_BUFFER_STATE_FLAGS : Z :=
  Z.lor (Z.lor V4L2_BUF_FLAG_MAPPED V4L2_BUF_FLAG_QUEUED)
        (Z.lor V4L2_BUF_FLAG_DONE V4L2_BUF_FLAG_ERROR).

(** [enum vb2_io_modes], [enum vb2_fileio_flags] *)
Definition VB2_MMAP : Z := Z.shiftl 1 0.
Definition VB2_USERPTR : Z := Z.shiftl 1 1.
Definition VB2_READ : Z := Z.shiftl 1 2.
Definition VB2_WRITE : Z := Z.shiftl 1 3.
Definition VB2_FILEIO_READ_ONCE : Z := Z.shiftl 1 0.
Definition VB2_FILEIO_WRITE_IMMEDIATELY : Z := Z.shiftl 1 1.

Inductive vb2_buffer_state :=
  | VB2_BUF_STATE_DEQUEUED
  | VB2_BUF_STATE_QUEUED
  | VB2_BUF_STATE_ACTIVE
  | VB2_BUF_STATE_DONE
  | VB2_BUF_STATE_ERROR.

#[export] Instance vb2_buffer_state_eq_dec : EqDecision vb2_buffer_state.
Proof. solve_decision. Defined.

(** ** Structures *)

(** struct v4l2_plane *)
Record v4l2_plane := mk_plane {
  pl_bytesused : Z;   (* u32 *)
  pl_length : Z;   (* u32 *)
  pl_m : Z;   (* union: mem_offset (u32) or userptr (unsigned long) *)
  pl_data_offset : Z;   (* u32 *)
}.

Definition set_pl_bytesused (v : Z) (r : v4l2_plane) : v4l2_plane :=
  mk_plane v (pl_length r) (pl_m r) (pl_data_offset r).
Definition set_pl_length (v : Z) (r : v4l2_plane) : v4l2_plane :=
  mk_plane (pl_bytesused r) v (pl_m r) (pl_data_offset r).
Definition set_pl_m (v : Z) (r : v4l2_plane) : v4l2_plane :=
  mk_plane (pl_bytesused r) (pl_length r) v (pl_data_offset r).
Definition set_pl_data_offset (v : Z) (r : v4l2_plane) : v4l2_plane :=
  mk_plane (pl_bytesused r) (pl_length r) (pl_m r) v.

(** struct v4l2_buffer *)
Record v4l2_buffer := mk_v4l2_buffer {
  b_index : Z;   (* u32 *)
  b_type : Z;   (* enum v4l2_buf_type *)
  b_bytesused : Z;   (* u32 *)
  b_flags : Z;   (* u32 *)
  b_field : Z;   (* enum v4l2_field *)
  b_timestamp : Z;   (* struct timeval *)
  b_timecode : Z;   (* struct v4l2_timecode *)
  b_sequence : Z;   (* u32 *)
  b_memory : Z;   (* enum v4l2_memory *)
  b_m : Z;   (* m.offset or m.userptr *)
  b_planes : option (list v4l2_plane);   (* m.planes; NULL is [None] *)
  b_length : Z;   (* u32 *)
  b_input : Z;   (* u32 *)
  b_reserved : Z;   (* u32 *)
}.

Definition set_b_index (v : Z) (r : v4l2_buffer) : v4l2_buffer :=
  mk_v4l2_buffer v (b_type r) (b_bytesused r) (b_flags r) (b_field r)
    (b_timestamp r) (b_timecode r) (b_sequence r) (b_memory r) (b_m r) (b_planes r)
    (b_length r) (b_input r) (b_reserved r).
Definition set_b_type (v : Z) (r : v4l2_buffer) : v4l2_buffer :=
  mk_v4l2_buffer (b_index r) v (b_bytesused r) (b_flags r) (b_field r)
    (b_timestamp r) (b_timecode r) (b_sequence r) (b_memory r) (b_m r) (b_planes r)
    (b_length r) (b_input r) (b_reserved r).
Definition set_b_bytesused (v : Z) (r : v4l2_buffer) : v4l2_buffer :=
  mk_v4l2_buffer (b_index r) (b_type r) v (b_flags r) (b_field r) (b_timestamp r)
    (b_timecode r) (b_sequence r) (b_memory r) (b_m r) (b_planes r) (b_length r)
    (b_input r) (b_reserved r).
Definition set_b_flags (v : Z) (r : v4l2_buffer) : v4l2_buffer :=
  mk_v4l2_buffer (b_index r) (b_type r) (b_bytesused r) v (b_field r)
    (b_timestamp r) (b_timecode r) (b_sequence r) (b_memory r) (b_m r) (b_planes r)
    (b_length r) (b_input r) (b_reserved r).
Definition set_b_field (v : Z) (r : v4l2_buffer) : v4l2_buffer :=
  mk_v4l2_buffer (b_index r) (b_type r) (b_bytesused r) (b_flags r) v
    (b_timestamp r) (b_timecode r) (b_sequence r) (b_memory r) (b_m r) (b_planes r)
    (b_length r) (b_input r) (b_reserved r).
Definition set_b_timestamp (v : Z) (r : v4l2_buffer) : v4l2_buffer :=
  mk_v4l2_buffer (b_index r) (b_type r) (b_bytesused r) (b_flags r) (b_field r) v
    (b_timecode r) (b_sequence r) (b_memory r) (b_m r) (b_planes r) (b_length r)
    (b_input r) (b_reserved r).
Definition set_b_timecode (v : Z) (r : v4l2_buffer) : v4l2_buffer :=
  mk_v4l2_buffer (b_index r) (b_type r) (b_bytesused r) (b_flags r) (b_field r)
    (b_timestamp r) v (b_sequence r) (b_memory r) (b_m r) (b_planes r) (b_length r)
    (b_input r) (b_reserved r).
Definition set_b_sequence (v : Z) (r : v4l2_buffer) : v4l2_buffer :=
  mk_v4l2_buffer (b_index r) (b_type r) (b_bytesused r) (b_flags r) (b_field r)
    (b_timestamp r) (b_timecode r) v (b_memory r) (b_m r) (b_planes r) (b_length r)
    (b_input r) (b_reserved r).
Definition set_b_memory (v : Z) (r : v4l2_buffer) : v4l2_buffer :=
  mk_v4l2_buffer (b_index r) (b_type r) (b_bytesused r) (b_flags r) (b_field r)
    (b_timestamp r) (b_timecode r) (b_sequence r) v (b_m r) (b_planes r)
    (b_length r) (b_input r) (b_reserved r).
Definition set_b_m (v : Z) (r : v4l2_buffer) : v4l2_buffer :=
  mk_v4l2_buffer (b_index r) (b_type r) (b_bytesused r) (b_flags r) (b_field r)
    (b_timestamp r) (b_timecode r) (b_sequence r) (b_memory r) v (b_planes r)
    (b_length r) (b_input r) (b_reserved r).
Definition set_b_planes (v : option (list v4l2_plane)) (r : v4l2_buffer) : v4l2_buffer :=
  mk_v4l2_buffer (b_index r) (b_type r) (b_bytesused r) (b_flags r) (b_field r)
    (b_timestamp r) (b_timecode r) (b_sequence r) (b_memory r) (b_m r) v
    (b_length r) (b_input r) (b_reserved r).
Definition set_b_length (v : Z) (r : v4l2_buffer) : v4l2_buffer :=
  mk_v4l2_buffer (b_index r) (b_type r) (b_bytesused r) (b_flags r) (b_field r)
    (b_timestamp r) (b_timecode r) (b_sequence r) (b_memory r) (b_m r)
    (b_planes r) v (b_input r) (b_reserved r).
Definition set_b_input (v : Z) (r : v4l2_buffer) : v4l2_buffer :=
  mk_v4l2_buffer (b_index r) (b_type r) (b_bytesused r) (b_flags r) (b_field r)
    (b_timestamp r) (b_timecode r) (b_sequence r) (b_memory r) (b_m r) (b_planes r)
    (b_length r) v (b_reserved r).
Definition set_b_reserved (v : Z) (r : v4l2_buffer) : v4l2_buffer :=
  mk_v4l2_buffer (b_index r) (b_type r) (b_bytesused r) (b_flags r) (b_field r)
    (b_timestamp r) (b_timecode r) (b_sequence r) (b_memory r) (b_m r) (b_planes r)
    (b_length r) (b_input r) v.

(** struct v4l2_requestbuffers *)
Record v4l2_requestbuffers := mk_req {
  req_count : Z;   (* u32 *)
  req_type : Z;
  req_memory : Z;
}.

Definition set_req_count (v : Z) (r : v4l2_requestbuffers) : v4l2_requestbuffers :=
  mk_req v (req_type r) (req_memory r).
Definition set_req_type (v : Z) (r : v4l2_requestbuffers) : v4l2_requestbuffers :=
  mk_req (req_count r) v (req_memory r).
Definition set_req_memory (v : Z) (r : v4l2_requestbuffers) : v4l2_requestbuffers :=
  mk_req (req_count r) (req_type r) v.

Record vb2_plane := mk_vb2_plane {
  mem_priv : option Z;   (* allocator private; NULL is [None] *)
  mapped : bool;   (* 1-bit field *)
}.

Definition set_mem_priv (v : option Z) (r : vb2_plane) : vb2_plane :=
  mk_vb2_plane v (mapped r).
Definition set_mapped (v : bool) (r : vb2_plane) : vb2_plane :=
  mk_vb2_plane (mem_priv r) v.

Record vb2_buffer := mk_vb2_buffer {
  v4l2_buf : v4l2_buffer;
  v4l2_planes : list v4l2_plane;   (* VIDEO_MAX_PLANES of them *)
  num_planes : Z;   (* unsigned *)
  vb_state : vb2_buffer_state;
  planes : list vb2_plane;   (* VIDEO_MAX_PLANES of them *)
  num_planes_mapped : Z;   (* unsigned *)
}.

Definition set_v4l2_buf (v : v4l2_buffer) (r : vb2_buffer) : vb2_buffer :=
  mk_vb2_buffer v (v4l2_planes r) (num_planes r) (vb_state r) (planes r)
    (num_planes_mapped r).
Definition set_v4l2_planes (v : list v4l2_plane) (r : vb2_buffer) : vb2_buffer :=
  mk_vb2_buffer (v4l2_buf r) v (num_planes r) (vb_state r) (planes r)
    (num_planes_mapped r).
Definition set_num_planes (v : Z) (r : vb2_buffer) : vb2_buffer :=
  mk_vb2_buffer (v4l2_buf r) (v4l2_planes r) v (vb_state r) (planes r)
    (num_planes_mapped r).
Definition set_vb_state (v : vb2_buffer_state) (r : vb2_buffer) : vb2_buffer :=
  mk_vb2_buffer (v4l2_buf r) (v4l2_planes r) (num_planes r) v (planes r)
    (num_planes_mapped r).
Definition set_planes (v : list vb2_plane) (r : vb2_buffer) : vb2_buffer :=
  mk_vb2_buffer (v4l2_buf r) (v4l2_planes r) (num_planes r) (vb_state r) v
    (num_planes_mapped r).
Definition set_num_planes_mapped (v : Z) (r : vb2_buffer) : vb2_buffer :=
  mk_vb2_buffer (v4l2_buf r) (v4l2_planes r) (num_planes r) (vb_state r)
    (planes r) v.

Record vb2_fileio_buf := mk_fileio_buf {
  fb_vaddr : option Z;
  fb_size : Z;   (* unsigned *)
  fb_pos : Z;   (* unsigned *)
  fb_queued : bool;   (* 1-bit field *)
}.

Definition set_fb_vaddr (v : option Z) (r : vb2_fileio_buf) : vb2_fileio_buf :=
  mk_fileio_buf v (fb_size r) (fb_pos r) (fb_queued r).
Definition set_fb_size (v : Z) (r : vb2_fileio_buf) : vb2_fileio_buf :=
  mk_fileio_buf (fb_vaddr r) v (fb_pos r) (fb_queued r).
Definition set_fb_pos (v : Z) (r : vb2_fileio_buf) : vb2_fileio_buf :=
  mk_fileio_buf (fb_vaddr r) (fb_size r) v (fb_queued r).
Definition set_fb_queued (v : bool) (r : vb2_fileio_buf) : vb2_fileio_buf :=
  mk_fileio_buf (fb_vaddr r) (fb_size r) (fb_pos r) v.

Record vb2_fileio_data := mk_fileio {
  fio_req : v4l2_requestbuffers;
  fio_b : v4l2_buffer;
  fio_bufs : list vb2_fileio_buf;   (* VIDEO_MAX_FRAME of them *)
  fio_index : Z;   (* unsigned *)
  fio_q_count : Z;   (* unsigned *)
  fio_dq_count : Z;   (* unsigned *)
  fio_flags : Z;   (* unsigned *)
}.

Definition set_fio_req (v : v4l2_requestbuffers) (r : vb2_fileio_data) : vb2_fileio_data :=
  mk_fileio v (fio_b r) (fio_bufs r) (fio_index r) (fio_q_count r) (fio_dq_count r)
    (fio_flags r).
Definition set_fio_b (v : v4l2_buffer) (r : vb2_fileio_data) : vb2_fileio_data :=
  mk_fileio (fio_req r) v (fio_bufs r) (fio_index r) (fio_q_count r)
    (fio_dq_count r) (fio_flags r).
Definition set_fio_bufs (v : list vb2_fileio_buf) (r : vb2_fileio_data) : vb2_fileio_data :=
  mk_fileio (fio_req r) (fio_b r) v (fio_index r) (fio_q_count r) (fio_dq_count r)
    (fio_flags r).
Definition set_fio_index (v : Z) (r : vb2_fileio_data) : vb2_fileio_data :=
  mk_fileio (fio_req r) (fio_b r) (fio_bufs r) v (fio_q_count r) (fio_dq_count r)
    (fio_flags r).
Definition set_fio_q_count (v : Z) (r : vb2_fileio_data) : vb2_fileio_data :=
  mk_fileio (fio_req r) (fio_b r) (fio_bufs r) (fio_index r) v (fio_dq_count r)
    (fio_flags r).
Definition set_fio_dq_count (v : Z) (r : vb2_fileio_data) : vb2_fileio_data :=
  mk_fileio (fio_req r) (fio_b r) (fio_bufs r) (fio_index r) (fio_q_count r) v
    (fio_flags r).
Definition set_fio_flags (v : Z) (r : vb2_fileio_data) : vb2_fileio_data :=
  mk_fileio (fio_req r) (fio_b r) (fio_bufs r) (fio_index r) (fio_q_count r)
    (fio_dq_count r) v.

(** Calls that leave this code. *)
Inductive vb2_call :=
  | c_queue_setup (num_buffers : Z)
  | c_wait_prepare
  | c_wait_finish
  | c_buf_init (vb : nat)
  | c_buf_prepare (vb : nat)
  | c_buf_finish (vb : nat)
  | c_buf_cleanup (vb : nat)
  | c_start_streaming
  | c_stop_streaming
  | c_buf_queue (vb : nat)
  | c_alloc (ctx size : Z)
  | c_put (buf_priv : option Z)
  | c_get_userptr (ctx vaddr size : Z) (write : bool)
  | c_put_userptr (buf_priv : option Z)
  | c_vaddr (buf_priv : option Z)
  | c_cookie (buf_priv : option Z)
  | c_num_users (buf_priv : option Z)
  | c_mmap (buf_priv : option Z)
  | c_wake_up
  | c_copy_to_user (from count : Z)
  | c_copy_from_user (to count : Z).

(** The queue, with the heap of its buffers and the calls made. *)
Record vb2_queue := mk_queue {
  q_type : Z;
  io_modes : Z;   (* unsigned *)
  io_flags : Z;   (* unsigned *)
  q_memory : Z;   (* 0 when nothing is set up *)
  q_bufs : list (option nat);   (* VIDEO_MAX_FRAME addresses *)
  num_buffers : Z;   (* unsigned *)
  queued_list : list nat;
  queued_count : Z;   (* atomic_t *)
  done_list : list nat;
  alloc_ctx : list Z;   (* VIDEO_MAX_PLANES contexts *)
  streaming : bool;   (* 1-bit field *)
  fileio : option vb2_fileio_data;
  q_heap : gmap nat vb2_buffer;   (* the buffer structures *)
  q_next : nat;   (* the next address [kzalloc] returns *)
  q_log : list vb2_call;
}.

Definition set_q_type (v : Z) (r : vb2_queue) : vb2_queue :=
  mk_queue v (io_modes r) (io_flags r) (q_memory r) (q_bufs r) (num_buffers r)
    (queued_list r) (queued_count r) (done_list r) (alloc_ctx r) (streaming r)
    (fileio r) (q_heap r) (q_next r) (q_log r).
Definition set_io_modes (v : Z) (r : vb2_queue) : vb2_queue :=
  mk_queue (q_type r) v (io_flags r) (q_memory r) (q_bufs r) (num_buffers r)
    (queued_list r) (queued_count r) (done_list r) (alloc_ctx r) (streaming r)
    (fileio r) (q_heap r) (q_next r) (q_log r).
Definition set_io_flags (v : Z) (r : vb2_queue) : vb2_queue :=
  mk_queue (q_type r) (io_modes r) v (q_memory r) (q_bufs r) (num_buffers r)
    (queued_list r) (queued_count r) (done_list r) (alloc_ctx r) (streaming r)
    (fileio r) (q_heap r) (q_next r) (q_log r).
Definition set_q_memory (v : Z) (r : vb2_queue) : vb2_queue :=
  mk_queue (q_type r) (io_modes r) (io_flags r) v (q_bufs r) (num_buffers r)
    (queued_list r) (queued_count r) (done_list r) (alloc_ctx r) (streaming r)
    (fileio r) (q_heap r) (q_next r) (q_log r).
Definition set_q_bufs (v : list (option nat)) (r : vb2_queue) : vb2_queue :=
  mk_queue (q_type r) (io_modes r) (io_flags r) (q_memory r) v (num_buffers r)
    (queued_list r) (queued_count r) (done_list r) (alloc_ctx r) (streaming r)
    (fileio r) (q_heap r) (q_next r) (q_log r).
Definition set_num_buffers (v : Z) (r : vb2_queue) : vb2_queue :=
  mk_queue (q_type r) (io_modes r) (io_flags r) (q_memory r) (q_bufs r) v
    (queued_list r) (queued_count r) (done_list r) (alloc_ctx r) (streaming r)
    (fileio r) (q_heap r) (q_next r) (q_log r).
Definition set_queued_list (v : list nat) (r : vb2_queue) : vb2_queue :=
  mk_queue (q_type r) (io_modes r) (io_flags r) (q_memory r) (q_bufs r)
    (num_buffers r) v (queued_count r) (done_list r) (alloc_ctx r) (streaming r)
    (fileio r) (q_heap r) (q_next r) (q_log r).
Definition set_queued_count (v : Z) (r : vb2_queue) : vb2_queue :=
  mk_queue (q_type r) (io_modes r) (io_flags r) (q_memory r) (q_bufs r)
    (num_buffers r) (queued_list r) v (done_list r) (alloc_ctx r) (streaming r)
    (fileio r) (q_heap r) (q_next r) (q_log r).
Definition set_done_list (v : list nat) (r : vb2_queue) : vb2_queue :=
  mk_queue (q_type r) (io_modes r) (io_flags r) (q_memory r) (q_bufs r)
    (num_buffers r) (queued_list r) (queued_count r) v (alloc_ctx r) (streaming r)
    (fileio r) (q_heap r) (q_next r) (q_log r).
Definition set_alloc_ctx (v : list Z) (r : vb2_queue) : vb2_queue :=
  mk_queue (q_type r) (io_modes r) (io_flags r) (q_memory r) (q_bufs r)
    (num_buffers r) (queued_list r) (queued_count r) (done_list r) v (streaming r)
    (fileio r) (q_heap r) (q_next r) (q_log r).
Definition set_streaming (v : bool) (r : vb2_queue) : vb2_queue :=
  mk_queue (q_type r) (io_modes r) (io_flags r) (q_memory r) (q_bufs r)
    (num_buffers r) (queued_list r) (queued_count r) (done_list r) (alloc_ctx r) v
    (fileio r) (q_heap r) (q_next r) (q_log r).
Definition set_fileio (v : option vb2_fileio_data) (r : vb2_queue) : vb2_queue :=
  mk_queue (q_type r) (io_modes r) (io_flags r) (q_memory r) (q_bufs r)
    (num_buffers r) (queued_list r) (queued_count r) (done_list r) (alloc_ctx r)
    (streaming r) v (q_heap r) (q_next r) (q_log r).
Definition set_q_heap (v : gmap nat vb2_buffer) (r : vb2_queue) : vb2_queue :=
  mk_queue (q_type r) (io_modes r) (io_flags r) (q_memory r) (q_bufs r)
    (num_buffers r) (queued_list r) (queued_count r) (done_list r) (alloc_ctx r)
    (streaming r) (fileio r) v (q_next r) (q_log r).
Definition set_q_next (v : nat) (r : vb2_queue) : vb2_queue :=
  mk_queue (q_type r) (io_modes r) (io_flags r) (q_memory r) (q_bufs r)
    (num_buffers r) (queued_list r) (queued_count r) (done_list r) (alloc_ctx r)
    (streaming r) (fileio r) (q_heap r) v (q_log r).
Definition set_q_log (v : list vb2_call) (r : vb2_queue) : vb2_queue :=
  mk_queue (q_type r) (io_modes r) (io_flags r) (q_memory r) (q_bufs r)
    (num_buffers r) (queued_list r) (queued_count r) (done_list r) (alloc_ctx r)
    (streaming r) (fileio r) (q_heap r) (q_next r) v.

(** The driver and the allocator: an optional callback that is missing is
    [None].  A callback sees the calls made up to its own.  [gives_back] are the
    calls of [vb2_buffer_done] the driver makes inside [buf_queue],
    [start_streaming] or [stop_streaming], for the calls so far and the buffers
    it holds at that moment. *)
Class Vb2Env := {
  queue_setup : list vb2_call -> Z -> Z * (Z * Z * list Z * list Z);
  buf_init : option (list vb2_call -> nat -> Z);
  buf_prepare : option (list vb2_call -> nat -> Z);
  buf_finish : option (list vb2_call -> nat -> Z);
  has_buf_cleanup : bool;
  start_streaming : option (list vb2_call -> Z);
  has_stop_streaming : bool;
  gives_back : list vb2_call -> list nat -> list (nat * vb2_buffer_state);
  mem_alloc : option (list vb2_call -> Z -> Z -> option Z);
  has_put : bool;
  get_userptr : option (list vb2_call -> Z -> Z -> Z -> Z + option Z);
  has_put_userptr : bool;
  mem_vaddr : option (list vb2_call -> option Z -> option Z);
  mem_cookie : option (list vb2_call -> option Z -> option Z);
  num_users : option (list vb2_call -> option Z -> Z);
  mem_mmap : option (list vb2_call -> option Z -> Z);
  kzalloc_buffer_ok : list vb2_call -> nat -> bool;
  kzalloc_fileio_ok : list vb2_call -> bool;
  copy_user : list vb2_call -> Z -> Z;
  stack_planes : list vb2_call -> list v4l2_plane;
}.

(** What the code relies on: the driver answers with as many buffers and planes
    as there is room for and fills the arrays it is given, and gives back only
    buffers it holds. *)
Class Vb2EnvLaws (E : Vb2Env) : Prop := {
  queue_setup_ok log n n' np sizes ctxs :
    queue_setup log n = (0, (n', np, sizes, ctxs)) ->
    0 <= n' <= VIDEO_MAX_FRAME /\ 0 <= np <= VIDEO_MAX_PLANES;
  queue_setup_arrays log n ret n' np sizes ctxs :
    queue_setup log n = (ret, (n', np, sizes, ctxs)) -> zlen sizes = 8 /\ zlen ctxs = 8;
  gives_back_held log held x : x ∈ gives_back log held -> x.1 ∈ held;
  stack_planes_len log : zlen (stack_planes log) = 8;
}.

(** ** The state monad of the operations *)

Abbreviation vb2M := (stateM vb2_queue).
#[global] Open Scope state_scope.

(** Pairs are taken apart by pattern. *)
Notation "' p <- m ;; k" := (mthen m (fun x => match x with p => k end))
  (at level 100, p pattern, m at next level, right associativity) : state_scope.

Definition log_call (c : vb2_call) : vb2M unit := modify (fun q => set_q_log (q_log q ++ [c]) q).

(** ** The heap *)

Definition vb_get (vb : nat) : vb2M vb2_buffer :=
  h <- gets q_heap ;; the (h !! vb).

Definition vb_put (vb : nat) (b : vb2_buffer) : vb2M unit :=
  h <- gets q_heap ;;
  match h !! vb with
  | Some _ => modify (set_q_heap (<[vb := b]> h))
  | None => fault
  end.

Definition vb_upd (vb : nat) (f : vb2_buffer -> vb2_buffer) : vb2M unit :=
  b <- vb_get vb ;; vb_put vb (f b).

Definition kfree_buffer (vb : nat) : vb2M unit :=
  h <- gets q_heap ;;
  match h !! vb with
  | Some _ => modify (set_q_heap (delete vb h))
  | None => fault
  end.

(** [q->bufs[i]] *)
Definition buf_at (i : Z) : vb2M (option nat) :=
  bufs <- gets q_bufs ;; the (mget bufs i).

Definition set_buf_at (i : Z) (vb : option nat) : vb2M unit :=
  bufs <- gets q_bufs ;; bufs <- the (mset bufs i vb) ;; modify (set_q_bufs bufs).

(** ** Lists threaded through the buffers

    Adding at the tail writes to the last entry, removing an entry writes to
    its two neighbours: all of them have to be there. *)

Definition entry_live (h : gmap nat vb2_buffer) (e : option nat) : bool :=
  match e with None => true | Some vb => bool_decide (is_Some (h !! vb)) end.

Definition list_add_tail (vb : nat) (l : list nat) : vb2M (list nat) :=
  h <- gets q_heap ;;
  if entry_live h (Some vb) && entry_live h (last l) then mdo (l ++ [vb]) else fault.

Fixpoint list_del_after (prev : option nat) (vb : nat) (h : gmap nat vb2_buffer) (l : list nat) :
    option (list nat) :=
  match l with
  | [] => None
  | x :: l =>
    if bool_decide (x = vb) then
      if entry_live h prev && entry_live h (head l) then Some l else None
    else
      rest ← list_del_after (Some x) vb h l; Some (x :: rest)
  end.

Definition list_del (vb : nat) (l : list nat) : vb2M (list nat) :=
  h <- gets q_heap ;; the (list_del_after None vb h l).
