(* ===== verification/Vb2Core.v ===== *)
(** videobuf2, drivers/media/video/videobuf2-core.c: buffer memory, the
    streaming ioctls, mmap and poll.

    One definition per function, in the order of the file, in the state monad
    of Vb2Types.v.  A function that changes a structure of its caller returns
    the new one next to its result.  Sleeping is an outcome: an operation that
    has to wait answers [None], and [vb2_dqbuf_resume] goes on after the wake. *)

From S2P Require Import Prelude StateM Vb2Types.

Section core.
Context `{Vb2Env}.

(** ** Accesses *)

Definition get_plane (vb : nat) (plane : Z) : vb2M vb2_plane :=
  b <- vb_get vb ;; the (mget (planes b) plane).

Definition upd_plane (vb : nat) (plane : Z) (f : vb2_plane -> vb2_plane) : vb2M unit :=
  b <- vb_get vb ;; p <- the (mget (planes b) plane) ;;
  ps <- the (mset (planes b) plane (f p)) ;; vb_put vb (set_planes ps b).

Definition get_v4l2_plane (vb : nat) (plane : Z) : vb2M v4l2_plane :=
  b <- vb_get vb ;; the (mget (v4l2_planes b) plane).

Definition upd_v4l2_plane (vb : nat) (plane : Z) (f : v4l2_plane -> v4l2_plane) : vb2M unit :=
  b <- vb_get vb ;; p <- the (mget (v4l2_planes b) plane) ;;
  ps <- the (mset (v4l2_planes b) plane (f p)) ;; vb_put vb (set_v4l2_planes ps b).

(** The planes of a buffer: [for (plane = 0; plane < vb->num_planes; ++plane)]. *)
Definition planes_of (vb : nat) : vb2M (list Z) :=
  b <- vb_get vb ;; mdo (seqZ 0 (num_planes b)).

(** The used slots: [for (buffer = 0; buffer < q->num_buffers; ++buffer)]. *)
Definition buffer_slots : vb2M (list Z) := n <- gets num_buffers ;; mdo (seqZ 0 n).

(** Call of an optional driver callback with a result. *)
Definition call_qop {A} (op : option (list vb2_call -> A)) (dflt : A) (c : vb2_call) : vb2M A :=
  match op with
  | None => mdo dflt
  | Some f => log_call c ;; log <- gets q_log ;; mdo (f log)
  end.

Definition call_put (p : option Z) : vb2M unit :=
  if has_put then log_call (c_put p) else mdo tt.

Definition call_put_userptr (p : option Z) : vb2M unit :=
  if has_put_userptr then log_call (c_put_userptr p) else mdo tt.

(** ** Buffer memory *)

Fixpoint mem_alloc_loop (n : nat) (plane : Z) (vb : nat) (plane_sizes : list Z) :
    vb2M (option Z) :=
  match n with
  | O => mdo None
  | S n =>
    ctxs <- gets alloc_ctx ;; ctx <- the (mget ctxs plane) ;; size <- the (mget plane_sizes plane) ;;
    p <- call_qop ((fun f log => f log ctx size) <$> mem_alloc) None (c_alloc ctx size) ;;
    match p with
    | None => mdo (Some plane)
    | Some p =>
      upd_plane vb plane (set_mem_priv (Some p)) ;;
      upd_v4l2_plane vb plane (set_pl_length (u32 size)) ;;
      mem_alloc_loop n (plane + 1) vb plane_sizes
    end
  end.

Definition __vb2_buf_mem_alloc (vb : nat) (plane_sizes : list Z) : vb2M Z :=
  b <- vb_get vb ;;
  failed <- mem_alloc_loop (Z.to_nat (num_planes b)) 0 vb plane_sizes ;;
  match failed with
  | None => mdo 0
  | Some plane =>
    mfor (rev (seqZ 0 plane)) (fun i => p <- get_plane vb i ;; call_put (mem_priv p)) ;;
    mdo (- ENOMEM)
  end.

Definition __vb2_buf_mem_free (vb : nat) : vb2M unit :=
  l <- planes_of vb ;;
  mfor l (fun plane =>
    p <- get_plane vb plane ;; call_put (mem_priv p) ;; upd_plane vb plane (set_mem_priv None)).

Definition __vb2_buf_userptr_put (vb : nat) : vb2M unit :=
  l <- planes_of vb ;;
  mfor l (fun plane =>
    p <- get_plane vb plane ;;
    match mem_priv p with
    | None => mdo tt
    | Some m => call_put_userptr (Some m) ;; upd_plane vb plane (set_mem_priv None)
    end).

(** The offsets of the planes of one buffer; the result is the next offset. *)
Fixpoint plane_offsets (vb : nat) (l : list Z) (off : Z) : vb2M Z :=
  match l with
  | [] => mdo off
  | plane :: l =>
    upd_v4l2_plane vb plane (set_pl_m (u32 off)) ;;
    p <- get_v4l2_plane vb plane ;;
    plane_offsets vb l (PAGE_ALIGN (u64 (off + pl_length p)))
  end.

Fixpoint buffer_offsets (l : list Z) (off : Z) : vb2M unit :=
  match l with
  | [] => mdo tt
  | buffer :: l =>
    vb <- buf_at buffer ;;
    match vb with
    | None => buffer_offsets l off
    | Some vb => ps <- planes_of vb ;; off <- plane_offsets vb ps off ;; buffer_offsets l off
    end
  end.

Definition __setup_offsets : vb2M unit := l <- buffer_slots ;; buffer_offsets l 0.

Definition zeroed_v4l2_plane : v4l2_plane := mk_plane 0 0 0 0.
Definition zeroed_v4l2_buffer : v4l2_buffer := mk_v4l2_buffer 0 0 0 0 0 0 0 0 0 0 None 0 0 0.

(** The structure [kzalloc] returns, with the fields [__vb2_queue_alloc] sets. *)
Definition new_buffer (type memory n index : Z) : vb2_buffer :=
  let b := set_b_memory memory (set_b_type type (set_b_index index zeroed_v4l2_buffer)) in
  let b := if V4L2_TYPE_IS_MULTIPLANAR type then set_b_length n b else b in
  mk_vb2_buffer b (replicate 8 zeroed_v4l2_plane) n VB2_BUF_STATE_DEQUEUED
    (replicate 8 (mk_vb2_plane None false)) 0.

Definition kzalloc_buffer (b : vb2_buffer) : vb2M (option nat) :=
  log <- gets q_log ;; vb <- gets q_next ;;
  if kzalloc_buffer_ok log vb then
    h <- gets q_heap ;;
    modify (fun q => set_q_next (S vb) (set_q_heap (<[vb := b]> h) q)) ;;
    mdo (Some vb)
  else mdo None.

(** The loop of [__vb2_queue_alloc]; the result is the number of buffers. *)
Fixpoint queue_alloc_loop (n : nat) (buffer memory num_planes : Z) (plane_sizes : list Z) : vb2M Z :=
  match n with
  | O => mdo buffer
  | S n =>
    type <- gets q_type ;;
    r <- kzalloc_buffer (new_buffer type memory num_planes buffer) ;;
    match r with
    | None => mdo buffer
    | Some vb =>
      ret <- (if memory =? V4L2_MEMORY_MMAP then
                ret <- __vb2_buf_mem_alloc vb plane_sizes ;;
                if truthy ret then kfree_buffer vb ;; mdo ret else
                ret <- call_qop ((fun f log => f log vb) <$> buf_init) 0 (c_buf_init vb) ;;
                if truthy ret then __vb2_buf_mem_free vb ;; kfree_buffer vb ;; mdo ret
                else mdo 0
              else mdo 0) ;;
      if truthy ret then mdo buffer else
      set_buf_at buffer (Some vb) ;;
      queue_alloc_loop n (buffer + 1) memory num_planes plane_sizes
    end
  end.

Definition __vb2_queue_alloc (memory n num_planes : Z) (plane_sizes : list Z) : vb2M Z :=
  buffer <- queue_alloc_loop (Z.to_nat n) 0 memory num_planes plane_sizes ;;
  modify (set_num_buffers buffer) ;;
  __setup_offsets ;;
  mdo buffer.

Definition __vb2_free_mem : vb2M unit :=
  l <- buffer_slots ;;
  mfor l (fun buffer =>
    vb <- buf_at buffer ;;
    match vb with
    | None => mdo tt
    | Some vb =>
      memory <- gets q_memory ;;
      if memory =? V4L2_MEMORY_MMAP then __vb2_buf_mem_free vb else __vb2_buf_userptr_put vb
    end).

(** [kfree] of a null pointer does nothing. *)
Definition __vb2_queue_free : vb2M unit :=
  l <- buffer_slots ;;
  (if has_buf_cleanup then
     mfor l (fun buffer =>
       vb <- buf_at buffer ;;
       match vb with None => mdo tt | Some vb => log_call (c_buf_cleanup vb) end)
   else mdo tt) ;;
  __vb2_free_mem ;;
  mfor l (fun buffer =>
    vb <- buf_at buffer ;;
    match vb with None => mdo tt | Some vb => kfree_buffer vb end ;;
    set_buf_at buffer None) ;;
  modify (fun q => set_q_memory 0 (set_num_buffers 0 q)).

(** ** Reporting a buffer to userspace *)

Definition __verify_planes_array (vb : vb2_buffer) (b : v4l2_buffer) : Z :=
  match b_planes b with
  | None => - EINVAL
  | Some _ =>
    if (b_length b <? num_planes vb) || (b_length b >? VIDEO_MAX_PLANES) then - EINVAL else 0
  end.

(** [memcpy(b, &vb->v4l2_buf, offsetof(struct v4l2_buffer, m))] *)
Definition copy_head (from to : v4l2_buffer) : v4l2_buffer :=
  mk_v4l2_buffer (b_index from) (b_type from) (b_bytesused from) (b_flags from) (b_field from)
    (b_timestamp from) (b_timecode from) (b_sequence from) (b_memory from)
    (b_m to) (b_planes to) (b_length to) (b_input to) (b_reserved to).

Definition state_flags (s : vb2_buffer_state) : Z :=
  match s with
  | VB2_BUF_STATE_QUEUED | VB2_BUF_STATE_ACTIVE => V4L2_BUF_FLAG_QUEUED
  | VB2_BUF_STATE_ERROR => Z.lor V4L2_BUF_FLAG_ERROR V4L2_BUF_FLAG_DONE
  | VB2_BUF_STATE_DONE => V4L2_BUF_FLAG_DONE
  | VB2_BUF_STATE_DEQUEUED => 0
  end.

Definition __fill_v4l2_buffer (vb : nat) (b : v4l2_buffer) : vb2M (Z * v4l2_buffer) :=
  v <- vb_get vb ;; type <- gets q_type ;; memory <- gets q_memory ;;
  let b := copy_head (v4l2_buf v) b in
  let b := set_b_input (b_input (v4l2_buf v)) b in
  let b := set_b_reserved (b_reserved (v4l2_buf v)) b in
  let finish b :=
    let flags := Z.land (b_flags b) (u32 (Z.lnot V4L2_BUFFER_STATE_FLAGS)) in
    let flags := Z.lor flags (state_flags (vb_state v)) in
    let flags :=
      if num_planes_mapped v =? num_planes v then Z.lor flags V4L2_BUF_FLAG_MAPPED else flags in
    mdo (0, set_b_flags flags b) in
  if V4L2_TYPE_IS_MULTIPLANAR type then
    let ret := __verify_planes_array v b in
    if truthy ret then mdo (ret, b) else
    ps <- the (b_planes b) ;;
    s <- the (mread (v4l2_planes v) 0 (b_length b)) ;;
    ps <- the (mwrite ps 0 s) ;;
    finish (set_b_planes (Some ps) b)
  else
    p <- the (mget (v4l2_planes v) 0) ;;
    let b := set_b_bytesused (pl_bytesused p) (set_b_length (pl_length p) b) in
    let b :=
      if (memory =? V4L2_MEMORY_MMAP) || (memory =? V4L2_MEMORY_USERPTR)
      then set_b_m (pl_m p) b else b in
    finish b.

Definition vb2_querybuf (b : v4l2_buffer) : vb2M (Z * v4l2_buffer) :=
  type <- gets q_type ;; n <- gets num_buffers ;;
  if negb (b_type b =? type) then mdo (- EINVAL, b) else
  if b_index b >=? n then mdo (- EINVAL, b) else
  vb <- buf_at (b_index b) ;; vb <- the vb ;;
  __fill_v4l2_buffer vb b.

(** ** Setting the queue up *)

Definition present {A} (o : option A) : bool := match o with Some _ => true | None => false end.

Definition __verify_userptr_ops (modes : Z) : Z :=
  if negb (truthy (Z.land modes VB2_USERPTR)) || negb (present get_userptr) || negb has_put_userptr
  then - EINVAL else 0.

Definition __verify_mmap_ops (modes : Z) : Z :=
  if negb (truthy (Z.land modes VB2_MMAP)) || negb (present mem_alloc) || negb has_put
     || negb (present mem_mmap)
  then - EINVAL else 0.

(** Does a plane in the list have another user than this queue? *)
Fixpoint plane_in_use (vb : nat) (l : list Z) : vb2M bool :=
  match l with
  | [] => mdo false
  | plane :: l =>
    p <- get_plane vb plane ;;
    n <- call_qop ((fun f log => f log (mem_priv p)) <$> num_users) 0 (c_num_users (mem_priv p)) ;;
    if n >? 1 then mdo true else plane_in_use vb l
  end.

Fixpoint buffer_in_use (l : list Z) : vb2M bool :=
  match l with
  | [] => mdo false
  | buffer :: l =>
    vb <- buf_at buffer ;; vb <- the vb ;; ps <- planes_of vb ;;
    used <- plane_in_use vb ps ;;
    if used : bool then mdo true else buffer_in_use l
  end.

Definition __buffers_in_use : vb2M bool := l <- buffer_slots ;; buffer_in_use l.

(** [call_qop(q, queue_setup, q, &num_buffers, &num_planes, plane_sizes, q->alloc_ctx)] *)
Definition call_queue_setup (n : Z) : vb2M (Z * Z * Z * list Z) :=
  log_call (c_queue_setup n) ;; log <- gets q_log ;;
  let '(ret, (n, num_planes, plane_sizes, ctxs)) := queue_setup log n in
  modify (set_alloc_ctx ctxs) ;; mdo (ret, n, num_planes, plane_sizes).

(** The second half of [vb2_reqbufs], from the negotiation with the driver. *)
Definition reqbufs_allocate (req : v4l2_requestbuffers) : vb2M (Z * v4l2_requestbuffers) :=
  modify (set_alloc_ctx (replicate 8 0)) ;;
  modify (set_q_memory (req_memory req)) ;;
  '(ret, n, num_planes, plane_sizes) <- call_queue_setup (Z.min (req_count req) VIDEO_MAX_FRAME) ;;
  if truthy ret then mdo (ret, req) else
  ret <- __vb2_queue_alloc (req_memory req) n num_planes plane_sizes ;;
  if ret =? 0 then mdo (- ENOMEM, req) else
  if ret <? n then
    '(err, n', _, _) <- call_queue_setup ret ;;
    if truthy err then __vb2_queue_free ;; mdo (err, req)
    else if ret <? n' then __vb2_queue_free ;; mdo (- ENOMEM, req)
    else mdo (0, set_req_count n' req)
  else mdo (0, set_req_count ret req).

Definition vb2_reqbufs (req : v4l2_requestbuffers) : vb2M (Z * v4l2_requestbuffers) :=
  q <- gets (fun q => q) ;;
  if present (fileio q) then mdo (- EBUSY, req) else
  if negb (req_memory req =? V4L2_MEMORY_MMAP) && negb (req_memory req =? V4L2_MEMORY_USERPTR)
  then mdo (- EINVAL, req) else
  if negb (req_type req =? q_type q) then mdo (- EINVAL, req) else
  if streaming q then mdo (- EBUSY, req) else
  if (req_memory req =? V4L2_MEMORY_MMAP) && truthy (__verify_mmap_ops (io_modes q))
  then mdo (- EINVAL, req) else
  if (req_memory req =? V4L2_MEMORY_USERPTR) && truthy (__verify_userptr_ops (io_modes q))
  then mdo (- EINVAL, req) else
  if (req_count req =? 0) || truthy (num_buffers q) || negb (q_memory q =? req_memory req) then
    used <- (if q_memory q =? V4L2_MEMORY_MMAP then __buffers_in_use else mdo false) ;;
    if used : bool then mdo (- EBUSY, req) else
    __vb2_queue_free ;;
    if req_count req =? 0 then mdo (0, req) else reqbufs_allocate req
  else reqbufs_allocate req.

(** ** The inline helpers of the header *)

Definition vb2_is_streaming : vb2M bool := gets streaming.

Definition vb2_is_busy : vb2M bool := n <- gets num_buffers ;; mdo (n >? 0).

Definition vb2_set_plane_payload (vb : nat) (plane_no size : Z) : vb2M unit :=
  b <- vb_get vb ;;
  if plane_no <? num_planes b then upd_v4l2_plane vb plane_no (set_pl_bytesused (u32 size)) else mdo tt.

Definition vb2_get_plane_payload (vb : nat) (plane_no : Z) : vb2M Z :=
  b <- vb_get vb ;;
  if plane_no <? num_planes b then p <- get_v4l2_plane vb plane_no ;; mdo (pl_bytesused p) else mdo 0.

Definition vb2_plane_size (vb : nat) (plane_no : Z) : vb2M Z :=
  b <- vb_get vb ;;
  if plane_no <? num_planes b then p <- get_v4l2_plane vb plane_no ;; mdo (pl_length p) else mdo 0.

(** ** The driver's side *)

Definition vb2_plane_vaddr (vb : nat) (plane_no : Z) : vb2M (option Z) :=
  b <- vb_get vb ;;
  if plane_no >? num_planes b then mdo None else
  p <- get_plane vb plane_no ;;
  call_qop ((fun f log => f log (mem_priv p)) <$> mem_vaddr) None (c_vaddr (mem_priv p)).

Definition vb2_plane_cookie (vb : nat) (plane_no : Z) : vb2M (option Z) :=
  b <- vb_get vb ;;
  if plane_no >? num_planes b then mdo None else
  p <- get_plane vb plane_no ;;
  call_qop ((fun f log => f log (mem_priv p)) <$> mem_cookie) None (c_cookie (mem_priv p)).

(** [atomic_dec], [atomic_inc] *)
Definition add_queued_count (d : Z) : vb2M unit :=
  modify (fun q => set_queued_count (s32 (queued_count q + d)) q).

Definition vb2_buffer_done (vb : nat) (state : vb2_buffer_state) : vb2M unit :=
  b <- vb_get vb ;;
  if negb (bool_decide (vb_state b = VB2_BUF_STATE_ACTIVE)) then mdo tt else
  if negb (bool_decide (state = VB2_BUF_STATE_DONE)) &&
     negb (bool_decide (state = VB2_BUF_STATE_ERROR)) then mdo tt else
  vb_put vb (set_vb_state state b) ;;
  l <- gets done_list ;; l <- list_add_tail vb l ;; modify (set_done_list l) ;;
  add_queued_count (-1) ;;
  log_call c_wake_up.

(** The buffers the driver holds. *)
Definition held_in (h : gmap nat vb2_buffer) (l : list nat) : list nat :=
  filter (fun vb => vb_state <$> h !! vb = Some VB2_BUF_STATE_ACTIVE) l.

Definition held_buffers (q : vb2_queue) : list nat := held_in (q_heap q) (queued_list q).

(** A callback into the driver, with the buffers it gives back inside it. *)
Definition driver_call (c : vb2_call) : vb2M unit :=
  log_call c ;; log <- gets q_log ;; held <- gets held_buffers ;;
  mfor (gives_back log held) (fun '(vb, state) => vb2_buffer_done vb state).

(** ** Queueing *)

(** Copies between the planes arrays of [__fill_vb2_buffer]. *)
Definition fill_planes (f : v4l2_plane -> v4l2_plane -> v4l2_plane) (n : Z)
    (from to : list v4l2_plane) : option (list v4l2_plane) :=
  foldl (fun acc plane =>
    to ← acc; s ← mget from plane; d ← mget to plane; mset to plane (f s d)) (Some to) (seqZ 0 n).

Definition __fill_vb2_buffer (vb : nat) (b : v4l2_buffer) (ps : list v4l2_plane) :
    vb2M (Z * list v4l2_plane) :=
  v <- vb_get vb ;;
  let output := V4L2_TYPE_IS_OUTPUT (b_type b) in
  let userptr := b_memory b =? V4L2_MEMORY_USERPTR in
  let finish ps :=
    let f := v4l2_buf v in
    let f := set_b_timestamp (b_timestamp b) (set_b_field (b_field b) f) in
    let f := set_b_flags (Z.land (b_flags b) (u32 (Z.lnot V4L2_BUFFER_STATE_FLAGS)))
               (set_b_input (b_input b) f) in
    vb_put vb (set_v4l2_buf f v) ;; mdo (0, ps) in
  if V4L2_TYPE_IS_MULTIPLANAR (b_type b) then
    let ret := __verify_planes_array v b in
    if truthy ret then mdo (ret, ps) else
    user <- the (b_planes b) ;;
    ps <- the (if output then
                 fill_planes (fun s d => set_pl_data_offset (pl_data_offset s)
                   (set_pl_bytesused (pl_bytesused s) d)) (num_planes v) user ps
               else Some ps) ;;
    ps <- the (if userptr then
                 fill_planes (fun s d => set_pl_length (pl_length s) (set_pl_m (pl_m s) d))
                   (num_planes v) user ps
               else Some ps) ;;
    finish ps
  else
    p <- the (mget ps 0) ;;
    let p := if output then set_pl_bytesused (b_bytesused b) p else p in
    let p := if userptr then set_pl_length (b_length b) (set_pl_m (b_m b) p) else p in
    ps <- the (mset ps 0 p) ;;
    finish ps.

(** The loop of [__qbuf_userptr] that (re)acquires the planes: [inr] the plane
    and the error it stopped with. *)
Fixpoint acquire_planes (l : list Z) (vb : nat) (ps : list v4l2_plane) (write : bool) :
    vb2M (unit + Z * Z) :=
  match l with
  | [] => mdo (inl tt)
  | plane :: l =>
    old <- get_v4l2_plane vb plane ;; new <- the (mget ps plane) ;;
    if (pl_m old =? pl_m new) && (pl_length old =? pl_length new)
    then acquire_planes l vb ps write else
    p <- get_plane vb plane ;;
    match mem_priv p with None => mdo tt | Some m => call_put_userptr (Some m) end ;;
    upd_plane vb plane (set_mem_priv None) ;;
    match get_userptr with
    | None => acquire_planes l vb ps write
    | Some f =>
      ctxs <- gets alloc_ctx ;; ctx <- the (mget ctxs plane) ;;
      log_call (c_get_userptr ctx (pl_m new) (pl_length new) write) ;; log <- gets q_log ;;
      match f log ctx (pl_m new) (pl_length new) with
      | inl err => mdo (inr (plane, err))
      | inr m => upd_plane vb plane (set_mem_priv m) ;; acquire_planes l vb ps write
      end
    end
  end.

(** The error exit: [for (; plane > 0; --plane)] release [plane - 1]. *)
Definition release_planes (vb : nat) (plane : Z) : vb2M unit :=
  mfor (rev (seqZ 0 plane)) (fun i =>
    p <- get_plane vb i ;; call_put_userptr (mem_priv p) ;; upd_plane vb i (set_mem_priv None)).

(** The local array starts with whatever the stack holds. *)
Definition __qbuf_userptr (vb : nat) (b : v4l2_buffer) : vb2M Z :=
  type <- gets q_type ;; log <- gets q_log ;;
  '(ret, ps) <- __fill_vb2_buffer vb b (stack_planes log) ;;
  if truthy ret then mdo ret else
  l <- planes_of vb ;;
  r <- acquire_planes l vb ps (negb (V4L2_TYPE_IS_OUTPUT type)) ;;
  match r with
  | inr (plane, err) => release_planes vb plane ;; mdo err
  | inl _ =>
    ret <- call_qop ((fun f log => f log vb) <$> buf_init) 0 (c_buf_init vb) ;;
    if truthy ret then v <- vb_get vb ;; release_planes vb (num_planes v) ;; mdo ret else
    mfor l (fun plane => p <- the (mget ps plane) ;; upd_v4l2_plane vb plane (fun _ => p)) ;;
    mdo 0
  end.

(** The buffer's own planes are the array to fill. *)
Definition __qbuf_mmap (vb : nat) (b : v4l2_buffer) : vb2M Z :=
  v <- vb_get vb ;;
  '(ret, ps) <- __fill_vb2_buffer vb b (v4l2_planes v) ;;
  if truthy ret then mdo ret else vb_upd vb (set_v4l2_planes ps) ;; mdo 0.

Definition __enqueue_in_driver (vb : nat) : vb2M unit :=
  vb_upd vb (set_vb_state VB2_BUF_STATE_ACTIVE) ;;
  add_queued_count 1 ;;
  driver_call (c_buf_queue vb).

Definition vb2_qbuf (b : v4l2_buffer) : vb2M Z :=
  q <- gets (fun q => q) ;;
  if present (fileio q) then mdo (- EBUSY) else
  if negb (b_type b =? q_type q) then mdo (- EINVAL) else
  if b_index b >=? num_buffers q then mdo (- EINVAL) else
  vb <- buf_at (b_index b) ;;
  match vb with
  | None => mdo (- EINVAL)
  | Some vb =>
    if negb (b_memory b =? q_memory q) then mdo (- EINVAL) else
    v <- vb_get vb ;;
    if negb (bool_decide (vb_state v = VB2_BUF_STATE_DEQUEUED)) then mdo (- EINVAL) else
    ret <- (if q_memory q =? V4L2_MEMORY_MMAP then __qbuf_mmap vb b
            else if q_memory q =? V4L2_MEMORY_USERPTR then __qbuf_userptr vb b
            else mdo (- EINVAL)) ;;
    if truthy ret then mdo ret else
    ret <- call_qop ((fun f log => f log vb) <$> buf_prepare) 0 (c_buf_prepare vb) ;;
    if truthy ret then mdo ret else
    l <- gets queued_list ;; l <- list_add_tail vb l ;; modify (set_queued_list l) ;;
    vb_upd vb (set_vb_state VB2_BUF_STATE_QUEUED) ;;
    on <- gets streaming ;;
    (if on : bool then __enqueue_in_driver vb else mdo tt) ;;
    mdo 0
  end.

(** ** Dequeueing *)

(** One round of the loop: [None] is asleep in [wait_event_interruptible]. *)
Definition __vb2_wait_for_done_vb (nonblocking : bool) : vb2M (option Z) :=
  on <- gets streaming ;; l <- gets done_list ;;
  if negb on then mdo (Some (- EINVAL)) else
  match l with
  | _ :: _ => mdo (Some 0)
  | [] => if nonblocking then mdo (Some (- EAGAIN)) else log_call c_wait_prepare ;; mdo None
  end.

(** The first completed buffer, taken off the done list, or an error. *)
Definition __vb2_get_done_vb (nonblocking : bool) : vb2M (option (Z + nat)) :=
  r <- __vb2_wait_for_done_vb nonblocking ;;
  match r with
  | None => mdo None
  | Some ret =>
    if truthy ret then mdo (Some (inl ret)) else
    l <- gets done_list ;; vb <- the (head l) ;; l <- list_del vb l ;; modify (set_done_list l) ;;
    mdo (Some (inr vb))
  end.

(** From the call of [__vb2_get_done_vb] on. *)
Definition dqbuf_wait (b : v4l2_buffer) (nonblocking : bool) : vb2M (option (Z * v4l2_buffer)) :=
  r <- __vb2_get_done_vb nonblocking ;;
  match r with
  | None => mdo None
  | Some (inl ret) => mdo (Some (ret, b))
  | Some (inr vb) =>
    ret <- call_qop ((fun f log => f log vb) <$> buf_finish) 0 (c_buf_finish vb) ;;
    if truthy ret then mdo (Some (ret, b)) else
    v <- vb_get vb ;;
    match vb_state v with
    | VB2_BUF_STATE_DONE | VB2_BUF_STATE_ERROR =>
      '(_, b) <- __fill_v4l2_buffer vb b ;;
      l <- gets queued_list ;; l <- list_del vb l ;; modify (set_queued_list l) ;;
      vb_upd vb (set_vb_state VB2_BUF_STATE_DEQUEUED) ;;
      mdo (Some (0, b))
    | _ => mdo (Some (- EINVAL, b))
    end
  end.

Definition vb2_dqbuf (b : v4l2_buffer) (nonblocking : bool) : vb2M (option (Z * v4l2_buffer)) :=
  q <- gets (fun q => q) ;;
  if present (fileio q) then mdo (Some (- EBUSY, b)) else
  if negb (b_type b =? q_type q) then mdo (Some (- EINVAL, b)) else
  dqbuf_wait b nonblocking.

(** After a wake-up: [wait_event_interruptible] returns [-ERESTARTSYS] when it
    was a signal. *)
Definition vb2_dqbuf_resume (signal : bool) (b : v4l2_buffer) : vb2M (option (Z * v4l2_buffer)) :=
  log_call c_wait_finish ;;
  if signal then mdo (Some (- ERESTARTSYS, b)) else dqbuf_wait b false.

(** [None] is asleep until the driver has given all buffers back. *)
Definition vb2_wait_for_all_buffers : vb2M (option Z) :=
  on <- gets streaming ;; n <- gets queued_count ;;
  if negb on then mdo (Some (- EINVAL)) else if n =? 0 then mdo (Some 0) else mdo None.

(** ** Streaming *)

Definition vb2_streamon (type : Z) : vb2M Z :=
  q <- gets (fun q => q) ;;
  if present (fileio q) then mdo (- EBUSY) else
  if negb (type =? q_type q) then mdo (- EINVAL) else
  if streaming q then mdo (- EBUSY) else
  if V4L2_TYPE_IS_OUTPUT (q_type q) && bool_decide (queued_list q = []) then mdo (- EINVAL) else
  ret <- (match start_streaming with
          | None => mdo 0
          | Some f => driver_call c_start_streaming ;; log <- gets q_log ;; mdo (f log)
          end) ;;
  if truthy ret then mdo ret else
  modify (set_streaming true) ;;
  l <- gets queued_list ;;
  mfor l __enqueue_in_driver ;;
  mdo 0.

Definition __vb2_queue_cancel : vb2M unit :=
  on <- gets streaming ;;
  (if on && has_stop_streaming then driver_call c_stop_streaming else mdo tt) ;;
  modify (set_streaming false) ;;
  modify (set_queued_list []) ;;
  modify (set_done_list []) ;;
  modify (set_queued_count 0) ;;
  log_call c_wake_up ;;
  l <- buffer_slots ;;
  mfor l (fun i =>
    vb <- buf_at i ;; vb <- the vb ;; vb_upd vb (set_vb_state VB2_BUF_STATE_DEQUEUED)).

Definition vb2_streamoff (type : Z) : vb2M Z :=
  q <- gets (fun q => q) ;;
  if present (fileio q) then mdo (- EBUSY) else
  if negb (type =? q_type q) then mdo (- EINVAL) else
  if negb (streaming q) then mdo (- EINVAL) else
  __vb2_queue_cancel ;; mdo 0.

(** ** Mapping *)

Fixpoint plane_by_offset (vb : nat) (l : list Z) (off : Z) : vb2M (option Z) :=
  match l with
  | [] => mdo None
  | plane :: l =>
    p <- get_v4l2_plane vb plane ;;
    if pl_m p =? off then mdo (Some plane) else plane_by_offset vb l off
  end.

Fixpoint find_in_buffers (l : list Z) (off : Z) : vb2M (option (Z * Z)) :=
  match l with
  | [] => mdo None
  | buffer :: l =>
    vb <- buf_at buffer ;; vb <- the vb ;; ps <- planes_of vb ;;
    r <- plane_by_offset vb ps off ;;
    match r with
    | Some plane => mdo (Some (buffer, plane))
    | None => find_in_buffers l off
    end
  end.

(** Buffer and plane, or [None] for [-EINVAL]. *)
Definition __find_plane_by_offset (off : Z) : vb2M (option (Z * Z)) :=
  l <- buffer_slots ;; find_in_buffers l off.

Definition vb2_mmap (vm_pgoff vm_flags : Z) : vb2M Z :=
  let off := u64 (Z.shiftl vm_pgoff PAGE_SHIFT) in
  q <- gets (fun q => q) ;;
  if negb (q_memory q =? V4L2_MEMORY_MMAP) then mdo (- EINVAL) else
  if negb (truthy (Z.land vm_flags VM_SHARED)) then mdo (- EINVAL) else
  let access := if V4L2_TYPE_IS_OUTPUT (q_type q) then VM_WRITE else VM_READ in
  if negb (truthy (Z.land vm_flags access)) then mdo (- EINVAL) else
  r <- __find_plane_by_offset off ;;
  match r with
  | None => mdo (- EINVAL)
  | Some (buffer, plane) =>
    vb <- buf_at buffer ;; vb <- the vb ;; p <- get_plane vb plane ;;
    match mem_mmap with
    | None => fault
    | Some f =>
      log_call (c_mmap (mem_priv p)) ;; log <- gets q_log ;;
      let ret := f log (mem_priv p) in
      if truthy ret then mdo ret else
      upd_plane vb plane (set_mapped true) ;;
      vb_upd vb (fun v => set_num_planes_mapped (u32 (num_planes_mapped v + 1)) v) ;;
      mdo 0
    end
  end.

(** ** Polling, for a queue whose buffers are set up *)

Definition POLLIN : Z := 0x1.
Definition POLLOUT : Z := 0x4.
Definition POLLERR : Z := 0x8.
Definition POLLRDNORM : Z := 0x40.
Definition POLLWRNORM : Z := 0x100.

Definition poll_done : vb2M Z :=
  q <- gets (fun q => q) ;;
  match queued_list q with
  | [] => mdo POLLERR
  | _ :: _ =>
    match done_list q with
    | [] => mdo 0
    | vb :: _ =>
      v <- vb_get vb ;;
      match vb_state v with
      | VB2_BUF_STATE_DONE | VB2_BUF_STATE_ERROR =>
        mdo (if V4L2_TYPE_IS_OUTPUT (q_type q) then Z.lor POLLOUT POLLWRNORM
             else Z.lor POLLIN POLLRDNORM)
      | _ => mdo 0
      end
    end
  end.

(** [vb2_queue_init], on the zeroed structure with the fields the driver sets:
    the [BUG_ON]s are faults. *)
Definition vb2_queue_init (type modes flags : Z) : option vb2_queue :=
  if (type =? 0) || (modes =? 0) then None
  else Some (mk_queue type modes flags 0 (replicate 32 None) 0 [] 0 [] (replicate 8 0) false None ∅ 0 []).

End core.
