(* ===== verification/Vb2FileIo.v ===== *)
(** The file I/O emulator of videobuf2, drivers/media/video/videobuf2-core.c
    from [vb2_poll] and [__vb2_init_fileio] on: read() and write() on top of the
    streaming ioctls. *)

From S2P Require Import Prelude StateM Vb2Types Vb2Core.

Section fileio.
Context `{Vb2Env}.

Definition zeroed_fileio : vb2_fileio_data :=
  mk_fileio (mk_req 0 0 0) zeroed_v4l2_buffer
    (replicate 32 (mk_fileio_buf None 0 0 false)) 0 0 0 0.

(** Kernel addresses and sizes of the buffers: [None] at a buffer without
    address. *)
Fixpoint fileio_addresses (l : list Z) (bufs : list vb2_fileio_buf) :
    vb2M (option (list vb2_fileio_buf)) :=
  match l with
  | [] => mdo (Some bufs)
  | i :: l =>
    vb <- buf_at i ;; vb <- the vb ;;
    vaddr <- vb2_plane_vaddr vb 0 ;;
    b <- the (mget bufs i) ;;
    match vaddr with
    | None => mdo None
    | Some _ =>
      size <- vb2_plane_size vb 0 ;;
      bufs <- the (mset bufs i (set_fb_size size (set_fb_vaddr vaddr b))) ;;
      fileio_addresses l bufs
    end
  end.

(** The buffer structure the emulator passes to the ioctls. *)
Definition fileio_buffer (index bytesused : Z) : vb2M v4l2_buffer :=
  type <- gets q_type ;; memory <- gets q_memory ;;
  mdo (set_b_bytesused bytesused
         (set_b_index index (set_b_memory memory (set_b_type type zeroed_v4l2_buffer)))).

(** Queue all buffers, for reading; the result is the error it stopped with. *)
Fixpoint fileio_queue_all (l : list Z) (f : vb2_fileio_data) : vb2M (Z * vb2_fileio_data) :=
  match l with
  | [] => mdo (0, f)
  | i :: l =>
    b <- fileio_buffer i 0 ;;
    ret <- vb2_qbuf b ;;
    let f := set_fio_b b f in
    if truthy ret then mdo (ret, f) else
    fb <- the (mget (fio_bufs f) i) ;;
    bufs <- the (mset (fio_bufs f) i (set_fb_queued true fb)) ;;
    fileio_queue_all l (set_fio_bufs bufs f)
  end.

(** Label [err_reqbufs]. *)
Definition fileio_give_up (ret : Z) (f : vb2_fileio_data) : vb2M Z :=
  vb2_reqbufs (fio_req f) ;; mdo ret.

Definition __vb2_init_fileio (read : bool) : vb2M Z :=
  q <- gets (fun q => q) ;;
  if (read && negb (truthy (Z.land (io_modes q) VB2_READ))) ||
     (negb read && negb (truthy (Z.land (io_modes q) VB2_WRITE))) then fault else
  if negb (present mem_vaddr) then mdo (- EBUSY) else
  if streaming q || (num_buffers q >? 0) then mdo (- EBUSY) else
  log <- gets q_log ;;
  if negb (kzalloc_fileio_ok log) then mdo (- ENOMEM) else
  '(ret, req) <- vb2_reqbufs (mk_req 1 (q_type q) V4L2_MEMORY_MMAP) ;;
  let f := set_fio_flags (io_flags q) (set_fio_req req zeroed_fileio) in
  if truthy ret then mdo ret else
  vb <- buf_at 0 ;; vb <- the vb ;; v <- vb_get vb ;;
  if negb (num_planes v =? 1) then fileio_give_up (- EBUSY) (set_fio_req (set_req_count 0 req) f) else
  l <- buffer_slots ;;
  bufs <- fileio_addresses l (fio_bufs f) ;;
  match bufs with
  | None => fileio_give_up ret f
  | Some bufs =>
    let f := set_fio_bufs bufs f in
    if read then
      '(ret, f) <- fileio_queue_all l f ;;
      if truthy ret then fileio_give_up ret f else
      ret <- vb2_streamon (q_type q) ;;
      if truthy ret then fileio_give_up ret f else
      modify (set_fileio (Some f)) ;; mdo ret
    else modify (set_fileio (Some f)) ;; mdo ret
  end.

Definition __vb2_cleanup_fileio : vb2M Z :=
  f <- gets fileio ;;
  match f with
  | None => mdo 0
  | Some f =>
    modify (set_fileio None) ;;
    type <- gets q_type ;;
    vb2_streamoff type ;;
    vb2_reqbufs (set_req_count 0 (fio_req f)) ;;
    mdo 0
  end.

Definition vb2_queue_release : vb2M unit :=
  __vb2_cleanup_fileio ;; __vb2_queue_cancel ;; __vb2_queue_free.

(** Put the context back and return. *)
Definition fileio_end (f : vb2_fileio_data) (ret ppos : Z) : vb2M (option (Z * Z)) :=
  modify (set_fileio (Some f)) ;; mdo (Some (ret, ppos)).

Definition set_fileio_buf (f : vb2_fileio_data) (i : Z) (b : vb2_fileio_buf) : vb2M vb2_fileio_data :=
  bufs <- the (mset (fio_bufs f) i b) ;; mdo (set_fio_bufs bufs f).

(** Give the buffer to the driver and go on to the next. *)
Definition fileio_requeue (f : vb2_fileio_data) (index count ppos : Z) (read : bool) :
    vb2M (option (Z * Z)) :=
  buf <- the (mget (fio_bufs f) index) ;;
  b <- fileio_buffer index (fb_pos buf) ;;
  ret <- vb2_qbuf b ;;
  let f := set_fio_b b f in
  if truthy ret then fileio_end f ret ppos else
  vb <- buf_at 0 ;; vb <- the vb ;; p <- get_v4l2_plane vb 0 ;;
  let buf := set_fb_size (pl_length p) (set_fb_queued true (set_fb_pos 0 buf)) in
  f <- set_fileio_buf f index buf ;;
  let f := set_fio_q_count (u32 (fio_q_count f + 1)) f in
  n <- gets num_buffers ;;
  if n =? 0 then fault else
  let f := set_fio_index (u32 (index + 1) mod n) f in
  on <- gets streaming ;; type <- gets q_type ;;
  ret <- (if negb read && negb on then vb2_streamon type else mdo 0) ;;
  fileio_end f (if truthy ret then ret else s32 count) ppos.

(** From "Limit count on last few bytes of the buffer" on. *)
Definition fileio_transfer (f : vb2_fileio_data) (index count ppos : Z) (read : bool) :
    vb2M (option (Z * Z)) :=
  buf <- the (mget (fio_bufs f) index) ;;
  let count :=
    if u64 (fb_pos buf + count) >? fb_size buf then u32 (fb_size buf - fb_pos buf) else count in
  let addr := default 0 (fb_vaddr buf) + fb_pos buf in
  log_call (if read then c_copy_to_user addr count else c_copy_from_user addr count) ;;
  log <- gets q_log ;;
  if truthy (copy_user log count) then fileio_end f (- EFAULT) ppos else
  let buf := set_fb_pos (u32 (fb_pos buf + count)) buf in
  f <- set_fileio_buf f index buf ;;
  let ppos := ppos + count in
  if (fb_pos buf =? fb_size buf) ||
     (negb read && truthy (Z.land (fio_flags f) VB2_FILEIO_WRITE_IMMEDIATELY)) then
    if read && truthy (Z.land (fio_flags f) VB2_FILEIO_READ_ONCE) && (fio_dq_count f =? 1) then
      modify (set_fileio (Some f)) ;; ret <- __vb2_cleanup_fileio ;; mdo (Some (ret, ppos))
    else fileio_requeue f index count ppos read
  else fileio_end f (s32 count) ppos.

(** What follows the [vb2_dqbuf] of the emulator. *)
Definition fileio_dequeued (f : vb2_fileio_data) (index ret : Z) (b : v4l2_buffer)
    (count ppos : Z) (read : bool) : vb2M (option (Z * Z)) :=
  let f := set_fio_b b f in
  if truthy ret then fileio_end f ret ppos else
  let f := set_fio_dq_count (u32 (fio_dq_count f + 1)) f in
  vb <- buf_at index ;; vb <- the vb ;; size <- vb2_get_plane_payload vb 0 ;;
  buf <- the (mget (fio_bufs f) index) ;;
  f <- set_fileio_buf f index (set_fb_queued false (set_fb_size size buf)) ;;
  fileio_transfer f index count ppos read.

(** Result and new position; [None] is asleep in [vb2_dqbuf], with the context
    taken off the queue. *)
Definition __vb2_perform_fileio (data : bool) (count ppos : Z) (nonblock read : bool) :
    vb2M (option (Z * Z)) :=
  if negb data then mdo (Some (- EINVAL, ppos)) else
  f <- gets fileio ;;
  ret <- (if present f then mdo 0 else __vb2_init_fileio read) ;;
  if truthy ret then mdo (Some (ret, ppos)) else
  f <- gets fileio ;; f <- the f ;;
  modify (set_fileio None) ;;
  let index := fio_index f in
  buf <- the (mget (fio_bufs f) index) ;;
  if fb_queued buf then
    b <- fileio_buffer index 0 ;;
    r <- vb2_dqbuf b nonblock ;;
    match r with
    | None => mdo None
    | Some (ret, b) => fileio_dequeued f index ret b count ppos read
    end
  else fileio_transfer f index count ppos read.

Definition vb2_read (data : bool) (count ppos : Z) (nonblocking : bool) : vb2M (option (Z * Z)) :=
  __vb2_perform_fileio data count ppos nonblocking true.

Definition vb2_write (data : bool) (count ppos : Z) (nonblocking : bool) : vb2M (option (Z * Z)) :=
  __vb2_perform_fileio data count ppos nonblocking false.

Definition vb2_poll : vb2M Z :=
  q <- gets (fun q => q) ;;
  if (num_buffers q =? 0) && negb (present (fileio q)) then
    ret <- (if negb (V4L2_TYPE_IS_OUTPUT (q_type q)) && truthy (Z.land (io_modes q) VB2_READ)
            then __vb2_init_fileio true else mdo 0) ;;
    if truthy ret then mdo POLLERR else
    if V4L2_TYPE_IS_OUTPUT (q_type q) && truthy (Z.land (io_modes q) VB2_WRITE) then
      ret <- __vb2_init_fileio false ;;
      if truthy ret then mdo POLLERR else mdo (Z.lor POLLOUT POLLWRNORM)
    else poll_done
  else poll_done.

End fileio.
