(* ===== verification/Vb2Inv.v ===== *)
(** Weakest preconditions of the heap accesses of videobuf2, and the changes of
    a queue that leave the state of its buffers and their shape alone. *)

From S2P Require Import Prelude StateM Vb2Types Vb2Core.

(** ** Weakest preconditions of the accesses *)

Lemma wp_log {B} c (k : unit -> vb2M B) q Q :
  wp (k tt) (set_q_log (q_log q ++ [c]) q) Q -> wp (mthen (log_call c) k) q Q.
Proof. done. Qed.

Lemma wp_vb_get {B} vb v (k : vb2_buffer -> vb2M B) q Q :
  q_heap q !! vb = Some v -> wp (k v) q Q -> wp (mthen (vb_get vb) k) q Q.
Proof. intros Hv Hk. unfold wp, mthen, vb_get, gets, the, mdo. unfold mthen. by rewrite Hv. Qed.

Lemma vb_put_eq vb v v' q :
  q_heap q !! vb = Some v -> vb_put vb v' q = Some (tt, set_q_heap (<[vb := v']> (q_heap q)) q).
Proof. intros Hv. unfold vb_put, mthen, gets. by rewrite Hv. Qed.

Lemma wp_vb_put {B} vb v v' (k : unit -> vb2M B) q Q :
  q_heap q !! vb = Some v -> wp (k tt) (set_q_heap (<[vb := v']> (q_heap q)) q) Q ->
  wp (mthen (vb_put vb v') k) q Q.
Proof. intros Hv Hk. unfold wp, mthen. by rewrite (vb_put_eq vb v v' q Hv). Qed.

Lemma vb_upd_eq vb v f q :
  q_heap q !! vb = Some v -> vb_upd vb f q = Some (tt, set_q_heap (<[vb := f v]> (q_heap q)) q).
Proof.
  intros Hv. transitivity (vb_put vb (f v) q); [|by apply (vb_put_eq vb v)].
  unfold vb_upd, vb_get, gets, the, mdo. unfold mthen at 1 2. by rewrite Hv.
Qed.

Lemma wp_vb_upd {B} vb v f (k : unit -> vb2M B) q Q :
  q_heap q !! vb = Some v -> wp (k tt) (set_q_heap (<[vb := f v]> (q_heap q)) q) Q ->
  wp (mthen (vb_upd vb f) k) q Q.
Proof. intros Hv Hk. unfold wp, mthen. by rewrite (vb_upd_eq vb v f q Hv). Qed.

(** ** Changes that no queue operation is about

    Contents of the buffers and the call log may change, the states and the
    shape of the buffers stay. *)

Record same_shape (v v' : vb2_buffer) : Prop := {
  ss_index : b_index (v4l2_buf v') = b_index (v4l2_buf v);
  ss_type : b_type (v4l2_buf v') = b_type (v4l2_buf v);
  ss_memory : b_memory (v4l2_buf v') = b_memory (v4l2_buf v);
  ss_num : num_planes v' = num_planes v;
  ss_v4l2 : zlen (v4l2_planes v') = zlen (v4l2_planes v);
  ss_planes : zlen (planes v') = zlen (planes v);
  ss_state : vb_state v' = vb_state v;
}.

Lemma same_shape_refl v : same_shape v v.
Proof. by split. Qed.

Lemma same_shape_trans a b c : same_shape a b -> same_shape b c -> same_shape a c.
Proof. intros [] []. split; congruence. Qed.

Definition heap_quiet (h h' : gmap nat vb2_buffer) : Prop :=
  forall a, option_Forall2 same_shape (h !! a) (h' !! a).

Definition quiet (q q' : vb2_queue) : Prop :=
  q' = set_q_log (q_log q') (set_q_heap (q_heap q') q) /\ heap_quiet (q_heap q) (q_heap q').

Lemma heap_quiet_refl h : heap_quiet h h.
Proof. intros a. destruct (h !! a); constructor. apply same_shape_refl. Qed.

Lemma heap_quiet_trans a b c : heap_quiet a b -> heap_quiet b c -> heap_quiet a c.
Proof.
  intros H1 H2 x. specialize (H1 x). specialize (H2 x).
  inversion H1 as [v w Hvw E1 E2|E1 E2]; rewrite <- E2 in H2; inversion H2; subst; constructor.
  by eapply same_shape_trans.
Qed.

Lemma heap_quiet_insert h a v v' : h !! a = Some v -> same_shape v v' -> heap_quiet h (<[a := v']> h).
Proof.
  intros Hv Hs x. destruct (decide (x = a)) as [->|Hn].
  - rewrite Hv, lookup_insert_eq. by constructor.
  - rewrite lookup_insert_ne by done. apply heap_quiet_refl.
Qed.

Lemma quiet_refl q : quiet q q.
Proof. split; [by destruct q|apply heap_quiet_refl]. Qed.

Lemma quiet_trans a b c : quiet a b -> quiet b c -> quiet a c.
Proof.
  intros [E1 H1] [E2 H2]. split; [|by eapply heap_quiet_trans]. rewrite E2, E1. done.
Qed.

Lemma quiet_log c q : quiet q (set_q_log (q_log q ++ [c]) q).
Proof. split; [by destruct q|apply heap_quiet_refl]. Qed.

Lemma quiet_insert q a v v' :
  q_heap q !! a = Some v -> same_shape v v' -> quiet q (set_q_heap (<[a := v']> (q_heap q)) q).
Proof. intros Hv Hs. split; [by destruct q|by eapply heap_quiet_insert]. Qed.

Lemma quiet_lookup q q' a v :
  quiet q q' -> q_heap q !! a = Some v -> exists v', q_heap q' !! a = Some v' /\ same_shape v v'.
Proof.
  intros [_ Hq] Hv. specialize (Hq a). rewrite Hv in Hq. inversion Hq; subst. eauto.
Qed.

Lemma quiet_proj {A} (f : vb2_queue -> A) q q' :
  quiet q q' -> (forall l h, f (set_q_log l (set_q_heap h q)) = f q) -> f q' = f q.
Proof. intros [-> _] Hf. apply Hf. Qed.

Create HintDb vb2.
#[export] Hint Resolve quiet_refl quiet_log same_shape_refl : vb2.

(** ** Live buffers *)

Definition buf_shape (v : vb2_buffer) : Prop :=
  0 <= num_planes v <= 8 /\ zlen (v4l2_planes v) = 8 /\ zlen (planes v) = 8.

Definition live (q : vb2_queue) (vb : nat) : Prop :=
  exists v, q_heap q !! vb = Some v /\ buf_shape v.

Lemma shape_same v v' : buf_shape v -> same_shape v v' -> buf_shape v'.
Proof. intros (? & ? & ?) []. unfold buf_shape. split_and!; lia. Qed.

Lemma live_quiet q q' vb : live q vb -> quiet q q' -> live q' vb.
Proof.
  intros (v & Hv & Hs) Hq. destruct (quiet_lookup q q' vb v Hq Hv) as (v' & Hv' & Hss).
  exists v'. eauto using shape_same.
Qed.

(** Run a part of an operation that is quiet, and go on from there. *)
Lemma wp_quiet {A B} (m : vb2M A) (k : A -> vb2M B) q0 q (R : A -> vb2_queue -> Prop) Q :
  quiet q0 q -> wp m q (fun a q' => quiet q q' /\ R a q') ->
  (forall a q', quiet q0 q' -> R a q' -> wp (k a) q' Q) -> wp (mthen m k) q Q.
Proof.
  intros Hq Hm Hk. eapply wp_seq; [exact Hm|]. intros a q' [Hq' Hr].
  apply Hk; [by eapply quiet_trans|done].
Qed.

(** Loops whose body is quiet on a set of live buffers. *)
Lemma wp_mfor_quiet {A} (l : list A) (body : A -> vb2M unit) q (P : vb2_queue -> Prop) :
  P q -> (forall q q', P q -> quiet q q' -> P q') ->
  (forall x q, x ∈ l -> P q -> wp (body x) q (fun _ q' => quiet q q')) ->
  wp (mfor l body) q (fun _ q' => quiet q q').
Proof.
  intros Hp Hst Hb.
  eapply wp_mono; [apply (wp_mfor l body (fun q' => P q' /\ quiet q q'))|by intros ? ? []].
  - auto with vb2.
  - intros x q1 Hx [Hp1 Hq1]. eapply wp_mono; [by apply Hb|]. intros [] q2 Hq2.
    split; [by eapply Hst|by eapply quiet_trans].
Qed.

(** The parts of the videobuf2 operations that work on the contents of buffers:
    on live buffers they do not fault and they are quiet, that is they leave
    the lists, the states and the shape of every buffer alone. *)

(** What the ioctl layer hands over: the planes array, copied from user space,
    has as many entries as [length] says. *)
Definition user_buffer (b : v4l2_buffer) : Prop :=
  0 <= b_index b < 2 ^ 32 /\ forall ps, b_planes b = Some ps -> zlen ps = b_length b.

Section quiet.
Context `{E : Vb2Env}.

Lemma mget_in {A} (l : list A) i : 0 <= i < zlen l -> exists x, mget l i = Some x.
Proof. intros Hi. apply mget_is_Some in Hi as [x ?]. eauto. Qed.

Lemma mset_in {A} (l : list A) i x :
  0 <= i < zlen l -> exists l', mset l i x = Some l' /\ zlen l' = zlen l.
Proof.
  intros Hi. unfold mset. rewrite bool_decide_true by done. eexists. by rewrite zlen_insert.
Qed.

Lemma wp_get_plane {B} vb plane v (k : vb2_plane -> vb2M B) q Q :
  q_heap q !! vb = Some v -> 0 <= plane < zlen (planes v) ->
  (forall p, mget (planes v) plane = Some p -> wp (k p) q Q) -> wp (mthen (get_plane vb plane) k) q Q.
Proof.
  intros Hv Hp Hk. destruct (mget_in (planes v) plane Hp) as [p Hp'].
  apply wp_mthen. eapply wp_vb_get; [done|]. rewrite Hp'. by apply Hk.
Qed.

Lemma wp_get_v4l2_plane {B} vb plane v (k : v4l2_plane -> vb2M B) q Q :
  q_heap q !! vb = Some v -> 0 <= plane < zlen (v4l2_planes v) ->
  (forall p, mget (v4l2_planes v) plane = Some p -> wp (k p) q Q) ->
  wp (mthen (get_v4l2_plane vb plane) k) q Q.
Proof.
  intros Hv Hp Hk. destruct (mget_in (v4l2_planes v) plane Hp) as [p Hp'].
  apply wp_mthen. eapply wp_vb_get; [done|]. rewrite Hp'. by apply Hk.
Qed.

Lemma upd_plane_quiet vb plane f q :
  live q vb -> 0 <= plane < 8 -> wp (upd_plane vb plane f) q (fun _ q' => quiet q q').
Proof.
  intros (v & Hv & Hs1 & Hs2 & Hs3) Hp.
  destruct (mget_in (planes v) plane) as [p Hp']; [lia|].
  destruct (mset_in (planes v) plane (f p)) as (ps & Hps & Hl); [lia|].
  eapply wp_vb_get; [done|]. eapply wp_the; [done|]. eapply wp_the; [done|].
  unfold wp. rewrite (vb_put_eq vb v (set_planes ps v) q Hv). eapply quiet_insert; [done|].
  by split.
Qed.

Lemma upd_v4l2_plane_quiet vb plane f q :
  live q vb -> 0 <= plane < 8 -> wp (upd_v4l2_plane vb plane f) q (fun _ q' => quiet q q').
Proof.
  intros (v & Hv & Hs1 & Hs2 & Hs3) Hp.
  destruct (mget_in (v4l2_planes v) plane) as [p Hp']; [lia|].
  destruct (mset_in (v4l2_planes v) plane (f p)) as (ps & Hps & Hl); [lia|].
  eapply wp_vb_get; [done|]. eapply wp_the; [done|]. eapply wp_the; [done|].
  unfold wp. rewrite (vb_put_eq vb v (set_v4l2_planes ps v) q Hv). eapply quiet_insert; [done|].
  by split.
Qed.

Lemma call_qop_quiet {A} (op : option (list vb2_call -> A)) d c q :
  wp (call_qop op d c) q (fun _ q' => quiet q q').
Proof. destruct op; [apply quiet_log|apply quiet_refl]. Qed.

Lemma call_qop_result {A} (op : option (list vb2_call -> A)) d c q :
  wp (call_qop op d c) q (fun r q' =>
    quiet q q' /\ (op = None /\ r = d \/ exists f log, op = Some f /\ r = f log)).
Proof. destruct op; (split; [auto with vb2|eauto 6]). Qed.

Lemma call_put_quiet p q : wp (call_put p) q (fun _ q' => quiet q q').
Proof. unfold call_put. destruct has_put; [apply quiet_log|apply quiet_refl]. Qed.

Lemma call_put_userptr_quiet p q : wp (call_put_userptr p) q (fun _ q' => quiet q q').
Proof. unfold call_put_userptr. destruct has_put_userptr; [apply quiet_log|apply quiet_refl]. Qed.

Lemma wp_planes_of {B} vb v (k : list Z -> vb2M B) q Q :
  q_heap q !! vb = Some v -> wp (k (seqZ 0 (num_planes v))) q Q -> wp (mthen (planes_of vb) k) q Q.
Proof. intros Hv Hk. apply wp_mthen. by eapply wp_vb_get. Qed.

(** The loops over the planes of a live buffer. *)
Lemma planes_loop_quiet vb n (body : Z -> vb2M unit) q :
  live q vb ->
  (forall plane q, plane ∈ n -> live q vb -> wp (body plane) q (fun _ q' => quiet q q')) ->
  wp (mfor n body) q (fun _ q' => quiet q q').
Proof. intros Hl Hb. apply (wp_mfor_quiet n body q (fun q => live q vb)); eauto using live_quiet. Qed.

(** Two quiet parts in a row, on a live buffer. *)
Lemma quiet_seq {A B} vb (m : vb2M A) (k : A -> vb2M B) q :
  live q vb -> wp m q (fun _ q' => quiet q q') ->
  (forall a q', live q' vb -> wp (k a) q' (fun _ q2 => quiet q' q2)) ->
  wp (mthen m k) q (fun _ q' => quiet q q').
Proof.
  intros Hl Hm Hk. eapply wp_seq; [exact Hm|]. intros a q' Hq'. cbv beta in Hq'.
  eapply wp_mono; [eauto using live_quiet|]. intros ? ? ?. by eapply quiet_trans.
Qed.

Lemma get_plane_quiet {B} vb plane (k : vb2_plane -> vb2M B) q Q :
  live q vb -> 0 <= plane < 8 -> (forall p, wp (k p) q Q) -> wp (mthen (get_plane vb plane) k) q Q.
Proof. intros (v & Hv & _ & _ & Hs) Hp Hk. eapply wp_get_plane; [done|lia|auto]. Qed.

Lemma mem_free_quiet vb q : live q vb -> wp (__vb2_buf_mem_free vb) q (fun _ q' => quiet q q').
Proof.
  intros Hl. pose proof Hl as (v & Hv & Hs). eapply wp_planes_of; [done|].
  apply (planes_loop_quiet vb); [done|]. intros plane q1 Hp Hl1.
  apply elem_of_seqZ in Hp. destruct Hs as (? & _ & _).
  apply get_plane_quiet; [done|lia|]. intros p.
  apply (quiet_seq vb); [done|apply call_put_quiet|]. intros [] q2 Hl2.
  apply upd_plane_quiet; [done|lia].
Qed.

Lemma userptr_put_quiet vb q : live q vb -> wp (__vb2_buf_userptr_put vb) q (fun _ q' => quiet q q').
Proof.
  intros Hl. pose proof Hl as (v & Hv & Hs). eapply wp_planes_of; [done|].
  apply (planes_loop_quiet vb); [done|]. intros plane q1 Hp Hl1.
  apply elem_of_seqZ in Hp. destruct Hs as (? & _ & _).
  apply get_plane_quiet; [done|lia|]. intros p. destruct (mem_priv p); [|apply quiet_refl].
  apply (quiet_seq vb); [done|apply call_put_userptr_quiet|]. intros [] q2 Hl2.
  apply upd_plane_quiet; [done|lia].
Qed.

Lemma elem_of_rev_seqZ i n : i ∈ rev (seqZ 0 n) -> 0 <= i < n.
Proof. rewrite list_elem_of_In, <- in_rev, <- list_elem_of_In, elem_of_seqZ. lia. Qed.

Lemma release_planes_quiet vb n q :
  live q vb -> n <= 8 -> wp (release_planes vb n) q (fun _ q' => quiet q q').
Proof.
  intros Hl Hn. apply (planes_loop_quiet vb); [done|]. intros plane q1 Hp Hl1.
  apply elem_of_rev_seqZ in Hp.
  apply get_plane_quiet; [done|lia|]. intros p.
  apply (quiet_seq vb); [done|apply call_put_userptr_quiet|]. intros [] q2 Hl2.
  apply upd_plane_quiet; [done|lia].
Qed.

Lemma wp_the_in {A B} (l : list A) i (k : A -> vb2M B) q Q :
  0 <= i < zlen l -> (forall x, mget l i = Some x -> wp (k x) q Q) ->
  wp (mthen (the (mget l i)) k) q Q.
Proof. intros Hi Hk. destruct (mget_in l i Hi) as [x Hx]. rewrite Hx. by apply Hk. Qed.

Lemma ctx_quiet q q' : quiet q q' -> alloc_ctx q' = alloc_ctx q.
Proof. intros Hq. by apply (quiet_proj alloc_ctx). Qed.

Lemma mem_alloc_loop_quiet n : forall plane vb sizes q,
  live q vb -> 0 <= plane -> plane + Z.of_nat n <= 8 -> zlen sizes = 8 -> zlen (alloc_ctx q) = 8 ->
  wp (mem_alloc_loop n plane vb sizes) q
     (fun r q' => quiet q q' /\ forall p, r = Some p -> 0 <= p < 8).
Proof.
  induction n as [|n IH]; intros plane vb sizes q Hl Hp Hn Hs Hc; cbn [mem_alloc_loop].
  { split; [apply quiet_refl|done]. }
  apply wp_gets. apply wp_the_in; [lia|]. intros ctx _. apply wp_the_in; [lia|]. intros size _.
  eapply wp_seq; [apply call_qop_quiet|]. cbv beta. intros [m|] q1 Hq1.
  2: { split; [done|]. intros ? [= <-]. lia. }
  assert (live q1 vb) as Hl1 by eauto using live_quiet.
  eapply wp_seq; [apply upd_plane_quiet; [done|lia]|]. cbv beta. intros _ q2 Hq2.
  assert (live q2 vb) as Hl2 by eauto using live_quiet.
  eapply wp_seq; [apply upd_v4l2_plane_quiet; [done|lia]|]. cbv beta. intros _ q3 Hq3.
  assert (quiet q q3) as Hq by eauto using quiet_trans.
  eapply wp_mono; [apply IH; [eauto using live_quiet|lia|lia|done|]|].
  { by rewrite (ctx_quiet q q3). }
  cbv beta. intros r q4 [Hq4 Hr]. split; [by eapply quiet_trans|done].
Qed.

Lemma mem_alloc_quiet vb sizes q :
  live q vb -> zlen sizes = 8 -> zlen (alloc_ctx q) = 8 ->
  wp (__vb2_buf_mem_alloc vb sizes) q (fun _ q' => quiet q q').
Proof.
  intros Hl Hs Hc. pose proof Hl as (v & Hv & Hn & _ & _).
  eapply wp_vb_get; [done|]. eapply wp_seq.
  { apply mem_alloc_loop_quiet; [done|lia|lia|done|done]. }
  cbv beta. intros [p|] q1 [Hq1 Hr]; [|done].
  assert (live q1 vb) as Hl1 by eauto using live_quiet. specialize (Hr p eq_refl).
  eapply wp_seq.
  { apply (planes_loop_quiet vb); [done|]. intros plane q2 Hp Hl2.
    apply elem_of_rev_seqZ in Hp. apply get_plane_quiet; [done|lia|]. intros.
    apply call_put_quiet. }
  cbv beta. intros _ q2 Hq2. by eapply quiet_trans.
Qed.

Lemma plane_offsets_quiet vb l : forall off q,
  live q vb -> (forall p, p ∈ l -> 0 <= p < 8) ->
  wp (plane_offsets vb l off) q (fun _ q' => quiet q q').
Proof.
  induction l as [|p l IH]; intros off q Hl Hp; cbn [plane_offsets]; [apply quiet_refl|].
  assert (0 <= p < 8) by (apply Hp; set_solver).
  apply (quiet_seq vb); [done|by apply upd_v4l2_plane_quiet|].
  intros _ q1 Hl1. pose proof Hl1 as (v & Hv & _ & Hs & _).
  eapply wp_get_v4l2_plane; [done|lia|]. intros x _. apply IH; [done|]. set_solver.
Qed.

(** The slots in a list hold live buffers or nothing. *)
Definition slots_ok (q : vb2_queue) (l : list Z) : Prop :=
  forall i, i ∈ l -> exists o, mget (q_bufs q) i = Some o /\ forall vb, o = Some vb -> live q vb.

Lemma slots_ok_quiet q q' l : slots_ok q l -> quiet q q' -> slots_ok q' l.
Proof.
  intros Hs Hq i Hi. destruct (Hs i Hi) as (o & Ho & Hl). exists o.
  rewrite (quiet_proj q_bufs q q' Hq) by done. eauto using live_quiet.
Qed.

Lemma live_planes q vb v : live q vb -> q_heap q !! vb = Some v ->
  forall p, p ∈ seqZ 0 (num_planes v) -> 0 <= p < 8.
Proof.
  intros (v' & Hv' & (? & _)) Hv p Hp. simplify_eq. apply elem_of_seqZ in Hp. lia.
Qed.

Lemma buffer_offsets_quiet l : forall off q,
  slots_ok q l -> wp (buffer_offsets l off) q (fun _ q' => quiet q q').
Proof.
  induction l as [|i l IH]; intros off q Hs; cbn [buffer_offsets]; [apply quiet_refl|].
  destruct (Hs i) as (o & Ho & Hl); [set_solver|].
  assert (slots_ok q l) as Hs' by (intros ??; apply Hs; set_solver).
  apply wp_mthen. apply wp_gets. rewrite Ho. apply wp_mdo. destruct o as [vb|]; [|by apply IH].
  specialize (Hl vb eq_refl). pose proof Hl as (v & Hv & _).
  eapply wp_planes_of; [done|].
  eapply wp_seq; [apply plane_offsets_quiet; [done|by eapply live_planes]|]. cbv beta.
  intros off' q1 Hq1. eapply wp_mono; [apply IH; by eapply slots_ok_quiet|].
  intros [] q2 Hq2. by eapply quiet_trans.
Qed.

(** ** Reporting and use counts *)

Lemma fill_v4l2_ok vb v b q :
  q_heap q !! vb = Some v -> buf_shape v -> user_buffer b ->
  wp (__fill_v4l2_buffer vb b) q
     (fun r q' => q' = q /\ b_index (r.2) = b_index (v4l2_buf v)).
Proof.
  intros Hv (Hn & Hs & _) [_ Hb]. eapply wp_vb_get; [done|]. apply wp_gets, wp_gets.
  destruct (V4L2_TYPE_IS_MULTIPLANAR _).
  - unfold __verify_planes_array. cbn [copy_head set_b_input set_b_reserved b_planes b_length].
    destruct (b_planes b) as [ps|]; [|done]. specialize (Hb ps eq_refl).
    rewrite Z.gtb_ltb.
    destruct (Z.ltb_spec (b_length b) (num_planes v)); [done|].
    destruct (Z.ltb_spec VIDEO_MAX_PLANES (b_length b)); [done|]. unfold VIDEO_MAX_PLANES in *.
    cbn [orb Z.eqb negb].
    assert (zlen (slice (v4l2_planes v) 0 (b_length b)) = b_length b) by (apply zlen_slice; lia).
    eapply wp_the; [done|]. eapply wp_the; [apply mread_Some; lia|].
    eapply wp_the; [apply mwrite_Some; lia|]. done.
  - apply wp_the_in; [lia|]. intros p _. by destruct (_ || _).
Qed.

Lemma plane_in_use_quiet vb l : forall q,
  live q vb -> (forall p, p ∈ l -> 0 <= p < 8) -> wp (plane_in_use vb l) q (fun _ q' => quiet q q').
Proof.
  induction l as [|p l IH]; intros q Hl Hp; cbn [plane_in_use]; [apply quiet_refl|].
  apply get_plane_quiet; [done|set_solver|]. intros x.
  apply (quiet_seq vb); [done|apply call_qop_quiet|]. intros n q1 Hl1.
  destruct (n >? 1); [apply quiet_refl|]. apply IH; [done|]. set_solver.
Qed.

(** The slots in a list hold live buffers. *)
Definition slots_live (q : vb2_queue) (l : list Z) : Prop :=
  forall i, i ∈ l -> exists vb, mget (q_bufs q) i = Some (Some vb) /\ live q vb.

Lemma slots_live_ok q l : slots_live q l -> slots_ok q l.
Proof. intros Hs i Hi. destruct (Hs i Hi) as (vb & Hg & Hl). exists (Some vb). naive_solver. Qed.

Lemma slots_live_quiet q q' l : slots_live q l -> quiet q q' -> slots_live q' l.
Proof.
  intros Hs Hq i Hi. destruct (Hs i Hi) as (vb & Hg & Hl). exists vb.
  rewrite (quiet_proj q_bufs q q' Hq) by done. eauto using live_quiet.
Qed.

Lemma wp_buf_at {B} i o (k : option nat -> vb2M B) q Q :
  mget (q_bufs q) i = Some o -> wp (k o) q Q -> wp (mthen (buf_at i) k) q Q.
Proof. intros Hg Hk. apply wp_mthen, wp_gets. by rewrite Hg. Qed.

Lemma buffer_in_use_quiet l : forall q,
  slots_live q l -> wp (buffer_in_use l) q (fun _ q' => quiet q q').
Proof.
  induction l as [|i l IH]; intros q Hs; cbn [buffer_in_use]; [apply quiet_refl|].
  destruct (Hs i) as (vb & Hg & Hl); [set_solver|].
  eapply wp_buf_at; [done|]. apply wp_the with vb; [done|].
  pose proof Hl as (v & Hv & _). eapply wp_planes_of; [done|].
  eapply wp_seq; [apply plane_in_use_quiet; [done|by eapply live_planes]|]. cbv beta.
  intros [] q1 Hq1; [done|]. eapply wp_mono; [apply IH|].
  { eapply slots_live_quiet; [|done]. intros j Hj. apply Hs. set_solver. }
  intros ? q2 Hq2. by eapply quiet_trans.
Qed.

(** ** Taking a buffer over from userspace *)

Lemma fill_planes_ok f n from to :
  0 <= n <= zlen from -> n <= zlen to ->
  exists to', fill_planes f n from to = Some to' /\ zlen to' = zlen to.
Proof.
  unfold fill_planes. intros Hf Ht.
  assert (forall i, i ∈ seqZ 0 n -> 0 <= i < zlen from /\ 0 <= i < zlen to) as Hl.
  { intros i. rewrite elem_of_seqZ. lia. }
  clear Hf Ht. revert to Hl. generalize (seqZ 0 n). intros l. induction l as [|i l IH]; intros to Hl.
  { by exists to. }
  destruct (Hl i) as [H1 H2]; [set_solver|]. cbn [foldl mbind option_bind].
  destruct (mget_in from i H1) as [s ->]. destruct (mget_in to i H2) as [d ->].
  cbn [mbind option_bind]. destruct (mset_in to i (f s d) H2) as (to' & -> & Hz).
  destruct (IH to') as (to2 & -> & Hz2).
  - intros j Hj. rewrite Hz. apply Hl. set_solver.
  - exists to2. split; [done|lia].
Qed.

Lemma fill_head_shape f v :
  b_index f = b_index (v4l2_buf v) -> b_type f = b_type (v4l2_buf v) ->
  b_memory f = b_memory (v4l2_buf v) -> same_shape v (set_v4l2_buf f v).
Proof. by split. Qed.

(** The last step of [__fill_vb2_buffer]. *)
Lemma put_head_quiet {A} vb v f (a : A) q (R : A -> Prop) :
  q_heap q !! vb = Some v -> same_shape v (set_v4l2_buf f v) -> R a ->
  wp (mthen (vb_put vb (set_v4l2_buf f v)) (fun _ => mdo a)) q (fun r q' => quiet q q' /\ R r).
Proof.
  intros Hv Hs Ha. eapply wp_vb_put; [done|]. split; [by eapply quiet_insert|done].
Qed.

Lemma fill_vb2_quiet vb b ps q :
  live q vb -> user_buffer b -> zlen ps = 8 ->
  wp (__fill_vb2_buffer vb b ps) q (fun r q' => quiet q q' /\ zlen (r.2) = 8).
Proof.
  intros (v & Hv & Hn & Hs & _) [_ Hb] Hps. eapply wp_vb_get; [done|].
  destruct (V4L2_TYPE_IS_MULTIPLANAR _).
  - unfold __verify_planes_array. destruct (b_planes b) as [user|]; [|split; [apply quiet_refl|done]].
    specialize (Hb user eq_refl). rewrite Z.gtb_ltb.
    destruct (Z.ltb_spec (b_length b) (num_planes v)); [split; [apply quiet_refl|done]|].
    destruct (Z.ltb_spec VIDEO_MAX_PLANES (b_length b)); [split; [apply quiet_refl|done]|].
    cbn [orb Z.eqb negb]. eapply wp_the; [done|].
    set (f1 := fun s d : v4l2_plane => set_pl_data_offset _ _).
    set (f2 := fun s d : v4l2_plane => set_pl_length _ _).
    destruct (fill_planes_ok f1 (num_planes v) user ps) as (ps1 & E1 & Z1); [lia|lia|].
    assert (exists ps2, (if V4L2_TYPE_IS_OUTPUT (b_type b) then fill_planes f1 (num_planes v) user ps
                         else Some ps) = Some ps2 /\ zlen ps2 = 8) as (ps2 & E2 & Z2).
    { destruct (V4L2_TYPE_IS_OUTPUT _); eexists; (split; [done|lia]). }
    eapply wp_the; [exact E2|].
    destruct (fill_planes_ok f2 (num_planes v) user ps2) as (ps3 & E3 & Z3); [lia|lia|].
    assert (exists ps4, (if b_memory b =? V4L2_MEMORY_USERPTR
                         then fill_planes f2 (num_planes v) user ps2
                         else Some ps2) = Some ps4 /\ zlen ps4 = 8) as (ps4 & E4 & Z4).
    { destruct (_ =? _); eexists; (split; [done|lia]). }
    eapply wp_the; [exact E4|].
    by apply (put_head_quiet vb v _ (0, ps4) q (fun r => zlen (r.2) = 8)).
  - apply wp_the_in; [lia|]. intros p _. cbv zeta.
    match goal with |- context [mset ps 0 ?x] => destruct (mset_in ps 0 x) as (ps' & E1 & Z1); [lia|] end.
    eapply wp_the; [exact E1|].
    apply (put_head_quiet vb v _ (0, ps') q (fun r => zlen (r.2) = 8)); [done|done|].
    cbn [snd]. lia.
Qed.

Lemma acquire_planes_quiet l : forall vb ps write q,
  live q vb -> (forall p, p ∈ l -> 0 <= p < 8) -> zlen ps = 8 -> zlen (alloc_ctx q) = 8 ->
  wp (acquire_planes l vb ps write) q
     (fun r q' => quiet q q' /\ forall p e, r = inr (p, e) -> 0 <= p < 8).
Proof.
  induction l as [|p l IH]; intros vb ps write q Hl Hp Hs Hc; cbn [acquire_planes].
  { split; [apply quiet_refl|done]. }
  assert (0 <= p < 8) as Hp8 by apply Hp, list_elem_of_here.
  assert (forall p, p ∈ l -> 0 <= p < 8) as Hp' by (intros; by apply Hp, list_elem_of_further).
  pose proof Hl as (v & Hv & _ & Hz & _).
  eapply wp_get_v4l2_plane; [done|lia|]. intros old _. apply wp_the_in; [lia|]. intros new _.
  destruct (_ && _); [by apply IH|]. apply get_plane_quiet; [done|done|]. intros x.
  apply wp_seq with (P := fun _ q' => quiet q q').
  { destruct (mem_priv x); [apply call_put_userptr_quiet|apply quiet_refl]. }
  intros _ q1 Hq1. cbv beta in Hq1. eapply wp_seq; [apply upd_plane_quiet; [by eapply live_quiet|done]|].
  cbv beta. intros _ q2 Hq2.
  assert (quiet q q2) as Hq by eauto using quiet_trans.
  assert (live q2 vb) as Hl2 by eauto using live_quiet.
  assert (zlen (alloc_ctx q2) = 8) as Hc2 by (by rewrite (ctx_quiet q q2)).
  destruct get_userptr as [f|].
  2: { eapply wp_mono; [by apply IH|]. intros r q3 [Hq3 Hr]. split; [by eapply quiet_trans|done]. }
  apply wp_gets. apply wp_the_in; [lia|]. intros ctx _. apply wp_log, wp_gets.
  set (q3 := set_q_log _ q2). assert (quiet q q3) as Hq3 by (eapply quiet_trans; [done|apply quiet_log]).
  destruct (f _ _ _ _) as [e|m].
  { split; [done|]. intros ? ? [= <- <-]. done. }
  eapply wp_seq; [apply upd_plane_quiet; [by apply (live_quiet q q3)|done]|]. cbv beta. intros _ q4 Hq4.
  eapply wp_mono; [apply IH|].
  - eauto using live_quiet.
  - done.
  - done.
  - by rewrite (ctx_quiet q q4) by eauto using quiet_trans.
  - intros r q5 [Hq5 Hr]. split; [eauto using quiet_trans|done].
Qed.

Lemma qbuf_mmap_quiet vb b q :
  live q vb -> user_buffer b -> wp (__qbuf_mmap vb b) q (fun _ q' => quiet q q').
Proof.
  intros Hl Hb. pose proof Hl as (v & Hv & _ & Hz & _). eapply wp_vb_get; [done|].
  eapply wp_seq; [by apply fill_vb2_quiet|]. cbv beta. intros [ret ps] q1 [Hq1 Hps].
  destruct (truthy ret); [done|].
  destruct (live_quiet q q1 vb Hl Hq1) as (v1 & Hv1 & Hs1).
  eapply wp_vb_upd; [done|]. eapply quiet_trans; [done|]. eapply quiet_insert; [done|].
  destruct Hs1 as (_ & Hs1 & _). split; try done. cbn in *. lia.
Qed.

Context `{!Vb2EnvLaws E}.

Lemma qbuf_userptr_quiet vb b q :
  live q vb -> user_buffer b -> zlen (alloc_ctx q) = 8 ->
  wp (__qbuf_userptr vb b) q (fun _ q' => quiet q q').
Proof.
  intros Hl Hb Hc. apply wp_gets, wp_gets.
  eapply wp_seq; [by apply fill_vb2_quiet, stack_planes_len|]. cbv beta.
  intros [ret ps] q1 [Hq1 Hps]. cbn [snd] in Hps. destruct (truthy ret); [done|].
  pose proof (live_quiet q q1 vb Hl Hq1) as Hl1. pose proof Hl1 as (v & Hv & Hn & _).
  assert (forall p, p ∈ seqZ 0 (num_planes v) -> 0 <= p < 8) as Hp by (by eapply live_planes).
  eapply wp_planes_of; [done|].
  eapply wp_seq; [apply acquire_planes_quiet; [done|done|done|by rewrite (ctx_quiet q q1)]|].
  cbv beta. intros r q2 [Hq2 Hr].
  assert (quiet q q2) as Hq by eauto using quiet_trans.
  assert (live q2 vb) as Hl2 by eauto using live_quiet.
  eapply wp_mono with (P := fun _ q' => quiet q2 q').
  2: { intros ? q3 Hq3. by eapply quiet_trans. }
  destruct r as [[]|[p e]].
  2: { specialize (Hr p e eq_refl). apply (quiet_seq vb); [done|apply release_planes_quiet; [done|lia]|].
       intros; apply quiet_refl. }
  apply (quiet_seq vb); [done|apply call_qop_quiet|]. intros ret2 q3 Hl3. destruct (truthy ret2).
  - pose proof Hl3 as (v3 & Hv3 & Hn3 & _). eapply wp_vb_get; [done|].
    apply (quiet_seq vb); [done|apply release_planes_quiet; [done|lia]|]. intros; apply quiet_refl.
  - apply (quiet_seq vb); [done| |intros; apply quiet_refl].
    apply (planes_loop_quiet vb); [done|]. intros p q4 Hin Hl4. specialize (Hp p Hin).
    apply wp_the_in; [lia|]. intros x _. by apply upd_v4l2_plane_quiet.
Qed.

End quiet.
