(* ===== verification/Vb2Spec.v ===== *)
(** What a videobuf2 queue promises: an abstract machine of buffer ownership.

    A buffer belongs to userspace (DEQUEUED), waits in the queue (QUEUED), is
    with the driver (ACTIVE), or has been completed (DONE, ERROR).  The machine
    has one event per change of ownership; the operations of
    videobuf2-core.c are shown to be sequences of these events in Vb2Refine.v. *)

From S2P Require Import Prelude StateM Vb2Types.

Implicit Types (st : gmap nat vb2_buffer_state) (a b : nat) (l : list nat).

(** ** The machine *)

Record own := mk_own {
  o_state : gmap nat vb2_buffer_state;
  o_queued : list nat;
  o_done : list nat;
  o_count : Z;
  o_streaming : bool;
}.

Inductive own_event :=
  | ev_queue (a : nat)
  | ev_hand (a : nat)
  | ev_complete (a : nat) (s : vb2_buffer_state)
  | ev_deliver (a : nat)
  | ev_drop (a : nat)
  | ev_start
  | ev_stop
  | ev_realloc.

Definition completed_state (s : vb2_buffer_state) : Prop :=
  s = VB2_BUF_STATE_DONE \/ s = VB2_BUF_STATE_ERROR.

Definition without (a : nat) (l : list nat) : list nat := filter (fun b => b <> a) l.

Inductive own_step : own -> own_event -> own -> Prop :=
  | own_queue st qd dn n on a :
    st !! a = Some VB2_BUF_STATE_DEQUEUED ->
    own_step (mk_own st qd dn n on) (ev_queue a)
             (mk_own (<[a := VB2_BUF_STATE_QUEUED]> st) (qd ++ [a]) dn n on)
  | own_hand st qd dn n a :
    st !! a = Some VB2_BUF_STATE_QUEUED ->
    own_step (mk_own st qd dn n true) (ev_hand a)
             (mk_own (<[a := VB2_BUF_STATE_ACTIVE]> st) qd dn (n + 1) true)
  | own_complete st qd dn n on a s :
    st !! a = Some VB2_BUF_STATE_ACTIVE -> completed_state s ->
    own_step (mk_own st qd dn n on) (ev_complete a s)
             (mk_own (<[a := s]> st) qd (dn ++ [a]) (n - 1) on)
  | own_deliver st qd dn n on a :
    own_step (mk_own st qd (a :: dn) n on) (ev_deliver a)
             (mk_own (<[a := VB2_BUF_STATE_DEQUEUED]> st) (without a qd) dn n on)
  | own_drop st qd dn n on a :
    own_step (mk_own st qd (a :: dn) n on) (ev_drop a) (mk_own st qd dn n on)
  | own_start st qd dn n :
    own_step (mk_own st qd dn n false) ev_start (mk_own st qd dn n true)
  | own_stop st qd dn n on :
    own_step (mk_own st qd dn n on) ev_stop
             (mk_own ((fun _ => VB2_BUF_STATE_DEQUEUED) <$> st) [] [] 0 false)
  | own_realloc st st' n :
    (forall a s, st' !! a = Some s -> s = VB2_BUF_STATE_DEQUEUED) ->
    own_step (mk_own st [] [] n false) ev_realloc (mk_own st' [] [] 0 false).

Inductive own_steps : own -> list own_event -> own -> Prop :=
  | own_nil o : own_steps o [] o
  | own_cons o e o' tr o2 : own_step o e o' -> own_steps o' tr o2 -> own_steps o (e :: tr) o2.

Lemma own_one o e o' : own_step o e o' -> own_steps o [e] o'.
Proof. intros Hs. econstructor; [done|constructor]. Qed.

Lemma own_app o tr o' tr' o2 :
  own_steps o tr o' -> own_steps o' tr' o2 -> own_steps o (tr ++ tr') o2.
Proof. induction 1; [done|]. intros. econstructor; eauto. Qed.

Lemma own_snoc o tr o' e o2 : own_steps o tr o' -> own_step o' e o2 -> own_steps o (tr ++ [e]) o2.
Proof. intros Ht Hs. eapply own_app; [done|by apply own_one]. Qed.

(** ** Its invariant *)

Definition held (o : own) : list nat :=
  filter (fun a => o_state o !! a = Some VB2_BUF_STATE_ACTIVE) (o_queued o).

Record own_inv (o : own) : Prop := {
  oi_queued_nodup : NoDup (o_queued o);
  oi_queued : forall a, a ∈ o_queued o <-> exists s, o_state o !! a = Some s /\ s <> VB2_BUF_STATE_DEQUEUED;
  oi_done_nodup : NoDup (o_done o);
  oi_done : forall a, a ∈ o_done o -> exists s, o_state o !! a = Some s /\ completed_state s;
  oi_count : o_count o = zlen (held o);
  oi_idle : o_streaming o = false -> forall a s, o_state o !! a = Some s ->
            s = VB2_BUF_STATE_DEQUEUED \/ s = VB2_BUF_STATE_QUEUED;
}.

Lemma filter_insert_notin st l a s :
  a ∉ l ->
  filter (fun b => <[a := s]> st !! b = Some VB2_BUF_STATE_ACTIVE) l =
  filter (fun b => st !! b = Some VB2_BUF_STATE_ACTIVE) l.
Proof.
  induction l as [|b l IH]; intros Ha; [done|]. rewrite not_elem_of_cons in Ha.
  rewrite !filter_cons, lookup_insert_ne by naive_solver. by rewrite IH by naive_solver.
Qed.

Definition is_active (o : option vb2_buffer_state) : Z :=
  if decide (o = Some VB2_BUF_STATE_ACTIVE) then 1 else 0.

Lemma is_active_yes : is_active (Some VB2_BUF_STATE_ACTIVE) = 1.
Proof. done. Qed.

Lemma is_active_no s : s <> VB2_BUF_STATE_ACTIVE -> is_active (Some s) = 0.
Proof. intros Hs. unfold is_active. rewrite decide_False; [done|]. by intros [=]. Qed.

(** Changing the state of one queued buffer changes the count by its own part. *)
Lemma held_insert st l a s :
  NoDup l -> a ∈ l ->
  zlen (filter (fun b => <[a := s]> st !! b = Some VB2_BUF_STATE_ACTIVE) l) =
  zlen (filter (fun b => st !! b = Some VB2_BUF_STATE_ACTIVE) l)
  - is_active (st !! a) + is_active (Some s).
Proof.
  intros Hn Ha. apply list_elem_of_split in Ha as (l1 & l2 & ->).
  apply NoDup_app in Hn as (_ & Hd & Hn2). apply NoDup_cons in Hn2 as [Ha2 _].
  assert (a ∉ l1) as Ha1 by (intros Hin; apply (Hd a Hin); set_solver).
  rewrite !filter_app, !zlen_app, (filter_insert_notin _ l1) by done.
  rewrite !filter_cons, lookup_insert_eq, (filter_insert_notin _ l2) by done.
  unfold is_active. repeat case_decide; rewrite ?zlen_cons; lia.
Qed.

(** Removing a buffer that is not with the driver does not change the count. *)
Lemma held_without st l a :
  st !! a <> Some VB2_BUF_STATE_ACTIVE ->
  filter (fun b => st !! b = Some VB2_BUF_STATE_ACTIVE) (without a l) =
  filter (fun b => st !! b = Some VB2_BUF_STATE_ACTIVE) l.
Proof.
  intros Ha. induction l as [|b l IH]; [done|]. unfold without in *. rewrite !filter_cons.
  destruct (decide (b <> a)) as [Hb|Hb].
  - rewrite filter_cons, IH. done.
  - apply dec_stable in Hb as ->. by rewrite (decide_False (P := st !! a = _)) by done.
Qed.

Lemma elem_of_without a b l : b ∈ without a l <-> b <> a /\ b ∈ l.
Proof. unfold without. rewrite list_elem_of_filter. done. Qed.

Lemma without_notin a l : a ∉ l -> without a l = l.
Proof.
  induction l as [|b l IH]; intros Ha; [done|]. rewrite not_elem_of_cons in Ha. unfold without in *.
  rewrite filter_cons, decide_True by naive_solver. by rewrite IH by naive_solver.
Qed.

Lemma without_head a l : a ∉ l -> without a (a :: l) = l.
Proof.
  intros Ha. unfold without. rewrite filter_cons, decide_False by naive_solver.
  by apply without_notin.
Qed.

Lemma NoDup_without a l : NoDup l -> NoDup (without a l).
Proof. apply NoDup_filter. Qed.

Lemma NoDup_snoc l a : NoDup l -> a ∉ l -> NoDup (l ++ [a]).
Proof. intros. apply NoDup_app. split_and!; [done|set_solver|apply NoDup_singleton]. Qed.

(** Looking a state up after one change. *)
Ltac own_lookup :=
  repeat match goal with
  | H : context [<[?a := _]> _ !! ?b] |- _ =>
    destruct (decide (b = a)) as [->|];
    [rewrite lookup_insert_eq in H|rewrite lookup_insert_ne in H by done]
  | |- context [<[?a := _]> _ !! ?b] =>
    destruct (decide (b = a)) as [->|];
    [rewrite lookup_insert_eq|rewrite lookup_insert_ne by done]
  end.

Section preservation.
Variables (st : gmap nat vb2_buffer_state) (qd dn : list nat) (n : Z) (on : bool).
Hypothesis Hinv : own_inv (mk_own st qd dn n on).

Lemma queued_iff a : a ∈ qd <-> exists s, st !! a = Some s /\ s <> VB2_BUF_STATE_DEQUEUED.
Proof. apply (oi_queued _ Hinv). Qed.

Lemma done_state a : a ∈ dn -> exists s, st !! a = Some s /\ completed_state s.
Proof. apply (oi_done _ Hinv). Qed.

Lemma count_held : n = zlen (filter (fun b => st !! b = Some VB2_BUF_STATE_ACTIVE) qd).
Proof. apply (oi_count _ Hinv). Qed.

Lemma queue_keeps a :
  st !! a = Some VB2_BUF_STATE_DEQUEUED ->
  own_inv (mk_own (<[a := VB2_BUF_STATE_QUEUED]> st) (qd ++ [a]) dn n on).
Proof.
  intros Ha. assert (a ∉ qd) as Hn by (rewrite queued_iff; naive_solver).
  split; cbn [o_queued o_state o_done o_count o_streaming].
  - apply NoDup_snoc; [apply Hinv|done].
  - intros b. rewrite elem_of_app, list_elem_of_singleton, queued_iff. own_lookup; naive_solver.
  - apply Hinv.
  - intros b Hb. destruct (done_state b Hb) as (s & Hs & Hc). own_lookup; [|naive_solver].
    rewrite Ha in Hs. unfold completed_state in Hc. naive_solver.
  - unfold held. cbn [o_state o_queued]. rewrite filter_app, zlen_app, filter_insert_notin by done.
    rewrite filter_cons, decide_False by (rewrite lookup_insert_eq; done).
    rewrite filter_nil, (@zlen_nil nat), count_held. lia.
  - intros Hon b s Hs. own_lookup; [naive_solver|]. by apply (oi_idle _ Hinv Hon b).
Qed.

(** A queued buffer changes state without leaving the queue. *)
Lemma change_keeps a s0 s dn' :
  st !! a = Some s0 -> s0 <> VB2_BUF_STATE_DEQUEUED -> s <> VB2_BUF_STATE_DEQUEUED -> on = true ->
  NoDup dn' ->
  (forall b, b ∈ dn' -> b ∈ dn \/ (b = a /\ completed_state s)) ->
  (a ∈ dn -> completed_state s) ->
  own_inv (mk_own (<[a := s]> st) qd dn' (n - is_active (Some s0) + is_active (Some s)) on).
Proof.
  intros Ha H0 Hs Hon Hnd Hdn Had. assert (a ∈ qd) as Hin by (apply queued_iff; eauto).
  split; cbn [o_queued o_state o_done o_count o_streaming].
  - apply Hinv.
  - intros b. rewrite queued_iff. own_lookup; naive_solver.
  - done.
  - intros b Hb. destruct (Hdn b Hb) as [Hb'|[-> Hc]].
    + destruct (done_state b Hb') as (s' & Hs' & Hc'). own_lookup; naive_solver.
    + rewrite lookup_insert_eq. eauto.
  - unfold held. cbn [o_state o_queued]. rewrite held_insert, <- count_held, Ha by (done || apply Hinv).
    done.
  - by rewrite Hon.
Qed.

Lemma completed_not_dequeued s : completed_state s -> s <> VB2_BUF_STATE_DEQUEUED.
Proof. unfold completed_state. naive_solver. Qed.

Lemma not_done a s : st !! a = Some s -> ~ completed_state s -> a ∉ dn.
Proof. intros Ha Hs Hin. destruct (done_state a Hin) as (s' & Hs' & Hc). naive_solver. Qed.

Lemma hand_keeps a :
  on = true -> st !! a = Some VB2_BUF_STATE_QUEUED ->
  own_inv (mk_own (<[a := VB2_BUF_STATE_ACTIVE]> st) qd dn (n + 1) on).
Proof.
  intros Hon Ha. replace (n + 1) with (n - is_active (Some VB2_BUF_STATE_QUEUED)
    + is_active (Some VB2_BUF_STATE_ACTIVE)) by (rewrite is_active_yes, is_active_no by done; lia).
  apply change_keeps; auto; try done; [apply Hinv|].
  intros Hin. exfalso. revert Hin. apply (not_done a VB2_BUF_STATE_QUEUED); [done|].
  unfold completed_state. naive_solver.
Qed.

Lemma complete_keeps a s :
  st !! a = Some VB2_BUF_STATE_ACTIVE -> completed_state s ->
  own_inv (mk_own (<[a := s]> st) qd (dn ++ [a]) (n - 1) on).
Proof.
  intros Ha Hc. replace (n - 1) with (n - is_active (Some VB2_BUF_STATE_ACTIVE)
    + is_active (Some s)) by (rewrite is_active_yes, is_active_no by (by destruct Hc as [-> | ->]); lia).
  assert (on = true) as Hon.
  { destruct on eqn:E; [done|]. destruct (oi_idle _ Hinv eq_refl a _ Ha); done. }
  apply change_keeps; auto; try done.
  - by apply completed_not_dequeued.
  - apply NoDup_snoc; [apply Hinv|]. apply (not_done a VB2_BUF_STATE_ACTIVE); [done|].
    unfold completed_state. naive_solver.
  - intros b. rewrite elem_of_app, list_elem_of_singleton. naive_solver.
Qed.

Lemma drop_keeps a dn' : dn = a :: dn' -> own_inv (mk_own st qd dn' n on).
Proof.
  intros Hdn. pose proof (oi_done_nodup _ Hinv) as Hnd. cbn in Hnd. rewrite Hdn in Hnd.
  apply NoDup_cons in Hnd as [_ Hnd]. split; try apply Hinv; [done|].
  intros b Hb. apply done_state. rewrite Hdn. set_solver.
Qed.

Lemma deliver_keeps a dn' :
  dn = a :: dn' ->
  own_inv (mk_own (<[a := VB2_BUF_STATE_DEQUEUED]> st) (without a qd) dn' n on).
Proof.
  intros Hdn. pose proof (oi_done_nodup _ Hinv) as Hnd. cbn in Hnd. rewrite Hdn in Hnd.
  apply NoDup_cons in Hnd as [Ha Hnd]. destruct (done_state a) as (s & Hs & Hc).
  { rewrite Hdn. set_solver. }
  split; cbn [o_queued o_state o_done o_count o_streaming].
  - apply NoDup_without, Hinv.
  - intros b. rewrite elem_of_without, queued_iff. own_lookup; naive_solver.
  - done.
  - intros b Hb. destruct (done_state b) as (s' & Hs' & Hc'); [rewrite Hdn; set_solver|].
    rewrite lookup_insert_ne by (by intros ->). eauto.
  - unfold held. cbn [o_state o_queued].
    rewrite filter_insert_notin by (rewrite elem_of_without; naive_solver).
    rewrite held_without; [apply count_held|]. rewrite Hs. destruct Hc as [-> | ->]; done.
  - intros Hon b s' Hs'. own_lookup; [naive_solver|]. by apply (oi_idle _ Hinv Hon b).
Qed.

End preservation.

Lemma all_dequeued_inv st on :
  (forall a s, st !! a = Some s -> s = VB2_BUF_STATE_DEQUEUED) -> own_inv (mk_own st [] [] 0 on).
Proof.
  intros Hd. split; cbn [o_queued o_state o_done o_count o_streaming]; try done.
  - apply NoDup_nil_2.
  - intros a. split; [set_solver|]. intros (s & Hs & Hn). by apply Hd in Hs.
  - apply NoDup_nil_2.
  - set_solver.
  - eauto.
Qed.

Lemma own_step_inv o e o' : own_step o e o' -> own_inv o -> own_inv o'.
Proof.
  intros Hs Hi. destruct Hs.
  - by eapply queue_keeps.
  - by eapply hand_keeps.
  - by eapply complete_keeps.
  - by eapply deliver_keeps.
  - by eapply drop_keeps.
  - destruct Hi. by split.
  - apply all_dequeued_inv. intros a s. rewrite lookup_fmap.
    destruct (st !! a); cbn; naive_solver.
  - by apply all_dequeued_inv.
Qed.

Lemma own_steps_inv o tr o' : own_steps o tr o' -> own_inv o -> own_inv o'.
Proof. induction 1; eauto using own_step_inv. Qed.

(** ** The order of completion is the order of delivery *)

Definition completions (tr : list own_event) : list nat :=
  omap (fun e => match e with ev_complete a _ => Some a | _ => None end) tr.

Definition removals (tr : list own_event) : list nat :=
  omap (fun e => match e with ev_deliver a | ev_drop a => Some a | _ => None end) tr.

Definition is_reset (e : own_event) : bool :=
  match e with ev_stop | ev_realloc => true | _ => false end.

Lemma own_steps_fifo o tr o' :
  own_steps o tr o' -> forallb (fun e => negb (is_reset e)) tr = true ->
  o_done o ++ completions tr = removals tr ++ o_done o'.
Proof.
  induction 1 as [|o e o1 tr o2 Hs Ht IH]; intros Hr; cbn in *; [by rewrite app_nil_r|].
  apply andb_true_iff in Hr as [He Hr]. specialize (IH Hr).
  destruct Hs; cbn in *; try done; try (by f_equal); by rewrite <- app_assoc in IH.
Qed.

(** ** What the driver's events leave alone *)

(** Nothing waits in a queue that is streaming. *)
Definition settled (o : own) : Prop :=
  o_streaming o = true -> forall a, o_state o !! a <> Some VB2_BUF_STATE_QUEUED.

(** The driver's part of a trace. *)
Definition driver_event (e : own_event) : Prop :=
  match e with ev_hand _ | ev_complete _ _ => True | _ => False end.

Definition complete_event (e : own_event) : Prop :=
  match e with ev_complete _ _ => True | _ => False end.

Lemma driver_steps_queued o tr o' b :
  own_steps o tr o' -> Forall driver_event tr ->
  o_streaming o' = o_streaming o /\
  (o_state o' !! b = Some VB2_BUF_STATE_QUEUED <->
   o_state o !! b = Some VB2_BUF_STATE_QUEUED /\ ev_hand b ∉ tr).
Proof.
  induction 1 as [o|o e o1 tr o2 Hs Ht IH]; intros Hd; [split; [done|set_solver]|].
  apply Forall_cons in Hd as [He Hd]. destruct (IH Hd) as [-> IHq]. rewrite IHq, not_elem_of_cons.
  destruct Hs as [| st qd dn n a Ha|st qd dn n on a s Ha Hc | | | | |]; try done;
    cbn [o_state o_streaming]; (split; [done|]); own_lookup; rewrite ?Ha;
    unfold completed_state in *; naive_solver.
Qed.

Lemma complete_is_driver tr : Forall complete_event tr -> Forall driver_event tr.
Proof. intros H. eapply Forall_impl; [exact H|]. by intros []. Qed.

Lemma settled_driver o tr o' :
  own_steps o tr o' -> Forall driver_event tr -> settled o -> settled o'.
Proof.
  intros Ht Hd Hs Hon a Ha. destruct (driver_steps_queued o tr o' a Ht Hd) as [E Hq].
  apply Hq in Ha as [Ha _]. rewrite E in Hon. by apply (Hs Hon a).
Qed.

(** A buffer queued while streaming has to be handed over. *)
Lemma settled_queue o a o1 t o2 :
  settled o -> own_step o (ev_queue a) o1 -> own_steps o1 t o2 -> Forall driver_event t ->
  (o_streaming o = true -> ev_hand a ∈ t) -> settled o2.
Proof.
  intros Hs H1 Ht Hd Hh Hon b Hb. inversion H1; subst.
  destruct (driver_steps_queued _ t o2 b Ht Hd) as [E Hq]. apply Hq in Hb as [Hb Hn].
  cbn in E, Hb. rewrite E in Hon. subst on. specialize (Hh eq_refl).
  own_lookup; [done|]. by apply (Hs eq_refl b).
Qed.

Lemma settled_remove o e o' :
  own_step o e o' -> settled o -> (exists a, e = ev_deliver a \/ e = ev_drop a) -> settled o'.
Proof.
  intros Hst Hs (a & [-> | ->]); inversion Hst; subst; intros Hon b; cbn in *.
  - own_lookup; [done|]. by apply (Hs Hon).
  - by apply (Hs Hon).
Qed.

(** Starting hands over all that waits. *)
Lemma settled_start o o1 t o2 :
  own_inv o -> own_step o ev_start o1 -> own_steps o1 t o2 -> Forall driver_event t ->
  (forall a, a ∈ o_queued o -> ev_hand a ∈ t) -> settled o2.
Proof.
  intros Hi H1 Ht Hd Hh Hon b Hb. inversion H1; subst.
  destruct (driver_steps_queued _ t o2 b Ht Hd) as [E Hq]. apply Hq in Hb as [Hb Hn].
  apply Hn, Hh. apply (oi_queued _ Hi). cbn in *. eauto.
Qed.

(** What single events and final stops leave. *)
Lemma own_stop_last o tr o' :
  own_steps o (tr ++ [ev_stop]) o' ->
  exists st, o' = mk_own ((fun _ => VB2_BUF_STATE_DEQUEUED) <$> st) [] [] 0 false.
Proof.
  remember (tr ++ [ev_stop]) as t eqn:Et. intros Ht. revert tr Et.
  induction Ht as [o|o e o1 t o2 Hs Ht IH]; intros tr Et; [by destruct tr|].
  destruct tr as [|x tr]; cbn in Et; injection Et as -> Et.
  - subst t. inversion Ht; subst. inversion Hs; subst. eauto.
  - by eapply IH.
Qed.

Lemma own_deliver_one o a o' :
  own_steps o [ev_deliver a] o' ->
  exists l, o_done o = a :: l /\ o_done o' = l /\ o_state o' !! a = Some VB2_BUF_STATE_DEQUEUED.
Proof.
  intros Ht. inversion Ht as [|? ? ? ? ? Hs Ht']; subst. inversion Ht'; subst. inversion Hs; subst.
  eexists. split_and!; [done|done|apply lookup_insert_eq].
Qed.

Lemma own_nil_same o o' : own_steps o [] o' -> o' = o.
Proof. intros Ht. by inversion Ht. Qed.

Lemma own_drop_one o a o' :
  own_steps o [ev_drop a] o' ->
  exists l, o_done o = a :: l /\ o_done o' = l /\ o_state o' = o_state o.
Proof.
  intros Ht. inversion Ht as [|? ? ? ? ? Hs Ht']; subst. inversion Ht'; subst. inversion Hs; subst.
  eexists. by split_and!.
Qed.
