(* ===== verification/Vb2Shape.v ===== *)
(** The buffers of a videobuf2 queue as an array of live, distinct structures,
    and the allocation and release of all of them by [vb2_reqbufs]. *)

From S2P Require Import Prelude StateM Vb2Types Vb2Core Vb2Inv.

(** ** The buffer array *)

(** [addrs] are the buffers, in the order of their indices. *)
Record vb2_cells `{Vb2Env} (q : vb2_queue) (addrs : list nat) : Prop := {
  sh_bufs : q_bufs q = (Some <$> addrs) ++ replicate (32 - length addrs) None;
  sh_len : (length addrs <= 32)%nat;
  sh_nodup : NoDup addrs;
  sh_dom : forall a, is_Some (q_heap q !! a) <-> a ∈ addrs;
  sh_next : forall a, a ∈ addrs -> (a < q_next q)%nat;
  sh_ctx : zlen (alloc_ctx q) = 8;
  sh_ok : forall a v, q_heap q !! a = Some v -> buf_shape v;
  sh_head : forall i a v, addrs !! i = Some a -> q_heap q !! a = Some v ->
            b_index (v4l2_buf v) = Z.of_nat i /\ b_type (v4l2_buf v) = q_type q
            /\ b_memory (v4l2_buf v) = q_memory q;
  sh_mmap : q_memory q = V4L2_MEMORY_MMAP -> present mem_mmap = true;
  sh_fileio : fileio q = None;
}.

Definition vb2_shape `{Vb2Env} (q : vb2_queue) (addrs : list nat) : Prop :=
  vb2_cells q addrs /\ num_buffers q = zlen addrs.

(** Every buffer is with userspace. *)
Definition all_idle (q : vb2_queue) : Prop :=
  forall a v, q_heap q !! a = Some v -> vb_state v = VB2_BUF_STATE_DEQUEUED.

Section shape.
Context `{E : Vb2Env}.

Lemma cells_live q addrs a : vb2_cells q addrs -> a ∈ addrs -> live q a.
Proof.
  intros Hc Ha. apply (sh_dom _ _ Hc) in Ha as [v Hv]. exists v. eauto using sh_ok.
Qed.

Lemma cells_quiet q q' addrs : vb2_cells q addrs -> quiet q q' -> vb2_cells q' addrs.
Proof.
  intros Hc Hq.
  assert (forall {A} (f : vb2_queue -> A), (forall l h, f (set_q_log l (set_q_heap h q)) = f q) ->
    f q' = f q) as Hf by (intros; by apply quiet_proj).
  destruct Hq as [E1 Hh].
  assert (forall a v', q_heap q' !! a = Some v' -> exists v, q_heap q !! a = Some v /\ same_shape v v')
    as Hback.
  { intros a v' Hv'. specialize (Hh a). rewrite Hv' in Hh. inversion Hh; eauto. }
  split.
  - rewrite (Hf _ q_bufs) by done. apply Hc.
  - apply Hc.
  - apply Hc.
  - intros a. rewrite <- (sh_dom _ _ Hc a). specialize (Hh a).
    destruct Hh; split; intros [? ?]; (eauto || done).
  - intros a Ha. rewrite (Hf _ q_next) by done. by apply (sh_next _ _ Hc).
  - rewrite (Hf _ alloc_ctx) by done. apply Hc.
  - intros a v' Hv'. destruct (Hback a v' Hv') as (v & Hv & Hs). eauto using shape_same, sh_ok.
  - intros i a v' Ha Hv'. destruct (Hback a v' Hv') as (v & Hv & Hs).
    rewrite (Hf _ q_type), (Hf _ q_memory) by done.
    destruct Hs as [-> -> -> _ _ _ _]. by apply (sh_head _ _ Hc i a).
  - rewrite (Hf _ q_memory) by done. apply Hc.
  - rewrite (Hf _ fileio) by done. apply Hc.
Qed.

Lemma shape_quiet q q' addrs : vb2_shape q addrs -> quiet q q' -> vb2_shape q' addrs.
Proof.
  intros [Hc Hn] Hq. split; [by eapply cells_quiet|]. by rewrite (quiet_proj num_buffers q q' Hq).
Qed.

Lemma idle_quiet q q' : all_idle q -> quiet q q' -> all_idle q'.
Proof.
  intros Hi [_ Hh] a v' Hv'. specialize (Hh a). rewrite Hv' in Hh. inversion Hh as [v ? Hs E1|].
  subst. destruct Hs as [_ _ _ _ _ _ ->]. eauto.
Qed.

(** The slots in use hold the buffers. *)
Lemma shape_slot q addrs i :
  vb2_cells q addrs -> 0 <= i < zlen addrs ->
  exists a, mget (q_bufs q) i = Some (Some a) /\ addrs !! Z.to_nat i = Some a /\ a ∈ addrs.
Proof.
  intros Hc Hi. destruct (lookup_lt_is_Some_2 addrs (Z.to_nat i)) as [a Ha]; [unfold zlen in Hi; lia|].
  exists a. split_and!; [|done|by eapply list_elem_of_lookup_2]. apply mget_Some. split; [lia|].
  rewrite (sh_bufs _ _ Hc), lookup_app_l, list_lookup_fmap, Ha; [done|].
  rewrite length_fmap. by apply lookup_lt_Some in Ha.
Qed.

Lemma shape_slots_live q addrs : vb2_shape q addrs -> slots_live q (seqZ 0 (num_buffers q)).
Proof.
  intros [Hc Hn] i Hi. apply elem_of_seqZ in Hi. destruct (shape_slot q addrs i Hc) as (a & Hg & _ & Ha).
  - lia.
  - exists a. eauto using cells_live.
Qed.

(** ** Releasing all buffers *)

Lemma free_mem_quiet q :
  slots_ok q (seqZ 0 (num_buffers q)) -> wp __vb2_free_mem q (fun _ q' => quiet q q').
Proof.
  intros Hs. apply wp_mthen, wp_gets, wp_mdo.
  apply (wp_mfor_quiet _ _ q (fun q1 => slots_ok q1 (seqZ 0 (num_buffers q)))).
  - done.
  - eauto using slots_ok_quiet.
  - intros i q1 Hi Hs1. destruct (Hs1 i Hi) as (o & Ho & Hl). eapply wp_buf_at; [done|].
    destruct o as [vb|]; [|apply quiet_refl]. apply wp_gets. specialize (Hl vb eq_refl).
    destruct (_ =? _); [by apply mem_free_quiet|by apply userptr_put_quiet].
Qed.

(** The state after the loop that frees the structures. *)
Definition emptied (q : vb2_queue) : vb2_queue := set_q_bufs (replicate 32 None) (set_q_heap ∅ q).

Definition free_slot (buffer : Z) : vb2M unit :=
  vb <- buf_at buffer ;;
  match vb with None => mdo tt | Some vb => kfree_buffer vb end ;;
  set_buf_at buffer None.

Lemma wp_set_buf_at {B} i o (k : unit -> vb2M B) q Q :
  0 <= i < zlen (q_bufs q) -> wp (k tt) (set_q_bufs (<[Z.to_nat i := o]> (q_bufs q)) q) Q ->
  wp (mthen (set_buf_at i o) k) q Q.
Proof.
  intros Hi Hk. apply wp_mthen, wp_gets. eapply wp_the; [|exact Hk].
  unfold mset. by rewrite bool_decide_true by done.
Qed.

Lemma wp_set_buf i o q (Q : unit -> vb2_queue -> Prop) :
  0 <= i < zlen (q_bufs q) -> Q tt (set_q_bufs (<[Z.to_nat i := o]> (q_bufs q)) q) ->
  wp (set_buf_at i o) q Q.
Proof.
  intros Hi HQ. apply wp_gets. eapply wp_the; [|exact HQ].
  unfold mset. by rewrite bool_decide_true by done.
Qed.

Lemma wp_kfree {B} vb (k : unit -> vb2M B) q Q :
  is_Some (q_heap q !! vb) -> wp (k tt) (set_q_heap (delete vb (q_heap q)) q) Q ->
  wp (mthen (kfree_buffer vb) k) q Q.
Proof. intros [v Hv] Hk. apply wp_mthen, wp_gets. by rewrite Hv. Qed.

Lemma free_loop rest : forall (k : nat) q,
  q_bufs q = replicate k None ++ (Some <$> rest) ++ replicate (32 - k - length rest) None ->
  (k + length rest <= 32)%nat -> NoDup rest -> (forall a, is_Some (q_heap q !! a) <-> a ∈ rest) ->
  wp (mfor (seqZ (Z.of_nat k) (zlen rest)) free_slot) q (fun _ q' => q' = emptied q).
Proof.
  induction rest as [|a rest IH]; intros k q Hb Hlen Hnd Hdom.
  - change (q = emptied q). unfold emptied. cbn [fmap list_fmap app length] in Hb.
    rewrite <- replicate_add in Hb.
    replace (k + (32 - k - 0))%nat with 32%nat in Hb by (cbn in Hlen; lia).
    assert (q_heap q = ∅) as Hh.
    { apply map_eq. intros a. rewrite lookup_empty. apply eq_None_not_Some. rewrite Hdom. set_solver. }
    destruct q. cbn in Hb, Hh. by subst.
  - rewrite zlen_cons in *. cbn [length] in Hlen. apply NoDup_cons in Hnd as [Ha Hnd].
    rewrite seqZ_cons by (pose proof (zlen_nonneg rest); lia). cbn [mfor].
    assert (q_bufs q !! k = Some (Some a)) as Hk.
    { rewrite Hb, lookup_app_r by (rewrite length_replicate; lia).
      rewrite length_replicate, Nat.sub_diag. done. }
    assert (mget (q_bufs q) (Z.of_nat k) = Some (Some a)) as Hg.
    { apply mget_Some. rewrite Nat2Z.id. split; [lia|done]. }
    apply wp_mthen. eapply wp_buf_at; [done|]. apply wp_kfree; [apply Hdom; set_solver|].
    apply mget_lt in Hg. apply wp_set_buf; [done|]. rewrite Nat2Z.id.
    replace (Z.succ (Z.of_nat k)) with (Z.of_nat (S k)) by lia.
    replace (Z.pred (1 + zlen rest)) with (zlen rest) by lia.
    eapply wp_mono; [apply IH|].
    + cbn [q_bufs set_q_bufs set_q_heap]. rewrite Hb.
      rewrite insert_app_r_alt by (rewrite length_replicate; lia).
      rewrite length_replicate, Nat.sub_diag. cbn.
      rewrite (app_comm_cons (replicate k None)), replicate_cons_app, <- app_assoc. cbn.
      do 4 f_equal. lia.
    + lia.
    + done.
    + intros b. cbn [q_heap set_q_bufs set_q_heap]. destruct (decide (b = a)) as [->|Hba].
      * rewrite lookup_delete_eq. split; [by intros []|done].
      * rewrite lookup_delete_ne by done. rewrite Hdom. set_solver.
    + cbv beta. intros [] q' ->. done.
Qed.

Lemma queue_free_wp q addrs :
  vb2_shape q addrs ->
  wp __vb2_queue_free q (fun _ q' =>
    exists q1, quiet q q1 /\ q' = set_q_memory 0 (set_num_buffers 0 (emptied q1))).
Proof.
  intros Hsh. pose proof Hsh as [Hc Hn]. apply wp_mthen, wp_gets, wp_mdo.
  apply wp_seq with (P := fun _ q1 => quiet q q1).
  { destruct has_buf_cleanup; [|apply quiet_refl].
    apply (wp_mfor_quiet _ _ q (fun q1 => slots_live q1 (seqZ 0 (num_buffers q)))).
    - by eapply shape_slots_live.
    - eauto using slots_live_quiet.
    - intros i q1 Hi Hs1. destruct (Hs1 i Hi) as (vb & Hg & Hl). eapply wp_buf_at; [done|].
      apply quiet_log. }
  intros [] q1 Hq1. pose proof (shape_quiet _ _ _ Hsh Hq1) as Hsh1.
  eapply wp_seq; [apply free_mem_quiet; by eapply slots_live_ok, shape_slots_live|].
  cbv beta. intros [] q2 Hq2. assert (quiet q q2) as Hq by eauto using quiet_trans.
  pose proof (shape_quiet _ _ _ Hsh1 Hq2) as [Hc2 _]. rewrite Hn.
  eapply wp_seq; [apply (free_loop addrs 0 q2); try apply Hc2|].
  cbv beta. intros [] q' ->. by exists q2.
Qed.

(** ** Allocating *)

Definition same_lists (q q' : vb2_queue) : Prop :=
  queued_list q' = queued_list q /\ done_list q' = done_list q /\
  queued_count q' = queued_count q /\ streaming q' = streaming q.

Lemma same_lists_trans a b c : same_lists a b -> same_lists b c -> same_lists a c.
Proof. intros (? & ? & ? & ?) (? & ? & ? & ?). unfold same_lists. split_and!; congruence. Qed.

Lemma same_lists_quiet q q' : quiet q q' -> same_lists q q'.
Proof. intros Hq. split_and!; by apply quiet_proj. Qed.

(** The queue right after [kzalloc]. *)
Definition kzalloced (b : vb2_buffer) (q : vb2_queue) : vb2_queue :=
  set_q_next (S (q_next q)) (set_q_heap (<[q_next q := b]> (q_heap q)) q).

Definition slot_set (i : nat) (vb : nat) (q : vb2_queue) : vb2_queue :=
  set_q_bufs (<[i := Some vb]> (q_bufs q)) q.

Lemma fresh_not_in q addrs : vb2_cells q addrs -> q_next q ∉ addrs.
Proof. intros Hc Hin. apply (sh_next _ _ Hc) in Hin. lia. Qed.

Lemma new_buffer_shape type memory n index :
  0 <= n <= 8 -> buf_shape (new_buffer type memory n index).
Proof. intros Hn. split_and!; (done || (cbn; lia)). Qed.

Lemma new_buffer_head type memory n index :
  b_index (v4l2_buf (new_buffer type memory n index)) = index /\
  b_type (v4l2_buf (new_buffer type memory n index)) = type /\
  b_memory (v4l2_buf (new_buffer type memory n index)) = memory.
Proof. unfold new_buffer. by destruct (V4L2_TYPE_IS_MULTIPLANAR type). Qed.

Lemma cells_push q addrs n :
  vb2_cells q addrs -> (length addrs < 32)%nat -> 0 <= n <= 8 ->
  let b := new_buffer (q_type q) (q_memory q) n (zlen addrs) in
  vb2_cells (slot_set (length addrs) (q_next q) (kzalloced b q)) (addrs ++ [q_next q]).
Proof.
  intros Hc Hlen Hn b. pose proof (fresh_not_in _ _ Hc) as Hf.
  split; cbn [slot_set kzalloced q_bufs set_q_bufs set_q_next set_q_heap q_heap q_next alloc_ctx
    q_type q_memory fileio]; try apply Hc.
  - rewrite (sh_bufs _ _ Hc), insert_app_r_alt by (by rewrite length_fmap).
    rewrite length_fmap, Nat.sub_diag, length_app, fmap_app, <- app_assoc. cbn [length].
    replace (32 - length addrs)%nat with (S (32 - (length addrs + 1))) by lia. done.
  - rewrite length_app. cbn. lia.
  - apply NoDup_app. split_and!; [apply Hc|set_solver|apply NoDup_singleton].
  - intros a. rewrite elem_of_app, list_elem_of_singleton. destruct (decide (a = q_next q)) as [->|Ha].
    + rewrite lookup_insert_eq. split; eauto.
    + rewrite lookup_insert_ne, (sh_dom _ _ Hc) by done. naive_solver.
  - intros a. rewrite elem_of_app, list_elem_of_singleton. intros [Ha|Ha]; [|lia].
    apply (sh_next _ _ Hc) in Ha. lia.
  - intros a v. destruct (decide (a = q_next q)) as [->|Ha].
    + rewrite lookup_insert_eq. intros [= <-]. by apply new_buffer_shape.
    + rewrite lookup_insert_ne by done. apply Hc.
  - intros i a v Hi. destruct (decide (a = q_next q)) as [->|Ha].
    + rewrite lookup_insert_eq. intros [= <-].
      assert (i = length addrs) as ->.
      { apply lookup_app_Some in Hi as [Hi|[Hle Hi]].
        - by apply list_elem_of_lookup_2 in Hi.
        - apply list_lookup_singleton_Some in Hi as [? _]. lia. }
      apply new_buffer_head.
    + rewrite lookup_insert_ne by done.
      apply lookup_app_Some in Hi as [Hi|[Hle Hi]]; [by apply (sh_head _ _ Hc)|].
      apply list_lookup_singleton_Some in Hi as [_ <-]. done.
Qed.

Lemma quiet_slot i vb q q' : quiet q q' -> quiet (slot_set i vb q) (slot_set i vb q').
Proof.
  intros [E1 Hh]. split; [|done]. rewrite E1. unfold slot_set. by destruct q.
Qed.

(** Giving the last buffer back. *)
Lemma cells_pop q addrs vb i :
  vb2_cells (slot_set i vb q) (addrs ++ [vb]) ->
  q_bufs q = (Some <$> addrs) ++ replicate (32 - length addrs) None ->
  vb2_cells (set_q_heap (delete vb (q_heap q)) q) addrs.
Proof.
  intros Hc Hb. pose proof (sh_nodup _ _ Hc) as Hnd. apply NoDup_app in Hnd as (Hnd & Hd & _).
  assert (vb ∉ addrs) as Hvb by (intros Hin; apply (Hd vb Hin); set_solver).
  split; cbn [q_bufs set_q_heap q_heap q_next alloc_ctx q_type q_memory fileio]; try done.
  - pose proof (sh_len _ _ Hc) as Hl. rewrite length_app in Hl. lia.
  - intros a. pose proof (sh_dom _ _ Hc a) as Hda. cbn in Hda.
    rewrite elem_of_app, list_elem_of_singleton in Hda.
    destruct (decide (a = vb)) as [->|Ha].
    + rewrite lookup_delete_eq. split; [by intros []|done].
    + rewrite lookup_delete_ne by done. naive_solver.
  - intros a Ha. apply (sh_next _ _ Hc). set_solver.
  - apply (sh_ctx _ _ Hc).
  - intros a v Hv. apply lookup_delete_Some in Hv as [_ Hv]. by apply (sh_ok _ _ Hc a).
  - intros j a v Ha Hv. apply lookup_delete_Some in Hv as [_ Hv].
    apply (sh_head _ _ Hc j a); [|done]. by apply lookup_app_l_Some.
  - apply (sh_mmap _ _ Hc).
  - apply (sh_fileio _ _ Hc).
Qed.

(** One buffer allocated, whether or not its memory could be had. *)
Definition alloc_one_memory (vb : nat) (memory : Z) (sizes : list Z) : vb2M Z :=
  if memory =? V4L2_MEMORY_MMAP then
    ret <- __vb2_buf_mem_alloc vb sizes ;;
    if truthy ret then kfree_buffer vb ;; mdo ret else
    ret <- call_qop ((fun f log => f log vb) <$> buf_init) 0 (c_buf_init vb) ;;
    if truthy ret then __vb2_buf_mem_free vb ;; kfree_buffer vb ;; mdo ret
    else mdo 0
  else mdo 0.

Lemma alloc_one_wp vb memory sizes q :
  live q vb -> zlen sizes = 8 -> zlen (alloc_ctx q) = 8 ->
  wp (alloc_one_memory vb memory sizes) q (fun r q' =>
    (r = 0 /\ quiet q q') \/
    (r <> 0 /\ exists q1, quiet q q1 /\ q' = set_q_heap (delete vb (q_heap q1)) q1)).
Proof.
  intros Hl Hs Hc. unfold alloc_one_memory. destruct (_ =? _); [|left; auto with vb2].
  eapply wp_seq; [by apply mem_alloc_quiet|]. cbv beta. intros r q1 Hq1.
  pose proof (live_quiet _ _ _ Hl Hq1) as Hl1.
  destruct (Z.eqb_spec r 0); cbn [negb].
  2: { apply wp_kfree; [destruct Hl1 as (? & ? & _); eauto|]. right. eauto. }
  eapply wp_seq; [apply call_qop_quiet|]. cbv beta. intros r2 q2 Hq2.
  pose proof (live_quiet _ _ _ Hl1 Hq2) as Hl2.
  destruct (Z.eqb_spec r2 0); cbn [negb]; [left; split; [done|by eapply quiet_trans]|].
  eapply wp_seq; [by apply mem_free_quiet|]. cbv beta. intros _ q3 Hq3.
  pose proof (live_quiet _ _ _ Hl2 Hq3) as Hl3.
  apply wp_kfree; [destruct Hl3 as (? & ? & _); eauto|]. right. eauto 6 using quiet_trans.
Qed.

Lemma cells_bufs_len q addrs : vb2_cells q addrs -> zlen (q_bufs q) = 32.
Proof.
  intros Hc. rewrite (sh_bufs _ _ Hc). unfold zlen.
  rewrite length_app, length_fmap, length_replicate. pose proof (sh_len _ _ Hc). lia.
Qed.

Definition alloc_outcome (q : vb2_queue) (memory : Z) (lo hi : Z) (r : Z) (q' : vb2_queue) : Prop :=
  exists addrs, vb2_cells q' addrs /\ all_idle q' /\ r = zlen addrs /\ lo <= r <= hi /\
    same_lists q q' /\ q_memory q' = memory.

Lemma all_idle_kzalloced q type memory n i :
  all_idle q -> all_idle (kzalloced (new_buffer type memory n i) q).
Proof.
  intros Hi a v Hv. cbn in Hv. destruct (decide (a = q_next q)) as [->|Ha].
  - rewrite lookup_insert_eq in Hv. by injection Hv as <-.
  - rewrite lookup_insert_ne in Hv by done. eauto.
Qed.

Lemma queue_alloc_loop_wp n : forall addrs q np sizes,
  vb2_cells q addrs -> all_idle q -> (length addrs + n <= 32)%nat -> 0 <= np <= 8 -> zlen sizes = 8 ->
  wp (queue_alloc_loop n (zlen addrs) (q_memory q) np sizes) q
     (alloc_outcome q (q_memory q) (zlen addrs) (zlen addrs + Z.of_nat n)).
Proof.
  induction n as [|n IH]; intros addrs q np sizes Hc Hi Hlen Hnp Hs; cbn [queue_alloc_loop].
  { exists addrs. split_and!; (done || lia). }
  assert (alloc_outcome q (q_memory q) (zlen addrs) (zlen addrs + Z.of_nat (S n)) (zlen addrs) q)
    as Hstop by (exists addrs; split_and!; (done || lia)).
  apply wp_gets, wp_mthen, wp_gets, wp_gets. destruct (kzalloc_buffer_ok _ _); [|done].
  apply wp_gets, wp_modify, wp_mdo. set (b := new_buffer _ _ _ _).
  change (set_q_next _ _) with (kzalloced b q). set (q1 := kzalloced b q). set (vb := q_next q).
  pose proof (cells_push q addrs np Hc ltac:(lia) Hnp) as Hc1. fold b q1 vb in Hc1. cbv zeta in Hc1.
  assert (live q1 vb) as Hl1.
  { exists b. split; [apply lookup_insert_eq|by apply new_buffer_shape]. }
  assert (all_idle q1) as Hi1 by by apply all_idle_kzalloced.
  eapply wp_seq; [apply (alloc_one_wp vb (q_memory q)); [done|done|apply Hc]|].
  cbv beta. intros r q2 [[-> Hq2]|(Hr & q3 & Hq3 & ->)].
  - cbn [Z.eqb negb]. pose proof (cells_quiet _ _ _ Hc1 (quiet_slot (length addrs) vb _ _ Hq2)) as Hc2.
    assert (q_bufs q2 = q_bufs q) as Hb by by apply (quiet_proj q_bufs q1 q2 Hq2).
    assert (q_memory q2 = q_memory q) as Hm by by apply (quiet_proj q_memory q1 q2 Hq2).
    apply wp_set_buf_at; [rewrite Hb, (cells_bufs_len _ _ Hc); unfold zlen; lia|].
    assert (Z.to_nat (zlen addrs) = length addrs) as -> by (unfold zlen; lia).
    fold (slot_set (length addrs) vb q2).
    rewrite <- Hm. replace (zlen addrs + 1) with (zlen (addrs ++ [vb])) by (rewrite zlen_app; done).
    eapply wp_mono; [apply (IH (addrs ++ [vb]) (slot_set (length addrs) vb q2)); try done|].
    + exact (idle_quiet q1 q2 Hi1 Hq2).
    + rewrite length_app. cbn. lia.
    + rewrite zlen_app, zlen_singleton. intros r q4 (addrs' & ? & ? & ? & ? & Hsl & ?). exists addrs'.
      split_and!; try done; try lia.
      eapply same_lists_trans; [|exact Hsl]. apply (same_lists_quiet q1 q2 Hq2).
  - destruct (Z.eqb_spec r 0); [done|]. cbn [negb]. exists addrs.
    assert (q_bufs q3 = q_bufs q) as Hb by by apply (quiet_proj q_bufs q1 q3 Hq3).
    split_and!; try lia; try done.
    + eapply cells_pop; [by eapply cells_quiet, quiet_slot|]. rewrite Hb. apply Hc.
    + intros a v Hv. cbn [q_heap set_q_heap] in Hv.
      apply lookup_delete_Some in Hv as [_ Hv]. by apply (idle_quiet q1 q3 Hi1 Hq3 a).
    + apply (same_lists_quiet q1 q3 Hq3).
    + by apply (quiet_proj q_memory q1 q3 Hq3).
Qed.

Lemma shape_idle_set f q addrs :
  vb2_shape q addrs -> all_idle q ->
  q_bufs (f q) = q_bufs q -> num_buffers (f q) = num_buffers q -> q_heap (f q) = q_heap q ->
  q_next (f q) = q_next q -> zlen (alloc_ctx (f q)) = 8 -> q_type (f q) = q_type q ->
  q_memory (f q) = q_memory q -> fileio (f q) = fileio q ->
  vb2_shape (f q) addrs /\ all_idle (f q).
Proof.
  intros [Hc Hn] Hi Hb Hnum Hh Hx Ha Ht Hm Hf. unfold vb2_shape, all_idle. rewrite Hnum, Hh.
  split_and!; [|done|done].
  destruct Hc. split; rewrite ?Hb, ?Hh, ?Hx, ?Ht, ?Hm, ?Hf; done.
Qed.

Lemma cells_empty q :
  q_bufs q = replicate 32 None -> q_heap q = ∅ -> zlen (alloc_ctx q) = 8 -> fileio q = None ->
  (q_memory q = V4L2_MEMORY_MMAP -> present mem_mmap = true) -> vb2_cells q [].
Proof.
  intros Hb Hh Ha Hf Hm. split; try done.
  - cbn. lia.
  - apply NoDup_nil_2.
  - intros a. rewrite Hh, lookup_empty. split; [by intros []|set_solver].
  - set_solver.
  - intros a v. by rewrite Hh, lookup_empty.
Qed.

Lemma cells_nil_heap q : vb2_cells q [] -> q_heap q = ∅.
Proof.
  intros Hc. apply map_eq. intros a. rewrite lookup_empty. apply eq_None_not_Some.
  rewrite (sh_dom _ _ Hc). set_solver.
Qed.

Lemma idle_empty q : q_heap q = ∅ -> all_idle q.
Proof. intros Hh a v. by rewrite Hh, lookup_empty. Qed.

Lemma queue_alloc_wp q n np sizes :
  vb2_cells q [] -> 0 <= n <= 32 -> 0 <= np <= 8 -> zlen sizes = 8 ->
  wp (__vb2_queue_alloc (q_memory q) n np sizes) q (fun r q' =>
    exists addrs, vb2_shape q' addrs /\ all_idle q' /\ r = zlen addrs /\ r <= n /\ same_lists q q').
Proof.
  intros Hc Hn Hnp Hs. eapply wp_seq.
  { apply (queue_alloc_loop_wp (Z.to_nat n) [] q np sizes); try done.
    - by apply idle_empty, cells_nil_heap.
    - cbn. lia. }
  cbv beta. intros r q1 (addrs & Hc1 & Hi1 & Hr & Hle & Hsl & Hm). apply wp_modify.
  set (q2 := set_num_buffers r q1).
  assert (vb2_shape q2 addrs) as Hsh2.
  { split; [|done]. destruct Hc1. by split. }
  assert (all_idle q2) as Hi2 by done.
  apply wp_seq with (P := fun _ q' => quiet q2 q').
  { apply wp_mthen, wp_gets, wp_mdo. apply buffer_offsets_quiet.
    by eapply slots_live_ok, shape_slots_live. }
  intros _ q3 Hq3. apply wp_mdo. exists addrs. rewrite zlen_nil in Hle. split_and!; try lia.
  - by eapply shape_quiet.
  - by eapply idle_quiet.
  - eapply same_lists_trans; [exact Hsl|]. apply (same_lists_quiet q2 q3 Hq3).
Qed.

Context `{!Vb2EnvLaws E}.

Lemma call_queue_setup_wp n q (Q : Z * Z * Z * list Z -> vb2_queue -> Prop) :
  (forall ret n' np sizes log ctxs, zlen sizes = 8 -> zlen ctxs = 8 ->
     (ret = 0 -> 0 <= n' <= 32 /\ 0 <= np <= 8) ->
     Q (ret, n', np, sizes) (set_alloc_ctx ctxs (set_q_log log q))) ->
  wp (call_queue_setup n) q Q.
Proof.
  intros HQ. apply wp_log, wp_gets. cbn [q_log set_q_log].
  destruct (queue_setup _ n) as [ret [[[n' np] sizes] ctxs]] eqn:Eq.
  destruct (queue_setup_arrays _ _ _ _ _ _ _ Eq) as [H1 H2].
  apply (HQ ret n' np sizes (q_log q ++ [c_queue_setup n]) ctxs H1 H2).
  intros ->. apply (queue_setup_ok _ _ _ _ _ _ Eq).
Qed.

(** The outcome of [vb2_reqbufs]. *)
Definition reqbufs_outcome (q : vb2_queue) (r : Z * v4l2_requestbuffers) (q' : vb2_queue) : Prop :=
  exists addrs, vb2_shape q' addrs /\ all_idle q' /\ same_lists q q' /\
    (r.1 = 0 -> req_count r.2 <= zlen addrs).

Lemma freed_shape q addrs :
  vb2_shape q addrs ->
  let q' := set_q_memory 0 (set_num_buffers 0 (emptied q)) in vb2_shape q' [] /\ all_idle q'.
Proof.
  intros [Hc _] q'. split; [|by apply idle_empty]. split; [|done].
  apply cells_empty; [done|done|apply Hc|apply Hc|]. cbn. discriminate.
Qed.

Lemma queue_free_shape q addrs :
  vb2_shape q addrs ->
  wp __vb2_queue_free q (fun _ q' => vb2_shape q' [] /\ all_idle q' /\ same_lists q q').
Proof.
  intros Hsh. eapply wp_mono; [by eapply queue_free_wp|]. cbv beta. intros _ q' (q1 & Hq & ->).
  destruct (freed_shape q1 addrs) as [H1 H2]; [by eapply shape_quiet|].
  split_and!; try done; apply (same_lists_quiet q q1 Hq).
Qed.

Lemma reqbufs_allocate_wp req q :
  vb2_shape q [] -> (req_memory req = V4L2_MEMORY_MMAP -> present mem_mmap = true) ->
  0 <= req_count req ->
  wp (reqbufs_allocate req) q (reqbufs_outcome q).
Proof.
  intros [Hc Hn] Hm Hcount. apply wp_modify, wp_modify. eapply wp_seq.
  { apply call_queue_setup_wp with (Q := fun r q' => let '(ret, n, np, sizes) := r in
      zlen sizes = 8 /\ (ret = 0 -> 0 <= n <= 32 /\ 0 <= np <= 8) /\
      vb2_shape q' [] /\ q_memory q' = req_memory req /\ same_lists q q').
    intros ret n np sizes log ctxs H1 H2 H3. split_and!; try done. split; [|done].
    apply cells_empty; try done; [apply Hc|exact (cells_nil_heap q Hc)|apply Hc]. }
  intros [[[ret n] np] sizes] q1 (Hs & Hok & [Hc1 Hn1] & Hm1 & Hsl1).
  destruct (Z.eqb_spec ret 0) as [->|]; cbn [negb].
  2: { exists []. split_and!; try done; [by apply idle_empty, cells_nil_heap|apply Hsl1..]. }
  destruct Hok as [Hn0 Hnp]; [done|]. rewrite <- Hm1.
  eapply wp_seq; [by apply queue_alloc_wp|]. cbv beta.
  intros r q2 (addrs & Hsh2 & Hi2 & Hr & Hle & Hsl2).
  assert (same_lists q q2) as Hsl by by eapply same_lists_trans.
  destruct (Z.eqb_spec r 0); [by exists addrs|].
  destruct (Z.ltb_spec r n); [|exists addrs; split_and!; try apply Hsl; (done || cbn; lia)].
  eapply wp_seq.
  { apply call_queue_setup_wp with (Q := fun _ q' => vb2_shape q' addrs /\ all_idle q' /\ same_lists q q').
    intros ret' n' np' sizes' log ctxs H1 H2 H3.
    destruct (shape_idle_set (fun q => set_alloc_ctx ctxs (set_q_log log q)) q2 addrs); try done. }
  intros [[[err n'] np'] sizes'] q3 (Hsh3 & Hi3 & Hsl3).
  assert (wp __vb2_queue_free q3 (fun _ q' => forall e, e <> 0 -> reqbufs_outcome q (e, req) q')) as Hfree.
  { eapply wp_mono; [by eapply queue_free_shape|]. cbv beta. intros _ q4 (H1 & H2 & H3) e He.
    exists []. split_and!; try done. all: eapply (same_lists_trans q q3 q4); done. }
  destruct (Z.eqb_spec err 0); cbn [negb].
  2: { eapply wp_seq; [exact Hfree|]. cbv beta. intros _ q4 Ho. by apply Ho. }
  destruct (Z.ltb_spec r n').
  { eapply wp_seq; [exact Hfree|]. cbv beta. intros _ q4 Ho. by apply Ho. }
  exists addrs. split_and!; try done; try apply Hsl3. cbn. lia.
Qed.

Lemma reqbufs_wp req q addrs :
  vb2_shape q addrs -> all_idle q -> 0 <= req_count req ->
  wp (vb2_reqbufs req) q (reqbufs_outcome q).
Proof.
  intros Hsh Hi Hcount. apply wp_gets.
  assert (forall e r, e <> 0 -> reqbufs_outcome q (e, r) q) as Hsame.
  { intros e r He. exists addrs. by split_and!. }
  destruct (present _); [by apply wp_mdo, Hsame|].
  destruct (_ && _) in |- *; [by apply wp_mdo, Hsame|].
  destruct (negb _) in |- *; [by apply wp_mdo, Hsame|].
  destruct (streaming q); [by apply wp_mdo, Hsame|].
  destruct ((_ =? V4L2_MEMORY_MMAP) && _) eqn:Em; [by apply wp_mdo, Hsame|].
  destruct (_ && _) in |- *; [by apply wp_mdo, Hsame|].
  assert (req_memory req = V4L2_MEMORY_MMAP -> present mem_mmap = true) as Hm.
  { intros Hmem. rewrite Hmem, Z.eqb_refl in Em. unfold __verify_mmap_ops in Em.
    destruct (present mem_mmap); [done|]. by rewrite orb_true_r in Em. }
  destruct (_ || _) eqn:Ec.
  2: { apply reqbufs_allocate_wp; [|done|done]. apply orb_false_iff in Ec as [Ec _].
       apply orb_false_iff in Ec as [_ Ec]. destruct Hsh as [Hc Hn]. rewrite Hn in Ec.
       destruct addrs as [|a addrs]; [done|]. rewrite zlen_cons in Ec.
       pose proof (zlen_nonneg addrs). destruct (Z.eqb_spec (1 + zlen addrs) 0); (done || lia). }
  apply wp_seq with (P := fun _ q' => quiet q q').
  { destruct (q_memory q =? V4L2_MEMORY_MMAP); [|apply quiet_refl]. apply wp_mthen, wp_gets, wp_mdo.
    apply buffer_in_use_quiet. by eapply shape_slots_live. }
  intros used q1 Hq1. destruct used.
  { exists addrs. split_and!; try done; [by eapply shape_quiet|by eapply idle_quiet|..];
      apply (same_lists_quiet q q1 Hq1). }
  eapply wp_seq; [eapply queue_free_shape; by eapply shape_quiet|]. cbv beta.
  intros _ q2 (Hsh2 & Hi2 & Hsl2).
  assert (same_lists q q2) as Hsl by (eapply same_lists_trans; [by apply same_lists_quiet|done]).
  destruct (Z.eqb_spec (req_count req) 0) as [E0|].
  { exists []. split_and!; try done; try apply Hsl. cbn. by rewrite E0. }
  eapply wp_mono; [by apply reqbufs_allocate_wp|]. intros r q3 (addrs' & H1 & H2 & H3 & H4).
  exists addrs'. split_and!; try done; eapply (same_lists_trans q q2 q3); done.
Qed.

End shape.
