(* ===== verification/Vb2Refine.v ===== *)
(** The videobuf2 operations refine the ownership machine of Vb2Spec.v: each is
    a sequence of its events, and none of them faults. *)

From S2P Require Import Prelude StateM Vb2Types Vb2Core Vb2Inv Vb2Spec Vb2Shape.

(** ** The abstraction *)

Definition own_of (q : vb2_queue) : own :=
  mk_own (vb_state <$> q_heap q) (queued_list q) (done_list q) (queued_count q) (streaming q).

Section refine.
Context `{E : Vb2Env}.

Lemma own_quiet q q' : quiet q q' -> own_of q' = own_of q.
Proof.
  intros Hq. destruct (same_lists_quiet q q' Hq) as (H1 & H2 & H3 & H4).
  unfold own_of. rewrite H1, H2, H3, H4. f_equal. destruct Hq as [_ Hh].
  apply map_eq. intros a. rewrite !lookup_fmap. destruct (Hh a) as [v v' Hs|]; [|done].
  cbn. by rewrite (ss_state _ _ Hs).
Qed.

(** [live] buffers and the two invariants. *)
Definition good (q : vb2_queue) (addrs : list nat) : Prop := vb2_shape q addrs /\ own_inv (own_of q).

(** [q'] follows [q] by events that satisfy [P]. *)
Definition follows (addrs : list nat) (P : list own_event -> Prop) (q q' : vb2_queue) : Prop :=
  good q' addrs /\ exists tr, own_steps (own_of q) tr (own_of q') /\ P tr.

Lemma good_quiet q q' addrs : good q addrs -> quiet q q' -> good q' addrs.
Proof. intros [Hs Ho] Hq. split; [by eapply shape_quiet|]. by rewrite (own_quiet q q' Hq). Qed.

Lemma follows_quiet q q' addrs : good q addrs -> quiet q q' -> follows addrs (fun tr => tr = []) q q'.
Proof.
  intros Hg Hq. split; [by eapply good_quiet|]. exists []. rewrite (own_quiet q q' Hq).
  split; [constructor|done].
Qed.

Lemma follows_refl q addrs : good q addrs -> follows addrs (fun tr => tr = []) q q.
Proof. intros Hg. apply follows_quiet; auto with vb2. Qed.

Lemma follows_mono q q' addrs (P P' : list own_event -> Prop) :
  follows addrs P q q' -> (forall tr, P tr -> P' tr) -> follows addrs P' q q'.
Proof. intros (Hg & tr & Ht & Hp) HP. split; [done|]. eauto. Qed.

Lemma follows_trans addrs addrs' (P1 P2 P : list own_event -> Prop) q q1 q2 :
  follows addrs P1 q q1 -> follows addrs' P2 q1 q2 ->
  (forall t1 t2, P1 t1 -> P2 t2 -> P (t1 ++ t2)) -> follows addrs' P q q2.
Proof.
  intros (_ & t1 & H1 & Hp1) (Hg & t2 & H2 & Hp2) HP. split; [done|].
  exists (t1 ++ t2). split; [by eapply own_app|auto].
Qed.

(** One event, given the state it leads to. *)
Lemma follows_event addrs q q' e :
  own_inv (own_of q) -> vb2_shape q' addrs -> own_step (own_of q) e (own_of q') ->
  follows addrs (fun tr => tr = [e]) q q'.
Proof.
  intros Ho Hs He. split; [split; [done|by eapply own_step_inv]|]. exists [e].
  split; [by apply own_one|done].
Qed.

(** The abstract state of one buffer. *)
Lemma own_state q a : o_state (own_of q) !! a = vb_state <$> q_heap q !! a.
Proof. apply lookup_fmap. Qed.

Lemma own_state_Some q a s :
  o_state (own_of q) !! a = Some s <-> exists v, q_heap q !! a = Some v /\ vb_state v = s.
Proof. rewrite own_state, fmap_Some. naive_solver. Qed.

Lemma good_live q addrs a : good q addrs -> a ∈ addrs -> live q a.
Proof. intros [[Hc _] _]. by apply cells_live. Qed.

Lemma good_state q addrs a s : good q addrs -> o_state (own_of q) !! a = Some s -> a ∈ addrs.
Proof.
  intros [[Hc _] _] Hs. apply own_state_Some in Hs as (v & Hv & _). apply (sh_dom _ _ Hc). eauto.
Qed.

Lemma good_queued q addrs a : good q addrs -> a ∈ queued_list q -> a ∈ addrs.
Proof.
  intros Hg Ha. pose proof Hg as [_ Ho]. apply (oi_queued _ Ho) in Ha as (s & Hs & _).
  by eapply good_state.
Qed.

Lemma good_done q addrs a : good q addrs -> a ∈ done_list q -> a ∈ addrs.
Proof.
  intros Hg Ha. pose proof Hg as [_ Ho]. apply (oi_done _ Ho) in Ha as (s & Hs & _).
  by eapply good_state.
Qed.

(** The count of buffers the driver holds stays far from the end of an [int]. *)
Lemma good_count q addrs : good q addrs -> 0 <= queued_count q <= 32.
Proof.
  intros Hg. pose proof Hg as [[Hc _] Ho]. pose proof (oi_count _ Ho) as Hn. cbn in Hn. rewrite Hn.
  split; [apply zlen_nonneg|]. unfold zlen, held.
  enough (length (queued_list q) <= 32)%nat.
  { etrans; [apply inj_le, length_filter|]. cbn. lia. }
  etrans; [|apply (sh_len _ _ Hc)]. apply submseteq_length, NoDup_submseteq.
  - apply Ho.
  - intros a Ha. by eapply good_queued.
Qed.

Lemma held_buffers_held q : held_buffers q = held (own_of q).
Proof.
  unfold held_buffers, held_in, held. cbn [o_queued own_of].
  generalize (queued_list q). intros l. induction l as [|a l IH]; [done|].
  rewrite !filter_cons, IH. rewrite (own_state q a). done.
Qed.

(** *** Changing one buffer's state, or the lists *)

Lemma shape_state q addrs a v s :
  vb2_shape q addrs -> q_heap q !! a = Some v ->
  vb2_shape (set_q_heap (<[a := set_vb_state s v]> (q_heap q)) q) addrs.
Proof.
  intros [Hc Hn] Hv. split; [|done].
  assert (forall b w, <[a := set_vb_state s v]> (q_heap q) !! b = Some w ->
    exists w0, q_heap q !! b = Some w0 /\ v4l2_buf w = v4l2_buf w0 /\ (buf_shape w0 -> buf_shape w))
    as Hback.
  { intros b w. destruct (decide (b = a)) as [->|Hb].
    - rewrite lookup_insert_eq. intros [= <-]. by exists v.
    - rewrite lookup_insert_ne by done. eauto. }
  split; cbn [q_bufs set_q_heap q_heap q_next alloc_ctx q_type q_memory fileio]; try apply Hc.
  - intros b. rewrite <- (sh_dom _ _ Hc b). destruct (decide (b = a)) as [->|Hb].
    + rewrite lookup_insert_eq. split; eauto.
    + by rewrite lookup_insert_ne.
  - intros b w Hw. destruct (Hback b w Hw) as (w0 & H0 & _ & Hs). eauto using sh_ok.
  - intros i b w Hi Hw. destruct (Hback b w Hw) as (w0 & H0 & -> & _). by apply (sh_head _ _ Hc i b).
Qed.

Lemma own_set_state q a v s :
  o_state (own_of (set_q_heap (<[a := set_vb_state s v]> (q_heap q)) q)) = <[a := s]> (vb_state <$> q_heap q).
Proof. cbn. by rewrite fmap_insert. Qed.

Lemma shape_lists q q' addrs :
  vb2_shape q addrs -> q_bufs q' = q_bufs q -> num_buffers q' = num_buffers q ->
  q_heap q' = q_heap q -> q_next q' = q_next q -> alloc_ctx q' = alloc_ctx q ->
  q_type q' = q_type q -> q_memory q' = q_memory q -> fileio q' = fileio q ->
  vb2_shape q' addrs.
Proof.
  intros [Hc Hn] Hb Hnum Hh Hx Ha Ht Hm Hf. split; [|congruence].
  destruct Hc. split; rewrite ?Hb, ?Hh, ?Hx, ?Ha, ?Ht, ?Hm, ?Hf; done.
Qed.

Lemma entry_live_in q addrs o :
  good q addrs -> (forall a, o = Some a -> a ∈ addrs) -> entry_live (q_heap q) o = true.
Proof.
  intros Hg Ho. destruct o as [a|]; [|done]. cbn. apply bool_decide_eq_true.
  destruct Hg as [[Hc _] _]. apply (sh_dom _ _ Hc). auto.
Qed.

Lemma wp_list_add_tail {B} addrs a l (k : list nat -> vb2M B) q Q :
  good q addrs -> a ∈ addrs -> (forall b, b ∈ l -> b ∈ addrs) ->
  wp (k (l ++ [a])) q Q -> wp (mthen (list_add_tail a l) k) q Q.
Proof.
  intros Hg Ha Hl Hk. apply wp_mthen, wp_gets.
  rewrite (entry_live_in q addrs (Some a) Hg) by naive_solver.
  rewrite (entry_live_in q addrs (last l) Hg); [done|].
  intros b Hb. apply last_Some in Hb as [l' ->]. apply Hl. set_solver.
Qed.

Lemma list_del_without q addrs a l : forall prev,
  good q addrs -> (forall b, b ∈ l -> b ∈ addrs) -> (forall b, prev = Some b -> b ∈ addrs) ->
  NoDup l -> a ∈ l -> list_del_after prev a (q_heap q) l = Some (without a l).
Proof.
  induction l as [|x l IH]; intros prev Hg Hl Hp Hnd Ha; [set_solver|].
  apply NoDup_cons in Hnd as [Hx Hnd]. cbn [list_del_after]. case_bool_decide as Exa.
  - subst x. rewrite (entry_live_in q addrs prev Hg) by done.
    rewrite (entry_live_in q addrs (head l) Hg).
    2: { intros b Hb. apply Hl, list_elem_of_further. destruct l; [done|]. cbn in Hb.
         injection Hb as ->. apply list_elem_of_here. }
    cbn [andb]. by rewrite without_head.
  - apply elem_of_cons in Ha as [->|Ha]; [done|].
    rewrite (IH (Some x)); [|done|set_solver|set_solver|done|done]. cbn [mbind option_bind].
    unfold without. rewrite (filter_cons _ x), decide_True by done. done.
Qed.

Lemma wp_list_del {B} addrs a l (k : list nat -> vb2M B) q Q :
  good q addrs -> (forall b, b ∈ l -> b ∈ addrs) -> NoDup l -> a ∈ l ->
  wp (k (without a l)) q Q -> wp (mthen (list_del a l) k) q Q.
Proof.
  intros Hg Hl Hnd Ha Hk. apply wp_mthen, wp_gets. unfold wp, the.
  rewrite (list_del_without q addrs a l None) by done. done.
Qed.

(** ** The driver's side *)

Lemma buffer_done_wp q addrs a s :
  good q addrs -> a ∈ addrs ->
  wp (vb2_buffer_done a s) q (fun _ q' => follows addrs (fun tr =>
    tr = if bool_decide (o_state (own_of q) !! a = Some VB2_BUF_STATE_ACTIVE /\ completed_state s)
         then [ev_complete a s] else []) q q').
Proof.
  intros Hg Ha. pose proof (good_live q addrs a Hg Ha) as (v & Hv & _).
  eapply wp_vb_get; [done|].
  assert (o_state (own_of q) !! a = Some (vb_state v)) as Hst by by rewrite own_state, Hv.
  rewrite Hst. destruct (decide (vb_state v = VB2_BUF_STATE_ACTIVE)) as [Ea|Ea].
  2: { rewrite (bool_decide_false (vb_state v = _)) by done.
       rewrite (bool_decide_false (_ /\ _)) by (intros [[=] _]; done). by apply follows_refl. }
  rewrite (bool_decide_true (vb_state v = _)) by done. cbn [negb].
  destruct (decide (completed_state s)) as [Hc|Hc].
  2: { rewrite (bool_decide_false (s = VB2_BUF_STATE_DONE)) by (intros ->; by apply Hc; left).
       rewrite (bool_decide_false (s = VB2_BUF_STATE_ERROR)) by (intros ->; by apply Hc; right).
       rewrite (bool_decide_false (_ /\ _)) by tauto. by apply follows_refl. }
  rewrite (bool_decide_true (_ /\ _)) by (split; congruence).
  assert (negb (bool_decide (s = VB2_BUF_STATE_DONE)) && negb (bool_decide (s = VB2_BUF_STATE_ERROR))
    = false) as -> by (destruct Hc as [-> | ->]; done).
  eapply wp_vb_put; [done|]. apply wp_gets. cbn [done_list set_q_heap].
  set (q1 := set_q_heap _ q).
  assert (vb2_shape q1 addrs) as Hs1 by (apply shape_state; [apply Hg|done]).
  apply wp_mthen, wp_gets.
  assert (forall o, (forall b, o = Some b -> b ∈ addrs) -> entry_live (q_heap q1) o = true) as Hlive.
  { intros [b|] Ho; [|done]. apply bool_decide_eq_true. destruct Hs1 as [Hc1 _].
    by apply (sh_dom _ _ Hc1), Ho. }
  rewrite (Hlive (Some a)) by naive_solver.
  rewrite (Hlive (last (done_list q))).
  2: { intros b Hb. apply last_Some in Hb as [l' Hb]. apply (good_done q addrs b Hg).
       rewrite Hb. set_solver. }
  cbn [andb]. apply wp_mdo, wp_modify, wp_modify.
  pose proof (good_count q addrs Hg) as Hcount.
  eapply (follows_event addrs q _ (ev_complete a s)); [apply Hg|by apply (shape_lists q1)|].
  unfold own_of. cbn [q_heap queued_list done_list queued_count streaming set_q_log set_queued_count
    set_done_list set_q_heap q1]. rewrite fmap_insert, s32_small by lia.
  apply own_complete; [by rewrite <- Ea, lookup_fmap, Hv|done].
Qed.

Lemma in_heap_addrs q addrs a : good q addrs -> a ∈ held_buffers q -> a ∈ addrs.
Proof.
  intros Hg Ha. apply list_elem_of_filter in Ha as [_ Ha]. by eapply good_queued.
Qed.

Context `{!Vb2EnvLaws E}.

Lemma driver_call_wp q addrs c :
  good q addrs -> wp (driver_call c) q (fun _ q' => follows addrs (Forall complete_event) q q').
Proof.
  intros Hg. apply wp_log, wp_gets, wp_gets. set (q1 := set_q_log _ q).
  assert (good q1 addrs) as Hg1 by (eapply good_quiet; [done|apply quiet_log]).
  eapply wp_mono with (P := fun _ q' => follows addrs (Forall complete_event) q1 q').
  2: { intros _ q' Hf. exact Hf. }
  apply (wp_mfor _ _ (fun q' => follows addrs (Forall complete_event) q1 q')).
  { eapply follows_mono; [by apply follows_refl|]. by intros ? ->. }
  intros [a s] q2 Hx Hf. apply gives_back_held in Hx. cbn [fst] in Hx.
  eapply wp_mono; [apply (buffer_done_wp q2 addrs); [apply Hf|by eapply in_heap_addrs]|].
  cbv beta. intros _ q3 Hf3. eapply follows_trans; [exact Hf|exact Hf3|].
  intros t1 t2 H1 ->. apply Forall_app. split; [done|]. case_bool_decide; by repeat constructor.
Qed.

(** No call is made back into the queue when the driver holds nothing. *)
Lemma driver_call_idle q addrs c :
  good q addrs -> streaming q = false ->
  wp (driver_call c) q (fun _ q' => quiet q q').
Proof.
  intros Hg Hoff. apply wp_log, wp_gets, wp_gets. set (q1 := set_q_log _ q).
  assert (gives_back (q_log q1) (held_buffers q1) = []) as ->; [|apply quiet_log].
  destruct (gives_back _ _) as [|[a s] l] eqn:El; [done|]. exfalso.
  assert ((a, s) ∈ gives_back (q_log q1) (held_buffers q1)) as Hin by (rewrite El; set_solver).
  apply gives_back_held in Hin. cbn [fst] in Hin. rewrite held_buffers_held in Hin.
  apply list_elem_of_filter in Hin as [Hs _]. destruct Hg as [_ Ho].
  destruct (oi_idle _ Ho Hoff a _ Hs); done.
Qed.

Lemma enqueue_wp q addrs a :
  good q addrs -> o_state (own_of q) !! a = Some VB2_BUF_STATE_QUEUED -> streaming q = true ->
  wp (__enqueue_in_driver a) q (fun _ q' => follows addrs (fun tr =>
    exists t, tr = ev_hand a :: t /\ Forall complete_event t) q q').
Proof.
  intros Hg Hs Hon. pose proof Hs as Hs'. apply own_state_Some in Hs' as (v & Hv & Ev).
  eapply wp_vb_upd; [done|]. apply wp_modify. cbn [queued_count set_q_heap].
  set (q1 := set_queued_count _ _). pose proof (good_count q addrs Hg) as Hcount.
  assert (follows addrs (fun tr => tr = [ev_hand a]) q q1) as Hf.
  { apply follows_event; [apply Hg| |].
    - eapply shape_lists; [apply shape_state; [apply Hg|exact Hv]|done..].
    - unfold own_of. cbn [q1 q_heap queued_list done_list queued_count streaming set_queued_count
        set_q_heap]. rewrite fmap_insert, s32_small, Hon by lia. by apply own_hand. }
  eapply wp_mono; [apply driver_call_wp, Hf|]. cbv beta. intros _ q2 Hf2.
  eapply follows_trans; [exact Hf|exact Hf2|]. intros t1 t2 -> H2. by exists t2.
Qed.

(** ** Queueing *)

(** What [vb2_qbuf] does to the buffer with the given index. *)
Definition qbuf_trace (addrs : list nat) (index r : Z) (tr : list own_event) : Prop :=
  if bool_decide (r = 0) then
    exists a t, addrs !! Z.to_nat index = Some a /\ tr = ev_queue a :: t /\ Forall driver_event t
  else tr = [].

Lemma settled_quiet q q' : quiet q q' -> settled (own_of q) -> settled (own_of q').
Proof. intros Hq Hs. by rewrite (own_quiet q q' Hq). Qed.

(** From the preparation of the buffer on. *)
Lemma qbuf_enqueue q addrs a v :
  good q addrs -> settled (own_of q) -> q_heap q !! a = Some v ->
  vb_state v = VB2_BUF_STATE_DEQUEUED ->
  wp (l <- gets queued_list ;; l <- list_add_tail a l ;; modify (set_queued_list l) ;;
      vb_upd a (set_vb_state VB2_BUF_STATE_QUEUED) ;;
      on <- gets streaming ;;
      (if on : bool then __enqueue_in_driver a else mdo tt) ;; mdo 0) q
     (fun r q' => r = 0 /\ settled (own_of q') /\
        follows addrs (fun tr => exists t, tr = ev_queue a :: t /\ Forall driver_event t) q q').
Proof.
  intros Hg Hset Hv Ev.
  assert (a ∈ addrs) as Ha by (destruct Hg as [[Hc _] _]; apply (sh_dom _ _ Hc); eauto).
  apply wp_gets. eapply wp_list_add_tail; [done|done|intros; by eapply good_queued|].
  apply wp_modify. eapply wp_vb_upd; [exact Hv|]. apply wp_gets. set (q1 := set_q_heap _ _).
  assert (own_step (own_of q) (ev_queue a) (own_of q1)) as Hst.
  { unfold own_of. cbn [q1 q_heap queued_list done_list queued_count streaming set_queued_list
      set_q_heap]. rewrite fmap_insert. apply own_queue. by rewrite lookup_fmap, Hv, <- Ev. }
  assert (follows addrs (fun tr => tr = [ev_queue a]) q q1) as Hf.
  { apply follows_event; [apply Hg| |done].
    eapply shape_lists; [apply shape_state; [apply Hg|exact Hv]|done..]. }
  apply wp_seq with (P := fun _ q' => settled (own_of q') /\
    follows addrs (fun tr => exists t, tr = ev_queue a :: t /\ Forall driver_event t) q q').
  2: { intros _ q2 [H1 H2]. by apply wp_mdo. }
  change (streaming q1) with (streaming q). destruct (streaming q) eqn:Eon.
  - eapply wp_mono; [apply enqueue_wp; [apply Hf| |done]|].
    { cbn. by rewrite fmap_insert, lookup_insert_eq. }
    cbv beta. intros _ q2 Hf2. split.
    + destruct Hf2 as (_ & tr2 & Ht2 & t & -> & Hc).
      eapply (settled_queue _ a _ _ _ Hset Hst Ht2).
      * constructor; [done|by apply complete_is_driver].
      * intros _. apply list_elem_of_here.
    + eapply follows_trans; [exact Hf|exact Hf2|]. intros t1 t2 -> (t & -> & Hc).
      exists (ev_hand a :: t). split; [done|]. constructor; [done|by apply complete_is_driver].
  - apply wp_mdo. split.
    + intros Hon. cbn in Hon. congruence.
    + eapply follows_mono; [exact Hf|]. intros tr ->. by exists [].
Qed.

Lemma qbuf_wp q addrs b :
  good q addrs -> settled (own_of q) -> user_buffer b ->
  wp (vb2_qbuf b) q (fun r q' => settled (own_of q') /\ follows addrs (qbuf_trace addrs (b_index b) r) q q').
Proof.
  intros Hg Hset Hb. apply wp_gets.
  assert (forall e q', quiet q q' -> e <> 0 ->
    settled (own_of q') /\ follows addrs (qbuf_trace addrs (b_index b) e) q q') as Herr.
  { intros e q' Hq He. split; [by eapply settled_quiet|].
    eapply follows_mono; [by apply follows_quiet|]. intros tr ->. unfold qbuf_trace.
    by rewrite bool_decide_false. }
  pose proof Hg as [[Hc Hn] Ho]. rewrite (sh_fileio _ _ Hc). cbn [present].
  destruct (negb _) in |- *; [by apply wp_mdo, Herr; auto with vb2|].
  rewrite Z.geb_leb. destruct (Z.leb_spec (num_buffers q) (b_index b)); [by apply wp_mdo, Herr; auto with vb2|].
  destruct Hb as [Hix Hb']. destruct (shape_slot q addrs (b_index b) Hc) as (a & Hgt & Hia & Ha); [lia|].
  eapply wp_buf_at; [done|]. destruct (negb _) in |- *; [by apply wp_mdo, Herr; auto with vb2|].
  pose proof (good_live q addrs a Hg Ha) as Hl. pose proof Hl as (v & Hv & _).
  eapply wp_vb_get; [done|]. case_bool_decide as Ev; cbn [negb]; [|by apply wp_mdo, Herr; auto with vb2].
  apply wp_seq with (P := fun _ q' => quiet q q').
  { destruct (q_memory q =? V4L2_MEMORY_MMAP); [by apply qbuf_mmap_quiet|].
    destruct (q_memory q =? V4L2_MEMORY_USERPTR); [|apply quiet_refl].
    apply qbuf_userptr_quiet; [done|done|apply Hc]. }
  intros r1 q1 Hq1. destruct (Z.eqb_spec r1 0); cbn [negb]; [|by apply wp_mdo, Herr].
  eapply wp_seq; [apply call_qop_quiet|]. cbv beta. intros r2 q2 Hq2.
  assert (quiet q q2) as Hq by eauto using quiet_trans.
  destruct (Z.eqb_spec r2 0); cbn [negb]; [|by apply wp_mdo, Herr].
  destruct (quiet_lookup q q2 a v Hq Hv) as (v2 & Hv2 & Hs2).
  eapply wp_mono; [apply (qbuf_enqueue q2 addrs a v2)|].
  - by eapply good_quiet.
  - by eapply settled_quiet.
  - done.
  - by rewrite (ss_state _ _ Hs2).
  - cbv beta. intros r q3 (-> & H1 & H2). split; [done|].
    eapply follows_trans; [by apply follows_quiet|exact H2|].
    intros t1 t2 -> (t & -> & Ht). exists a, t. done.
Qed.

(** ** Dequeueing *)

(** Code and index a dequeueing call answers with; [None] is asleep. *)
Definition dq_answer (r : option (Z * v4l2_buffer)) : option (Z * Z) :=
  (fun x => (x.1, b_index x.2)) <$> r.

Definition dq_trace (addrs : list nat) (r : option (Z * Z)) (tr : list own_event) : Prop :=
  match r with
  | Some (0, i) => exists a, 0 <= i /\ addrs !! Z.to_nat i = Some a /\ tr = [ev_deliver a]
  | Some (e, _) => tr = [] \/
      exists a f log, buf_finish = Some f /\ f log a = e /\ tr = [ev_drop a]
  | None => tr = []
  end.

Definition dq_post (addrs : list nat) (q : vb2_queue) (r : option (Z * v4l2_buffer)) (q' : vb2_queue) : Prop :=
  settled (own_of q') /\ follows addrs (dq_trace addrs (dq_answer r)) q q'.

Lemma dq_error q addrs e b q' :
  good q addrs -> settled (own_of q) -> quiet q q' -> e <> 0 -> dq_post addrs q (Some (e, b)) q'.
Proof.
  intros Hg Hs Hq He. split; [by eapply settled_quiet|].
  eapply follows_mono; [by apply follows_quiet|]. intros tr ->. cbn. destruct e; [done|auto..].
Qed.

(** Taking the head of the done list. *)
Lemma done_head q addrs a l :
  good q addrs -> done_list q = a :: l ->
  a ∈ addrs /\ a ∈ queued_list q /\ a ∉ l /\
  exists v, q_heap q !! a = Some v /\ completed_state (vb_state v).
Proof.
  intros Hg El. pose proof Hg as [_ Ho]. assert (a ∈ done_list q) as Hin by (rewrite El; set_solver).
  pose proof (oi_done _ Ho a Hin) as (s & Hs & Hc). pose proof (oi_done_nodup _ Ho) as Hnd.
  cbn in Hnd. rewrite El in Hnd. apply NoDup_cons in Hnd as [Hn _]. split_and!.
  - by eapply good_done.
  - apply (oi_queued _ Ho). exists s. split; [done|by apply completed_not_dequeued].
  - done.
  - apply own_state_Some in Hs as (v & Hv & <-). eauto.
Qed.

(** Delivering it: [q] is the queue before, [q1] the queue without the head. *)
Lemma deliver_wp q q1 addrs a l v b :
  good q addrs -> settled (own_of q) -> done_list q = a :: l -> q_heap q1 !! a = Some v ->
  quiet (set_done_list l q) q1 -> user_buffer b ->
  wp ('(_, b) <- __fill_v4l2_buffer a b ;;
      l <- gets queued_list ;; l <- list_del a l ;; modify (set_queued_list l) ;;
      vb_upd a (set_vb_state VB2_BUF_STATE_DEQUEUED) ;; mdo (Some (0, b))) q1
     (fun r q' => dq_post addrs q r q' /\ exists b', r = Some (0, b')).
Proof.
  intros Hg Hset El Hv Hq Hb. destruct (done_head q addrs a l Hg El) as (Ha & Hin & Hn & _).
  pose proof Hg as [Hs Ho].
  assert (vb2_shape q1 addrs) as Hs1.
  { eapply shape_quiet; [|exact Hq]. by eapply shape_lists. }
  pose proof (own_quiet _ _ Hq) as Eo.
  assert (own_inv (own_of q1)) as Ho1.
  { rewrite Eo. eapply own_step_inv; [|exact Ho]. unfold own_of. rewrite El. apply own_drop. }
  assert (good q1 addrs) as Hg1 by by split.
  assert (buf_shape v) as Hsh by by (eapply sh_ok; [apply Hs1|]).
  eapply wp_seq; [by apply fill_v4l2_ok|]. cbv beta. intros [r b'] q2 [-> Hi]. cbn [snd] in Hi.
  apply wp_gets. assert (queued_list q1 = queued_list q) as Eq by by apply (quiet_proj queued_list _ _ Hq).
  eapply wp_list_del; [done|intros c Hc; by eapply (good_queued q1)|apply Ho1|by rewrite Eq|].
  apply wp_modify. eapply wp_vb_upd; [exact Hv|]. apply wp_mdo. set (q2 := set_q_heap _ _).
  assert (own_step (own_of q) (ev_deliver a) (own_of q2)) as Hst.
  { injection Eo as E1 E2 E3 E4 E5.
    unfold own_of. cbn [q2 q_heap queued_list done_list queued_count streaming set_queued_list
      set_q_heap]. rewrite fmap_insert, E1, E2, E3, E4, E5, El. apply own_deliver. }
  split; [|eauto]. split; [eapply settled_remove; eauto|].
  eapply follows_mono; [apply (follows_event addrs q q2 (ev_deliver a)); [done| |done]|].
  { eapply shape_lists; [apply shape_state; [exact Hs1|exact Hv]|done..]. }
  intros tr ->. apply list_elem_of_lookup_1 in Ha as [i Hix]. exists a.
  destruct Hs1 as [Hc1 _]. destruct (sh_head _ _ Hc1 i a v Hix Hv) as [Ei _].
  cbn [snd]. rewrite Hi, Ei, Nat2Z.id. split_and!; [lia|done|done].
Qed.

(** With a completed buffer there is nothing to wait for, and only the driver
    can refuse. *)
Definition dq_prompt (q : vb2_queue) (r : option (Z * v4l2_buffer)) : Prop :=
  streaming q = true -> done_list q <> [] ->
  exists e b', r = Some (e, b') /\ (e <> 0 -> exists f log a, buf_finish = Some f /\ f log a = e).

Lemma get_done_wp q addrs nonblocking :
  good q addrs ->
  wp (__vb2_get_done_vb nonblocking) q (fun r q' =>
    match r with
    | None => quiet q q' /\ done_list q = []
    | Some (inl e) => e <> 0 /\ q' = q /\ (streaming q = true -> done_list q = [])
    | Some (inr a) => exists l, done_list q = a :: l /\ q' = set_done_list l q
    end).
Proof.
  intros Hg. apply wp_mthen, wp_gets, wp_gets. destruct (streaming q) eqn:Eon; cbn [negb]; [|done].
  destruct (done_list q) as [|a l] eqn:El.
  { destruct nonblocking; [done|]. apply wp_log, wp_mdo, wp_mdo. split; [apply quiet_log|done]. }
  apply wp_mdo. cbn [negb Z.eqb]. apply wp_gets. rewrite El. eapply wp_the; [done|].
  destruct (done_head q addrs a l Hg El) as (Ha & Hin & Hn & v & Hv & Hc).
  eapply (wp_list_del addrs); [done|rewrite <- El; intros; by eapply good_done| |set_solver|].
  { rewrite <- El. apply Hg. }
  rewrite without_head by done. apply wp_modify, wp_mdo. by exists l.
Qed.

Lemma dqbuf_wait_wp q addrs b nonblocking :
  good q addrs -> settled (own_of q) -> user_buffer b ->
  wp (dqbuf_wait b nonblocking) q (fun r q' => dq_post addrs q r q' /\ dq_prompt q r).
Proof.
  intros Hg Hset Hb. eapply wp_seq; [by apply (get_done_wp q addrs)|]. cbv beta.
  intros [[e|a]|] q0 Hd.
  { destruct Hd as (He & -> & Hnil). apply wp_mdo. split; [by apply dq_error; auto with vb2|].
    intros Hon Hne. by destruct (Hne (Hnil Hon)). }
  2: { destruct Hd as [Hq Hnil]. apply wp_mdo. split; [|by intros ? Hne].
       split; [by eapply settled_quiet|by apply follows_quiet]. }
  destruct Hd as (l & El & ->).
  destruct (done_head q addrs a l Hg El) as (Ha & Hin & Hn & v & Hv & Hc).
  eapply wp_seq; [apply call_qop_result|]. cbv beta. intros r q1 [Hq1 Hr].
  destruct (Z.eqb_spec r 0); cbn [negb].
  2: { destruct Hr as [[_ ->]|(f & log & Hf & Er)]; [done|].
       apply fmap_Some in Hf as (f0 & Hf0 & ->).
       assert (own_step (own_of q) (ev_drop a) (own_of q1)) as Hst.
       { rewrite (own_quiet _ _ Hq1). unfold own_of. rewrite El. apply own_drop. }
       apply wp_mdo. split; [|intros _ _; exists r, b; eauto 6].
       split; [eapply settled_remove; eauto|].
       eapply follows_mono; [apply (follows_event addrs q q1 (ev_drop a)); [apply Hg| |done]|].
       - eapply shape_quiet; [|exact Hq1]. by eapply shape_lists; [apply Hg|..].
       - intros tr ->. cbn. destruct r; [done|right; exists a, f0, log; done..]. }
  destruct (quiet_lookup _ _ a v Hq1 Hv) as (v1 & Hv1 & Hs1). eapply wp_vb_get; [done|].
  rewrite (ss_state _ _ Hs1).
  destruct Hc as [-> | ->];
    (eapply wp_mono; [by eapply deliver_wp|]; intros r' q2 [Hp [b' ->]]; split; [done|];
     intros _ _; by exists 0, b').
Qed.

Lemma dqbuf_wp q addrs b nonblocking :
  good q addrs -> settled (own_of q) -> user_buffer b ->
  wp (vb2_dqbuf b nonblocking) q (dq_post addrs q).
Proof.
  intros Hg Hset Hb. apply wp_gets. pose proof Hg as [[Hc _] _].
  rewrite (sh_fileio _ _ Hc). cbn [present].
  destruct (negb _) in |- *; [by apply dq_error; auto with vb2|].
  eapply wp_mono; [by apply dqbuf_wait_wp|]. by intros r q' [H1 _].
Qed.

Lemma dqbuf_prompt q addrs b nonblocking :
  good q addrs -> settled (own_of q) -> user_buffer b -> b_type b = q_type q ->
  wp (vb2_dqbuf b nonblocking) q (fun r _ => dq_prompt q r).
Proof.
  intros Hg Hset Hb Hty. apply wp_gets. pose proof Hg as [[Hc _] _].
  rewrite (sh_fileio _ _ Hc), Hty, Z.eqb_refl. cbn [present negb].
  eapply wp_mono; [by apply (dqbuf_wait_wp q addrs)|]. by intros r q' [_ H2].
Qed.

Lemma dqbuf_resume_wp q addrs signal b :
  good q addrs -> settled (own_of q) -> user_buffer b ->
  wp (vb2_dqbuf_resume signal b) q (dq_post addrs q).
Proof.
  intros Hg Hset Hb. apply wp_log.
  destruct signal; [by apply dq_error; auto with vb2|].
  eapply wp_mono; [apply dqbuf_wait_wp; [|by eapply settled_quiet; [apply quiet_log|]|done]|].
  { eapply good_quiet; [done|apply quiet_log]. }
  intros r q' [[H1 H2] _]. split; [done|]. exact H2.
Qed.

(** ** Streaming *)

Lemma streamon_loop l : forall q addrs,
  good q addrs -> streaming q = true -> NoDup l ->
  (forall a, a ∈ l -> o_state (own_of q) !! a = Some VB2_BUF_STATE_QUEUED) ->
  wp (mfor l __enqueue_in_driver) q (fun _ q' => follows addrs (fun tr =>
    Forall driver_event tr /\ forall a, a ∈ l -> ev_hand a ∈ tr) q q').
Proof.
  induction l as [|x l IH]; intros q addrs Hg Hon Hnd Hq; cbn [mfor].
  { eapply follows_mono; [by apply follows_refl|]. intros tr ->. split; [constructor|set_solver]. }
  apply NoDup_cons in Hnd as [Hx Hnd].
  eapply wp_seq; [apply enqueue_wp; [done|apply Hq, list_elem_of_here|done]|]. cbv beta.
  intros _ q1 Hf1. pose proof Hf1 as (Hg1 & tr1 & Ht1 & t & -> & Hc).
  assert (Forall driver_event (ev_hand x :: t)) as Hd1.
  { constructor; [done|by apply complete_is_driver]. }
  eapply wp_mono; [apply (IH q1 addrs Hg1); [|done|]|].
  - destruct (driver_steps_queued _ _ _ x Ht1 Hd1) as [Es _]. cbn in Es. congruence.
  - intros a Ha. apply (driver_steps_queued _ _ _ a Ht1 Hd1). split.
    + by apply Hq, list_elem_of_further.
    + intros [[=]|Hin]%elem_of_cons; [by subst|].
      rewrite Forall_forall in Hc. by apply Hc in Hin.
  - cbv beta. intros _ q2 Hf2. eapply follows_trans; [exact Hf1|exact Hf2|].
    intros t1 t2 (t' & -> & Hc1) [Hd2 Hh2]. split.
    + apply Forall_app. split; [|done]. constructor; [done|by apply complete_is_driver].
    + intros a [->|Ha]%elem_of_cons; [set_solver|]. apply elem_of_app. right. auto.
Qed.

Definition streamon_trace (r : Z) (tr : list own_event) : Prop :=
  if bool_decide (r = 0) then exists t, tr = ev_start :: t /\ Forall driver_event t else tr = [].

Lemma streamon_wp q addrs type :
  good q addrs -> settled (own_of q) ->
  wp (vb2_streamon type) q (fun r q' => settled (own_of q') /\ follows addrs (streamon_trace r) q q').
Proof.
  intros Hg Hset. apply wp_gets.
  assert (forall e q', quiet q q' -> e <> 0 ->
    settled (own_of q') /\ follows addrs (streamon_trace e) q q') as Herr.
  { intros e q' Hq He. split; [by eapply settled_quiet|].
    eapply follows_mono; [by apply follows_quiet|]. intros tr ->. unfold streamon_trace.
    by rewrite bool_decide_false. }
  pose proof Hg as [[Hc _] _]. rewrite (sh_fileio _ _ Hc). cbn [present].
  destruct (negb _) in |- *; [by apply wp_mdo, Herr; auto with vb2|].
  destruct (streaming q) eqn:Eon; [by apply wp_mdo, Herr; auto with vb2|].
  destruct (_ && _) in |- *; [by apply wp_mdo, Herr; auto with vb2|].
  apply wp_seq with (P := fun _ q' => quiet q q').
  { destruct start_streaming; [|apply quiet_refl].
    eapply wp_seq; [by eapply driver_call_idle|]. cbv beta. intros _ q1 Hq1. exact Hq1. }
  intros r q1 Hq1. destruct (Z.eqb_spec r 0); cbn [negb]; [|by apply wp_mdo, Herr].
  apply wp_modify, wp_gets. set (q2 := set_streaming true q1).
  destruct (same_lists_quiet _ _ Hq1) as (_ & _ & _ & Eon1).
  assert (own_step (own_of q1) ev_start (own_of q2)) as Hst.
  { unfold own_of. cbn. rewrite Eon1, Eon. apply own_start. }
  pose proof (good_quiet _ _ _ Hg Hq1) as Hg1. pose proof Hg1 as [Hs1 Ho1].
  assert (follows addrs (fun tr => tr = [ev_start]) q1 q2) as Hf2.
  { apply follows_event; [done| |done]. by eapply shape_lists. }
  eapply wp_seq.
  - apply (streamon_loop (queued_list q2) q2 addrs); [apply Hf2|done|apply Ho1|].
    intros a Ha. apply (oi_queued _ Ho1) in Ha as (s & Hs & Hn).
    destruct (oi_idle _ Ho1) with a s as [->| ->]; try done. cbn. congruence.
  - cbv beta. intros _ q3 Hf3. apply wp_mdo. split.
    + destruct Hf3 as (_ & t & Ht & Hd & Hh). eapply (settled_start _ _ _ _ Ho1 Hst Ht Hd). exact Hh.
    + eapply follows_trans; [by apply follows_quiet| |].
      * eapply follows_trans with (P := fun tr => exists t, tr = ev_start :: t /\ Forall driver_event t);
          [exact Hf2|exact Hf3|]. intros t1 t2 -> [Hd _]. by exists t2.
      * intros t1 t2 -> Ht2. exact Ht2.
Qed.

Lemma cancel_loop addrs l : forall q,
  vb2_shape q addrs -> (forall i, i ∈ l -> 0 <= i < zlen addrs) ->
  wp (mfor l (fun i => vb <- buf_at i ;; vb <- the vb ;;
                       vb_upd vb (set_vb_state VB2_BUF_STATE_DEQUEUED))) q
     (fun _ q' => vb2_shape q' addrs /\ same_lists q q' /\
        (forall a, o_state (own_of q) !! a = Some VB2_BUF_STATE_DEQUEUED ->
                   o_state (own_of q') !! a = Some VB2_BUF_STATE_DEQUEUED) /\
        forall i a, i ∈ l -> addrs !! Z.to_nat i = Some a ->
          o_state (own_of q') !! a = Some VB2_BUF_STATE_DEQUEUED).
Proof.
  induction l as [|i l IH]; intros q Hs Hl; cbn [mfor].
  { split_and!; try done. set_solver. }
  pose proof Hs as [Hc _].
  destruct (shape_slot q addrs i Hc) as (a & Hg & Hi & Ha); [apply Hl, list_elem_of_here|].
  pose proof (cells_live q addrs a Hc Ha) as (v & Hv & _).
  apply wp_mthen. eapply wp_buf_at; [done|]. eapply wp_the; [done|].
  unfold wp at 1. rewrite (vb_upd_eq a v _ q Hv). set (q1 := set_q_heap _ q).
  eapply wp_mono; [apply (IH q1); [by apply shape_state|]|].
  { intros j Hj. by apply Hl, list_elem_of_further. }
  assert (o_state (own_of q1) = <[a := VB2_BUF_STATE_DEQUEUED]> (o_state (own_of q))) as E1
    by apply own_set_state.
  cbv beta. intros _ q2 (Hs2 & Hsl & Hkeep & Hset). split_and!; [done|apply Hsl..| |].
  - intros b Hb. apply Hkeep. rewrite E1. own_lookup; done.
  - intros j b [->|Hj]%elem_of_cons Hb; [|by eapply Hset].
    apply Hkeep. rewrite E1. simplify_eq. apply lookup_insert_eq.
Qed.

Lemma cancel_wp q addrs :
  good q addrs ->
  wp __vb2_queue_cancel q (fun _ q' => follows addrs (fun tr =>
    exists t, tr = t ++ [ev_stop] /\ Forall complete_event t) q q').
Proof.
  intros Hg. apply wp_gets.
  apply wp_seq with (P := fun _ q' => follows addrs (Forall complete_event) q q').
  { destruct (_ && _); [by apply driver_call_wp|]. apply wp_mdo.
    eapply follows_mono; [by apply follows_refl|]. by intros ? ->. }
  intros _ q1 Hf1. do 4 apply wp_modify. apply wp_log. set (q2 := set_q_log _ _).
  pose proof Hf1 as ([Hs1 Ho1] & _).
  assert (vb2_shape q2 addrs) as Hs2 by by eapply shape_lists.
  apply wp_mthen, wp_gets, wp_mdo. change (num_buffers q2) with (num_buffers q1).
  pose proof Hs1 as [Hc1 Hn1]. rewrite Hn1.
  eapply wp_mono; [apply (cancel_loop addrs); [done|]|].
  { intros i Hi. apply elem_of_seqZ in Hi. lia. }
  cbv beta. intros _ q3 (Hs3 & (L1 & L2 & L3 & L4) & _ & Hset).
  eapply follows_trans; [exact Hf1| |].
  2: { intros t1 t2 Ht1 Ht2. exists t1. split; [f_equal; exact Ht2|done]. }
  apply (follows_event addrs q1 q3 ev_stop); [done|done|].
  assert (own_of q3 = mk_own ((fun _ => VB2_BUF_STATE_DEQUEUED) <$> (vb_state <$> q_heap q1)) [] [] 0 false)
    as ->; [|apply own_stop].
  unfold own_of. rewrite L1, L2, L3, L4. f_equal. apply map_eq. intros a.
  pose proof Hs3 as [Hc3 _]. rewrite !lookup_fmap.
  pose proof (sh_dom _ _ Hc1 a) as D1. pose proof (sh_dom _ _ Hc3 a) as D3.
  destruct (q_heap q3 !! a) as [v3|] eqn:E3, (q_heap q1 !! a) as [v1|] eqn:E1; try done; cbn.
  - destruct (proj1 (list_elem_of_lookup addrs a) (proj1 D3 (mk_is_Some _ _ eq_refl))) as [i Hi].
    specialize (Hset (Z.of_nat i) a). rewrite Nat2Z.id, own_state, E3 in Hset. apply Hset; [|done].
    apply lookup_lt_Some in Hi. apply elem_of_seqZ. unfold zlen. lia.
  - exfalso. destruct (proj2 D1) as [? Hx]; [|done]. apply D3. eauto.
  - exfalso. destruct (proj2 D3) as [? Hx]; [|done]. apply D1. eauto.
Qed.

Definition streamoff_trace (r : Z) (tr : list own_event) : Prop :=
  if bool_decide (r = 0) then exists t, tr = t ++ [ev_stop] /\ Forall complete_event t else tr = [].

Lemma settled_stopped o tr o' : own_steps o (tr ++ [ev_stop]) o' -> settled o'.
Proof. intros Ht. apply own_stop_last in Ht as [st ->]. done. Qed.

Lemma streamoff_wp q addrs type :
  good q addrs -> settled (own_of q) ->
  wp (vb2_streamoff type) q (fun r q' => settled (own_of q') /\ follows addrs (streamoff_trace r) q q').
Proof.
  intros Hg Hset. apply wp_gets.
  assert (forall e, e <> 0 -> settled (own_of q) /\ follows addrs (streamoff_trace e) q q) as Herr.
  { intros e He. split; [done|]. eapply follows_mono; [by apply follows_refl|].
    intros tr ->. unfold streamoff_trace. by rewrite bool_decide_false. }
  pose proof Hg as [[Hc _] _]. rewrite (sh_fileio _ _ Hc). cbn [present].
  destruct (negb _) in |- *; [by apply wp_mdo, Herr|].
  destruct (negb _) in |- *; [by apply wp_mdo, Herr|].
  eapply wp_seq; [by apply cancel_wp|]. cbv beta. intros _ q1 Hf. apply wp_mdo. split; [|exact Hf].
  destruct Hf as (_ & tr & Ht & t & -> & _). by eapply settled_stopped.
Qed.

(** ** Operations that leave the ownership alone *)

Lemma plane_by_offset_ok vb l off : forall q,
  live q vb -> (forall p, p ∈ l -> 0 <= p < 8) ->
  wp (plane_by_offset vb l off) q (fun r q' => q' = q /\ forall p, r = Some p -> p ∈ l).
Proof.
  induction l as [|p l IH]; intros q Hl Hp; cbn [plane_by_offset]; [done|].
  pose proof Hl as (v & Hv & _ & Hz & _).
  assert (0 <= p < 8) by apply Hp, list_elem_of_here.
  eapply wp_get_v4l2_plane; [done|lia|]. intros x _. destruct (_ =? _).
  - apply wp_mdo. split; [done|]. intros ? [= <-]. apply list_elem_of_here.
  - eapply wp_mono; [apply IH; [done|]|].
    + intros j Hj. by apply Hp, list_elem_of_further.
    + intros r q' [-> Hr]. split; [done|]. intros j Hj. by apply list_elem_of_further, Hr.
Qed.

Lemma find_in_buffers_ok addrs l off : forall q,
  vb2_cells q addrs -> (forall i, i ∈ l -> 0 <= i < zlen addrs) ->
  wp (find_in_buffers l off) q (fun r q' => q' = q /\
    forall i p, r = Some (i, p) -> 0 <= i < zlen addrs /\ 0 <= p < 8).
Proof.
  induction l as [|i l IH]; intros q Hc Hl; cbn [find_in_buffers]; [done|].
  destruct (shape_slot q addrs i Hc) as (a & Hg & Hi & Ha); [apply Hl, list_elem_of_here|].
  pose proof (cells_live q addrs a Hc Ha) as Hlv. pose proof Hlv as (v & Hv & _).
  eapply wp_buf_at; [done|]. eapply wp_the; [done|]. eapply wp_planes_of; [done|].
  pose proof (live_planes q a v Hlv Hv) as Hp.
  eapply wp_seq; [by apply plane_by_offset_ok|]. cbv beta. intros [p|] q1 [-> Hr].
  - apply wp_mdo. split; [done|]. intros ? ? [= <- <-].
    split; [by apply Hl, list_elem_of_here|by apply Hp, Hr].
  - apply IH; [done|]. intros j Hj. by apply Hl, list_elem_of_further.
Qed.

Lemma mmap_quiet q addrs pgoff flags :
  good q addrs -> wp (vb2_mmap pgoff flags) q (fun _ q' => quiet q q').
Proof.
  intros [[Hc Hn] _]. apply wp_gets.
  destruct (Z.eqb_spec (q_memory q) V4L2_MEMORY_MMAP) as [Em|]; cbn [negb]; [|apply quiet_refl].
  destruct (negb _) in |- *; [apply quiet_refl|]. destruct (negb _) in |- *; [apply quiet_refl|].
  apply wp_mthen. apply wp_mthen, wp_gets, wp_mdo. eapply wp_mono.
  { apply (find_in_buffers_ok addrs); [done|]. intros i Hi. apply elem_of_seqZ in Hi. lia. }
  cbv beta. intros [[i p]|] q1 [-> Hr]; [|apply quiet_refl]. destruct (Hr i p eq_refl) as [Hi Hp].
  destruct (shape_slot q addrs i Hc Hi) as (a & Hg & _ & Ha).
  pose proof (cells_live q addrs a Hc Ha) as Hlv.
  eapply wp_buf_at; [done|]. eapply wp_the; [done|]. apply get_plane_quiet; [done|done|]. intros x.
  pose proof (sh_mmap _ _ Hc Em) as Hm. destruct mem_mmap as [f|]; [|done].
  apply wp_log, wp_gets. set (q1 := set_q_log _ q).
  assert (quiet q q1) as Hq1 by apply quiet_log.
  destruct (negb _) in |- *; [done|].
  eapply wp_seq; [apply upd_plane_quiet; [by apply (live_quiet q q1)|done]|]. cbv beta. intros _ q2 Hq2.
  assert (quiet q q2) as Hq by eauto using quiet_trans.
  pose proof (live_quiet q q2 a Hlv Hq) as (v2 & Hv2 & _).
  eapply wp_vb_upd; [done|]. apply wp_mdo. eapply quiet_trans; [exact Hq|].
  eapply quiet_insert; [done|]. by split.
Qed.

(** [querybuf] describes the buffer of the index it was asked for. *)
Lemma querybuf_wp q addrs b :
  good q addrs -> user_buffer b ->
  wp (vb2_querybuf b) q (fun r q' => q' = q /\ b_index r.2 = b_index b).
Proof.
  intros [[Hc Hn] _] Hb. apply wp_gets, wp_gets.
  destruct (negb _) in |- *; [by apply wp_mdo|]. rewrite Z.geb_leb.
  destruct (Z.leb_spec (num_buffers q) (b_index b)); [by apply wp_mdo|].
  pose proof Hb as [Hix _].
  destruct (shape_slot q addrs (b_index b) Hc) as (a & Hgt & Hia & Ha); [lia|].
  pose proof (cells_live q addrs a Hc Ha) as (v & Hv & Hs).
  eapply wp_buf_at; [done|]. eapply wp_the; [done|].
  eapply wp_mono; [by apply fill_v4l2_ok|]. cbv beta. intros r q' [-> Hi]. split; [done|].
  destruct (sh_head _ _ Hc _ a v Hia Hv) as [Ei _]. rewrite Hi, Ei. lia.
Qed.

Lemma poll_done_ok q addrs : good q addrs -> wp poll_done q (fun _ q' => q' = q).
Proof.
  intros Hg. apply wp_gets. destruct (queued_list q) as [|a0 l0]; [done|].
  destruct (done_list q) as [|a l] eqn:El; [done|].
  destruct (done_head q addrs a l Hg El) as (_ & _ & _ & v & Hv & Hc).
  eapply wp_vb_get; [done|]. by destruct Hc as [-> | ->].
Qed.

(** ** Requesting buffers while none is queued *)

Lemma none_queued_idle q addrs :
  good q addrs -> queued_list q = [] -> all_idle q /\ done_list q = [] /\ queued_count q = 0.
Proof.
  intros [_ Ho] Eq. split_and!.
  - intros a v Hv. destruct (decide (vb_state v = VB2_BUF_STATE_DEQUEUED)); [done|]. exfalso.
    assert (a ∈ queued_list q) as Hin.
    { apply (oi_queued _ Ho). exists (vb_state v). by rewrite own_state, Hv. }
    rewrite Eq in Hin. set_solver.
  - destruct (done_list q) as [|a l] eqn:El; [done|]. exfalso.
    destruct (oi_done _ Ho a) as (s & Hs & Hc); [cbn; rewrite El; set_solver|].
    assert (a ∈ queued_list q) as Hin.
    { apply (oi_queued _ Ho). exists s. split; [done|by apply completed_not_dequeued]. }
    rewrite Eq in Hin. set_solver.
  - pose proof (oi_count _ Ho) as Hn. unfold held in Hn. cbn [o_queued o_count own_of] in Hn.
    by rewrite Eq, filter_nil in Hn.
Qed.

Lemma idle_states q a s :
  all_idle q -> o_state (own_of q) !! a = Some s -> s = VB2_BUF_STATE_DEQUEUED.
Proof. intros Hi Hs. apply own_state_Some in Hs as (v & Hv & <-). eauto. Qed.

Definition reqbufs_trace (r : Z) (on : bool) (tr : list own_event) : Prop :=
  if on then tr = [] /\ r <> 0 else tr = [ev_realloc].

Lemma reqbufs_good q addrs req :
  good q addrs -> settled (own_of q) -> (streaming q = false -> queued_list q = []) -> 0 <= req_count req ->
  wp (vb2_reqbufs req) q (fun r q' => exists addrs', settled (own_of q') /\
    (r.1 = 0 -> req_count r.2 <= zlen addrs') /\
    follows addrs' (reqbufs_trace r.1 (streaming q)) q q').
Proof.
  intros Hg Hset Eq Hn. destruct (streaming q) eqn:Eon.
  - apply wp_gets. pose proof Hg as [[Hc _] _]. rewrite (sh_fileio _ _ Hc), Eon. cbn [present].
    assert (forall e, e <> 0 -> exists addrs', settled (own_of q) /\
      (e = 0 -> req_count req <= zlen addrs') /\ follows addrs' (reqbufs_trace e true) q q) as Herr.
    { intros e He. exists addrs. split_and!; try done. eapply follows_mono; [by apply follows_refl|].
      intros tr ->. done. }
    destruct (_ && _) in |- *; [by apply wp_mdo, Herr|].
    destruct (negb _) in |- *; by apply wp_mdo, Herr.
  - specialize (Eq eq_refl). destruct (none_queued_idle q addrs Hg Eq) as (Hi & Ed & Ec).
    eapply wp_mono; [apply (reqbufs_wp req q addrs); [apply Hg|done|done]|].
    intros r q' (addrs' & Hs & Hi' & (L1 & L2 & L3 & L4) & Hr). exists addrs'.
    split_and!; [|done|].
    + intros Hon. cbn in Hon. congruence.
    + apply follows_event; [apply Hg|done|]. unfold own_of. rewrite L1, L2, L3, L4, Eq, Ed, Ec, Eon.
      apply own_realloc. intros a s. by apply idle_states.
Qed.

End refine.
