(* ===== verification/Vb2Ops.v ===== *)
(** Any sequence of operations on a videobuf2 queue: ioctls of userspace,
    mappings, and completions by the driver's interrupt handler, in any order.

    The theorems here are about all queues reachable this way from
    [vb2_queue_init].  Two things are asked of the callers: buffers come from the
    ioctl layer ([user_buffer]), and [VIDIOC_REQBUFS] is not called in the one case that
    buffers are queued but not streaming yet; what happens otherwise is the subject of Vb2Findings.v. *)

From S2P Require Import Prelude StateM Vb2Types Vb2Core Vb2Inv Vb2Spec Vb2Shape Vb2Refine.

(** ** Operations *)

Inductive vb2_op :=
  | op_reqbufs (req : v4l2_requestbuffers)
  | op_querybuf (b : v4l2_buffer)
  | op_qbuf (b : v4l2_buffer)
  | op_dqbuf (b : v4l2_buffer) (nonblocking : bool)
  | op_dqbuf_resume (signal : bool) (b : v4l2_buffer)
  | op_streamon (type : Z)
  | op_streamoff (type : Z)
  | op_mmap (vm_pgoff vm_flags : Z)
  | op_poll
  | op_buffer_done (vb : nat) (state : vb2_buffer_state).

Section ops.
Context `{E : Vb2Env}.

(** Code and number (count, index) of the answer; [None] is asleep. *)
Definition run_op (op : vb2_op) : vb2M (option (Z * Z)) :=
  match op with
  | op_reqbufs req => r <- vb2_reqbufs req ;; mdo (Some (r.1, req_count r.2))
  | op_querybuf b => r <- vb2_querybuf b ;; mdo (Some (r.1, b_index r.2))
  | op_qbuf b => r <- vb2_qbuf b ;; mdo (Some (r, b_index b))
  | op_dqbuf b nonblocking => r <- vb2_dqbuf b nonblocking ;; mdo (dq_answer r)
  | op_dqbuf_resume signal b => r <- vb2_dqbuf_resume signal b ;; mdo (dq_answer r)
  | op_streamon type => r <- vb2_streamon type ;; mdo (Some (r, 0))
  | op_streamoff type => r <- vb2_streamoff type ;; mdo (Some (r, 0))
  | op_mmap vm_pgoff vm_flags => r <- vb2_mmap vm_pgoff vm_flags ;; mdo (Some (r, 0))
  | op_poll => r <- poll_done ;; mdo (Some (r, 0))
  | op_buffer_done vb state => vb2_buffer_done vb state ;; mdo (Some (0, 0))
  end.

(** What is asked of the callers.  The lists of operations have no read() or write(). *)
Definition legal (op : vb2_op) (q : vb2_queue) : Prop :=
  match op with
  | op_reqbufs req => 0 <= req_count req /\ (streaming q = false -> queued_list q = [])
  | op_querybuf b | op_qbuf b | op_dqbuf b _ | op_dqbuf_resume _ b => user_buffer b
  | op_buffer_done vb _ => Some vb ∈ q_bufs q
  | _ => True
  end.

(** The buffers of a queue, by index. *)
Definition buffers (q : vb2_queue) : list nat := omap id (q_bufs q).

Inductive vb2_reachable : vb2_queue -> Prop :=
  | reach_init type modes flags q :
    vb2_queue_init type modes flags = Some q -> vb2_reachable q
  | reach_op q op r q' :
    vb2_reachable q -> legal op q -> run_op op q = Some (r, q') -> vb2_reachable q'.

(** What each operation may do, by its answer: the events, on the buffers
    [addrs], that it stands for. *)
Definition op_trace (addrs : list nat) (on : bool) (op : vb2_op) (r : option (Z * Z))
    (tr : list own_event) : Prop :=
  match op, r with
  | op_reqbufs _, Some (e, _) => reqbufs_trace e on tr
  | op_qbuf b, Some (e, _) => qbuf_trace addrs (b_index b) e tr
  | op_dqbuf _ _, _ | op_dqbuf_resume _ _, _ => dq_trace addrs r tr
  | op_streamon _, Some (e, _) => streamon_trace e tr
  | op_streamoff _, Some (e, _) => streamoff_trace e tr
  | op_buffer_done vb s, Some _ => tr = [] \/ (tr = [ev_complete vb s] /\ completed_state s)
  | _, Some _ => tr = []
  | _, None => False
  end.

Lemma good_buffers q addrs : vb2_shape q addrs -> buffers q = addrs.
Proof.
  intros [Hc _]. unfold buffers. rewrite (sh_bufs _ _ Hc), omap_app.
  assert (forall n, omap id (replicate n (@None nat)) = []) as -> by (induction n; done).
  rewrite app_nil_r. clear Hc. induction addrs as [|a addrs IH]; [done|]. cbn. by f_equal.
Qed.

Lemma buffer_in q addrs a : vb2_shape q addrs -> Some a ∈ q_bufs q -> a ∈ addrs.
Proof.
  intros [Hc _]. rewrite (sh_bufs _ _ Hc), elem_of_app. intros [Ha|Ha].
  - apply list_elem_of_fmap in Ha as (b & [= ->] & Hb). done.
  - by apply elem_of_replicate in Ha as [Ha _].
Qed.

Context `{!Vb2EnvLaws E}.

Definition is_reqbufs (op : vb2_op) : bool :=
  match op with op_reqbufs _ => true | _ => false end.

(** Outcome of an operation on a queue in order. *)
Definition op_post (q : vb2_queue) (op : vb2_op) (r : option (Z * Z)) (q' : vb2_queue) : Prop :=
  exists addrs', settled (own_of q') /\ (is_reqbufs op = false -> addrs' = buffers q) /\
    follows addrs' (op_trace (buffers q) (streaming q) op r) q q'.

Lemma op_quiet q addrs op r q' :
  good q addrs -> settled (own_of q) -> quiet q q' ->
  (forall addrs on, op_trace addrs on op r []) -> op_post q op r q'.
Proof.
  intros Hg Hset Hq Ht. exists addrs. split_and!; [by eapply settled_quiet| |].
  { intros _. by rewrite (good_buffers q addrs) by apply Hg. }
  eapply follows_mono; [by apply follows_quiet|]. by intros tr ->.
Qed.

Lemma run_op_wp q addrs op :
  good q addrs -> settled (own_of q) -> legal op q -> wp (run_op op) q (op_post q op).
Proof.
  intros Hg Hset Hlegal. pose proof Hg as [Hs Ho].
  pose proof (good_buffers q addrs Hs) as Eb. destruct op; cbn [run_op legal] in *.
  - destruct Hlegal as [Hn Eq]. eapply wp_seq; [by apply (reqbufs_good q addrs)|]. cbv beta.
    intros r q' (addrs' & H1 & _ & H2). exists addrs'. split_and!; [done|done|exact H2].
  - eapply wp_seq; [by apply (querybuf_wp q addrs)|]. cbv beta. intros r q' [-> _].
    apply (op_quiet q addrs); auto with vb2; done.
  - eapply wp_seq; [by apply (qbuf_wp q addrs)|]. cbv beta. intros r q' [H1 H2]. exists addrs.
    by rewrite Eb.
  - eapply wp_seq; [by apply (dqbuf_wp q addrs)|]. cbv beta. intros r q' [H1 H2]. exists addrs.
    by rewrite Eb.
  - eapply wp_seq; [by apply (dqbuf_resume_wp q addrs)|]. cbv beta. intros r q' [H1 H2]. exists addrs.
    by rewrite Eb.
  - eapply wp_seq; [by apply (streamon_wp q addrs)|]. cbv beta. intros r q' [H1 H2]. exists addrs.
    by rewrite Eb.
  - eapply wp_seq; [by apply (streamoff_wp q addrs)|]. cbv beta. intros r q' [H1 H2]. exists addrs.
    by rewrite Eb.
  - eapply wp_seq; [by apply (mmap_quiet q addrs)|]. cbv beta. intros r q' Hq. by apply (op_quiet q addrs).
  - eapply wp_seq; [by apply (poll_done_ok q addrs)|]. cbv beta. intros r q' ->.
    apply (op_quiet q addrs); auto with vb2; done.
  - eapply wp_seq; [eapply buffer_done_wp; [done|by eapply buffer_in]|]. cbv beta.
    intros _ q' Hf. exists addrs. rewrite Eb. split_and!; [|done|].
    + destruct Hf as (_ & tr & Ht & ->). eapply settled_driver; [exact Ht| |done].
      case_bool_decide; by repeat constructor.
    + case_bool_decide as Hx; (eapply follows_mono; [exact Hf|]; intros tr ->; cbn [op_trace]).
      * right. split; [done|apply Hx].
      * by left.
Qed.

Lemma init_good type modes flags q :
  vb2_queue_init type modes flags = Some q -> good q [] /\ settled (own_of q).
Proof.
  unfold vb2_queue_init. destruct (_ || _); [done|]. intros [= <-]. split.
  - split; [split; [by apply cells_empty|done]|]. apply all_dequeued_inv. cbn.
    intros a s. by rewrite lookup_fmap, lookup_empty.
  - done.
Qed.

Lemma reachable_good q :
  vb2_reachable q -> exists addrs, good q addrs /\ settled (own_of q).
Proof.
  induction 1 as [type modes flags q Hi|q op r q' Hr (addrs & Hg & Hs) Hl Hrun].
  - exists []. by eapply init_good.
  - pose proof (run_op_wp q addrs op Hg Hs Hl) as Hw. unfold wp in Hw. rewrite Hrun in Hw.
    destruct Hw as (addrs' & H1 & _ & H2 & _). eauto.
Qed.

(** ** Sequences of operations *)

Inductive vb2_runs : vb2_queue -> list vb2_op -> list (option (Z * Z)) -> vb2_queue -> Prop :=
  | runs_nil q : vb2_runs q [] [] q
  | runs_cons q op r q1 ops rs q2 :
    legal op q -> run_op op q = Some (r, q1) -> vb2_runs q1 ops rs q2 ->
    vb2_runs q (op :: ops) (r :: rs) q2.

Definition is_reset_op (op : vb2_op) : bool :=
  match op with op_reqbufs _ | op_streamoff _ => true | _ => false end.

Definition op_dequeued (op : vb2_op) (r : option (Z * Z)) : list Z :=
  match op, r with
  | op_dqbuf _ _, Some (0, i) | op_dqbuf_resume _ _, Some (0, i) => [i]
  | _, _ => []
  end.

(** The indices handed to userspace, in order. *)
Fixpoint dequeued (ops : list vb2_op) (rs : list (option (Z * Z))) : list Z :=
  match ops, rs with
  | op :: ops, r :: rs => op_dequeued op r ++ dequeued ops rs
  | _, _ => []
  end.

Definition buf_finish_accepts : Prop :=
  forall f log a, buf_finish = Some f -> f log a = 0.

Lemma driver_trace_removals tr :
  Forall driver_event tr -> removals tr = [] /\ forallb (fun e => negb (is_reset e)) tr = true.
Proof.
  induction 1 as [|e tr He Ht [IH1 IH2]]; [done|]. by destruct e.
Qed.

Lemma dq_removals addrs r tr :
  buf_finish_accepts -> dq_trace addrs r tr ->
  removals tr = (fun i => addrs !!! Z.to_nat i) <$> op_dequeued (op_dqbuf zeroed_v4l2_buffer true) r
  /\ forallb (fun e => negb (is_reset e)) tr = true.
Proof.
  intros Hfin Ht. destruct r as [[e i]|]; cbn in Ht; [|by subst].
  destruct (decide (e = 0)) as [->|He].
  - destruct Ht as (a & Hi & Ha & ->). cbn. by rewrite (list_lookup_total_correct _ _ _ Ha).
  - assert (tr = []) as ->.
    { destruct e as [|e|e]; [done|..];
        (destruct Ht as [->|(a & f & log & Hf & Hfe & ->)]; [done|];
         specialize (Hfin f log a Hf); congruence). }
    by destruct e.
Qed.

Lemma op_removals addrs on op r tr :
  buf_finish_accepts -> is_reset_op op = false -> op_trace addrs on op r tr ->
  removals tr = (fun i => addrs !!! Z.to_nat i) <$> op_dequeued op r /\
  forallb (fun e => negb (is_reset e)) tr = true.
Proof.
  intros Hfin Hop Ht. destruct op; try done.
  - destruct r; cbn in Ht; [by subst|done].
  - destruct r as [[e i]|]; [|done]. cbn in Ht. unfold qbuf_trace in Ht. case_bool_decide; [|by subst].
    destruct Ht as (a & t & _ & -> & Hd). destruct (driver_trace_removals t Hd) as [E1 E2].
    split; [exact E1|exact E2].
  - by apply dq_removals.
  - by apply dq_removals.
  - destruct r as [[e i]|]; [|done]. cbn in Ht. unfold streamon_trace in Ht. case_bool_decide; [|by subst].
    destruct Ht as (t & -> & Hd). destruct (driver_trace_removals t Hd) as [E1 E2].
    split; [exact E1|exact E2].
  - destruct r; cbn in Ht; [by subst|done].
  - destruct r; cbn in Ht; [by subst|done].
  - destruct r; [|done]. destruct Ht as [->|[-> _]]; done.
Qed.

Lemma run_op_cases q op r q' :
  vb2_reachable q -> legal op q -> run_op op q = Some (r, q') -> op_post q op r q'.
Proof.
  intros Hq Hl Hrun. destruct (reachable_good q Hq) as (addrs & Hg & Hs).
  pose proof (run_op_wp q addrs op Hg Hs Hl) as Hw. unfold wp in Hw. by rewrite Hrun in Hw.
Qed.

Lemma runs_trace q ops rs q' :
  vb2_runs q ops rs q' -> vb2_reachable q -> buf_finish_accepts ->
  forallb (fun op => negb (is_reset_op op)) ops = true ->
  exists tr, own_steps (own_of q) tr (own_of q') /\
    forallb (fun e => negb (is_reset e)) tr = true /\
    removals tr = (fun i => buffers q !!! Z.to_nat i) <$> dequeued ops rs.
Proof.
  induction 1 as [q|q op r q1 ops rs q2 Hl Hrun Hruns IH]; intros Hq Hfin Hops.
  { exists []. split_and!; [constructor|done|done]. }
  cbn in Hops. apply andb_true_iff in Hops as [Hop Hops]. apply negb_true_iff in Hop.
  destruct (run_op_cases q op r q1 Hq Hl Hrun) as (addrs' & Hset & Heq & [Hs1 _] & t1 & Ht1 & Htr).
  destruct IH as (t2 & Ht2 & Hf2 & Hr2); [by eapply reach_op|done|done|].
  destruct (op_removals _ _ _ _ _ Hfin Hop Htr) as [Hr1 Hf1].
  assert (buffers q1 = buffers q) as Eb.
  { rewrite (good_buffers q1 addrs' Hs1). apply Heq. by destruct op. }
  exists (t1 ++ t2). split_and!.
  - by eapply own_app.
  - by rewrite forallb_app, Hf1, Hf2.
  - cbn [dequeued]. rewrite fmap_app, <- Hr1, <- Eb, <- Hr2. apply omap_app.
Qed.

End ops.
