(* ===== verification/Vb2Props.v ===== *)
(** The properties of the videobuf2 operations, and a small driver to run
    them with: a capture queue of one plane per buffer, memory from the
    allocator, a driver that keeps its buffers until its interrupt handler
    completes them. *)

From S2P Require Import Prelude StateM Vb2Types Vb2Core Vb2Inv Vb2Spec Vb2Shape Vb2Refine Vb2Ops.

(** ** Running operations in a row *)

Section play.
Context `{E : Vb2Env}.

(** Deciding whether operations are legal, to run them in a row. *)
Definition user_bufferb (b : v4l2_buffer) : bool :=
  (0 <=? b_index b) && (b_index b <? 2 ^ 32) &&
  match b_planes b with None => true | Some ps => zlen ps =? b_length b end.

Definition legalb (op : vb2_op) (q : vb2_queue) : bool :=
  match op with
  | op_reqbufs req => (0 <=? req_count req) && (streaming q || bool_decide (queued_list q = []))
  | op_querybuf b | op_qbuf b | op_dqbuf b _ | op_dqbuf_resume _ b => user_bufferb b
  | op_buffer_done vb _ => bool_decide (Some vb ∈ q_bufs q)
  | _ => true
  end.

Lemma user_bufferb_ok b : user_bufferb b = true -> user_buffer b.
Proof.
  unfold user_bufferb. rewrite !andb_true_iff, Z.leb_le, Z.ltb_lt. intros [[H1 H2] H3].
  split; [done|]. intros ps Hps. rewrite Hps in H3. lia.
Qed.

Lemma legalb_ok op q : legalb op q = true -> legal op q.
Proof.
  destruct op; cbn; try done; try apply user_bufferb_ok.
  - rewrite andb_true_iff, orb_true_iff, Z.leb_le, bool_decide_eq_true.
    intros [Hn [Hon|Eq]]; (split; [done|]); [by rewrite Hon|done].
  - by rewrite bool_decide_eq_true.
Qed.

Fixpoint play (ops : list vb2_op) (q : vb2_queue) : option (list (option (Z * Z)) * vb2_queue) :=
  match ops with
  | [] => Some ([], q)
  | op :: ops =>
    if legalb op q then
      match run_op op q with
      | Some (r, q) =>
        match play ops q with Some (rs, q) => Some (r :: rs, q) | None => None end
      | None => None
      end
    else None
  end.

Lemma play_runs ops : forall q rs q', play ops q = Some (rs, q') -> vb2_runs q ops rs q'.
Proof.
  induction ops as [|op ops IH]; intros q rs q' Hp; cbn in Hp.
  { injection Hp as <- <-. constructor. }
  destruct (legalb op q) eqn:El; [|done]. destruct (run_op op q) as [[r q1]|] eqn:Er; [|done].
  destruct (play ops q1) as [[rs1 q2]|] eqn:Ep; [|done]. injection Hp as <- <-.
  econstructor; [by apply legalb_ok|done|auto].
Qed.

Lemma runs_reachable q ops rs q' : vb2_runs q ops rs q' -> vb2_reachable q -> vb2_reachable q'.
Proof. induction 1; eauto using reach_op. Qed.

End play.

(** ** A driver to run *)

#[export] Instance demo_env : Vb2Env := {|
  queue_setup log n := (0, (Z.max 0 (Z.min n 4), 1, 5000 :: replicate 7 0, replicate 8 0));
  buf_init := None;
  buf_prepare := None;
  buf_finish := None;
  has_buf_cleanup := false;
  start_streaming := Some (fun _ => 0);
  has_stop_streaming := true;
  gives_back log held := [];
  mem_alloc := Some (fun log ctx size => Some (zlen log));
  has_put := true;
  get_userptr := None;
  has_put_userptr := false;
  mem_vaddr := None;
  mem_cookie := None;
  num_users := None;
  mem_mmap := Some (fun log p => 0);
  kzalloc_buffer_ok log vb := true;
  kzalloc_fileio_ok log := true;
  copy_user log n := 0;
  stack_planes log := replicate 8 (mk_plane 0 0 0 0);
|}.

#[export] Instance demo_laws : Vb2EnvLaws demo_env.
Proof.
  split.
  - intros log n n' np sizes ctxs [= <- <- _ _]. unfold VIDEO_MAX_FRAME, VIDEO_MAX_PLANES. lia.
  - intros log n ret n' np sizes ctxs [= _ _ _ <- <-]. done.
  - intros log h x Hx. cbn in Hx. set_solver.
  - done.
Qed.

Definition demo_init : vb2_queue :=
  mk_queue 1 5 0 0 (replicate 32 None) 0 [] 0 [] (replicate 8 0) false None ∅ 0 [].

Definition demo_buf (index : Z) : v4l2_buffer :=
  mk_v4l2_buffer index 1 0 0 0 0 0 0 V4L2_MEMORY_MMAP 0 None 0 0 0.

(** Three buffers, all queued, streaming; the second is completed first. *)
Definition demo_start : list vb2_op :=
  [op_reqbufs (mk_req 3 1 V4L2_MEMORY_MMAP); op_qbuf (demo_buf 0); op_qbuf (demo_buf 1);
   op_streamon 1; op_qbuf (demo_buf 2); op_buffer_done 1 VB2_BUF_STATE_DONE].

Definition demo_queue : vb2_queue :=
  match play demo_start demo_init with Some (_, q) => q | None => demo_init end.

Example demo_answers :
  fst <$> play demo_start demo_init =
  Some [Some (0, 3); Some (0, 0); Some (0, 1); Some (0, 0); Some (0, 2); Some (0, 0)].
Proof. vm_compute. reflexivity. Qed.

Lemma demo_reachable : vb2_reachable demo_queue.
Proof.
  destruct (play demo_start demo_init) as [[rs q]|] eqn:Ep; [|by vm_compute in Ep].
  apply (runs_reachable demo_init demo_start rs).
  - apply play_runs. unfold demo_queue. by rewrite Ep.
  - by apply (reach_init 1 5 0).
Qed.

(** ** Safety and refinement *)

Section props.
Context `{E : Vb2Env} `{!Vb2EnvLaws E}.

(** Claim C8: no operation touches memory that is not there.  On every queue that
    userspace and the driver can produce with the operations of [vb2_op], with
    buffers as the ioctl layer copies them ([user_buffer]) and drivers that keep to
    [Vb2EnvLaws], every ioctl, mapping, poll and completion runs to an answer: no
    access to a freed buffer or list entry, no index outside the buffer, plane or
    context arrays, no null callback.  Excluded is VIDIOC_REQBUFS while buffers are
    queued and the queue is not streaming ([legal]), which frees them on the list:
    [reqbufs_frees_queued_buffers]. *)
Theorem operations_never_fault q op :
  vb2_reachable q -> legal op q -> exists r q', run_op op q = Some (r, q').
Proof.
  intros Hq Hl. destruct (reachable_good q Hq) as (addrs & Hg & Hs).
  destruct (wp_run _ _ _ (run_op_wp q addrs op Hg Hs Hl)) as (r & q' & Hrun & _). eauto.
Qed.

(** Claim C3: the operations implement the ownership machine.  Each one ([legal], so
    VIDIOC_REQBUFS only with nothing queued or while streaming) is a sequence of its
    events, and the answer says which: [qbuf] that returns 0 queues exactly the
    buffer of its index, [dqbuf] that returns 0 delivers the oldest completed
    buffer and reports its index, [streamon] that returns 0 starts, [streamoff]
    that returns 0 takes everything back, and an operation that fails changes no
    buffer's owner, except for a buffer whose [buf_finish] the driver refuses;
    VIDIOC_REQBUFS while not streaming leaves all buffers with userspace.  When the
    queue is streaming after an operation, every queued buffer has been handed to the
    driver: [streamon] hands over what waited and [qbuf] what it queues. *)
Theorem operations_refine_ownership q op r q' :
  vb2_reachable q -> legal op q -> run_op op q = Some (r, q') ->
  exists tr, own_steps (own_of q) tr (own_of q') /\ op_trace (buffers q) (streaming q) op r tr /\
    (streaming q' = true -> forall a v, q_heap q' !! a = Some v -> vb_state v <> VB2_BUF_STATE_QUEUED).
Proof.
  intros Hq Hl Hrun. destruct (run_op_cases q op r q' Hq Hl Hrun) as (addrs & Hs & _ & _ & tr & Ht & Hp).
  exists tr. split_and!; [done|done|]. intros Hon a v Ha Hv. apply (Hs Hon a). cbn.
  by rewrite lookup_fmap, Ha, <- Hv.
Qed.

(** Claim C12: the lists agree with the buffers.  On every queue that [legal] operations
    reach, so without VIDIOC_REQBUFS while buffers are queued and not streaming, a
    buffer is on the queued list exactly when userspace does not own it, once; the
    done list holds distinct completed buffers; [queued_count] counts the buffers
    the driver has; nothing waits while streaming, and nothing is with the driver
    or completed while not. *)
Theorem lists_agree_with_buffers q :
  vb2_reachable q -> own_inv (own_of q) /\ settled (own_of q).
Proof. intros Hq. destruct (reachable_good q Hq) as (addrs & [_ Ho] & Hs). done. Qed.

(** Claim C40: the buffers of a reachable queue are well formed.  The first
    [num_buffers] slots hold distinct live structures and the others are null,
    no other structure is allocated, and each has its own index, the type and
    memory of the queue, at most 8 planes and full plane arrays. *)
Theorem buffers_well_formed q : vb2_reachable q -> vb2_shape q (buffers q).
Proof.
  intros Hq. destruct (reachable_good q Hq) as (addrs & [Hs _] & _).
  by rewrite (good_buffers q addrs Hs).
Qed.

(** Fact: the atomic counter of buffers with the driver never wraps, and the queue
    holds at most the 32 buffers there is room for. *)
Theorem queued_count_bounded q :
  vb2_reachable q -> 0 <= queued_count q <= zlen (queued_list q) /\ zlen (queued_list q) <= num_buffers q <= 32.
Proof.
  intros Hq. destruct (reachable_good q Hq) as (addrs & Hg & _). pose proof Hg as [[Hc Hn] Ho].
  pose proof (oi_count _ Ho) as Hcount. cbn [o_count own_of] in Hcount. rewrite Hcount, Hn.
  pose proof (sh_len _ _ Hc). split_and!.
  - apply zlen_nonneg.
  - unfold zlen, held. apply inj_le, length_filter.
  - unfold zlen. apply inj_le, submseteq_length, NoDup_submseteq; [apply Ho|].
    intros a Ha. by eapply good_queued.
  - unfold zlen. lia.
Qed.

(** Claim C19: buffers come back in the order they were completed.  Over any sequence of
    operations without a stop or a reallocation, with a driver whose
    [buf_finish] accepts, the buffers completed before, followed by those
    completed meanwhile in the order of completion, are the buffers
    userspace dequeued, in its order, followed by those still waiting: none is
    lost, duplicated or overtaken. *)
Theorem dequeued_in_order_of_completion q ops rs q' :
  vb2_reachable q -> vb2_runs q ops rs q' -> buf_finish_accepts ->
  forallb (fun op => negb (is_reset_op op)) ops = true ->
  exists tr, own_steps (own_of q) tr (own_of q') /\
    done_list q ++ completions tr =
    ((fun i => buffers q !!! Z.to_nat i) <$> dequeued ops rs) ++ done_list q'.
Proof.
  intros Hq Hr Hfin Hops. destruct (runs_trace q ops rs q' Hr Hq Hfin Hops) as (tr & Ht & Hf & Hrem).
  exists tr. split; [done|]. rewrite <- Hrem. by apply (own_steps_fifo _ _ _ Ht).
Qed.

(** Claim C39: after [streamoff] returns 0 every buffer belongs to userspace again, both
    lists are empty, the driver's count is zero and the queue has stopped. *)
Theorem streamoff_returns_all_buffers q type q' :
  vb2_reachable q -> vb2_streamoff type q = Some (0, q') ->
  all_idle q' /\ queued_list q' = [] /\ done_list q' = [] /\ queued_count q' = 0 /\
  streaming q' = false /\ buffers q' = buffers q.
Proof.
  intros Hq Hrun.
  destruct (run_op_cases q (op_streamoff type) (Some (0, 0)) q' Hq I) as
    (addrs & _ & Ea & [Hs _] & tr & Ht & Htr).
  { cbn. unfold mthen. by rewrite Hrun. }
  destruct Htr as (t & -> & _). destruct (own_stop_last _ _ _ Ht) as (st & Est).
  injection Est as E1 E2 E3 E4 E5. rewrite (good_buffers q' addrs Hs). split_and!; auto.
  intros a v Hv. assert (((vb_state <$> q_heap q') !! a) = Some (vb_state v)) as Hl by by rewrite lookup_fmap, Hv.
  rewrite E1, lookup_fmap in Hl. destruct (st !! a); cbn in Hl; congruence.
Qed.

(** Claim C38: a completed buffer is delivered by the next call.  While streaming, with a
    completed buffer waiting and a driver whose [buf_finish] accepts, [dqbuf]
    does not sleep and does not fail: it returns 0 and the index of the oldest
    completed buffer, which then belongs to userspace. *)
Theorem dqbuf_delivers_completed q b nonblocking a l :
  vb2_reachable q -> user_buffer b -> b_type b = q_type q -> streaming q = true ->
  done_list q = a :: l -> buf_finish_accepts ->
  exists b' q', vb2_dqbuf b nonblocking q = Some (Some (0, b'), q') /\
    buffers q !! Z.to_nat (b_index b') = Some a /\ done_list q' = l /\
    vb_state <$> q_heap q' !! a = Some VB2_BUF_STATE_DEQUEUED.
Proof.
  intros Hq Hb Hty Hon El Hfin. destruct (reachable_good q Hq) as (addrs & Hg & Hs).
  pose proof (dqbuf_wp q addrs b nonblocking Hg Hs Hb) as Hw.
  destruct (wp_run _ _ _ (dqbuf_prompt q addrs b nonblocking Hg Hs Hb Hty)) as (r & q' & Hrun & Hp).
  destruct Hp as (e & b' & -> & He); [done|by rewrite El|].
  unfold wp in Hw. rewrite Hrun in Hw. destruct Hw as (_ & _ & tr & Ht & Htr).
  assert (e = 0) as ->.
  { destruct (decide (e = 0)); [done|]. destruct He as (f & log & x & Hf & Hx); [done|].
    specialize (Hfin f log x Hf). congruence. }
  exists b', q'. cbn in Htr. destruct Htr as (a' & Hi & Hia & ->). split; [done|]. destruct (own_deliver_one _ _ _ Ht) as (l' & El' & Ed & Est).
  cbn in El'. rewrite El in El'. injection El' as -> ->.
  rewrite (good_buffers q addrs) by apply Hg. split_and!; [done|done|].
  by rewrite <- own_state.
Qed.

End props.

(** ** The theorems at work on the demonstration queue *)

Lemma demo_buf_ok i : 0 <= i < 32 -> user_buffer (demo_buf i).
Proof. intros Hi. split; [cbn; lia|done]. Qed.

Lemma operations_never_fault_witness :
  exists r q', run_op (op_dqbuf (demo_buf 0) false) demo_queue = Some (r, q').
Proof.
  apply operations_never_fault; [apply demo_reachable|apply demo_buf_ok; lia].
Defined.

Lemma demo_shape : vb2_shape demo_queue [0%nat; 1%nat; 2%nat].
Proof.
  destruct (reachable_good demo_queue demo_reachable) as (addrs & [Hs _] & _).
  pose proof (good_buffers demo_queue addrs Hs) as <-. exact Hs.
Qed.

Definition demo_dequeued : vb2_queue :=
  match run_op (op_dqbuf (demo_buf 0) false) demo_queue with
  | Some (_, q) => q
  | None => demo_queue
  end.

Lemma operations_refine_ownership_witness :
  exists tr, own_steps (own_of demo_queue) tr (own_of demo_dequeued) /\
    op_trace (buffers demo_queue) true (op_dqbuf (demo_buf 0) false) (Some (0, 1)) tr /\
    (streaming demo_dequeued = true ->
     forall a v, q_heap demo_dequeued !! a = Some v -> vb_state v <> VB2_BUF_STATE_QUEUED).
Proof.
  apply (operations_refine_ownership demo_queue (op_dqbuf (demo_buf 0) false)).
  - apply demo_reachable.
  - apply demo_buf_ok. lia.
  - vm_compute. reflexivity.
Defined.

Lemma lists_agree_with_buffers_witness : own_inv (own_of demo_queue) /\ settled (own_of demo_queue).
Proof. apply lists_agree_with_buffers, demo_reachable. Defined.

Lemma buffers_well_formed_witness : vb2_shape demo_queue [0%nat; 1%nat; 2%nat].
Proof.
  change [0%nat; 1%nat; 2%nat] with (buffers demo_queue). apply buffers_well_formed, demo_reachable.
Defined.

Lemma queued_count_bounded_witness :
  queued_count demo_queue = 2 /\ 0 <= queued_count demo_queue <= zlen (queued_list demo_queue)
  /\ zlen (queued_list demo_queue) <= num_buffers demo_queue <= 32.
Proof. split; [vm_compute; reflexivity|]. apply queued_count_bounded, demo_reachable. Defined.

(** The third buffer completes after the second, and both are dequeued so. *)
Definition demo_more : list vb2_op :=
  [op_buffer_done 2 VB2_BUF_STATE_ERROR; op_dqbuf (demo_buf 0) true; op_buffer_done 0 VB2_BUF_STATE_DONE;
   op_dqbuf (demo_buf 0) false].

Definition demo_later : vb2_queue :=
  match play demo_more demo_queue with Some (_, q) => q | None => demo_init end.

Lemma dequeued_in_order_of_completion_witness :
  exists tr, own_steps (own_of demo_queue) tr (own_of demo_later) /\
    done_list demo_queue ++ completions tr =
    ((fun i => buffers demo_queue !!! Z.to_nat i) <$> [1; 2]) ++ done_list demo_later.
Proof.
  apply (dequeued_in_order_of_completion demo_queue demo_more
    [Some (0, 0); Some (0, 1); Some (0, 0); Some (0, 2)]).
  - apply demo_reachable.
  - apply play_runs. vm_compute. reflexivity.
  - intros f log a [=].
  - reflexivity.
Defined.

Definition demo_stopped : vb2_queue :=
  match vb2_streamoff 1 demo_queue with Some (_, q) => q | None => demo_init end.

Lemma streamoff_returns_all_buffers_witness :
  all_idle demo_stopped /\ queued_list demo_stopped = [] /\ done_list demo_stopped = [] /\
  queued_count demo_stopped = 0 /\ streaming demo_stopped = false /\
  buffers demo_stopped = buffers demo_queue.
Proof.
  apply (streamoff_returns_all_buffers demo_queue 1); [apply demo_reachable|vm_compute; reflexivity].
Defined.

Lemma dqbuf_delivers_completed_witness :
  exists b' q', vb2_dqbuf (demo_buf 0) false demo_queue = Some (Some (0, b'), q') /\
    buffers demo_queue !! Z.to_nat (b_index b') = Some 1%nat /\ done_list q' = [] /\
    vb_state <$> q_heap q' !! 1%nat = Some VB2_BUF_STATE_DEQUEUED.
Proof.
  apply dqbuf_delivers_completed.
  - apply demo_reachable.
  - apply demo_buf_ok. lia.
  - vm_compute. reflexivity.
  - vm_compute. reflexivity.
  - vm_compute. reflexivity.
  - intros f log a [=].
Defined.
