(* ===== verification/Vb2Mmap.v ===== *)
(** Offsets of planes: the cookie that [VIDIOC_QUERYBUF] reports for a plane is
    the one that [mmap] finds that plane by. *)

From S2P Require Import Prelude StateM Vb2Types Vb2Core Vb2Inv Vb2Spec Vb2Shape Vb2Refine Vb2Ops Vb2Props.

(** ** Arithmetic of page offsets *)

Definition page_up (x : Z) : Z := (x + 4095) / 4096 * 4096.

Lemma page_align_spec x : 0 <= x -> x + 4095 < 2 ^ 64 -> PAGE_ALIGN x = page_up x.
Proof.
  intros H0 H1. unfold PAGE_ALIGN, page_up.
  change (Z.land (x + 0xfff) (Z.lnot 0xfff)) with (Z.ldiff (x + 4095) (Z.ones 12)).
  rewrite Z.ldiff_ones_r, Z.shiftl_mul_pow2, Z.shiftr_div_pow2 by lia. change (2 ^ 12) with 4096.
  apply wrap_small. pose proof (Z.div_pos (x + 4095) 4096).
  pose proof (Z.mul_div_le (x + 4095) 4096). lia.
Qed.

Lemma page_up_bounds x : x <= page_up x.
Proof.
  unfold page_up. pose proof (Z.div_mod (x + 4095) 4096 ltac:(lia)).
  pose proof (Z.mod_pos_bound (x + 4095) 4096 ltac:(lia)). lia.
Qed.

Lemma page_up_add k x : page_up (k * 4096 + x) = k * 4096 + page_up x.
Proof.
  unfold page_up. replace (k * 4096 + x + 4095) with ((x + 4095) + k * 4096) by lia.
  rewrite Z.div_add by lia. lia.
Qed.

Lemma page_shift_back k : 0 <= k -> k * 4096 < 2 ^ 64 ->
  u64 (Z.shiftl (Z.shiftr (k * 4096) 12) PAGE_SHIFT) = k * 4096.
Proof.
  intros H0 H1. unfold PAGE_SHIFT. rewrite Z.shiftl_mul_pow2, Z.shiftr_div_pow2 by lia.
  change (2 ^ 12) with 4096. rewrite Z.div_mul by lia. apply wrap_small. lia.
Qed.

(** ** Planes by buffer and number *)

Definition plane_at (q : vb2_queue) (x : nat * Z) : option v4l2_plane :=
  v ← q_heap q !! x.1; mget (v4l2_planes v) x.2.

Definition plane_length (q : vb2_queue) (x : nat * Z) : Z :=
  match plane_at q x with Some p => pl_length p | None => 0 end.

Definition planes_in (q : vb2_queue) (a : nat) : list (nat * Z) :=
  match q_heap q !! a with
  | Some v => (fun p => (a, p)) <$> seqZ 0 (num_planes v)
  | None => []
  end.

(** All planes of the queue, in the order they get their offsets. *)
Definition all_planes (q : vb2_queue) (addrs : list nat) : list (nat * Z) :=
  addrs ≫= planes_in q.

Definition total_length (q : vb2_queue) (l : list (nat * Z)) : Z :=
  foldr (fun x s => page_up (plane_length q x) + s) 0 l.

Lemma total_length_app q l k : total_length q (l ++ k) = total_length q l + total_length q k.
Proof. unfold total_length. induction l as [|x l IH]; cbn; [done|]. rewrite IH. lia. Qed.

Section mmap.
Context `{E : Vb2Env}.

(** The offsets alone change. *)
Definition same_but_offsets (q q' : vb2_queue) : Prop :=
  quiet q q' /\
  forall x, (fun p => set_pl_m 0 p) <$> plane_at q' x = (fun p => set_pl_m 0 p) <$> plane_at q x.

Lemma offsets_refl q : same_but_offsets q q.
Proof. split; auto with vb2. Qed.

Lemma offsets_trans a b c : same_but_offsets a b -> same_but_offsets b c -> same_but_offsets a c.
Proof. intros [H1 H2] [H3 H4]. split; [by eapply quiet_trans|]. intros x. by rewrite H4, H2. Qed.

Lemma offsets_length q q' x : same_but_offsets q q' -> plane_length q' x = plane_length q x.
Proof.
  intros [_ H]. specialize (H x). unfold plane_length.
  destruct (plane_at q' x) as [p'|], (plane_at q x) as [p|]; try done.
  cbn in H. by injection H.
Qed.

Lemma offsets_total q q' l : same_but_offsets q q' -> total_length q' l = total_length q l.
Proof.
  intros H. unfold total_length. induction l as [|x l IH]; cbn; [done|]. by rewrite IH, (offsets_length q q' x H).
Qed.

Lemma offsets_planes_in q q' a : quiet q q' -> planes_in q' a = planes_in q a.
Proof.
  intros [_ Hh]. unfold planes_in. destruct (Hh a) as [v v' Hs|]; [|done]. by rewrite (ss_num _ _ Hs).
Qed.

(** Storing one offset. *)
Lemma store_offset vb p off q :
  live q vb -> 0 <= p < 8 ->
  wp (upd_v4l2_plane vb p (set_pl_m off)) q (fun _ q' => same_but_offsets q q' /\
    (exists pl, plane_at q' (vb, p) = Some pl /\ pl_m pl = off) /\
    forall x, x <> (vb, p) -> plane_at q' x = plane_at q x).
Proof.
  intros (v & Hv & Hs1 & Hs2 & Hs3) Hp.
  destruct (mget_in (v4l2_planes v) p) as [pl Hpl]; [lia|].
  assert (exists ps, mset (v4l2_planes v) p (set_pl_m off pl) = Some ps /\
    zlen ps = zlen (v4l2_planes v) /\ mget ps p = Some (set_pl_m off pl) /\
    forall r, r <> p -> mget ps r = mget (v4l2_planes v) r) as (ps & Hps & Hl & Hget & Hother).
  { unfold mset. rewrite bool_decide_true by lia. eexists. split; [done|]. unfold zlen in Hs2.
    split_and!.
    - by rewrite zlen_insert.
    - apply mget_Some. split; [lia|]. apply list_lookup_insert_eq. lia.
    - intros r Hr. unfold mget. case_bool_decide; [|done]. apply list_lookup_insert_ne. lia. }
  eapply wp_vb_get; [done|]. eapply wp_the; [done|]. eapply wp_the; [done|].
  unfold wp. rewrite (vb_put_eq vb v (set_v4l2_planes ps v) q Hv). set (q' := set_q_heap _ q).
  assert (forall x, plane_at q' x = if decide (x.1 = vb) then mget ps x.2 else plane_at q x) as Hat.
  { intros [a r]. unfold plane_at. cbn. destruct (decide (a = vb)) as [->|Ha].
    - by rewrite lookup_insert_eq.
    - by rewrite lookup_insert_ne. }
  split_and!.
  - split; [eapply quiet_insert; [done|by split]|]. intros [a r]. rewrite Hat. cbn [fst snd].
    case_decide as Ea; [|done]. subst a. unfold plane_at. cbn. rewrite Hv. cbn.
    destruct (decide (r = p)) as [->|Hr]; [by rewrite Hget, Hpl|by rewrite Hother].
  - exists (set_pl_m off pl). rewrite Hat. cbn [fst snd]. by rewrite decide_True.
  - intros [a r] Hx. rewrite Hat. cbn [fst snd]. case_decide as Ea; [|done]. subst a.
    unfold plane_at. cbn. rewrite Hv. cbn. apply Hother. by intros ->.
Qed.

(** ** Distinct offsets *)

(** The planes done so far have distinct page offsets below [off]. *)
Definition offsets_done (q : vb2_queue) (l : list (nat * Z)) (off : Z) : Prop :=
  (exists k, off = k * 4096 /\ 0 <= k) /\
  (forall x, x ∈ l -> exists p k, plane_at q x = Some p /\ pl_m p = k * 4096 /\ 0 <= k /\
     k * 4096 < off /\ k * 4096 < 2 ^ 32) /\
  (forall x y p r, x ∈ l -> y ∈ l -> plane_at q x = Some p -> plane_at q y = Some r ->
     pl_m p = pl_m r -> x = y).

(** One more plane. *)
Lemma offsets_done_snoc q q' l x off len :
  offsets_done q l off -> off < 2 ^ 32 -> 0 < len -> x ∉ l ->
  (exists p, plane_at q' x = Some p /\ pl_m p = off) ->
  (forall y, y <> x -> plane_at q' y = plane_at q y) ->
  offsets_done q' (l ++ [x]) (off + page_up len).
Proof.
  intros ((k & -> & Hk) & Hl & Hinj) Hoff Hlen Hx (p & Hp & Epm) Hother.
  pose proof (page_up_bounds len) as Hup.
  assert (exists u, page_up len = u * 4096) as [u Hu] by (unfold page_up; eauto).
  assert (forall y, y ∈ l -> plane_at q' y = plane_at q y) as Hold.
  { intros y Hy. apply Hother. by intros ->. }
  split_and!.
  - exists (k + u). lia.
  - intros y [Hy|Hy%list_elem_of_singleton]%elem_of_app.
    + destruct (Hl y Hy) as (py & ky & E1 & E2 & E3 & E4 & E5). exists py, ky.
      rewrite (Hold y Hy). split_and!; (done || lia).
    + subst y. exists p, k. split_and!; (done || lia).
  - assert (forall y py, y ∈ l -> plane_at q' y = Some py -> pl_m py < k * 4096) as Hlt.
    { intros y py Hy Hpy. rewrite (Hold y Hy) in Hpy.
      destruct (Hl y Hy) as (py' & ky & E1 & E2 & E3 & E4 & E5). simplify_eq. lia. }
    intros y z py pz [Hy|Hy%list_elem_of_singleton]%elem_of_app
      [Hz|Hz%list_elem_of_singleton]%elem_of_app Ey Ez Em.
    + rewrite (Hold y Hy) in Ey. rewrite (Hold z Hz) in Ez. by apply (Hinj y z py pz).
    + subst z. pose proof (Hlt y py Hy Ey). rewrite Hp in Ez. injection Ez as <-. lia.
    + subst y. pose proof (Hlt z pz Hz Ez). rewrite Hp in Ey. injection Ey as <-. lia.
    + congruence.
Qed.

Lemma nodup_next (l k : list (nat * Z)) x : NoDup (l ++ x :: k) -> x ∉ l /\ NoDup ((l ++ [x]) ++ k).
Proof.
  intros Hn. rewrite <- app_assoc. split; [|done]. apply NoDup_app in Hn as (_ & Hd & _).
  intros Hx. by apply (Hd x Hx), list_elem_of_here.
Qed.

Lemma plane_at_live q vb p : live q vb -> 0 <= p < 8 ->
  exists v pl, q_heap q !! vb = Some v /\ zlen (v4l2_planes v) = 8 /\
    mget (v4l2_planes v) p = Some pl /\ plane_at q (vb, p) = Some pl /\
    plane_length q (vb, p) = pl_length pl.
Proof.
  intros (v & Hv & _ & Hz & _) Hp. destruct (mget_in (v4l2_planes v) p) as [pl Hpl]; [lia|].
  assert (plane_at q (vb, p) = Some pl) as Ea by (unfold plane_at; cbn; by rewrite Hv).
  exists v, pl. unfold plane_length. rewrite Ea. by split_and!.
Qed.

Definition lengths_ok (q : vb2_queue) (l : list (nat * Z)) : Prop :=
  forall x, x ∈ l -> 0 < plane_length q x < 2 ^ 32.

Lemma lengths_ok_offsets q q' l : lengths_ok q l -> same_but_offsets q q' -> lengths_ok q' l.
Proof. intros Hl Hs x Hx. rewrite (offsets_length q q' x Hs). by apply Hl. Qed.

Lemma next_offset off k len :
  off = k * 4096 -> 0 <= k -> off < 2 ^ 32 -> 0 < len < 2 ^ 32 ->
  PAGE_ALIGN (u64 (off + len)) = off + page_up len.
Proof.
  intros -> Hk Ho Hl. rewrite (wrap_small 64) by lia. rewrite page_align_spec by lia.
  apply page_up_add.
Qed.

(** What the loops over planes and buffers establish. *)
Definition offsets_post (q : vb2_queue) (done l : list (nat * Z)) (off off' : Z) (q' : vb2_queue) : Prop :=
  same_but_offsets q q' /\ off' = off + total_length q l /\ offsets_done q' (done ++ l) off'.

Lemma total_nonneg q l : lengths_ok q l -> 0 <= total_length q l.
Proof.
  intros Hl. unfold total_length. induction l as [|x l IH]; cbn; [done|].
  pose proof (page_up_bounds (plane_length q x)). pose proof (Hl x (list_elem_of_here x l)).
  assert (lengths_ok q l) as Hl' by (intros y Hy; by apply Hl, list_elem_of_further).
  specialize (IH Hl'). lia.
Qed.

Lemma plane_offsets_spec vb ps : forall l off q,
  live q vb -> (forall p, p ∈ ps -> 0 <= p < 8) -> offsets_done q l off ->
  NoDup (l ++ (pair vb <$> ps)) -> lengths_ok q (pair vb <$> ps) ->
  off + total_length q (pair vb <$> ps) <= 2 ^ 32 ->
  wp (plane_offsets vb ps off) q (fun off' q' => offsets_post q l (pair vb <$> ps) off off' q').
Proof.
  induction ps as [|p ps IH]; intros l off q Hl Hp Hd Hn Hlen Htot; cbn [plane_offsets].
  { split_and!; [apply offsets_refl|cbn; lia|]. by rewrite app_nil_r. }
  cbn [fmap list_fmap] in *. destruct (nodup_next _ _ _ Hn) as [Hx Hn'].
  assert (0 <= p < 8) as Hp8 by apply Hp, list_elem_of_here.
  pose proof (Hlen (vb, p) (list_elem_of_here _ _)) as Hlp.
  assert (lengths_ok q (pair vb <$> ps)) as Hlen' by (intros y Hy; by apply Hlen, list_elem_of_further).
  pose proof (total_nonneg q _ Hlen') as Htn. pose proof (page_up_bounds (plane_length q (vb, p))) as Hup.
  unfold total_length in Htot. cbn [foldr] in Htot. fold (total_length q (pair vb <$> ps)) in Htot.
  pose proof Hd as ((k & Ek & Hk) & _).
  rewrite (wrap_small 32 off) by lia.
  eapply wp_seq; [by apply (store_offset vb p off)|]. cbv beta. intros _ q1 (Hs1 & Hpl & Hother).
  pose proof (live_quiet q q1 vb Hl (proj1 Hs1)) as Hl1.
  destruct (plane_at_live q1 vb p Hl1 Hp8) as (v & pl & Hv & Hz & Hg & _ & Epl).
  eapply wp_get_v4l2_plane; [done|lia|]. intros pl' Hg'. rewrite Hg in Hg'. injection Hg' as <-.
  rewrite <- Epl, (offsets_length q q1 _ Hs1), (next_offset off k) by lia.
  eapply wp_mono; [apply (IH (l ++ [(vb, p)]) _ q1)|].
  - done.
  - intros r Hr. by apply Hp, list_elem_of_further.
  - apply (offsets_done_snoc q); [done|lia|lia|done|done|done].
  - done.
  - by eapply lengths_ok_offsets.
  - rewrite (offsets_total q q1 _ Hs1). lia.
  - cbv beta. intros off' q2 (Hs2 & Eo & Hd2). split_and!.
    + by eapply offsets_trans.
    + rewrite Eo, (offsets_total q q1 _ Hs1). unfold total_length. cbn [foldr]. lia.
    + by rewrite <- app_assoc in Hd2.
Qed.

Lemma buffer_offsets_spec rest : forall i l off q,
  (forall k a, rest !! k = Some a -> mget (q_bufs q) (i + Z.of_nat k) = Some (Some a)) ->
  (forall a, a ∈ rest -> live q a) -> offsets_done q l off ->
  NoDup (l ++ (rest ≫= planes_in q)) -> lengths_ok q (rest ≫= planes_in q) ->
  off + total_length q (rest ≫= planes_in q) <= 2 ^ 32 ->
  wp (buffer_offsets (seqZ i (zlen rest)) off) q (fun _ q' =>
    exists off', offsets_post q l (rest ≫= planes_in q) off off' q').
Proof.
  induction rest as [|a rest IH]; intros i l off q Hb Hl Hd Hn Hlen Htot.
  { exists off. split_and!; [apply offsets_refl|cbn; lia|]. by rewrite app_nil_r. }
  rewrite zlen_cons, seqZ_cons by (pose proof (zlen_nonneg rest); lia). cbn [buffer_offsets].
  replace (Z.pred (1 + zlen rest)) with (zlen rest) by lia.
  assert (mget (q_bufs q) i = Some (Some a)) as Ha by (rewrite <- (Hb 0%nat a eq_refl); f_equal; lia).
  eapply wp_buf_at; [done|]. pose proof (Hl a (list_elem_of_here a rest)) as Hla.
  pose proof Hla as (v & Hv & Hs). eapply wp_planes_of; [done|].
  assert (planes_in q a = pair a <$> seqZ 0 (num_planes v)) as Epl by (unfold planes_in; by rewrite Hv).
  cbn [mbind list_bind] in *. rewrite Epl in *. set (mine := pair a <$> _) in *.
  set (others := mbind _ rest) in *. rewrite total_length_app in Htot.
  assert (lengths_ok q mine /\ lengths_ok q others) as [Hlen1 Hlen2].
  { split; intros x Hx; apply Hlen, elem_of_app; auto. }
  pose proof (total_nonneg q _ Hlen2). rewrite app_assoc in Hn. pose proof Hn as Hn1.
  apply NoDup_app in Hn1 as (Hn1 & _ & _).
  eapply wp_seq.
  { apply (plane_offsets_spec a _ l off q); [done|by eapply live_planes|done|done|done|].
    fold mine. lia. }
  cbv beta. intros off1 q1 (Hs1 & Eo1 & Hd1). fold mine in Hd1, Eo1.
  pose proof Hs1 as [Hq1 _].
  assert (rest ≫= planes_in q1 = others) as Eo.
  { unfold others. clear -Hq1. induction rest as [|b rest IH]; cbn; [done|].
    by rewrite (offsets_planes_in q q1 b Hq1), IH. }
  eapply wp_mono; [apply (IH (Z.succ i) (l ++ mine) off1 q1)|]; rewrite ?Eo.
  - intros k b Hk. rewrite (quiet_proj q_bufs q q1 Hq1) by done.
    rewrite <- (Hb (S k) b Hk). f_equal. lia.
  - intros b Hb'. by apply (live_quiet q q1), Hq1; apply Hl, list_elem_of_further.
  - done.
  - done.
  - by eapply lengths_ok_offsets.
  - rewrite (offsets_total q q1 _ Hs1), Eo1. lia.
  - cbv beta. intros _ q2 (off2 & Hs2 & Eo2 & Hd2). exists off2. split_and!.
    + by eapply offsets_trans.
    + rewrite Eo2, (offsets_total q q1 _ Hs1), Eo1, total_length_app. lia.
    + by rewrite <- app_assoc in Hd2.
Qed.

(** ** Finding a plane *)

Definition at_offset (q : vb2_queue) (x : nat * Z) (off : Z) : Prop :=
  exists pl, plane_at q x = Some pl /\ pl_m pl = off.

Lemma plane_by_offset_spec vb l off : forall q,
  live q vb -> (forall p, p ∈ l -> 0 <= p < 8) ->
  wp (plane_by_offset vb l off) q (fun r q' => q' = q /\
    match r with
    | Some p => p ∈ l /\ at_offset q (vb, p) off
    | None => forall p, p ∈ l -> ~ at_offset q (vb, p) off
    end).
Proof.
  induction l as [|p l IH]; intros q Hl Hp; cbn [plane_by_offset].
  { split; [done|]. intros p Hp'. by apply not_elem_of_nil in Hp'. }
  destruct (plane_at_live q vb p Hl) as (v & pl & Hv & Hz & Hg & Ha & _).
  { apply Hp, list_elem_of_here. }
  eapply wp_get_v4l2_plane; [done|by apply mget_lt in Hg|]. intros pl' Hg'.
  rewrite Hg in Hg'. injection Hg' as <-. destruct (Z.eqb_spec (pl_m pl) off) as [Em|Em].
  - apply wp_mdo. split; [done|]. split; [apply list_elem_of_here|by exists pl].
  - eapply wp_mono; [apply IH; [done|]|].
    + intros j Hj. by apply Hp, list_elem_of_further.
    + cbv beta. intros [r|] q' [-> Hr]; (split; [done|]).
      * destruct Hr as [H1 H2]. split; [by apply list_elem_of_further|done].
      * intros j [->|Hj]%elem_of_cons; [|by apply Hr]. intros (pl' & E1 & E2). simplify_eq.
Qed.

Lemma find_in_buffers_spec l off : forall q,
  slots_live q l ->
  wp (find_in_buffers l off) q (fun r q' => q' = q /\
    match r with
    | Some (i, p) => exists a, mget (q_bufs q) i = Some (Some a) /\ i ∈ l /\
                     (a, p) ∈ planes_in q a /\ at_offset q (a, p) off
    | None => forall i a x, i ∈ l -> mget (q_bufs q) i = Some (Some a) -> x ∈ planes_in q a ->
              ~ at_offset q x off
    end).
Proof.
  induction l as [|i l IH]; intros q Hs; cbn [find_in_buffers].
  { split; [done|]. intros i a x Hi. by apply not_elem_of_nil in Hi. }
  destruct (Hs i (list_elem_of_here i l)) as (a & Hg & Hl). pose proof Hl as (v & Hv & _).
  eapply wp_buf_at; [done|]. eapply wp_the; [done|]. eapply wp_planes_of; [done|].
  assert (planes_in q a = pair a <$> seqZ 0 (num_planes v)) as Epl by (unfold planes_in; by rewrite Hv).
  eapply wp_seq; [apply plane_by_offset_spec; [done|by eapply live_planes]|]. cbv beta.
  intros [p|] q1 [-> Hr].
  - apply wp_mdo. split; [done|]. exists a. split_and!; [done|apply list_elem_of_here| |apply Hr].
    rewrite Epl. apply list_elem_of_fmap. exists p. split; [done|apply Hr].
  - eapply wp_mono; [apply IH|].
    + intros j Hj. by apply Hs, list_elem_of_further.
    + cbv beta. intros [[i' p]|] q1 [-> Hr']; (split; [done|]).
      * destruct Hr' as (b & H1 & H2 & H3). exists b. split_and!; try done; try apply H3.
        by apply list_elem_of_further.
      * intros j b x [->|Hj]%elem_of_cons Hb Hx; [|by apply (Hr' j b x)].
        simplify_eq. rewrite Epl in Hx. apply list_elem_of_fmap in Hx as (p & -> & Hp). by apply Hr.
Qed.

(** ** From cookie to plane *)

Lemma all_planes_nodup q addrs : NoDup addrs -> NoDup (all_planes q addrs).
Proof.
  unfold all_planes. induction 1 as [|a addrs Ha Hn IH]; cbn; [apply NoDup_nil_2|].
  apply NoDup_app. split_and!; [| |done].
  - unfold planes_in. destruct (q_heap q !! a); [|apply NoDup_nil_2].
    apply NoDup_fmap_2; [by intros ?? [=]|apply NoDup_seqZ].
  - intros x Hx Hx'. apply list_elem_of_bind in Hx' as (b & Hb & Hin).
    assert (forall c, x ∈ planes_in q c -> x.1 = c) as Hfst.
    { intros c Hc. unfold planes_in in Hc. destruct (q_heap q !! c); [|by apply not_elem_of_nil in Hc].
      apply list_elem_of_fmap in Hc as (p & -> & _). done. }
    pose proof (Hfst a Hx) as E1. pose proof (Hfst b Hb) as E2. by simplify_eq.
Qed.

Lemma setup_offsets_spec q addrs :
  vb2_shape q addrs -> lengths_ok q (all_planes q addrs) ->
  total_length q (all_planes q addrs) <= 2 ^ 32 ->
  wp __setup_offsets q (fun _ q' => exists off, offsets_post q [] (all_planes q addrs) 0 off q').
Proof.
  intros [Hc Hn] Hlen Htot. apply wp_mthen, wp_gets, wp_mdo. rewrite Hn.
  apply (buffer_offsets_spec addrs 0 [] 0 q).
  - intros k a Ha. destruct (shape_slot q addrs (Z.of_nat k) Hc) as (b & Hb & Hi & _).
    { apply lookup_lt_Some in Ha. unfold zlen. lia. }
    rewrite Nat2Z.id in Hi. simplify_eq. done.
  - intros a Ha. by eapply cells_live.
  - split_and!; [by exists 0|intros x Hx; by apply not_elem_of_nil in Hx|].
    intros x y p r Hx. by apply not_elem_of_nil in Hx.
  - apply all_planes_nodup, Hc.
  - done.
  - done.
Qed.

(** A plane is found by its own offset. *)
Lemma find_own_offset q addrs l off i a p pl :
  vb2_shape q addrs -> offsets_done q l off -> (forall x, x ∈ l <-> x ∈ all_planes q addrs) ->
  addrs !! i = Some a -> (a, p) ∈ planes_in q a -> plane_at q (a, p) = Some pl ->
  wp (__find_plane_by_offset (pl_m pl)) q (fun r q' => q' = q /\ r = Some (Z.of_nat i, p)).
Proof.
  intros Hs (_ & _ & Hinj) Hl Hi Hp Hpl. pose proof Hs as [Hc Hn].
  assert (0 <= Z.of_nat i < zlen addrs) as Hir by (apply lookup_lt_Some in Hi; unfold zlen; lia).
  destruct (shape_slot q addrs (Z.of_nat i) Hc Hir) as (a' & Hg & Hia & _).
  rewrite Nat2Z.id, Hi in Hia. injection Hia as <-.
  apply wp_mthen, wp_gets, wp_mdo. eapply wp_mono.
  { apply find_in_buffers_spec. by eapply shape_slots_live. }
  cbv beta. intros [[j r]|] q' [-> Hr].
  - destruct Hr as (b & Hgb & Hj & Hb & pl' & Ea & Em). split; [done|].
    assert (forall k c x, addrs !! k = Some c -> x ∈ planes_in q c -> x ∈ l) as Hin.
    { intros k c x Hk Hx. apply Hl, list_elem_of_bind. exists c. split; [done|].
      by eapply list_elem_of_lookup_2. }
    apply elem_of_seqZ in Hj. destruct (shape_slot q addrs j Hc) as (b' & Hgb' & Hjb & _); [lia|].
    simplify_eq. assert ((b, r) = (a, p)) as [= -> ->].
    { apply (Hinj (b, r) (a, p) pl' pl); [by apply (Hin (Z.to_nat j) b)|by apply (Hin i a)|done..]. }
    assert (Z.to_nat j = i) as <- by (eapply NoDup_lookup; [apply Hc|done|done]).
    do 2 f_equal. lia.
  - exfalso. apply (Hr (Z.of_nat i) a (a, p)); [|done|done|by exists pl].
    apply elem_of_seqZ. lia.
Qed.

(** The last steps of [vb2_mmap]. *)
Lemma mark_mapped a p v pv q :
  q_heap q !! a = Some v -> mget (planes v) p = Some pv ->
  wp (upd_plane a p (set_mapped true) ;;
      vb_upd a (fun v => set_num_planes_mapped (u32 (num_planes_mapped v + 1)) v) ;; mdo 0) q
     (fun r q' => r = 0 /\ q_log q' = q_log q /\
        exists v', q_heap q' !! a = Some v' /\ mapped <$> mget (planes v') p = Some true).
Proof.
  intros Hv Hp. pose proof (mget_lt _ _ _ Hp) as Hlt.
  assert (mset (planes v) p (set_mapped true pv) = Some (<[Z.to_nat p := set_mapped true pv]> (planes v)))
    as Hset by (unfold mset; by rewrite bool_decide_true).
  eapply wp_seq.
  { eapply wp_vb_get; [exact Hv|]. eapply wp_the; [exact Hp|]. eapply wp_the; [exact Hset|].
    unfold wp. rewrite (vb_put_eq a v _ q Hv).
    exact (eq_refl : (fun (_ : unit) q' => q' = set_q_heap (<[a := set_planes
      (<[Z.to_nat p := set_mapped true pv]> (planes v)) v]> (q_heap q)) q) tt _). }
  cbv beta. intros _ q1 ->. eapply wp_vb_upd; [apply lookup_insert_eq|]. apply wp_mdo.
  split_and!; [done|done|]. eexists. split; [apply lookup_insert_eq|]. cbn.
  assert (mget (<[Z.to_nat p := set_mapped true pv]> (planes v)) p = Some (set_mapped true pv)) as ->.
  { apply mget_Some. split; [lia|]. apply list_lookup_insert_eq. unfold zlen in Hlt. lia. }
  done.
Qed.

(** What [vb2_mmap] does with the plane its offset leads to. *)
Definition mmap_post (q : vb2_queue) (a : nat) (p : Z) (pv : vb2_plane) (r : Z) (q' : vb2_queue) : Prop :=
  q_log q' = q_log q ++ [c_mmap (mem_priv pv)] /\
  (r = 0 -> exists v', q_heap q' !! a = Some v' /\ mapped <$> mget (planes v') p = Some true).

Lemma mmap_found q addrs i a p v pv flags k :
  vb2_shape q addrs -> q_memory q = V4L2_MEMORY_MMAP -> addrs !! i = Some a ->
  q_heap q !! a = Some v -> mget (planes v) p = Some pv ->
  Z.land flags VM_SHARED <> 0 ->
  Z.land flags (if V4L2_TYPE_IS_OUTPUT (q_type q) then VM_WRITE else VM_READ) <> 0 ->
  0 <= k -> k * 4096 < 2 ^ 64 ->
  wp (__find_plane_by_offset (k * 4096)) q (fun r q' => q' = q /\ r = Some (Z.of_nat i, p)) ->
  wp (vb2_mmap (Z.shiftr (k * 4096) PAGE_SHIFT) flags) q (mmap_post q a p pv).
Proof.
  intros [Hc Hn] Hmem Hi Hv Hpv Hsh Hacc Hk Hk64 Hfind. apply wp_gets. rewrite Hmem.
  cbn [Z.eqb negb]. destruct (Z.eqb_spec (Z.land flags VM_SHARED) 0); [done|].
  destruct (Z.eqb_spec (Z.land flags (if V4L2_TYPE_IS_OUTPUT (q_type q) then VM_WRITE else VM_READ)) 0);
    [done|]. cbn [negb].
  change (Z.shiftr (k * 4096) PAGE_SHIFT) with (Z.shiftr (k * 4096) 12).
  rewrite page_shift_back by lia. eapply wp_seq; [exact Hfind|]. cbv beta. intros r q2 [-> ->].
  destruct (shape_slot q addrs (Z.of_nat i) Hc) as (a' & Hg & Hia & _).
  { apply lookup_lt_Some in Hi. unfold zlen. lia. }
  rewrite Nat2Z.id, Hi in Hia. injection Hia as <-.
  eapply wp_buf_at; [done|]. eapply wp_the; [done|].
  eapply wp_get_plane; [done|by apply mget_lt in Hpv|].
  intros pv' Hpv'. rewrite Hpv in Hpv'. injection Hpv' as <-.
  pose proof (sh_mmap _ _ Hc Hmem) as Hm. destruct mem_mmap as [f|]; [|done]. apply wp_log, wp_gets.
  set (q2 := set_q_log _ q). cbv zeta.
  destruct (Z.eqb_spec (f (q_log q2) (mem_priv pv)) 0); cbn [negb].
  - eapply wp_mono; [by apply (mark_mapped a p v pv q2)|]. cbv beta.
    intros r q3 (-> & El & Hm3). split; [exact El|done].
  - apply wp_mdo. by split.
Qed.

(** Claim C27: a plane is mapped by the cookie reported for it.  After the offsets of a
    queue of allocator memory are set up, with planes that are not empty and
    together, in whole pages, at most 4 GiB, [mmap] with the offset stored
    for plane [p] of buffer [i] calls the allocator with the memory of exactly
    that plane, and marks that plane mapped when the allocator returns 0. *)
Theorem mmap_offset_roundtrip q addrs i a p flags :
  vb2_shape q addrs -> q_memory q = V4L2_MEMORY_MMAP ->
  lengths_ok q (all_planes q addrs) -> total_length q (all_planes q addrs) <= 2 ^ 32 ->
  addrs !! i = Some a -> (a, p) ∈ planes_in q a ->
  Z.land flags VM_SHARED <> 0 ->
  Z.land flags (if V4L2_TYPE_IS_OUTPUT (q_type q) then VM_WRITE else VM_READ) <> 0 ->
  exists q1 pl v pv r q2,
    __setup_offsets q = Some (tt, q1) /\ plane_at q1 (a, p) = Some pl /\
    q_heap q1 !! a = Some v /\ mget (planes v) p = Some pv /\
    vb2_mmap (Z.shiftr (pl_m pl) PAGE_SHIFT) flags q1 = Some (r, q2) /\
    q_log q2 = q_log q1 ++ [c_mmap (mem_priv pv)] /\
    (r = 0 -> exists v', q_heap q2 !! a = Some v' /\ mapped <$> mget (planes v') p = Some true).
Proof.
  intros Hs Hmem Hlen Htot Hi Hp Hsh Hacc.
  destruct (wp_run _ _ _ (setup_offsets_spec q addrs Hs Hlen Htot)) as
    ([] & q1 & Hrun & off & [Hq _] & _ & Hd).
  pose proof (shape_quiet _ _ _ Hs Hq) as Hs1. pose proof Hs1 as [Hc1 Hn1].
  cbn [app] in Hd. assert (planes_in q1 a = planes_in q a) as Epl by by apply offsets_planes_in.
  assert (forall x, x ∈ all_planes q addrs <-> x ∈ all_planes q1 addrs) as Hall.
  { intros x. unfold all_planes. rewrite !list_elem_of_bind.
    split; intros (b & Hx & Hb); exists b; (split; [|done]); by rewrite (offsets_planes_in q q1 b Hq) in *. }
  assert ((a, p) ∈ all_planes q addrs) as Hin.
  { apply list_elem_of_bind. exists a. split; [done|by eapply list_elem_of_lookup_2]. }
  destruct (proj1 (proj2 Hd) (a, p) Hin) as (pl & k & Hpl & Em & Hk & _ & Hk32).
  assert (a ∈ addrs) as Ha by by eapply list_elem_of_lookup_2.
  pose proof (cells_live _ _ _ Hc1 Ha) as (v & Hv & Hsv & _ & Hzp).
  assert (0 <= p < 8) as Hp8.
  { rewrite <- Epl in Hp. unfold planes_in in Hp. rewrite Hv in Hp.
    apply list_elem_of_fmap in Hp as (p' & [= ->] & Hp'). apply elem_of_seqZ in Hp'. lia. }
  destruct (mget_in (planes v) p) as [pv Hpv]; [lia|].
  assert (wp (vb2_mmap (Z.shiftr (pl_m pl) PAGE_SHIFT) flags) q1 (mmap_post q1 a p pv)) as Hw.
  2: { destruct (wp_run _ _ _ Hw) as (r & q2 & Hr & H1 & H2). by exists q1, pl, v, pv, r, q2. }
  rewrite Em. eapply mmap_found; try done.
  - by rewrite (quiet_proj q_memory q q1 Hq).
  - by rewrite (quiet_proj q_type q q1 Hq).
  - lia.
  - rewrite <- Em. eapply (find_own_offset q1 addrs (all_planes q addrs) off i a p pl); try done.
    by rewrite Epl.
Qed.

End mmap.

(** ** On the demonstration queue *)

Lemma mmap_offset_roundtrip_witness :
  exists q1 pl v pv r q2,
    __setup_offsets demo_queue = Some (tt, q1) /\ plane_at q1 (1%nat, 0) = Some pl /\
    q_heap q1 !! 1%nat = Some v /\ mget (planes v) 0 = Some pv /\
    vb2_mmap (Z.shiftr (pl_m pl) PAGE_SHIFT) 9 q1 = Some (r, q2) /\
    q_log q2 = q_log q1 ++ [c_mmap (mem_priv pv)] /\
    (r = 0 -> exists v', q_heap q2 !! 1%nat = Some v' /\ mapped <$> mget (planes v') 0 = Some true).
Proof.
  apply (mmap_offset_roundtrip demo_queue [0; 1; 2]%nat 1).
  - apply demo_shape.
  - vm_compute. reflexivity.
  - intros x Hx.
    assert (all_planes demo_queue [0; 1; 2]%nat = [(0%nat, 0); (1%nat, 0); (2%nat, 0)]) as El
      by (vm_compute; reflexivity).
    rewrite El in Hx. assert (plane_length demo_queue x = 5000) as ->; [|lia].
    repeat (apply elem_of_cons in Hx as [-> | Hx]; [vm_compute; reflexivity|]).
    destruct (not_elem_of_nil _ Hx).
  - assert (total_length demo_queue (all_planes demo_queue [0; 1; 2]%nat) = 24576) as ->
      by (vm_compute; reflexivity). lia.
  - reflexivity.
  - apply (bool_decide_unpack _). vm_compute. exact I.
  - vm_compute. discriminate.
  - vm_compute. discriminate.
Defined.
