(* ===== verification/Vb2Findings.v ===== *)
(** What modelling videobuf2 showed: sequences of calls on which the code does
    not keep its own rules. *)

From S2P Require Import Prelude StateM Vb2Types Vb2Core Vb2Inv Vb2Spec Vb2Shape Vb2Refine Vb2Ops Vb2Props.

Section findings.
Context `{E : Vb2Env} `{!Vb2EnvLaws E}.

(** ** Freed buffers on the queued list *)

Lemma enqueue_freed a l q : q_heap q = ∅ -> mfor (a :: l) __enqueue_in_driver q = None.
Proof.
  intros Hh. cbn [mfor]. unfold __enqueue_in_driver, vb_upd, vb_get, the, gets.
  unfold mthen. by rewrite Hh, lookup_empty.
Qed.

Definition start_accepts : Prop := forall f log, start_streaming = Some f -> f log = 0.

Lemma streamon_freed q a l :
  q_heap q = ∅ -> queued_list q = a :: l -> streaming q = false -> fileio q = None -> start_accepts ->
  vb2_streamon (q_type q) q = None.
Proof.
  intros Hh Hl Hon Hf Hst. unfold vb2_streamon. unfold mthen at 1. unfold gets at 1.
  rewrite Hf, Z.eqb_refl, Hon, Hl. cbn [present negb].
  rewrite (bool_decide_false (a :: l = [])), andb_false_r by done.
  destruct start_streaming as [f|] eqn:Es.
  - unfold driver_call, log_call. unfold mthen, modify, gets, mdo. cbn [q_log set_q_log].
    assert (gives_back (q_log q ++ [c_start_streaming])
      (held_buffers (set_q_log (q_log q ++ [c_start_streaming]) q)) = []) as ->.
    { destruct (gives_back _ _) as [|x k] eqn:Eg; [done|]. exfalso.
      assert (x ∈ x :: k) as Hx by apply list_elem_of_here. rewrite <- Eg in Hx.
      apply gives_back_held, list_elem_of_filter in Hx as [Hx _]. cbn in Hx.
      by rewrite Hh, lookup_empty in Hx. }
    cbn [mfor mdo]. unfold mdo. rewrite (Hst f _ Es). cbn [Z.eqb negb].
    cbn [queued_list set_streaming set_q_log q_log]. rewrite Hl. by rewrite enqueue_freed.
  - unfold mthen, modify, gets, mdo. cbn [Z.eqb negb queued_list set_streaming]. rewrite Hl.
    by rewrite enqueue_freed.
Qed.

Lemma unused_planes vb l : forall q,
  num_users = None -> live q vb -> (forall p, p ∈ l -> 0 <= p < 8) ->
  wp (plane_in_use vb l) q (fun r q' => r = false /\ q' = q).
Proof.
  induction l as [|p l IH]; intros q Hu Hl Hp; cbn [plane_in_use]; [done|].
  apply get_plane_quiet; [done|apply Hp, list_elem_of_here|]. intros x. rewrite Hu.
  unfold call_qop. cbn [fmap option_fmap option_map]. apply wp_mthen, wp_mdo. cbn [Z.gtb Z.compare].
  apply IH; [done|done|]. intros r Hr. by apply Hp, list_elem_of_further.
Qed.

Lemma unused_buffers l : forall q,
  num_users = None -> slots_live q l ->
  wp (buffer_in_use l) q (fun r q' => r = false /\ quiet q q').
Proof.
  induction l as [|i l IH]; intros q Hu Hs; cbn [buffer_in_use]; [by split; auto with vb2|].
  destruct (Hs i (list_elem_of_here i l)) as (vb & Hg & Hl). pose proof Hl as (v & Hv & _).
  eapply wp_buf_at; [done|]. eapply wp_the; [done|]. eapply wp_planes_of; [done|].
  eapply wp_seq; [apply unused_planes; [done|done|by eapply live_planes]|]. cbv beta.
  intros r q1 [-> ->]. apply IH; [done|]. intros j Hj. by apply Hs, list_elem_of_further.
Qed.

(** Fact: releasing the buffers leaves them on the queued list.  With buffers queued
    and the queue not streaming, [reqbufs] with count 0 returns 0 and frees
    every buffer, but the queued list still has them: the next [streamon] that
    the driver accepts works on freed memory. *)
Theorem reqbufs_frees_queued_buffers q req a l :
  vb2_reachable q -> streaming q = false -> queued_list q = a :: l ->
  req_count req = 0 -> req_type req = q_type q -> req_memory req = V4L2_MEMORY_MMAP ->
  __verify_mmap_ops (io_modes q) = 0 -> num_users = None -> start_accepts ->
  exists q', vb2_reqbufs req q = Some ((0, req), q') /\ q_heap q' = ∅ /\ queued_list q' = a :: l /\
    vb2_streamon (q_type q') q' = None.
Proof.
  intros Hq Hon Hl Hcount Hty Hmem Hver Husers Hst.
  destruct (reachable_good q Hq) as (addrs & [Hs _] & _). pose proof Hs as [Hc _].
  assert (wp (vb2_reqbufs req) q (fun r q' => r = (0, req) /\ exists q1, quiet q q1 /\
    q' = set_q_memory 0 (set_num_buffers 0 (emptied q1)))) as Hw.
  { apply wp_gets. rewrite (sh_fileio _ _ Hc), Hmem, Hty, Hon, Hver, !Z.eqb_refl, Hcount. cbn.
    apply wp_seq with (P := fun used q' => used = false /\ quiet q q').
    - destruct (q_memory q =? V4L2_MEMORY_MMAP); [|by split; auto with vb2].
      apply wp_mthen, wp_gets, wp_mdo. apply unused_buffers; [done|]. by eapply shape_slots_live.
    - intros used q1 [-> Hq1]. eapply wp_seq; [eapply queue_free_wp; by eapply shape_quiet|].
      cbv beta. intros [] q2 (q3 & Hq3 & ->). apply wp_mdo. split; [done|].
      exists q3. split; [by eapply quiet_trans|done]. }
  destruct (wp_run _ _ _ Hw) as (r & q' & Hrun & -> & q1 & Hq1 & ->).
  destruct (same_lists_quiet q q1 Hq1) as (L1 & _ & _ & L4).
  eexists. split; [exact Hrun|]. split_and!; [done|cbn; congruence|].
  set (q' := set_q_memory 0 _). apply (streamon_freed q' a l); [done|cbn; congruence|cbn; congruence| |done].
  change (fileio q1 = None). by rewrite (quiet_proj fileio q q1 Hq1), (sh_fileio _ _ Hc).
Qed.

(** ** One plane too many *)

(** Fact: the plane check of [vb2_plane_vaddr] and [vb2_plane_cookie] lets the number
    of planes itself pass, one past the last plane: for a buffer with all 8
    planes the access is outside the array. *)
Theorem plane_check_off_by_one q vb v :
  q_heap q !! vb = Some v -> num_planes v = 8 -> zlen (planes v) = 8 ->
  vb2_plane_vaddr vb (num_planes v) q = None /\ vb2_plane_cookie vb (num_planes v) q = None.
Proof.
  intros Hv Hn Hz. unfold vb2_plane_vaddr, vb2_plane_cookie, get_plane, vb_get, the, gets, mdo, mthen.
  rewrite !Hv, Hn. change (8 >? 8) with false. cbv iota beta.
  assert (mget (planes v) 8 = None) as E8; [|by rewrite !Hv, E8].
  destruct (mget (planes v) 8) eqn:Eg; [|done]. apply mget_lt in Eg. lia.
Qed.

(** ** Buffers the driver refuses to finish *)

(** A completed buffer that is not on the done list. *)
Definition stranded (o : own) (a : nat) : Prop :=
  a ∉ o_done o /\ exists s, o_state o !! a = Some s /\ completed_state s.

Lemma stranded_step o e o' a :
  own_step o e o' -> is_reset e = false -> stranded o a -> own_inv o ->
  stranded o' a /\ e <> ev_deliver a.
Proof.
  intros Hs He (Hd & s & Hst & Hc) Hi.
  destruct Hs as [st qd dn n on b Hb|st qd dn n b Hb|st qd dn n on b s' Hb Hc'
    |st qd dn n on b|st qd dn n on b|st qd dn n| |]; try done; cbn [o_state o_done] in *;
    unfold stranded; cbn [o_state o_done].
  1-3: (assert (b <> a) as Hne by (intros ->; rewrite Hb in Hst; unfold completed_state in Hc; naive_solver)).
  - rewrite lookup_insert_ne by done. naive_solver.
  - rewrite lookup_insert_ne by done. naive_solver.
  - rewrite lookup_insert_ne by done. rewrite elem_of_app, list_elem_of_singleton. naive_solver.
  - rewrite not_elem_of_cons in Hd. rewrite lookup_insert_ne by naive_solver. naive_solver.
  - rewrite not_elem_of_cons in Hd. naive_solver.
  - naive_solver.
Qed.

Lemma stranded_steps o tr o' a :
  own_steps o tr o' -> forallb (fun e => negb (is_reset e)) tr = true -> stranded o a -> own_inv o ->
  stranded o' a /\ a ∉ o_done o'.
Proof.
  induction 1 as [o|o e o1 tr o2 Hs Ht IH]; intros Hr Hst Hi; [split; [done|apply Hst]|].
  cbn in Hr. apply andb_true_iff in Hr as [He Hr]. apply negb_true_iff in He.
  destruct (stranded_step o e o1 a Hs He Hst Hi) as [Hst1 _]. eauto using own_step_inv.
Qed.

Lemma op_no_reset addrs on op r tr :
  is_reset_op op = false -> op_trace addrs on op r tr -> forallb (fun e => negb (is_reset e)) tr = true.
Proof.
  intros Hop Ht. destruct op; try done.
  all: destruct r as [[e i]|]; cbn in Ht; try done; try (by subst).
  - unfold qbuf_trace in Ht. case_bool_decide; [|by subst].
    destruct Ht as (a & t & _ & -> & Hd). apply (driver_trace_removals t Hd).
  - destruct e; [destruct Ht as (a & _ & _ & ->); done|..];
      (destruct Ht as [->|(a & f & log & _ & _ & ->)]; done).
  - destruct e; [destruct Ht as (a & _ & _ & ->); done|..];
      (destruct Ht as [->|(a & f & log & _ & _ & ->)]; done).
  - unfold streamon_trace in Ht. case_bool_decide; [|by subst].
    destruct Ht as (t & -> & Hd). apply (driver_trace_removals t Hd).
  - destruct Ht as [->|[-> _]]; done.
Qed.

(** Fact: a buffer whose [buf_finish] the driver refuses is lost to userspace.  When
    [dqbuf] takes a buffer off the done list and fails, that buffer stays
    completed and queued but is never again on the done list, whatever is
    called, until [streamoff] or [reqbufs]: it can be neither dequeued nor
    queued. *)
Theorem refused_buffer_is_stranded q b nonblocking e b' q1 ops rs q2 a l :
  vb2_reachable q -> user_buffer b -> vb2_dqbuf b nonblocking q = Some (Some (e, b'), q1) ->
  e <> 0 -> done_list q = a :: l -> done_list q1 <> a :: l ->
  vb2_runs q1 ops rs q2 -> forallb (fun op => negb (is_reset_op op)) ops = true ->
  a ∈ queued_list q2 /\ a ∉ done_list q2.
Proof.
  intros Hq Hb Hrun He Hl Hl1 Hruns Hops. set (op := op_dqbuf b nonblocking).
  assert (run_op op q = Some (Some (e, b_index b'), q1)) as Hrun'.
  { cbn. unfold mthen. by rewrite Hrun. }
  destruct (run_op_cases q op _ q1 Hq Hb Hrun') as (addrs & _ & _ & [_ Ho1] & tr & Ht & Htr).
  destruct (reachable_good q Hq) as (addrs0 & [_ Ho] & _).
  assert (stranded (own_of q1) a) as Hst.
  { cbn in Htr. destruct (oi_done _ Ho a) as (s & Hs & Hc); [cbn; rewrite Hl; apply list_elem_of_here|].
    pose proof (oi_done_nodup _ Ho) as Hnd. cbn in Hnd. rewrite Hl in Hnd. apply NoDup_cons in Hnd as [Hn _].
    assert (tr = [] \/ exists x, tr = [ev_drop x]) as [-> | [x ->]].
    { destruct e; [done|..]; (destruct Htr as [->|(x & f & log & _ & _ & ->)]; [by left|right; by exists x]). }
    - apply own_nil_same in Ht. injection Ht as _ _ E1 _ _. congruence.
    - apply own_drop_one in Ht as (k & E1 & E2 & E3). cbn in E1. rewrite Hl in E1.
      injection E1 as -> ->. split; [by rewrite E2|]. rewrite E3. by exists s. }
  clear Htr. assert (vb2_reachable q1) as Hq1 by exact (reach_op q op _ q1 Hq Hb Hrun').
  clear Hrun Hrun' Ht Hl Hl1 Hq Ho.
  induction Hruns as [q1|q1 op1 r q3 ops rs q2 Hlg Hr1 Hruns IH].
  - split; [|apply Hst]. destruct Hst as (_ & s & Hs & Hc). apply (oi_queued _ Ho1).
    exists s. split; [done|by apply completed_not_dequeued].
  - cbn in Hops. apply andb_true_iff in Hops as [Hop Hops]. apply negb_true_iff in Hop.
    destruct (run_op_cases q1 op1 r q3 Hq1 Hlg Hr1) as (addrs3 & _ & _ & [_ Ho3] & t3 & Ht3 & Htr3).
    apply IH; [done|done| |by eapply reach_op].
    eapply stranded_steps; [exact Ht3|by eapply op_no_reset|done|done].
Qed.

End findings.

(** ** At work *)

Definition demo_queued : vb2_queue :=
  match play [op_reqbufs (mk_req 3 1 V4L2_MEMORY_MMAP); op_qbuf (demo_buf 0)] demo_init with
  | Some (_, q) => q
  | None => demo_init
  end.

Lemma reqbufs_frees_queued_buffers_witness :
  exists q', vb2_reqbufs (mk_req 0 1 V4L2_MEMORY_MMAP) demo_queued = Some ((0, mk_req 0 1 V4L2_MEMORY_MMAP), q')
    /\ q_heap q' = ∅ /\ queued_list q' = [0%nat] /\ vb2_streamon (q_type q') q' = None.
Proof.
  apply reqbufs_frees_queued_buffers; try (vm_compute; reflexivity).
  - apply (runs_reachable demo_init [op_reqbufs (mk_req 3 1 V4L2_MEMORY_MMAP); op_qbuf (demo_buf 0)]
      [Some (0, 3); Some (0, 0)]).
    + apply play_runs. vm_compute. reflexivity.
    + by apply (reach_init 1 5 0).
  - intros f log [= <-]. reflexivity.
Defined.

Definition eight_planes : vb2_queue :=
  set_q_heap {[ 0%nat := new_buffer 1 1 8 0 ]} demo_init.

Lemma plane_check_off_by_one_witness :
  vb2_plane_vaddr 0 8 eight_planes = None /\ vb2_plane_cookie 0 8 eight_planes = None.
Proof.
  apply (plane_check_off_by_one eight_planes 0 (new_buffer 1 1 8 0)); vm_compute; reflexivity.
Defined.

(** The same driver, refusing to finish buffers. *)
Definition refusing_env : Vb2Env := {|
  queue_setup := @queue_setup demo_env;
  buf_init := None;
  buf_prepare := None;
  buf_finish := Some (fun log a => -5);
  has_buf_cleanup := false;
  start_streaming := @start_streaming demo_env;
  has_stop_streaming := true;
  gives_back log held := [];
  mem_alloc := @mem_alloc demo_env;
  has_put := true;
  get_userptr := None;
  has_put_userptr := false;
  mem_vaddr := None;
  mem_cookie := None;
  num_users := None;
  mem_mmap := @mem_mmap demo_env;
  kzalloc_buffer_ok log vb := true;
  kzalloc_fileio_ok log := true;
  copy_user log n := 0;
  stack_planes := @stack_planes demo_env;
|}.

Lemma refusing_laws : Vb2EnvLaws refusing_env.
Proof.
  destruct demo_laws as [H1 H2 H3 H4]. split; [exact H1|exact H2| |exact H4].
  intros log h x Hx. cbn in Hx. set_solver.
Qed.

Definition refused_before : vb2_queue :=
  match @play refusing_env demo_start demo_init with Some (_, q) => q | None => demo_init end.

Definition refused_after : vb2_queue :=
  match @vb2_dqbuf refusing_env (demo_buf 0) false refused_before with
  | Some (_, q) => q
  | None => demo_init
  end.

Lemma refused_buffer_is_stranded_witness :
  1%nat ∈ queued_list refused_after /\ 1%nat ∉ done_list refused_after.
Proof.
  eapply (@refused_buffer_is_stranded refusing_env refusing_laws refused_before (demo_buf 0) false (-5)
    (demo_buf 0) refused_after [] []).
  - apply (@runs_reachable refusing_env demo_init demo_start
      [Some (0, 3); Some (0, 0); Some (0, 1); Some (0, 0); Some (0, 2); Some (0, 0)]).
    + apply play_runs. vm_compute. reflexivity.
    + by apply (reach_init 1 5 0).
  - apply demo_buf_ok. lia.
  - vm_compute. reflexivity.
  - discriminate.
  - vm_compute. reflexivity.
  - vm_compute. discriminate.
  - constructor.
  - reflexivity.
Defined.

(** ** User memory that was never acquired

    One plane per buffer, given by userspace; address 0 is refused. *)
Definition userptr_env : Vb2Env := {|
  queue_setup := @queue_setup demo_env;
  buf_init := None;
  buf_prepare := None;
  buf_finish := None;
  has_buf_cleanup := false;
  start_streaming := @start_streaming demo_env;
  has_stop_streaming := true;
  gives_back log held := [];
  mem_alloc := None;
  has_put := false;
  get_userptr := Some (fun log ctx vaddr size => if vaddr =? 0 then inl (- EFAULT) else inr (Some vaddr));
  has_put_userptr := true;
  mem_vaddr := None;
  mem_cookie := None;
  num_users := None;
  mem_mmap := None;
  kzalloc_buffer_ok log vb := true;
  kzalloc_fileio_ok log := true;
  copy_user log n := 0;
  stack_planes := @stack_planes demo_env;
|}.

Definition user_buf (addr : Z) : v4l2_buffer :=
  mk_v4l2_buffer 0 1 0 0 0 0 0 0 V4L2_MEMORY_USERPTR addr None 4096 0 0.

Definition userptr_init : vb2_queue := set_io_modes VB2_USERPTR demo_init.

(** A buffer used once with good memory, then queued with bad memory, then with
    the good memory again. *)
Definition userptr_ops : list vb2_op :=
  [op_reqbufs (mk_req 1 1 V4L2_MEMORY_USERPTR); op_qbuf (user_buf 0x10000); op_streamon 1;
   op_buffer_done 0 VB2_BUF_STATE_DONE; op_dqbuf (user_buf 0) true;
   op_qbuf (user_buf 0); op_qbuf (user_buf 0x10000)].

(** Fact: a failed [qbuf] of user memory spoils the next one.  After [get_userptr] has
    refused a new address, the buffer's plane still records the old address,
    whose memory was released: queueing the old address again is taken for
    "nothing changed", returns 0 and hands the driver a buffer with no memory. *)
Theorem failed_userptr_then_no_memory :
  exists q, @play userptr_env userptr_ops userptr_init =
    Some ([Some (0, 1); Some (0, 0); Some (0, 0); Some (0, 0); Some (0, 0); Some (- EFAULT, 0); Some (0, 0)], q)
  /\ vb_state <$> q_heap q !! 0%nat = Some VB2_BUF_STATE_ACTIVE
  /\ (v ← q_heap q !! 0%nat; mem_priv <$> mget (planes v) 0) = Some None.
Proof. eexists. split; [vm_compute; reflexivity|]. split; vm_compute; reflexivity. Qed.
