(* ===== verification/V4l2Types.v ===== *)
(** The data of V4L2 events, file handles and controls: include/media/v4l2-event.h,
    v4l2-fh.h, v4l2-ctrls.h and parts of include/linux/videodev2.h; and finding a
    control in a handler.

    Subscriptions, controls and references to controls are on heaps of their
    own; a pointer is the number of the allocation, and freed memory is gone
    from the heap.  A list of linked objects is the list of their pointers. *)

From stdpp Require Import gmap strings.
From S2P Require Import Prelude StateM.

#[global] Open Scope state_scope.

Definition ENOENT : Z := 2.
Definition EACCES : Z := 13.
Definition ERANGE : Z := 34.

Definition V4L2_EVENT_ALL : Z := 0.
Definition V4L2_EVENT_CTRL : Z := 3.
Definition V4L2_EVENT_CTRL_CH_VALUE : Z := 1.
Definition V4L2_EVENT_CTRL_CH_FLAGS : Z := 2.
Definition V4L2_EVENT_SUB_FL_SEND_INITIAL : Z := 1.
Definition V4L2_EVENT_SUB_FL_ALLOW_FEEDBACK : Z := 2.

Definition V4L2_CTRL_TYPE_INTEGER : Z := 1.
Definition V4L2_CTRL_TYPE_BOOLEAN : Z := 2.
Definition V4L2_CTRL_TYPE_MENU : Z := 3.
Definition V4L2_CTRL_TYPE_BUTTON : Z := 4.
Definition V4L2_CTRL_TYPE_INTEGER64 : Z := 5.
Definition V4L2_CTRL_TYPE_CTRL_CLASS : Z := 6.
Definition V4L2_CTRL_TYPE_STRING : Z := 7.
Definition V4L2_CTRL_TYPE_BITMASK : Z := 8.

Definition V4L2_CTRL_FLAG_DISABLED : Z := 1.
Definition V4L2_CTRL_FLAG_GRABBED : Z := 2.
Definition V4L2_CTRL_FLAG_READ_ONLY : Z := 4.
Definition V4L2_CTRL_FLAG_UPDATE : Z := 8.
Definition V4L2_CTRL_FLAG_INACTIVE : Z := 16.
Definition V4L2_CTRL_FLAG_SLIDER : Z := 32.
Definition V4L2_CTRL_FLAG_WRITE_ONLY : Z := 64.
Definition V4L2_CTRL_FLAG_NEXT_CTRL : Z := 0x80000000.
Definition V4L2_CTRL_ID_MASK : Z := 0x0fffffff.
Definition V4L2_CTRL_CLASS_USER : Z := 0x00980000.
Definition V4L2_CID_PRIVATE_BASE : Z := 0x08000000.

(** ** Events *)

(** [struct v4l2_event_ctrl], the payload of V4L2_EVENT_CTRL. *)
Record event_ctrl := mk_event_ctrl {
  ec_changes : Z;   (* u32 *)
  ec_type : Z;   (* u32 *)
  ec_value64 : Z;   (* s64, the union's largest member *)
  ec_flags : Z;   (* u32 *)
  ec_minimum : Z;   (* s32 *)
  ec_maximum : Z;   (* s32 *)
  ec_step : Z;   (* s32 *)
  ec_default_value : Z;   (* s32 *)
}.

Definition set_ec_changes (v : Z) (r : event_ctrl) : event_ctrl :=
  mk_event_ctrl v (ec_type r) (ec_value64 r) (ec_flags r) (ec_minimum r)
    (ec_maximum r) (ec_step r) (ec_default_value r).

(** The union of payloads is the control's part and the bytes after it. *)
Record v4l2_event := mk_event {
  ev_type : Z;   (* u32 *)
  ev_ctrl : event_ctrl;
  ev_data : list Z;
  ev_pending : Z;   (* u32 *)
  ev_sequence : Z;   (* u32 *)
  ev_timestamp : Z;   (* struct timespec *)
  ev_id : Z;   (* u32 *)
  ev_reserved : list Z;   (* 8 u32 *)
}.

Definition set_ev_type (v : Z) (r : v4l2_event) : v4l2_event :=
  mk_event v (ev_ctrl r) (ev_data r) (ev_pending r) (ev_sequence r) (ev_timestamp r)
    (ev_id r) (ev_reserved r).
Definition set_ev_ctrl (v : event_ctrl) (r : v4l2_event) : v4l2_event :=
  mk_event (ev_type r) v (ev_data r) (ev_pending r) (ev_sequence r) (ev_timestamp r)
    (ev_id r) (ev_reserved r).
Definition set_ev_data (v : list Z) (r : v4l2_event) : v4l2_event :=
  mk_event (ev_type r) (ev_ctrl r) v (ev_pending r) (ev_sequence r) (ev_timestamp r)
    (ev_id r) (ev_reserved r).
Definition set_ev_pending (v : Z) (r : v4l2_event) : v4l2_event :=
  mk_event (ev_type r) (ev_ctrl r) (ev_data r) v (ev_sequence r) (ev_timestamp r)
    (ev_id r) (ev_reserved r).
Definition set_ev_sequence (v : Z) (r : v4l2_event) : v4l2_event :=
  mk_event (ev_type r) (ev_ctrl r) (ev_data r) (ev_pending r) v (ev_timestamp r)
    (ev_id r) (ev_reserved r).
Definition set_ev_timestamp (v : Z) (r : v4l2_event) : v4l2_event :=
  mk_event (ev_type r) (ev_ctrl r) (ev_data r) (ev_pending r) (ev_sequence r) v
    (ev_id r) (ev_reserved r).
Definition set_ev_id (v : Z) (r : v4l2_event) : v4l2_event :=
  mk_event (ev_type r) (ev_ctrl r) (ev_data r) (ev_pending r) (ev_sequence r)
    (ev_timestamp r) v (ev_reserved r).
Definition set_ev_reserved (v : list Z) (r : v4l2_event) : v4l2_event :=
  mk_event (ev_type r) (ev_ctrl r) (ev_data r) (ev_pending r) (ev_sequence r)
    (ev_timestamp r) (ev_id r) v.

(** [struct v4l2_subscribed_event].  [events] is the array; the [sev] of each
    element is the subscription itself.  The only functions ever put into
    [replace] and [merge] are those for controls. *)
Record subscribed_event := mk_sev {
  se_type : Z;   (* u32 *)
  se_id : Z;   (* u32 *)
  se_flags : Z;   (* u32 *)
  se_fh : option nat;
  se_replace : bool;
  se_merge : bool;
  se_elems : Z;   (* unsigned *)
  se_first : Z;   (* unsigned *)
  se_in_use : Z;   (* unsigned *)
  se_events : list v4l2_event;
}.

Definition set_se_fh (v : option nat) (r : subscribed_event) : subscribed_event :=
  mk_sev (se_type r) (se_id r) (se_flags r) v (se_replace r) (se_merge r)
    (se_elems r) (se_first r) (se_in_use r) (se_events r).
Definition set_se_first (v : Z) (r : subscribed_event) : subscribed_event :=
  mk_sev (se_type r) (se_id r) (se_flags r) (se_fh r) (se_replace r) (se_merge r)
    (se_elems r) v (se_in_use r) (se_events r).
Definition set_se_in_use (v : Z) (r : subscribed_event) : subscribed_event :=
  mk_sev (se_type r) (se_id r) (se_flags r) (se_fh r) (se_replace r) (se_merge r)
    (se_elems r) (se_first r) v (se_events r).
Definition set_se_events (v : list v4l2_event) (r : subscribed_event) : subscribed_event :=
  mk_sev (se_type r) (se_id r) (se_flags r) (se_fh r) (se_replace r) (se_merge r)
    (se_elems r) (se_first r) (se_in_use r) v.

(** ** File handles *)

(** An entry of [available] is an element of a subscription's array. *)
Record v4l2_fh := mk_fh {
  fh_vdev : bool;   (* initialised *)
  fh_ctrl_handler : option nat;
  fh_subscribed : list nat;
  fh_available : list (nat * Z);
  fh_navailable : Z;   (* unsigned *)
  fh_sequence : Z;   (* u32 *)
}.

Definition set_fh_vdev (v : bool) (r : v4l2_fh) : v4l2_fh :=
  mk_fh v (fh_ctrl_handler r) (fh_subscribed r) (fh_available r) (fh_navailable r)
    (fh_sequence r).
Definition set_fh_ctrl_handler (v : option nat) (r : v4l2_fh) : v4l2_fh :=
  mk_fh (fh_vdev r) v (fh_subscribed r) (fh_available r) (fh_navailable r)
    (fh_sequence r).
Definition set_fh_subscribed (v : list nat) (r : v4l2_fh) : v4l2_fh :=
  mk_fh (fh_vdev r) (fh_ctrl_handler r) v (fh_available r) (fh_navailable r)
    (fh_sequence r).
Definition set_fh_available (v : list (nat * Z)) (r : v4l2_fh) : v4l2_fh :=
  mk_fh (fh_vdev r) (fh_ctrl_handler r) (fh_subscribed r) v (fh_navailable r)
    (fh_sequence r).
Definition set_fh_navailable (v : Z) (r : v4l2_fh) : v4l2_fh :=
  mk_fh (fh_vdev r) (fh_ctrl_handler r) (fh_subscribed r) (fh_available r) v
    (fh_sequence r).
Definition set_fh_sequence (v : Z) (r : v4l2_fh) : v4l2_fh :=
  mk_fh (fh_vdev r) (fh_ctrl_handler r) (fh_subscribed r) (fh_available r)
    (fh_navailable r) v.

(** ** Controls *)

(** The unions [cur] and its twin: 64 bits, of which [val] is the lower half (as
    on a little-endian machine), and the string that the pointer points to. *)
Record ctrl_value := mk_value {
  va_val64 : Z;   (* s64 *)
  va_string : list Z;
}.

(** [ctrl->cluster]: the control field of a reference, as an array of one, or an
    array of a driver. *)
Inductive cluster_ptr := ClusterRef (ref : nat) | ClusterArray (array : nat).

Record v4l2_ctrl := mk_ctrl {
  ct_ev_subs : list nat;
  ct_handler : nat;
  ct_cluster : option cluster_ptr;
  ct_ncontrols : Z;   (* unsigned *)
  ct_done : bool;
  ct_is_new : bool;
  ct_is_private : bool;
  ct_is_volatile : bool;
  ct_is_auto : bool;
  ct_manual_mode_value : Z;   (* 8 bits *)
  ct_ops : option nat;
  ct_id : Z;   (* u32 *)
  ct_name : string;
  ct_type : Z;
  ct_minimum : Z;   (* s32 *)
  ct_maximum : Z;   (* s32 *)
  ct_default_value : Z;   (* s32 *)
  ct_step : Z;   (* u32, shared with menu_skip_mask *)
  ct_qmenu : option (list (option string));
  ct_flags : Z;   (* unsigned long *)
  ct_cur : ctrl_value;
  ct_new : ctrl_value;
}.

Definition set_ct_ev_subs (v : list nat) (r : v4l2_ctrl) : v4l2_ctrl :=
  mk_ctrl v (ct_handler r) (ct_cluster r) (ct_ncontrols r) (ct_done r) (ct_is_new r)
    (ct_is_private r) (ct_is_volatile r) (ct_is_auto r) (ct_manual_mode_value r)
    (ct_ops r) (ct_id r) (ct_name r) (ct_type r) (ct_minimum r) (ct_maximum r)
    (ct_default_value r) (ct_step r) (ct_qmenu r) (ct_flags r) (ct_cur r)
    (ct_new r).
Definition set_ct_handler (v : nat) (r : v4l2_ctrl) : v4l2_ctrl :=
  mk_ctrl (ct_ev_subs r) v (ct_cluster r) (ct_ncontrols r) (ct_done r) (ct_is_new r)
    (ct_is_private r) (ct_is_volatile r) (ct_is_auto r) (ct_manual_mode_value r)
    (ct_ops r) (ct_id r) (ct_name r) (ct_type r) (ct_minimum r) (ct_maximum r)
    (ct_default_value r) (ct_step r) (ct_qmenu r) (ct_flags r) (ct_cur r)
    (ct_new r).
Definition set_ct_cluster (v : option cluster_ptr) (r : v4l2_ctrl) : v4l2_ctrl :=
  mk_ctrl (ct_ev_subs r) (ct_handler r) v (ct_ncontrols r) (ct_done r) (ct_is_new r)
    (ct_is_private r) (ct_is_volatile r) (ct_is_auto r) (ct_manual_mode_value r)
    (ct_ops r) (ct_id r) (ct_name r) (ct_type r) (ct_minimum r) (ct_maximum r)
    (ct_default_value r) (ct_step r) (ct_qmenu r) (ct_flags r) (ct_cur r)
    (ct_new r).
Definition set_ct_ncontrols (v : Z) (r : v4l2_ctrl) : v4l2_ctrl :=
  mk_ctrl (ct_ev_subs r) (ct_handler r) (ct_cluster r) v (ct_done r) (ct_is_new r)
    (ct_is_private r) (ct_is_volatile r) (ct_is_auto r) (ct_manual_mode_value r)
    (ct_ops r) (ct_id r) (ct_name r) (ct_type r) (ct_minimum r) (ct_maximum r)
    (ct_default_value r) (ct_step r) (ct_qmenu r) (ct_flags r) (ct_cur r)
    (ct_new r).
Definition set_ct_done (v : bool) (r : v4l2_ctrl) : v4l2_ctrl :=
  mk_ctrl (ct_ev_subs r) (ct_handler r) (ct_cluster r) (ct_ncontrols r) v
    (ct_is_new r) (ct_is_private r) (ct_is_volatile r) (ct_is_auto r)
    (ct_manual_mode_value r) (ct_ops r) (ct_id r) (ct_name r) (ct_type r)
    (ct_minimum r) (ct_maximum r) (ct_default_value r) (ct_step r) (ct_qmenu r)
    (ct_flags r) (ct_cur r) (ct_new r).
Definition set_ct_is_new (v : bool) (r : v4l2_ctrl) : v4l2_ctrl :=
  mk_ctrl (ct_ev_subs r) (ct_handler r) (ct_cluster r) (ct_ncontrols r)
    (ct_done r) v (ct_is_private r) (ct_is_volatile r) (ct_is_auto r)
    (ct_manual_mode_value r) (ct_ops r) (ct_id r) (ct_name r) (ct_type r)
    (ct_minimum r) (ct_maximum r) (ct_default_value r) (ct_step r) (ct_qmenu r)
    (ct_flags r) (ct_cur r) (ct_new r).
Definition set_ct_is_private (v : bool) (r : v4l2_ctrl) : v4l2_ctrl :=
  mk_ctrl (ct_ev_subs r) (ct_handler r) (ct_cluster r) (ct_ncontrols r) (ct_done r)
    (ct_is_new r) v (ct_is_volatile r) (ct_is_auto r) (ct_manual_mode_value r)
    (ct_ops r) (ct_id r) (ct_name r) (ct_type r) (ct_minimum r) (ct_maximum r)
    (ct_default_value r) (ct_step r) (ct_qmenu r) (ct_flags r) (ct_cur r)
    (ct_new r).
Definition set_ct_is_volatile (v : bool) (r : v4l2_ctrl) : v4l2_ctrl :=
  mk_ctrl (ct_ev_subs r) (ct_handler r) (ct_cluster r) (ct_ncontrols r) (ct_done r)
    (ct_is_new r) (ct_is_private r) v (ct_is_auto r) (ct_manual_mode_value r)
    (ct_ops r) (ct_id r) (ct_name r) (ct_type r) (ct_minimum r) (ct_maximum r)
    (ct_default_value r) (ct_step r) (ct_qmenu r) (ct_flags r) (ct_cur r)
    (ct_new r).
Definition set_ct_is_auto (v : bool) (r : v4l2_ctrl) : v4l2_ctrl :=
  mk_ctrl (ct_ev_subs r) (ct_handler r) (ct_cluster r) (ct_ncontrols r) (ct_done r)
    (ct_is_new r) (ct_is_private r) (ct_is_volatile r) v (ct_manual_mode_value r)
    (ct_ops r) (ct_id r) (ct_name r) (ct_type r) (ct_minimum r) (ct_maximum r)
    (ct_default_value r) (ct_step r) (ct_qmenu r) (ct_flags r) (ct_cur r)
    (ct_new r).
Definition set_ct_manual_mode_value (v : Z) (r : v4l2_ctrl) : v4l2_ctrl :=
  mk_ctrl (ct_ev_subs r) (ct_handler r) (ct_cluster r) (ct_ncontrols r) (ct_done r)
    (ct_is_new r) (ct_is_private r) (ct_is_volatile r) (ct_is_auto r) v (ct_ops r)
    (ct_id r) (ct_name r) (ct_type r) (ct_minimum r) (ct_maximum r)
    (ct_default_value r) (ct_step r) (ct_qmenu r) (ct_flags r) (ct_cur r)
    (ct_new r).
Definition set_ct_ops (v : option nat) (r : v4l2_ctrl) : v4l2_ctrl :=
  mk_ctrl (ct_ev_subs r) (ct_handler r) (ct_cluster r) (ct_ncontrols r) (ct_done r)
    (ct_is_new r) (ct_is_private r) (ct_is_volatile r) (ct_is_auto r)
    (ct_manual_mode_value r) v (ct_id r) (ct_name r) (ct_type r) (ct_minimum r)
    (ct_maximum r) (ct_default_value r) (ct_step r) (ct_qmenu r) (ct_flags r)
    (ct_cur r) (ct_new r).
Definition set_ct_id (v : Z) (r : v4l2_ctrl) : v4l2_ctrl :=
  mk_ctrl (ct_ev_subs r) (ct_handler r) (ct_cluster r) (ct_ncontrols r) (ct_done r)
    (ct_is_new r) (ct_is_private r) (ct_is_volatile r) (ct_is_auto r)
    (ct_manual_mode_value r) (ct_ops r) v (ct_name r) (ct_type r) (ct_minimum r)
    (ct_maximum r) (ct_default_value r) (ct_step r) (ct_qmenu r) (ct_flags r)
    (ct_cur r) (ct_new r).
Definition set_ct_name (v : string) (r : v4l2_ctrl) : v4l2_ctrl :=
  mk_ctrl (ct_ev_subs r) (ct_handler r) (ct_cluster r) (ct_ncontrols r) (ct_done r)
    (ct_is_new r) (ct_is_private r) (ct_is_volatile r) (ct_is_auto r)
    (ct_manual_mode_value r) (ct_ops r) (ct_id r) v (ct_type r) (ct_minimum r)
    (ct_maximum r) (ct_default_value r) (ct_step r) (ct_qmenu r) (ct_flags r)
    (ct_cur r) (ct_new r).
Definition set_ct_type (v : Z) (r : v4l2_ctrl) : v4l2_ctrl :=
  mk_ctrl (ct_ev_subs r) (ct_handler r) (ct_cluster r) (ct_ncontrols r) (ct_done r)
    (ct_is_new r) (ct_is_private r) (ct_is_volatile r) (ct_is_auto r)
    (ct_manual_mode_value r) (ct_ops r) (ct_id r) (ct_name r) v (ct_minimum r)
    (ct_maximum r) (ct_default_value r) (ct_step r) (ct_qmenu r) (ct_flags r)
    (ct_cur r) (ct_new r).
Definition set_ct_minimum (v : Z) (r : v4l2_ctrl) : v4l2_ctrl :=
  mk_ctrl (ct_ev_subs r) (ct_handler r) (ct_cluster r) (ct_ncontrols r) (ct_done r)
    (ct_is_new r) (ct_is_private r) (ct_is_volatile r) (ct_is_auto r)
    (ct_manual_mode_value r) (ct_ops r) (ct_id r) (ct_name r) (ct_type r) v
    (ct_maximum r) (ct_default_value r) (ct_step r) (ct_qmenu r) (ct_flags r)
    (ct_cur r) (ct_new r).
Definition set_ct_maximum (v : Z) (r : v4l2_ctrl) : v4l2_ctrl :=
  mk_ctrl (ct_ev_subs r) (ct_handler r) (ct_cluster r) (ct_ncontrols r) (ct_done r)
    (ct_is_new r) (ct_is_private r) (ct_is_volatile r) (ct_is_auto r)
    (ct_manual_mode_value r) (ct_ops r) (ct_id r) (ct_name r) (ct_type r)
    (ct_minimum r) v (ct_default_value r) (ct_step r) (ct_qmenu r) (ct_flags r)
    (ct_cur r) (ct_new r).
Definition set_ct_default_value (v : Z) (r : v4l2_ctrl) : v4l2_ctrl :=
  mk_ctrl (ct_ev_subs r) (ct_handler r) (ct_cluster r) (ct_ncontrols r) (ct_done r)
    (ct_is_new r) (ct_is_private r) (ct_is_volatile r) (ct_is_auto r)
    (ct_manual_mode_value r) (ct_ops r) (ct_id r) (ct_name r) (ct_type r)
    (ct_minimum r) (ct_maximum r) v (ct_step r) (ct_qmenu r) (ct_flags r) (ct_cur r)
    (ct_new r).
Definition set_ct_step (v : Z) (r : v4l2_ctrl) : v4l2_ctrl :=
  mk_ctrl (ct_ev_subs r) (ct_handler r) (ct_cluster r) (ct_ncontrols r) (ct_done r)
    (ct_is_new r) (ct_is_private r) (ct_is_volatile r) (ct_is_auto r)
    (ct_manual_mode_value r) (ct_ops r) (ct_id r) (ct_name r) (ct_type r)
    (ct_minimum r) (ct_maximum r) (ct_default_value r) v (ct_qmenu r) (ct_flags r)
    (ct_cur r) (ct_new r).
Definition set_ct_qmenu (v : option (list (option string))) (r : v4l2_ctrl) : v4l2_ctrl :=
  mk_ctrl (ct_ev_subs r) (ct_handler r) (ct_cluster r) (ct_ncontrols r) (ct_done r)
    (ct_is_new r) (ct_is_private r) (ct_is_volatile r) (ct_is_auto r)
    (ct_manual_mode_value r) (ct_ops r) (ct_id r) (ct_name r) (ct_type r)
    (ct_minimum r) (ct_maximum r) (ct_default_value r) (ct_step r) v (ct_flags r)
    (ct_cur r) (ct_new r).
Definition set_ct_flags (v : Z) (r : v4l2_ctrl) : v4l2_ctrl :=
  mk_ctrl (ct_ev_subs r) (ct_handler r) (ct_cluster r) (ct_ncontrols r) (ct_done r)
    (ct_is_new r) (ct_is_private r) (ct_is_volatile r) (ct_is_auto r)
    (ct_manual_mode_value r) (ct_ops r) (ct_id r) (ct_name r) (ct_type r)
    (ct_minimum r) (ct_maximum r) (ct_default_value r) (ct_step r) (ct_qmenu r) v
    (ct_cur r) (ct_new r).
Definition set_ct_cur (v : ctrl_value) (r : v4l2_ctrl) : v4l2_ctrl :=
  mk_ctrl (ct_ev_subs r) (ct_handler r) (ct_cluster r) (ct_ncontrols r) (ct_done r)
    (ct_is_new r) (ct_is_private r) (ct_is_volatile r) (ct_is_auto r)
    (ct_manual_mode_value r) (ct_ops r) (ct_id r) (ct_name r) (ct_type r)
    (ct_minimum r) (ct_maximum r) (ct_default_value r) (ct_step r) (ct_qmenu r)
    (ct_flags r) v (ct_new r).
Definition set_ct_new (v : ctrl_value) (r : v4l2_ctrl) : v4l2_ctrl :=
  mk_ctrl (ct_ev_subs r) (ct_handler r) (ct_cluster r) (ct_ncontrols r) (ct_done r)
    (ct_is_new r) (ct_is_private r) (ct_is_volatile r) (ct_is_auto r)
    (ct_manual_mode_value r) (ct_ops r) (ct_id r) (ct_name r) (ct_type r)
    (ct_minimum r) (ct_maximum r) (ct_default_value r) (ct_step r) (ct_qmenu r)
    (ct_flags r) (ct_cur r) v.

(** [struct v4l2_ctrl_ref]; the list node and the chain of the bucket are in the
    lists of the handler. *)
Record ctrl_ref := mk_ref {
  cr_ctrl : nat;
  cr_helper : option nat;   (* index into the helpers of the call *)
}.

Definition set_cr_helper (v : option nat) (r : ctrl_ref) : ctrl_ref :=
  mk_ref (cr_ctrl r) v.

Record ctrl_handler := mk_hdl {
  hd_ctrls : list nat;
  hd_ctrl_refs : list nat;
  hd_cached : option nat;
  hd_buckets : option (list (list nat));
  hd_nr_of_buckets : Z;   (* u16 *)
  hd_error : Z;   (* int *)
}.

Definition set_hd_ctrls (v : list nat) (r : ctrl_handler) : ctrl_handler :=
  mk_hdl v (hd_ctrl_refs r) (hd_cached r) (hd_buckets r) (hd_nr_of_buckets r)
    (hd_error r).
Definition set_hd_ctrl_refs (v : list nat) (r : ctrl_handler) : ctrl_handler :=
  mk_hdl (hd_ctrls r) v (hd_cached r) (hd_buckets r) (hd_nr_of_buckets r)
    (hd_error r).
Definition set_hd_cached (v : option nat) (r : ctrl_handler) : ctrl_handler :=
  mk_hdl (hd_ctrls r) (hd_ctrl_refs r) v (hd_buckets r) (hd_nr_of_buckets r)
    (hd_error r).
Definition set_hd_buckets (v : option (list (list nat))) (r : ctrl_handler) : ctrl_handler :=
  mk_hdl (hd_ctrls r) (hd_ctrl_refs r) (hd_cached r) v (hd_nr_of_buckets r)
    (hd_error r).
Definition set_hd_nr_of_buckets (v : Z) (r : ctrl_handler) : ctrl_handler :=
  mk_hdl (hd_ctrls r) (hd_ctrl_refs r) (hd_cached r) (hd_buckets r) v (hd_error r).
Definition set_hd_error (v : Z) (r : ctrl_handler) : ctrl_handler :=
  mk_hdl (hd_ctrls r) (hd_ctrl_refs r) (hd_cached r) (hd_buckets r)
    (hd_nr_of_buckets r) v.

(** The operations of a driver, [struct v4l2_ctrl_ops]. *)
Inductive ctrl_op := g_volatile_ctrl | try_ctrl | s_ctrl.
#[global] Instance ctrl_op_eq_dec : EqDecision ctrl_op.
Proof. solve_decision. Defined.

(** ** The state *)

Record v4l2_state := mk_v4l2 {
  vs_fh : gmap nat v4l2_fh;
  vs_fh_list : list nat;   (* the video device's list of file handles *)
  vs_sev : gmap nat subscribed_event;
  vs_ctrl : gmap nat v4l2_ctrl;
  vs_ref : gmap nat ctrl_ref;
  vs_hdl : list ctrl_handler;
  vs_arr : gmap nat (list (option nat));   (* cluster arrays of drivers *)
  vs_calls : list (ctrl_op * nat);   (* ghost: calls of the drivers of controls, oldest first *)
  vs_tick : nat;   (* ghost: questions asked to the environment *)
}.

Definition set_vs_fh (v : gmap nat v4l2_fh) (r : v4l2_state) : v4l2_state :=
  mk_v4l2 v (vs_fh_list r) (vs_sev r) (vs_ctrl r) (vs_ref r) (vs_hdl r) (vs_arr r)
    (vs_calls r) (vs_tick r).
Definition set_vs_fh_list (v : list nat) (r : v4l2_state) : v4l2_state :=
  mk_v4l2 (vs_fh r) v (vs_sev r) (vs_ctrl r) (vs_ref r) (vs_hdl r) (vs_arr r)
    (vs_calls r) (vs_tick r).
Definition set_vs_sev (v : gmap nat subscribed_event) (r : v4l2_state) : v4l2_state :=
  mk_v4l2 (vs_fh r) (vs_fh_list r) v (vs_ctrl r) (vs_ref r) (vs_hdl r) (vs_arr r)
    (vs_calls r) (vs_tick r).
Definition set_vs_ctrl (v : gmap nat v4l2_ctrl) (r : v4l2_state) : v4l2_state :=
  mk_v4l2 (vs_fh r) (vs_fh_list r) (vs_sev r) v (vs_ref r) (vs_hdl r) (vs_arr r)
    (vs_calls r) (vs_tick r).
Definition set_vs_ref (v : gmap nat ctrl_ref) (r : v4l2_state) : v4l2_state :=
  mk_v4l2 (vs_fh r) (vs_fh_list r) (vs_sev r) (vs_ctrl r) v (vs_hdl r) (vs_arr r)
    (vs_calls r) (vs_tick r).
Definition set_vs_hdl (v : list ctrl_handler) (r : v4l2_state) : v4l2_state :=
  mk_v4l2 (vs_fh r) (vs_fh_list r) (vs_sev r) (vs_ctrl r) (vs_ref r) v (vs_arr r)
    (vs_calls r) (vs_tick r).
Definition set_vs_arr (v : gmap nat (list (option nat))) (r : v4l2_state) : v4l2_state :=
  mk_v4l2 (vs_fh r) (vs_fh_list r) (vs_sev r) (vs_ctrl r) (vs_ref r) (vs_hdl r) v
    (vs_calls r) (vs_tick r).
Definition set_vs_calls (v : list (ctrl_op * nat)) (r : v4l2_state) : v4l2_state :=
  mk_v4l2 (vs_fh r) (vs_fh_list r) (vs_sev r) (vs_ctrl r) (vs_ref r) (vs_hdl r)
    (vs_arr r) v (vs_tick r).
Definition set_vs_tick (v : nat) (r : v4l2_state) : v4l2_state :=
  mk_v4l2 (vs_fh r) (vs_fh_list r) (vs_sev r) (vs_ctrl r) (vs_ref r) (vs_hdl r)
    (vs_arr r) (vs_calls r) v.

Class V4l2Env := {
  v4l2_kzalloc_fails : nat -> bool;
  ktime_get_ts : nat -> Z;
}.

(** ** drivers/media/video/v4l2-ctrls.c: finding a control in a handler. *)

Abbreviation v4l2M := (stateM v4l2_state).

(** ** Accesses *)

Definition ct_get (c : nat) : v4l2M v4l2_ctrl := m <- gets vs_ctrl ;; the (m !! c).
Definition ct_upd (c : nat) (f : v4l2_ctrl -> v4l2_ctrl) : v4l2M unit :=
  x <- ct_get c ;; m <- gets vs_ctrl ;; modify (set_vs_ctrl (<[c := f x]> m)).
Definition ref_ctrl (r : nat) : v4l2M nat := m <- gets vs_ref ;; x <- the (m !! r) ;; mdo (cr_ctrl x).
Definition hd_get (h : nat) : v4l2M ctrl_handler := l <- gets vs_hdl ;; the (l !! h).
Definition hd_upd (h : nat) (f : ctrl_handler -> ctrl_handler) : v4l2M unit :=
  x <- hd_get h ;; l <- gets vs_hdl ;; modify (set_vs_hdl (<[h := f x]> l)).
Definition vs_ask : v4l2M nat :=
  n <- gets vs_tick ;; modify (set_vs_tick (S n)) ;; mdo n.

(** [ref->ctrl->id] *)
Definition ref_id (r : nat) : v4l2M Z := c <- ref_ctrl r ;; x <- ct_get c ;; mdo (ct_id x).

Definition V4L2_CTRL_ID2CLASS (id : Z) : Z := Z.land id 0x0fff0000.
Definition V4L2_CTRL_DRIVER_PRIV (id : Z) : bool := Z.land id 0xffff >=? 0x1000.

Definition type_is_int (c : v4l2_ctrl) : bool :=
  negb ((ct_type c =? V4L2_CTRL_TYPE_INTEGER64) || (ct_type c =? V4L2_CTRL_TYPE_STRING)).

(** The search through [ctrl_refs]; [id] counts down. *)
Fixpoint private_loop (refs : list nat) (id : Z) : v4l2M (option nat) :=
  match refs with
  | [] => mdo None
  | r :: refs =>
    c <- ref_ctrl r ;; x <- ct_get c ;;
    if (V4L2_CTRL_ID2CLASS (ct_id x) =? V4L2_CTRL_CLASS_USER) && V4L2_CTRL_DRIVER_PRIV (ct_id x) then
      if negb (type_is_int x) then private_loop refs id
      else if id =? 0 then mdo (Some r)
      else private_loop refs (u32 (id - 1))
    else private_loop refs id
  end.

Definition find_private_ref (h : nat) (id : Z) : v4l2M (option nat) :=
  x <- hd_get h ;; private_loop (hd_ctrl_refs x) (u32 (id - V4L2_CID_PRIVATE_BASE)).

(** [while (ref && ref->ctrl->id != id) ref = ref->next;] *)
Fixpoint bucket_loop (chain : list nat) (id : Z) : v4l2M (option nat) :=
  match chain with
  | [] => mdo None
  | r :: chain => i <- ref_id r ;; if negb (i =? id) then bucket_loop chain id else mdo (Some r)
  end.

Definition find_ref (h : nat) (id : Z) : v4l2M (option nat) :=
  x <- hd_get h ;;
  let id := Z.land id V4L2_CTRL_ID_MASK in
  if id >=? V4L2_CID_PRIVATE_BASE then find_private_ref h id
  else if hd_nr_of_buckets x =? 0 then fault
  else
    let bucket := id mod hd_nr_of_buckets x in
    hit <- match hd_cached x with Some r => i <- ref_id r ;; mdo (i =? id) | None => mdo false end ;;
    if hit : bool then mdo (hd_cached x)
    else
      chain <- match hd_buckets x with Some b => the (b.[bucket]) | None => mdo [] end ;;
      ref <- bucket_loop chain id ;;
      match ref with
      | Some r => hd_upd h (set_hd_cached (Some r)) ;; mdo ref
      | None => mdo None
      end.

(** [hdl] may be NULL. *)
Definition find_ref_lock (h : option nat) (id : Z) : v4l2M (option nat) :=
  match h with None => mdo None | Some h => find_ref h id end.

Definition v4l2_ctrl_find (h : option nat) (id : Z) : v4l2M (option nat) :=
  ref <- find_ref_lock h id ;;
  match ref with Some r => c <- ref_ctrl r ;; mdo (Some c) | None => mdo None end.
