(* ===== verification/V4l2CtrlTables.v ===== *)
(** Standard controls, drivers/media/video/v4l2-ctrls.c: the names, menus, types and
    flags that the framework knows, [v4l2_ctrl_get_menu], [v4l2_ctrl_get_name] and
    [v4l2_ctrl_fill].

    A [switch] is the list of its cases.  A menu is the array with its NULL at the
    end. *)

From Stdlib Require Import String.
From stdpp Require Import list.
From S2P Require Import Prelude V4l2Types.

#[local] Open Scope string_scope.

Definition switch {A} (cases : list (Z * A)) (id : Z) : option A :=
  snd <$> List.find (fun c => Z.eqb (fst c) id) cases.

(** ** Ids (videodev2.h) *)

Definition V4L2_CID_USER_CLASS : Z := 0x00980001.
Definition V4L2_CID_BRIGHTNESS : Z := 0x00980900.
Definition V4L2_CID_CONTRAST : Z := 0x00980901.
Definition V4L2_CID_SATURATION : Z := 0x00980902.
Definition V4L2_CID_HUE : Z := 0x00980903.
Definition V4L2_CID_AUDIO_VOLUME : Z := 0x00980905.
Definition V4L2_CID_AUDIO_BALANCE : Z := 0x00980906.
Definition V4L2_CID_AUDIO_BASS : Z := 0x00980907.
Definition V4L2_CID_AUDIO_TREBLE : Z := 0x00980908.
Definition V4L2_CID_AUDIO_MUTE : Z := 0x00980909.
Definition V4L2_CID_AUDIO_LOUDNESS : Z := 0x0098090a.
Definition V4L2_CID_BLACK_LEVEL : Z := 0x0098090b.
Definition V4L2_CID_AUTO_WHITE_BALANCE : Z := 0x0098090c.
Definition V4L2_CID_DO_WHITE_BALANCE : Z := 0x0098090d.
Definition V4L2_CID_RED_BALANCE : Z := 0x0098090e.
Definition V4L2_CID_BLUE_BALANCE : Z := 0x0098090f.
Definition V4L2_CID_GAMMA : Z := 0x00980910.
Definition V4L2_CID_EXPOSURE : Z := 0x00980911.
Definition V4L2_CID_AUTOGAIN : Z := 0x00980912.
Definition V4L2_CID_GAIN : Z := 0x00980913.
Definition V4L2_CID_HFLIP : Z := 0x00980914.
Definition V4L2_CID_VFLIP : Z := 0x00980915.
Definition V4L2_CID_HCENTER : Z := 0x00980916.
Definition V4L2_CID_VCENTER : Z := 0x00980917.
Definition V4L2_CID_POWER_LINE_FREQUENCY : Z := 0x00980918.
Definition V4L2_CID_HUE_AUTO : Z := 0x00980919.
Definition V4L2_CID_WHITE_BALANCE_TEMPERATURE : Z := 0x0098091a.
Definition V4L2_CID_SHARPNESS : Z := 0x0098091b.
Definition V4L2_CID_BACKLIGHT_COMPENSATION : Z := 0x0098091c.
Definition V4L2_CID_CHROMA_AGC : Z := 0x0098091d.
Definition V4L2_CID_COLOR_KILLER : Z := 0x0098091e.
Definition V4L2_CID_COLORFX : Z := 0x0098091f.
Definition V4L2_CID_AUTOBRIGHTNESS : Z := 0x00980920.
Definition V4L2_CID_BAND_STOP_FILTER : Z := 0x00980921.
Definition V4L2_CID_ROTATE : Z := 0x00980922.
Definition V4L2_CID_BG_COLOR : Z := 0x00980923.
Definition V4L2_CID_CHROMA_GAIN : Z := 0x00980924.
Definition V4L2_CID_ILLUMINATORS_1 : Z := 0x00980925.
Definition V4L2_CID_ILLUMINATORS_2 : Z := 0x00980926.
Definition V4L2_CID_MIN_BUFFERS_FOR_CAPTURE : Z := 0x00980927.
Definition V4L2_CID_MIN_BUFFERS_FOR_OUTPUT : Z := 0x00980928.
Definition V4L2_CID_MPEG_CLASS : Z := 0x00990001.
Definition V4L2_CID_MPEG_STREAM_TYPE : Z := 0x00990900.
Definition V4L2_CID_MPEG_STREAM_PID_PMT : Z := 0x00990901.
Definition V4L2_CID_MPEG_STREAM_PID_AUDIO : Z := 0x00990902.
Definition V4L2_CID_MPEG_STREAM_PID_VIDEO : Z := 0x00990903.
Definition V4L2_CID_MPEG_STREAM_PID_PCR : Z := 0x00990904.
Definition V4L2_CID_MPEG_STREAM_PES_ID_AUDIO : Z := 0x00990905.
Definition V4L2_CID_MPEG_STREAM_PES_ID_VIDEO : Z := 0x00990906.
Definition V4L2_CID_MPEG_STREAM_VBI_FMT : Z := 0x00990907.
Definition V4L2_CID_MPEG_AUDIO_SAMPLING_FREQ : Z := 0x00990964.
Definition V4L2_CID_MPEG_AUDIO_ENCODING : Z := 0x00990965.
Definition V4L2_CID_MPEG_AUDIO_L1_BITRATE : Z := 0x00990966.
Definition V4L2_CID_MPEG_AUDIO_L2_BITRATE : Z := 0x00990967.
Definition V4L2_CID_MPEG_AUDIO_L3_BITRATE : Z := 0x00990968.
Definition V4L2_CID_MPEG_AUDIO_MODE : Z := 0x00990969.
Definition V4L2_CID_MPEG_AUDIO_MODE_EXTENSION : Z := 0x0099096a.
Definition V4L2_CID_MPEG_AUDIO_EMPHASIS : Z := 0x0099096b.
Definition V4L2_CID_MPEG_AUDIO_CRC : Z := 0x0099096c.
Definition V4L2_CID_MPEG_AUDIO_MUTE : Z := 0x0099096d.
Definition V4L2_CID_MPEG_AUDIO_AAC_BITRATE : Z := 0x0099096e.
Definition V4L2_CID_MPEG_AUDIO_AC3_BITRATE : Z := 0x0099096f.
Definition V4L2_CID_MPEG_VIDEO_ENCODING : Z := 0x009909c8.
Definition V4L2_CID_MPEG_VIDEO_ASPECT : Z := 0x009909c9.
Definition V4L2_CID_MPEG_VIDEO_B_FRAMES : Z := 0x009909ca.
Definition V4L2_CID_MPEG_VIDEO_GOP_SIZE : Z := 0x009909cb.
Definition V4L2_CID_MPEG_VIDEO_GOP_CLOSURE : Z := 0x009909cc.
Definition V4L2_CID_MPEG_VIDEO_PULLDOWN : Z := 0x009909cd.
Definition V4L2_CID_MPEG_VIDEO_BITRATE_MODE : Z := 0x009909ce.
Definition V4L2_CID_MPEG_VIDEO_BITRATE : Z := 0x009909cf.
Definition V4L2_CID_MPEG_VIDEO_BITRATE_PEAK : Z := 0x009909d0.
Definition V4L2_CID_MPEG_VIDEO_TEMPORAL_DECIMATION : Z := 0x009909d1.
Definition V4L2_CID_MPEG_VIDEO_MUTE : Z := 0x009909d2.
Definition V4L2_CID_MPEG_VIDEO_MUTE_YUV : Z := 0x009909d3.
Definition V4L2_CID_MPEG_VIDEO_DECODER_SLICE_INTERFACE : Z := 0x009909d4.
Definition V4L2_CID_MPEG_VIDEO_DECODER_MPEG4_DEBLOCK_FILTER : Z := 0x009909d5.
Definition V4L2_CID_MPEG_VIDEO_CYCLIC_INTRA_REFRESH_MB : Z := 0x009909d6.
Definition V4L2_CID_MPEG_VIDEO_FRAME_RC_ENABLE : Z := 0x009909d7.
Definition V4L2_CID_MPEG_VIDEO_MB_RC_ENABLE : Z := 0x009909da.
Definition V4L2_CID_MPEG_VIDEO_HEADER_MODE : Z := 0x009909d8.
Definition V4L2_CID_MPEG_VIDEO_MAX_REF_PIC : Z := 0x009909d9.
Definition V4L2_CID_MPEG_VIDEO_H263_I_FRAME_QP : Z := 0x00990a2c.
Definition V4L2_CID_MPEG_VIDEO_H263_P_FRAME_QP : Z := 0x00990a2d.
Definition V4L2_CID_MPEG_VIDEO_H263_B_FRAME_QP : Z := 0x00990a2e.
Definition V4L2_CID_MPEG_VIDEO_H263_MIN_QP : Z := 0x00990a2f.
Definition V4L2_CID_MPEG_VIDEO_H263_MAX_QP : Z := 0x00990a30.
Definition V4L2_CID_MPEG_VIDEO_H264_I_FRAME_QP : Z := 0x00990a5e.
Definition V4L2_CID_MPEG_VIDEO_H264_P_FRAME_QP : Z := 0x00990a5f.
Definition V4L2_CID_MPEG_VIDEO_H264_B_FRAME_QP : Z := 0x00990a60.
Definition V4L2_CID_MPEG_VIDEO_H264_MAX_QP : Z := 0x00990a62.
Definition V4L2_CID_MPEG_VIDEO_H264_MIN_QP : Z := 0x00990a61.
Definition V4L2_CID_MPEG_VIDEO_H264_8X8_TRANSFORM : Z := 0x00990a63.
Definition V4L2_CID_MPEG_VIDEO_H264_CPB_SIZE : Z := 0x00990a64.
Definition V4L2_CID_MPEG_VIDEO_H264_ENTROPY_MODE : Z := 0x00990a65.
Definition V4L2_CID_MPEG_VIDEO_H264_I_PERIOD : Z := 0x00990a66.
Definition V4L2_CID_MPEG_VIDEO_H264_LEVEL : Z := 0x00990a67.
Definition V4L2_CID_MPEG_VIDEO_H264_LOOP_FILTER_ALPHA : Z := 0x00990a68.
Definition V4L2_CID_MPEG_VIDEO_H264_LOOP_FILTER_BETA : Z := 0x00990a69.
Definition V4L2_CID_MPEG_VIDEO_H264_LOOP_FILTER_MODE : Z := 0x00990a6a.
Definition V4L2_CID_MPEG_VIDEO_H264_PROFILE : Z := 0x00990a6b.
Definition V4L2_CID_MPEG_VIDEO_H264_VUI_EXT_SAR_HEIGHT : Z := 0x00990a6c.
Definition V4L2_CID_MPEG_VIDEO_H264_VUI_EXT_SAR_WIDTH : Z := 0x00990a6d.
Definition V4L2_CID_MPEG_VIDEO_H264_VUI_SAR_ENABLE : Z := 0x00990a6e.
Definition V4L2_CID_MPEG_VIDEO_H264_VUI_SAR_IDC : Z := 0x00990a6f.
Definition V4L2_CID_MPEG_VIDEO_MPEG4_I_FRAME_QP : Z := 0x00990a90.
Definition V4L2_CID_MPEG_VIDEO_MPEG4_P_FRAME_QP : Z := 0x00990a91.
Definition V4L2_CID_MPEG_VIDEO_MPEG4_B_FRAME_QP : Z := 0x00990a92.
Definition V4L2_CID_MPEG_VIDEO_MPEG4_MIN_QP : Z := 0x00990a93.
Definition V4L2_CID_MPEG_VIDEO_MPEG4_MAX_QP : Z := 0x00990a94.
Definition V4L2_CID_MPEG_VIDEO_MPEG4_LEVEL : Z := 0x00990a95.
Definition V4L2_CID_MPEG_VIDEO_MPEG4_PROFILE : Z := 0x00990a96.
Definition V4L2_CID_MPEG_VIDEO_MPEG4_QPEL : Z := 0x00990a97.
Definition V4L2_CID_MPEG_VIDEO_MULTI_SLICE_MAX_BYTES : Z := 0x009909db.
Definition V4L2_CID_MPEG_VIDEO_MULTI_SLICE_MAX_MB : Z := 0x009909dc.
Definition V4L2_CID_MPEG_VIDEO_MULTI_SLICE_MODE : Z := 0x009909dd.
Definition V4L2_CID_MPEG_VIDEO_VBV_SIZE : Z := 0x009909de.
Definition V4L2_CID_CAMERA_CLASS : Z := 0x009a0001.
Definition V4L2_CID_EXPOSURE_AUTO : Z := 0x009a0901.
Definition V4L2_CID_EXPOSURE_ABSOLUTE : Z := 0x009a0902.
Definition V4L2_CID_EXPOSURE_AUTO_PRIORITY : Z := 0x009a0903.
Definition V4L2_CID_PAN_RELATIVE : Z := 0x009a0904.
Definition V4L2_CID_TILT_RELATIVE : Z := 0x009a0905.
Definition V4L2_CID_PAN_RESET : Z := 0x009a0906.
Definition V4L2_CID_TILT_RESET : Z := 0x009a0907.
Definition V4L2_CID_PAN_ABSOLUTE : Z := 0x009a0908.
Definition V4L2_CID_TILT_ABSOLUTE : Z := 0x009a0909.
Definition V4L2_CID_FOCUS_ABSOLUTE : Z := 0x009a090a.
Definition V4L2_CID_FOCUS_RELATIVE : Z := 0x009a090b.
Definition V4L2_CID_FOCUS_AUTO : Z := 0x009a090c.
Definition V4L2_CID_ZOOM_ABSOLUTE : Z := 0x009a090d.
Definition V4L2_CID_ZOOM_RELATIVE : Z := 0x009a090e.
Definition V4L2_CID_ZOOM_CONTINUOUS : Z := 0x009a090f.
Definition V4L2_CID_PRIVACY : Z := 0x009a0910.
Definition V4L2_CID_IRIS_ABSOLUTE : Z := 0x009a0911.
Definition V4L2_CID_IRIS_RELATIVE : Z := 0x009a0912.
Definition V4L2_CID_FM_TX_CLASS : Z := 0x009b0001.
Definition V4L2_CID_RDS_TX_DEVIATION : Z := 0x009b0901.
Definition V4L2_CID_RDS_TX_PI : Z := 0x009b0902.
Definition V4L2_CID_RDS_TX_PTY : Z := 0x009b0903.
Definition V4L2_CID_RDS_TX_PS_NAME : Z := 0x009b0905.
Definition V4L2_CID_RDS_TX_RADIO_TEXT : Z := 0x009b0906.
Definition V4L2_CID_AUDIO_LIMITER_ENABLED : Z := 0x009b0940.
Definition V4L2_CID_AUDIO_LIMITER_RELEASE_TIME : Z := 0x009b0941.
Definition V4L2_CID_AUDIO_LIMITER_DEVIATION : Z := 0x009b0942.
Definition V4L2_CID_AUDIO_COMPRESSION_ENABLED : Z := 0x009b0950.
Definition V4L2_CID_AUDIO_COMPRESSION_GAIN : Z := 0x009b0951.
Definition V4L2_CID_AUDIO_COMPRESSION_THRESHOLD : Z := 0x009b0952.
Definition V4L2_CID_AUDIO_COMPRESSION_ATTACK_TIME : Z := 0x009b0953.
Definition V4L2_CID_AUDIO_COMPRESSION_RELEASE_TIME : Z := 0x009b0954.
Definition V4L2_CID_PILOT_TONE_ENABLED : Z := 0x009b0960.
Definition V4L2_CID_PILOT_TONE_DEVIATION : Z := 0x009b0961.
Definition V4L2_CID_PILOT_TONE_FREQUENCY : Z := 0x009b0962.
Definition V4L2_CID_TUNE_PREEMPHASIS : Z := 0x009b0970.
Definition V4L2_CID_TUNE_POWER_LEVEL : Z := 0x009b0971.
Definition V4L2_CID_TUNE_ANTENNA_CAPACITOR : Z := 0x009b0972.
Definition V4L2_CID_FLASH_CLASS : Z := 0x009c0001.
Definition V4L2_CID_FLASH_LED_MODE : Z := 0x009c0901.
Definition V4L2_CID_FLASH_STROBE_SOURCE : Z := 0x009c0902.
Definition V4L2_CID_FLASH_STROBE : Z := 0x009c0903.
Definition V4L2_CID_FLASH_STROBE_STOP : Z := 0x009c0904.
Definition V4L2_CID_FLASH_STROBE_STATUS : Z := 0x009c0905.
Definition V4L2_CID_FLASH_TIMEOUT : Z := 0x009c0906.
Definition V4L2_CID_FLASH_INTENSITY : Z := 0x009c0907.
Definition V4L2_CID_FLASH_TORCH_INTENSITY : Z := 0x009c0908.
Definition V4L2_CID_FLASH_INDICATOR_INTENSITY : Z := 0x009c0909.
Definition V4L2_CID_FLASH_FAULT : Z := 0x009c090a.
Definition V4L2_CID_FLASH_CHARGE : Z := 0x009c090b.
Definition V4L2_CID_FLASH_READY : Z := 0x009c090c.

(** ** Menus *)

Definition mpeg_audio_sampling_freq : list (option string) :=
  [Some "44.1 kHz"; Some "48 kHz"; Some "32 kHz"; None].
Definition mpeg_audio_encoding : list (option string) :=
  [Some "MPEG-1/2 Layer I"; Some "MPEG-1/2 Layer II"; Some "MPEG-1/2 Layer III"; Some "MPEG-2/4 AAC";
    Some "AC-3"; None].
Definition mpeg_audio_l1_bitrate : list (option string) :=
  [Some "32 kbps"; Some "64 kbps"; Some "96 kbps"; Some "128 kbps"; Some "160 kbps"; Some "192 kbps";
    Some "224 kbps"; Some "256 kbps"; Some "288 kbps"; Some "320 kbps"; Some "352 kbps"; Some "384 kbps";
    Some "416 kbps"; Some "448 kbps"; None].
Definition mpeg_audio_l2_bitrate : list (option string) :=
  [Some "32 kbps"; Some "48 kbps"; Some "56 kbps"; Some "64 kbps"; Some "80 kbps"; Some "96 kbps";
    Some "112 kbps"; Some "128 kbps"; Some "160 kbps"; Some "192 kbps"; Some "224 kbps"; Some "256 kbps";
    Some "320 kbps"; Some "384 kbps"; None].
Definition mpeg_audio_l3_bitrate : list (option string) :=
  [Some "32 kbps"; Some "40 kbps"; Some "48 kbps"; Some "56 kbps"; Some "64 kbps"; Some "80 kbps";
    Some "96 kbps"; Some "112 kbps"; Some "128 kbps"; Some "160 kbps"; Some "192 kbps"; Some "224 kbps";
    Some "256 kbps"; Some "320 kbps"; None].
Definition mpeg_audio_ac3_bitrate : list (option string) :=
  [Some "32 kbps"; Some "40 kbps"; Some "48 kbps"; Some "56 kbps"; Some "64 kbps"; Some "80 kbps";
    Some "96 kbps"; Some "112 kbps"; Some "128 kbps"; Some "160 kbps"; Some "192 kbps"; Some "224 kbps";
    Some "256 kbps"; Some "320 kbps"; Some "384 kbps"; Some "448 kbps"; Some "512 kbps"; Some "576 kbps";
    Some "640 kbps"; None].
Definition mpeg_audio_mode : list (option string) :=
  [Some "Stereo"; Some "Joint Stereo"; Some "Dual"; Some "Mono"; None].
Definition mpeg_audio_mode_extension : list (option string) :=
  [Some "Bound 4"; Some "Bound 8"; Some "Bound 12"; Some "Bound 16"; None].
Definition mpeg_audio_emphasis : list (option string) :=
  [Some "No Emphasis"; Some "50/15 us"; Some "CCITT J17"; None].
Definition mpeg_audio_crc : list (option string) :=
  [Some "No CRC"; Some "16-bit CRC"; None].
Definition mpeg_video_encoding : list (option string) :=
  [Some "MPEG-1"; Some "MPEG-2"; Some "MPEG-4 AVC"; None].
Definition mpeg_video_aspect : list (option string) :=
  [Some "1x1"; Some "4x3"; Some "16x9"; Some "2.21x1"; None].
Definition mpeg_video_bitrate_mode : list (option string) :=
  [Some "Variable Bitrate"; Some "Constant Bitrate"; None].
Definition mpeg_stream_type : list (option string) :=
  [Some "MPEG-2 Program Stream"; Some "MPEG-2 Transport Stream"; Some "MPEG-1 System Stream";
    Some "MPEG-2 DVD-compatible Stream"; Some "MPEG-1 VCD-compatible Stream";
    Some "MPEG-2 SVCD-compatible Stream"; None].
Definition mpeg_stream_vbi_fmt : list (option string) :=
  [Some "No VBI"; Some "Private Packet, IVTV Format"; None].
Definition camera_power_line_frequency : list (option string) :=
  [Some "Disabled"; Some "50 Hz"; Some "60 Hz"; None].
Definition camera_exposure_auto : list (option string) :=
  [Some "Auto Mode"; Some "Manual Mode"; Some "Shutter Priority Mode"; Some "Aperture Priority Mode"; None].
Definition colorfx : list (option string) :=
  [Some "None"; Some "Black & White"; Some "Sepia"; Some "Negative"; Some "Emboss"; Some "Sketch";
    Some "Sky Blue"; Some "Grass Green"; Some "Skin Whiten"; Some "Vivid"; None].
Definition tune_preemphasis : list (option string) :=
  [Some "No Preemphasis"; Some "50 useconds"; Some "75 useconds"; None].
Definition header_mode : list (option string) :=
  [Some "Separate Buffer"; Some "Joined With 1st Frame"; None].
Definition multi_slice : list (option string) :=
  [Some "Single"; Some "Max Macroblocks"; Some "Max Bytes"; None].
Definition entropy_mode : list (option string) :=
  [Some "CAVLC"; Some "CABAC"; None].
Definition mpeg_h264_level : list (option string) :=
  [Some "1"; Some "1b"; Some "1.1"; Some "1.2"; Some "1.3"; Some "2"; Some "2.1"; Some "2.2"; Some "3";
    Some "3.1"; Some "3.2"; Some "4"; Some "4.1"; Some "4.2"; Some "5"; Some "5.1"; None].
Definition h264_loop_filter : list (option string) :=
  [Some "Enabled"; Some "Disabled"; Some "Disabled at Slice Boundary"; None].
Definition h264_profile : list (option string) :=
  [Some "Baseline"; Some "Constrained Baseline"; Some "Main"; Some "Extended"; Some "High"; Some "High 10";
    Some "High 422"; Some "High 444 Predictive"; Some "High 10 Intra"; Some "High 422 Intra";
    Some "High 444 Intra"; Some "CAVLC 444 Intra"; Some "Scalable Baseline"; Some "Scalable High";
    Some "Scalable High Intra"; Some "Multiview High"; None].
Definition vui_sar_idc : list (option string) :=
  [Some "Unspecified"; Some "1:1"; Some "12:11"; Some "10:11"; Some "16:11"; Some "40:33"; Some "24:11";
    Some "20:11"; Some "32:11"; Some "80:33"; Some "18:11"; Some "15:11"; Some "64:33"; Some "160:99";
    Some "4:3"; Some "3:2"; Some "2:1"; Some "Extended SAR"; None].
Definition mpeg_mpeg4_level : list (option string) :=
  [Some "0"; Some "0b"; Some "1"; Some "2"; Some "3"; Some "3b"; Some "4"; Some "5"; None].
Definition mpeg4_profile : list (option string) :=
  [Some "Simple"; Some "Adcanved Simple"; Some "Core"; Some "Simple Scalable"; Some "Advanced Coding Efficency";
    None].
Definition flash_led_mode : list (option string) :=
  [Some "Off"; Some "Flash"; Some "Torch"; None].
Definition flash_strobe_source : list (option string) :=
  [Some "Software"; Some "External"; None].

Definition ctrl_menus : list (Z * list (option string)) := [
  (V4L2_CID_MPEG_AUDIO_SAMPLING_FREQ, mpeg_audio_sampling_freq);
  (V4L2_CID_MPEG_AUDIO_ENCODING, mpeg_audio_encoding);
  (V4L2_CID_MPEG_AUDIO_L1_BITRATE, mpeg_audio_l1_bitrate);
  (V4L2_CID_MPEG_AUDIO_L2_BITRATE, mpeg_audio_l2_bitrate);
  (V4L2_CID_MPEG_AUDIO_L3_BITRATE, mpeg_audio_l3_bitrate);
  (V4L2_CID_MPEG_AUDIO_AC3_BITRATE, mpeg_audio_ac3_bitrate);
  (V4L2_CID_MPEG_AUDIO_MODE, mpeg_audio_mode);
  (V4L2_CID_MPEG_AUDIO_MODE_EXTENSION, mpeg_audio_mode_extension);
  (V4L2_CID_MPEG_AUDIO_EMPHASIS, mpeg_audio_emphasis);
  (V4L2_CID_MPEG_AUDIO_CRC, mpeg_audio_crc);
  (V4L2_CID_MPEG_VIDEO_ENCODING, mpeg_video_encoding);
  (V4L2_CID_MPEG_VIDEO_ASPECT, mpeg_video_aspect);
  (V4L2_CID_MPEG_VIDEO_BITRATE_MODE, mpeg_video_bitrate_mode);
  (V4L2_CID_MPEG_STREAM_TYPE, mpeg_stream_type);
  (V4L2_CID_MPEG_STREAM_VBI_FMT, mpeg_stream_vbi_fmt);
  (V4L2_CID_POWER_LINE_FREQUENCY, camera_power_line_frequency);
  (V4L2_CID_EXPOSURE_AUTO, camera_exposure_auto);
  (V4L2_CID_COLORFX, colorfx);
  (V4L2_CID_TUNE_PREEMPHASIS, tune_preemphasis);
  (V4L2_CID_FLASH_LED_MODE, flash_led_mode);
  (V4L2_CID_FLASH_STROBE_SOURCE, flash_strobe_source);
  (V4L2_CID_MPEG_VIDEO_HEADER_MODE, header_mode);
  (V4L2_CID_MPEG_VIDEO_MULTI_SLICE_MODE, multi_slice);
  (V4L2_CID_MPEG_VIDEO_H264_ENTROPY_MODE, entropy_mode);
  (V4L2_CID_MPEG_VIDEO_H264_LEVEL, mpeg_h264_level);
  (V4L2_CID_MPEG_VIDEO_H264_LOOP_FILTER_MODE, h264_loop_filter);
  (V4L2_CID_MPEG_VIDEO_H264_PROFILE, h264_profile);
  (V4L2_CID_MPEG_VIDEO_H264_VUI_SAR_IDC, vui_sar_idc);
  (V4L2_CID_MPEG_VIDEO_MPEG4_LEVEL, mpeg_mpeg4_level);
  (V4L2_CID_MPEG_VIDEO_MPEG4_PROFILE, mpeg4_profile)].

Definition v4l2_ctrl_get_menu (id : Z) : option (list (option string)) := switch ctrl_menus id.

(** ** Names *)

Definition ctrl_names : list (Z * string) := [
  (V4L2_CID_USER_CLASS, "User Controls");
  (V4L2_CID_BRIGHTNESS, "Brightness");
  (V4L2_CID_CONTRAST, "Contrast");
  (V4L2_CID_SATURATION, "Saturation");
  (V4L2_CID_HUE, "Hue");
  (V4L2_CID_AUDIO_VOLUME, "Volume");
  (V4L2_CID_AUDIO_BALANCE, "Balance");
  (V4L2_CID_AUDIO_BASS, "Bass");
  (V4L2_CID_AUDIO_TREBLE, "Treble");
  (V4L2_CID_AUDIO_MUTE, "Mute");
  (V4L2_CID_AUDIO_LOUDNESS, "Loudness");
  (V4L2_CID_BLACK_LEVEL, "Black Level");
  (V4L2_CID_AUTO_WHITE_BALANCE, "White Balance, Automatic");
  (V4L2_CID_DO_WHITE_BALANCE, "Do White Balance");
  (V4L2_CID_RED_BALANCE, "Red Balance");
  (V4L2_CID_BLUE_BALANCE, "Blue Balance");
  (V4L2_CID_GAMMA, "Gamma");
  (V4L2_CID_EXPOSURE, "Exposure");
  (V4L2_CID_AUTOGAIN, "Gain, Automatic");
  (V4L2_CID_GAIN, "Gain");
  (V4L2_CID_HFLIP, "Horizontal Flip");
  (V4L2_CID_VFLIP, "Vertical Flip");
  (V4L2_CID_HCENTER, "Horizontal Center");
  (V4L2_CID_VCENTER, "Vertical Center");
  (V4L2_CID_POWER_LINE_FREQUENCY, "Power Line Frequency");
  (V4L2_CID_HUE_AUTO, "Hue, Automatic");
  (V4L2_CID_WHITE_BALANCE_TEMPERATURE, "White Balance Temperature");
  (V4L2_CID_SHARPNESS, "Sharpness");
  (V4L2_CID_BACKLIGHT_COMPENSATION, "Backlight Compensation");
  (V4L2_CID_CHROMA_AGC, "Chroma AGC");
  (V4L2_CID_COLOR_KILLER, "Color Killer");
  (V4L2_CID_COLORFX, "Color Effects");
  (V4L2_CID_AUTOBRIGHTNESS, "Brightness, Automatic");
  (V4L2_CID_BAND_STOP_FILTER, "Band-Stop Filter");
  (V4L2_CID_ROTATE, "Rotate");
  (V4L2_CID_BG_COLOR, "Background Color");
  (V4L2_CID_CHROMA_GAIN, "Chroma Gain");
  (V4L2_CID_ILLUMINATORS_1, "Illuminator 1");
  (V4L2_CID_ILLUMINATORS_2, "Illuminator 2");
  (V4L2_CID_MIN_BUFFERS_FOR_CAPTURE, "Minimum Number of Capture Buffers");
  (V4L2_CID_MIN_BUFFERS_FOR_OUTPUT, "Minimum Number of Output Buffers");
  (V4L2_CID_MPEG_CLASS, "MPEG Encoder Controls");
  (V4L2_CID_MPEG_STREAM_TYPE, "Stream Type");
  (V4L2_CID_MPEG_STREAM_PID_PMT, "Stream PMT Program ID");
  (V4L2_CID_MPEG_STREAM_PID_AUDIO, "Stream Audio Program ID");
  (V4L2_CID_MPEG_STREAM_PID_VIDEO, "Stream Video Program ID");
  (V4L2_CID_MPEG_STREAM_PID_PCR, "Stream PCR Program ID");
  (V4L2_CID_MPEG_STREAM_PES_ID_AUDIO, "Stream PES Audio ID");
  (V4L2_CID_MPEG_STREAM_PES_ID_VIDEO, "Stream PES Video ID");
  (V4L2_CID_MPEG_STREAM_VBI_FMT, "Stream VBI Format");
  (V4L2_CID_MPEG_AUDIO_SAMPLING_FREQ, "Audio Sampling Frequency");
  (V4L2_CID_MPEG_AUDIO_ENCODING, "Audio Encoding");
  (V4L2_CID_MPEG_AUDIO_L1_BITRATE, "Audio Layer I Bitrate");
  (V4L2_CID_MPEG_AUDIO_L2_BITRATE, "Audio Layer II Bitrate");
  (V4L2_CID_MPEG_AUDIO_L3_BITRATE, "Audio Layer III Bitrate");
  (V4L2_CID_MPEG_AUDIO_MODE, "Audio Stereo Mode");
  (V4L2_CID_MPEG_AUDIO_MODE_EXTENSION, "Audio Stereo Mode Extension");
  (V4L2_CID_MPEG_AUDIO_EMPHASIS, "Audio Emphasis");
  (V4L2_CID_MPEG_AUDIO_CRC, "Audio CRC");
  (V4L2_CID_MPEG_AUDIO_MUTE, "Audio Mute");
  (V4L2_CID_MPEG_AUDIO_AAC_BITRATE, "Audio AAC Bitrate");
  (V4L2_CID_MPEG_AUDIO_AC3_BITRATE, "Audio AC-3 Bitrate");
  (V4L2_CID_MPEG_VIDEO_ENCODING, "Video Encoding");
  (V4L2_CID_MPEG_VIDEO_ASPECT, "Video Aspect");
  (V4L2_CID_MPEG_VIDEO_B_FRAMES, "Video B Frames");
  (V4L2_CID_MPEG_VIDEO_GOP_SIZE, "Video GOP Size");
  (V4L2_CID_MPEG_VIDEO_GOP_CLOSURE, "Video GOP Closure");
  (V4L2_CID_MPEG_VIDEO_PULLDOWN, "Video Pulldown");
  (V4L2_CID_MPEG_VIDEO_BITRATE_MODE, "Video Bitrate Mode");
  (V4L2_CID_MPEG_VIDEO_BITRATE, "Video Bitrate");
  (V4L2_CID_MPEG_VIDEO_BITRATE_PEAK, "Video Peak Bitrate");
  (V4L2_CID_MPEG_VIDEO_TEMPORAL_DECIMATION, "Video Temporal Decimation");
  (V4L2_CID_MPEG_VIDEO_MUTE, "Video Mute");
  (V4L2_CID_MPEG_VIDEO_MUTE_YUV, "Video Mute YUV");
  (V4L2_CID_MPEG_VIDEO_DECODER_SLICE_INTERFACE, "Decoder Slice Interface");
  (V4L2_CID_MPEG_VIDEO_DECODER_MPEG4_DEBLOCK_FILTER, "MPEG4 Loop Filter Enable");
  (V4L2_CID_MPEG_VIDEO_CYCLIC_INTRA_REFRESH_MB, "The Number of Intra Refresh MBs");
  (V4L2_CID_MPEG_VIDEO_FRAME_RC_ENABLE, "Frame Level Rate Control Enable");
  (V4L2_CID_MPEG_VIDEO_MB_RC_ENABLE, "H264 MB Level Rate Control");
  (V4L2_CID_MPEG_VIDEO_HEADER_MODE, "Sequence Header Mode");
  (V4L2_CID_MPEG_VIDEO_MAX_REF_PIC, "The Max Number of Reference Picture");
  (V4L2_CID_MPEG_VIDEO_H263_I_FRAME_QP, "H263 I-Frame QP Value");
  (V4L2_CID_MPEG_VIDEO_H263_P_FRAME_QP, "H263 P frame QP Value");
  (V4L2_CID_MPEG_VIDEO_H263_B_FRAME_QP, "H263 B frame QP Value");
  (V4L2_CID_MPEG_VIDEO_H263_MIN_QP, "H263 Minimum QP Value");
  (V4L2_CID_MPEG_VIDEO_H263_MAX_QP, "H263 Maximum QP Value");
  (V4L2_CID_MPEG_VIDEO_H264_I_FRAME_QP, "H264 I-Frame QP Value");
  (V4L2_CID_MPEG_VIDEO_H264_P_FRAME_QP, "H264 P frame QP Value");
  (V4L2_CID_MPEG_VIDEO_H264_B_FRAME_QP, "H264 B frame QP Value");
  (V4L2_CID_MPEG_VIDEO_H264_MAX_QP, "H264 Maximum QP Value");
  (V4L2_CID_MPEG_VIDEO_H264_MIN_QP, "H264 Minimum QP Value");
  (V4L2_CID_MPEG_VIDEO_H264_8X8_TRANSFORM, "H264 8x8 Transform Enable");
  (V4L2_CID_MPEG_VIDEO_H264_CPB_SIZE, "H264 CPB Buffer Size");
  (V4L2_CID_MPEG_VIDEO_H264_ENTROPY_MODE, "H264 Entorpy Mode");
  (V4L2_CID_MPEG_VIDEO_H264_I_PERIOD, "H264 I Period");
  (V4L2_CID_MPEG_VIDEO_H264_LEVEL, "H264 Level");
  (V4L2_CID_MPEG_VIDEO_H264_LOOP_FILTER_ALPHA, "H264 Loop Filter Alpha Offset");
  (V4L2_CID_MPEG_VIDEO_H264_LOOP_FILTER_BETA, "H264 Loop Filter Beta Offset");
  (V4L2_CID_MPEG_VIDEO_H264_LOOP_FILTER_MODE, "H264 Loop Filter Mode");
  (V4L2_CID_MPEG_VIDEO_H264_PROFILE, "H264 Profile");
  (V4L2_CID_MPEG_VIDEO_H264_VUI_EXT_SAR_HEIGHT, "Vertical Size of SAR");
  (V4L2_CID_MPEG_VIDEO_H264_VUI_EXT_SAR_WIDTH, "Horizontal Size of SAR");
  (V4L2_CID_MPEG_VIDEO_H264_VUI_SAR_ENABLE, "Aspect Ratio VUI Enable");
  (V4L2_CID_MPEG_VIDEO_H264_VUI_SAR_IDC, "VUI Aspect Ratio IDC");
  (V4L2_CID_MPEG_VIDEO_MPEG4_I_FRAME_QP, "MPEG4 I-Frame QP Value");
  (V4L2_CID_MPEG_VIDEO_MPEG4_P_FRAME_QP, "MPEG4 P frame QP Value");
  (V4L2_CID_MPEG_VIDEO_MPEG4_B_FRAME_QP, "MPEG4 B frame QP Value");
  (V4L2_CID_MPEG_VIDEO_MPEG4_MIN_QP, "MPEG4 Minimum QP Value");
  (V4L2_CID_MPEG_VIDEO_MPEG4_MAX_QP, "MPEG4 Maximum QP Value");
  (V4L2_CID_MPEG_VIDEO_MPEG4_LEVEL, "MPEG4 Level");
  (V4L2_CID_MPEG_VIDEO_MPEG4_PROFILE, "MPEG4 Profile");
  (V4L2_CID_MPEG_VIDEO_MPEG4_QPEL, "Quarter Pixel Search Enable");
  (V4L2_CID_MPEG_VIDEO_MULTI_SLICE_MAX_BYTES, "The Maximum Bytes Per Slice");
  (V4L2_CID_MPEG_VIDEO_MULTI_SLICE_MAX_MB, "The Number of MB in a Slice");
  (V4L2_CID_MPEG_VIDEO_MULTI_SLICE_MODE, "The Slice Partitioning Method");
  (V4L2_CID_MPEG_VIDEO_VBV_SIZE, "VBV Buffer Size");
  (V4L2_CID_CAMERA_CLASS, "Camera Controls");
  (V4L2_CID_EXPOSURE_AUTO, "Auto Exposure");
  (V4L2_CID_EXPOSURE_ABSOLUTE, "Exposure Time, Absolute");
  (V4L2_CID_EXPOSURE_AUTO_PRIORITY, "Exposure, Dynamic Framerate");
  (V4L2_CID_PAN_RELATIVE, "Pan, Relative");
  (V4L2_CID_TILT_RELATIVE, "Tilt, Relative");
  (V4L2_CID_PAN_RESET, "Pan, Reset");
  (V4L2_CID_TILT_RESET, "Tilt, Reset");
  (V4L2_CID_PAN_ABSOLUTE, "Pan, Absolute");
  (V4L2_CID_TILT_ABSOLUTE, "Tilt, Absolute");
  (V4L2_CID_FOCUS_ABSOLUTE, "Focus, Absolute");
  (V4L2_CID_FOCUS_RELATIVE, "Focus, Relative");
  (V4L2_CID_FOCUS_AUTO, "Focus, Automatic");
  (V4L2_CID_ZOOM_ABSOLUTE, "Zoom, Absolute");
  (V4L2_CID_ZOOM_RELATIVE, "Zoom, Relative");
  (V4L2_CID_ZOOM_CONTINUOUS, "Zoom, Continuous");
  (V4L2_CID_PRIVACY, "Privacy");
  (V4L2_CID_IRIS_ABSOLUTE, "Iris, Absolute");
  (V4L2_CID_IRIS_RELATIVE, "Iris, Relative");
  (V4L2_CID_FM_TX_CLASS, "FM Radio Modulator Controls");
  (V4L2_CID_RDS_TX_DEVIATION, "RDS Signal Deviation");
  (V4L2_CID_RDS_TX_PI, "RDS Program ID");
  (V4L2_CID_RDS_TX_PTY, "RDS Program Type");
  (V4L2_CID_RDS_TX_PS_NAME, "RDS PS Name");
  (V4L2_CID_RDS_TX_RADIO_TEXT, "RDS Radio Text");
  (V4L2_CID_AUDIO_LIMITER_ENABLED, "Audio Limiter Feature Enabled");
  (V4L2_CID_AUDIO_LIMITER_RELEASE_TIME, "Audio Limiter Release Time");
  (V4L2_CID_AUDIO_LIMITER_DEVIATION, "Audio Limiter Deviation");
  (V4L2_CID_AUDIO_COMPRESSION_ENABLED, "Audio Compression Feature Enabled");
  (V4L2_CID_AUDIO_COMPRESSION_GAIN, "Audio Compression Gain");
  (V4L2_CID_AUDIO_COMPRESSION_THRESHOLD, "Audio Compression Threshold");
  (V4L2_CID_AUDIO_COMPRESSION_ATTACK_TIME, "Audio Compression Attack Time");
  (V4L2_CID_AUDIO_COMPRESSION_RELEASE_TIME, "Audio Compression Release Time");
  (V4L2_CID_PILOT_TONE_ENABLED, "Pilot Tone Feature Enabled");
  (V4L2_CID_PILOT_TONE_DEVIATION, "Pilot Tone Deviation");
  (V4L2_CID_PILOT_TONE_FREQUENCY, "Pilot Tone Frequency");
  (V4L2_CID_TUNE_PREEMPHASIS, "Pre-emphasis settings");
  (V4L2_CID_TUNE_POWER_LEVEL, "Tune Power Level");
  (V4L2_CID_TUNE_ANTENNA_CAPACITOR, "Tune Antenna Capacitor");
  (V4L2_CID_FLASH_CLASS, "Flash controls");
  (V4L2_CID_FLASH_LED_MODE, "LED mode");
  (V4L2_CID_FLASH_STROBE_SOURCE, "Strobe source");
  (V4L2_CID_FLASH_STROBE, "Strobe");
  (V4L2_CID_FLASH_STROBE_STOP, "Stop strobe");
  (V4L2_CID_FLASH_STROBE_STATUS, "Strobe status");
  (V4L2_CID_FLASH_TIMEOUT, "Strobe timeout");
  (V4L2_CID_FLASH_INTENSITY, "Intensity, flash mode");
  (V4L2_CID_FLASH_TORCH_INTENSITY, "Intensity, torch mode");
  (V4L2_CID_FLASH_INDICATOR_INTENSITY, "Intensity, indicator");
  (V4L2_CID_FLASH_FAULT, "Faults");
  (V4L2_CID_FLASH_CHARGE, "Charge");
  (V4L2_CID_FLASH_READY, "Ready to strobe")].

Definition v4l2_ctrl_get_name (id : Z) : option string := switch ctrl_names id.

(** ** Types and flags *)

Definition boolean_ids : list Z := [
  V4L2_CID_AUDIO_MUTE; V4L2_CID_AUDIO_LOUDNESS; V4L2_CID_AUTO_WHITE_BALANCE; V4L2_CID_AUTOGAIN;
  V4L2_CID_HFLIP; V4L2_CID_VFLIP; V4L2_CID_HUE_AUTO; V4L2_CID_CHROMA_AGC; V4L2_CID_COLOR_KILLER;
  V4L2_CID_MPEG_AUDIO_MUTE; V4L2_CID_MPEG_VIDEO_MUTE; V4L2_CID_MPEG_VIDEO_GOP_CLOSURE;
  V4L2_CID_MPEG_VIDEO_PULLDOWN; V4L2_CID_EXPOSURE_AUTO_PRIORITY; V4L2_CID_FOCUS_AUTO; V4L2_CID_PRIVACY;
  V4L2_CID_AUDIO_LIMITER_ENABLED; V4L2_CID_AUDIO_COMPRESSION_ENABLED; V4L2_CID_PILOT_TONE_ENABLED;
  V4L2_CID_ILLUMINATORS_1; V4L2_CID_ILLUMINATORS_2; V4L2_CID_FLASH_STROBE_STATUS; V4L2_CID_FLASH_CHARGE;
  V4L2_CID_FLASH_READY; V4L2_CID_MPEG_VIDEO_DECODER_MPEG4_DEBLOCK_FILTER;
  V4L2_CID_MPEG_VIDEO_DECODER_SLICE_INTERFACE; V4L2_CID_MPEG_VIDEO_FRAME_RC_ENABLE;
  V4L2_CID_MPEG_VIDEO_MB_RC_ENABLE; V4L2_CID_MPEG_VIDEO_H264_8X8_TRANSFORM;
  V4L2_CID_MPEG_VIDEO_H264_VUI_SAR_ENABLE; V4L2_CID_MPEG_VIDEO_MPEG4_QPEL].
Definition button_ids : list Z := [
  V4L2_CID_PAN_RESET; V4L2_CID_TILT_RESET; V4L2_CID_FLASH_STROBE; V4L2_CID_FLASH_STROBE_STOP].
Definition menu_ids : list Z := [
  V4L2_CID_POWER_LINE_FREQUENCY; V4L2_CID_MPEG_AUDIO_SAMPLING_FREQ; V4L2_CID_MPEG_AUDIO_ENCODING;
  V4L2_CID_MPEG_AUDIO_L1_BITRATE; V4L2_CID_MPEG_AUDIO_L2_BITRATE; V4L2_CID_MPEG_AUDIO_L3_BITRATE;
  V4L2_CID_MPEG_AUDIO_AC3_BITRATE; V4L2_CID_MPEG_AUDIO_MODE; V4L2_CID_MPEG_AUDIO_MODE_EXTENSION;
  V4L2_CID_MPEG_AUDIO_EMPHASIS; V4L2_CID_MPEG_AUDIO_CRC; V4L2_CID_MPEG_VIDEO_ENCODING;
  V4L2_CID_MPEG_VIDEO_ASPECT; V4L2_CID_MPEG_VIDEO_BITRATE_MODE; V4L2_CID_MPEG_STREAM_TYPE;
  V4L2_CID_MPEG_STREAM_VBI_FMT; V4L2_CID_EXPOSURE_AUTO; V4L2_CID_COLORFX; V4L2_CID_TUNE_PREEMPHASIS;
  V4L2_CID_FLASH_LED_MODE; V4L2_CID_FLASH_STROBE_SOURCE; V4L2_CID_MPEG_VIDEO_HEADER_MODE;
  V4L2_CID_MPEG_VIDEO_MULTI_SLICE_MODE; V4L2_CID_MPEG_VIDEO_H264_ENTROPY_MODE; V4L2_CID_MPEG_VIDEO_H264_LEVEL;
  V4L2_CID_MPEG_VIDEO_H264_LOOP_FILTER_MODE; V4L2_CID_MPEG_VIDEO_H264_PROFILE;
  V4L2_CID_MPEG_VIDEO_H264_VUI_SAR_IDC; V4L2_CID_MPEG_VIDEO_MPEG4_LEVEL; V4L2_CID_MPEG_VIDEO_MPEG4_PROFILE].
Definition string_ids : list Z := [
  V4L2_CID_RDS_TX_PS_NAME; V4L2_CID_RDS_TX_RADIO_TEXT].
Definition class_ids : list Z := [
  V4L2_CID_USER_CLASS; V4L2_CID_CAMERA_CLASS; V4L2_CID_MPEG_CLASS; V4L2_CID_FM_TX_CLASS; V4L2_CID_FLASH_CLASS].
Definition colour_ids : list Z := [
  V4L2_CID_BG_COLOR].
Definition bitmask_ids : list Z := [
  V4L2_CID_FLASH_FAULT].
Definition read_only_ids : list Z := [
  V4L2_CID_MIN_BUFFERS_FOR_CAPTURE; V4L2_CID_MIN_BUFFERS_FOR_OUTPUT].
Definition update_ids : list Z := [
  V4L2_CID_MPEG_AUDIO_ENCODING; V4L2_CID_MPEG_AUDIO_MODE; V4L2_CID_MPEG_VIDEO_BITRATE_MODE;
  V4L2_CID_MPEG_VIDEO_B_FRAMES; V4L2_CID_MPEG_STREAM_TYPE].
Definition slider_ids : list Z := [
  V4L2_CID_AUDIO_VOLUME; V4L2_CID_AUDIO_BALANCE; V4L2_CID_AUDIO_BASS; V4L2_CID_AUDIO_TREBLE;
  V4L2_CID_BRIGHTNESS; V4L2_CID_CONTRAST; V4L2_CID_SATURATION; V4L2_CID_HUE; V4L2_CID_RED_BALANCE;
  V4L2_CID_BLUE_BALANCE; V4L2_CID_GAMMA; V4L2_CID_SHARPNESS; V4L2_CID_CHROMA_GAIN; V4L2_CID_RDS_TX_DEVIATION;
  V4L2_CID_AUDIO_LIMITER_RELEASE_TIME; V4L2_CID_AUDIO_LIMITER_DEVIATION; V4L2_CID_AUDIO_COMPRESSION_GAIN;
  V4L2_CID_AUDIO_COMPRESSION_THRESHOLD; V4L2_CID_AUDIO_COMPRESSION_ATTACK_TIME;
  V4L2_CID_AUDIO_COMPRESSION_RELEASE_TIME; V4L2_CID_PILOT_TONE_DEVIATION; V4L2_CID_PILOT_TONE_FREQUENCY;
  V4L2_CID_TUNE_POWER_LEVEL; V4L2_CID_TUNE_ANTENNA_CAPACITOR].
Definition relative_ids : list Z := [
  V4L2_CID_PAN_RELATIVE; V4L2_CID_TILT_RELATIVE; V4L2_CID_FOCUS_RELATIVE; V4L2_CID_IRIS_RELATIVE;
  V4L2_CID_ZOOM_RELATIVE].
Definition status_ids : list Z := [
  V4L2_CID_FLASH_STROBE_STATUS; V4L2_CID_FLASH_READY].

(** The values behind the pointers that [v4l2_ctrl_fill] is given. *)
Record ctrl_fill := mk_fill {
  cf_name : option string;
  cf_type : Z;
  cf_min : Z;   (* s32 *)
  cf_max : Z;   (* s32 *)
  cf_step : Z;   (* s32 *)
  cf_def : Z;   (* s32 *)
  cf_flags : Z;   (* u32 *)
}.

Definition one_of (ids : list Z) (id : Z) : bool := existsb (Z.eqb id) ids.

Definition fill_flags (id flags : Z) : Z :=
  if one_of update_ids id then Z.lor flags V4L2_CTRL_FLAG_UPDATE
  else if one_of slider_ids id then Z.lor flags V4L2_CTRL_FLAG_SLIDER
  else if one_of relative_ids id then Z.lor flags V4L2_CTRL_FLAG_WRITE_ONLY
  else if one_of status_ids id then Z.lor flags V4L2_CTRL_FLAG_READ_ONLY
  else flags.

Definition v4l2_ctrl_fill (id min max step def : Z) : ctrl_fill :=
  let name := v4l2_ctrl_get_name id in
  let fill := fun type min max step def flags => mk_fill name type min max step def (fill_flags id flags) in
  if one_of boolean_ids id then fill V4L2_CTRL_TYPE_BOOLEAN 0 1 1 def 0
  else if one_of button_ids id then fill V4L2_CTRL_TYPE_BUTTON 0 0 0 0 V4L2_CTRL_FLAG_WRITE_ONLY
  else if one_of menu_ids id then fill V4L2_CTRL_TYPE_MENU min max step def 0
  else if one_of string_ids id then fill V4L2_CTRL_TYPE_STRING min max step def 0
  else if one_of class_ids id then
    fill V4L2_CTRL_TYPE_CTRL_CLASS 0 0 0 0 (Z.lor V4L2_CTRL_FLAG_READ_ONLY V4L2_CTRL_FLAG_WRITE_ONLY)
  else if one_of colour_ids id then fill V4L2_CTRL_TYPE_INTEGER 0 0xFFFFFF 1 def 0
  else if one_of bitmask_ids id then fill V4L2_CTRL_TYPE_BITMASK min max step def 0
  else if one_of read_only_ids id then fill V4L2_CTRL_TYPE_INTEGER min max step def V4L2_CTRL_FLAG_READ_ONLY
  else fill V4L2_CTRL_TYPE_INTEGER min max step def 0.
