(* ===== verification/V4l2Event.v ===== *)
(** drivers/media/video/v4l2-event.c and v4l2-fh.c: events on file handles.

    One definition per function.  The [list_head] of an event is an entry of its
    handle's [available]: taking out an entry that is not there, or reading one
    whose subscription was freed, is a fault.  fh_lock, under which each of
    these runs, leaves no trace. *)

From stdpp Require Import gmap.
From S2P Require Import Prelude StateM V4l2Types.

(** ** Accesses *)

Definition fh_get (f : nat) : v4l2M v4l2_fh := m <- gets vs_fh ;; the (m !! f).
Definition fh_upd (f : nat) (g : v4l2_fh -> v4l2_fh) : v4l2M unit :=
  x <- fh_get f ;; m <- gets vs_fh ;; modify (set_vs_fh (<[f := g x]> m)).
Definition se_get (p : nat) : v4l2M subscribed_event := m <- gets vs_sev ;; the (m !! p).
Definition se_upd (p : nat) (g : subscribed_event -> subscribed_event) : v4l2M unit :=
  x <- se_get p ;; m <- gets vs_sev ;; modify (set_vs_sev (<[p := g x]> m)).

(** [sev->events[i].event] *)
Definition kev_get (p : nat) (i : Z) : v4l2M v4l2_event := x <- se_get p ;; the ((se_events x).[i]).
Definition kev_upd (p : nat) (i : Z) (g : v4l2_event -> v4l2_event) : v4l2M unit :=
  ev <- kev_get p i ;; se_upd p (fun x => set_se_events (<[Z.to_nat i := g ev]> (se_events x)) x).

(** [list_del(&kev->list)] *)
Definition kev_unlink (f : nat) (k : nat * Z) : v4l2M unit :=
  x <- fh_get f ;;
  if decide (k ∈ fh_available x) then
    fh_upd f (set_fh_available (filter (fun k' => k' <> k) (fh_available x)))
  else fault.

Definition sev_pos (x : subscribed_event) (idx : Z) : Z :=
  let idx := u32 (idx + se_first x) in
  if idx >=? se_elems x then u32 (idx - se_elems x) else idx.

Section events.
Context {E : V4l2Env}.

(** ** Dequeueing *)

Definition __v4l2_event_dequeue (f : nat) : v4l2M (Z * option v4l2_event) :=
  x <- fh_get f ;;
  match fh_available x with
  | [] => mdo (- ENOENT, None)
  | (p, i) :: rest =>
    fh_upd f (fun x => set_fh_navailable (u32 (fh_navailable x - 1)) (set_fh_available rest x)) ;;
    x <- fh_get f ;;
    kev_upd p i (set_ev_pending (fh_navailable x)) ;;
    event <- kev_get p i ;;
    s <- se_get p ;; se_upd p (set_se_first (sev_pos s 1)) ;;
    se_upd p (fun s => set_se_in_use (u32 (se_in_use s - 1)) s) ;;
    mdo (0, Some event)
  end.

(** A wait is a state to come back from with [v4l2_event_wait]; [signal] says
    whether a signal is pending then. *)
Inductive dequeue_result := DqDone (ret : Z) (event : option v4l2_event) | DqSleeps.

Definition v4l2_event_wait (f : nat) (signal : bool) : v4l2M dequeue_result :=
  x <- fh_get f ;;
  if negb (fh_navailable x =? 0) then
    r <- __v4l2_event_dequeue f ;;
    mdo (if fst r =? - ENOENT then DqSleeps else DqDone (fst r) (snd r))
  else if signal then mdo (DqDone (- ERESTARTSYS) None)
  else mdo DqSleeps.

Definition v4l2_event_dequeue (f : nat) (nonblocking signal : bool) : v4l2M dequeue_result :=
  if nonblocking then r <- __v4l2_event_dequeue f ;; mdo (DqDone (fst r) (snd r))
  else v4l2_event_wait f signal.

(** ** Queueing *)

Fixpoint subscribed_loop (l : list nat) (type id : Z) : v4l2M (option nat) :=
  match l with
  | [] => mdo None
  | p :: l =>
    x <- se_get p ;;
    if (se_type x =? type) && (se_id x =? id) then mdo (Some p) else subscribed_loop l type id
  end.

Definition v4l2_event_subscribed (f : nat) (type id : Z) : v4l2M (option nat) :=
  x <- fh_get f ;; subscribed_loop (fh_subscribed x) type id.

Definition ctrls_replace (old new : v4l2_event) : v4l2_event :=
  set_ev_ctrl (set_ec_changes (Z.lor (ec_changes (ev_ctrl new)) (ec_changes (ev_ctrl old))) (ev_ctrl new)) old.

Definition ctrls_merge (old new : v4l2_event) : v4l2_event :=
  set_ev_ctrl (set_ec_changes (Z.lor (ec_changes (ev_ctrl new)) (ec_changes (ev_ctrl old))) (ev_ctrl new)) new.

(** The oldest event of a full subscription makes room; the result is
    [copy_payload]. *)
Definition drop_oldest (f p : nat) (ev : v4l2_event) : v4l2M bool :=
  s <- se_get p ;;
  let kev := sev_pos s 0 in
  kev_unlink f (p, kev) ;;
  se_upd p (fun s => set_se_in_use (u32 (se_in_use s - 1)) s) ;;
  se_upd p (fun s => set_se_first (sev_pos s 1) s) ;;
  fh_upd f (fun x => set_fh_navailable (u32 (fh_navailable x - 1)) x) ;;
  s <- se_get p ;;
  if se_elems s =? 1 then
    if se_replace s then kev_upd p kev (fun old => ctrls_replace old ev) ;; mdo false
    else mdo true
  else if se_merge s then
    old <- kev_get p kev ;; kev_upd p (sev_pos s 0) (ctrls_merge old) ;; mdo true
  else mdo true.

Definition fill_kevent (ev : v4l2_event) (copy_payload : bool) (ts sequence : Z) (k : v4l2_event) :
    v4l2_event :=
  let k := set_ev_type (ev_type ev) k in
  let k := if copy_payload then set_ev_data (ev_data ev) (set_ev_ctrl (ev_ctrl ev) k) else k in
  set_ev_sequence sequence (set_ev_timestamp ts (set_ev_id (ev_id ev) k)).

Definition __v4l2_event_queue_fh (f : nat) (ev : v4l2_event) (ts : Z) : v4l2M unit :=
  sev <- v4l2_event_subscribed f (ev_type ev) (ev_id ev) ;;
  match sev with
  | None => mdo tt
  | Some p =>
    fh_upd f (fun x => set_fh_sequence (u32 (fh_sequence x + 1)) x) ;;
    s <- se_get p ;;
    copy_payload <- (if se_in_use s =? se_elems s then drop_oldest f p ev else mdo true) ;;
    s <- se_get p ;; x <- fh_get f ;;
    let kev := sev_pos s (se_in_use s) in
    kev_upd p kev (fill_kevent ev copy_payload ts (fh_sequence x)) ;;
    se_upd p (fun s => set_se_in_use (u32 (se_in_use s + 1)) s) ;;
    fh_upd f (fun x => set_fh_navailable (u32 (fh_navailable x + 1))
      (set_fh_available (fh_available x ++ [(p, kev)]) x))
  end.

Definition v4l2_event_queue (ev : v4l2_event) : v4l2M unit :=
  n <- vs_ask ;; l <- gets vs_fh_list ;;
  mfor l (fun f => __v4l2_event_queue_fh f ev (ktime_get_ts n)).

Definition v4l2_event_queue_fh (f : nat) (ev : v4l2_event) : v4l2M unit :=
  n <- vs_ask ;; __v4l2_event_queue_fh f ev (ktime_get_ts n).

Definition v4l2_event_pending (f : nat) : v4l2M Z := x <- fh_get f ;; mdo (s32 (fh_navailable x)).

(** ** Events of controls (v4l2-ctrls.c) *)

(** [ev] is what the stack held. *)
Definition fill_event (ev : v4l2_event) (c : v4l2_ctrl) (changes : Z) : v4l2_event :=
  let u := {|
    ec_changes := changes; ec_type := ct_type c; ec_flags := u32 (ct_flags c);
    ec_value64 := if ct_type c =? V4L2_CTRL_TYPE_STRING then 0 else va_val64 (ct_cur c);
    ec_minimum := ct_minimum c; ec_maximum := ct_maximum c;
    ec_step := if ct_type c =? V4L2_CTRL_TYPE_MENU then 1 else s32 (ct_step c);
    ec_default_value := ct_default_value c |} in
  set_ev_ctrl u (set_ev_id (ct_id c) (set_ev_type V4L2_EVENT_CTRL
    (set_ev_reserved (replicate 8 0) ev))).

(** [f] is the file handle that made the change; [None] is NULL. *)
Definition send_event (f : option nat) (ev : v4l2_event) (c : nat) (changes : Z) : v4l2M unit :=
  x <- ct_get c ;;
  match ct_ev_subs x with
  | [] => mdo tt
  | subs =>
    let ev := fill_event ev x changes in
    mfor subs (fun p =>
      s <- se_get p ;;
      match se_fh s with
      | Some g =>
        if negb (bool_decide (Some g = f)) ||
           truthy (Z.land (se_flags s) V4L2_EVENT_SUB_FL_ALLOW_FEEDBACK)
        then v4l2_event_queue_fh g ev else mdo tt
      | None => mdo tt
      end)
  end.

Definition v4l2_ctrl_add_event (ev : v4l2_event) (c p : nat) : v4l2M unit :=
  ct_upd c (fun x => set_ct_ev_subs (ct_ev_subs x ++ [p]) x) ;;
  x <- ct_get c ;; s <- se_get p ;;
  if negb (ct_type x =? V4L2_CTRL_TYPE_CTRL_CLASS) &&
     truthy (Z.land (se_flags s) V4L2_EVENT_SUB_FL_SEND_INITIAL)
  then
    let changes := if Z.land (ct_flags x) V4L2_CTRL_FLAG_WRITE_ONLY =? 0
      then Z.lor V4L2_EVENT_CTRL_CH_FLAGS V4L2_EVENT_CTRL_CH_VALUE else V4L2_EVENT_CTRL_CH_FLAGS in
    g <- the (se_fh s) ;; v4l2_event_queue_fh g (fill_event ev x changes)
  else mdo tt.

Definition v4l2_ctrl_del_event (c p : nat) : v4l2M unit :=
  x <- ct_get c ;;
  if decide (p ∈ ct_ev_subs x) then
    ct_upd c (fun x => set_ct_ev_subs (filter (fun q => q <> p) (ct_ev_subs x)) x)
  else fault.

(** ** Subscribing *)

Record event_subscription := mk_subscription {
  sub_type : Z;   (* u32 *)
  sub_id : Z;   (* u32 *)
  sub_flags : Z;   (* u32 *)
}.

Definition zero_event : v4l2_event :=
  mk_event 0 (mk_event_ctrl 0 0 0 0 0 0 0 0) (replicate 24 0) 0 0 0 0 (replicate 8 0).

Definition fresh_sev (m : gmap nat subscribed_event) : nat := fresh (dom m : gset nat).

Definition new_sev (f : nat) (sub : event_subscription) (ctrl : bool) (elems : Z) : subscribed_event :=
  mk_sev (sub_type sub) (sub_id sub) (sub_flags sub) (Some f) ctrl ctrl elems 0 0
    (replicate (Z.to_nat elems) zero_event).

(** [stack] is what the stack of [v4l2_ctrl_add_event] holds. *)
Definition v4l2_event_subscribe (stack : v4l2_event) (f : nat) (sub : event_subscription) (elems : Z) :
    v4l2M Z :=
  let elems := if elems <? 1 then 1 else elems in
  x <- fh_get f ;;
  ctrl <- (if sub_type sub =? V4L2_EVENT_CTRL then v4l2_ctrl_find (fh_ctrl_handler x) (sub_id sub)
           else mdo None) ;;
  if (sub_type sub =? V4L2_EVENT_CTRL) && bool_decide (ctrl = None) then mdo (- EINVAL)
  else
    n <- vs_ask ;;
    if v4l2_kzalloc_fails n then mdo (- ENOMEM)
    else
      found_ev <- v4l2_event_subscribed f (sub_type sub) (sub_id sub) ;;
      match found_ev with
      | Some _ => mdo 0
      | None =>
        m <- gets vs_sev ;;
        let sev := fresh_sev m in
        modify (set_vs_sev (<[sev := new_sev f sub (bool_decide (is_Some ctrl)) elems]> m)) ;;
        fh_upd f (fun x => set_fh_subscribed (sev :: fh_subscribed x) x) ;;
        match ctrl with Some c => v4l2_ctrl_add_event stack c sev | None => mdo tt end ;;
        mdo 0
      end.

(** The part of [v4l2_event_unsubscribe] for one type. *)
Definition event_unsubscribe (f : nat) (type id : Z) : v4l2M Z :=
  sev <- v4l2_event_subscribed f type id ;;
  match sev with
  | None => mdo 0
  | Some p =>
    x <- fh_get f ;;
    fh_upd f (set_fh_subscribed (filter (fun q => q <> p) (fh_subscribed x))) ;;
    se_upd p (set_se_fh None) ;;
    s <- se_get p ;;
    (if se_type s =? V4L2_EVENT_CTRL then
       c <- v4l2_ctrl_find (fh_ctrl_handler x) (se_id s) ;;
       match c with Some c => v4l2_ctrl_del_event c p | None => mdo tt end
     else mdo tt) ;;
    m <- gets vs_sev ;; modify (set_vs_sev (delete p m)) ;;
    mdo 0
  end.

(** One turn takes the first subscription; a subscription to V4L2_EVENT_ALL
    itself would make the code recur for ever. *)
Fixpoint v4l2_event_unsubscribe_all (fuel : nat) (f : nat) : v4l2M unit :=
  x <- fh_get f ;;
  match fh_subscribed x with
  | [] => mdo tt
  | p :: _ =>
    match fuel with
    | O => fault
    | S fuel =>
      s <- se_get p ;;
      if se_type s =? V4L2_EVENT_ALL then
        v4l2_event_unsubscribe_all fuel f ;; v4l2_event_unsubscribe_all fuel f
      else event_unsubscribe f (se_type s) (se_id s) ;; v4l2_event_unsubscribe_all fuel f
    end
  end.

Definition v4l2_event_unsubscribe (fuel : nat) (f : nat) (type id : Z) : v4l2M Z :=
  if type =? V4L2_EVENT_ALL then v4l2_event_unsubscribe_all fuel f ;; mdo 0
  else event_unsubscribe f type id.

(** ** File handles *)

(** [fh] is new memory. *)
Definition v4l2_fh_init (f : nat) (vdev_handler : option nat) : v4l2M unit :=
  fh_upd f (fun x => mk_fh true vdev_handler [] [] (fh_navailable x) (u32 (- 1))).

Definition v4l2_fh_add (f : nat) : v4l2M unit :=
  l <- gets vs_fh_list ;;
  if decide (f ∈ l) then fault else modify (set_vs_fh_list (f :: l)).

Definition v4l2_fh_del (f : nat) : v4l2M unit :=
  l <- gets vs_fh_list ;; modify (set_vs_fh_list (filter (fun g => g <> f) l)).

Definition v4l2_fh_exit (fuel : nat) (f : nat) : v4l2M unit :=
  x <- fh_get f ;;
  if negb (fh_vdev x) then mdo tt
  else v4l2_event_unsubscribe_all fuel f ;; fh_upd f (set_fh_vdev false).

Definition fresh_fh (m : gmap nat v4l2_fh) : nat := fresh (dom m : gset nat).

(** The result is the error code and what [filp->private_data] is. *)
Definition v4l2_fh_open (vdev_handler : option nat) : v4l2M (Z * option nat) :=
  n <- vs_ask ;;
  if v4l2_kzalloc_fails n then mdo (- ENOMEM, None)
  else
    m <- gets vs_fh ;; let f := fresh_fh m in
    modify (set_vs_fh (<[f := mk_fh false None [] [] 0 0]> m)) ;;
    v4l2_fh_init f vdev_handler ;; v4l2_fh_add f ;; mdo (0, Some f).

Definition v4l2_fh_release (fuel : nat) (f : option nat) : v4l2M Z :=
  match f with
  | None => mdo 0
  | Some f =>
    v4l2_fh_del f ;; v4l2_fh_exit fuel f ;;
    m <- gets vs_fh ;; modify (set_vs_fh (delete f m)) ;; mdo 0
  end.

Definition v4l2_fh_is_singular (f : option nat) : v4l2M bool :=
  match f with
  | None => mdo false
  | Some f =>
    x <- fh_get f ;;
    if negb (fh_vdev x) then mdo false
    else l <- gets vs_fh_list ;; mdo (bool_decide (f ∈ l) && (zlen l =? 1))
  end.
End events.
