(* ===== verification/V4l2EventSpec.v ===== *)
(** What events on a file handle are: a bounded queue per subscription, all in
    one order.  The rings and the linked list of v4l2-event.c refine it. *)

From stdpp Require Import gmap.
From S2P Require Import Prelude StateM V4l2Types V4l2Event.

(** ** The abstract file handle *)

Record subscription := mk_sub {
  su_type : Z;
  su_id : Z;
  su_elems : Z;
  su_replace : bool;
  su_merge : bool;
}.

(** The pending events are in the order in which they are delivered. *)
Record handle := mk_handle {
  q_subs : list subscription;
  q_pending : list v4l2_event;
  q_sequence : Z;
}.

Definition ev_key (ev : v4l2_event) : Z * Z := (ev_type ev, ev_id ev).
Definition su_key (u : subscription) : Z * Z := (su_type u, su_id u).

Definition has_key (k : Z * Z) (ev : v4l2_event) : bool := bool_decide (ev_key ev = k).
Definition pending_of (k : Z * Z) (l : list v4l2_event) : list v4l2_event := filter (has_key k) l.

(** The oldest event of a subscription, and the list without it. *)
Fixpoint take_first (k : Z * Z) (l : list v4l2_event) : option (v4l2_event * list v4l2_event) :=
  match l with
  | [] => None
  | e :: l => if has_key k e then Some (e, l) else '(o, l') ← take_first k l; Some (o, e :: l')
  end.

(** Change the oldest event of a subscription. *)
Fixpoint change_first (k : Z * Z) (g : v4l2_event -> v4l2_event) (l : list v4l2_event) : list v4l2_event :=
  match l with
  | [] => []
  | e :: l => if has_key k e then g e :: l else e :: change_first k g l
  end.

Definition queue_event (ev : v4l2_event) (ts : Z) (h : handle) : handle :=
  match List.find (fun u => bool_decide (su_key u = ev_key ev)) (q_subs h) with
  | None => h
  | Some u =>
    let seq := u32 (q_sequence h + 1) in
    let new := fill_kevent ev true ts seq zero_event in
    let pending :=
      if zlen (pending_of (ev_key ev) (q_pending h)) <? su_elems u then q_pending h ++ [new]
      else
        match take_first (ev_key ev) (q_pending h) with
        | None => q_pending h ++ [new]
        | Some (old, rest) =>
          if su_elems u =? 1 then
            rest ++ [if su_replace u then fill_kevent ev false ts seq (ctrls_replace old ev) else new]
          else
            (if su_merge u then change_first (ev_key ev) (ctrls_merge old) rest else rest) ++ [new]
        end in
    mk_handle (q_subs h) pending seq
  end.

(** The event that is delivered says how many are left. *)
Definition dequeue_event (h : handle) : option (v4l2_event * handle) :=
  match q_pending h with
  | [] => None
  | e :: l => Some (set_ev_pending (zlen l) e, mk_handle (q_subs h) l (q_sequence h))
  end.

(** ** The relation *)

(** What a pending event is before it is delivered. *)
Definition vis (ev : v4l2_event) : v4l2_event := set_ev_pending 0 ev.

(** The ring of a subscription. *)
Record ring_ok (x : subscribed_event) : Prop := {
  rg_elems : 0 < se_elems x < 2 ^ 31;
  rg_len : zlen (se_events x) = se_elems x;
  rg_first : 0 <= se_first x < se_elems x;
  rg_in_use : 0 <= se_in_use x <= se_elems x;
  rg_reserved : forall ev, ev ∈ se_events x -> ev_reserved ev = replicate 8 0;
}.

Definition ring_slots (p : nat) (x : subscribed_event) : list (nat * Z) :=
  (fun i => (p, (se_first x + i) mod se_elems x)) <$> seqZ 0 (se_in_use x).

Definition matches_sub (f : nat) (x : subscribed_event) (u : subscription) : Prop :=
  se_type x = su_type u /\ se_id x = su_id u /\ se_elems x = su_elems u /\
  se_replace x = su_replace u /\ se_merge x = su_merge u /\ se_fh x = Some f.

(** An entry of [available] and the event it stands for. *)
Definition entry_ok (sevs : gmap nat subscribed_event) (subs : list nat) (k : nat * Z) (e : v4l2_event) : Prop :=
  exists se ev, k.1 ∈ subs /\ sevs !! k.1 = Some se /\ (se_events se).[k.2] = Some ev /\ vis ev = e /\
    ev_key ev = (se_type se, se_id se).

Definition sub_ok (sevs : gmap nat subscribed_event) (f : nat) (avail : list (nat * Z)) (p : nat)
    (u : subscription) : Prop :=
  exists se, sevs !! p = Some se /\ ring_ok se /\ matches_sub f se u /\
    filter (fun k => k.1 = p) avail = ring_slots p se.

(** The file handle [x], at [f], with the subscriptions [sevs]. *)
Record fh_refines (sevs : gmap nat subscribed_event) (f : nat) (x : v4l2_fh) (h : handle) : Prop := {
  fr_sequence : fh_sequence x = q_sequence h;
  fr_navailable : fh_navailable x = zlen (fh_available x);
  fr_nodup : NoDup (fh_subscribed x);
  fr_keys : NoDup (su_key <$> q_subs h);
  fr_subs : Forall2 (sub_ok sevs f (fh_available x)) (fh_subscribed x) (q_subs h);
  fr_pending : Forall2 (entry_ok sevs (fh_subscribed x)) (fh_available x) (q_pending h);
  fr_vdev : fh_vdev x = true;
  fr_owned : forall p se, sevs !! p = Some se -> se_fh se = Some f -> p ∈ fh_subscribed x;
}.

(** ** Lists *)

Lemma Forall2_impl_elem {A B} (R R' : A -> B -> Prop) l k :
  Forall2 R l k -> (forall x y, x ∈ l -> R x y -> R' x y) -> Forall2 R' l k.
Proof.
  induction 1 as [|x y l k Hxy _ IH]; intros Himp; constructor.
  - apply Himp; [apply list_elem_of_here|done].
  - apply IH. intros x' y' Hin. apply Himp. by apply list_elem_of_further.
Qed.

Lemma filter_ne_id {A} `{EqDecision A} (k : A) (l : list A) : k ∉ l -> filter (fun k' => k' <> k) l = l.
Proof.
  induction l as [|x l IH]; intros Hn; [done|]. apply not_elem_of_cons in Hn as [H1 H2].
  rewrite filter_cons_True by done. by rewrite IH.
Qed.

Lemma filter_ne_once {A} `{EqDecision A} (k : A) (l : list A) :
  NoDup l -> k ∈ l -> zlen (filter (fun k' => k' <> k) l) = zlen l - 1.
Proof.
  induction l as [|x l IH]; [by intros _ ?%elem_of_nil|]. intros [Hn Hnd]%NoDup_cons [->|Hin]%elem_of_cons.
  - rewrite filter_cons_False by (intros H; by apply H). rewrite filter_ne_id by done. rewrite zlen_cons. lia.
  - rewrite filter_cons_True by (intros ->; done). rewrite !zlen_cons, IH by done. lia.
Qed.

Lemma filter_app_tail {A} (P : A -> Prop) `{!forall x, Decision (P x)} (l : list A) k :
  filter P (l ++ [k]) = filter P l ++ (if decide (P k) then [k] else []).
Proof.
  by rewrite filter_app.
Qed.

(** Taking out the oldest entry of a subscription. *)
Lemma take_first_entry (R : nat * Z -> v4l2_event -> Prop) p key i t A P :
  Forall2 R A P -> (forall k e, R k e -> (k.1 = p <-> has_key key e = true)) -> NoDup A ->
  filter (fun k => k.1 = p) A = (p, i) :: t ->
  exists e rest, take_first key P = Some (e, rest) /\ R (p, i) e /\
    Forall2 R (filter (fun k => k <> (p, i)) A) rest /\
    filter (fun k => k.1 = p) (filter (fun k => k <> (p, i)) A) = t.
Proof.
  intros HF Hkey. induction HF as [|k e A P Hk HF IH]; intros Hnd Hf; [done|].
  apply NoDup_cons in Hnd as [Hnin Hnd]. cbn [take_first].
  destruct (decide (k.1 = p)) as [Hp|Hp].
  - rewrite (proj1 (Hkey k e Hk) Hp). rewrite filter_cons_True in Hf by done. injection Hf as -> Ht.
    exists e, P. split; [done|]. split; [done|]. rewrite filter_cons_False by (intros H; by apply H).
    rewrite filter_ne_id by done. done.
  - assert (has_key key e = false) as -> by (apply not_true_is_false; intros H; by apply Hp, (Hkey k e Hk)).
    rewrite filter_cons_False in Hf by done. destruct (IH Hnd Hf) as (e0 & rest & -> & H1 & H2 & H3).
    exists e0, (e :: rest). split; [done|]. split; [done|].
    rewrite filter_cons_True by (intros ->; by apply Hp). split; [by constructor|].
    by rewrite filter_cons_False.
Qed.

(** Changing the oldest entry of a subscription. *)
Lemma change_first_entry (R R' : nat * Z -> v4l2_event -> Prop) p key g i t A P :
  Forall2 R A P -> (forall k e, R k e -> (k.1 = p <-> has_key key e = true)) -> NoDup A ->
  filter (fun k => k.1 = p) A = (p, i) :: t ->
  (forall e, R (p, i) e -> R' (p, i) (g e)) -> (forall k e, k <> (p, i) -> R k e -> R' k e) ->
  Forall2 R' A (change_first key g P).
Proof.
  intros HF Hkey Hnd Hf Hg Hother. revert Hnd Hf.
  induction HF as [|k e A P Hk HF IH]; intros Hnd Hf; [done|].
  apply NoDup_cons in Hnd as [Hnin Hnd]. cbn [change_first].
  destruct (decide (k.1 = p)) as [Hp|Hp].
  - rewrite (proj1 (Hkey k e Hk) Hp). rewrite filter_cons_True in Hf by done. injection Hf as -> Ht.
    constructor; [by apply Hg|]. eapply Forall2_impl_elem; [exact HF|]. intros k' e' Hin. apply Hother.
    intros ->. done.
  - assert (has_key key e = false) as -> by (apply not_true_is_false; intros H; by apply Hp, (Hkey k e Hk)).
    rewrite filter_cons_False in Hf by done. constructor; [|by apply IH].
    apply Hother; [|done]. intros ->. done.
Qed.

Lemma count_entry (R : nat * Z -> v4l2_event -> Prop) p key A P :
  Forall2 R A P -> (forall k e, R k e -> (k.1 = p <-> has_key key e = true)) ->
  zlen (pending_of key P) = zlen (filter (fun k => k.1 = p) A).
Proof.
  intros HF Hkey. induction HF as [|k e A P Hk HF IH]; [done|]. unfold pending_of in *.
  destruct (decide (k.1 = p)) as [Hp|Hp].
  - rewrite (filter_cons_True (fun k => k.1 = p)) by done.
    rewrite filter_cons_True by by rewrite (proj1 (Hkey k e Hk) Hp). rewrite !zlen_cons. lia.
  - rewrite (filter_cons_False (fun k => k.1 = p)) by done.
    rewrite filter_cons_False; [done|]. intros H%Is_true_true. by apply Hp, (Hkey k e Hk).
Qed.

(** ** The ring *)

Lemma sev_pos_mod x idx :
  ring_ok x -> 0 <= idx <= se_elems x -> sev_pos x idx = (se_first x + idx) mod se_elems x.
Proof.
  intros [H1 H2 H3 H4 _] Hi. unfold sev_pos. rewrite (wrap_small 32 (idx + se_first x)) by lia.
  destruct (Z.geb_spec (idx + se_first x) (se_elems x)) as [Hge|Hlt].
  - rewrite wrap_small by lia. replace (se_first x + idx) with (idx + se_first x - se_elems x + 1 * se_elems x) by lia.
    rewrite Z.mod_add by lia. rewrite Z.mod_small by lia. done.
  - rewrite Z.mod_small by lia. lia.
Qed.

Lemma ring_slots_nodup p x : ring_ok x -> NoDup (ring_slots p x).
Proof.
  intros [H1 H2 H3 H4 _]. unfold ring_slots. apply NoDup_fmap_2_strong; [|apply NoDup_seqZ].
  intros i j Hi%elem_of_seqZ Hj%elem_of_seqZ [= Hm].
  assert (Hd : forall a b, 0 <= a -> a <= b < se_elems x ->
    (se_first x + a) mod se_elems x = (se_first x + b) mod se_elems x -> a = b).
  { intros a b Ha Hb Heq. assert (Hz : (b - a) mod se_elems x = 0).
    { replace (b - a) with ((se_first x + b) - (se_first x + a)) by lia.
      rewrite Zminus_mod, Heq, Z.sub_diag. by apply Z.mod_0_l; lia. }
    rewrite Z.mod_small in Hz by lia. lia. }
  destruct (Z.le_ge_cases i j); [apply Hd; [lia|lia|done]|]. symmetry. apply Hd; [lia|lia|done].
Qed.

(** ** The steps of v4l2-event.c on one file handle refine the abstract queues. *)

(** ** Keys *)

Lemma vis_key ev : ev_key (vis ev) = ev_key ev.
Proof. done. Qed.

Lemma sub_at sevs f A l subs p :
  Forall2 (sub_ok sevs f A) l subs -> p ∈ l -> exists u, u ∈ subs /\ sub_ok sevs f A p u.
Proof.
  induction 1 as [|q u l subs Hq _ IH]; [by intros ?%elem_of_nil|].
  intros [->|Hin]%elem_of_cons; [exists u; split; [apply list_elem_of_here|done]|].
  destruct (IH Hin) as (u' & Hu & Hok). exists u'. split; [by apply list_elem_of_further|done].
Qed.

Lemma sub_ok_key sevs f A p u se :
  sub_ok sevs f A p u -> sevs !! p = Some se -> su_key u = (se_type se, se_id se).
Proof.
  intros (se' & Hl & _ & (H1 & H2 & _) & _) Hse. rewrite Hl in Hse. injection Hse as ->.
  unfold su_key. by rewrite H1, H2.
Qed.

Lemma subs_same_key sevs f A l subs p q se se' :
  Forall2 (sub_ok sevs f A) l subs -> NoDup (su_key <$> subs) -> p ∈ l -> q ∈ l ->
  sevs !! p = Some se -> sevs !! q = Some se' -> (se_type se, se_id se) = (se_type se', se_id se') ->
  p = q.
Proof.
  intros HF Hnd Hp Hq Hse Hse' Heq. revert Hnd Hp Hq.
  induction HF as [|a u l subs Ha HF IH]; [by intros _ ?%elem_of_nil|].
  rewrite fmap_cons. intros [Hnin Hnd]%NoDup_cons Hp Hq.
  assert (Hout : forall r se0, r ∈ l -> sevs !! r = Some se0 -> su_key u <> (se_type se0, se_id se0)).
  { intros r se0 Hr H0 Hk. destruct (sub_at _ _ _ _ _ _ HF Hr) as (u' & Hu' & Hok').
    apply Hnin. rewrite Hk, <-(sub_ok_key _ _ _ _ _ _ Hok' H0). by apply list_elem_of_fmap_2. }
  apply elem_of_cons in Hp as [->|Hp], Hq as [->|Hq]; [done| | |by apply IH].
  - destruct (Hout q se' Hq Hse'). by rewrite (sub_ok_key _ _ _ _ _ _ Ha Hse).
  - destruct (Hout p se Hp Hse). by rewrite (sub_ok_key _ _ _ _ _ _ Ha Hse').
Qed.

(** The entries of a subscription are the events with its key. *)
Lemma entry_key sevs f x h p se :
  fh_refines sevs f x h -> p ∈ fh_subscribed x -> sevs !! p = Some se ->
  forall k e, entry_ok sevs (fh_subscribed x) k e ->
    (k.1 = p <-> has_key (se_type se, se_id se) e = true).
Proof.
  intros [_ _ _ Hk Hs _ _ _] Hp Hse k e (se' & ev & Hin & Hl & _ & <- & Hkey).
  unfold has_key. rewrite bool_decide_eq_true, vis_key, Hkey. split.
  - intros <-. rewrite Hl in Hse. by injection Hse as ->.
  - intros Heq. by eapply subs_same_key.
Qed.

(** An entry has only one place in [available]. *)
Lemma avail_nodup sevs f x h : fh_refines sevs f x h -> NoDup (fh_available x).
Proof.
  intros [_ _ _ _ Hs Hp _ _].
  assert (Hall : forall k, k ∈ fh_available x -> k.1 ∈ fh_subscribed x).
  { intros k Hin. apply list_elem_of_lookup in Hin as [i Hi].
    destruct (Forall2_lookup_l _ _ _ _ _ Hp Hi) as (e & _ & se & ev & Hin & _). done. }
  assert (Hsub : forall p, p ∈ fh_subscribed x -> NoDup (filter (fun k => k.1 = p) (fh_available x))).
  { intros p Hin. destruct (sub_at _ _ _ _ _ _ Hs Hin) as (u & _ & se & _ & Hr & _ & ->).
    by apply ring_slots_nodup. }
  clear Hs Hp. induction (fh_available x) as [|k A IH]; constructor.
  - intros Hin. assert (Hk : k.1 ∈ fh_subscribed x) by (apply Hall, list_elem_of_here).
    specialize (Hsub k.1 Hk). rewrite filter_cons_True in Hsub by done.
    apply NoDup_cons in Hsub as [Hn _]. apply Hn. by apply list_elem_of_filter.
  - apply IH; [intros k' Hk'; apply Hall; by apply list_elem_of_further|].
    intros p Hin. specialize (Hsub p Hin). destruct (decide (k.1 = p)).
    + rewrite filter_cons_True in Hsub by done. by apply NoDup_cons in Hsub as [_ ?].
    + by rewrite filter_cons_False in Hsub.
Qed.

(** ** Changing one subscription *)

Definition same_sub (se se' : subscribed_event) : Prop :=
  se_type se' = se_type se /\ se_id se' = se_id se /\ se_elems se' = se_elems se /\
  se_replace se' = se_replace se /\ se_merge se' = se_merge se /\ se_fh se' = se_fh se.

Lemma fh_update sevs f x h p se se' A P nav sq :
  fh_refines sevs f x h -> p ∈ fh_subscribed x -> sevs !! p = Some se -> same_sub se se' -> ring_ok se' ->
  filter (fun k => k.1 = p) A = ring_slots p se' ->
  (forall q, q <> p -> filter (fun k => k.1 = q) A = filter (fun k => k.1 = q) (fh_available x)) ->
  Forall2 (entry_ok (<[p := se']> sevs) (fh_subscribed x)) A P -> nav = zlen A ->
  fh_refines (<[p := se']> sevs) f (mk_fh (fh_vdev x) (fh_ctrl_handler x) (fh_subscribed x) A nav sq)
    (mk_handle (q_subs h) P sq).
Proof.
  intros [H1 H2 H3 H4 H5 H6 Hvd H7] Hp Hse (E1 & E2 & E3 & E4 & E5 & E6) Hr Hmine Hrest HP ->.
  constructor; cbn; [done|done|done|done| |done|done|].
  2: { intros q s0 [[<- <-]|[_ Hq]]%lookup_insert_Some; [done|by apply H7]. }
  eapply Forall2_impl; [exact H5|]. intros q u (s0 & Hl & Hr0 & Hm & Hf).
  destruct (decide (q = p)) as [->|Hq].
  - rewrite Hl in Hse. injection Hse as ->. exists se'. rewrite lookup_insert_eq. split; [done|].
    split; [done|]. split; [|done]. destruct Hm as (M1 & M2 & M3 & M4 & M5 & M6).
    unfold matches_sub. by rewrite E1, E2, E3, E4, E5, E6.
  - exists s0. rewrite lookup_insert_ne by done. split; [done|]. split; [done|]. split; [done|].
    by rewrite Hrest.
Qed.

Lemma mget_insert_eq {A} (l : list A) i x : 0 <= i < zlen l -> (<[Z.to_nat i := x]> l).[i] = Some x.
Proof.
  intros Hi. unfold mget. rewrite bool_decide_true by lia.
  apply list_lookup_insert_eq. unfold zlen in Hi. lia.
Qed.

Lemma mget_insert_ne {A} (l : list A) i j x : i <> j -> 0 <= i -> (<[Z.to_nat i := x]> l).[j] = l.[j].
Proof.
  intros Hij Hi. unfold mget. case_bool_decide; [|done].
  apply list_lookup_insert_ne. lia.
Qed.

(** ** The ring, a step at a time *)

Lemma ring_slots_pop p se :
  ring_ok se -> 0 < se_in_use se ->
  ring_slots p se = (p, se_first se) ::
    ring_slots p (set_se_in_use (se_in_use se - 1) (set_se_first (sev_pos se 1) se)).
Proof.
  intros Hr Hu. pose proof Hr as [H1 H2 H3 H4 _]. unfold ring_slots. cbn.
  rewrite (seqZ_cons 0 (se_in_use se)) by lia. rewrite fmap_cons, Z.add_0_r, Z.mod_small by lia. f_equal.
  replace (Z.pred (se_in_use se)) with (se_in_use se - 1) by lia.
  change (Z.succ 0) with (1 + 0). rewrite <-fmap_add_seqZ, <-list_fmap_compose.
  apply list_fmap_ext. intros _ i _. cbn. f_equal. rewrite sev_pos_mod by (done || lia).
  rewrite Zplus_mod_idemp_l. f_equal. lia.
Qed.

Lemma ring_slots_push p se :
  ring_ok se ->
  ring_slots p (set_se_in_use (se_in_use se + 1) se) = ring_slots p se ++ [(p, sev_pos se (se_in_use se))].
Proof.
  intros Hr. pose proof Hr as [H1 H2 H3 H4 _]. unfold ring_slots. cbn.
  rewrite seqZ_app by lia. rewrite fmap_app. f_equal.
  rewrite sev_pos_mod by (done || lia). done.
Qed.

(** A slot of the ring is a slot of the array. *)
Lemma sev_pos_bounds se idx : ring_ok se -> 0 <= idx <= se_elems se -> 0 <= sev_pos se idx < zlen (se_events se).
Proof.
  intros Hr Hi. rewrite sev_pos_mod by done. destruct Hr as [H1 -> H3 H4 _].
  apply Z.mod_pos_bound. lia.
Qed.

Lemma ring_slot_bounds se p i : ring_ok se -> (p, i) ∈ ring_slots p se -> 0 <= i < zlen (se_events se).
Proof.
  intros [H1 -> H3 H4 _] (j & [= ->] & _)%list_elem_of_fmap. apply Z.mod_pos_bound. lia.
Qed.

Lemma ring_ok_pop se :
  ring_ok se -> 0 < se_in_use se ->
  ring_ok (set_se_in_use (se_in_use se - 1) (set_se_first (sev_pos se 1) se)).
Proof.
  intros Hr Hu. pose proof Hr as [H1 H2 H3 H4 H5]. constructor; cbn; [done|done| |lia|done].
  rewrite <-H2. apply sev_pos_bounds; [done|lia].
Qed.

Lemma ring_ok_write se i ev :
  ring_ok se -> ev_reserved ev = replicate 8 0 ->
  ring_ok (set_se_events (<[Z.to_nat i := ev]> (se_events se)) se).
Proof.
  intros [H1 H2 H3 H4 H5] He. constructor; cbn; [done|by rewrite zlen_insert|done|done|].
  intros e [j Hj]%list_elem_of_lookup. apply list_lookup_insert_Some in Hj as [(_ & <- & _)|(_ & Hj)]; [done|].
  apply H5. by apply list_elem_of_lookup_2 in Hj.
Qed.

(** Entries whose slot is not written stay what they are. *)
Lemma entry_frame sevs subs p se se' k e :
  sevs !! p = Some se -> same_sub se se' ->
  (k.1 = p -> (se_events se').[k.2] = (se_events se).[k.2]) ->
  entry_ok sevs subs k e -> entry_ok (<[p := se']> sevs) subs k e.
Proof.
  intros Hse (E1 & E2 & _) Hev (s0 & ev & Hin & Hl & Hg & Hv & Hk).
  destruct (decide (k.1 = p)) as [Hp|Hp].
  - rewrite Hp in Hl. rewrite Hl in Hse. injection Hse as ->. exists se', ev. split; [done|].
    rewrite Hp, lookup_insert_eq. split; [done|]. rewrite (Hev Hp), E1, E2. done.
  - exists s0, ev. rewrite lookup_insert_ne by done. done.
Qed.

(** ** The queue, a step at a time *)

Definition popped (se : subscribed_event) : subscribed_event :=
  set_se_in_use (se_in_use se - 1) (set_se_first (sev_pos se 1) se).

Lemma fh_pop sevs f x h p se :
  fh_refines sevs f x h -> p ∈ fh_subscribed x -> sevs !! p = Some se -> 0 < se_in_use se ->
  (p, se_first se) ∈ fh_available x /\
  exists old rest ev, take_first (se_type se, se_id se) (q_pending h) = Some (old, rest) /\
    (se_events se).[se_first se] = Some ev /\ vis ev = old /\ ev_key ev = (se_type se, se_id se) /\
    fh_refines (<[p := popped se]> sevs) f
      (set_fh_navailable (fh_navailable x - 1)
        (set_fh_available (filter (fun k => k <> (p, se_first se)) (fh_available x)) x))
      (mk_handle (q_subs h) rest (q_sequence h)).
Proof.
  intros Hf Hp Hse Hu. pose proof (avail_nodup _ _ _ _ Hf) as Hnd. pose proof (entry_key _ _ _ _ _ _ Hf Hp Hse) as Hkey.
  pose proof Hf as [H1 H2 H3 H4 H5 H6 Hvd H7]. destruct (sub_at _ _ _ _ _ _ H5 Hp) as (u & _ & se0 & Hse0 & Hr & _ & Hslots).
  rewrite Hse in Hse0. injection Hse0 as <-. rewrite ring_slots_pop in Hslots by done.
  destruct (take_first_entry _ _ _ _ _ _ _ H6 Hkey Hnd Hslots) as (old & rest & Htake & Hent & Hrest & Htail).
  assert (Hin : (p, se_first se) ∈ fh_available x).
  { assert (Hi : (p, se_first se) ∈ filter (fun k => k.1 = p) (fh_available x)) by (rewrite Hslots; apply list_elem_of_here).
    by apply list_elem_of_filter in Hi as [_ ?]. }
  split; [done|]. destruct Hent as (s0 & ev & _ & Hs0 & Hev & Hv & Hk). cbn in Hs0, Hev.
  rewrite Hse in Hs0. injection Hs0 as <-. exists old, rest, ev. do 4 (split; [done|]).
  unfold set_fh_navailable, set_fh_available. cbn. rewrite <-H1. eapply fh_update; try done.
  - by apply ring_ok_pop.
  - intros q Hq. rewrite list_filter_filter. apply list_filter_iff. intros k. split; [by intros [? ?]|].
    intros Hkq. split; [done|]. intros ->. by apply Hq.
  - eapply Forall2_impl; [exact Hrest|]. intros k e. by apply (entry_frame _ _ _ se).
  - rewrite H2. rewrite (filter_ne_once _ _ Hnd Hin). lia.
Qed.

Lemma fh_push sevs f x h p se ev sq :
  fh_refines sevs f x h -> p ∈ fh_subscribed x -> sevs !! p = Some se -> se_in_use se < se_elems se ->
  ev_key ev = (se_type se, se_id se) -> ev_reserved ev = replicate 8 0 ->
  let i := sev_pos se (se_in_use se) in
  fh_refines (<[p := set_se_in_use (se_in_use se + 1) (set_se_events (<[Z.to_nat i := ev]> (se_events se)) se)]> sevs) f
    (mk_fh (fh_vdev x) (fh_ctrl_handler x) (fh_subscribed x) (fh_available x ++ [(p, i)]) (fh_navailable x + 1) sq)
    (mk_handle (q_subs h) (q_pending h ++ [vis ev]) sq).
Proof.
  intros Hf Hp Hse Hu Hk Hres i. pose proof Hf as [H1 H2 H3 H4 H5 H6 Hvd H7].
  destruct (sub_at _ _ _ _ _ _ H5 Hp) as (u & _ & se0 & Hse0 & Hr & _ & Hslots).
  rewrite Hse in Hse0. injection Hse0 as <-. pose proof Hr as [R1 R2 R3 R4 R5].
  assert (Hi : 0 <= i < zlen (se_events se)) by (apply sev_pos_bounds; [done|lia]).
  assert (Hfull : ring_ok (set_se_in_use (se_in_use se + 1) se)) by (split; [exact R1|exact R2|exact R3| |exact R5]; change (0 <= se_in_use se + 1 <= se_elems se); lia).
  assert (Hnew : (p, i) ∉ ring_slots p se).
  { pose proof (ring_slots_nodup p _ Hfull) as Hnd. rewrite ring_slots_push in Hnd by done.
    apply NoDup_app in Hnd as (_ & Hnd & _). intros Hin. apply (Hnd _ Hin), list_elem_of_here. }
  eapply fh_update; try done.
  - apply (ring_ok_write (set_se_in_use (se_in_use se + 1) se)); done.
  - rewrite filter_app_tail, Hslots, decide_True by done. symmetry. by apply (ring_slots_push p se).
  - intros q Hq. rewrite filter_app_tail, decide_False by (cbn; congruence). by rewrite app_nil_r.
  - apply Forall2_app.
    + eapply Forall2_impl_elem; [exact H6|]. intros k e Hin. apply (entry_frame _ _ _ se); [done|done|].
      intros Hkp. cbn. apply mget_insert_ne; [|lia]. intros ->. apply Hnew. rewrite <-Hslots.
      apply list_elem_of_filter. split; [done|]. by destruct k; cbn in *; subst.
    + constructor; [|constructor]. eexists _, ev. split; [done|]. cbn. rewrite lookup_insert_eq. split; [done|].
      cbn. rewrite mget_insert_eq by done. done.
  - rewrite H2, zlen_app. done.
Qed.

Lemma fh_poke sevs f x h p se ev ev' g :
  fh_refines sevs f x h -> p ∈ fh_subscribed x -> sevs !! p = Some se -> 0 < se_in_use se ->
  (se_events se).[se_first se] = Some ev -> vis ev' = g (vis ev) -> ev_key ev' = (se_type se, se_id se) ->
  ev_reserved ev' = replicate 8 0 ->
  fh_refines (<[p := set_se_events (<[Z.to_nat (se_first se) := ev']> (se_events se)) se]> sevs) f x
    (mk_handle (q_subs h) (change_first (se_type se, se_id se) g (q_pending h)) (q_sequence h)).
Proof.
  intros Hf Hp Hse Hu Hev Hv Hk Hres. pose proof (avail_nodup _ _ _ _ Hf) as Hnd. pose proof (entry_key _ _ _ _ _ _ Hf Hp Hse) as Hkey.
  pose proof Hf as [H1 H2 H3 H4 H5 H6 Hvd H7]. destruct (sub_at _ _ _ _ _ _ H5 Hp) as (u & _ & se0 & Hse0 & Hr & _ & Hslots).
  rewrite Hse in Hse0. injection Hse0 as <-. pose proof Hr as [R1 R2 R3 R4 R5].
  pose proof Hslots as Hpop. rewrite ring_slots_pop in Hpop by done. destruct x as [v c l A n q]. cbn in *. rewrite <-H1.
  eapply (fh_update _ _ (mk_fh v c l A n q)); try done; cbn.
  - by apply ring_ok_write.
  - eapply change_first_entry; [exact H6|exact Hkey|exact Hnd|exact Hpop| |].
    + intros e (s0 & e0 & _ & Hs0 & He0 & <- & _). cbn in Hs0, He0. rewrite Hse in Hs0. injection Hs0 as <-.
      rewrite Hev in He0. injection He0 as <-. eexists _, ev'. split; [done|]. cbn. rewrite lookup_insert_eq. split; [done|].
      cbn. rewrite mget_insert_eq by lia. done.
    + intros k e Hne. apply (entry_frame _ _ _ se); [done|done|]. intros Hkp. cbn. apply mget_insert_ne; [|lia].
      intros Heq. apply Hne. destruct k; cbn in *; by subst.
Qed.
