(* ===== verification/V4l2Steps.v ===== *)
(** The operations of v4l2-event.c on the state: each does what the abstract
    queue does, and leaves the other file handles alone. *)

From stdpp Require Import gmap.
From S2P Require Import Prelude StateM V4l2Types V4l2Event V4l2EventSpec.

(** ** A handle and a subscription at hand *)

Definition put (f p : nat) (x : v4l2_fh) (se : subscribed_event) (s : v4l2_state) : v4l2_state :=
  set_vs_fh (<[f := x]> (vs_fh s)) (set_vs_sev (<[p := se]> (vs_sev s)) s).

Lemma put_id s f p x se : vs_fh s !! f = Some x -> vs_sev s !! p = Some se -> put f p x se s = s.
Proof. intros H1 H2. unfold put. rewrite !insert_id by done. by destruct s. Qed.

Lemma wp_eq {S A B} (m : stateM S A) (k : A -> stateM S B) s a s' Q :
  m s = Some (a, s') -> wp (k a) s' Q -> wp (mthen m k) s Q.
Proof. intros Hm Hk. apply wp_mthen. unfold wp at 1. by rewrite Hm. Qed.

Section put.
Context (f p : nat) (x : v4l2_fh) (se : subscribed_event) (s : v4l2_state).

Lemma fh_get_put : fh_get f (put f p x se s) = Some (x, put f p x se s).
Proof. unfold fh_get, mthen, gets, put. cbn. by rewrite lookup_insert_eq. Qed.

Lemma se_get_put : se_get p (put f p x se s) = Some (se, put f p x se s).
Proof. unfold se_get, mthen, gets, put. cbn. by rewrite lookup_insert_eq. Qed.

Lemma fh_upd_put g : fh_upd f g (put f p x se s) = Some (tt, put f p (g x) se s).
Proof.
  unfold fh_upd, mthen. rewrite fh_get_put. unfold gets, modify, put. cbn.
  by rewrite insert_insert_eq.
Qed.

Lemma se_upd_put g : se_upd p g (put f p x se s) = Some (tt, put f p x (g se) s).
Proof.
  unfold se_upd, mthen. rewrite se_get_put. unfold gets, modify, put. cbn.
  by rewrite insert_insert_eq.
Qed.

Lemma kev_get_put i ev :
  (se_events se).[i] = Some ev -> kev_get p i (put f p x se s) = Some (ev, put f p x se s).
Proof. intros He. unfold kev_get, mthen. rewrite se_get_put. by rewrite He. Qed.

Lemma kev_upd_put i ev g :
  (se_events se).[i] = Some ev ->
  kev_upd p i g (put f p x se s) =
    Some (tt, put f p x (set_se_events (<[Z.to_nat i := g ev]> (se_events se)) se) s).
Proof. intros He. unfold kev_upd, mthen. rewrite (kev_get_put i ev He). by rewrite se_upd_put. Qed.

Lemma kev_unlink_put k :
  k ∈ fh_available x ->
  kev_unlink f k (put f p x se s) =
    Some (tt, put f p (set_fh_available (filter (fun k' => k' <> k) (fh_available x)) x) se s).
Proof. intros Hk. unfold kev_unlink, mthen. rewrite fh_get_put. rewrite decide_True by done. apply fh_upd_put. Qed.
End put.

(** ** Handles of a state *)

Definition handle_ok (s : v4l2_state) (f : nat) (h : handle) : Prop :=
  exists x, vs_fh s !! f = Some x /\ fh_refines (vs_sev s) f x h.

(** What a step on [f] leaves alone. *)
Record only_at (f : nat) (s s' : v4l2_state) : Prop := {
  oa_fh : forall g, g <> f -> vs_fh s' !! g = vs_fh s !! g;
  oa_sev : forall p se, vs_sev s !! p = Some se -> se_fh se <> Some f -> vs_sev s' !! p = Some se;
  oa_back : forall p se, vs_sev s' !! p = Some se -> se_fh se <> Some f -> vs_sev s !! p = Some se;
  oa_list : vs_fh_list s' = vs_fh_list s;
}.

Lemma only_at_refl f s : only_at f s s.
Proof. by split. Qed.

Lemma only_at_trans f s1 s2 s3 : only_at f s1 s2 -> only_at f s2 s3 -> only_at f s1 s3.
Proof.
  intros [A1 A2 A3 A4] [B1 B2 B3 B4]. split.
  - intros g Hg. by rewrite B1, A1.
  - intros p se Hp Hne. by apply B2, Hne; apply A2.
  - intros p se Hp Hne. by apply A3, Hne; apply B3.
  - by rewrite B4.
Qed.

Lemma only_at_ok f s s' g h : only_at f s s' -> g <> f -> handle_ok s g h -> handle_ok s' g h.
Proof.
  intros [H1 H2 H3 _] Hg (x & Hx & [R1 R2 R3 R4 R5 R6 Rvd R7]). exists x. rewrite H1 by done. split; [done|].
  assert (Hkeep : forall p, p ∈ fh_subscribed x -> exists se, vs_sev s !! p = Some se /\ vs_sev s' !! p = Some se).
  { intros p Hp. destruct (sub_at _ _ _ _ _ _ R5 Hp) as (u & _ & se & Hse & _ & (_ & _ & _ & _ & _ & Hfh) & _).
    exists se. split; [done|]. apply H2; [done|]. rewrite Hfh. congruence. }
  constructor; try done.
  - eapply Forall2_impl_elem; [exact R5|]. intros p u Hp (se & Hse & Hok).
    destruct (Hkeep p Hp) as (se' & Hse1 & Hse2). rewrite Hse in Hse1. injection Hse1 as <-. by exists se.
  - eapply Forall2_impl; [exact R6|]. intros k e (se & ev & Hk & Hse & Hok).
    destruct (Hkeep _ Hk) as (se' & Hse1 & Hse2). rewrite Hse in Hse1. injection Hse1 as <-. by exists se, ev.
  - intros p se Hp Hfh. apply (R7 p se); [|done]. apply H3; [done|]. rewrite Hfh. congruence.
Qed.

Lemma only_at_put f p x se se' s :
  vs_sev s !! p = Some se' -> se_fh se' = Some f -> se_fh se = Some f ->
  only_at f s (put f p x se s).
Proof.
  intros Hp Hf Hf'. split; cbn; [intros g Hg|intros q s0 Hq Hne|intros q s0 Hq Hne|done].
  - by rewrite lookup_insert_ne.
  - rewrite lookup_insert_ne; [done|]. intros <-. rewrite Hp in Hq. by injection Hq as <-.
  - by apply lookup_insert_Some in Hq as [[<- <-]|[_ Hq]].
Qed.

Lemma put_ok f p x se s h :
  fh_refines (<[p := se]> (vs_sev s)) f x h -> handle_ok (put f p x se s) f h.
Proof. intros H. exists x. cbn. by rewrite lookup_insert_eq. Qed.

(** ** Finding a subscription *)

Lemma subscribed_loop_run s f A l subs type id :
  Forall2 (sub_ok (vs_sev s) f A) l subs ->
  exists r, subscribed_loop l type id s = Some (r, s) /\
    match r, List.find (fun u => bool_decide (su_key u = (type, id))) subs with
    | Some p, Some u => p ∈ l /\ sub_ok (vs_sev s) f A p u /\ su_key u = (type, id)
    | None, None => True
    | _, _ => False
    end.
Proof.
  induction 1 as [|p u l subs Hp _ (r & IH & Hr)]; [by exists None|].
  destruct Hp as (se & Hse & Hrest). pose proof Hrest as (_ & (M1 & M2 & _) & _).
  cbn [subscribed_loop List.find]. unfold se_get, mthen, gets. cbn. rewrite Hse. cbn.
  assert (Hku : su_key u = (se_type se, se_id se)) by (unfold su_key; by rewrite M1, M2).
  destruct ((se_type se =? type) && (se_id se =? id)) eqn:Hk.
  - apply andb_true_iff in Hk as [<-%Z.eqb_eq <-%Z.eqb_eq]. rewrite (bool_decide_true _ Hku).
    exists (Some p). split; [done|]. split; [apply list_elem_of_here|]. split; [|done]. by exists se.
  - rewrite bool_decide_false; [|rewrite Hku; intros [= <- <-]; by rewrite !Z.eqb_refl in Hk].
    exists r. split; [done|]. destruct r as [q|], (List.find _ subs) as [u'|]; try done.
    destruct Hr as (H1 & H2 & H3). split; [by apply list_elem_of_further|done].
Qed.

(** ** Queueing *)

Lemma in_use_pos se : ring_ok se -> se_in_use se = se_elems se -> 0 < se_in_use se.
Proof. intros [H1 _ _ _ _] ->. lia. Qed.

Lemma fill_vis ev ts sq k :
  ev_reserved k = replicate 8 0 -> vis (fill_kevent ev true ts sq k) = fill_kevent ev true ts sq zero_event.
Proof. intros H. destruct k. cbn in *. by rewrite H. Qed.

Lemma fill_key ev copy ts sq k : ev_key (fill_kevent ev copy ts sq k) = ev_key ev.
Proof. by destruct copy. Qed.

Lemma fill_reserved ev copy ts sq k : ev_reserved (fill_kevent ev copy ts sq k) = ev_reserved k.
Proof. by destruct copy. Qed.

Lemma pending_length sevs f x h p se u :
  fh_refines sevs f x h -> p ∈ fh_subscribed x -> sub_ok sevs f (fh_available x) p u -> sevs !! p = Some se ->
  zlen (pending_of (se_type se, se_id se) (q_pending h)) = se_in_use se.
Proof.
  intros Hf Hp (se' & Hse' & Hr & _ & Hslots) Hse. rewrite Hse in Hse'. injection Hse' as <-.
  rewrite (count_entry _ _ _ _ _ (fr_pending _ _ _ _ Hf) (entry_key _ _ _ _ _ _ Hf Hp Hse)), Hslots.
  unfold ring_slots. rewrite zlen_fmap. unfold zlen. rewrite length_seqZ. destruct Hr as [_ _ _ H _]. lia.
Qed.

Lemma sequence_refines sevs f x h v :
  fh_refines sevs f x h ->
  fh_refines sevs f (set_fh_sequence v x) (mk_handle (q_subs h) (q_pending h) v).
Proof. intros [H1 H2 H3 H4 H5 H6 Hvd H7]. by constructor. Qed.

(** The slot of a subscription without events may hold anything. *)
Lemma scratch_refines sevs f x h p se i ev :
  fh_refines sevs f x h -> p ∈ fh_subscribed x -> sevs !! p = Some se -> se_in_use se = 0 ->
  ev_reserved ev = replicate 8 0 ->
  fh_refines (<[p := set_se_events (<[Z.to_nat i := ev]> (se_events se)) se]> sevs) f x h.
Proof.
  intros Hf Hp Hse Hu Hres. pose proof Hf as [H1 H2 H3 H4 H5 H6 Hvd H7].
  destruct (sub_at _ _ _ _ _ _ H5 Hp) as (u & _ & se0 & Hse0 & Hr & _ & Hslots).
  rewrite Hse in Hse0. injection Hse0 as <-. destruct x as [v c l A n q], h as [a b sq]. cbn in *. rewrite <-H1.
  eapply (fh_update _ _ (mk_fh v c l A n q) (mk_handle a b sq)); try done; cbn.
  - by apply ring_ok_write.
  - eapply Forall2_impl_elem; [exact H6|]. intros k e Hin. apply (entry_frame _ _ _ se); [done|done|].
    intros Hk. exfalso. unfold ring_slots in Hslots. rewrite Hu in Hslots.
    apply (not_elem_of_nil k). change [] with ((fun i => (p, (se_first se + i) mod se_elems se)) <$> seqZ 0 0).
    rewrite <-Hslots. by apply list_elem_of_filter.
Qed.

(** [drop_oldest] makes room in a full subscription. *)
Definition dropped (f p : nat) (ev : v4l2_event) (ts sq : Z) (se : subscribed_event) (s : v4l2_state)
    (h : handle) (old : v4l2_event) (rest : list v4l2_event) (copy : bool) (x' : v4l2_fh) (se' : subscribed_event) : Prop :=
  same_sub se se' /\ p ∈ fh_subscribed x' /\ fh_sequence x' = q_sequence h /\ se_in_use se' < se_elems se' /\
  fh_refines (<[p := se']> (vs_sev s)) f x'
    (mk_handle (q_subs h)
      (if negb (se_elems se =? 1) && se_merge se then change_first (ev_key ev) (ctrls_merge old) rest else rest)
      (q_sequence h)) /\
  exists slot, (se_events se').[sev_pos se' (se_in_use se')] = Some slot /\
    vis (fill_kevent ev copy ts sq slot) =
      if (se_elems se =? 1) && se_replace se then fill_kevent ev false ts sq (ctrls_replace old ev)
      else fill_kevent ev true ts sq zero_event.

Lemma slot_at se idx :
  ring_ok se -> 0 <= idx <= se_elems se ->
  exists slot, (se_events se).[sev_pos se idx] = Some slot /\ ev_reserved slot = replicate 8 0.
Proof.
  intros Hr Hi. destruct (mget_is_Some (se_events se) (sev_pos se idx)) as [_ Hsome].
  destruct Hsome as [slot Hs]; [by apply sev_pos_bounds|]. exists slot. split; [done|].
  apply (rg_reserved _ Hr). apply mget_Some in Hs as [_ Hs]. by apply list_elem_of_lookup_2 in Hs.
Qed.

Lemma refined_ring sevs f x h p se :
  fh_refines sevs f x h -> p ∈ fh_subscribed x -> sevs !! p = Some se -> ring_ok se /\ se_fh se = Some f.
Proof.
  intros Hf Hp Hse. destruct (sub_at _ _ _ _ _ _ (fr_subs _ _ _ _ Hf) Hp) as (u & _ & se0 & Hse0 & Hr & (_ & _ & _ & _ & _ & Hm) & _).
  rewrite Hse in Hse0. by injection Hse0 as <-.
Qed.

(** The part of [drop_oldest] that saves what the dropped event told. *)
Definition drop_payload (p : nat) (kev : Z) (ev : v4l2_event) : v4l2M bool :=
  s <- se_get p ;;
  if se_elems s =? 1 then
    if se_replace s then kev_upd p kev (fun old => ctrls_replace old ev) ;; mdo false
    else mdo true
  else if se_merge s then
    old <- kev_get p kev ;; kev_upd p (sev_pos s 0) (ctrls_merge old) ;; mdo true
  else mdo true.

Definition unlinked (p : nat) (i : Z) (x : v4l2_fh) : v4l2_fh :=
  set_fh_navailable (fh_navailable x - 1)
    (set_fh_available (filter (fun k => k <> (p, i)) (fh_available x)) x).

Lemma drop_pops f p ev x se s :
  ring_ok se -> 0 < se_in_use se -> (p, se_first se) ∈ fh_available x -> 0 < fh_navailable x < 2 ^ 32 ->
  drop_oldest f p ev (put f p x se s) =
    drop_payload p (se_first se) ev (put f p (unlinked p (se_first se) x) (popped se) s).
Proof.
  intros Hr Hu Hin Hnav. pose proof Hr as [R1 R2 R3 R4 R5].
  assert (H0 : sev_pos se 0 = se_first se) by (rewrite sev_pos_mod, Z.add_0_r, Z.mod_small by (done || lia); done).
  unfold drop_oldest, mthen at 1. rewrite se_get_put, H0. unfold mthen at 1. rewrite kev_unlink_put by done.
  unfold mthen at 1. rewrite se_upd_put. unfold mthen at 1. rewrite se_upd_put.
  unfold mthen at 1. rewrite fh_upd_put. cbn [fh_navailable set_fh_available].
  by rewrite (wrap_small 32 (se_in_use se - 1)), (wrap_small 32 (fh_navailable x - 1)) by lia.
Qed.

Lemma navailable_bounds sevs f x h k :
  fh_refines sevs f x h -> k ∈ fh_available x -> zlen (q_pending h) < 2 ^ 32 -> 0 < fh_navailable x < 2 ^ 32.
Proof.
  intros Hf Hin Hn. pose proof (Forall2_length _ _ _ (fr_pending _ _ _ _ Hf)) as Hl. unfold zlen in Hn.
  rewrite (fr_navailable _ _ _ _ Hf). split; [|unfold zlen; lia].
  destruct (fh_available x) as [|k0 l]; [by apply elem_of_nil in Hin|]. rewrite zlen_cons. pose proof (zlen_nonneg l). lia.
Qed.

(** Without a payload to save. *)
Lemma dropped_plain f p ev ts sq se s h old rest x :
  ring_ok (popped se) -> 0 <= se_in_use (popped se) < se_elems se -> p ∈ fh_subscribed x -> fh_sequence x = q_sequence h ->
  fh_refines (<[p := popped se]> (vs_sev s)) f x (mk_handle (q_subs h) rest (q_sequence h)) ->
  (se_elems se =? 1) && se_replace se = false -> negb (se_elems se =? 1) && se_merge se = false ->
  dropped f p ev ts sq se s h old rest true x (popped se).
Proof.
  intros Hr Hu Hp Hsq Hf H1 H2. destruct (slot_at (popped se) (se_in_use (popped se)) Hr) as (slot & Hslot & Hres).
  { cbn in *. lia. }
  unfold dropped. rewrite H1, H2. do 5 (split; [done || apply Hu|]). exists slot. split; [done|]. by apply fill_vis.
Qed.

(** A ring of one keeps the changes that the dropped event told. *)
Lemma dropped_replaced f p ev ts sq se s h rest x e :
  ring_ok (popped se) -> se_elems se = 1 -> se_in_use se = 1 -> se_first se = 0 -> se_replace se = true ->
  p ∈ fh_subscribed x -> fh_sequence x = q_sequence h -> (se_events se).[0] = Some e ->
  fh_refines (<[p := popped se]> (vs_sev s)) f x (mk_handle (q_subs h) rest (q_sequence h)) ->
  dropped f p ev ts sq se s h (vis e) rest false x
    (set_se_events (<[Z.to_nat 0 := ctrls_replace e ev]> (se_events se)) (popped se)).
Proof.
  intros Hr H1 Hu H0 Hrep Hp Hsq He Hf.
  assert (Hres : ev_reserved e = replicate 8 0).
  { apply (rg_reserved _ Hr). apply mget_Some in He as [_ He]. by apply list_elem_of_lookup_2 in He. }
  unfold dropped. rewrite H1, Hrep. cbn [negb andb Z.eqb Pos.eqb]. split; [done|]. split; [done|]. split; [done|].
  split; [cbn; lia|]. split.
  - rewrite <-(insert_insert_eq (vs_sev s) p _ (popped se)). apply (scratch_refines _ _ _ _ _ (popped se)); [done|done| |cbn; lia|done].
    by rewrite lookup_insert_eq.
  - exists (ctrls_replace e ev). split; [|by destruct e]. set (se' := set_se_events _ _).
    assert (Hpos : sev_pos se' (se_in_use se') = 0).
    { pose proof (rg_first _ Hr). rewrite sev_pos_mod; [|by apply (ring_ok_write (popped se))|cbn; lia].
      cbn in *. rewrite Hu, H1, Z.mod_1_r. done. }
    rewrite Hpos. apply (mget_insert_eq _ 0). by apply mget_lt in He.
Qed.

(** A longer ring gives them to the event that is then the oldest. *)
Lemma dropped_merged f p ev ts sq se s h rest x e e2 :
  ring_ok (popped se) -> 1 < se_elems se -> se_in_use se = se_elems se -> se_merge se = true ->
  p ∈ fh_subscribed x -> fh_sequence x = q_sequence h -> ev_key ev = (se_type se, se_id se) ->
  (se_events se).[sev_pos se 1] = Some e2 -> ev_key e2 = (se_type se, se_id se) ->
  fh_refines (<[p := popped se]> (vs_sev s)) f x (mk_handle (q_subs h) rest (q_sequence h)) ->
  dropped f p ev ts sq se s h (vis e) rest true x
    (set_se_events (<[Z.to_nat (sev_pos se 1) := ctrls_merge e e2]> (se_events se)) (popped se)).
Proof.
  intros Hr H1 Hu Hm Hp Hsq Hk He2 Hk2 Hf.
  assert (Hres : ev_reserved e2 = replicate 8 0).
  { apply (rg_reserved _ Hr). apply mget_Some in He2 as [_ He]. by apply list_elem_of_lookup_2 in He. }
  set (se' := set_se_events _ (popped se)).
  assert (Hr' : ring_ok se') by (by apply (ring_ok_write (popped se))).
  unfold dropped. rewrite Hm, (proj2 (Z.eqb_neq (se_elems se) 1)) by lia. cbn [negb andb]. split; [done|]. split; [done|]. split; [done|].
  split; [cbn; lia|]. split.
  - rewrite <-(insert_insert_eq (vs_sev s) p se' (popped se)), Hk.
    apply (fh_poke _ f x (mk_handle (q_subs h) rest (q_sequence h)) p (popped se) e2 _ (ctrls_merge (vis e))); try done.
    + by rewrite lookup_insert_eq.
    + cbn. lia.
  - destruct (slot_at se' (se_in_use se') Hr') as (slot & Hslot & Hs); [cbn; lia|].
    exists slot. split; [done|]. by apply fill_vis.
Qed.

Lemma drop_run f p ev ts x se s h :
  fh_refines (<[p := se]> (vs_sev s)) f x h -> p ∈ fh_subscribed x -> se_in_use se = se_elems se ->
  ev_key ev = (se_type se, se_id se) -> zlen (q_pending h) < 2 ^ 32 ->
  exists old rest, take_first (ev_key ev) (q_pending h) = Some (old, rest) /\
    exists copy x' se', drop_oldest f p ev (put f p x se s) = Some (copy, put f p x' se' s) /\
      dropped f p ev ts (q_sequence h) se s h old rest copy x' se'.
Proof.
  intros Hf Hp Hu Hk Hn. assert (Hse : <[p:=se]> (vs_sev s) !! p = Some se) by (by rewrite lookup_insert_eq).
  destruct (refined_ring _ _ _ _ _ _ Hf Hp Hse) as [Hr Hfh]. pose proof (in_use_pos _ Hr Hu) as Hpos.
  pose proof Hr as [R1 R2 R3 R4 R5].
  destruct (fh_pop _ _ _ _ _ _ Hf Hp Hse Hpos) as (Hin & old & rest & e & Htake & He & Hv & Hke & Hf').
  rewrite Hk. exists old, rest. split; [done|]. rewrite insert_insert_eq in Hf'.
  rewrite drop_pops by (done || by eapply navailable_bounds). fold (unlinked p (se_first se) x) in Hf'.
  assert (Hr' : ring_ok (popped se)) by (by apply ring_ok_pop).
  pose proof (fr_sequence _ _ _ _ Hf) as Hsq. subst old.
  unfold drop_payload, mthen at 1. rewrite se_get_put. change (se_elems (popped se)) with (se_elems se).
  change (se_replace (popped se)) with (se_replace se). change (se_merge (popped se)) with (se_merge se).
  destruct (Z.eqb_spec (se_elems se) 1) as [H1|H1].
  - destruct (se_replace se) eqn:Hrep.
    + assert (H0 : se_first se = 0) by lia. 
      exists false, (unlinked p (se_first se) x), (set_se_events (<[Z.to_nat 0 := ctrls_replace e ev]> (se_events se)) (popped se)).
      split; [unfold mthen; rewrite (kev_upd_put _ _ _ _ _ _ e) by done; by rewrite H0|].
      rewrite H0 in *. apply dropped_replaced; done || lia.
    + exists true. do 2 eexists. split; [done|]. apply dropped_plain; try done; [cbn; lia|by rewrite Hrep, andb_false_r|].
      by rewrite H1.
  - destruct (se_merge se) eqn:Hm.
    + assert (Hse' : <[p:=popped se]> (vs_sev s) !! p = Some (popped se)) by (by rewrite lookup_insert_eq).
      destruct (fh_pop _ _ _ _ _ _ Hf' Hp Hse') as (_ & _ & _ & e2 & _ & He2 & _ & Hk2 & _); [cbn; lia|].
      assert (Hpos2 : sev_pos (popped se) 0 = sev_pos se 1).
      { rewrite sev_pos_mod by (done || cbn; lia). pose proof (rg_first _ Hr'). rewrite Z.add_0_r. by apply Z.mod_small. }
      exists true, (unlinked p (se_first se) x),
        (set_se_events (<[Z.to_nat (sev_pos se 1) := ctrls_merge e e2]> (se_events se)) (popped se)).
      split; [|apply dropped_merged; done || lia].
      unfold mthen at 1. rewrite (kev_get_put _ _ _ _ _ _ e) by done. unfold mthen.
      by rewrite Hpos2, (kev_upd_put _ _ _ _ _ _ e2) by done.
    + exists true. do 2 eexists. split; [done|].
      apply dropped_plain; try done; [cbn; lia|by rewrite (proj2 (Z.eqb_neq (se_elems se) 1))|by rewrite Hm, andb_false_r].
Qed.

(** Taking a slot and filling it. *)
Definition queue_fill (f p : nat) (ev : v4l2_event) (ts : Z) (copy_payload : bool) : v4l2M unit :=
  s <- se_get p ;; x <- fh_get f ;;
  let kev := sev_pos s (se_in_use s) in
  kev_upd p kev (fill_kevent ev copy_payload ts (fh_sequence x)) ;;
  se_upd p (fun s => set_se_in_use (u32 (se_in_use s + 1)) s) ;;
  fh_upd f (fun x => set_fh_navailable (u32 (fh_navailable x + 1))
    (set_fh_available (fh_available x ++ [(p, kev)]) x)).

Lemma queue_fill_run f p ev ts copy x se s h slot :
  fh_refines (<[p := se]> (vs_sev s)) f x h -> p ∈ fh_subscribed x -> se_in_use se < se_elems se ->
  ev_key ev = (se_type se, se_id se) -> (se_events se).[sev_pos se (se_in_use se)] = Some slot ->
  zlen (q_pending h) < 2 ^ 32 - 1 ->
  exists x' se', queue_fill f p ev ts copy (put f p x se s) = Some (tt, put f p x' se' s) /\ se_fh se' = Some f /\
    fh_refines (<[p := se']> (vs_sev s)) f x'
      (mk_handle (q_subs h) (q_pending h ++ [vis (fill_kevent ev copy ts (fh_sequence x) slot)]) (fh_sequence x)).
Proof.
  intros Hf Hp Hu Hk Hslot Hn. assert (Hse : <[p:=se]> (vs_sev s) !! p = Some se) by (by rewrite lookup_insert_eq).
  destruct (refined_ring _ _ _ _ _ _ Hf Hp Hse) as [Hr Hfh]. pose proof Hr as [R1 R2 R3 R4 R5].
  assert (Hres : ev_reserved slot = replicate 8 0).
  { apply R5. apply mget_Some in Hslot as [_ He]. by apply list_elem_of_lookup_2 in He. }
  pose proof (fh_push _ _ _ _ _ _ (fill_kevent ev copy ts (fh_sequence x) slot) (fh_sequence x) Hf Hp Hse Hu) as Hpush.
  cbv zeta in Hpush. rewrite fill_key, fill_reserved, insert_insert_eq in Hpush. specialize (Hpush Hk Hres).
  eexists _, _. split; [|split; [|exact Hpush]]; [|exact Hfh].
  unfold queue_fill, mthen at 1. rewrite se_get_put. unfold mthen at 1. rewrite fh_get_put.
  unfold mthen at 1. rewrite (kev_upd_put _ _ _ _ _ _ slot) by done. unfold mthen at 1. rewrite se_upd_put.
  rewrite fh_upd_put. cbn [se_in_use set_se_events]. pose proof (Forall2_length _ _ _ (fr_pending _ _ _ _ Hf)) as Hl.
  rewrite (wrap_small 32 (se_in_use se + 1)) by lia.
  rewrite (wrap_small 32 (fh_navailable x + 1)) by (rewrite (fr_navailable _ _ _ _ Hf); unfold zlen in *; lia).
  by destruct x.
Qed.

Lemma take_first_length key l old rest : take_first key l = Some (old, rest) -> zlen l = 1 + zlen rest.
Proof.
  revert rest. induction l as [|e l IH]; intros rest; [done|]. cbn [take_first].
  destruct (has_key key e); [intros [= <- <-]; apply zlen_cons|].
  destruct (take_first key l) as [[o l']|]; [|done]. intros [= <- <-]. rewrite !zlen_cons. by rewrite (IH l').
Qed.

Lemma change_first_length key g l : zlen (change_first key g l) = zlen l.
Proof. induction l as [|e l IH]; [done|]. cbn [change_first]. destruct (has_key key e); by rewrite !zlen_cons, ?IH. Qed.

Section env.
Context {E : V4l2Env}.

Lemma queue_fh_run s f ev ts h :
  handle_ok s f h -> zlen (q_pending h) < 2 ^ 32 - 1 ->
  wp (__v4l2_event_queue_fh f ev ts) s (fun _ s' => handle_ok s' f (queue_event ev ts h) /\ only_at f s s').
Proof.
  intros (x & Hx & Hf) Hn. destruct (subscribed_loop_run s f _ _ _ (ev_type ev) (ev_id ev) (fr_subs _ _ _ _ Hf)) as (r & Hrun & Hr).
  unfold __v4l2_event_queue_fh, v4l2_event_subscribed.
  eapply wp_eq; [unfold mthen, fh_get, gets, mthen; cbn; rewrite Hx; exact Hrun|]. cbv beta.
  unfold queue_event. fold (ev_key ev) in Hr. destruct r as [p|], (List.find _ (q_subs h)) as [u|]; try done.
  2: { split; [by exists x|apply only_at_refl]. }
  destruct Hr as (Hp & Hok & Hku). pose proof Hok as (se & Hse & Hring & Hm & _). pose proof Hm as (M1 & M2 & M3 & M4 & M5 & M6).
  assert (Hk : ev_key ev = (se_type se, se_id se)) by (rewrite <-Hku; unfold su_key; by rewrite M1, M2).
  rewrite Hk, (pending_length _ _ _ _ _ _ _ Hf Hp Hok Hse), <-M3, <-M4, <-M5, <-Hk.
  rewrite <-(put_id s f p x se Hx Hse) at 1. eapply wp_eq; [apply fh_upd_put|]. cbv beta.
  eapply wp_eq; [apply se_get_put|]. cbv beta.
  set (sq := u32 (fh_sequence x + 1)). assert (Hsq : u32 (q_sequence h + 1) = sq) by (unfold sq; by rewrite (fr_sequence _ _ _ _ Hf)).
  rewrite Hsq. apply (sequence_refines _ _ _ _ sq) in Hf. rewrite <-(insert_id (vs_sev s) p se Hse) in Hf.
  assert (Honly : forall x' se', se_fh se' = Some f -> only_at f s (put f p x' se' s)).
  { intros x' se'. by apply (only_at_put f p x' se' se). }
  pose proof Hring as [R1 R2 R3 R4 R5].
  fold (queue_fill f p ev ts). destruct (Z.eqb_spec (se_in_use se) (se_elems se)) as [Hu|Hu].
  - rewrite (proj2 (Z.ltb_ge _ _)) by lia.
    destruct (drop_run _ _ ev ts _ _ _ _ Hf Hp Hu Hk) as (old & rest & Htake & copy & x' & se' & Hdrop & Hd); [cbn; lia|].
    cbn in Htake, Hd. rewrite Htake. destruct Hd as ((E1 & E2 & _) & Hp' & Hsq' & Hroom & Hf' & slot & Hslot & Hv).
    eapply wp_eq; [exact Hdrop|]. cbv beta.
    destruct (queue_fill_run _ _ ev ts copy _ _ _ _ slot Hf' Hp' Hroom) as (x2 & se2 & Hfill & Hfh2 & Hf2); [by rewrite E1, E2|done| |].
    { cbn. pose proof (take_first_length _ _ _ _ Htake). destruct (negb _ && _); rewrite ?change_first_length; lia. }
    unfold wp. rewrite Hfill. split; [|by apply Honly]. apply put_ok. rewrite Hsq' in Hf2. cbn [q_subs q_pending q_sequence] in Hf2, Hv. rewrite Hv in Hf2.
    destruct (se_elems se =? 1), (se_replace se), (se_merge se); exact Hf2.
  - rewrite (proj2 (Z.ltb_lt _ _)) by lia. eapply wp_eq; [done|]. cbv beta.
    destruct (slot_at se (se_in_use se) Hring) as (slot & Hslot & Hs); [lia|].
    destruct (queue_fill_run _ _ ev ts true _ _ _ _ slot Hf Hp) as (x2 & se2 & Hfill & Hfh2 & Hf2); [lia|done|done|cbn; lia|].
    unfold wp. rewrite Hfill. split; [|by apply Honly]. apply put_ok. cbn [q_subs q_pending q_sequence] in Hf2. by rewrite fill_vis in Hf2.
Qed.

(** ** Dequeueing *)

Lemma change_first_id key l : change_first key (fun e => e) l = l.
Proof. induction l as [|e l IH]; [done|]. cbn [change_first]. destruct (has_key key e); by rewrite ?IH. Qed.

Lemma filter_ne_head {A} `{EqDecision A} (k : A) l : NoDup (k :: l) -> filter (fun k' => k' <> k) (k :: l) = l.
Proof.
  intros [Hn _]%NoDup_cons. rewrite filter_cons_False by (intros H; by apply H). by apply filter_ne_id.
Qed.

(** The entry to be delivered is the oldest of its subscription. *)
Lemma head_entry sevs f x h p i A :
  fh_refines sevs f x h -> fh_available x = (p, i) :: A ->
  exists se ev P, p ∈ fh_subscribed x /\ sevs !! p = Some se /\ i = se_first se /\ 0 < se_in_use se /\
    (se_events se).[i] = Some ev /\ ev_key ev = (se_type se, se_id se) /\ ev_reserved ev = replicate 8 0 /\
    se_fh se = Some f /\ 0 < se_in_use se < 2 ^ 32 /\
    q_pending h = vis ev :: P /\ zlen P = zlen A /\ NoDup ((p, i) :: A) /\ filter (fun k => k <> (p, i)) ((p, i) :: A) = A.
Proof.
  intros Hf HA. pose proof Hf as [H1 H2 H3 H4 H5 H6 Hvd H7]. pose proof (avail_nodup _ _ _ _ Hf) as Hnd. rewrite HA in *.
  inversion H6 as [|k e l P Hent Hrest Hk HP]. subst. destruct Hent as (se & ev & Hp & Hse & Hev & Hv & Hk). cbn in Hp, Hse, Hev.
  destruct (sub_at _ _ _ _ _ _ H5 Hp) as (u & _ & se0 & Hse0 & Hr & (_ & _ & _ & _ & _ & Hfh) & Hslots).
  rewrite Hse in Hse0. injection Hse0 as <-. rewrite filter_cons_True in Hslots by done.
  pose proof Hr as [R1 _ _ R4 R5].
  assert (Hpos : 0 < se_in_use se).
  { destruct (decide (se_in_use se = 0)) as [Hz|]; [|lia]. unfold ring_slots in Hslots. by rewrite Hz in Hslots. }
  rewrite ring_slots_pop in Hslots by done. injection Hslots as Hi _.
  assert (Hres : ev_reserved ev = replicate 8 0).
  { apply R5. apply mget_Some in Hev as [_ He]. by apply list_elem_of_lookup_2 in He. }
  pose proof (Forall2_length _ _ _ Hrest) as Hl. exists se, ev, P. rewrite <-Hv.
  do 8 (split; [done|]). split; [lia|]. split; [done|]. split; [unfold zlen; lia|]. split; [done|]. by apply filter_ne_head.
Qed.

Lemma dequeue_run s f h :
  handle_ok s f h -> zlen (q_pending h) < 2 ^ 32 ->
  wp (__v4l2_event_dequeue f) s (fun r s' =>
    match dequeue_event h with
    | None => r = (- ENOENT, None) /\ s' = s
    | Some (e, h') => r = (0, Some e) /\ handle_ok s' f h' /\ only_at f s s'
    end).
Proof.
  intros (x & Hx & Hf) Hn. pose proof Hf as [H1 H2 _ _ _ H6 _ _]. unfold __v4l2_event_dequeue, dequeue_event.
  eapply wp_eq; [unfold fh_get, gets, mthen; cbn; by rewrite Hx|]. cbv beta.
  destruct (fh_available x) as [|[p i] A] eqn:HA; [by inversion H6|].
  destruct (head_entry _ _ _ _ _ _ _ Hf HA) as (se & ev & P & Hp & Hse & -> & Hpos & Hev & Hk & Hres & Hfh & Hu & HP & Hl & Hnd & Hfilter).
  rewrite HP in Hn |- *. rewrite zlen_cons in Hn. set (n := zlen P).
  assert (Hnav : u32 (fh_navailable x - 1) = n).
  { rewrite H2, zlen_cons, wrap_small by (pose proof (zlen_nonneg A); lia). unfold n. lia. }
  pose proof (fh_poke _ _ _ _ _ _ ev (set_ev_pending n ev) (fun e => e) Hf Hp Hse Hpos Hev eq_refl Hk Hres) as Hpoke.
  rewrite change_first_id in Hpoke. set (se1 := set_se_events _ se) in Hpoke.
  assert (Hse1 : <[p := se1]> (vs_sev s) !! p = Some se1) by (by rewrite lookup_insert_eq).
  destruct (fh_pop _ _ _ _ _ _ Hpoke Hp Hse1 Hpos) as (_ & old & rest & ev1 & Htake & _ & _ & _ & Hf').
  cbn [q_pending q_subs q_sequence] in Htake, Hf'. rewrite HP in Htake. cbn [take_first] in Htake.
  assert (has_key (se_type se1, se_id se1) (vis ev) = true) as Hkey by (by apply bool_decide_eq_true).
  rewrite Hkey in Htake. injection Htake as <- <-. rewrite HA in Hf'. change (se_first se1) with (se_first se) in Hf'.
  rewrite Hfilter, insert_insert_eq in Hf'.
  rewrite <-(put_id s f p x se Hx Hse) at 1. eapply wp_eq; [apply fh_upd_put|]. cbv beta. eapply wp_eq; [apply fh_get_put|]. cbv beta.
  cbn [fh_navailable set_fh_navailable set_fh_available]. rewrite Hnav.
  eapply wp_eq; [by apply (kev_upd_put _ _ _ _ _ _ ev)|]. cbv beta.
  eapply wp_eq; [apply (kev_get_put _ _ _ _ _ _ (set_ev_pending n ev))|]; [apply mget_insert_eq; by eapply mget_lt|]. cbv beta.
  eapply wp_eq; [apply se_get_put|]. cbv beta. eapply wp_eq; [apply se_upd_put|]. cbv beta.
  eapply wp_eq; [apply se_upd_put|]. cbv beta. apply wp_mdo. split; [done|]. split; [|by eapply only_at_put].
  apply put_ok. cbn [se_in_use set_se_first set_se_events]. rewrite (wrap_small 32 (se_in_use se - 1)) by lia.
  replace (fh_navailable x - 1) with n in Hf' by (rewrite H2, zlen_cons; unfold n; lia). exact Hf'.
Qed.
End env.
