(* ===== verification/V4l2Handles.v ===== *)
(** Subscribing and unsubscribing, opening and closing file handles: the rest
    of v4l2-event.c and v4l2-fh.c on the state.

    Subscriptions here are to events of drivers; those to controls go through
    the control framework as well. *)

From stdpp Require Import gmap.
From S2P Require Import Prelude StateM V4l2Types V4l2Event V4l2EventSpec V4l2Steps.

(** ** On the abstract handle *)

Definition subscribe_event (type id elems : Z) (h : handle) : handle :=
  if existsb (fun u => bool_decide (su_key u = (type, id))) (q_subs h) then h
  else mk_handle (mk_sub type id (Z.max 1 elems) (type =? V4L2_EVENT_CTRL) (type =? V4L2_EVENT_CTRL) :: q_subs h) (q_pending h) (q_sequence h).

Definition unsubscribe_event (type id : Z) (h : handle) : handle :=
  mk_handle (filter (fun u => su_key u <> (type, id)) (q_subs h)) (q_pending h) (q_sequence h).

Definition new_handle : handle := mk_handle [] [] (u32 (- 1)).

(** Types that drivers let through. *)
Definition driver_type (type : Z) : Prop := type <> V4L2_EVENT_ALL /\ type <> V4L2_EVENT_CTRL.
Definition driver_subs (h : handle) : Prop := Forall (fun u => driver_type (su_type u)) (q_subs h).

(** ** Lists *)

Lemma Forall2_filter_both {A B} (R : A -> B -> Prop) (P : A -> Prop) (Q : B -> Prop)
    `{!forall x, Decision (P x)} `{!forall y, Decision (Q y)} l k :
  Forall2 R l k -> (forall x y, x ∈ l -> R x y -> P x <-> Q y) -> Forall2 R (filter P l) (filter Q k).
Proof.
  induction 1 as [|x y l k Hxy _ IH]; intros Heqv; [constructor|].
  assert (IH' : Forall2 R (filter P l) (filter Q k)).
  { apply IH. intros x' y' Hin. apply Heqv. by apply list_elem_of_further. }
  pose proof (Heqv x y (list_elem_of_here _ _) Hxy) as Hpq. destruct (decide (P x)) as [Hp|Hp].
  - rewrite !filter_cons_True by tauto. by constructor.
  - rewrite !filter_cons_False by tauto. done.
Qed.

Lemma find_existsb {A} (P : A -> bool) l : existsb P l = bool_decide (is_Some (List.find P l)).
Proof.
  induction l as [|x l IH]; [done|]. cbn. destruct (P x); [|done]. symmetry. apply bool_decide_true. by eexists.
Qed.

(** ** Running the code *)

Section env.
Context {E : V4l2Env}.

Lemma fh_get_run s f x : vs_fh s !! f = Some x -> fh_get f s = Some (x, s).
Proof. intros Hx. unfold fh_get, mthen, gets. cbn. by rewrite Hx. Qed.

Lemma fh_upd_run s f x g :
  vs_fh s !! f = Some x -> fh_upd f g s = Some (tt, set_vs_fh (<[f := g x]> (vs_fh s)) s).
Proof. intros Hx. unfold fh_upd, mthen. by rewrite (fh_get_run _ _ x). Qed.

Lemma se_get_run s p se : vs_sev s !! p = Some se -> se_get p s = Some (se, s).
Proof. intros Hx. unfold se_get, mthen, gets. cbn. by rewrite Hx. Qed.

Lemma se_upd_run s p se g :
  vs_sev s !! p = Some se -> se_upd p g s = Some (tt, set_vs_sev (<[p := g se]> (vs_sev s)) s).
Proof. intros Hx. unfold se_upd, mthen. by rewrite (se_get_run _ _ se). Qed.

Lemma subscribed_run s f x h type id :
  vs_fh s !! f = Some x -> fh_refines (vs_sev s) f x h ->
  exists r, v4l2_event_subscribed f type id s = Some (r, s) /\
    match r, List.find (fun u => bool_decide (su_key u = (type, id))) (q_subs h) with
    | Some p, Some u => p ∈ fh_subscribed x /\ sub_ok (vs_sev s) f (fh_available x) p u /\ su_key u = (type, id)
    | None, None => True
    | _, _ => False
    end.
Proof.
  intros Hx Hf. destruct (subscribed_loop_run s f _ _ _ type id (fr_subs _ _ _ _ Hf)) as (r & Hrun & Hr).
  exists r. split; [|done]. unfold v4l2_event_subscribed, mthen. by rewrite (fh_get_run _ _ x).
Qed.

(** ** Subscribing *)

Definition subscribed (s : v4l2_state) (f p : nat) (x : v4l2_fh) (sub : event_subscription) (ctrl : bool)
    (elems : Z) : v4l2_state :=
  set_vs_fh (<[f := set_fh_subscribed (p :: fh_subscribed x) x]> (vs_fh s))
    (set_vs_sev (<[p := new_sev f sub ctrl elems]> (vs_sev s)) s).

Lemma new_sev_ring f sub ctrl elems : 1 <= elems < 2 ^ 31 -> ring_ok (new_sev f sub ctrl elems).
Proof.
  intros He. constructor; cbn; [lia| |lia|lia|].
  - rewrite zlen_replicate. lia.
  - intros ev Hin. apply elem_of_replicate in Hin as [-> _]. done.
Qed.

Lemma subscribed_ok s f p x h sub ctrl elems :
  vs_fh s !! f = Some x -> fh_refines (vs_sev s) f x h -> vs_sev s !! p = None -> 1 <= elems < 2 ^ 31 ->
  (forall u, u ∈ q_subs h -> su_key u <> (sub_type sub, sub_id sub)) ->
  handle_ok (subscribed s f p x sub ctrl elems) f
    (mk_handle (mk_sub (sub_type sub) (sub_id sub) elems ctrl ctrl :: q_subs h) (q_pending h) (q_sequence h)).
Proof.
  intros Hx [H1 H2 H3 H4 H5 H6 Hvd H7] Hp He Hkeys. eexists. cbn. rewrite lookup_insert_eq. split; [done|].
  assert (Hold : forall q u, sub_ok (vs_sev s) f (fh_available x) q u -> q <> p).
  { intros q u (se & Hq & _) ->. by rewrite Hp in Hq. }
  assert (Hnin : p ∉ fh_subscribed x).
  { intros Hin. destruct (sub_at _ _ _ _ _ _ H5 Hin) as (u & _ & Hok). by apply (Hold _ _ Hok). }
  assert (Hent : forall k, k ∈ fh_available x -> k.1 <> p).
  { intros k [i Hi]%list_elem_of_lookup Hk. destruct (Forall2_lookup_l _ _ _ _ _ H6 Hi) as (e & _ & se & ev & _ & Hs & _).
    by rewrite Hk, Hp in Hs. }
  constructor; cbn; [done|done|by constructor| | | |done|].
  - constructor; [|done]. intros (u & Hu & Hin)%list_elem_of_fmap. by apply (Hkeys u).
  - constructor.
    + exists (new_sev f sub ctrl elems). rewrite lookup_insert_eq. split; [done|]. split; [by apply new_sev_ring|].
      split; [done|]. change (ring_slots p _) with (@nil (nat * Z)).
      destruct (filter _ _) as [|k l] eqn:Hfil; [done|]. exfalso.
      assert (Hin : k ∈ filter (fun k => k.1 = p) (fh_available x)) by (rewrite Hfil; apply list_elem_of_here).
      apply list_elem_of_filter in Hin as [Hk Hin]. by apply (Hent k).
    + eapply Forall2_impl; [exact H5|]. intros q u Hok. pose proof (Hold _ _ Hok) as Hq. destruct Hok as (se & Hs & Hok).
      exists se. by rewrite lookup_insert_ne by done.
  - eapply Forall2_impl_elem; [exact H6|]. intros k e Hin (se & ev & Hk & Hs & Hok). exists se, ev.
    rewrite lookup_insert_ne by (symmetry; by apply Hent). split; [by apply list_elem_of_further|done].
  - intros q se [[<- <-]|[_ Hq]]%lookup_insert_Some Hse; [apply list_elem_of_here|].
    apply list_elem_of_further. by eapply H7.
Qed.

Lemma only_at_subscribed s f p x sub ctrl elems :
  vs_sev s !! p = None -> only_at f s (subscribed s f p x sub ctrl elems).
Proof.
  intros Hp. split; cbn; [intros g Hg|intros q se Hq _|intros q se Hq Hne|done].
  - by rewrite lookup_insert_ne.
  - rewrite lookup_insert_ne; [done|]. intros <-. by rewrite Hp in Hq.
  - by apply lookup_insert_Some in Hq as [[<- <-]|[_ Hq]].
Qed.

(** The clock of the environment is not part of a handle. *)
Lemma handle_ok_tick s f h n : handle_ok s f h -> handle_ok (set_vs_tick n s) f h.
Proof. intros (x & Hx & Hf). by exists x. Qed.

Lemma only_at_tick s f n s' : only_at f (set_vs_tick n s) s' -> only_at f s s'.
Proof. intros [H1 H2 H3 H4]. by constructor. Qed.

Lemma subscribe_run s f h stack sub elems :
  handle_ok s f h -> sub_type sub <> V4L2_EVENT_CTRL -> elems < 2 ^ 31 ->
  wp (v4l2_event_subscribe stack f sub elems) s (fun r s' =>
    only_at f s s' /\
    (r = - ENOMEM /\ handle_ok s' f h \/
     r = 0 /\ handle_ok s' f (subscribe_event (sub_type sub) (sub_id sub) elems h))).
Proof.
  intros (x & Hx & Hf) Ht He. unfold v4l2_event_subscribe. rewrite (proj2 (Z.eqb_neq _ _)) by done. cbn [andb].
  eapply wp_eq; [by apply fh_get_run|]. cbv beta. eapply wp_eq; [done|]. cbv beta.
  assert (Hel : (if elems <? 1 then 1 else elems) = Z.max 1 elems) by (destruct (Z.ltb_spec elems 1); lia). rewrite Hel.
  eapply wp_eq; [done|]. cbv beta. set (s1 := set_vs_tick _ s).
  destruct (v4l2_kzalloc_fails _); [split; [by apply (only_at_tick s f (S (vs_tick s)))|left; split; [done|by exists x]]|].
  destruct (subscribed_run s1 f x h (sub_type sub) (sub_id sub) Hx Hf) as (r & Hrun & Hr).
  eapply wp_eq; [exact Hrun|]. cbv beta. unfold subscribe_event. rewrite find_existsb.
  destruct r as [p|], (List.find _ (q_subs h)) as [u|] eqn:Hfind; try done.
  { split; [by apply (only_at_tick s f (S (vs_tick s)))|right]. split; [done|by exists x]. }
  rewrite bool_decide_false by by intros [].
  eapply wp_eq; [done|]. cbv beta. set (p := fresh_sev (vs_sev s1)).
  assert (Hp : vs_sev s1 !! p = None) by (apply not_elem_of_dom; exact (is_fresh (dom (vs_sev s1) : gset nat))).
  eapply wp_eq; [done|]. cbv beta. eapply wp_eq; [by apply (fh_upd_run _ f x)|]. cbv beta.
  eapply wp_eq; [done|]. cbv beta. apply wp_mdo.
  match goal with |- only_at _ _ ?s' /\ _ => change s' with (subscribed s1 f p x sub false (Z.max 1 elems)) end.
  split; [apply (only_at_tick s f (S (vs_tick s))); by apply only_at_subscribed|right]. split; [done|].
  rewrite (proj2 (Z.eqb_neq _ _)) by done. apply subscribed_ok; [done|done|done|lia|]. intros u Hu Hk.
  pose proof (List.find_none _ _ Hfind u) as Hn. apply list_elem_of_In in Hu. specialize (Hn Hu). cbn in Hn.
  by rewrite Hk, bool_decide_true in Hn.
Qed.

(** Looking up a control only notes which one was found. *)
Definition only_handlers {A} (m : v4l2M A) : Prop := forall s a s', m s = Some (a, s') -> exists l, s' = set_vs_hdl l s.

Lemma handlers_mthen {A B} (m : v4l2M A) (k : A -> v4l2M B) :
  only_handlers m -> (forall a, only_handlers (k a)) -> only_handlers (mthen m k).
Proof.
  intros Hm Hk s b s2 Hrun. unfold mthen in Hrun. destruct (m s) as [[a s1]|] eqn:H1; [|done].
  apply Hm in H1 as [l ->]. apply Hk in Hrun as [l' ->]. by exists l'.
Qed.

Lemma handlers_mdo {A} (a : A) : only_handlers (mdo a).
Proof. intros s a' s' [= <- <-]. exists (vs_hdl s). by destruct s. Qed.

Lemma handlers_gets {A} (g : v4l2_state -> A) : only_handlers (gets g).
Proof. intros s a' s' [= <- <-]. exists (vs_hdl s). by destruct s. Qed.

Lemma handlers_the {A} (o : option A) : only_handlers (the o).
Proof. destruct o; [apply handlers_mdo|by intros s a s']. Qed.

Lemma handlers_hdl l : only_handlers (modify (set_vs_hdl l)).
Proof. intros s a s' [= _ <-]. by exists l. Qed.

Ltac handlers :=
  repeat first [apply handlers_mthen; [|intros ?] | apply handlers_mdo | apply handlers_gets | apply handlers_the
    | apply handlers_hdl | match goal with |- only_handlers (if ?b then _ else _) => destruct b end
    | match goal with |- only_handlers (match ?o with Some _ => _ | None => _ end) => destruct o end | done].

Lemma find_only_handlers h id : only_handlers (v4l2_ctrl_find h id).
Proof.
  assert (Hbucket : forall chain i, only_handlers (bucket_loop chain i)).
  { intros chain i. induction chain as [|r chain IH]; cbn [bucket_loop]; unfold ref_id, ref_ctrl, ct_get; handlers. }
  assert (Hprivate : forall refs i, only_handlers (private_loop refs i)).
  { intros refs. induction refs as [|r refs IH]; intros i; cbn [private_loop]; unfold ref_ctrl, ct_get; handlers; apply IH. }
  assert (Hfault : forall A, only_handlers (@fault v4l2_state A)) by by intros A s a s'.
  unfold v4l2_ctrl_find, find_ref_lock, find_ref, find_private_ref, ref_id, ref_ctrl, ct_get, hd_upd, hd_get.
  handlers; (apply Hprivate || apply Hbucket || apply Hfault).
Qed.

(** What the first event of a control tells. *)
Definition initial_changes (c : v4l2_ctrl) : Z :=
  if Z.land (ct_flags c) V4L2_CTRL_FLAG_WRITE_ONLY =? 0
  then Z.lor V4L2_EVENT_CTRL_CH_FLAGS V4L2_EVENT_CTRL_CH_VALUE else V4L2_EVENT_CTRL_CH_FLAGS.

Definition subscribe_control (stack : v4l2_event) (c : v4l2_ctrl) (id flags elems ts : Z) (h : handle) : handle :=
  if existsb (fun u => bool_decide (su_key u = (V4L2_EVENT_CTRL, id))) (q_subs h) then h
  else
    let h := subscribe_event V4L2_EVENT_CTRL id elems h in
    if negb (ct_type c =? V4L2_CTRL_TYPE_CTRL_CLASS) && truthy (Z.land flags V4L2_EVENT_SUB_FL_SEND_INITIAL)
    then queue_event (fill_event stack c (initial_changes c)) ts h else h.

(** The subscription of [f] hears of the control. *)
Lemma add_event_run s f h stack c ct p se :
  handle_ok s f h -> vs_ctrl s !! c = Some ct -> vs_sev s !! p = Some se -> se_fh se = Some f ->
  zlen (q_pending h) < 2 ^ 32 - 1 ->
  wp (v4l2_ctrl_add_event stack c p) s (fun _ s' => only_at f s s' /\ exists ts,
    handle_ok s' f (if negb (ct_type ct =? V4L2_CTRL_TYPE_CTRL_CLASS) && truthy (Z.land (se_flags se) V4L2_EVENT_SUB_FL_SEND_INITIAL)
      then queue_event (fill_event stack ct (initial_changes ct)) ts h else h)).
Proof.
  intros Hok Hct Hse Hfh Hn. unfold v4l2_ctrl_add_event.
  assert (Hget : forall s x, vs_ctrl s !! c = Some x -> ct_get c s = Some (x, s)).
  { intros s0 x0 H0. unfold ct_get, mthen, gets. cbn. by rewrite H0. }
  set (ct1 := set_ct_ev_subs (ct_ev_subs ct ++ [p]) ct). set (s1 := set_vs_ctrl (<[c := ct1]> (vs_ctrl s)) s).
  eapply (wp_eq _ _ _ tt s1); [unfold ct_upd, mthen; by rewrite (Hget s ct)|]. cbv beta.
  assert (Ho : only_at f s s1) by by split.
  assert (Hok1 : handle_ok s1 f h) by (destruct Hok as (x & Hx & Hf); by exists x).
  eapply wp_eq; [apply (Hget s1 ct1); cbn; by rewrite lookup_insert_eq|]. cbv beta.
  eapply wp_eq; [by apply (se_get_run s1 p se)|]. cbv beta. cbn [ct_type ct1 set_ct_ev_subs ct_flags].
  fold (initial_changes ct). destruct (negb _ && _).
  - rewrite Hfh. eapply wp_eq; [done|]. cbv beta. unfold v4l2_event_queue_fh. eapply wp_eq; [done|]. cbv beta.
    set (ts := ktime_get_ts _). eapply wp_mono; [apply (queue_fh_run _ f _ ts h); [by apply handle_ok_tick|done]|].
    cbv beta. intros [] s' [Hok' Ho']. split; [|by exists ts].
    apply (only_at_trans f s s1); [done|]. by apply (only_at_tick s1 f (S (vs_tick s1))).
  - apply wp_mdo. split; [done|by exists 0].
Qed.

Lemma subscribe_ctrl_run s f h x stack id flags elems c ct s1 :
  vs_fh s !! f = Some x -> fh_refines (vs_sev s) f x h -> elems < 2 ^ 31 -> zlen (q_pending h) < 2 ^ 32 - 1 ->
  v4l2_ctrl_find (fh_ctrl_handler x) id s = Some (Some c, s1) -> vs_ctrl s !! c = Some ct ->
  wp (v4l2_event_subscribe stack f (mk_subscription V4L2_EVENT_CTRL id flags) elems) s (fun r s' =>
    only_at f s s' /\
    (r = - ENOMEM /\ handle_ok s' f h \/
     r = 0 /\ exists ts, handle_ok s' f (subscribe_control stack ct id flags elems ts h))).
Proof.
  intros Hx Hf He Hn Hfind Hct. unfold v4l2_event_subscribe. cbn [sub_type sub_id].
  eapply wp_eq; [by apply fh_get_run|]. cbv beta. rewrite Z.eqb_refl. eapply wp_eq; [exact Hfind|]. cbv beta.
  rewrite bool_decide_false by done. cbn [andb].
  apply find_only_handlers in Hfind as [l ->].
  assert (Hel : (if elems <? 1 then 1 else elems) = Z.max 1 elems) by (destruct (Z.ltb_spec elems 1); lia). rewrite Hel.
  eapply wp_eq; [done|]. cbv beta. set (s1 := set_vs_tick _ _). assert (Ho : only_at f s s1) by by split.
  destruct (v4l2_kzalloc_fails _); [split; [done|left; split; [done|by exists x]]|].
  destruct (subscribed_run s1 f x h V4L2_EVENT_CTRL id Hx Hf) as (r & Hrun & Hr).
  eapply wp_eq; [exact Hrun|]. cbv beta. unfold subscribe_control, subscribe_event. rewrite find_existsb.
  destruct r as [p|], (List.find _ (q_subs h)) as [u|] eqn:Hnone; try done.
  { split; [done|right]. split; [done|]. exists 0. by exists x. }
  rewrite (bool_decide_true (is_Some (Some c))) by (by eexists).
  rewrite (bool_decide_false (is_Some (@None subscription))) by (by intros []). rewrite Z.eqb_refl.
  eapply wp_eq; [done|]. cbv beta. set (p := fresh_sev (vs_sev s1)).
  assert (Hp : vs_sev s1 !! p = None) by (apply not_elem_of_dom; exact (is_fresh (dom (vs_sev s1) : gset nat))).
  eapply wp_eq; [done|]. cbv beta. eapply wp_eq; [by apply (fh_upd_run _ f x)|]. cbv beta.
  set (sub := mk_subscription V4L2_EVENT_CTRL id flags).
  match goal with |- wp _ ?s' _ => change s' with (subscribed s1 f p x sub true (Z.max 1 elems)) end.
  assert (Hok : handle_ok (subscribed s1 f p x sub true (Z.max 1 elems)) f
    (mk_handle (mk_sub V4L2_EVENT_CTRL id (Z.max 1 elems) true true :: q_subs h) (q_pending h) (q_sequence h))).
  { apply (subscribed_ok s1 f p x h sub); [done|done|done|lia|]. intros u Hu Hk.
    apply list_elem_of_In in Hu. pose proof (List.find_none _ _ Hnone u Hu) as Hb. cbn in Hb.
    change (sub_type sub, sub_id sub) with (V4L2_EVENT_CTRL, id) in Hk. by rewrite Hk, bool_decide_true in Hb. }
  eapply wp_seq.
  { apply (add_event_run _ f _ stack c ct p (new_sev f sub true (Z.max 1 elems)) Hok); [done| |done|done].
    cbn. by rewrite lookup_insert_eq. }
  cbv beta. intros [] s' (Ho' & ts & Hok'). apply wp_mdo. split; [|right; split; [done|by exists ts]].
  eapply only_at_trans; [|exact Ho']. eapply only_at_trans; [exact Ho|]. by apply only_at_subscribed.
Qed.

(** ** Unsubscribing *)

Definition unsubscribed (s : v4l2_state) (f p : nat) (x : v4l2_fh) : v4l2_state :=
  set_vs_fh (<[f := set_fh_subscribed (filter (fun q => q <> p) (fh_subscribed x)) x]> (vs_fh s))
    (set_vs_sev (delete p (vs_sev s)) s).

Lemma event_unsubscribe_run s f x type id p se :
  vs_fh s !! f = Some x -> v4l2_event_subscribed f type id s = Some (Some p, s) -> vs_sev s !! p = Some se ->
  se_type se <> V4L2_EVENT_CTRL ->
  event_unsubscribe f type id s = Some (0, unsubscribed s f p x).
Proof.
  intros Hx Hrun Hse Ht. unfold event_unsubscribe, mthen at 1. rewrite Hrun. unfold mthen at 1.
  rewrite (fh_get_run _ _ x) by done. unfold mthen at 1. rewrite (fh_upd_run _ _ x) by done.
  set (s1 := set_vs_fh _ s). unfold mthen at 1. rewrite (se_upd_run s1 p se) by done.
  set (s2 := set_vs_sev _ s1). unfold mthen at 1.
  rewrite (se_get_run s2 p (set_se_fh None se)) by (cbn; by rewrite lookup_insert_eq).
  change (se_type (set_se_fh None se)) with (se_type se). rewrite (proj2 (Z.eqb_neq _ _)) by done.
  unfold mthen, gets, modify, mdo, unsubscribed. cbn. by rewrite delete_insert_eq.
Qed.

Lemma only_at_unsubscribed s f p x se :
  vs_sev s !! p = Some se -> se_fh se = Some f -> only_at f s (unsubscribed s f p x).
Proof.
  intros Hp Hf. split; cbn; [intros g Hg|intros q se' Hq Hne|intros q se' Hq _|done].
  - by rewrite lookup_insert_ne.
  - rewrite lookup_delete_ne; [done|]. intros <-. rewrite Hp in Hq. by injection Hq as <-.
  - by apply lookup_delete_Some in Hq as [_ Hq].
Qed.

(** A subscription without pending events goes without a trace. *)
Lemma unsubscribed_ok s f p x h se :
  vs_fh s !! f = Some x -> fh_refines (vs_sev s) f x h -> p ∈ fh_subscribed x -> vs_sev s !! p = Some se ->
  pending_of (se_type se, se_id se) (q_pending h) = [] ->
  handle_ok (unsubscribed s f p x) f (unsubscribe_event (se_type se) (se_id se) h).
Proof.
  intros Hx Hf Hp Hse Hnone. pose proof Hf as [H1 H2 H3 H4 H5 H6 Hvd H7].
  eexists. cbn. rewrite lookup_insert_eq. split; [done|].
  assert (Hfil : filter (fun k => k.1 = p) (fh_available x) = []).
  { pose proof (count_entry _ _ _ _ _ H6 (entry_key _ _ _ _ _ _ Hf Hp Hse)) as Hc. rewrite Hnone in Hc.
    destruct (filter _ _) as [|k l]; [done|]. rewrite zlen_nil, zlen_cons in Hc. pose proof (zlen_nonneg l). lia. }
  assert (Hent : forall k, k ∈ fh_available x -> k.1 <> p).
  { intros k Hin Hk. apply (not_elem_of_nil k). rewrite <-Hfil. by apply list_elem_of_filter. }
  assert (Hsplit : forall q u, q ∈ fh_subscribed x -> sub_ok (vs_sev s) f (fh_available x) q u ->
    q <> p <-> su_key u <> (se_type se, se_id se)).
  { intros q u Hq (se' & Hs' & Hr & Hm & Hsl). pose proof Hm as (M1 & M2 & _).
    assert (Hku : su_key u = (se_type se', se_id se')) by (unfold su_key; by rewrite M1, M2). rewrite Hku. split.
    - intros Hne Heq. apply Hne. by eapply subs_same_key.
    - intros Hne ->. rewrite Hse in Hs'. by injection Hs' as <-. }
  constructor; cbn; [done|done|by apply NoDup_filter| | | |done|].
  - eapply sublist_NoDup; [exact H4|]. apply fmap_sublist, sublist_filter.
  - eapply Forall2_impl_elem; [by apply (Forall2_filter_both _ _ _ _ _ H5)|].
    intros q u [Hq _]%list_elem_of_filter (se' & Hs & Hok). exists se'. by rewrite lookup_delete_ne by done.
  - eapply Forall2_impl_elem; [exact H6|]. intros k e Hin (se' & ev & Hk & Hs & Hok). exists se', ev.
    pose proof (Hent k Hin). rewrite lookup_delete_ne by done. split; [by apply list_elem_of_filter|done].
  - intros q se' [Hq Hs]%lookup_delete_Some Hfh. apply list_elem_of_filter. split; [done|by eapply H7].
Qed.

(** ** Unsubscribing from everything *)

(** Subscriptions of [x] to events of drivers, whatever is on [available]. *)
Definition loose (s : v4l2_state) (f : nat) (l : list nat) : Prop :=
  NoDup l /\ forall p, p ∈ l -> exists se, vs_sev s !! p = Some se /\ se_fh se = Some f /\ driver_type (se_type se).

Lemma unsubscribe_all_run fuel s f x :
  vs_fh s !! f = Some x -> (length (fh_subscribed x) <= fuel)%nat -> loose s f (fh_subscribed x) ->
  wp (v4l2_event_unsubscribe_all fuel f) s (fun _ s' =>
    vs_fh s' !! f = Some (set_fh_subscribed [] x) /\ only_at f s s' /\
    forall p, vs_sev s' !! p = if decide (p ∈ fh_subscribed x) then None else vs_sev s !! p).
Proof.
  revert s x. induction fuel as [|fuel IH]; intros s x Hx Hlen [Hnd Hl];
    destruct (fh_subscribed x) as [|p l] eqn:Hsub; cbn [length] in Hlen; try lia.
  1,2: cbn [v4l2_event_unsubscribe_all]; (eapply wp_eq; [by apply fh_get_run|]); cbv beta; rewrite Hsub; apply wp_mdo;
    split; [by destruct x; cbn in *; subst|]; split; [apply only_at_refl|done].
  destruct (Hl p) as (se & Hse & Hfh & Hall & Hctrl); [apply list_elem_of_here|].
  cbn [v4l2_event_unsubscribe_all]. eapply wp_eq; [by apply fh_get_run|]. cbv beta. rewrite Hsub.
  eapply wp_eq; [by apply se_get_run|]. cbv beta. rewrite (proj2 (Z.eqb_neq _ _)) by done.
  assert (Hrun : v4l2_event_subscribed f (se_type se) (se_id se) s = Some (Some p, s)).
  { unfold v4l2_event_subscribed, mthen. rewrite (fh_get_run _ _ x), Hsub by done. cbn [subscribed_loop].
    unfold mthen. by rewrite (se_get_run _ _ se), !Z.eqb_refl by done. }
  eapply wp_eq; [by eapply event_unsubscribe_run|]. cbv beta. apply NoDup_cons in Hnd as [Hnin Hnd].
  set (s1 := unsubscribed s f p x). assert (Hfil : filter (fun q => q <> p) (fh_subscribed x) = l).
  { rewrite Hsub. apply filter_ne_head. by constructor. }
  set (x1 := set_fh_subscribed l x). eapply wp_mono; [apply (IH s1 x1)|].
  - unfold s1, unsubscribed. cbn. by rewrite lookup_insert_eq, Hfil.
  - cbn. lia.
  - split; [done|]. intros q Hq. cbn in Hq. assert (q <> p) by congruence.
    destruct (Hl q) as (se' & Hse' & Hok'); [by apply list_elem_of_further|]. exists se'. cbn. by rewrite lookup_delete_ne by done.
  - cbn [fh_subscribed x1 set_fh_subscribed]. intros _ s' (H1 & H2 & H3). split; [done|]. split.
    + by apply (only_at_trans f s s1), H2; apply (only_at_unsubscribed s f p x se).
    + intros q. rewrite H3. unfold s1. cbn. destruct (decide (q ∈ l)) as [Hq|Hq], (decide (q ∈ p :: l)) as [Hq'|Hq']; try done.
      * by destruct Hq'; apply list_elem_of_further.
      * apply elem_of_cons in Hq' as [->|]; [by rewrite lookup_delete_eq|done].
      * apply not_elem_of_cons in Hq' as [? _]. by rewrite lookup_delete_ne.
Qed.

(** All of a handle's subscriptions. *)
Lemma refined_loose s f x h : fh_refines (vs_sev s) f x h -> driver_subs h -> loose s f (fh_subscribed x).
Proof.
  intros [H1 H2 H3 H4 H5 H6 Hvd H7] Hd. split; [done|]. intros p Hp.
  destruct (sub_at _ _ _ _ _ _ H5 Hp) as (u & Hu & se & Hse & _ & (M1 & _ & _ & _ & _ & M6) & _).
  exists se. split; [done|]. split; [done|]. rewrite M1. exact (proj1 (Forall_forall _ _) Hd u Hu).
Qed.
End env.
