(* ===== verification/V4l2EventSystem.v ===== *)
(** Events on all the file handles of a video device: any operation of
    v4l2-event.c and v4l2-fh.c on subscriptions to events of drivers is a step of
    the abstract queues. *)

From stdpp Require Import gmap.
From S2P Require Import Prelude StateM V4l2Types V4l2Event V4l2EventSpec V4l2Steps V4l2Handles.

(** ** Operations *)

Inductive event_op :=
  | OpOpen
  | OpRelease (f : nat)
  | OpSubscribe (f : nat) (type id flags elems : Z)
  | OpUnsubscribe (f : nat) (type id : Z)
  | OpQueue (ev : v4l2_event)
  | OpQueueFh (f : nat) (ev : v4l2_event)
  | OpDequeue (f : nat) (nonblocking signal : bool).

Inductive event_result :=
  | RetInt (ret : Z)
  | RetOpen (ret : Z) (fh : option nat)
  | RetDequeue (r : dequeue_result)
  | RetVoid.

(** As many turns as the handle has subscriptions. *)
Definition subs_fuel (f : nat) (s : v4l2_state) : nat :=
  match vs_fh s !! f with Some x => length (fh_subscribed x) | None => 0 end.

Section ops.
Context {E : V4l2Env} (stack : v4l2_event) (vdev_handler : option nat).

Definition run_event_op (o : event_op) : v4l2M event_result :=
  match o with
  | OpOpen => r <- v4l2_fh_open vdev_handler ;; mdo (RetOpen (fst r) (snd r))
  | OpRelease f => n <- gets (subs_fuel f) ;; r <- v4l2_fh_release n (Some f) ;; mdo (RetInt r)
  | OpSubscribe f type id flags elems =>
    r <- v4l2_event_subscribe stack f (mk_subscription type id flags) elems ;; mdo (RetInt r)
  | OpUnsubscribe f type id =>
    n <- gets (subs_fuel f) ;; r <- v4l2_event_unsubscribe n f type id ;; mdo (RetInt r)
  | OpQueue ev => v4l2_event_queue ev ;; mdo RetVoid
  | OpQueueFh f ev => v4l2_event_queue_fh f ev ;; mdo RetVoid
  | OpDequeue f nonblocking signal => r <- v4l2_event_dequeue f nonblocking signal ;; mdo (RetDequeue r)
  end.
End ops.

(** ** The specification *)

Abbreviation handles := (gmap nat handle).

Definition dequeue_empty (nonblocking signal : bool) : dequeue_result :=
  if nonblocking then DqDone (- ENOENT) None
  else if signal then DqDone (- ERESTARTSYS) None else DqSleeps.

Inductive event_step (hs : handles) : event_op -> event_result -> handles -> Prop :=
  | StepOpen f : hs !! f = None -> event_step hs OpOpen (RetOpen 0 (Some f)) (<[f := new_handle]> hs)
  | StepOpenFails : event_step hs OpOpen (RetOpen (- ENOMEM) None) hs
  | StepRelease f : event_step hs (OpRelease f) (RetInt 0) (delete f hs)
  | StepSubscribe f h type id flags elems :
      hs !! f = Some h ->
      event_step hs (OpSubscribe f type id flags elems) (RetInt 0) (<[f := subscribe_event type id elems h]> hs)
  | StepSubscribeFails f type id flags elems :
      event_step hs (OpSubscribe f type id flags elems) (RetInt (- ENOMEM)) hs
  | StepUnsubscribe f h type id :
      hs !! f = Some h -> type <> V4L2_EVENT_ALL ->
      event_step hs (OpUnsubscribe f type id) (RetInt 0) (<[f := unsubscribe_event type id h]> hs)
  | StepUnsubscribeAll f h id :
      hs !! f = Some h ->
      event_step hs (OpUnsubscribe f V4L2_EVENT_ALL id) (RetInt 0) (<[f := mk_handle [] [] (q_sequence h)]> hs)
  | StepQueue ev ts : event_step hs (OpQueue ev) RetVoid (queue_event ev ts <$> hs)
  | StepQueueFh f h ev ts :
      hs !! f = Some h -> event_step hs (OpQueueFh f ev) RetVoid (<[f := queue_event ev ts h]> hs)
  | StepDequeue f h h' e nonblocking signal :
      hs !! f = Some h -> dequeue_event h = Some (e, h') ->
      event_step hs (OpDequeue f nonblocking signal) (RetDequeue (DqDone 0 (Some e))) (<[f := h']> hs)
  | StepDequeueEmpty f h nonblocking signal :
      hs !! f = Some h -> dequeue_event h = None ->
      event_step hs (OpDequeue f nonblocking signal) (RetDequeue (dequeue_empty nonblocking signal)) hs.

(** What a caller keeps to: handles that are open, types that drivers let through,
    counters that have not run out, and no events left of what is unsubscribed. *)
Definition event_op_ok (hs : handles) (o : event_op) : Prop :=
  match o with
  | OpOpen => True
  | OpRelease f => is_Some (hs !! f)
  | OpSubscribe f type _ _ elems => is_Some (hs !! f) /\ driver_type type /\ elems < 2 ^ 31
  | OpUnsubscribe f type id =>
    exists h, hs !! f = Some h /\
      if decide (type = V4L2_EVENT_ALL) then q_pending h = [] else pending_of (type, id) (q_pending h) = []
  | OpQueue ev => forall f h, hs !! f = Some h -> zlen (q_pending h) < 2 ^ 32 - 1
  | OpQueueFh f _ => exists h, hs !! f = Some h /\ zlen (q_pending h) < 2 ^ 32 - 1
  | OpDequeue f _ _ => exists h, hs !! f = Some h /\ zlen (q_pending h) < 2 ^ 32 - 1
  end.

(** ** The relation *)

Definition match_handle (sevs : gmap nat subscribed_event) (f : nat) (x : option v4l2_fh) (h : option handle) : Prop :=
  match x, h with
  | Some x, Some h => fh_refines sevs f x h /\ driver_subs h
  | None, None => True
  | _, _ => False
  end.

(** Every handle refines its queues, the list of the device has all of them, and
    no subscription is left over from a handle that was closed. *)
Record state_refines (s : v4l2_state) (hs : handles) : Prop := {
  sf_handles : forall f, match_handle (vs_sev s) f (vs_fh s !! f) (hs !! f);
  sf_nodup : NoDup (vs_fh_list s);
  sf_listed : forall f, f ∈ vs_fh_list s <-> is_Some (hs !! f);
  sf_owner : forall p se, vs_sev s !! p = Some se -> exists f, se_fh se = Some f /\ is_Some (hs !! f);
}.

Lemma sf_handle s hs f h : state_refines s hs -> hs !! f = Some h -> handle_ok s f h /\ driver_subs h.
Proof.
  intros Hs Hh. pose proof (sf_handles _ _ Hs f) as Hm. rewrite Hh in Hm. unfold match_handle in Hm.
  destruct (vs_fh s !! f) as [x|] eqn:Hx; [|done]. destruct Hm as [Hf Hd]. split; [by exists x|done].
Qed.

Lemma match_other f s s' g h :
  only_at f s s' -> g <> f -> match_handle (vs_sev s) g (vs_fh s !! g) h -> match_handle (vs_sev s') g (vs_fh s' !! g) h.
Proof.
  intros Ho Hg. rewrite (oa_fh _ _ _ Ho g Hg). unfold match_handle.
  destruct (vs_fh s !! g) as [x|] eqn:Hx, h as [h|]; try done. intros [Hf Hd]. split; [|done].
  destruct (only_at_ok f s s' g h Ho Hg) as (x' & Hx' & Hf'); [by exists x|].
  rewrite (oa_fh _ _ _ Ho g Hg), Hx in Hx'. by injection Hx' as <-.
Qed.

(** A step on one handle. *)
Lemma sf_step f s s' hs h h' :
  state_refines s hs -> hs !! f = Some h -> only_at f s s' -> handle_ok s' f h' -> driver_subs h' ->
  state_refines s' (<[f := h']> hs).
Proof.
  intros Hs Hh Ho (x & Hx & Hf) Hd. pose proof Hs as [H1 H2 H3 H4].
  assert (Hdom : forall g, is_Some (<[f := h']> hs !! g) <-> is_Some (hs !! g)).
  { intros g. destruct (decide (g = f)) as [->|Hg]; [rewrite lookup_insert_eq, Hh|by rewrite lookup_insert_ne].
    split; by eexists. }
  constructor.
  - intros g. destruct (decide (g = f)) as [->|Hg]; [by rewrite Hx, lookup_insert_eq|].
    rewrite lookup_insert_ne by done. by eapply match_other.
  - by rewrite (oa_list _ _ _ Ho).
  - intros g. by rewrite (oa_list _ _ _ Ho), Hdom.
  - intros p se Hp. destruct (decide (se_fh se = Some f)) as [Hse|Hse].
    + exists f. split; [done|]. apply Hdom. by eexists.
    + destruct (H4 p se) as (g & Hg & Hin); [by apply (oa_back _ _ _ Ho)|]. exists g. by rewrite Hdom.
Qed.

(** ** Opening and closing *)

Section env.
Context {E : V4l2Env}.

Lemma open_refines vdev_handler s hs :
  state_refines s hs ->
  wp (v4l2_fh_open vdev_handler) s (fun r s' =>
    r = (- ENOMEM, None) /\ state_refines s' hs \/
    exists f, r = (0, Some f) /\ hs !! f = None /\ state_refines s' (<[f := new_handle]> hs)).
Proof.
  intros Hs. pose proof Hs as [H1 H2 H3 H4]. unfold v4l2_fh_open. eapply wp_eq; [done|]. cbv beta.
  set (s1 := set_vs_tick _ s). destruct (v4l2_kzalloc_fails _); [left; split; [done|by destruct Hs]|].
  eapply wp_eq; [done|]. cbv beta zeta. set (f := fresh_fh (vs_fh s1)).
  assert (Hf : vs_fh s1 !! f = None) by (apply not_elem_of_dom; exact (is_fresh (dom (vs_fh s1) : gset nat))).
  assert (Hhs : hs !! f = None).
  { pose proof (H1 f) as Hm. change (vs_fh s) with (vs_fh s1) in Hm. rewrite Hf in Hm. unfold match_handle in Hm.
    by destruct (hs !! f). }
  assert (Hnin : f ∉ vs_fh_list s) by (rewrite H3, Hhs; by intros []).
  eapply wp_eq; [done|]. cbv beta. set (s2 := set_vs_fh _ s1).
  eapply wp_eq; [apply (fh_upd_run s2 f (mk_fh false None [] [] 0 0)); unfold s2; cbn; by rewrite lookup_insert_eq|]. cbv beta.
  unfold s2. cbn [vs_fh set_vs_fh]. rewrite insert_insert_eq.
  eapply wp_eq; [unfold v4l2_fh_add, mthen, gets; cbn; rewrite decide_False by done; done|]. cbv beta. apply wp_mdo.
  right. exists f. split; [done|]. split; [done|]. constructor; cbn.
  - intros g. destruct (decide (g = f)) as [->|Hg].
    + rewrite !lookup_insert_eq. split; [|by constructor]. constructor; cbn; try done; try constructor.
      intros p se Hp Hfh. destruct (H4 p se Hp) as (g & Hg & Hin). rewrite Hfh in Hg. injection Hg as <-.
      rewrite Hhs in Hin. by destruct Hin.
    + rewrite !lookup_insert_ne by done. apply H1.
  - by constructor.
  - intros g. rewrite elem_of_cons, H3, lookup_insert_is_Some. split; [|intros [->|[_ ?]]; [by left|by right]].
    intros [->|Hg]; [by left|]. right. split; [|done]. intros <-. rewrite Hhs in Hg. by destruct Hg.
  - intros p se Hp. destruct (H4 p se Hp) as (g & Hg & Hin). exists g. split; [done|].
    rewrite lookup_insert_ne; [done|]. intros <-. rewrite Hhs in Hin. by destruct Hin.
Qed.

Lemma release_refines s hs f h :
  state_refines s hs -> hs !! f = Some h ->
  wp (v4l2_fh_release (subs_fuel f s) (Some f)) s (fun r s' => r = 0 /\ state_refines s' (delete f hs)).
Proof.
  intros Hs Hh. destruct (sf_handle _ _ _ _ Hs Hh) as [(x & Hx & Hf) Hd]. pose proof Hs as [H1 H2 H3 H4].
  pose proof (refined_loose _ _ _ _ Hf Hd) as Hl.
  unfold subs_fuel. rewrite Hx. unfold v4l2_fh_release.
  eapply wp_eq; [done|]. cbv beta. set (s1 := set_vs_fh_list _ s). unfold v4l2_fh_exit.
  apply wp_mthen. eapply wp_eq; [by apply (fh_get_run s1 f x)|]. cbv beta. rewrite (fr_vdev _ _ _ _ Hf). cbn [negb].
  eapply wp_seq; [by apply (unsubscribe_all_run _ s1 f x)|]. cbv beta. intros [] s2 (Hx2 & Ho & Hsev).
  unfold wp at 1. rewrite (fh_upd_run _ _ _ _ Hx2). eapply wp_eq; [done|]. cbv beta. eapply wp_eq; [done|]. cbv beta.
  apply wp_mdo. split; [done|]. cbn [vs_fh set_vs_fh]. rewrite delete_insert_eq. constructor; cbn.
  - intros g. destruct (decide (g = f)) as [->|Hg]; [by rewrite !lookup_delete_eq|].
    rewrite !lookup_delete_ne by done. eapply match_other; [exact Ho|done|apply H1].
  - rewrite (oa_list _ _ _ Ho). by apply NoDup_filter.
  - intros g. rewrite (oa_list _ _ _ Ho), lookup_delete_is_Some. cbn. rewrite list_elem_of_filter, H3. naive_solver.
  - intros p se Hp. rewrite Hsev in Hp. destruct (decide (p ∈ fh_subscribed x)) as [|Hn]; [done|].
    destruct (H4 p se Hp) as (g & Hg & Hin). exists g. split; [done|]. rewrite lookup_delete_ne; [done|].
    intros <-. apply Hn. by eapply (fr_owned _ _ _ _ Hf).
Qed.

(** ** The other operations *)

Lemma subscribe_driver type id elems h :
  driver_type type -> driver_subs h -> driver_subs (subscribe_event type id elems h).
Proof. intros Ht Hd. unfold subscribe_event. destruct (existsb _ _); [done|]. by constructor. Qed.

Lemma filter_id {A} (P : A -> Prop) `{!forall x, Decision (P x)} (l : list A) : (forall x, x ∈ l -> P x) -> filter P l = l.
Proof.
  induction l as [|x l IH]; intros Hl; [done|]. rewrite filter_cons_True by apply Hl, list_elem_of_here.
  f_equal. apply IH. intros y Hy. apply Hl. by apply list_elem_of_further.
Qed.

Lemma state_refines_tick s hs n : state_refines (set_vs_tick n s) hs <-> state_refines s hs.
Proof. split; intros [H1 H2 H3 H4]; by constructor. Qed.

Lemma queue_event_subs ev ts h : q_subs (queue_event ev ts h) = q_subs h.
Proof. unfold queue_event. by destruct (List.find _ _). Qed.

Lemma dequeue_event_subs h e h' : dequeue_event h = Some (e, h') -> q_subs h' = q_subs h.
Proof. unfold dequeue_event. destruct (q_pending h); [done|]. by intros [= _ <-]. Qed.

Lemma queue_one_refines s hs f h ev ts :
  state_refines s hs -> hs !! f = Some h -> zlen (q_pending h) < 2 ^ 32 - 1 ->
  wp (__v4l2_event_queue_fh f ev ts) s (fun _ s' => state_refines s' (<[f := queue_event ev ts h]> hs)).
Proof.
  intros Hs Hh Hn. destruct (sf_handle _ _ _ _ Hs Hh) as [Hok Hd].
  eapply wp_mono; [by apply (queue_fh_run s f ev ts h)|]. intros _ s' [Hok' Ho].
  eapply sf_step; [done|done|done|done|]. unfold driver_subs. by rewrite queue_event_subs.
Qed.

Definition queue_on (l : list nat) (ev : v4l2_event) (ts : Z) (hs : handles) : handles :=
  map_imap (fun f h => Some (if decide (f ∈ l) then queue_event ev ts h else h)) hs.

Lemma queue_on_cons f l h ev ts hs :
  f ∉ l -> hs !! f = Some h -> queue_on l ev ts (<[f := queue_event ev ts h]> hs) = queue_on (f :: l) ev ts hs.
Proof.
  intros Hf Hh. apply map_eq. intros g. unfold queue_on. rewrite !map_lookup_imap.
  destruct (decide (g = f)) as [->|Hg].
  - rewrite lookup_insert_eq, Hh. cbn. by rewrite decide_False, decide_True by (done || apply list_elem_of_here).
  - rewrite lookup_insert_ne by done. destruct (hs !! g) as [h'|]; [|done]. cbn. f_equal.
    destruct (decide (g ∈ l)) as [Hin|Hin]; [rewrite decide_True by (by apply list_elem_of_further); done|].
    rewrite decide_False; [done|]. by apply not_elem_of_cons.
Qed.

Lemma queue_loop l ev ts : forall s hs,
  state_refines s hs -> NoDup l -> (forall f, f ∈ l -> exists h, hs !! f = Some h /\ zlen (q_pending h) < 2 ^ 32 - 1) ->
  wp (mfor l (fun f => __v4l2_event_queue_fh f ev ts)) s (fun _ s' => state_refines s' (queue_on l ev ts hs)).
Proof.
  induction l as [|f l IH]; intros s hs Hs Hnd Hl.
  - apply wp_mdo. assert (queue_on [] ev ts hs = hs) as ->; [|done]. apply map_eq. intros g. unfold queue_on.
    rewrite map_lookup_imap. by destruct (hs !! g).
  - apply NoDup_cons in Hnd as [Hf Hnd]. cbn [mfor]. destruct (Hl f (list_elem_of_here _ _)) as (h & Hh & Hn).
    eapply wp_seq; [by apply queue_one_refines|]. cbv beta. intros _ s1 Hs1.
    rewrite <-(queue_on_cons _ _ h) by done. apply IH; [done|done|]. intros g Hg.
    rewrite lookup_insert_ne by congruence. apply Hl. by apply list_elem_of_further.
Qed.

Lemma queue_on_all s hs ev ts :
  state_refines s hs -> queue_on (vs_fh_list s) ev ts hs = queue_event ev ts <$> hs.
Proof.
  intros Hs. apply map_eq. intros f. unfold queue_on. rewrite lookup_fmap, map_lookup_imap.
  destruct (hs !! f) as [h|] eqn:Hh; [|done]. cbn. rewrite decide_True; [done|]. apply (sf_listed _ _ Hs). by rewrite Hh.
Qed.

Lemma unsubscribe_refines s hs f h type id :
  state_refines s hs -> hs !! f = Some h -> type <> V4L2_EVENT_ALL -> pending_of (type, id) (q_pending h) = [] ->
  wp (event_unsubscribe f type id) s (fun r s' =>
    r = 0 /\ state_refines s' (<[f := unsubscribe_event type id h]> hs)).
Proof.
  intros Hs Hh Ht Hn. destruct (sf_handle _ _ _ _ Hs Hh) as [(x & Hx & Hf) Hd].
  destruct (subscribed_run s f x h type id Hx Hf) as (r & Hrun & Hr).
  destruct r as [p|], (List.find _ (q_subs h)) as [u|] eqn:Hfind; try done.
  - destruct Hr as (Hp & Hok & Hk). pose proof Hok as (se & Hse & _ & Hm & _).
    rewrite (sub_ok_key _ _ _ _ _ _ Hok Hse) in Hk. injection Hk as <- <-.
    destruct Hm as (M1 & M2 & M3 & M4 & M5 & M6).
    assert (Hdt : driver_type (se_type se)).
    { rewrite M1. refine (proj1 (Forall_forall _ _) Hd u _). apply List.find_some in Hfind as [Hin _].
      by apply list_elem_of_In. }
    unfold wp. rewrite (event_unsubscribe_run s f x _ _ p se Hx Hrun Hse) by apply Hdt. split; [done|].
    eapply sf_step; [done|done|by eapply only_at_unsubscribed|by apply unsubscribed_ok|].
    apply Forall_forall. intros u' [_ Hin]%list_elem_of_filter. exact (proj1 (Forall_forall _ _) Hd u' Hin).
  - unfold event_unsubscribe. eapply wp_eq; [exact Hrun|]. apply wp_mdo. split; [done|].
    assert (Hsame : unsubscribe_event type id h = h).
    { destruct h as [subs pending sq]. unfold unsubscribe_event. cbn in *. f_equal. apply filter_id.
      intros u Hin Hk. apply list_elem_of_In in Hin. pose proof (List.find_none _ _ Hfind u Hin) as Hb. cbn in Hb.
      by rewrite bool_decide_true in Hb. }
    rewrite Hsame, insert_id by done. done.
Qed.

Lemma unsubscribe_all_refines s hs f h :
  state_refines s hs -> hs !! f = Some h -> q_pending h = [] ->
  wp (v4l2_event_unsubscribe_all (subs_fuel f s) f) s (fun _ s' =>
    state_refines s' (<[f := mk_handle [] [] (q_sequence h)]> hs)).
Proof.
  intros Hs Hh Hn. destruct (sf_handle _ _ _ _ Hs Hh) as [(x & Hx & Hf) Hd].
  pose proof (refined_loose _ _ _ _ Hf Hd) as Hl. unfold subs_fuel. rewrite Hx.
  eapply wp_mono; [by apply (unsubscribe_all_run _ s f x)|]. intros _ s' (Hx' & Ho & Hsev).
  eapply sf_step; [done|done|done| |by constructor]. exists (set_fh_subscribed [] x). split; [done|].
  destruct Hf as [H1 H2 H3 H4 H5 H6 Hvd H7]. rewrite Hn in H6. apply Forall2_nil_inv_r in H6 as HA.
  constructor; cbn; rewrite ?HA; try done; try constructor.
  - by rewrite H2, HA.
  - intros p se Hp Hfh. rewrite Hsev in Hp. destruct (decide (p ∈ fh_subscribed x)) as [|Hni]; [done|].
    destruct Hni. by eapply H7.
Qed.

Lemma dequeue_refines s hs f h nonblocking signal :
  state_refines s hs -> hs !! f = Some h -> zlen (q_pending h) < 2 ^ 32 - 1 ->
  wp (v4l2_event_dequeue f nonblocking signal) s (fun r s' =>
    match dequeue_event h with
    | Some (e, h') => r = DqDone 0 (Some e) /\ state_refines s' (<[f := h']> hs)
    | None => r = dequeue_empty nonblocking signal /\ state_refines s' hs
    end).
Proof.
  intros Hs Hh Hn. destruct (sf_handle _ _ _ _ Hs Hh) as [Hok Hd].
  assert (Hrun := dequeue_run s f h Hok ltac:(lia)).
  assert (Hstep : forall e h' s', dequeue_event h = Some (e, h') -> handle_ok s' f h' -> only_at f s s' ->
    state_refines s' (<[f := h']> hs)).
  { intros e h' s' He Hok' Ho. eapply sf_step; [done|done|done|done|]. unfold driver_subs.
    by rewrite (dequeue_event_subs _ _ _ He). }
  unfold v4l2_event_dequeue, dequeue_empty. destruct nonblocking.
  - eapply wp_seq; [exact Hrun|]. cbv beta. intros r s' Hr. apply wp_mdo.
    destruct (dequeue_event h) as [[e h']|] eqn:He; [destruct Hr as (-> & Hok' & Ho)|by destruct Hr as [-> ->]].
    split; [done|by eapply Hstep].
  - destruct Hok as (x & Hx & Hf). unfold v4l2_event_wait. eapply wp_eq; [by apply fh_get_run|]. cbv beta.
    pose proof (Forall2_length _ _ _ (fr_pending _ _ _ _ Hf)) as Hlen.
    destruct (Z.eqb_spec (fh_navailable x) 0) as [Hz|Hz]; cbn [negb].
    + assert (Hnone : dequeue_event h = None).
      { rewrite (fr_navailable _ _ _ _ Hf) in Hz. unfold dequeue_event, zlen in *.
        destruct (q_pending h); [done|]. cbn in Hlen. lia. }
      rewrite Hnone. by destruct signal; apply wp_mdo.
    + assert (Hsome : exists e h', dequeue_event h = Some (e, h')).
      { rewrite (fr_navailable _ _ _ _ Hf) in Hz. unfold dequeue_event, zlen in *.
        destruct (q_pending h) as [|e l]; [cbn in Hlen; lia|by eexists _, _]. }
      destruct Hsome as (e & h' & He). rewrite He in Hrun |- *. eapply wp_seq; [exact Hrun|]. cbv beta.
      intros r s' (-> & Hok' & Ho). apply wp_mdo. split; [done|by eapply Hstep].
Qed.

Lemma queue_refines s hs ev :
  state_refines s hs -> (forall f h, hs !! f = Some h -> zlen (q_pending h) < 2 ^ 32 - 1) ->
  wp (v4l2_event_queue ev) s (fun _ s' => exists ts, state_refines s' (queue_event ev ts <$> hs)).
Proof.
  intros Hs Hn. unfold v4l2_event_queue. eapply wp_eq; [done|]. cbv beta. eapply wp_eq; [done|]. cbv beta.
  set (ts := ktime_get_ts _). eapply wp_mono; [apply (queue_loop (vs_fh_list s) ev ts _ hs)|].
  - by apply state_refines_tick.
  - apply Hs.
  - intros f [h Hh]%(sf_listed _ _ Hs). exists h. split; [done|by eapply Hn].
  - cbv beta. intros _ s' Hs'. exists ts. by rewrite <-(queue_on_all s).
Qed.

Lemma queue_fh_refines s hs f h ev :
  state_refines s hs -> hs !! f = Some h -> zlen (q_pending h) < 2 ^ 32 - 1 ->
  wp (v4l2_event_queue_fh f ev) s (fun _ s' => exists ts, state_refines s' (<[f := queue_event ev ts h]> hs)).
Proof.
  intros Hs Hh Hn. unfold v4l2_event_queue_fh. eapply wp_eq; [done|]. cbv beta.
  eapply wp_mono; [apply (queue_one_refines _ hs f h); [by apply state_refines_tick|done|done]|].
  cbv beta. intros _ s' Hs'. by eexists.
Qed.

Lemma event_op_refines stack vdev_handler (s : v4l2_state) (hs : handles) (o : event_op) :
  state_refines s hs -> event_op_ok hs o ->
  exists r s' hs', run_event_op stack vdev_handler o s = Some (r, s') /\ event_step hs o r hs' /\ state_refines s' hs'.
Proof.
  intros Hs Hok. cut (wp (run_event_op stack vdev_handler o) s (fun r s' => exists hs', event_step hs o r hs' /\ state_refines s' hs')).
  { intros H. apply wp_run in H as (r & s' & Hrun & hs' & Hst & Hr). by exists r, s', hs'. }
  destruct o as [|f|f type id flags elems|f type id|ev|f ev|f nonblocking signal]; cbn in Hok |- *.
  - eapply wp_seq; [by apply open_refines|]. cbv beta. intros r s' [[-> Hs']|(f & -> & Hf & Hs')]; apply wp_mdo.
    + exists hs. split; [constructor|done].
    + exists (<[f := new_handle]> hs). split; [by constructor|done].
  - destruct Hok as [h Hh]. eapply wp_eq; [done|]. eapply wp_seq; [by eapply release_refines|].
    cbv beta. intros r s' [-> Hs']. apply wp_mdo. eexists. split; [constructor|done].
  - destruct Hok as ([h Hh] & [Hall Hctrl] & He). destruct (sf_handle _ _ _ _ Hs Hh) as [Hok Hd].
    eapply wp_seq; [by apply (subscribe_run s f h)|]. cbv beta. intros r s' (Ho & [[-> Hok']|[-> Hok']]); apply wp_mdo.
    + exists hs. split; [constructor|]. rewrite <-(insert_id hs f h Hh). by eapply sf_step.
    + eexists. split; [by constructor|]. eapply sf_step; [done|done|done|done|]. by apply subscribe_driver.
  - destruct Hok as (h & Hh & Hn). eapply wp_eq; [done|]. cbv beta. unfold v4l2_event_unsubscribe.
    destruct (decide (type = V4L2_EVENT_ALL)) as [->|Ht].
    + eapply (wp_seq _ _ _ (fun r s' => r = 0 /\ state_refines s' (<[f := mk_handle [] [] (q_sequence h)]> hs))).
      * eapply wp_seq; [by apply unsubscribe_all_refines|]. cbv beta. intros [] s' Hs'. by apply wp_mdo.
      * intros r s' [-> Hs']. apply wp_mdo. eexists. split; [by constructor|done].
    + rewrite (proj2 (Z.eqb_neq _ _)) by done. eapply wp_seq; [by apply unsubscribe_refines|]. cbv beta.
      intros r s' [-> Hs']. apply wp_mdo. eexists. split; [by constructor|done].
  - eapply wp_seq; [by apply queue_refines|]. cbv beta. intros [] s' [ts Hs']. apply wp_mdo.
    eexists. split; [by constructor|done].
  - destruct Hok as (h & Hh & Hn). eapply wp_seq; [by apply queue_fh_refines|]. cbv beta. intros [] s' [ts Hs'].
    apply wp_mdo. eexists. split; [by constructor|done].
  - destruct Hok as (h & Hh & Hn). eapply wp_seq; [by apply dequeue_refines|]. cbv beta. intros r s' Hr. apply wp_mdo.
    destruct (dequeue_event h) as [[e h']|] eqn:He; destruct Hr as [-> Hs']; eexists; (split; [by econstructor|done]).
Qed.
(** Claim C16: an operation on file handles and events of drivers never faults, and is a
    step of the abstract queues: every subscription is a bounded queue that drops its
    oldest event, all of a handle's events are delivered in the order in which they were
    queued with the number of those left behind, no handle disturbs another, and a closed
    handle leaves no subscription behind.  The operations are on open handles and events
    of drivers, not of controls, with fewer than 2^31 elements and fewer than 2^32 - 1
    events waiting; and nothing is unsubscribed of which an event is still waiting
    ([event_op_ok]): the code leaves such an event in the queue of the handle, with a
    pointer to the subscription that it frees ([unsubscribe_leaves_events]). *)
Theorem events_refine_queues stack vdev_handler (s : v4l2_state) (hs : handles) (o : event_op) :
  state_refines s hs -> event_op_ok hs o ->
  exists r s' hs', run_event_op stack vdev_handler o s = Some (r, s') /\ event_step hs o r hs' /\ state_refines s' hs'.
Proof. apply event_op_refines. Qed.
End env.
