(* ===== verification/V4l2EventDemo.v ===== *)
(** V4L2 events at work: control changes are never lost, a device with a file
    handle that witnesses the theorems, and what modelling the code showed. *)

From stdpp Require Import gmap strings.
From S2P Require Import Prelude StateM V4l2Types V4l2Event V4l2EventSpec V4l2Steps V4l2Handles V4l2EventSystem.

(** ** Changes of controls *)

(** All that the pending events of a subscription tell of what changed. *)
Definition changes_of (key : Z * Z) (l : list v4l2_event) : Z :=
  foldr (fun ev acc => Z.lor (ec_changes (ev_ctrl ev)) acc) 0 (pending_of key l).

Lemma changes_of_cons key e l :
  changes_of key (e :: l) = if has_key key e then Z.lor (ec_changes (ev_ctrl e)) (changes_of key l) else changes_of key l.
Proof.
  unfold changes_of, pending_of. rewrite filter_cons. by destruct (has_key key e).
Qed.

Lemma changes_of_app key l k : changes_of key (l ++ k) = Z.lor (changes_of key l) (changes_of key k).
Proof.
  induction l as [|e l IH]; [by rewrite Z.lor_0_l|]. cbn [app]. rewrite !changes_of_cons, IH.
  destruct (has_key key e); by rewrite ?Z.lor_assoc.
Qed.

Lemma changes_of_take key l old rest :
  take_first key l = Some (old, rest) -> changes_of key l = Z.lor (ec_changes (ev_ctrl old)) (changes_of key rest).
Proof.
  revert rest. induction l as [|e l IH]; intros rest; [done|]. cbn [take_first]. rewrite changes_of_cons.
  destruct (has_key key e) eqn:He; [by intros [= -> ->]|].
  destruct (take_first key l) as [[o r]|]; [|done]. intros [= -> <-]. rewrite changes_of_cons, He. by apply IH.
Qed.

(** The event that is now the oldest tells what the dropped one told. *)
Lemma changes_of_merge key old l :
  pending_of key l <> [] ->
  changes_of key (change_first key (ctrls_merge old) l) = Z.lor (ec_changes (ev_ctrl old)) (changes_of key l).
Proof.
  induction l as [|e l IH]; [done|]. cbn [change_first]. intros Hne. rewrite changes_of_cons.
  destruct (has_key key e) eqn:He.
  - rewrite changes_of_cons. change (has_key key (ctrls_merge old e)) with (has_key key e). rewrite He. cbn.
    rewrite (Z.lor_comm (ec_changes (ev_ctrl e))). by rewrite Z.lor_assoc.
  - rewrite changes_of_cons, He. apply IH. intros H0. apply Hne. unfold pending_of in *. rewrite filter_cons, He. done.
Qed.

Lemma pending_of_take key l old rest :
  take_first key l = Some (old, rest) -> zlen (pending_of key l) = 1 + zlen (pending_of key rest).
Proof.
  revert rest. induction l as [|e l IH]; intros rest; [done|]. cbn [take_first]. unfold pending_of in *.
  destruct (has_key key e) eqn:He.
  - intros [= -> ->]. rewrite filter_cons_True by (by rewrite He). apply zlen_cons.
  - destruct (take_first key l) as [[o r]|]; [|done]. intros [= -> <-].
    rewrite !filter_cons, He. cbn. by apply IH.
Qed.

(** A queue of a control tells of every change, however many events it had to
    drop. *)
Lemma queue_keeps_changes ev ts h u :
  List.find (fun u => bool_decide (su_key u = ev_key ev)) (q_subs h) = Some u ->
  su_replace u = true -> su_merge u = true -> 1 <= su_elems u ->
  changes_of (ev_key ev) (q_pending (queue_event ev ts h)) =
    Z.lor (changes_of (ev_key ev) (q_pending h)) (ec_changes (ev_ctrl ev)).
Proof.
  intros Hfind Hrep Hmerge Hel. unfold queue_event. rewrite Hfind. cbn [q_pending].
  assert (Hone : forall e, ev_key e = ev_key ev -> changes_of (ev_key ev) [e] = ec_changes (ev_ctrl e)).
  { intros e He. unfold changes_of, pending_of, has_key. cbn. rewrite bool_decide_true by done. cbn. apply Z.lor_0_r. }
  destruct (Z.ltb_spec (zlen (pending_of (ev_key ev) (q_pending h))) (su_elems u)) as [Hlt|Hge].
  { by rewrite changes_of_app, Hone. }
  destruct (take_first (ev_key ev) (q_pending h)) as [[old rest]|] eqn:Htake.
  2: { by rewrite changes_of_app, Hone. }
  rewrite (changes_of_take _ _ _ _ Htake), Hrep, Hmerge. destruct (Z.eqb_spec (su_elems u) 1) as [H1|H1].
  - rewrite changes_of_app, Hone by done. cbn. rewrite (Z.lor_comm (ec_changes (ev_ctrl ev))), Z.lor_assoc. f_equal. apply Z.lor_comm.
  - rewrite changes_of_app, Hone by done. cbn. f_equal. apply changes_of_merge. intros Hnil.
    pose proof (pending_of_take _ _ _ _ Htake) as Hlen. rewrite Hnil, zlen_nil in Hlen. lia.
Qed.

Section env.
Context {E : V4l2Env}.

Lemma subscription_elems s f h u : handle_ok s f h -> u ∈ q_subs h -> 1 <= su_elems u.
Proof.
  intros (x & _ & Hf) [i Hi]%list_elem_of_lookup.
  destruct (Forall2_lookup_r _ _ _ _ _ (fr_subs _ _ _ _ Hf) Hi) as (p & _ & se & _ & Hr & (_ & _ & <- & _) & _).
  pose proof (rg_elems _ Hr). lia.
Qed.

(** A subscription never has more events than it was made for. *)
Lemma subscription_bound s f h u key :
  handle_ok s f h -> u ∈ q_subs h -> su_key u = key -> zlen (pending_of key (q_pending h)) <= su_elems u.
Proof.
  intros (x & _ & Hf) [i Hi]%list_elem_of_lookup <-.
  destruct (Forall2_lookup_r _ _ _ _ _ (fr_subs _ _ _ _ Hf) Hi) as (p & Hp & Hok).
  apply list_elem_of_lookup_2 in Hp. pose proof Hok as (se & Hse & Hr & (_ & _ & <- & _) & _).
  rewrite (sub_ok_key _ _ _ _ _ _ Hok Hse), (pending_length _ _ _ _ _ _ _ Hf Hp Hok Hse). apply Hr.
Qed.

(** Claim C34: an event of a control is never lost without trace: what the
    pending events of the subscription told of changes before, they tell
    together with the new event afterwards, although the subscription never has
    more events than it was made for. *)
Theorem control_changes_never_lost (s : v4l2_state) (f : nat) (h : handle) (u : subscription) (ev : v4l2_event) (ts : Z) :
  handle_ok s f h -> zlen (q_pending h) < 2 ^ 32 - 1 ->
  List.find (fun u => bool_decide (su_key u = ev_key ev)) (q_subs h) = Some u ->
  su_replace u = true -> su_merge u = true ->
  exists s' h', __v4l2_event_queue_fh f ev ts s = Some (tt, s') /\ handle_ok s' f h' /\
    changes_of (ev_key ev) (q_pending h') =
      Z.lor (changes_of (ev_key ev) (q_pending h)) (ec_changes (ev_ctrl ev)) /\
    zlen (pending_of (ev_key ev) (q_pending h')) <= su_elems u.
Proof.
  intros Hok Hn Hfind Hrep Hmerge. pose proof (queue_fh_run s f ev ts h Hok Hn) as Hrun.
  apply wp_run in Hrun as ([] & s' & Hrun & Hok' & _). exists s', (queue_event ev ts h). split; [done|]. split; [done|].
  pose proof (List.find_some _ _ Hfind) as [Hin Hkey]. apply list_elem_of_In in Hin. apply bool_decide_eq_true in Hkey. split.
  - eapply queue_keeps_changes; [done|done|done|exact (subscription_elems _ _ _ _ Hok Hin)].
  - apply (subscription_bound s' f); [done|by rewrite queue_event_subs|done].
Qed.

End env.

(** ** A device with a control *)

Definition demo_env : V4l2Env := {| v4l2_kzalloc_fails := fun _ => false; ktime_get_ts := Z.of_nat |}.
#[local] Existing Instance demo_env.

Definition brightness : Z := 0x00980900.

Definition demo_ctrl : v4l2_ctrl :=
  mk_ctrl [] 0 (Some (ClusterRef 0)) 1 false false false false false 0 None brightness EmptyString V4L2_CTRL_TYPE_INTEGER
    0 255 128 1 None 0 (mk_value 128 []) (mk_value 128 []).

Definition demo_start : v4l2_state :=
  mk_v4l2 ∅ [] ∅ {[0%nat := demo_ctrl]} {[0%nat := mk_ref 0 None]}
    [mk_hdl [0%nat] [0%nat] None (Some [[0%nat]]) 1 0] ∅ [] 0.

(** The stack before a call. *)
Definition demo_stack : v4l2_event := set_ev_data (replicate 24 165) zero_event.

Fixpoint run_event_ops (ops : list event_op) : v4l2M (list event_result) :=
  match ops with
  | [] => mdo []
  | o :: ops => r <- run_event_op demo_stack (Some 0%nat) o ;; rs <- run_event_ops ops ;; mdo (r :: rs)
  end.

Definition results {A} (r : option (A * v4l2_state)) : option A := fst <$> r.

Definition V4L2_EVENT_VSYNC : Z := 1.
Definition vsync (n : Z) : v4l2_event := set_ev_type V4L2_EVENT_VSYNC (set_ev_data (n :: replicate 23 0) zero_event).

(** A queue of two that gets three events delivers the last two. *)
Example oldest_event_is_dropped :
  results (run_event_ops [OpOpen; OpSubscribe 0 V4L2_EVENT_VSYNC 0 0 2; OpQueue (vsync 1); OpQueue (vsync 2);
    OpQueueFh 0 (vsync 3); OpDequeue 0 true false; OpDequeue 0 false false; OpDequeue 0 false false] demo_start) =
  Some [RetOpen 0 (Some 0%nat); RetInt 0; RetVoid; RetVoid; RetVoid;
    RetDequeue (DqDone 0 (Some (set_ev_pending 1 (set_ev_timestamp 3 (set_ev_sequence 1 (vsync 2))))));
    RetDequeue (DqDone 0 (Some (set_ev_timestamp 4 (set_ev_sequence 2 (vsync 3)))));
    RetDequeue DqSleeps].
Proof. vm_compute. reflexivity. Qed.

(** ** The theorems at work *)

Definition after (ops : list event_op) : v4l2_state := default demo_start (snd <$> run_event_ops ops demo_start).

Lemma start_refines : state_refines demo_start ∅.
Proof.
  constructor; cbn.
  - intros f. by rewrite !lookup_empty.
  - constructor.
  - intros f. rewrite lookup_empty. split; [by intros ?%elem_of_nil|by intros []].
  - intros p se Hp. by rewrite lookup_empty in Hp.
Qed.

Lemma opened_refines : state_refines (after [OpOpen]) {[0%nat := new_handle]}.
Proof.
  pose proof (open_refines (Some 0%nat) _ _ start_refines) as Hrun.
  apply wp_run in Hrun as (r & s' & Hrun & Hs').
  assert (Hrun' : v4l2_fh_open (Some 0%nat) demo_start = Some ((0, Some 0%nat), after [OpOpen])) by (vm_compute; reflexivity).
  rewrite Hrun' in Hrun. apply (inj Some) in Hrun. apply pair_eq in Hrun as [<- <-].
  destruct Hs' as [[Hr _]|(f & Hr & _ & Hs')]; [done|]. apply pair_eq in Hr as [_ Hr]. apply (inj Some) in Hr as <-. done.
Qed.

Lemma subscribed_refines :
  state_refines (after [OpOpen; OpSubscribe 0 V4L2_EVENT_VSYNC 0 0 2])
    {[0%nat := subscribe_event V4L2_EVENT_VSYNC 0 2 new_handle]}.
Proof.
  destruct (event_op_refines demo_stack (Some 0%nat) _ _ (OpSubscribe 0 V4L2_EVENT_VSYNC 0 0 2) opened_refines)
    as (r & s' & hs' & Hrun & Hst & Hs').
  - split; [by eexists|]. split; [done|lia].
  - assert (Hrun' : run_event_op demo_stack (Some 0%nat) (OpSubscribe 0 V4L2_EVENT_VSYNC 0 0 2) (after [OpOpen]) =
      Some (RetInt 0, after [OpOpen; OpSubscribe 0 V4L2_EVENT_VSYNC 0 0 2])) by (vm_compute; reflexivity).
    rewrite Hrun' in Hrun. apply (inj Some) in Hrun. apply pair_eq in Hrun as [<- <-].
    inversion Hst as [| | |f h t i fl el Hh| | | | | | |]; subst. rewrite lookup_singleton_eq in Hh. injection Hh as <-.
    by rewrite insert_singleton_eq in Hs'.
Qed.

(** A full queue gets another event. *)
Lemma events_refine_queues_witness :
  let hs := {[0%nat := subscribe_event V4L2_EVENT_VSYNC 0 2 new_handle]} in
  let s := after [OpOpen; OpSubscribe 0 V4L2_EVENT_VSYNC 0 0 2] in
  state_refines s hs /\ event_op_ok hs (OpQueue (vsync 1)) /\
  exists r s' hs', run_event_op demo_stack (Some 0%nat) (OpQueue (vsync 1)) s = Some (r, s') /\
    event_step hs (OpQueue (vsync 1)) r hs' /\ state_refines s' hs'.
Proof.
  cbv zeta. assert (Hok : event_op_ok {[0%nat := subscribe_event V4L2_EVENT_VSYNC 0 2 new_handle]} (OpQueue (vsync 1))).
  { intros f h Hh. apply lookup_singleton_Some in Hh as [_ <-]. vm_compute. reflexivity. }
  split; [exact subscribed_refines|]. split; [exact Hok|].
  exact (events_refine_queues demo_stack (Some 0%nat) _ _ _ subscribed_refines Hok).
Defined.

Definition control_subscription : subscription := mk_sub V4L2_EVENT_CTRL brightness 1 true true.

(** A handle whose queue of one holds the first event of a control. *)
Lemma control_handle :
  exists s ts, handle_ok s 0 (subscribe_control demo_stack demo_ctrl brightness V4L2_EVENT_SUB_FL_SEND_INITIAL 1 ts new_handle).
Proof.
  destruct (sf_handle _ _ 0%nat new_handle opened_refines) as [(x & Hx & Hf) _]; [by rewrite lookup_singleton_eq|].
  assert (Hx' : vs_fh (after [OpOpen]) !! 0%nat = Some (mk_fh true (Some 0%nat) [] [] 0 (u32 (- 1)))) by (vm_compute; reflexivity).
  rewrite Hx' in Hx. injection Hx as <-.
  destruct (v4l2_ctrl_find (Some 0%nat) brightness (after [OpOpen])) as [[c s1]|] eqn:Hfind; [|by vm_compute in Hfind].
  assert (Hc : c = Some 0%nat) by (vm_compute in Hfind; by apply (inj Some), pair_eq in Hfind as [<- _]). subst c.
  pose proof (subscribe_ctrl_run (after [OpOpen]) 0 new_handle _ demo_stack brightness V4L2_EVENT_SUB_FL_SEND_INITIAL 1
    0 demo_ctrl s1 Hx' Hf ltac:(lia) ltac:(vm_compute; reflexivity) Hfind ltac:(vm_compute; reflexivity)) as Hrun.
  apply wp_run in Hrun as (r & s' & Hrun & _ & [[-> _]|(_ & ts & Hok)]).
  - by vm_compute in Hrun.
  - by exists s', ts.
Qed.

Definition brightness_event : v4l2_event := fill_event demo_stack demo_ctrl V4L2_EVENT_CTRL_CH_VALUE.

Lemma control_changes_never_lost_witness :
  exists s h, handle_ok s 0 h /\ zlen (q_pending h) < 2 ^ 32 - 1 /\
    List.find (fun u => bool_decide (su_key u = ev_key brightness_event)) (q_subs h) = Some control_subscription /\
    exists s' h', __v4l2_event_queue_fh 0 brightness_event 9 s = Some (tt, s') /\ handle_ok s' 0 h' /\
      changes_of (ev_key brightness_event) (q_pending h') =
        Z.lor (changes_of (ev_key brightness_event) (q_pending h)) V4L2_EVENT_CTRL_CH_VALUE /\
      zlen (pending_of (ev_key brightness_event) (q_pending h')) <= 1.
Proof.
  destruct control_handle as (s & ts & Hok). eexists s, _. split; [exact Hok|].
  split; [reflexivity|]. split; [reflexivity|].
  exact (control_changes_never_lost s 0 _ control_subscription brightness_event 9 Hok eq_refl eq_refl eq_refl eq_refl).
Defined.

(** An event that is still pending when its subscription ends stays in the list
    of the handle, in memory that was freed: the next dequeue uses it. *)
Theorem unsubscribe_leaves_events :
  let ops := [OpOpen; OpSubscribe 0 V4L2_EVENT_VSYNC 0 0 2; OpQueue (vsync 1); OpUnsubscribe 0 V4L2_EVENT_VSYNC 0] in
  is_Some (run_event_ops ops demo_start) /\ run_event_ops (ops ++ [OpDequeue 0 true false]) demo_start = None.
Proof. split; vm_compute; [by eexists|reflexivity]. Qed.

(** [fill_event] sets the members of the control in the union, and user space gets
    what the stack held in the rest of it. *)
Theorem control_events_leak_the_stack :
  exists ev, results (run_event_ops [OpOpen; OpSubscribe 0 V4L2_EVENT_CTRL brightness V4L2_EVENT_SUB_FL_SEND_INITIAL 1;
    OpDequeue 0 true false] demo_start) = Some [RetOpen 0 (Some 0%nat); RetInt 0; RetDequeue (DqDone 0 (Some ev))] /\
  ev_data ev = ev_data demo_stack.
Proof. eexists. split; [vm_compute; reflexivity|reflexivity]. Qed.

(** The id of a subscription may carry a flag, since looking up a control masks
    it off; the events of the control carry none, and none arrives. *)
Theorem flagged_subscriptions_are_deaf :
  results (run_event_ops [OpOpen;
    OpSubscribe 0 V4L2_EVENT_CTRL (Z.lor brightness V4L2_CTRL_FLAG_NEXT_CTRL) V4L2_EVENT_SUB_FL_SEND_INITIAL 1;
    OpDequeue 0 true false] demo_start) =
  Some [RetOpen 0 (Some 0%nat); RetInt 0; RetDequeue (DqDone (- ENOENT) None)].
Proof. vm_compute. reflexivity. Qed.
