(* ===== verification/V4l2CtrlNew.v ===== *)
(** drivers/media/video/v4l2-ctrls.c: handlers and the controls in them.

    One definition per function.  Controls and references are allocated under
    numbers that are never used again.  Adding a reference for a control may
    first add one for the control of its class, which has no class of its own:
    [new_ref_at] is unrolled as often as that takes. *)

From Stdlib Require Import String.
From stdpp Require Import gmap strings.
From S2P Require Import Prelude StateM V4l2Types V4l2CtrlTables V4l2Event.

(** ** Values *)

(** [val], the lower half of the union on a little-endian machine. *)
Definition va_val (v : ctrl_value) : Z := s32 (va_val64 v).
Definition put_low (v : Z) (x : Z) : Z := v - v mod 2 ^ 32 + u32 x.
Definition set_val (x : Z) (v : ctrl_value) : ctrl_value := mk_value (put_low (va_val64 v) x) (va_string v).
Definition set_val64 (x : Z) (v : ctrl_value) : ctrl_value := mk_value x (va_string v).
Definition set_string (x : list Z) (v : ctrl_value) : ctrl_value := mk_value (va_val64 v) x.

(** [ctrl->cur.val]; a string control has a pointer there. *)
Definition cur_val (x : v4l2_ctrl) : v4l2M Z :=
  if ct_type x =? V4L2_CTRL_TYPE_STRING then fault else mdo (va_val (ct_cur x)).
Definition new_val (x : v4l2_ctrl) : v4l2M Z :=
  if ct_type x =? V4L2_CTRL_TYPE_STRING then fault else mdo (va_val (ct_new x)).

(** ** Clusters *)

(** [ctrl->cluster[i]] *)
Definition cluster_get (c : nat) (i : Z) : v4l2M (option nat) :=
  x <- ct_get c ;;
  match ct_cluster x with
  | None => fault
  | Some (ClusterRef r) => if i =? 0 then m <- ref_ctrl r ;; mdo (Some m) else fault
  | Some (ClusterArray a) => arrs <- gets vs_arr ;; l <- the (arrs !! a) ;; the (l.[i])
  end.

(** [ctrl->cluster[0]], where it is used as a control. *)
Definition master_of (c : nat) : v4l2M nat := o <- cluster_get c 0 ;; the o.

Definition is_cur_manual (c : nat) : v4l2M bool :=
  x <- ct_get c ;;
  if negb (ct_is_auto x) then mdo false
  else v <- cur_val x ;; mdo (v =? ct_manual_mode_value x).

Definition is_new_manual (c : nat) : v4l2M bool :=
  x <- ct_get c ;;
  if negb (ct_is_auto x) then mdo false
  else v <- new_val x ;; mdo (v =? ct_manual_mode_value x).

(** ** Handlers *)

Definition handler_set_err (h : nat) (err : Z) : v4l2M Z :=
  hd_upd h (fun x => if hd_error x =? 0 then set_hd_error err x else x) ;; mdo err.

Section env.
Context {E : V4l2Env}.

(** [hdl] is any memory. *)
Definition v4l2_ctrl_handler_init (h : nat) (nr_of_controls_hint : Z) : v4l2M Z :=
  let nr := wrap 16 (u32 (1 + nr_of_controls_hint / 8)) in
  n <- vs_ask ;;
  let buckets := if v4l2_kzalloc_fails n then None else Some (replicate (Z.to_nat nr) []) in
  let error := if v4l2_kzalloc_fails n then - ENOMEM else 0 in
  hd_upd h (fun x => mk_hdl [] [] (hd_cached x) buckets nr error) ;;
  mdo error.

Definition v4l2_ctrl_handler_free (h : option nat) : v4l2M unit :=
  match h with
  | None => mdo tt
  | Some h =>
    x <- hd_get h ;;
    match hd_buckets x with
    | None => mdo tt
    | Some _ =>
      mfor (hd_ctrl_refs x) (fun r =>
        m <- gets vs_ref ;; the (m !! r) ;; modify (set_vs_ref (delete r m))) ;;
      mfor (hd_ctrls x) (fun c =>
        m <- gets vs_ctrl ;; the (m !! c) ;; modify (set_vs_ctrl (delete c m))) ;;
      hd_upd h (fun x => mk_hdl [] [] None None (hd_nr_of_buckets x) 0)
    end
  end.

(** ** References *)

(** The search for the place in the sorted list: the list with [r] in it, or
    [None] for a duplicate. *)
Fixpoint insert_loop (refs : list nat) (id : Z) (r : nat) : v4l2M (option (list nat)) :=
  match refs with
  | [] => mdo (Some [])
  | q :: refs =>
    i <- ref_id q ;;
    if i <? id then l <- insert_loop refs id r ;; mdo (cons q <$> l)
    else if i =? id then mdo None
    else mdo (Some (r :: q :: refs))
  end.

Definition insert_sorted (refs : list nat) (id : Z) (r : nat) : v4l2M (option (list nat)) :=
  match last refs with
  | None => mdo (Some [r])
  | Some q => i <- ref_id q ;; if id >? i then mdo (Some (refs ++ [r])) else insert_loop refs id r
  end.

Definition class_of (id : Z) : Z := Z.lor (V4L2_CTRL_ID2CLASS id) 1.

(** After the control class is there. *)
Definition add_ref (h c : nat) (id bucket : Z) : v4l2M Z :=
  n <- vs_ask ;;
  if v4l2_kzalloc_fails n then handler_set_err h (- ENOMEM)
  else
    let r := n in
    m <- gets vs_ref ;; modify (set_vs_ref (<[r := mk_ref c None]> m)) ;;
    x <- ct_get c ;;
    (if (ct_handler x =? h)%nat
     then ct_upd c (fun x => set_ct_ncontrols 1 (set_ct_cluster (Some (ClusterRef r)) x)) else mdo tt) ;;
    hd <- hd_get h ;;
    place <- insert_sorted (hd_ctrl_refs hd) id r ;;
    match place with
    | None => m <- gets vs_ref ;; modify (set_vs_ref (delete r m)) ;; mdo 0
    | Some refs =>
      buckets <- the (hd_buckets hd) ;; chain <- the (buckets.[bucket]) ;;
      hd_upd h (fun hd => set_hd_buckets (Some (<[Z.to_nat bucket := r :: chain]> buckets)) (set_hd_ctrl_refs refs hd)) ;;
      mdo 0
    end.

Definition new_ref_body (new_class : Z -> v4l2M (option nat)) (h c : nat) : v4l2M Z :=
  x <- ct_get c ;; hd <- hd_get h ;;
  let id := ct_id x in
  let class_ctrl := class_of id in
  if hd_nr_of_buckets hd =? 0 then fault
  else
    let bucket := id mod hd_nr_of_buckets hd in
    missing <- (if id =? class_ctrl then mdo false
                else ref <- find_ref_lock (Some h) class_ctrl ;; mdo (bool_decide (ref = None))) ;;
    failed <- (if missing : bool then n <- new_class class_ctrl ;; mdo (bool_decide (n = None)) else mdo false) ;;
    hd <- hd_get h ;;
    if failed : bool then mdo (hd_error hd)
    else if negb (hd_error hd =? 0) then mdo (hd_error hd)
    else add_ref h c id bucket.

(** ** New controls *)

Definition bad_new (id : Z) (name : option string) (type min max step def : Z) (qmenu : option (list (option string))) : bool :=
  (id =? 0) || bool_decide (name = None) || (id >=? V4L2_CID_PRIVATE_BASE) ||
  ((type =? V4L2_CTRL_TYPE_INTEGER) && (step =? 0)) ||
  ((type =? V4L2_CTRL_TYPE_BITMASK) && (max =? 0)) ||
  ((type =? V4L2_CTRL_TYPE_MENU) && bool_decide (qmenu = None)) ||
  ((type =? V4L2_CTRL_TYPE_STRING) && (max =? 0)) ||
  (negb (type =? V4L2_CTRL_TYPE_BITMASK) && (max <? min)) ||
  (((type =? V4L2_CTRL_TYPE_INTEGER) || (type =? V4L2_CTRL_TYPE_MENU) || (type =? V4L2_CTRL_TYPE_BOOLEAN)) &&
    ((def <? min) || (def >? max))) ||
  ((type =? V4L2_CTRL_TYPE_BITMASK) &&
    (negb (Z.land def (Z.lnot max) =? 0) || negb (min =? 0) || negb (step =? 0))).

Definition new_flags (type flags : Z) : Z :=
  if type =? V4L2_CTRL_TYPE_BUTTON then Z.lor flags V4L2_CTRL_FLAG_WRITE_ONLY
  else if type =? V4L2_CTRL_TYPE_CTRL_CLASS then Z.lor flags V4L2_CTRL_FLAG_READ_ONLY
  else flags.

(** The strings behind the structure: room for [max] characters and the NUL. *)
Definition new_strings (type min max : Z) : option (list Z * list Z) :=
  if negb (type =? V4L2_CTRL_TYPE_STRING) then Some ([], [])
  else if (max <? 0) || (min <? 0) then None
  else
    let empty := replicate (Z.to_nat (max + 1)) 0 in
    Some (replicate (Z.to_nat min) 32 ++ drop (Z.to_nat min) empty, empty).

Definition ctrl_new_body (new_ref : nat -> nat -> v4l2M Z) (h : nat) (ops : option nat) (id : Z) (name : option string)
    (type min max step def flags : Z) (qmenu : option (list (option string))) : v4l2M (option nat) :=
  hd <- hd_get h ;;
  if negb (hd_error hd =? 0) then mdo None
  else if bad_new id name type min max step def qmenu then handler_set_err h (- ERANGE) ;; mdo None
  else
    n <- vs_ask ;;
    if v4l2_kzalloc_fails n then handler_set_err h (- ENOMEM) ;; mdo None
    else
      let c := n in
      strings <- the (new_strings type min max) ;;
      let value := put_low 0 def in
      m <- gets vs_ctrl ;;
      modify (set_vs_ctrl (<[c := {|
        ct_ev_subs := []; ct_handler := h; ct_cluster := None; ct_ncontrols := 0; ct_done := false;
        ct_is_new := false; ct_is_private := false; ct_is_volatile := false; ct_is_auto := false;
        ct_manual_mode_value := 0; ct_ops := ops; ct_id := id; ct_name := default EmptyString name; ct_type := type;
        ct_minimum := min; ct_maximum := max; ct_default_value := def; ct_step := step; ct_qmenu := qmenu;
        ct_flags := new_flags type flags;
        ct_cur := mk_value value (fst strings); ct_new := mk_value value (snd strings) |}]> m)) ;;
      err <- new_ref h c ;;
      if negb (err =? 0) then m <- gets vs_ctrl ;; modify (set_vs_ctrl (delete c m)) ;; mdo None
      else hd_upd h (fun hd => set_hd_ctrls (hd_ctrls hd ++ [c]) hd) ;; mdo (Some c).

Definition new_std_body (new_ref : nat -> nat -> v4l2M Z) (h : nat) (ops : option nat) (id min max step def : Z) :
    v4l2M (option nat) :=
  let f := v4l2_ctrl_fill id min max step def in
  if cf_type f =? V4L2_CTRL_TYPE_MENU then handler_set_err h (- EINVAL) ;; mdo None
  else ctrl_new_body new_ref h ops id (cf_name f) (cf_type f) (cf_min f) (cf_max f) (cf_step f) (cf_def f) (cf_flags f) None.

Fixpoint new_ref_at (depth : nat) (h c : nat) : v4l2M Z :=
  match depth with
  | O => fault
  | S depth => new_ref_body (fun class => new_std_body (new_ref_at depth) h None class 0 0 0 0) h c
  end.

Definition handler_new_ref : nat -> nat -> v4l2M Z := new_ref_at 2.

Definition v4l2_ctrl_new := ctrl_new_body handler_new_ref.
Definition v4l2_ctrl_new_std := new_std_body handler_new_ref.

Definition v4l2_ctrl_new_std_menu (h : nat) (ops : option nat) (id max mask def : Z) : v4l2M (option nat) :=
  let qmenu := v4l2_ctrl_get_menu id in
  let f := v4l2_ctrl_fill id 0 max 0 def in
  if negb (cf_type f =? V4L2_CTRL_TYPE_MENU) then handler_set_err h (- EINVAL) ;; mdo None
  else v4l2_ctrl_new h ops id (cf_name f) (cf_type f) 0 (cf_max f) (u32 mask) (cf_def f) (cf_flags f) qmenu.

Record ctrl_config := mk_config {
  cg_ops : option nat;
  cg_id : Z;
  cg_name : option string;
  cg_type : Z;
  cg_min : Z;
  cg_max : Z;
  cg_step : Z;
  cg_def : Z;
  cg_flags : Z;
  cg_menu_skip_mask : Z;
  cg_qmenu : option (list (option string));
  cg_is_private : bool;
  cg_is_volatile : bool;
}.

Definition v4l2_ctrl_new_custom (h : nat) (cfg : ctrl_config) : v4l2M (option nat) :=
  let f := match cg_name cfg with
    | None => v4l2_ctrl_fill (cg_id cfg) (cg_min cfg) (cg_max cfg) (cg_step cfg) (cg_def cfg)
    | Some _ => mk_fill (cg_name cfg) (cg_type cfg) (cg_min cfg) (cg_max cfg) (cg_step cfg) (cg_def cfg) (cg_flags cfg)
    end in
  let is_menu := cg_type cfg =? V4L2_CTRL_TYPE_MENU in
  let qmenu := if is_menu && bool_decide (cg_qmenu cfg = None) then v4l2_ctrl_get_menu (cg_id cfg) else cg_qmenu cfg in
  ctrl <- v4l2_ctrl_new h (cg_ops cfg) (cg_id cfg) (cf_name f) (cf_type f) (cf_min f) (cf_max f)
    (if is_menu then cg_menu_skip_mask cfg else cf_step f) (cf_def f) (cf_flags f) qmenu ;;
  match ctrl with
  | Some c =>
    ct_upd c (fun x => set_ct_is_volatile (cg_is_volatile cfg) (set_ct_is_private (cg_is_private cfg) x)) ;; mdo ctrl
  | None => mdo None
  end.

(** ** Controls of other handlers *)

Definition v4l2_ctrl_add_ctrl (h : option nat) (ctrl : option nat) : v4l2M (option nat) :=
  match h with
  | None => mdo None
  | Some h =>
    hd <- hd_get h ;;
    if negb (hd_error hd =? 0) then mdo None
    else
      match ctrl with
      | None => handler_set_err h (- EINVAL) ;; mdo None
      | Some c =>
        x <- ct_get c ;;
        if (ct_handler x =? h)%nat then mdo ctrl
        else ret <- handler_new_ref h c ;; mdo (if negb (ret =? 0) then None else ctrl)
      end
  end.

Fixpoint add_handler_loop (h : nat) (ctrls : list nat) : v4l2M Z :=
  match ctrls with
  | [] => mdo 0
  | c :: ctrls =>
    x <- ct_get c ;;
    if ct_is_private x || (ct_type x =? V4L2_CTRL_TYPE_CTRL_CLASS) then add_handler_loop h ctrls
    else
      ret <- handler_new_ref h c ;;
      if negb (ret =? 0) then mdo ret else add_handler_loop h ctrls
  end.

Definition v4l2_ctrl_add_handler (h add : option nat) : v4l2M Z :=
  match h, add with
  | Some h, Some add =>
    if (h =? add)%nat then mdo 0
    else
      hd <- hd_get h ;;
      if negb (hd_error hd =? 0) then mdo (hd_error hd)
      else a <- hd_get add ;; add_handler_loop h (hd_ctrls a)
  | _, _ => mdo 0
  end.
End env.

(** ** Clusters of controls *)

(** [controls] is an array of the driver. *)
Definition v4l2_ctrl_cluster (ncontrols : Z) (a : nat) : v4l2M unit :=
  arrs <- gets vs_arr ;; l <- the (arrs !! a) ;;
  first <- (if ncontrols =? 0 then mdo None else the (l.[0])) ;;
  if bool_decide (first = None) then fault
  else
    mfor (seqZ 0 ncontrols) (fun i =>
      o <- the (l.[i]) ;;
      match o with
      | Some c => ct_upd c (fun x => set_ct_ncontrols ncontrols (set_ct_cluster (Some (ClusterArray a)) x))
      | None => mdo tt
      end).

Definition v4l2_ctrl_auto_cluster (ncontrols : Z) (a : nat) (manual_val : Z) (set_volatile : bool) : v4l2M unit :=
  v4l2_ctrl_cluster ncontrols a ;;
  arrs <- gets vs_arr ;; l <- the (arrs !! a) ;; o <- the (l.[0]) ;; master <- the o ;;
  ct_upd master (fun x => set_ct_flags (Z.lor (ct_flags x) V4L2_CTRL_FLAG_UPDATE)
    (set_ct_manual_mode_value manual_val (set_ct_is_auto true x))) ;;
  manual <- is_cur_manual master ;;
  let flag := if manual : bool then 0 else V4L2_CTRL_FLAG_INACTIVE in
  mfor (seqZ 1 (ncontrols - 1)) (fun i =>
    o <- the (l.[i]) ;;
    match o with
    | Some c => ct_upd c (fun x => set_ct_flags (Z.lor (ct_flags x) flag) (set_ct_is_volatile set_volatile x))
    | None => mdo tt
    end).

(** ** Flags *)

Section flags.
Context {E : V4l2Env} (stack : v4l2_event).

(** [test_and_set_bit] and [test_and_clear_bit] with the event. *)
Definition change_flag (c : nat) (flag : Z) (on : bool) : v4l2M unit :=
  x <- ct_get c ;;
  let old := truthy (Z.land (ct_flags x) flag) in
  ct_upd c (fun x => set_ct_flags (if on then Z.lor (ct_flags x) flag else Z.ldiff (ct_flags x) flag) x) ;;
  if negb (eqb old on) then send_event None stack c V4L2_EVENT_CTRL_CH_FLAGS else mdo tt.

Definition v4l2_ctrl_activate (ctrl : option nat) (active : bool) : v4l2M unit :=
  match ctrl with None => mdo tt | Some c => change_flag c V4L2_CTRL_FLAG_INACTIVE (negb active) end.

Definition v4l2_ctrl_grab (ctrl : option nat) (grabbed : bool) : v4l2M unit :=
  match ctrl with None => mdo tt | Some c => change_flag c V4L2_CTRL_FLAG_GRABBED grabbed end.
End flags.
