(* ===== verification/V4l2Ctrl.v ===== *)
(** drivers/media/video/v4l2-ctrls.c: reading and changing the values of controls.

    What the code calls and does not contain is the parameter [CtrlEnv]: the
    operations of drivers, which see the controls of a cluster and may change
    their new values, and the memory of the user.  Structures of the caller are
    returned next to the result. *)

From Stdlib Require Import String.
From stdpp Require Import gmap strings.
From S2P Require Import Prelude StateM V4l2Types V4l2CtrlTables V4l2Event V4l2CtrlNew.

Definition ENOSPC : Z := 28.

(** ** Strings *)

Fixpoint strlen (l : list Z) : option Z :=
  match l with
  | [] => None
  | x :: l => if x =? 0 then Some 0 else n ← strlen l; Some (n + 1)
  end.

(** The characters before the NUL. *)
Definition cstr (l : list Z) : option (list Z) := n ← strlen l; Some (take (Z.to_nat n) l).

Definition strcpy (dst src : list Z) : option (list Z) :=
  n ← strlen src; mwrite dst 0 (take (Z.to_nat (n + 1)) src).

(** [strcmp(a, b) != 0] *)
Definition str_differ (a b : list Z) : option bool :=
  x ← cstr a; y ← cstr b; Some (bool_decide (x <> y)).

(** [strlcpy] into an array of 32 *)
Definition strlcpy32 (s : string) : string := substring 0 31 s.

(** ** The environment *)

Class CtrlEnv := {
  has_op : nat -> ctrl_op -> bool;
  (* the answer and the new values of the members of the cluster *)
  run_op : nat -> ctrl_op -> nat -> list (option v4l2_ctrl) -> Z * list ctrl_value;
  (* the characters at an address of the user, read as if it were the kernel's *)
  user_string : nat -> Z -> option (list Z);
  (* does the copy fail, and what the buffer holds *)
  string_from_user : nat -> Z -> Z -> bool * list Z;
  string_to_user : nat -> Z -> list Z -> bool;
}.

Record ext_control := mk_ext {
  xc_id : Z;   (* u32 *)
  xc_size : Z;   (* u32 *)
  xc_value64 : Z;   (* s64: value, value64 or string *)
}.

Definition set_xc_size (v : Z) (r : ext_control) : ext_control := mk_ext (xc_id r) v (xc_value64 r).
Definition set_xc_value64 (v : Z) (r : ext_control) : ext_control := mk_ext (xc_id r) (xc_size r) v.
Definition xc_value (c : ext_control) : Z := s32 (xc_value64 c).
Definition set_xc_value (v : Z) (c : ext_control) : ext_control := set_xc_value64 (put_low (xc_value64 c) v) c.

(** [count] is the length of [controls]. *)
Record ext_controls := mk_exts {
  xs_ctrl_class : Z;   (* u32 *)
  xs_error_idx : Z;   (* u32 *)
  xs_controls : list ext_control;
}.

Definition xs_count (cs : ext_controls) : Z := zlen (xs_controls cs).

(** ** The value of a control in the middle of a change *)

Section values.
Context {E : V4l2Env} {C : CtrlEnv} (stack : v4l2_event).

Definition ct_new_upd (c : nat) (f : ctrl_value -> ctrl_value) : v4l2M unit :=
  ct_upd c (fun x => set_ct_new (f (ct_new x)) x).
Definition ct_cur_upd (c : nat) (f : ctrl_value -> ctrl_value) : v4l2M unit :=
  ct_upd c (fun x => set_ct_cur (f (ct_cur x)) x).

Definition cur_to_user (xc : ext_control) (c : nat) : v4l2M (Z * ext_control) :=
  x <- ct_get c ;;
  if ct_type x =? V4L2_CTRL_TYPE_STRING then
    len <- the (strlen (va_string (ct_cur x))) ;;
    if xc_size xc <? len + 1 then mdo (- ENOSPC, set_xc_size (u32 (len + 1)) xc)
    else
      s <- the (mread (va_string (ct_cur x)) 0 (len + 1)) ;; n <- vs_ask ;;
      mdo (if string_to_user n (u64 (xc_value64 xc)) s then - EFAULT else 0, xc)
  else if ct_type x =? V4L2_CTRL_TYPE_INTEGER64 then mdo (0, set_xc_value64 (va_val64 (ct_cur x)) xc)
  else mdo (0, set_xc_value (va_val (ct_cur x)) xc).

Definition user_to_new (xc : ext_control) (c : nat) : v4l2M Z :=
  ct_upd c (set_ct_is_new true) ;;
  x <- ct_get c ;;
  if ct_type x =? V4L2_CTRL_TYPE_INTEGER64 then ct_new_upd c (set_val64 (xc_value64 xc)) ;; mdo 0
  else if ct_type x =? V4L2_CTRL_TYPE_STRING then
    if xc_size xc =? 0 then mdo (- ERANGE)
    else
      let size := if xc_size xc >? u32 (ct_maximum x + 1) then u32 (ct_maximum x + 1) else xc_size xc in
      n <- vs_ask ;;
      let '(fails, bytes) := string_from_user n (u64 (xc_value64 xc)) size in
      s <- the (mwrite (va_string (ct_new x)) 0 bytes) ;;
      if fails : bool then ct_new_upd c (set_string s) ;; mdo (- EFAULT)
      else
        last <- the (s.[size - 1]) ;;
        let s := <[Z.to_nat (size - 1) := 0]> s in
        ct_new_upd c (set_string s) ;;
        len <- the (strlen s) ;;
        mdo (if (len =? ct_maximum x) && negb (last =? 0) then - ERANGE else 0)
  else ct_new_upd c (set_val (xc_value xc)) ;; mdo 0.

Definition new_to_user (xc : ext_control) (c : nat) : v4l2M (Z * ext_control) :=
  x <- ct_get c ;;
  if ct_type x =? V4L2_CTRL_TYPE_STRING then
    len <- the (strlen (va_string (ct_new x))) ;;
    if xc_size xc <? len + 1 then mdo (- ENOSPC, set_xc_size (u32 (ct_maximum x + 1)) xc)
    else
      s <- the (mread (va_string (ct_new x)) 0 (len + 1)) ;; n <- vs_ask ;;
      mdo (if string_to_user n (u64 (xc_value64 xc)) s then - EFAULT else 0, xc)
  else if ct_type x =? V4L2_CTRL_TYPE_INTEGER64 then mdo (0, set_xc_value64 (va_val64 (ct_new x)) xc)
  else mdo (0, set_xc_value (va_val (ct_new x)) xc).

(** Does the new value differ from the current one? *)
Definition new_differs (x : v4l2_ctrl) : v4l2M bool :=
  if ct_type x =? V4L2_CTRL_TYPE_BUTTON then mdo true
  else if ct_type x =? V4L2_CTRL_TYPE_STRING then the (str_differ (va_string (ct_new x)) (va_string (ct_cur x)))
  else if ct_type x =? V4L2_CTRL_TYPE_INTEGER64 then mdo (negb (va_val64 (ct_new x) =? va_val64 (ct_cur x)))
  else mdo (negb (va_val (ct_new x) =? va_val (ct_cur x))).

(** Copy a value over another of the type of the control. *)
Definition copy_value (type : Z) (dst src : ctrl_value) : option ctrl_value :=
  if type =? V4L2_CTRL_TYPE_STRING then s ← strcpy (va_string dst) (va_string src); Some (set_string s dst)
  else if type =? V4L2_CTRL_TYPE_INTEGER64 then Some (set_val64 (va_val64 src) dst)
  else Some (set_val (va_val src) dst).

Definition new_to_cur (fh : option nat) (ctrl : option nat) (update_inactive : bool) : v4l2M unit :=
  match ctrl with
  | None => mdo tt
  | Some c =>
    x <- ct_get c ;;
    changed <- new_differs x ;;
    (if ct_type x =? V4L2_CTRL_TYPE_BUTTON then mdo tt
     else v <- the (copy_value (ct_type x) (ct_cur x) (ct_new x)) ;; ct_cur_upd c (fun _ => v)) ;;
    (if update_inactive then
       ct_upd c (fun x => set_ct_flags (Z.ldiff (ct_flags x) V4L2_CTRL_FLAG_INACTIVE) x) ;;
       master <- master_of c ;; manual <- is_cur_manual master ;;
       if negb manual then ct_upd c (fun x => set_ct_flags (Z.lor (ct_flags x) V4L2_CTRL_FLAG_INACTIVE) x) else mdo tt
     else mdo tt) ;;
    if changed || update_inactive then
      x <- ct_get c ;;
      send_event (if ct_is_new x then fh else None) stack c
        (Z.lor (if changed : bool then V4L2_EVENT_CTRL_CH_VALUE else 0) (if update_inactive then V4L2_EVENT_CTRL_CH_FLAGS else 0))
    else mdo tt
  end.

Definition cur_to_new (ctrl : option nat) : v4l2M unit :=
  match ctrl with
  | None => mdo tt
  | Some c => x <- ct_get c ;; v <- the (copy_value (ct_type x) (ct_new x) (ct_cur x)) ;; ct_new_upd c (fun _ => v)
  end.

(** ** Clusters *)

Fixpoint cluster_changed_loop (master : nat) (idx : list Z) : v4l2M bool :=
  match idx with
  | [] => mdo false
  | i :: idx =>
    ctrl <- cluster_get master i ;;
    match ctrl with
    | None => cluster_changed_loop master idx
    | Some c => x <- ct_get c ;; diff <- new_differs x ;; if diff : bool then mdo true else cluster_changed_loop master idx
    end
  end.

Definition members (master : nat) : v4l2M (list Z) := x <- ct_get master ;; mdo (seqZ 0 (ct_ncontrols x)).

Definition cluster_changed (master : nat) : v4l2M bool := idx <- members master ;; cluster_changed_loop master idx.

(** What the driver sees of a cluster, and what it changes. *)
Fixpoint cluster_view (master : nat) (idx : list Z) : v4l2M (list (option v4l2_ctrl)) :=
  match idx with
  | [] => mdo []
  | i :: idx =>
    ctrl <- cluster_get master i ;;
    x <- match ctrl with Some c => x <- ct_get c ;; mdo (Some x) | None => mdo None end ;;
    l <- cluster_view master idx ;; mdo (x :: l)
  end.

Definition call_op (master : nat) (op : ctrl_op) : v4l2M Z :=
  x <- ct_get master ;;
  match ct_ops x with
  | None => mdo 0
  | Some ops =>
    if has_op ops op then
      idx <- members master ;; view <- cluster_view master idx ;; n <- vs_ask ;;
      calls <- gets vs_calls ;; modify (set_vs_calls (calls ++ [(op, master)])) ;;
      let '(ret, values) := run_op ops op n view in
      mfor idx (fun i =>
        ctrl <- cluster_get master i ;;
        match ctrl, values.[i] with
        | Some c, Some v => ct_new_upd c (fun _ => v)
        | _, _ => mdo tt
        end) ;;
      mdo ret
    else mdo 0
  end.

Definition has_op' (master : nat) (op : ctrl_op) : v4l2M bool :=
  x <- ct_get master ;; mdo (match ct_ops x with Some ops => has_op ops op | None => false end).

(** ** Validation *)

(** The result and [*pval]; [None] where the code faults. *)
Definition validate_new_int (x : v4l2_ctrl) (val : Z) : option (Z * Z) :=
  if ct_type x =? V4L2_CTRL_TYPE_INTEGER then
    let val := s32 (val + ct_step x / 2) in
    let val := if val <? ct_minimum x then ct_minimum x else val in
    let val := if val >? ct_maximum x then ct_maximum x else val in
    let offset := u32 (val - ct_minimum x) in
    if ct_step x =? 0 then None
    else
      let offset := u32 (ct_step x * (offset / ct_step x)) in
      Some (0, s32 (ct_minimum x + offset))
  else if ct_type x =? V4L2_CTRL_TYPE_BOOLEAN then Some (0, if val =? 0 then 0 else 1)
  else if ct_type x =? V4L2_CTRL_TYPE_MENU then
    if (val <? ct_minimum x) || (val >? ct_maximum x) then Some (- ERANGE, val)
    else
      menu ← ct_qmenu x;
      entry ← menu.[val];
      item ← entry;
      if bool_decide (item = EmptyString) then Some (- EINVAL, val)
      else if val >=? 32 then None
      else Some (if Z.testbit (ct_step x) val then - EINVAL else 0, val)
  else if ct_type x =? V4L2_CTRL_TYPE_BITMASK then Some (0, Z.land val (ct_maximum x))
  else if (ct_type x =? V4L2_CTRL_TYPE_BUTTON) || (ct_type x =? V4L2_CTRL_TYPE_CTRL_CLASS) then Some (0, 0)
  else Some (- EINVAL, val).

Definition validate_new (x : v4l2_ctrl) (xc : ext_control) : v4l2M (Z * ext_control) :=
  if ct_type x =? V4L2_CTRL_TYPE_INTEGER64 then mdo (0, xc)
  else if ct_type x =? V4L2_CTRL_TYPE_STRING then
    n <- vs_ask ;; s <- the (user_string n (u64 (xc_value64 xc))) ;;
    let len := zlen s in
    if len <? u64 (ct_minimum x) then mdo (- ERANGE, xc)
    else if ct_step x =? 0 then fault
    else if truthy (u64 (len - ct_minimum x) mod ct_step x) then mdo (- ERANGE, xc)
    else mdo (0, xc)
  else r <- the (validate_new_int x (xc_value xc)) ;; mdo (fst r, if fst r =? 0 then set_xc_value (snd r) xc else xc).

(** ** Trying and setting *)

(** [Some] of an error ends the loop. *)
Fixpoint fill_cluster_loop (master : nat) (set : bool) (idx : list Z) : v4l2M (option Z) :=
  match idx with
  | [] => mdo None
  | i :: idx =>
    ctrl <- cluster_get master i ;;
    match ctrl with
    | None => fill_cluster_loop master set idx
    | Some c =>
      x <- ct_get c ;;
      if negb (ct_is_new x) then cur_to_new (Some c) ;; fill_cluster_loop master set idx
      else if set && truthy (Z.land (ct_flags x) V4L2_CTRL_FLAG_GRABBED) then mdo (Some (- EBUSY))
      else fill_cluster_loop master set idx
    end
  end.

Definition try_or_set_cluster (fh : option nat) (master : nat) (set : bool) : v4l2M Z :=
  idx <- members master ;;
  stop <- fill_cluster_loop master set idx ;;
  match stop with
  | Some err => mdo err
  | None =>
    ret <- call_op master try_ctrl ;;
    if negb (ret =? 0) || negb set then mdo ret
    else
      changed <- cluster_changed master ;;
      if negb changed then mdo ret
      else
        ret <- call_op master s_ctrl ;;
        if negb (ret =? 0) then mdo ret
        else
          cur <- is_cur_manual master ;; new <- is_new_manual master ;;
          let update_flag := negb (eqb cur new) in
          mfor idx (fun i => ctrl <- cluster_get master i ;; new_to_cur fh ctrl (update_flag && (i >? 0))) ;;
          mdo 0
  end.

End values.
