(* ===== verification/V4l2CtrlIoctl.v ===== *)
(** drivers/media/video/v4l2-ctrls.c: what the ioctls on controls do.

    A handler may be NULL.  The chains of an extended call run on fuel: each
    index in a chain is larger than the one before. *)

From Stdlib Require Import String.
From stdpp Require Import gmap strings.
From S2P Require Import Prelude StateM V4l2Types V4l2CtrlTables V4l2Event V4l2CtrlNew V4l2Ctrl.

(** ** Structures of the caller *)

Record queryctrl := mk_queryctrl {
  qc_id : Z;   (* u32 *)
  qc_type : Z;
  qc_name : string;
  qc_minimum : Z;
  qc_maximum : Z;
  qc_step : Z;   (* s32 *)
  qc_default_value : Z;
  qc_flags : Z;   (* u32 *)
}.

Record querymenu := mk_querymenu {
  qm_id : Z;   (* u32 *)
  qm_index : Z;   (* u32 *)
  qm_name : string;
  qm_reserved : Z;
}.

Record ctrl_helper := mk_helper {
  he_mref : option nat;
  he_ctrl : nat;
  he_next : Z;   (* u32 *)
}.

Definition set_he_mref (v : option nat) (r : ctrl_helper) : ctrl_helper := mk_helper v (he_ctrl r) (he_next r).
Definition set_he_next (v : Z) (r : ctrl_helper) : ctrl_helper := mk_helper (he_mref r) (he_ctrl r) v.

(** ** Queries *)

(** The first reference with a larger id. *)
Fixpoint next_loop (refs : list nat) (id : Z) : v4l2M nat :=
  match refs with
  | [] => fault
  | r :: refs => i <- ref_id r ;; if id <? i then mdo r else next_loop refs id
  end.

(** [list_entry(ref->node.next)] *)
Fixpoint list_next (refs : list nat) (r : nat) : option nat :=
  match refs with
  | [] => None
  | q :: refs => if decide (q = r) then head refs else list_next refs r
  end.

Definition next_ref (refs : list nat) (ref : option nat) (id : Z) : v4l2M (option nat) :=
  match last refs with
  | None => mdo ref
  | Some q =>
    i <- ref_id q ;;
    if id >=? i then mdo None
    else
      match ref with
      | Some r => n <- the (list_next refs r) ;; mdo (Some n)
      | None => r <- next_loop refs id ;; mdo (Some r)
      end
  end.

Definition v4l2_queryctrl (h : option nat) (qc : queryctrl) : v4l2M (Z * queryctrl) :=
  match h with
  | None => mdo (- EINVAL, qc)
  | Some h =>
    let id := Z.land (qc_id qc) V4L2_CTRL_ID_MASK in
    ref <- find_ref h id ;;
    hd <- hd_get h ;;
    ref <- (if truthy (Z.land (qc_id qc) V4L2_CTRL_FLAG_NEXT_CTRL) then next_ref (hd_ctrl_refs hd) ref id else mdo ref) ;;
    match ref with
    | None => mdo (- EINVAL, qc)
    | Some r =>
      c <- ref_ctrl r ;; x <- ct_get c ;;
      mdo (0, {|
        qc_id := if id >=? V4L2_CID_PRIVATE_BASE then id else ct_id x; qc_type := ct_type x; qc_name := strlcpy32 (ct_name x);
        qc_minimum := ct_minimum x; qc_maximum := ct_maximum x;
        qc_step := if ct_type x =? V4L2_CTRL_TYPE_MENU then 1 else s32 (ct_step x);
        qc_default_value := ct_default_value x; qc_flags := u32 (ct_flags x) |})
    end
  end.

Definition v4l2_subdev_queryctrl (sd : option nat) (qc : queryctrl) : v4l2M (Z * queryctrl) :=
  if truthy (Z.land (qc_id qc) V4L2_CTRL_FLAG_NEXT_CTRL) then mdo (- EINVAL, qc) else v4l2_queryctrl sd qc.

Definition v4l2_querymenu (h : option nat) (qm : querymenu) : v4l2M (Z * querymenu) :=
  let i := qm_index qm in
  ctrl <- v4l2_ctrl_find h (qm_id qm) ;;
  match ctrl with
  | None => mdo (- EINVAL, qm)
  | Some c =>
    x <- ct_get c ;;
    let qm := mk_querymenu (qm_id qm) i (qm_name qm) 0 in
    match ct_qmenu x with
    | None => mdo (- EINVAL, qm)
    | Some menu =>
      if (i <? u32 (ct_minimum x)) || (i >? u32 (ct_maximum x)) then mdo (- EINVAL, qm)
      else if i >=? 32 then fault
      else if Z.testbit (ct_step x) i then mdo (- EINVAL, qm)
      else
        item <- the (menu.[i]) ;;
        match item with
        | None => mdo (- EINVAL, qm)
        | Some s => mdo (if bool_decide (s = EmptyString) then (- EINVAL, qm) else (0, mk_querymenu (qm_id qm) i (strlcpy32 s) 0))
        end
    end
  end.

Definition v4l2_subdev_querymenu (sd : option nat) (qm : querymenu) : v4l2M (Z * querymenu) := v4l2_querymenu sd qm.

Section ioctls.
Context {E : V4l2Env} {C : CtrlEnv} (stack : v4l2_event).

(** ** Initialising the hardware *)

Fixpoint setup_loop (ctrls : list nat) : v4l2M Z :=
  match ctrls with
  | [] => mdo 0
  | c :: ctrls =>
    x <- ct_get c ;; master <- master_of c ;;
    if ct_done x || (ct_type x =? V4L2_CTRL_TYPE_BUTTON) || truthy (Z.land (ct_flags x) V4L2_CTRL_FLAG_READ_ONLY)
    then setup_loop ctrls
    else
      idx <- members master ;;
      mfor idx (fun i =>
        ctrl <- cluster_get master i ;;
        match ctrl with
        | Some k => cur_to_new (Some k) ;; ct_upd k (fun x => set_ct_done true (set_ct_is_new true x))
        | None => mdo tt
        end) ;;
      ret <- call_op master s_ctrl ;;
      if negb (ret =? 0) then mdo ret else setup_loop ctrls
  end.

Definition v4l2_ctrl_handler_setup (h : option nat) : v4l2M Z :=
  match h with
  | None => mdo 0
  | Some h =>
    hd <- hd_get h ;;
    mfor (hd_ctrls hd) (fun c => ct_upd c (set_ct_done false)) ;;
    setup_loop (hd_ctrls hd)
  end.

(** ** One control *)

Definition get_ctrl (c : nat) (val : Z) : v4l2M (Z * Z) :=
  master <- master_of c ;; x <- ct_get c ;;
  if truthy (Z.land (ct_flags x) V4L2_CTRL_FLAG_WRITE_ONLY) then mdo (- EACCES, val)
  else
    volatile <- (if ct_is_volatile x then manual <- is_cur_manual master ;; mdo (negb manual) else mdo false) ;;
    if volatile : bool then
      idx <- members master ;;
      mfor idx (fun i => ctrl <- cluster_get master i ;; cur_to_new ctrl) ;;
      ret <- call_op master g_volatile_ctrl ;;
      x <- ct_get c ;; v <- new_val x ;; mdo (ret, v)
    else v <- cur_val x ;; mdo (0, v).

(** The id and the value of a [struct v4l2_control]. *)
Definition v4l2_g_ctrl (h : option nat) (id val : Z) : v4l2M (Z * Z) :=
  ctrl <- v4l2_ctrl_find h id ;;
  match ctrl with
  | None => mdo (- EINVAL, val)
  | Some c => x <- ct_get c ;; if negb (type_is_int x) then mdo (- EINVAL, val) else get_ctrl c val
  end.

Definition v4l2_subdev_g_ctrl (sd : option nat) (id val : Z) : v4l2M (Z * Z) := v4l2_g_ctrl sd id val.

Definition v4l2_ctrl_g_ctrl (c : nat) : v4l2M Z := r <- get_ctrl c 0 ;; mdo (snd r).

Definition reset_new (master : nat) : v4l2M unit :=
  idx <- members master ;;
  mfor idx (fun i =>
    ctrl <- cluster_get master i ;;
    match ctrl with Some k => ct_upd k (set_ct_is_new false) | None => mdo tt end).

Definition set_ctrl (fh : option nat) (c : nat) (val : Z) : v4l2M (Z * Z) :=
  master <- master_of c ;; x <- ct_get c ;;
  r <- the (validate_new_int x val) ;;
  if negb (fst r =? 0) then mdo r
  else
    reset_new master ;;
    ct_upd c (fun x => set_ct_is_new true (set_ct_new (set_val (snd r) (ct_new x)) x)) ;;
    ret <- try_or_set_cluster stack fh master true ;;
    x <- ct_get c ;; v <- cur_val x ;; mdo (ret, v).

Definition v4l2_s_ctrl (fh : option nat) (h : option nat) (id val : Z) : v4l2M (Z * Z) :=
  ctrl <- v4l2_ctrl_find h id ;;
  match ctrl with
  | None => mdo (- EINVAL, val)
  | Some c =>
    x <- ct_get c ;;
    if negb (type_is_int x) then mdo (- EINVAL, val)
    else if truthy (Z.land (ct_flags x) V4L2_CTRL_FLAG_READ_ONLY) then mdo (- EACCES, val)
    else set_ctrl fh c val
  end.

Definition v4l2_subdev_s_ctrl (sd : option nat) (id val : Z) : v4l2M (Z * Z) := v4l2_s_ctrl None sd id val.

Definition v4l2_ctrl_s_ctrl (c : nat) (val : Z) : v4l2M Z := r <- set_ctrl None c val ;; mdo (fst r).

(** ** Extended controls *)

Definition set_error_idx (i : Z) (cs : ext_controls) : ext_controls := mk_exts (xs_ctrl_class cs) i (xs_controls cs).
Definition set_controls (l : list ext_control) (cs : ext_controls) : ext_controls :=
  mk_exts (xs_ctrl_class cs) (xs_error_idx cs) l.

(** Finding the controls: the error code, the index it is at, the helpers and
    whether there are clusters. *)
Fixpoint prepare_loop (h : option nat) (class : Z) (l : list ext_control) (i : Z) (helpers : list ctrl_helper)
    (clusters : bool) : v4l2M (Z * Z * list ctrl_helper * bool) :=
  match l with
  | [] => mdo (0, i - 1, helpers, clusters)
  | xc :: l =>
    let id := Z.land (xc_id xc) V4L2_CTRL_ID_MASK in
    let fails := mdo (- EINVAL, i, helpers, clusters) in
    if truthy class && negb (V4L2_CTRL_ID2CLASS id =? class) then fails
    else if id >=? V4L2_CID_PRIVATE_BASE then fails
    else
      ref <- find_ref_lock h id ;;
      match ref with
      | None => fails
      | Some r =>
        c <- ref_ctrl r ;; x <- ct_get c ;;
        if truthy (Z.land (ct_flags x) V4L2_CTRL_FLAG_DISABLED) then fails
        else
          master <- master_of c ;; m <- ct_get master ;;
          mref <- (if decide (master = c) then mdo (Some r) else find_ref_lock h (ct_id m)) ;;
          prepare_loop h class l (i + 1) (helpers ++ [mk_helper mref c 0]) (clusters || (ct_ncontrols m >? 1))
      end
  end.

Definition ref_set_helper (r : nat) (v : option nat) : v4l2M unit :=
  m <- gets vs_ref ;; x <- the (m !! r) ;; modify (set_vs_ref (<[r := set_cr_helper v x]> m)).

(** Chaining the controls of a cluster. *)
Fixpoint chain_loop (todo : list Z) (helpers : list ctrl_helper) : v4l2M (list ctrl_helper) :=
  match todo with
  | [] => mdo helpers
  | i :: todo =>
    e <- the (helpers.[i]) ;; mref <- the (he_mref e) ;;
    m <- gets vs_ref ;; x <- the (m !! mref) ;;
    helpers <- match cr_helper x with
      | Some k =>
        p <- the (helpers !! k) ;;
        mdo (alter (set_he_mref None) (Z.to_nat i) (<[k := set_he_next i p]> helpers))
      | None => mdo helpers
      end ;;
    ref_set_helper mref (Some (Z.to_nat i)) ;;
    chain_loop todo helpers
  end.

Definition prepare_ext_ctrls (h : option nat) (cs : ext_controls) : v4l2M (Z * list ctrl_helper * ext_controls) :=
  r <- prepare_loop h (xs_ctrl_class cs) (xs_controls cs) 0 [] false ;;
  let '(ret, i, helpers, clusters) := r in
  let cs := set_error_idx i cs in
  if negb (ret =? 0) || negb clusters then mdo (ret, helpers, cs)
  else
    mfor helpers (fun e => mref <- the (he_mref e) ;; ref_set_helper mref None) ;;
    helpers <- chain_loop (seqZ 0 (xs_count cs)) helpers ;;
    mdo (0, helpers, cs).

Definition class_check (h : nat) (ctrl_class : Z) : v4l2M Z :=
  if ctrl_class =? 0 then hd <- hd_get h ;; mdo (if bool_decide (hd_ctrl_refs hd = []) then - EINVAL else 0)
  else ref <- find_ref_lock (Some h) (Z.lor ctrl_class 1) ;; mdo (if bool_decide (ref = None) then - EINVAL else 0).

(** [do { ret = f(idx); idx = helpers[idx].next; } while (!ret && idx);] *)
Fixpoint along_chain (fuel : nat) (f : ext_control -> nat -> v4l2M (Z * ext_control)) (helpers : list ctrl_helper)
    (idx : Z) (l : list ext_control) : v4l2M (Z * list ext_control) :=
  match fuel with
  | O => fault
  | S fuel =>
    xc <- the (l.[idx]) ;; e <- the (helpers.[idx]) ;;
    r <- f xc (he_ctrl e) ;;
    let l := <[Z.to_nat idx := snd r]> l in
    if (fst r =? 0) && negb (he_next e =? 0) then along_chain fuel f helpers (he_next e) l
    else mdo (fst r, l)
  end.

Definition to_new (xc : ext_control) (c : nat) : v4l2M (Z * ext_control) := ret <- user_to_new xc c ;; mdo (ret, xc).

(** Are all of the controls readable? *)
Fixpoint readable_loop (helpers : list ctrl_helper) : v4l2M Z :=
  match helpers with
  | [] => mdo 0
  | e :: helpers =>
    x <- ct_get (he_ctrl e) ;;
    if truthy (Z.land (ct_flags x) V4L2_CTRL_FLAG_WRITE_ONLY) then mdo (- EACCES) else readable_loop helpers
  end.

Definition volatile_master (master : nat) : v4l2M bool :=
  op <- has_op' master g_volatile_ctrl ;;
  if op : bool then manual <- is_cur_manual master ;; mdo (negb manual) else mdo false.

Fixpoint get_loop (helpers : list ctrl_helper) (todo : list Z) (cs : ext_controls) : v4l2M (Z * ext_controls) :=
  match todo with
  | [] => mdo (0, cs)
  | i :: todo =>
    e <- the (helpers.[i]) ;;
    match he_mref e with
    | None => get_loop helpers todo cs
    | Some mref =>
      master <- ref_ctrl mref ;;
      let cs := set_error_idx i cs in
      volatile <- volatile_master master ;;
      ret <- (if volatile : bool then
        idx <- members master ;;
        mfor idx (fun i => ctrl <- cluster_get master i ;; cur_to_new ctrl) ;;
        call_op master g_volatile_ctrl
      else mdo 0) ;;
      if negb (ret =? 0) then mdo (ret, cs)
      else
        r <- along_chain (length helpers) (if volatile then new_to_user else cur_to_user) helpers i (xs_controls cs) ;;
        let cs := set_controls (snd r) cs in
        if negb (fst r =? 0) then mdo (fst r, cs) else get_loop helpers todo cs
    end
  end.

(** More than four helpers are on the heap. *)
Definition helpers_fail (count : Z) : v4l2M bool :=
  if count >? 4 then n <- vs_ask ;; mdo (v4l2_kzalloc_fails n) else mdo false.

Definition start_ext (cs : ext_controls) : ext_controls :=
  mk_exts (V4L2_CTRL_ID2CLASS (xs_ctrl_class cs)) (xs_count cs) (xs_controls cs).

Definition v4l2_g_ext_ctrls (h : option nat) (cs : ext_controls) : v4l2M (Z * ext_controls) :=
  let cs := start_ext cs in
  match h with
  | None => mdo (- EINVAL, cs)
  | Some hd =>
    if xs_count cs =? 0 then ret <- class_check hd (xs_ctrl_class cs) ;; mdo (ret, cs)
    else
      nomem <- helpers_fail (xs_count cs) ;;
      if nomem : bool then mdo (- ENOMEM, cs)
      else
        p <- prepare_ext_ctrls h cs ;;
        let '(ret, helpers, cs) := p in
        let cs := set_error_idx (xs_count cs) cs in
        ret <- (if ret =? 0 then readable_loop helpers else mdo ret) ;;
        if negb (ret =? 0) then mdo (ret, cs) else get_loop helpers (seqZ 0 (xs_count cs)) cs
  end.

Definition v4l2_subdev_g_ext_ctrls (sd : option nat) (cs : ext_controls) : v4l2M (Z * ext_controls) := v4l2_g_ext_ctrls sd cs.

(** The result, the index and the controls with their values rounded. *)
Fixpoint validate_loop (helpers : list ctrl_helper) (set : bool) (i : Z) (cs : ext_controls) : v4l2M (Z * ext_controls) :=
  match helpers with
  | [] => mdo (0, cs)
  | e :: helpers =>
    x <- ct_get (he_ctrl e) ;;
    let cs := set_error_idx i cs in
    if truthy (Z.land (ct_flags x) V4L2_CTRL_FLAG_READ_ONLY) then mdo (- EACCES, cs)
    else if set && truthy (Z.land (ct_flags x) V4L2_CTRL_FLAG_GRABBED) then mdo (- EBUSY, cs)
    else
      xc <- the ((xs_controls cs).[i]) ;;
      r <- validate_new x xc ;;
      let cs := set_controls (<[Z.to_nat i := snd r]> (xs_controls cs)) cs in
      if negb (fst r =? 0) then mdo (fst r, cs) else validate_loop helpers set (i + 1) cs
  end.

Definition validate_ctrls (cs : ext_controls) (helpers : list ctrl_helper) (set : bool) : v4l2M (Z * ext_controls) :=
  validate_loop helpers set 0 (set_error_idx (xs_count cs) cs).

(** A cluster at a time. *)
Fixpoint set_loop (fh : option nat) (set : bool) (helpers : list ctrl_helper) (todo : list Z) (cs : ext_controls) :
    v4l2M (Z * ext_controls) :=
  match todo with
  | [] => mdo (0, cs)
  | i :: todo =>
    e <- the (helpers.[i]) ;;
    match he_mref e with
    | None => set_loop fh set helpers todo cs
    | Some mref =>
      master <- ref_ctrl mref ;;
      let cs := set_error_idx i cs in
      reset_new master ;;
      r <- along_chain (length helpers) to_new helpers i (xs_controls cs) ;;
      if negb (fst r =? 0) then mdo (fst r, cs)
      else
        ret <- try_or_set_cluster stack fh master set ;;
        if negb (ret =? 0) then mdo (ret, cs)
        else
          r <- along_chain (length helpers) new_to_user helpers i (xs_controls cs) ;;
          let cs := set_controls (snd r) cs in
          if negb (fst r =? 0) then mdo (fst r, cs) else set_loop fh set helpers todo cs
    end
  end.

Definition try_set_ext_ctrls (fh : option nat) (h : option nat) (cs : ext_controls) (set : bool) : v4l2M (Z * ext_controls) :=
  let cs := start_ext cs in
  match h with
  | None => mdo (- EINVAL, cs)
  | Some hd =>
    if xs_count cs =? 0 then ret <- class_check hd (xs_ctrl_class cs) ;; mdo (ret, cs)
    else
      nomem <- helpers_fail (xs_count cs) ;;
      if nomem : bool then mdo (- ENOMEM, cs)
      else
        p <- prepare_ext_ctrls h cs ;;
        let '(ret, helpers, cs) := p in
        v <- (if ret =? 0 then validate_ctrls cs helpers set else mdo (ret, cs)) ;;
        let '(ret, cs) := v in
        if negb (ret =? 0) then mdo (ret, if set then set_error_idx (xs_count cs) cs else cs)
        else set_loop fh set helpers (seqZ 0 (xs_count cs)) cs
  end.

Definition v4l2_try_ext_ctrls (h : option nat) (cs : ext_controls) : v4l2M (Z * ext_controls) := try_set_ext_ctrls None h cs false.
Definition v4l2_s_ext_ctrls (fh h : option nat) (cs : ext_controls) : v4l2M (Z * ext_controls) := try_set_ext_ctrls fh h cs true.
Definition v4l2_subdev_try_ext_ctrls (sd : option nat) (cs : ext_controls) : v4l2M (Z * ext_controls) :=
  try_set_ext_ctrls None sd cs false.
Definition v4l2_subdev_s_ext_ctrls (sd : option nat) (cs : ext_controls) : v4l2M (Z * ext_controls) :=
  try_set_ext_ctrls None sd cs true.
End ioctls.
