(* ===== verification/V4l2CtrlValid.v ===== *)
(** Validation of the values of controls: an integer is rounded to the nearest
    legal value, and the tables of standard controls fit together. *)

From Stdlib Require Import String.
From stdpp Require Import gmap strings.
From S2P Require Import Prelude StateM V4l2Types V4l2CtrlTables V4l2Event V4l2CtrlNew V4l2Ctrl V4l2CtrlIoctl.

(** ** Integers *)

(** The values that a control of type INTEGER can have. *)
Definition legal_int (x : v4l2_ctrl) (v : Z) : Prop :=
  ct_minimum x <= v <= ct_maximum x /\ (ct_step x | v - ct_minimum x).

Definition is_s32 (v : Z) : Prop := - 2 ^ 31 <= v < 2 ^ 31.

(** What [v4l2_ctrl_new] checks and the widths of the members. *)
Record int_ctrl (x : v4l2_ctrl) : Prop := {
  ic_type : ct_type x = V4L2_CTRL_TYPE_INTEGER;
  ic_min : is_s32 (ct_minimum x);
  ic_max : is_s32 (ct_maximum x);
  ic_order : ct_minimum x <= ct_maximum x;
  ic_step : 0 < ct_step x < 2 ^ 32;
}.

(** The place on the grid that integer division finds. *)
Definition round_down (x : v4l2_ctrl) (v : Z) : Z :=
  ct_minimum x + ct_step x * ((v - ct_minimum x) / ct_step x).

Lemma round_down_spec x v :
  int_ctrl x -> ct_minimum x <= v <= ct_maximum x ->
  legal_int x (round_down x v) /\ round_down x v <= v < round_down x v + ct_step x.
Proof.
  intros [_ _ _ _ Hs] Hv. unfold round_down.
  pose proof (Z.div_mod (v - ct_minimum x) (ct_step x) ltac:(lia)) as Hd.
  pose proof (Z.mod_pos_bound (v - ct_minimum x) (ct_step x) ltac:(lia)) as Hm.
  assert (0 <= (v - ct_minimum x) / ct_step x) by (apply Z.div_pos; lia).
  split; [|lia]. split; [nia|]. exists ((v - ct_minimum x) / ct_step x). lia.
Qed.

Definition clamp (x : v4l2_ctrl) (v : Z) : Z := Z.min (ct_maximum x) (Z.max (ct_minimum x) v).

(** What the code computes. *)
Lemma validate_int_eq x val :
  int_ctrl x -> is_s32 val -> is_s32 (val + ct_step x / 2) ->
  validate_new_int x val = Some (0, round_down x (clamp x (val + ct_step x / 2))).
Proof.
  intros Hc Hval Hno. pose proof Hc as [Ht Hmin Hmax Ho Hs]. unfold is_s32 in *.
  unfold validate_new_int. rewrite Ht, Z.eqb_refl. rewrite (s32_small (val + ct_step x / 2)) by lia.
  assert (Hcl : (let v := if val + ct_step x / 2 <? ct_minimum x then ct_minimum x else val + ct_step x / 2 in
    if v >? ct_maximum x then ct_maximum x else v) = clamp x (val + ct_step x / 2)).
  { unfold clamp. destruct (Z.ltb_spec (val + ct_step x / 2) (ct_minimum x)); cbv zeta;
      rewrite Z.gtb_ltb; match goal with |- context [?a <? ?b] => destruct (Z.ltb_spec a b) end; lia. }
  cbv zeta in *. rewrite Hcl. set (v := clamp x _) in *.
  assert (Hv : ct_minimum x <= v <= ct_maximum x) by (unfold v, clamp; lia).
  rewrite (proj2 (Z.eqb_neq (ct_step x) 0)) by lia.
  destruct (round_down_spec x v Hc Hv) as [[Hr _] Hlt]. unfold round_down in *.
  change u32 with (wrap 32). rewrite (wrap_small 32 (v - ct_minimum x)) by lia.
  set (d := ct_step x * _) in *. rewrite wrap_small by lia. rewrite s32_small by lia. done.
Qed.

(** Fact: setting an integer control to any value that rounding does not
    carry beyond 32 bits gives the legal value next to it: one of the control's
    range and step, and no other is closer. *)
Theorem validate_rounds_to_nearest (x : v4l2_ctrl) (val : Z) :
  int_ctrl x -> is_s32 val -> is_s32 (val + ct_step x / 2) ->
  exists v, validate_new_int x val = Some (0, v) /\ legal_int x v /\
    forall w, legal_int x w -> Z.abs (v - val) <= Z.abs (w - val).
Proof.
  intros Hc Hval Hno. eexists. split; [by apply validate_int_eq|].
  pose proof Hc as [_ Hmin Hmax Ho Hs]. set (v := clamp x (val + ct_step x / 2)).
  assert (Hv : ct_minimum x <= v <= ct_maximum x) by (unfold v, clamp; lia).
  destruct (round_down_spec x v Hc Hv) as [Hleg Hlt]. split; [done|]. intros w Hw.
  pose proof (Z.div_mod (ct_step x) 2 ltac:(lia)) as Hd. pose proof (Z.mod_pos_bound (ct_step x) 2 ltac:(lia)) as Hm.
  assert (Hgrid : w <= round_down x v - ct_step x \/ w = round_down x v \/ round_down x v + ct_step x <= w).
  { destruct Hleg as [_ [q Hq]], Hw as [_ [p Hp]]. destruct (Z.lt_trichotomy p q) as [Hpq|[->|Hpq]];
      [left|right; left; lia|right; right].
    - assert ((p + 1) * ct_step x <= q * ct_step x) by (apply Z.mul_le_mono_nonneg_r; lia). lia.
    - assert ((q + 1) * ct_step x <= p * ct_step x) by (apply Z.mul_le_mono_nonneg_r; lia). lia. }
  destruct Hw as [Hw _], Hleg as [Hleg _]. set (r := round_down x v) in *.
  assert (Hcl : v = clamp x (val + ct_step x / 2)) by done. clearbody r v. unfold clamp in Hcl. destruct Hgrid as [|[->|]]; lia.
Qed.

(** ** Menus *)

(** A menu with all of its items, and the NULL behind them. *)
Definition full_menu (items : list string) : list (option string) := map Some items ++ [None].

Definition menu_shape (menu : list (option string)) : bool :=
  match List.rev menu with
  | None :: items => (0 <? zlen items) && (zlen items <? 32) &&
      forallb (fun o => match o with Some s => (0 <? Z.of_nat (String.length s)) && (Z.of_nat (String.length s) <? 32) | None => false end) items
  | _ => false
  end.

Lemma menu_shape_spec menu :
  menu_shape menu = true ->
  exists items, menu = full_menu items /\ 0 < zlen items < 32 /\
    Forall (fun s => 0 < Z.of_nat (String.length s) < 32) items.
Proof.
  unfold menu_shape. destruct (rev menu) as [|[s|] l] eqn:Hrev; [done|done|]. intros H.
  apply andb_true_iff in H as [[H1%Z.ltb_lt H2%Z.ltb_lt]%andb_true_iff H3]. apply (f_equal (@List.rev _)) in Hrev.
  rewrite rev_involutive in Hrev. cbn in Hrev.
  assert (Hl : exists items, List.rev l = map Some items /\ Forall (fun s => 0 < Z.of_nat (String.length s) < 32) items).
  { assert (H3' : forallb (fun o => match o with Some s => (0 <? Z.of_nat (String.length s)) && (Z.of_nat (String.length s) <? 32) | None => false end) (List.rev l) = true).
    { apply forallb_forall. intros o Ho. apply in_rev in Ho. by apply (proj1 (forallb_forall _ _) H3). }
    clear -H3'. induction (List.rev l) as [|o k IH]; [by exists []|]. cbn in H3'. apply andb_true_iff in H3' as [Ho Hk].
    destruct (IH Hk) as (items & -> & Hall). destruct o as [s|]; [|done]. exists (s :: items). split; [done|]. constructor; [lia|done]. }
  destruct Hl as (items & Hl & Hall). exists items. rewrite Hrev, Hl. split; [done|]. split; [|done].
  assert (Hlen : zlen (List.rev l) = zlen items) by (unfold zlen; by rewrite Hl, length_map).
  unfold zlen in *. rewrite length_rev in Hlen. lia.
Qed.

Lemma switch_in {A} (cases : list (Z * A)) id v : switch cases id = Some v -> In (id, v) cases.
Proof.
  unfold switch. destruct (List.find _ cases) as [[i w]|] eqn:Hf; [|done]. intros [= <-].
  apply find_some in Hf as [Hin Heq%Z.eqb_eq]. cbn in Heq. by subst.
Qed.

Lemma switch_some {A} (cases : list (Z * A)) id : is_Some (switch cases id) <-> one_of (map fst cases) id = true.
Proof.
  unfold switch, one_of. split.
  - intros [v Hv]. apply switch_in in Hv. apply existsb_exists. exists id. split; [|apply Z.eqb_refl]. by apply (in_map fst) in Hv.
  - intros (i & Hin & ->%Z.eqb_eq)%existsb_exists. apply in_map_iff in Hin as ([j v] & <- & Hin).
    destruct (List.find _ cases) as [c|] eqn:Hf; [by eexists|]. by pose proof (find_none _ _ Hf _ Hin) as Hne; cbn in Hne; rewrite Z.eqb_refl in Hne.
Qed.

(** The menus of the standard controls are full, and the menu controls are those
    that have a menu. *)
Lemma standard_menus id :
  (forall min max step def, cf_type (v4l2_ctrl_fill id min max step def) = V4L2_CTRL_TYPE_MENU <-> is_Some (v4l2_ctrl_get_menu id)) /\
  forall menu, v4l2_ctrl_get_menu id = Some menu -> menu_shape menu = true.
Proof.
  split.
  - intros min max step def. unfold v4l2_ctrl_get_menu. rewrite switch_some.
    assert (Hsame : one_of (map fst ctrl_menus) id = one_of menu_ids id).
    { apply eq_true_iff_eq. unfold one_of. rewrite !existsb_exists.
      assert (Hincl : forall l k, forallb (fun i => existsb (Z.eqb i) k) l = true -> forall i, In i l -> In i k).
      { intros l k Hl i Hi. apply (proj1 (forallb_forall _ _) Hl) in Hi. by apply existsb_exists in Hi as (j & Hj & ->%Z.eqb_eq). }
      split; intros (i & Hi & He); exists i; (split; [|done]); revert Hi; apply Hincl; vm_compute; reflexivity. }
    rewrite Hsame. unfold v4l2_ctrl_fill. cbv zeta. split.
    + intros H. repeat (destruct (one_of boolean_ids id); [done|]; destruct (one_of button_ids id); [done|]).
      destruct (one_of menu_ids id); [done|]. by repeat (destruct (one_of _ id); [done|]).
    + intros Hm. rewrite Hm. assert (Hd : forall l, forallb (fun i => negb (one_of l i)) menu_ids = true -> one_of l id = false).
      { intros l Hl. apply existsb_exists in Hm as (i & Hi & ->%Z.eqb_eq). apply (proj1 (forallb_forall _ _) Hl) in Hi. by apply negb_true_iff. }
      by rewrite !Hd by (vm_compute; reflexivity).
  - intros menu Hm%switch_in. assert (Hall : forallb (fun c => menu_shape (snd c)) ctrl_menus = true) by (vm_compute; reflexivity).
    by apply (proj1 (forallb_forall _ _) Hall) in Hm.
Qed.

Lemma full_menu_item items i :
  0 <= i < zlen items -> exists s, (full_menu items).[i] = Some (Some s) /\ items.[i] = Some s.
Proof.
  intros Hi. destruct (mget_is_Some items i) as [_ [s Hs]]; [done|]. exists s. split; [|done].
  unfold full_menu. rewrite mget_app_l by (unfold zlen in *; rewrite length_map; lia).
  apply mget_Some in Hs as [H0 Hs]. apply mget_Some. split; [done|]. change (map Some items) with (Some <$> items).
  by rewrite list_lookup_fmap, Hs.
Qed.

(** The comparisons of a signed and of an unsigned index with the limits agree. *)
Lemma val_in_range x val :
  0 <= ct_minimum x <= ct_maximum x -> ct_maximum x < 2 ^ 31 -> - 2 ^ 31 <= val < 2 ^ 31 ->
  ((val <? ct_minimum x) || (val >? ct_maximum x) = true /\ (u32 val <? u32 (ct_minimum x)) || (u32 val >? u32 (ct_maximum x)) = true) \/
  (ct_minimum x <= val <= ct_maximum x /\ (val <? ct_minimum x) || (val >? ct_maximum x) = false /\
    (u32 val <? u32 (ct_minimum x)) || (u32 val >? u32 (ct_maximum x)) = false /\ u32 val = val).
Proof.
  intros Hm Hx Hv. assert (E1 : u32 (ct_minimum x) = ct_minimum x) by (apply wrap_small; lia).
  assert (E2 : u32 (ct_maximum x) = ct_maximum x) by (apply wrap_small; lia). rewrite E1, E2, !Z.gtb_ltb, !orb_true_iff, !orb_false_iff.
  destruct (Z.lt_ge_cases val 0) as [Hneg|Hpos].
  - left. assert (Eu : u32 val = val + 2 ^ 32) by (unfold u32, wrap; rewrite <-(Z.mod_small (val + 2 ^ 32) (2 ^ 32)) by lia;
      by rewrite <-(Z_mod_plus_full val 1), Z.mul_1_l). rewrite Eu. split; [left|right]; apply Z.ltb_lt; lia.
  - rewrite (wrap_small 32 val : 0 <= val < 2 ^ 32 -> u32 val = val) by lia. rewrite !Z.ltb_lt, !Z.ltb_ge. lia.
Qed.

Lemma validate_menu_eq x val :
  ct_type x = V4L2_CTRL_TYPE_MENU ->
  validate_new_int x val =
    if (val <? ct_minimum x) || (val >? ct_maximum x) then Some (- ERANGE, val)
    else menu ← ct_qmenu x; entry ← menu.[val]; item ← entry;
      if bool_decide (item = EmptyString) then Some (- EINVAL, val) else if val >=? 32 then None
      else Some (if Z.testbit (ct_step x) val then - EINVAL else 0, val).
Proof. intros Ht. unfold validate_new_int. by rewrite Ht. Qed.

Lemma querymenu_eq s s1 h c x qm :
  v4l2_ctrl_find h (qm_id qm) s = Some (Some c, s1) -> vs_ctrl s1 !! c = Some x ->
  v4l2_querymenu h qm s =
    (let blank := mk_querymenu (qm_id qm) (qm_index qm) (qm_name qm) 0 in
    match ct_qmenu x with
    | None => Some ((- EINVAL, blank), s1)
    | Some menu =>
      if (qm_index qm <? u32 (ct_minimum x)) || (qm_index qm >? u32 (ct_maximum x)) then Some ((- EINVAL, blank), s1)
      else if qm_index qm >=? 32 then None
      else if Z.testbit (ct_step x) (qm_index qm) then Some ((- EINVAL, blank), s1)
      else
        (item <- the (menu.[qm_index qm]) ;;
        match item with
        | None => mdo (- EINVAL, blank)
        | Some s => mdo (if bool_decide (s = EmptyString) then (- EINVAL, blank) else (0, mk_querymenu (qm_id qm) (qm_index qm) (strlcpy32 s) 0))
        end) s1
    end).
Proof.
  intros Hf Hx. unfold v4l2_querymenu. unfold mthen at 1. rewrite Hf. unfold ct_get, mthen at 1 2, gets, the at 1. rewrite Hx. cbn [mdo].
  destruct (ct_qmenu x); [|done]. destruct (_ || _); [done|]. destruct (_ >=? 32); [done|]. by destruct (Z.testbit _ _).
Qed.

Lemma strlcpy_fits s : Z.of_nat (String.length s) < 32 -> strlcpy32 s = s.
Proof.
  unfold strlcpy32. intros Hs. assert (Hl : (String.length s <= 31)%nat) by lia. clear Hs. revert Hl. generalize 31%nat.
  induction s as [|a s IH]; intros n Hn; [by destruct n|]. destruct n; [cbn in Hn; lia|]. cbn. f_equal. apply IH. cbn in Hn. lia.
Qed.

(** Fact: the items of a standard menu that VIDIOC_QUERYMENU lists are exactly
    the values that a control with this menu accepts, whatever its limits within
    the menu and whatever items it skips; no value faults. *)
Theorem menu_items_agree (s s1 : v4l2_state) (h : option nat) (c : nat) (x : v4l2_ctrl) (id val : Z) (menu : list (option string)) (qm : querymenu) :
  v4l2_ctrl_get_menu id = Some menu -> ct_type x = V4L2_CTRL_TYPE_MENU -> ct_qmenu x = Some menu ->
  0 <= ct_minimum x <= ct_maximum x -> ct_maximum x < zlen menu - 1 -> is_s32 val ->
  v4l2_ctrl_find h (qm_id qm) s = Some (Some c, s1) -> vs_ctrl s1 !! c = Some x -> qm_index qm = u32 val ->
  exists r ret qm', validate_new_int x val = Some (r, val) /\ v4l2_querymenu h qm s = Some ((ret, qm'), s1) /\
    (r = 0 <-> ret = 0) /\ (ret = 0 -> menu.[val] = Some (Some (qm_name qm'))).
Proof.
  intros Hmenu Ht Hq Hmin Hmax Hval Hfind Hx Hi. apply standard_menus, menu_shape_spec in Hmenu as (items & -> & Hlen & Hall).
  assert (Hz : zlen (full_menu items) - 1 = zlen items) by (unfold full_menu, zlen; rewrite length_app, length_map; cbn; lia).
  rewrite Hz in Hmax. clear Hz. unfold is_s32 in Hval. destruct (val_in_range x val ltac:(lia) ltac:(lia) Hval) as [[Hr1 Hr2]|(Hr & Hr1 & Hr2 & Hu)].
  - exists (- ERANGE), (- EINVAL). eexists. rewrite (validate_menu_eq x val Ht), Hr1. split; [done|].
    rewrite (querymenu_eq _ _ _ _ _ _ Hfind Hx), Hq, Hi, Hr2. split; [done|]. split; done.
  - destruct (full_menu_item items val ltac:(lia)) as (item & Hitem & Hmem).
    assert (Hlong : 0 < Z.of_nat (String.length item) < 32).
    { apply mget_Some in Hmem as [_ Hmem]. apply list_elem_of_lookup_2 in Hmem. rewrite Forall_forall in Hall. by apply Hall. }
    assert (Hne : bool_decide (item = EmptyString) = false) by (apply bool_decide_eq_false; intros ->; cbn in Hlong; lia).
    rewrite (validate_menu_eq x val Ht), Hr1, Hq. cbn [mbind option_bind]. rewrite Hitem. cbn [mbind option_bind]. rewrite Hne.
    rewrite Z.geb_leb, (proj2 (Z.leb_gt 32 val)) by lia. rewrite (querymenu_eq _ _ _ _ _ _ Hfind Hx), Hq, Hi, Hr2, Hu.
    rewrite Z.geb_leb, (proj2 (Z.leb_gt 32 val)) by lia. destruct (Z.testbit (ct_step x) val).
    + by eexists _, _, _.
    + cbv zeta. unfold mthen, the, mdo. rewrite Hitem, Hne. eexists _, _, _. split; [done|]. split; [done|]. split; [done|]. intros _. cbn [qm_name].
      rewrite strlcpy_fits by lia. done.
Qed.
