(* ===== verification/V4l2CtrlOk.v ===== *)
(** The references of a handler: the sorted list and the hash table hold the same
    controls, and a search finds what is there. *)

From Stdlib Require Import String Sorting.Sorted.
From stdpp Require Import gmap strings sorting.
From S2P Require Import Prelude StateM V4l2Types V4l2CtrlTables V4l2Event V4l2Steps V4l2CtrlNew V4l2Ctrl V4l2CtrlIoctl.

(** ** Ids *)

Definition rid (s : v4l2_state) (r : nat) : option Z :=
  x ← vs_ref s !! r; c ← vs_ctrl s !! cr_ctrl x; Some (ct_id c).

Lemma hd_get_run s h hd : vs_hdl s !! h = Some hd -> hd_get h s = Some (hd, s).
Proof. unfold hd_get, mthen, gets, the. cbn. by intros ->. Qed.

Lemma hd_upd_run s h hd f :
  vs_hdl s !! h = Some hd -> hd_upd h f s = Some (tt, set_vs_hdl (<[h := f hd]> (vs_hdl s)) s).
Proof. intros H. unfold hd_upd, mthen. rewrite (hd_get_run _ _ _ H). done. Qed.

Lemma ref_id_run s r i : rid s r = Some i -> ref_id r s = Some (i, s).
Proof.
  unfold rid, ref_id, ref_ctrl, ct_get, mthen, gets, the, mdo. intros H.
  destruct (vs_ref s !! r) as [x|]; [|done]. cbn in *.
  destruct (vs_ctrl s !! cr_ctrl x) as [c|]; [|done]. cbn in *. by injection H as <-.
Qed.

(** What a handler holds: its list of references is sorted by id, each id once;
    a bucket has the references whose ids hash to it. *)
Record handler_rel (s : v4l2_state) (hd : ctrl_handler) (ids : list Z) : Prop := {
  hr_refs : Forall2 (fun r i => rid s r = Some i) (hd_ctrl_refs hd) ids;
  hr_sorted : StronglySorted Z.lt ids;
  hr_range : Forall (fun i => 0 < i < V4L2_CID_PRIVATE_BASE) ids;
  hr_nr : 0 < hd_nr_of_buckets hd < 2 ^ 16;
  hr_buckets : exists b, hd_buckets hd = Some b /\ zlen b = hd_nr_of_buckets hd /\
    forall k chain, b.[k] = Some chain -> forall r,
      r ∈ chain <-> r ∈ hd_ctrl_refs hd /\ exists i, rid s r = Some i /\ i mod hd_nr_of_buckets hd = k;
  hr_cached : forall r, hd_cached hd = Some r -> r ∈ hd_ctrl_refs hd;
}.

Definition handler_at (s : v4l2_state) (h : nat) (ids : list Z) : Prop :=
  exists hd, vs_hdl s !! h = Some hd /\ handler_rel s hd ids.

Lemma rel_rid s hd ids r : handler_rel s hd ids -> r ∈ hd_ctrl_refs hd -> exists i, rid s r = Some i /\ i ∈ ids.
Proof.
  intros Hr [k Hk]%list_elem_of_lookup. destruct (Forall2_lookup_l _ _ _ _ _ (hr_refs _ _ _ Hr) Hk) as (i & Hi & H).
  exists i. split; [done|]. by apply list_elem_of_lookup_2 in Hi.
Qed.

Lemma rel_ref s hd ids i : handler_rel s hd ids -> i ∈ ids -> exists r, r ∈ hd_ctrl_refs hd /\ rid s r = Some i.
Proof.
  intros Hr [k Hk]%list_elem_of_lookup. destruct (Forall2_lookup_r _ _ _ _ _ (hr_refs _ _ _ Hr) Hk) as (r & Hi & H).
  exists r. split; [|done]. by apply list_elem_of_lookup_2 in Hi.
Qed.

(** ** Searching *)

(** Only the cache may change. *)
Definition cached_only (h : nat) (s s' : v4l2_state) : Prop :=
  exists hd o, vs_hdl s !! h = Some hd /\ (forall r, o = Some r -> r ∈ hd_ctrl_refs hd) /\
    s' = set_vs_hdl (<[h := set_hd_cached o hd]> (vs_hdl s)) s.

Lemma cached_only_refl h s ids : handler_at s h ids -> cached_only h s s.
Proof.
  intros (hd & Hh & Hr). exists hd, (hd_cached hd). split; [done|]. split; [apply Hr|].
  assert (He : set_hd_cached (hd_cached hd) hd = hd) by (by destruct hd). rewrite He, list_insert_id by done. by destruct s.
Qed.

Lemma cached_only_rel h s s' hd ids :
  cached_only h s s' -> vs_hdl s !! h = Some hd -> handler_rel s hd ids ->
  exists hd', vs_hdl s' !! h = Some hd' /\ handler_rel s' hd' ids /\ hd_ctrl_refs hd' = hd_ctrl_refs hd /\
    hd_error hd' = hd_error hd /\ hd_ctrls hd' = hd_ctrls hd.
Proof.
  intros (hd0 & o & Hh & Ho & ->) Hhd Hr. rewrite Hhd in Hh. injection Hh as <-.
  exists (set_hd_cached o hd). split; [cbn; apply list_lookup_insert_eq; by eapply lookup_lt_Some|].
  split; [|done]. destruct Hr as [H1 H2 H3 H4 H5 H6]. by constructor.
Qed.

Lemma cached_only_at h s s' ids : cached_only h s s' -> handler_at s h ids -> handler_at s' h ids.
Proof.
  intros Hc (hd & Hh & Hr). destruct (cached_only_rel _ _ _ _ _ Hc Hh Hr) as (hd' & ? & ? & _). by exists hd'.
Qed.

Lemma bucket_loop_run s chain id :
  (forall r, r ∈ chain -> is_Some (rid s r)) ->
  exists o, bucket_loop chain id s = Some (o, s) /\
    match o with Some r => r ∈ chain /\ rid s r = Some id | None => forall r, r ∈ chain -> rid s r <> Some id end.
Proof.
  induction chain as [|r chain IH]; intros Hall; [exists None; split; [done|]; by intros r ?%elem_of_nil|].
  destruct (Hall r) as [i Hi]; [apply list_elem_of_here|]. cbn [bucket_loop].
  unfold mthen at 1. rewrite (ref_id_run _ _ _ Hi). destruct (Z.eqb_spec i id) as [->|Hne]; cbn.
  - exists (Some r). split; [done|]. split; [apply list_elem_of_here|done].
  - destruct IH as (o & Ho & Hs); [intros q Hq; apply Hall; by apply list_elem_of_further|]. exists o. split; [done|].
    destruct o as [q|]; [split; [apply list_elem_of_further|]; apply Hs|]. intros q [->|Hq]%elem_of_cons; [congruence|by apply Hs].
Qed.

(** A search by id, flags masked, finds the control that has it, if any. *)
Lemma find_ref_run s h hd ids id :
  vs_hdl s !! h = Some hd -> handler_rel s hd ids -> Z.land id V4L2_CTRL_ID_MASK < V4L2_CID_PRIVATE_BASE ->
  wp (find_ref h id) s (fun o s' => cached_only h s s' /\
    match o with
    | Some r => r ∈ hd_ctrl_refs hd /\ rid s r = Some (Z.land id V4L2_CTRL_ID_MASK)
    | None => Z.land id V4L2_CTRL_ID_MASK ∉ ids
    end).
Proof.
  intros Hh Hr Hid. pose proof (hr_nr _ _ _ Hr) as Hnr. assert (Hat : handler_at s h ids) by (by exists hd).
  unfold find_ref. eapply wp_eq; [by apply hd_get_run|]. cbv zeta. set (i := Z.land id V4L2_CTRL_ID_MASK) in *.
  rewrite Z.geb_leb, (proj2 (Z.leb_gt _ _)) by done. rewrite (proj2 (Z.eqb_neq (hd_nr_of_buckets hd) 0)) by lia.
  destruct (hr_buckets _ _ _ Hr) as (b & Hb & Hlen & Hchain).
  assert (Hhit : (match hd_cached hd with Some r => j <- ref_id r ;; mdo (j =? i) | None => mdo false end) s =
    Some (match hd_cached hd with Some r => bool_decide (rid s r = Some i) | None => false end, s)).
  { destruct (hd_cached hd) as [r|] eqn:Hc; [|done]. destruct (rel_rid _ _ _ _ Hr (hr_cached _ _ _ Hr _ Hc)) as (j & Hj & _).
    unfold mthen. rewrite (ref_id_run _ _ _ Hj), Hj. cbn. do 2 f_equal. destruct (Z.eqb_spec j i) as [->|Hne].
    - by rewrite bool_decide_true.
    - rewrite bool_decide_false; [done|congruence]. }
  eapply wp_eq; [exact Hhit|]. clear Hhit. set (hit := match hd_cached hd with Some _ => _ | None => _ end).
  destruct hit eqn:Hhit; unfold hit in Hhit.
  - apply wp_mdo. split; [by eapply cached_only_refl|]. destruct (hd_cached hd) as [r|] eqn:Hc; [|done].
    apply bool_decide_eq_true in Hhit. split; [by apply (hr_cached _ _ _ Hr)|done].
  - rewrite Hb. destruct (mget_is_Some b (i mod hd_nr_of_buckets hd)) as [_ [chain Hk]];
      [pose proof (Z.mod_pos_bound i (hd_nr_of_buckets hd)); lia|].
    eapply wp_the; [exact Hk|]. destruct (bucket_loop_run s chain i) as (o & Ho & Hspec).
    { intros r [Hin _]%(Hchain _ _ Hk). destruct (rel_rid _ _ _ _ Hr Hin) as (j & Hj & _). by exists j. }
    eapply wp_eq; [exact Ho|]. destruct o as [r|].
    + destruct Hspec as [[Hin _]%(Hchain _ _ Hk) Hi]. eapply wp_eq; [by apply hd_upd_run|]. apply wp_mdo.
      split; [|done]. exists hd, (Some r). split; [done|]. split; [|done]. by intros q [= <-].
    + apply wp_mdo. split; [by eapply cached_only_refl|]. intros Hin.
      destruct (rel_ref _ _ _ _ Hr Hin) as (r & Hr1 & Hr2). apply (Hspec r); [|done]. apply (Hchain _ _ Hk). split; [done|]. by exists i.
Qed.

(** Old private ids: the references are walked without a fault. *)
Lemma private_loop_run s refs id :
  (forall r, r ∈ refs -> is_Some (rid s r)) ->
  exists o, private_loop refs id s = Some (o, s) /\ forall r, o = Some r -> r ∈ refs.
Proof.
  revert id. induction refs as [|r refs IH]; intros id Hall; [by exists None|].
  destruct (Hall r) as [i Hi]; [apply list_elem_of_here|].
  assert (Hrest : forall q, q ∈ refs -> is_Some (rid s q)) by (intros q Hq; apply Hall; by apply list_elem_of_further).
  assert (Hnext : forall j, exists o, private_loop refs j s = Some (o, s) /\ forall q, o = Some q -> q ∈ r :: refs).
  { intros j. destruct (IH j Hrest) as (o & Ho & Hin). exists o. split; [done|]. intros q Hq. apply list_elem_of_further. by apply Hin. }
  cbn [private_loop]. unfold rid in Hi. unfold ref_ctrl, ct_get, mthen at 1 2 3 4 5, gets, the.
  destruct (vs_ref s !! r) as [x|]; [|done]. cbn in *. destruct (vs_ctrl s !! cr_ctrl x) as [c|]; [|done]. cbn.
  destruct (_ && _); [|done]. destruct (negb _); [done|]. destruct (id =? 0); [|done].
  exists (Some r). split; [done|]. intros q [= <-]. apply list_elem_of_here.
Qed.

Lemma find_ref_safe s h hd ids id :
  vs_hdl s !! h = Some hd -> handler_rel s hd ids ->
  wp (find_ref h id) s (fun o s' => cached_only h s s' /\
    (Z.land id V4L2_CTRL_ID_MASK < V4L2_CID_PRIVATE_BASE ->
      match o with
      | Some r => r ∈ hd_ctrl_refs hd /\ rid s r = Some (Z.land id V4L2_CTRL_ID_MASK)
      | None => Z.land id V4L2_CTRL_ID_MASK ∉ ids
      end) /\ forall r, o = Some r -> r ∈ hd_ctrl_refs hd).
Proof.
  intros Hh Hr. destruct (Z.lt_ge_cases (Z.land id V4L2_CTRL_ID_MASK) V4L2_CID_PRIVATE_BASE) as [Hlt|Hge].
  - eapply wp_mono; [by eapply find_ref_run|]. cbv beta. intros o s' [Hc Ho]. split; [done|]. split; [done|].
    intros r ->. apply Ho.
  - unfold find_ref. eapply wp_eq; [by apply hd_get_run|]. cbv zeta. rewrite Z.geb_leb, (proj2 (Z.leb_le _ _)) by done.
    unfold find_private_ref. eapply wp_eq; [by apply hd_get_run|].
    destruct (private_loop_run s (hd_ctrl_refs hd) (u32 (Z.land id V4L2_CTRL_ID_MASK - V4L2_CID_PRIVATE_BASE))) as (o & Ho & Hin).
    { intros r Hin. destruct (rel_rid _ _ _ _ Hr Hin) as (j & Hj & _). by exists j. }
    apply wp_ret. eapply wp_eq; [exact Ho|]. apply wp_mdo. split; [|split; [lia|done]].
    eapply cached_only_refl. by exists hd.
Qed.

(** ** The next control *)

Definition next_id (ids : list Z) (id : Z) : option Z := List.find (fun j => id <? j) ids.

Lemma next_loop_run s refs ids id j :
  Forall2 (fun r i => rid s r = Some i) refs ids -> next_id ids id = Some j ->
  exists r, next_loop refs id s = Some (r, s) /\ r ∈ refs /\ rid s r = Some j.
Proof.
  induction 1 as [|r i refs ids Hi _ IH]; [done|]. unfold next_id. cbn [List.find next_loop].
  unfold mthen at 1. rewrite (ref_id_run _ _ _ Hi). destruct (id <? i).
  - intros [= <-]. exists r. split; [done|]. split; [apply list_elem_of_here|done].
  - intros Hn. destruct (IH Hn) as (q & Hq & Hin & Hj). exists q. split; [done|]. split; [by apply list_elem_of_further|done].
Qed.

Lemma sorted_tail i ids : StronglySorted Z.lt (i :: ids) -> StronglySorted Z.lt ids /\ Forall (Z.lt i) ids.
Proof. intros H. inversion H; subst. done. Qed.

Lemma next_id_below ids id : Forall (Z.lt id) ids -> next_id ids id = head ids.
Proof. intros H. destruct ids as [|i ids]; [done|]. inversion H; subst. unfold next_id. cbn. by rewrite (proj2 (Z.ltb_lt _ _)). Qed.

Lemma list_next_run s refs ids r id j :
  Forall2 (fun r i => rid s r = Some i) refs ids -> StronglySorted Z.lt ids -> r ∈ refs -> rid s r = Some id ->
  next_id ids id = Some j -> exists q, list_next refs r = Some q /\ q ∈ refs /\ rid s q = Some j.
Proof.
  induction 1 as [|q i refs ids Hi Hrest IH]; intros Hs Hin Hid Hn; [by apply elem_of_nil in Hin|].
  apply sorted_tail in Hs as [Hs Hlt]. cbn [list_next]. destruct (decide (q = r)) as [->|Hne].
  - rewrite Hi in Hid. injection Hid as ->. unfold next_id in Hn. cbn in Hn. rewrite Z.ltb_irrefl in Hn.
    change (next_id ids id = Some j) in Hn. rewrite next_id_below in Hn by done. destruct Hrest as [|q k refs ids Hq _]; [done|].
    injection Hn as ->. exists q. cbn. split; [done|]. split; [|done]. apply list_elem_of_further, list_elem_of_here.
  - apply elem_of_cons in Hin as [->|Hin]; [done|]. assert (Hlt' : i < id).
    { apply list_elem_of_lookup in Hin as [k Hk]. destruct (Forall2_lookup_l _ _ _ _ _ Hrest Hk) as (i' & Hk' & Hi').
      rewrite Hid in Hi'. injection Hi' as <-. rewrite Forall_forall in Hlt. apply Hlt. by eapply list_elem_of_lookup_2. }
    unfold next_id in Hn. cbn in Hn. rewrite (proj2 (Z.ltb_ge _ _)) in Hn by lia.
    destruct (IH Hs Hin Hid Hn) as (p & Hp & Hpin & Hpj). exists p. split; [done|]. split; [by apply list_elem_of_further|done].
Qed.

(** Nothing is after the last. *)
Lemma next_id_last ids id k : StronglySorted Z.lt ids -> last ids = Some k -> next_id ids id = None <-> k <= id.
Proof.
  induction ids as [|i ids IH]; intros Hs Hl; [done|]. apply sorted_tail in Hs as [Hs Hlt]. unfold next_id. cbn.
  destruct ids as [|i' ids]; [injection Hl as ->; cbn; destruct (Z.ltb_spec id k); split; (done || lia)|].
  rewrite last_cons_cons in Hl. specialize (IH Hs Hl). destruct (Z.ltb_spec id i) as [Hi|Hi]; [|done].
  split; [done|]. rewrite Forall_forall in Hlt. assert (Hk : k ∈ i' :: ids) by (by apply last_Some_elem_of). apply Hlt in Hk. lia.
Qed.

Lemma next_ref_run s hd ids o id :
  handler_rel s hd ids -> (id < V4L2_CID_PRIVATE_BASE -> match o with Some r => r ∈ hd_ctrl_refs hd /\ rid s r = Some id | None => id ∉ ids end) ->
  (forall r, o = Some r -> r ∈ hd_ctrl_refs hd) ->
  exists p, next_ref (hd_ctrl_refs hd) o id s = Some (p, s) /\
    match p with Some r => exists j, next_id ids id = Some j /\ r ∈ hd_ctrl_refs hd /\ rid s r = Some j | None => next_id ids id = None end.
Proof.
  intros Hr Ho Hin. pose proof (hr_refs _ _ _ Hr) as Hall. pose proof (hr_sorted _ _ _ Hr) as Hs. unfold next_ref.
  destruct (last (hd_ctrl_refs hd)) as [q|] eqn:Hq.
  - apply last_Some in Hq as [front Hq]. rewrite Hq in Hall.
    apply Forall2_app_inv_l in Hall as (ids1 & ids2 & _ & Hlast & Hids). inversion Hlast as [|? k ? ? Hk Hnil]; subst.
    inversion Hnil; subst. unfold mthen at 1. rewrite (ref_id_run _ _ _ Hk).
    assert (Hl : last (ids1 ++ [k]) = Some k) by apply last_snoc. pose proof (next_id_last _ id k Hs Hl) as Hnext.
    rewrite Z.geb_leb. destruct (Z.leb_spec k id) as [Hle|Hgt]; [exists None; split; [done|]; by apply Hnext|].
    destruct (next_id (ids1 ++ [k]) id) as [j|] eqn:Hj; [|assert (k <= id) by (by apply Hnext); lia].
    assert (Hid : id < V4L2_CID_PRIVATE_BASE).
    { pose proof (hr_range _ _ _ Hr) as Hrange. rewrite Forall_app, Forall_singleton in Hrange. lia. }
    specialize (Ho Hid). destruct o as [r|].
    + destruct (list_next_run _ _ _ _ _ _ (hr_refs _ _ _ Hr) Hs (proj1 Ho) (proj2 Ho) Hj) as (p & Hp & Hpin & Hpj).
      unfold mthen. rewrite Hp. exists (Some p). split; [done|]. by exists j.
    + destruct (next_loop_run _ _ _ _ _ (hr_refs _ _ _ Hr) Hj) as (p & Hp & Hpin & Hpj).
      unfold mthen. rewrite Hp. exists (Some p). split; [done|]. by exists j.
  - apply last_None in Hq. rewrite Hq in Hall. inversion Hall; subst. exists o. split; [done|].
    destruct o as [r|]; [|done]. specialize (Hin r eq_refl). rewrite Hq in Hin. by apply elem_of_nil in Hin.
Qed.

Lemma ref_ctrl_run s r i :
  rid s r = Some i -> exists c x, ref_ctrl r s = Some (c, s) /\ vs_ctrl s !! c = Some x /\ ct_get c s = Some (x, s) /\ ct_id x = i.
Proof.
  unfold rid, ref_ctrl, ct_get, mthen, gets, the. cbn. destruct (vs_ref s !! r) as [x|]; [|done]. cbn.
  destruct (vs_ctrl s !! cr_ctrl x) as [c|] eqn:Hc; [|done]. cbn. intros [= <-]. exists (cr_ctrl x), c. by rewrite Hc.
Qed.

Lemma cached_only_rid h s s' r : cached_only h s s' -> rid s' r = rid s r.
Proof. by intros (hd & o & _ & _ & ->). Qed.

(** VIDIOC_QUERYCTRL for the control after an id. *)
Lemma query_next_run s h ids qc :
  handler_at s h ids -> truthy (Z.land (qc_id qc) V4L2_CTRL_FLAG_NEXT_CTRL) = true ->
  wp (v4l2_queryctrl (Some h) qc) s (fun a s' => cached_only h s s' /\
    match next_id ids (Z.land (qc_id qc) V4L2_CTRL_ID_MASK) with
    | Some j => fst a = 0 /\ qc_id (snd a) = j
    | None => a = (- EINVAL, qc)
    end).
Proof.
  intros (hd & Hh & Hr) Hflag. unfold v4l2_queryctrl. cbv zeta. set (id := Z.land (qc_id qc) V4L2_CTRL_ID_MASK).
  eapply wp_seq; [by eapply (find_ref_safe _ _ _ _ id)|]. cbv beta. intros o s' (Hc & Ho & Hin).
  assert (Hid : Z.land id V4L2_CTRL_ID_MASK = id) by (unfold id; by rewrite <-Z.land_assoc, Z.land_diag). rewrite Hid in *.
  destruct (cached_only_rel _ _ _ _ _ Hc Hh Hr) as (hd' & Hh' & Hr' & Hrefs & _).
  eapply wp_eq; [by apply hd_get_run|]. rewrite Hflag.
  assert (Hpre : id < V4L2_CID_PRIVATE_BASE -> match o with Some r => r ∈ hd_ctrl_refs hd' /\ rid s' r = Some id | None => id ∉ ids end).
  { intros Hlt. rewrite Hrefs. specialize (Ho Hlt). destruct o as [r|]; [|done]. by rewrite (cached_only_rid _ _ _ r Hc). }
  assert (Hin' : forall r, o = Some r -> r ∈ hd_ctrl_refs hd') by (by rewrite Hrefs).
  destruct (next_ref_run _ _ _ _ _ Hr' Hpre Hin') as (p & Hp & Hspec). eapply wp_eq; [exact Hp|].
  destruct p as [r|]; [|rewrite Hspec; by apply wp_mdo]. destruct Hspec as (j & Hj & Hrin & Hrid). rewrite Hj.
  destruct (ref_ctrl_run _ _ _ Hrid) as (c & x & Hc1 & _ & Hc2 & Hid').
  eapply wp_eq; [exact Hc1|]. eapply wp_eq; [exact Hc2|]. apply wp_mdo. split; [done|]. split; [done|]. cbn.
  rewrite Z.geb_leb, (proj2 (Z.leb_gt _ _)); [done|].
  unfold next_id in Hj. apply find_some in Hj as [Hjin Hlt%Z.ltb_lt]. apply list_elem_of_In in Hjin.
  pose proof (hr_range _ _ _ Hr) as Hrange. rewrite Forall_forall in Hrange. apply Hrange in Hjin. lia.
Qed.

(** A program that asks for one control after the other until there is none. *)
Fixpoint enumerate (fuel : nat) (h : option nat) (qc : queryctrl) (id : Z) : v4l2M (list Z) :=
  match fuel with
  | O => fault
  | S fuel =>
    r <- v4l2_queryctrl h (mk_queryctrl (Z.lor id V4L2_CTRL_FLAG_NEXT_CTRL) (qc_type qc) (qc_name qc) (qc_minimum qc)
      (qc_maximum qc) (qc_step qc) (qc_default_value qc) (qc_flags qc)) ;;
    if fst r =? 0 then l <- enumerate fuel h (snd r) (qc_id (snd r)) ;; mdo (qc_id (snd r) :: l) else mdo []
  end.

Lemma flag_bits id :
  0 <= id < V4L2_CID_PRIVATE_BASE ->
  truthy (Z.land (Z.lor id V4L2_CTRL_FLAG_NEXT_CTRL) V4L2_CTRL_FLAG_NEXT_CTRL) = true /\
  Z.land (Z.lor id V4L2_CTRL_FLAG_NEXT_CTRL) V4L2_CTRL_ID_MASK = id.
Proof.
  intros Hid. rewrite !Z.land_lor_distr_l. split.
  - unfold truthy. rewrite Z.land_diag. apply negb_true_iff, Z.eqb_neq. intros H%Z.lor_eq_0_iff. by destruct H.
  - change (Z.land V4L2_CTRL_FLAG_NEXT_CTRL V4L2_CTRL_ID_MASK) with 0. rewrite Z.lor_0_r.
    change V4L2_CTRL_ID_MASK with (Z.ones 28). rewrite Z.land_ones by lia. apply Z.mod_small. unfold V4L2_CID_PRIVATE_BASE in Hid. lia.
Qed.

Lemma enumerate_rest s h ids done_ids todo qc id :
  handler_at s h ids -> ids = done_ids ++ todo -> 0 <= id < V4L2_CID_PRIVATE_BASE ->
  Forall (fun i => i <= id) done_ids -> Forall (Z.lt id) todo ->
  wp (enumerate (S (length todo)) (Some h) qc id) s (fun l s' => l = todo /\ handler_at s' h ids).
Proof.
  revert s done_ids qc id. induction todo as [|i todo IH]; intros s done_ids qc id Hat Hids Hid Hle Hlt; cbn [length enumerate];
    destruct (flag_bits id Hid) as [Hf1 Hf2]; eapply wp_seq; try (apply (query_next_run s h ids); done);
    cbv beta; cbn [qc_id]; intros [ret qc'] s' [Hc Hnext]; rewrite Hf2 in Hnext; pose proof (cached_only_at _ _ _ _ Hc Hat) as Hat'.
  - rewrite app_nil_r in Hids. subst. assert (Hn : next_id done_ids id = None).
    { unfold next_id. destruct (List.find _ _) as [j|] eqn:Hj; [|done]. apply find_some in Hj as [Hj Hlt'%Z.ltb_lt].
      apply list_elem_of_In in Hj. rewrite Forall_forall in Hle. apply Hle in Hj. lia. }
    rewrite Hn in Hnext. apply pair_eq in Hnext as [-> ->]. by apply wp_mdo.
  - assert (Hn : next_id ids id = Some i).
    { subst ids. clear -Hle Hlt. induction done_ids as [|j l IH]; cbn [app]; [by rewrite next_id_below|]. inversion Hle; subst.
      unfold next_id. cbn. rewrite (proj2 (Z.ltb_ge _ _)) by done. by apply IH. }
    rewrite Hn in Hnext. destruct Hnext as [Hret Hqid]. cbn in Hret, Hqid. subst ret. cbn [fst snd Z.eqb]. rewrite Hqid.
    destruct Hat as (hd & _ & Hr). pose proof (hr_sorted _ _ _ Hr) as Hs. pose proof (hr_range _ _ _ Hr) as Hrange.
    subst ids. apply StronglySorted_app_1_r in Hs as Hs2. apply sorted_tail in Hs2 as [_ Htail].
    rewrite Forall_app, Forall_cons in Hrange. destruct Hrange as (_ & Hi & _). apply Forall_cons in Hlt as [Hlt1 Hlt2].
    eapply wp_seq.
    + apply (IH s' (done_ids ++ [i])); [done|by rewrite <-app_assoc|lia| |done].
      apply Forall_app. split; [eapply Forall_impl; [exact Hle|]; cbn; lia|]. by constructor.
    + cbv beta. intros l s2 [-> Hat2]. by apply wp_mdo.
Qed.

(** Fact: asking for the control after the last one, from 0, lists the ids of
    all controls of a handler once each in ascending order, and ends. *)
Theorem controls_are_enumerated (s : v4l2_state) (h : nat) (ids : list Z) (qc : queryctrl) :
  handler_at s h ids ->
  exists s', enumerate (S (length ids)) (Some h) qc 0 s = Some (ids, s') /\ handler_at s' h ids /\
    StronglySorted Z.lt ids.
Proof.
  intros Hat. destruct Hat as (hd & Hh & Hr). pose proof (hr_range _ _ _ Hr) as Hrange.
  assert (Hat : handler_at s h ids) by (by exists hd).
  pose proof (enumerate_rest s h ids [] ids qc 0 Hat eq_refl ltac:(done) (Forall_nil_2 _)) as Hrun.
  apply wp_run in Hrun as (l & s' & Hrun & -> & Hat'); [exists s'; split; [done|]; split; [done|apply Hr]|].
  eapply Forall_impl; [exact Hrange|]. cbn. lia.
Qed.
