(* ===== verification/V4l2CtrlAdd.v ===== *)
(** Adding controls to a handler: the sorted list and the hash stay in step, the
    class of a control comes with it, and no other handler is disturbed. *)

From Stdlib Require Import String Sorting.Sorted.
From stdpp Require Import gmap strings sorting.
From S2P Require Import Prelude StateM V4l2Types V4l2CtrlTables V4l2Event V4l2EventSpec V4l2Steps V4l2CtrlNew V4l2Ctrl V4l2CtrlIoctl V4l2CtrlOk.

(** ** The sorted list *)

Fixpoint insert_sorted_id (id : Z) (ids : list Z) : list Z :=
  match ids with
  | [] => [id]
  | i :: l => if i <? id then i :: insert_sorted_id id l else if i =? id then ids else id :: ids
  end.

Lemma elem_of_insert_id i id ids : i ∈ insert_sorted_id id ids <-> i = id \/ i ∈ ids.
Proof.
  induction ids as [|j ids IH]; cbn; [by rewrite list_elem_of_singleton, elem_of_nil; intuition|].
  destruct (j <? id); [rewrite !elem_of_cons, IH; tauto|].
  destruct (Z.eqb_spec j id) as [->|]; rewrite !elem_of_cons; tauto.
Qed.

Lemma insert_id_sorted id ids : StronglySorted Z.lt ids -> StronglySorted Z.lt (insert_sorted_id id ids).
Proof.
  induction ids as [|j ids IH]; intros Hs; cbn; [by repeat constructor|]. pose proof (sorted_tail _ _ Hs) as [Ht Hlt].
  rewrite Forall_forall in Hlt.
  destruct (Z.ltb_spec j id).
  - constructor; [by apply IH|]. rewrite Forall_forall. intros i [->|Hi]%elem_of_insert_id; [done|by apply Hlt].
  - destruct (Z.eqb_spec j id) as [->|]; [done|]. constructor; [done|]. rewrite Forall_forall.
    intros i [->|Hi]%elem_of_cons; [lia|]. apply Hlt in Hi. lia.
Qed.

Lemma insert_id_last id ids : Forall (fun i => i < id) ids -> insert_sorted_id id ids = ids ++ [id].
Proof. induction 1 as [|j ids Hj _ IH]; [done|]. cbn. by rewrite (proj2 (Z.ltb_lt _ _)), IH. Qed.

Abbreviation refs_of s := (Forall2 (fun r i => rid s r = Some i)).

Lemma insert_loop_run s refs ids id r :
  refs_of s refs ids -> rid s r = Some id -> Exists (fun i => id <= i) ids -> StronglySorted Z.lt ids ->
  exists o, insert_loop refs id r s = Some (o, s) /\
    match o with
    | Some l => id ∉ ids /\ refs_of s l (insert_sorted_id id ids) /\ forall q, q ∈ l <-> q = r \/ q ∈ refs
    | None => id ∈ ids
    end.
Proof.
  intros Hall Hr. induction Hall as [|q i refs ids Hq Hall IH]; intros Hex Hs; [by apply Exists_nil in Hex|].
  apply sorted_tail in Hs as [Hs Hlt]. cbn [insert_loop insert_sorted_id]. unfold mthen at 1. rewrite (ref_id_run _ _ _ Hq).
  destruct (Z.ltb_spec i id) as [Hi|Hi].
  - destruct IH as (o & Ho & Hspec); [apply Exists_cons in Hex as [|]; [lia|done]|done|].
    exists (cons q <$> o). unfold mthen. rewrite Ho. split; [done|]. destruct o as [l|]; cbn.
    + destruct Hspec as (Hnin & Hl & Hin). split; [rewrite not_elem_of_cons; split; [lia|done]|]. split; [by constructor|].
      intros p. rewrite !elem_of_cons, Hin. tauto.
    + by apply list_elem_of_further.
  - destruct (Z.eqb_spec i id) as [->|Hne]; [exists None; split; [done|apply list_elem_of_here]|].
    exists (Some (r :: q :: refs)). split; [done|]. split; [|split; [by repeat constructor|intros p; rewrite !elem_of_cons; tauto]].
    rewrite not_elem_of_cons. split; [done|]. rewrite Forall_forall in Hlt. intros Hin. apply Hlt in Hin. lia.
Qed.

Lemma insert_sorted_run s refs ids id r :
  refs_of s refs ids -> rid s r = Some id -> StronglySorted Z.lt ids ->
  exists o, insert_sorted refs id r s = Some (o, s) /\
    match o with
    | Some l => id ∉ ids /\ refs_of s l (insert_sorted_id id ids) /\ forall q, q ∈ l <-> q = r \/ q ∈ refs
    | None => id ∈ ids
    end.
Proof.
  intros Hall Hr Hs. unfold insert_sorted. destruct (last refs) as [q|] eqn:Hq.
  - apply last_Some in Hq as [front ->]. pose proof Hall as Hall'.
    apply Forall2_app_inv_l in Hall' as (ids1 & ids2 & H1 & Hlast & ->). inversion Hlast as [|? k ? ? Hk Hnil]; subst.
    inversion Hnil; subst. unfold mthen at 1. rewrite (ref_id_run _ _ _ Hk). rewrite Z.gtb_ltb.
    destruct (Z.ltb_spec k id) as [Hlt|Hge].
    + exists (Some ((front ++ [q]) ++ [r])). split; [done|].
      assert (Hbelow : Forall (fun i => i < id) (ids1 ++ [k])).
      { apply Forall_app. split; [|by constructor]. rewrite Forall_forall. intros i Hi.
        pose proof (StronglySorted_app_1_elem_of _ _ _ i k Hs Hi (list_elem_of_here _ _)). lia. }
      split; [rewrite Forall_forall in Hbelow; intros Hin; apply Hbelow in Hin; lia|].
      rewrite insert_id_last by done. split; [apply Forall2_app; [done|by constructor]|].
      intros p. rewrite !elem_of_app, !list_elem_of_singleton. tauto.
    + apply insert_loop_run; [done|done| |done]. apply Exists_app. right. by constructor.
  - apply last_None in Hq as ->. inversion Hall; subst. exists (Some [r]). split; [done|]. split; [apply not_elem_of_nil|].
    split; [by constructor|]. intros p. rewrite list_elem_of_singleton, elem_of_nil. tauto.
Qed.

(** ** The heaps *)

(** Numbers that were not given out yet are free. *)
Record heap_ok (s : v4l2_state) : Prop := {
  ho_refs : forall r x, vs_ref s !! r = Some x -> (r < vs_tick s)%nat /\ (cr_ctrl x < vs_tick s)%nat;
  ho_ctrls : forall c, is_Some (vs_ctrl s !! c) -> (c < vs_tick s)%nat;
}.

Lemma fresh_ctrl s : heap_ok s -> vs_ctrl s !! vs_tick s = None.
Proof.
  intros [_ H2]. destruct (vs_ctrl s !! vs_tick s) as [y|] eqn:Hy; [|done]. specialize (H2 _ (ex_intro _ y Hy)). lia.
Qed.

(** Controls and references stay, and so does what a control is. *)
Definition same_ctrl (x x' : v4l2_ctrl) : Prop :=
  ct_id x' = ct_id x /\ ct_type x' = ct_type x /\ ct_is_private x' = ct_is_private x.

Record grows (s s' : v4l2_state) : Prop := {
  gr_refs : forall r x, vs_ref s !! r = Some x -> vs_ref s' !! r = Some x;
  gr_ctrls : forall c x, vs_ctrl s !! c = Some x -> exists x', vs_ctrl s' !! c = Some x' /\ same_ctrl x x';
  gr_tick : (vs_tick s <= vs_tick s')%nat;
}.

Lemma grows_refl s : grows s s.
Proof. split; [done| |lia]. intros c x Hc. by exists x. Qed.

Lemma grows_trans s1 s2 s3 : grows s1 s2 -> grows s2 s3 -> grows s1 s3.
Proof.
  intros [A1 A2 A3] [B1 B2 B3]. split; [auto| |lia].
  intros c x Hc. destruct (A2 _ _ Hc) as (x' & Hc' & E1 & E2 & E3). destruct (B2 _ _ Hc') as (x2 & Hc2 & E4 & E5 & E6).
  exists x2. split; [done|]. split; [congruence|split; congruence].
Qed.

Lemma grows_rid s s' r i : grows s s' -> rid s r = Some i -> rid s' r = Some i.
Proof.
  intros [H1 H2 _]. unfold rid. destruct (vs_ref s !! r) as [x|] eqn:Hr; [|done]. cbn. rewrite (H1 _ _ Hr). cbn.
  destruct (vs_ctrl s !! cr_ctrl x) as [c|] eqn:Hc; [|done]. cbn. intros [= <-].
  destruct (H2 _ _ Hc) as (c' & -> & Hid & _). cbn. by rewrite Hid.
Qed.

Lemma rel_grows s s' hd ids :
  (forall r i, r ∈ hd_ctrl_refs hd -> rid s r = Some i -> rid s' r = Some i) -> handler_rel s hd ids -> handler_rel s' hd ids.
Proof.
  intros Hg Hr. pose proof Hr as [H1 H2 H3 H4 (b & Hb & Hlen & Hch) H6]. constructor; try done.
  - eapply Forall2_impl_elem; [exact H1|]. intros r i Hin Hi. by apply Hg.
  - exists b. split; [done|]. split; [done|]. intros k chain Hk r. rewrite (Hch k chain Hk r).
    split; intros [Hin (i & Hi & Hm)]; (split; [done|]).
    + exists i. split; [by apply Hg|done].
    + destruct (rel_rid _ _ _ _ Hr Hin) as (j & Hj & _). pose proof (Hg _ _ Hin Hj) as Hj'. rewrite Hi in Hj'.
      injection Hj' as <-. by exists i.
Qed.

(** A step on handler [h]. *)
Definition only_handler (h : nat) (s s' : v4l2_state) : Prop :=
  grows s s' /\ forall g, g <> h -> vs_hdl s' !! g = vs_hdl s !! g.

Lemma only_handler_refl h s : only_handler h s s.
Proof. split; [apply grows_refl|done]. Qed.

Lemma only_handler_trans h s1 s2 s3 : only_handler h s1 s2 -> only_handler h s2 s3 -> only_handler h s1 s3.
Proof. intros [A1 A2] [B1 B2]. split; [by eapply grows_trans|]. intros g Hg. by rewrite B2, A2. Qed.

Lemma only_handler_others h s s' g ids : only_handler h s s' -> g <> h -> handler_at s g ids -> handler_at s' g ids.
Proof.
  intros [Hgr Ho] Hg (hd & Hh & Hr). exists hd. rewrite Ho by done. split; [done|]. eapply rel_grows; [|exact Hr].
  intros r i _. by apply grows_rid.
Qed.

Lemma cached_only_handler h s s' : cached_only h s s' -> only_handler h s s'.
Proof.
  intros (hd & o & _ & _ & ->). split; [split; [done| |done]; intros c x Hc; by exists x|].
  intros g Hg. cbn. by rewrite list_lookup_insert_ne.
Qed.

(** Steps that leave the heaps alone. *)
Lemma set_hdl_handler h f s : only_handler h s (set_vs_hdl (<[h := f]> (vs_hdl s)) s).
Proof.
  split; [split; [done| |done]; intros c x Hc; by exists x|]. intros g Hg. cbn. by rewrite list_lookup_insert_ne.
Qed.

(** ** Errors *)

Definition error_of (s : v4l2_state) (h : nat) : option Z := hd_error <$> vs_hdl s !! h.

Definition failed_at (s : v4l2_state) (h : nat) : Prop := exists e, error_of s h = Some e /\ e <> 0.

Definition keeps_rel (hd hd' : ctrl_handler) : Prop :=
  hd_ctrl_refs hd' = hd_ctrl_refs hd /\ hd_cached hd' = hd_cached hd /\ hd_buckets hd' = hd_buckets hd /\
  hd_nr_of_buckets hd' = hd_nr_of_buckets hd.

Lemma keeps_rel_at s h hd hd' ids :
  vs_hdl s !! h = Some hd -> handler_rel s hd ids -> keeps_rel hd hd' ->
  handler_at (set_vs_hdl (<[h := hd']> (vs_hdl s)) s) h ids.
Proof.
  intros Hh [H1 H2 H3 H4 H5 H6] (E1 & E2 & E3 & E4). exists hd'. split.
  - cbn. apply list_lookup_insert_eq. by eapply lookup_lt_Some.
  - by constructor; rewrite ?E1, ?E2, ?E3, ?E4.
Qed.

(** What every step of adding a control keeps, and what it says of the ids. *)
Record added (h : nat) (s s' : v4l2_state) (ids ids' : list Z) (new : list Z) : Prop := {
  ad_at : handler_at s' h ids';
  ad_heap : heap_ok s';
  ad_only : only_handler h s s';
  ad_old : forall i, i ∈ ids -> i ∈ ids';
  ad_new : forall i, i ∈ ids' -> i ∈ ids \/ i ∈ new;
  ad_nr : hd_nr_of_buckets <$> vs_hdl s' !! h = hd_nr_of_buckets <$> vs_hdl s !! h;
}.

Lemma added_refl h s ids : handler_at s h ids -> heap_ok s -> added h s s ids ids [].
Proof. intros H1 H2. split; [done|done|apply only_handler_refl|done|by left|done]. Qed.

Lemma added_trans h s1 s2 s3 ids1 ids2 ids3 n1 n2 :
  added h s1 s2 ids1 ids2 n1 -> added h s2 s3 ids2 ids3 n2 -> added h s1 s3 ids1 ids3 (n1 ++ n2).
Proof.
  intros [A1 A2 A3 A4 A5 A6] [B1 B2 B3 B4 B5 B6]. split; [done|done|by eapply only_handler_trans|auto| |by rewrite B6].
  intros i Hi. destruct (B5 _ Hi) as [Hi2|Hi2]; [|right; apply elem_of_app; by right].
  destruct (A5 _ Hi2) as [|]; [by left|right; apply elem_of_app; by left].
Qed.

Lemma added_weaken h s s' ids ids' n1 n2 :
  added h s s' ids ids' n1 -> (forall i, i ∈ n1 -> i ∈ n2) -> added h s s' ids ids' n2.
Proof. intros [A1 A2 A3 A4 A5 A6] Hn. split; try done. intros i Hi. destruct (A5 _ Hi); [by left|right; by apply Hn]. Qed.

Lemma heap_ok_hdl s l : heap_ok s -> heap_ok (set_vs_hdl l s).
Proof. intros [H1 H2]. by constructor. Qed.

Lemma cached_only_added h s s' ids : cached_only h s s' -> handler_at s h ids -> heap_ok s -> added h s s' ids ids [].
Proof.
  intros Hc Hat Hheap. pose proof (cached_only_handler _ _ _ Hc). split; [by eapply cached_only_at| |done|done|by left|];
    destruct Hc as (hd & o & Hh & _ & ->); [by apply heap_ok_hdl|].
  cbn. rewrite list_lookup_insert_eq by (by eapply lookup_lt_Some). by rewrite Hh.
Qed.

Lemma set_err_run s h ids err :
  handler_at s h ids -> heap_ok s -> err <> 0 ->
  wp (handler_set_err h err) s (fun r s' => r = err /\ added h s s' ids ids [] /\
    vs_ref s' = vs_ref s /\ vs_ctrl s' = vs_ctrl s /\ failed_at s' h).
Proof.
  intros (hd & Hh & Hr) Hheap Herr. unfold handler_set_err. eapply wp_eq; [by apply hd_upd_run|]. apply wp_mdo.
  split; [done|]. set (hd' := if hd_error hd =? 0 then set_hd_error err hd else hd).
  assert (He : hd_error hd' <> 0) by (unfold hd'; destruct (Z.eqb_spec (hd_error hd) 0); [by cbn|done]). split.
  - assert (Hk : keeps_rel hd hd') by (unfold keeps_rel, hd'; by destruct (hd_error hd =? 0)).
    split; [by eapply keeps_rel_at|by apply heap_ok_hdl|apply set_hdl_handler|done|by left|].
    cbn. rewrite list_lookup_insert_eq by (by eapply lookup_lt_Some). rewrite Hh. cbn. by destruct Hk as (_ & _ & _ & ->).
  - split; [done|]. split; [done|]. exists (hd_error hd'). split; [|done]. unfold error_of. cbn. rewrite list_lookup_insert_eq; [done|]. by eapply lookup_lt_Some.
Qed.

Lemma ask_run s : vs_ask s = Some (vs_tick s, set_vs_tick (S (vs_tick s)) s).
Proof. done. Qed.

Lemma tick_added h s ids : handler_at s h ids -> heap_ok s -> added h s (set_vs_tick (S (vs_tick s)) s) ids ids [].
Proof.
  intros (hd & Hh & Hr) [H1 H2]. split.
  - exists hd. split; [done|]. by eapply rel_grows; [|exact Hr].
  - constructor; cbn; [intros r x Hx; destruct (H1 _ _ Hx); lia|intros c Hc; specialize (H2 c Hc); lia].
  - split; [split; [done| |cbn; lia]; intros c x Hc; by exists x|done].
  - done.
  - by left.
  - done.
Qed.

(** ** References *)

(** The new references are those of [c], or of controls that are new too. *)
Definition new_refs (c : nat) (s s' : v4l2_state) : Prop :=
  forall r y, vs_ref s' !! r = Some y -> vs_ref s !! r = Some y \/ (vs_tick s <= cr_ctrl y)%nat \/ cr_ctrl y = c.

(** [new_ref->ctrl = ctrl] and the cluster of one. *)
Definition with_ref (h c n : nat) (x : v4l2_ctrl) (s : v4l2_state) : v4l2_state :=
  set_vs_ctrl (if (ct_handler x =? h)%nat
    then <[c := set_ct_ncontrols 1 (set_ct_cluster (Some (ClusterRef n)) x)]> (vs_ctrl s) else vs_ctrl s)
    (set_vs_ref (<[n := mk_ref c None]> (vs_ref s)) (set_vs_tick (S n) s)).

Lemma with_ref_grows h c x s :
  heap_ok s -> vs_ctrl s !! c = Some x -> grows s (with_ref h c (vs_tick s) x s).
Proof.
  intros [H1 H2] Hc. split; cbn; [| |lia].
  - intros r y Hy. rewrite lookup_insert_ne; [done|]. intros <-. destruct (H1 _ _ Hy). lia.
  - intros d y Hd. destruct (_ =? _)%nat; [|by exists y]. destruct (decide (c = d)) as [<-|Hne].
    + rewrite lookup_insert_eq. rewrite Hc in Hd. injection Hd as <-. by eexists.
    + rewrite lookup_insert_ne by done. by exists y.
Qed.

Lemma with_ref_heap h c x s :
  heap_ok s -> vs_ctrl s !! c = Some x -> heap_ok (with_ref h c (vs_tick s) x s).
Proof.
  intros [H1 H2] Hc. constructor; cbn.
  - intros r y [[<- <-]|[_ Hy]]%lookup_insert_Some; [|destruct (H1 _ _ Hy); lia]. cbn.
    assert (c < vs_tick s)%nat by (apply H2; by exists x). lia.
  - intros d Hd. assert (d < vs_tick s)%nat; [|lia]. apply H2. destruct (_ =? _)%nat; [|done].
    destruct (decide (c = d)) as [<-|Hne]; [by exists x|]. by rewrite lookup_insert_ne in Hd.
Qed.

Lemma with_ref_rid h c x s n :
  vs_ctrl s !! c = Some x -> rid (with_ref h c n x s) n = Some (ct_id x).
Proof.
  intros Hc. unfold rid, with_ref. cbn. rewrite lookup_insert_eq. cbn.
  destruct (_ =? _)%nat; [by rewrite lookup_insert_eq|]. by rewrite Hc.
Qed.

(** The reference goes into the list and into its bucket. *)
Lemma hashed_rel s hd ids refs' b chain r id :
  handler_rel s hd ids -> rid s r = Some id -> 0 < id < V4L2_CID_PRIVATE_BASE ->
  refs_of s refs' (insert_sorted_id id ids) -> (forall q, q ∈ refs' <-> q = r \/ q ∈ hd_ctrl_refs hd) ->
  hd_buckets hd = Some b -> b.[id mod hd_nr_of_buckets hd] = Some chain ->
  handler_rel s (set_hd_buckets (Some (<[Z.to_nat (id mod hd_nr_of_buckets hd) := r :: chain]> b)) (set_hd_ctrl_refs refs' hd))
    (insert_sorted_id id ids).
Proof.
  intros [H1 H2 H3 H4 (b0 & Hb0 & Hlen & Hch) H6] Hr Hid Hrefs Hin Hb Hk. rewrite Hb in Hb0. injection Hb0 as <-.
  remember (id mod hd_nr_of_buckets hd) as bucket eqn:Hbucket.
  constructor; cbn; [done|by apply insert_id_sorted| |done| |].
  - rewrite Forall_forall in *. intros i [->|Hi]%elem_of_insert_id; [done|by apply H3].
  - eexists. split; [done|]. split; [by rewrite zlen_insert|]. intros k chain' Hk' q. rewrite Hin.
    pose proof (mget_lt _ _ _ Hk) as Hkb. apply mget_Some in Hk as [_ Hk]. apply mget_Some in Hk' as [Hk0 Hk'].
    destruct (decide (k = bucket)) as [->|Hne].
    + rewrite list_lookup_insert_eq in Hk' by (by eapply lookup_lt_Some). injection Hk' as <-. rewrite elem_of_cons.
      rewrite (Hch _ chain) by (apply mget_Some; split; [exact (proj1 Hkb) || exact Hk0|done]). split.
      * intros [->|[? ?]]; [split; [by left|]; by exists id|]. split; [by right|done].
      * intros [[->|?] ?]; [by left|by right].
    + rewrite list_lookup_insert_ne in Hk' by lia. rewrite (Hch k chain') by (apply mget_Some; split; [exact (proj1 Hkb) || exact Hk0|done]). split.
      * intros [? ?]. split; [by right|done].
      * intros [[->|?] (i & Hi & Hm)]; [rewrite Hr in Hi; injection Hi as <-; congruence|]. split; [done|]. by exists i.
  - intros q Hq. apply Hin. right. by apply H6.
Qed.

Lemma ct_get_run s c x : vs_ctrl s !! c = Some x -> ct_get c s = Some (x, s).
Proof. unfold ct_get, mthen, gets, the. cbn. by intros ->. Qed.

Lemma ct_upd_run s c x f : vs_ctrl s !! c = Some x -> ct_upd c f s = Some (tt, set_vs_ctrl (<[c := f x]> (vs_ctrl s)) s).
Proof. intros H. unfold ct_upd, mthen. by rewrite (ct_get_run _ _ _ H). Qed.

(** What adding a reference to [c] comes to: on success the ids of [new] are
    there. *)
Definition ref_added (h c : nat) (new : list Z) (s : v4l2_state) (ids : list Z) (ret : Z) (s' : v4l2_state) : Prop :=
  exists ids', added h s s' ids ids' new /\ (ret = 0 -> (forall i, i ∈ new -> i ∈ ids') /\ new_refs c s s') /\
    (ret <> 0 -> failed_at s' h /\ forall r y, vs_ref s' !! r = Some y -> vs_ref s !! r = Some y \/ (vs_tick s <= cr_ctrl y)%nat).

(** Only ids of string controls are filled in as strings, with their own
    minimum. *)
Lemma fill_string id min max step def :
  cf_type (v4l2_ctrl_fill id min max step def) = V4L2_CTRL_TYPE_STRING ->
  cf_min (v4l2_ctrl_fill id min max step def) = min /\ one_of string_ids id = true.
Proof.
  unfold v4l2_ctrl_fill. cbv zeta. repeat (destruct (one_of _ id); [done|]). destruct (one_of string_ids id); [done|].
  by repeat (destruct (one_of _ id); [done|]).
Qed.

Section env.
Context {E : V4l2Env}.

Lemma add_ref_run s h hd c x ids :
  vs_hdl s !! h = Some hd -> handler_rel s hd ids -> heap_ok s -> vs_ctrl s !! c = Some x ->
  0 < ct_id x < V4L2_CID_PRIVATE_BASE ->
  wp (add_ref h c (ct_id x) (ct_id x mod hd_nr_of_buckets hd)) s (ref_added h c [ct_id x] s ids).
Proof.
  intros Hh Hr Hheap Hc Hid. unfold add_ref. eapply wp_eq; [apply ask_run|].
  assert (Hat : handler_at s h ids) by (by exists hd). pose proof (tick_added h s ids Hat Hheap) as Htick.
  destruct (v4l2_kzalloc_fails (vs_tick s)).
  - eapply wp_mono; [by apply set_err_run; [apply Htick|apply Htick|]|]. cbv beta. intros ret s' (-> & Hadd & Hrefs & _ & He).
    exists ids. split; [|split; [done|]].
    + eapply added_weaken; [by eapply added_trans|]. by intros i ?%elem_of_nil.
    + intros _. split; [done|]. intros r y. rewrite Hrefs. by left.
  - set (s0 := set_vs_tick (S (vs_tick s)) s). apply wp_gets, wp_modify. set (n := vs_tick s) in *.
    eapply wp_eq; [apply ct_get_run; exact Hc|]. set (s1 := with_ref h c n x s).
    assert (Hrun : (if (ct_handler x =? h)%nat then ct_upd c (fun x => set_ct_ncontrols 1 (set_ct_cluster (Some (ClusterRef n)) x)) else mdo tt)
      (set_vs_ref (<[n := mk_ref c None]> (vs_ref s0)) s0) = Some (tt, s1)).
    { unfold s1, with_ref. destruct (ct_handler x =? h)%nat; [by erewrite ct_upd_run by exact Hc|done]. }
    eapply wp_eq; [exact Hrun|]. clear Hrun. eapply wp_eq; [by apply hd_get_run|].
    pose proof (with_ref_grows h c x s Hheap Hc) as Hgr. pose proof (with_ref_heap h c x s Hheap Hc) as Hheap1. fold n s1 in Hgr, Hheap1.
    assert (Hr1 : handler_rel s1 hd ids) by (eapply rel_grows; [|exact Hr]; intros r i _; by apply grows_rid).
    pose proof (with_ref_rid h c x s n Hc) as Hn. fold s1 in Hn.
    destruct (insert_sorted_run s1 (hd_ctrl_refs hd) ids (ct_id x) n (hr_refs _ _ _ Hr1) Hn (hr_sorted _ _ _ Hr1)) as (o & Ho & Hspec).
    eapply wp_eq; [exact Ho|]. destruct o as [refs'|].
    + destruct Hspec as (Hnin & Hrefs & Hin). destruct (hr_buckets _ _ _ Hr1) as (b & Hb & Hlen & Hch).
      destruct (mget_is_Some b (ct_id x mod hd_nr_of_buckets hd)) as [_ [chain Hk]].
      { rewrite Hlen. apply Z.mod_pos_bound. apply Hr1. }
      eapply wp_the; [exact Hb|]. eapply wp_the; [exact Hk|]. eapply wp_eq; [by apply hd_upd_run|]. apply wp_mdo.
      exists (insert_sorted_id (ct_id x) ids). split; [split|split; [intros _; split|done]].
      * eexists. split; [cbn; apply list_lookup_insert_eq; by eapply lookup_lt_Some|].
        apply (rel_grows s1); [done|]. by eapply (hashed_rel s1).
      * by apply heap_ok_hdl.
      * eapply only_handler_trans; [|apply set_hdl_handler]. by split.
      * intros i Hi. apply elem_of_insert_id. by right.
      * intros i [->|Hi]%elem_of_insert_id; [right; apply list_elem_of_here|by left].
      * cbn. rewrite list_lookup_insert_eq by (by eapply lookup_lt_Some). by rewrite Hh.
      * intros i ->%list_elem_of_singleton. apply elem_of_insert_id. by left.
      * intros r y Hy. cbn in Hy. apply lookup_insert_Some in Hy as [[<- <-]|[_ Hy]]; [by right; right|by left].
    + apply wp_gets, wp_modify, wp_mdo. assert (Hn0 : vs_ref s !! n = None).
      { destruct (vs_ref s !! n) as [y|] eqn:Hy; [|done]. destruct (ho_refs _ Hheap _ _ Hy). unfold n in *. lia. }
      set (s2 := set_vs_ref _ s1). assert (Hback : vs_ref s2 = vs_ref s) by (cbn; by rewrite delete_insert_id).
      assert (Hgr2 : grows s s2).
      { destruct Hgr as [_ H2 H3]. split; [by rewrite Hback|exact H2|exact H3]. }
      exists ids. split; [split|split; [intros _; split|done]].
      * exists hd. split; [done|]. eapply rel_grows; [|exact Hr]. intros r i _. by apply grows_rid.
      * destruct Hheap1 as [H1 H2]. constructor; [|done]. intros r y Hy. apply (H1 r y). cbn in Hy.
        by apply lookup_delete_Some in Hy as [_ Hy].
      * by split.
      * done.
      * by left.
      * done.
      * by intros i ->%list_elem_of_singleton.
      * intros r y Hy. rewrite Hback in Hy. by left.
Qed.

(** What making a control comes to. *)
Definition ctrl_made (h : nat) (new : list Z) (s : v4l2_state) (ids : list Z) (o : option nat) (s' : v4l2_state) : Prop :=
  exists ids', added h s s' ids ids' new /\ (forall c, o = Some c -> vs_ctrl s !! c = None /\ is_Some (vs_ctrl s' !! c) /\ forall i, i ∈ new -> i ∈ ids') /\
    (o = None -> failed_at s' h) /\
    forall r y, vs_ref s' !! r = Some y -> vs_ref s !! r = Some y \/ (vs_tick s <= cr_ctrl y)%nat.

Lemma mask_small id : 0 <= id < V4L2_CID_PRIVATE_BASE -> Z.land id V4L2_CTRL_ID_MASK = id.
Proof.
  intros Hid. change V4L2_CTRL_ID_MASK with (Z.ones 28). rewrite Z.land_ones by lia. apply Z.mod_small.
  unfold V4L2_CID_PRIVATE_BASE in Hid. lia.
Qed.

(** The control class of an id is an id of its own class. *)
Lemma class_of_range id : 0 <= id < V4L2_CID_PRIVATE_BASE -> 0 < class_of id < V4L2_CID_PRIVATE_BASE /\ class_of (class_of id) = class_of id.
Proof.
  intros Hid. unfold class_of, V4L2_CTRL_ID2CLASS. split.
  - set (x := Z.lor (Z.land id 0x0fff0000) 1). assert (Hx : x mod 2 ^ 27 = x).
    { rewrite <-Z.land_ones by lia. unfold x. rewrite Z.land_lor_distr_l. f_equal.
      rewrite <-Z.land_assoc, (Z.land_comm 0x0fff0000), Z.land_assoc, Z.land_ones by lia. f_equal. by apply Z.mod_small. }
    pose proof (Z.mod_pos_bound x (2 ^ 27) ltac:(lia)) as Hb. rewrite Hx in Hb. split; [|apply Hb].
    destruct (Z.eq_dec x 0) as [[_ H]%Z.lor_eq_0_iff|]; [done|lia].
  - rewrite Z.land_lor_distr_l. rewrite <-Z.land_assoc. change (Z.land 0x0fff0000 0x0fff0000) with 0x0fff0000.
    change (Z.land 1 0x0fff0000) with 0. by rewrite Z.lor_0_r.
Qed.

Lemma rel_error s h ids : handler_at s h ids -> exists e, error_of s h = Some e.
Proof. intros (hd & Hh & _). exists (hd_error hd). unfold error_of. by rewrite Hh. Qed.

Lemma new_ref_body_run new_class s h c x ids :
  handler_at s h ids -> heap_ok s -> vs_ctrl s !! c = Some x -> 0 < ct_id x < V4L2_CID_PRIVATE_BASE ->
  (ct_id x <> class_of (ct_id x) -> forall s ids, handler_at s h ids -> heap_ok s ->
    wp (new_class (class_of (ct_id x))) s (ctrl_made h [class_of (ct_id x)] s ids)) ->
  wp (new_ref_body new_class h c) s (ref_added h c [class_of (ct_id x); ct_id x] s ids).
Proof.
  intros Hat Hheap Hc Hid Hclass. pose proof Hat as (hd & Hh & Hr). unfold new_ref_body.
  eapply wp_eq; [by apply ct_get_run|]. eapply wp_eq; [by apply hd_get_run|]. cbv zeta.
  pose proof (hr_nr _ _ _ Hr) as Hnr. rewrite (proj2 (Z.eqb_neq (hd_nr_of_buckets hd) 0)) by lia.
  set (id := ct_id x) in *. set (class := class_of id) in *.
  destruct (class_of_range id ltac:(lia)) as [Hcr _]. fold class in Hcr.
  eapply (wp_seq _ _ _ (fun missing s1 => added h s s1 ids ids [] /\ new_refs c s s1 /\ (forall r y, vs_ref s1 !! r = Some y -> vs_ref s !! r = Some y) /\ (missing = true -> id <> class) /\ (missing = false -> class = id \/ class ∈ ids))).
  { destruct (Z.eqb_spec id class) as [He|Hne].
    - apply wp_mdo. split; [by apply added_refl|]. split; [intros r y Hy; by left|]. split; [done|]. split; [done|by left].
    - eapply wp_seq; [eapply (find_ref_run _ _ _ _ class Hh Hr); rewrite mask_small; lia|].
      cbv beta. intros o s' [Hcache Ho]. rewrite mask_small in Ho by lia. apply wp_mdo.
      split; [by apply cached_only_added|]. pose proof Hcache as (hd0 & o0 & _ & _ & ->). split; [intros r y Hy; by left|]. split; [done|].
      split; [done|]. intros Hnone%bool_decide_eq_false. right. destruct o as [r|]; [|done].
      destruct Ho as [Hin Hrid]. destruct (rel_rid _ _ _ _ Hr Hin) as (j & Hj & Hjin). rewrite Hrid in Hj. by injection Hj as ->. }
  cbv beta. intros missing s1 (Hadd1 & Hnew1 & Hback1 & Hmiss & Hfound).
  eapply (wp_seq _ _ _ (fun failed s2 => exists ids2, added h s s2 ids ids2 [class] /\
    (forall r y, vs_ref s2 !! r = Some y -> vs_ref s !! r = Some y \/ (vs_tick s <= cr_ctrl y)%nat) /\
    (failed = true -> failed_at s2 h) /\ (failed = false -> class = id \/ class ∈ ids2))).
  { destruct missing.
    - eapply wp_seq; [apply Hclass; [by apply Hmiss|apply Hadd1|apply Hadd1]|]. cbv beta.
      intros o s2 (ids2 & Hadd2 & Hsome & Hnone & Hrefs2). apply wp_mdo. exists ids2.
      split; [exact (added_trans _ _ _ _ _ _ _ _ _ Hadd1 Hadd2)|]. split.
      { intros r y Hy. destruct (Hrefs2 _ _ Hy) as [Hy1|Hge]; [left; by apply Hback1|right].
        pose proof (gr_tick _ _ (proj1 (ad_only _ _ _ _ _ _ Hadd1))). lia. }
      split; [intros H%bool_decide_eq_true; by apply Hnone|intros H%bool_decide_eq_false; right; destruct o as [d|]; [|done]; destruct (Hsome d eq_refl) as (_ & _ & Hin); apply Hin, list_elem_of_here].
    - apply wp_mdo. exists ids. split; [eapply added_weaken; [exact Hadd1|by intros i ?%elem_of_nil]|].
      split; [intros r y Hy; left; by apply Hback1|]. split; [done|]. intros _. by apply Hfound. }
  cbv beta. intros failed s2 (ids2 & Hadd2 & Hrefs2 & Hfail & Hok). pose proof (ad_at _ _ _ _ _ _ Hadd2) as (hd2 & Hh2 & Hr2).
  eapply wp_eq; [by apply hd_get_run|]. assert (Hstop : forall err, err <> 0 -> failed_at s2 h -> ref_added h c [class; id] s ids err s2).
  { intros err Herr Hf. exists ids2. split; [eapply added_weaken; [exact Hadd2|]; intros i ->%list_elem_of_singleton; apply list_elem_of_here|].
    split; [done|]. intros _. by split. }
  assert (He : error_of s2 h = Some (hd_error hd2)) by (unfold error_of; by rewrite Hh2).
  destruct failed.
  - apply wp_mdo. destruct (Hfail eq_refl) as (e & He' & Hne). rewrite He in He'. injection He' as <-. apply Hstop; [done|by exists (hd_error hd2)].
  - destruct (Z.eqb_spec (hd_error hd2) 0) as [H0|Hne]; cbn [negb]; [|apply wp_mdo, Hstop; [done|by exists (hd_error hd2)]].
    destruct (gr_ctrls _ _ (proj1 (ad_only _ _ _ _ _ _ Hadd2)) _ _ Hc) as (x2 & Hc2 & Hid2 & _). fold id in Hid2.
    assert (Hnr2 : hd_nr_of_buckets hd = hd_nr_of_buckets hd2).
    { pose proof (ad_nr _ _ _ _ _ _ Hadd2) as Hn. rewrite Hh, Hh2 in Hn. by injection Hn. }
    rewrite Hnr2, <-Hid2. eapply wp_mono; [apply (add_ref_run s2 h hd2 c x2 ids2 Hh2 Hr2 (ad_heap _ _ _ _ _ _ Hadd2) Hc2); rewrite Hid2; done|].
    cbv beta. intros ret s3 (ids3 & Hadd3 & Hsucc & Hbad). exists ids3. rewrite Hid2 in *.
    assert (Htick : (vs_tick s <= vs_tick s2)%nat) by apply Hadd2.
    split; [exact (added_trans _ _ _ _ _ _ _ _ _ Hadd2 Hadd3)|]. split.
    + intros Hret. destruct (Hsucc Hret) as [Hin Hnew]. assert (Hidin : id ∈ ids3) by (apply Hin, list_elem_of_here). split.
      * intros i Hi. apply elem_of_cons in Hi as [->|Hi]; [|by apply list_elem_of_singleton in Hi as ->].
        destruct (Hok eq_refl) as [->|Hcl]; [done|]. by apply (ad_old _ _ _ _ _ _ Hadd3).
      * intros r y Hy. destruct (Hnew _ _ Hy) as [Hy2|[Hge|Heq]]; [|right; left; lia|by right; right].
        destruct (Hrefs2 _ _ Hy2); [by left|right; by left].
    + intros Hret. destruct (Hbad Hret) as [Hf Hnew]. split; [done|]. intros r y Hy.
      destruct (Hnew _ _ Hy) as [Hy2|Hge]; [by apply Hrefs2|right; lia].
Qed.

(** ** Controls *)

Lemma failed_hdl s h ids : handler_at s h ids -> forall hd, vs_hdl s !! h = Some hd -> hd_error hd <> 0 -> failed_at s h.
Proof. intros _ hd Hh He. exists (hd_error hd). unfold error_of. by rewrite Hh. Qed.

Lemma made_none h new s ids s' ids' :
  added h s s' ids ids' [] -> (forall r y, vs_ref s' !! r = Some y -> vs_ref s !! r = Some y) -> failed_at s' h ->
  ctrl_made h new s ids None s'.
Proof.
  intros Hadd Hrefs Hf. exists ids'. split; [eapply added_weaken; [exact Hadd|by intros i ?%elem_of_nil]|].
  split; [done|]. split; [done|]. intros r y Hy. left. by apply Hrefs.
Qed.

Lemma set_err_made h new s ids err :
  handler_at s h ids -> heap_ok s -> err <> 0 ->
  wp (handler_set_err h err ;; mdo None) s (ctrl_made h new s ids).
Proof.
  intros Hat Hheap Herr. eapply wp_seq; [by eapply set_err_run|]. cbv beta. intros r s' (_ & Hadd & Hrefs & _ & Hf). apply wp_mdo.
  eapply made_none; [exact Hadd|by rewrite Hrefs|done].
Qed.

Lemma not_bad_id id name type min max step def qmenu :
  0 <= id -> bad_new id name type min max step def qmenu = false ->
  0 < id < V4L2_CID_PRIVATE_BASE /\ (type = V4L2_CTRL_TYPE_STRING -> min <= max).
Proof.
  intros Hid H. unfold bad_new in H. rewrite !orb_false_iff, Z.geb_leb in H. destruct H as [[[[[[[[[H1 _] H3] _] _] _] _] H8] _] _].
  apply Z.eqb_neq in H1. apply Z.leb_gt in H3. split; [lia|]. intros ->. cbn in H8. by apply Z.ltb_ge in H8.
Qed.

(** The state with a new control in it. *)
Definition with_ctrl (c : nat) (x : v4l2_ctrl) (s : v4l2_state) : v4l2_state := set_vs_ctrl (<[c := x]> (vs_ctrl s)) s.

Lemma with_ctrl_added h s ids x :
  let s1 := set_vs_tick (S (vs_tick s)) s in let s2 := with_ctrl (vs_tick s) x s1 in
  handler_at s h ids -> heap_ok s -> added h s s2 ids ids [].
Proof.
  cbv zeta. intros Hat Hheap. pose proof (fresh_ctrl _ Hheap) as Hfresh. destruct Hheap as [H1 H2]. set (s2 := with_ctrl _ _ _).
  assert (Hgr : grows s s2).
  { split; [done| |cbn; lia]. intros c y Hc. exists y. cbn. rewrite lookup_insert_ne; [done|congruence]. }
  destruct Hat as (hd & Hh & Hr). split; [|constructor| by split|done|by left|done].
  - exists hd. split; [done|]. eapply rel_grows; [|exact Hr]. intros r i _. by apply grows_rid.
  - intros r y Hy. cbn in *. destruct (H1 _ _ Hy). lia.
  - intros c Hc. cbn in *. destruct (decide (c = vs_tick s)) as [->|Hne]; [lia|].
    rewrite lookup_insert_ne in Hc by done. specialize (H2 _ Hc). lia.
Qed.

(** A control whose reference could not be made is freed again. *)
Lemma drop_ctrl_added h s s' c ids ids' new :
  added h s s' ids ids' new -> vs_ctrl s !! c = None ->
  (forall r y, vs_ref s' !! r = Some y -> cr_ctrl y <> c) ->
  added h s (set_vs_ctrl (delete c (vs_ctrl s')) s') ids ids' new.
Proof.
  intros [(hd & Hh & Hr) [H1 H2] [[G1 G2 G3] Ho] Hold Hnew Hnr] Hc Hrefs. split; [|constructor|split; [split|]|done|done|done].
  - exists hd. split; [done|]. eapply rel_grows; [|exact Hr]. intros r i _. unfold rid. cbn.
    destruct (vs_ref s' !! r) as [y|] eqn:Hy; [|done]. cbn. rewrite lookup_delete_ne; [done|]. intros Hcy. by apply (Hrefs r y).
  - done.
  - intros d Hd. apply H2. cbn in Hd. destruct Hd as [y Hd]. apply lookup_delete_Some in Hd as [_ Hd]. by exists y.
  - done.
  - intros d y Hd. destruct (G2 _ _ Hd) as (y' & Hy' & Hid). exists y'. split; [|done]. cbn. rewrite lookup_delete_ne; [done|]. congruence.
  - done.
  - done.
Qed.

Lemma ctrl_new_body_run new_ref s h ops id name type min max step def flags qmenu ids :
  handler_at s h ids -> heap_ok s -> 0 <= id -> (type = V4L2_CTRL_TYPE_STRING -> 0 <= min) ->
  (forall s c x ids, handler_at s h ids -> heap_ok s -> vs_ctrl s !! c = Some x -> ct_id x = id -> 0 < id < V4L2_CID_PRIVATE_BASE ->
    wp (new_ref h c) s (ref_added h c [class_of id; id] s ids)) ->
  wp (ctrl_new_body new_ref h ops id name type min max step def flags qmenu) s (ctrl_made h [class_of id; id] s ids).
Proof.
  intros Hat Hheap Hid0 Hmin Href. pose proof Hat as (hd & Hh & Hr). unfold ctrl_new_body.
  eapply wp_eq; [by apply hd_get_run|]. destruct (Z.eqb_spec (hd_error hd) 0) as [He|He]; cbn [negb].
  2: { apply wp_mdo. eapply made_none; [by apply added_refl|done|by eapply failed_hdl]. }
  destruct (bad_new id name type min max step def qmenu) eqn:Hbad; [by apply set_err_made|].
  destruct (not_bad_id _ _ _ _ _ _ _ _ Hid0 Hbad) as [Hid Hmax]. eapply wp_eq; [apply ask_run|].
  pose proof (tick_added h s ids Hat Hheap) as Htick. destruct (v4l2_kzalloc_fails (vs_tick s)).
  { eapply wp_mono; [apply set_err_made; [apply Htick|apply Htick|done]|]. cbv beta.
    intros o s' (ids' & Hadd & Hsome & Hnone & Hrefs). exists ids'. split; [exact (added_trans _ _ _ _ _ _ _ _ _ Htick Hadd)|].
    split; [done|]. split; [done|]. intros r y Hy. destruct (Hrefs _ _ Hy) as [|Hge]; [by left|right; cbn in Hge; lia]. }
  assert (Hstr : exists strings, new_strings type min max = Some strings).
  { unfold new_strings. destruct (Z.eqb_spec type V4L2_CTRL_TYPE_STRING) as [Ht|]; [|by eexists]. cbn [negb].
    specialize (Hmin Ht). specialize (Hmax Ht). rewrite (proj2 (Z.ltb_ge max 0)), (proj2 (Z.ltb_ge min 0)) by lia. by eexists. }
  destruct Hstr as [strings Hstr]. eapply wp_the; [exact Hstr|]. cbv zeta. apply wp_gets, wp_modify.
  set (x := Build_v4l2_ctrl _ _ _ _ _ _ _ _ _ _ _ _ _ _ _ _ _ _ _ _ _ _) || set (x := mk_ctrl _ _ _ _ _ _ _ _ _ _ _ _ _ _ _ _ _ _ _ _ _ _).
  set (c := vs_tick s) in *. pose proof (with_ctrl_added h s ids x Hat Hheap) as Hadd0. cbv zeta in Hadd0. fold c in Hadd0.
  set (s2 := with_ctrl c x (set_vs_tick (S c) s)) in *.
  change (set_vs_ctrl (<[c := x]> (vs_ctrl (set_vs_tick (S c) s))) (set_vs_tick (S c) s)) with s2.
  eapply wp_seq; [eapply (Href s2 c x ids); [apply Hadd0|apply Hadd0|cbn; by rewrite lookup_insert_eq|done|done]|].
  cbv beta. intros err s3 (ids3 & Hadd3 & Hsucc & Hfail).
  assert (Hadd : added h s s3 ids ids3 [class_of id; id]) by exact (added_trans _ _ _ _ _ _ _ _ _ Hadd0 Hadd3).
  destruct (Z.eqb_spec err 0) as [->|Herr]; cbn [negb].
  - destruct (Hsucc eq_refl) as [Hin Hnew]. destruct (ad_at _ _ _ _ _ _ Hadd) as (hd3 & Hh3 & Hr3).
    eapply wp_eq; [by apply hd_upd_run|]. apply wp_mdo. exists ids3. split; [|split; [|split; [done|]]].
    + destruct Hadd as [_ A2 A3 A4 A5 A6]. split; [by eapply keeps_rel_at|by apply heap_ok_hdl|eapply only_handler_trans; [exact A3|apply set_hdl_handler]|done|done|].
      cbn. rewrite list_lookup_insert_eq by (by eapply lookup_lt_Some). by rewrite <-A6, Hh3.
    + intros d [= <-]. split; [by apply fresh_ctrl|]. split; [|done]. destruct (gr_ctrls _ _ (proj1 (ad_only _ _ _ _ _ _ Hadd3)) c x) as (x3 & Hx3 & _); [cbn; by rewrite lookup_insert_eq|]. by exists x3.
    + intros r y Hy. cbn in Hy. destruct (Hnew _ _ Hy) as [|[Hge|Heq]]; [by left|right; cbn in Hge; lia|right; unfold c in Heq; lia].
  - destruct (Hfail Herr) as [Hf Hrefs]. apply wp_gets, wp_modify, wp_mdo.
    assert (Hrefs' : forall r y, vs_ref s3 !! r = Some y -> vs_ref s !! r = Some y \/ (c < cr_ctrl y)%nat).
    { intros r y Hy. destruct (Hrefs _ _ Hy) as [|Hge]; [by left|right; cbn in Hge; lia]. }
    exists ids3. split; [|split; [done|split; [done|]]].
    + apply drop_ctrl_added; [done| |].
      * by apply fresh_ctrl.
      * intros r y Hy Hcy. destruct (Hrefs' _ _ Hy) as [Hy'|]; [|lia]. destruct (ho_refs _ Hheap _ _ Hy'). unfold c in *. lia.
    + intros r y Hy. cbn in Hy. destruct (Hrefs' _ _ Hy); [by left|right; unfold c in *; lia].
Qed.

Lemma new_std_body_run new_ref s h ops id min max step def ids :
  handler_at s h ids -> heap_ok s -> 0 <= id -> (one_of string_ids id = true -> 0 <= min) ->
  (forall s c x ids, handler_at s h ids -> heap_ok s -> vs_ctrl s !! c = Some x -> ct_id x = id -> 0 < id < V4L2_CID_PRIVATE_BASE ->
    wp (new_ref h c) s (ref_added h c [class_of id; id] s ids)) ->
  wp (new_std_body new_ref h ops id min max step def) s (ctrl_made h [class_of id; id] s ids).
Proof.
  intros Hat Hheap Hid Hmin Href. unfold new_std_body. cbv zeta. destruct (_ =? V4L2_CTRL_TYPE_MENU); [by apply set_err_made|].
  apply ctrl_new_body_run; [done|done|done| |exact Href]. intros Ht. pose proof (fill_string id min max step def Ht) as [-> Hs]. by apply Hmin.
Qed.

Lemma new_ref_at_class depth s h c x ids :
  handler_at s h ids -> heap_ok s -> vs_ctrl s !! c = Some x -> 0 < ct_id x < V4L2_CID_PRIVATE_BASE ->
  class_of (ct_id x) = ct_id x ->
  wp (new_ref_at (S depth) h c) s (ref_added h c [class_of (ct_id x); ct_id x] s ids).
Proof. intros Hat Hheap Hc Hid Hcl. cbn [new_ref_at]. apply new_ref_body_run; try done. Qed.

Lemma handler_new_ref_run s h c x ids :
  handler_at s h ids -> heap_ok s -> vs_ctrl s !! c = Some x -> 0 < ct_id x < V4L2_CID_PRIVATE_BASE ->
  wp (handler_new_ref h c) s (ref_added h c [class_of (ct_id x); ct_id x] s ids).
Proof.
  intros Hat Hheap Hc Hid. change (handler_new_ref h c) with (new_ref_body (fun class => new_std_body (new_ref_at 1) h None class 0 0 0 0) h c).
  apply new_ref_body_run; [done|done|done|done|].
  intros _ s1 ids1 Hat1 Hheap1. destruct (class_of_range (ct_id x) ltac:(lia)) as [Hcr Hcc].
  eapply wp_mono; [apply (new_std_body_run (new_ref_at 1) s1 h None (class_of (ct_id x)) 0 0 0 0 ids1 Hat1 Hheap1 ltac:(lia) ltac:(done))|].
  - intros s2 d y ids2 Hat2 Hheap2 Hd Hy Hr. rewrite <-Hy. apply new_ref_at_class; [done|done|done|by rewrite Hy|by rewrite Hy].
  - cbv beta. intros o s' (ids' & Hadd & Hin & Hrest). exists ids'. rewrite Hcc in *. split; [|split; [|done]].
    + eapply added_weaken; [exact Hadd|]. intros i Hi. apply elem_of_cons in Hi as [->|Hi]; [apply list_elem_of_here|done].
    + intros d Ho. destruct (Hin d Ho) as (Hd1 & Hd2 & Hin'). split; [done|]. split; [done|]. intros i Hi. apply Hin'. by apply list_elem_of_further.
Qed.

Lemma new_ctrl_run s h ops id name type min max step def flags qmenu ids :
  handler_at s h ids -> heap_ok s -> 0 <= id -> (type = V4L2_CTRL_TYPE_STRING -> 0 <= min) ->
  wp (v4l2_ctrl_new h ops id name type min max step def flags qmenu) s (ctrl_made h [class_of id; id] s ids).
Proof.
  intros Hat Hheap Hid Hmin. apply ctrl_new_body_run; [done|done|done|done|]. intros s1 c x ids1 Hat1 Hheap1 Hc <- Hr. by apply handler_new_ref_run.
Qed.
End env.
