(* ===== verification/V4l2CtrlMake.v ===== *)
(** Every way to put controls into a handler keeps every handler in order. *)

From Stdlib Require Import String Sorting.Sorted.
From stdpp Require Import gmap strings sorting.
From S2P Require Import Prelude StateM V4l2Types V4l2CtrlTables V4l2Event V4l2EventSpec V4l2Steps V4l2CtrlNew V4l2Ctrl V4l2CtrlIoctl V4l2CtrlOk V4l2CtrlAdd.

(** The functions of the framework that add to a handler. *)
Inductive maker :=
  | MakeStd (ops : option nat) (id min max step def : Z)
  | MakeStdMenu (ops : option nat) (id max mask def : Z)
  | MakeCustom (cfg : ctrl_config)
  | MakeAddCtrl (ctrl : option nat)
  | MakeAddHandler (add : option nat).

(** What a driver has to ensure: strings have no negative minimum, and controls
    of others are alive. *)
Definition usable (s : v4l2_state) (c : nat) : Prop :=
  exists x, vs_ctrl s !! c = Some x /\ 0 < ct_id x < V4L2_CID_PRIVATE_BASE.

Definition maker_ok (s : v4l2_state) (m : maker) : Prop :=
  match m with
  | MakeStd _ id min _ _ _ => 0 <= id /\ (one_of string_ids id = true -> 0 <= min)
  | MakeStdMenu _ id _ _ _ => 0 <= id
  | MakeCustom cfg => 0 <= cg_id cfg /\
      (cg_type cfg = V4L2_CTRL_TYPE_STRING \/ one_of string_ids (cg_id cfg) = true -> 0 <= cg_min cfg)
  | MakeAddCtrl ctrl => forall c, ctrl = Some c -> usable s c
  | MakeAddHandler add => forall a, add = Some a ->
      exists hd, vs_hdl s !! a = Some hd /\ Forall (usable s) (hd_ctrls hd)
  end.

(** A control comes with its class. *)
Definition with_class (s : v4l2_state) (c : nat) : list Z :=
  match vs_ctrl s !! c with Some x => [class_of (ct_id x); ct_id x] | None => [] end.

Definition passed_on (s : v4l2_state) (c : nat) : bool :=
  match vs_ctrl s !! c with Some x => negb (ct_is_private x || (ct_type x =? V4L2_CTRL_TYPE_CTRL_CLASS)) | None => false end.

Definition owned (s : v4l2_state) (h c : nat) : bool :=
  match vs_ctrl s !! c with Some x => (ct_handler x =? h)%nat | None => false end.

Definition maker_ids (s : v4l2_state) (h : nat) (m : maker) : list Z :=
  match m with
  | MakeStd _ id _ _ _ _ => [class_of id; id]
  | MakeStdMenu _ id _ _ _ => [class_of id; id]
  | MakeCustom cfg => [class_of (cg_id cfg); cg_id cfg]
  | MakeAddCtrl (Some c) => if owned s h c then [] else with_class s c
  | MakeAddHandler (Some a) =>
    if (h =? a)%nat then [] else
    match vs_hdl s !! a with Some hd => concat (with_class s <$> List.filter (passed_on s) (hd_ctrls hd)) | None => [] end
  | _ => []
  end.

Section env.
Context {E : V4l2Env}.

(** Did it work? *)
Definition run_maker (h : nat) (m : maker) : v4l2M bool :=
  let made := fun r : v4l2M (option nat) => o <- r ;; mdo (bool_decide (is_Some o)) in
  match m with
  | MakeStd ops id min max step def => made (v4l2_ctrl_new_std h ops id min max step def)
  | MakeStdMenu ops id max mask def => made (v4l2_ctrl_new_std_menu h ops id max mask def)
  | MakeCustom cfg => made (v4l2_ctrl_new_custom h cfg)
  | MakeAddCtrl ctrl => made (v4l2_ctrl_add_ctrl (Some h) ctrl)
  | MakeAddHandler add => ret <- v4l2_ctrl_add_handler (Some h) add ;; mdo (ret =? 0)
  end.

Definition maker_done (h : nat) (new : list Z) (s : v4l2_state) (ids : list Z) (ok : bool) (s' : v4l2_state) : Prop :=
  exists ids', added h s s' ids ids' new /\ (ok = true -> forall i, i ∈ new -> i ∈ ids') /\ (ok = false -> failed_at s' h).

Lemma made_done m h new s ids :
  wp m s (ctrl_made h new s ids) -> wp (o <- m ;; mdo (bool_decide (is_Some o))) s (maker_done h new s ids).
Proof.
  intros Hm. eapply wp_seq; [exact Hm|]. cbv beta. intros o s' (ids' & Hadd & Hsome & Hnone & _). apply wp_mdo.
  exists ids'. split; [done|]. split.
  - intros H%bool_decide_eq_true. destruct o as [c|]; [|by destruct H]. by destruct (Hsome c eq_refl) as (_ & _ & Hin).
  - intros H%bool_decide_eq_false. apply Hnone. destruct o; [|done]. by destruct H.
Qed.

(** Flags of the new control do not matter to the handlers. *)
Lemma made_update h new s ids c s' f :
  ctrl_made h new s ids (Some c) s' -> (forall x, ct_id (f x) = ct_id x) ->
  wp (ct_upd c f ;; mdo (Some c)) s' (ctrl_made h new s ids).
Proof.
  intros (ids' & [(hd & Hh & Hr) [H1 H2] [G Ho] A4 A5 A6] & Hsome & _ & Hrefs) Hf.
  destruct (Hsome c eq_refl) as (Hnone & [x Hx] & Hin). eapply wp_eq; [by apply ct_upd_run|]. apply wp_mdo.
  exists ids'. split; [split|split; [|by split]].
  - exists hd. split; [done|]. eapply rel_grows; [|exact Hr]. intros r i _. unfold rid. cbn.
    destruct (vs_ref s' !! r) as [y|]; [|done]. cbn. destruct (decide (c = cr_ctrl y)) as [<-|Hne].
    + rewrite lookup_insert_eq, Hx. cbn. by rewrite Hf.
    + by rewrite lookup_insert_ne.
  - constructor; [done|]. intros d Hd. cbn in Hd. apply H2. destruct (decide (c = d)) as [<-|Hne]; [by exists x|].
    by rewrite lookup_insert_ne in Hd.
  - destruct G as [G1 G2 G3]. split; [|done]. split; [done| |done]. intros d y Hd. cbn.
    rewrite lookup_insert_ne; [by apply G2|congruence].
  - done.
  - done.
  - done.
  - intros d [= <-]. split; [done|]. split; [|done]. cbn. rewrite lookup_insert_eq. by eexists.
Qed.

Lemma usable_grows s s' c : grows s s' -> usable s c -> usable s' c.
Proof. intros [_ H _] (x & Hx & Hid). destruct (H _ _ Hx) as (x' & Hx' & He & _). exists x'. by rewrite He. Qed.

Lemma passed_grows s s' c : grows s s' -> usable s c -> passed_on s' c = passed_on s c /\ with_class s' c = with_class s c.
Proof.
  intros [_ H _] (x & Hx & _). destruct (H _ _ Hx) as (x' & Hx' & E1 & E2 & E3). unfold passed_on, with_class.
  by rewrite Hx, Hx', E1, E2, E3.
Qed.

Definition handler_ids (s : v4l2_state) (cs : list nat) : list Z := concat (with_class s <$> List.filter (passed_on s) cs).

Lemma handler_ids_grows s s' cs : grows s s' -> Forall (usable s) cs -> handler_ids s' cs = handler_ids s cs.
Proof.
  intros Hg. unfold handler_ids. induction 1 as [|c cs Hc _ IH]; [done|]. cbn. destruct (passed_grows _ _ _ Hg Hc) as [-> Hw].
  destruct (passed_on s c); [|done]. cbn. by rewrite Hw, IH.
Qed.

Lemma handler_ids_cons s c cs :
  handler_ids s (c :: cs) = (if passed_on s c then with_class s c else []) ++ handler_ids s cs.
Proof. unfold handler_ids. cbn. by destruct (passed_on s c). Qed.

Lemma add_handler_run s h cs ids :
  handler_at s h ids -> heap_ok s -> Forall (usable s) cs ->
  wp (add_handler_loop h cs) s (fun ret s' => exists ids', added h s s' ids ids' (handler_ids s cs) /\
    (ret = 0 -> forall i, i ∈ handler_ids s cs -> i ∈ ids') /\ (ret <> 0 -> failed_at s' h)).
Proof.
  revert s ids. induction cs as [|c cs IH]; intros s ids Hat Hheap Hall.
  { apply wp_mdo. exists ids. split; [by apply added_refl|]. split; [by intros _ i ?%elem_of_nil|done]. }
  apply Forall_cons in Hall as [(x & Hx & Hid) Hall]. cbn [add_handler_loop]. eapply wp_eq; [by apply ct_get_run|].
  rewrite handler_ids_cons. unfold passed_on, with_class. rewrite Hx. destruct (ct_is_private x || _); cbn [negb]; [by apply IH|].
  eapply wp_seq; [by apply (handler_new_ref_run s h c x ids)|]. cbv beta. intros ret s1 (ids1 & Hadd & Hsucc & Hfail).
  assert (Hg : grows s s1) by apply Hadd. destruct (Z.eqb_spec ret 0) as [->|Hne]; cbn [negb].
  - destruct (Hsucc eq_refl) as [Hin _]. eapply wp_mono.
    + apply IH; [apply Hadd|apply Hadd|]. eapply Forall_impl; [exact Hall|]. intros d. by apply usable_grows.
    + cbv beta. rewrite (handler_ids_grows _ _ _ Hg Hall). intros ret s2 (ids2 & Hadd2 & Hsucc2 & Hfail2). exists ids2.
      split; [exact (added_trans _ _ _ _ _ _ _ _ _ Hadd Hadd2)|]. split; [|done].
      intros Hret i [Hi|Hi]%elem_of_app; [apply (ad_old _ _ _ _ _ _ Hadd2), Hin, Hi|by apply Hsucc2].
  - apply wp_mdo. exists ids1. split; [|split; [done|by apply Hfail]].
    eapply added_weaken; [exact Hadd|]. intros i Hi. apply elem_of_app. by left.
Qed.

Lemma new_std_run s h ops id min max step def ids :
  handler_at s h ids -> heap_ok s -> 0 <= id /\ (one_of string_ids id = true -> 0 <= min) ->
  wp (v4l2_ctrl_new_std h ops id min max step def) s (ctrl_made h [class_of id; id] s ids).
Proof.
  intros Hat Hheap [Hid Hmin]. apply new_std_body_run; [done|done|done|done|].
  intros s1 c x ids1 Hat1 Hheap1 Hc <- Hr. by apply handler_new_ref_run.
Qed.

Lemma new_std_menu_run s h ops id max mask def ids :
  handler_at s h ids -> heap_ok s -> 0 <= id ->
  wp (v4l2_ctrl_new_std_menu h ops id max mask def) s (ctrl_made h [class_of id; id] s ids).
Proof.
  intros Hat Hheap Hid. unfold v4l2_ctrl_new_std_menu. cbv zeta.
  destruct (Z.eqb_spec (cf_type (v4l2_ctrl_fill id 0 max 0 def)) V4L2_CTRL_TYPE_MENU) as [He|]; cbn [negb]; [|by apply set_err_made].
  apply new_ctrl_run; [done|done|done|]. by rewrite He.
Qed.

Lemma new_custom_run s h cfg ids :
  handler_at s h ids -> heap_ok s ->
  0 <= cg_id cfg /\ (cg_type cfg = V4L2_CTRL_TYPE_STRING \/ one_of string_ids (cg_id cfg) = true -> 0 <= cg_min cfg) ->
  wp (v4l2_ctrl_new_custom h cfg) s (ctrl_made h [class_of (cg_id cfg); cg_id cfg] s ids).
Proof.
  intros Hat Hheap [Hid Hmin]. unfold v4l2_ctrl_new_custom. cbv zeta. set (f := match cg_name cfg with Some _ => _ | None => _ end).
  eapply wp_seq.
  - apply new_ctrl_run; [done|done|done|]. unfold f. destruct (cg_name cfg); [intros Ht; apply Hmin; by left|].
    intros Ht. destruct (fill_string _ _ _ _ _ Ht) as [-> Hs]. apply Hmin. by right.
  - cbv beta. intros [c|] s' Hmade; [|by apply wp_mdo]. by apply made_update.
Qed.

Lemma add_ctrl_run s h ctrl ids :
  handler_at s h ids -> heap_ok s -> (forall c, ctrl = Some c -> usable s c) ->
  wp (o <- v4l2_ctrl_add_ctrl (Some h) ctrl ;; mdo (bool_decide (is_Some o))) s
    (maker_done h (maker_ids s h (MakeAddCtrl ctrl)) s ids).
Proof.
  intros Hat Hheap Hok. destruct (rel_error _ _ _ Hat) as [e He].
  assert (Hstop : failed_at s h -> maker_done h (maker_ids s h (MakeAddCtrl ctrl)) s ids false s).
  { intros Hf. exists ids. split; [|done]. eapply added_weaken; [by apply added_refl|by intros i ?%elem_of_nil]. }
  pose proof Hat as (hd & Hh & Hr). cbn [v4l2_ctrl_add_ctrl]. apply wp_mthen. eapply wp_eq; [by apply hd_get_run|].
  destruct (Z.eqb_spec (hd_error hd) 0) as [H0|Hne]; cbn [negb]; [|apply wp_mdo, wp_mdo, Hstop; by eapply failed_hdl].
  destruct ctrl as [c|]; cbn [maker_ids] in *.
  - destruct (Hok c eq_refl) as (x & Hx & Hid). unfold owned, with_class in *. rewrite Hx in *.
    eapply wp_eq; [by apply ct_get_run|]. destruct (ct_handler x =? h)%nat.
    + apply wp_mdo, wp_mdo. exists ids. split; [by apply added_refl|]. split; [|done]. by intros _ i ?%elem_of_nil.
    + eapply wp_seq; [by apply (handler_new_ref_run s h c x ids)|]. cbv beta. intros ret s1 (ids1 & Hadd & Hsucc & Hfail).
      apply wp_mdo, wp_mdo. exists ids1. split; [done|]. destruct (Z.eqb_spec ret 0) as [->|Hn]; cbn; (split; [|done || (intros _; by apply Hfail)]).
      * intros _. by destruct (Hsucc eq_refl).
      * done.
  - eapply wp_seq; [by apply (set_err_run s h ids)|]. cbv beta. intros ret s1 (_ & Hadd & _ & _ & Hf). apply wp_mdo, wp_mdo.
    exists ids. by split.
Qed.

Lemma add_handler_done s h add ids :
  handler_at s h ids -> heap_ok s -> maker_ok s (MakeAddHandler add) ->
  wp (ret <- v4l2_ctrl_add_handler (Some h) add ;; mdo (ret =? 0)) s (maker_done h (maker_ids s h (MakeAddHandler add)) s ids).
Proof.
  intros Hat Hheap Hok. cbn [maker_ok v4l2_ctrl_add_handler] in *.
  assert (Hnone : maker_done h [] s ids true s).
  { exists ids. split; [by apply added_refl|]. split; [|done]. by intros _ i ?%elem_of_nil. }
  destruct add as [a|]; [|by apply wp_mdo]. destruct (Hok a eq_refl) as (ha & Ha & Hall). cbn [maker_ids]. rewrite Ha.
  destruct (h =? a)%nat; [by apply wp_mdo|]. pose proof Hat as (hd & Hh & Hr). apply wp_mthen.
  eapply wp_eq; [by apply hd_get_run|]. destruct (Z.eqb_spec (hd_error hd) 0) as [H0|Hne]; cbn [negb].
  - eapply wp_eq; [by apply hd_get_run|]. eapply wp_mono; [by apply (add_handler_run s h (hd_ctrls ha) ids)|].
    cbv beta. intros ret s' (ids' & Hadd & Hsucc & Hfail). apply wp_mdo. exists ids'. split; [done|].
    destruct (Z.eqb_spec ret 0) as [->|Hn]; [split; [intros _; by apply Hsucc|done]|]. split; [done|]. intros _. by apply Hfail.
  - apply wp_mdo, wp_mdo. exists ids. split; [eapply added_weaken; [by apply added_refl|by intros i ?%elem_of_nil]|].
    destruct (Z.eqb_spec (hd_error hd) 0) as [|_]; [done|]. split; [done|]. intros _. by eapply failed_hdl.
Qed.

(** A handler begins empty, if its cache was cleared by whoever owns the memory. *)
Lemma handler_init_run s h hd hint :
  vs_hdl s !! h = Some hd -> hd_cached hd = None -> wrap 16 (u32 (1 + hint / 8)) <> 0 ->
  v4l2_kzalloc_fails (vs_tick s) = false -> heap_ok s ->
  exists s', v4l2_ctrl_handler_init h hint s = Some (0, s') /\ handler_at s' h [] /\ heap_ok s'.
Proof.
  intros Hh Hc Hnr Hk [H1 H2]. unfold v4l2_ctrl_handler_init. cbv zeta. unfold mthen at 1. rewrite ask_run. rewrite Hk.
  unfold mthen at 1. rewrite (hd_upd_run _ _ hd) by done. eexists. split; [done|]. split.
  - eexists. split; [cbn; apply list_lookup_insert_eq; by eapply lookup_lt_Some|]. constructor; cbn; [constructor|constructor|constructor| | |].
    + pose proof (wrap_range 16 (u32 (1 + hint / 8)) ltac:(lia)). lia.
    + eexists. split; [done|]. split; [rewrite zlen_replicate; apply Z2Nat.id; by apply wrap_range|].
      intros k chain Hk' r. apply mget_Some in Hk' as [_ Hk']. apply lookup_replicate in Hk' as [-> _]. rewrite !elem_of_nil. intuition.
    + intros r. by rewrite Hc.
  - constructor; cbn; [intros r x Hx; destruct (H1 _ _ Hx); lia|intros c Hx; specialize (H2 c Hx); lia].
Qed.

(** Claim C32: whatever puts controls into a handler - standard controls and menus,
    controls of the driver's own, a control or all controls of another handler -
    ends without a fault and keeps every handler in order: sorted list and hash
    table agree and hold each id once.  Only the new ids and the classes they
    need are added, on success all of them are, and a failure leaves an error in
    the handler. *)
Theorem making_controls_keeps_handlers (s : v4l2_state) (h : nat) (m : maker) (ids : list Z) :
  handler_at s h ids -> heap_ok s -> maker_ok s m ->
  exists ok s' ids', run_maker h m s = Some (ok, s') /\ handler_at s' h ids' /\ heap_ok s' /\
    (forall g ids_g, g <> h -> handler_at s g ids_g -> handler_at s' g ids_g) /\
    (forall i, i ∈ ids -> i ∈ ids') /\ (forall i, i ∈ ids' -> i ∈ ids \/ i ∈ maker_ids s h m) /\
    (ok = true -> forall i, i ∈ maker_ids s h m -> i ∈ ids') /\ (ok = false -> failed_at s' h).
Proof.
  intros Hat Hheap Hok. assert (Hrun : wp (run_maker h m) s (maker_done h (maker_ids s h m) s ids)).
  2: { apply wp_run in Hrun as (ok & s' & Hrun & ids' & [A1 A2 A3 A4 A5 _] & Hs & Hf). exists ok, s', ids'.
       do 3 (split; [done|]). split; [|done]. intros g ids_g Hg. by eapply only_handler_others. }
  destruct m as [ops id min max step def|ops id max mask def|cfg|ctrl|add]; cbn [run_maker maker_ids maker_ok] in *.
  - by apply made_done, new_std_run.
  - by apply made_done, new_std_menu_run.
  - by apply made_done, new_custom_run.
  - by apply add_ctrl_run.
  - by apply add_handler_done.
Qed.
End env.

(** ** At work *)

#[local] Definition make_env : V4l2Env := {| v4l2_kzalloc_fails := fun _ => false; ktime_get_ts := Z.of_nat |}.
#[local] Existing Instance make_env.

Definition two_handlers : v4l2_state :=
  mk_v4l2 ∅ [] ∅ ∅ ∅ [mk_hdl [] [] None None 0 0; mk_hdl [] [] None None 0 0] ∅ [] 0.

Definition handlers_ready : v4l2_state :=
  default two_handlers (snd <$> (v4l2_ctrl_handler_init 0 8 ;; v4l2_ctrl_handler_init 1 0) two_handlers).

(** Brightness and its class enter an empty handler next to another. *)
Lemma making_controls_keeps_handlers_witness :
  let m := MakeStd None V4L2_CID_BRIGHTNESS 0 255 1 128 in
  handler_at handlers_ready 1 [] /\ heap_ok handlers_ready /\ maker_ok handlers_ready m /\
  exists ok s' ids', run_maker 1 m handlers_ready = Some (ok, s') /\ handler_at s' 1 ids' /\ heap_ok s' /\
    (forall g ids_g, g <> 1%nat -> handler_at handlers_ready g ids_g -> handler_at s' g ids_g) /\
    (forall i, i ∈ ([] : list Z) -> i ∈ ids') /\ (forall i, i ∈ ids' -> i ∈ ([] : list Z) \/ i ∈ maker_ids handlers_ready 1 m) /\
    (ok = true -> forall i, i ∈ maker_ids handlers_ready 1 m -> i ∈ ids') /\ (ok = false -> failed_at s' 1).
Proof.
  assert (H0 : heap_ok two_handlers) by (constructor; [intros r x Hx|intros c [x Hx]]; cbn in Hx; by rewrite lookup_empty in Hx).
  destruct (handler_init_run two_handlers 0 (mk_hdl [] [] None None 0 0) 8 eq_refl eq_refl ltac:(vm_compute; done) eq_refl H0)
    as (s1 & Hrun1 & _ & H1).
  assert (Hs1 : s1 = default two_handlers (snd <$> v4l2_ctrl_handler_init 0 8 two_handlers)) by (by rewrite Hrun1).
  destruct (handler_init_run s1 1 (mk_hdl [] [] None None 0 0) 0 ltac:(by rewrite Hs1) eq_refl ltac:(vm_compute; done) eq_refl H1)
    as (s2 & Hrun2 & Hat & H2).
  assert (Hs2 : s2 = handlers_ready) by (unfold handlers_ready, mthen; by rewrite Hrun1, Hrun2). rewrite Hs2 in *.
  split; [exact Hat|]. split; [exact H2|]. split; [by split|].
  apply (making_controls_keeps_handlers handlers_ready 1 (MakeStd None V4L2_CID_BRIGHTNESS 0 255 1 128) [] Hat H2). by split.
Defined.
