(* ===== verification/V4l2CtrlSet.v ===== *)
(** Events of controls reach every subscriber: [send_event] ends whatever the queues hold,
    and leaves everything but the queues alone.  A cluster is set as a whole or not at
    all. *)

From Stdlib Require Import String.
From stdpp Require Import gmap strings.
From S2P Require Import Prelude StateM V4l2Types V4l2CtrlTables V4l2Event V4l2EventSpec V4l2Steps V4l2Handles V4l2CtrlNew V4l2Ctrl V4l2CtrlIoctl V4l2CtrlOk V4l2CtrlValid V4l2CtrlAdd.

(** ** What queueing leaves alone *)

Section stays.
Context {S : Type} (R : S -> S -> Prop) `{!PreOrder R}.

Definition stays {A} (m : stateM S A) : Prop := forall s a s', m s = Some (a, s') -> R s s'.

Lemma stays_mthen {A B} (m : stateM S A) (k : A -> stateM S B) : stays m -> (forall a, stays (k a)) -> stays (mthen m k).
Proof.
  intros Hm Hk s b s2 Hrun. unfold mthen in Hrun. destruct (m s) as [[a s1]|] eqn:H1; [|done].
  etrans; [by eapply Hm|by eapply Hk].
Qed.

Lemma stays_mdo {A} (a : A) : stays (mdo a).
Proof. by intros s a' s' [= _ <-]. Qed.

Lemma stays_gets {A} (g : S -> A) : stays (gets g).
Proof. by intros s a' s' [= _ <-]. Qed.

Lemma stays_the {A} (o : option A) : stays (the o).
Proof. destruct o; [apply stays_mdo|by intros s a s']. Qed.

Lemma stays_modify f : (forall s, R s (f s)) -> stays (modify f).
Proof. intros Hf s a s' [= _ <-]. apply Hf. Qed.

Lemma stays_mfor {A} (l : list A) (body : A -> stateM S unit) : (forall x, stays (body x)) -> stays (mfor l body).
Proof. intros Hb. induction l as [|x l IH]; cbn [mfor]; [apply stays_mdo|]. by apply stays_mthen. Qed.

Lemma stays_fault {A} : stays (@fault S A).
Proof. by intros s a s'. Qed.

Lemma stays_wp {A} (m : stateM S A) s Q : stays m -> wp m s Q -> wp m s (fun a s' => Q a s' /\ R s s').
Proof. intros Hm. unfold wp. destruct (m s) as [[a s']|] eqn:He; [|done]. intros HQ. split; [done|]. by eapply Hm. Qed.
End stays.

Ltac stays :=
  repeat match goal with
    | |- stays _ (mthen _ _) => apply stays_mthen; [typeclasses eauto| |intros ?]
    | |- stays _ (mdo _) => apply stays_mdo; typeclasses eauto
    | |- stays _ (gets _) => apply stays_gets; typeclasses eauto
    | |- stays _ (the _) => apply stays_the; typeclasses eauto
    | |- stays _ fault => apply stays_fault
    | |- stays _ (if ?b then _ else _) => destruct b
    | |- stays _ (match ?o with Some _ => _ | None => _ end) => destruct o
    | _ => done
    end.

(** Controls, handlers and the list of handles stay; a subscription keeps its
    handle. *)
Record event_frame (s s' : v4l2_state) : Prop := {
  ef_ctrl : vs_ctrl s' = vs_ctrl s;
  ef_ref : vs_ref s' = vs_ref s;
  ef_hdl : vs_hdl s' = vs_hdl s;
  ef_arr : vs_arr s' = vs_arr s;
  ef_sev : forall p se, vs_sev s !! p = Some se -> exists se', vs_sev s' !! p = Some se' /\ se_fh se' = se_fh se /\ se_flags se' = se_flags se;
}.

#[export] Instance event_frame_preorder : PreOrder event_frame.
Proof.
  split.
  - intros s. split; try done. intros p se Hp. by exists se.
  - intros s1 s2 s3 [A1 A2 A3 A4 A5] [B1 B2 B3 B4 B5]. split; try congruence.
    intros p se Hp. destruct (A5 p se Hp) as (se2 & H2 & E2 & F2). destruct (B5 p se2 H2) as (se3 & H3 & E3 & F3).
    exists se3. split; [done|]. split; congruence.
Qed.

Lemma fh_upd_stays f g : stays event_frame (fh_upd f g).
Proof.
  unfold fh_upd, fh_get. stays. apply stays_modify. intros s. split; try done. intros p se Hp. by exists se.
Qed.

Lemma se_upd_stays p g :
  (forall se, se_fh (g se) = se_fh se /\ se_flags (g se) = se_flags se) -> stays event_frame (se_upd p g).
Proof.
  intros Hg s a s' Hrun. unfold se_upd, se_get, mthen, gets, the, modify in Hrun. destruct (vs_sev s !! p) as [se|] eqn:Hp; [|done].
  injection Hrun as _ <-. split; try done. intros q se' Hq. cbn. destruct (decide (p = q)) as [<-|Hne].
  - rewrite lookup_insert_eq. rewrite Hp in Hq. injection Hq as <-. exists (g se). split; [done|]. apply Hg.
  - rewrite lookup_insert_ne by done. by exists se'.
Qed.

Lemma kev_upd_stays p i g : stays event_frame (kev_upd p i g).
Proof. unfold kev_upd, kev_get, se_get. stays. by apply se_upd_stays. Qed.

Lemma subscribed_loop_stays l type id : stays event_frame (subscribed_loop l type id).
Proof. induction l as [|p l IH]; cbn [subscribed_loop]; unfold se_get; stays. Qed.

Lemma drop_oldest_stays f p ev : stays event_frame (drop_oldest f p ev).
Proof.
  unfold drop_oldest, kev_unlink, kev_get, se_get, fh_get. stays;
    first [apply fh_upd_stays | apply kev_upd_stays | by apply se_upd_stays | idtac].
Qed.

Section env.
Context {E : V4l2Env}.

Lemma queue_stays f ev ts : stays event_frame (__v4l2_event_queue_fh f ev ts).
Proof.
  unfold __v4l2_event_queue_fh, v4l2_event_subscribed, fh_get, se_get. stays;
    first [apply fh_upd_stays | apply kev_upd_stays | by apply se_upd_stays | apply subscribed_loop_stays | apply drop_oldest_stays | idtac].
Qed.

(** ** Room *)

Definition all_elems (h : handle) : Z := foldr (fun u n => su_elems u + n) 0 (q_subs h).

(** The events of a handle are those of its subscriptions. *)
Lemma entries_split {A} (l : list nat) (k : list (nat * A)) :
  NoDup l -> (forall x, x ∈ k -> x.1 ∈ l) ->
  zlen k = foldr (fun p n => zlen (filter (fun x : nat * A => x.1 = p) k) + n) 0 l.
Proof.
  revert k. induction l as [|p l IH]; intros k Hn Hk.
  - destruct k as [|x k]; [done|]. specialize (Hk x (list_elem_of_here _ _)). by apply elem_of_nil in Hk.
  - apply NoDup_cons in Hn as [Hp Hn]. cbn [foldr]. set (rest := filter (fun x : nat * A => x.1 <> p) k).
    assert (Hsplit : zlen k = zlen (filter (fun x : nat * A => x.1 = p) k) + zlen rest).
    { unfold rest. clear. induction k as [|x k IH]; [done|]. rewrite !filter_cons, zlen_cons, IH.
      destruct (decide (x.1 = p)), (decide (x.1 <> p)); try done; rewrite zlen_cons; lia. }
    rewrite Hsplit, (IH rest Hn). 2: { intros x [Hne Hx]%list_elem_of_filter. specialize (Hk x Hx). by apply elem_of_cons in Hk as [|]. }
    f_equal. assert (Hsame : forall q, q ∈ l -> filter (fun x : nat * A => x.1 = q) rest = filter (fun x : nat * A => x.1 = q) k).
    { intros q Hq. unfold rest. rewrite list_filter_filter_l; [done|]. intros x -> ->. done. }
    clear -Hsame. induction l as [|q l IH]; [done|]. cbn [foldr]. rewrite Hsame by apply list_elem_of_here. f_equal.
    apply IH. intros q' Hq'. apply Hsame. by apply list_elem_of_further.
Qed.

Lemma pending_fits s f h : handle_ok s f h -> zlen (q_pending h) <= all_elems h.
Proof.
  intros (x & _ & Hf). pose proof (fr_pending _ _ _ _ Hf) as Hp. assert (Hlen : zlen (q_pending h) = zlen (fh_available x)).
  { unfold zlen. f_equal. symmetry. by eapply Forall2_length. }
  rewrite Hlen, (entries_split (fh_subscribed x)); [|by apply (fr_nodup _ _ _ _ Hf)|].
  - unfold all_elems. pose proof (fr_subs _ _ _ _ Hf) as Hs. clear -Hs. induction Hs as [|p u l us Hu _ IH]; [done|]. cbn [foldr].
    destruct Hu as (se & _ & Hr & (_ & _ & He & _) & ->). unfold ring_slots. rewrite zlen_fmap. unfold zlen at 1. rewrite length_seqZ.
    destruct Hr as [_ _ _ Hu _]. lia.
  - intros k Hk. apply list_elem_of_lookup in Hk as [i Hi]. destruct (Forall2_lookup_l _ _ _ _ _ Hp Hi) as (e & _ & se & ev & Hin & _). done.
Qed.

(** ** Sending *)

(** Some handles are in order and have room, and subscriptions of controls belong to them. *)
Record listening (G : gset nat) (s : v4l2_state) : Prop := {
  li_handle : forall f, f ∈ G -> exists h, handle_ok s f h /\ all_elems h < 2 ^ 32 - 1;
  li_subs : forall c x p, vs_ctrl s !! c = Some x -> p ∈ ct_ev_subs x ->
    exists se, vs_sev s !! p = Some se /\ forall f, se_fh se = Some f -> f ∈ G;
}.

Lemma queue_event_elems ev ts h : all_elems (queue_event ev ts h) = all_elems h.
Proof. unfold all_elems, queue_event. by destruct (List.find _ _). Qed.

Lemma queue_listening G s f ev :
  listening G s -> f ∈ G ->
  wp (v4l2_event_queue_fh f ev) s (fun _ s' => listening G s' /\ event_frame s s').
Proof.
  intros [H1 H2] Hf. unfold v4l2_event_queue_fh. eapply wp_eq; [done|]. set (s0 := set_vs_tick _ s).
  destruct (H1 f Hf) as (h & Hok & Hroom). apply (handle_ok_tick s f h (S (vs_tick s))) in Hok. fold s0 in Hok.
  eapply wp_mono; [apply (stays_wp event_frame); [apply queue_stays|]|].
  { apply (queue_fh_run s0 f ev (ktime_get_ts (vs_tick s)) h Hok). pose proof (pending_fits _ _ _ Hok). lia. }
  cbv beta. intros _ s' [[Hok' Honly] Hframe]. assert (Hframe' : event_frame s s') by (destruct Hframe; by split). split; [|done]. split.
  - intros g Hg. destruct (decide (g = f)) as [->|Hne].
    + eexists. split; [exact Hok'|]. by rewrite queue_event_elems.
    + destruct (H1 g Hg) as (k & Hk & Hroom'). exists k. split; [|done]. eapply only_at_ok; [exact Honly|done|by apply handle_ok_tick].
  - intros c x p Hc Hp. rewrite (ef_ctrl _ _ Hframe') in Hc. destruct (H2 c x p Hc Hp) as (se & Hse & Hg).
    destruct (ef_sev _ _ Hframe' p se Hse) as (se' & Hse' & Hfh & _). exists se'. split; [done|]. by rewrite Hfh.
Qed.

Lemma send_event_run G s f stack c x changes :
  listening G s -> vs_ctrl s !! c = Some x ->
  wp (send_event f stack c changes) s (fun _ s' => listening G s' /\ event_frame s s').
Proof.
  intros Hl Hc. unfold send_event. eapply wp_eq; [unfold ct_get, mthen, gets, the; cbn; by rewrite Hc|].
  assert (Hsubs : forall p, p ∈ ct_ev_subs x -> exists c x, vs_ctrl s !! c = Some x /\ p ∈ ct_ev_subs x) by (intros p Hp; by exists c, x).
  assert (Hloop : forall l s, listening G s -> (forall p, p ∈ l -> exists c x, vs_ctrl s !! c = Some x /\ p ∈ ct_ev_subs x) ->
    forall ev, wp (mfor l (fun p => s <- se_get p ;;
      match se_fh s with
      | Some g => if negb (bool_decide (Some g = f)) || truthy (Z.land (se_flags s) V4L2_EVENT_SUB_FL_ALLOW_FEEDBACK)
        then v4l2_event_queue_fh g ev else mdo tt
      | None => mdo tt end)) s (fun _ s' => listening G s' /\ event_frame s s')).
  { clear. induction l as [|p l IH]; intros s Hl Hin ev; [by apply wp_mdo|]. cbn [mfor].
    destruct (Hin p (list_elem_of_here _ _)) as (c & x & Hc & Hp). destruct (li_subs _ _ Hl c x p Hc Hp) as (se & Hse & Hg).
    eapply (wp_seq _ _ _ (fun _ s' => listening G s' /\ event_frame s s')).
    - eapply wp_eq; [by apply se_get_run|]. destruct (se_fh se) as [g|]; [|by apply wp_mdo].
      destruct (_ || _); [|by apply wp_mdo]. apply queue_listening; [done|by apply Hg].
    - intros [] s1 [Hl1 Hf1]. eapply wp_mono; [apply IH; [done|]|].
      + intros q Hq. destruct (Hin q (list_elem_of_further _ _ _ Hq)) as (d & y & Hd & Hqy). exists d, y. by rewrite (ef_ctrl _ _ Hf1).
      + cbv beta. intros _ s2 [Hl2 Hf2]. split; [done|]. by etrans. }
  destruct (ct_ev_subs x) as [|p l]; [by apply wp_mdo|]. by apply Hloop.
Qed.
End env.

(** ** Setting controls: a cluster is set as a whole or not at all. *)

(** ** Values *)

(** A string of a control has room for its maximum and ends in it. *)
Definition value_shape (x : v4l2_ctrl) (v : ctrl_value) : Prop :=
  ct_type x = V4L2_CTRL_TYPE_STRING -> zlen (va_string v) = ct_maximum x + 1 /\ is_Some (strlen (va_string v)).

Definition same_value (type : Z) (a b : ctrl_value) : Prop :=
  if type =? V4L2_CTRL_TYPE_STRING then cstr (va_string a) = cstr (va_string b)
  else if type =? V4L2_CTRL_TYPE_INTEGER64 then va_val64 a = va_val64 b
  else va_val a = va_val b.

Lemma strlen_bound l n : strlen l = Some n -> 0 <= n < zlen l.
Proof.
  revert n. induction l as [|x l IH]; intros n; [done|]. cbn [strlen]. rewrite zlen_cons. pose proof (zlen_nonneg l).
  destruct (x =? 0); [intros [= <-]; lia|]. destruct (strlen l) as [k|] eqn:Hk; [|done]. cbn. intros [= <-]. specialize (IH k eq_refl). lia.
Qed.

Lemma strlen_take l n k : strlen l = Some n -> strlen (take (Z.to_nat (n + 1)) l ++ k) = Some n.
Proof.
  revert n. induction l as [|x l IH]; intros n; [done|]. cbn [strlen]. destruct (x =? 0) eqn:Hx.
  - intros [= <-]. change (Z.to_nat (0 + 1)) with 1%nat. cbn [take app strlen]. by rewrite Hx.
  - destruct (strlen l) as [j|] eqn:Hj; [|done]. cbn [mbind option_bind]. intros [= <-]. pose proof (strlen_bound _ _ Hj).
    replace (Z.to_nat (j + 1 + 1)) with (S (Z.to_nat (j + 1))) by lia. cbn [take app strlen]. rewrite Hx. by rewrite (IH j).
Qed.

Lemma strcpy_run dst src n :
  strlen src = Some n -> n + 1 <= zlen dst ->
  exists s, strcpy dst src = Some s /\ zlen s = zlen dst /\ strlen s = Some n /\ cstr s = cstr src.
Proof.
  intros Hn Hd. pose proof (strlen_bound _ _ Hn) as Hb. unfold strcpy. rewrite Hn. cbn [mbind option_bind].
  set (t := take (Z.to_nat (n + 1)) src). assert (Ht : zlen t = n + 1) by (unfold t, zlen in *; rewrite length_take; lia).
  rewrite mwrite_Some by lia. eexists. split; [done|]. split; [by rewrite zlen_blit by lia|].
  unfold blit. cbn [take app Z.to_nat]. rewrite take_0. cbn [app]. set (rest := drop _ dst).
  assert (Hs : strlen (t ++ rest) = Some n) by (by apply strlen_take). split; [done|]. unfold cstr. rewrite Hs, Hn. cbn. f_equal.
  rewrite take_app_le by (unfold zlen in Ht; lia). unfold t. rewrite take_take. f_equal. lia.
Qed.

Lemma set_val_low x v : is_s32 x -> va_val (set_val x v) = x.
Proof.
  intros Hx. unfold va_val, set_val, put_low. cbn. unfold s32, wrap, u32, wrap. unfold is_s32 in Hx.
  pose proof (Z.div_mod (va_val64 v) (2 ^ 32) ltac:(lia)) as Hd. set (q := va_val64 v / 2 ^ 32) in *.
  replace (va_val64 v - va_val64 v mod 2 ^ 32 + x mod 2 ^ 32 + 2 ^ 31) with (x mod 2 ^ 32 + 2 ^ 31 + q * 2 ^ 32) by lia.
  rewrite Z_mod_plus_full. rewrite Zplus_mod_idemp_l. rewrite Z.mod_small by lia. lia.
Qed.

Lemma va_val_s32 v : is_s32 (va_val v).
Proof. unfold va_val, is_s32, s32. pose proof (wrap_range 32 (va_val64 v + 2 ^ 31) ltac:(lia)). lia. Qed.

Lemma copy_value_run x dst src :
  value_shape x dst -> value_shape x src ->
  exists v, copy_value (ct_type x) dst src = Some v /\ value_shape x v /\ same_value (ct_type x) v src.
Proof.
  intros Hd Hs. unfold copy_value, same_value, value_shape in *. destruct (Z.eqb_spec (ct_type x) V4L2_CTRL_TYPE_STRING) as [Ht|Ht].
  - destruct (Hd Ht) as [Hd1 _], (Hs Ht) as [Hs1 [n Hn]]. pose proof (strlen_bound _ _ Hn).
    destruct (strcpy_run (va_string dst) (va_string src) n Hn ltac:(lia)) as (s & -> & Hlen & Hsn & Hc).
    cbn. eexists. split; [done|]. split; [|done]. intros _. cbn. split; [lia|by exists n].
  - destruct (ct_type x =? V4L2_CTRL_TYPE_INTEGER64); eexists; (split; [done|]); (split; [done|]); [done|].
    apply set_val_low, va_val_s32.
Qed.

(** ** What a set may change *)

Definition well_shaped (x : v4l2_ctrl) : Prop := value_shape x (ct_cur x) /\ value_shape x (ct_new x).

Record kept (x x' : v4l2_ctrl) : Prop := {
  kp_cluster : ct_cluster x' = ct_cluster x;
  kp_ncontrols : ct_ncontrols x' = ct_ncontrols x;
  kp_type : ct_type x' = ct_type x;
  kp_max : ct_maximum x' = ct_maximum x;
  kp_auto : ct_is_auto x' = ct_is_auto x;
  kp_subs : ct_ev_subs x' = ct_ev_subs x;
  kp_ops : ct_ops x' = ct_ops x;
  kp_id : ct_id x' = ct_id x;
  kp_volatile : ct_is_volatile x' = ct_is_volatile x;
  kp_flags : Z.ldiff (ct_flags x') V4L2_CTRL_FLAG_INACTIVE = Z.ldiff (ct_flags x) V4L2_CTRL_FLAG_INACTIVE;
  kp_shape : well_shaped x -> well_shaped x';
}.

Lemma kept_refl x : kept x x.
Proof. by split. Qed.

Lemma kept_trans x y z : kept x y -> kept y z -> kept x z.
Proof. intros [A1 A2 A3 A4 A5 A6 A7 A8 A9 A10 A11] [B1 B2 B3 B4 B5 B6 B7 B8 B9 B10 B11]. split; try congruence. auto. Qed.

Record steps (s s' : v4l2_state) : Prop := {
  st_ref : vs_ref s' = vs_ref s;
  st_arr : vs_arr s' = vs_arr s;
  st_ctrl : forall c x, vs_ctrl s !! c = Some x -> exists x', vs_ctrl s' !! c = Some x' /\ kept x x';
}.

#[export] Instance steps_preorder : PreOrder steps.
Proof.
  split.
  - intros s. split; try done. intros c x Hc. exists x. split; [done|apply kept_refl].
  - intros s1 s2 s3 [A1 A2 A3] [B1 B2 B3]. split; try congruence. intros c x Hc. destruct (A3 c x Hc) as (y & Hy & Hxy).
    destruct (B3 c y Hy) as (z & Hz & Hyz). exists z. split; [done|]. by eapply kept_trans.
Qed.

(** Only drafts: new values and which of them are the caller's. *)
Definition drafts (x x' : v4l2_ctrl) : Prop :=
  exists v b, x' = set_ct_is_new b (set_ct_new v x) /\ (value_shape x (ct_new x) -> value_shape x v).

Record quiet (s s' : v4l2_state) : Prop := {
  qt_fh : vs_fh s' = vs_fh s;
  qt_list : vs_fh_list s' = vs_fh_list s;
  qt_sev : vs_sev s' = vs_sev s;
  qt_ref : vs_ref s' = vs_ref s;
  qt_hdl : vs_hdl s' = vs_hdl s;
  qt_arr : vs_arr s' = vs_arr s;
  qt_ctrl : forall c, option_Forall2 drafts (vs_ctrl s !! c) (vs_ctrl s' !! c);
}.

Lemma drafts_refl x : drafts x x.
Proof. exists (ct_new x), (ct_is_new x). split; [by destruct x|done]. Qed.

Lemma drafts_trans x y z : drafts x y -> drafts y z -> drafts x z.
Proof. intros (v & b & -> & Hv) (w & b' & -> & Hw). exists w, b'. split; [done|]. intros H. by apply Hw, Hv. Qed.

Lemma drafts_kept x x' : drafts x x' -> kept x x'.
Proof. intros (v & b & -> & Hv). split; try done. intros [H1 H2]. split; [done|]. by apply Hv. Qed.

#[export] Instance quiet_preorder : PreOrder quiet.
Proof.
  split.
  - intros s. split; try done. intros c. destruct (vs_ctrl s !! c); constructor. apply drafts_refl.
  - intros s1 s2 s3 [A1 A2 A3 A4 A5 A6 A7] [B1 B2 B3 B4 B5 B6 B7]. split; try congruence. intros c.
    specialize (A7 c). specialize (B7 c). inversion A7 as [x y Hxy E1 E2|E1 E2]; rewrite <-E2 in B7; inversion B7; subst; constructor.
    by eapply drafts_trans.
Qed.

Lemma quiet_steps s s' : quiet s s' -> steps s s'.
Proof.
  intros [_ _ _ H4 _ H6 H7]. split; try done. intros c x Hc. specialize (H7 c). rewrite Hc in H7. inversion H7 as [? y Hxy|]; subst.
  exists y. split; [done|]. by apply drafts_kept.
Qed.

(** ** Clusters *)

Record cluster_ok (s : v4l2_state) (m : nat) (l : list (option nat)) : Prop := {
  cl_master : exists x, vs_ctrl s !! m = Some x /\ ct_ncontrols x = zlen l /\
    (ct_is_auto x = true -> ct_type x <> V4L2_CTRL_TYPE_STRING);
  cl_get : forall i o, l.[i] = Some o -> cluster_get m i s = Some (o, s);
  cl_first : l.[0] = Some (Some m);
  cl_ctrl : forall c, Some c ∈ l -> exists x, vs_ctrl s !! c = Some x /\ well_shaped x /\ cluster_get c 0 s = Some (Some m, s);
}.

Lemma cluster_get_steps s s' c i o :
  steps s s' -> cluster_get c i s = Some (o, s) -> cluster_get c i s' = Some (o, s').
Proof.
  intros [H1 H2 H3]. unfold cluster_get, ct_get, ref_ctrl, mthen, gets, the, mdo. cbn.
  destruct (vs_ctrl s !! c) as [x|] eqn:Hc; [|done]. destruct (H3 _ _ Hc) as (x' & -> & Hk). cbn. rewrite (kp_cluster _ _ Hk).
  destruct (ct_cluster x) as [[r|a]|]; cbn; [| |done].
  - destruct (i =? 0); [|done]. cbn. rewrite H1. destruct (vs_ref s !! r); [|done]. cbn. by intros [= ->].
  - rewrite H2. destruct (vs_arr s !! a) as [k|]; [|done]. cbn. destruct (k.[i]); [|done]. by intros [= ->].
Qed.

Lemma cluster_ok_steps s s' m l : steps s s' -> cluster_ok s m l -> cluster_ok s' m l.
Proof.
  intros Hs [(x & Hx & Hn & Ha) H2 H3 H4]. split; [| |done|].
  - destruct (st_ctrl _ _ Hs _ _ Hx) as (x' & Hx' & Hk). exists x'. rewrite (kp_ncontrols _ _ Hk), (kp_auto _ _ Hk), (kp_type _ _ Hk). done.
  - intros i o Hi. by eapply cluster_get_steps, H2.
  - intros c Hc. destruct (H4 c Hc) as (y & Hy & Hw & Hg). destruct (st_ctrl _ _ Hs _ _ Hy) as (y' & Hy' & Hk).
    exists y'. split; [done|]. split; [by apply Hk|by eapply cluster_get_steps].
Qed.

Lemma cl_self s m l : cluster_ok s m l -> Some m ∈ l.
Proof. intros H. pose proof (cl_first _ _ _ H) as Hf. apply mget_Some in Hf as [_ Hf]. by apply list_elem_of_lookup_2 in Hf. Qed.

Lemma members_run s m l : cluster_ok s m l -> members m s = Some (seqZ 0 (zlen l), s).
Proof. intros [(x & Hx & Hn & _) _ _ _]. unfold members, mthen. rewrite (ct_get_run _ _ _ Hx). by rewrite Hn. Qed.

Lemma cluster_at s m l i : cluster_ok s m l -> i ∈ seqZ 0 (zlen l) -> exists o, l.[i] = Some o /\ cluster_get m i s = Some (o, s).
Proof.
  intros Hc Hi%elem_of_seqZ. destruct (mget_is_Some l i) as [_ [o Ho]]; [lia|]. exists o. split; [done|]. by apply Hc.
Qed.

Lemma cluster_member {l : list (option nat)} {i c} : l.[i] = Some (Some c) -> Some c ∈ l.
Proof. intros H. apply mget_Some in H as [_ H]. by apply list_elem_of_lookup_2 in H. Qed.

(** A loop over the members of a cluster. *)
Lemma members_loop (R : v4l2_state -> v4l2_state -> Prop) `{!PreOrder R} s m l (body : Z -> v4l2M unit) :
  (forall s s', R s s' -> steps s s') -> cluster_ok s m l ->
  (forall i s o, cluster_ok s m l -> l.[i] = Some o -> wp (body i) s (fun _ s' => R s s')) ->
  wp (mfor (seqZ 0 (zlen l)) body) s (fun _ s' => R s s').
Proof.
  intros Hsteps Hc Hb. apply (wp_mfor _ _ (fun s' => R s s')); [reflexivity|]. intros i s1 Hi Hr.
  assert (Hc1 : cluster_ok s1 m l) by (eapply cluster_ok_steps; [by apply Hsteps|done]).
  destruct (cluster_at _ _ _ _ Hc1 Hi) as (o & Ho & _). eapply wp_mono; [by eapply Hb|]. cbv beta. intros _ s2 Hr2. by etrans.
Qed.

Lemma upd_quiet s c x y :
  vs_ctrl s !! c = Some x -> drafts x y -> quiet s (set_vs_ctrl (<[c := y]> (vs_ctrl s)) s).
Proof.
  intros Hc Hf. split; try done. intros d. cbn. destruct (decide (c = d)) as [<-|Hne].
  - rewrite lookup_insert_eq, Hc. by constructor.
  - rewrite lookup_insert_ne by done. destruct (vs_ctrl s !! d); constructor. apply drafts_refl.
Qed.

Lemma ct_upd_quiet s c x f :
  vs_ctrl s !! c = Some x -> drafts x (f x) -> wp (ct_upd c f) s (fun _ s' => quiet s s').
Proof. intros Hc Hf. unfold wp. rewrite (ct_upd_run _ _ _ _ Hc). by eapply upd_quiet. Qed.

Lemma set_is_new_drafts b x : drafts x (set_ct_is_new b x).
Proof. exists (ct_new x), b. split; [by destruct x|done]. Qed.

Lemma set_new_drafts v x : (value_shape x (ct_new x) -> value_shape x v) -> drafts x (set_ct_new v x).
Proof. exists v, (ct_is_new x). split; [by destruct x|done]. Qed.

(** What a change does to each control. *)
Definition each (R : v4l2_ctrl -> v4l2_ctrl -> Prop) (s s' : v4l2_state) : Prop :=
  forall c, option_Forall2 R (vs_ctrl s !! c) (vs_ctrl s' !! c).

#[export] Instance each_preorder R `{!PreOrder R} : PreOrder (each R).
Proof.
  split.
  - intros s c. destruct (vs_ctrl s !! c); constructor. reflexivity.
  - intros s1 s2 s3 A B c. specialize (A c). specialize (B c). inversion A as [x y Hxy E1 E2|E1 E2]; rewrite <-E2 in B; inversion B; subst; constructor.
    by etrans.
Qed.

Lemma each_at R s s' c x : each R s s' -> vs_ctrl s !! c = Some x -> exists y, vs_ctrl s' !! c = Some y /\ R x y.
Proof. intros H Hx. specialize (H c). rewrite Hx in H. inversion H; subst. by eexists. Qed.

Lemma each_upd (R : v4l2_ctrl -> v4l2_ctrl -> Prop) s c x y : (forall z, R z z) -> vs_ctrl s !! c = Some x -> R x y -> each R s (with_ctrl c y s).
Proof.
  intros Hr Hx Hxy d. cbn. destruct (decide (c = d)) as [<-|Hne]; [rewrite lookup_insert_eq, Hx; by constructor|].
  rewrite lookup_insert_ne by done. destruct (vs_ctrl s !! d); constructor. apply Hr.
Qed.

(** Forgetting which values are new, whatever else. *)
Definition not_newer (x y : v4l2_ctrl) : Prop := ct_is_new y = true -> ct_is_new x = true.

Lemma reset_loop_run s m l idx :
  cluster_ok s m l -> (forall i, i ∈ idx -> i ∈ seqZ 0 (zlen l)) ->
  wp (mfor idx (fun i => ctrl <- cluster_get m i ;; match ctrl with Some k => ct_upd k (set_ct_is_new false) | None => mdo tt end)) s
    (fun _ s' => quiet s s' /\ each not_newer s s' /\
      forall i c x, i ∈ idx -> l.[i] = Some (Some c) -> vs_ctrl s' !! c = Some x -> ct_is_new x = false).
Proof.
  assert (Hpre : PreOrder not_newer) by (split; [by intros x Hx|intros x y z; unfold not_newer; auto]).
  revert s. induction idx as [|i idx IH]; intros s Hc Hin.
  { apply wp_mdo. split; [reflexivity|]. split; [reflexivity|]. by intros i c x ?%elem_of_nil. }
  cbn [mfor]. destruct (cluster_at _ _ _ i Hc (Hin i (list_elem_of_here _ _))) as (o & Ho & Hg).
  assert (Hrest : forall j, j ∈ idx -> j ∈ seqZ 0 (zlen l)) by (intros j Hj; apply Hin; by apply list_elem_of_further).
  eapply (wp_seq _ _ _ (fun _ s1 => quiet s s1 /\ each not_newer s s1 /\ forall c x, o = Some c -> vs_ctrl s1 !! c = Some x -> ct_is_new x = false)).
  - eapply wp_eq; [exact Hg|]. destruct o as [c|]; [|apply wp_mdo; split; [reflexivity|]; by split; [reflexivity|]].
    destruct (cl_ctrl _ _ _ Hc c (cluster_member Ho)) as (x & Hx & _). unfold wp. rewrite (ct_upd_run _ _ _ _ Hx).
    split; [eapply upd_quiet; [done|apply set_is_new_drafts]|]. split; [by apply (each_upd not_newer _ _ x); [reflexivity| |]|].
    intros d y [= <-]. cbn. rewrite lookup_insert_eq. by intros [= <-].
  - cbv beta. intros _ s1 (Hq1 & Hn1 & Hdone). eapply wp_mono; [apply IH; [eapply cluster_ok_steps; [by apply quiet_steps|done]|done]|].
    cbv beta. intros _ s2 (Hq2 & Hn2 & Hrest2). split; [by etrans|]. split; [by etrans|].
    intros j c x [->|Hj]%elem_of_cons Hl Hx; [|by eapply Hrest2]. rewrite Ho in Hl. injection Hl as ->.
    destruct (ct_is_new x) eqn:Hnew; [|done]. specialize (Hn2 c). rewrite Hx in Hn2. inversion Hn2 as [x1 ? Hx1 E1 E2|]; subst.
    rewrite <-(Hdone c x1 eq_refl (eq_sym E1)). by rewrite (Hx1 Hnew).
Qed.

Lemma in_range {A} (l : list A) k x : l !! k = Some x -> Z.of_nat k ∈ seqZ 0 (zlen l) /\ l.[Z.of_nat k] = Some x.
Proof.
  intros Hk. split; [apply elem_of_seqZ; apply lookup_lt_Some in Hk; unfold zlen; lia|]. apply mget_Some. split; [lia|by rewrite Nat2Z.id].
Qed.

Lemma reset_new_run s m l : cluster_ok s m l -> wp (reset_new m) s (fun _ s' => quiet s s' /\
  forall c x, Some c ∈ l -> vs_ctrl s' !! c = Some x -> ct_is_new x = false).
Proof.
  intros Hc. unfold reset_new. eapply wp_eq; [by apply members_run|]. eapply wp_mono; [by apply reset_loop_run|].
  cbv beta. intros _ s' (Hq & _ & Hd). split; [done|]. intros c x [k Hk]%list_elem_of_lookup Hx.
  destruct (in_range _ _ _ Hk) as [H1 H2]. by eapply Hd.
Qed.

Lemma cur_to_new_run s c x :
  vs_ctrl s !! c = Some x -> well_shaped x -> wp (cur_to_new (Some c)) s (fun _ s' => quiet s s').
Proof.
  intros Hx [H1 H2]. cbn [cur_to_new]. eapply wp_eq; [by apply ct_get_run|].
  destruct (copy_value_run x (ct_new x) (ct_cur x) H2 H1) as (v & Hv & Hshape & _). eapply wp_the; [exact Hv|].
  unfold ct_new_upd. eapply ct_upd_quiet; [done|]. by apply set_new_drafts.
Qed.

(** Filling in leaves the values of the caller alone. *)
Definition filled (x y : v4l2_ctrl) : Prop :=
  ct_is_new y = ct_is_new x /\ ct_flags y = ct_flags x /\ (ct_is_new x = true -> y = x).

#[export] Instance filled_preorder : PreOrder filled.
Proof.
  split; [done|]. intros x y z (A1 & A2 & A3) (B1 & B2 & B3). split; [congruence|]. split; [congruence|].
  intros H. rewrite B3; [by apply A3|]. by rewrite A1.
Qed.

Lemma fill_cluster_run s m l set idx :
  cluster_ok s m l -> (forall i, i ∈ idx -> i ∈ seqZ 0 (zlen l)) ->
  wp (fill_cluster_loop m set idx) s (fun stop s' => quiet s s' /\ each filled s s' /\
    (stop <> None -> stop = Some (- EBUSY) /\ exists c x, Some c ∈ l /\ vs_ctrl s !! c = Some x /\ ct_is_new x = true /\
      truthy (Z.land (ct_flags x) V4L2_CTRL_FLAG_GRABBED) = true)).
Proof.
  revert s. induction idx as [|i idx IH]; intros s Hc Hin; [by apply wp_mdo|]. cbn [fill_cluster_loop].
  destruct (cluster_at _ _ _ i Hc (Hin i (list_elem_of_here _ _))) as (o & Ho & Hg). eapply wp_eq; [exact Hg|].
  assert (Hrest : forall j, j ∈ idx -> j ∈ seqZ 0 (zlen l)) by (intros j Hj; apply Hin; by apply list_elem_of_further).
  destruct o as [c|]; [|by apply IH]. destruct (cl_ctrl _ _ _ Hc c (cluster_member Ho)) as (x & Hx & [Hw1 Hw2] & _).
  eapply wp_eq; [by apply ct_get_run|]. destruct (ct_is_new x) eqn:Hnew; cbn [negb].
  - destruct (set && _) eqn:Hgr; [|by apply IH]. apply wp_mdo. split; [reflexivity|]. split; [reflexivity|]. intros _. split; [done|].
    apply andb_true_iff in Hgr as [_ Hgr]. exists c, x. split; [exact (cluster_member Ho)|]. done.
  - destruct (copy_value_run x (ct_new x) (ct_cur x) Hw2 Hw1) as (v & Hv & Hshape & _).
    eapply wp_eq; [unfold cur_to_new, mthen at 1; rewrite (ct_get_run _ _ _ Hx); rewrite Hv; unfold mthen, the, mdo, ct_new_upd; by apply ct_upd_run|].
    set (s1 := set_vs_ctrl _ s). assert (Hq : quiet s s1) by (eapply upd_quiet; [done|by apply set_new_drafts]).
    assert (Hf : each filled s s1) by (apply (each_upd filled _ _ x); [reflexivity|done|split; [done|split; [done|congruence]]]).
    eapply wp_mono; [apply IH; [eapply cluster_ok_steps; [by apply quiet_steps|done]|done]|].
    cbv beta. intros stop s2 (Hq2 & Hf2 & Hs). split; [by etrans|]. split; [by etrans|]. intros Hstop. destruct (Hs Hstop) as (-> & d & y & Hd & Hy & Hyn & Hyg).
    split; [done|]. exists d, y. split; [done|]. split; [|done]. specialize (Hf d). rewrite Hy in Hf. inversion Hf as [y0 ? (E1 & E2 & E3) E4|]; subst.
    rewrite E1 in Hyn. by rewrite (E3 Hyn).
Qed.

Lemma new_differs_run s x : well_shaped x -> exists b, new_differs x s = Some (b, s) /\
  (b = false -> ct_type x <> V4L2_CTRL_TYPE_BUTTON /\ same_value (ct_type x) (ct_new x) (ct_cur x)).
Proof.
  intros [H1 H2]. unfold new_differs, same_value, value_shape in *. destruct (Z.eqb_spec (ct_type x) V4L2_CTRL_TYPE_BUTTON); [by exists true|].
  destruct (Z.eqb_spec (ct_type x) V4L2_CTRL_TYPE_STRING) as [Ht|Ht].
  - destruct (H1 Ht) as [_ [k1 Hn]], (H2 Ht) as [_ [k2 Hk]]. unfold str_differ, cstr. rewrite Hn, Hk. cbn. eexists. split; [done|].
    intros Hb%bool_decide_eq_false. split; [done|]. f_equal. by apply dec_stable.
  - destruct (ct_type x =? V4L2_CTRL_TYPE_INTEGER64); eexists; (split; [done|]); intros Hb%negb_false_iff%Z.eqb_eq; done.
Qed.

Lemma cluster_changed_run s m l : cluster_ok s m l -> exists b, cluster_changed m s = Some (b, s) /\
  (b = false -> forall c x, Some c ∈ l -> vs_ctrl s !! c = Some x -> ct_type x <> V4L2_CTRL_TYPE_BUTTON /\ same_value (ct_type x) (ct_new x) (ct_cur x)).
Proof.
  intros Hc. unfold cluster_changed, mthen. rewrite (members_run _ _ _ Hc).
  assert (Hloop : forall idx, (forall i, i ∈ idx -> i ∈ seqZ 0 (zlen l)) -> exists b, cluster_changed_loop m idx s = Some (b, s) /\
    (b = false -> forall i c x, i ∈ idx -> l.[i] = Some (Some c) -> vs_ctrl s !! c = Some x ->
      ct_type x <> V4L2_CTRL_TYPE_BUTTON /\ same_value (ct_type x) (ct_new x) (ct_cur x))).
  { induction idx as [|i idx IH]; intros Hin; [exists false; split; [done|]; by intros _ i c x ?%elem_of_nil|].
    destruct IH as (b & Hb & Hspec); [intros j Hj; apply Hin; by apply list_elem_of_further|].
    destruct (cluster_at _ _ _ i Hc (Hin i (list_elem_of_here _ _))) as (o & Ho & Hg). cbn [cluster_changed_loop]. unfold mthen at 1. rewrite Hg.
    destruct o as [c|].
    - destruct (cl_ctrl _ _ _ Hc c (cluster_member Ho)) as (x & Hx & Hw & _). unfold mthen at 1. rewrite (ct_get_run _ _ _ Hx).
      destruct (new_differs_run s x Hw) as (d & Hd & Hsame). unfold mthen. rewrite Hd. destruct d; [by exists true|].
      exists b. split; [done|]. intros -> j c' x' [->|Hj]%elem_of_cons Hl Hx'; [|by eapply Hspec].
      rewrite Ho in Hl. injection Hl as <-. rewrite Hx in Hx'. injection Hx' as <-. by apply Hsame.
    - exists b. split; [done|]. intros -> j c' x' [->|Hj]%elem_of_cons Hl Hx'; [congruence|by eapply Hspec]. }
  destruct (Hloop (seqZ 0 (zlen l))) as (b & Hb & Hspec); [done|]. exists b. split; [done|]. intros -> c x Hin Hx.
  apply list_elem_of_lookup in Hin as [k Hk]. eapply (Hspec eq_refl (Z.of_nat k)); [|apply mget_Some; split; [lia|by rewrite Nat2Z.id]|done].
  apply elem_of_seqZ. apply lookup_lt_Some in Hk. unfold zlen. lia.
Qed.

(** ** Drivers *)

(** The operations get the controls of the cluster in order. *)
Definition view_of (s : v4l2_state) (l : list (option nat)) : list (option v4l2_ctrl) :=
  map (fun o => o ≫= fun c => vs_ctrl s !! c) l.

Lemma view_of_at s l i o : l.[i] = Some o -> (view_of s l).[i] = Some (o ≫= fun c => vs_ctrl s !! c).
Proof.
  intros [Hi Ho]%mget_Some. apply mget_Some. split; [done|]. unfold view_of.
  change (map ?f l) with (f <$> l). by rewrite list_lookup_fmap, Ho.
Qed.

Lemma cluster_view_run s m l : cluster_ok s m l -> cluster_view m (seqZ 0 (zlen l)) s = Some (view_of s l, s).
Proof.
  intros Hc. assert (Hgo : forall k j, l = j ++ k -> cluster_view m (seqZ (zlen j) (zlen k)) s = Some (view_of s k, s)).
  { induction k as [|o k IH]; intros j Hl; [done|]. pose proof (zlen_nonneg k). rewrite zlen_cons, seqZ_cons by lia. cbn [cluster_view].
    assert (Ho : l.[zlen j] = Some o) by (rewrite Hl, mget_app_r, Z.sub_diag by lia; by apply mget_Some).
    unfold mthen at 1. rewrite (cl_get _ _ _ Hc _ _ Ho).
    replace (Z.succ (zlen j)) with (zlen (j ++ [o])) by (rewrite zlen_app, zlen_singleton; lia).
    replace (Z.pred (1 + zlen k)) with (zlen k) by lia. specialize (IH (j ++ [o])). rewrite <-app_assoc in IH. specialize (IH Hl).
    destruct o as [c|]; unfold mthen.
    - destruct (cl_ctrl _ _ _ Hc c (cluster_member Ho)) as (x & Hx & _). rewrite (ct_get_run _ _ _ Hx). cbn [mdo]. rewrite IH. cbn. by rewrite Hx.
    - cbn [mdo]. by rewrite IH. }
  exact (Hgo l [] eq_refl).
Qed.

Section env.
Context {E : V4l2Env} {C : CtrlEnv} (stack : v4l2_event).

(** A driver leaves strings in shape. *)
Definition polite_driver : Prop := forall ops op n view i x v,
  view.[i] = Some (Some x) -> well_shaped x -> (snd (run_op ops op n view)).[i] = Some v -> value_shape x v.

(** A driver that does what it is told. *)
Definition willing_driver (ops : nat) : Prop := forall op n view,
  fst (run_op ops op n view) = 0 /\
  forall i x v, view.[i] = Some (Some x) -> (snd (run_op ops op n view)).[i] = Some v -> v = ct_new x.

Definition willing (s : v4l2_state) (m : nat) : Prop :=
  exists x, vs_ctrl s !! m = Some x /\ forall ops, ct_ops x = Some ops -> willing_driver ops.

(** A driver that leaves the new values as they are, whatever it answers. *)
Definition keeping_driver (ops : nat) : Prop := forall op n view i x v,
  view.[i] = Some (Some x) -> (snd (run_op ops op n view)).[i] = Some v -> v = ct_new x.

Definition keeping (s : v4l2_state) (m : nat) : Prop :=
  exists x, vs_ctrl s !! m = Some x /\ forall ops, ct_ops x = Some ops -> keeping_driver ops.

Lemma willing_keeping s m : willing s m -> keeping s m.
Proof.
  intros (x & Hx & Hw). exists x. split; [done|]. intros ops Hops op n view. by apply (Hw ops Hops op n view).
Qed.

Lemma drafts_shape x x' v : drafts x x' -> value_shape x v -> value_shape x' v.
Proof. intros (w & b & -> & _). done. Qed.

Lemma call_op_run s m l op :
  polite_driver -> cluster_ok s m l ->
  wp (call_op m op) s (fun ret s' => quiet s s' /\ (willing s m -> ret = 0) /\ (keeping s m -> vs_ctrl s' = vs_ctrl s)).
Proof.
  intros Hpol Hc. destruct (cl_master _ _ _ Hc) as (x & Hx & _). unfold call_op. eapply wp_eq; [by apply ct_get_run|].
  destruct (ct_ops x) as [ops|] eqn:Hops; [|by apply wp_mdo]. destruct (has_op ops op); [|by apply wp_mdo].
  eapply wp_eq; [by apply members_run|]. eapply wp_eq; [by apply cluster_view_run|]. eapply wp_eq; [apply ask_run|].
  apply wp_gets, wp_modify. set (s0 := set_vs_calls _ _). set (view := view_of s l). destruct (run_op ops op (vs_tick s) view) as [ret values] eqn:Hrun.
  assert (Hq0 : quiet s s0) by (split; try done; intros c; destruct (vs_ctrl s !! c) eqn:Hcs; cbn; rewrite Hcs; constructor; apply drafts_refl).
  eapply wp_seq.
  - apply (wp_mfor _ _ (fun s' => quiet s s' /\ (keeping s m -> vs_ctrl s' = vs_ctrl s))); [by split|].
    intros i s1 Hi [Hq1 Hsame]. assert (Hc1 : cluster_ok s1 m l) by (eapply cluster_ok_steps; [by apply quiet_steps|done]).
    destruct (cluster_at _ _ _ i Hc1 Hi) as (o & Ho & Hg). eapply wp_eq; [exact Hg|].
    destruct o as [c|]; [|by apply wp_mdo]. destruct (values.[i]) as [v|] eqn:Hv; [|by apply wp_mdo].
    destruct (cl_ctrl _ _ _ Hc c (cluster_member Ho)) as (y & Hy & Hw & _).
    assert (Hview : view.[i] = Some (Some y)) by (unfold view; rewrite (view_of_at _ _ _ _ Ho); cbn; by rewrite Hy).
    pose proof (qt_ctrl _ _ Hq1 c) as Hd. rewrite Hy in Hd. inversion Hd as [? y1 Hyy Heq1 Heq2|]; subst. symmetry in Heq2.
    apply wp_ret. eapply wp_eq; [apply (ct_upd_run s1 c y1); done|]. apply wp_mdo. split.
    + etrans; [exact Hq1|]. eapply upd_quiet; [done|]. apply set_new_drafts. intros _. eapply drafts_shape; [exact Hyy|].
      eapply (Hpol ops op (vs_tick s) view i); [done|done|by rewrite Hrun].
    + intros Hwill. cbn. pose proof (Hsame Hwill) as Heq. destruct Hwill as (x' & Hx' & Hwill). rewrite Hx in Hx'. injection Hx' as <-.
      pose proof (Hwill ops Hops op (vs_tick s) view i y v Hview ltac:(by rewrite Hrun)) as ->.
      rewrite Heq in Heq2. rewrite Hy in Heq2. apply (inj Some) in Heq2. subst y1. rewrite Heq, insert_id; [done|]. rewrite Hy. f_equal. by destruct y.
  - cbv beta. intros _ s2 [Hq2 Hsame]. apply wp_mdo. split; [done|]. split; [|exact Hsame]. intros Hwill.
    destruct Hwill as (x' & Hx' & Hwill). rewrite Hx in Hx'. injection Hx' as <-. destruct (Hwill ops Hops op (vs_tick s) view) as [Hret _]. by rewrite Hrun in Hret.
Qed.

(** ** Committing *)

Lemma listening_quiet G s s' : quiet s s' -> listening G s -> listening G s'.
Proof.
  intros Hq [H1 H2]. split.
  - intros f Hf. destruct (H1 f Hf) as (h & (x & Hx & Hr) & Hroom). exists h. split; [|done]. exists x.
    by rewrite (qt_fh _ _ Hq), (qt_sev _ _ Hq).
  - intros c x p Hc Hp. pose proof (qt_ctrl _ _ Hq c) as Hd. rewrite Hc in Hd. inversion Hd as [x0 ? Hxx E1 E2|]; subst.
    rewrite (qt_sev _ _ Hq). apply (H2 c x0 p); [done|]. by rewrite <-(kp_subs _ _ (drafts_kept _ _ Hxx)).
Qed.

Lemma listening_upd G s c x y : listening G s -> vs_ctrl s !! c = Some x -> kept x y -> listening G (with_ctrl c y s).
Proof.
  intros [H1 H2] Hx Hk. split; [exact H1|]. intros d z p Hd Hp. cbn in Hd. destruct (decide (c = d)) as [<-|Hne].
  - rewrite lookup_insert_eq in Hd. injection Hd as <-. apply (H2 c x p Hx). by rewrite <-(kp_subs _ _ Hk).
  - rewrite lookup_insert_ne in Hd by done. by apply (H2 d z p).
Qed.

Lemma steps_upd s c x y : vs_ctrl s !! c = Some x -> kept x y -> steps s (with_ctrl c y s).
Proof.
  intros Hx Hk. split; try done. intros d z Hd. cbn. destruct (decide (c = d)) as [<-|Hne].
  - rewrite lookup_insert_eq. rewrite Hx in Hd. injection Hd as <-. by eexists.
  - rewrite lookup_insert_ne by done. exists z. split; [done|apply kept_refl].
Qed.

Lemma steps_frame s s' : event_frame s s' -> steps s s'.
Proof. intros [H1 H2 H3 H4 _]. split; try done. intros c x Hx. exists x. rewrite H1. split; [done|apply kept_refl]. Qed.

(** A control whose current value is its new one. *)
Definition settled (x : v4l2_ctrl) : Prop :=
  ct_type x <> V4L2_CTRL_TYPE_BUTTON -> same_value (ct_type x) (ct_cur x) (ct_new x).

Lemma manual_run s m l : cluster_ok s m l -> exists b, is_cur_manual m s = Some (b, s).
Proof.
  intros Hc. destruct (cl_master _ _ _ Hc) as (x & Hx & _ & Ha). unfold is_cur_manual, mthen at 1. rewrite (ct_get_run _ _ _ Hx).
  destruct (ct_is_auto x) eqn:Hauto; cbn; [|by eexists]. unfold cur_val, mthen.
  rewrite (proj2 (Z.eqb_neq _ _) (Ha eq_refl)). by eexists.
Qed.

Lemma new_manual_run s m l : cluster_ok s m l -> exists b, is_new_manual m s = Some (b, s).
Proof.
  intros Hc. destruct (cl_master _ _ _ Hc) as (x & Hx & _ & Ha). unfold is_new_manual, mthen at 1. rewrite (ct_get_run _ _ _ Hx).
  destruct (ct_is_auto x) eqn:Hauto; cbn; [|by eexists]. unfold new_val, mthen.
  rewrite (proj2 (Z.eqb_neq _ _) (Ha eq_refl)). by eexists.
Qed.

Lemma with_ctrl_twice c x y s : with_ctrl c y (with_ctrl c x s) = with_ctrl c y s.
Proof. unfold with_ctrl. cbn. by rewrite insert_insert_eq. Qed.

Lemma with_ctrl_same c x s : vs_ctrl s !! c = Some x -> with_ctrl c x s = s.
Proof. intros Hx. unfold with_ctrl. rewrite insert_id by done. by destruct s. Qed.

Lemma ct_upd_with s c x f : vs_ctrl s !! c = Some x -> ct_upd c f s = Some (tt, with_ctrl c (f x) s).
Proof. apply ct_upd_run. Qed.

Lemma set_flags_kept f x :
  Z.ldiff f V4L2_CTRL_FLAG_INACTIVE = Z.ldiff (ct_flags x) V4L2_CTRL_FLAG_INACTIVE -> kept x (set_ct_flags f x).
Proof. by split. Qed.

Lemma ldiff_twice f k : Z.ldiff (Z.ldiff f k) k = Z.ldiff f k.
Proof. by rewrite Z.ldiff_ldiff_l, Z.lor_diag. Qed.

Lemma ldiff_lor f k : Z.ldiff (Z.lor f k) k = Z.ldiff f k.
Proof. apply Z.bits_inj'. intros n _. rewrite !Z.ldiff_spec, Z.lor_spec. destruct (Z.testbit f n), (Z.testbit k n); done. Qed.

Lemma set_cur_kept v x : value_shape x v -> kept x (set_ct_cur v x).
Proof. intros Hv. split; try done. by intros [H1 H2]. Qed.

(** The flag that says a control has no effect. *)
Lemma inactive_run (b : bool) s m l c x :
  cluster_ok s m l -> Some c ∈ l -> vs_ctrl s !! c = Some x ->
  exists f, (if b then
       ct_upd c (fun x => set_ct_flags (Z.ldiff (ct_flags x) V4L2_CTRL_FLAG_INACTIVE) x) ;;
       master <- master_of c ;; manual <- is_cur_manual master ;;
       if negb manual then ct_upd c (fun x => set_ct_flags (Z.lor (ct_flags x) V4L2_CTRL_FLAG_INACTIVE) x) else mdo tt
     else mdo tt) s = Some (tt, with_ctrl c (set_ct_flags f x) s) /\
    Z.ldiff f V4L2_CTRL_FLAG_INACTIVE = Z.ldiff (ct_flags x) V4L2_CTRL_FLAG_INACTIVE.
Proof.
  intros Hc Hin Hx. destruct b; [|exists (ct_flags x); split; [|done]; rewrite with_ctrl_same; [done|]; rewrite Hx; by destruct x].
  unfold mthen at 1. rewrite (ct_upd_with _ _ _ _ Hx). set (f := Z.ldiff _ _). set (s1 := with_ctrl c (set_ct_flags f x) s).
  assert (Hc1 : cluster_ok s1 m l) by (eapply cluster_ok_steps; [eapply steps_upd; [done|apply set_flags_kept, ldiff_twice]|done]).
  assert (Hm : master_of c s1 = Some (m, s1)).
  { destruct (cl_ctrl _ _ _ Hc1 c Hin) as (y & _ & _ & Hg). unfold master_of, mthen. by rewrite Hg. }
  unfold mthen at 1. rewrite Hm. destruct (manual_run _ _ _ Hc1) as [b Hb]. unfold mthen at 1. rewrite Hb.
  destruct b; cbn [negb]; [exists f; split; [done|apply ldiff_twice]|]. assert (Hx1 : vs_ctrl s1 !! c = Some (set_ct_flags f x)) by (cbn; by rewrite lookup_insert_eq).
  rewrite (ct_upd_with _ _ _ _ Hx1). unfold s1. rewrite with_ctrl_twice. eexists. split; [done|].
  cbn. rewrite ldiff_lor. apply ldiff_twice.
Qed.

Lemma new_to_cur_run G s m l fh c x upd :
  listening G s -> cluster_ok s m l -> Some c ∈ l -> vs_ctrl s !! c = Some x ->
  wp (new_to_cur stack fh (Some c) upd) s (fun _ s' => listening G s' /\ vs_hdl s' = vs_hdl s /\ steps s s' /\
    exists y, vs_ctrl s' = <[c := y]> (vs_ctrl s) /\ kept x y /\ ct_new y = ct_new x /\ settled y).
Proof.
  intros Hl Hc Hin Hx. destruct (cl_ctrl _ _ _ Hc c Hin) as (x' & Hx' & Hw & _). rewrite Hx in Hx'. injection Hx' as <-.
  cbn [new_to_cur]. eapply wp_eq; [by apply ct_get_run|]. destruct (new_differs_run s x Hw) as (changed & Hch & _). eapply wp_eq; [exact Hch|].
  assert (Hcur : exists y, (if ct_type x =? V4L2_CTRL_TYPE_BUTTON then mdo tt
     else v <- the (copy_value (ct_type x) (ct_cur x) (ct_new x)) ;; ct_cur_upd c (fun _ => v)) s = Some (tt, with_ctrl c y s) /\
     kept x y /\ ct_new y = ct_new x /\ settled y).
  { destruct (Z.eqb_spec (ct_type x) V4L2_CTRL_TYPE_BUTTON) as [Ht|Ht].
    - exists x. rewrite with_ctrl_same by done. split; [done|]. split; [apply kept_refl|]. split; [done|]. by intros Hne.
    - destruct (copy_value_run x (ct_cur x) (ct_new x) (proj1 Hw) (proj2 Hw)) as (v & Hv & Hshape & Hsame). exists (set_ct_cur v x).
      unfold mthen. rewrite Hv. cbn [the mdo]. unfold ct_cur_upd. rewrite (ct_upd_with _ _ _ _ Hx). split; [done|].
      split; [by apply set_cur_kept|]. split; [done|]. by intros _. }
  destruct Hcur as (y & Hrun & Hk & Hnew & Hset). eapply wp_eq; [exact Hrun|]. clear Hrun.
  set (s1 := with_ctrl c y s). assert (Hx1 : vs_ctrl s1 !! c = Some y) by (cbn; by rewrite lookup_insert_eq).
  assert (Hc1 : cluster_ok s1 m l) by (eapply cluster_ok_steps; [by eapply steps_upd|done]).
  destruct (inactive_run upd s1 m l c y Hc1 Hin Hx1) as (f & Hf & Hfl). eapply wp_eq; [exact Hf|]. clear Hf. unfold s1. rewrite with_ctrl_twice.
  set (z := set_ct_flags f y). assert (Hkz : kept x z) by (eapply kept_trans; [exact Hk|by apply set_flags_kept]).
  assert (Hl2 : listening G (with_ctrl c z s)) by (by eapply listening_upd).
  assert (Hz : vs_ctrl (with_ctrl c z s) !! c = Some z) by (cbn; by rewrite lookup_insert_eq).
  destruct (changed || upd).
  - eapply wp_eq; [by apply ct_get_run|]. eapply wp_mono; [by eapply send_event_run|]. cbv beta. intros _ s3 [Hl3 Hfr].
    split; [done|]. split; [by rewrite (ef_hdl _ _ Hfr)|]. split; [etrans; [by eapply steps_upd|by apply steps_frame]|].
    exists z. by rewrite (ef_ctrl _ _ Hfr).
  - apply wp_mdo. split; [done|]. split; [done|]. split; [by eapply steps_upd|]. by exists z.
Qed.

(** What committing does to each control. *)
Definition commits (l : list (option nat)) (s s' : v4l2_state) : Prop :=
  forall c x, vs_ctrl s !! c = Some x -> exists y, vs_ctrl s' !! c = Some y /\ ct_new y = ct_new x /\ ct_type y = ct_type x /\
    (Some c ∉ l -> y = x) /\ (settled x -> settled y).

Lemma commits_refl l s : commits l s s.
Proof. intros c x Hx. by exists x. Qed.

Lemma commits_trans l s1 s2 s3 : commits l s1 s2 -> commits l s2 s3 -> commits l s1 s3.
Proof.
  intros A B c x Hx. destruct (A c x Hx) as (y & Hy & E1 & E2 & E3 & E4). destruct (B c y Hy) as (z & Hz & F1 & F2 & F3 & F4).
  exists z. split; [done|]. split; [congruence|]. split; [congruence|]. split; [|auto]. intros Hn. rewrite (F3 Hn). by apply E3.
Qed.

Lemma commit_loop_run G s m l fh upd idx :
  listening G s -> cluster_ok s m l -> (forall i, i ∈ idx -> i ∈ seqZ 0 (zlen l)) ->
  wp (mfor idx (fun i => ctrl <- cluster_get m i ;; new_to_cur stack fh ctrl (upd && (i >? 0)))) s
    (fun _ s' => listening G s' /\ vs_hdl s' = vs_hdl s /\ steps s s' /\ commits l s s' /\
      forall i c x, i ∈ idx -> l.[i] = Some (Some c) -> vs_ctrl s' !! c = Some x -> settled x).
Proof.
  revert s. induction idx as [|i idx IH]; intros s Hl Hc Hin.
  { apply wp_mdo. split; [done|]. split; [done|]. split; [reflexivity|]. split; [apply commits_refl|]. by intros i c x ?%elem_of_nil. }
  cbn [mfor]. destruct (cluster_at _ _ _ i Hc (Hin i (list_elem_of_here _ _))) as (o & Ho & Hg).
  assert (Hrest : forall j, j ∈ idx -> j ∈ seqZ 0 (zlen l)) by (intros j Hj; apply Hin; by apply list_elem_of_further).
  eapply (wp_seq _ _ _ (fun _ s1 => listening G s1 /\ vs_hdl s1 = vs_hdl s /\ steps s s1 /\ commits l s s1 /\
    forall c x, o = Some c -> vs_ctrl s1 !! c = Some x -> settled x)).
  - eapply wp_eq; [exact Hg|]. destruct o as [c|].
    + destruct (cl_ctrl _ _ _ Hc c (cluster_member Ho)) as (x & Hx & _). pose proof (cluster_member Ho) as Hcl.
      eapply wp_mono; [by apply (new_to_cur_run G s m l fh c x)|]. cbv beta. intros _ s1 (Hl1 & Hh & Hst & y & Hy & Hk & Hnew & Hset).
      split; [done|]. split; [done|]. split; [done|]. rewrite Hy. split.
      * intros d z Hz. destruct (decide (c = d)) as [<-|Hne].
        -- exists y. rewrite Hy, lookup_insert_eq. rewrite Hx in Hz. injection Hz as <-. split; [done|]. split; [done|]. split; [apply Hk|]. done.
        -- exists z. rewrite Hy, lookup_insert_ne by done. done.
      * intros d z [= <-]. rewrite lookup_insert_eq. by intros [= <-].
    + apply wp_mdo. split; [done|]. split; [done|]. split; [reflexivity|]. split; [apply commits_refl|done].
  - cbv beta. intros _ s1 (Hl1 & Hh1 & Hst1 & Hcm1 & Hd1). eapply wp_mono; [apply IH; [done|by eapply cluster_ok_steps|done]|].
    cbv beta. intros _ s2 (Hl2 & Hh2 & Hst2 & Hcm2 & Hd2). split; [done|]. split; [congruence|]. split; [by etrans|]. split; [by eapply commits_trans|].
    intros j c x [->|Hj]%elem_of_cons Hlj Hx; [|by eapply Hd2]. rewrite Ho in Hlj. injection Hlj as ->.
    destruct (cl_ctrl _ _ _ (cluster_ok_steps _ _ _ _ Hst1 Hc) c (cluster_member Ho)) as (y & Hy & _).
    destruct (Hcm2 c y Hy) as (z & Hz & _ & _ & _ & Hkeep). rewrite Hx in Hz. injection Hz as <-. apply Hkeep. by eapply Hd1.
Qed.
End env.
