(* ===== verification/V4l2CtrlAtomic.v ===== *)
(** Setting a control: all of its cluster or nothing, and what was set is what is
    read. *)

From Stdlib Require Import String.
From stdpp Require Import gmap strings.
From S2P Require Import Prelude StateM V4l2Types V4l2CtrlTables V4l2Event V4l2EventSpec V4l2Steps V4l2Handles V4l2CtrlNew V4l2Ctrl V4l2CtrlIoctl V4l2CtrlValid V4l2CtrlOk V4l2CtrlAdd V4l2CtrlSet.

Section env.
Context {E : V4l2Env} {C : CtrlEnv} (stack : v4l2_event).

Lemma willing_quiet s s' m : quiet s s' -> willing s m -> willing s' m.
Proof.
  intros Hq (x & Hx & Hw). destruct (each_at drafts s s' m x (qt_ctrl _ _ Hq) Hx) as (y & Hy & Hd). exists y. split; [done|].
  by rewrite (kp_ops _ _ (drafts_kept _ _ Hd)).
Qed.

Lemma keeping_quiet s s' m : quiet s s' -> keeping s m -> keeping s' m.
Proof.
  intros Hq (x & Hx & Hw). destruct (each_at drafts s s' m x (qt_ctrl _ _ Hq) Hx) as (y & Hy & Hd). exists y. split; [done|].
  by rewrite (kp_ops _ _ (drafts_kept _ _ Hd)).
Qed.

(** The controls outside of a cluster keep all but drafts. *)
Definition others_quiet (l : list (option nat)) (s s' : v4l2_state) : Prop :=
  forall c x, Some c ∉ l -> vs_ctrl s !! c = Some x -> exists y, vs_ctrl s' !! c = Some y /\ drafts x y.

Definition all_settled (l : list (option nat)) (s : v4l2_state) : Prop :=
  forall c x, Some c ∈ l -> vs_ctrl s !! c = Some x -> settled x.

(** The values of the caller that are still there. *)
Definition keeps_new (s s' : v4l2_state) : Prop :=
  forall c x, vs_ctrl s !! c = Some x -> ct_is_new x = true ->
    exists y, vs_ctrl s' !! c = Some y /\ ct_new y = ct_new x /\ ct_type y = ct_type x.

Definition nothing_grabbed (l : list (option nat)) (s : v4l2_state) : Prop :=
  forall c x, Some c ∈ l -> vs_ctrl s !! c = Some x -> ct_is_new x = true -> truthy (Z.land (ct_flags x) V4L2_CTRL_FLAG_GRABBED) = false.

(** What [try_or_set_cluster] comes to. *)
Record tried (G : gset nat) (m : nat) (l : list (option nat)) (set : bool) (s : v4l2_state) (ret : Z) (s' : v4l2_state) : Prop := {
  tr_listening : listening G s';
  tr_steps : steps s s';
  tr_hdl : vs_hdl s' = vs_hdl s;
  tr_fail : ret <> 0 \/ set = false -> quiet s s';
  tr_done : ret = 0 -> set = true -> all_settled l s' /\ others_quiet l s s';
  tr_willing : willing s m -> nothing_grabbed l s -> ret = 0;
  tr_keeping : keeping s m -> keeps_new s s';
}.

Lemma quiet_others l s s' : quiet s s' -> others_quiet l s s'.
Proof. intros Hq c x _ Hx. by apply (each_at drafts s s' c x (qt_ctrl _ _ Hq)). Qed.

Lemma same_value_sym t a b : same_value t a b -> same_value t b a.
Proof. unfold same_value. by destruct (t =? V4L2_CTRL_TYPE_STRING), (t =? V4L2_CTRL_TYPE_INTEGER64). Qed.

Lemma keeps_new_same s s1 s2 : keeps_new s s1 -> vs_ctrl s2 = vs_ctrl s1 -> keeps_new s s2.
Proof. intros H Heq c x Hx Hn. rewrite Heq. by apply H. Qed.

Lemma try_or_set_run G s m l fh set :
  polite_driver -> listening G s -> cluster_ok s m l ->
  wp (try_or_set_cluster stack fh m set) s (tried G m l set s).
Proof.
  intros Hpol Hl Hc. unfold try_or_set_cluster. eapply wp_eq; [by apply members_run|].
  eapply wp_seq; [by apply (fill_cluster_run s m l set)|]. cbv beta. intros stop s1 (Hq1 & Hf1 & Hstop).
  assert (Hc1 : cluster_ok s1 m l) by (eapply cluster_ok_steps; [by apply quiet_steps|done]).
  assert (Hk1 : keeps_new s s1).
  { intros c x Hx Hn. destruct (each_at filled s s1 c x Hf1 Hx) as (y & Hy & _ & _ & Heq). exists y. by rewrite (Heq Hn) in *. }
  assert (Hquiet : forall s' ret, ret <> 0 \/ set = false -> quiet s s' -> (willing s m -> nothing_grabbed l s -> ret = 0) -> (keeping s m -> keeps_new s s') -> tried G m l set s ret s').
  { intros s' ret Hr Hq Hw Hk. split; [by eapply listening_quiet|by apply quiet_steps|apply Hq|done| |done|done]. intros -> ->. by destruct Hr. }
  destruct stop as [err|].
  { apply wp_mdo. destruct (Hstop ltac:(done)) as (Herr & c & x & Hin & Hx & Hn & Hg). injection Herr as ->. apply Hquiet; [by left|done| |done].
    intros _ Hno. rewrite (Hno c x Hin Hx Hn) in Hg. done. }
  clear Hstop.
  eapply wp_seq; [by apply (call_op_run s1 m l try_ctrl)|]. cbv beta. intros ret s2 (Hq2 & Hw2 & Hkp2).
  assert (Hq12 : quiet s s2) by (by etrans). assert (Hc2 : cluster_ok s2 m l) by (eapply cluster_ok_steps; [by apply quiet_steps|done]).
  assert (Hw2' : willing s m -> ret = 0) by (intros Hw; apply Hw2; by eapply willing_quiet).
  assert (Hk2 : keeping s m -> keeps_new s s2).
  { intros Hw. eapply keeps_new_same; [exact Hk1|]. apply Hkp2. by eapply keeping_quiet. }
  destruct (Z.eqb_spec ret 0) as [->|Hne]; cbn [negb orb].
  2: { apply wp_mdo, Hquiet; [by left|done| |done]. intros Hw. by destruct (Hw2' Hw). }
  destruct set; cbn [negb].
  2: { by apply wp_mdo, Hquiet; [by right|..]. }
  destruct (cluster_changed_run s2 m l Hc2) as (changed & Hch & Hsame). eapply wp_eq; [exact Hch|]. destruct changed; cbn [negb].
  2: { apply wp_mdo. split; [by eapply listening_quiet|by apply quiet_steps|apply Hq12|done| | |].
       - intros _ _. split; [|by apply quiet_others]. intros c x Hin Hx _. apply same_value_sym. by apply (Hsame eq_refl c x).
       - done.
       - exact Hk2. }
  eapply wp_seq; [by apply (call_op_run s2 m l s_ctrl)|]. cbv beta. intros ret s3 (Hq3 & Hw3 & Hkp3).
  assert (Hq13 : quiet s s3) by (by etrans). assert (Hc3 : cluster_ok s3 m l) by (eapply cluster_ok_steps; [by apply quiet_steps|done]).
  assert (Hw3' : willing s m -> ret = 0) by (intros Hw; apply Hw3; by eapply willing_quiet).
  assert (Hk3 : keeping s m -> keeps_new s s3).
  { intros Hw. eapply keeps_new_same; [by apply Hk2|]. apply Hkp3. by eapply keeping_quiet. }
  destruct (Z.eqb_spec ret 0) as [->|Hne]; cbn [negb].
  2: { apply wp_mdo, Hquiet; [by left|done| |done]. intros Hw. by destruct (Hw3' Hw). }
  destruct (manual_run _ _ _ Hc3) as [cur Hcur]. eapply wp_eq; [exact Hcur|].
  destruct (new_manual_run _ _ _ Hc3) as [new Hnew]. eapply wp_eq; [exact Hnew|]. cbv zeta.
  eapply wp_seq; [apply (commit_loop_run stack G s3 m l fh (negb (eqb cur new))); [by eapply listening_quiet|done|done]|].
  cbv beta. intros _ s4 (Hl4 & Hh4 & Hst4 & Hcm4 & Hd4). apply wp_mdo. split; [done|etrans; [by apply quiet_steps|done]| | | |done|].
  - rewrite Hh4. apply Hq13.
  - by intros [|].
  - intros _ _. split.
    + intros c x [k Hk]%list_elem_of_lookup Hx. destruct (in_range _ _ _ Hk) as [H1 H2]. by eapply Hd4.
    + intros c x Hn Hx. destruct (quiet_others l _ _ Hq13 c x Hn Hx) as (y & Hy & Hd). destruct (Hcm4 c y Hy) as (z & Hz & _ & _ & Hout & _).
      exists z. by rewrite (Hout Hn) in *.
  - intros Hw c x Hx Hn. destruct (Hk3 Hw c x Hx Hn) as (y & Hy & E1 & E2).
    destruct (Hcm4 c y Hy) as (z & Hz & F1 & F2 & _). exists z. split; [done|]. split; congruence.
Qed.

Lemma not_string x : type_is_int x = true -> ct_type x <> V4L2_CTRL_TYPE_STRING /\ ct_type x <> V4L2_CTRL_TYPE_INTEGER64.
Proof. unfold type_is_int. intros [H1%Z.eqb_neq H2%Z.eqb_neq]%negb_true_iff%orb_false_iff. done. Qed.

Lemma int_settled x : type_is_int x = true -> settled x -> ct_type x <> V4L2_CTRL_TYPE_BUTTON -> va_val (ct_cur x) = va_val (ct_new x).
Proof.
  intros [H1 H2]%not_string Hs Hb. specialize (Hs Hb). unfold same_value in Hs.
  by rewrite (proj2 (Z.eqb_neq _ _) H1), (proj2 (Z.eqb_neq _ _) H2) in Hs.
Qed.

(** [set_ctrl], once the value is valid. *)
Lemma set_ctrl_run G s m l fh c x val v :
  polite_driver -> listening G s -> cluster_ok s m l -> Some c ∈ l -> vs_ctrl s !! c = Some x -> type_is_int x = true ->
  validate_new_int x val = Some (0, v) ->
  wp (set_ctrl stack fh c val) s (fun a s' => exists s0 x', tried G m l true s0 (fst a) s' /\ quiet s s0 /\
    vs_ctrl s' !! c = Some x' /\ kept x x' /\ snd a = va_val (ct_cur x') /\
    (willing s m -> truthy (Z.land (ct_flags x) V4L2_CTRL_FLAG_GRABBED) = false -> fst a = 0) /\
    (keeping s m -> is_s32 v -> va_val (ct_new x') = v)).
Proof.
  intros Hpol Hl Hc Hin Hx Hint Hval. destruct (not_string _ Hint) as [Hns _]. unfold set_ctrl.
  destruct (cl_ctrl _ _ _ Hc c Hin) as (x0 & Hx0 & _ & Hm). rewrite Hx in Hx0. injection Hx0 as <-.
  eapply wp_eq; [unfold master_of, mthen; rewrite Hm; done|]. eapply wp_eq; [by apply ct_get_run|]. eapply wp_the; [exact Hval|]. cbn [fst snd negb Z.eqb].
  eapply wp_seq; [by apply (reset_new_run s m l)|]. cbv beta. intros _ s1 [Hq1 Hold].
  destruct (each_at drafts s s1 c x (qt_ctrl _ _ Hq1) Hx) as (x1 & Hx1 & Hd1).
  assert (Hk1 : kept x x1) by (by apply drafts_kept). set (x2 := set_ct_is_new true (set_ct_new (set_val v (ct_new x1)) x1)).
  eapply wp_eq; [apply (ct_upd_run s1 c x1); done|]. fold x2. set (s2 := set_vs_ctrl (<[c := x2]> (vs_ctrl s1)) s1).
  assert (Hd2 : drafts x1 x2) by (exists (set_val v (ct_new x1)), true; split; [done|]; intros _ Ht; by rewrite (kp_type _ _ Hk1) in Ht).
  assert (Hq2 : quiet s s2) by (etrans; [exact Hq1|by eapply upd_quiet]).
  assert (Hc2 : cluster_ok s2 m l) by (eapply cluster_ok_steps; [by apply quiet_steps|done]).
  assert (Hx2 : vs_ctrl s2 !! c = Some x2) by (cbn; by rewrite lookup_insert_eq).
  assert (Hk2 : kept x x2) by (eapply kept_trans; [exact Hk1|by apply drafts_kept]).
  eapply wp_seq; [apply (try_or_set_run G s2 m l fh true); [done|by eapply listening_quiet|done]|]. cbv beta. intros ret s3 Htr.
  destruct (st_ctrl _ _ (tr_steps _ _ _ _ _ _ _ Htr) c x2 Hx2) as (x3 & Hx3 & Hk3). eapply wp_eq; [by apply ct_get_run|].
  assert (Hk : kept x x3) by (by eapply kept_trans). unfold cur_val. rewrite (kp_type _ _ Hk), (proj2 (Z.eqb_neq _ _) Hns).
  eapply wp_eq; [done|]. apply wp_mdo. exists s2, x3. split; [done|]. split; [done|]. split; [done|]. split; [done|]. split; [done|].
  split.
  - intros Hw Hgr. apply (tr_willing _ _ _ _ _ _ _ Htr); [by eapply willing_quiet|]. intros d y Hd Hy Hn. cbn in Hy. destruct (decide (c = d)) as [<-|Hne].
    + rewrite lookup_insert_eq in Hy. injection Hy as <-. cbn. destruct Hd1 as (v1 & b1 & -> & _). done.
    + rewrite lookup_insert_ne in Hy by done. by rewrite (Hold d y Hd Hy) in Hn.
  - intros Hw Hv. destruct (tr_keeping _ _ _ _ _ _ _ Htr (keeping_quiet _ _ _ Hq2 Hw) c x2 Hx2 eq_refl) as (y & Hy & Hnew & _). rewrite Hx3 in Hy. injection Hy as <-.
    rewrite Hnew. by apply set_val_low.
Qed.

(** Only a control with an integer value gets a valid one. *)
Lemma validate_is_int x val v : validate_new_int x val = Some (0, v) -> type_is_int x = true.
Proof.
  unfold validate_new_int, type_is_int. intros H.
  destruct (Z.eqb_spec (ct_type x) V4L2_CTRL_TYPE_INTEGER64) as [Ht|]; [by rewrite Ht in H|].
  destruct (Z.eqb_spec (ct_type x) V4L2_CTRL_TYPE_STRING) as [Ht|]; [by rewrite Ht in H|done].
Qed.

(** Claim C22: setting a control is all or nothing.  [set_ctrl], the work of both
    VIDIOC_S_CTRL and [v4l2_ctrl_s_ctrl], ends with any value that validation takes
    or refuses without a fault, on any control of a well-formed cluster with a driver
    that answers what it likes but keeps the shape of strings.  A refused value is
    answered with the error of validation and nothing is changed; with any other error
    the current values, flags, queues and lists are as before; on success every control of the
    cluster has its new value, no control outside of it another one, and if the driver
    leaves new values as they are, the control (but for a button) has the value asked for, made
    valid.  Except where validation fails, the answer is the current value. *)
Theorem set_is_all_or_nothing (G : gset nat) (s : v4l2_state) (m : nat) (l : list (option nat)) (fh : option nat) (c : nat)
    (x : v4l2_ctrl) (val e v : Z) :
  polite_driver -> listening G s -> cluster_ok s m l -> Some c ∈ l -> vs_ctrl s !! c = Some x ->
  validate_new_int x val = Some (e, v) ->
  exists ret w s' x', set_ctrl stack fh c val s = Some ((ret, w), s') /\ listening G s' /\ cluster_ok s' m l /\
    vs_ctrl s' !! c = Some x' /\
    (e <> 0 -> ret = e /\ w = v /\ s' = s) /\ (e = 0 -> w = va_val (ct_cur x')) /\
    (ret <> 0 -> quiet s s') /\
    (ret = 0 -> all_settled l s' /\ others_quiet l s s' /\
      (keeping s m -> is_s32 v -> ct_type x <> V4L2_CTRL_TYPE_BUTTON -> va_val (ct_cur x') = v)).
Proof.
  intros Hpol Hl Hc Hin Hx Hval. destruct (Z.eqb_spec e 0) as [->|He].
  2: { exists e, v, s, x. split; [|split_and!; [done|done|done|done|intros ?; lia|intros _; reflexivity|intros ?; lia]].
       unfold set_ctrl. destruct (cl_ctrl _ _ _ Hc c Hin) as (x0 & Hx0 & _ & Hm). rewrite Hx in Hx0. injection Hx0 as <-.
       unfold master_of. unfold mthen at 1 2. rewrite Hm. cbn [the mdo]. unfold mthen at 1. rewrite (ct_get_run _ _ _ Hx).
       unfold mthen at 1. rewrite Hval. cbn [the]. unfold mdo. cbn. rewrite (proj2 (Z.eqb_neq e 0) He). reflexivity. }
  pose proof (validate_is_int _ _ _ Hval) as Hint.
  pose proof (set_ctrl_run G s m l fh c x val v Hpol Hl Hc Hin Hx Hint Hval) as Hrun.
  apply wp_run in Hrun as ([ret w] & s' & Hrun & s0 & x' & [T1 T2 T3 T4 T5 _ _] & Hq & Hx' & Hk & Hw & _ & Hnew). cbn [fst snd] in *.
  exists ret, w, s', x'. split; [done|]. split; [done|].
  split; [eapply cluster_ok_steps; [exact T2|]; eapply cluster_ok_steps; [by apply quiet_steps|done]|]. split; [done|]. split; [done|].
  split; [done|]. split; [intros Hne; etrans; [exact Hq|]; apply T4; by left|]. intros Hret. destruct (T5 Hret eq_refl) as [Hs Ho].
  split; [done|]. split.
  - intros d y Hd Hy. destruct (quiet_others l _ _ Hq d y Hd Hy) as (z & Hz & Hyz). destruct (Ho d z Hd Hz) as (u & Hu & Hzu).
    exists u. split; [done|]. by eapply drafts_trans.
  - intros Hkp Hv Hb. rewrite <-(Hnew Hkp Hv). apply int_settled; [|by apply (Hs c)|by rewrite (kp_type _ _ Hk)].
    unfold type_is_int. rewrite (kp_type _ _ Hk). exact Hint.
Qed.

Lemma land_ldiff f g k w : Z.ldiff f k = Z.ldiff g k -> Z.land k w = 0 -> Z.land f w = Z.land g w.
Proof.
  intros He Hz. apply Z.bits_inj'. intros n Hn. rewrite !Z.land_spec. apply (f_equal (fun z => Z.testbit z n)) in He, Hz.
  rewrite !Z.ldiff_spec in He. rewrite Z.land_spec, Z.bits_0 in Hz.
  destruct (Z.testbit f n), (Z.testbit g n), (Z.testbit k n), (Z.testbit w n); done.
Qed.

(** Claim C35: what [v4l2_ctrl_s_ctrl] sets, made valid, is what [v4l2_ctrl_g_ctrl]
    reads, for a control that can be read and is not volatile, if the driver accepts it. *)
Theorem set_then_get (G : gset nat) (s : v4l2_state) (m : nat) (l : list (option nat)) (c : nat) (x : v4l2_ctrl) (val v : Z) :
  polite_driver -> listening G s -> cluster_ok s m l -> Some c ∈ l -> vs_ctrl s !! c = Some x -> type_is_int x = true ->
  validate_new_int x val = Some (0, v) -> is_s32 v -> willing s m -> ct_type x <> V4L2_CTRL_TYPE_BUTTON ->
  Z.land (ct_flags x) V4L2_CTRL_FLAG_GRABBED = 0 -> Z.land (ct_flags x) V4L2_CTRL_FLAG_WRITE_ONLY = 0 -> ct_is_volatile x = false ->
  exists s1, v4l2_ctrl_s_ctrl stack c val s = Some (0, s1) /\ v4l2_ctrl_g_ctrl c s1 = Some (v, s1).
Proof.
  intros Hpol Hl Hc Hin Hx Hint Hval Hv Hw Hb Hgr Hwo Hvol.
  pose proof (set_ctrl_run G s m l None c x val v Hpol Hl Hc Hin Hx Hint Hval) as Hrun.
  apply wp_run in Hrun as ([ret w] & s' & Hrun & s0 & x' & [T1 T2 T3 T4 T5 _ _] & Hq & Hx' & Hk & Hcur & Hwill & Hnew). cbn [fst snd] in *.
  rewrite (Hwill Hw) in * by (unfold truthy; by rewrite Hgr). specialize (Hnew (willing_keeping _ _ Hw) Hv).
  exists s'. split; [unfold v4l2_ctrl_s_ctrl, mthen; by rewrite Hrun|].
  assert (Hc' : cluster_ok s' m l) by (eapply cluster_ok_steps; [exact T2|]; eapply cluster_ok_steps; [by apply quiet_steps|done]).
  destruct (cl_ctrl _ _ _ Hc' c Hin) as (y & Hy & _ & Hm). unfold v4l2_ctrl_g_ctrl, get_ctrl, master_of. unfold mthen at 1 2 3. rewrite Hm. cbn [the mdo].
  unfold mthen at 1. rewrite (ct_get_run _ _ _ Hx'). rewrite (land_ldiff _ _ _ V4L2_CTRL_FLAG_WRITE_ONLY (kp_flags _ _ Hk) eq_refl), Hwo. cbn [truthy Z.eqb negb].
  rewrite (kp_volatile _ _ Hk), Hvol. unfold mthen, mdo, cur_val. destruct (not_string _ Hint) as [Hns _].
  rewrite (kp_type _ _ Hk), (proj2 (Z.eqb_neq _ _) Hns). cbn. do 2 f_equal. destruct (T5 eq_refl eq_refl) as [Hset _].
  rewrite <-Hnew. apply int_settled; [|by apply (Hset c)|by rewrite (kp_type _ _ Hk)].
  unfold type_is_int. rewrite (kp_type _ _ Hk). exact Hint.
Qed.
End env.
