(* ===== verification/V4l2CtrlDemo.v ===== *)
(** Controls at work: concrete inputs for the theorems, and what modelling the
    control framework showed. *)

From Stdlib Require Import String Sorting.Sorted.
From stdpp Require Import gmap strings sorting.
From S2P Require Import Prelude StateM V4l2Types V4l2CtrlTables V4l2Event V4l2EventSpec V4l2Steps V4l2CtrlNew V4l2Ctrl V4l2CtrlIoctl V4l2Handles V4l2CtrlValid V4l2CtrlOk V4l2CtrlAdd V4l2CtrlSet V4l2CtrlAtomic.

(** ** A device with two handlers and a driver that agrees to everything *)

#[local] Definition quiet_env : V4l2Env := {| v4l2_kzalloc_fails := fun _ => false; ktime_get_ts := Z.of_nat |}.
#[local] Existing Instance quiet_env.

Definition keep_values (view : list (option v4l2_ctrl)) : list ctrl_value :=
  map (fun o => match o with Some x => ct_new x | None => mk_value 0 [] end) view.

(** The user has "hello" at address 1, and nothing anywhere else. *)
Definition hello : list Z := [104; 101; 108; 108; 111].
#[local] Definition kind_driver : CtrlEnv := {|
  has_op := fun _ _ => true;
  run_op := fun _ _ _ view => (0, keep_values view);
  user_string := fun _ addr => if addr =? 1 then Some hello else None;
  string_from_user := fun _ addr size => if addr =? 1 then (false, take (Z.to_nat size) (hello ++ replicate (Z.to_nat size) 0)) else (true, []);
  string_to_user := fun _ _ _ => false |}.
#[local] Existing Instance kind_driver.

Definition no_stack : v4l2_event := zero_event.

Definition blank : v4l2_state :=
  mk_v4l2 ∅ [] ∅ ∅ ∅ [mk_hdl [] [] None None 0 0; mk_hdl [] [] None None 0 0] ∅ [] 0.

Definition answer {A} (m : v4l2M A) : option A := fst <$> m blank.

Definition query (id : Z) : queryctrl := mk_queryctrl id 0 ""%string 0 0 0 0 0.

(** Rounding: the steps of a control from 0 to 100 are 0, 10, ..., 100. *)
Definition by_ten : v4l2_ctrl :=
  mk_ctrl [] 0 None 1 false false false false false 0 None V4L2_CID_CONTRAST "Contrast"%string V4L2_CTRL_TYPE_INTEGER
    0 100 0 10 None 0 (mk_value 0 []) (mk_value 0 []).

Lemma by_ten_int : int_ctrl by_ten.
Proof. constructor; cbn; unfold is_s32; lia || done. Qed.

Lemma validate_rounds_to_nearest_witness :
  int_ctrl by_ten /\ is_s32 37 /\ is_s32 (37 + ct_step by_ten / 2) /\ validate_new_int by_ten 37 = Some (0, 40) /\
  exists v, validate_new_int by_ten 37 = Some (0, v) /\ legal_int by_ten v /\
    forall w, legal_int by_ten w -> Z.abs (v - 37) <= Z.abs (w - 37).
Proof.
  assert (H1 : is_s32 37) by (unfold is_s32; lia). assert (H2 : is_s32 (37 + ct_step by_ten / 2)) by (unfold is_s32; vm_compute; done).
  split; [exact by_ten_int|]. split; [exact H1|]. split; [exact H2|]. split; [vm_compute; reflexivity|].
  exact (validate_rounds_to_nearest by_ten 37 by_ten_int H1 H2).
Defined.

(** A handler with brightness, its class and a bucket. *)
Definition one_bucket : v4l2_state :=
  mk_v4l2 ∅ [] ∅
    {[1%nat := set_ct_id V4L2_CID_USER_CLASS by_ten; 2%nat := set_ct_id V4L2_CID_BRIGHTNESS by_ten]}
    {[3%nat := mk_ref 1 None; 4%nat := mk_ref 2 None]}
    [mk_hdl [1%nat; 2%nat] [3%nat; 4%nat] None (Some [[4%nat; 3%nat]]) 1 0] ∅ [] 5.

Definition two_ids : list Z := [V4L2_CID_USER_CLASS; V4L2_CID_BRIGHTNESS].

Lemma one_bucket_at : handler_at one_bucket 0 two_ids.
Proof.
  eexists. split; [reflexivity|]. constructor; cbn.
  - repeat constructor.
  - repeat constructor; done.
  - repeat constructor; done.
  - lia.
  - eexists. split; [reflexivity|]. split; [reflexivity|]. intros k chain Hk r. pose proof (mget_lt _ _ _ Hk) as Hb.
    assert (k = 0) as -> by (unfold zlen in Hb; cbn in Hb; lia). apply mget_Some in Hk as [_ Hk]. cbn in Hk. injection Hk as <-.
    rewrite !elem_of_cons, !elem_of_nil. split.
    + intros [->|[->|[]]]; (split; [tauto|]); eexists; (split; [reflexivity|apply Z.mod_1_r]).
    + intros [[->|[->|[]]] _]; tauto.
  - done.
Qed.

Lemma controls_are_enumerated_witness :
  handler_at one_bucket 0 two_ids /\
  exists s', enumerate 3 (Some 0%nat) (query 0) 0 one_bucket = Some (two_ids, s') /\ handler_at s' 0 two_ids /\ StronglySorted Z.lt two_ids.
Proof. split; [exact one_bucket_at|]. exact (controls_are_enumerated one_bucket 0 two_ids (query 0) one_bucket_at). Defined.

(** ** Setting and getting *)

Definition with_contrast : v4l2M (option nat) :=
  v4l2_ctrl_handler_init 0 1 ;; v4l2_ctrl_new_std 0 (Some 0%nat) V4L2_CID_CONTRAST 0 100 10 50.

Example set_rounds_and_get_agrees :
  answer (with_contrast ;; a <- v4l2_s_ctrl no_stack None (Some 0%nat) V4L2_CID_CONTRAST 37 ;;
    b <- v4l2_g_ctrl (Some 0%nat) V4L2_CID_CONTRAST 0 ;; mdo (a, b)) = Some ((0, 40), (0, 40)).
Proof. vm_compute. reflexivity. Qed.

Example query_describes_a_control :
  answer (with_contrast ;; v4l2_queryctrl (Some 0%nat) (query V4L2_CID_CONTRAST)) =
    Some (0, mk_queryctrl V4L2_CID_CONTRAST V4L2_CTRL_TYPE_INTEGER "Contrast"%string 0 100 10 50 V4L2_CTRL_FLAG_SLIDER).
Proof. vm_compute. reflexivity. Qed.

(** The menu of the mains frequency, of which a driver skips an item. *)
Definition mains : v4l2M (option nat) :=
  v4l2_ctrl_handler_init 0 1 ;; v4l2_ctrl_new_std_menu 0 (Some 0%nat) V4L2_CID_POWER_LINE_FREQUENCY 2 2 0.
Definition mains_state : v4l2_state := default blank (snd <$> mains blank).
Definition mains_found : v4l2_state :=
  default blank (snd <$> v4l2_ctrl_find (Some 0%nat) V4L2_CID_POWER_LINE_FREQUENCY mains_state).
Definition mains_ctrl : v4l2_ctrl := default by_ten (vs_ctrl mains_found !! 1%nat).
Definition mains_menu : list (option string) := default [] (v4l2_ctrl_get_menu V4L2_CID_POWER_LINE_FREQUENCY).

Lemma menu_items_agree_witness :
  let qm := mk_querymenu V4L2_CID_POWER_LINE_FREQUENCY 1 EmptyString 0 in
  v4l2_ctrl_get_menu V4L2_CID_POWER_LINE_FREQUENCY = Some mains_menu /\
  v4l2_ctrl_find (Some 0%nat) V4L2_CID_POWER_LINE_FREQUENCY mains_state = Some (Some 1%nat, mains_found) /\
  vs_ctrl mains_found !! 1%nat = Some mains_ctrl /\
  exists r ret qm', validate_new_int mains_ctrl 1 = Some (r, 1) /\ v4l2_querymenu (Some 0%nat) qm mains_state = Some ((ret, qm'), mains_found) /\
    (r = 0 <-> ret = 0) /\ (ret = 0 -> mains_menu.[1] = Some (Some (qm_name qm'))).
Proof.
  cbv zeta. assert (H1 : v4l2_ctrl_get_menu V4L2_CID_POWER_LINE_FREQUENCY = Some mains_menu) by (vm_compute; reflexivity).
  assert (H2 : v4l2_ctrl_find (Some 0%nat) V4L2_CID_POWER_LINE_FREQUENCY mains_state = Some (Some 1%nat, mains_found)) by (vm_compute; reflexivity).
  assert (H3 : vs_ctrl mains_found !! 1%nat = Some mains_ctrl) by (vm_compute; reflexivity).
  split; [exact H1|]. split; [exact H2|]. split; [exact H3|].
  apply (menu_items_agree mains_state mains_found (Some 0%nat) 1 mains_ctrl V4L2_CID_POWER_LINE_FREQUENCY 1 mains_menu);
    [exact H1|vm_compute; reflexivity|vm_compute; reflexivity|vm_compute; split; discriminate|vm_compute; reflexivity|
     vm_compute; split; [discriminate|reflexivity]|exact H2|exact H3|vm_compute; reflexivity].
Defined.

(** Contrast and hue in a cluster. *)
Definition two_in_cluster : v4l2M unit :=
  c <- with_contrast ;; d <- v4l2_ctrl_new_std 0 (Some 0%nat) V4L2_CID_HUE 0 100 10 50 ;;
  arrs <- gets vs_arr ;; modify (set_vs_arr (<[0%nat := [c; d]]> arrs)) ;; v4l2_ctrl_cluster 2 0.
Definition cluster_state : v4l2_state := default blank (snd <$> two_in_cluster blank).
Definition cluster_list : list (option nat) := [Some 1%nat; Some 5%nat].
Definition contrast : v4l2_ctrl := default by_ten (vs_ctrl cluster_state !! 1%nat).

Lemma kind_is_polite : polite_driver.
Proof.
  intros ops op n view i x v Hv [_ Hw] Hval. cbn in Hval. unfold keep_values in Hval. apply mget_Some in Hval as [Hi Hval].
  apply mget_Some in Hv as [_ Hv]. change (map ?f view) with (f <$> view) in Hval. rewrite list_lookup_fmap, Hv in Hval. cbn in Hval. by injection Hval as <-.
Qed.

Lemma kind_is_willing : willing_driver 0.
Proof.
  intros op n view. split; [done|]. intros i x v Hv Hval. cbn in Hval. unfold keep_values in Hval. apply mget_Some in Hval as [Hi Hval].
  apply mget_Some in Hv as [_ Hv]. change (map ?f view) with (f <$> view) in Hval. rewrite list_lookup_fmap, Hv in Hval. cbn in Hval. by injection Hval as <-.
Qed.

Lemma kind_is_keeping : keeping cluster_state 1.
Proof.
  apply willing_keeping. exists contrast. split; [vm_compute; reflexivity|]. intros ops Hops. vm_compute in Hops.
  injection Hops as <-. exact kind_is_willing.
Qed.

Lemma nobody_listens : listening ∅ cluster_state.
Proof.
  split; [by intros f Hf%elem_of_empty|]. intros c x p Hc Hp.
  assert (Hall : map_Forall (fun _ x => ct_ev_subs x = []) (vs_ctrl cluster_state)) by (apply (bool_decide_eq_true_1 _); vm_compute; reflexivity).
  rewrite (Hall c x Hc) in Hp. exact (False_ind _ (proj1 (elem_of_nil p) Hp)).
Qed.

Lemma cluster_state_ok : cluster_ok cluster_state 1 cluster_list.
Proof.
  assert (Hi : forall i o, cluster_list.[i] = Some o -> (i = 0 /\ o = Some 1%nat) \/ (i = 1 /\ o = Some 5%nat)).
  { intros i o Ho. pose proof (mget_lt _ _ _ Ho) as Hb. unfold zlen in Hb. cbn in Hb.
    assert (i = 0 \/ i = 1) as [->| ->] by lia; vm_compute in Ho; injection Ho as <-; tauto. }
  split.
  - exists contrast. split; [vm_compute; reflexivity|]. split; [vm_compute; reflexivity|]. by vm_compute.
  - intros i o [[-> ->]|[-> ->]]%Hi; vm_compute; reflexivity.
  - reflexivity.
  - intros c [Hc|[Hc|[]%elem_of_nil]%elem_of_cons]%elem_of_cons; injection Hc as ->; eexists;
      (split; [vm_compute; reflexivity|]); (split; [by split|vm_compute; reflexivity]).
Qed.

Lemma set_is_all_or_nothing_witness :
  polite_driver /\ listening ∅ cluster_state /\ cluster_ok cluster_state 1 cluster_list /\ keeping cluster_state 1 /\
  exists ret w s' x', set_ctrl no_stack None 1 37 cluster_state = Some ((ret, w), s') /\ listening ∅ s' /\ cluster_ok s' 1 cluster_list /\
    vs_ctrl s' !! 1%nat = Some x' /\
    (0 <> 0 -> ret = 0 /\ w = 40 /\ s' = cluster_state) /\ (0 = 0 -> w = va_val (ct_cur x')) /\
    (ret <> 0 -> quiet cluster_state s') /\
    (ret = 0 -> all_settled cluster_list s' /\ others_quiet cluster_list cluster_state s' /\
      (keeping cluster_state 1 -> is_s32 40 -> ct_type contrast <> V4L2_CTRL_TYPE_BUTTON -> va_val (ct_cur x') = 40)).
Proof.
  split; [exact kind_is_polite|]. split; [exact nobody_listens|]. split; [exact cluster_state_ok|]. split; [exact kind_is_keeping|].
  apply (set_is_all_or_nothing no_stack ∅ cluster_state 1 cluster_list None 1 contrast 37 0 40);
    [exact kind_is_polite|exact nobody_listens|exact cluster_state_ok|apply list_elem_of_here|vm_compute; reflexivity..].
Defined.

Lemma set_then_get_witness :
  willing cluster_state 1 /\
  exists s1, v4l2_ctrl_s_ctrl no_stack 1 37 cluster_state = Some (0, s1) /\ v4l2_ctrl_g_ctrl 1 s1 = Some (40, s1).
Proof.
  assert (Hw : willing cluster_state 1).
  { exists contrast. split; [vm_compute; reflexivity|]. intros ops Hops. vm_compute in Hops. injection Hops as <-. exact kind_is_willing. }
  split; [exact Hw|].
  apply (set_then_get no_stack ∅ cluster_state 1 cluster_list 1 contrast 37 40);
    [exact kind_is_polite|exact nobody_listens|exact cluster_state_ok|apply list_elem_of_here|vm_compute; reflexivity|vm_compute; reflexivity|
     vm_compute; reflexivity|vm_compute; split; [discriminate|reflexivity]|exact Hw|vm_compute; discriminate|vm_compute; reflexivity..].
Defined.

(** ** What the code does *)

(** A value near the largest is rounded up past it, wraps around and becomes the
    smallest. *)
Definition exposure_time : v4l2_ctrl := set_ct_maximum (2 ^ 31 - 1) (set_ct_step 1000 by_ten).

Theorem rounding_wraps :
  int_ctrl exposure_time /\ validate_new_int exposure_time (2 ^ 31 - 100) = Some (0, 0) /\
  legal_int exposure_time 2147483000.
Proof.
  split; [constructor; cbn; unfold is_s32; lia || done|]. split; [vm_compute; reflexivity|].
  split; [cbn; lia|]. exists 2147483. reflexivity.
Qed.

(** A second control with the id of another is made although its reference was
    freed, to which its cluster points: the next walk over the clusters uses it. *)
Theorem duplicate_control_dangles :
  let make := with_contrast ;; v4l2_ctrl_new_std 0 (Some 0%nat) V4L2_CID_CONTRAST 0 100 10 50 in
  (exists c, answer make = Some (Some c)) /\ answer (make ;; v4l2_ctrl_handler_setup (Some 0%nat)) = None.
Proof. split; [eexists|]; vm_compute; reflexivity. Qed.

Definition custom (id type min max step def : Z) (qmenu : option (list (option string))) : v4l2M (option nat) :=
  v4l2_ctrl_new_custom 0 (mk_config (Some 0%nat) id (Some "Custom"%string) type min max step def 0 0 qmenu false false).

Definition one (id size value : Z) : ext_controls := mk_exts 0 0 [mk_ext id size value].
Definition custom_id : Z := V4L2_CTRL_CLASS_USER + 0x1001.

(** A negative default of a 64-bit control sets the lower half only. *)
Theorem negative_default_is_huge :
  option_map (fun r => map xc_value64 (xs_controls (snd r)))
    (answer (v4l2_ctrl_handler_init 0 1 ;; custom custom_id V4L2_CTRL_TYPE_INTEGER64 (-10) 10 1 (-5) None ;;
      v4l2_g_ext_ctrls (Some 0%nat) (one custom_id 0 0))) = Some [2 ^ 32 - 5].
Proof. vm_compute. reflexivity. Qed.

(** A string control may have the step 0, and setting it divides by it. *)
Theorem string_step_zero_divides :
  let make := v4l2_ctrl_handler_init 0 1 ;; custom custom_id V4L2_CTRL_TYPE_STRING 0 8 0 0 None in
  (exists c, answer make = Some (Some c)) /\
  answer (make ;; v4l2_s_ext_ctrls no_stack None (Some 0%nat) (one custom_id 6 1)) = None.
Proof. split; [eexists|]; vm_compute; reflexivity. Qed.

(** The string of the user is read as if it were the kernel's: a bad address is a
    fault and not EFAULT. *)
Theorem user_string_is_trusted :
  let set := fun addr => v4l2_ctrl_handler_init 0 1 ;; custom custom_id V4L2_CTRL_TYPE_STRING 0 8 1 0 None ;;
    v4l2_s_ext_ctrls no_stack None (Some 0%nat) (one custom_id 6 addr) in
  option_map fst (answer (set 1)) = Some 0 /\ answer (set 2) = None.
Proof. split; vm_compute; reflexivity. Qed.

(** A menu may have holes, which VIDIOC_QUERYMENU reports as invalid items;
    setting one reads through its null pointer. *)
Theorem menu_holes_fault :
  let make := v4l2_ctrl_handler_init 0 1 ;;
    custom custom_id V4L2_CTRL_TYPE_MENU 0 2 0 0 (Some [Some "First"%string; None; Some "Third"%string; None]) in
  option_map fst (answer (make ;; v4l2_querymenu (Some 0%nat) (mk_querymenu custom_id 1 EmptyString 0))) = Some (- EINVAL) /\
  option_map fst (answer (make ;; v4l2_s_ctrl no_stack None (Some 0%nat) custom_id 2)) = Some 0 /\
  answer (make ;; v4l2_s_ctrl no_stack None (Some 0%nat) custom_id 1) = None.
Proof. repeat split; vm_compute; reflexivity. Qed.

(** An invalid value is found only after another control was set: VIDIOC_S_EXT_CTRLS
    returns ERANGE for the string, and the contrast has changed. *)
Theorem invalid_string_is_noticed_late :
  let make := with_contrast ;; custom custom_id V4L2_CTRL_TYPE_STRING 0 4 1 0 None in
  let both := mk_exts 0 0 [mk_ext V4L2_CID_CONTRAST 0 90; mk_ext custom_id 6 1] in
  option_map (fun r => (fst (fst r), xs_error_idx (snd (fst r)), snd (snd r)))
    (answer (make ;; a <- v4l2_s_ext_ctrls no_stack None (Some 0%nat) both ;;
      b <- v4l2_g_ctrl (Some 0%nat) V4L2_CID_CONTRAST 0 ;; mdo (a, b))) = Some (- ERANGE, 1, 90).
Proof. vm_compute. reflexivity. Qed.

(** A control of a cluster may be added to another handler without its master:
    extended calls on that handler then use a null reference. *)
Theorem cluster_without_master_faults :
  let make := two_in_cluster ;; v4l2_ctrl_handler_init 1 1 ;;
    d <- v4l2_ctrl_find (Some 0%nat) V4L2_CID_HUE ;; v4l2_ctrl_add_ctrl (Some 1%nat) d in
  (exists c, answer make = Some (Some c)) /\
  option_map fst (answer (make ;; v4l2_s_ctrl no_stack None (Some 1%nat) V4L2_CID_HUE 20)) = Some 0 /\
  answer (make ;; v4l2_s_ext_ctrls no_stack None (Some 1%nat) (one V4L2_CID_HUE 0 20)) = None.
Proof. split; [eexists|split]; vm_compute; reflexivity. Qed.

(** VIDIOC_G_EXT_CTRLS asks the driver for the value of any control once the
    driver has [g_volatile_ctrl], which VIDIOC_G_CTRL does for volatile ones only. *)
#[local] Definition one_volatile : CtrlEnv := {|
  has_op := fun _ _ => true;
  run_op := fun _ op _ view => (match op with g_volatile_ctrl => - EINVAL | _ => 0 end, keep_values view);
  user_string := fun _ _ => None; string_from_user := fun _ _ _ => (true, []); string_to_user := fun _ _ _ => true |}.

Theorem plain_control_is_read_as_volatile :
  answer (with_contrast ;; v4l2_g_ctrl (C := one_volatile) (Some 0%nat) V4L2_CID_CONTRAST 0) = Some (0, 50) /\
  option_map fst (answer (with_contrast ;; v4l2_g_ext_ctrls (C := one_volatile) (Some 0%nat) (one V4L2_CID_CONTRAST 0 0))) =
    Some (- EINVAL).
Proof. split; vm_compute; reflexivity. Qed.

(** 16 bits hold the number of buckets: the hint of 524280 controls makes it 0, by
    which every id is divided. *)
Theorem huge_hint_divides_by_zero :
  answer (v4l2_ctrl_handler_init 0 524280) = Some 0 /\
  answer (v4l2_ctrl_handler_init 0 524280 ;; v4l2_ctrl_new_std 0 None V4L2_CID_CONTRAST 0 100 10 50) = None.
Proof. split; vm_compute; reflexivity. Qed.

(** ** The tables of standard controls *)

(** Names that do not fit the 31 characters of [struct v4l2_queryctrl]. *)
Theorem names_are_cut :
  map fst (List.filter (fun c => Nat.ltb 31 (String.length (snd c))) ctrl_names) =
    [V4L2_CID_MIN_BUFFERS_FOR_CAPTURE; V4L2_CID_MIN_BUFFERS_FOR_OUTPUT; V4L2_CID_MPEG_VIDEO_MAX_REF_PIC;
      V4L2_CID_AUDIO_COMPRESSION_ENABLED].
Proof. vm_compute. reflexivity. Qed.
